(* ===== verification/_CoqProject ===== *)
-Q . S2P
Prelude.v
GoStrings.v
GoNet.v
GoPath.v
GoTime.v
GoErr.v
Telemetry.v
Health.v
Reconnect.v
Proxy.v
Socks5.v
EnvFile.v
SecretFile.v
Credential.v
ControlUrl.v
Config.v
ConfigMerge.v
ProfileStore.v
Transition.v
Iptables.v
Ufw.v
HostRunner.v
LinuxFirewall.v
FirewallConverge.v
XrdpPort.v
LinuxSteps.v
PosixAcl.v
WindowsAcl.v
StateDir.v
HostFs.v
Bootstrap.v
HostFile.v
Serve.v
GoUrl.v
Descriptor.v
StoreLock.v
Connect.v
YamlFile.v
Signals.v
RunBridge.v
HostServe.v
WindowsSteps.v
HostCli.v
EnvText.v
InitCli.v
InitConnect.v
EnvUpdate.v
Discover.v
Logging.v
PacScript.v
Browser.v
BrowserCli.v
HostInit.v
AuthCli.v
StatusCli.v
Commands.v
Pairing.v
