(* ===== verification/Prelude.v ===== *)
(** * ts-bridge: a verification library

    ts-bridge (src/) opens a tunnel from a local port, or a local SOCKS5
    listener, to a service on a tailnet, and prepares the host on the other
    side. This library models the parts that carry its logic and proves what
    they promise. This file is its prelude and its documentation.

    ** The program and how its parts interact

    [connect] merges a configuration (internal/config) from flags, environment
    (with a .env file, internal/config/envfile), YAML and defaults; the auth key
    may be the managed credential (internal/credential, internal/secretfile) of
    the selected profile (internal/profile), which is bound to one control plane
    (internal/controlurl). The proxy (internal/proxy) then accepts connections,
    claims a slot of the global counters (internal/telemetry), dials through the
    retrying dialer and copies bytes both ways; its state is served by the
    health endpoints (internal/health). On the other machine [host setup] and
    [host check] (internal/host) converge and read xrdp or Remote Desktop, its
    port and the firewall through a command runner, from settings resolved out of
    a host file, the environment and the flags; they print a descriptor
    (internal/profile/descriptor.go) that [import] turns into a profile on the
    client. [host serve] (internal/serve) publishes the declared services on a
    persistent node that keeps its key in a directory whose ancestors are checked,
    and answers [host check]'s probe on its health address. Either side may reach
    the control plane through an SSH child (internal/bootstrapssh). Callers read a
    run's READY and ERROR lines and its exit status (cmd/cli).

    Around these: [init] and [host init] write the files that [connect] and [host
    setup] read; [discover] asks a control plane for its devices and saves a
    choice in .env or a profile; [auth] manages the stored keys; [browser] runs the
    bridge with a proxy script and a browser (internal/browser); [status] reads the
    health endpoints; every run logs to rotating files (internal/logging).

    ** Files

    Go's library, as far as the program uses it: GoStrings (strings, strconv,
    slices, fmt's quoting), GoNet (addresses and ports), GoPath (slash paths),
    GoTime (ParseDuration), GoErr (errors and wrapping). Each states its limits.

    - Telemetry: metrics.go. The counters are a record; a claim is a step
      relation over any number of goroutines, one atomic operation a step.
    - Health: health.go. A store and a load are two atomic steps each.
    - Reconnect: reconnect.go. The loop over attempts, the backoff in 64 bits.
    - Proxy: proxy.go. One direction's copy, how it ends, the pair, one
      connection, the accept loop.
    - Socks5: socks5.go. The client's bytes, the allow-list, the replies.
    - EnvFile: envfile.go. Lines to variables, and setting them.
    - SecretFile: secretfile.go. Atomic replacement, a step at a time.
    - Credential: credential/store.go, over SecretFile.
    - ControlUrl: controlurl.go and SameControlURL, over the class [UrlPackage]
      that stands for net/url.
    - Config: config.go, statedir.go, health.go. Defaults and derivations; what
      the machine answers is a record.
    - ConfigMerge: merge.go. The layers, every check in order, automatic mode.
    - ProfileStore, Transition: store.go, transaction.go, credential_share.go,
      credential_transition.go. A state and error monad over the two stores,
      in which every read and write may fail.
    - HostRunner: step.go's Runner as an effect signature; a step is a tree of
      calls, a host a handler of them.
    - Iptables, Ufw: the text of the rules. LinuxFirewall: the firewall step as
      a program over the runner. FirewallConverge: running it on a host.
    - XrdpPort: xrdp_port.go. LinuxSteps: linux_steps.go's setup and check over
      all the steps.
    - PosixAcl, StateDir: posixacl.go, statedir_acl_linux.go, statedir.go,
      statedir_unix.go. WindowsAcl: statedir_windows.go, permissions_windows.go,
      over Windows paths and a reference of what an access list grants. HostFs:
      the commands' environment and the file operations of step.go,
      statedir_unix.go and transaction.go.
    - Bootstrap: bootstrapssh. The endpoint's grammar, the child's arguments and
      environment, waiting for its listener, and the control proxy.
    - HostFile: file.go, mesh.go, config.go, controlplane.go of internal/host.
      Every check of a file, and the settings resolved from it.
    - Serve: internal/serve. Publishing, the readiness fold, the control session's
      watch, the supervisor as a step function, the node's settings.
    - GoUrl: the query encoding. Descriptor: descriptor.go over [UrlPackage].
    - StoreLock: lock.go, lock_unix.go. The wait under any clock.
    - Connect: connect.go, profile_credentials.go. How a configuration and a key
      are put together before a run.
    - Signals: signal.go, exit.go, args.go. The lines and the exit status.
    - RunBridge: run.go. A run is the list of what it does ([run_op]), its node,
      sockets, child and cancellation a record; a protocol of what is held
      ([take]) accepts or rejects a list; the shutdown goroutine is what it does
      once it was started ([handleShutdown]), and its race with MarkReady a step
      relation.
    - HostServe: host_serve.go, as RunBridge, over Serve, HostFile and Bootstrap.
    - WindowsSteps: windows_steps.go over the runner, PowerShell as text.
    - HostCli: host.go, host_check_published.go, import.go: the commands over the
      steps of each platform, what they print, their exit status.
    - YamlFile: yaml.go, LoadYAMLConfig, over the decoder's answer.
    - EnvText: how the lines of a .env file that is written read back. InitCli:
      init.go, the typed input a string, each prompt a function of what is left of
      it. InitConnect: the composition with ConfigMerge. EnvUpdate:
      discover/env.go. Discover: internal/discover and discover.go.
    - Logging: logging.go, the directory a map from names to texts or archives; a
      write that fails may leave a part of its bytes.
    - PacScript: no code of its own; a reader of the JavaScript of the proxy script.
      Browser: internal/browser, the script it writes evaluated with that reader.
      BrowserCli: browser.go, browser_run.go over ConfigMerge, Connect and
      RunBridge; starting the browser is an operation of the run.
    - HostInit: host_init.go over HostFile and SecretFile's directories. AuthCli:
      auth.go over Transition's monad. StatusCli: status.go over Health.
    - Commands: root.go, version.go, main.go and the constructors of the commands:
      the flags each declares, what each reads of them, the process's end.
    - Pairing: no code of its own; host setup, import, auth set and connect, each
      in the stores the one before left; and the stores, a connection over them
      and its run.

    ** What the theorems show

    - Credentials: no sequence of store operations, wherever each fails, lets
      profiles of two control planes share a managed credential
      ([Transition.credentials_never_cross_control_planes], by rule induction on
      reachable stores); binding and removal are transitions that complete or
      put back what was there; a secret file is always the old or the new one;
      stored keys are valid and never an API token. Down to the network: from any
      reachable store, a run started with a managed key brings its node up only
      against the control plane of every profile that references the credential
      ([Pairing.managed_key_stays_home], over Connect and RunBridge).
    - Data path: claims never exceed the limit under any interleaving, retry
      only because another goroutine progressed, and refine a specification in
      which a slot is taken or refused in one step, by a forward simulation
      ([Telemetry.claims_linearize]); the accept loop accounts for every
      connection; counters agree with the bytes delivered; a SOCKS5 client
      reaches only destinations of configured routes; sessions round trip; the dialer makes the attempts and waits it promises, with bounds
      under 64-bit overflow.
    - Configuration: a merged configuration is valid, and every field of it, the
      routes, the tunnel and the derived names included, is given by a reference
      that names the first layer giving each value; state
      directories are absolute or confined, host names are DNS labels, the
      health listener is on loopback.
    - Host: setup runs no command but its own, converges, and agrees with check
      on every host that reading does not change; a rewritten xrdp.ini reads as
      rewritten; the walk over a key's ancestors is sound against a reference of
      the kernel's path resolution.

    - Runs: whatever fails and whenever it is cancelled, a run of the bridge or of
      [host serve] takes and gives back its child, node, listener and health server
      in order (the last two, in the bridge, by the shutdown goroutine that the end
      of the run cancels), says READY at most once and only for what is bound, and
      reports every failure with its reason; readiness refines a specification over the reports; the supervisor
      reports each outage once; serve listens on nothing but its plan's ports, and
      only on a tagged node.
    - Commands: a host file's settings are well formed (typed) whatever the layers
      say; the exit status of setup and check tells what happened to the host; a
      Linux host that check accepts needs no setup; check's probe agrees with serve;
      the descriptor a host prints imports to the address and control plane it is
      for, and a connection made with that profile and a key stored by auth set
      goes there with that key ([Pairing.paired_client_connects]); every command
      reads only flags it declares, with their types (GetInt and GetInt64 are two),
      and a flag left out has no say ([Commands]); main prints an error once and ends with its status; the
      key and the profile of a connection come from the layers the help names; waiting for the store lock ends.
    - Set-up: init ends whatever is typed, asks before it replaces a file, and what
      it writes is what the flags or the lines typed ask for ([InitCli.asked], a
      relation on the text typed with one solution), reads back and is accepted by
      connect; a host file that host init writes loads without a warning and
      resolves to what was asked for ([HostInit.host_asked]); an update of .env
      keeps its TS_ variables; discover calls only the control plane that is named,
      with the key of the key file, the flag or that plane's own variable; a YAML file with an auth key
      stops a connection; auth's lines say what became of a credential.
    - Browser: what the script says of a page agrees with the routes of the front
      end, the browser is started once, after READY and confined to them, and the
      script is up for the run and no longer.
    - Logs and status: writes land in their day's file in order, a clean-up keeps
      the newest within its limits, the sizes shown are right to a tenth.
    - Access: a state directory accepted on Windows gives no right to an account
      that is not trusted, directly or through inheritance, and no link leads to
      it; a new one has mode 0700 under any umask; the commands of the host run
      in English; a POSIX access list that is there is never taken for none.
    - SSH: no part of an endpoint reads as an option, the control proxy reaches only
      the control plane's host, and an error about a descriptor shows no secret.

    Theorems that show a defect or a stale comment: replacing a legacy firewall
    rule can close the port ([FirewallConverge]), a doubled backoff can wrap
    below its base ([Reconnect]), [Store] is not atomic and a zero status is not
    ready ([Health]), the .env file wins over the environment ([EnvFile]),
    import stores what set refuses ([Transition]), the environment's timeouts
    are not checked ([ConfigMerge]), the port flag of setup is not either
    ([HostFile.port_flag_unchecked]), a YAML listener refuses a profile's target
    ([Connect.yaml_socks5_refuses_profile_target]), serve publishes what no file
    declares ([HostServe.serve_publishes_undeclared]), a Windows check covers three
    of setup's steps ([WindowsSteps.windows_check_is_partial]), the banner's row is
    wider than its border, routes that differ in case depend on map order, and a
    run cancelled at the wrong moment ends as ready ([RunBridge]); a second run
    on a day loses the first one's log ([Logging.second_run_replaces_archive]); a
    host named after a row's number cannot be chosen ([Discover]); the browser
    command does not check the health listener ([BrowserCli]) and refuses a page
    whose route has a padded port ([Browser.padded_port_goes_direct]); a YAML key in
    the wrong case is lost in silence ([YamlFile]); a zero interval panics and the
    status table is ragged ([StatusCli]).

    ** Recursion, fuel and bounds

    Loops over data are structural. [dial_loop] has one unit per attempt it may
    make, [try_ports] one per port of the range (its completeness is proved),
    [walk] one per link of the code's own budget of 40. [TryClaimConnection]
    takes fuel because the code's loop has no bound: alone it needs one round,
    and in company every retry is charged to another goroutine's change.
    [lockLoop] has the attempts the wait leaves room for and one more, which is
    proved enough; [cleanupLoop] the code's own five; [normalizeLoop] one per
    argument; [choiceLoop] and [confirmLoop] one per byte of the input and one
    more, of which each round takes a line ([InitCli.init_terminates]);
    [exchange_sort] one per entry; [reparseLoop] one per byte of the path and one
    more, proved enough below a drive or a share. [HostRunner]'s programs are well-founded trees, so they end.
    [ipv6_groups] and [itoa_go] have as much fuel as the input has bytes or
    bits. Integers are [Z]; where the code's width matters the result is wrapped
    ([wrap64], [fnv_step]).

    ** What is not modelled

    - Letter case and white space are those of ASCII; paths are those of a Unix
      build, where a function takes the platform as an argument too, except in
      WindowsAcl; map iteration order shows only in which error a bad route reports.
    - net/url is a class with the laws used, instantiated for the witnesses; the
      iptables of a host is the class [IptablesHost], instantiated too; what the
      two APIs answer discover is a record.
    - The fraction of a duration is exact where Go multiplies floats; the text
      of JSON documents and of the profile store is the value it encodes, as is
      that of YAML files except those init writes; the profile operations find the
      store lock taken, free or failing ([StoreLock] models the wait);
      io.CopyBuffer goes through its buffer.
    - Log lines, keep-alive and socket options, HTTP servers and clients, process
      control, gzip, the Windows security API and tsnet itself are the environment
      of a run.
    - Cobra's parsing and dispatch are an argument of [Commands.main], and what it
      answers for a flag is a record ([flag_values]).
    - Left out: the help texts; printed tables and summaries other than the status
      one; what is logged; the Windows forms of the file lock and
      of the child's containment; macOS steps, of which the program has none. *)
From stdpp Require Export base tactics strings gmap list.
From Stdlib Require Export ZArith Lia.

#[global] Arguments String.append !_ _ : simpl nomatch.
#[export] Set Warnings "-clear-no-such-hyp".

(** * Fallible operations

    Go functions that return [(T, error)] are modelled by [result E T]; the
    error type [E] is chosen per component, one constructor per error site. *)

Inductive result (E A : Type) : Type :=
  | Ok (a : A)
  | Err (e : E).
Arguments Ok {E A} a.
Arguments Err {E A} e.

#[export] Instance result_ret {E} : MRet (result E) := fun A a => Ok a.
#[export] Instance result_bind {E} : MBind (result E) :=
  fun A B f r => match r with Ok a => f a | Err e => Err e end.
#[export] Instance result_fmap {E} : FMap (result E) :=
  fun A B f r => match r with Ok a => Ok (f a) | Err e => Err e end.

Definition is_ok {E A} (r : result E A) : bool :=
  match r with Ok _ => true | Err _ => false end.

(** Go's [if err != nil { return wrap(err) }]. *)
Definition map_err {E F A} (f : E -> F) (r : result E A) : result F A :=
  match r with Ok a => Ok a | Err e => Err (f e) end.

(** An early return: [guard_err b e] stops with [e] when [b] holds. *)
Definition fail_if {E} (b : bool) (e : E) : result E unit :=
  if b then Err e else Ok tt.

Lemma bind_Ok {E A B} (f : A -> result E B) (r : result E A) (b : B) :
  (r ≫= f) = Ok b <-> exists a, r = Ok a /\ f a = Ok b.
Proof. destruct r as [a|e]; cbn; split; [eauto|by intros (? & [= ->] & ?)|done|naive_solver]. Qed.

(** A check before the rest: Go's [if err := f(); err != nil { return err }]. *)
Lemma check_Ok {E A} (r : result E unit) (k : result E A) (a : A) :
  (_ ← r; k) = Ok a <-> r = Ok tt /\ k = Ok a.
Proof. destruct r as [[]|e]; cbn; split; [done|by intros [_ ?]|done|by intros [? _]]. Qed.

Lemma bind_Err {E A B} (f : A -> result E B) (r : result E A) (e : E) :
  (r ≫= f) = Err e <-> r = Err e \/ exists a, r = Ok a /\ f a = Err e.
Proof. destruct r as [a|e']; cbn; split; naive_solver. Qed.

Lemma map_err_Ok {E F A} (f : E -> F) (r : result E A) (a : A) :
  map_err f r = Ok a <-> r = Ok a.
Proof. destruct r; cbn; naive_solver. Qed.

Lemma fail_if_Ok {E} (b : bool) (e : E) (u : unit) :
  fail_if b e = Ok u <-> b = false.
Proof. destruct u, b; cbn; naive_solver. Qed.

(** Open every successful bind of a hypothesis into its steps. *)
Ltac inv_ok :=
  repeat match goal with
  | H : (_ ≫= _) = Ok _ |- _ => apply bind_Ok in H as (? & ? & H)
  | H : map_err _ _ = Ok _ |- _ => apply map_err_Ok in H
  | H : fail_if _ _ = Ok _ |- _ => apply fail_if_Ok in H
  | H : Ok _ = Ok _ |- _ => injection H as H
  | H : Err _ = Ok _ |- _ => discriminate H
  | H : mret _ = Ok _ |- _ => injection H as H
  end.

(** * Executions of a step relation *)

Section Sequences.
Context {S : Type} (step : S -> S -> Prop).

(** States reachable from [s0]; rule induction on it is how every invariant
    of a step relation is proved. *)
Inductive reachable (s0 : S) : S -> Prop :=
  | reach_init : reachable s0 s0
  | reach_step s s' : reachable s0 s -> step s s' -> reachable s0 s'.

Lemma invariant_reachable (I : S -> Prop) s0 s :
  I s0 -> (forall a b, I a -> step a b -> I b) -> reachable s0 s -> I s.
Proof. intros H0 Hstep. induction 1; eauto. Qed.
End Sequences.

#[export] Hint Constructors reachable : core.

(** A step of the concrete system is a step of the abstract one or leaves its
    abstraction as it is; then so does every run. *)
Lemma simulation_reachable {S A} (step : S -> S -> Prop) (astep : A -> A -> Prop) (abs : S -> A) (I : S -> Prop) s0 s :
  I s0 -> (forall a b, I a -> step a b -> I b /\ (abs b = abs a \/ astep (abs a) (abs b))) ->
  reachable step s0 s -> I s /\ reachable astep (abs s0) (abs s).
Proof.
  intros H0 Hsim Hr. induction Hr as [|s s' _ [HI IH] Hs]; [done|].
  destruct (Hsim _ _ HI Hs) as [HI' [->|Ha]]; eauto.
Qed.

(** * Operations that follow a protocol: each is allowed in the state the ones
    before it led to. *)

Section Protocols.
Context {S O : Type} (next : S -> O -> option S).

Fixpoint conforms (s : S) (ops : list O) : option S :=
  match ops with
  | [] => Some s
  | op :: rest => match next s op with Some s' => conforms s' rest | None => None end
  end.

Lemma conforms_app s a b : conforms s (a ++ b) = conforms s a ≫= (fun s' => conforms s' b).
Proof. revert s. induction a as [|op a IH]; intros s; [done|]. cbn. destruct (next s op); [apply IH|done]. Qed.

(** Operations the protocol does not speak of. *)
Lemma conforms_neutral (neutral : O -> bool) :
  (forall s op, neutral op = true -> next s op = Some s) ->
  forall s ops, forallb neutral ops = true -> conforms s ops = Some s.
Proof.
  intros Hn s ops. induction ops as [|op ops IH]; [done|]. cbn. intros [Ho Hr]%andb_true_iff.
  rewrite Hn by done. by apply IH.
Qed.
End Protocols.

(** * Machine integers: Go's [int] and [int64] are 64-bit two's complement. *)

Definition min_int64 : Z := -(2 ^ 63).
Definition max_int64 : Z := 2 ^ 63 - 1.

(** The 64-bit value a wrapped result denotes. *)
Definition wrap64 (z : Z) : Z :=
  (z + 2 ^ 63) mod 2 ^ 64 - 2 ^ 63.

Lemma wrap64_id (z : Z) : (min_int64 <= z <= max_int64)%Z -> wrap64 z = z.
Proof. unfold wrap64, min_int64, max_int64. intros H. rewrite Z.mod_small; lia. Qed.

Lemma wrap64_range (z : Z) : (min_int64 <= wrap64 z <= max_int64)%Z.
Proof.
  unfold wrap64, min_int64, max_int64.
  pose proof (Z.mod_pos_bound (z + 2 ^ 63) (2 ^ 64) ltac:(lia)). lia.
Qed.

Lemma wrap64_add_l (a b : Z) : wrap64 (wrap64 a + b) = wrap64 (a + b).
Proof.
  unfold wrap64. f_equal.
  replace ((a + 2 ^ 63) mod 2 ^ 64 - 2 ^ 63 + b + 2 ^ 63)%Z with ((a + 2 ^ 63) mod 2 ^ 64 + b)%Z by lia.
  rewrite Z.add_mod_idemp_l by lia. f_equal. lia.
Qed.

(** * Lists *)

(** [slices.ContainsFunc] is [existsb]; [slices.DeleteFunc] keeps the rest. *)
Definition delete_func {A} (p : A -> bool) (l : list A) : list A :=
  List.filter (fun x => negb (p x)) l.

Lemma delete_func_app {A} (p : A -> bool) (l k : list A) :
  delete_func p (l ++ k) = delete_func p l ++ delete_func p k.
Proof. apply List.filter_app. Qed.

Lemma elem_of_delete_func {A} (p : A -> bool) (l : list A) x :
  x ∈ delete_func p l <-> x ∈ l /\ p x = false.
Proof.
  unfold delete_func. rewrite !list_elem_of_In, List.filter_In, negb_true_iff. done.
Qed.
