(* ===== verification/GoStrings.v ===== *)
(** Go strings: the parts of packages [strings], [strconv], [slices] and [fmt]
    the program uses, on byte strings.

    A Go string is a sequence of bytes, here Rocq's [string]. Case and space
    classes are those of ASCII: that is exact on ASCII input, and outside it a
    non-ASCII byte is neither a letter with a case nor a space. *)
From S2P Require Import Prelude.
From Stdlib Require Import Ascii.

Open Scope bool_scope.

(** * Bytes *)

Definition byte_val (c : ascii) : Z := Z.of_N (N_of_ascii c).
Definition eqc (a b : ascii) : bool := bool_decide (a = b).
Definition nl : ascii := "010"%char.
Definition newline : string := String nl "".
Definition dquote : ascii := "034"%char.
Definition bslash : ascii := "092"%char.

Definition between (lo c hi : ascii) : bool :=
  (byte_val lo <=? byte_val c)%Z && (byte_val c <=? byte_val hi)%Z.
Definition is_digit (c : ascii) : bool := between "0" c "9".
Definition is_lower (c : ascii) : bool := between "a" c "z".
Definition is_upper (c : ascii) : bool := between "A" c "Z".
Definition is_letter (c : ascii) : bool := is_lower c || is_upper c.
(** The bytes that end a line. *)
Definition line_break (c : ascii) : bool := eqc c "010" || eqc c "013".
(** [unicode.IsSpace] on ASCII: tab, newline, vertical tab, form feed,
    carriage return and space. *)
Definition is_space (c : ascii) : bool := between "009" c "013" || eqc c " ".
Definition lower_byte (c : ascii) : ascii :=
  if is_upper c then ascii_of_N (N_of_ascii c + 32) else c.

Definition upper_byte (c : ascii) : ascii :=
  if is_lower c then ascii_of_N (N_of_ascii c - 32) else c.

(** * Structure *)

Definition len (s : string) : nat := String.length s.

Fixpoint str_all (p : ascii -> bool) (s : string) : bool :=
  match s with "" => true | String c r => p c && str_all p r end.
Fixpoint str_any (p : ascii -> bool) (s : string) : bool :=
  match s with "" => false | String c r => p c || str_any p r end.
Fixpoint str_map (f : ascii -> ascii) (s : string) : string :=
  match s with "" => "" | String c r => String (f c) (str_map f r) end.
Fixpoint str_take (n : nat) (s : string) : string :=
  match n, s with S n, String c r => String c (str_take n r) | _, _ => "" end.
Fixpoint str_drop (n : nat) (s : string) : string :=
  match n, s with S n, String _ r => str_drop n r | _, _ => s end.
Definition str_rev (s : string) : string := String.rev s.
Arguments str_rev : simpl never.

(** Index of the first and of the last byte [c]. *)
Fixpoint index_byte (c : ascii) (s : string) : option nat :=
  match s with
  | "" => None
  | String a r => if eqc a c then Some 0%nat else S <$> index_byte c r
  end.
Fixpoint last_index_byte (c : ascii) (s : string) : option nat :=
  match s with
  | "" => None
  | String a r =>
      match last_index_byte c r with
      | Some i => Some (S i)
      | None => if eqc a c then Some 0%nat else None
      end
  end.

(** [strings.Count] of a one-byte separator. *)
Fixpoint count_byte (c : ascii) (s : string) : nat :=
  match s with "" => 0 | String a r => (if eqc a c then 1 else 0) + count_byte c r end.

Fixpoint HasPrefix (s p : string) : bool :=
  match p, s with
  | "", _ => true
  | String a p', String b s' => eqc a b && HasPrefix s' p'
  | _, _ => false
  end.
Definition HasSuffix (s p : string) : bool := HasPrefix (str_rev s) (str_rev p).
Fixpoint Contains (s sub : string) : bool :=
  HasPrefix s sub || match s with "" => false | String _ r => Contains r sub end.
(** [strings.ReplaceAll] for an [old] that is not empty: [skip] bytes of the
    occurrence just replaced are still to be passed over. *)
Fixpoint replace_go (old new : string) (skip : nat) (s : string) : string :=
  match s, skip with
  | "", _ => ""
  | String _ r, S k => replace_go old new k r
  | String c r, O =>
      if HasPrefix s old then new +:+ replace_go old new (len old - 1) r else String c (replace_go old new 0 r)
  end.
Definition ReplaceAll (s old new : string) : string := replace_go old new 0 s.
Definition TrimPrefix (s p : string) : string :=
  if HasPrefix s p then str_drop (len p) s else s.
Definition TrimSuffix (s p : string) : string :=
  if HasSuffix s p then str_take (len s - len p) s else s.

(** [strings.Cut] around the first byte [sep]: before, after, found. *)
Fixpoint Cut (sep : ascii) (s : string) : string * string * bool :=
  match s with
  | "" => ("", "", false)
  | String a r =>
      if eqc a sep then ("", r, true)
      else let '(b, t, ok) := Cut sep r in (String a b, t, ok)
  end.

(** [strings.Split] on a one-byte separator: one more part than separators. *)
Fixpoint Split (sep : ascii) (s : string) : list string :=
  match s with
  | "" => [""]
  | String a r =>
      if eqc a sep then "" :: Split sep r
      else match Split sep r with
           | h :: t => String a h :: t
           | [] => [String a ""]
           end
  end.

Fixpoint Join (l : list string) (sep : string) : string :=
  match l with
  | [] => ""
  | [x] => x
  | x :: r => x +:+ sep +:+ Join r sep
  end.

(** [strings.Fields]: the maximal runs of non-space bytes. *)
Fixpoint fields_go (cur : string) (s : string) : list string :=
  match s with
  | "" => if bool_decide (cur = "") then [] else [str_rev cur]
  | String c r =>
      if is_space c
      then if bool_decide (cur = "") then fields_go "" r else str_rev cur :: fields_go "" r
      else fields_go (String c cur) r
  end.
Definition Fields (s : string) : list string := fields_go "" s.

(** Trimming a cutset from the left, the right, both ends. *)
Fixpoint trim_left (cut : ascii -> bool) (s : string) : string :=
  match s with
  | "" => ""
  | String c r => if cut c then trim_left cut r else s
  end.
Fixpoint trim_right (cut : ascii -> bool) (s : string) : string :=
  match s with
  | "" => ""
  | String c r =>
      match trim_right cut r with
      | "" => if cut c then "" else String c ""
      | r' => String c r'
      end
  end.
Definition trim (cut : ascii -> bool) (s : string) : string :=
  trim_right cut (trim_left cut s).
Definition TrimSpace (s : string) : string := trim is_space s.

Definition ToLower (s : string) : string := str_map lower_byte s.
Definition ToUpper (s : string) : string := str_map upper_byte s.
Definition EqualFold (a b : string) : bool := bool_decide (ToLower a = ToLower b).

(** [slices.Index] and [slices.Contains] on words. *)
Fixpoint word_index (w : string) (l : list string) : option nat :=
  match l with
  | [] => None
  | x :: r => if bool_decide (x = w) then Some 0%nat else S <$> word_index w r
  end.
Definition contains_word (l : list string) (w : string) : bool := bool_decide (w ∈ l).

(** * strconv *)

Definition digit_val (c : ascii) : Z := byte_val c - byte_val "0".
Fixpoint parse_digits (acc : Z) (s : string) : option Z :=
  match s with
  | "" => Some acc
  | String c r => if is_digit c then parse_digits (acc * 10 + digit_val c) r else None
  end.
(** [strconv.Atoi]: an optional sign, at least one digit, digits only, and a
    value that fits 64 bits; [None] is any error. *)
Definition Atoi (s : string) : option Z :=
  let '(neg, d) := match s with
                   | String "-" r => (true, r)
                   | String "+" r => (false, r)
                   | _ => (false, s)
                   end in
  if bool_decide (d = "") then None
  else v ← parse_digits 0 d;
       let z := if (neg : bool) then (- v)%Z else v in
       if (min_int64 <=? z)%Z && (z <=? max_int64)%Z then Some z else None.

Definition digit_char (n : N) : ascii := ascii_of_N (48 + n).
Fixpoint itoa_go (fuel : nat) (n : N) (acc : string) : string :=
  match fuel with
  | O => acc
  | S f =>
      let acc' := String (digit_char (n mod 10)) acc in
      if (n <? 10)%N then acc' else itoa_go f (n / 10) acc'
  end.
(** [strconv.Itoa] and the [%d] verb. *)
Definition Itoa (z : Z) : string :=
  let digits n := itoa_go (S (N.size_nat n)) n "" in
  if (z <? 0)%Z then "-" +:+ digits (Z.to_N (- z)) else digits (Z.to_N z).

(** [%06x]-style hexadecimal, padded on the left with zeros. *)
Definition hex_digit (n : N) : ascii :=
  if (n <? 10)%N then ascii_of_N (48 + n) else ascii_of_N (87 + n).
Fixpoint hex_fixed (width : nat) (n : N) : string :=
  match width with
  | O => ""
  | S w => hex_fixed w (n / 16) +:+ String (hex_digit (n mod 16)) ""
  end.

(** [%q] on a string of ASCII bytes. *)
Definition quote_byte (c : ascii) : string :=
  if eqc c dquote then String bslash (String dquote "")
  else if eqc c bslash then String bslash (String bslash "")
  else if eqc c nl then String bslash "n"
  else if eqc c "009" then String bslash "t"
  else if eqc c "013" then String bslash "r"
  else if eqc c "007" then String bslash "a"
  else if eqc c "008" then String bslash "b"
  else if eqc c "011" then String bslash "v"
  else if eqc c "012" then String bslash "f"
  else if (byte_val c <? 32)%Z || eqc c "127"
       then String bslash ("x" +:+ hex_fixed 2 (N_of_ascii c))
       else String c "".
Fixpoint quote_go (s : string) : string :=
  match s with "" => "" | String c r => quote_byte c +:+ quote_go r end.
Definition Quote (s : string) : string :=
  String dquote (quote_go s +:+ String dquote "").

(** [slices.Sorted] and [sort.Strings], by insertion: byte order. *)
Fixpoint insert_name (n : string) (l : list string) : list string :=
  match l with [] => [n] | x :: l' => if String.ltb n x then n :: x :: l' else x :: insert_name n l' end.
Definition sortNames (l : list string) : list string := fold_right insert_name [] l.
(** The names of a map's keys, sorted. *)
Definition sortedKeys {V} (m : gmap string V) : list string := sortNames (map fst (map_to_list m)).

(** * Facts *)

Create HintDb go discriminated.
#[export] Hint Constants Transparent : go.
Create Rewrite HintDb gostr.

Lemma eqc_true a b : eqc a b = true <-> a = b.
Proof. apply bool_decide_eq_true. Qed.
Lemma eqc_false a b : eqc a b = false <-> a <> b.
Proof. apply bool_decide_eq_false. Qed.
Lemma eqc_refl a : eqc a a = true.
Proof. by apply eqc_true. Qed.

(** [s] does not hold the byte [c]. *)
Definition no_byte (c : ascii) (s : string) : bool := str_all (fun a => negb (eqc a c)) s.

Lemma str_app_nil_r s : s +:+ "" = s.
Proof. induction s; cbn; congruence. Qed.
Lemma str_app_assoc a b c : (a +:+ b) +:+ c = a +:+ b +:+ c.
Proof. induction a; cbn; congruence. Qed.
Lemma len_app a b : len (a +:+ b) = (len a + len b)%nat.
Proof. unfold len. induction a; cbn; lia. Qed.
Lemma str_all_app p a b : str_all p (a +:+ b) = str_all p a && str_all p b.
Proof. induction a as [|c a IH]; cbn; [done|]. by rewrite IH, andb_assoc. Qed.
Lemma str_all_impl (p q : ascii -> bool) s :
  (forall c, p c = true -> q c = true) -> str_all p s = true -> str_all q s = true.
Proof.
  intros Hpq. induction s as [|c s IH]; cbn; [done|].
  rewrite !andb_true_iff. intros [??]. eauto.
Qed.
Lemma no_byte_app c a b : no_byte c (a +:+ b) = no_byte c a && no_byte c b.
Proof. apply str_all_app. Qed.
#[export] Hint Rewrite str_app_nil_r str_app_assoc len_app str_all_app no_byte_app eqc_refl : gostr.

(** ** Split and Join *)

Lemma Split_ne sep s : Split sep s <> [].
Proof. destruct s as [|c s]; cbn; [done|]. destruct (eqc c sep); [done|]. by destruct (Split sep s). Qed.

Lemma Join_cons x l sep : l <> [] -> Join (x :: l) sep = x +:+ sep +:+ Join l sep.
Proof. by destruct l. Qed.

Lemma Join_Split sep s : Join (Split sep s) (String sep "") = s.
Proof.
  induction s as [|c s IH]; [done|]. cbn. destruct (eqc c sep) eqn:E.
  - apply eqc_true in E as ->. rewrite Join_cons by apply Split_ne. cbn. by rewrite IH.
  - pose proof (Split_ne sep s). destruct (Split sep s) as [|h t]; [done|].
    destruct t as [|h' t]; cbn in *; by rewrite <- IH.
Qed.

Lemma no_byte_Join c l sep :
  no_byte c sep = true -> Forall (fun x => no_byte c x = true) l -> no_byte c (Join l sep) = true.
Proof.
  intros Hs. induction 1 as [|x l Hx Hl IH]; [done|]. destruct l as [|y l]; [done|].
  rewrite Join_cons by done. by rewrite !no_byte_app, Hx, Hs, IH.
Qed.

Lemma Split_no_byte sep s : no_byte sep s = true -> Split sep s = [s].
Proof.
  unfold no_byte. induction s as [|c s IH]; cbn; [done|].
  rewrite andb_true_iff, negb_true_iff. intros [-> H]. by rewrite IH.
Qed.

Lemma Split_app_sep sep a b :
  no_byte sep a = true -> Split sep (a +:+ String sep b) = a :: Split sep b.
Proof.
  unfold no_byte. induction a as [|c a IH]; cbn; [by rewrite eqc_refl|].
  rewrite andb_true_iff, negb_true_iff. intros [-> H]. by rewrite IH.
Qed.

Lemma Split_app sep a b : Split sep (a +:+ String sep b) = Split sep a ++ Split sep b.
Proof.
  induction a as [|c a IH]; cbn; [by rewrite eqc_refl|].
  rewrite IH. destruct (eqc c sep); [done|]. pose proof (Split_ne sep a). by destruct (Split sep a).
Qed.

Lemma Split_Join sep l :
  l <> [] -> Forall (fun x => no_byte sep x = true) l -> Split sep (Join l (String sep "")) = l.
Proof.
  induction l as [|x l IH]; [done|]. intros _ [Hx Hl]%Forall_cons.
  destruct l as [|y l]; [by apply Split_no_byte|].
  rewrite Join_cons by done. cbn [String.append]. rewrite Split_app_sep by done. by rewrite IH.
Qed.

Lemma Split_parts_no_byte sep s : Forall (fun x => no_byte sep x = true) (Split sep s).
Proof.
  induction s as [|c s IH]; cbn; [by repeat constructor|].
  destruct (eqc c sep) eqn:E; [by constructor|].
  destruct (Split sep s) as [|h t]; [by repeat constructor; cbn; rewrite E|].
  apply Forall_cons in IH as [Hh Ht]. constructor; [|done].
  unfold no_byte in *. cbn. by rewrite E.
Qed.

Lemma Cut_app sep a b :
  no_byte sep a = true -> Cut sep (a +:+ String sep b) = (a, b, true).
Proof.
  unfold no_byte. induction a as [|c a IH]; cbn; [by rewrite eqc_refl|].
  rewrite andb_true_iff, negb_true_iff. intros [-> H]. by rewrite IH.
Qed.

Lemma Cut_no_byte sep s : no_byte sep s = true -> Cut sep s = (s, "", false).
Proof.
  unfold no_byte. induction s as [|c s IH]; cbn; [done|].
  rewrite andb_true_iff, negb_true_iff. intros [-> H]. by rewrite IH.
Qed.

(** ** Trimming *)

Lemma trim_left_app cut a b :
  str_all cut a = true -> trim_left cut (a +:+ b) = trim_left cut b.
Proof. induction a as [|c a IH]; cbn; [done|]. rewrite andb_true_iff. intros [-> ?]. auto. Qed.

Lemma trim_right_id cut s c :
  cut c = false -> trim_right cut (s +:+ String c "") = s +:+ String c "".
Proof.
  intros Hc. induction s as [|a s IH]; cbn; [by rewrite Hc|].
  rewrite IH. by destruct s.
Qed.

Lemma trim_right_none cut s : str_any cut s = false -> trim_right cut s = s.
Proof.
  induction s as [|c s IH]; cbn; [done|]. rewrite orb_false_iff. intros [Hc Hs].
  rewrite IH by done. destruct s; [by rewrite Hc|done].
Qed.

Lemma trim_left_none cut s : str_any cut s = false -> trim_left cut s = s.
Proof. destruct s as [|c s]; cbn; [done|]. rewrite orb_false_iff. by intros [-> _]. Qed.

Lemma trim_none cut s : str_any cut s = false -> trim cut s = s.
Proof. intros H. unfold trim. by rewrite trim_left_none, trim_right_none. Qed.

Lemma trim_right_idem cut s : trim_right cut (trim_right cut s) = trim_right cut s.
Proof.
  induction s as [|c s IH]; cbn; [done|].
  destruct (trim_right cut s) as [|d r] eqn:E.
  - destruct (cut c) eqn:Hc; cbn; [done|by rewrite Hc].
  - cbn [trim_right] in *. by rewrite IH.
Qed.

Lemma trim_left_right_comm cut s :
  trim_left cut (trim_right cut s) = trim_right cut (trim_left cut s).
Proof.
  induction s as [|c s IH]; cbn; [done|].
  destruct (cut c) eqn:Hc.
  - rewrite <- IH. destruct (trim_right cut s) eqn:E; cbn; [done|]. by rewrite Hc.
  - cbn. destruct (trim_right cut s) as [|d r] eqn:E; cbn; rewrite Hc; cbn; by rewrite ?Hc.
Qed.

Lemma trim_left_idem cut s : trim_left cut (trim_left cut s) = trim_left cut s.
Proof.
  induction s as [|c s IH]; cbn; [done|]. destruct (cut c) eqn:Hc; [done|]. cbn. by rewrite Hc.
Qed.

Lemma trim_idem cut s : trim cut (trim cut s) = trim cut s.
Proof.
  unfold trim. rewrite trim_left_right_comm, trim_left_idem.
  apply trim_right_idem.
Qed.

(** The first byte of a trimmed string is not in the cutset, nor is the last. *)
Lemma trim_left_head cut s c r : trim_left cut s = String c r -> cut c = false.
Proof.
  induction s as [|a s IH]; cbn; [done|]. destruct (cut a) eqn:Ha; [done|]. by intros [= -> ->].
Qed.

Lemma trim_right_last cut s a c : trim_right cut s = a +:+ String c "" -> cut c = false.
Proof.
  revert a. induction s as [|d s IH]; intros a; cbn; [by destruct a|].
  destruct (trim_right cut s) as [|e r] eqn:E.
  - destruct (cut d) eqn:Hd; [by destruct a|].
    destruct a as [|b [|? a]]; cbn; [by intros [= ->]|done|done].
  - destruct a as [|b a]; cbn; [done|]. intros [= -> H]. eauto.
Qed.

Lemma str_all_trim_right p cut s : str_all p s = true -> str_all p (trim_right cut s) = true.
Proof.
  induction s as [|c s IH]; cbn; [done|]. rewrite andb_true_iff. intros [Hc Hs].
  specialize (IH Hs). destruct (trim_right cut s) as [|d r] eqn:E.
  - destruct (cut c); cbn; [done|]. by rewrite Hc.
  - cbn in *. by rewrite Hc.
Qed.
Lemma str_all_trim_left p cut s : str_all p s = true -> str_all p (trim_left cut s) = true.
Proof.
  induction s as [|c s IH]; cbn; [done|]. rewrite andb_true_iff. intros [Hc Hs].
  destruct (cut c); [auto|]. cbn. by rewrite Hc, Hs.
Qed.
Lemma str_all_trim p cut s : str_all p s = true -> str_all p (trim cut s) = true.
Proof. intros. unfold trim. auto using str_all_trim_right, str_all_trim_left. Qed.

Lemma len_trim_right cut s : (len (trim_right cut s) <= len s)%nat.
Proof.
  unfold len. induction s as [|c s IH]; cbn; [done|].
  destruct (trim_right cut s); [destruct (cut c); cbn; lia|cbn in *; lia].
Qed.
Lemma len_trim_left cut s : (len (trim_left cut s) <= len s)%nat.
Proof. unfold len. induction s as [|c s IH]; cbn; [done|]. destruct (cut c); cbn; lia. Qed.
Lemma len_trim cut s : (len (trim cut s) <= len s)%nat.
Proof. unfold trim. etrans; [apply len_trim_right|apply len_trim_left]. Qed.

(** ** Reversal, take and drop *)

Lemma str_rev_app_spec a b : String.rev_app a b = String.rev a +:+ b.
Proof.
  unfold String.rev. revert b. induction a as [|c a IH]; intros b; cbn; [done|].
  rewrite IH, (IH (String c "")), str_app_assoc. done.
Qed.
Lemma str_rev_cons c s : str_rev (String c s) = str_rev s +:+ String c "".
Proof. unfold str_rev. unfold String.rev at 1. cbn. apply str_rev_app_spec. Qed.
Lemma str_rev_app a b : str_rev (a +:+ b) = str_rev b +:+ str_rev a.
Proof.
  induction a as [|c a IH]; cbn [String.append]; [by rewrite str_app_nil_r|].
  by rewrite !str_rev_cons, IH, str_app_assoc.
Qed.
Lemma str_rev_involutive s : str_rev (str_rev s) = s.
Proof. induction s as [|c s IH]; [done|]. by rewrite str_rev_cons, str_rev_app, IH. Qed.

Lemma str_take_drop n s : str_take n s +:+ str_drop n s = s.
Proof. revert s. induction n as [|n IH]; intros [|c s]; cbn; [done..|]. by rewrite IH. Qed.
Lemma str_take_app a b : str_take (len a) (a +:+ b) = a.
Proof. unfold len. induction a as [|c a IH]; cbn; [done|]. by rewrite IH. Qed.
Lemma str_drop_app a b : str_drop (len a) (a +:+ b) = b.
Proof. unfold len. induction a as [|c a IH]; cbn; [done|]. by rewrite IH. Qed.
Lemma len_str_take n s : (len (str_take n s) <= n)%nat.
Proof. unfold len. revert s. induction n; intros [|c s]; cbn; [lia..|]. specialize (IHn s). lia. Qed.
Lemma str_all_take p n s : str_all p s = true -> str_all p (str_take n s) = true.
Proof.
  revert s. induction n as [|n IH]; intros [|c s] H; [done..|].
  cbn in *. apply andb_true_iff in H as [-> H]. by apply IH.
Qed.

Lemma str_any_take p n s : str_any p s = false -> str_any p (str_take n s) = false.
Proof.
  revert s. induction n as [|n IH]; intros [|c s] H; [done..|].
  cbn in *. apply orb_false_iff in H as [-> H]. by apply IH.
Qed.
Lemma str_any_drop p n s : str_any p s = false -> str_any p (str_drop n s) = false.
Proof.
  revert s. induction n as [|n IH]; intros [|c s] H; [done..|].
  cbn in *. apply orb_false_iff in H as [_ H]. by apply IH.
Qed.
Lemma str_any_app p a b : str_any p (a +:+ b) = str_any p a || str_any p b.
Proof. induction a as [|c a IH]; cbn; [done|]. by rewrite IH, orb_assoc. Qed.
#[export] Hint Resolve str_any_take str_any_drop : go.

Lemma HasPrefix_app s p : HasPrefix (p +:+ s) p = true.
Proof. induction p as [|c p IH]; cbn; [by destruct s|]. by rewrite eqc_refl, IH. Qed.
Lemma HasPrefix_spec s p : HasPrefix s p = true <-> exists r, s = p +:+ r.
Proof.
  split; [|intros [r ->]; apply HasPrefix_app]. revert s.
  induction p as [|c p IH]; intros s; cbn; [by eexists|].
  destruct s as [|d s]; cbn; [done|]. rewrite andb_true_iff, eqc_true.
  intros [-> H]. destruct (IH _ H) as [r ->]. by exists r.
Qed.
Lemma HasSuffix_app s p : HasSuffix (s +:+ p) p = true.
Proof. unfold HasSuffix. rewrite str_rev_app. apply HasPrefix_app. Qed.

Lemma HasSuffix_spec s p : HasSuffix s p = true <-> exists a, s = a +:+ p.
Proof.
  unfold HasSuffix. rewrite HasPrefix_spec. split.
  - intros [r H]. exists (str_rev r). apply (f_equal str_rev) in H.
    by rewrite str_rev_app, !str_rev_involutive in H.
  - intros [a ->]. rewrite str_rev_app. by eexists.
Qed.

(** ** Words *)

Definition is_word (w : string) : bool := negb (bool_decide (w = "")) && negb (str_any is_space w).

Lemma fields_go_word cur w s :
  str_any is_space w = false ->
  fields_go cur (w +:+ s) = fields_go (str_rev w +:+ cur) s.
Proof.
  revert cur. induction w as [|c w IH]; intros cur; cbn [str_any]; [done|].
  rewrite orb_false_iff. intros [Hc Hw]. cbn. rewrite Hc, IH by done.
  by rewrite str_rev_cons, str_app_assoc.
Qed.

Lemma Fields_cons_word w s :
  is_word w = true -> Fields (w +:+ String " " s) = w :: Fields s.
Proof.
  unfold is_word. rewrite andb_true_iff, !negb_true_iff, bool_decide_eq_false.
  intros [Hne Hsp]. unfold Fields. rewrite fields_go_word, str_app_nil_r by done.
  cbn. rewrite bool_decide_eq_false_2; [by rewrite str_rev_involutive|].
  intros E. apply Hne. rewrite <- (str_rev_involutive w), E. done.
Qed.

Lemma Fields_word w : is_word w = true -> Fields w = [w].
Proof.
  unfold is_word. rewrite andb_true_iff, !negb_true_iff, bool_decide_eq_false.
  intros [Hne Hsp]. unfold Fields.
  rewrite <- (str_app_nil_r w) at 1. rewrite fields_go_word, str_app_nil_r by done.
  cbn. rewrite bool_decide_eq_false_2; [by rewrite str_rev_involutive|].
  intros E. apply Hne. rewrite <- (str_rev_involutive w), E. done.
Qed.

(** What a tool prints as words separated by one space reads back as the words. *)
Lemma Fields_Join l : Forall (fun w => is_word w = true) l -> Fields (Join l " ") = l.
Proof.
  induction l as [|w l IH]; [done|]. intros [Hw Hl]%Forall_cons.
  destruct l as [|v l]; [by apply Fields_word|].
  rewrite Join_cons by done. cbn [String.append].
  rewrite Fields_cons_word by done. by rewrite IH.
Qed.

(** Every byte of a string is a space or sits in one of its fields. *)
Lemma fields_go_no_byte b cur s :
  is_space b = false -> Forall (fun w => no_byte b w = true) (fields_go cur s) ->
  no_byte b (str_rev cur) = true /\ no_byte b s = true.
Proof.
  intros Hb. revert cur. induction s as [|c s IH]; intros cur; cbn.
  - case_bool_decide as E; [by subst|]. intros [? _]%Forall_cons. done.
  - destruct (is_space c) eqn:Hc.
    + assert (eqc c b = false) as Hcb by (apply eqc_false; congruence).
      case_bool_decide as E.
      * subst cur. intros H. apply IH in H as [_ H]. unfold no_byte. cbn. by rewrite Hcb.
      * intros [Hcur H]%Forall_cons. apply IH in H as [_ H]. split; [done|].
        unfold no_byte. cbn. by rewrite Hcb.
    + intros H. apply IH in H as [H1 H2]. rewrite str_rev_cons, no_byte_app in H1.
      apply andb_true_iff in H1 as [H1 H3]. unfold no_byte in *. cbn in *.
      rewrite andb_true_r in H3. by rewrite H3.
Qed.

Lemma Fields_no_byte b s :
  is_space b = false -> Forall (fun w => no_byte b w = true) (Fields s) -> no_byte b s = true.
Proof. intros Hb H. by apply (fields_go_no_byte b "" s). Qed.

Lemma trim_empty cut s : trim cut s = "" -> str_all cut s = true.
Proof.
  unfold trim. rewrite <- trim_left_right_comm. intros H.
  assert (Hr : forall t, trim_right cut t = "" -> str_all cut t = true).
  { induction t as [|c t IH]; cbn; [done|]. destruct (trim_right cut t); [|done].
    destruct (cut c); cbn; [|done]. auto. }
  apply Hr. revert H. generalize (trim_right_idem cut s).
  destruct (trim_right cut s) as [|c r] eqn:E; [done|].
  intros Hi H. cbn in H. destruct (cut c) eqn:Hc; [|done]. exfalso.
  (* every byte of [String c r] is in the cutset, yet it is right-trimmed *)
  assert (Hl : forall t, trim_left cut t = "" -> trim_right cut t = "").
  { induction t as [|d t IH]; cbn; [done|]. destruct (cut d) eqn:Hd; [|done].
    intros Ht. by rewrite (IH Ht). }
  rewrite Hl in Hi; [done|]. cbn. by rewrite Hc.
Qed.

Lemma Fields_spaces s : str_all is_space s = true -> Fields s = [].
Proof.
  unfold Fields. induction s as [|c s IH]; cbn; [done|]. rewrite andb_true_iff. intros [-> H]. auto.
Qed.

(** ** Case *)

Lemma lower_byte_idem c : lower_byte (lower_byte c) = lower_byte c.
Proof. destruct c as [[][][][][][][][]]; reflexivity. Qed.
Lemma ToLower_idem s : ToLower (ToLower s) = ToLower s.
Proof. unfold ToLower. induction s as [|c s IH]; cbn; [done|]. by rewrite lower_byte_idem, IH. Qed.

Lemma upper_byte_idem c : upper_byte (upper_byte c) = upper_byte c.
Proof. by destruct c as [[] [] [] [] [] [] [] []]. Qed.
Lemma ToUpper_idem s : ToUpper (ToUpper s) = ToUpper s.
Proof. unfold ToUpper. induction s as [|c s IH]; cbn; [done|]. by rewrite upper_byte_idem, IH. Qed.

#[export] Instance EqualFold_equiv : Equivalence (fun a b => EqualFold a b = true).
Proof.
  unfold EqualFold. split.
  - intros a. by apply bool_decide_eq_true.
  - intros a b. rewrite !bool_decide_eq_true. congruence.
  - intros a b c. rewrite !bool_decide_eq_true. congruence.
Qed.

(** ** Numbers *)

Lemma digit_char_val n : (n < 10)%N -> is_digit (digit_char n) = true /\ digit_val (digit_char n) = Z.of_N n.
Proof.
  intros H.
  assert (Hall : forallb (fun k => let c := digit_char (N.of_nat k) in
            is_digit c && (digit_val c =? Z.of_nat k)%Z) (seq 0 10) = true) by (by vm_compute).
  rewrite List.forallb_forall in Hall. specialize (Hall (N.to_nat n) ltac:(apply in_seq; lia)).
  rewrite N2Nat.id in Hall. apply andb_true_iff in Hall as [-> Hv]. apply Z.eqb_eq in Hv.
  split; [done|]. rewrite Hv. lia.
Qed.

Lemma parse_digits_nonneg acc s v : parse_digits acc s = Some v -> (0 <= acc)%Z -> (0 <= v)%Z.
Proof.
  revert acc. induction s as [|c s IH]; cbn; intros acc; [by intros [= ->]|].
  destruct (is_digit c) eqn:E; [|done]. intros H Ha. eapply IH; [done|].
  apply andb_true_iff in E as [E%Z.leb_le _]. unfold digit_val. lia.
Qed.

Lemma itoa_go_digits fuel n acc :
  str_all is_digit acc = true -> str_all is_digit (itoa_go fuel n acc) = true.
Proof.
  revert n acc. induction fuel as [|f IH]; intros n acc H; [done|].
  cbn. assert (is_digit (digit_char (n mod 10)) = true) as Hd.
  { apply digit_char_val. apply N.mod_lt. lia. }
  destruct (n <? 10)%N; [|apply IH]; cbn; by rewrite Hd.
Qed.

Lemma itoa_go_ne fuel n acc : itoa_go (S fuel) n acc <> "".
Proof.
  revert n acc. induction fuel as [|f IH]; intros n acc; cbn; [by destruct (n <? 10)%N|].
  destruct (n <? 10)%N; [done|]. apply IH.
Qed.

Lemma parse_digits_itoa_go fuel n acc :
  (n < 2 ^ N.of_nat fuel)%N -> fuel <> O ->
  parse_digits 0 (itoa_go fuel n acc) = parse_digits (Z.of_N n) acc.
Proof.
  revert n acc. induction fuel as [|f IH]; intros n acc Hn Hf; [done|].
  pose proof (N.mod_lt n 10 ltac:(lia)) as Hm.
  destruct (digit_char_val _ Hm) as [Hd Hv]. cbn [itoa_go].
  destruct (n <? 10)%N eqn:E.
  - apply N.ltb_lt in E. cbn. rewrite Hd, Hv. do 2 f_equal. by rewrite N.mod_small.
  - apply N.ltb_ge in E. destruct (decide (f = O)) as [->|Hf'].
    { change (2 ^ N.of_nat 1)%N with 2%N in Hn. lia. }
    rewrite IH; [|apply N.Div0.div_lt_upper_bound|done].
    + cbn. rewrite Hd, Hv. f_equal.
      rewrite N2Z.inj_div, N2Z.inj_mod. pose proof (Z.div_mod (Z.of_N n) 10). lia.
    + replace (N.of_nat (S f)) with (N.succ (N.of_nat f)) in Hn by lia.
      rewrite N.pow_succ_r' in Hn. lia.
Qed.

Lemma N_lt_pow_size (n : N) : (n < 2 ^ N.of_nat (S (N.size_nat n)))%N.
Proof.
  destruct n as [|p]; [done|]. rewrite Nat2N.inj_succ, N.pow_succ_r'.
  cbn [N.size_nat]. pose proof (Pos.size_gt p) as H.
  enough (Npos p < 2 ^ N.of_nat (Pos.size_nat p))%N by lia.
  replace (N.of_nat (Pos.size_nat p)) with (Npos (Pos.size p)); [done|].
  clear H. induction p; cbn [Pos.size_nat Pos.size]; lia.
Qed.

Definition Itoa_digits (n : N) : string := itoa_go (S (N.size_nat n)) n "".

Lemma parse_Itoa_digits n : parse_digits 0 (Itoa_digits n) = Some (Z.of_N n).
Proof. unfold Itoa_digits. by rewrite parse_digits_itoa_go by (apply N_lt_pow_size || done). Qed.

Lemma Itoa_digits_head n : exists c r, Itoa_digits n = String c r /\ is_digit c = true.
Proof.
  pose proof (itoa_go_digits (S (N.size_nat n)) n "" eq_refl) as H.
  pose proof (itoa_go_ne (N.size_nat n) n "") as H0. unfold Itoa_digits.
  destruct (itoa_go (S (N.size_nat n)) n "") as [|c r]; [done|].
  cbn in H. apply andb_true_iff in H as [? _]. eauto.
Qed.

Lemma Itoa_nonneg z : (0 <= z)%Z -> Itoa z = Itoa_digits (Z.to_N z).
Proof. intros H. unfold Itoa. by rewrite (proj2 (Z.ltb_ge z 0)). Qed.

Lemma Itoa_all_digits z : (0 <= z)%Z -> str_all is_digit (Itoa z) = true.
Proof. intros H. rewrite Itoa_nonneg by done. by apply itoa_go_digits. Qed.

(** [strconv.Atoi] inverts [strconv.Itoa] on every 64-bit integer. *)
Lemma Atoi_Itoa z : (min_int64 <= z <= max_int64)%Z -> Atoi (Itoa z) = Some z.
Proof.
  intros Hz. unfold Itoa. destruct (z <? 0)%Z eqn:E.
  - apply Z.ltb_lt in E. fold (Itoa_digits (Z.to_N (- z))).
    unfold Atoi. cbn [String.append].
    destruct (Itoa_digits_head (Z.to_N (- z))) as (c & r & Hc & _).
    rewrite bool_decide_eq_false_2 by congruence.
    rewrite parse_Itoa_digits. cbn. rewrite Z2N.id, Z.opp_involutive by lia.
    by rewrite (proj2 (Z.leb_le _ _)), (proj2 (Z.leb_le _ _)) by lia.
  - apply Z.ltb_ge in E. fold (Itoa_digits (Z.to_N z)). unfold Atoi.
    destruct (Itoa_digits_head (Z.to_N z)) as (c & r & Hc & Hd).
    assert (forall A (x y w : A), match Itoa_digits (Z.to_N z) with
              | String "-" _ => x | String "+" _ => y | _ => w end = w) as Hs.
    { intros. rewrite Hc. destruct c as [[][][][][][][][]]; by vm_compute in Hd || done. }
    rewrite Hc in *. destruct c as [[][][][][][][][]]; try (by vm_compute in Hd);
      rewrite <- Hc, bool_decide_eq_false_2, parse_Itoa_digits by congruence; cbn [mbind option_bind];
      rewrite Z2N.id by lia; by rewrite (proj2 (Z.leb_le _ _)), (proj2 (Z.leb_le _ _)) by lia.
Qed.

Lemma digit_not c b : is_digit c = true -> is_digit b = false -> eqc c b = false.
Proof. intros H1 H2. apply eqc_false. congruence. Qed.

Lemma digits_no_byte b s : is_digit b = false -> str_all is_digit s = true -> no_byte b s = true.
Proof.
  intros Hb. apply str_all_impl. intros c Hc. by rewrite (digit_not c b).
Qed.

Lemma digits_no_space s : str_all is_digit s = true -> str_any is_space s = false.
Proof.
  induction s as [|c s IH]; cbn; [done|]. rewrite andb_true_iff. intros [Hc Hs].
  rewrite (IH Hs), orb_false_r. clear - Hc. destruct c as [[][][][][][][][]]; by vm_compute in Hc || vm_compute.
Qed.

Lemma Itoa_word z : (0 <= z)%Z -> is_word (Itoa z) = true.
Proof.
  intros H. unfold is_word. rewrite digits_no_space by (by apply Itoa_all_digits).
  rewrite bool_decide_eq_false_2; [done|].
  rewrite Itoa_nonneg by done. destruct (Itoa_digits_head (Z.to_N z)) as (?&?&->&_). done.
Qed.

(** Every word that starts with a digit; a symbolic evaluation over it compares
    first bytes only, so it runs for the ten digits. *)
Definition digit_word (w : string) : Prop := exists c r, w = String c r /\ is_digit c = true.

Lemma Itoa_digit_word z : (0 <= z)%Z -> digit_word (Itoa z).
Proof. intros H. rewrite Itoa_nonneg by done. apply Itoa_digits_head. Qed.

Ltac digit_cases H :=
  let c := fresh "c" in let r := fresh "r" in let Hc := fresh in
  destruct H as (c & r & -> & Hc);
  destruct c as [[][][][][][][][]]; try discriminate Hc; clear Hc.

Lemma Itoa_last z : (0 <= z)%Z -> exists a d, Itoa z = a +:+ String d "" /\ is_digit d = true.
Proof.
  intros Hz. pose proof (Itoa_all_digits z Hz) as Hd. pose proof (Itoa_word z Hz) as Hw.
  unfold is_word in Hw. apply andb_true_iff in Hw as [Hne _]. apply negb_true_iff, bool_decide_eq_false in Hne.
  rewrite <- (str_rev_involutive (Itoa z)). destruct (str_rev (Itoa z)) as [|d r] eqn:E.
  - exfalso. apply Hne. by rewrite <- (str_rev_involutive (Itoa z)), E.
  - exists (str_rev r), d. rewrite str_rev_cons. split; [done|].
    rewrite <- (str_rev_involutive (Itoa z)), E, str_rev_cons, str_all_app in Hd.
    apply andb_true_iff in Hd as [_ Hd]. cbn in Hd. by rewrite andb_true_r in Hd.
Qed.

(** ** Sorted names *)

Lemma insert_name_perm n l : insert_name n l ≡ₚ n :: l.
Proof. induction l as [|x l IH]; [done|]. cbn. destruct (String.ltb n x); [done|]. rewrite IH. constructor. Qed.
Lemma sortNames_perm l : sortNames l ≡ₚ l.
Proof. induction l as [|x l IH]; [done|]. cbn. by rewrite insert_name_perm, IH. Qed.
Lemma elem_of_sortedKeys {V} (m : gmap string V) k : k ∈ sortedKeys m <-> is_Some (m !! k).
Proof.
  unfold sortedKeys. rewrite sortNames_perm, list_elem_of_fmap. split.
  - intros ([k' v] & -> & H). apply elem_of_map_to_list in H. by exists v.
  - intros [v H]. exists (k, v). split; [done|]. by apply elem_of_map_to_list.
Qed.

Lemma string_compare_trans a b c : String.compare a b = Lt -> String.compare b c = Lt -> String.compare a c = Lt.
Proof.
  revert b c. induction a as [|x a IH]; intros [|y b] [|z c]; cbn; try done.
  unfold Ascii.compare. destruct (N.compare_spec (N_of_ascii x) (N_of_ascii y)) as [E|E|E]; [..|done].
  - rewrite <- E. destruct (N.compare_spec (N_of_ascii x) (N_of_ascii z)); try done. apply IH.
  - intros _. destruct (N.compare_spec (N_of_ascii y) (N_of_ascii z)) as [F|F|F]; [..|done]; intros _;
      (replace (N_of_ascii x ?= N_of_ascii z)%N with Lt; [done|symmetry; apply N.compare_lt_iff; lia]).
Qed.

Lemma ltb_trans a b c : String.ltb a b = true -> String.ltb b c = true -> String.ltb a c = true.
Proof.
  unfold String.ltb. destruct (String.compare a b) eqn:E1; [done| |done].
  destruct (String.compare b c) eqn:E2; [done| |done]. by rewrite (string_compare_trans _ _ _ E1 E2).
Qed.

Lemma ltb_irrefl a : String.ltb a a = false.
Proof. unfold String.ltb. pose proof (String.compare_antisym a a). by destruct (String.compare a a). Qed.

Lemma ltb_total a b : String.ltb a b = false -> a = b \/ String.ltb b a = true.
Proof.
  unfold String.ltb. rewrite (String.compare_antisym b a).
  destruct (String.compare a b) eqn:E; [|done|by right]. left. by apply String.compare_eq_iff.
Qed.

(** The head of a sorted list is its least element. *)
Lemma insert_name_head n l x r :
  insert_name n l = x :: r ->
  (forall y z t, l = z :: t -> y ∈ l -> String.ltb y z = false) ->
  forall y, y ∈ n :: l -> String.ltb y x = false.
Proof.
  destruct l as [|z t]; cbn.
  - intros [= <- <-] _ y Hy. apply list_elem_of_singleton in Hy as ->. apply ltb_irrefl.
  - destruct (String.ltb n z) eqn:E; intros [= <- <-] Hmin y [->|Hy]%elem_of_cons.
    + apply ltb_irrefl.
    + specialize (Hmin y z t eq_refl Hy). destruct (String.ltb y n) eqn:F; [|done].
      by rewrite (ltb_trans _ _ _ F E) in Hmin.
    + done.
    + by apply (Hmin y z t).
Qed.

Lemma sortNames_head l x r : sortNames l = x :: r -> x ∈ l /\ forall y, y ∈ l -> String.ltb y x = false.
Proof.
  intros H. split; [rewrite <- (sortNames_perm l), H; constructor|]. revert x r H.
  induction l as [|n l IH]; cbn; [done|]. intros x r H y Hy.
  eapply (insert_name_head n (sortNames l)); [exact H| |].
  - intros y' z t Hz Hy'. apply (IH z t Hz). by rewrite <- (sortNames_perm l).
  - apply elem_of_cons in Hy as [->|Hy]; [by left|right]. by rewrite sortNames_perm.
Qed.

(** * Replacing one byte *)

Lemma ReplaceAll_byte b new c r :
  ReplaceAll (String c r) (String b "") new
  = (if eqc c b then new else String c "") +:+ ReplaceAll r (String b "") new.
Proof.
  unfold ReplaceAll. cbn [replace_go HasPrefix].
  assert (eqc b c = eqc c b) as -> by (unfold eqc; apply bool_decide_ext; split; congruence).
  destruct (eqc c b); by destruct r.
Qed.

(** * Trimming and printing *)

Lemma trim_right_snoc cut s c : cut c = true -> trim_right cut (s +:+ String c "") = trim_right cut s.
Proof. intros Hc. induction s as [|a s IH]; cbn; [by rewrite Hc|]. by rewrite IH. Qed.

Lemma trim_left_len cut s : (len (trim_left cut s) < len s)%nat \/ trim_left cut s = s.
Proof.
  destruct s as [|c s]; [by right|]. cbn. destruct (cut c); [left|by right].
  pose proof (len_trim_left cut s). unfold len in *. cbn. lia.
Qed.

(** White space after a text that has none at its ends is trimmed away. *)
Lemma TrimSpace_snoc s b : is_space b = true -> s <> "" -> TrimSpace s = s -> TrimSpace (s +:+ String b "") = s.
Proof.
  unfold TrimSpace, trim. intros Hb Hne Ht. assert (trim_left is_space s = s) as Hl.
  { destruct (trim_left_len is_space s) as [Hlt|?]; [|done]. exfalso.
    pose proof (len_trim_right is_space (trim_left is_space s)) as H. rewrite Ht in H. lia. }
  rewrite Hl in Ht. assert (trim_left is_space (s +:+ String b "") = s +:+ String b "") as ->.
  { destruct s as [|c s]; [done|]. cbn in *. destruct (is_space c) eqn:Ec; [|done]. exfalso.
    pose proof (len_trim_left is_space s) as H. rewrite Hl in H. unfold len in H. cbn in H. lia. }
  by rewrite trim_right_snoc.
Qed.

Lemma Itoa_neg z : (z < 0)%Z -> Itoa z = String "-" (Itoa (- z)).
Proof.
  intros H. unfold Itoa. destruct (Z.ltb_spec z 0); [|lia]. destruct (Z.ltb_spec (- z) 0); [lia|]. done.
Qed.

Lemma Itoa_no_byte b z : is_digit b = false -> b <> "-"%char -> no_byte b (Itoa z) = true.
Proof.
  intros Hd Hb. assert (forall y, (0 <= y)%Z -> no_byte b (Itoa y) = true) as Hp
    by (intros y Hy; by apply digits_no_byte, Itoa_all_digits).
  destruct (Z.ltb_spec z 0); [|by apply Hp]. rewrite Itoa_neg by done. unfold no_byte in *. cbn [str_all].
  rewrite Hp by lia. by rewrite (proj2 (eqc_false "-" b)) by congruence.
Qed.

Lemma Itoa_inj_nonneg a b : (0 <= a)%Z -> (0 <= b)%Z -> Itoa a = Itoa b -> a = b.
Proof.
  intros Ha Hb. rewrite !Itoa_nonneg by done. intros H. apply (f_equal (parse_digits 0)) in H.
  rewrite !parse_Itoa_digits in H. injection H as H. lia.
Qed.

Lemma Itoa_inj a b : Itoa a = Itoa b -> a = b.
Proof.
  assert (forall x y, (0 <= x)%Z -> Itoa x <> String "-" y) as Hs.
  { intros x y Hx H. pose proof (Itoa_all_digits x Hx) as Hd. by rewrite H in Hd. }
  destruct (Z.ltb_spec a 0), (Z.ltb_spec b 0); rewrite ?(Itoa_neg a), ?(Itoa_neg b) by done.
  - intros [= Hi%Itoa_inj_nonneg]; lia.
  - intros H'. symmetry in H'. by apply Hs in H'.
  - intros H'. by apply Hs in H'.
  - by apply Itoa_inj_nonneg.
Qed.
