(* ===== verification/GoNet.v ===== *)
(** Go's address parsing: the parts of packages [net] and [net/netip] the
    program uses (SplitHostPort, JoinHostPort, ParseIP, ParsePrefix,
    IsLoopback), and the port check every address validator repeats. *)
From S2P Require Import Prelude GoStrings.
From Stdlib Require Import Ascii.

Open Scope bool_scope.

(** * host:port *)

Inductive addr_error : Type :=
  | MissingPort
  | TooManyColons
  | MissingBracket
  | UnexpectedOpenBracket
  | UnexpectedCloseBracket.

Definition has_byte (c : ascii) (s : string) : bool := bool_decide (is_Some (index_byte c s)).

(** [net.SplitHostPort]. *)
Definition SplitHostPort (hostport : string) : result addr_error (string * string) :=
  match last_index_byte ":" hostport with
  | None => Err MissingPort
  | Some i =>
      let port := str_drop (S i) hostport in
      match hostport with
      | String "[" _ =>
          match index_byte "]" hostport with
          | None => Err MissingBracket
          | Some e =>
              if (S e =? len hostport)%nat then Err MissingPort
              else if (S e =? i)%nat then
                if has_byte "[" (str_drop 1 hostport) then Err UnexpectedOpenBracket
                else if has_byte "]" (str_drop (S e) hostport) then Err UnexpectedCloseBracket
                else Ok (str_drop 1 (str_take e hostport), port)
              else if HasPrefix (str_drop (S e) hostport) ":" then Err TooManyColons
              else Err MissingPort
          end
      | _ =>
          let host := str_take i hostport in
          if has_byte ":" host then Err TooManyColons
          else if has_byte "[" hostport then Err UnexpectedOpenBracket
          else if has_byte "]" hostport then Err UnexpectedCloseBracket
          else Ok (host, port)
      end
  end.

(** [net.JoinHostPort]: a host with a colon is bracketed. *)
Definition JoinHostPort (host port : string) : string :=
  if has_byte ":" host then "[" +:+ host +:+ "]:" +:+ port else host +:+ ":" +:+ port.

(** The port check of every validator: [strconv.Atoi] and 1..65535. *)
Definition port_in_range (n : Z) : bool := (1 <=? n)%Z && (n <=? 65535)%Z.
Definition parse_port (s : string) : option Z :=
  n ← Atoi s; if port_in_range n then Some n else None.

(** * IP addresses *)

(** A parsed address as [netip.ParseAddr] returns it: four bytes, or sixteen
    bytes with a zone. *)
Inductive addr : Type :=
  | IP4 (b : list Z)
  | IP6 (b : list Z) (zone : string).

#[export] Instance addr_eq_dec : EqDecision addr.
Proof. solve_decision. Defined.

(** One decimal field of an IPv4 address: 1 to 3 digits, no leading zero, at
    most 255. *)
Definition ipv4_field (s : string) : option Z :=
  if bool_decide (s = "") then None
  else if HasPrefix s "0" && negb (bool_decide (s = "0")) then None
  else v ← parse_digits 0 s; if (v <=? 255)%Z then Some v else None.

Definition parseIPv4 (s : string) : option (list Z) :=
  match Split "." s with
  | [a; b; c; d] =>
      x ← ipv4_field a; y ← ipv4_field b; z ← ipv4_field c; w ← ipv4_field d;
      Some [x; y; z; w]
  | _ => None
  end.

Definition hex_val (c : ascii) : option Z :=
  if is_digit c then Some (digit_val c)
  else if between "a" c "f" then Some (byte_val c - byte_val "a" + 10)%Z
  else if between "A" c "F" then Some (byte_val c - byte_val "A" + 10)%Z
  else None.

(** The leading hexadecimal digits of [s]: their value, how many, the rest. *)
Fixpoint hex_run (acc : Z) (n : nat) (s : string) : Z * nat * string :=
  match s with
  | String c r =>
      match hex_val c with
      | Some d => hex_run (acc * 16 + d) (S n) r
      | None => (acc, n, s)
      end
  | "" => (acc, n, s)
  end.

(** The group loop of [parseIPv6]: [ip] holds the bytes read so far, [ell] the
    position of the ellipsis. Each round reads a group of two bytes, so eight
    rounds of fuel are enough. *)
Fixpoint ipv6_groups (fuel : nat) (ip : list Z) (ell : option nat) (s : string)
    : option (list Z * option nat * string) :=
  match fuel with
  | O => Some (ip, ell, s)
  | S f =>
      let '(v, n, rest) := hex_run 0 0 s in
      if (n =? 0)%nat || (4 <? n)%nat then None
      else match rest with
           | String "." _ =>
               if (negb (bool_decide (is_Some ell)) && negb (length ip =? 12)%nat)
                  || (16 <? length ip + 4)%nat then None
               else b ← parseIPv4 s; Some (ip ++ b, ell, "")
           | _ =>
               let ip' := ip ++ [v / 256; v mod 256]%Z in
               match rest with
               | "" => Some (ip', ell, "")
               | String ":" "" => None
               | String ":" (String ":" r) =>
                   if bool_decide (is_Some ell) then None
                   else if bool_decide (r = "") then Some (ip', Some (length ip'), "")
                   else ipv6_groups f ip' (Some (length ip')) r
               | String ":" r => ipv6_groups f ip' ell r
               | _ => None
               end
           end
  end.

Definition expand_ellipsis (ip : list Z) (ell : option nat) : option (list Z) :=
  match ell with
  | None => if (length ip =? 16)%nat then Some ip else None
  | Some e =>
      if (16 <=? length ip)%nat then None
      else Some (take e ip ++ replicate (16 - length ip) 0%Z ++ drop e ip)
  end.

Definition parseIPv6 (s : string) : option addr :=
  let '(body, zone, zoned) := Cut "%" s in
  if zoned && bool_decide (zone = "") then None
  else if HasPrefix body "::" then
    let r := str_drop 2 body in
    if bool_decide (r = "") then Some (IP6 (replicate 16 0%Z) zone)
    else '(ip, ell, rest) ← ipv6_groups 8 [] (Some 0%nat) r;
         if bool_decide (rest = "") then b ← expand_ellipsis ip ell; Some (IP6 b zone) else None
  else '(ip, ell, rest) ← ipv6_groups 8 [] None body;
       if bool_decide (rest = "") then b ← expand_ellipsis ip ell; Some (IP6 b zone) else None.

(** [netip.ParseAddr]: the first of [.], [:] and [%] picks the syntax. *)
Fixpoint addr_kind (s : string) : option ascii :=
  match s with
  | "" => None
  | String c r => if eqc c "." || eqc c ":" || eqc c "%" then Some c else addr_kind r
  end.
Definition ParseAddr (s : string) : option addr :=
  match addr_kind s with
  | Some "."%char => IP4 <$> parseIPv4 s
  | Some ":"%char => parseIPv6 s
  | _ => None
  end.

(** An IPv4-mapped IPv6 address is the IPv4 address. *)
Definition v4_mapped : list Z := replicate 10 0%Z ++ [255; 255]%Z.
Definition unmap (a : addr) : addr :=
  match a with
  | IP6 b _ => if bool_decide (take 12 b = v4_mapped) then IP4 (drop 12 b) else a
  | IP4 _ => a
  end.

(** [net.ParseIP]: any address without a zone. *)
Definition ParseIP (s : string) : option addr :=
  match ParseAddr s with
  | Some (IP6 b "") => Some (unmap (IP6 b ""))
  | Some (IP6 _ _) => None
  | r => r
  end.

Definition IsLoopback (a : addr) : bool :=
  match unmap a with
  | IP4 (b :: _) => (b =? 127)%Z
  | IP4 [] => false
  | IP6 b _ => bool_decide (b = replicate 15 0 ++ [1])%Z
  end.

(** [netip.ParsePrefix]: the address and the number of bits. *)
Definition ParsePrefix (s : string) : option (addr * Z) :=
  match last_index_byte "/" s with
  | None => None
  | Some i =>
      let bits := str_drop (S i) s in
      match ParseAddr (str_take i s) with
      | None => None
      | Some a =>
          let zoned := match a with IP6 _ z => negb (bool_decide (z = "")) | IP4 _ => false end in
          let max := match a with IP4 _ => 32 | IP6 _ _ => 128 end%Z in
          if zoned || ((1 <? len bits)%nat && negb (str_all is_digit (str_take 1 bits) && negb (HasPrefix bits "0")))
          then None
          else n ← Atoi bits; if (0 <=? n)%Z && (n <=? max)%Z then Some (a, n) else None
      end
  end.

(** * Facts *)

Lemma index_byte_app c a b :
  no_byte c a = true -> index_byte c (a +:+ String c b) = Some (len a).
Proof.
  unfold no_byte, len. induction a as [|d a IH]; cbn; [by rewrite eqc_refl|].
  rewrite andb_true_iff, negb_true_iff. intros [-> H]. by rewrite IH.
Qed.

Lemma index_byte_none c s : no_byte c s = true <-> index_byte c s = None.
Proof.
  unfold no_byte. induction s as [|d s IH]; cbn; [done|].
  destruct (eqc d c); cbn; [done|]. rewrite IH. destruct (index_byte c s); cbn; naive_solver.
Qed.

Lemma index_byte_split c s i :
  index_byte c s = Some i -> s = str_take i s +:+ String c (str_drop (S i) s) /\ no_byte c (str_take i s) = true /\ len (str_take i s) = i.
Proof.
  unfold len, no_byte. revert i. induction s as [|d s IH]; intros i; cbn; [done|]. destruct (eqc d c) eqn:E.
  - intros [= <-]. cbn. apply eqc_true in E as ->. done.
  - destruct (index_byte c s) as [j|]; cbn; [|done]. intros [= <-]. destruct (IH j eq_refl) as (H1 & H2 & H3). cbn.
    rewrite H2, H3. split; [by f_equal|]. split; [|done]. by rewrite E.
Qed.

Lemma last_index_byte_split c s i :
  last_index_byte c s = Some i -> s = str_take i s +:+ String c (str_drop (S i) s) /\ no_byte c (str_drop (S i) s) = true.
Proof.
  unfold no_byte. revert i. induction s as [|d s IH]; intros i; cbn; [done|].
  destruct (last_index_byte c s) as [j|] eqn:El.
  - intros [= <-]. destruct (IH j eq_refl) as [H1 H2]. cbn in *. split; [by f_equal|done].
  - destruct (eqc d c) eqn:Ed; [|done]. intros [= <-]. apply eqc_true in Ed as ->. cbn. split; [done|].
    clear IH. revert El. induction s as [|d s IH]; cbn; [done|]. destruct (last_index_byte c s); [done|].
    destruct (eqc d c); [done|]. cbn. auto.
Qed.

Lemma has_byte_false c s : has_byte c s = false <-> no_byte c s = true.
Proof.
  unfold has_byte. rewrite bool_decide_eq_false, index_byte_none, <- eq_None_not_Some. done.
Qed.

Lemma last_index_byte_none c s : no_byte c s = true -> last_index_byte c s = None.
Proof.
  unfold no_byte. induction s as [|d s IH]; cbn; [done|].
  rewrite andb_true_iff, negb_true_iff. intros [-> H]. by rewrite IH.
Qed.

Lemma last_index_byte_app c a b :
  no_byte c b = true -> last_index_byte c (a +:+ String c b) = Some (len a).
Proof.
  intros Hb. unfold len. induction a as [|d a IH]; cbn.
  - by rewrite last_index_byte_none, eqc_refl.
  - by rewrite IH.
Qed.

Lemma str_drop_app_sep c a b : str_drop (S (len a)) (a +:+ String c b) = b.
Proof. unfold len. induction a as [|d a IH]; cbn; [done|]. apply IH. Qed.

(** A host usable in an address without brackets. *)
Definition plain_host (h : string) : bool :=
  no_byte ":" h && no_byte "[" h && no_byte "]" h.

Lemma SplitHostPort_plain h p :
  plain_host h = true -> plain_host p = true ->
  SplitHostPort (h +:+ ":" +:+ p) = Ok (h, p).
Proof.
  unfold plain_host. rewrite !andb_true_iff. intros [[Hc Ho] He] [[Pc Po] Pe].
  cbn [String.append]. unfold SplitHostPort. rewrite last_index_byte_app by done.
  assert (forall A (x y : A), match h +:+ String ":" p with
            | String "[" _ => x | _ => y end = y) as Hm.
  { intros A x y. destruct h as [|c h]; [done|]. cbn.
    unfold no_byte in Ho. cbn in Ho. apply andb_true_iff in Ho as [Ho _].
    apply negb_true_iff, eqc_false in Ho.
    destruct c as [[][][][][][][][]]; done. }
  rewrite Hm. clear Hm. rewrite str_drop_app_sep.
  replace (has_byte ":" (str_take (len h) (h +:+ String ":" p))) with false
    by (symmetry; apply has_byte_false; by rewrite str_take_app).
  replace (has_byte "[" (h +:+ String ":" p)) with false
    by (symmetry; apply has_byte_false; rewrite no_byte_app, Ho; exact Po).
  replace (has_byte "]" (h +:+ String ":" p)) with false
    by (symmetry; apply has_byte_false; rewrite no_byte_app, He; exact Pe).
  by rewrite str_take_app.
Qed.

Lemma digits_plain s : str_all is_digit s = true -> plain_host s = true.
Proof. intros H. unfold plain_host. by rewrite !digits_no_byte. Qed.

(** A joined address splits back, bracketed or not. *)
Lemma SplitHostPort_join h p :
  no_byte "[" h = true -> no_byte "]" h = true -> plain_host p = true ->
  SplitHostPort (JoinHostPort h p) = Ok (h, p).
Proof.
  intros Ho He Hpp. unfold JoinHostPort.
  destruct (has_byte ":" h) eqn:Hc.
  2:{ apply SplitHostPort_plain; [|done]. unfold plain_host.
      apply has_byte_false in Hc. by rewrite Hc, Ho, He. }
  unfold plain_host in Hpp. apply andb_true_iff in Hpp as [[Pc Po]%andb_true_iff Pe].
  assert (Hlast : last_index_byte ":" ("[" +:+ h +:+ "]:" +:+ p) = Some (S (S (len h)))).
  { replace ("[" +:+ h +:+ "]:" +:+ p) with (("[" +:+ h +:+ "]") +:+ String ":" p)
      by (cbn; by rewrite str_app_assoc).
    rewrite last_index_byte_app by done. f_equal. cbn. rewrite len_app. unfold len. cbn. lia. }
  assert (Hport : str_drop (S (S (len h))) (h +:+ String "]" (String ":" p)) = p).
  { clear. unfold len. induction h; cbn; [done|]. exact IHh. }
  unfold SplitHostPort. rewrite Hlast. cbn [String.append index_byte str_drop str_take].
  replace (eqc "[" "]") with false by done.
  rewrite index_byte_app by done. cbn [fmap option_fmap option_map].
  replace (len (String "[" (h +:+ String "]" (String ":" p)))) with (S (len h + S (S (len p))))%nat
    by (unfold len at 3; cbn; fold (len (h +:+ String "]" (String ":" p))); by rewrite len_app).
  rewrite (proj2 (Nat.eqb_neq _ _)) by lia. rewrite Nat.eqb_refl.
  rewrite (proj2 (has_byte_false "[" _)) by (rewrite no_byte_app, Ho; exact Po).
  rewrite (str_drop_app_sep "]"), (proj2 (has_byte_false "]" _)) by done.
  do 2 f_equal; [cbn [str_take]; by rewrite str_take_app|exact Hport].
Qed.

Lemma SplitHostPort_JoinHostPort h p :
  no_byte "[" h = true -> no_byte "]" h = true -> str_all is_digit p = true ->
  SplitHostPort (JoinHostPort h p) = Ok (h, p).
Proof. intros Ho He Hp. by apply SplitHostPort_join, digits_plain. Qed.

Lemma str_drop_S n s : str_drop (S n) s = str_drop 1 (str_drop n s).
Proof. revert s. induction n as [|n IH]; intros [|c s]; [done..| |]; cbn in *; [by destruct n|]. by rewrite IH. Qed.

Lemma match_bracket {A} (s : string) (x y : A) :
  match s with String "[" _ => x | _ => y end = if match s with String c _ => eqc c "[" | _ => false end then x else y.
Proof. destruct s as [|[[][][][][][][][]] s]; reflexivity. Qed.

(** The parts of an address hold no bracket, and its port no colon. *)
Lemma SplitHostPort_parts a h p :
  SplitHostPort a = Ok (h, p) -> no_byte "[" h = true /\ no_byte "]" h = true /\ plain_host p = true.
Proof.
  unfold SplitHostPort, plain_host. destruct (last_index_byte ":" a) as [i|] eqn:Ei; [|done].
  apply last_index_byte_split in Ei as [Ha Hc]. set (x := str_take i a) in *. set (y := str_drop (S i) a) in *.
  assert (forall b, has_byte b a = false -> no_byte b x = true /\ no_byte b y = true) as Hb.
  { intros b Hn%has_byte_false. rewrite Ha, no_byte_app in Hn. apply andb_true_iff in Hn as [? Hn]. split; [done|].
    cbn in Hn. by apply andb_true_iff in Hn as [_ Hn]. }
  intros H. assert ((h, p) = (x, y) /\ has_byte "[" a = false /\ has_byte "]" a = false \/
    exists e, index_byte "]" a = Some e /\ has_byte "[" (str_drop 1 a) = false /\ S e = i
      /\ has_byte "]" (str_drop (S e) a) = false /\ (h, p) = (str_drop 1 (str_take e a), y)) as [(E & Ho & He)|(e & He & Ho & Hei & Hr & E)].
  { rewrite match_bracket in H. destruct (match a with String c _ => _ | _ => _ end).
    - right. destruct (index_byte "]" a) as [e|]; [|done]. exists e. repeat case_match; try done. injection H as <- <-. by rewrite <- Nat.eqb_eq.
    - left. repeat case_match; try done. by injection H as <- <-. }
  - injection E as -> ->. destruct (Hb _ Ho) as [-> ->], (Hb _ He) as [-> ->]. by rewrite Hc.
  - injection E as -> ->. apply index_byte_split in He as (Hs & Hn & _). subst i.
    apply has_byte_false in Ho, Hr.
    assert (forall b n s, no_byte b s = true -> no_byte b (str_drop n s) = true /\ no_byte b (str_take n s) = true) as Hcut.
    { intros b n s Hs'. rewrite <- (str_take_drop n s), no_byte_app in Hs'. apply andb_true_iff in Hs'. tauto. }
    split_and!.
    + destruct a as [|c a]; [by destruct e|]. destruct e as [|e]; [done|]. cbn in *. by apply Hcut.
    + by apply (Hcut _ 1%nat).
    + assert (y = str_drop 1 (str_drop (S e) a)) as Hy by apply str_drop_S.
      rewrite !andb_true_iff. split_and!; [done|..]; rewrite Hy; apply Hcut; [|done].
      destruct a as [|c a]; [done|]. cbn in *. by apply Hcut.
Qed.

Lemma parse_port_Itoa n : (1 <= n <= 65535)%Z -> parse_port (Itoa n) = Some n.
Proof.
  intros H. unfold parse_port. rewrite Atoi_Itoa by (unfold min_int64, max_int64; lia).
  cbn. unfold port_in_range. by rewrite !(proj2 (Z.leb_le _ _)) by lia.
Qed.

Lemma parse_port_range s n : parse_port s = Some n -> (1 <= n <= 65535)%Z.
Proof.
  unfold parse_port. destruct (Atoi s) as [m|]; cbn; [|done].
  unfold port_in_range. destruct (_ && _) eqn:E; [|done].
  intros [= <-]. apply andb_true_iff in E as [?%Z.leb_le ?%Z.leb_le]. lia.
Qed.

(** The text before the last colon of a joined address. *)
Definition joined_host (h : string) : string := if has_byte ":" h then "[" +:+ h +:+ "]" else h.

Lemma JoinHostPort_split h p : JoinHostPort h p = joined_host h +:+ String ":" p.
Proof.
  unfold JoinHostPort, joined_host. destruct (has_byte ":" h); [|done].
  by rewrite !str_app_assoc.
Qed.

Lemma joined_host_inj h h' : joined_host h = joined_host h' -> h = h'.
Proof.
  assert (forall a b, has_byte ":" a = false -> has_byte ":" b = true -> a <> "[" +:+ b +:+ "]") as Hne.
  { intros a b Ha Hb ->. apply has_byte_false in Ha. rewrite !no_byte_app in Ha.
    apply andb_true_iff in Ha as [_ Ha]. apply andb_true_iff in Ha as [Ha _].
    apply has_byte_false in Ha. congruence. }
  unfold joined_host. destruct (has_byte ":" h) eqn:E, (has_byte ":" h') eqn:E'; [|intros H..|done].
  - cbn. intros [= H]. assert (len h = len h') as Hl.
    { apply (f_equal len) in H. rewrite !len_app in H. lia. }
    rewrite <- (str_take_app h "]"), <- (str_take_app h' "]"), H. by rewrite Hl.
  - exfalso. symmetry in H. by apply (Hne _ _ E' E).
  - exfalso. by apply (Hne _ _ E E').
Qed.

Lemma JoinHostPort_parts h p h' p' :
  no_byte ":" p = true -> no_byte ":" p' = true -> JoinHostPort h p = JoinHostPort h' p' -> h = h' /\ p = p'.
Proof.
  intros Hp Hp'. rewrite !JoinHostPort_split. intros H.
  pose proof (f_equal (last_index_byte ":") H) as Hl. rewrite !last_index_byte_app in Hl by done.
  injection Hl as Hl. split.
  - apply joined_host_inj. rewrite <- (str_take_app (joined_host h) (String ":" p)), H, Hl. apply str_take_app.
  - rewrite <- (str_drop_app_sep ":" (joined_host h) p), H, Hl. apply str_drop_app_sep.
Qed.

Lemma JoinHostPort_inj h p h' p' :
  str_all is_digit p = true -> str_all is_digit p' = true ->
  JoinHostPort h p = JoinHostPort h' p' -> h = h' /\ p = p'.
Proof. intros Hp Hp'. by apply JoinHostPort_parts; apply digits_no_byte. Qed.

(** Lower case keeps the bytes an address is split at. *)
Lemma no_byte_ToLower c s :
  c ∈ [":"; "["; "]"]%char -> no_byte c (ToLower s) = no_byte c s.
Proof.
  unfold no_byte, ToLower. intros Hc. induction s as [|a s IH]; [done|]. cbn. rewrite IH. f_equal.
  clear - Hc. rewrite !elem_of_cons, elem_of_nil in Hc. destruct Hc as [-> | [-> | [-> | []]]];
    destruct a as [[][][][][][][][]]; reflexivity.
Qed.

Example ParseIP_loopback :
  map (fun s => IsLoopback <$> ParseIP s)
    ["127.0.0.1"; "::1"; "10.0.0.1"; "0.0.0.0"; "::"; "::ffff:127.0.0.1"; "localhost"; "127.0.0.01"; "::1%lo"; "fe80::1:2"; "1:2:3:4:5:6:7:8"; "1::8:"]
  = [Some true; Some true; Some false; Some false; Some false; Some true; None; None; None; Some false; Some false; None].
Proof. vm_compute. reflexivity. Qed.
Example SplitHostPort_examples :
  map SplitHostPort ["127.0.0.1:80"; "[::1]:80"; "::1:80"; "host"; ":80"; "[::1]"; "a]b:1"]
  = [Ok ("127.0.0.1", "80"); Ok ("::1", "80"); Err TooManyColons; Err MissingPort; Ok ("", "80"); Err MissingPort; Err UnexpectedCloseBracket].
Proof. vm_compute. reflexivity. Qed.
