(* ===== verification/GoPath.v ===== *)
(** Go's package path/filepath on Unix: cleaning, joining and splitting slash
    paths. *)
From S2P Require Import Prelude GoStrings.
From Stdlib Require Import Ascii.

Open Scope bool_scope.

(** [Clean], [IsAbs], [Join] and [Dir]. *)
Fixpoint clean_go (rooted : bool) (stack : list string) (parts : list string) : list string :=
  match parts with
  | [] => rev stack
  | p :: ps =>
      if bool_decide (p = "") || bool_decide (p = ".") then clean_go rooted stack ps
      else if bool_decide (p = "..") then
        match stack with
        | top :: rest =>
            if bool_decide (top = "..") then clean_go rooted (p :: stack) ps else clean_go rooted rest ps
        | [] => if rooted then clean_go rooted [] ps else clean_go rooted [p] ps
        end
      else clean_go rooted (p :: stack) ps
  end.
Definition IsAbs (path : string) : bool := HasPrefix path "/".
Definition Clean (path : string) : string :=
  if bool_decide (path = "") then "."
  else
    let rooted := IsAbs path in
    let body := Join (clean_go rooted [] (Split "/" path)) "/" in
    if rooted then "/" +:+ body else if bool_decide (body = "") then "." else body.
Fixpoint JoinPath (elems : list string) : string :=
  match elems with
  | [] => ""
  | e :: es => if bool_decide (e = "") then JoinPath es else Clean (Join elems "/")
  end.
Definition Dir (path : string) : string :=
  match last_index_byte "/" path with
  | Some i => Clean (str_take (S i) path)
  | None => "."
  end.

(** * Facts *)

(** A path element that [Clean] keeps as it is. *)
Definition plain_segment (s : string) : bool :=
  no_byte "/" s && negb (contains_word [""; "."; ".."] s).

Lemma plain_segment_inv s :
  plain_segment s = true -> no_byte "/" s = true /\ s <> "" /\ s <> "." /\ s <> "..".
Proof.
  unfold plain_segment, contains_word. intros [H Hn]%andb_true_iff.
  apply negb_true_iff, bool_decide_eq_false in Hn. rewrite !not_elem_of_cons in Hn. tauto.
Qed.

Lemma clean_go_snoc rooted stack l s :
  plain_segment s = true -> clean_go rooted stack (l ++ [s]) = clean_go rooted stack l ++ [s].
Proof.
  intros (_ & H0 & H1 & H2)%plain_segment_inv. revert stack. induction l as [|p l IH]; intros stack; cbn.
  - by rewrite !bool_decide_eq_false_2 by done.
  - repeat case_match; apply IH.
Qed.

Lemma Join_snoc l s sep : l <> [] -> Join (l ++ [s]) sep = Join l sep +:+ sep +:+ s.
Proof.
  induction l as [|x l IH]; [done|]. intros _. destruct l as [|y l]; [done|].
  change ((x :: y :: l) ++ [s]) with (x :: ((y :: l) ++ [s])).
  rewrite !Join_cons, IH by (try done; by destruct l). by rewrite !str_app_assoc.
Qed.

Lemma IsAbs_inv path : IsAbs path = true -> exists r, path = String "/" r.
Proof. unfold IsAbs. intros [r ->]%HasPrefix_spec. by exists r. Qed.

Lemma IsAbs_slash r : IsAbs (String "/" r) = true.
Proof. unfold IsAbs. apply HasPrefix_spec. by exists r. Qed.

Lemma Clean_rooted path :
  IsAbs path = true -> Clean path = "/" +:+ Join (clean_go true [] (Split "/" path)) "/".
Proof.
  intros H. unfold Clean. rewrite H. rewrite bool_decide_eq_false_2; [done|].
  destruct (IsAbs_inv path H) as [r ->]. done.
Qed.

Lemma IsAbs_app a b : IsAbs a = true -> IsAbs (a +:+ b) = true.
Proof. intros [r ->]%IsAbs_inv. apply IsAbs_slash. Qed.

(** Cleaning a rooted path commutes with a plain last element. *)
Lemma Clean_snoc path s :
  IsAbs path = true -> plain_segment s = true -> Clean path <> "/" ->
  Clean (path +:+ "/" +:+ s) = Clean path +:+ "/" +:+ s.
Proof.
  intros Ha Hs. pose proof (plain_segment_inv s Hs) as (Hb & _).
  rewrite !Clean_rooted by (try apply IsAbs_app; done). cbn [String.append].
  rewrite Split_app, (Split_no_byte _ s), clean_go_snoc by done.
  destruct (clean_go true [] (Split "/" path)) as [|x l] eqn:E; [done|]. intros _.
  rewrite Join_snoc by done. done.
Qed.

Lemma Clean_abs path : IsAbs path = true -> IsAbs (Clean path) = true.
Proof. intros H. rewrite Clean_rooted by done. apply IsAbs_slash. Qed.

Lemma JoinPath_abs e es : IsAbs e = true -> IsAbs (JoinPath (e :: es)) = true.
Proof.
  intros H. cbn [JoinPath]. rewrite bool_decide_eq_false_2 by (by intros ->). apply Clean_abs.
  destruct es as [|x es]; [done|]. rewrite Join_cons by done. by apply IsAbs_app.
Qed.

Lemma Clean_ne p : Clean p <> "".
Proof. unfold Clean. repeat case_match; try done. by apply bool_decide_eq_false in H1. Qed.
