(* ===== verification/GoTime.v ===== *)
(** [time.ParseDuration]: a signed sequence of decimal numbers with units, in
    nanoseconds. The fraction of a number is taken exactly, rounded down, where
    Go multiplies by a float64. *)
From S2P Require Import Prelude GoStrings.
From Stdlib Require Import Ascii.

Open Scope Z_scope.

Definition micro (a b : N) : string := String (ascii_of_N a) (String (ascii_of_N b) "s").

Definition unitMap (u : string) : option Z :=
  if bool_decide (u = "ns") then Some 1
  else if bool_decide (u = "us") || bool_decide (u = micro 194 181) || bool_decide (u = micro 206 188) then Some (10 ^ 3)
  else if bool_decide (u = "ms") then Some (10 ^ 6)
  else if bool_decide (u = "s") then Some (10 ^ 9)
  else if bool_decide (u = "m") then Some (60 * 10 ^ 9)
  else if bool_decide (u = "h") then Some (3600 * 10 ^ 9)
  else None.

(** [leadingInt]: the value and the rest, none on overflow of 2^63. *)
Fixpoint leadingInt (x : Z) (s : string) : option (Z * string) :=
  match s with
  | String c r =>
      if is_digit c then
        if (x >? 2 ^ 63 / 10)%Z then None
        else let y := x * 10 + digit_val c in if y >? 2 ^ 63 then None else leadingInt y r
      else Some (x, s)
  | "" => Some (x, s)
  end.

(** [leadingFraction]: the digits that fit, their scale, and the rest. *)
Fixpoint leadingFraction (x scale : Z) (overflow : bool) (s : string) : Z * Z * string :=
  match s with
  | String c r =>
      if is_digit c then
        if overflow || (x >? (2 ^ 63 - 1) / 10) then leadingFraction x scale true r
        else let y := x * 10 + digit_val c in
             if y >? 2 ^ 63 then leadingFraction x scale true r
             else leadingFraction y (scale * 10) false r
      else (x, scale, s)
  | "" => (x, scale, s)
  end.

(** A unit runs to the next digit or dot. *)
Fixpoint take_unit (s : string) : string * string :=
  match s with
  | String c r =>
      if eqc c "." || is_digit c then ("", s)
      else let '(u, t) := take_unit r in (String c u, t)
  | "" => ("", "")
  end.

(** The loop over number and unit; each round consumes at least two bytes, so
    the length of the text is enough fuel. *)
Fixpoint duration_go (fuel : nat) (d : Z) (s : string) : option Z :=
  match s with
  | "" => Some d
  | String c _ =>
      match fuel with
      | O => None
      | S f =>
          if negb (eqc c "." || is_digit c) then None
          else
            '(v, s1) ← leadingInt 0 s;
            let pre := negb (len s1 =? len s)%nat in
            let '(fr, scale, s2, post) :=
              match s1 with
              | String "." s1' =>
                  let '(x, sc, s2) := leadingFraction 0 1 false s1' in
                  (x, sc, s2, negb (len s2 =? len s1')%nat)
              | _ => (0, 1, s1, false)
              end in
            if negb pre && negb post then None
            else
              let '(u, s3) := take_unit s2 in
              if bool_decide (u = "") then None
              else
                unit ← unitMap u;
                if v >? 2 ^ 63 / unit then None
                else
                  let v := v * unit + (if fr >? 0 then fr * unit / scale else 0) in
                  if v >? 2 ^ 63 then None
                  else if d + v >? 2 ^ 63 then None
                  else duration_go f (d + v) s3
      end
  end.

Definition ParseDuration (s : string) : option Z :=
  let '(neg, body) :=
    match s with
    | String c r => if eqc c "-" then (true, r) else if eqc c "+" then (false, r) else (false, s)
    | "" => (false, "")
    end in
  if bool_decide (body = "0") then Some 0
  else if bool_decide (body = "") then None
  else
    d ← duration_go (len body) 0 body;
    if neg then Some (wrap64 (- d))
    else if d >? 2 ^ 63 - 1 then None else Some d.

Example ParseDuration_examples :
  map ParseDuration ["300ms"; "-1.5h"; "2h45m"; "0"; "1"; ""; ".s"; "1.s"; "+5s"; "9223372036854775808ns"; "1us1ns"; "3 s"; "-9223372036854775808ns"]
  = [Some (300 * 10 ^ 6); Some (- (90 * 60 * 10 ^ 9)); Some (165 * 60 * 10 ^ 9); Some 0; None; None; None;
     Some (10 ^ 9); Some (5 * 10 ^ 9); None; Some 1001; None; Some (- 2 ^ 63)].
Proof. vm_compute. reflexivity. Qed.
