(* ===== verification/GoErr.v ===== *)
(** Go's [error] values as the sources use them: the text of [Error()], and
    what [errors.Is] and [errors.As] find along the chain of wrapped errors. *)
From S2P Require Import Prelude GoStrings.

(** The sentinel errors the sources compare with. *)
Inductive sentinel : Type :=
  | ErrClosed | EOF | ECONNRESET | EPIPE | ENOTCONN | ErrCanceled | ErrDeadline | ErrNotExist
  | ErrSSHBootstrapExited.
#[export] Instance sentinel_eq_dec : EqDecision sentinel.
Proof. solve_decision. Defined.

(** The error types the sources look for. *)
Inductive err_type : Type := TAddrError | TDNSError | TTerminalDialError | TNetTimeout.
#[export] Instance err_type_eq_dec : EqDecision err_type.
Proof. solve_decision. Defined.

Record goerr : Type := mkErr {
  Error : string;
  sentinels : list sentinel;
  types : list err_type;
}.

#[export] Instance goerr_eq_dec : EqDecision goerr.
Proof. solve_decision. Defined.

Definition errorsIs (e : goerr) (s : sentinel) : bool := bool_decide (s ∈ sentinels e).
Definition errorsAs (e : goerr) (t : err_type) : bool := bool_decide (t ∈ types e).

(** [fmt.Errorf("...%w")]: a new text, the same chain. *)
Definition wrapErr (text : string) (e : goerr) : goerr := mkErr text (sentinels e) (types e).

Definition plainErr (text : string) : goerr := mkErr text [] [].
