(* ===== verification/Telemetry.v ===== *)
(** The process counters (src/internal/telemetry/metrics.go) and the claim of a
    connection slot under any interleaving of goroutines.

    A goroutine that serves a connection loads the active count, compares and
    swaps it, works, and adds -1. Each atomic operation is one step of the
    system; the scheduler picks any goroutine at each step. *)
From S2P Require Import Prelude.

Open Scope Z_scope.

(** * Counters *)

Record Metrics : Type := mkMetrics {
  ActiveConnections : Z;
  TotalConnections : Z;
  TotalBytesTx : Z;
  TotalBytesRx : Z;
  TotalErrors : Z;
  RejectedConns : Z;
}.

Definition zeroMetrics : Metrics := mkMetrics 0 0 0 0 0 0.

(** [atomic.AddInt64] wraps. *)
Definition AddActiveConnection (n : Z) (m : Metrics) : Metrics :=
  mkMetrics (wrap64 (ActiveConnections m + n)) (TotalConnections m) (TotalBytesTx m)
    (TotalBytesRx m) (TotalErrors m) (RejectedConns m).
Definition AddTotalConnection (m : Metrics) : Metrics :=
  mkMetrics (ActiveConnections m) (wrap64 (TotalConnections m + 1)) (TotalBytesTx m)
    (TotalBytesRx m) (TotalErrors m) (RejectedConns m).
Definition AddBytesTx (n : Z) (m : Metrics) : Metrics :=
  mkMetrics (ActiveConnections m) (TotalConnections m) (wrap64 (TotalBytesTx m + n))
    (TotalBytesRx m) (TotalErrors m) (RejectedConns m).
Definition AddBytesRx (n : Z) (m : Metrics) : Metrics :=
  mkMetrics (ActiveConnections m) (TotalConnections m) (TotalBytesTx m)
    (wrap64 (TotalBytesRx m + n)) (TotalErrors m) (RejectedConns m).
Definition AddError (m : Metrics) : Metrics :=
  mkMetrics (ActiveConnections m) (TotalConnections m) (TotalBytesTx m)
    (TotalBytesRx m) (wrap64 (TotalErrors m + 1)) (RejectedConns m).
Definition AddRejectedConn (m : Metrics) : Metrics :=
  mkMetrics (ActiveConnections m) (TotalConnections m) (TotalBytesTx m)
    (TotalBytesRx m) (TotalErrors m) (wrap64 (RejectedConns m + 1)).

(** A snapshot is six loads, one after another: [at_ i] is what the counters are at
    the i-th. *)
Definition GetMetrics (at_ : nat -> Metrics) : Metrics :=
  mkMetrics (ActiveConnections (at_ 0%nat)) (TotalConnections (at_ 1%nat)) (TotalBytesTx (at_ 2%nat)) (TotalBytesRx (at_ 3%nat))
    (TotalErrors (at_ 4%nat)) (RejectedConns (at_ 5%nat)).

(** [atomic.CompareAndSwapInt64] on the active count. *)
Definition casActive (old new : Z) (m : Metrics) : bool * Metrics :=
  if (ActiveConnections m =? old)%Z
  then (true, mkMetrics new (TotalConnections m) (TotalBytesTx m) (TotalBytesRx m)
                (TotalErrors m) (RejectedConns m))
  else (false, m).

(** * The claim, one atomic operation at a time *)

(** Where a goroutine stands: about to load, between the load and the swap with
    the loaded value, refused, holding a slot, or done with it. *)
Inductive claim_pc : Type :=
  | AtLoad
  | AtCAS (cur : Z)
  | Refused
  | Holding
  | Released.

(** One atomic operation of [TryClaimConnection], or of the deferred release. *)
Definition claim_step (maxConns : Z) (pc : claim_pc) (m : Metrics) : claim_pc * Metrics :=
  match pc with
  | AtLoad =>
      let cur := ActiveConnections m in
      if cur >=? maxConns then (Refused, m) else (AtCAS cur, m)
  | AtCAS cur =>
      let '(swapped, m') := casActive cur (wrap64 (cur + 1)) m in
      if swapped then (Holding, m') else (AtLoad, m')
  | Refused => (Refused, m)
  | Holding => (Released, AddActiveConnection (-1) m)
  | Released => (Released, m)
  end.

(** The call on its own, no other goroutine moving: [fuel] bounds the retries. *)
Fixpoint TryClaimConnection (fuel : nat) (maxConns : Z) (m : Metrics) : option (bool * Metrics) :=
  match fuel with
  | O => None
  | S f =>
      let cur := ActiveConnections m in
      if cur >=? maxConns then Some (false, m)
      else
        let '(swapped, m') := casActive cur (wrap64 (cur + 1)) m in
        if swapped then Some (true, m') else TryClaimConnection f maxConns m'
  end.

(** * The system of goroutines *)

(** A goroutine with two counts for the proofs: the retries it made, and the
    number of changes of the counter it had seen when it last loaded. *)
Record goroutine : Type := mkG { pc : claim_pc; retries : nat; seen : nat }.

Record sys : Type := mkSys {
  metrics : Metrics;
  changes : nat;
  gs : list goroutine;
}.

Definition holding (g : goroutine) : bool := match pc g with Holding => true | _ => false end.
Definition holders (s : sys) : nat := length (List.filter holding (gs s)).

(** One goroutine runs one atomic operation. *)
Definition advance (maxConns : Z) (s : sys) (g : goroutine) : goroutine * sys :=
  let '(pc', m') := claim_step maxConns (pc g) (metrics s) in
  let changed := negb (ActiveConnections m' =? ActiveConnections (metrics s)) in
  (mkG pc'
     (match pc g, pc' with AtCAS _, AtLoad => S (retries g) | _, _ => retries g end)
     (match pc g with AtLoad => changes s | _ => seen g end),
   mkSys m' (if changed then S (changes s) else changes s) (gs s)).

Inductive sys_step (maxConns : Z) : sys -> sys -> Prop :=
  | step_start s :
      sys_step maxConns s (mkSys (metrics s) (changes s) (gs s ++ [mkG AtLoad 0 0]))
  | step_run s i g g' s' :
      gs s !! i = Some g ->
      advance maxConns s g = (g', s') ->
      sys_step maxConns s (mkSys (metrics s') (changes s') (<[i := g']> (gs s))).

Definition sys0 : sys := mkSys zeroMetrics 0 [].

(** * What a claim promises

    No counter and no retries: a goroutine waits for the answer, and gets a
    slot, or a refusal, in one indivisible step decided by how many hold one. *)

Inductive slot : Type := Waiting | Turned | Held | GivenBack.

#[global] Instance slot_eq_dec : EqDecision slot.
Proof. solve_decision. Defined.

Definition held (l : list slot) : Z := Z.of_nat (length (List.filter (fun x => bool_decide (x = Held)) l)).

Inductive slot_step (maxConns : Z) : list slot -> list slot -> Prop :=
  | slot_start l : slot_step maxConns l (l ++ [Waiting])
  | slot_claim l i : l !! i = Some Waiting -> held l < maxConns -> slot_step maxConns l (<[i := Held]> l)
  | slot_refuse l i : l !! i = Some Waiting -> maxConns <= held l -> slot_step maxConns l (<[i := Turned]> l)
  | slot_release l i : l !! i = Some Held -> slot_step maxConns l (<[i := GivenBack]> l).

Definition slot_of (g : goroutine) : slot :=
  match pc g with
  | AtLoad | AtCAS _ => Waiting
  | Refused => Turned
  | Holding => Held
  | Released => GivenBack
  end.
Definition slots (s : sys) : list slot := slot_of <$> gs s.

(** * Facts *)

Lemma filter_insert_count (p : goroutine -> bool) l i g g' :
  l !! i = Some g ->
  Z.of_nat (length (List.filter p (<[i := g']> l)))
  = Z.of_nat (length (List.filter p l)) - Z.b2z (p g) + Z.b2z (p g').
Proof.
  revert i. induction l as [|x l IH]; intros [|i] H; [done|done| |].
  - injection H as ->. change (<[0%nat:=g']> (g :: l)) with (g' :: l). cbn [List.filter].
    destruct (p g), (p g'); cbn [Z.b2z length]; lia.
  - cbn in H. specialize (IH i H). change (<[S i:=g']> (x :: l)) with (x :: <[i:=g']> l). cbn [List.filter].
    destruct (p x); cbn [length]; lia.
Qed.

(** Every goroutine's own bookkeeping. *)
Definition g_ok (maxConns active : Z) (n : nat) (g : goroutine) : Prop :=
  (retries g <= n)%nat
  /\ match pc g with
     | AtCAS cur => cur < maxConns /\ (retries g <= seen g <= n)%nat /\ (seen g = n -> cur = active)
     | _ => True
     end.

Definition sys_ok (maxConns : Z) (s : sys) : Prop :=
  ActiveConnections (metrics s) = Z.of_nat (holders s)
  /\ ActiveConnections (metrics s) <= maxConns
  /\ Forall (g_ok maxConns (ActiveConnections (metrics s)) (changes s)) (gs s).

Lemma g_ok_changed maxConns a b n g : g_ok maxConns a n g -> g_ok maxConns b (S n) g.
Proof.
  unfold g_ok. intros [Hr H]. split; [lia|]. destruct (pc g); [done| |done|done|done].
  destruct H as (H1 & H2 & H3). repeat split; try lia.
Qed.

Lemma advance_ok maxConns s i g g' s' :
  0 <= maxConns <= max_int64 -> sys_ok maxConns s -> gs s !! i = Some g ->
  advance maxConns s g = (g', s') ->
  sys_ok maxConns (mkSys (metrics s') (changes s') (<[i := g']> (gs s))).
Proof.
  intros Hmax (Hcount & Hle & Hall) Hi Hadv.
  pose proof (proj1 (Forall_lookup _ _) Hall i g Hi) as Hg.
  pose proof (filter_insert_count holding (gs s) i g g' Hi) as Hlen.
  unfold holders in Hcount. unfold sys_ok, holders. cbn [metrics changes gs].
  unfold advance, claim_step, g_ok in *. destruct g as [p r v]. cbn [pc retries seen] in *.
  destruct p as [|cur| | |]; cbn in Hadv.
  - destruct (_ >=? _) eqn:Hc in Hadv; injection Hadv as <- <-; cbn in *; rewrite ?Z.eqb_refl; cbn;
      (split; [lia|]); (split; [lia|]); apply Forall_insert; try done; cbn; try (split; [tauto|done]).
    split; [tauto|]. repeat split; lia.
  - unfold casActive in Hadv. destruct (_ =? cur) eqn:Hc in Hadv.
    + apply Z.eqb_eq in Hc. rewrite wrap64_id in Hadv by (unfold min_int64 in *; lia).
      cbn in Hadv. replace (cur + 1 =? ActiveConnections (metrics s)) with false in Hadv
        by (symmetry; apply Z.eqb_neq; lia).
      injection Hadv as <- <-. cbn in *. split; [lia|]. split; [lia|]. apply Forall_insert.
      * eapply Forall_impl; [exact Hall|]. intros x. apply g_ok_changed.
      * cbn. split; [lia|done].
    + injection Hadv as <- <-. rewrite Z.eqb_refl. cbn in *. split; [lia|]. split; [lia|].
      apply Forall_insert; [done|]. cbn. destruct Hg as (_ & _ & H2 & H3).
      apply Z.eqb_neq in Hc. split; [|done]. destruct (decide (v = changes s)) as [->|]; [|lia].
      exfalso. apply Hc. symmetry. by apply H3.
  - injection Hadv as <- <-. rewrite Z.eqb_refl. cbn in *. repeat split; try lia. by apply Forall_insert.
  - assert (0 < ActiveConnections (metrics s)) as Hpos.
    { rewrite Hcount. destruct (List.filter holding (gs s)) eqn:E; [|cbn; lia]. exfalso.
      assert (In (mkG Holding r v) (List.filter holding (gs s))) as Hin.
      { apply List.filter_In. split; [|done]. apply list_elem_of_In. by eapply list_elem_of_lookup_2. }
      by rewrite E in Hin. }
    rewrite wrap64_id in Hadv by (unfold min_int64; lia).
    replace (_ + -1 =? _) with false in Hadv by (symmetry; apply Z.eqb_neq; lia).
    injection Hadv as <- <-. cbn in *. rewrite wrap64_id by (unfold min_int64; lia).
    split; [lia|]. split; [lia|]. apply Forall_insert.
    + eapply Forall_impl; [exact Hall|]. intros x. apply g_ok_changed.
    + cbn. split; [lia|done].
  - injection Hadv as <- <-. rewrite Z.eqb_refl. cbn in *. repeat split; try lia. by apply Forall_insert.
Qed.

Lemma sys_step_ok maxConns s s' :
  0 <= maxConns <= max_int64 -> sys_ok maxConns s -> sys_step maxConns s s' -> sys_ok maxConns s'.
Proof.
  intros Hmax Hok Hstep. destruct Hstep as [s|s i g g' s' Hi Hadv]; [|by eapply advance_ok].
  destruct Hok as (Hc & Hle & Hall). unfold sys_ok, holders in *. cbn.
  rewrite List.filter_app. cbn. rewrite app_nil_r. split; [done|]. split; [done|].
  apply Forall_app. split; [done|]. constructor; [|done]. split; [cbn; lia|done].
Qed.

Lemma reachable_ok maxConns s :
  0 <= maxConns <= max_int64 -> reachable (sys_step maxConns) sys0 s -> sys_ok maxConns s.
Proof.
  intros Hmax. apply invariant_reachable; [|intros; by eapply sys_step_ok].
  split; [done|]. split; [cbn; lia|constructor].
Qed.

Lemma held_slots s : held (slots s) = Z.of_nat (holders s).
Proof.
  unfold held, slots, holders. f_equal. induction (gs s) as [|[p r v] l IH]; [done|].
  rewrite fmap_cons. cbn [List.filter]. destruct p; cbn; by rewrite <- IH.
Qed.

Lemma slots_insert s i g m n :
  slots (mkSys m n (<[i := g]> (gs s))) = <[i := slot_of g]> (slots s).
Proof. apply list_fmap_insert. Qed.

(** The operation that decides a claim is the load that finds the limit reached
    or the swap that succeeds; every other one leaves the goroutine waiting. *)
Lemma advance_simulates maxConns s i g g' s' :
  sys_ok maxConns s -> gs s !! i = Some g -> advance maxConns s g = (g', s') ->
  slot_of g' = slot_of g \/ slot_step maxConns (slots s) (<[i := slot_of g']> (slots s)).
Proof.
  intros (Hcount & _ & Hall) Hi Hadv. pose proof (proj1 (Forall_lookup _ _) Hall i g Hi) as [_ Hg].
  rewrite <- held_slots in Hcount. assert (slots s !! i = Some (slot_of g)) as Hs by (unfold slots; by rewrite list_lookup_fmap, Hi).
  unfold advance, claim_step in Hadv. destruct g as [p r v]. cbn [pc slot_of] in *.
  destruct p as [|cur| | |]; cbn [pc] in Hadv.
  - destruct (_ >=? _) eqn:Hc in Hadv; injection Hadv as <- _; [right|by left].
    apply slot_refuse; [done|]. apply Z.geb_le in Hc. lia.
  - unfold casActive in Hadv. destruct (_ =? cur) eqn:Hc in Hadv; injection Hadv as <- _; [right|by left].
    apply slot_claim; [done|]. apply Z.eqb_eq in Hc. lia.
  - injection Hadv as <- _. by left.
  - injection Hadv as <- _. right. by apply slot_release.
  - injection Hadv as <- _. by left.
Qed.

Lemma sys_step_simulates maxConns s s' :
  sys_ok maxConns s -> sys_step maxConns s s' -> slots s' = slots s \/ slot_step maxConns (slots s) (slots s').
Proof.
  intros Hok Hstep. destruct Hstep as [s|s i g g' s1 Hi Hadv].
  - right. unfold slots. cbn [gs]. rewrite fmap_app. apply slot_start.
  - rewrite slots_insert. destruct (advance_simulates _ _ _ _ _ _ Hok Hi Hadv) as [->|]; [left|by right].
    apply list_insert_id. unfold slots. by rewrite list_lookup_fmap, Hi.
Qed.

(** Undisturbed, the swap succeeds on the first round. *)
Lemma TryClaim_alone fuel maxConns m :
  min_int64 <= ActiveConnections m -> maxConns <= max_int64 ->
  TryClaimConnection (S fuel) maxConns m
  = Some (if ActiveConnections m <? maxConns
          then (true, AddActiveConnection 1 m) else (false, m)).
Proof.
  intros Hmin Hmax. cbn. unfold casActive, AddActiveConnection. rewrite Z.geb_leb, Z.eqb_refl.
  destruct (ActiveConnections m <? maxConns) eqn:E.
  - apply Z.ltb_lt in E. by replace (maxConns <=? _) with false by (symmetry; apply Z.leb_gt; lia).
  - apply Z.ltb_ge in E. by replace (maxConns <=? _) with true by (symmetry; apply Z.leb_le; lia).
Qed.

(** A schedule: [None] starts a goroutine, [Some i] runs goroutine [i]. *)
Definition schedule_step (maxConns : Z) (o : option nat) (s : sys) : sys :=
  match o with
  | None => mkSys (metrics s) (changes s) (gs s ++ [mkG AtLoad 0 0])
  | Some i =>
      match gs s !! i with
      | Some g => let '(g', s') := advance maxConns s g in
                  mkSys (metrics s') (changes s') (<[i := g']> (gs s))
      | None => s
      end
  end.
Definition run_schedule (maxConns : Z) (l : list (option nat)) (s : sys) : sys :=
  fold_left (fun s o => schedule_step maxConns o s) l s.

Lemma run_schedule_reachable maxConns l s s0 :
  reachable (sys_step maxConns) s0 s -> reachable (sys_step maxConns) s0 (run_schedule maxConns l s).
Proof.
  revert s. induction l as [|o l IH]; intros s H; [done|]. apply IH. destruct o as [i|]; cbn.
  - destruct (gs s !! i) as [g|] eqn:E; [|done].
    destruct (advance maxConns s g) as [g' s'] eqn:Ha. eapply reach_step; [done|by econstructor].
  - eapply reach_step; [done|constructor].
Qed.

(** Two goroutines racing for one slot: both load 0, the first swap wins and
    the second retries. *)
Definition raced : sys := run_schedule 1 [None; None; Some 0%nat; Some 1%nat; Some 0%nat; Some 1%nat] sys0.

(** * Properties *)

(** C3: under every interleaving of any number of goroutines, the active count
    is exactly the number of goroutines holding a slot and never exceeds the
    limit. *)
Theorem claims_never_exceed_limit :
  forall (maxConns : Z) (s : sys),
    0 <= maxConns <= max_int64 ->
    reachable (sys_step maxConns) sys0 s ->
    ActiveConnections (metrics s) = Z.of_nat (holders s) /\ Z.of_nat (holders s) <= maxConns.
Proof. intros maxConns s Hmax Hr. destruct (reachable_ok _ _ Hmax Hr) as (H1 & H2 & _). lia. Qed.

(** C40: a goroutine's retries never outnumber the changes made to the counter:
    the compare-and-swap of a claim fails only because some other goroutine
    claimed or released in between, so claiming cannot spin on its own. *)
Theorem claim_retries_bounded :
  forall (maxConns : Z) (s : sys) (g : goroutine),
    0 <= maxConns <= max_int64 ->
    reachable (sys_step maxConns) sys0 s ->
    g ∈ gs s -> (retries g <= changes s)%nat.
Proof.
  intros maxConns s g Hmax Hr Hg. destruct (reachable_ok _ _ Hmax Hr) as (_ & _ & Hall).
  rewrite Forall_forall in Hall. by apply Hall.
Qed.

(** A snapshot need not be the counters of one moment, but each of the growing ones
    lies between its values when the snapshot began and when it ended. *)
Theorem snapshot_between (at_ : nat -> Metrics) (p : Metrics -> Z) :
  p ∈ [TotalConnections; TotalBytesTx; TotalBytesRx; TotalErrors; RejectedConns] ->
  (forall i j, (i <= j)%nat -> p (at_ i) <= p (at_ j)) ->
  p (at_ 0%nat) <= p (GetMetrics at_) <= p (at_ 5%nat).
Proof. intros Hp Hm. rewrite !elem_of_cons, elem_of_nil in Hp. destruct_or! Hp; subst p; try done; cbn; split; apply Hm; lia. Qed.

(** C4: loading, comparing, swapping and retrying implement an indivisible claim.
    Whatever the interleaving, what the goroutines see is a run of the
    specification in which a slot is taken, or refused, in one step decided by
    the number held at that instant; and each atomic operation of the code is
    one step of it, or none. *)
Theorem claims_linearize :
  forall (maxConns : Z) (s s' : sys),
    0 <= maxConns <= max_int64 ->
    reachable (sys_step maxConns) sys0 s ->
    reachable (slot_step maxConns) [] (slots s)
    /\ ActiveConnections (metrics s) = held (slots s)
    /\ (sys_step maxConns s s' -> slots s' = slots s \/ slot_step maxConns (slots s) (slots s')).
Proof.
  intros maxConns s s' Hmax Hr. destruct (simulation_reachable (sys_step maxConns) (slot_step maxConns) slots (sys_ok maxConns) sys0 s) as [Hok Ha].
  - apply (reachable_ok _ sys0 Hmax). constructor.
  - intros a b Ha Hs. split; [by eapply sys_step_ok|by apply sys_step_simulates].
  - done.
  - split; [done|]. split; [rewrite held_slots; apply Hok|]. by apply sys_step_simulates.
Qed.

(** Undisturbed, the claim returns on its first round: it takes a slot
    exactly when the count is below the limit, and changes nothing when it
    refuses. *)
Theorem claim_alone_returns :
  forall (fuel : nat) (maxConns : Z) (m : Metrics),
    min_int64 <= ActiveConnections m -> maxConns <= max_int64 ->
    TryClaimConnection (S fuel) maxConns m
    = Some (if ActiveConnections m <? maxConns
            then (true, AddActiveConnection 1 m) else (false, m)).
Proof. apply TryClaim_alone. Qed.

Lemma claims_never_exceed_limit_witness :
  ActiveConnections (metrics raced) = Z.of_nat (holders raced) /\ Z.of_nat (holders raced) <= 1.
Proof. apply claims_never_exceed_limit; [by vm_compute|apply run_schedule_reachable, reach_init]. Defined.

Lemma claims_linearize_witness :
  slots raced = [Held; Waiting] /\ reachable (slot_step 1) [] [Held; Waiting].
Proof.
  split; [by vm_compute|]. assert (0 <= 1 <= max_int64) as Hmax by (by vm_compute).
  exact (proj1 (claims_linearize 1 raced raced Hmax (run_schedule_reachable _ _ _ _ (reach_init _ _)))).
Defined.

Lemma claim_retries_bounded_witness : (1 <= changes raced)%nat.
Proof.
  apply (claim_retries_bounded 1 raced (mkG AtLoad 1 0)); [by vm_compute|apply run_schedule_reachable, reach_init|].
  vm_compute. right. left.
Defined.

(** A connection that comes between the first load and the second is in the total
    and not among the active ones: no moment had these counters. *)
Lemma snapshot_between_witness :
  GetMetrics (fun i => if (i =? 0)%nat then zeroMetrics else mkMetrics 1 1 0 0 0 0) = mkMetrics 0 1 0 0 0 0
  /\ 0 <= TotalConnections (GetMetrics (fun i => if (i =? 0)%nat then zeroMetrics else mkMetrics 1 1 0 0 0 0)) <= 1.
Proof.
  split; [reflexivity|].
  apply (snapshot_between (fun i => if (i =? 0)%nat then zeroMetrics else mkMetrics 1 1 0 0 0 0) TotalConnections); [by left|].
  intros [|i] [|j] H; cbn; lia.
Defined.

Lemma claim_alone_returns_witness :
  TryClaimConnection 1 2 (mkMetrics 1 0 0 0 0 0) = Some (true, mkMetrics 2 0 0 0 0 0).
Proof. rewrite (claim_alone_returns 0 2 (mkMetrics 1 0 0 0 0 0)); by vm_compute. Defined.
