(* ===== verification/Health.v ===== *)
(** The tunnel status and the health endpoints (src/internal/health/health.go).
    [TunnelStatus] is two atomics, so a store and a load are two steps each and
    may interleave. *)
From S2P Require Import Prelude GoStrings Telemetry.

(** * The status *)

Record TunnelStatus : Type := mkStatus { ready : bool; reason : option string }.

(** The zero value: a false [atomic.Bool] and an empty [atomic.Value]. *)
Definition zeroStatus : TunnelStatus := mkStatus false None.

(** The two writes of [Store], the two reads of [Load], in program order. *)
Definition storeReason (r : string) (s : TunnelStatus) : TunnelStatus := mkStatus (ready s) (Some r).
Definition storeReady (b : bool) (s : TunnelStatus) : TunnelStatus := mkStatus b (reason s).
Definition Store (b : bool) (r : string) (s : TunnelStatus) : TunnelStatus := storeReady b (storeReason r s).
Definition Load (s : TunnelStatus) : bool * string := (ready s, default "" (reason s)).
Definition MarkReady (s : TunnelStatus) : TunnelStatus := Store true "" s.

(** * The endpoints *)

Record ServiceState : Type := mkService { Kind : string; Port : Z; Published : bool }.

(** The body of /health/ready: the status, the reason when there is one, and
    what a report adds. *)
Record ready_body : Type := mkBody {
  statusField : string;
  bodyReason : option string;
  node : option string;
  services : option (list ServiceState);
}.

Definition readyHandler (loaded : bool * string) (report : option (string * list ServiceState)) : Z * ready_body :=
  let '(isReady, why) := loaded in
  let '(code, status, r) :=
    if isReady then (200%Z, "ok", None)
    else (503%Z, "not_ready", if bool_decide (why = "") then None else Some why) in
  (code, mkBody status r (fst <$> report) (snd <$> report)).

Definition liveHandler : Z * string := (200%Z, "ok").

(** [/metrics] loads one counter after the other. *)
Definition metricsHandler (m : Metrics) : Z * Metrics := (200%Z, m).

(** * A writer and a reader *)

(** A writer storing a list of states one after the other, and a reader loading
    once. *)
Inductive reader_pc : Type := ReadReason | ReadReady (r : string) | ReadDone (b : bool) (r : string).

Record race : Type := mkRace {
  status : TunnelStatus;
  half : option bool;
  todo : list (bool * string);
  done_ : list (bool * string);
  reader : reader_pc;
}.

Inductive race_step : race -> race -> Prop :=
  | write_reason s b r l d p :
      race_step (mkRace s None ((b, r) :: l) d p) (mkRace (storeReason r s) (Some b) ((b, r) :: l) d p)
  | write_ready s b' b r l d p :
      race_step (mkRace s (Some b') ((b, r) :: l) d p) (mkRace (storeReady b' s) None l (d ++ [(b, r)]) p)
  | read_reason s h l d :
      race_step (mkRace s h l d ReadReason) (mkRace s h l d (ReadReady (default "" (reason s))))
  | read_ready s h l d r :
      race_step (mkRace s h l d (ReadReady r)) (mkRace s h l d (ReadDone (ready s) r)).

(** A writer that has stored [first] and will store [stores]. *)
Definition race0 (first : bool * string) (stores : list (bool * string)) : race :=
  mkRace (Store first.1 first.2 zeroStatus) None stores [first] ReadReason.

(** * Facts *)

(** The pairs the writer stores in all. *)
Definition written (x : race) : list (bool * string) := done_ x ++ todo x.

Definition race_ok (all : list (bool * string)) (x : race) : Prop :=
  written x = all
  /\ (exists d b r, done_ x = d ++ [(b, r)] /\ ready (status x) = b
      /\ (half x = None -> reason (status x) = Some r))
  /\ (forall b, half x = Some b -> exists r l, todo x = (b, r) :: l /\ reason (status x) = Some r)
  /\ (match reader x with
      | ReadReason => True
      | ReadReady r => exists b, (b, r) ∈ all
      | ReadDone b r => (exists r', (b, r') ∈ all) /\ (exists b', (b', r) ∈ all)
      end).

Lemma race_step_ok all x y : race_ok all x -> race_step x y -> race_ok all y.
Proof.
  intros (Hw & (d0 & b0 & r0 & Hd & Hr & Hn) & Hh & Hp) Hs. destruct Hs as [s b r l d p|s b' b r l d p|s h l d|s h l d r];
    unfold race_ok, written in *; cbn in *.
  - split; [done|]. split; [by exists d0, b0, r0|]. split; [|done]. intros b1 [= <-]. by exists r, l.
  - destruct (Hh b' eq_refl) as (r' & l' & [= <- <- <-] & Hr'). rewrite <- app_assoc. split; [done|].
    split; [|split; done]. by exists d, b, r.
  - split; [done|]. split; [by exists d0, b0, r0|]. split; [done|]. destruct h as [b|].
    + destruct (Hh b eq_refl) as (r' & l' & -> & ->). exists b. cbn. rewrite <- Hw. set_solver.
    + rewrite (Hn eq_refl). exists b0. cbn. rewrite <- Hw, Hd. set_solver.
  - split; [done|]. split; [by exists d0, b0, r0|]. split; [done|]. split; [|done].
    exists r0. rewrite <- Hw, Hd, Hr. set_solver.
Qed.

Lemma race_reachable_ok first stores x :
  reachable race_step (race0 first stores) x -> race_ok (first :: stores) x.
Proof.
  apply invariant_reachable; [|intros; by eapply race_step_ok]. destruct first as [b r].
  unfold race_ok, written. cbn. split; [done|]. split; [by exists [], b, r|]. split; done.
Qed.

(** * Properties *)

(** A load that races with any sequence of stores returns a flag that was
    stored and a reason that was stored, so readiness is never made up. *)
Theorem load_reads_stored_values :
  forall (first : bool * string) (stores : list (bool * string)) (x : race) (b : bool) (r : string),
    reachable race_step (race0 first stores) x ->
    reader x = ReadDone b r ->
    (exists r', (b, r') ∈ first :: stores) /\ (exists b', (b', r) ∈ first :: stores).
Proof.
  intros first stores x b r Hx Hr. destruct (race_reachable_ok _ _ _ Hx) as (_ & _ & _ & H). by rewrite Hr in H.
Qed.

(** A store is not atomic: while the writer replaces "ready" by "not ready,
    with a reason", a load can return the old flag with the new reason and, the
    other way round, "not ready" with no reason, a pair that was never stored,
    so /health/ready answers 503 and does not say why. *)
Theorem store_is_not_atomic :
  exists (first : bool * string) (stores : list (bool * string)) (x : race) (b : bool) (r : string),
    reachable race_step (race0 first stores) x
    /\ reader x = ReadDone b r
    /\ ~ ((b, r) ∈ first :: stores)
    /\ readyHandler (b, r) None = (503%Z, mkBody "not_ready" None None None).
Proof.
  exists (false, "starting"), [(true, "")].
  exists (mkRace (mkStatus false (Some "")) (Some true) [(true, "")] [(false, "starting")] (ReadDone false "")), false, "".
  split; [|split; [done|split; [|done]]].
  - eapply reach_step; [|apply read_ready]. eapply reach_step; [|apply (read_reason (mkStatus false (Some "")))].
    eapply reach_step; [|apply (write_reason (mkStatus false (Some "starting")))]. apply reach_init.
  - set_solver.
Qed.

(** The zero status is not ready, with no reason. *)
Theorem zero_status_not_ready :
  Load zeroStatus = (false, "")
  /\ readyHandler (Load zeroStatus) None = (503%Z, mkBody "not_ready" None None None)
  /\ Load (MarkReady zeroStatus) = (true, "").
Proof. done. Qed.

Lemma load_reads_stored_values_witness :
  (exists r', (true, r') ∈ [(true, ""); (false, "draining")]) /\ (exists b', (b', "") ∈ [(true, ""); (false, "draining")]).
Proof.
  apply (load_reads_stored_values (true, "") [(false, "draining")]
           (mkRace (mkStatus true (Some "")) None [(false, "draining")] [(true, "")] (ReadDone true "")) true "").
  - eapply reach_step; [|apply read_ready]. eapply reach_step; [|apply (read_reason (mkStatus true (Some "")))]. apply reach_init.
  - done.
Defined.
