(* ===== verification/Reconnect.v ===== *)
(** The retrying dialer (src/internal/proxy/reconnect.go): which attempts it
    makes, how long it waits between them and which error it reports.

    What the inner dialer answers, when the context ends and what the random
    source yields are the environment of a run. *)
From S2P Require Import Prelude GoStrings GoErr.

Open Scope Z_scope.

Definition maxBackoffAttempt : Z := 30.

(** [rand.Int64N(n)] answers in [0, n). *)
Definition computeBackoff (attempt base maxBackoff : Z) (randInt64N : Z -> Z) : Z :=
  if base <=? 0 then 0
  else
    let exp := attempt in
    let exp := if exp <? 0 then 0 else exp in
    let exp := if exp >? maxBackoffAttempt then maxBackoffAttempt else exp in
    let d := wrap64 (Z.shiftl base exp) in
    let d := if (d <=? 0) || (d >? maxBackoff) then maxBackoff else d in
    let jitterMax := Z.quot d 2 in
    if jitterMax <=? 0 then d
    else wrap64 (d + randInt64N jitterMax).

Definition isPermanentDialError (e : goerr) : bool :=
  errorsAs e TAddrError || errorsAs e TDNSError
  || HasPrefix (Error e) "tsnet: backend in state ".

(** [TerminalDialError] keeps its cause's text and chain. *)
Definition TerminalDialError (cause : goerr) : goerr :=
  mkErr (Error cause) (sentinels cause) (TTerminalDialError :: types cause).

(** Why [Dial] failed: the context ended, a permanent error, or every attempt
    failed (the count and the last error, none when no attempt was made). *)
Inductive dial_failure : Type :=
  | DialCtx (e : goerr)
  | DialTerminal (e : goerr)
  | DialExhausted (attempts : Z) (last : option goerr).

Record ReconnectDialer : Type := mkReconnect {
  MaxRetries : Z;
  BaseBackoff : Z;
  MaxBackoff : Z;
}.

(** One run's environment: the inner dialer's answer to attempt [i], the
    context's error after it, whether the context ends before the wait that
    follows it does, and the jitter drawn for it. *)
Record dial_env (conn : Type) : Type := mkDialEnv {
  inner : nat -> result goerr conn;
  ctx_err : nat -> option goerr;
  ctx_wait : nat -> option goerr;
  rand : nat -> Z -> Z;
}.
Arguments inner {conn}.
Arguments ctx_err {conn}.
Arguments ctx_wait {conn}.
Arguments rand {conn}.

(** The loop of [Dial] with [n] attempts left, [attempt] already made: the
    answer, and the waits begun. *)
Fixpoint dial_loop {conn} (r : ReconnectDialer) (env : dial_env conn) (totalAttempts : Z)
    (n attempt : nat) (lastErr : option goerr) : result dial_failure conn * list Z :=
  match n with
  | O => (Err (DialExhausted totalAttempts lastErr), [])
  | S n' =>
      match inner env attempt with
      | Ok c => (Ok c, [])
      | Err e =>
          match ctx_err env attempt with
          | Some ce => (Err (DialCtx ce), [])
          | None =>
              if isPermanentDialError e then (Err (DialTerminal (TerminalDialError e)), [])
              else if Z.of_nat attempt =? totalAttempts - 1
              then (Err (DialExhausted totalAttempts (Some e)), [])
              else
                let backoff := computeBackoff (Z.of_nat attempt) (BaseBackoff r) (MaxBackoff r) (rand env attempt) in
                match ctx_wait env attempt with
                | Some ce => (Err (DialCtx ce), [backoff])
                | None =>
                    let '(res, waits) := dial_loop r env totalAttempts n' (S attempt) (Some e) in
                    (res, backoff :: waits)
                end
          end
      end
  end.

Definition Dial {conn} (r : ReconnectDialer) (env : dial_env conn) : result dial_failure conn * list Z :=
  let totalAttempts := wrap64 (MaxRetries r + 1) in
  dial_loop r env totalAttempts (Z.to_nat totalAttempts) 0 None.

(** * Facts *)

(** Attempt [i] failed with an error a retry may cure, the context alive. *)
Definition transient {conn} (env : dial_env conn) (i : nat) : Prop :=
  exists e, inner env i = Err e /\ ctx_err env i = None /\ isPermanentDialError e = false.

(** What the answer says of the attempt [k] it came from, of [total]. *)
Definition dial_answer {conn} (env : dial_env conn) (total : Z) (k : nat) (res : result dial_failure conn) : Prop :=
  match res with
  | Ok c => inner env k = Ok c
  | Err (DialTerminal te) =>
      exists e, inner env k = Err e /\ ctx_err env k = None /\ isPermanentDialError e = true /\ te = TerminalDialError e
  | Err (DialCtx ce) =>
      (exists e, inner env k = Err e)
      /\ (ctx_err env k = Some ce \/ (transient env k /\ ctx_wait env k = Some ce /\ Z.of_nat k < total - 1))
  | Err (DialExhausted n last) =>
      n = total /\ Z.of_nat k = total - 1 /\ transient env k /\ exists e, inner env k = Err e /\ last = Some e
  end.

(** The waits of [m] attempts in a row, from attempt [i]. *)
Definition waits_of {conn} (r : ReconnectDialer) (env : dial_env conn) (i m : nat) : list Z :=
  map (fun j => computeBackoff (Z.of_nat j) (BaseBackoff r) (MaxBackoff r) (rand env j)) (seq i m).

Lemma dial_loop_spec {conn} (r : ReconnectDialer) (env : dial_env conn) total n attempt last :
  (0 < n)%nat -> Z.of_nat attempt + Z.of_nat n = total ->
  exists k : nat,
    (attempt <= k < attempt + n)%nat
    /\ (forall i, (attempt <= i < k)%nat -> transient env i /\ ctx_wait env i = None)
    /\ dial_answer env total k (dial_loop r env total n attempt last).1
    /\ exists m : nat, (m = k - attempt \/ m = S (k - attempt))%nat
       /\ (dial_loop r env total n attempt last).2 = waits_of r env attempt m.
Proof.
  revert attempt last. induction n as [|n IH]; intros attempt last Hn Ht; [lia|]. cbn [dial_loop].
  assert (Hnone : forall i, (attempt <= i < attempt)%nat -> False) by lia.
  destruct (inner env attempt) as [c|e] eqn:Hi.
  { exists attempt. split; [lia|]. split; [intros i Hk; lia|]. split; [done|].
    exists 0%nat. split; [lia|done]. }
  destruct (ctx_err env attempt) as [ce|] eqn:Hc.
  { exists attempt. split; [lia|]. split; [intros i Hk; lia|]. split; [cbn; eauto|].
    exists 0%nat. split; [lia|done]. }
  destruct (isPermanentDialError e) eqn:Hp.
  { exists attempt. split; [lia|]. split; [intros i Hk; lia|]. split; [cbn; eauto|].
    exists 0%nat. split; [lia|done]. }
  assert (Htr : transient env attempt) by (exists e; done).
  destruct (Z.of_nat attempt =? total - 1) eqn:Hl.
  { apply Z.eqb_eq in Hl. exists attempt. split; [lia|]. split; [intros i Hk; lia|].
    split; [cbn; eauto 10|]. exists 0%nat. split; [lia|done]. }
  apply Z.eqb_neq in Hl.
  destruct (ctx_wait env attempt) as [ce|] eqn:Hw.
  { exists attempt. split; [lia|]. split; [intros i Hk; lia|].
    split. { cbn. split; [eauto|]. right. split; [done|]. split; [done|lia]. }
    exists 1%nat. split; [lia|done]. }
  destruct (IH (S attempt) (Some e)) as (k & Hk & Hall & Hans & m & Hm & Heq); [lia|lia|].
  exists k. split; [lia|]. split.
  { intros i Hik. destruct (decide (i = attempt)) as [->|]; [done|]. apply Hall. lia. }
  destruct (dial_loop r env total n (S attempt) (Some e)) as [res waits]. cbn in Hans, Heq |- *.
  split; [done|]. exists (S m). split; [lia|]. by rewrite Heq.
Qed.

Lemma shiftl_mul base n : 0 <= n -> Z.shiftl base n = base * 2 ^ n.
Proof. intros H. by rewrite Z.shiftl_mul_pow2. Qed.

(** The exponent the source shifts by. *)
Definition capped (attempt : Z) : Z := Z.min (Z.max attempt 0) maxBackoffAttempt.

(** The delay before jitter. *)
Definition capped_delay (attempt base maxBackoff : Z) : Z :=
  let d := wrap64 (Z.shiftl base (capped attempt)) in
  if (d <=? 0) || (d >? maxBackoff) then maxBackoff else d.

Lemma computeBackoff_delay attempt base maxBackoff rnd :
  0 < base ->
  computeBackoff attempt base maxBackoff rnd
  = (let d := capped_delay attempt base maxBackoff in
     if Z.quot d 2 <=? 0 then d else wrap64 (d + rnd (Z.quot d 2))).
Proof.
  intros Hb. unfold computeBackoff, capped_delay, capped.
  replace (base <=? 0) with false by (symmetry; apply Z.leb_gt; lia).
  replace (if (if attempt <? 0 then 0 else attempt) >? maxBackoffAttempt then maxBackoffAttempt
           else if attempt <? 0 then 0 else attempt)
    with (Z.min (Z.max attempt 0) maxBackoffAttempt); [done|].
  unfold maxBackoffAttempt. destruct (attempt <? 0) eqn:E1; rewrite Z.gtb_ltb;
    [apply Z.ltb_lt in E1|apply Z.ltb_ge in E1].
  - cbn. lia.
  - destruct (30 <? attempt) eqn:E2; [apply Z.ltb_lt in E2|apply Z.ltb_ge in E2]; lia.
Qed.

Lemma capped_delay_range attempt base maxBackoff :
  0 < base -> 0 <= maxBackoff -> 0 <= capped_delay attempt base maxBackoff <= maxBackoff.
Proof.
  intros Hb Hm. unfold capped_delay. destruct (_ || _) eqn:E; [lia|].
  apply orb_false_iff in E as [E1 E2]. apply Z.leb_gt in E1. rewrite Z.gtb_ltb in E2. apply Z.ltb_ge in E2. lia.
Qed.

Lemma capped_delay_exact attempt base maxBackoff :
  0 < base -> base * 2 ^ capped attempt <= max_int64 ->
  capped_delay attempt base maxBackoff = Z.min (base * 2 ^ capped attempt) maxBackoff
  \/ (maxBackoff < base * 2 ^ capped attempt /\ capped_delay attempt base maxBackoff = maxBackoff).
Proof.
  intros Hb Hle. assert (0 <= capped attempt) by (unfold capped, maxBackoffAttempt; lia).
  unfold capped_delay. rewrite shiftl_mul by done.
  assert (0 < 2 ^ capped attempt) by (apply Z.pow_pos_nonneg; lia).
  assert (0 < base * 2 ^ capped attempt) by nia.
  rewrite wrap64_id by (unfold min_int64; lia).
  replace (_ <=? 0) with false by (symmetry; apply Z.leb_gt; lia). cbn [orb].
  rewrite Z.gtb_ltb. destruct (maxBackoff <? _) eqn:E; [apply Z.ltb_lt in E; by right|apply Z.ltb_ge in E; left; lia].
Qed.

Definition fair (rnd : Z -> Z) : Prop := forall n, 0 < n -> 0 <= rnd n < n.

(** * Properties *)

(** C20: dialing makes at most [MaxRetries + 1] attempts, each wait the backoff
    of its attempt, in order; every attempt before the last one made failed
    with a transient error while the context was alive, and the answer is that
    attempt's: its connection, the permanent error it met, the end of the
    context, or, after exactly [MaxRetries + 1] attempts, their exhaustion. *)
Theorem dial_attempts :
  forall (conn : Type) (r : ReconnectDialer) (env : dial_env conn),
    0 <= MaxRetries r < max_int64 ->
    exists k : nat,
      Z.of_nat k <= MaxRetries r
      /\ (forall i, (i < k)%nat -> transient env i /\ ctx_wait env i = None)
      /\ dial_answer env (MaxRetries r + 1) k (Dial r env).1
      /\ exists m : nat, (m = k \/ m = S k) /\ (Dial r env).2 = waits_of r env 0 m.
Proof.
  intros conn r env Hr. unfold Dial.
  rewrite wrap64_id by (unfold min_int64; lia).
  destruct (dial_loop_spec r env (MaxRetries r + 1) (Z.to_nat (MaxRetries r + 1)) 0 None)
    as (k & Hk & Hall & Hans & m & Hm & Heq); [lia|lia|].
  exists k. split; [lia|]. split; [intros i Hi; apply Hall; lia|]. split; [done|].
  exists m. split; [lia|done].
Qed.

(** A wait is never negative and never longer than the ceiling plus half of
    it, whatever the attempt number and however the shift overflows; and while
    the shift does not overflow, it is at least the doubled base, capped. *)
Theorem backoff_bounds :
  forall (attempt base maxBackoff : Z) (rnd : Z -> Z),
    fair rnd -> 0 <= maxBackoff <= 2 ^ 62 ->
    let b := computeBackoff attempt base maxBackoff rnd in
    0 <= b <= maxBackoff + maxBackoff / 2
    /\ (0 < base -> base * 2 ^ capped attempt <= max_int64 ->
        Z.min (base * 2 ^ capped attempt) maxBackoff <= b).
Proof.
  intros attempt base maxBackoff rnd Hf Hm. cbv zeta.
  destruct (Z.leb_spec base 0) as [Hb|Hb].
  { unfold computeBackoff. replace (base <=? 0) with true by (symmetry; apply Z.leb_le; lia).
    split; [|lia]. pose proof (Z.div_pos maxBackoff 2). lia. }
  rewrite computeBackoff_delay by done. cbv zeta.
  pose proof (capped_delay_range attempt base maxBackoff Hb (proj1 Hm)) as Hd.
  pose proof (capped_delay_exact attempt base maxBackoff Hb) as Hex.
  set (d := capped_delay attempt base maxBackoff) in *.
  rewrite Z.quot_div_nonneg by lia.
  pose proof (Z.div_le_mono d maxBackoff 2 ltac:(lia) ltac:(lia)) as Hhalf.
  destruct (d / 2 <=? 0) eqn:E.
  - apply Z.leb_le in E. pose proof (Z.div_pos maxBackoff 2). split; [lia|]. intros _ H1. specialize (Hex H1). lia.
  - apply Z.leb_gt in E. specialize (Hf (d / 2) E).
    pose proof (Z.mul_div_le d 2 ltac:(lia)). rewrite wrap64_id by (unfold min_int64, max_int64; lia).
    split; [lia|]. intros _ H'. specialize (Hex H'). lia.
Qed.

(** The guard on the doubled base does not see every overflow: a base of
    17.18 s shifted by the capped exponent wraps around to 1.07 s, which is
    positive and under a ceiling of 60 s, so the wait drops below the base. *)
Theorem backoff_wraps_below_base :
  let base := 2 ^ 34 + 1 in
  let maxBackoff := 60 * 10 ^ 9 in
  computeBackoff 30 base maxBackoff (fun _ => 0) = 2 ^ 30
  /\ 2 ^ 30 < base < maxBackoff
  /\ computeBackoff 1 base maxBackoff (fun _ => 0) = 2 * base.
Proof. by vm_compute. Qed.

(** Two transient failures, then a connection. *)
Definition flaky : dial_env string :=
  mkDialEnv string (fun i => if (i <? 2)%nat then Err (plainErr "timeout") else Ok "conn")
    (fun _ => None) (fun _ => None) (fun _ _ => 0).

Lemma dial_attempts_witness :
  exists k : nat,
    Z.of_nat k <= 3
    /\ (forall i, (i < k)%nat -> transient flaky i /\ ctx_wait flaky i = None)
    /\ dial_answer flaky 4 k (Dial (mkReconnect 3 100 1000) flaky).1
    /\ exists m : nat, (m = k \/ m = S k)
       /\ (Dial (mkReconnect 3 100 1000) flaky).2 = waits_of (mkReconnect 3 100 1000) flaky 0 m.
Proof. apply (dial_attempts string (mkReconnect 3 100 1000) flaky). cbn. unfold max_int64. lia. Defined.

Lemma backoff_bounds_witness :
  0 <= computeBackoff 2 100 1000 (fun _ => 0) <= 1500.
Proof.
  apply (backoff_bounds 2 100 1000 (fun _ => 0)); [intros n Hn; lia|lia].
Defined.
