(* ===== verification/Proxy.v ===== *)
(** The data path (src/internal/proxy/proxy.go): copying one direction of a
    tunnel, how a direction ends, the proxied pair, one connection and the
    accept loop. Reads, writes and accepts are the environment of a run; the
    calls on the connections are an explicit log. *)
From S2P Require Import Prelude GoStrings GoErr Telemetry.

Open Scope Z_scope.

Definition bufferSize : nat := 32 * 1024.
(** Durations are nanoseconds. *)
Definition backoffMin : Z := 100 * 10 ^ 6.
Definition backoffMax : Z := 10 * 10 ^ 9.

(** * Errors *)

Definition isIdleTimeoutErr (err : option goerr) : bool :=
  match err with None => false | Some e => errorsAs e TNetTimeout end.

Definition expectedMsgs : list string :=
  ["use of closed network connection"; "connection reset by peer";
   "forcibly closed by the remote host"; "closed pipe"].

Definition IsExpectedCloseError (err : option goerr) : bool :=
  match err with
  | None => true
  | Some e =>
      if errorsIs e ErrClosed || errorsIs e EOF then true
      else if errorsIs e ECONNRESET || errorsIs e EPIPE || errorsIs e ENOTCONN then true
      else existsb (fun msg => Contains (ToLower (Error e)) msg) expectedMsgs
  end.

(** * Copying one direction *)

(** [io.EOF] itself, with which the copy compares: a wrapped one is an error. *)
Definition ioEOF : goerr := mkErr "EOF" [EOF] [].
Definition isEOF (e : goerr) : bool := bool_decide (e = ioEOF).

(** A write's answer: how many bytes it took, and its error. *)
Definition writer : Type := nat -> string -> Z * option goerr.

(** A read's answer: the bytes, and the error that came with them. *)
Definition read_answer : Type := string * option goerr.

(** [meteredWriter.Write]: the count a write publishes. *)
Definition published_by (n : Z) : Z := if n >? 0 then n else 0.

Definition errInvalidWrite : goerr := plainErr "invalid write result".
Definition ErrShortWrite : goerr := plainErr "short write".

(** A copy in progress: the bytes counted by the copy, those published to the
    global counter, and those the destination took, in order. *)
Record copied : Type := mkCopied { written : Z; published : Z; delivered : list string }.
Definition copied0 : copied := mkCopied 0 0 [].

(** [io.CopyBuffer] into a [meteredWriter], from read number [i]. [None] as the
    end means the copy is still running when the reads are used up. *)
Fixpoint CopyBuffer (dst : writer) (i : nat) (reads : list read_answer) (c : copied) : option (option goerr) * copied :=
  match reads with
  | [] => (None, c)
  | (p, er) :: reads' =>
      let nr := Z.of_nat (len p) in
      let step :=
        if nr >? 0 then
          let '(nw, ew) := dst i p in
          let pub := published c + published_by nw in
          let took := delivered c ++ [str_take (Z.to_nat nw) p] in
          let '(nw', ew') :=
            if (nw <? 0) || (nr <? nw)
            then (0, match ew with None => Some errInvalidWrite | Some e => Some e end)
            else (nw, ew) in
          let c' := mkCopied (written c + nw') pub took in
          match ew' with
          | Some e => (Some (Some e), c')
          | None => if negb (nr =? nw') then (Some (Some ErrShortWrite), c') else (None, c')
          end
        else (None, c) in
      match step with
      | (Some e, c') => (Some e, c')
      | (None, c') =>
          match er with
          | Some e => (Some (if isEOF e then None else Some e), c')
          | None => CopyBuffer dst (S i) reads' c'
          end
      end
  end.

(** * How a direction ends *)

Inductive side : Type := Client | Remote.
#[export] Instance side_eq_dec : EqDecision side.
Proof. solve_decision. Defined.

(** Calls that shut a connection down. *)
Inductive conn_op : Type := DoCloseWrite (s : side) | DoClose (s : side).

(** A wrapped connection: the idle deadline each read sets, none when off, and
    whether the connection underneath supports a half-close. *)
Record conn : Type := mkConn { idle : option Z; closes_write : bool }.

Definition withIdleTimeout (c : conn) (d : Z) : conn :=
  if d <=? 0 then c else mkConn (Some d) (closes_write c).

(** The deadline a read sets, from now. *)
Definition readDeadline (c : conn) (now : Z) : option Z :=
  match idle c with Some d => if d >? 0 then Some (now + d) else None | None => None end.

(** [halfCloseWrite] looks through the idle wrapper. *)
Definition halfCloseWrite (c : conn) (s : side) : bool * list conn_op :=
  if closes_write c then (true, [DoCloseWrite s]) else (false, []).

Definition finishGraceful (c : conn) (s : side) : list conn_op :=
  let '(done, ops) := halfCloseWrite c s in
  if done then ops else [DoClose s].

Inductive ending : Type := Graceful | Idle | Failed.

Definition classify (err : option goerr) : ending :=
  match err with
  | None => Graceful
  | Some _ =>
      if IsExpectedCloseError err then Graceful
      else if isIdleTimeoutErr err then Idle else Failed
  end.

(** What [copyDirection] does once its copy returned [err]. *)
Definition endDirection (dst : conn) (dstSide srcSide : side) (err : option goerr) (m : Metrics)
    : list conn_op * Metrics :=
  match classify err with
  | Graceful => (finishGraceful dst dstSide, m)
  | Idle => ([DoClose dstSide; DoClose srcSide], m)
  | Failed => ([DoClose dstSide; DoClose srcSide], AddError m)
  end.

(** One direction, run to its end: the bytes counted, the calls made and the
    counters after it. *)
Definition copyDirection (dst : conn) (w : writer) (reads : list read_answer) (dstSide srcSide : side)
    (publish : Z -> Metrics -> Metrics) (m : Metrics) : option (Z * list conn_op * Metrics) :=
  match CopyBuffer w 0 reads copied0 with
  | (None, _) => None
  | (Some err, c) =>
      let '(ops, m') := endDirection dst dstSide srcSide err (publish (published c) m) in
      Some (written c, ops, m')
  end.

(** The closes of [proxyConnections] once both directions ended. *)
Definition proxyFinalOps : list conn_op := [DoClose Client; DoClose Remote].

(** A connection's state under the calls made on it. *)
Inductive conn_state : Type := Open | WriteShut | Shut.
Definition apply_op (s : side) (st : conn_state) (op : conn_op) : conn_state :=
  match op with
  | DoClose s' => if bool_decide (s' = s) then Shut else st
  | DoCloseWrite s' =>
      if bool_decide (s' = s) then match st with Open => WriteShut | _ => st end else st
  end.
Definition after_ops (s : side) (ops : list conn_op) : conn_state := fold_left (apply_op s) ops Open.

(** * One connection *)

(** The environment of one connection: what the dialer answers, the two
    connections, and what reading from and writing to each of them answers. *)
Record tunnel : Type := mkTunnel {
  dialed : result goerr conn;
  clientConn : conn;
  clientReads : list read_answer;
  clientWrites : writer;
  remoteReads : list read_answer;
  remoteWrites : writer;
}.

(** Both directions of a tunnel, run to their ends: the bytes each counted, the
    calls each made, and the counters after both. [None] while either still
    runs. *)
Definition proxyConnections (client remote : conn) (t : tunnel) (m : Metrics)
    : option (Z * Z * list conn_op * list conn_op * Metrics) :=
  match copyDirection remote (remoteWrites t) (clientReads t) Remote Client AddBytesRx m with
  | None => None
  | Some (rx, opsRx, m1) =>
      match copyDirection client (clientWrites t) (remoteReads t) Client Remote AddBytesTx m1 with
      | None => None
      | Some (tx, opsTx, m2) => Some (tx, rx, opsRx, opsTx, m2)
      end
  end.

(** What [handleConn] did when it returned: the calls on the connections (those
    of the two directions, which may interleave, and those after both), the
    cause it cancelled the root context with, and the counters. *)
Record conn_run : Type := mkRun {
  opsRx : list conn_op;
  opsTx : list conn_op;
  opsFinal : list conn_op;
  cancelled : option goerr;
  counters : Metrics;
}.

Definition handleConn (idleTimeout : Z) (cancelable : bool) (t : tunnel) (m : Metrics) : option conn_run :=
  let m0 := AddTotalConnection m in
  match dialed t with
  | Err e =>
      let cause := if errorsAs e TTerminalDialError && cancelable then Some e else None in
      Some (mkRun [] [] [DoClose Client] cause (AddError m0))
  | Ok remote =>
      let client := withIdleTimeout (clientConn t) idleTimeout in
      let remote := withIdleTimeout remote idleTimeout in
      match proxyConnections client remote t m0 with
      | None => None
      | Some (_, _, rx, tx, m1) => Some (mkRun rx tx proxyFinalOps None m1)
      end
  end.

(** * The accept loop *)

(** What the loop meets, in the order it meets it: a connection, an accept
    error, or the end of a connection's goroutine, and whether its handler
    returned an error, which only the SOCKS5 front end's can. *)
Inductive loop_event : Type :=
  | Accepted (c : nat)
  | AcceptFailed (e : goerr)
  | HandlerDone (c : nat) (failed : bool).

Record accept_loop : Type := mkLoop {
  backoff : Z;
  loopMetrics : Metrics;
  handling : list nat;
  rejected : list nat;
  slept : list Z;
  returned : bool;
}.

Definition accept0 : accept_loop := mkLoop backoffMin zeroMetrics [] [] [] false.

(** Drop the first occurrence. *)
Fixpoint remove_one (c : nat) (l : list nat) : list nat :=
  match l with
  | [] => []
  | x :: l' => if (x =? c)%nat then l' else x :: remove_one c l'
  end.

Definition accept_step (maxConns : Z) (st : accept_loop) (ev : loop_event) : accept_loop :=
  match ev with
  | HandlerDone c _ =>
      if existsb (Nat.eqb c) (handling st)
      then mkLoop (backoff st) (AddActiveConnection (-1) (loopMetrics st)) (remove_one c (handling st))
             (rejected st) (slept st) (returned st)
      else st
  | AcceptFailed e =>
      if returned st then st
      else if errorsIs e ErrClosed
      then mkLoop (backoff st) (loopMetrics st) (handling st) (rejected st) (slept st) true
      else mkLoop (Z.min (backoff st * 2) backoffMax) (loopMetrics st) (handling st) (rejected st)
             (slept st ++ [backoff st]) false
  | Accepted c =>
      if returned st then st
      else
        match TryClaimConnection 1 maxConns (loopMetrics st) with
        | Some (true, m) => mkLoop backoffMin m (handling st ++ [c]) (rejected st) (slept st) false
        | Some (false, m) =>
            mkLoop backoffMin (AddRejectedConn m) (handling st) (rejected st ++ [c]) (slept st) false
        | None => st
        end
  end.

Definition AcceptLoop (maxConns : Z) (evs : list loop_event) : accept_loop :=
  fold_left (accept_step maxConns) evs accept0.

(** * Facts *)

Lemma apply_op_shut s ops : fold_left (apply_op s) ops Shut = Shut.
Proof.
  induction ops as [|op ops IH]; [done|]. cbn. destruct op as [s'|s']; cbn;
    destruct (bool_decide (s' = s)); done.
Qed.

Lemma after_ops_close s ops1 ops2 : after_ops s (ops1 ++ DoClose s :: ops2) = Shut.
Proof. unfold after_ops. rewrite fold_left_app. cbn. rewrite bool_decide_eq_true_2 by done. apply apply_op_shut. Qed.

(** A writer that keeps to [io.Writer]: it takes a prefix, and all of it when it
    reports no error. *)
Definition writer_ok (w : writer) : Prop :=
  forall i p, let '(n, e) := w i p in
    0 <= n <= Z.of_nat (len p) /\ (e = None -> n = Z.of_nat (len p)).

(** The bytes of a list of chunks. *)
Fixpoint joined (l : list string) : string :=
  match l with [] => "" | p :: l' => p +:+ joined l' end.
Definition total_len (l : list string) : Z := Z.of_nat (len (joined l)).

Lemma joined_app l1 l2 : joined (l1 ++ l2) = joined l1 +:+ joined l2.
Proof. induction l1 as [|p l1 IH]; [done|]. cbn. by rewrite IH, str_app_assoc. Qed.

Lemma total_len_app l1 l2 : total_len (l1 ++ l2) = total_len l1 + total_len l2.
Proof.
  unfold total_len. rewrite joined_app, len_app. lia.
Qed.

Lemma str_take_len_le n p : (n <= len p)%nat -> len (str_take n p) = n.
Proof.
  unfold len. revert p. induction n as [|n IH]; intros [|c p] H; cbn in *; try lia. rewrite IH; lia.
Qed.

Definition counted (c : copied) : Prop := published c = written c /\ written c = total_len (delivered c).

Lemma CopyBuffer_counted w i reads c :
  writer_ok w -> counted c -> counted (CopyBuffer w i reads c).2.
Proof.
  intros Hw. revert i c. induction reads as [|[p er] reads IH]; intros i c [H1 H2]; [done|]. cbn [CopyBuffer].
  destruct (Z.of_nat (len p) >? 0) eqn:Hp; [|destruct er; [done|by apply IH]].
  specialize (Hw i p). destruct (w i p) as [nw ew]. destruct Hw as [Hn He].
  replace ((nw <? 0) || (Z.of_nat (len p) <? nw))%bool with false
    by (symmetry; apply orb_false_iff; split; [apply Z.ltb_ge|apply Z.ltb_ge]; lia).
  assert (counted (mkCopied (written c + nw) (published c + published_by nw) (delivered c ++ [str_take (Z.to_nat nw) p]))) as Hc.
  { split; cbn.
    - unfold published_by. rewrite Z.gtb_ltb. destruct (0 <? nw) eqn:E; [apply Z.ltb_lt in E|apply Z.ltb_ge in E]; lia.
    - rewrite total_len_app, H2. unfold total_len at 3. cbn. rewrite str_app_nil_r, str_take_len_le; lia. }
  destruct ew as [e|]; [done|]. specialize (He eq_refl).
  replace (Z.of_nat (len p) =? nw) with true by (symmetry; apply Z.eqb_eq; lia). cbn [negb].
  destruct er; [done|by apply IH].
Qed.

Lemma CopyBuffer_prefix w i reads c :
  writer_ok w ->
  let '(res, c') := CopyBuffer w i reads c in
  (exists rest, joined (delivered c') +:+ rest = joined (delivered c) +:+ joined (map fst reads))
  /\ (res = Some None ->
      exists pre p e post, reads = pre ++ (p, Some e) :: post /\ isEOF e = true
        /\ joined (delivered c') = joined (delivered c) +:+ joined (map fst (pre ++ [(p, Some e)]))).
Proof.
  intros Hw. revert i c. induction reads as [|[p er] reads IH]; intros i c.
  { cbn. split; [by exists ""|done]. }
  cbn [CopyBuffer].
  assert (Hend : forall c1, joined (delivered c1) = joined (delivered c) +:+ p ->
    let '(res, c') := match er with
                      | Some e => (Some (if isEOF e then None else Some e), c1)
                      | None => CopyBuffer w (S i) reads c1 end in
    (exists rest, joined (delivered c') +:+ rest = joined (delivered c) +:+ joined (map fst ((p, er) :: reads)))
    /\ (res = Some None ->
      exists pre p' e post, (p, er) :: reads = pre ++ (p', Some e) :: post /\ isEOF e = true
        /\ joined (delivered c') = joined (delivered c) +:+ joined (map fst (pre ++ [(p', Some e)])))).
  { intros c1 H1. destruct er as [e|].
    - split.
      + exists (joined (map fst reads)). rewrite H1. cbn. by rewrite str_app_assoc.
      + destruct (isEOF e) eqn:E; [|done]. intros _. exists [], p, e, reads.
        split; [done|]. split; [done|]. cbn. by rewrite str_app_nil_r.
    - specialize (IH (S i) c1). destruct (CopyBuffer w (S i) reads c1) as [res c'].
      destruct IH as [[rest Hr] IH]. split.
      + exists rest. rewrite Hr, H1. cbn. by rewrite str_app_assoc.
      + intros Hn. destruct (IH Hn) as (pre & p' & e & post & -> & He & Hj).
        exists ((p, None) :: pre), p', e, post. split; [done|]. split; [done|].
        rewrite Hj, H1. cbn. by rewrite str_app_assoc. }
  destruct (Z.of_nat (len p) >? 0) eqn:Hp.
  2:{ apply (Hend c). destruct p; [by rewrite str_app_nil_r|done]. }
  specialize (Hw i p). destruct (w i p) as [nw ew]. destruct Hw as [Hn He].
  replace ((nw <? 0) || (Z.of_nat (len p) <? nw))%bool with false
    by (symmetry; apply orb_false_iff; split; apply Z.ltb_ge; lia).
  destruct ew as [e|].
  { split; [|done]. exists (str_drop (Z.to_nat nw) p +:+ joined (map fst reads)). cbn.
    rewrite joined_app. cbn. rewrite str_app_nil_r, !str_app_assoc. f_equal.
    rewrite <- str_app_assoc. by rewrite str_take_drop. }
  specialize (He eq_refl). subst nw. rewrite Z.eqb_refl. cbn [negb]. apply Hend. cbn.
  rewrite joined_app, Nat2Z.id. cbn. rewrite str_app_nil_r. f_equal.
  pose proof (str_take_app p "") as Ht. by rewrite str_app_nil_r in Ht.
Qed.

(** ** The accept loop *)

Lemma remove_one_length c l :
  existsb (Nat.eqb c) l = true -> S (length (remove_one c l)) = length l.
Proof.
  induction l as [|x l IH]; [done|]. cbn. rewrite (Nat.eqb_sym c x).
  destruct (x =? c)%nat; cbn; [done|]. intros H. by rewrite IH.
Qed.

Lemma remove_one_elem c l x : x ∈ remove_one c l -> x ∈ l.
Proof.
  induction l as [|y l IH]; [done|]. cbn. destruct (y =? c)%nat; [by right|].
  rewrite !elem_of_cons. naive_solver.
Qed.

Lemma remove_one_perm c l :
  existsb (Nat.eqb c) l = true -> c :: remove_one c l ≡ₚ l.
Proof.
  induction l as [|x l IH]; [done|]. cbn. rewrite (Nat.eqb_sym c x).
  destruct (x =? c)%nat eqn:E; cbn; [by apply Nat.eqb_eq in E as ->|]. intros H.
  rewrite <- (IH H) at 2. by constructor.
Qed.

(** The connections a run of events brought in while the loop was accepting,
    and those whose goroutine ended. *)
Definition loop_ok (maxConns : Z) (st : accept_loop) : Prop :=
  ActiveConnections (loopMetrics st) = Z.of_nat (length (handling st))
  /\ Z.of_nat (length (handling st)) <= maxConns
  /\ backoffMin <= backoff st <= backoffMax
  /\ Forall (fun d => backoffMin <= d <= backoffMax) (slept st).

Lemma accept_step_ok maxConns st ev :
  0 <= maxConns < max_int64 -> loop_ok maxConns st -> loop_ok maxConns (accept_step maxConns st ev).
Proof.
  intros Hmax (Ha & Hl & Hb & Hs). destruct ev as [c|e|c fl]; cbn [accept_step].
  - destruct (returned st); [done|]. rewrite TryClaim_alone by (unfold min_int64; lia).
    destruct (_ <? maxConns) eqn:E; unfold loop_ok; cbn.
    + apply Z.ltb_lt in E. rewrite length_app, wrap64_id by (unfold min_int64; lia). cbn.
      split; [lia|]. split; [lia|]. split; [unfold backoffMin, backoffMax; lia|done].
    + split; [done|]. split; [done|]. split; [unfold backoffMin, backoffMax; lia|done].
  - destruct (returned st); [done|]. destruct (errorsIs e ErrClosed); [done|].
    unfold loop_ok. cbn. split; [done|]. split; [done|]. split; [unfold backoffMin, backoffMax in *; lia|].
    apply Forall_app. split; [done|]. by constructor.
  - destruct (existsb (Nat.eqb c) (handling st)) eqn:E; [|done].
    pose proof (remove_one_length c _ E) as Hlen. unfold loop_ok. cbn.
    rewrite wrap64_id by (unfold min_int64; lia). split; [lia|]. split; [lia|done].
Qed.

Lemma accept_loop_ok maxConns evs st :
  0 <= maxConns < max_int64 -> loop_ok maxConns st -> loop_ok maxConns (fold_left (accept_step maxConns) evs st).
Proof.
  intros Hmax. revert st. induction evs as [|ev evs IH]; intros st H; [done|]. apply IH. by apply accept_step_ok.
Qed.

(** Every connection is in exactly one place. *)
Fixpoint accepted (st : accept_loop) (maxConns : Z) (evs : list loop_event) : list nat :=
  match evs with
  | [] => []
  | ev :: evs' =>
      (match ev with Accepted c => if returned st then [] else [c] | _ => [] end)
      ++ accepted (accept_step maxConns st ev) maxConns evs'
  end.
Fixpoint ended (st : accept_loop) (maxConns : Z) (evs : list loop_event) : list nat :=
  match evs with
  | [] => []
  | ev :: evs' =>
      (match ev with HandlerDone c _ => if existsb (Nat.eqb c) (handling st) then [c] else [] | _ => [] end)
      ++ ended (accept_step maxConns st ev) maxConns evs'
  end.

Lemma accounted maxConns evs st :
  0 <= maxConns < max_int64 -> loop_ok maxConns st ->
  let st' := fold_left (accept_step maxConns) evs st in
  handling st' ++ rejected st' ++ ended st maxConns evs
  ≡ₚ handling st ++ rejected st ++ accepted st maxConns evs.
Proof.
  intros Hmax. revert st. induction evs as [|ev evs IH]; intros st Hok; [done|]. cbn [fold_left accepted ended].
  specialize (IH (accept_step maxConns st ev) (accept_step_ok _ _ _ Hmax Hok)). cbv zeta in *.
  set (st' := fold_left _ _ _) in *. destruct ev as [c|e|c fl]; cbn [app].
  - rewrite IH. cbn [accept_step]. destruct Hok as (Ha & Hl & _). destruct (returned st); [done|].
    rewrite TryClaim_alone by (unfold min_int64; lia). destruct (_ <? maxConns); cbn.
    + solve_Permutation.
    + solve_Permutation.
  - rewrite IH. cbn [accept_step]. destruct (returned st); [done|]. by destruct (errorsIs e ErrClosed).
  - destruct (existsb (Nat.eqb c) (handling st)) eqn:E; cbn [app].
    + rewrite (Permutation_middle (handling st' ++ rejected st') (ended _ _ _) c) || idtac.
      transitivity (c :: (handling st' ++ rejected st' ++ ended (accept_step maxConns st (HandlerDone c fl)) maxConns evs));
        [solve_Permutation|].
      rewrite IH. cbn [accept_step]. rewrite E. cbn. change (c :: ?a ++ ?b) with ((c :: a) ++ b).
      by rewrite remove_one_perm.
    + rewrite IH. cbn [accept_step]. by rewrite E.
Qed.

(** The [k]-th of consecutive accept errors sleeps [100ms * 2^k], at most 10 s. *)
Lemma accept_errors_sleep maxConns k st e :
  errorsIs e ErrClosed = false -> returned st = false ->
  backoffMin <= backoff st <= backoffMax ->
  let st' := fold_left (accept_step maxConns) (replicate k (AcceptFailed e)) st in
  slept st' = slept st ++ map (fun j => Z.min (backoff st * 2 ^ Z.of_nat j) backoffMax) (seq 0 k)
  /\ returned st' = false /\ handling st' = handling st.
Proof.
  intros He. revert st. induction k as [|k IH]; intros st Hr Hb; [by rewrite app_nil_r|].
  cbn [replicate fold_left]. set (st1 := accept_step maxConns st (AcceptFailed e)).
  assert (Hst1 : st1 = mkLoop (Z.min (backoff st * 2) backoffMax) (loopMetrics st) (handling st) (rejected st)
             (slept st ++ [backoff st]) false).
  { unfold st1. cbn. by rewrite Hr, He. }
  destruct (IH st1) as (H1 & H2 & H3).
  { by rewrite Hst1. }
  { rewrite Hst1. cbn. unfold backoffMin, backoffMax in *. lia. }
  cbv zeta. rewrite H1, H2, H3, Hst1. cbn [slept handling backoff]. split; [|done].
  rewrite <- app_assoc. f_equal. cbn [seq map app]. f_equal; [cbn; lia|].
  rewrite <- seq_shift, map_map. apply map_ext. intros j.
  rewrite Nat2Z.inj_succ, Z.pow_succ_r by lia. assert (0 < 2 ^ Z.of_nat j) by (apply Z.pow_pos_nonneg; lia). nia.
Qed.

(** * Properties *)

(** C29: with writers that keep to the contract of [io.Writer], at every moment
    of a copy, running or ended, the bytes published to the global counter are
    the bytes the copy counted and the bytes the destination took; what it took
    is a prefix, in order, of what was read; and a copy that ends without an
    error delivered everything up to the end of the stream. *)
Theorem copy_counts_delivered_bytes :
  forall (w : writer) (reads : list read_answer),
    writer_ok w ->
    let '(res, c) := CopyBuffer w 0 reads copied0 in
    published c = written c /\ written c = total_len (delivered c)
    /\ (exists rest, joined (delivered c) +:+ rest = joined (map fst reads))
    /\ (res = Some None ->
        exists pre p e post, reads = pre ++ (p, Some e) :: post /\ isEOF e = true
          /\ joined (delivered c) = joined (map fst (pre ++ [(p, Some e)]))).
Proof.
  intros w reads Hw. pose proof (CopyBuffer_prefix w 0 reads copied0 Hw) as Hp.
  pose proof (CopyBuffer_counted w 0 reads copied0 Hw) as Hc.
  destruct (CopyBuffer w 0 reads copied0) as [res c]. destruct Hc as [H1 H2]; [done|].
  destruct Hp as [Hp1 Hp2]. done.
Qed.

(** Once both directions of a tunnel ended, both connections are fully
    closed, whichever way each direction ended and however their calls
    interleaved; a direction that ended cleanly never closes the connection it
    read from, and half-closes the other when that supports it; one that ended
    on an idle timeout or an error closes both at once, so that the other
    direction cannot stay blocked; only an error counts as one. *)
Theorem direction_endings :
  forall (dst : conn) (dstSide srcSide : side) (err : option goerr) (m : Metrics) (mid : list conn_op),
    dstSide <> srcSide ->
    let '(ops, m') := endDirection dst dstSide srcSide err m in
    after_ops Client (mid ++ proxyFinalOps) = Shut /\ after_ops Remote (mid ++ proxyFinalOps) = Shut
    /\ (classify err = Graceful ->
        m' = m /\ after_ops srcSide ops = Open
        /\ after_ops dstSide ops = if closes_write dst then WriteShut else Shut)
    /\ (classify err <> Graceful -> after_ops srcSide ops = Shut /\ after_ops dstSide ops = Shut)
    /\ (TotalErrors m' <> TotalErrors m <-> classify err = Failed).
Proof.
  intros dst d s err m mid Hne. unfold endDirection.
  assert (Hfin : after_ops Client (mid ++ proxyFinalOps) = Shut /\ after_ops Remote (mid ++ proxyFinalOps) = Shut).
  { split; [apply after_ops_close|]. unfold proxyFinalOps.
    replace (mid ++ [DoClose Client; DoClose Remote]) with ((mid ++ [DoClose Client]) ++ [DoClose Remote])
      by (by rewrite <- app_assoc). apply after_ops_close. }
  assert (Herr : TotalErrors (AddError m) <> TotalErrors m).
  { cbn. unfold wrap64. intros H.
    assert ((TotalErrors m + 1 + 2 ^ 63) mod 2 ^ 64 = TotalErrors m + 2 ^ 63) as H' by lia.
    pose proof (Z.mod_pos_bound (TotalErrors m + 1 + 2 ^ 63) (2 ^ 64) ltac:(lia)).
    pose proof (Z.div_mod (TotalErrors m + 1 + 2 ^ 63) (2 ^ 64) ltac:(lia)). lia. }
  unfold finishGraceful, halfCloseWrite, after_ops.
  destruct (classify err); (split; [apply Hfin|]); (split; [apply Hfin|]);
    destruct d, s, (closes_write dst); try done; cbn; naive_solver.
Qed.

(** C39: the accept loop neither loses a connection nor takes one too many:
    every connection it accepted is being handled, was rejected and closed, or
    ended; those being handled never exceed the limit, and the active count is
    exactly their number. *)
Theorem accept_loop_accounts :
  forall (maxConns : Z) (evs : list loop_event),
    0 <= maxConns < max_int64 ->
    let st := AcceptLoop maxConns evs in
    handling st ++ rejected st ++ ended accept0 maxConns evs ≡ₚ accepted accept0 maxConns evs
    /\ ActiveConnections (loopMetrics st) = Z.of_nat (length (handling st))
    /\ Z.of_nat (length (handling st)) <= maxConns
    /\ Forall (fun d => backoffMin <= d <= backoffMax) (slept st).
Proof.
  intros maxConns evs Hmax. assert (H0 : loop_ok maxConns accept0).
  { split; [done|]. split; [cbn; lia|]. split; [by vm_compute|constructor]. }
  pose proof (accounted maxConns evs accept0 Hmax H0) as Hp.
  destruct (accept_loop_ok maxConns evs accept0 Hmax H0) as (H1 & H2 & _ & H4).
  split; [exact Hp|done].
Qed.

(** The accept loop survives accept errors: the [j]-th of [k] errors in a
    row, none of them the listener's close, sleeps [100ms * 2^j], at most 10 s;
    the loop still accepts after them, and an accept starts the backoff over. *)
Theorem accept_errors_back_off :
  forall (maxConns : Z) (k : nat) (e : goerr) (c : nat),
    0 < maxConns < max_int64 -> errorsIs e ErrClosed = false ->
    let st := AcceptLoop maxConns (replicate k (AcceptFailed e)) in
    slept st = map (fun j => Z.min (backoffMin * 2 ^ Z.of_nat j) backoffMax) (seq 0 k)
    /\ returned st = false
    /\ let st' := AcceptLoop maxConns (replicate k (AcceptFailed e) ++ [Accepted c; AcceptFailed e]) in
       handling st' = [c] /\ slept st' = slept st ++ [backoffMin].
Proof.
  intros maxConns k e c Hmax He. cbv zeta. unfold AcceptLoop. rewrite fold_left_app.
  destruct (accept_errors_sleep maxConns k accept0 e He eq_refl) as (H1 & H2 & H3); [by vm_compute|].
  pose proof (accept_loop_ok maxConns (replicate k (AcceptFailed e)) accept0) as Hok.
  set (st := fold_left _ _ _) in *. destruct Hok as (Ha & _); [lia| |].
  { split; [done|]. split; [cbn; lia|]. split; [by vm_compute|constructor]. }
  rewrite H3 in Ha. change (ActiveConnections (loopMetrics st) = 0) in Ha. split; [done|]. split; [done|]. cbn [fold_left accept_step].
  rewrite H2, TryClaim_alone by (unfold min_int64; lia). rewrite Ha.
  replace (0 <? maxConns) with true by (symmetry; apply Z.ltb_lt; lia). cbn. by rewrite He, H3.
Qed.

(** A failed dial closes the client, counts one error, starts no copy, and
    cancels the root context exactly when the error is terminal and the loop
    can be cancelled; whatever happens the connection is counted once. *)
Theorem failed_dial_closes_client :
  forall (idleTimeout : Z) (cancelable : bool) (t : tunnel) (m : Metrics) (e : goerr),
    dialed t = Err e ->
    exists r, handleConn idleTimeout cancelable t m = Some r
      /\ opsRx r ++ opsTx r ++ opsFinal r = [DoClose Client]
      /\ counters r = AddError (AddTotalConnection m)
      /\ (is_Some (cancelled r) <-> errorsAs e TTerminalDialError = true /\ cancelable = true).
Proof.
  intros idleTimeout cancelable t m e He. unfold handleConn. rewrite He. eexists. split; [done|].
  split; [done|]. split; [done|]. cbn. destruct (errorsAs e TTerminalDialError), cancelable; cbn;
    split; intros H; try done; try (by destruct H); by eexists.
Qed.

(** A writer that takes everything but fails its third write half way. *)
Definition failing_writer : writer := fun i p =>
  if (i <? 2)%nat then (Z.of_nat (len p), None)
  else (Z.of_nat (len p / 2), Some (mkErr "broken pipe" [EPIPE] [])).

Lemma failing_writer_ok : writer_ok failing_writer.
Proof.
  intros i p. unfold failing_writer. destruct (i <? 2)%nat.
  - split; [lia|done].
  - pose proof (Nat.Div0.div_le_upper_bound (len p) 2 (len p)). split; [lia|done].
Qed.

Lemma copy_counts_delivered_bytes_witness :
  let '(res, c) := CopyBuffer failing_writer 0 [("ab", None); ("cde", None); ("fghi", None); ("j", None)] copied0 in
  published c = written c /\ written c = total_len (delivered c)
  /\ (exists rest, joined (delivered c) +:+ rest = "abcdefghij")
  /\ (res = Some None ->
      exists pre p e post, [("ab", None); ("cde", None); ("fghi", None); ("j", None)] = pre ++ (p, Some e) :: post
        /\ isEOF e = true
        /\ joined (delivered c) = joined (map fst (pre ++ [(p, Some e)]))).
Proof.
  apply (copy_counts_delivered_bytes failing_writer [("ab", None); ("cde", None); ("fghi", None); ("j", None)]).
  apply failing_writer_ok.
Defined.

Lemma direction_endings_witness :
  let '(ops, m') := endDirection (mkConn None true) Remote Client None zeroMetrics in
  after_ops Client ([DoCloseWrite Remote] ++ proxyFinalOps) = Shut
  /\ after_ops Remote ([DoCloseWrite Remote] ++ proxyFinalOps) = Shut
  /\ (classify None = Graceful ->
      m' = zeroMetrics /\ after_ops Client ops = Open /\ after_ops Remote ops = WriteShut)
  /\ (classify None <> Graceful -> after_ops Client ops = Shut /\ after_ops Remote ops = Shut)
  /\ (TotalErrors m' <> TotalErrors zeroMetrics <-> classify None = Failed).
Proof.
  apply (direction_endings (mkConn None true) Remote Client None zeroMetrics [DoCloseWrite Remote]). discriminate.
Defined.

Definition burst : list loop_event := [Accepted 1%nat; Accepted 2%nat; HandlerDone 1%nat false; Accepted 3%nat].

Lemma accept_loop_accounts_witness :
  let st := AcceptLoop 1 burst in
  handling st ++ rejected st ++ ended accept0 1 burst ≡ₚ [1%nat; 2%nat; 3%nat]
  /\ ActiveConnections (loopMetrics st) = Z.of_nat (length (handling st))
  /\ Z.of_nat (length (handling st)) <= 1
  /\ Forall (fun d => backoffMin <= d <= backoffMax) (slept st).
Proof. apply (accept_loop_accounts 1 burst). unfold max_int64. lia. Defined.

Lemma accept_errors_back_off_witness :
  slept (AcceptLoop 1 (replicate 9 (AcceptFailed (plainErr "too many open files"))))
  = map (fun j => Z.min (backoffMin * 2 ^ Z.of_nat j) backoffMax) (seq 0 9).
Proof.
  apply (accept_errors_back_off 1 9 (plainErr "too many open files") 7); [unfold max_int64; lia|reflexivity].
Defined.

Definition refused : tunnel :=
  mkTunnel (Err (mkErr "tsnet: backend in state Stopped" [] [TTerminalDialError])) (mkConn None true) [] failing_writer [] failing_writer.

Lemma failed_dial_closes_client_witness :
  exists r, handleConn 0 true refused zeroMetrics = Some r
    /\ opsRx r ++ opsTx r ++ opsFinal r = [DoClose Client]
    /\ counters r = AddError (AddTotalConnection zeroMetrics)
    /\ (is_Some (cancelled r) <-> errorsAs (mkErr "tsnet: backend in state Stopped" [] [TTerminalDialError]) TTerminalDialError = true /\ true = true).
Proof. apply (failed_dial_closes_client 0 true refused zeroMetrics). reflexivity. Defined.
