(* ===== verification/Socks5.v ===== *)
(** The SOCKS5 front end (src/internal/proxy/socks5.go): the negotiation and the
    request as a client's bytes, the allow-list of routes, the replies, one
    connection and the accept loop. The client's bytes, the outcome of each
    write to it and the dialer's answer are the environment of a run. *)
From S2P Require Import Prelude GoStrings GoNet GoErr Telemetry Proxy.
From Stdlib Require Import Ascii.

Open Scope Z_scope.

Definition socksVersion5 : Z := 5.
Definition socksNoAuth : Z := 0.
Definition socksNoAcceptable : Z := 255.
Definition socksConnect : Z := 1.
Definition socksIPv4 : Z := 1.
Definition socksDomain : Z := 3.
Definition socksIPv6 : Z := 4.

(** * Bytes *)

Fixpoint bytes_of (s : string) : list Z :=
  match s with "" => [] | String c r => byte_val c :: bytes_of r end.

(** [io.ReadFull] of [n] bytes: the bytes and the rest of the stream, or what
    was missing. *)
Definition ReadFull (n : nat) (s : string) : option (string * string) :=
  if (len s <? n)%nat then None else Some (str_take n s, str_drop n s).

(** [netip.Addr.String]: dotted decimal, and for IPv6 groups in hexadecimal
    with the longest run of at least two zero groups compressed. *)
Fixpoint hex_go (fuel : nat) (n : N) (acc : string) : string :=
  match fuel with
  | O => acc
  | S f =>
      let acc' := String (hex_digit (n mod 16)) acc in
      if (n <? 16)%N then acc' else hex_go f (n / 16) acc'
  end.
Definition hexText (n : Z) : string := hex_go 5 (Z.to_N n) "".

Fixpoint groups_of (b : list Z) : list Z :=
  match b with
  | hi :: lo :: r => (hi * 256 + lo) :: groups_of r
  | _ => []
  end.

Fixpoint zero_run (g : list Z) : nat :=
  match g with 0 :: r => S (zero_run r) | _ => 0%nat end.
(** Start and length of the first longest run of zeros, at least two long. *)
Fixpoint longest_run (i : nat) (g : list Z) (best : nat * nat) : nat * nat :=
  match g with
  | [] => best
  | _ :: r =>
      let n := zero_run g in
      longest_run (S i) r (if (1 <? n)%nat && (snd best <? n)%nat then (i, n) else best)
  end.
Definition ipv6String (b : list Z) : string :=
  let g := groups_of b in
  let '(start, n) := longest_run 0 g (0%nat, 0%nat) in
  if (n =? 0)%nat then Join (map hexText g) ":"
  else Join (map hexText (take start g)) ":" +:+ "::" +:+ Join (map hexText (drop (start + n) g)) ":".
Definition ipString (b : list Z) : string :=
  if (length b =? 4)%nat then Join (map Itoa b) "."
  else if bool_decide (take 12 b = v4_mapped) then Join (map Itoa (drop 12 b)) "."
  else ipv6String b.

Definition addressHost (addressType : Z) (address : string) : string :=
  if addressType =? socksDomain then address else ipString (bytes_of address).

(** * The wire *)

Inductive socks_error : Type :=
  | ReadGreeting
  | BadGreetingVersion (v : Z)
  | ReadMethods
  | NoAcceptable
  | WriteMethod
  | ReadRequest
  (** [socksRequestError]: the reply it carries, and its cause. *)
  | RequestError (reply : Z)
  | ReadDomainLength
  | ReadAddress
  | ResolveDenied (key : string)
  | DialFailed (e : goerr)
  | WriteReply.

(** The bytes still to read, and the answer: the method reply written, if any,
    and whether the negotiation went through. [write_ok] is the outcome of its
    one write. *)
Definition negotiateSOCKS5 (s : string) (write_ok : bool) : option (list Z) * result socks_error string :=
  match ReadFull 2 s with
  | None => (None, Err ReadGreeting)
  | Some (header, s1) =>
      match bytes_of header with
      | [v; n] =>
          if negb (v =? socksVersion5) then (None, Err (BadGreetingVersion v))
          else match ReadFull (Z.to_nat n) s1 with
               | None => (None, Err ReadMethods)
               | Some (methods, s2) =>
                   if existsb (Z.eqb socksNoAuth) (bytes_of methods)
                   then (Some [socksVersion5; socksNoAuth], if write_ok then Ok s2 else Err WriteMethod)
                   else (Some [socksVersion5; socksNoAcceptable], Err NoAcceptable)
               end
      | _ => (None, Err ReadGreeting)
      end
  end.

Definition readSOCKS5Address (s : string) (addressType : Z) : result socks_error (string * string) :=
  let read n s := match ReadFull (n + 2) s with None => Err ReadAddress | Some r => Ok r end in
  if addressType =? socksIPv4 then read 4%nat s
  else if addressType =? socksIPv6 then read 16%nat s
  else match ReadFull 1 s with
       | None => Err ReadDomainLength
       | Some (size, s1) => read (Z.to_nat (hd 0 (bytes_of size))) s1
       end.

(** [uint16(hi)<<8 | uint16(lo)]. *)
Definition port_of (hi lo : Z) : Z := Z.lor (Z.shiftl hi 8) lo.

Definition readSOCKS5Connect (s : string) : result socks_error (string * Z * string) :=
  match ReadFull 4 s with
  | None => Err ReadRequest
  | Some (header, s1) =>
      match bytes_of header with
      | [ver; cmd; _; atyp] =>
          if negb (ver =? socksVersion5) then Err (RequestError 1)
          else if negb (cmd =? socksConnect) then Err (RequestError 7)
          else if negb (atyp =? socksIPv4) && negb (atyp =? socksDomain) && negb (atyp =? socksIPv6)
          then Err (RequestError 8)
          else
            '(address, rest) ← readSOCKS5Address s1 atyp;
            let n := (len address - 2)%nat in
            match bytes_of (str_drop n address) with
            | [hi; lo] => Ok (addressHost atyp (str_take n address), port_of hi lo, rest)
            | _ => Err ReadAddress
            end
      | _ => Err ReadRequest
      end
  end.

Definition socksReply (reply : Z) : list Z := [socksVersion5; reply; 0; 1; 0; 0; 0; 0; 0; 0].

(** * Targets *)

(** A resolver answers a target or the key it denies. *)
Definition resolver : Type := string -> Z -> result string string.

Definition directSOCKSTarget : resolver := fun host port => Ok (JoinHostPort host (Itoa port)).

Inductive address_error : Type := SplitFailed (e : addr_error) | EmptyHost | InvalidPort (port : string).

Definition normalizeSOCKSAddress (address : string) : result address_error string :=
  '(host, port) ← map_err SplitFailed (SplitHostPort address);
  _ ← fail_if (bool_decide (host = "")) EmptyHost;
  match parse_port port with
  | None => Err (InvalidPort port)
  | Some n => Ok (JoinHostPort (ToLower host) (Itoa n))
  end.

Inductive route_error : Type := BadSource (s : string) (e : address_error) | BadDestination (s : string) (e : address_error).

(** The routes in the order the map is ranged over; a later route with the same
    key replaces an earlier one. *)
Fixpoint normalizeRoutes (routes : list (string * string)) (acc : gmap string string) : result route_error (gmap string string) :=
  match routes with
  | [] => Ok acc
  | (source, destination) :: rest =>
      sourceKey ← map_err (BadSource source) (normalizeSOCKSAddress source);
      _ ← map_err (BadDestination destination) (normalizeSOCKSAddress destination);
      normalizeRoutes rest (<[sourceKey := destination]> acc)
  end.

Definition allowlistResolver (normalized : gmap string string) : resolver := fun host port =>
  let key := JoinHostPort (ToLower host) (Itoa port) in
  match normalized !! key with Some target => Ok target | None => Err key end.

Definition NewAllowlistSOCKSTarget (routes : list (string * string)) : result route_error resolver :=
  normalized ← normalizeRoutes routes ∅; Ok (allowlistResolver normalized).

(** * One connection *)

(** What a connection did: the messages written to the client, the target
    dialed, the cause the root context was cancelled with, and the error
    returned; no error means the tunnel was proxied to its end. *)
Record socks_run : Type := mkSocks {
  wrote : list (list Z);
  dialedTarget : option string;
  socksCancelled : option goerr;
  failure : option socks_error;
  remoteClosed : bool;
  leftover : string;
}.

(** [write_ok i] is the outcome of the [i]-th write to the client; [dial]
    answers the dialer; [leftover] is what a proxied client had sent already. *)
Definition handleSOCKS5Conn (input : string) (write_ok : nat -> bool) (resolve : resolver)
    (dial : string -> option goerr) (cancelable : bool) : socks_run :=
  match negotiateSOCKS5 input (write_ok 0%nat) with
  | (w, Err e) => mkSocks (option_list w) None None (Some e) false ""
  | (w, Ok s1) =>
      let w := option_list w in
      match readSOCKS5Connect s1 with
      | Err e =>
          let reply := match e with RequestError r => r | _ => 1 end in
          mkSocks (w ++ [socksReply reply]) None None (Some e) false ""
      | Ok (host, port, rest) =>
          match resolve host port with
          | Err key => mkSocks (w ++ [socksReply 2]) None None (Some (ResolveDenied key)) false ""
          | Ok target =>
              match dial target with
              | Some e =>
                  let cause := if errorsAs e TTerminalDialError && cancelable then Some e else None in
                  mkSocks (w ++ [socksReply 5]) (Some target) cause (Some (DialFailed e)) false ""
              | None =>
                  if write_ok 1%nat
                  then mkSocks (w ++ [socksReply 0]) (Some target) None None true rest
                  else mkSocks (w ++ [socksReply 0]) (Some target) None (Some WriteReply) true ""
              end
          end
      end
  end.

(** * The accept loop *)

(** Unlike the proxy's loop it gives up on the first accept error, and counts a
    connection and its error itself. A resolver is a function, so never nil. *)
Inductive socks_loop_end : Type := StillAccepting | ReturnedNil | ReturnedError (e : goerr).

Record socks_loop : Type := mkSocksLoop {
  socksMetrics : Metrics;
  socksHandling : list nat;
  socksRejected : list nat;
  socksEnd : socks_loop_end;
}.

Definition socks_accept_step (maxConns : Z) (st : socks_loop) (ev : loop_event) : socks_loop :=
  match ev with
  | HandlerDone c failed =>
      if existsb (Nat.eqb c) (socksHandling st)
      then mkSocksLoop (AddActiveConnection (-1) (if failed then AddError (socksMetrics st) else socksMetrics st)) (remove_one c (socksHandling st)) (socksRejected st) (socksEnd st)
      else st
  | AcceptFailed e =>
      match socksEnd st with
      | StillAccepting =>
          mkSocksLoop (socksMetrics st) (socksHandling st) (socksRejected st)
            (if errorsIs e ErrClosed then ReturnedNil else ReturnedError (wrapErr ("accept SOCKS5 connection: " +:+ Error e) e))
      | _ => st
      end
  | Accepted c =>
      match socksEnd st with
      | StillAccepting =>
          match TryClaimConnection 1 maxConns (socksMetrics st) with
          | Some (true, m) => mkSocksLoop (AddTotalConnection m) (socksHandling st ++ [c]) (socksRejected st) StillAccepting
          | Some (false, m) => mkSocksLoop (AddRejectedConn m) (socksHandling st) (socksRejected st ++ [c]) StillAccepting
          | None => st
          end
      | _ => st
      end
  end.

Definition AcceptSOCKS5Loop (maxConns : Z) (evs : list loop_event) : socks_loop :=
  fold_left (socks_accept_step maxConns) evs (mkSocksLoop zeroMetrics [] [] StillAccepting).

(** * Facts *)

Example ipString_examples :
  map ipString [[127; 0; 0; 1]; replicate 15 0 ++ [1]; replicate 16 0; v4_mapped ++ [10; 0; 0; 1];
    [32; 1; 13; 184] ++ replicate 4 0 ++ [0; 1] ++ replicate 4 0 ++ [0; 1];
    [0; 1; 0; 0; 0; 2; 0; 0; 0; 0; 0; 3; 0; 4; 255; 5]]
  = ["127.0.0.1"; "::1"; "::"; "10.0.0.1"; "2001:db8::1:0:0:1"; "1:0:2::3:4:ff05"].
Proof. vm_compute. reflexivity. Qed.

(** ** The accept loop *)

Definition socks_loop_ok (maxConns : Z) (st : socks_loop) : Prop :=
  ActiveConnections (socksMetrics st) = Z.of_nat (length (socksHandling st))
  /\ Z.of_nat (length (socksHandling st)) <= maxConns
  /\ RejectedConns (socksMetrics st) = wrap64 (Z.of_nat (length (socksRejected st))).

Lemma socks_accept_step_ok maxConns st ev :
  0 <= maxConns < max_int64 -> socks_loop_ok maxConns st -> socks_loop_ok maxConns (socks_accept_step maxConns st ev).
Proof.
  intros Hmax (Ha & Hl & Hr). destruct ev as [c|e|c failed]; cbn [socks_accept_step].
  - destruct (socksEnd st); [|done..]. rewrite TryClaim_alone by (unfold min_int64; lia).
    destruct (_ <? maxConns) eqn:E; unfold socks_loop_ok; cbn; rewrite length_app.
    + apply Z.ltb_lt in E. rewrite wrap64_id by (unfold min_int64; lia). cbn. split; [lia|]. split; [lia|done].
    + split; [done|]. split; [done|]. rewrite Hr, wrap64_add_l. f_equal. cbn. lia.
  - by destruct (socksEnd st).
  - destruct (existsb (Nat.eqb c) (socksHandling st)) eqn:E; [|done].
    pose proof (remove_one_length c _ E) as Hlen. unfold socks_loop_ok. cbn.
    destruct failed; cbn; rewrite wrap64_id by (unfold min_int64; lia); (split; [lia|]); (split; [lia|done]).
Qed.

(** The loop of the front end handles no more connections than the limit, its
    active count is exact, and every rejection is counted, whatever it meets; the
    first accept error ends it for good, with nothing to say when it is the
    listener's close, and no connection is taken after it. *)
Theorem socks_loop_accounts :
  forall (maxConns : Z) (evs : list loop_event),
    0 <= maxConns < max_int64 ->
    let st := AcceptSOCKS5Loop maxConns evs in
    ActiveConnections (socksMetrics st) = Z.of_nat (length (socksHandling st))
    /\ Z.of_nat (length (socksHandling st)) <= maxConns
    /\ RejectedConns (socksMetrics st) = wrap64 (Z.of_nat (length (socksRejected st)))
    /\ (forall ev, socksEnd st <> StillAccepting ->
          socksEnd (socks_accept_step maxConns st ev) = socksEnd st
          /\ forall c, c ∈ socksHandling (socks_accept_step maxConns st ev) -> c ∈ socksHandling st).
Proof.
  intros maxConns evs Hmax st.
  assert (socks_loop_ok maxConns st) as (H1 & H2 & H3).
  { subst st. unfold AcceptSOCKS5Loop. assert (socks_loop_ok maxConns (mkSocksLoop zeroMetrics [] [] StillAccepting)) as H0.
    { split; [done|]. split; [cbn; lia|by vm_compute]. }
    revert H0. generalize (mkSocksLoop zeroMetrics [] [] StillAccepting). induction evs as [|ev evs IH]; intros s0 H0; [done|].
    cbn [fold_left]. apply IH. by apply socks_accept_step_ok. }
  split; [done|]. split; [done|]. split; [done|]. intros ev Hend. destruct ev as [c|e|c failed]; cbn [socks_accept_step].
  - by destruct (socksEnd st) eqn:E.
  - by destruct (socksEnd st) eqn:E.
  - destruct (existsb _ _); [|done]. split; [done|]. cbn [socksHandling]. intros x. apply remove_one_elem.
Qed.

(** ** Reading back what a client encodes *)

Definition byte_of (z : Z) : ascii := ascii_of_N (Z.to_N z).

Lemma byte_val_of z : 0 <= z < 256 -> byte_val (byte_of z) = z.
Proof. intros H. unfold byte_val, byte_of. rewrite N_ascii_embedding; lia. Qed.

Lemma ReadFull_app n a b : len a = n -> ReadFull n (a +:+ b) = Some (a, b).
Proof.
  intros <-. unfold ReadFull. rewrite len_app, (proj2 (Nat.ltb_ge _ _)) by lia.
  by rewrite str_take_app, str_drop_app.
Qed.

(** The bytes of a CONNECT request for a domain name. *)
Definition connectRequest (host : string) (port : Z) : string :=
  String (byte_of 5) (String (byte_of 1) (String (byte_of 0) (String (byte_of 3)
    (String (byte_of (Z.of_nat (len host))) (host +:+ String (byte_of (port / 256)) (String (byte_of (port mod 256)) "")))))).

Definition greeting (methods : string) : string :=
  String (byte_of 5) (String (byte_of (Z.of_nat (len methods))) methods).

Lemma port_of_sum hi lo : 0 <= lo < 256 -> port_of hi lo = hi * 256 + lo.
Proof.
  intros H. unfold port_of. replace (hi * 256) with (Z.shiftl hi 8) by (rewrite Z.shiftl_mul_pow2; lia).
  rewrite <- Z.add_lor_land. rewrite <- (Z.add_0_r (Z.lor _ _)) at 1. f_equal. symmetry.
  apply Z.bits_inj'. intros n Hn. rewrite Z.land_spec, Z.shiftl_spec, Z.bits_0 by lia.
  destruct (Z.ltb_spec n 8).
  - by rewrite Z.testbit_neg_r by lia.
  - rewrite <- (Z.mod_small lo (2 ^ 8)) by lia. rewrite Z.mod_pow2_bits_high by lia. apply andb_false_r.
Qed.

Lemma port_of_bytes port : 0 <= port < 65536 -> port_of (port / 256) (port mod 256) = port.
Proof.
  intros H. rewrite port_of_sum by (apply Z.mod_pos_bound; lia).
  pose proof (Z.div_mod port 256 ltac:(lia)). lia.
Qed.

Lemma len_nonneg_byte s : (len s <= 255)%nat -> byte_val (byte_of (Z.of_nat (len s))) = Z.of_nat (len s).
Proof. intros H. apply byte_val_of. lia. Qed.

Lemma read_connectRequest host port rest :
  (len host <= 255)%nat -> 0 <= port < 65536 ->
  readSOCKS5Connect (connectRequest host port +:+ rest) = Ok (host, port, rest).
Proof.
  intros Hh Hp. unfold readSOCKS5Connect, connectRequest.
  set (tail := String (byte_of (Z.of_nat (len host))) (host +:+ _)).
  change (String (byte_of 5) (String (byte_of 1) (String (byte_of 0) (String (byte_of 3) tail))) +:+ rest)
    with (String (byte_of 5) (String (byte_of 1) (String (byte_of 0) (String (byte_of 3) ""))) +:+ (tail +:+ rest)).
  rewrite ReadFull_app by done. cbn [bytes_of]. rewrite !byte_val_of by lia.
  change (negb (5 =? socksVersion5)) with false. change (negb (1 =? socksConnect)) with false. cbv iota.
  change (negb (3 =? socksIPv4) && negb (3 =? socksDomain) && negb (3 =? socksIPv6))%bool with false. cbv iota.
  unfold readSOCKS5Address. change (3 =? socksIPv4) with false. change (3 =? socksIPv6) with false. cbv iota.
  unfold tail. set (pb := String (byte_of (port / 256)) (String (byte_of (port mod 256)) "")).
  change (String (byte_of (Z.of_nat (len host))) (host +:+ pb) +:+ rest)
    with (String (byte_of (Z.of_nat (len host))) "" +:+ ((host +:+ pb) +:+ rest)).
  rewrite (ReadFull_app 1) by done. cbn [bytes_of hd]. rewrite len_nonneg_byte, Nat2Z.id by done.
  rewrite ReadFull_app by (rewrite len_app; done). cbn [mbind result_bind].
  replace (len (host +:+ pb) - 2)%nat with (len host) by (rewrite len_app; unfold pb, len; cbn; lia).
  rewrite str_take_app, str_drop_app. unfold pb. cbn [bytes_of].
  assert (0 <= port / 256 < 256) by (split; [apply Z.div_pos; lia|apply Z.div_lt_upper_bound; lia]).
  rewrite !byte_val_of by (done || apply Z.mod_pos_bound; lia).
  by rewrite port_of_bytes.
Qed.

Lemma negotiate_greeting methods rest w :
  (len methods <= 255)%nat -> existsb (Z.eqb socksNoAuth) (bytes_of methods) = true ->
  negotiateSOCKS5 (greeting methods +:+ rest) w = (Some [5; 0], if w then Ok rest else Err WriteMethod).
Proof.
  intros Hm Ha. unfold negotiateSOCKS5, greeting.
  change (String (byte_of 5) (String (byte_of (Z.of_nat (len methods))) methods) +:+ rest)
    with (String (byte_of 5) (String (byte_of (Z.of_nat (len methods))) "") +:+ (methods +:+ rest)).
  rewrite ReadFull_app by done. cbn [bytes_of]. rewrite len_nonneg_byte, byte_val_of by (done || lia).
  change (negb (5 =? socksVersion5)) with false. cbv iota.
  by rewrite ReadFull_app, Ha by (by rewrite Nat2Z.id).
Qed.

(** ** The allow-list *)

(** Route [src -> dst] admits a host, without regard to case, at a port. *)
Definition admits (src host : string) (port : Z) : Prop :=
  exists h p, SplitHostPort src = Ok (h, p) /\ h <> "" /\ parse_port p = Some port /\ ToLower h = ToLower host.

Lemma normalize_Ok a key :
  normalizeSOCKSAddress a = Ok key ->
  exists h p n, SplitHostPort a = Ok (h, p) /\ h <> "" /\ parse_port p = Some n /\ key = JoinHostPort (ToLower h) (Itoa n).
Proof.
  unfold normalizeSOCKSAddress. destruct (SplitHostPort a) as [[h p]|e]; cbn; [|done].
  destruct (bool_decide (h = "")) eqn:E; cbn; [done|]. apply bool_decide_eq_false in E.
  destruct (parse_port p) as [n|] eqn:Hn; [|done]. intros [= <-]. by exists h, p, n.
Qed.

Lemma normalizeRoutes_lookup routes acc m key t :
  normalizeRoutes routes acc = Ok m -> m !! key = Some t ->
  acc !! key = Some t \/ exists src, (src, t) ∈ routes /\ normalizeSOCKSAddress src = Ok key
    /\ exists k', normalizeSOCKSAddress t = Ok k'.
Proof.
  revert acc. induction routes as [|[src dst] routes IH]; intros acc; cbn [normalizeRoutes].
  - intros [= ->]. by left.
  - intros H Hk. inv_ok. apply IH in H; [|done]. destruct H as [H|(s & Hs & Hn)].
    + destruct (decide (x = key)) as [->|Hne].
      * rewrite lookup_insert_eq in H. injection H as <-. right. exists src. split; [left|eauto].
      * rewrite lookup_insert_ne in H by done. by left.
    + right. exists s. split; [by right|done].
Qed.

Lemma allowlist_admits routes r host port t :
  0 <= port <= 65535 -> NewAllowlistSOCKSTarget routes = Ok r -> r host port = Ok t ->
  exists src, (src, t) ∈ routes /\ admits src host port /\ exists k, normalizeSOCKSAddress t = Ok k.
Proof.
  intros Hport. unfold NewAllowlistSOCKSTarget. intros H Hr. inv_ok. subst r. unfold allowlistResolver in Hr.
  destruct (x !! _) as [t'|] eqn:Hk; [|done]. injection Hr as ->.
  destruct (normalizeRoutes_lookup _ _ _ _ _ H0 Hk) as [Hno|(src & Hin & Hsrc & Hdst)]; [done|].
  exists src. split; [done|]. split; [|done].
  apply normalize_Ok in Hsrc as (h & p & n & Hs & Hne & Hp & Hkey).
  pose proof (parse_port_range _ _ Hp) as Hrange.
  apply JoinHostPort_inj in Hkey as [Hh Hn]; [|apply Itoa_all_digits; lia..].
  assert (n = port) as ->.
  { assert (Atoi (Itoa n) = Atoi (Itoa port)) as Ha by (by rewrite Hn).
    rewrite !Atoi_Itoa in Ha by (unfold min_int64, max_int64; lia). by injection Ha. }
  exists h, p. done.
Qed.

Lemma byte_val_range c : 0 <= byte_val c < 256.
Proof. unfold byte_val. pose proof (N_ascii_bounded c). lia. Qed.

Lemma bytes_of_range s : Forall (fun b => 0 <= b < 256) (bytes_of s).
Proof. induction s; constructor; [apply byte_val_range|done]. Qed.

Lemma connect_port_range s host port rest :
  readSOCKS5Connect s = Ok (host, port, rest) -> 0 <= port <= 65535.
Proof.
  unfold readSOCKS5Connect. destruct (ReadFull 4 s) as [[header s1]|]; [|done].
  destruct (bytes_of header) as [|v [|c [|z [|a [|]]]]]; try done.
  destruct (negb (v =? _)); [done|]. destruct (negb (c =? _)); [done|].
  destruct (_ && _ && _)%bool; [done|]. intros H. inv_ok. destruct x as [address r].
  pose proof (bytes_of_range (str_drop (len address - 2) address)) as Hb.
  destruct (bytes_of _) as [|hi [|lo [|]]]; try done. injection H as <- <- <-.
  apply Forall_cons in Hb as [Hhi Hb]. apply Forall_cons in Hb as [Hlo _].
  rewrite port_of_sum by done. lia.
Qed.

(** The errors reading a request can meet. *)
Lemma connect_errors s :
  match readSOCKS5Connect s with
  | Err (ReadRequest | RequestError _ | ReadDomainLength | ReadAddress) => True
  | Err _ => False
  | Ok _ => True
  end.
Proof.
  unfold readSOCKS5Connect. destruct (ReadFull 4 s) as [[header s1]|]; [|done].
  destruct (bytes_of header) as [|v [|c [|z [|a [|]]]]]; try done.
  destruct (negb (v =? _)); [done|]. destruct (negb (c =? _)); [done|].
  destruct (_ && _ && _)%bool; [done|].
  unfold readSOCKS5Address. destruct (a =? socksIPv4); [|destruct (a =? socksIPv6); [|destruct (ReadFull 1 s1) as [[sz s2]|]; [|done]]].
  all: destruct (ReadFull _ _) as [[address r]|]; cbn; [|done].
  all: by destruct (bytes_of _) as [|hi [|lo [|]]].
Qed.

(** * Properties *)

(** C5: whatever bytes a client sends and however the dialer answers, under an
    allow-list the only targets ever dialed are destinations of the configured
    routes, each for a client that asked for a source of that very route (the
    host without regard to case, the exact port); a denied or unreadable
    request dials nothing. *)
Theorem socks_dials_only_allowed :
  forall (routes : list (string * string)) (r : resolver) (input : string) (write_ok : nat -> bool)
         (dial : string -> option goerr) (cancelable : bool) (target : string),
    NewAllowlistSOCKSTarget routes = Ok r ->
    dialedTarget (handleSOCKS5Conn input write_ok r dial cancelable) = Some target ->
    exists src s1 host port rest,
      (src, target) ∈ routes
      /\ (negotiateSOCKS5 input (write_ok 0%nat)).2 = Ok s1
      /\ readSOCKS5Connect s1 = Ok (host, port, rest)
      /\ admits src host port.
Proof.
  intros routes r input write_ok dial cancelable target Hr. unfold handleSOCKS5Conn.
  destruct (negotiateSOCKS5 input _) as [w [s1|e]]; [|done]. cbn [snd].
  destruct (readSOCKS5Connect s1) as [[[host port] rest]|e] eqn:Hc; [|done].
  destruct (r host port) as [t|key] eqn:Ht; [|done]. intros H.
  assert (t = target) as -> by (repeat case_match; cbn in H; congruence).
  destruct (allowlist_admits routes r host port target (connect_port_range _ _ _ _ Hc) Hr Ht) as (src & Hin & Had & _).
  by exists src, s1, host, port, rest.
Qed.

(** The reply code of the protocol for each way a request can fail. *)
Definition reply_code (e : socks_error) : Z :=
  match e with
  | RequestError r => r
  | ResolveDenied _ => 2
  | DialFailed _ => 5
  | WriteReply => 0
  | _ => 1
  end.

(** A client is always answered by the protocol: nothing when its greeting
    cannot be read, the refusal of every method when it does not offer
    no-authentication, and otherwise the method and then exactly one reply,
    whose code says why the request failed, or that it did not. *)
Theorem socks_replies :
  forall (input : string) (write_ok : nat -> bool) (resolve : resolver) (dial : string -> option goerr) (cancelable : bool),
    let run := handleSOCKS5Conn input write_ok resolve dial cancelable in
    match failure run with
    | None => wrote run = [[5; 0]; socksReply 0] /\ remoteClosed run = true
    | Some (ReadGreeting | BadGreetingVersion _ | ReadMethods) => wrote run = []
    | Some NoAcceptable => wrote run = [[5; 255]]
    | Some WriteMethod => wrote run = [[5; 0]]
    | Some e => wrote run = [[5; 0]; socksReply (reply_code e)]
    end
    /\ (is_Some (socksCancelled run) ->
        exists e, failure run = Some (DialFailed e) /\ errorsAs e TTerminalDialError = true).
Proof.
  intros input write_ok resolve dial cancelable. unfold handleSOCKS5Conn, negotiateSOCKS5.
  destruct (ReadFull 2 input) as [[header s1]|]; [|split; [done|by intros []]].
  destruct (bytes_of header) as [|v [|n [|]]]; try (split; [done|by intros []]).
  destruct (negb (v =? socksVersion5)); [split; [done|by intros []]|].
  destruct (ReadFull _ s1) as [[methods s2]|]; [|split; [done|by intros []]].
  destruct (existsb _ _); [|split; [done|by intros []]].
  destruct (write_ok 0%nat); [|split; [done|by intros []]].
  pose proof (connect_errors s2) as Hce.
  destruct (readSOCKS5Connect s2) as [[[host port] rest]|e].
  2:{ destruct e; try (split; [done|by intros []]); by destruct Hce. }
  destruct (resolve host port) as [t|key]; [|split; [done|by intros []]].
  destruct (dial t) as [e|]; cbn.
  - split; [done|]. intros [? Hs]. destruct (errorsAs e TTerminalDialError) eqn:E; [|done]. by exists e.
  - destruct (write_ok 1%nat); (split; [done|by intros []]).
Qed.

(** A session a client encodes is the session the server reads: whatever
    methods it offers beside no-authentication, whatever domain name of at most
    255 bytes and port it asks for, the server picks no-authentication, dials
    the target its resolver gives for exactly that name and port, and hands the
    tunnel exactly the bytes that followed the request. *)
Theorem socks_session_roundtrip :
  forall (methods host rest target : string) (port : Z) (resolve : resolver) (cancelable : bool),
    (len methods <= 255)%nat -> existsb (Z.eqb socksNoAuth) (bytes_of methods) = true ->
    (len host <= 255)%nat -> 0 <= port < 65536 ->
    resolve host port = Ok target ->
    handleSOCKS5Conn (greeting methods +:+ (connectRequest host port +:+ rest)) (fun _ => true) resolve (fun _ => None) cancelable
    = mkSocks [[5; 0]; socksReply 0] (Some target) None None true rest.
Proof.
  intros methods host rest target port resolve cancelable Hm Ha Hh Hp Hr. unfold handleSOCKS5Conn.
  rewrite negotiate_greeting by done. cbn [option_list app].
  by rewrite read_connectRequest, Hr by done.
Qed.

Definition demo_routes : list (string * string) := [("Desk.corp:3389", "desk:3389"); ("git:22", "forge:2222")].

Lemma socks_dials_only_allowed_witness :
  exists r, NewAllowlistSOCKSTarget demo_routes = Ok r
  /\ exists src s1 host port rest,
      (src, "desk:3389") ∈ demo_routes
      /\ (negotiateSOCKS5 (greeting (String (byte_of 0) "") +:+ (connectRequest "DESK.corp" 3389 +:+ "hi")) true).2 = Ok s1
      /\ readSOCKS5Connect s1 = Ok (host, port, rest)
      /\ admits src host port.
Proof.
  eexists. split; [reflexivity|].
  eapply (socks_dials_only_allowed demo_routes _ (greeting (String (byte_of 0) "") +:+ (connectRequest "DESK.corp" 3389 +:+ "hi"))
           (fun _ => true) (fun _ => None) true "desk:3389").
  - reflexivity.
  - vm_compute. reflexivity.
Defined.

Lemma socks_session_roundtrip_witness :
  handleSOCKS5Conn (greeting (String (byte_of 2) (String (byte_of 0) "")) +:+ (connectRequest "git" 22 +:+ "SSH-2.0"))
    (fun _ => true) directSOCKSTarget (fun _ => None) true
  = mkSocks [[5; 0]; socksReply 0] (Some "git:22") None None true "SSH-2.0".
Proof.
  apply (socks_session_roundtrip (String (byte_of 2) (String (byte_of 0) "")) "git" "SSH-2.0" "git:22" 22 directSOCKSTarget true);
    [vm_compute; lia|reflexivity|vm_compute; lia|lia|reflexivity].
Defined.

Definition front_end_run : socks_loop :=
  AcceptSOCKS5Loop 1 [Accepted 1%nat; Accepted 2%nat; HandlerDone 1%nat true; AcceptFailed (mkErr "use of closed" [ErrClosed] []); Accepted 3%nat].
Lemma socks_loop_accounts_witness :
  socksMetrics front_end_run = mkMetrics 0 1 0 0 1 1 /\ socksEnd front_end_run = ReturnedNil
  /\ ActiveConnections (socksMetrics front_end_run) = Z.of_nat (length (socksHandling front_end_run)).
Proof.
  split; [vm_compute; reflexivity|]. split; [vm_compute; reflexivity|].
  exact (proj1 (socks_loop_accounts 1 _ (ltac:(unfold max_int64; lia)))).
Defined.
