(* ===== verification/EnvFile.v ===== *)
(** The .env loader (src/internal/config/envfile/envfile.go). The environment is
    a map, the file its bytes or the reason it cannot be read. *)
From S2P Require Import Prelude GoStrings.
From Stdlib Require Import Ascii.

Abbreviation environment := (gmap string string).

(** [os.Getenv] answers the empty string for a variable that is not set. *)
Definition Getenv (env : environment) (key : string) : string := default "" (env !! key).

Definition cr : ascii := "013"%char.
Definition nul : ascii := "000"%char.
Definition squote : ascii := "039"%char.

(** [os.Setenv] refuses an empty key, a key with [=] or NUL, a value with NUL;
    its error is ignored by [Load]. *)
Definition Setenv (key value : string) (env : environment) : environment :=
  if bool_decide (key = "") || negb (no_byte "=" key) || negb (no_byte nul key) || negb (no_byte nul value)
  then env else <[key := value]> env.

Inductive env_file_error : Type := OpenFailed | LineTooLong.

(** [bufio.ScanLines]: the lines without their end, a carriage return dropped. *)
Definition drop_cr (line : string) : string := TrimSuffix line (String cr "").
Definition scan_lines (data : string) : list string :=
  let parts := Split nl data in
  match last parts with
  | Some "" => removelast parts
  | _ => parts
  end.
(** A scanner gives up on a line its 64 KiB buffer cannot hold. *)
Definition max_line : Z := 65536.

(** Strip surrounding quotes: the same single or double quote at both ends. *)
Definition quoted_by (q : ascii) (value : string) : bool :=
  (2 <=? len value)%nat && HasPrefix value (String q "") && HasSuffix value (String q "").
Definition unquote (value : string) : string :=
  if quoted_by dquote value || quoted_by squote value then str_drop 1 (str_take (len value - 1) value) else value.

(** One line: its key and value, if it has them. *)
Definition env_line (raw : string) : option (string * string) :=
  let line := TrimSpace raw in
  if bool_decide (line = "") || HasPrefix line "#" then None
  else
    match index_byte "=" line with
    | None | Some 0%nat => None
    | Some idx =>
        Some (TrimSpace (str_take idx line), unquote (TrimSpace (str_drop (S idx) line)))
    end.

Fixpoint env_lines (lines : list string) (values : gmap string string) : gmap string string :=
  match lines with
  | [] => values
  | l :: ls =>
      env_lines ls (match env_line (drop_cr l) with Some (k, v) => <[k := v]> values | None => values end)
  end.

(** A file that exists with its bytes, does not exist, or cannot be opened. *)
Inductive env_file : Type := EnvData (data : string) | EnvMissing | EnvUnreadable.

Definition Values (f : env_file) : result env_file_error (gmap string string) :=
  match f with
  | EnvMissing => Ok ∅
  | EnvUnreadable => Err OpenFailed
  | EnvData data =>
      let lines := scan_lines data in
      if existsb (fun l => (max_line <=? Z.of_nat (len l))%Z) lines then Err LineTooLong
      else Ok (env_lines lines ∅)
  end.

(** Set every pair, in the order the map is ranged over. *)
Definition setAll (pairs : list (string * string)) (env : environment) : environment :=
  fold_left (fun e '(k, v) => Setenv k v e) pairs env.
Definition Load (f : env_file) (env : environment) : result env_file_error environment :=
  values ← Values f; Ok (setAll (map_to_list values) env).

(** * Facts *)

Definition settable (k v : string) : bool :=
  negb (bool_decide (k = "")) && no_byte "=" k && no_byte nul k && no_byte nul v.

Lemma Setenv_settable k v env : settable k v = true -> Setenv k v env = <[k := v]> env.
Proof.
  unfold settable, Setenv. rewrite !andb_true_iff. intros [[[H1 H2] H3] H4].
  apply negb_true_iff in H1. by rewrite H1, H2, H3, H4.
Qed.

Lemma Setenv_other k v env k' : k' <> k -> Setenv k v env !! k' = env !! k'.
Proof. intros H. unfold Setenv. case_match; [done|]. by rewrite lookup_insert_ne. Qed.

Lemma setAll_lookup pairs env k :
  NoDup pairs.*1 ->
  setAll pairs env !! k
  = match list_to_map (M := gmap string string) pairs !! k with
    | Some v => if settable k v then Some v else env !! k
    | None => env !! k
    end.
Proof.
  revert env. induction pairs as [|[k0 v0] pairs IH]; intros env Hnd; [done|].
  cbn in Hnd. apply NoDup_cons in Hnd as [Hni Hnd]. cbn [setAll fold_left list_to_map foldr fst snd].
  change (fold_left _ pairs ?e) with (setAll pairs e). rewrite IH by done.
  destruct (decide (k = k0)) as [->|Hne].
  - rewrite lookup_insert_eq. rewrite (not_elem_of_list_to_map_1 pairs k0) by done.
    destruct (settable k0 v0) eqn:Hs.
    + by rewrite Setenv_settable, lookup_insert_eq by done.
    + unfold Setenv. unfold settable in Hs.
      destruct (bool_decide (k0 = "")), (no_byte "=" k0), (no_byte nul k0), (no_byte nul v0); try done.
  - rewrite lookup_insert_ne by done. rewrite Setenv_other by done. done.
Qed.

Lemma Load_lookup f env env' values k :
  Values f = Ok values -> Load f env = Ok env' ->
  env' !! k = match values !! k with
              | Some v => if settable k v then Some v else env !! k
              | None => env !! k
              end.
Proof.
  unfold Load. intros -> [= <-]. rewrite setAll_lookup by apply NoDup_fst_map_to_list.
  by rewrite list_to_map_to_list.
Qed.

Lemma env_lines_lookup lines values k v :
  env_lines lines values !! k = Some v ->
  values !! k = Some v \/ exists l, l ∈ lines /\ env_line (drop_cr l) = Some (k, v).
Proof.
  revert values. induction lines as [|l lines IH]; intros values; cbn; [by left|].
  intros H. apply IH in H as [H|(l' & Hl & He)].
  - destruct (env_line (drop_cr l)) as [[k0 v0]|] eqn:E; [|by left].
    destruct (decide (k0 = k)) as [->|Hne].
    + rewrite lookup_insert_eq in H. injection H as ->. right. exists l. split; [left|done].
    + rewrite lookup_insert_ne in H by done. by left.
  - right. exists l'. split; [by right|done].
Qed.

(** ** Writing a file and reading it back *)

(** A key and a value that need no quoting: no spaces, a key that is not a
    comment and holds no [=], a value that is not quoted. *)
Definition tidy (kv : string * string) : bool :=
  let '(k, v) := kv in
  settable k v && negb (str_any is_space k) && negb (str_any is_space v) && negb (HasPrefix k "#")
  && negb (quoted_by dquote v || quoted_by squote v)
  && (Z.of_nat (len k + len v) <? 65000)%Z.

Definition env_text (kv : string * string) : string := kv.1 +:+ "=" +:+ kv.2.
Fixpoint render (pairs : list (string * string)) : string :=
  match pairs with [] => "" | kv :: r => env_text kv +:+ newline +:+ render r end.

Lemma str_all_rev p s : str_all p (str_rev s) = str_all p s.
Proof.
  induction s as [|c s IH]; [done|]. rewrite str_rev_cons, str_all_app, IH. cbn.
  by rewrite andb_true_r, andb_comm.
Qed.

Lemma TrimSuffix_no_byte c s : no_byte c s = true -> TrimSuffix s (String c "") = s.
Proof.
  intros H. unfold TrimSuffix, HasSuffix. replace (HasPrefix _ _) with false; [done|].
  unfold no_byte in H. rewrite <- str_all_rev in H. change (str_rev (String c "")) with (String c "").
  destruct (str_rev s) as [|d r]; [done|]. cbn in *. apply andb_true_iff in H as [H _].
  apply negb_true_iff, eqc_false in H. symmetry. apply andb_false_iff. left. by apply eqc_false.
Qed.

Lemma no_space_no_byte c s : is_space c = true -> str_any is_space s = false -> no_byte c s = true.
Proof.
  intros Hc. unfold no_byte. induction s as [|d s IH]; [done|]. cbn. rewrite orb_false_iff. intros [Hd Hs].
  rewrite IH, andb_true_r by done. apply negb_true_iff, eqc_false. intros ->. congruence.
Qed.

Lemma HasPrefix_app_byte (c : ascii) a b :
  a <> "" -> HasPrefix (a +:+ b) (String c "") = HasPrefix a (String c "").
Proof.
  assert (He : forall s, HasPrefix s "" = true) by (by intros []).
  destruct a; [done|]. intros _. cbn. by rewrite !He.
Qed.

Lemma env_line_tidy kv : tidy kv = true -> env_line (drop_cr (env_text kv)) = Some kv.
Proof.
  destruct kv as [k v]. unfold tidy, settable. rewrite !andb_true_iff, !negb_true_iff.
  intros [[[[[[[[Hk Heq] _] _] Hsk] Hsv] Hc] Hq] _]. unfold env_text. cbn [fst snd].
  assert (Hs : str_any is_space (k +:+ "=" +:+ v) = false) by (by rewrite !str_any_app, Hsk, Hsv).
  unfold drop_cr. rewrite TrimSuffix_no_byte by (by apply no_space_no_byte).
  apply bool_decide_eq_false in Hk. unfold env_line.
  rewrite (trim_none is_space (k +:+ _)) by done.
  replace (bool_decide (k +:+ "=" +:+ v = "")) with false
    by (symmetry; apply bool_decide_eq_false; by destruct k).
  rewrite HasPrefix_app_byte, Hc by done. cbn [orb].
  change ("=" +:+ v) with (String "=" v).
  assert (Hi : index_byte "=" (k +:+ String "=" v) = Some (len k)).
  { clear - Heq. unfold no_byte, len in *. induction k as [|c k IH]; [done|]. cbn in *.
    apply andb_true_iff in Heq as [Hc Hk]. apply negb_true_iff in Hc. by rewrite Hc, IH. }
  rewrite Hi. destruct (len k) as [|n] eqn:Hl; [by destruct k|]. rewrite <- Hl.
  rewrite str_take_app. replace (str_drop (S (len k)) (k +:+ String "=" v)) with v
    by (clear; unfold len; induction k; cbn; done).
  unfold TrimSpace. rewrite !trim_none by done. unfold unquote. by rewrite Hq.
Qed.

Lemma scan_lines_render pairs :
  Forall (fun kv => tidy kv = true) pairs -> scan_lines (render pairs) = map env_text pairs.
Proof.
  intros H. assert (Hs : Split nl (render pairs) = map env_text pairs ++ [""]).
  { induction H as [|kv pairs Hkv _ IH]; [done|]. cbn [render map app].
    change (newline +:+ render pairs) with (String nl (render pairs)).
    rewrite Split_app_sep, IH; [done|].
    destruct kv as [k v]. unfold tidy in Hkv. rewrite !andb_true_iff, !negb_true_iff in Hkv.
    destruct Hkv as [[[[[_ Hsk] Hsv] _] _] _]. apply no_space_no_byte; [done|].
    unfold env_text. cbn [fst snd]. by rewrite !str_any_app, Hsk, Hsv. }
  unfold scan_lines. rewrite Hs, last_snoc. by rewrite removelast_last.
Qed.

Lemma env_lines_tidy pairs m :
  Forall (fun kv => tidy kv = true) pairs ->
  env_lines (map env_text pairs) m = fold_left (fun m '(k, v) => <[k := v]> m) pairs m.
Proof.
  intros H. revert m. induction H as [|kv pairs Hkv _ IH]; intros m; [done|]. cbn [map env_lines fold_left].
  rewrite env_line_tidy by done. destruct kv as [k v]. apply IH.
Qed.

(** * Properties *)

(** Loading a .env file sets every variable the file names, whatever value
    the environment had for it, and leaves every other variable alone; a file
    that does not exist changes nothing. *)
Theorem env_file_overrides_environment :
  forall (f : env_file) (env env' values : environment) (k : string),
    Values f = Ok values -> Load f env = Ok env' ->
    (values !! k = None -> env' !! k = env !! k)
    /\ (forall v, values !! k = Some v -> settable k v = true -> Getenv env' k = v)
    /\ (f = EnvMissing -> env' !! k = env !! k).
Proof.
  intros f env env' values k Hv Hl. pose proof (Load_lookup f env env' values k Hv Hl) as H.
  split; [by intros Hn; rewrite H, Hn|]. split.
  - intros v Hs Hset. unfold Getenv. by rewrite H, Hs, Hset.
  - intros ->. cbn in Hv. injection Hv as <-. by rewrite H, lookup_empty.
Qed.

(** A file written as one KEY=VALUE line per pair reads back as those pairs,
    a later one replacing an earlier one with its key. *)
Theorem env_file_roundtrip :
  forall (pairs : list (string * string)),
    Forall (fun kv => tidy kv = true) pairs ->
    Values (EnvData (render pairs)) = Ok (fold_left (fun m '(k, v) => <[k := v]> m) pairs ∅).
Proof.
  intros pairs H. unfold Values. rewrite scan_lines_render by done.
  rewrite env_lines_tidy by done. replace (existsb _ _) with false; [done|]. symmetry.
  clear - H. induction H as [|kv pairs Hkv _ IH]; [done|]. cbn [map existsb]. rewrite IH, orb_false_r.
  destruct kv as [k v]. unfold tidy in Hkv. rewrite !andb_true_iff in Hkv. destruct Hkv as [_ Hl].
  apply Z.ltb_lt in Hl. apply Z.leb_gt. unfold env_text, max_line. cbn [fst snd]. rewrite !len_app.
  change (len "=") with 1%nat. lia.
Qed.

Definition demo_env : environment := {[ "TS_TARGET" := "explicit:1" ]}.
Definition demo_file : env_file := EnvData (render [("TS_TARGET", "from-file:2"); ("TS_AUTHKEY", "hskey-x")]).

Lemma env_file_overrides_environment_witness :
  Getenv demo_env "TS_TARGET" = "explicit:1"
  /\ match Values demo_file, Load demo_file demo_env with
     | Ok _, Ok env' => Getenv env' "TS_TARGET" = "from-file:2"
     | _, _ => False
     end.
Proof.
  split; [reflexivity|].
  assert (Hv : match Values demo_file with Ok m => m !! "TS_TARGET" = Some "from-file:2" | Err _ => False end)
    by (vm_compute; reflexivity).
  destruct (Values demo_file) as [values|e] eqn:Hvals; [|exact Hv].
  destruct (Load demo_file demo_env) as [env'|e] eqn:Hload; [|unfold Load in Hload; rewrite Hvals in Hload; discriminate].
  apply (proj1 (proj2 (env_file_overrides_environment demo_file demo_env env' values "TS_TARGET" Hvals Hload)) "from-file:2" Hv).
  vm_compute. reflexivity.
Defined.

Lemma env_file_roundtrip_witness :
  Values (EnvData (render [("TS_TARGET", "host:22"); ("TS_TARGET", "host:23")])) = Ok {[ "TS_TARGET" := "host:23" ]}.
Proof.
  rewrite (env_file_roundtrip [("TS_TARGET", "host:22"); ("TS_TARGET", "host:23")]); [vm_compute; reflexivity|].
  repeat constructor.
Defined.
