(* ===== verification/SecretFile.v ===== *)
(** Atomic replacement of a secret file (src/internal/secretfile/secretfile.go).

    A directory is a map from file names to files. Every operation is a step
    that can fail; the run records the directory after each of them, which is
    what a reader, or a machine that stops there, would see. *)
From S2P Require Import Prelude GoStrings.

Record file : Type := mkFile { content : string; mode : Z }.

Abbreviation directory := (gmap string file).

(** Where [WriteFileWith] can fail. A failed write leaves the bytes it took. *)
Inductive write_fault : Type :=
  | FaultCreate
  | FaultChmod
  | FaultWrite (taken : nat)
  | FaultSync
  | FaultClose
  | FaultHardenTemp
  | FaultRename
  | FaultHardenFinal.
#[export] Instance write_fault_eq_dec : EqDecision write_fault.
Proof. solve_decision. Defined.

(** The errors it returns, one per message. *)
Inductive write_error : Type :=
  | CreateTempFailed | SetPermissionsFailed | WriteFailed | SyncFailed | CloseFailed
  | SecureTempFailed | ReplaceFailed | SecureFailed.

(** [Harden] on Unix: owner only. *)
Definition hardened (isDir : bool) : Z := if isDir then 448 (* 0700 *) else 384 (* 0600 *).
Definition Harden (name : string) (d : directory) : directory :=
  match d !! name with Some f => <[name := mkFile (content f) (hardened false)]> d | None => d end.

Definition faulted (fault : option write_fault) (here : write_fault) : bool := bool_decide (fault = Some here).

(** [writeTemp]: the states it goes through, and the error it ends with. *)
Definition writeTemp (temp data : string) (d : directory) (fault : option write_fault) : list directory * option write_error :=
  if faulted fault FaultChmod then ([], Some SetPermissionsFailed)
  else
    let d1 := <[temp := mkFile "" 384]> d in
    match fault with
    | Some (FaultWrite n) => ([d1; <[temp := mkFile (str_take n data) 384]> d], Some WriteFailed)
    | _ =>
        let d2 := <[temp := mkFile data 384]> d in
        ([d1; d2],
         if faulted fault FaultSync then Some SyncFailed
         else if faulted fault FaultClose then Some CloseFailed
         else None)
    end.

(** [WriteFileWith], writing through the fresh name [temp], created with mode
    [created]: every state of the directory, the last one being what it leaves,
    and the error. *)
Definition WriteFileWith (temp path data : string) (created : Z) (d : directory) (fault : option write_fault)
    : list directory * option write_error :=
  if faulted fault FaultCreate then ([d], Some CreateTempFailed)
  else
    let d0 := <[temp := mkFile "" created]> d in
    let '(states, err) := writeTemp temp data d0 fault in
    match err with
    | Some e => (d :: d0 :: states ++ [delete temp (default d0 (last states))], Some e)
    | None =>
        let d2 := default d0 (last states) in
        if faulted fault FaultHardenTemp then (d :: d0 :: states ++ [delete temp d2], Some SecureTempFailed)
        else
          let d3 := Harden temp d2 in
          if faulted fault FaultRename then (d :: d0 :: states ++ [d3; delete temp d3], Some ReplaceFailed)
          else
            let d4 := match d3 !! temp with Some f => <[path := f]> (delete temp d3) | None => d3 end in
            if faulted fault FaultHardenFinal then (d :: d0 :: states ++ [d3; d4; delete temp d4], Some SecureFailed)
            else
              let d5 := Harden path d4 in
              (d :: d0 :: states ++ [d3; d4; d5; delete temp d5], None)
    end.

(** What the run leaves. *)
Definition leaves (r : list directory * option write_error) (d : directory) : directory := default d (last r.1).

(** * Facts *)

(** All the states of a run agree with the old directory or, once renamed, with
    the new file at [path]. *)
Definition sees (path data : string) (d s : directory) : Prop :=
  s !! path = d !! path \/ s !! path = Some (mkFile data 384).

Lemma states_see temp path data created d fault s :
  temp <> path -> d !! temp = None ->
  s ∈ (WriteFileWith temp path data created d fault).1 -> sees path data d s.
Proof.
  intros Hne Hf. unfold WriteFileWith, writeTemp, sees, Harden, faulted.
  destruct fault as [[| |n| | | | |]|]; cbn; simplify_map_eq; rewrite ?elem_of_cons, ?elem_of_nil;
    intros H; repeat (destruct H as [->|H]); try done; simplify_map_eq; auto.
Qed.

Lemma leaves_path temp path data created d fault :
  temp <> path -> d !! temp = None ->
  let r := WriteFileWith temp path data created d fault in
  match r.2 with
  | None | Some SecureFailed => leaves r d = <[path := mkFile data 384]> d
  | Some _ => leaves r d = d
  end.
Proof.
  intros Hne Hf. unfold WriteFileWith, writeTemp, leaves, Harden, faulted.
  destruct fault as [[| |n| | | | |]|]; cbn; simplify_map_eq;
    apply map_eq; intros k; destruct (decide (k = temp)), (decide (k = path)); subst;
    by simplify_map_eq.
Qed.

(** * Properties *)

(** C6: at every moment of a write, and wherever it fails or the machine stops,
    the file at the path is either the old one, untouched, or the complete new
    one, readable by its owner only: no partial secret, and no secret under a
    looser mode. *)
Theorem secret_replaced_atomically :
  forall (temp path data : string) (created : Z) (d : directory) (fault : option write_fault) (s : directory),
    temp <> path -> d !! temp = None ->
    s ∈ (WriteFileWith temp path data created d fault).1 ->
    s !! path = d !! path \/ s !! path = Some (mkFile data 384).
Proof. intros. by eapply states_see. Qed.

(** A write that succeeds leaves the new file and no temporary one; one that
    fails before the rename leaves the directory exactly as it was; only a
    failure to secure the path after the rename leaves the new file too. *)
Theorem secret_write_outcome :
  forall (temp path data : string) (created : Z) (d : directory) (fault : option write_fault),
    temp <> path -> d !! temp = None ->
    let r := WriteFileWith temp path data created d fault in
    leaves r d = match r.2 with None | Some SecureFailed => <[path := mkFile data 384]> d | Some _ => d end
    /\ (fault = None -> r.2 = None).
Proof.
  intros temp path data created d fault Hne Hf. split.
  - pose proof (leaves_path temp path data created d fault Hne Hf) as H. cbv zeta in H.
    by destruct (WriteFileWith _ _ _ _ _ _).2 as [[]|].
  - intros ->. done.
Qed.

(** A write that stops half way: the fourth state of the directory. *)
Definition old_keys : directory := {[ "work.key" := mkFile "hskey-old" 420 ]}.
Definition half_written : list directory :=
  (WriteFileWith ".work.key-1.tmp" "work.key" "hskey-new" 384 old_keys (Some (FaultWrite 3))).1.

Lemma secret_replaced_atomically_witness :
  exists s, s ∈ half_written
  /\ (s !! "work.key" = old_keys !! "work.key" \/ s !! "work.key" = Some (mkFile "hskey-new" 384)).
Proof.
  unfold half_written. eexists. split; [do 3 right; left|].
  apply (secret_replaced_atomically ".work.key-1.tmp" "work.key" "hskey-new" 384 old_keys (Some (FaultWrite 3)));
    [discriminate|reflexivity|do 3 right; left].
Defined.

Lemma secret_write_outcome_witness :
  let d : directory := {[ "work.key" := mkFile "hskey-old" 420 ]} in
  leaves (WriteFileWith ".t" "work.key" "hskey-new" 384 d (Some FaultRename)) d = d.
Proof.
  cbv zeta. apply (secret_write_outcome ".t" "work.key" "hskey-new" 384 {[ "work.key" := mkFile "hskey-old" 420 ]} (Some FaultRename));
    [discriminate|reflexivity].
Defined.
