(* ===== verification/Credential.v ===== *)
(** The managed credential store (src/internal/credential/store.go): names and
    keys, and the operations on its directory, each with the failures the file
    system can answer. *)
From S2P Require Import Prelude GoStrings SecretFile.
From Stdlib Require Import Ascii Sorting.Sorted.

Open Scope bool_scope.

(** * Names and keys *)

Definition isNameRune (c : ascii) : bool :=
  is_lower c || is_upper c || is_digit c || eqc c "." || eqc c "-" || eqc c "_".

Definition ValidateName (name : string) : bool :=
  negb (bool_decide (name = "") || HasPrefix name "." || (64 <? len name)%nat)
  && str_all isNameRune name.

Inductive key_error : Type := KeyEmpty | KeyWhitespace | KeyIncomplete | KeyIsAPISecret | KeyUnknown.

Definition containsCredentialWhitespace (key : string) : bool :=
  str_any (fun c => eqc c "013" || eqc c nl || eqc c " " || eqc c "009") key.

Definition validateTailscaleKey (key : string) : result key_error unit :=
  if HasPrefix key "tskey-api-" || HasPrefix key "tskey-client-" then Err KeyIsAPISecret
  else if negb (HasPrefix key "tskey-auth-") then Err KeyUnknown
  else
    match Split "-" key with
    | [p0; p1; p2; p3] =>
        if negb (bool_decide (p0 = "tskey")) || negb (bool_decide (p1 = "auth")) then Err KeyUnknown
        else if bool_decide (p2 = "") || bool_decide (p3 = "") then Err KeyUnknown
        else Ok tt
    | _ => Err KeyUnknown
    end.

Definition ValidateKey (key : string) : result key_error unit :=
  if bool_decide (key = "") then Err KeyEmpty
  else if containsCredentialWhitespace key then Err KeyWhitespace
  else if HasPrefix key "hskey-" then
    if (len key =? len "hskey-")%nat then Err KeyIncomplete else Ok tt
  else validateTailscaleKey key.

(** Trailing carriage returns and newlines are dropped. *)
Definition normalizeKey (key : string) : result key_error string :=
  let key := trim_right (fun c => eqc c "013" || eqc c nl) key in
  _ ← ValidateKey key; Ok key.

(** * The store *)

(** The directory's mode, none while it does not exist, and its files. *)
Record Store : Type := mkStore {
  dirMode : option Z;
  files : directory;
}.

Record Entry : Type := mkEntry { Name : string; Updated : Z }.

(** What the file system may answer to an operation. *)
Record faults : Type := mkFaults {
  mkdirFails : bool;
  hardenDirFails : bool;
  statFails : bool;
  writeFault : option write_fault;
  readFails : bool;
  readDirFails : bool;
  infoFails : string -> bool;
  removeFails : bool;
}.
Definition noFaults : faults := mkFaults false false false None false false (fun _ => false) false.

Inductive cred_error : Type :=
  | BadName
  | BadKey (e : key_error)
  | MkdirFailed
  | SecureDirFailed
  | ErrCredentialExists
  | StatFailed
  | WriteCredFailed (e : write_error)
  | ReadFailed
  | ReadMissing
  | StoredInvalid (e : key_error)
  | ListFailed
  | StatEntryFailed
  | RemoveFailed
  | RemoveMissing.

Definition keyFile (name : string) : string := name +:+ ".key".
(** The name [os.CreateTemp] picks: hidden, never one of a credential. *)
Definition tempFile (name rand : string) : string := "." +:+ keyFile name +:+ "-" +:+ rand +:+ ".tmp".

Definition ensureDir (f : faults) (s : Store) : result cred_error unit * Store :=
  if mkdirFails f then (Err MkdirFailed, s)
  else
    let s' := mkStore (Some (default 448%Z (dirMode s))) (files s) in
    if hardenDirFails f then (Err SecureDirFailed, s')
    else (Ok tt, mkStore (Some (hardened true)) (files s)).

Definition Set_ (name rawKey : string) (replace : bool) (rand : string) (f : faults) (s : Store) : result cred_error unit * Store :=
  if negb (ValidateName name) then (Err BadName, s)
  else
    match normalizeKey rawKey with
    | Err e => (Err (BadKey e), s)
    | Ok key =>
        match ensureDir f s with
        | (Err e, s1) => (Err e, s1)
        | (Ok _, s1) =>
            if negb replace && (statFails f || bool_decide (is_Some (files s1 !! keyFile name)))
            then (Err (if statFails f then StatFailed else ErrCredentialExists), s1)
            else
              let r := WriteFileWith (tempFile name rand) (keyFile name) key 384 (files s1) (writeFault f) in
              (match r.2 with None => Ok tt | Some e => Err (WriteCredFailed e) end,
               mkStore (dirMode s1) (leaves r (files s1)))
        end
    end.

Definition Get (name : string) (f : faults) (s : Store) : result cred_error string :=
  if negb (ValidateName name) then Err BadName
  else if readFails f then Err ReadFailed
  else
    match files s !! keyFile name with
    | None => Err ReadMissing
    | Some c => map_err StoredInvalid (normalizeKey (content c))
    end.

(** Insertion into a list sorted by name. *)
Fixpoint insert_entry (e : Entry) (l : list Entry) : list Entry :=
  match l with
  | [] => [e]
  | x :: l' => if String.ltb (Name e) (Name x) then e :: x :: l' else x :: insert_entry e l'
  end.
Definition sort_entries (l : list Entry) : list Entry := fold_right insert_entry [] l.

(** [filepath.Ext(name) == ".key"]. *)
Definition is_key_file (n : string) : bool := HasSuffix n ".key".

Definition List_ (modTime : string -> Z) (f : faults) (s : Store) : result cred_error (list Entry) :=
  match dirMode s with
  | None => Ok []
  | Some _ =>
      if readDirFails f then Err ListFailed
      else
        let names := filter (fun n => is_key_file n = true) (elements (dom (files s))) in
        if existsb (infoFails f) names then Err StatEntryFailed
        else Ok (sort_entries (map (fun n => mkEntry (TrimSuffix n ".key") (modTime n)) names))
  end.

Definition Remove (name : string) (f : faults) (s : Store) : result cred_error unit * Store :=
  if negb (ValidateName name) then (Err BadName, s)
  else if removeFails f then (Err RemoveFailed, s)
  else
    match files s !! keyFile name with
    | None => (Err RemoveMissing, s)
    | Some _ => (Ok tt, mkStore (dirMode s) (delete (keyFile name) (files s)))
    end.

(** * Facts *)

Lemma trim_right_cons cut c s :
  trim_right cut (String c s) = match trim_right cut s with "" => if cut c then "" else String c "" | r => String c r end.
Proof. cbn. by destruct (trim_right cut s). Qed.

Lemma normalizeKey_idem key k : normalizeKey key = Ok k -> normalizeKey k = Ok k.
Proof. unfold normalizeKey. intros H. inv_ok. subst k. rewrite trim_right_idem, H0. done. Qed.

Lemma normalizeKey_valid key k : normalizeKey key = Ok k -> ValidateKey k = Ok tt.
Proof. unfold normalizeKey. intros H. inv_ok. subst. by destruct x. Qed.

Lemma str_app_inj_r a b c : a +:+ c = b +:+ c -> a = b.
Proof.
  intros H. assert (len a = len b) as Hl by (apply (f_equal len) in H; rewrite !len_app in H; lia).
  rewrite <- (str_take_app a c), H, Hl. apply str_take_app.
Qed.

Lemma keyFile_inj a b : keyFile a = keyFile b -> a = b.
Proof. apply str_app_inj_r. Qed.

Lemma tempFile_not_key name name' rand : ValidateName name' = true -> tempFile name rand <> keyFile name'.
Proof.
  unfold ValidateName, tempFile, keyFile. rewrite andb_true_iff, negb_true_iff, !orb_false_iff.
  intros [[[Hne Hdot] _] _]. destruct name' as [|c n]; [done|]. intros [= <- _].
  cbn in Hdot. by destruct n.
Qed.

(** A store whose key files hold normalized keys, owner only. *)
Definition key_ok (f : file) : Prop := normalizeKey (content f) = Ok (content f) /\ mode f = 384%Z.
Definition store_ok (s : Store) : Prop :=
  forall n f, files s !! n = Some f -> (exists name, n = keyFile name /\ ValidateName name = true) /\ key_ok f.

Lemma store_ok_no_temp s name rand : store_ok s -> files s !! tempFile name rand = None.
Proof.
  intros H. destruct (files s !! tempFile name rand) as [f|] eqn:E; [|done].
  destruct (H _ _ E) as [(name' & Hn & Hv) _]. by apply tempFile_not_key in Hn.
Qed.

Lemma ensureDir_files f s : files (ensureDir f s).2 = files s.
Proof. unfold ensureDir. by destruct (mkdirFails f), (hardenDirFails f). Qed.

Lemma ensureDir_errors f s :
  match (ensureDir f s).1 with Err (MkdirFailed | SecureDirFailed) | Ok _ => True | _ => False end.
Proof. unfold ensureDir. by destruct (mkdirFails f), (hardenDirFails f). Qed.

(** The outcomes of [Set] that replaced the key. *)
Definition replaced (r : result cred_error unit) : bool :=
  match r with Ok _ | Err (WriteCredFailed SecureFailed) => true | Err _ => false end.

(** Everything [Set] can do to the files. *)
Lemma Set_files name raw replace rand f s :
  files s !! tempFile name rand = None ->
  let '(r, s') := Set_ name raw replace rand f s in
  if replaced r
  then exists key, ValidateName name = true /\ normalizeKey raw = Ok key
         /\ files s' = <[keyFile name := mkFile key 384]> (files s)
         /\ (replace = false -> files s !! keyFile name = None)
  else files s' = files s.
Proof.
  intros Ht. unfold Set_. destruct (ValidateName name) eqn:Hv; cbn [negb]; [|done].
  destruct (normalizeKey raw) as [key|e]; [|done].
  pose proof (ensureDir_files f s) as Hf. pose proof (ensureDir_errors f s) as He.
  destruct (ensureDir f s) as [[[]|e] s1]; cbn in Hf, He.
  2:{ by destruct e. }
  destruct (negb replace && _) eqn:Hx; [by destruct (statFails f)|].
  assert (Hrep : replace = false -> files s !! keyFile name = None).
  { intros ->. cbn in Hx. apply orb_false_iff in Hx as [_ Hx]. apply bool_decide_eq_false in Hx.
    rewrite <- Hf. by apply eq_None_not_Some. }
  rewrite <- Hf in Ht.
  pose proof (leaves_path (tempFile name rand) (keyFile name) key 384 (files s1) (writeFault f)
                (tempFile_not_key _ _ _ Hv) Ht) as Hl. cbv zeta in Hl.
  destruct (WriteFileWith _ _ _ _ _ _) as [states [e|]]; cbn in *; [destruct e|]; rewrite Hl, Hf; eauto 10.
Qed.

Lemma Set_ok_preserves name raw replace rand f s : store_ok s -> store_ok (Set_ name raw replace rand f s).2.
Proof.
  intros Hok. pose proof (Set_files name raw replace rand f s (store_ok_no_temp s name rand Hok)) as H.
  destruct (Set_ name raw replace rand f s) as [r s']. cbn.
  assert (files s' = files s \/ exists key, ValidateName name = true /\ normalizeKey raw = Ok key
      /\ files s' = <[keyFile name := mkFile key 384]> (files s)) as [He|(key & Hv & Hn & He)].
  { destruct r as [|[| | | | | |[]| | | | | | |]]; naive_solver. }
  - intros n c. rewrite He. apply Hok.
  - intros n c. rewrite He. destruct (decide (n = keyFile name)) as [->|Hne].
    + rewrite lookup_insert_eq. intros [= <-]. split; [by exists name|]. split; [|done].
      by apply (normalizeKey_idem raw).
    + rewrite lookup_insert_ne by done. apply Hok.
Qed.

Lemma Remove_ok_preserves name f s : store_ok s -> store_ok (Remove name f s).2.
Proof.
  intros Hok. unfold Remove. destruct (ValidateName name); cbn; [|done]. destruct (removeFails f); [done|].
  destruct (files s !! keyFile name); cbn; [|done]. intros n c Hn. cbn in Hn.
  apply lookup_delete_Some in Hn as [_ Hn]. by apply Hok.
Qed.

Inductive store_step : Store -> Store -> Prop :=
  | do_set name raw replace rand f s : store_step s (Set_ name raw replace rand f s).2
  | do_remove name f s : store_step s (Remove name f s).2.

Definition emptyStore : Store := mkStore None ∅.

Lemma store_reachable_ok s : reachable store_step emptyStore s -> store_ok s.
Proof.
  apply invariant_reachable; [by intros n c|]. intros a b Ha Hs. destruct Hs.
  - by apply Set_ok_preserves.
  - by apply Remove_ok_preserves.
Qed.

Lemma trim_key_file name : TrimSuffix (keyFile name) ".key" = name.
Proof.
  unfold TrimSuffix, keyFile. rewrite HasSuffix_app, len_app.
  replace (len name + len ".key" - len ".key")%nat with (len name) by lia. apply str_take_app.
Qed.

Lemma key_file_name n : is_key_file n = true -> keyFile (TrimSuffix n ".key") = n.
Proof. intros H. apply HasSuffix_spec in H as [a ->]. fold (keyFile a). by rewrite trim_key_file. Qed.

(** ** Sorting *)

Lemma insert_entry_perm e l : insert_entry e l ≡ₚ e :: l.
Proof. induction l as [|x l IH]; [done|]. cbn. destruct (String.ltb _ _); [done|]. rewrite IH. constructor. Qed.
Lemma sort_entries_perm l : sort_entries l ≡ₚ l.
Proof. induction l as [|e l IH]; [done|]. cbn. by rewrite insert_entry_perm, IH. Qed.

Lemma ltb_false_le a b : String.ltb a b = false -> String.leb b a = true.
Proof. unfold String.ltb, String.leb. rewrite (String.compare_antisym b a). by destruct (String.compare a b). Qed.
Lemma ltb_le a b : String.ltb a b = true -> String.leb a b = true.
Proof. unfold String.ltb, String.leb. by destruct (String.compare a b). Qed.

Definition entry_le (a b : Entry) : Prop := String.leb (Name a) (Name b) = true.

Lemma insert_entry_sorted e l : Sorted entry_le l -> Sorted entry_le (insert_entry e l).
Proof.
  induction 1 as [|x l Hs IH Hh]; [by repeat constructor|]. cbn.
  destruct (String.ltb (Name e) (Name x)) eqn:E.
  - constructor; [by constructor|]. constructor. by apply ltb_le.
  - constructor; [done|]. apply ltb_false_le in E. destruct l as [|y l]; cbn; [by constructor|].
    destruct (String.ltb (Name e) (Name y)); constructor; [done|by inversion Hh].
Qed.
Lemma sort_entries_sorted l : Sorted entry_le (sort_entries l).
Proof. induction l as [|e l IH]; [constructor|]. by apply insert_entry_sorted. Qed.

(** Keys a store must never hold. *)
Definition is_api_secret (key : string) : Prop := HasPrefix key "tskey-api-" = true \/ HasPrefix key "tskey-client-" = true.

Lemma api_secret_rejected key : is_api_secret key -> ValidateKey key <> Ok tt.
Proof.
  intros H. unfold ValidateKey. destruct (bool_decide (key = "")) eqn:E; [done|].
  destruct (containsCredentialWhitespace key); [done|].
  assert (HasPrefix key "hskey-" = false) as ->.
  { destruct H as [H|H]; apply HasPrefix_spec in H as [r ->]; reflexivity. }
  unfold validateTailscaleKey. destruct H as [-> | ->]; [done|]. by rewrite orb_true_r.
Qed.

(** * Properties *)

(** C27: in a store that only this code wrote, starting from no directory and
    whatever failures it met, every file is the key file of a valid name, holds
    a valid, normalized key and is readable by its owner only; so a credential
    that can be read is never reported as invalid, and none is a Tailscale API
    token or OAuth client secret. *)
Theorem stored_credentials_valid :
  forall (s : Store) (name : string) (f : faults),
    reachable store_step emptyStore s ->
    (forall c, files s !! keyFile name = Some c -> mode c = 384%Z)
    /\ match Get name f s with
       | Ok key => ValidateKey key = Ok tt /\ ~ is_api_secret key
                   /\ exists c, files s !! keyFile name = Some c /\ content c = key
       | Err e => e = BadName \/ e = ReadFailed \/ e = ReadMissing
       end.
Proof.
  intros s name f Hr. pose proof (store_reachable_ok s Hr) as Hok. split; [intros c Hc; by apply (Hok _ _ Hc)|].
  unfold Get. destruct (ValidateName name); cbn; [|by left]. destruct (readFails f); [by right; left|].
  destruct (files s !! keyFile name) as [c|] eqn:Hc; [|by right; right].
  destruct (Hok _ _ Hc) as [_ [Hn _]]. rewrite Hn. cbn. pose proof (normalizeKey_valid _ _ Hn) as Hv.
  split; [done|]. split; [|by exists c]. intros Ha. by apply (api_secret_rejected _ Ha).
Qed.

(** A [Set] that succeeds is read back by [Get] as the key without its
    trailing line ends, and changes no other credential; one that fails leaves
    every credential as it was, but for the failure to secure a key already in
    place; without [replace] it never changes an existing credential. *)
Theorem set_then_get :
  forall (name raw rand : string) (replace : bool) (f : faults) (s : Store),
    store_ok s ->
    let '(r, s') := Set_ name raw replace rand f s in
    (forall other, other <> name -> files s' !! keyFile other = files s !! keyFile other)
    /\ (r = Ok tt -> exists key, normalizeKey raw = Ok key /\ Get name noFaults s' = Ok key)
    /\ (is_ok r = false -> r <> Err (WriteCredFailed SecureFailed) -> files s' = files s)
    /\ (replace = false -> is_Some (files s !! keyFile name) -> r <> Ok tt /\ files s' = files s).
Proof.
  intros name raw rand replace f s Hok.
  pose proof (Set_files name raw replace rand f s (store_ok_no_temp s name rand Hok)) as H.
  destruct (Set_ name raw replace rand f s) as [r s'].
  assert (files s' = files s /\ r <> Ok tt \/ exists key, ValidateName name = true /\ normalizeKey raw = Ok key
      /\ files s' = <[keyFile name := mkFile key 384]> (files s) /\ (r = Ok tt \/ r = Err (WriteCredFailed SecureFailed))
      /\ (replace = false -> files s !! keyFile name = None)) as [[He Hr]|(key & Hv & Hn & He & Hr & Hrep)].
  { destruct r as [[]|[| | | | | |[]| | | | | | |]]; naive_solver. }
  - rewrite He. split; [done|]. split; [done|]. split; [done|]. done.
  - split; [intros other Ho; rewrite He, lookup_insert_ne; [done|by intros Hk%keyFile_inj]|].
    split; [|split].
    + intros _. exists key. split; [done|]. unfold Get. rewrite Hv. cbn. rewrite He, lookup_insert_eq. cbn.
      by rewrite (normalizeKey_idem _ _ Hn).
    + intros Hf Hne. destruct Hr as [->| ->]; done.
    + intros Hfalse [c Hc]. rewrite (Hrep Hfalse) in Hc. done.
Qed.

(** A listing is sorted by name and names exactly the key files, each once. *)
Theorem list_is_sorted_and_complete :
  forall (modTime : string -> Z) (f : faults) (s : Store) (l : list Entry),
    List_ modTime f s = Ok l ->
    Sorted entry_le l
    /\ (dirMode s <> None -> NoDup (map Name l)
        /\ forall name, name ∈ map Name l <-> is_Some (files s !! keyFile name)).
Proof.
  intros modTime f s l H. unfold List_ in H. destruct (dirMode s); [|injection H as <-; split; [constructor|done]].
  destruct (readDirFails f); [done|]. destruct (existsb _ _); [done|]. injection H as <-.
  split; [apply sort_entries_sorted|]. intros _.
  set (names := filter _ _). set (es := map _ names).
  assert (Hmap : map Name (sort_entries es) ≡ₚ map (fun n => TrimSuffix n ".key") names).
  { rewrite sort_entries_perm. unfold es. by rewrite map_map. }
  assert (Hkey : forall n, n ∈ names <-> is_key_file n = true /\ is_Some (files s !! n)).
  { intros n. unfold names. rewrite list_elem_of_filter, elem_of_elements, elem_of_dom. done. }
  split.
  - rewrite Hmap. apply NoDup_fmap_2_strong; [|apply NoDup_filter, NoDup_elements].
    intros a b Ha Hb Hab. apply Hkey in Ha as [Ha _]. apply Hkey in Hb as [Hb _].
    by rewrite <- (key_file_name a), <- (key_file_name b), Hab.
  - intros name. rewrite Hmap, list_elem_of_fmap. split.
    + intros (n & -> & Hn). apply Hkey in Hn as [Hk Hs]. by rewrite key_file_name.
    + intros Hs. exists (keyFile name). split; [by rewrite trim_key_file|]. apply Hkey. split; [apply HasSuffix_app|done].
Qed.

Definition work_store : Store := (Set_ "work" ("hskey-abc" +:+ newline) false "1" noFaults emptyStore).2.

Lemma stored_credentials_valid_witness :
  (forall c, files work_store !! keyFile "work" = Some c -> mode c = 384%Z)
  /\ match Get "work" noFaults work_store with
     | Ok key => ValidateKey key = Ok tt /\ ~ is_api_secret key
                 /\ exists c, files work_store !! keyFile "work" = Some c /\ content c = key
     | Err e => e = BadName \/ e = ReadFailed \/ e = ReadMissing
     end.
Proof.
  apply (stored_credentials_valid work_store "work" noFaults).
  eapply reach_step; [apply reach_init|apply do_set].
Defined.

Lemma set_then_get_witness :
  is_ok (Get "work" noFaults work_store) = true
  /\ let '(r, s') := Set_ "work" "hskey-new" false "2" noFaults work_store in r <> Ok tt /\ files s' = files work_store.
Proof.
  split; [by vm_compute|].
  assert (store_ok work_store) as Hok by (apply Set_ok_preserves; by intros n c).
  pose proof (set_then_get "work" "hskey-new" "2" false noFaults work_store Hok) as H.
  destruct (Set_ _ _ _ _ _ _) as [r s']. destruct H as (_ & _ & _ & H). apply H; [reflexivity|].
  vm_compute. by eexists.
Defined.

Lemma list_is_sorted_and_complete_witness :
  exists l, List_ (fun _ => 0%Z) noFaults work_store = Ok l /\ Sorted entry_le l.
Proof.
  eexists. split; [vm_compute; reflexivity|].
  eapply (list_is_sorted_and_complete (fun _ => 0%Z) noFaults work_store). vm_compute. reflexivity.
Defined.
