(* ===== verification/ControlUrl.v ===== *)
(** The control URL's validation (src/internal/controlurl/controlurl.go) and its
    comparison (SameControlURL, src/internal/profile/store.go).

    Package net/url is an interface: a parser from text to the parts of a URL,
    and its inverse printer. [Hostname] and [Port], which the sources read the
    host through, are defined on the host as the package does. *)
From S2P Require Import Prelude GoStrings GoNet.
From Stdlib Require Import Ascii.

Open Scope bool_scope.

Record URL : Type := mkURL {
  Scheme : string;
  hasUser : bool;
  Host : string;
  Path : string;
  RawQuery : string;
  rest : string;
}.

Class UrlPackage : Type := {
  urlParse : string -> option URL;
  urlString : URL -> string;
}.

(** A port is empty or a colon and digits. *)
Definition validOptionalPort (port : string) : bool :=
  match port with
  | "" => true
  | String c r => eqc c ":" && str_all is_digit r
  end.

(** The host and the port of [URL.Host], the port without its colon. *)
Definition splitHostPort (hostPort : string) : string * string :=
  let '(host, port) :=
    match last_index_byte ":" hostPort with
    | Some i =>
        if validOptionalPort (str_drop i hostPort)
        then (str_take i hostPort, str_drop (S i) hostPort) else (hostPort, "")
    | None => (hostPort, "")
    end in
  if HasPrefix host "[" && HasSuffix host "]"
  then (str_drop 1 (str_take (len host - 1) host), port) else (host, port).
Definition Hostname (u : URL) : string := (splitHostPort (Host u)).1.
Definition Port (u : URL) : string := (splitHostPort (Host u)).2.

(** * Validation *)

Inductive url_error : Type := ErrNotURL | ErrCredentials | ErrScheme | ErrPort.
#[export] Instance url_error_eq_dec : EqDecision url_error.
Proof. solve_decision. Defined.

Definition validPort (p : string) : bool :=
  bool_decide (p = "") || match Atoi p with Some n => port_in_range n | None => false end.

Lemma validPort_spec p :
  validPort p = true <-> p = "" \/ exists n, Atoi p = Some n /\ (1 <= n <= 65535)%Z.
Proof.
  assert (Hp : forall n, port_in_range n = true <-> (1 <= n <= 65535)%Z).
  { intros n. unfold port_in_range. rewrite andb_true_iff, !Z.leb_le. lia. }
  unfold validPort. rewrite orb_true_iff, bool_decide_eq_true.
  destruct (Atoi p) as [n|]; [rewrite Hp|]; naive_solver.
Qed.

Section Validate.
Context `{UrlPackage}.

Definition Validate (raw : string) : result url_error unit :=
  match urlParse raw with
  | None => Err ErrNotURL
  | Some u =>
      if hasUser u then Err ErrCredentials
      else if (negb (bool_decide (Scheme u = "http")) && negb (bool_decide (Scheme u = "https")))
              || bool_decide (Hostname u = "")
      then Err ErrScheme
      else if negb (validPort (Port u)) then Err ErrPort
      else Ok tt
  end.

(** What a valid control URL is. *)
Lemma Validate_Ok raw :
  Validate raw = Ok tt <->
  exists u, urlParse raw = Some u /\ hasUser u = false
    /\ (Scheme u = "http" \/ Scheme u = "https") /\ Hostname u <> ""
    /\ (Port u = "" \/ exists n, Atoi (Port u) = Some n /\ (1 <= n <= 65535)%Z).
Proof.
  unfold Validate. split.
  - destruct (urlParse raw) as [u|]; [|done]. destruct (hasUser u) eqn:Hu; [done|].
    destruct (_ || _) eqn:Hs; [done|]. destruct (validPort (Port u)) eqn:Hp; [|done]. intros _.
    apply orb_false_iff in Hs as [Hs Hh]. apply bool_decide_eq_false in Hh.
    rewrite validPort_spec in Hp. exists u. split; [done|]. split; [done|]. split; [|done].
    destruct (bool_decide (Scheme u = "http")) eqn:E1; [left; by apply bool_decide_eq_true in E1|].
    destruct (bool_decide (Scheme u = "https")) eqn:E2; [right; by apply bool_decide_eq_true in E2|done].
  - intros (u & -> & -> & Hs & Hh & Hp%validPort_spec). rewrite Hp, (bool_decide_eq_false_2 _ Hh).
    by destruct Hs as [-> | ->].
Qed.

(** * Comparison *)

Definition saasHosts : list string :=
  ["controlplane.tailscale.com"; "login.tailscale.com"; "control.tailscale.com"].

Definition normalizeControlURL (raw0 : string) : string :=
  let raw := trim_right (fun c => eqc c "/") (TrimSpace raw0) in
  match urlParse raw with
  | None => raw
  | Some u =>
      if bool_decide (Host u = "") then raw
      else
        let u := mkURL (ToLower (Scheme u)) (hasUser u) (ToLower (Host u)) (Path u) (RawQuery u) (rest u) in
        let p := Port u in
        let u :=
          if (bool_decide (Scheme u = "https") && bool_decide (p = "443"))
             || (bool_decide (Scheme u = "http") && bool_decide (p = "80"))
          then mkURL (Scheme u) (hasUser u) (TrimSuffix (Host u) (":" +:+ p)) (Path u) (RawQuery u) (rest u)
          else u in
        if bool_decide (Scheme u = "https") && contains_word saasHosts (Host u)
           && bool_decide (Path u = "") && bool_decide (RawQuery u = "")
        then ""
        else urlString u
  end.

Definition SameControlURL (a b : string) : bool :=
  bool_decide (normalizeControlURL a = normalizeControlURL b).

Lemma SameControlURL_spec a b : SameControlURL a b = true <-> normalizeControlURL a = normalizeControlURL b.
Proof. apply bool_decide_eq_true. Qed.

#[export] Instance SameControlURL_equiv : Equivalence (fun a b => SameControlURL a b = true).
Proof.
  split.
  - intros a. by apply bool_decide_eq_true.
  - intros a b. unfold SameControlURL. rewrite !bool_decide_eq_true. done.
  - intros a b c. unfold SameControlURL. rewrite !bool_decide_eq_true. congruence.
Qed.

End Validate.

(** Surrounding space and trailing slashes never matter. *)
Lemma normalizeControlURL_slash `{UrlPackage} raw :
  normalizeControlURL (TrimSpace raw) = normalizeControlURL raw.
Proof. unfold normalizeControlURL, TrimSpace. by rewrite trim_idem. Qed.

(** * A concrete package

    URLs of the form [scheme://host/path], enough to run the definitions on. *)
Definition simpleParse (raw : string) : option URL :=
  let '(scheme, r, ok) := Cut ":" raw in
  if ok && HasPrefix r "//"
  then
    let '(authority, path, slash) := Cut "/" (str_drop 2 r) in
    let '(user, host, at_) := Cut "@" authority in
    Some (mkURL scheme at_ (if at_ then host else authority) (if slash then "/" +:+ path else "") "" "")
  else Some (mkURL "" false "" raw "" "").
Definition simpleString (u : URL) : string := Scheme u +:+ "://" +:+ Host u +:+ Path u.
Definition simpleUrl : UrlPackage := Build_UrlPackage simpleParse simpleString.

Example simple_same :
  map (fun '(a, b) => @SameControlURL simpleUrl a b)
    [("https://HS.example.com/", "https://hs.example.com:443"); ("", "https://login.tailscale.com");
     ("https://a", "https://b"); ("http://a:80/x", "http://a/x"); ("http://a:443", "http://a")]
  = [true; true; false; true; false].
Proof. vm_compute. reflexivity. Qed.
