(* ===== verification/Config.v ===== *)
(** The configuration's data and derivations (src/internal/config/config.go,
    statedir.go, health.go): defaults, ports, host names, state directories and
    the health listener. What a derivation reads of the machine is a record. *)
From S2P Require Import Prelude GoStrings GoNet GoPath GoTime EnvFile ControlUrl.
From Stdlib Require Import Ascii.

Open Scope bool_scope.

(** What the machine answers: the environment, the operating system, its host
    name if it has one, the process id, the temporary directory, and which
    loopback ports can be bound. *)
Record machine : Type := mkMachine {
  env : environment;
  goos : string;
  osHostname : option string;
  pid : Z;
  tempDir : string;
  canListen : Z -> bool;
}.

(** * Defaults *)

Definition second : Z := 10 ^ 9.
Definition defaultLocalAddr := "127.0.0.1:33389".
Definition defaultHostname := "ts-bridge".
Definition defaultAutoPortRange := "33389-34388".
Definition defaultTimeout : Z := 30 * second.
Definition defaultDrainTimeout : Z := 15 * second.
Definition defaultMaxConnections : Z := 1000.
Definition defaultDialRetries : Z := 3.
Definition defaultDialBackoffBase : Z := 1 * second.
Definition defaultDialBackoffMax : Z := 30 * second.
Definition defaultDialTimeout : Z := 5 * second.
Definition defaultBootstrapSOCKS := "127.0.0.1:1055".

Record Config : Type := mkConfig {
  LocalAddr : string;
  SOCKS5Addr : string;
  SOCKS5Routes : gmap string string;
  Target : string;
  AuthKey : string;
  Hostname : string;
  StateDir : string;
  ControlURL : string;
  BootstrapSSH : string;
  BootstrapSOCKSAddr : string;
  ConnectTimeout : Z;
  DialTimeout : Z;
  DrainTimeout : Z;
  IdleTimeout : Z;
  DialRetries : Z;
  DialBackoffBase : Z;
  DialBackoffMax : Z;
  MaxConnections : Z;
  HealthAddr : string;
  HealthAllowRemote : bool;
  Verbose : bool;
  Quiet : bool;
  LogFormat : string;
  AutoInstance : bool;
  EphemeralState : bool;
}.

Definition defaults : Config :=
  mkConfig "" "" ∅ "" "" "" "" "" "" "" defaultTimeout defaultDialTimeout defaultDrainTimeout 0
    defaultDialRetries defaultDialBackoffBase defaultDialBackoffMax defaultMaxConnections "" false
    false false "text" true false.

(** * Assignments to one field *)

Definition set_LocalAddr (v : string) (c : Config) : Config :=
    mkConfig v (SOCKS5Addr c) (SOCKS5Routes c) (Target c) (AuthKey c) (Hostname c) (StateDir c) (ControlURL c)
    (BootstrapSSH c) (BootstrapSOCKSAddr c) (ConnectTimeout c) (DialTimeout c) (DrainTimeout c) (IdleTimeout c)
    (DialRetries c) (DialBackoffBase c) (DialBackoffMax c) (MaxConnections c) (HealthAddr c) (HealthAllowRemote
    c) (Verbose c) (Quiet c) (LogFormat c) (AutoInstance c) (EphemeralState c).

Definition set_AuthKey (v : string) (c : Config) : Config :=
    mkConfig (LocalAddr c) (SOCKS5Addr c) (SOCKS5Routes c) (Target c) v (Hostname c) (StateDir c) (ControlURL c)
    (BootstrapSSH c) (BootstrapSOCKSAddr c) (ConnectTimeout c) (DialTimeout c) (DrainTimeout c) (IdleTimeout c)
    (DialRetries c) (DialBackoffBase c) (DialBackoffMax c) (MaxConnections c) (HealthAddr c) (HealthAllowRemote
    c) (Verbose c) (Quiet c) (LogFormat c) (AutoInstance c) (EphemeralState c).

Definition set_ControlURL (v : string) (c : Config) : Config :=
    mkConfig (LocalAddr c) (SOCKS5Addr c) (SOCKS5Routes c) (Target c) (AuthKey c) (Hostname c) (StateDir c) v
    (BootstrapSSH c) (BootstrapSOCKSAddr c) (ConnectTimeout c) (DialTimeout c) (DrainTimeout c) (IdleTimeout c)
    (DialRetries c) (DialBackoffBase c) (DialBackoffMax c) (MaxConnections c) (HealthAddr c) (HealthAllowRemote
    c) (Verbose c) (Quiet c) (LogFormat c) (AutoInstance c) (EphemeralState c).

Definition set_Hostname (v : string) (c : Config) : Config :=
    mkConfig (LocalAddr c) (SOCKS5Addr c) (SOCKS5Routes c) (Target c) (AuthKey c) v (StateDir c) (ControlURL c)
    (BootstrapSSH c) (BootstrapSOCKSAddr c) (ConnectTimeout c) (DialTimeout c) (DrainTimeout c) (IdleTimeout c)
    (DialRetries c) (DialBackoffBase c) (DialBackoffMax c) (MaxConnections c) (HealthAddr c) (HealthAllowRemote
    c) (Verbose c) (Quiet c) (LogFormat c) (AutoInstance c) (EphemeralState c).

Definition set_AutoInstance (v : bool) (c : Config) : Config :=
    mkConfig (LocalAddr c) (SOCKS5Addr c) (SOCKS5Routes c) (Target c) (AuthKey c) (Hostname c) (StateDir c)
    (ControlURL c) (BootstrapSSH c) (BootstrapSOCKSAddr c) (ConnectTimeout c) (DialTimeout c) (DrainTimeout c)
    (IdleTimeout c) (DialRetries c) (DialBackoffBase c) (DialBackoffMax c) (MaxConnections c) (HealthAddr c)
    (HealthAllowRemote c) (Verbose c) (Quiet c) (LogFormat c) v (EphemeralState c).

Definition set_bootstrap (ssh socks : string) (c : Config) : Config :=
    mkConfig (LocalAddr c) (SOCKS5Addr c) (SOCKS5Routes c) (Target c) (AuthKey c) (Hostname c) (StateDir c)
    (ControlURL c) ssh socks (ConnectTimeout c) (DialTimeout c) (DrainTimeout c) (IdleTimeout c) (DialRetries c)
    (DialBackoffBase c) (DialBackoffMax c) (MaxConnections c) (HealthAddr c) (HealthAllowRemote c) (Verbose c)
    (Quiet c) (LogFormat c) (AutoInstance c) (EphemeralState c).

Definition set_state (dir : string) (ephemeral : bool) (c : Config) : Config :=
    mkConfig (LocalAddr c) (SOCKS5Addr c) (SOCKS5Routes c) (Target c) (AuthKey c) (Hostname c) dir (ControlURL
    c) (BootstrapSSH c) (BootstrapSOCKSAddr c) (ConnectTimeout c) (DialTimeout c) (DrainTimeout c) (IdleTimeout
    c) (DialRetries c) (DialBackoffBase c) (DialBackoffMax c) (MaxConnections c) (HealthAddr c)
    (HealthAllowRemote c) (Verbose c) (Quiet c) (LogFormat c) (AutoInstance c) ephemeral.

(** * Booleans and control planes *)

Definition parseBoolEnv (value : string) : bool :=
  contains_word ["1"; "true"; "yes"; "on"] (ToLower (TrimSpace value)).

Inductive plane_error : Type := HeadscaleKeyNeedsURL | BadControlURL (e : url_error).

Definition ValidateControlPlane `{UrlPackage} (authKey controlURL : string) : result plane_error unit :=
  let trimmed := TrimSpace controlURL in
  if HasPrefix authKey "hskey-" && bool_decide (trimmed = "") then Err HeadscaleKeyNeedsURL
  else if negb (bool_decide (trimmed = "")) then map_err BadControlURL (Validate trimmed)
  else Ok tt.

(** * Ports *)

(** 32-bit FNV-1a. *)
Definition fnv_step (h : Z) (c : ascii) : Z := (Z.lxor h (byte_val c) * 16777619) mod 2 ^ 32.
Fixpoint fnv_go (h : Z) (s : string) : Z :=
  match s with "" => h | String c r => fnv_go (fnv_step h c) r end.
Definition fnv32a (s : string) : Z := fnv_go 2166136261 s.

Inductive port_error : Type :=
  | RangeFormat | RangeStart | RangeEnd | RangeBounds (start end_ : Z) | RangeSpan | NoFreePorts.

Definition parsePortRange (value : string) : result port_error (Z * Z) :=
  match Split "-" value with
  | [a; b] =>
      match Atoi (TrimSpace a) with
      | None => Err RangeStart
      | Some start =>
          match Atoi (TrimSpace b) with
          | None => Err RangeEnd
          | Some end_ =>
              if (start <? 1)%Z || (end_ >? 65535)%Z || (start >? end_)%Z then Err (RangeBounds start end_)
              else Ok (start, end_)
          end
      end
  | _ => Err RangeFormat
  end.

(** The loop of [selectAvailablePort]: [n] ports left to try, from the [i]-th. *)
Fixpoint try_ports (free : Z -> bool) (start offset span : Z) (n : nat) (i : Z) : option Z :=
  match n with
  | O => None
  | S n' =>
      let port := (start + (offset + i) mod span)%Z in
      if free port then Some port else try_ports free start offset span n' (i + 1)
  end.

Definition selectAvailablePort (free : Z -> bool) (seed : string) (start end_ : Z) : result port_error Z :=
  let span := (end_ - start + 1)%Z in
  if (span <=? 0)%Z then Err RangeSpan
  else
    let offset := Z.rem (fnv32a seed) span in
    match try_ports free start offset span (Z.to_nat span) 0 with
    | Some port => Ok port
    | None => Err NoFreePorts
    end.

(** The machine's name, or a stand-in. *)
Definition hostName (m : machine) : string :=
  match osHostname m with Some h => if bool_decide (h = "") then "unknown-host" else h | None => "unknown-host" end.

Definition deriveAutoLocalAddr (m : machine) (target instanceName portRange : string) : result port_error string :=
  '(start, end_) ← parsePortRange portRange;
  let seed := hostName m +:+ "|" +:+ target +:+ "|" +:+ instanceName in
  port ← selectAvailablePort (canListen m) seed start end_;
  Ok ("127.0.0.1:" +:+ Itoa port).

(** * Host names *)

Definition is_label_byte (c : ascii) : bool := is_lower c || is_digit c.

(** Runs of other bytes become one dash. *)
Fixpoint sanitize_go (previousDash : bool) (s : string) : string :=
  match s with
  | "" => ""
  | String c r =>
      if is_label_byte c then String c (sanitize_go false r)
      else if previousDash then sanitize_go true r
      else String "-" (sanitize_go true r)
  end.
Definition trim_dash (s : string) : string := trim (fun c => eqc c "-") s.
Definition SanitizeHostnameLabel (value : string) : string :=
  trim_dash (sanitize_go false (ToLower (TrimSpace value))).

Definition deriveAutoHostname (m : machine) (target instanceName : string) : string :=
  let machine := SanitizeHostnameLabel (hostName m) in
  let instance0 := SanitizeHostnameLabel instanceName in
  let instance1 := if bool_decide (instance0 = "") then machine else instance0 in
  let instance := if bool_decide (instance1 = "") then "bridge" else instance1 in
  let base0 := "tsb-" +:+ instance in
  let base1 := if (30 <? len base0)%nat then trim_dash (str_take 30 base0) else base0 in
  let base := if bool_decide (base1 = "") then "tsb-bridge" else base1 in
  let hash := hex_fixed 6 (Z.to_N (Z.land (fnv32a (machine +:+ "|" +:+ target +:+ "|" +:+ instanceName)) 16777215)) in
  let hostname := base +:+ "-" +:+ hash +:+ "-" +:+ Itoa (pid m) in
  let hostname := if (63 <? len hostname)%nat then trim_dash (str_take 63 hostname) else hostname in
  if bool_decide (hostname = "") then defaultHostname else hostname.

(** * State directories *)

Definition appDirName := "ts-bridge".
Definition stateDirLeaf := "state".

Definition platformStateBase (os : string) (getenv : string -> string) : string :=
  if bool_decide (os = "windows") then JoinPath [getenv "LOCALAPPDATA"; appDirName; stateDirLeaf]
  else if bool_decide (os = "darwin") then JoinPath [getenv "HOME"; "Library"; "Application Support"; appDirName; stateDirLeaf]
  else
    let base := getenv "XDG_STATE_HOME" in
    let base := if bool_decide (base = "") then JoinPath [getenv "HOME"; ".local"; stateDirLeaf] else base in
    JoinPath [base; appDirName; stateDirLeaf].

Definition stateDirFor (m : machine) (os : string) (getenv : string -> string) : string :=
  let dir := platformStateBase os getenv in
  if negb (IsAbs dir) then JoinPath [tempDir m; appDirName; stateDirLeaf] else dir.
Definition StateDirForPlatform (m : machine) : string := stateDirFor m (goos m) (Getenv (env m)).
Definition stateDirIsCWDRelative (dir : string) : bool := negb (bool_decide (dir = "")) && negb (IsAbs dir).

Definition ephemeralSegment (hostname : string) : string :=
  let seg := SanitizeHostnameLabel hostname in
  if bool_decide (seg = "") then "instance" else seg.
Definition EphemeralStateDir (m : machine) (hostname : string) : string :=
  JoinPath [tempDir m; appDirName; ephemeralSegment hostname].
Definition ProfileStorePath (m : machine) : string := JoinPath [Dir (StateDirForPlatform m); "profiles.yaml"].
Definition CredentialStoreDir (m : machine) : string := JoinPath [Dir (ProfileStorePath m); "credentials"].

(** * The health listener *)

Definition HealthExposed (cfg : Config) : bool :=
  if bool_decide (HealthAddr cfg = "") then false
  else
    match SplitHostPort (HealthAddr cfg) with
    | Err _ => true
    | Ok (host, _) =>
        if bool_decide (host = "localhost") then false
        else match ParseIP host with Some ip => negb (IsLoopback ip) | None => true end
    end.

Inductive health_error : Type := NotHostPort (e : addr_error) | NotLoopback.

Definition ValidateHealthListener (cfg : Config) : result health_error unit :=
  _ ← (if bool_decide (HealthAddr cfg = "") then Ok tt
       else _ ← map_err NotHostPort (SplitHostPort (HealthAddr cfg)); Ok tt);
  if negb (HealthExposed cfg) || HealthAllowRemote cfg then Ok tt else Err NotLoopback.

(** * Facts *)

(** ** Ports *)

Lemma try_ports_Some free start offset span n i p :
  (0 < span)%Z -> try_ports free start offset span n i = Some p ->
  (start <= p < start + span)%Z /\ free p = true.
Proof.
  intros Hs. revert i. induction n as [|n IH]; intros i; cbn; [done|].
  destruct (free (start + (offset + i) mod span)%Z) eqn:E; [|apply IH]. intros [= <-]. split; [|done].
  pose proof (Z.mod_pos_bound (offset + i) span Hs). lia.
Qed.

Lemma try_ports_None free start offset span n i :
  try_ports free start offset span n i = None ->
  forall j, (i <= j < i + Z.of_nat n)%Z -> free (start + (offset + j) mod span)%Z = false.
Proof.
  revert i. induction n as [|n IH]; intros i; cbn; [lia|].
  destruct (free (start + (offset + i) mod span)%Z) eqn:E; [done|]. intros H j Hj. destruct (decide (j = i)) as [->|]; [done|].
  apply (IH (i + 1)%Z H). lia.
Qed.

(** Every port of the range is tried: the walk goes round it once. *)
Lemma try_ports_covers free start offset span p :
  (0 < span)%Z -> try_ports free start offset span (Z.to_nat span) 0 = None ->
  (start <= p < start + span)%Z -> free p = false.
Proof.
  intros Hs H Hp. pose proof (try_ports_None _ _ _ _ _ _ H ((p - start - offset) mod span)%Z) as Hj.
  pose proof (Z.mod_pos_bound (p - start - offset) span Hs).
  rewrite <- (Hj ltac:(lia)). f_equal.
  rewrite Z.add_mod_idemp_r by lia. replace (offset + (p - start - offset))%Z with (p - start)%Z by lia.
  rewrite Z.mod_small; lia.
Qed.

Lemma Atoi_TrimSpace_Itoa z : (0 <= z <= max_int64)%Z -> Atoi (TrimSpace (Itoa z)) = Some z.
Proof.
  intros H. unfold TrimSpace. rewrite trim_none.
  - apply Atoi_Itoa. unfold min_int64. lia.
  - apply digits_no_space, Itoa_all_digits. lia.
Qed.

(** ** Labels *)

Definition is_dash (c : ascii) : bool := eqc c "-".
Definition label_or_dash (c : ascii) : bool := is_label_byte c || is_dash c.

Lemma label_or_dash_impl s : str_all is_label_byte s = true -> str_all label_or_dash s = true.
Proof. apply str_all_impl. intros c H. unfold label_or_dash. by rewrite H. Qed.

Lemma sanitize_go_bytes b s : str_all label_or_dash (sanitize_go b s) = true.
Proof.
  revert b. induction s as [|c s IH]; intros b; [done|]. cbn. unfold label_or_dash at 1.
  destruct (is_label_byte c) eqn:E; cbn; [by rewrite E, IH|]. destruct b; cbn; [done|]. by rewrite IH.
Qed.

Lemma SanitizeHostnameLabel_bytes v : str_all label_or_dash (SanitizeHostnameLabel v) = true.
Proof. apply str_all_trim, sanitize_go_bytes. Qed.

Lemma hex_fixed_bytes w n : str_all is_label_byte (hex_fixed w n) = true.
Proof.
  revert n. induction w as [|w IH]; intros n; [done|]. cbn [hex_fixed]. rewrite str_all_app, IH. cbn.
  rewrite andb_true_r. unfold hex_digit. pose proof (N.mod_lt n 16 ltac:(lia)) as H.
  generalize dependent (n mod 16)%N. clear. intros r H.
  assert (Hall : forallb (fun k => is_label_byte (if (N.of_nat k <? 10)%N then ascii_of_N (48 + N.of_nat k) else ascii_of_N (87 + N.of_nat k))) (seq 0 16) = true)
    by (by vm_compute).
  rewrite List.forallb_forall in Hall. specialize (Hall (N.to_nat r) ltac:(apply in_seq; lia)).
  by rewrite N2Nat.id in Hall.
Qed.

Lemma len_hex_fixed w n : len (hex_fixed w n) = w.
Proof. revert n. induction w as [|w IH]; intros n; [done|]. cbn [hex_fixed]. rewrite len_app, IH. unfold len. cbn. lia. Qed.

(** No dash at either end. *)
Definition no_edge_dash (s : string) : Prop :=
  (forall r, s <> String "-" r) /\ (forall r, s <> r +:+ String "-" "").

Lemma trim_dash_edges s : no_edge_dash (trim_dash s).
Proof.
  unfold trim_dash, trim. split.
  - intros r H. rewrite <- trim_left_right_comm in H. apply trim_left_head in H. done.
  - intros r H. by apply trim_right_last in H.
Qed.

Lemma str_app_last_inj a b c d : a +:+ String c "" = b +:+ String d "" -> c = d.
Proof.
  revert b. induction a as [|x a IH]; intros [|y b]; cbn; intros [= H]; try done.
  - by destruct b.
  - by destruct a.
  - by eapply IH.
Qed.

Lemma digit_not_dash d : is_digit d = true -> d <> "-"%char.
Proof. by intros H ->. Qed.

Lemma str_all_digits_label s : str_all is_digit s = true -> str_all label_or_dash s = true.
Proof. apply str_all_impl. intros c H. unfold label_or_dash, is_label_byte. by rewrite H, orb_true_r. Qed.

(** The start of the automatic host name, dash and all, keeps its first byte. *)
Definition auto_base (instance : string) : string :=
  let base0 := "tsb-" +:+ instance in
  let base1 := if (30 <? len base0)%nat then trim_dash (str_take 30 base0) else base0 in
  if bool_decide (base1 = "") then "tsb-bridge" else base1.

Lemma trim_right_head cut c s : cut c = false -> exists r, trim_right cut (String c s) = String c r.
Proof.
  intros H. cbn. destruct (trim_right cut s) as [|d r]; [rewrite H; by exists ""|by eexists].
Qed.

Lemma auto_base_spec instance :
  str_all label_or_dash instance = true ->
  str_all label_or_dash (auto_base instance) = true /\ (exists r, auto_base instance = String "t" r)
  /\ (len (auto_base instance) <= 30)%nat.
Proof.
  intros Hi. unfold auto_base.
  assert (Hb : str_all label_or_dash ("tsb-" +:+ instance) = true) by (by rewrite str_all_app, Hi).
  destruct (30 <? len ("tsb-" +:+ instance))%nat eqn:E.
  - change (str_take 30 ("tsb-" +:+ instance)) with (String "t" (str_take 29 ("sb-" +:+ instance))).
    unfold trim_dash, trim. cbn [trim_left]. change (eqc "t" "-") with false. cbv iota.
    destruct (trim_right_head (fun c => eqc c "-") "t" (str_take 29 ("sb-" +:+ instance)) eq_refl) as [r Hr].
    pose proof (len_trim_right (fun c => eqc c "-") (String "t" (str_take 29 ("sb-" +:+ instance)))) as Hl.
    pose proof (len_str_take 29 ("sb-" +:+ instance)) as Ht. unfold len in *. cbn [String.length] in Hl.
    rewrite Hr, bool_decide_eq_false_2 by done. split; [|split; [by exists r|rewrite Hr in Hl; cbn in *; lia]].
    rewrite <- Hr. apply str_all_trim_right. change (str_all label_or_dash (str_take 30 ("tsb-" +:+ instance)) = true).
    by apply str_all_take.
  - apply Nat.ltb_ge in E. rewrite bool_decide_eq_false_2 by done. split; [done|]. split; [by eexists|done].
Qed.

(** ** Paths *)

Lemma label_plain_segment s :
  s <> "" -> str_all label_or_dash s = true -> plain_segment s = true.
Proof.
  intros Hne Hs. unfold plain_segment. apply andb_true_iff. split.
  - revert Hs. unfold no_byte. apply str_all_impl. intros c Hc.
    apply negb_true_iff, eqc_false. by intros ->.
  - apply negb_true_iff. unfold contains_word. apply bool_decide_eq_false.
    intros H. rewrite !elem_of_cons in H. by destruct H as [->|[->|[->|?%elem_of_nil]]].
Qed.

Lemma ephemeralSegment_bytes h : ephemeralSegment h <> "" /\ str_all label_or_dash (ephemeralSegment h) = true.
Proof.
  unfold ephemeralSegment. destruct (bool_decide _) eqn:E; [done|].
  split; [by apply bool_decide_eq_false in E|apply SanitizeHostnameLabel_bytes].
Qed.

(** Every port range an operator writes as [a-b]. *)
Lemma parsePortRange_Itoa a b :
  (1 <= a <= b)%Z -> (b <= 65535)%Z -> parsePortRange (Itoa a +:+ "-" +:+ Itoa b) = Ok (a, b).
Proof.
  intros Ha Hb. unfold parsePortRange. cbn [String.append].
  assert (Hd : forall z, (0 <= z)%Z -> no_byte "-" (Itoa z) = true)
    by (intros z Hz; by apply digits_no_byte, Itoa_all_digits).
  rewrite Split_app_sep, (Split_no_byte _ (Itoa b)), !Atoi_TrimSpace_Itoa
    by (try apply Hd; unfold max_int64; lia).
  assert (((a <? 1) || (b >? 65535) || (a >? b))%Z = false) as ->; [|done].
  rewrite !orb_false_iff, Z.ltb_ge, !Z.gtb_ltb, !Z.ltb_ge. lia.
Qed.

Lemma selectAvailablePort_spec free seed a b :
  (a <= b)%Z ->
  match selectAvailablePort free seed a b with
  | Ok p => (a <= p <= b)%Z /\ free p = true
  | Err e => e = NoFreePorts /\ forall p, (a <= p <= b)%Z -> free p = false
  end.
Proof.
  intros Hab. unfold selectAvailablePort.
  assert ((b - a + 1 <=? 0)%Z = false) as -> by (apply Z.leb_gt; lia).
  destruct (try_ports _ _ _ _ _ _) as [p|] eqn:E.
  - apply try_ports_Some in E as [? ?]; [|lia]. split; [lia|done].
  - split; [done|]. intros p Hp. eapply try_ports_covers; [|exact E|]; lia.
Qed.

Lemma SanitizeHostnameLabel_or d v :
  str_all label_or_dash d = true ->
  str_all label_or_dash (if bool_decide (SanitizeHostnameLabel v = "") then d else SanitizeHostnameLabel v) = true.
Proof. intros H. destruct (bool_decide _); [done|apply SanitizeHostnameLabel_bytes]. Qed.

(** A DNS label: one to 63 lower-case letters, digits and dashes, with no dash
    at either end. *)
Definition dns_label (s : string) : Prop :=
  s <> "" /\ (len s <= 63)%nat /\ str_all label_or_dash s = true /\ no_edge_dash s.

Lemma trimmed_label s c r :
  s = String c r -> is_dash c = false -> str_all label_or_dash s = true -> (len s <= 63)%nat -> dns_label (trim_dash s).
Proof.
  intros -> Hc Hs Hl. unfold dns_label. split; [|split; [|split]].
  - unfold trim_dash, trim. cbn [trim_left]. unfold is_dash in Hc. rewrite Hc.
    by destruct (trim_right_head (fun c => eqc c "-") c r Hc) as [x ->].
  - unfold trim_dash. pose proof (len_trim (fun c => eqc c "-") (String c r)). lia.
  - by apply str_all_trim.
  - apply trim_dash_edges.
Qed.

Lemma deriveAutoHostname_eq m target instance :
  exists base hash,
    str_all label_or_dash base = true /\ (exists r, base = String "t" r) /\ str_all is_label_byte hash = true /\
    deriveAutoHostname m target instance =
      let h := base +:+ "-" +:+ hash +:+ "-" +:+ Itoa (pid m) in
      let h' := if (63 <? len h)%nat then trim_dash (str_take 63 h) else h in
      if bool_decide (h' = "") then defaultHostname else h'.
Proof.
  set (inst0 := SanitizeHostnameLabel instance).
  set (inst := let i1 := if bool_decide (inst0 = "") then SanitizeHostnameLabel (hostName m) else inst0 in
               if bool_decide (i1 = "") then "bridge" else i1).
  assert (Hi : str_all label_or_dash inst = true).
  { unfold inst, inst0. repeat destruct (bool_decide _); try done; apply SanitizeHostnameLabel_bytes. }
  destruct (auto_base_spec inst Hi) as (Hb & Ht & _). exists (auto_base inst). eexists.
  split; [done|]. split; [done|]. split; [|unfold deriveAutoHostname; reflexivity]. apply hex_fixed_bytes.
Qed.

(** * Properties *)

(** Given a port range [a-b] with 1 <= a <= b <= 65535, automatic mode
    listens on the IPv4 loopback address, on a port of the range that could be
    bound; it fails only when no port of the range can be bound. *)
Theorem auto_local_addr_in_range m target instance a b
  (Hab : (1 <= a <= b)%Z) (Hb : (b <= 65535)%Z) :
  match deriveAutoLocalAddr m target instance (Itoa a +:+ "-" +:+ Itoa b) with
  | Ok addr => exists p, addr = "127.0.0.1:" +:+ Itoa p /\ (a <= p <= b)%Z /\ canListen m p = true /\
                 SplitHostPort addr = Ok ("127.0.0.1", Itoa p) /\ parse_port (Itoa p) = Some p
  | Err e => e = NoFreePorts /\ forall p, (a <= p <= b)%Z -> canListen m p = false
  end.
Proof.
  unfold deriveAutoLocalAddr. rewrite parsePortRange_Itoa by done. cbn.
  set (seed := hostName m +:+ _).
  pose proof (selectAvailablePort_spec (canListen m) seed a b ltac:(lia)) as H.
  destruct (selectAvailablePort _ _ _ _) as [p|e]; [|done]. cbn. destruct H as [Hp Hf].
  exists p. repeat split; try done; try lia.
  - apply (SplitHostPort_plain "127.0.0.1" (Itoa p)); [done|]. apply digits_plain, Itoa_all_digits. lia.
  - apply parse_port_Itoa. lia.
Qed.

(** The host name automatic mode derives is a DNS label (one to 63
    lower-case letters, digits and dashes, no dash at either end), whatever
    the machine's name, the target and the instance name. *)
Theorem auto_hostname_is_dns_label m target instance (Hpid : (0 <= pid m)%Z) :
  dns_label (deriveAutoHostname m target instance).
Proof.
  destruct (deriveAutoHostname_eq m target instance) as (base & hash & Hb & [r ->] & Hh & ->). cbv zeta.
  set (h := String "t" r +:+ _).
  assert (Hall : str_all label_or_dash h = true).
  { unfold h. rewrite !str_all_app, Hb, (label_or_dash_impl _ Hh). cbn.
    by rewrite (str_all_digits_label _ (Itoa_all_digits _ Hpid)). }
  assert (Hcut : forall n, str_take (S n) h = String "t" (str_take n (r +:+ "-" +:+ hash +:+ "-" +:+ Itoa (pid m)))) by done.
  destruct (63 <? len h)%nat eqn:El.
  - assert (Hd : dns_label (trim_dash (str_take 63 h))).
    { eapply trimmed_label; [apply Hcut|done|by apply str_all_take|apply len_str_take]. }
    rewrite bool_decide_eq_false_2; [exact Hd|apply Hd].
  - rewrite bool_decide_eq_false_2 by done. apply Nat.ltb_ge in El.
    destruct (Itoa_last _ Hpid) as (u & d & Hu & Hd). split; [done|]. split; [done|]. split; [done|]. split.
    + intros x [=].
    + intros x Hx. apply (digit_not_dash d Hd). unfold h in Hx. rewrite Hu in Hx.
      symmetry in Hx. rewrite <- !str_app_assoc in Hx. by apply str_app_last_inj in Hx.
Qed.

(** The state directory is absolute when the temporary directory is, for
    every operating system and environment: never relative to the working
    directory. *)
Theorem state_dir_absolute m os getenv (Ht : IsAbs (tempDir m) = true) :
  IsAbs (stateDirFor m os getenv) = true /\ stateDirIsCWDRelative (stateDirFor m os getenv) = false.
Proof.
  assert (H : IsAbs (stateDirFor m os getenv) = true).
  { unfold stateDirFor. destruct (IsAbs (platformStateBase os getenv)) eqn:E; cbn [negb]; [done|].
    by apply JoinPath_abs. }
  split; [done|]. unfold stateDirIsCWDRelative. by rewrite H, andb_false_r.
Qed.

(** The ephemeral state directory is one plain element directly inside the
    application's temporary directory, whatever the host name holds: no host
    name reaches outside it. *)
Theorem ephemeral_state_confined m hostname (Ht : IsAbs (tempDir m) = true) :
  exists seg, EphemeralStateDir m hostname = JoinPath [tempDir m; appDirName] +:+ "/" +:+ seg /\
    seg <> "" /\ no_byte "/" seg = true /\ seg <> "." /\ seg <> "..".
Proof.
  destruct (ephemeralSegment_bytes hostname) as [Hne Hb].
  pose proof (label_plain_segment _ Hne Hb) as Hs. exists (ephemeralSegment hostname).
  split; [|pose proof (plain_segment_inv _ Hs); tauto].
  unfold EphemeralStateDir. cbn [JoinPath]. rewrite bool_decide_eq_false_2 by (by intros E; rewrite E in Ht).
  change (Join [tempDir m; appDirName; ephemeralSegment hostname] "/")
    with (tempDir m +:+ "/" +:+ (appDirName +:+ "/" +:+ ephemeralSegment hostname)).
  change (Join [tempDir m; appDirName] "/") with (tempDir m +:+ "/" +:+ appDirName).
  rewrite <- !str_app_assoc, (str_app_assoc _ "/" (ephemeralSegment _)).
  rewrite (Clean_snoc _ _ (IsAbs_app _ _ (IsAbs_app _ _ Ht)) Hs); [by rewrite (str_app_assoc (Clean _))|].
  rewrite str_app_assoc, Clean_rooted by (by apply IsAbs_app).
  cbn [String.append]. rewrite Split_app, (Split_no_byte _ appDirName), clean_go_snoc by done.
  destruct (clean_go true [] (Split "/" (tempDir m))) as [|x l]; [done|]. rewrite Join_snoc by done.
  intros [= H]. revert H. by destruct (match l with [] => x | _ :: _ => _ end).
Qed.

(** The health listener check passes exactly when no listener is asked
    for, or its address is a host and port and the host is localhost or a
    loopback address, unless the remote override is given. *)
Theorem health_listener_loopback cfg :
  ValidateHealthListener cfg = Ok tt <->
    HealthAddr cfg = "" \/
    exists host port, SplitHostPort (HealthAddr cfg) = Ok (host, port) /\
      (host = "localhost" \/ (exists ip, ParseIP host = Some ip /\ IsLoopback ip = true) \/ HealthAllowRemote cfg = true).
Proof.
  unfold ValidateHealthListener, HealthExposed. destruct (bool_decide (HealthAddr cfg = "")) eqn:E0.
  { apply bool_decide_eq_true in E0. cbn. split; [by left|done]. }
  apply bool_decide_eq_false in E0. destruct (SplitHostPort (HealthAddr cfg)) as [[host port]|e]; cbn.
  - destruct (bool_decide_reflect (host = "localhost")) as [->|Hh]; cbn.
    { split; [right; eauto|done]. }
    destruct (ParseIP host) as [ip|] eqn:Eip; cbn; [destruct (IsLoopback ip) eqn:El; cbn|];
      destruct (HealthAllowRemote cfg); cbn;
      (split; [intros H; try discriminate H; right; exists host, port; by eauto 6
              |intros [?|(h & p & [= <- <-] & [?|[(ip' & H1 & H2)|?]])]; try done; congruence]).
  - split; [done|]. intros [?|(? & ? & ? & _)]; done.
Qed.

(** * Witnesses *)

Definition demo_machine : machine :=
  mkMachine {[ "XDG_STATE_HOME" := "relative/state" ]} "linux" (Some "My Host.lan") 4711 "/tmp" (fun p => (p =? 33391)%Z).

Lemma auto_local_addr_in_range_witness :
  deriveAutoLocalAddr demo_machine "rdp:3389" "" "33389-33392" = Ok "127.0.0.1:33391" /\
  exists p, "127.0.0.1:33391" = "127.0.0.1:" +:+ Itoa p /\ (33389 <= p <= 33392)%Z /\ canListen demo_machine p = true.
Proof.
  assert (H0 : deriveAutoLocalAddr demo_machine "rdp:3389" "" (Itoa 33389 +:+ "-" +:+ Itoa 33392) = Ok "127.0.0.1:33391")
    by (vm_compute; reflexivity).
  split; [exact H0|].
  pose proof (auto_local_addr_in_range demo_machine "rdp:3389" "" 33389 33392 ltac:(lia) ltac:(lia)) as H.
  rewrite H0 in H. destruct H as (p & H1 & H2 & H3 & _). exists p. exact (conj H1 (conj H2 H3)).
Defined.

Lemma auto_hostname_is_dns_label_witness :
  (0 <= pid demo_machine)%Z /\ dns_label (deriveAutoHostname demo_machine "rdp:3389" "Work--Desk!").
Proof. split; [cbn; lia|apply auto_hostname_is_dns_label; cbn; lia]. Defined.

Lemma state_dir_absolute_witness :
  IsAbs "relative/state" = false /\ IsAbs (stateDirFor demo_machine "linux" (Getenv (env demo_machine))) = true.
Proof. split; [done|]. by apply state_dir_absolute. Defined.

Lemma ephemeral_state_confined_witness :
  EphemeralStateDir demo_machine "../../etc/Passwd" = "/tmp/ts-bridge/etc-passwd" /\
  exists seg, EphemeralStateDir demo_machine "../../etc/Passwd" = JoinPath [tempDir demo_machine; appDirName] +:+ "/" +:+ seg.
Proof.
  split; [vm_compute; reflexivity|].
  destruct (ephemeral_state_confined demo_machine "../../etc/Passwd" eq_refl) as (seg & H & _). by exists seg.
Defined.
