(* ===== verification/ConfigMerge.v ===== *)
(** The configuration's precedence chain (src/internal/config/merge.go): the
    YAML, environment and flag layers, the validation of what they give
    together, and the values automatic mode derives. *)
From S2P Require Import Prelude GoStrings GoNet GoPath GoTime EnvFile Credential ControlUrl Config.
From Stdlib Require Import Ascii.

Open Scope bool_scope.

(** * The layers *)

Record PartialConfig : Type := mkPartial {
  y_Version : Z;
  y_Target : string;
  y_LocalAddr : string;
  y_SOCKS5Addr : string;
  y_SOCKS5Routes : gmap string string;
  y_Hostname : string;
  y_ControlURL : string;
  y_BootstrapSSH : string;
  y_BootstrapSOCKSAddr : string;
  y_StateDir : string;
  y_HealthAddr : string;
  y_LogFormat : string;
  y_AuthKey : string;
  y_Timeout : Z;
  y_DialTimeout : Z;
  y_DrainTimeout : Z;
  y_IdleTimeout : Z;
  y_DialRetries : Z;
  y_DialBackoffBase : Z;
  y_DialBackoffMax : Z;
  y_MaxConnections : Z;
  y_AutoInstance : option bool;
}.

(** A nil pointer is a flag that was not given. *)
Record FlagSet : Type := mkFlags {
  f_Target : string;
  f_SOCKS5Addr : string;
  f_SOCKS5Routes : list string;
  f_AuthKey : string;
  f_AuthKeyFile : string;
  f_ProfileAuthKey : string;
  f_Instance : string;
  f_LocalAddr : string;
  f_Hostname : string;
  f_StateDir : string;
  f_ControlURL : string;
  f_BootstrapSSH : string;
  f_BootstrapSOCKSAddr : string;
  f_Timeout : Z;
  f_DialTimeout : Z;
  f_DrainTimeout : Z;
  f_IdleTimeout : option Z;
  f_MaxConns : Z;
  f_DialRetries : option Z;
  f_DialBackoffBase : Z;
  f_DialBackoffMax : Z;
  f_HealthAddr : string;
  f_LogFormat : string;
  f_ManualMode : bool;
  f_PortRange : string;
  f_Config : string;
  f_Reset : bool;
  f_HealthAllowRemote : option bool;
  f_Verbose : option bool;
}.

(** The empty file and the command without flags. *)
Definition no_yaml : PartialConfig := mkPartial 0 "" "" "" ∅ "" "" "" "" "" "" "" "" 0 0 0 0 0 0 0 0 None.
Definition no_flags : FlagSet :=
  mkFlags "" "" [] "" "" "" "" "" "" "" "" "" "" 0 0 0 None 0 None 0 0 "" "" false "" "" false None None.

Inductive merge_error : Type :=
  | YAMLAuthKey
  | BothModes (layer : string)
  | TargetFormat (e : addr_error) | TargetHostEmpty | TargetPort (port : string)
  | ListenerFormat (label : string) (e : addr_error) | ListenerNotLoopback (label host : string)
  | ListenerPort (label port : string)
  | BadRoute | RoutesNeedSOCKS5 | TargetRequired | ErrAuthKeyRequired | AuthKeyInvalid (e : key_error)
  | PlaneError (e : plane_error)
  | BootstrapSOCKSNeedsSSH | BootstrapNeedsControlURL
  | NegativeRetries (n : Z) | NegativeIdle (d : Z)
  | DeriveLocalAddr (e : port_error)
  | CollidesWithBridge | CollidesWithHealth.

(** * Applying the layers *)

Definition applyFlagString (dst val : string) : string := if bool_decide (val = "") then dst else val.
Definition orPositive (dst val : Z) : Z := if (0 <? val)%Z then val else dst.
Definition orGiven {A} (dst : A) (val : option A) : A := default dst val.

Definition applyYAML (c : Config) (y : PartialConfig) : Config :=
  {|
    LocalAddr := applyFlagString (LocalAddr c) (y_LocalAddr y);
    SOCKS5Addr := applyFlagString (SOCKS5Addr c) (y_SOCKS5Addr y);
    SOCKS5Routes := y_SOCKS5Routes y ∪ SOCKS5Routes c;
    Target := applyFlagString (Target c) (y_Target y);
    AuthKey := AuthKey c;
    Hostname := applyFlagString (Hostname c) (y_Hostname y);
    StateDir := applyFlagString (StateDir c) (y_StateDir y);
    ControlURL := applyFlagString (ControlURL c) (y_ControlURL y);
    BootstrapSSH := applyFlagString (BootstrapSSH c) (y_BootstrapSSH y);
    BootstrapSOCKSAddr := applyFlagString (BootstrapSOCKSAddr c) (y_BootstrapSOCKSAddr y);
    ConnectTimeout := orPositive (ConnectTimeout c) (y_Timeout y);
    DialTimeout := orPositive (DialTimeout c) (y_DialTimeout y);
    DrainTimeout := orPositive (DrainTimeout c) (y_DrainTimeout y);
    IdleTimeout := if (0 <=? y_IdleTimeout y)%Z then y_IdleTimeout y else IdleTimeout c;
    DialRetries := orPositive (DialRetries c) (y_DialRetries y);
    DialBackoffBase := orPositive (DialBackoffBase c) (y_DialBackoffBase y);
    DialBackoffMax := orPositive (DialBackoffMax c) (y_DialBackoffMax y);
    MaxConnections := orPositive (MaxConnections c) (y_MaxConnections y);
    HealthAddr := applyFlagString (HealthAddr c) (y_HealthAddr y);
    HealthAllowRemote := HealthAllowRemote c;
    Verbose := Verbose c;
    Quiet := Quiet c;
    LogFormat := applyFlagString (LogFormat c) (y_LogFormat y);
    AutoInstance := orGiven (AutoInstance c) (y_AutoInstance y);
    EphemeralState := EphemeralState c;
  |}.

Definition applyEnvProxyMode (en : environment) (mode : string * string) : string * string :=
  if negb (bool_decide (Getenv en "TS_TARGET" = "")) then (Getenv en "TS_TARGET", "")
  else if negb (bool_decide (Getenv en "TS_SOCKS5_ADDR" = "")) then ("", Getenv en "TS_SOCKS5_ADDR")
  else mode.
Definition applyEnvString (en : environment) (dst key : string) : string :=
  if bool_decide (Getenv en key = "") then dst else Getenv en key.
Definition applyEnvBool (en : environment) (dst : bool) (key : string) : bool :=
  if bool_decide (Getenv en key = "") then dst else parseBoolEnv (Getenv en key).

(** The value is taken when it parses and passes the check, if there is one. *)
Definition applyEnvParsed {T} (en : environment) (dst : T) (key : string) (parse : string -> option T)
    (validate : option (T -> bool)) : T :=
  if bool_decide (Getenv en key = "") then dst
  else
    match parse (Getenv en key) with
    | None => dst
    | Some n => if match validate with Some ok => negb (ok n) | None => false end then dst else n
    end.
Definition applyEnvDuration en dst key validate : Z := applyEnvParsed en dst key ParseDuration validate.
Definition applyEnvInt en dst key validate : Z := applyEnvParsed en dst key Atoi validate.
Definition nonNegative (d : Z) : bool := (0 <=? d)%Z.
Definition positive (d : Z) : bool := (0 <? d)%Z.

Definition envAutoInstance (en : environment) (dst : bool) : bool :=
  if negb (bool_decide (Getenv en "TS_MANUAL_MODE" = "")) then negb (parseBoolEnv (Getenv en "TS_MANUAL_MODE"))
  else if negb (bool_decide (Getenv en "TS_AUTO_INSTANCE" = "")) then parseBoolEnv (Getenv en "TS_AUTO_INSTANCE")
  else dst.

Definition applyEnv (c : Config) (en : environment) : Config :=
  {|
    LocalAddr := applyEnvString en (LocalAddr c) "TS_LOCAL_ADDR";
    SOCKS5Addr := (applyEnvProxyMode en (Target c, SOCKS5Addr c)).2;
    SOCKS5Routes := SOCKS5Routes c;
    Target := (applyEnvProxyMode en (Target c, SOCKS5Addr c)).1;
    AuthKey := applyEnvString en (AuthKey c) "TS_AUTHKEY";
    Hostname := applyEnvString en (Hostname c) "TS_HOSTNAME";
    StateDir := applyEnvString en (StateDir c) "TS_STATE_DIR";
    ControlURL := applyEnvString en (ControlURL c) "TS_CONTROL_URL";
    BootstrapSSH := applyEnvString en (BootstrapSSH c) "TS_BOOTSTRAP_SSH";
    BootstrapSOCKSAddr := applyEnvString en (BootstrapSOCKSAddr c) "TS_BOOTSTRAP_SOCKS_ADDR";
    ConnectTimeout := applyEnvDuration en (ConnectTimeout c) "TS_TIMEOUT" None;
    DialTimeout := applyEnvDuration en (DialTimeout c) "TS_DIAL_TIMEOUT" (Some positive);
    DrainTimeout := applyEnvDuration en (DrainTimeout c) "TS_DRAIN_TIMEOUT" None;
    IdleTimeout := applyEnvDuration en (IdleTimeout c) "TS_IDLE_TIMEOUT" (Some nonNegative);
    DialRetries := applyEnvInt en (DialRetries c) "TS_DIAL_RETRIES" (Some nonNegative);
    DialBackoffBase := applyEnvDuration en (DialBackoffBase c) "TS_DIAL_BACKOFF_BASE" (Some nonNegative);
    DialBackoffMax := applyEnvDuration en (DialBackoffMax c) "TS_DIAL_BACKOFF_MAX" (Some nonNegative);
    MaxConnections := applyEnvInt en (MaxConnections c) "TS_MAX_CONNECTIONS" (Some positive);
    HealthAddr := applyEnvString en (HealthAddr c) "TS_HEALTH_ADDR";
    HealthAllowRemote := applyEnvBool en (HealthAllowRemote c) "TS_HEALTH_ALLOW_REMOTE";
    Verbose := applyEnvBool en (Verbose c) "TS_VERBOSE";
    Quiet := Quiet c;
    LogFormat := applyEnvString en (LogFormat c) "TS_LOG_FORMAT";
    AutoInstance := envAutoInstance en (AutoInstance c);
    EphemeralState := EphemeralState c;
  |}.

Definition applyFlagProxyMode (f : FlagSet) (mode : string * string) : string * string :=
  if negb (bool_decide (f_Target f = "")) then (f_Target f, "")
  else if negb (bool_decide (f_SOCKS5Addr f = "")) then ("", f_SOCKS5Addr f)
  else mode.

(** [source=destination]; a route without the sign has an empty destination. *)
Definition applyRoute (routes : gmap string string) (route : string) : gmap string string :=
  let '(source, destination, found) := Cut "=" route in
  if found then <[source := destination]> routes else <[route := ""]> routes.

Definition applyFlags (c : Config) (f : FlagSet) : Config :=
  {|
    LocalAddr := applyFlagString (LocalAddr c) (f_LocalAddr f);
    SOCKS5Addr := (applyFlagProxyMode f (Target c, SOCKS5Addr c)).2;
    SOCKS5Routes := fold_left applyRoute (f_SOCKS5Routes f) (SOCKS5Routes c);
    Target := (applyFlagProxyMode f (Target c, SOCKS5Addr c)).1;
    AuthKey := applyFlagString (AuthKey c) (f_AuthKey f);
    Hostname := applyFlagString (Hostname c) (f_Hostname f);
    StateDir := applyFlagString (StateDir c) (f_StateDir f);
    ControlURL := applyFlagString (ControlURL c) (f_ControlURL f);
    BootstrapSSH := applyFlagString (BootstrapSSH c) (f_BootstrapSSH f);
    BootstrapSOCKSAddr := applyFlagString (BootstrapSOCKSAddr c) (f_BootstrapSOCKSAddr f);
    ConnectTimeout := orPositive (ConnectTimeout c) (f_Timeout f);
    DialTimeout := orPositive (DialTimeout c) (f_DialTimeout f);
    DrainTimeout := orPositive (DrainTimeout c) (f_DrainTimeout f);
    IdleTimeout := orGiven (IdleTimeout c) (f_IdleTimeout f);
    DialRetries := orGiven (DialRetries c) (f_DialRetries f);
    DialBackoffBase := orPositive (DialBackoffBase c) (f_DialBackoffBase f);
    DialBackoffMax := orPositive (DialBackoffMax c) (f_DialBackoffMax f);
    MaxConnections := orPositive (MaxConnections c) (f_MaxConns f);
    HealthAddr := applyFlagString (HealthAddr c) (f_HealthAddr f);
    HealthAllowRemote := orGiven (HealthAllowRemote c) (f_HealthAllowRemote f);
    Verbose := orGiven (Verbose c) (f_Verbose f);
    Quiet := Quiet c;
    LogFormat := applyFlagString (LogFormat c) (f_LogFormat f);
    AutoInstance := AutoInstance c;
    EphemeralState := EphemeralState c;
  |}.

(** * Validation *)

Definition validateYAMLAuthKey (y : PartialConfig) : result merge_error unit :=
  fail_if (negb (bool_decide (y_AuthKey y = ""))) YAMLAuthKey.

Definition validateModeLayer (name target socks5Addr : string) : result merge_error unit :=
  fail_if (negb (bool_decide (target = "")) && negb (bool_decide (socks5Addr = ""))) (BothModes name).
Definition validateModeInputs (en : environment) (y : PartialConfig) (f : FlagSet) : result merge_error unit :=
  _ ← validateModeLayer "YAML config" (y_Target y) (y_SOCKS5Addr y);
  _ ← validateModeLayer "environment" (Getenv en "TS_TARGET") (Getenv en "TS_SOCKS5_ADDR");
  validateModeLayer "flags" (f_Target f) (f_SOCKS5Addr f).

Definition validateTarget (target : string) : result merge_error unit :=
  if bool_decide (target = "") then Ok tt
  else
    '(host, portStr) ← map_err TargetFormat (SplitHostPort target);
    _ ← fail_if (bool_decide (host = "")) TargetHostEmpty;
    match parse_port portStr with Some _ => Ok tt | None => Err (TargetPort portStr) end.

Definition validateLoopbackListener (addr label : string) : result merge_error unit :=
  if bool_decide (addr = "") then Ok tt
  else
    '(host, port) ← map_err (ListenerFormat label) (SplitHostPort addr);
    let loopback := match ParseIP host with Some ip => IsLoopback ip | None => false end in
    _ ← fail_if (negb (bool_decide (host = "localhost")) && negb loopback) (ListenerNotLoopback label host);
    match parse_port port with Some _ => Ok tt | None => Err (ListenerPort label port) end.
Definition validateSOCKS5Addr (addr : string) : result merge_error unit := validateLoopbackListener addr "SOCKS5".

Definition validateRouteAddress (address : string) : bool :=
  match SplitHostPort address with
  | Ok (host, port) => negb (bool_decide (host = "")) && bool_decide (is_Some (parse_port port))
  | Err _ => false
  end.
(** Which bad route is reported depends on the map's order; the error does
    not say. *)
Definition validateSOCKS5Routes (routes : gmap string string) : result merge_error unit :=
  fail_if (negb (forallb (fun kv => validateRouteAddress kv.1 && validateRouteAddress kv.2) (map_to_list routes))) BadRoute.

Definition validateRequiredFields (c : Config) : result merge_error unit :=
  _ ← fail_if (bool_decide (Target c = "") && bool_decide (SOCKS5Addr c = "")) TargetRequired;
  _ ← fail_if (bool_decide (AuthKey c = "")) ErrAuthKeyRequired;
  map_err AuthKeyInvalid (ValidateKey (AuthKey c)).

Definition validateMergedProxyConfig (c : Config) : result merge_error unit :=
  _ ← validateTarget (Target c);
  _ ← validateSOCKS5Addr (SOCKS5Addr c);
  _ ← validateSOCKS5Routes (SOCKS5Routes c);
  _ ← fail_if (negb (bool_decide (Target c = "")) && negb (bool_decide (SOCKS5Routes c = ∅))) RoutesNeedSOCKS5;
  validateRequiredFields c.

Definition negative (n : option Z) : option Z := n ≫= (fun n => if (n <? 0)%Z then Some n else None).
Definition validateDialRetries (en : environment) (f : FlagSet) (c : Config) : result merge_error unit :=
  match negative (f_DialRetries f) with
  | Some n => Err (NegativeRetries n)
  | None =>
      match (if bool_decide (Getenv en "TS_DIAL_RETRIES" = "") then None
             else negative (Atoi (Getenv en "TS_DIAL_RETRIES"))) with
      | Some n => Err (NegativeRetries n)
      | None => fail_if (DialRetries c <? 0)%Z (NegativeRetries (DialRetries c))
      end
  end.
Definition validateIdleTimeout (c : Config) : result merge_error unit :=
  fail_if (IdleTimeout c <? 0)%Z (NegativeIdle (IdleTimeout c)).

Definition normalizeBootstrapConfig (c : Config) : result merge_error Config :=
  let ssh := TrimSpace (BootstrapSSH c) in
  let socks := TrimSpace (BootstrapSOCKSAddr c) in
  if bool_decide (ssh = "") then
    if negb (bool_decide (socks = "")) then Err BootstrapSOCKSNeedsSSH else Ok (set_bootstrap ssh socks c)
  else if bool_decide (ControlURL c = "") then Err BootstrapNeedsControlURL
  else
    let socks := if bool_decide (socks = "") then defaultBootstrapSOCKS else socks in
    _ ← validateLoopbackListener socks "bootstrap SOCKS"; Ok (set_bootstrap ssh socks c).

Definition sameListenerEndpoint (left right : string) : bool :=
  if bool_decide (left = "") || bool_decide (right = "") then false
  else
    match SplitHostPort left, SplitHostPort right with
    | Ok (leftHost, leftPort), Ok (rightHost, rightPort) =>
        match parse_port leftPort, parse_port rightPort with
        | Some l, Some r =>
            if negb (l =? r)%Z then false
            else if EqualFold leftHost rightHost then true
            else
              match ParseIP leftHost, ParseIP rightHost with
              | Some a, Some b => bool_decide (a = b)
              | _, _ => false
              end
        | _, _ => false
        end
    | _, _ => false
    end.
Definition validateBootstrapListenerCollision (c : Config) : result merge_error unit :=
  _ ← fail_if (sameListenerEndpoint (BootstrapSOCKSAddr c) (LocalAddr c)
               || sameListenerEndpoint (BootstrapSOCKSAddr c) (SOCKS5Addr c)) CollidesWithBridge;
  fail_if (sameListenerEndpoint (BootstrapSOCKSAddr c) (HealthAddr c)) CollidesWithHealth.

(** * Automatic mode *)

Definition resolveAutoInstance (en : environment) (y : PartialConfig) (f : FlagSet) (c : Config) : Config :=
  if f_ManualMode f then set_AutoInstance false c
  else if negb (bool_decide (Getenv en "TS_MANUAL_MODE" = "")) then
    set_AutoInstance (negb (parseBoolEnv (Getenv en "TS_MANUAL_MODE"))) c
  else if negb (bool_decide (Getenv en "TS_AUTO_INSTANCE" = "")) then
    set_AutoInstance (parseBoolEnv (Getenv en "TS_AUTO_INSTANCE")) c
  else match y_AutoInstance y with Some b => set_AutoInstance b c | None => c end.

Definition instance_name (en : environment) (f : FlagSet) : string :=
  if bool_decide (f_Instance f = "") then Getenv en "TS_INSTANCE_NAME" else f_Instance f.
Definition deriveFlagLocalAddr (m : machine) (c : Config) (f : FlagSet) : result port_error string :=
  let portRange := f_PortRange f in
  let portRange := if bool_decide (portRange = "") then Getenv (env m) "TS_PORT_RANGE" else portRange in
  let portRange := if bool_decide (portRange = "") then defaultAutoPortRange else portRange in
  deriveAutoLocalAddr m (Target c) (instance_name (env m) f) portRange.

Definition applyAutoInstance (m : machine) (f : FlagSet) (c : Config) : result merge_error Config :=
  if negb (AutoInstance c) then Ok c
  else
    c ← (if bool_decide (LocalAddr c = "") && bool_decide (SOCKS5Addr c = "") then
           localAddr ← map_err DeriveLocalAddr (deriveFlagLocalAddr m c f); Ok (set_LocalAddr localAddr c)
         else Ok c);
    let c :=
      if bool_decide (Hostname c = "") then
        if negb (bool_decide (instance_name (env m) f = "")) then
          set_Hostname (deriveAutoHostname m (Target c) (instance_name (env m) f)) c
        else c
      else c in
    if bool_decide (StateDir c = "") && negb (bool_decide (Hostname c = "")) then
      Ok (set_state (EphemeralStateDir m (Hostname c)) true c)
    else Ok c.

(** * Merge *)

Definition apply_layers (en : environment) (y : PartialConfig) (f : FlagSet) : Config :=
  let c := applyEnv (applyYAML defaults y) en in
  let c := if bool_decide (AuthKey c = "") then set_AuthKey (f_ProfileAuthKey f) c else c in
  applyFlags c f.

Section Merge.
Context `{UrlPackage}.

Definition Merge (m : machine) (y : PartialConfig) (f : FlagSet) : result merge_error Config :=
  _ ← validateYAMLAuthKey y;
  _ ← validateModeInputs (env m) y f;
  let c := apply_layers (env m) y f in
  _ ← validateMergedProxyConfig c;
  let c := set_ControlURL (TrimSpace (ControlURL c)) c in
  _ ← map_err PlaneError (ValidateControlPlane (AuthKey c) (ControlURL c));
  c ← normalizeBootstrapConfig c;
  _ ← validateDialRetries (env m) f c;
  _ ← validateIdleTimeout c;
  let c := resolveAutoInstance (env m) y f c in
  c ← applyAutoInstance m f c;
  let c := if bool_decide (SOCKS5Addr c = "") && bool_decide (LocalAddr c = "") then set_LocalAddr defaultLocalAddr c else c in
  _ ← validateBootstrapListenerCollision c;
  let c := if bool_decide (Hostname c = "") then set_Hostname defaultHostname c else c in
  let c := if bool_decide (StateDir c = "") then set_state (StateDirForPlatform m) (EphemeralState c) c else c in
  Ok c.
End Merge.

(** * What validation accepts *)

(** A TCP destination: a host and a port from 1 to 65535. *)
Definition dialable (a : string) : Prop :=
  exists host port n, SplitHostPort a = Ok (host, port) /\ host <> "" /\ parse_port port = Some n.

(** A listener only this machine reaches. *)
Definition loopback_endpoint (a : string) : Prop :=
  exists host port n, SplitHostPort a = Ok (host, port) /\
    (host = "localhost" \/ exists ip, ParseIP host = Some ip /\ IsLoopback ip = true) /\ parse_port port = Some n.

Ltac bd H := first [apply bool_decide_eq_true in H | apply bool_decide_eq_false in H].

Lemma validateTarget_Ok t : validateTarget t = Ok tt -> t = "" \/ dialable t.
Proof.
  unfold validateTarget. destruct (bool_decide (t = "")) eqn:E; [bd E; by left|]. intros H. right. inv_ok.
  destruct x as [host port]. inv_ok. destruct (parse_port port) as [n|] eqn:Ep; [|done].
  match goal with H : bool_decide (host = "") = false |- _ => bd H end. by exists host, port, n.
Qed.

Lemma validateLoopbackListener_Ok a l : validateLoopbackListener a l = Ok tt -> a = "" \/ loopback_endpoint a.
Proof.
  unfold validateLoopbackListener. destruct (bool_decide (a = "")) eqn:E; [bd E; by left|]. intros H. right. inv_ok.
  destruct x as [host port]. inv_ok. destruct (parse_port port) as [n|] eqn:Ep; [|done].
  exists host, port, n. split; [done|]. split; [|done].
  match goal with H : _ && _ = false |- _ => apply andb_false_iff in H as [Hh|Hh]; apply negb_false_iff in Hh end.
  - left. bd Hh. done.
  - right. destruct (ParseIP host) as [ip|]; [by exists ip|done].
Qed.

Lemma validateRouteAddress_true a : validateRouteAddress a = true -> dialable a.
Proof.
  unfold validateRouteAddress. destruct (SplitHostPort a) as [[host port]|] eqn:Es; [|done].
  intros [Hh Hp]%andb_true_iff. apply negb_true_iff in Hh. bd Hh. bd Hp. destruct Hp as [n Hn]. by exists host, port, n.
Qed.

Lemma validateSOCKS5Routes_Ok routes :
  validateSOCKS5Routes routes = Ok tt -> forall s d, routes !! s = Some d -> dialable s /\ dialable d.
Proof.
  unfold validateSOCKS5Routes. intros H%fail_if_Ok s d Hsd. apply negb_false_iff in H.
  rewrite List.forallb_forall in H. specialize (H (s, d)). cbn in H.
  apply andb_true_iff in H as [H1 H2]; [by split; apply validateRouteAddress_true|].
  by apply list_elem_of_In, elem_of_map_to_list.
Qed.

(** The layers' modes exclude each other. *)
Lemma apply_layers_mode en y f :
  validateModeInputs en y f = Ok tt ->
  Target (apply_layers en y f) = "" \/ SOCKS5Addr (apply_layers en y f) = "".
Proof.
  unfold validateModeInputs, validateModeLayer. intros H. inv_ok.
  assert (HT : forall c, Target (if bool_decide (AuthKey c = "") then set_AuthKey (f_ProfileAuthKey f) c else c) = Target c
    /\ SOCKS5Addr (if bool_decide (AuthKey c = "") then set_AuthKey (f_ProfileAuthKey f) c else c) = SOCKS5Addr c)
    by (intros c; destruct (bool_decide (AuthKey c = "")); split; reflexivity).
  unfold apply_layers. cbn [Target SOCKS5Addr applyFlags]. destruct (HT (applyEnv (applyYAML defaults y) en)) as [-> ->].
  cbn [Target SOCKS5Addr applyEnv applyYAML defaults]. unfold applyFlagProxyMode, applyEnvProxyMode, applyFlagString.
  repeat match goal with |- context [bool_decide (?x = "")] => destruct (bool_decide_reflect (x = "")) end;
    cbn; try (by left); try (by right); subst; try done;
    repeat match goal with H : negb _ && negb _ = false |- _ => rewrite !bool_decide_eq_false_2 in H by done; discriminate H end.
Qed.

(** * The reference: what is derived when no layer gives a value *)

Definition first_nonempty (l : list string) (d : string) : string := default d (head (List.filter (fun s => negb (bool_decide (s = ""))) l)).

(** Automatic mode names the host after the instance, if it has a name. *)
Definition auto_hostname (m : machine) (f : FlagSet) (c : Config) : string :=
  if AutoInstance c && negb (bool_decide (instance_name (env m) f = ""))
  then deriveAutoHostname m (Target c) (instance_name (env m) f) else "".

(** The listener: the layers' one; without one, none beside a SOCKS5 listener, a
    free port in automatic mode, the default in manual mode. *)
Definition local_from (m : machine) (f : FlagSet) (given : string) (cfg : Config) : Prop :=
  if negb (bool_decide (given = "")) then LocalAddr cfg = given
  else if negb (bool_decide (SOCKS5Addr cfg = "")) then LocalAddr cfg = ""
  else if AutoInstance cfg then
    exists a, deriveFlagLocalAddr m cfg f = Ok a /\ LocalAddr cfg = first_nonempty [a] defaultLocalAddr
  else LocalAddr cfg = defaultLocalAddr.

(** The state directory and whether it is removed at the end: the layers' one, kept;
    in automatic mode, with a host name, one of this run's own; else the
    platform's, kept. *)
Definition state_from (m : machine) (given hostname : string) (cfg : Config) : string * bool :=
  if negb (bool_decide (given = "")) then (given, false)
  else if AutoInstance cfg && negb (bool_decide (hostname = "")) then (EphemeralStateDir m (Hostname cfg), true)
  else (StateDirForPlatform m, false).

(** The tunnel's listener: none without a tunnel. *)
Definition socks_from (ssh socks : string) : string :=
  if bool_decide (TrimSpace ssh = "") then "" else first_nonempty [TrimSpace socks] defaultBootstrapSOCKS.

(** * What the later steps keep *)

(** The configuration without the fields derived after the layers. *)
Definition core (c : Config) : Config :=
  set_state "" false (set_bootstrap "" "" (set_LocalAddr "" (set_Hostname "" (set_AutoInstance false (set_ControlURL "" c))))).

Lemma normalizeBootstrapConfig_Ok c c' :
  normalizeBootstrapConfig c = Ok c' ->
  exists ssh socks, c' = set_bootstrap ssh socks c /\
    ((ssh = "" /\ socks = "") \/ (ssh <> "" /\ ControlURL c <> "" /\ loopback_endpoint socks)) /\
    ssh = TrimSpace (BootstrapSSH c) /\ socks = socks_from (BootstrapSSH c) (BootstrapSOCKSAddr c).
Proof.
  unfold normalizeBootstrapConfig, socks_from. destruct (bool_decide (TrimSpace (BootstrapSSH c) = "")) eqn:E; bd E.
  - destruct (bool_decide (TrimSpace (BootstrapSOCKSAddr c) = "")) eqn:E2; bd E2; cbn; [|done]. intros [= <-].
    eexists _, _. split; [done|]. split; [by left|]. done.
  - destruct (bool_decide (ControlURL c = "")) eqn:E2; bd E2; [done|]. cbv zeta.
    set (socks := if bool_decide _ then _ else _). intros H. inv_ok. destruct x. subst c'.
    eexists _, _. split; [done|]. split; [|split; [done|by unfold first_nonempty, socks; cbn; destruct (bool_decide _)]].
    right. split; [done|]. split; [done|].
    match goal with H : validateLoopbackListener _ _ = _ |- _ => apply validateLoopbackListener_Ok in H as [Hs|Hs] end; [|done].
    exfalso. revert Hs. unfold socks. destruct (bool_decide_reflect (TrimSpace (BootstrapSOCKSAddr c) = "")); done.
Qed.

Lemma resolveAutoInstance_eq en y f c : exists b, resolveAutoInstance en y f c = set_AutoInstance b c.
Proof.
  unfold resolveAutoInstance. repeat case_match; eauto. exists (AutoInstance c). by destruct c.
Qed.

Lemma resolveAutoInstance_congr en y f c c' :
  AutoInstance c = AutoInstance c' ->
  AutoInstance (resolveAutoInstance en y f c) = AutoInstance (resolveAutoInstance en y f c').
Proof. intros H. unfold resolveAutoInstance. by repeat case_match. Qed.

Lemma applyAutoInstance_Ok m f c c' :
  applyAutoInstance m f c = Ok c' ->
  core c' = core c /\ ControlURL c' = ControlURL c /\ BootstrapSSH c' = BootstrapSSH c /\
  BootstrapSOCKSAddr c' = BootstrapSOCKSAddr c /\ AutoInstance c' = AutoInstance c /\
  (LocalAddr c <> "" -> LocalAddr c' = LocalAddr c) /\ (Hostname c <> "" -> Hostname c' = Hostname c) /\
  (StateDir c' = StateDir c /\ EphemeralState c' = EphemeralState c \/
   StateDir c = "" /\ AutoInstance c = true /\ Hostname c' <> "" /\
   StateDir c' = EphemeralStateDir m (Hostname c') /\ EphemeralState c' = true).
Proof.
  unfold applyAutoInstance. destruct (AutoInstance c) eqn:Ea; cbn [negb]; [|intros [= <-]; tauto].
  intros (c1 & H1 & H)%bind_Ok.
  assert (Hc1 : exists a, c1 = set_LocalAddr a c /\ (LocalAddr c <> "" -> a = LocalAddr c)).
  { destruct (bool_decide (LocalAddr c = "")) eqn:El; bd El;
      [destruct (bool_decide (SOCKS5Addr c = ""))|]; cbn [andb] in H1; inv_ok; subst c1; [by eexists| |];
      exists (LocalAddr c); by destruct c. }
  destruct Hc1 as (a & -> & HLa). clear H1. revert H.
  match goal with |- context [if bool_decide (Hostname _ = "") then ?x else _] =>
    set (c2 := if bool_decide (Hostname (set_LocalAddr a c) = "") then x else set_LocalAddr a c) end.
  assert (Hc2 : exists h, c2 = set_Hostname h (set_LocalAddr a c) /\ (Hostname c <> "" -> h = Hostname c)).
  { unfold c2. cbn [Hostname set_LocalAddr]. destruct (bool_decide (Hostname c = "")) eqn:Eh; bd Eh;
      [destruct (negb _); [by eexists|]|]; exists (Hostname c); by destruct c. }
  destruct Hc2 as (h & -> & HHn). cbn [StateDir Hostname set_Hostname set_LocalAddr].
  destruct (bool_decide (StateDir c = "")) eqn:Es; bd Es; cbn [andb].
  - destruct (bool_decide (h = "")) eqn:Eh; bd Eh; cbn [negb]; intros [= <-]; repeat (split; [done|]); [left; done|].
    right. done.
  - intros [= <-]. repeat (split; [done|]). by left.
Qed.

(** The same with what automatic mode puts in each field. *)
Lemma applyAutoInstance_derives m f c c' :
  applyAutoInstance m f c = Ok c' ->
  exists a h d e, c' = set_state d e (set_Hostname h (set_LocalAddr a c))
    /\ (if bool_decide (LocalAddr c = "") && bool_decide (SOCKS5Addr c = "") && AutoInstance c
        then deriveFlagLocalAddr m c f = Ok a else a = LocalAddr c)
    /\ h = first_nonempty [Hostname c; auto_hostname m f c] ""
    /\ (d, e) = if bool_decide (StateDir c = "") && AutoInstance c && negb (bool_decide (h = ""))
                then (EphemeralStateDir m h, true) else (StateDir c, EphemeralState c).
Proof.
  assert (forall h, first_nonempty [h; ""] "" = h) as Hone.
  { intros h. unfold first_nonempty. cbn. destruct (bool_decide_reflect (h = "")) as [->|]; done. }
  unfold applyAutoInstance, auto_hostname. destruct (AutoInstance c) eqn:Ea; cbn [negb andb].
  2:{ intros [= <-]. exists (LocalAddr c), (Hostname c), (StateDir c), (EphemeralState c).
      rewrite !andb_false_r, Hone. split; [by destruct c|done]. }
  intros (c1 & H1 & H)%bind_Ok. rewrite !andb_true_r.
  assert (exists a, c1 = set_LocalAddr a c
    /\ if bool_decide (LocalAddr c = "") && bool_decide (SOCKS5Addr c = "") then deriveFlagLocalAddr m c f = Ok a else a = LocalAddr c) as (a & -> & Hl).
  { destruct (_ && _); [|exists (LocalAddr c); injection H1 as <-; split; [by destruct c|done]].
    apply bind_Ok in H1 as (a & Hd%map_err_Ok & [= <-]). by exists a. }
  clear H1. cbn [Hostname StateDir set_LocalAddr Target] in H. cbv zeta in H.
  set (n := if negb _ then deriveAutoHostname _ _ _ else ""). set (h := first_nonempty [Hostname c; n] "").
  match type of H with (if bool_decide (StateDir ?x = "") && _ then _ else _) = _ => assert (x = set_Hostname h (set_LocalAddr a c)) as E end.
  { subst h n. unfold first_nonempty. cbn [List.filter]. destruct (bool_decide_reflect (Hostname c = "")) as [Eh|Eh]; cbn [negb].
    - destruct (bool_decide (instance_name (env m) f = "")); cbn [negb]; [by destruct c; cbn in *; subst|].
      set (h := deriveAutoHostname _ _ _). by destruct (bool_decide_reflect (h = "")) as [->|].
    - by destruct c. }
  rewrite E in H. cbn [StateDir Hostname set_Hostname set_LocalAddr] in H. exists a, h.
  destruct (_ && _); injection H as <-; eexists _, _; split; try done.
Qed.

Lemma JoinPath_app_ne e s : JoinPath [e; appDirName; s] <> "".
Proof. cbn [JoinPath]. destruct (bool_decide (e = "")); apply Clean_ne. Qed.

Lemma StateDirForPlatform_ne m : StateDirForPlatform m <> "".
Proof.
  unfold StateDirForPlatform, stateDirFor. destruct (IsAbs _) eqn:E; cbn [negb]; [|apply JoinPath_app_ne].
  intros H. by rewrite H in E.
Qed.

Lemma EphemeralStateDir_ne m h : EphemeralStateDir m h <> "".
Proof. apply JoinPath_app_ne. Qed.

(** Where the state directory comes from: a layer, automatic mode, or the
    platform. *)
Definition state_source (m : machine) (layer : string) (cfg : Config) : Prop :=
  (layer <> "" /\ StateDir cfg = layer /\ EphemeralState cfg = false) \/
  (layer = "" /\ AutoInstance cfg = true /\ StateDir cfg = EphemeralStateDir m (Hostname cfg) /\ EphemeralState cfg = true) \/
  (layer = "" /\ StateDir cfg = StateDirForPlatform m /\ EphemeralState cfg = false).

(** Bootstrap is off, or complete. *)
Definition bootstrap_ok (ssh socks url : string) : Prop :=
  (ssh = "" /\ socks = "") \/ (ssh <> "" /\ url <> "" /\ loopback_endpoint socks).

(** The fields no layer decides alone, in terms of what the layers gave. *)
Record derived (m : machine) (f : FlagSet) (c cfg : Config) : Prop := {
  d_ssh : BootstrapSSH cfg = TrimSpace (BootstrapSSH c);
  d_socks : BootstrapSOCKSAddr cfg = socks_from (BootstrapSSH c) (BootstrapSOCKSAddr c);
  d_hostname : Hostname cfg = first_nonempty [Hostname c; auto_hostname m f cfg] defaultHostname;
  d_local : local_from m f (LocalAddr c) cfg;
  d_state : (StateDir cfg, EphemeralState cfg) = state_from m (StateDir c) (first_nonempty [Hostname c; auto_hostname m f cfg] "") cfg;
}.

Section Facts.
Context `{UrlPackage}.

(** What a merged configuration is, in terms of the layers. *)
Record merged_from (m : machine) (y : PartialConfig) (f : FlagSet) (c cfg : Config) : Prop := {
  mf_key : y_AuthKey y = "";
  mf_modes : validateModeInputs (env m) y f = Ok tt;
  mf_proxy : validateMergedProxyConfig c = Ok tt;
  mf_plane : ValidateControlPlane (AuthKey c) (TrimSpace (ControlURL c)) = Ok tt;
  mf_retries : (0 <= DialRetries c)%Z;
  mf_idle : (0 <= IdleTimeout c)%Z;
  mf_core : core cfg = core c;
  mf_url : ControlURL cfg = TrimSpace (ControlURL c);
  mf_auto : AutoInstance cfg = AutoInstance (resolveAutoInstance (env m) y f c);
  mf_bootstrap : bootstrap_ok (BootstrapSSH cfg) (BootstrapSOCKSAddr cfg) (ControlURL cfg);
  mf_listener : SOCKS5Addr cfg = "" -> LocalAddr cfg <> "";
  mf_apart : validateBootstrapListenerCollision cfg = Ok tt;
  mf_hostname : Hostname cfg <> "";
  mf_state : state_source m (StateDir c) cfg;
  mf_local_given : LocalAddr c <> "" -> LocalAddr cfg = LocalAddr c;
  mf_hostname_given : Hostname c <> "" -> Hostname cfg = Hostname c;
  mf_derived : derived m f c cfg;
}.

Lemma validateDialRetries_Ok en f c : validateDialRetries en f c = Ok tt -> (0 <= DialRetries c)%Z.
Proof.
  unfold validateDialRetries. destruct (negative (f_DialRetries f)); [done|].
  destruct (if bool_decide _ then _ else _); [done|]. intros H0%fail_if_Ok. lia.
Qed.

(** The three defaults at the end. *)
Definition fallbacks_1 (c : Config) : Config :=
  if bool_decide (SOCKS5Addr c = "") && bool_decide (LocalAddr c = "") then set_LocalAddr defaultLocalAddr c else c.
Definition fallbacks_2 (m : machine) (c : Config) : Config :=
  let c := if bool_decide (Hostname c = "") then set_Hostname defaultHostname c else c in
  if bool_decide (StateDir c = "") then set_state (StateDirForPlatform m) (EphemeralState c) c else c.

Lemma fallbacks_1_spec c :
  exists a, fallbacks_1 c = set_LocalAddr a c /\ (SOCKS5Addr c = "" -> a <> "") /\ (LocalAddr c <> "" -> a = LocalAddr c).
Proof.
  unfold fallbacks_1. destruct (bool_decide (SOCKS5Addr c = "")) eqn:Es; bd Es; cbn [andb];
    [destruct (bool_decide (LocalAddr c = "")) eqn:El; bd El|].
  - by exists defaultLocalAddr.
  - exists (LocalAddr c). split; [by destruct c|done].
  - exists (LocalAddr c). split; [by destruct c|done].
Qed.

Lemma fallbacks_2_spec m c :
  exists h d, fallbacks_2 m c = set_state d (EphemeralState c) (set_Hostname h c) /\ h <> "" /\
    (Hostname c <> "" -> h = Hostname c) /\
    (StateDir c <> "" -> d = StateDir c) /\ (StateDir c = "" -> d = StateDirForPlatform m).
Proof.
  unfold fallbacks_2. destruct (bool_decide (Hostname c = "")) eqn:Eh; bd Eh; cbn [StateDir set_Hostname];
    destruct (bool_decide (StateDir c = "")) eqn:Es; bd Es.
  - by exists defaultHostname, (StateDirForPlatform m).
  - exists defaultHostname, (StateDir c). split; [by destruct c|done].
  - exists (Hostname c), (StateDirForPlatform m). split; [by destruct c|done].
  - exists (Hostname c), (StateDir c). split; [by destruct c|done].
Qed.

Lemma apply_layers_ephemeral en y f : EphemeralState (apply_layers en y f) = false.
Proof. unfold apply_layers. cbn [EphemeralState applyFlags]. by destruct (bool_decide _). Qed.

Lemma first_nonempty_default l d : first_nonempty l d = if bool_decide (first_nonempty l "" = "") then d else first_nonempty l "".
Proof.
  unfold first_nonempty. induction l as [|x l IH]; cbn; [by rewrite bool_decide_eq_true_2|].
  destruct (bool_decide_reflect (x = "")) as [|Hx]; [exact IH|]. cbn. by rewrite bool_decide_eq_false_2.
Qed.

(** Reading a field through the later steps' updates. *)
Ltac through := cbn [LocalAddr SOCKS5Addr Target Hostname StateDir AutoInstance EphemeralState BootstrapSSH BootstrapSOCKSAddr
  set_LocalAddr set_Hostname set_AutoInstance set_ControlURL set_bootstrap set_state].
Ltac through_in H := cbn [LocalAddr SOCKS5Addr Target Hostname StateDir AutoInstance EphemeralState BootstrapSSH BootstrapSOCKSAddr
  set_LocalAddr set_Hostname set_AutoInstance set_ControlURL set_bootstrap set_state] in H.

Lemma fallbacks_1_eq c :
  fallbacks_1 c = set_LocalAddr (if bool_decide (SOCKS5Addr c = "") then first_nonempty [LocalAddr c] defaultLocalAddr else LocalAddr c) c.
Proof.
  unfold fallbacks_1, first_nonempty. cbn [List.filter]. destruct (bool_decide (SOCKS5Addr c = "")); [|by destruct c].
  destruct (bool_decide (LocalAddr c = "")); by destruct c.
Qed.
Lemma fallbacks_2_eq m c :
  fallbacks_2 m c = set_state (first_nonempty [StateDir c] (StateDirForPlatform m)) (EphemeralState c)
    (set_Hostname (first_nonempty [Hostname c] defaultHostname) c).
Proof.
  unfold fallbacks_2, first_nonempty. cbn [List.filter].
  destruct (bool_decide (Hostname c = "")); through; destruct (bool_decide (StateDir c = "")); by destruct c.
Qed.
Lemma first_nonempty_one s d : first_nonempty [s] d = if bool_decide (s = "") then d else s.
Proof. unfold first_nonempty. cbn [List.filter]. by destruct (bool_decide (s = "")). Qed.

(** What the end of a merge derives. *)
Lemma derived_Ok m f ssh socks c b url c2 :
  applyAutoInstance m f (set_AutoInstance b (set_bootstrap ssh socks (set_ControlURL url c))) = Ok c2 -> EphemeralState c = false ->
  ssh = TrimSpace (BootstrapSSH c) -> socks = socks_from (BootstrapSSH c) (BootstrapSOCKSAddr c) ->
  derived m f c (fallbacks_2 m (fallbacks_1 c2)).
Proof.
  intros (a & h & d & e & -> & Ha & Hh & Hd)%applyAutoInstance_derives He Es Ek.
  rewrite fallbacks_1_eq, fallbacks_2_eq. through. through_in Ha. through_in Hd. through_in Hh.
  set (c1 := set_AutoInstance b _) in *.
  match goal with |- derived _ _ _ ?x => set (cfg := x); change (auto_hostname m f c1) with (auto_hostname m f cfg) in Hh end.
  change (h = first_nonempty [Hostname c; auto_hostname m f cfg] "") in Hh.
  assert (Hostname cfg = first_nonempty [h] defaultHostname) as Hn by done.
  split; [done|done| | |].
  - rewrite Hn, first_nonempty_one, first_nonempty_default. by rewrite <- Hh.
  - unfold local_from. subst cfg c1. through. destruct (bool_decide_reflect (LocalAddr c = "")) as [El|El]; cbn [andb negb] in *.
    + destruct (bool_decide (SOCKS5Addr c = "")); cbn [andb negb] in *; [|by rewrite Ha, El].
      destruct b; [by exists a|]. by rewrite Ha, El.
    + rewrite Ha, first_nonempty_one, (bool_decide_eq_false_2 (LocalAddr c = "")) by done. by destruct (bool_decide (SOCKS5Addr c = "")).
  - unfold state_from. rewrite <- Hh, Hn. subst cfg c1. through. rewrite He in Hd.
    destruct (bool_decide_reflect (StateDir c = "")) as [Et|Et]; cbn [andb negb] in *.
    + destruct b; cbn [andb] in *; [destruct (bool_decide_reflect (h = "")) as [E|E]; cbn [negb] in *|]; injection Hd as -> ->;
        rewrite ?first_nonempty_one, ?Et; try done.
      rewrite !bool_decide_eq_false_2 by (done || apply EphemeralStateDir_ne). done.
    + injection Hd as -> ->. by rewrite first_nonempty_one, bool_decide_eq_false_2.
Qed.

Lemma Merge_Ok m y f cfg : Merge m y f = Ok cfg -> merged_from m y f (apply_layers (env m) y f) cfg.
Proof.
  unfold Merge. pose proof (apply_layers_ephemeral (env m) y f) as He.
  set (c0 := apply_layers (env m) y f) in *. clearbody c0. cbv zeta.
  intros ([] & Hk & H1)%bind_Ok. apply bind_Ok in H1 as ([] & Hm & H1). apply bind_Ok in H1 as ([] & Hp & H1).
  apply bind_Ok in H1 as ([] & Hv & H1). apply map_err_Ok in Hv.
  apply bind_Ok in H1 as (c1 & Hb & H1). apply bind_Ok in H1 as ([] & Hr & H1). apply bind_Ok in H1 as ([] & Hi & H1).
  apply bind_Ok in H1 as (c2 & Ha & H1).
  change (if _ && _ then set_LocalAddr defaultLocalAddr c2 else c2) with (fallbacks_1 c2) in H1.
  apply bind_Ok in H1 as ([] & Hc & H1). injection H1 as H1.
  change (fallbacks_2 m (fallbacks_1 c2) = cfg) in H1.
  apply normalizeBootstrapConfig_Ok in Hb as (ssh & socks & -> & Hb & Hssh & Hsocks). cbn in Hssh, Hsocks.
  apply validateDialRetries_Ok in Hr. apply fail_if_Ok in Hi.
  set (c1 := set_bootstrap ssh socks _) in *.
  destruct (resolveAutoInstance_eq (env m) y f c1) as [b Hres]. 
  assert (derived m f c0 cfg) as Hder.
  { subst cfg. rewrite Hres in Ha. by eapply derived_Ok. }
  pose proof (applyAutoInstance_Ok _ _ _ _ Ha) as (A1 & A2 & A3 & A4 & A5 & AL & AH & A6).
  destruct (fallbacks_1_spec c2) as (a & E1 & Hloc & Hgiven). rewrite E1 in H1, Hc.
  destruct (fallbacks_2_spec m (set_LocalAddr a c2)) as (h & d & E2 & Hh & Hh2 & Hd1 & Hd2). rewrite E2 in H1. subst cfg.
  rewrite Hres in A1, A2, A3, A4, A6, AL, AH.
  split; try done; cbn.
  - unfold validateYAMLAuthKey in Hk. apply fail_if_Ok, negb_false_iff in Hk. by bd Hk.
  - apply Z.ltb_ge in Hi. done.
  - rewrite A5. by apply resolveAutoInstance_congr.
  - rewrite A2, A3, A4. exact Hb.
  - unfold state_source. cbn. cbn in A6, Hh2, Hd1, Hd2.
    destruct (decide (StateDir c2 = "")) as [Hd|Hd].
    + right; right. destruct A6 as [[<- ->]|(_ & _ & _ & A & _)]; [by rewrite Hd2|].
      rewrite A in Hd. by apply EphemeralStateDir_ne in Hd.
    + rewrite Hd1 by done. destruct A6 as [[<- ->]|(-> & Hb' & Hne & -> & ->)]; [by left|].
      right; left. subst b. rewrite Hh2 by done. by rewrite A5, Hres.
  - intros Hl. cbn in AL. specialize (AL Hl). rewrite Hgiven; by rewrite AL.
  - intros Hn. cbn in AH, Hh2. specialize (AH Hn). rewrite Hh2; by rewrite AH.
Qed.
End Facts.

(** * The reference: which layer decides a field *)

Definition first_given {A} (l : list (option A)) (d : A) : A := default d (head (omap id l)).

Definition if_positive (n : Z) : option Z := if (0 <? n)%Z then Some n else None.
Definition env_given {A} (en : environment) (key : string) (read : string -> option A) : option A :=
  if bool_decide (Getenv en key = "") then None else read (Getenv en key).
(** A variable's value counts when it parses and passes the check. *)
Definition checked (parse : string -> option Z) (ok : Z -> bool) (v : string) : option Z :=
  n ← parse v; if ok n then Some n else None.
Definition any_value (_ : Z) : bool := true.
Definition mode_of (target socks : string) : option (string * string) :=
  if negb (bool_decide (target = "")) then Some (target, "")
  else if negb (bool_decide (socks = "")) then Some ("", socks) else None.

Lemma applyFlagString_first f l d : applyFlagString (first_nonempty l d) f = first_nonempty (f :: l) d.
Proof. unfold applyFlagString, first_nonempty. cbn. by destruct (bool_decide (f = "")). Qed.

Lemma applyEnvString_first en k l d : applyEnvString en (first_nonempty l d) k = first_nonempty (Getenv en k :: l) d.
Proof. apply applyFlagString_first. Qed.

Lemma orPositive_first n l d : orPositive (first_given l d) n = first_given (if_positive n :: l) d.
Proof. unfold orPositive, first_given, if_positive. cbn. by destruct (0 <? n)%Z. Qed.

Lemma orGiven_first {A} (o : option A) l d : orGiven (first_given l d) o = first_given (o :: l) d.
Proof. unfold orGiven, first_given. by destruct o. Qed.

Lemma applyEnvParsed_first en k parse ok l d :
  applyEnvParsed en (first_given l d) k parse ok =
  first_given (env_given en k (checked parse (default any_value ok)) :: l) d.
Proof.
  unfold applyEnvParsed, first_given, env_given, checked. destruct (bool_decide (Getenv en k = "")); [done|].
  destruct (parse (Getenv en k)) as [n|]; [|done]. cbn. destruct ok as [g|]; cbn; [by destruct (g n)|done].
Qed.

Lemma applyEnvBool_first en k l d :
  applyEnvBool en (first_given l d) k = first_given (env_given en k (fun v => Some (parseBoolEnv v)) :: l) d.
Proof. unfold applyEnvBool, first_given, env_given. by destruct (bool_decide (Getenv en k = "")). Qed.

(** The routes of the flags; of two for one source, the last. *)
Definition route_entry (route : string) : string * string :=
  let '(source, destination, found) := Cut "=" route in if found then (source, destination) else (route, "").
Definition flag_routes (routes : list string) : gmap string string := list_to_map (rev (map route_entry routes)).

(** What the layers say together, field by field. *)
Record layered (m : machine) (y : PartialConfig) (f : FlagSet) (cfg : Config) : Prop := {
  l_mode : (Target cfg, SOCKS5Addr cfg) =
    first_given [mode_of (f_Target f) (f_SOCKS5Addr f); mode_of (Getenv (env m) "TS_TARGET") (Getenv (env m) "TS_SOCKS5_ADDR");
                 mode_of (y_Target y) (y_SOCKS5Addr y)] ("", "");
  l_key : AuthKey cfg = first_nonempty [f_AuthKey f; Getenv (env m) "TS_AUTHKEY"; f_ProfileAuthKey f] "";
  l_url : ControlURL cfg = TrimSpace (first_nonempty [f_ControlURL f; Getenv (env m) "TS_CONTROL_URL"; y_ControlURL y] "");
  l_health : HealthAddr cfg = first_nonempty [f_HealthAddr f; Getenv (env m) "TS_HEALTH_ADDR"; y_HealthAddr y] "";
  l_log : LogFormat cfg = first_nonempty [f_LogFormat f; Getenv (env m) "TS_LOG_FORMAT"; y_LogFormat y] "text";
  l_routes : SOCKS5Routes cfg = flag_routes (f_SOCKS5Routes f) ∪ y_SOCKS5Routes y;
  l_ssh : BootstrapSSH cfg = TrimSpace (first_nonempty [f_BootstrapSSH f; Getenv (env m) "TS_BOOTSTRAP_SSH"; y_BootstrapSSH y] "");
  l_socks : BootstrapSOCKSAddr cfg =
    socks_from (first_nonempty [f_BootstrapSSH f; Getenv (env m) "TS_BOOTSTRAP_SSH"; y_BootstrapSSH y] "")
      (first_nonempty [f_BootstrapSOCKSAddr f; Getenv (env m) "TS_BOOTSTRAP_SOCKS_ADDR"; y_BootstrapSOCKSAddr y] "");
  l_hostname : Hostname cfg =
    first_nonempty [f_Hostname f; Getenv (env m) "TS_HOSTNAME"; y_Hostname y; auto_hostname m f cfg] defaultHostname;
  l_local : local_from m f (first_nonempty [f_LocalAddr f; Getenv (env m) "TS_LOCAL_ADDR"; y_LocalAddr y] "") cfg;
  l_state : (StateDir cfg, EphemeralState cfg) =
    state_from m (first_nonempty [f_StateDir f; Getenv (env m) "TS_STATE_DIR"; y_StateDir y] "")
      (first_nonempty [f_Hostname f; Getenv (env m) "TS_HOSTNAME"; y_Hostname y; auto_hostname m f cfg] "") cfg;
  l_quiet : Quiet cfg = false;
  l_timeout : ConnectTimeout cfg = first_given [if_positive (f_Timeout f);
    env_given (env m) "TS_TIMEOUT" (checked ParseDuration any_value); if_positive (y_Timeout y)] defaultTimeout;
  l_dial : DialTimeout cfg = first_given [if_positive (f_DialTimeout f);
    env_given (env m) "TS_DIAL_TIMEOUT" (checked ParseDuration positive); if_positive (y_DialTimeout y)] defaultDialTimeout;
  l_drain : DrainTimeout cfg = first_given [if_positive (f_DrainTimeout f);
    env_given (env m) "TS_DRAIN_TIMEOUT" (checked ParseDuration any_value); if_positive (y_DrainTimeout y)] defaultDrainTimeout;
  l_idle : IdleTimeout cfg = first_given [f_IdleTimeout f;
    env_given (env m) "TS_IDLE_TIMEOUT" (checked ParseDuration nonNegative); if_positive (y_IdleTimeout y)] 0%Z;
  l_retries : DialRetries cfg = first_given [f_DialRetries f;
    env_given (env m) "TS_DIAL_RETRIES" (checked Atoi nonNegative); if_positive (y_DialRetries y)] defaultDialRetries;
  l_base : DialBackoffBase cfg = first_given [if_positive (f_DialBackoffBase f);
    env_given (env m) "TS_DIAL_BACKOFF_BASE" (checked ParseDuration nonNegative); if_positive (y_DialBackoffBase y)] defaultDialBackoffBase;
  l_max : DialBackoffMax cfg = first_given [if_positive (f_DialBackoffMax f);
    env_given (env m) "TS_DIAL_BACKOFF_MAX" (checked ParseDuration nonNegative); if_positive (y_DialBackoffMax y)] defaultDialBackoffMax;
  l_conns : MaxConnections cfg = first_given [if_positive (f_MaxConns f);
    env_given (env m) "TS_MAX_CONNECTIONS" (checked Atoi positive); if_positive (y_MaxConnections y)] defaultMaxConnections;
  l_remote : HealthAllowRemote cfg = first_given [f_HealthAllowRemote f;
    env_given (env m) "TS_HEALTH_ALLOW_REMOTE" (fun v => Some (parseBoolEnv v))] false;
  l_verbose : Verbose cfg = first_given [f_Verbose f; env_given (env m) "TS_VERBOSE" (fun v => Some (parseBoolEnv v))] false;
  l_auto : AutoInstance cfg = first_given [(if f_ManualMode f then Some false else None);
    env_given (env m) "TS_MANUAL_MODE" (fun v => Some (negb (parseBoolEnv v)));
    env_given (env m) "TS_AUTO_INSTANCE" (fun v => Some (parseBoolEnv v)); y_AutoInstance y] true;
}.

(** Reading a kept field of the merged configuration off the layers. *)
Lemma core_field {A} (p : Config -> A) (c c' : Config) :
  core c = core c' -> (forall x, p (core x) = p x) -> p c = p c'.
Proof. intros H Hp. by rewrite <- (Hp c), <- (Hp c'), H. Qed.

(** A field no profile key touches. *)
Lemma apply_layers_field {A} (p : Config -> A) en y f :
  (forall v c, p (set_AuthKey v c) = p c) -> (forall c c', p c = p c' -> p (applyFlags c f) = p (applyFlags c' f)) ->
  p (apply_layers en y f) = p (applyFlags (applyEnv (applyYAML defaults y) en) f).
Proof. intros H1 H2. unfold apply_layers. apply H2. destruct (bool_decide _); [apply H1|done]. Qed.

Lemma first_nonempty_silent l x : Forall (fun s => s = "") l -> first_nonempty (l ++ [x]) "" = x.
Proof.
  intros Hl. unfold first_nonempty. rewrite List.filter_app. replace (List.filter _ l) with (@nil string); [|by induction Hl as [|? ? ->]].
  cbn. by case_bool_decide as E; rewrite ?E.
Qed.

Lemma str_layers en y k f d :
  applyFlagString (applyEnvString en (applyFlagString d y) k) f = first_nonempty [f; Getenv en k; y] d.
Proof. by rewrite <- !applyFlagString_first. Qed.

Lemma num_layers en y k parse ok f d :
  orPositive (applyEnvParsed en (orPositive d y) k parse ok) f =
  first_given [if_positive f; env_given en k (checked parse (default any_value ok)); if_positive y] d.
Proof. by rewrite <- orPositive_first, <- applyEnvParsed_first, <- orPositive_first. Qed.

Lemma ptr_layers en y k parse ok f d :
  orGiven (applyEnvParsed en (orPositive d y) k parse ok) f =
  first_given [f; env_given en k (checked parse (default any_value ok)); if_positive y] d.
Proof. by rewrite <- orGiven_first, <- applyEnvParsed_first, <- orPositive_first. Qed.

Lemma bool_layers en k f d :
  orGiven (applyEnvBool en d k) f = first_given [f; env_given en k (fun v => Some (parseBoolEnv v))] d.
Proof. by rewrite <- orGiven_first, <- applyEnvBool_first. Qed.

(** A missing YAML idle timeout is 0, as the default is. *)
Lemma idle_yaml n : (if (0 <=? n)%Z then n else 0%Z) = orPositive 0 n.
Proof. unfold orPositive. destruct (Z.leb_spec 0 n), (Z.ltb_spec 0 n); lia. Qed.

Lemma not_both n t u : validateModeLayer n t u = Ok tt -> t = "" \/ u = "".
Proof.
  intros H%fail_if_Ok. apply andb_false_iff in H as [H|H]; apply negb_false_iff in H; bd H; tauto.
Qed.

Lemma applyFlagString_empty s : applyFlagString "" s = s.
Proof. unfold applyFlagString. destruct (bool_decide_reflect (s = "")); by subst. Qed.

Lemma mode_layers en y f :
  validateModeInputs en y f = Ok tt ->
  applyFlagProxyMode f (applyEnvProxyMode en (y_Target y, y_SOCKS5Addr y)) =
  first_given [mode_of (f_Target f) (f_SOCKS5Addr f); mode_of (Getenv en "TS_TARGET") (Getenv en "TS_SOCKS5_ADDR");
               mode_of (y_Target y) (y_SOCKS5Addr y)] ("", "").
Proof.
  unfold validateModeInputs. intros ([] & Hy%not_both & _)%bind_Ok.
  unfold applyFlagProxyMode, applyEnvProxyMode, first_given.
  assert (E : (y_Target y, y_SOCKS5Addr y) = default ("", "") (mode_of (y_Target y) (y_SOCKS5Addr y))).
  { unfold mode_of. destruct (bool_decide_reflect (y_Target y = "")) as [->|]; cbn; [|by destruct Hy as [?| ->]].
    by destruct (bool_decide_reflect (y_SOCKS5Addr y = "")) as [->|]. }
  rewrite E. unfold mode_of. by repeat (destruct (negb _)).
Qed.

Lemma key_layers en y f :
  AuthKey (apply_layers en y f) = first_nonempty [f_AuthKey f; Getenv en "TS_AUTHKEY"; f_ProfileAuthKey f] "".
Proof.
  rewrite <- applyFlagString_first. unfold apply_layers. cbn [AuthKey applyFlags]. f_equal.
  assert (H0 : AuthKey (applyEnv (applyYAML defaults y) en) = Getenv en "TS_AUTHKEY") by apply applyFlagString_empty.
  rewrite H0. unfold first_nonempty. cbn. destruct (bool_decide (Getenv en "TS_AUTHKEY" = "")); [|exact H0].
  cbn. by destruct (bool_decide_reflect (f_ProfileAuthKey f = "")) as [->|].
Qed.

Lemma auto_layers en y f :
  AutoInstance (resolveAutoInstance en y f (apply_layers en y f)) =
  first_given [(if f_ManualMode f then Some false else None);
    env_given en "TS_MANUAL_MODE" (fun v => Some (negb (parseBoolEnv v)));
    env_given en "TS_AUTO_INSTANCE" (fun v => Some (parseBoolEnv v)); y_AutoInstance y] true.
Proof.
  unfold resolveAutoInstance, first_given, env_given. destruct (f_ManualMode f); [done|].
  assert (E : AutoInstance (apply_layers en y f) = envAutoInstance en (default true (y_AutoInstance y)))
    by (rewrite (apply_layers_field AutoInstance) by (try done; intros ? ? E; cbn in *; by rewrite E); done).
  generalize dependent (apply_layers en y f). intros c E.
  destruct (bool_decide (Getenv en "TS_MANUAL_MODE" = "")) eqn:E1; cbn; [|done].
  destruct (bool_decide (Getenv en "TS_AUTO_INSTANCE" = "")) eqn:E2; cbn; [|done].
  destruct (y_AutoInstance y) as [b|]; [done|]. cbn. rewrite E. unfold envAutoInstance. by rewrite E1, E2.
Qed.

Lemma routes_layers y f :
  SOCKS5Routes (applyFlags (applyYAML defaults y) f) = flag_routes (f_SOCKS5Routes f) ∪ y_SOCKS5Routes y.
Proof.
  cbn [SOCKS5Routes applyFlags applyYAML defaults]. rewrite (right_id_L ∅ (∪)). generalize (y_SOCKS5Routes y) as base.
  unfold flag_routes. induction (f_SOCKS5Routes f) as [|r routes IH]; intros base; cbn; [by rewrite (left_id_L ∅ (∪))|].
  rewrite IH, list_to_map_app. cbn. rewrite <- (assoc_L (∪)). f_equal. unfold applyRoute, route_entry.
  destruct (Cut "=" r) as [[s d] []]; cbn; by rewrite <- insert_union_l, (left_id_L ∅ (∪)).
Qed.

(** The layers together as the first of a longer list. *)
Lemma first_nonempty_nest l x d : first_nonempty [first_nonempty l ""; x] d = first_nonempty (l ++ [x]) d.
Proof.
  unfold first_nonempty. rewrite List.filter_app. induction l as [|a l IH]; cbn; [done|].
  destruct (bool_decide_reflect (a = "")) as [->|]; cbn; [done|]. by rewrite bool_decide_eq_false_2.
Qed.

(** The field of a merged configuration is the layers' field. *)
Ltac apply_field p := rewrite (apply_layers_field p) by (try done; intros ? ? E; cbn in *; by rewrite E).
Ltac by_layers p Hcore :=
  rewrite (core_field p _ _ Hcore) by done; rewrite (apply_layers_field p) by (try done; intros ? ? E; cbn in *; by rewrite E).

Lemma layered_of_layers `{UrlPackage} m y f cfg :
  merged_from m y f (apply_layers (env m) y f) cfg -> layered m y f cfg.
Proof.
  intros M. pose proof (mf_core _ _ _ _ _ M) as Hc. pose proof (mf_derived _ _ _ _ _ M) as D.
  assert (Hostname (apply_layers (env m) y f) = first_nonempty [f_Hostname f; Getenv (env m) "TS_HOSTNAME"; y_Hostname y] "") as Hname
    by (apply_field Hostname; apply str_layers).
  split.
  - rewrite (core_field (fun c => (Target c, SOCKS5Addr c)) _ _ Hc) by done.
    rewrite (apply_layers_field (fun c => (Target c, SOCKS5Addr c))) by (try done; intros ? ? E; cbn in *; by rewrite E).
    rewrite <- (mode_layers _ _ _ (mf_modes _ _ _ _ _ M)). cbn. rewrite !applyFlagString_empty, <- !surjective_pairing. done.
  - rewrite (core_field AuthKey _ _ Hc) by done. apply key_layers.
  - rewrite (mf_url _ _ _ _ _ M). f_equal. rewrite (apply_layers_field ControlURL) by (try done; intros ? ? E; cbn in *; by rewrite E). apply str_layers.
  - by_layers HealthAddr Hc. apply str_layers.
  - by_layers LogFormat Hc. apply str_layers.
  - by_layers SOCKS5Routes Hc. apply routes_layers.
  - rewrite (d_ssh _ _ _ _ D). f_equal. apply_field BootstrapSSH. apply str_layers.
  - rewrite (d_socks _ _ _ _ D). f_equal; [apply_field BootstrapSSH|apply_field BootstrapSOCKSAddr]; apply str_layers.
  - rewrite (d_hostname _ _ _ _ D), Hname. apply (first_nonempty_nest [_; _; _]).
  - pose proof (d_local _ _ _ _ D) as Dl. rewrite (apply_layers_field LocalAddr) in Dl by (try done; intros ? ? E; cbn in *; by rewrite E).
    cbn [LocalAddr applyFlags applyEnv applyYAML defaults] in Dl. by rewrite str_layers in Dl.
  - rewrite (d_state _ _ _ _ D), Hname, (first_nonempty_nest [_; _; _]). f_equal. apply_field StateDir. apply str_layers.
  - by_layers Quiet Hc. done.
  - by_layers ConnectTimeout Hc. apply num_layers.
  - by_layers DialTimeout Hc. apply num_layers.
  - by_layers DrainTimeout Hc. apply num_layers.
  - by_layers IdleTimeout Hc. cbn. rewrite idle_yaml. apply ptr_layers.
  - by_layers DialRetries Hc. apply ptr_layers.
  - by_layers DialBackoffBase Hc. apply num_layers.
  - by_layers DialBackoffMax Hc. apply num_layers.
  - by_layers MaxConnections Hc. apply num_layers.
  - by_layers HealthAllowRemote Hc. apply bool_layers.
  - by_layers Verbose Hc. apply bool_layers.
  - rewrite (mf_auto _ _ _ _ _ M). apply auto_layers.
Qed.

(** A name or a listener that a layer gives is taken as it is. *)
Lemma layered_hostname m y f cfg h :
  layered m y f cfg -> first_nonempty [f_Hostname f; Getenv (env m) "TS_HOSTNAME"; y_Hostname y] "" = h -> h <> "" -> Hostname cfg = h.
Proof.
  intros L <- Hne. etransitivity; [apply (l_hostname _ _ _ _ L)|]. etransitivity; [symmetry; apply (first_nonempty_nest [_; _; _])|].
  unfold first_nonempty at 1. cbn [List.filter]. by rewrite bool_decide_eq_false_2.
Qed.
Lemma layered_local m y f cfg a :
  layered m y f cfg -> first_nonempty [f_LocalAddr f; Getenv (env m) "TS_LOCAL_ADDR"; y_LocalAddr y] "" = a -> a <> "" -> LocalAddr cfg = a.
Proof. intros L <- Hne. pose proof (l_local _ _ _ _ L) as Hl. unfold local_from in Hl. by rewrite bool_decide_eq_false_2 in Hl. Qed.

Lemma first_given_all {A} (P : A -> Prop) l d :
  P d -> Forall (fun o => match o with Some a => P a | None => True end) l -> P (first_given l d).
Proof.
  intros Hd. unfold first_given. induction 1 as [|[a|] l Ha Hl IH]; cbn; [done|done|exact IH].
Qed.

Lemma if_positive_ok n : match if_positive n with Some a => (0 < a)%Z | None => True end.
Proof. unfold if_positive. destruct (Z.ltb_spec 0 n); [lia|done]. Qed.

Lemma env_given_checked (P : Z -> Prop) en k parse ok :
  (forall n, ok n = true -> P n) ->
  match env_given en k (checked parse ok) with Some a => P a | None => True end.
Proof.
  intros H. unfold env_given, checked. destruct (bool_decide _); [done|].
  destruct (parse _) as [n|]; [|done]. cbn. destruct (ok n) eqn:E; [by apply H|done].
Qed.

Lemma first_positive en k parse f y d :
  (0 < d)%Z -> (0 < first_given [if_positive f; env_given en k (checked parse positive); if_positive y] d)%Z.
Proof.
  intros Hd. apply first_given_all; [done|]. repeat constructor; try apply if_positive_ok.
  apply env_given_checked. unfold positive. intros n ?%Z.ltb_lt. done.
Qed.

Lemma first_nonnegative en k parse f y d :
  (0 <= d)%Z -> (0 <= first_given [if_positive f; env_given en k (checked parse nonNegative); if_positive y] d)%Z.
Proof.
  intros Hd. apply first_given_all; [done|].
  assert (W : forall n, match if_positive n with Some a => (0 <= a)%Z | None => True end)
    by (intros n; pose proof (if_positive_ok n); destruct (if_positive n); [lia|done]).
  repeat constructor; try apply W. apply env_given_checked. unfold nonNegative. intros n ?%Z.leb_le. done.
Qed.

(** With no usable value in the environment the check does not matter. *)
Lemma first_positive_unset en k parse ok f y d :
  (0 < d)%Z -> Getenv en k = "" -> (0 < first_given [if_positive f; env_given en k (checked parse ok); if_positive y] d)%Z.
Proof.
  intros Hd Hk. apply first_given_all; [done|]. repeat constructor; try apply if_positive_ok.
  unfold env_given. by rewrite Hk.
Qed.

(** Exactly one way in: a TCP target with a local listener, or a SOCKS5
    listener on loopback whose routes are well formed. *)
Definition mode_valid (cfg : Config) : Prop :=
  (dialable (Target cfg) /\ SOCKS5Addr cfg = "" /\ SOCKS5Routes cfg = ∅ /\ LocalAddr cfg <> "") \/
  (Target cfg = "" /\ loopback_endpoint (SOCKS5Addr cfg) /\
   forall s d, SOCKS5Routes cfg !! s = Some d -> dialable s /\ dialable d).

Lemma validateMergedProxyConfig_Ok c :
  validateMergedProxyConfig c = Ok tt -> Target c = "" \/ SOCKS5Addr c = "" ->
  ValidateKey (AuthKey c) = Ok tt /\
  ((dialable (Target c) /\ SOCKS5Addr c = "" /\ SOCKS5Routes c = ∅) \/
   (Target c = "" /\ loopback_endpoint (SOCKS5Addr c) /\
    forall s d, SOCKS5Routes c !! s = Some d -> dialable s /\ dialable d)).
Proof.
  unfold validateMergedProxyConfig, validateRequiredFields. intros ([] & Ht%validateTarget_Ok & H)%bind_Ok Hx.
  apply bind_Ok in H as ([] & Hs%validateLoopbackListener_Ok & H).
  apply bind_Ok in H as ([] & Hr & H). pose proof (validateSOCKS5Routes_Ok _ Hr) as Hroutes.
  apply bind_Ok in H as ([] & Hm%fail_if_Ok & H). apply bind_Ok in H as ([] & Hq%fail_if_Ok & H).
  apply bind_Ok in H as ([] & _ & H%map_err_Ok). split; [done|].
  destruct (bool_decide_reflect (Target c = "")) as [E|E]; cbn in *.
  - right. split; [done|]. split; [|done]. destruct Hs as [Hs|Hs]; [|done]. by rewrite Hs in Hq.
  - left. destruct Ht as [?|Ht]; [done|]. destruct Hx as [?|Hx]; [done|]. split; [done|]. split; [done|].
    apply negb_false_iff in Hm. by bd Hm.
Qed.

Lemma merge_valid `{UrlPackage} m y f cfg (HM : Merge m y f = Ok cfg) :
  mode_valid cfg /\ ValidateKey (AuthKey cfg) = Ok tt /\
  (HasPrefix (AuthKey cfg) "hskey-" = true -> ControlURL cfg <> "") /\
  (ControlURL cfg <> "" -> Validate (ControlURL cfg) = Ok tt).
Proof.
  pose proof (Merge_Ok _ _ _ _ HM) as M. pose proof (mf_core _ _ _ _ _ M) as Hc.
  destruct (validateMergedProxyConfig_Ok _ (mf_proxy _ _ _ _ _ M) (apply_layers_mode _ _ _ (mf_modes _ _ _ _ _ M))) as [Hkey Hmode].
  pose proof (mf_plane _ _ _ _ _ M) as Hp. pose proof (mf_listener _ _ _ _ _ M) as Hl. unfold mode_valid.
  rewrite (mf_url _ _ _ _ _ M), (core_field AuthKey _ _ Hc), (core_field Target _ _ Hc), (core_field SOCKS5Routes _ _ Hc) by done.
  rewrite (core_field SOCKS5Addr _ _ Hc) in Hl |- * by done.
  split; [|split; [done|]].
  - destruct Hmode as [(? & ? & ?)|?]; [left; eauto|by right].
  - unfold ValidateControlPlane in Hp. unfold TrimSpace in Hp; rewrite trim_idem in Hp; fold (TrimSpace (ControlURL (apply_layers (env m) y f))) in Hp.
    destruct (bool_decide_reflect (TrimSpace (ControlURL (apply_layers (env m) y f)) = "")) as [E|E]; cbn in Hp.
    + destruct (HasPrefix _ _); done.
    + rewrite andb_false_r in Hp. apply map_err_Ok in Hp. done.
Qed.

(** * Properties *)

(** C7: a merged configuration has exactly one way in (a well-formed target
    with a local listener, or a loopback SOCKS5 listener with well-formed
    routes), a valid auth key, and a control URL that fits the key: a Headscale
    key has one, and one that is set is valid. *)
Theorem merged_config_valid `{UrlPackage} m y f cfg (HM : Merge m y f = Ok cfg) :
  mode_valid cfg /\ ValidateKey (AuthKey cfg) = Ok tt /\
  (HasPrefix (AuthKey cfg) "hskey-" = true -> ControlURL cfg <> "") /\
  (ControlURL cfg <> "" -> Validate (ControlURL cfg) = Ok tt).
Proof. by eapply merge_valid. Qed.

(** A merged configuration's limits are usable: no negative retry count,
    idle timeout or backoff, a positive connection limit and dial timeout; and
    positive connect and drain timeouts unless the environment sets them, which
    is the one layer that does not check them. *)
Theorem merged_limits_usable `{UrlPackage} m y f cfg (HM : Merge m y f = Ok cfg) :
  (0 <= DialRetries cfg)%Z /\ (0 <= IdleTimeout cfg)%Z /\ (0 <= DialBackoffBase cfg)%Z /\ (0 <= DialBackoffMax cfg)%Z /\
  (0 < MaxConnections cfg)%Z /\ (0 < DialTimeout cfg)%Z /\
  (Getenv (env m) "TS_TIMEOUT" = "" -> 0 < ConnectTimeout cfg)%Z /\
  (Getenv (env m) "TS_DRAIN_TIMEOUT" = "" -> 0 < DrainTimeout cfg)%Z.
Proof.
  pose proof (Merge_Ok _ _ _ _ HM) as M. pose proof (mf_core _ _ _ _ _ M) as Hc.
  pose proof (layered_of_layers _ _ _ _ M) as L.
  split; [rewrite (core_field DialRetries _ _ Hc) by done; apply (mf_retries _ _ _ _ _ M)|].
  split; [rewrite (core_field IdleTimeout _ _ Hc) by done; apply (mf_idle _ _ _ _ _ M)|].
  rewrite (l_base _ _ _ _ L), (l_max _ _ _ _ L), (l_conns _ _ _ _ L), (l_dial _ _ _ _ L), (l_timeout _ _ _ _ L), (l_drain _ _ _ _ L).
  repeat split; try (by apply first_nonnegative); try (by apply first_positive); intros; by apply first_positive_unset.
Qed.

(** C8: every field of a merged configuration is the one of the first layer
    that gives it: flags, then the environment, then the YAML file, then the
    default. The routes are those of the flags and, for other sources, the YAML
    file's. An auth key comes from the flags, the environment or the selected
    profile, never from the YAML file. The listener, the host name and the state
    directory no layer gives are automatic mode's, or the default in manual
    mode; the tunnel's listener has a default only when there is a tunnel, and
    quiet is not the layers' to set. *)
Theorem merge_precedence `{UrlPackage} m y f cfg (HM : Merge m y f = Ok cfg) : layered m y f cfg.
Proof. apply layered_of_layers, Merge_Ok, HM. Qed.

(** A merged configuration names a host and a state directory. The state
    directory is ephemeral (removed at the end) only when automatic mode chose
    it under the temporary directory: one a layer names is kept as given and is
    never ephemeral. *)
Theorem merged_state_dir `{UrlPackage} m y f cfg (HM : Merge m y f = Ok cfg) :
  Hostname cfg <> "" /\ StateDir cfg <> "" /\
  (EphemeralState cfg = true -> AutoInstance cfg = true /\ StateDir cfg = EphemeralStateDir m (Hostname cfg)) /\
  (forall d, first_nonempty [f_StateDir f; Getenv (env m) "TS_STATE_DIR"; y_StateDir y] "" = d -> d <> "" ->
     StateDir cfg = d /\ EphemeralState cfg = false).
Proof.
  pose proof (Merge_Ok _ _ _ _ HM) as M. split; [apply (mf_hostname _ _ _ _ _ M)|].
  pose proof (mf_state _ _ _ _ _ M) as S.
  rewrite (apply_layers_field StateDir) in S by (try done; intros ? ? E; cbn in *; by rewrite E).
  cbn [StateDir applyFlags applyEnv applyYAML defaults] in S. rewrite str_layers in S.
  destruct S as [(Hne & -> & ->)|[(-> & Ha & -> & ->)|(-> & -> & ->)]].
  - split; [done|]. split; [done|]. by intros d <-.
  - split; [apply EphemeralStateDir_ne|]. split; [done|]. by intros d <-.
  - split; [apply StateDirForPlatform_ne|]. split; [done|]. by intros d <-.
Qed.

(** A bootstrap tunnel is configured whole or not at all: with an SSH host
    there is a control URL and a SOCKS listener on loopback, which no other
    listener shares; without one there is no SOCKS listener. *)
Theorem merged_bootstrap `{UrlPackage} m y f cfg (HM : Merge m y f = Ok cfg) :
  bootstrap_ok (BootstrapSSH cfg) (BootstrapSOCKSAddr cfg) (ControlURL cfg) /\
  Forall (fun a => sameListenerEndpoint (BootstrapSOCKSAddr cfg) a = false) [LocalAddr cfg; SOCKS5Addr cfg; HealthAddr cfg].
Proof.
  pose proof (Merge_Ok _ _ _ _ HM) as M. split; [apply (mf_bootstrap _ _ _ _ _ M)|].
  pose proof (mf_apart _ _ _ _ _ M) as Ha. unfold validateBootstrapListenerCollision in Ha.
  apply bind_Ok in Ha as ([] & [? ?]%fail_if_Ok%orb_false_iff & ?%fail_if_Ok). by repeat constructor.
Qed.

(** * Witnesses *)

Definition demo_merge_machine (vars : environment) : machine :=
  mkMachine vars "linux" (Some "desk") 4711 "/tmp" (fun p => (p =? 33400)%Z).
Definition demo_vars : environment :=
  {[ "TS_AUTHKEY" := "hskey-secret"; "TS_TARGET" := "env.host:22"; "TS_TIMEOUT" := "-5s"; "TS_INSTANCE_NAME" := "Blue" ]}.
Definition demo_yaml : PartialConfig :=
  mkPartial 1 "" "" "127.0.0.1:1080" ∅ "" " https://headscale.test " "ops@jump" "" "" "" "" "" 0 0 (7 * second) 0 5 0 0 0 None.
Definition demo_flags : FlagSet :=
  mkFlags "rdp.tail:3389" "" [] "" "" "" "" "" "" "" "" "" "" 0 0 0 None 0 None 0 0 "127.0.0.1:9090" "" false "" "" false None None.
Definition demo_merged : result merge_error Config :=
  @Merge simpleUrl (demo_merge_machine demo_vars) demo_yaml demo_flags.
Definition demo_config : Config := match demo_merged with Ok c => c | Err _ => defaults end.

Lemma demo_merged_ok : demo_merged = Ok demo_config.
Proof.
  unfold demo_config. assert (H : is_ok demo_merged = true) by (vm_compute; reflexivity).
  by destruct demo_merged.
Qed.

Lemma merged_config_valid_witness :
  Target demo_config = "rdp.tail:3389" /\ mode_valid demo_config.
Proof.
  split; [vm_compute; reflexivity|].
  exact (proj1 (@merged_config_valid simpleUrl _ _ _ _ demo_merged_ok)).
Defined.

Lemma merged_limits_usable_witness :
  DrainTimeout demo_config = (7 * second)%Z /\ (0 < MaxConnections demo_config)%Z.
Proof.
  split; [vm_compute; reflexivity|].
  pose proof (@merged_limits_usable simpleUrl _ _ _ _ demo_merged_ok) as H. tauto.
Defined.

Lemma merge_precedence_witness :
  AuthKey demo_config = "hskey-secret" /\ layered (demo_merge_machine demo_vars) demo_yaml demo_flags demo_config.
Proof.
  split; [vm_compute; reflexivity|]. exact (@merge_precedence simpleUrl _ _ _ _ demo_merged_ok).
Defined.

Lemma merged_state_dir_witness :
  EphemeralState demo_config = true /\ AutoInstance demo_config = true /\
  StateDir demo_config = EphemeralStateDir (demo_merge_machine demo_vars) (Hostname demo_config).
Proof.
  assert (H0 : EphemeralState demo_config = true) by (vm_compute; reflexivity). split; [exact H0|].
  pose proof (@merged_state_dir simpleUrl _ _ _ _ demo_merged_ok) as (_ & _ & H & _). exact (H H0).
Defined.

Lemma merged_bootstrap_witness :
  BootstrapSOCKSAddr demo_config = defaultBootstrapSOCKS /\
  bootstrap_ok (BootstrapSSH demo_config) (BootstrapSOCKSAddr demo_config) (ControlURL demo_config).
Proof.
  split; [vm_compute; reflexivity|]. exact (proj1 (@merged_bootstrap simpleUrl _ _ _ _ demo_merged_ok)).
Defined.

(** The environment's connect timeout is not checked: a negative one is taken,
    where a flag or the YAML file must be positive. *)
Theorem env_timeout_unchecked : ConnectTimeout demo_config = (-5 * second)%Z.
Proof. vm_compute. reflexivity. Qed.
