(* ===== verification/ProfileStore.v ===== *)
(** The profile store (src/internal/profile/store.go, transaction.go,
    credential_share.go): its entries, the binding of a managed credential to a
    control plane, and every operation, over a disk whose reads and writes may
    fail at any point.

    The store file is the value its YAML encodes. A transition holds the store
    lock, so no other process changes the store between its reads and writes. *)
From S2P Require Import Prelude GoStrings SecretFile Credential ControlUrl.
From Stdlib Require Import Ascii.

Open Scope bool_scope.

(** * Data *)

Record Runtime : Type := mkRuntime {
  BootstrapSSH : string;
  BootstrapSOCKSAddr : string;
  Hostname : string;
  StateDir : string;
  LocalAddr : string;
  HealthAddr : string;
}.
Definition zeroRuntime : Runtime := mkRuntime "" "" "" "" "" "".

(** An entry of the file; [Profile], the callers' view, has the same fields. *)
Record profileEntry : Type := mkProfile {
  Target : string;
  ControlURL : string;
  CredentialName : string;
  Settings : Runtime;
}.
Definition Profile : Type := profileEntry.
Definition zeroEntry : profileEntry := mkProfile "" "" "" zeroRuntime.
Definition profileFromEntry (e : profileEntry) : Profile :=
  mkProfile (Target e) (ControlURL e) (CredentialName e) (Settings e).

Abbreviation profiles := (gmap string profileEntry).
Record storeFile : Type := mkStoreFile { DescriptorVersion : Z; Profiles : profiles }.

(** A parsed descriptor. *)
Record Descriptor : Type := mkDescriptor { dHost : string; dPort : Z; dControlURL : string; dVersion : Z }.

(** * The disk and the operations' monad *)

(** Where writing the store can fail: before the file is replaced, or in
    securing it afterwards. *)
Inductive save_fault : Type := SaveFails | SaveSecureFails.

Inductive lock_answer : Type := Locked | LockBusy | LockError.

(** What the system answers to the [n]-th call. *)
Record system : Type := mkSystem {
  lockAnswer : nat -> lock_answer;
  unlockFails : nat -> bool;
  loadFails : nat -> bool;
  saveFault : nat -> option save_fault;
  credFaults : nat -> faults;
  tempName : nat -> string;
}.
Definition healthy : system :=
  mkSystem (fun _ => Locked) (fun _ => false) (fun _ => false) (fun _ => None) (fun _ => noFaults) (fun _ => "1").

(** The profile file, none while it does not exist, the credential store, and
    the number of calls made so far. *)
Record world : Type := mkWorld { disk : option storeFile; creds : Store; tick : nat }.

Inductive profile_error : Type :=
  | StoreBusy
  | StoreLockFailed
  | UnlockFailed
  | LoadFailed
  | SaveFailed
  | ErrNotFound (name : string)
  | ControlPlaneChange (name from to credential : string)
  | CredentialShared (credential profile controlURL : string)
  | EmptyProfileName
  | TargetHoldsKey (prefix : string)
  | SettingsHoldKey
  | BadCredentialName
  | Moved (profile from to : string)
  | HeadscaleNeedsURL
  | CredentialUnreadable (e : cred_error)
  | StoreCredentialFailed (e : cred_error)
  | AssociationRestored (e : profile_error)
  | AssociationNotRestored (e : profile_error) (r : cred_error)
  | NoManagedCredential (profile : string)
  | Referenced (credential : string) (by_ : list string)
  | RemoveKeyFailed (e : cred_error)
  (** [errors.Join]. *)
  | Joined (e1 e2 : profile_error).

Definition M (A : Type) : Type := system -> world -> result profile_error A * world.

#[export] Instance M_ret : MRet M := fun A a sys w => (Ok a, w).
#[export] Instance M_bind : MBind M := fun A B f m sys w =>
  match m sys w with (Ok a, w') => f a sys w' | (Err e, w') => (Err e, w') end.
Definition throw {A} (e : profile_error) : M A := fun sys w => (Err e, w).
(** Continue with the outcome, an error or not. *)
Definition attempt {A} (m : M A) : M (result profile_error A) := fun sys w =>
  let '(r, w') := m sys w in (Ok r, w').
Definition ensure {A} (r : result profile_error A) : M A := fun sys w => (r, w).

Definition next (w : world) : world := mkWorld (disk w) (creds w) (S (tick w)).

Definition load : M storeFile := fun sys w =>
  if loadFails sys (tick w) then (Err LoadFailed, next w)
  else (Ok (default (mkStoreFile 0 ∅) (disk w)), next w).

Definition save (f : storeFile) : M unit := fun sys w =>
  match saveFault sys (tick w) with
  | Some SaveFails => (Err SaveFailed, next w)
  | Some SaveSecureFails => (Err SaveFailed, mkWorld (Some f) (creds w) (S (tick w)))
  | None => (Ok tt, mkWorld (Some f) (creds w) (S (tick w)))
  end.

(** The credential store's operations, on the world. *)
Definition credGet (name : string) : M (result cred_error string) := fun sys w =>
  (Ok (Get name (credFaults sys (tick w)) (creds w)), next w).
Definition credSet (name key : string) (replace : bool) : M (result cred_error unit) := fun sys w =>
  let '(r, s) := Set_ name key replace (tempName sys (tick w)) (credFaults sys (tick w)) (creds w) in
  (Ok r, mkWorld (disk w) s (S (tick w))).
Definition credRemove (name : string) : M (result cred_error unit) := fun sys w =>
  let '(r, s) := Remove name (credFaults sys (tick w)) (creds w) in
  (Ok r, mkWorld (disk w) s (S (tick w))).

(** [Update]: [fn] with the lock held; a failed release is joined to its
    outcome. *)
Definition Update {A} (fn : M A) : M A := fun sys w =>
  match lockAnswer sys (tick w) with
  | LockBusy => (Err StoreBusy, next w)
  | LockError => (Err StoreLockFailed, next w)
  | Locked =>
      let '(r, w') := fn sys (next w) in
      (if unlockFails sys (tick w')
       then Err (match r with Ok _ => UnlockFailed | Err e => Joined e UnlockFailed end)
       else r, next w')
  end.

Section Store.
Context `{UrlPackage}.

(** * Binding *)

Definition displayControlURL (raw : string) : string :=
  if bool_decide (raw = "") then "(Tailscale SaaS)" else raw.

(** The credential a profile keeps when it will use [controlURL], and whether
    its reference was dropped. *)
Definition bindCredential (name : string) (existing : profileEntry) (controlURL : string) (force : bool)
    : result profile_error (string * bool) :=
  if bool_decide (CredentialName existing = "") || SameControlURL (ControlURL existing) controlURL
  then Ok (CredentialName existing, false)
  else if negb force
  then Err (ControlPlaneChange name (ControlURL existing) controlURL (CredentialName existing))
  else Ok ("", true).

Definition secretPrefixes : list string := ["tskey-"; "hskey-"].

(** * Operations *)

Definition putEntry (data : storeFile) (name : string) (e : profileEntry) : storeFile :=
  mkStoreFile 1 (<[name := e]> (Profiles data)).

Definition importEntry (name : string) (d : Descriptor) (force : bool) : M bool :=
  data ← load;
  let existing := default zeroEntry (Profiles data !! name) in
  '(credentialName, cleared) ← ensure (bindCredential name existing (dControlURL d) force);
  _ ← save (putEntry data name
       (mkProfile (dHost d +:+ ":" +:+ Itoa (dPort d)) (dControlURL d) credentialName (Settings existing)));
  mret cleared.

Definition Import (name : string) (d : Descriptor) (force : bool) : M bool := Update (importEntry name d force).

Definition setEntry (name target controlURL : string) (settings : option Runtime) (force : bool) : M bool :=
  if bool_decide (TrimSpace name = "") then throw EmptyProfileName
  else
    match List.find (fun pfx => Contains target pfx) secretPrefixes with
    | Some pfx => throw (TargetHoldsKey pfx)
    | None =>
        data ← load;
        let existing := default zeroEntry (Profiles data !! name) in
        '(credentialName, cleared) ← ensure (bindCredential name existing controlURL force);
        _ ← save (putEntry data name
             (mkProfile target controlURL credentialName (default (Settings existing) settings)));
        mret cleared
    end.

Definition set (name target controlURL : string) (settings : option Runtime) (force : bool) : M bool :=
  Update (setEntry name target controlURL settings force).

Definition SetProfile (name target controlURL : string) : M unit :=
  _ ← set name target controlURL None false; mret tt.

Definition Configure (name : string) (selected : Profile) (force : bool) : M bool :=
  let values := [ControlURL selected; BootstrapSSH (Settings selected); BootstrapSOCKSAddr (Settings selected);
                 Hostname (Settings selected); StateDir (Settings selected); LocalAddr (Settings selected);
                 HealthAddr (Settings selected)] in
  if existsb (fun value => existsb (Contains value) secretPrefixes) values then throw SettingsHoldKey
  else set name (Target selected) (ControlURL selected) (Some (Settings selected)) force.

Definition GetProfile (name : string) : M Profile :=
  data ← load;
  match Profiles data !! name with
  | None => throw (ErrNotFound name)
  | Some e => mret (profileFromEntry e)
  end.

Definition ListNames : M (gset string) := data ← load; mret (dom (Profiles data)).
Definition ListProfiles : M (gmap string Profile) := data ← load; mret (profileFromEntry <$> Profiles data).

(** The first other profile, in name order, that references [name] on a control
    plane other than [controlURL]. *)
Definition conflicting (data : storeFile) (profileName name controlURL other : string) : bool :=
  match Profiles data !! other with
  | Some e => negb (bool_decide (other = profileName)) && bool_decide (CredentialName e = name)
              && negb (SameControlURL (ControlURL e) controlURL)
  | None => false
  end.
Definition sharedConflict (data : storeFile) (profileName name controlURL : string) : result profile_error unit :=
  match List.find (conflicting data profileName name controlURL) (sortedKeys (Profiles data)) with
  | Some other => Err (CredentialShared name other (ControlURL (default zeroEntry (Profiles data !! other))))
  | None => Ok tt
  end.

Definition CheckCredentialShare (profileName credentialName : string) : M unit :=
  data ← load;
  match Profiles data !! profileName with
  | None => throw (ErrNotFound profileName)
  | Some entry => ensure (sharedConflict data profileName credentialName (ControlURL entry))
  end.

Definition setReference (data : storeFile) (profileName credentialName : string) (e : profileEntry) : storeFile :=
  mkStoreFile (DescriptorVersion data)
    (<[profileName := mkProfile (Target e) (ControlURL e) credentialName (Settings e)]> (Profiles data)).

Definition associate (profileName credentialName : string) : M unit :=
  if negb (ValidateName credentialName) then throw BadCredentialName
  else
    data ← load;
    match Profiles data !! profileName with
    | None => throw (ErrNotFound profileName)
    | Some entry =>
        _ ← ensure (sharedConflict data profileName credentialName (ControlURL entry));
        save (setReference data profileName credentialName entry)
    end.

Definition updateCredential (profileName credentialName : string) : M unit :=
  data ← load;
  match Profiles data !! profileName with
  | None => throw (ErrNotFound profileName)
  | Some entry => save (setReference data profileName credentialName entry)
  end.

Definition SetCredential (profileName credentialName : string) : M unit :=
  Update (associate profileName credentialName).
Definition ClearCredential (profileName : string) : M unit :=
  Update (updateCredential profileName "").

End Store.

(** * Facts *)

(** ** Invariants of the monad *)

Section Preserves.
Context (I : world -> Prop).

Definition preserves {A} (m : M A) : Prop := forall sys w, I w -> I (m sys w).2.

Lemma preserves_ret {A} (a : A) : preserves (mret a).
Proof. by intros sys w. Qed.
Lemma preserves_throw {A} e : preserves (throw (A := A) e).
Proof. by intros sys w. Qed.
Lemma preserves_ensure {A} (r : result profile_error A) : preserves (ensure r).
Proof. by intros sys w. Qed.
Lemma preserves_bind {A B} (m : M A) (f : A -> M B) :
  preserves m -> (forall a, preserves (f a)) -> preserves (m ≫= f).
Proof.
  intros Hm Hf sys w Hw. specialize (Hm sys w Hw). unfold mbind, M_bind.
  destruct (m sys w) as [[a|e] w']; [by apply Hf|done].
Qed.
Lemma preserves_attempt {A} (m : M A) : preserves m -> preserves (attempt m).
Proof. intros Hm sys w Hw. specialize (Hm sys w Hw). unfold attempt. by destruct (m sys w). Qed.
Lemma preserves_Update {A} (m : M A) :
  (forall w, I w -> I (next w)) -> preserves m -> preserves (Update m).
Proof.
  intros Hn Hm sys w Hw. unfold Update. destruct (lockAnswer sys (tick w)); cbn; auto.
  specialize (Hm sys (next w) (Hn w Hw)). destruct (m sys (next w)) as [r w']. cbn in *. auto.
Qed.
End Preserves.

Lemma preserves_bind_ensure I {A B} (r : result profile_error A) (f : A -> M B) :
  (forall a, r = Ok a -> preserves I (f a)) -> preserves I (ensure r ≫= f).
Proof. intros H sys w Hw. destruct r as [a|e]; [by apply H|done]. Qed.

Create HintDb profiles.
#[export] Hint Resolve preserves_ret preserves_throw preserves_ensure preserves_attempt : profiles.

(** The profiles a disk holds. *)
Definition onDisk (d : option storeFile) : storeFile := default (mkStoreFile 0 ∅) d.

(** A read followed by what it does with what it read, the disk being [ok]. *)
Lemma preserves_load_bind (ok : storeFile -> Prop) {B} (f : storeFile -> M B) :
  (forall data, ok data -> preserves (fun w => ok (onDisk (disk w))) (f data)) ->
  preserves (fun w => ok (onDisk (disk w))) (load ≫= f).
Proof.
  intros Hf sys w Hw. unfold mbind, M_bind, load. destruct (loadFails sys (tick w)); [done|].
  by apply Hf.
Qed.

Lemma preserves_save (ok : storeFile -> Prop) f :
  ok f -> preserves (fun w => ok (onDisk (disk w))) (save f).
Proof. intros Hf sys w Hw. unfold save. by destruct (saveFault sys (tick w)) as [[]|]. Qed.

Section Separation.
Context `{UrlPackage}.

(** No managed credential is referenced from two control planes. *)
Definition separated (data : storeFile) : Prop :=
  forall p q ep eq, Profiles data !! p = Some ep -> Profiles data !! q = Some eq ->
    CredentialName ep = CredentialName eq -> CredentialName ep <> "" ->
    SameControlURL (ControlURL ep) (ControlURL eq) = true.

Lemma bindCredential_Ok name existing url force c cleared :
  bindCredential name existing url force = Ok (c, cleared) ->
  (c = CredentialName existing /\ cleared = false /\ (c = "" \/ SameControlURL (ControlURL existing) url = true))
  \/ (c = "" /\ cleared = true /\ force = true /\ SameControlURL (ControlURL existing) url = false).
Proof.
  unfold bindCredential. destruct (decide (CredentialName existing = "")) as [Hc|Hc].
  - rewrite bool_decide_eq_true_2 by done. cbn. intros [= <- <-]. left. auto.
  - rewrite bool_decide_eq_false_2 by done. cbn. destruct (SameControlURL _ _) eqn:E.
    + intros [= <- <-]. left. auto.
    + destruct force; cbn; [|done]. intros [= <- <-]. right. auto.
Qed.

Lemma put_separated data name t url c s existing force cleared :
  separated data -> existing = default zeroEntry (Profiles data !! name) ->
  bindCredential name existing url force = Ok (c, cleared) ->
  separated (putEntry data name (mkProfile t url c s)).
Proof.
  intros Hsep Hex Hb. apply bindCredential_Ok in Hb.
  assert (Hkey : c <> "" -> exists e, Profiles data !! name = Some e /\ CredentialName e = c
                   /\ SameControlURL (ControlURL e) url = true).
  { intros Hne. destruct Hb as [(-> & _ & [Hc|Hs])|(-> & _)]; [by destruct Hne| |done]. subst existing.
    destruct (Profiles data !! name) as [e|]; cbn in *; [by exists e|by destruct Hne]. }
  assert (Hmix : forall q eq, q <> name -> Profiles data !! q = Some eq -> c = CredentialName eq -> c <> "" ->
                   SameControlURL url (ControlURL eq) = true).
  { intros q eq _ Hq Hc Hne. destruct (Hkey Hne) as (e & He & Hce & Hs).
    pose proof (Hsep name q e eq He Hq ltac:(congruence) ltac:(congruence)) as Hsq.
    rewrite !SameControlURL_spec in *. congruence. }
  intros p q ep eq. unfold putEntry. cbn. destruct (decide (p = name)) as [->|Hp], (decide (q = name)) as [->|Hq];
    rewrite ?lookup_insert_eq, ?lookup_insert_ne by done.
  - intros [= <-] [= <-] _ _. by apply SameControlURL_spec.
  - intros [= <-] Hq' Hc Hne. cbn in *. by apply (Hmix q).
  - intros Hp' [= <-] Hc Hne. cbn in *. apply SameControlURL_spec. symmetry. apply SameControlURL_spec.
    apply (Hmix p); congruence.
  - apply Hsep.
Qed.

Lemma sharedConflict_Ok data profileName name url :
  sharedConflict data profileName name url = Ok tt <->
  forall other e, Profiles data !! other = Some e -> other <> profileName -> CredentialName e = name ->
    SameControlURL (ControlURL e) url = true.
Proof.
  unfold sharedConflict. destruct (List.find _ _) as [other|] eqn:E.
  - split; [done|]. intros Hall. exfalso. apply List.find_some in E as [_ E]. unfold conflicting in E.
    destruct (Profiles data !! other) as [e|] eqn:He; [|done].
    rewrite !andb_true_iff, !negb_true_iff, bool_decide_eq_false, bool_decide_eq_true in E.
    destruct E as [[Hne Hn] Hs]. by rewrite (Hall other e) in Hs.
  - split; [|done]. intros _ other e He Hne Hn.
    assert (conflicting data profileName name url other = false) as Hc.
    { eapply (List.find_none _ _ E), list_elem_of_In, elem_of_sortedKeys. by exists e. }
    unfold conflicting in Hc. rewrite He, (bool_decide_eq_false_2 _ Hne), (bool_decide_eq_true_2 _ Hn) in Hc.
    cbn in Hc. by apply negb_false_iff in Hc.
Qed.

Lemma reference_separated data p c e :
  separated data -> Profiles data !! p = Some e ->
  (c = "" \/ sharedConflict data p c (ControlURL e) = Ok tt) ->
  separated (setReference data p c e).
Proof.
  intros Hsep He Hc.
  assert (Hmix : forall q eq, q <> p -> Profiles data !! q = Some eq -> CredentialName eq = c -> c <> "" ->
                   SameControlURL (ControlURL eq) (ControlURL e) = true).
  { intros q eq Hq Heq Hn Hne. destruct Hc as [->|Hc]; [done|]. rewrite sharedConflict_Ok in Hc. by apply (Hc q). }
  intros a b ea eb. unfold setReference. cbn. destruct (decide (a = p)) as [->|Ha], (decide (b = p)) as [->|Hb];
    rewrite ?lookup_insert_eq, ?lookup_insert_ne by done.
  - intros [= <-] [= <-] _ _. by apply SameControlURL_spec.
  - intros [= <-] Hb' Hn Hne. cbn in *. apply SameControlURL_spec. symmetry. apply SameControlURL_spec.
    by apply (Hmix b).
  - intros Ha' [= <-] Hn Hne. cbn in *. apply (Hmix a); congruence.
  - apply Hsep.
Qed.

(** ** Every write of the store keeps them separated *)

Definition store_separated (w : world) : Prop := separated (onDisk (disk w)).

Lemma separated_next w : store_separated w -> store_separated (next w).
Proof. done. Qed.

Lemma importEntry_separated name d force : preserves store_separated (importEntry name d force).
Proof.
  apply (preserves_load_bind separated). intros data Hd. apply preserves_bind_ensure. intros [c cl] Hb.
  apply preserves_bind; [|auto with profiles]. apply (preserves_save separated). by eapply put_separated.
Qed.

Lemma setEntry_separated name target url settings force :
  preserves store_separated (setEntry name target url settings force).
Proof.
  unfold setEntry. destruct (bool_decide _); [auto with profiles|]. destruct (List.find _ _); [auto with profiles|].
  apply (preserves_load_bind separated). intros data Hd. apply preserves_bind_ensure. intros [c cl] Hb.
  apply preserves_bind; [|auto with profiles]. apply (preserves_save separated). by eapply put_separated.
Qed.

Lemma associate_separated p c : preserves store_separated (associate p c).
Proof.
  unfold associate. destruct (negb _); [auto with profiles|].
  apply (preserves_load_bind separated). intros data Hd. destruct (Profiles data !! p) as [e|] eqn:He; [|auto with profiles].
  apply preserves_bind_ensure. intros [] Hc. apply (preserves_save separated).
  apply reference_separated; auto.
Qed.

Lemma clear_separated p : preserves store_separated (updateCredential p "").
Proof.
  apply (preserves_load_bind separated). intros data Hd. destruct (Profiles data !! p) as [e|] eqn:He; [|auto with profiles].
  apply (preserves_save separated). apply reference_separated; auto.
Qed.

Lemma load_separated : preserves store_separated load.
Proof. intros sys w Hw. unfold load. by destruct (loadFails sys (tick w)). Qed.

Lemma GetProfile_separated p : preserves store_separated (GetProfile p).
Proof. apply (preserves_load_bind separated). intros data Hd. destruct (_ !! p); auto with profiles. Qed.
Lemma ListProfiles_separated : preserves store_separated ListProfiles.
Proof. apply (preserves_load_bind separated). auto with profiles. Qed.
Lemma CheckCredentialShare_separated p c : preserves store_separated (CheckCredentialShare p c).
Proof. apply (preserves_load_bind separated). intros data Hd. destruct (_ !! p); auto with profiles. Qed.

Lemma credGet_separated n : preserves store_separated (credGet n).
Proof. by intros sys w Hw. Qed.
Lemma credSet_separated n k r : preserves store_separated (credSet n k r).
Proof. intros sys w Hw. unfold credSet. by destruct (Set_ _ _ _ _ _ _). Qed.
Lemma credRemove_separated n : preserves store_separated (credRemove n).
Proof. intros sys w Hw. unfold credRemove. by destruct (Remove _ _ _). Qed.

End Separation.
#[export] Hint Resolve importEntry_separated setEntry_separated associate_separated clear_separated
  load_separated GetProfile_separated ListProfiles_separated CheckCredentialShare_separated
  credGet_separated credSet_separated credRemove_separated separated_next : profiles.
