(* ===== verification/Iptables.v ===== *)
(** Reading `iptables -S` output (src/internal/host/linux_steps.go): the rule
    tokenizer, the first-match decision for a TCP port, and the classification
    of the rules setup wrote before and after it scoped them to the tailnet.

    Everything here is a pure function of the printed rules; the commands that
    print them are in LinuxFirewall. *)
From S2P Require Import Prelude GoStrings GoNet.
From Stdlib Require Import Ascii.

Open Scope bool_scope.

Definition protoTCP := "tcp".
Definition iptAccept := "ACCEPT".
Definition iptInput := "INPUT".
Definition iptDport := "--dport".
Definition tsInputChain := "ts-input".
Definition tsInputJump : list string := ["-A"; iptInput; "-j"; tsInputChain].
(** The interface tailscaled creates. *)
Definition tailnetInterface := "tailscale0".

(** The answer of a firewall read for one port. *)
Inductive ruleState : Type := ruleUnknown | ruleAbsent | rulePresent | ruleBlocked.
#[export] Instance ruleState_eq_dec : EqDecision ruleState.
Proof. solve_decision. Defined.

(** * Cutting the output into rules *)

(** One byte of [iptRules]'s loop: the two flags and the byte written back. *)
Definition iptRulesByte (quoted escaped : bool) (c : ascii) : bool * bool * ascii :=
  if escaped then (quoted, false, if eqc c nl then " "%char else c)
  else if quoted && eqc c bslash then (quoted, true, c)
  else if eqc c dquote then (negb quoted, false, c)
  else if quoted && eqc c nl then (quoted, false, " "%char)
  else (quoted, escaped, c).

Fixpoint iptRulesLoop (quoted escaped : bool) (s : string) : bool * string :=
  match s with
  | "" => (quoted, "")
  | String c r =>
      let '(q, e, c') := iptRulesByte quoted escaped c in
      let '(qend, r') := iptRulesLoop q e r in (qend, String c' r')
  end.

(** A newline inside a quoted value becomes a space; an output that ends inside
    a quote is returned as printed. *)
Definition iptRules (out : string) : string :=
  let '(quoted, b) := iptRulesLoop false false out in
  if quoted then out else b.

(** [iptQuoted] is the regular expression for a quoted value. [quoted_end s] is
    what follows the match that starts just before [s], when there is one. *)
Fixpoint quoted_end (s : string) : option string :=
  match s with
  | "" => None
  | String c r =>
      if eqc c dquote then Some r
      else if eqc c bslash then
        match r with
        | String d r' => if eqc d nl then None else quoted_end r'
        | "" => None
        end
      else quoted_end r
  end.

Fixpoint blankQuoted_go (fuel : nat) (s : string) : string :=
  match fuel, s with
  | S f, String c r =>
      if eqc c dquote then
        match quoted_end r with
        | Some rest => String dquote (String dquote (blankQuoted_go f rest))
        | None => String c (blankQuoted_go f r)
        end
      else String c (blankQuoted_go f r)
  | _, _ => ""
  end.
(** [iptQuoted.ReplaceAllString(line, two quotes)]; every step consumes a byte. *)
Definition blankQuoted (line : string) : string := blankQuoted_go (len line) line.

(** The fields of a rule line with its quoted values blanked. *)
Definition ruleFields (line : string) : list string := Fields (blankQuoted line).

(** * Flags of one rule *)

(** The value of [flag] in [f], or the empty string when absent or negated. *)
Definition iptFlag (f : list string) (flag : string) : string :=
  match word_index flag f with
  | None => ""
  | Some i =>
      let negated := match i with O => false | S j => bool_decide (f !! j = Some "!") end in
      if negated then "" else default "" (f !! S i)
  end.

Definition iptLoopbackScope (flag value : string) : bool :=
  if bool_decide (flag = "-i") then bool_decide (value = "lo") || bool_decide (value = "lo+")
  else if bool_decide (flag = "-s") || bool_decide (flag = "-d") then
    match ParsePrefix value with
    | Some (a, _) => IsLoopback a
    | None => false
    end
  else false.

(** The loop of [iptLoopback]; [neg] says whether the word before is [!]. *)
Fixpoint iptLoopback_go (neg : bool) (f : list string) : bool :=
  match f with
  | w :: ((v :: _) as r) =>
      (negb neg && iptLoopbackScope w v) || iptLoopback_go (bool_decide (w = "!")) r
  | _ => false
  end.
Definition iptLoopback (f : list string) : bool := iptLoopback_go false f.

Definition iptIf (ok : bool) (n : nat) : nat := if ok then n else 0%nat.

(** How many fields the qualifier at the head of [f] spans when it leaves a
    rule open to every TCP port; 0 when it narrows the rule. *)
Definition iptPortlessToken (f : list string) : nat :=
  match f with
  | w :: v :: r =>
      if bool_decide (w = "-j") || bool_decide (w = "--reject-with") then 2%nat
      else if bool_decide (w = "-p") || bool_decide (w = "-m") then
        iptIf (bool_decide (v = protoTCP) || (bool_decide (w = "-m") && bool_decide (v = "comment"))) 2
      else if contains_word ["--comment"; "-i"; "-s"; "-d"] w then 2%nat
      else if bool_decide (w = "--tcp-flags") then
        iptIf (bool_decide (v = "FIN,SYN,RST,ACK") && bool_decide (head r = Some "SYN")) 3
      else if bool_decide (w = "!") then
        match r with
        | x :: _ => iptIf (iptLoopbackScope v x) 3
        | [] => 0%nat
        end
      else 0%nat
  | _ => 0%nat
  end.

Fixpoint iptPortlessCovers_go (fuel : nat) (f : list string) : bool :=
  match f with
  | [] => true
  | _ =>
      match fuel with
      | O => false
      | S fuel' =>
          match iptPortlessToken f with
          | O => false
          | n => iptPortlessCovers_go fuel' (drop n f)
          end
      end
  end.
(** A token spans at least two fields, so [length f] rounds are enough. *)
Definition iptPortlessCovers (f : list string) : bool :=
  iptPortlessCovers_go (length f) (drop 2 f).

(** A ufw or iptables port list: [3389], [22,3389], [3380:3390]. *)
Definition portListHas (list : string) (port : Z) : bool :=
  existsb (fun p =>
    let '(lo, hi0, isRange) := Cut ":" p in
    let hi := if (isRange : bool) then hi0 else lo in
    match Atoi lo, Atoi hi with
    | Some a, Some b => (a <=? port)%Z && (port <=? b)%Z
    | _, _ => false
    end) (Split "," list).

Definition iptDestPortFlags : list string := [iptDport; "--dports"; "--ports"].
Definition iptPortFlags : list string := iptDestPortFlags ++ ["--sport"; "--sports"].

Definition iptPortCovers (f : list string) (port : Z) : bool :=
  bool_decide (iptFlag f "-p" = protoTCP)
  && existsb (fun flag => portListHas (iptFlag f flag) port) iptDestPortFlags.

Definition iptMatchesPort (f : list string) (port : Z) : bool :=
  if existsb (contains_word iptPortFlags) f then iptPortCovers f port
  else iptPortlessCovers f.

Definition iptScopeFlags : list string := ["-i"; "-s"; "-d"; "!"].
Definition iptHasScope (f : list string) : bool := existsb (contains_word iptScopeFlags) f.

(** * The decision *)

(** The body of [iptablesDecide]'s loop: [None] means the line does not decide. *)
Definition iptDecideLine (line : string) (port : Z) : option (ruleState * string) :=
  let f := ruleFields line in
  if (length f <? 2)%nat || negb (bool_decide (head f = Some "-A")) || iptLoopback f
     || negb (iptMatchesPort f port)
  then None
  else
    let target := iptFlag f "-j" in
    if bool_decide (target = iptAccept) then Some (rulePresent, "")
    else if (bool_decide (target = "DROP") || bool_decide (target = "REJECT"))
            && negb (iptHasScope f)
         then Some (ruleBlocked, TrimSpace line)
         else None.

Fixpoint iptDecideLines (lines : list string) (port : Z) : ruleState * string :=
  match lines with
  | [] => (ruleAbsent, "")
  | line :: r => match iptDecideLine line port with Some d => d | None => iptDecideLines r port end
  end.

(** Chain order, first deciding rule. *)
Definition iptablesDecide (rules : string) (port : Z) : ruleState * string :=
  iptDecideLines (Split nl rules) port.

Definition iptablesCovers (rules : string) (port : Z) : bool :=
  bool_decide ((iptablesDecide rules port).1 = rulePresent).

(** * Rules setup writes *)

Definition iptablesAppend (port : Z) : list string :=
  ["-A"; iptInput; "-i"; tailnetInterface; "-p"; protoTCP; iptDport; Itoa port; "-j"; iptAccept].
Definition iptablesLegacy (port : Z) : list string :=
  ["-A"; iptInput; "-p"; protoTCP; iptDport; Itoa port; "-j"; iptAccept].
Definition iptablesDelete (port : Z) : list string := "-D" :: tail (iptablesLegacy port).

(** [slices.Insert] of two words at [i]. *)
Definition insert_at {A} (i : nat) (ws l : list A) : list A := take i l ++ ws ++ drop i l.

(** A rule setup writes, as iptables prints it back: [-p tcp] gains [-m tcp].
    [slices.Index] gives -1 for a rule without [-p]; no rule setup writes is. *)
Definition iptPrinted (rule : list string) : list string :=
  let i := match word_index "-p" rule with Some i => (i + 2)%nat | None => 1%nat end in
  insert_at i ["-m"; default "" (rule !! pred i)] rule.

Definition is_legacy_line (port : Z) (line : string) : bool :=
  bool_decide (Fields line = iptPrinted (iptablesLegacy port)).

Definition iptWithoutLegacy (rules : string) (port : Z) : string :=
  Join (delete_func (is_legacy_line port) (Split nl rules)) newline.

Definition iptLegacyCopies (rules : string) (port : Z) : nat :=
  length (List.filter (is_legacy_line port) (Split nl rules)).

Definition is_unscoped_line (port : Z) (line : string) : bool :=
  let f := ruleFields line in
  (1 <? length f)%nat && bool_decide (head f = Some "-A") && bool_decide (f !! 1%nat = Some iptInput)
  && bool_decide (iptFlag f "-j" = iptAccept) && iptPortCovers f port
  && negb (iptLoopback f) && negb (iptHasScope f).

(** The INPUT rules that accept [port] with no interface, source or destination. *)
Definition iptUnscoped (input : string) (port : Z) : list string :=
  map TrimSpace (List.filter (is_unscoped_line port) (Split nl input)).

Definition iptAcceptOffTailnet (line : string) : bool :=
  let f := ruleFields line in
  if negb (bool_decide (iptFlag f "-j" = iptAccept)) then false
  else
    let i := iptFlag f "-i" in
    (negb (bool_decide (i = "")) && negb (bool_decide (i = tailnetInterface)))
    || negb (bool_decide (iptFlag f "-s" = "")) || negb (bool_decide (iptFlag f "-d" = "")).

(** The unscoped allows setup did not write, and whether a scoped rule admits
    the port without them. *)
Definition iptUnscopedRead (input walked : string) (port : Z) (state : ruleState)
    : list string * bool :=
  let unscoped := iptUnscoped input port in
  let foreign := delete_func (is_legacy_line port) unscoped in
  let rest := delete_func (fun line =>
                contains_word unscoped (TrimSpace line) || iptAcceptOffTailnet line)
                (Split nl walked) in
  (foreign, bool_decide (state = rulePresent) && iptablesCovers (Join rest newline) port).

(** * The ts-input chain *)

Definition iptTSInputJump (line : string) : bool := bool_decide (Fields line = tsInputJump).

(** The chain's rules in place of each unqualified jump to it. *)
Definition iptInlineChain (input chain : string) : string :=
  Join (map (fun line => if iptTSInputJump line then trim_right (fun c => eqc c nl) chain else line)
            (Split nl input)) newline.

(** The inner loop of [iptBeforeQualifiedJump]: a [-j] or [-g] to ts-input. *)
Fixpoint jumps_to_tsinput (f : list string) : bool :=
  match f with
  | w :: ((v :: _) as r) =>
      ((bool_decide (w = "-j") || bool_decide (w = "-g")) && bool_decide (v = tsInputChain))
      || jumps_to_tsinput r
  | _ => false
  end.

Definition qualified_jump (line : string) : bool :=
  let f := ruleFields line in
  negb (iptTSInputJump line || (length f <? 2)%nat || negb (bool_decide (head f = Some "-A")))
  && jumps_to_tsinput (drop 2 f).

(** The lines before the first qualified jump, and the jump itself. *)
Fixpoint before_qualified (lines : list string) : list string * option string :=
  match lines with
  | [] => ([], None)
  | line :: r =>
      if qualified_jump line then ([], Some line)
      else let '(pre, j) := before_qualified r in (line :: pre, j)
  end.

Definition iptBeforeQualifiedJump (input : string) : string * string :=
  match before_qualified (Split nl input) with
  | (pre, Some line) => (Join pre newline, TrimSpace line)
  | (_, None) => (input, "")
  end.

(** * Facts *)

(** ** Tokenizing *)

Lemma blankQuoted_id s : no_byte dquote s = true -> blankQuoted s = s.
Proof.
  unfold blankQuoted, no_byte, len. induction s as [|c s IH]; cbn; [done|].
  rewrite andb_true_iff, negb_true_iff. intros [-> H]. by rewrite IH.
Qed.

Lemma iptRulesLoop_app q e a b :
  iptRulesLoop q e (a +:+ b) =
  let '(q1, e1) := fold_left (fun '(q, e) c => let '(q', e', _) := iptRulesByte q e c in (q', e'))
                     (String.list_ascii_of_string a) (q, e) in
  let '(qa, a') := iptRulesLoop q e a in
  let '(qb, b') := iptRulesLoop q1 e1 b in (qb, a' +:+ b').
Proof.
  revert q e. induction a as [|c a IH]; intros q e; cbn.
  - by destruct (iptRulesLoop q e b).
  - destruct (iptRulesByte q e c) as [[q' e'] c'] eqn:E. rewrite IH.
    destruct (fold_left _ _ (q', e')) as [q1 e1].
    destruct (iptRulesLoop q' e' a) as [qa a'].
    by destruct (iptRulesLoop q1 e1 b).
Qed.

Lemma iptRulesByte_inv q e c q' e' c' :
  iptRulesByte q e c = (q', e', c') -> (e = true -> q = true) -> e' = true -> q' = true.
Proof.
  unfold iptRulesByte. intros E He.
  destruct e, q, (eqc c bslash), (eqc c dquote), (eqc c nl);
    cbn in E; injection E as <- <- <-; try done; intros; (reflexivity || discriminate || (exfalso; by specialize (He eq_refl))).
Qed.

(** The state the loop ends in: escaped only inside quotes. *)
Lemma iptRulesLoop_state q e a :
  (e = true -> q = true) ->
  exists e1, fold_left (fun '(q, e) c => let '(q', e', _) := iptRulesByte q e c in (q', e'))
               (String.list_ascii_of_string a) (q, e) = ((iptRulesLoop q e a).1, e1)
             /\ (e1 = true -> (iptRulesLoop q e a).1 = true).
Proof.
  revert q e. induction a as [|c a IH]; intros q e He; cbn; [eauto|].
  destruct (iptRulesByte q e c) as [[q' e'] c'] eqn:E.
  pose proof (iptRulesByte_inv _ _ _ _ _ _ E He) as He'.
  destruct (IH q' e' He') as (e1 & -> & H). exists e1.
  by destruct (iptRulesLoop q' e' a).
Qed.

Lemma iptRulesLoop_plain q e s :
  no_byte dquote s = true -> (e = true -> q = true) ->
  exists s', iptRulesLoop q e s = (q, s') /\ (q = false -> s' = s).
Proof.
  unfold no_byte. revert e. induction s as [|c s IH]; intros e; cbn; [eauto|].
  rewrite andb_true_iff, negb_true_iff. intros [Hc Hs] He.
  destruct (iptRulesByte q e c) as [[q' e'] c'] eqn:E.
  assert (q' = q /\ (e' = true -> q' = true) /\ (q = false -> c' = c)) as (-> & He' & Hc').
  { unfold iptRulesByte in E. rewrite Hc in E.
    destruct e, q, (eqc c bslash), (eqc c nl); cbn in E; injection E as <- <- <-;
      (split; [done|split; [done|]]); try done; intros; exfalso; by specialize (He eq_refl). }
  destruct (IH e' Hs He') as (s' & -> & Hs'). eexists. split; [done|].
  intros Hq. by rewrite Hc', Hs'.
Qed.

(** Text with no quote after the output is kept as it is printed. *)
Lemma iptRules_app out s :
  no_byte dquote s = true -> iptRules (out +:+ s) = iptRules out +:+ s.
Proof.
  intros Hs. unfold iptRules. rewrite iptRulesLoop_app.
  destruct (iptRulesLoop_state false false out ltac:(done)) as (e1 & -> & He).
  destruct (iptRulesLoop false false out) as [q b]. cbn in *.
  destruct (iptRulesLoop_plain q e1 s Hs He) as (s' & -> & Hs').
  destruct q; [done|]. by rewrite Hs'.
Qed.

(** Cutting the output never changes its length, and it is idempotent on output
    that holds no quote. *)
Lemma iptRulesLoop_len q e s : len (iptRulesLoop q e s).2 = len s.
Proof.
  unfold len. revert q e. induction s as [|c s IH]; intros q e; cbn; [done|].
  destruct (iptRulesByte q e c) as [[q' e'] c']. specialize (IH q' e').
  destruct (iptRulesLoop q' e' s). cbn in *. by rewrite IH.
Qed.

(** ** The decision is that of the first deciding line *)

Lemma iptDecideLines_app l1 l2 port :
  Forall (fun l => iptDecideLine l port = None) l1 ->
  iptDecideLines (l1 ++ l2) port = iptDecideLines l2 port.
Proof. induction 1 as [|l l1 Hl _ IH]; cbn; [done|]. by rewrite Hl. Qed.

Lemma iptDecideLine_not_absent line port d : iptDecideLine line port = Some d -> d.1 = rulePresent \/ d.1 = ruleBlocked.
Proof. unfold iptDecideLine. intros H. repeat case_match; naive_solver. Qed.

Lemma iptDecideLines_absent lines port :
  (iptDecideLines lines port).1 = ruleAbsent <-> Forall (fun l => iptDecideLine l port = None) lines.
Proof.
  induction lines as [|l lines IH]; cbn; [by split|]. rewrite Forall_cons.
  destruct (iptDecideLine l port) as [d|] eqn:E.
  - apply iptDecideLine_not_absent in E.
    split; [intros H; destruct E; congruence|by intros [? _]].
  - rewrite IH. split; [by split|by intros [_ ?]].
Qed.

Lemma iptDecideLines_first lines port d :
  d.1 <> ruleAbsent ->
  iptDecideLines lines port = d <->
  exists pre l post, lines = pre ++ l :: post
    /\ Forall (fun x => iptDecideLine x port = None) pre /\ iptDecideLine l port = Some d.
Proof.
  intros Hd. split.
  - induction lines as [|l lines IH]; cbn; [by intros <-|].
    destruct (iptDecideLine l port) as [d'|] eqn:E.
    + intros <-. exists [], l, lines. by repeat split.
    + intros H. destruct (IH H) as (pre & l' & post & -> & Hpre & Hl).
      exists (l :: pre), l', post. split; [done|]. split; [by constructor|done].
  - intros (pre & l & post & -> & Hpre & Hl). rewrite iptDecideLines_app by done. cbn. by rewrite Hl.
Qed.

Lemma iptDecideLine_empty port : iptDecideLine "" port = None.
Proof. done. Qed.

(** ** The rules setup writes *)

Lemma portListHas_Itoa p q : (0 <= p <= max_int64)%Z -> portListHas (Itoa p) q = (p =? q)%Z.
Proof.
  intros Hp. pose proof (Itoa_all_digits p ltac:(lia)) as Hd.
  unfold portListHas. rewrite Split_no_byte by (by apply digits_no_byte). cbn.
  rewrite Cut_no_byte by (by apply digits_no_byte). cbv beta iota.
  rewrite Atoi_Itoa by (destruct Hp; split; [unfold min_int64; lia|done]).
  destruct (Z.eqb_spec p q) as [->|Hne]; rewrite orb_false_r.
  - by rewrite Z.leb_refl.
  - apply andb_false_iff. rewrite !Z.leb_gt. lia.
Qed.

Definition printed_line (rule : list string) : string := Join (iptPrinted rule) " ".

Lemma iptPrinted_append port :
  iptPrinted (iptablesAppend port) =
  ["-A"; "INPUT"; "-i"; "tailscale0"; "-p"; "tcp"; "-m"; "tcp"; "--dport"; Itoa port; "-j"; "ACCEPT"].
Proof. done. Qed.
Lemma iptPrinted_legacy port :
  iptPrinted (iptablesLegacy port) =
  ["-A"; "INPUT"; "-p"; "tcp"; "-m"; "tcp"; "--dport"; Itoa port; "-j"; "ACCEPT"].
Proof. done. Qed.

Section SetupRules.
Context (port : Z) (Hport : (0 <= port <= max_int64)%Z).

(** A rule is its fixed words around the port's digits. *)
Lemma words_around_port a b :
  forallb is_word (a ++ b) = true ->
  Fields (Join (a ++ Itoa port :: b) " ") = a ++ Itoa port :: b.
Proof using Hport.
  rewrite forallb_app, andb_true_iff, !List.forallb_forall. intros [Ha Hb].
  apply Fields_Join. apply Forall_forall. intros w. rewrite elem_of_app, elem_of_cons, !list_elem_of_In.
  intros [?|[->|?]]; [by apply Ha|apply Itoa_word; lia|by apply Hb].
Qed.
Lemma no_byte_around_port c a b :
  is_digit c = false -> no_byte c " " = true -> forallb (no_byte c) (a ++ b) = true ->
  no_byte c (Join (a ++ Itoa port :: b) " ") = true.
Proof using Hport.
  intros Hc Hs. rewrite forallb_app, andb_true_iff, !List.forallb_forall. intros [Ha Hb].
  apply no_byte_Join; [done|]. apply Forall_forall. intros w.
  rewrite elem_of_app, elem_of_cons, !list_elem_of_In.
  intros [?|[->|?]]; [by apply Ha| |by apply Hb].
  apply digits_no_byte; [done|]. apply Itoa_all_digits. lia.
Qed.

Definition append_head : list string := ["-A"; "INPUT"; "-i"; "tailscale0"; "-p"; "tcp"; "-m"; "tcp"; "--dport"].
Definition legacy_head : list string := ["-A"; "INPUT"; "-p"; "tcp"; "-m"; "tcp"; "--dport"].

Lemma append_line_fields : Fields (printed_line (iptablesAppend port)) = iptPrinted (iptablesAppend port).
Proof using Hport. by apply (words_around_port append_head ["-j"; "ACCEPT"]). Qed.
Lemma legacy_line_fields : Fields (printed_line (iptablesLegacy port)) = iptPrinted (iptablesLegacy port).
Proof using Hport. by apply (words_around_port legacy_head ["-j"; "ACCEPT"]). Qed.
Lemma append_line_no_byte b :
  b = dquote \/ b = nl -> no_byte b (printed_line (iptablesAppend port)) = true.
Proof using Hport. intros [-> | ->]; by apply (no_byte_around_port _ append_head ["-j"; "ACCEPT"]). Qed.
Lemma legacy_line_no_byte b :
  b = dquote \/ b = nl -> no_byte b (printed_line (iptablesLegacy port)) = true.
Proof using Hport. intros [-> | ->]; by apply (no_byte_around_port _ legacy_head ["-j"; "ACCEPT"]). Qed.

Lemma append_ruleFields : ruleFields (printed_line (iptablesAppend port)) = iptPrinted (iptablesAppend port).
Proof using Hport.
  unfold ruleFields. rewrite blankQuoted_id by (apply append_line_no_byte; by left).
  apply append_line_fields.
Qed.
Lemma legacy_ruleFields : ruleFields (printed_line (iptablesLegacy port)) = iptPrinted (iptablesLegacy port).
Proof using Hport.
  unfold ruleFields. rewrite blankQuoted_id by (apply legacy_line_no_byte; by left).
  apply legacy_line_fields.
Qed.
End SetupRules.

(** The two rules with any word in the port's place. *)
Definition append_words (w : string) : list string := append_head ++ [w; "-j"; "ACCEPT"].
Definition legacy_words (w : string) : list string := legacy_head ++ [w; "-j"; "ACCEPT"].

Lemma append_words_read w :
  digit_word w ->
  iptLoopback (append_words w) = false
  /\ existsb (contains_word iptPortFlags) (append_words w) = true
  /\ iptFlag (append_words w) "-p" = protoTCP /\ iptFlag (append_words w) "-j" = iptAccept
  /\ map (iptFlag (append_words w)) iptDestPortFlags = [w; ""; ""].
Proof. intros H. digit_cases H; vm_compute; repeat split. Qed.

Lemma legacy_words_read w :
  digit_word w ->
  iptLoopback (legacy_words w) = false
  /\ existsb (contains_word iptPortFlags) (legacy_words w) = true
  /\ iptHasScope (legacy_words w) = false
  /\ iptFlag (legacy_words w) "-p" = protoTCP /\ iptFlag (legacy_words w) "-j" = iptAccept
  /\ map (iptFlag (legacy_words w)) iptDestPortFlags = [w; ""; ""].
Proof. intros H. digit_cases H; vm_compute; repeat split. Qed.

Lemma iptPortCovers_dport f port q :
  (0 <= port <= max_int64)%Z ->
  iptFlag f "-p" = protoTCP -> map (iptFlag f) iptDestPortFlags = [Itoa port; ""; ""] ->
  iptPortCovers f q = (port =? q)%Z.
Proof.
  intros Hp Hproto Hd. unfold iptPortCovers. rewrite Hproto, bool_decide_eq_true_2 by done.
  cbn in Hd. injection Hd as H1 H2 H3. cbn. rewrite H1, H2, H3, portListHas_Itoa by done.
  change (portListHas "" q) with false. by rewrite !orb_false_r.
Qed.

Section SetupRuleDecisions.
Context (port q : Z) (Hport : (0 <= port <= max_int64)%Z).

(** The rule setup appends admits exactly its own port, and so did the one it
    appended before it was scoped. *)
Lemma append_line_decides :
  iptDecideLine (printed_line (iptablesAppend port)) q =
  if (port =? q)%Z then Some (rulePresent, "") else None.
Proof using Hport.
  unfold iptDecideLine. rewrite append_ruleFields by done.
  change (iptPrinted (iptablesAppend port)) with (append_words (Itoa port)).
  destruct (append_words_read (Itoa port)) as (Hl & Hf & Hp & Hj & Hd); [apply Itoa_digit_word; lia|].
  unfold iptMatchesPort. rewrite Hl, Hf, Hj, (iptPortCovers_dport _ port) by done.
  cbn. by destruct (port =? q)%Z.
Qed.

Lemma legacy_line_decides :
  iptDecideLine (printed_line (iptablesLegacy port)) q =
  if (port =? q)%Z then Some (rulePresent, "") else None.
Proof using Hport.
  unfold iptDecideLine. rewrite legacy_ruleFields by done.
  change (iptPrinted (iptablesLegacy port)) with (legacy_words (Itoa port)).
  destruct (legacy_words_read (Itoa port)) as (Hl & Hf & Hs & Hp & Hj & Hd); [apply Itoa_digit_word; lia|].
  unfold iptMatchesPort. rewrite Hl, Hf, Hj, (iptPortCovers_dport _ port) by done.
  cbn. by destruct (port =? q)%Z.
Qed.
End SetupRuleDecisions.
