(* ===== verification/Ufw.v ===== *)
(** Reading `ufw show added` (src/internal/host/linux_steps.go): which of the
    user's rules decides a TCP port. *)
From S2P Require Import Prelude GoStrings Iptables.
From Stdlib Require Import Ascii.

Open Scope bool_scope.

(** The words before a [comment] keyword. *)
Definition strip_comment (f : list string) : list string :=
  match word_index "comment" f with Some i => take i f | None => f end.

(** A rule scoped by source, interface or destination address. *)
Definition ufwScoped (f : list string) : bool :=
  if contains_word f "from" || contains_word f "on" then true
  else match word_index "to" f with
       | Some t => match f !! S t with Some v => negb (bool_decide (v = "any")) | None => false end
       | None => false
       end.

Definition ufwProtoTCP (f : list string) : bool :=
  match word_index "proto" f with
  | None => true
  | Some j => bool_decide (f !! S j = Some protoTCP)
  end.

(** The destination [port] keyword: the one after [to]. *)
Definition destPortIndex (f : list string) : option nat :=
  match word_index "to" f with
  | Some t => (fun i => (t + i)%nat) <$> word_index "port" (drop t f)
  | None => if contains_word f "from" then None else word_index "port" f
  end.

Definition ufwRuleMatchesPort (f0 : list string) (port : Z) : bool :=
  let f1 := strip_comment f0 in
  let f2 := delete_func (fun w => bool_decide (w = "log") || bool_decide (w = "log-all")) f1 in
  let f := match f2 with [w; x] => if bool_decide (w = "in") then [x] else f2 | _ => f2 end in
  match f with
  | [x] =>
      let '(ports, proto, _) := Cut "/" x in
      (bool_decide (proto = "") || bool_decide (proto = protoTCP)) && portListHas ports port
  | _ =>
      match destPortIndex f with
      | None => negb (contains_word f "port") && negb (contains_word f "app") && ufwProtoTCP f
      | Some i =>
          match f !! S i with
          | Some list => portListHas list port && ufwProtoTCP f
          | None => false
          end
      end
  end.

(** The body of [ufwDecide]'s loop. *)
Definition ufwDecideLine (line : string) (port : Z) : option (ruleState * string) :=
  let f := strip_comment (Fields line) in
  if (length f <? 3)%nat || negb (bool_decide (head f = Some "ufw")) || contains_word f "out"
     || negb (ufwRuleMatchesPort (drop 2 f) port)
  then None
  else match f !! 1%nat with
       | Some "allow" => Some (rulePresent, "")
       | Some "deny" | Some "reject" =>
           if ufwScoped f then None else Some (ruleBlocked, TrimSpace line)
       | _ => None
       end.

Fixpoint ufwDecideLines (lines : list string) (port : Z) : ruleState * string :=
  match lines with
  | [] => (ruleAbsent, "")
  | line :: r => match ufwDecideLine line port with Some d => d | None => ufwDecideLines r port end
  end.

Definition ufwDecide (added : string) (port : Z) : ruleState * string :=
  ufwDecideLines (Split nl added) port.

Definition ufwAllows (added : string) (port : Z) : bool :=
  bool_decide ((ufwDecide added port).1 = rulePresent).

(** What setup asks ufw to allow, and the line ufw lists for it. *)
Definition ufwAllowArg (port : Z) : string := Itoa port +:+ "/tcp".
Definition ufwAllowLine (port : Z) : string := "ufw allow " +:+ ufwAllowArg port.

(** * Facts *)

Lemma ufwDecideLines_app l1 l2 port :
  Forall (fun l => ufwDecideLine l port = None) l1 ->
  ufwDecideLines (l1 ++ l2) port = ufwDecideLines l2 port.
Proof. induction 1 as [|l l1 Hl _ IH]; cbn; [done|]. by rewrite Hl. Qed.

Lemma ufwDecideLine_not_absent line port d : ufwDecideLine line port = Some d -> d.1 = rulePresent \/ d.1 = ruleBlocked.
Proof. unfold ufwDecideLine. intros H. repeat case_match; naive_solver. Qed.

Lemma ufwDecideLines_absent lines port :
  (ufwDecideLines lines port).1 = ruleAbsent <-> Forall (fun l => ufwDecideLine l port = None) lines.
Proof.
  induction lines as [|l lines IH]; cbn; [by split|]. rewrite Forall_cons.
  destruct (ufwDecideLine l port) as [d|] eqn:E.
  - apply ufwDecideLine_not_absent in E.
    split; [intros H; destruct E; congruence|by intros [? _]].
  - rewrite IH. split; [by split|by intros [_ ?]].
Qed.

Lemma ufwDecideLines_first lines port d :
  d.1 <> ruleAbsent ->
  ufwDecideLines lines port = d <->
  exists pre l post, lines = pre ++ l :: post
    /\ Forall (fun x => ufwDecideLine x port = None) pre /\ ufwDecideLine l port = Some d.
Proof.
  intros Hd. split.
  - induction lines as [|l lines IH]; cbn; [by intros <-|].
    destruct (ufwDecideLine l port) as [d'|] eqn:E.
    + intros <-. exists [], l, lines. by repeat split.
    + intros H. destruct (IH H) as (pre & l' & post & -> & Hpre & Hl).
      exists (l :: pre), l', post. split; [done|]. split; [by constructor|done].
  - intros (pre & l & post & -> & Hpre & Hl). rewrite ufwDecideLines_app by done. cbn. by rewrite Hl.
Qed.

Section AllowLine.
Context (port q : Z) (Hport : (0 <= port <= max_int64)%Z).

Lemma ufwAllowLine_fields : Fields (ufwAllowLine port) = ["ufw"; "allow"; ufwAllowArg port].
Proof using Hport.
  change (ufwAllowLine port) with (Join ["ufw"; "allow"; ufwAllowArg port] " ").
  apply Fields_Join. repeat constructor; [done..|].
  unfold ufwAllowArg, is_word.
  pose proof (Itoa_word port ltac:(lia)) as Hw. unfold is_word in Hw.
  apply andb_true_iff in Hw as [Hne Hsp]. apply negb_true_iff in Hne, Hsp.
  apply bool_decide_eq_false in Hne. rewrite andb_true_iff, !negb_true_iff. split.
  - apply bool_decide_eq_false. by destruct (Itoa port).
  - revert Hsp. clear. induction (Itoa port) as [|c s IH]; [done|]. cbn.
    rewrite !orb_false_iff. intros [-> ?]. auto.
Qed.

(** The rule setup adds through ufw allows exactly its own port. *)
Lemma ufwAllowLine_decides :
  ufwDecideLine (ufwAllowLine port) q = if (port =? q)%Z then Some (rulePresent, "") else None.
Proof using Hport.
  unfold ufwDecideLine. rewrite ufwAllowLine_fields.
  assert (Hm : ufwRuleMatchesPort [ufwAllowArg port] q = (port =? q)%Z).
  { unfold ufwRuleMatchesPort. assert (forall w, digit_word w ->
      delete_func (fun w => bool_decide (w = "log") || bool_decide (w = "log-all"))
        (strip_comment [w +:+ "/tcp"]) = [w +:+ "/tcp"]) as E.
    { intros w H. digit_cases H; vm_compute; reflexivity. }
    unfold ufwAllowArg. rewrite E by (apply Itoa_digit_word; lia). cbv beta iota zeta.
    rewrite (Cut_app "/" (Itoa port) "tcp") by (apply digits_no_byte; [done|apply Itoa_all_digits; lia]).
    by rewrite portListHas_Itoa. }
  assert (forall w, digit_word w -> strip_comment ["ufw"; "allow"; w +:+ "/tcp"] = ["ufw"; "allow"; w +:+ "/tcp"]
            /\ contains_word ["ufw"; "allow"; w +:+ "/tcp"] "out" = false) as E.
  { intros w H. digit_cases H; vm_compute; done. }
  destruct (E (Itoa port)) as [E1 E2]; [apply Itoa_digit_word; lia|].
  unfold ufwAllowArg in *. rewrite E1, E2. cbn [length Nat.ltb Nat.leb head drop].
  rewrite Hm. cbn. by destruct (port =? q)%Z.
Qed.
End AllowLine.

Example ufw_33890_is_not_3389 :
  map (fun l => (ufwDecide l 3389).1)
    ["ufw allow 33890/tcp"; "ufw allow 22,3389/tcp"; "ufw allow 3380:3390/tcp"; "ufw deny 3389";
     "ufw deny from 10.0.0.0/8 to any port 3389"; "ufw allow from 10.0.0.0/8 to any port 3389 proto tcp";
     "ufw route allow 3389/tcp"; "ufw limit 3389/tcp"; "ufw allow 3389/udp"]
  = [ruleAbsent; rulePresent; rulePresent; ruleBlocked; ruleAbsent; rulePresent; ruleAbsent; ruleAbsent; ruleAbsent].
Proof. vm_compute. reflexivity. Qed.
