(* ===== verification/HostRunner.v ===== *)
(** The host package's [Runner] interface (src/internal/host/step.go) as an
    effect signature, and the steps as programs over it.

    A step is a tree of calls to the runner: [Ret] a value or [Vis] a call and
    the continuation on its answer. The runner itself (the commands of the
    host) is a handler, a parameter; properties of which calls a step may make
    are properties of the tree, and hold for every handler. *)
From S2P Require Import Prelude GoStrings.

(** A command failure: its text, the standard error an [exec.ExitError]
    carries, and whether it says the file does not exist. *)
Record exec_error : Type := mkExecError {
  err_text : string;
  err_stderr : option string;
  err_not_exist : bool;
}.

(** The methods of [Runner], each with the type of its answer. [Output] gives
    the bytes printed even when the command failed. *)
Inductive call : Type -> Type :=
  | Run (name : string) (args : list string) : call (option exec_error)
  | Output (name : string) (args : list string) : call (string * option exec_error)
  | LookPath (name : string) : call (option exec_error)
  | Elevated : call bool
  | ReadFile (path : string) : call (result exec_error string)
  | WriteFile (path data : string) : call (option exec_error).

Inductive prog (A : Type) : Type :=
  | Ret (a : A)
  | Vis {X : Type} (c : call X) (k : X -> prog A).
Arguments Ret {A} a.
Arguments Vis {A X} c k.

Fixpoint prog_bind_fix {A B} (f : A -> prog B) (p : prog A) : prog B :=
  match p with
  | Ret a => f a
  | Vis c k => Vis c (fun x => prog_bind_fix f (k x))
  end.
#[export] Instance prog_ret : MRet prog := fun A a => Ret a.
#[export] Instance prog_bind : MBind prog := fun A B f p => prog_bind_fix f p.
Definition do {X} (c : call X) : prog X := Vis c Ret.

(** * Running a step against a host *)

(** A host: how its state answers each call. *)
Definition handler (W : Type) : Type := forall X, call X -> W -> X * W.

Fixpoint run {W A} (h : handler W) (p : prog A) (w : W) : A * W :=
  match p with
  | Ret a => (a, w)
  | Vis c k => let '(x, w') := h _ c w in run h (k x) w'
  end.

Lemma run_bind {W A B} (h : handler W) (f : A -> prog B) (p : prog A) w :
  run h (p ≫= f) w = let '(a, w') := run h p w in run h (f a) w'.
Proof.
  revert w. induction p as [a|X c k IH]; intros w; cbn; [done|].
  destruct (h X c w) as [x w']. apply IH.
Qed.

Lemma run_bind_fix {W A B} (h : handler W) (f : A -> prog B) (p : prog A) w :
  run h (prog_bind_fix f p) w = let '(a, w') := run h p w in run h (f a) w'.
Proof. apply (run_bind h f p w). Qed.

(** * Which calls a step may make *)

(** A predicate on calls. *)
Definition call_pred : Type := forall X, call X -> bool.

(** Every call the step can make, whatever the answers, satisfies [P]. *)
Inductive only {A} (P : call_pred) : prog A -> Prop :=
  | only_ret a : only P (Ret a)
  | only_vis X (c : call X) k : P X c = true -> (forall x, only P (k x)) -> only P (Vis c k).

Create HintDb steps.
#[export] Hint Constructors only : steps.

Lemma only_bind {A B} P (p : prog A) (f : A -> prog B) :
  only P p -> (forall a, only P (f a)) -> only P (p ≫= f).
Proof.
  intros Hp Hf. induction Hp as [a|X c k Hc Hk IH]; cbn; [apply Hf|].
  constructor; [done|]. intros x. apply IH.
Qed.

Lemma only_do {X} P (c : call X) : P X c = true -> only P (do c).
Proof. intros H. constructor; [done|]. constructor. Qed.

Lemma only_impl {A} (P Q : call_pred) (p : prog A) :
  (forall X (c : call X), P X c = true -> Q X c = true) -> only P p -> only Q p.
Proof. intros HPQ. induction 1; constructor; auto. Qed.

(** The calls that can change the host. *)
Definition mutating : call_pred := fun X c =>
  match c with Run _ _ | WriteFile _ _ => true | _ => false end.
Definition read_call : call_pred := fun X c => negb (mutating X c).

(** Calls that keep the host's state keep it together. *)
Lemma only_state {W A} (h : handler W) (P : call_pred) (p : prog A) :
  (forall X (c : call X) w, P X c = true -> (h X c w).2 = w) ->
  only P p -> forall w, (run h p w).2 = w.
Proof.
  intros Hh. induction 1 as [a|X c k Hc _ IH]; intros w; cbn; [done|].
  pose proof (Hh X c w Hc) as Hw. destruct (h X c w) as [x w']. cbn in Hw. subst. apply IH.
Qed.

(** A step that makes no mutating call leaves every host unchanged whose
    read calls do. *)
Lemma read_only_state {W A} (h : handler W) (p : prog A) :
  (forall X (c : call X) w, mutating X c = false -> (h X c w).2 = w) ->
  only read_call p -> forall w, (run h p w).2 = w.
Proof. intros Hh. apply only_state. intros X c w Hc. apply Hh. by apply negb_true_iff. Qed.

(** Every value the step can return satisfies [Q]. *)
Fixpoint returns {A} (Q : A -> Prop) (p : prog A) : Prop :=
  match p with Ret a => Q a | Vis _ k => forall x, returns Q (k x) end.

Lemma returns_run {W A} (h : handler W) Q (p : prog A) w : returns Q p -> Q (run h p w).1.
Proof.
  revert w. induction p as [a|X c k IH]; intros w; cbn; [done|]. intros H.
  destruct (h X c w) as [x w']. by apply IH.
Qed.

Lemma returns_bind {A B} (Q : B -> Prop) (p : prog A) (f : A -> prog B) :
  returns (fun a => returns Q (f a)) p -> returns Q (p ≫= f).
Proof. induction p as [a|X c k IH]; cbn; [done|]. intros H x. apply IH, H. Qed.

(** Walk a step's tree: one call, one case distinction at a time. *)
Ltac walk_step :=
  repeat first
    [ apply only_ret
    | progress intros
    | match goal with
      | |- only _ (Vis _ _) => apply only_vis; [reflexivity|]
      | |- only _ (do _) => apply only_do; reflexivity
      | |- only _ (_ ≫= _) => apply only_bind
      | |- only _ (mret _) => apply only_ret
      | |- only _ (Ret _) => apply only_ret
      | |- only _ (if ?b then _ else _) => destruct b
      | |- only _ (match ?x with _ => _ end) => destruct x
      | |- only _ (let '_ := ?x in _) => destruct x
      end
    | solve [eauto with steps] ].

(** * The mutations of a run *)

Inductive mutation : Type :=
  | MRun (name : string) (args : list string)
  | MWrite (path data : string).

Definition mutation_of {X} (c : call X) : list mutation :=
  match c with
  | Run name args => [MRun name args]
  | WriteFile path data => [MWrite path data]
  | _ => []
  end.

(** The mutating calls a run makes, in order. *)
Fixpoint trace {W A} (h : handler W) (p : prog A) (w : W) : list mutation :=
  match p with
  | Ret _ => []
  | Vis c k => let '(x, w') := h _ c w in mutation_of c ++ trace h (k x) w'
  end.

Lemma trace_bind {W A B} (h : handler W) (f : A -> prog B) (p : prog A) w :
  trace h (p ≫= f) w = trace h p w ++ trace h (f (run h p w).1) (run h p w).2.
Proof.
  revert w. induction p as [a|X c k IH]; intros w; cbn; [done|].
  destruct (h X c w) as [x w']. rewrite <- app_assoc. by rewrite IH.
Qed.

Lemma trace_read_only {W A} (h : handler W) (p : prog A) w :
  only read_call p -> trace h p w = [].
Proof.
  intros Hp. revert w. induction Hp as [a|X c k Hc _ IH]; intros w; cbn; [done|].
  destruct (h X c w) as [x w']. rewrite IH. by destruct c.
Qed.

(** The call that made a mutation. *)
Definition allowed (P : call_pred) (m : mutation) : bool :=
  match m with MRun name args => P _ (Run name args) | MWrite path data => P _ (WriteFile path data) end.

Lemma only_trace {W A} (h : handler W) (P : call_pred) (p : prog A) w m :
  only P p -> In m (trace h p w) -> allowed P m = true.
Proof.
  intros Honly. revert w. induction Honly as [a|X c k Hc _ IH]; intros w; cbn; [done|].
  destruct (h X c w) as [x w']. rewrite in_app_iff. intros [Hm|Hm]; [|by eapply IH].
  destruct c; cbn in Hm; try done; by destruct Hm as [<-|[]].
Qed.

(** * Steps *)

Inductive Outcome : Type := OutcomeOK | OutcomeChanged | OutcomeFailed | OutcomeManual | OutcomeUnverified.
#[export] Instance Outcome_eq_dec : EqDecision Outcome.
Proof. solve_decision. Defined.

Definition Succeeded (o : Outcome) : bool :=
  match o with OutcomeOK | OutcomeChanged => true | _ => false end.

Record SetupStep : Type := mkStep {
  Name : string;
  StepOutcome : Outcome;
  Success : bool;
  Message : string;
  Fix : string;
}.

Definition newStep (name : string) (outcome : Outcome) (message fix_ : string) : SetupStep :=
  mkStep name outcome (Succeeded outcome) message fix_.

Definition defaultRDPPort : Z := 3389.
