(* ===== verification/LinuxFirewall.v ===== *)
(** The Linux firewall step (src/internal/host/linux_steps.go): reading the rule
    for a port with ufw or iptables, and the setup and check halves of the
    step. The text of the rules is read by Iptables and Ufw. *)
From S2P Require Import Prelude GoStrings Iptables Ufw HostRunner.
From Stdlib Require Import Ascii.

Open Scope bool_scope.

#[local] Arguments String.append : simpl never.
#[local] Arguments Nat.ltb : simpl never.

Definition linuxFwName := "Firewall configuration".
Definition backendUFW := "ufw".
Definition backendIPT := "iptables".

Record firewallRead : Type := mkRead {
  state : ruleState;
  backend : string;
  noBackend : bool;
  reason : string;
  blockedBy : string;
  fix_ : string;
  copies : nat;
  decidedBy : string;
  copiesAdmit : bool;
  ufwInactive : bool;
  ufwAllowsPort : bool;
  foreign : list string;
  scoped : bool;
}.

(** Go's zero value with the fields a composite literal sets. *)
Definition zeroRead : firewallRead :=
  mkRead ruleUnknown "" false "" "" "" 0 "" false false false [] false.
Definition unreadable (backend reason fix_ : string) : firewallRead :=
  mkRead ruleUnknown backend false reason "" fix_ 0 "" false false false [] false.

Definition source (read : firewallRead) : string :=
  if bool_decide (decidedBy read = "") then backend read else decidedBy read.

(** * Reading *)

Definition chainMissing (err : exec_error) (words : string) : bool :=
  match err_stderr err with Some s => Contains s words | None => false end.

(** ts-input in nftables mode. *)
Definition tsInputInNFT (port : Z) : prog (option firewallRead) :=
  look ← do (LookPath "nft");
  match look with
  | Some _ => mret None
  | None =>
      let args := ["list"; "chain"; "ip"; "filter"; tsInputChain] in
      '(out, err) ← do (Output "nft" args);
      mret match err with
           | Some e =>
               if chainMissing e "No such file or directory" then None
               else Some (unreadable backendIPT ("nft " +:+ Join args " " +:+ ": " +:+ err_text e) "")
           | None =>
               if Contains out ("chain " +:+ tsInputChain)
               then Some (unreadable backendIPT
                      "tailscaled keeps ts-input in nftables table ip filter (nftables mode), which iptables does not read"
                      ("read it with `nft list chain ip filter ts-input`, or allow TCP " +:+ Itoa port +:+ " inbound on the Tailscale interface by hand"))
               else None
           end
  end.

(** ts-input where an INPUT without a jump to it hides it. *)
Definition tsInputUnreached (port : Z) : prog (option firewallRead) :=
  '(out, err) ← do (Output backendIPT ["-S"; tsInputChain]);
  match err with
  | Some e =>
      if chainMissing e "No chain/target/match by that name" then tsInputInNFT port
      else mret (Some (unreadable backendIPT ("iptables -S " +:+ tsInputChain +:+ ": " +:+ err_text e) ""))
  | None =>
      if contains_word (Split nl (iptRules out)) ("-N " +:+ tsInputChain)
      then mret (Some (unreadable backendIPT
             "ts-input exists but INPUT does not jump to it (tailscaled --netfilter-mode=nodivert, or a divert from another chain)"
             ("jump to ts-input from INPUT, or allow TCP " +:+ Itoa port +:+ " inbound on the Tailscale interface by hand")))
      else tsInputInNFT port
  end.

(** What [readIptables] concludes from INPUT, the rules walked and the jump the
    walk stopped at. *)
Definition iptConclude (input rules jump : string) (port : Z) : firewallRead :=
  let '(st, rule) := iptablesDecide rules port in
  if bool_decide (st = ruleAbsent) && negb (bool_decide (jump = ""))
  then unreadable backendIPT
         ("INPUT reaches " +:+ tsInputChain +:+ " through " +:+ Quote jump +:+ ", which ts-bridge cannot evaluate")
         ("allow TCP " +:+ Itoa port +:+ " inbound on the Tailscale interface ahead of " +:+ Quote jump +:+ ", or confirm by hand that the jump admits it")
  else
    let copies := iptLegacyCopies input port in
    let '(foreign, scoped) := iptUnscopedRead input rules port st in
    mkRead st backendIPT false "" rule "" copies ""
      (bool_decide (st = rulePresent) && (0 <? copies)%nat
       && negb (iptablesCovers (iptWithoutLegacy rules port) port))
      false false foreign scoped.

Definition readIptables (port : Z) : prog firewallRead :=
  '(out, err) ← do (Output backendIPT ["-S"; iptInput]);
  match err with
  | Some e => mret (unreadable backendIPT ("iptables -S INPUT: " +:+ err_text e) "")
  | None =>
      let input := iptRules out in
      let '(rules0, jump) := iptBeforeQualifiedJump input in
      let diverted := existsb iptTSInputJump (Split nl rules0) in
      walked ← (if diverted then
                  '(chain, cerr) ← do (Output backendIPT ["-S"; tsInputChain]);
                  mret match cerr with
                       | Some e => Err (unreadable backendIPT ("iptables -S " +:+ tsInputChain +:+ ": " +:+ err_text e) "")
                       | None => Ok (iptInlineChain rules0 (iptRules chain))
                       end
                else mret (Ok rules0) : prog (result firewallRead string));
      match walked with
      | Err unread => mret unread
      | Ok rules =>
          if bool_decide ((iptablesDecide rules port).1 = ruleAbsent) && bool_decide (jump = "") && negb diverted
          then unseen ← tsInputUnreached port;
               mret match unseen with Some r => r | None => iptConclude input rules jump port end
          else mret (iptConclude input rules jump port)
      end
  end.

(** Active or not, or why [ufw status] could not say. *)
Definition readUFWStatus : prog (bool * string) :=
  '(out, err) ← do (Output backendUFW ["status"]);
  mret match err with
       | Some e => (false, "ufw status: " +:+ err_text e)
       | None =>
           let '(first, _, _) := Cut nl (TrimSpace out) in
           let word := TrimSpace first in
           if bool_decide (word = "Status: active") then (true, "")
           else if bool_decide (word = "Status: inactive") then (false, "")
           else (false, "ufw status printed " +:+ Quote first +:+ ", neither active nor inactive")
       end.

(** ufw's own half of [readUFW]: [ufw show added] decides, if it can be read. *)
Definition readUFWRules (port : Z) : prog firewallRead :=
  '(active, why) ← readUFWStatus;
  let inactive := bool_decide (why = "") && negb active in
  if negb (bool_decide (why = ""))
  then mret (mkRead ruleUnknown backendUFW false why "" "" 0 "" false inactive false [] false)
  else
    '(out, err) ← do (Output backendUFW ["show"; "added"]);
    mret match err with
         | Some e => mkRead ruleUnknown backendUFW false ("ufw show added: " +:+ err_text e) "" "" 0 "" false inactive false [] false
         | None =>
             let '(st, by_) := ufwDecide out port in
             mkRead st backendUFW false "" by_ "" 0 "" false inactive (bool_decide (st = rulePresent)) [] false
         end.

(** What [readUFW] adds from the iptables read: the copies always, the answer
    only when ufw has none. *)
Definition mergeIptables (read ipt : firewallRead) : firewallRead :=
  let admits := copiesAdmit ipt && negb (bool_decide (state read = rulePresent)) in
  if bool_decide (state read = ruleAbsent)
  then mkRead (state ipt) (backend read) (noBackend read) (reason ipt) (blockedBy ipt) (fix_ ipt)
         (copies ipt) backendIPT admits (ufwInactive read) (ufwAllowsPort read) (foreign read) (scoped read)
  else mkRead (state read) (backend read) (noBackend read) (reason read) (blockedBy read) (fix_ read)
         (copies ipt) (decidedBy read) admits (ufwInactive read) (ufwAllowsPort read) (foreign read) (scoped read).

Definition readUFW (port : Z) : prog firewallRead :=
  read ← readUFWRules port;
  look ← do (LookPath backendIPT);
  match look with
  | Some _ => mret read
  | None => ipt ← readIptables port; mret (mergeIptables read ipt)
  end.

Definition readLinuxFirewall (port : Z) : prog firewallRead :=
  elevated ← do Elevated;
  if negb elevated
  then mret (mkRead ruleUnknown "" false "reading the firewall rules needs root" "" "" 0 "" false false false [] false)
  else
    ufw ← do (LookPath backendUFW);
    match ufw with
    | None => readUFW port
    | Some _ =>
        ipt ← do (LookPath backendIPT);
        match ipt with
        | None => readIptables port
        | Some _ =>
            let why := "neither ufw nor iptables is installed" in
            nft ← tsInputInNFT port;
            let n := default zeroRead nft in
            mret (if bool_decide (reason n = "")
                  then mkRead ruleUnknown "" true why "" "" 0 "" false false false [] false
                  else mkRead ruleUnknown "" true (why +:+ "; " +:+ reason n) "" (fix_ n) 0 "" false false false [] false)
        end
    end.

(** * Messages *)

Definition iptLegacy (read : firewallRead) : bool :=
  bool_decide (backend read = backendIPT) && bool_decide (state read = rulePresent)
  && ((0 <? copies read)%nat || negb (bool_decide (foreign read = []))).

Definition extraCopies (read : firewallRead) : nat := copies read.

Definition natText (n : nat) : string := Itoa (Z.of_nat n).

Definition copiesHeld (read : firewallRead) (port : Z) : string :=
  let noun := if (copies read =? 1)%nat then "copy" else "copies" in
  natText (copies read) +:+ " " +:+ noun +:+ " of " +:+ Join (iptPrinted (iptablesLegacy port)) " ".

Definition copiesFix (read : firewallRead) (port : Z) : string :=
  let first := if copiesAdmit read
    then "run `ufw allow " +:+ Itoa port +:+ "/tcp` first, as root, since the copies are what admits the port now; then "
    else "" in
  first +:+ "run `iptables " +:+ Join (iptablesDelete port) " " +:+ "` " +:+ natText (extraCopies read)
  +:+ " time(s), as root, so none remains: ufw manages this host's rules, and under its default deny policy each copy admits the port on every interface; setup does not delete firewall rules".

Definition firewallFix (read : firewallRead) (port : Z) (command : string) : string :=
  if negb (bool_decide (fix_ read = "")) then fix_ read
  else if noBackend read then "install ufw, or allow TCP " +:+ Itoa port +:+ " inbound with your firewall"
  else "run ts-bridge host " +:+ command +:+ " as root".

Definition firewallUnreadable (read : firewallRead) (port : Z) (command : string) : string * string :=
  let message := "Cannot read the firewall: " +:+ reason read in
  let fixit := firewallFix read port command in
  if (0 <? extraCopies read)%nat
  then (message +:+ "; it also holds " +:+ copiesHeld read port, fixit +:+ "; " +:+ copiesFix read port)
  else (message, fixit).

Definition firewallCopiesStep (read : firewallRead) (port : Z) : SetupStep :=
  newStep linuxFwName OutcomeManual
    ("Firewall allows TCP " +:+ Itoa port +:+ " (" +:+ source read +:+ "), but holds " +:+ copiesHeld read port)
    (copiesFix read port).

Definition firewallBlockedStep (read : firewallRead) (port : Z) : SetupStep :=
  newStep linuxFwName OutcomeManual
    ("Firewall blocks TCP " +:+ Itoa port +:+ " before any allow (" +:+ source read +:+ "): " +:+ blockedBy read)
    ("remove that rule, or put an allow for TCP " +:+ Itoa port +:+ " before it; setup does not delete or reorder firewall rules").

Definition firewallReadStep (name : string) (allowed : bool) (port : Z) : SetupStep :=
  let target := if (port =? 0)%Z then "the service port (unknown)" else "port " +:+ Itoa port in
  if allowed then newStep name OutcomeOK ("Firewall allows " +:+ target) ""
  else newStep name OutcomeChanged ("No firewall rule found for " +:+ target) "run ts-bridge host setup as an administrator".

Definition iptForeignFix (read : firewallRead) : string :=
  "scope " +:+ Join (foreign read) "; " +:+ " to " +:+ tailnetInterface +:+ " (`-i " +:+ tailnetInterface
  +:+ "`), or remove it; setup does not delete rules it did not write".

(** * An inactive ufw *)

Definition inactiveUFWDecides (read : firewallRead) : bool :=
  if negb (ufwInactive read) || bool_decide (state read = ruleUnknown) then false
  else negb (bool_decide (state read = ruleBlocked)) || bool_decide (decidedBy read = "").

Definition ufwInactiveState (read : firewallRead) (port : Z) : string * bool :=
  if bool_decide (state read = ruleBlocked)
  then ("once ufw is enabled, its rule " +:+ blockedBy read +:+ " blocks the port", false)
  else if ufwAllowsPort read then ("its allow is in place for when ufw is enabled", false)
  else if bool_decide (state read = rulePresent)
  then (source read +:+ " admits TCP " +:+ Itoa port +:+ ", so setup adds no ufw allow", false)
  else ("it holds no allow for TCP " +:+ Itoa port +:+ " yet, which ts-bridge host setup adds", true).

Definition ufwInactiveStep (read : firewallRead) (port : Z) (st : string) : SetupStep :=
  let message := "ufw is inactive, so it filters nothing: TCP " +:+ Itoa port
    +:+ " is reachable on every interface unless another firewall stops it; " +:+ st in
  let fix0 := "enable ufw with `ufw enable`, as root, after allowing any port you reach this host through (SSH), or confirm another firewall filters this host" in
  let fix1 := if bool_decide (state read = ruleBlocked)
    then "remove " +:+ blockedBy read +:+ ", or put an allow for TCP " +:+ Itoa port +:+ " before it, then " +:+ fix0
    else fix0 in
  if (0 <? extraCopies read)%nat
  then newStep linuxFwName OutcomeManual (message +:+ "; it also holds " +:+ copiesHeld read port) (fix1 +:+ "; " +:+ copiesFix read port)
  else newStep linuxFwName OutcomeManual message fix1.

(** * Setup *)

Definition ufwAllow (port : Z) : prog (option exec_error) := do (Run backendUFW ["allow"; ufwAllowArg port]).
Definition iptAdd (port : Z) : prog (option exec_error) := do (Run backendIPT (iptablesAppend port)).

Definition ufwInactiveSetupStep (read : firewallRead) (port : Z) : prog SetupStep :=
  let '(st, add) := ufwInactiveState read port in
  if negb add then mret (ufwInactiveStep read port st)
  else
    err ← ufwAllow port;
    mret match err with
         | Some e => newStep linuxFwName OutcomeFailed ("ufw is inactive, and adding its allow failed: " +:+ err_text e)
                       ("run `ufw allow " +:+ Itoa port +:+ "/tcp` as root, then enable ufw with `ufw enable`")
         | None => ufwInactiveStep read port "allow added (ufw) for when ufw is enabled"
         end.

(** The delete loop of [iptLegacySetupStep]: stops at the first failure. *)
Fixpoint deleteCopies (n : nat) (port : Z) : prog (option exec_error) :=
  match n with
  | O => mret None
  | S n' =>
      err ← do (Run backendIPT (iptablesDelete port));
      match err with Some e => mret (Some e) | None => deleteCopies n' port end
  end.

Definition iptLegacySetupStep (read : firewallRead) (port : Z) : prog SetupStep :=
  added ← (if scoped read then mret None else iptAdd port);
  match added with
  | Some e =>
      mret (newStep linuxFwName OutcomeFailed
        ("Could not add the firewall rule scoped to " +:+ tailnetInterface +:+ ": " +:+ err_text e)
        ("allow TCP " +:+ Itoa port +:+ " inbound on " +:+ tailnetInterface +:+ " with iptables, as root; the unscoped rule is still in place"))
  | None =>
      deleted ← deleteCopies (copies read) port;
      mret match deleted with
           | Some e =>
               newStep linuxFwName OutcomeFailed ("Could not delete the legacy unscoped firewall rule: " +:+ err_text e)
                 ("run `iptables " +:+ Join (iptablesDelete port) " " +:+ "`, as root, to delete it")
           | None =>
               if negb (bool_decide (foreign read = []))
               then newStep linuxFwName OutcomeManual
                      ("Firewall allows TCP " +:+ Itoa port +:+ " on " +:+ tailnetInterface +:+ " (iptables), but legacy unscoped rule: " +:+ Join (foreign read) "; ")
                      (iptForeignFix read)
               else if scoped read
               then newStep linuxFwName OutcomeChanged
                      ("Legacy unscoped firewall rule deleted: TCP " +:+ Itoa port +:+ " stays allowed by the scoped rule (iptables)") ""
               else newStep linuxFwName OutcomeChanged
                      ("Firewall rule replaced: TCP " +:+ Itoa port +:+ " is now allowed on " +:+ tailnetInterface +:+ " only (iptables)") ""
           end
  end.

(** The end of [firewallSetupStep]: nothing decides the port, so a rule is added. *)
Definition addFirewallRule (read : firewallRead) (port : Z) : prog SetupStep :=
  err ← (if bool_decide (backend read = backendUFW) then ufwAllow port else iptAdd port);
  mret match err with
       | Some e => newStep linuxFwName OutcomeFailed ("Could not add the firewall rule: " +:+ err_text e)
                     ("allow TCP " +:+ Itoa port +:+ " inbound with " +:+ backend read +:+ ", as root")
       | None => newStep linuxFwName OutcomeChanged ("Firewall rule added: TCP " +:+ Itoa port +:+ " (" +:+ backend read +:+ ")") ""
       end.

Definition firewallSetupOn (read : firewallRead) (port : Z) : prog SetupStep :=
  if inactiveUFWDecides read then ufwInactiveSetupStep read port
  else match state read with
       | rulePresent =>
           if iptLegacy read then iptLegacySetupStep read port
           else if (0 <? extraCopies read)%nat then mret (firewallCopiesStep read port)
           else mret (newStep linuxFwName OutcomeOK ("Firewall allows TCP " +:+ Itoa port +:+ " (" +:+ source read +:+ ")") "")
       | ruleBlocked => mret (firewallBlockedStep read port)
       | ruleUnknown =>
           let '(message, fixit) := firewallUnreadable read port "setup" in
           mret (newStep linuxFwName OutcomeFailed message fixit)
       | ruleAbsent => addFirewallRule read port
       end.

Definition firewallSetupStep (port : Z) : prog SetupStep :=
  read ← readLinuxFirewall port; firewallSetupOn read port.

(** * Check *)

Definition iptLegacyCheckStep (read : firewallRead) (port : Z) : SetupStep :=
  let held := if (0 <? copies read)%nat then copiesHeld read port :: foreign read else foreign read in
  let message := "Firewall allows TCP " +:+ Itoa port +:+ " on every interface (iptables), not only "
    +:+ tailnetInterface +:+ ": legacy unscoped rule: " +:+ Join held "; " in
  if negb (bool_decide (foreign read = [])) then newStep linuxFwName OutcomeManual message (iptForeignFix read)
  else newStep linuxFwName OutcomeChanged message
         ("run ts-bridge host setup as root: it adds the rule scoped to " +:+ tailnetInterface +:+ " and deletes the unscoped one").

Definition firewallCheckStep (read : firewallRead) (port : Z) : SetupStep :=
  if bool_decide (state read = ruleUnknown) then
    let '(message, fixit) := firewallUnreadable read port "check" in
    newStep linuxFwName OutcomeUnverified message fixit
  else if inactiveUFWDecides read then ufwInactiveStep read port (ufwInactiveState read port).1
  else if bool_decide (state read = ruleBlocked) then firewallBlockedStep read port
  else if iptLegacy read then iptLegacyCheckStep read port
  else if (0 <? extraCopies read)%nat then firewallCopiesStep read port
  else firewallReadStep linuxFwName (bool_decide (state read = rulePresent)) port.

(** * Facts *)

(** ** Which commands the step may run *)

Lemma tsInputInNFT_reads port : only read_call (tsInputInNFT port).
Proof. unfold tsInputInNFT. walk_step. Qed.
#[export] Hint Resolve tsInputInNFT_reads : steps.

Lemma tsInputUnreached_reads port : only read_call (tsInputUnreached port).
Proof. unfold tsInputUnreached. walk_step. Qed.
#[export] Hint Resolve tsInputUnreached_reads : steps.

Lemma readIptables_reads port : only read_call (readIptables port).
Proof. unfold readIptables. walk_step. Qed.
#[export] Hint Resolve readIptables_reads : steps.

Lemma readUFWStatus_reads : only read_call readUFWStatus.
Proof. unfold readUFWStatus. walk_step. Qed.
#[export] Hint Resolve readUFWStatus_reads : steps.

Lemma readUFWRules_reads port : only read_call (readUFWRules port).
Proof. unfold readUFWRules. walk_step. Qed.
#[export] Hint Resolve readUFWRules_reads : steps.

Lemma readLinuxFirewall_reads port : only read_call (readLinuxFirewall port).
Proof. unfold readLinuxFirewall, readUFW. walk_step. Qed.
#[export] Hint Resolve readLinuxFirewall_reads : steps.

(** The mutating commands the firewall step for [port] knows. *)
Definition firewall_call (port : Z) : call_pred := fun X c =>
  match c with
  | Run name args =>
      (bool_decide (name = backendUFW) && bool_decide (args = ["allow"; ufwAllowArg port]))
      || (bool_decide (name = backendIPT)
          && (bool_decide (args = iptablesAppend port) || bool_decide (args = iptablesDelete port)))
  | WriteFile _ _ => false
  | _ => true
  end.

Lemma read_call_firewall port X (c : call X) : read_call X c = true -> firewall_call port X c = true.
Proof. by destruct c. Qed.

Lemma ufwAllow_call port : only (firewall_call port) (ufwAllow port).
Proof.
  apply only_do. unfold firewall_call. apply orb_true_iff. left.
  by rewrite !bool_decide_eq_true_2.
Qed.
Lemma iptables_call port args :
  args = iptablesAppend port \/ args = iptablesDelete port ->
  only (firewall_call port) (do (Run backendIPT args)).
Proof.
  intros H. apply only_do. unfold firewall_call. apply orb_true_iff. right.
  apply andb_true_iff. split; [by apply bool_decide_eq_true|].
  apply orb_true_iff. rewrite !bool_decide_eq_true. done.
Qed.
Lemma iptAdd_call port : only (firewall_call port) (iptAdd port).
Proof. apply iptables_call. by left. Qed.
Lemma iptDelete_call port : only (firewall_call port) (do (Run backendIPT (iptablesDelete port))).
Proof. apply iptables_call. by right. Qed.
#[export] Hint Resolve ufwAllow_call iptAdd_call iptDelete_call : steps.

Lemma deleteCopies_call n port : only (firewall_call port) (deleteCopies n port).
Proof. induction n as [|n IH]; [constructor|]. cbn [deleteCopies]. apply only_bind; [auto with steps|]. walk_step. Qed.
#[export] Hint Resolve deleteCopies_call : steps.

Lemma firewallSetupOn_calls read port : only (firewall_call port) (firewallSetupOn read port).
Proof.
  unfold firewallSetupOn, ufwInactiveSetupStep, iptLegacySetupStep, addFirewallRule. walk_step.
Qed.

Lemma firewallSetupStep_calls port : only (firewall_call port) (firewallSetupStep port).
Proof.
  apply only_bind; [|intros; apply firewallSetupOn_calls].
  eapply only_impl; [apply read_call_firewall|apply readLinuxFirewall_reads].
Qed.

(** ** When the step writes nothing *)

Definition setup_quiet (read : firewallRead) : Prop :=
  state read = ruleUnknown \/ state read = ruleBlocked
  \/ (state read = rulePresent /\ iptLegacy read = false).

Lemma firewallSetupOn_quiet read port :
  setup_quiet read -> exists s, firewallSetupOn read port = Ret s.
Proof.
  intros H. unfold firewallSetupOn, ufwInactiveSetupStep, inactiveUFWDecides, ufwInactiveState.
  destruct H as [H|[H|[H Hl]]]; rewrite ?H, ?Hl; cbn.
  - rewrite orb_true_r. destruct (firewallUnreadable read port "setup"). by eexists.
  - destruct (ufwInactive read); cbn; [|by eexists]. destruct (bool_decide (decidedBy read = "")); by eexists.
  - destruct (ufwInactive read), (ufwAllowsPort read), (0 <? extraCopies read)%nat; cbn; by eexists.
Qed.

(** ** Check and setup agree on a read *)

(** The step ends without a command and reports OK. *)
Definition ends_ok (p : prog SetupStep) : bool :=
  match p with Ret s => bool_decide (StepOutcome s = OutcomeOK) | Vis _ _ => false end.

(** The first call of the step is a command that changes the firewall. *)
Definition starts_write (p : prog SetupStep) : bool :=
  match p with Vis c _ => mutating _ c | Ret _ => false end.

Lemma ufwInactiveStep_outcome read port st : StepOutcome (ufwInactiveStep read port st) = OutcomeManual.
Proof. unfold ufwInactiveStep. by destruct (0 <? extraCopies read)%nat. Qed.

Lemma legacy_writes read port :
  iptLegacy read = true -> foreign read = [] -> starts_write (iptLegacySetupStep read port) = true.
Proof.
  unfold iptLegacy, iptLegacySetupStep. intros H Hf. rewrite Hf, (bool_decide_eq_true_2 ([] = [])) in H by done.
  cbn [negb] in H. rewrite orb_false_r, !andb_true_iff in H. destruct H as [_ H].
  destruct (scoped read); cbn; [|done]. by destruct (copies read).
Qed.

Lemma legacy_not_ok read port : ends_ok (iptLegacySetupStep read port) = false.
Proof.
  unfold iptLegacySetupStep. destruct (scoped read); cbn; [|done].
  destruct (copies read); cbn; [|done]. by destruct (bool_decide (foreign read = [])).
Qed.

Lemma iptLegacy_present read : state read <> rulePresent -> iptLegacy read = false.
Proof. intros H. unfold iptLegacy. by rewrite (bool_decide_eq_false_2 (state read = _)), andb_false_r. Qed.

Lemma addFirewallRule_writes read port :
  starts_write (addFirewallRule read port) = true /\ ends_ok (addFirewallRule read port) = false.
Proof. unfold addFirewallRule. by destruct (bool_decide (backend read = backendUFW)). Qed.

(** Case analysis on a read, by what decides the step. *)
Ltac read_cases :=
  repeat match goal with
  | |- context [let '_ := firewallUnreadable ?r ?p ?c in _] => destruct (firewallUnreadable r p c)
  | |- context [if ?b then _ else _] => destruct b eqn:?; cbn
  | |- context [negb ?b] => destruct b eqn:?; cbn
  end.

Ltac read_states read :=
  unfold firewallCheckStep, firewallSetupOn, inactiveUFWDecides, ufwInactiveSetupStep, ufwInactiveState,
    firewallReadStep, iptLegacyCheckStep;
  destruct (state read) eqn:?; cbn; rewrite ?orb_true_r;
  rewrite ?(iptLegacy_present read) by congruence; cbn;
  read_cases; rewrite ?ufwInactiveStep_outcome, ?legacy_not_ok, ?(proj1 (addFirewallRule_writes _ _)), ?(proj2 (addFirewallRule_writes _ _));
  cbn; rewrite ?ufwInactiveStep_outcome.

Lemma check_ok_iff_setup_ok read port :
  StepOutcome (firewallCheckStep read port) = OutcomeOK <-> ends_ok (firewallSetupOn read port) = true.
Proof. read_states read; try done. Qed.

Lemma check_changed_setup_writes read port :
  StepOutcome (firewallCheckStep read port) = OutcomeChanged -> starts_write (firewallSetupOn read port) = true.
Proof.
  read_states read; try done; intros _. apply legacy_writes; [done|].
  eapply bool_decide_eq_true_1, negb_false_iff; eassumption.
Qed.
