(* ===== verification/FirewallConverge.v ===== *)
(** Running the Linux firewall step against a host: what the legacy
    replacement runs and in which order, and that setup converges on a host
    where iptables is the firewall. The host is a parameter; what the step
    relies on of iptables is the class [IptablesHost]. *)
From S2P Require Import Prelude GoStrings GoNet Iptables Ufw HostRunner LinuxFirewall.
From Stdlib Require Import Ascii.

Open Scope bool_scope.

(** * Lines *)

Lemma Split_Join_concat ls :
  ls <> [] -> Split nl (Join ls newline) = concat (map (Split nl) ls).
Proof.
  induction ls as [|x ls IH]; [done|]. intros _. destruct ls as [|y ls].
  - cbn. by rewrite app_nil_r.
  - rewrite Join_cons by done.
    change (x +:+ newline +:+ Join (y :: ls) newline) with (x +:+ String nl (Join (y :: ls) newline)).
    by rewrite Split_app, IH.
Qed.

Lemma iptRulesLoop_ends_nl q e s :
  (e = true -> q = true) ->
  exists s', (iptRulesLoop q e (s +:+ newline)).2 = s' +:+ newline \/ (iptRulesLoop q e (s +:+ newline)).1 = true.
Proof.
  revert q e. induction s as [|c s IH]; intros q e He; cbn.
  - exists "". destruct e, q; cbn; (by right) || (by left) || (exfalso; by specialize (He eq_refl)).
  - destruct (iptRulesByte q e c) as [[q' e'] c'] eqn:E.
    destruct (IH q' e' (iptRulesByte_inv _ _ _ _ _ _ E He)) as [s' H].
    destruct (iptRulesLoop q' e' (s +:+ newline)) as [qe r].
    exists (String c' s'). cbn in *. destruct H as [->|H]; [by left|by right].
Qed.

(** Output whose last line is closed reads as lines, the last one closed. *)
Lemma iptRules_ends_nl s : exists s', iptRules (s +:+ newline) = s' +:+ newline.
Proof.
  unfold iptRules. destruct (iptRulesLoop_ends_nl false false s ltac:(done)) as [s' H].
  destruct (iptRulesLoop false false (s +:+ newline)) as [q b]. cbn in H.
  destruct q; [by eexists|]. destruct H as [->|H]; [by eexists|done].
Qed.

(** * Lines that decide *)

Lemma ruleFields_fields line : Forall (fun w => no_byte dquote w = true) (Fields line) -> ruleFields line = Fields line.
Proof. intros H. unfold ruleFields. by rewrite blankQuoted_id by (by apply Fields_no_byte). Qed.

Lemma words_no_dquote l1 port l2 :
  (0 <= port)%Z -> forallb (no_byte dquote) (l1 ++ l2) = true ->
  Forall (fun w => no_byte dquote w = true) (l1 ++ Itoa port :: l2).
Proof.
  intros Hp. rewrite forallb_app, andb_true_iff, !List.forallb_forall. intros [H1 H2].
  apply Forall_forall. intros w. rewrite elem_of_app, elem_of_cons, !list_elem_of_In.
  intros [?|[->|?]]; [by apply H1| |by apply H2].
  apply digits_no_byte; [done|]. by apply Itoa_all_digits.
Qed.

Lemma legacy_line_present port line :
  (0 <= port <= max_int64)%Z -> is_legacy_line port line = true ->
  iptDecideLine line port = Some (rulePresent, "").
Proof.
  intros Hp H. apply bool_decide_eq_true in H.
  pose proof (legacy_line_decides port port Hp) as Hd.
  unfold iptDecideLine in *. rewrite legacy_ruleFields in Hd by done.
  rewrite (ruleFields_fields line), H.
  - rewrite Z.eqb_refl in Hd. cbv zeta in *. destruct (_ || negb (iptMatchesPort _ _)); [done|].
    destruct (bool_decide (iptFlag _ _ = iptAccept)); [done|]. by destruct (_ && _).
  - rewrite H. by apply (words_no_dquote legacy_head port ["-j"; "ACCEPT"]); [lia|].
Qed.

Lemma word_index_elem w l i : word_index w l = Some i -> w ∈ l.
Proof.
  revert i. induction l as [|x l IH]; intros i; cbn; [done|].
  case_bool_decide as E; [subst; intros _; left|]. destruct (word_index w l) eqn:Hw; [|done].
  intros _. right. by eapply IH.
Qed.

Lemma iptFlag_elem f flag : iptFlag f flag <> "" -> flag ∈ f.
Proof.
  unfold iptFlag. destruct (word_index flag f) eqn:E; [|done]. intros _. by eapply word_index_elem.
Qed.

Lemma portListHas_empty port : portListHas "" port = false.
Proof. done. Qed.

Lemma iptPortCovers_flag f port : iptPortCovers f port = true -> existsb (contains_word iptPortFlags) f = true.
Proof.
  unfold iptPortCovers. rewrite andb_true_iff. intros [_ H].
  apply List.existsb_exists in H as (flag & Hin & Hl).
  apply List.existsb_exists. exists flag. split.
  - apply list_elem_of_In, iptFlag_elem. intros E. by rewrite E in Hl.
  - apply bool_decide_eq_true. unfold iptPortFlags. apply elem_of_app. left. by apply list_elem_of_In.
Qed.

Lemma unscoped_line_present port line :
  is_unscoped_line port line = true -> iptDecideLine line port = Some (rulePresent, "").
Proof.
  unfold is_unscoped_line, iptDecideLine. rewrite !andb_true_iff, !negb_true_iff.
  intros [[[[[[Hl Ha] _] Hj] Hp] Hlo] _].
  rewrite Hlo, Ha. unfold iptMatchesPort. rewrite (iptPortCovers_flag _ _ Hp), Hp, Hj.
  replace (length (ruleFields line) <? 2)%nat with false; [done|].
  apply Nat.ltb_lt in Hl. symmetry. apply Nat.ltb_ge. lia.
Qed.

(** Lines that decide nothing hold no rule setup looks for. *)
Lemma undecided_no_copies port ls :
  (0 <= port <= max_int64)%Z -> Forall (fun l => iptDecideLine l port = None) ls ->
  List.filter (is_legacy_line port) ls = [] /\ List.filter (is_unscoped_line port) ls = [].
Proof.
  intros Hp. induction 1 as [|l ls Hl _ [IH1 IH2]]; [done|]. cbn. split.
  - destruct (is_legacy_line port l) eqn:E; [|done]. rewrite legacy_line_present in Hl by done. done.
  - destruct (is_unscoped_line port l) eqn:E; [|done]. rewrite unscoped_line_present in Hl by done. done.
Qed.

Section AppendedLine.
Context (port : Z) (Hport : (0 <= port <= max_int64)%Z).
Let line := printed_line (iptablesAppend port).

Lemma append_not_legacy : is_legacy_line port line = false.
Proof using Hport.
  apply bool_decide_eq_false. unfold line. rewrite append_line_fields by done. cbn. done.
Qed.
Lemma append_not_unscoped : is_unscoped_line port line = false.
Proof using Hport.
  unfold is_unscoped_line, line. rewrite append_ruleFields by done.
  change (iptPrinted (iptablesAppend port)) with (append_words (Itoa port)).
  assert (forall w, digit_word w -> iptHasScope (append_words w) = true) as H.
  { intros w H. digit_cases H; vm_compute; done. }
  rewrite H by (apply Itoa_digit_word; lia). by rewrite andb_false_r.
Qed.
Lemma append_not_jump : iptTSInputJump line = false.
Proof using Hport.
  apply bool_decide_eq_false. unfold line. rewrite append_line_fields by done. done.
Qed.
Lemma append_not_qualified : qualified_jump line = false.
Proof using Hport.
  unfold qualified_jump, line. rewrite append_ruleFields by done.
  change (iptPrinted (iptablesAppend port)) with (append_words (Itoa port)).
  assert (forall w, digit_word w -> jumps_to_tsinput (drop 2 (append_words w)) = false) as H.
  { intros w H. digit_cases H; vm_compute; done. }
  rewrite H by (apply Itoa_digit_word; lia). by rewrite andb_false_r.
Qed.
End AppendedLine.

(** * The walk before a qualified jump *)

Lemma before_qualified_none ls :
  (before_qualified ls).2 = None <-> Forall (fun l => qualified_jump l = false) ls.
Proof.
  induction ls as [|l ls IH]; cbn; [by split|]. rewrite Forall_cons.
  destruct (qualified_jump l); cbn; [by split; [|intros [??]]|].
  destruct (before_qualified ls) as [pre j]. cbn in *. naive_solver.
Qed.

Lemma before_qualified_line ls l : (before_qualified ls).2 = Some l -> qualified_jump l = true.
Proof.
  induction ls as [|x ls IH]; cbn; [done|]. destruct (qualified_jump x) eqn:E; cbn; [by intros [= <-]|].
  destruct (before_qualified ls) as [pre j]. exact IH.
Qed.

Lemma qualified_jump_not_blank line : qualified_jump line = true -> TrimSpace line <> "".
Proof.
  intros H Ht. apply trim_empty in Ht. unfold qualified_jump, ruleFields in H.
  rewrite blankQuoted_id in H.
  - rewrite (Fields_spaces line) in H by done. by rewrite andb_false_r in H.
  - revert Ht. apply str_all_impl. intros c Hc. apply negb_true_iff, eqc_false. intros ->. done.
Qed.

Lemma iptBeforeQualifiedJump_none input :
  (iptBeforeQualifiedJump input).2 = "" <-> Forall (fun l => qualified_jump l = false) (Split nl input).
Proof.
  unfold iptBeforeQualifiedJump. rewrite <- before_qualified_none.
  pose proof (before_qualified_line (Split nl input)) as H.
  destruct (before_qualified (Split nl input)) as [pre [l|]]; cbn in *; [|by split].
  split; [|done]. intros E. exfalso. by eapply qualified_jump_not_blank; [apply H|].
Qed.

Lemma iptBeforeQualifiedJump_all input :
  Forall (fun l => qualified_jump l = false) (Split nl input) -> iptBeforeQualifiedJump input = (input, "").
Proof.
  rewrite <- before_qualified_none. unfold iptBeforeQualifiedJump.
  destruct (before_qualified (Split nl input)) as [pre [l|]]; by cbn.
Qed.

(** * A host filtered by iptables

    What the step relies on of such a host, all documented behaviour of the
    commands: reads change nothing, [iptables -S INPUT] prints one rule per
    line, and a successful [-A INPUT] adds the rule, as iptables prints it, at
    the end of INPUT and touches no other chain. *)
Class IptablesHost {W} (h : handler W) (listing : W -> string) : Prop := {
  host_reads : forall X (c : call X) w, mutating X c = false -> (h X c w).2 = w;
  host_elevated : forall w, (h _ Elevated w).1 = true;
  host_no_ufw : forall w, is_Some (h _ (LookPath backendUFW) w).1;
  host_iptables : forall w, (h _ (LookPath backendIPT) w).1 = None;
  host_listing : forall w, (h _ (Output backendIPT ["-S"; iptInput]) w).1 = (listing w, None);
  host_lines : forall w, exists y, listing w = y +:+ newline;
  host_append : forall port w,
    (h _ (Run backendIPT (iptablesAppend port)) w).1 = None ->
    listing (h _ (Run backendIPT (iptablesAppend port)) w).2
    = listing w +:+ printed_line (iptablesAppend port) +:+ newline;
  host_other_chains : forall port w,
    (h _ (Output backendIPT ["-S"; tsInputChain]) (h _ (Run backendIPT (iptablesAppend port)) w).2).1
    = (h _ (Output backendIPT ["-S"; tsInputChain]) w).1;
}.

(** What [readIptables] makes of a listing, the answer for the ts-input chain
    and the answer of the search for a chain INPUT hides. *)
Definition iptAnswer (out : string) (chain : string * option exec_error) (unseen : option firewallRead) (port : Z) : firewallRead :=
  let input := iptRules out in
  let '(rules0, jump) := iptBeforeQualifiedJump input in
  let diverted := existsb iptTSInputJump (Split nl rules0) in
  match (if diverted then
           match chain.2 with
           | Some e => Err (unreadable backendIPT ("iptables -S " +:+ tsInputChain +:+ ": " +:+ err_text e) "")
           | None => Ok (iptInlineChain rules0 (iptRules chain.1))
           end
         else Ok rules0) with
  | Err unread => unread
  | Ok rules =>
      if bool_decide ((iptablesDecide rules port).1 = ruleAbsent) && bool_decide (jump = "") && negb diverted
      then match unseen with Some r => r | None => iptConclude input rules jump port end
      else iptConclude input rules jump port
  end.

(** The lines a walk sees: each jump replaced by the chain's lines. *)
Definition walked_lines (chain : string) (ls : list string) : list string :=
  concat (map (fun l => if iptTSInputJump l then Split nl (trim_right (fun c => eqc c nl) chain) else [l]) ls).

Lemma iptInlineChain_lines input chain :
  Split nl (iptInlineChain input chain) = walked_lines chain (Split nl input).
Proof.
  unfold iptInlineChain, walked_lines. rewrite Split_Join_concat.
  2:{ pose proof (Split_ne nl input). by destruct (Split nl input). }
  rewrite map_map. f_equal. apply map_ext_in. intros l Hl.
  destruct (iptTSInputJump l); [done|]. apply Split_no_byte.
  pose proof (Split_parts_no_byte nl input) as H. rewrite Forall_forall in H.
  apply H. by apply list_elem_of_In.
Qed.

Lemma walked_lines_app chain l1 l2 : walked_lines chain (l1 ++ l2) = walked_lines chain l1 ++ walked_lines chain l2.
Proof. unfold walked_lines. by rewrite map_app, concat_app. Qed.

Lemma walked_lines_plain chain ls :
  Forall (fun l => iptTSInputJump l = false) ls -> walked_lines chain ls = ls.
Proof. induction 1 as [|l ls Hl _ IH]; [done|]. unfold walked_lines in *. cbn. by rewrite Hl, IH. Qed.

Lemma existsb_app_single {A} (p : A -> bool) l x : p x = false -> existsb p (l ++ [x]) = existsb p l.
Proof. intros H. rewrite existsb_app. cbn. by rewrite H, !orb_false_r. Qed.

Lemma legacy_not_jump port line :
  iptTSInputJump line = true -> is_legacy_line port line = false /\ is_unscoped_line port line = false.
Proof.
  unfold iptTSInputJump. intros H%bool_decide_eq_true. split.
  - apply bool_decide_eq_false. rewrite H. done.
  - unfold is_unscoped_line. rewrite (ruleFields_fields line), H by (rewrite H; by repeat constructor).
    by rewrite !andb_false_r || done.
Qed.

(** Undecided walked lines mean no rule of setup in the lines themselves. *)
Lemma walked_undecided port chain ls :
  (0 <= port <= max_int64)%Z ->
  Forall (fun l => iptDecideLine l port = None) (walked_lines chain ls) ->
  List.filter (is_legacy_line port) ls = [] /\ List.filter (is_unscoped_line port) ls = [].
Proof.
  intros Hp. unfold walked_lines. induction ls as [|l ls IH]; [done|]. cbn. rewrite Forall_app.
  intros [Hl Hls]. destruct (IH Hls) as [-> ->].
  destruct (iptTSInputJump l) eqn:E; [by destruct (legacy_not_jump port l E) as [-> ->]|].
  destruct (undecided_no_copies port [l] Hp Hl) as [H1 H2]. cbn in H1, H2.
  by destruct (is_legacy_line port l), (is_unscoped_line port l).
Qed.

Section AppendToListing.
Context (port : Z) (Hport : (0 <= port <= max_int64)%Z).
Let line := printed_line (iptablesAppend port).

(** The lines of a listing after the append are those before it, the new rule,
    and the empty last one. *)
Lemma appended_lines y :
  exists z, Split nl (iptRules (y +:+ newline)) = z ++ [""]
    /\ Split nl (iptRules ((y +:+ newline) +:+ line +:+ newline)) = z ++ [line; ""].
Proof using Hport.
  assert (no_byte dquote (line +:+ newline) = true) as Hq.
  { rewrite no_byte_app. unfold line. rewrite append_line_no_byte by (done || by left). done. }
  rewrite (iptRules_app (y +:+ newline)) by done. destruct (iptRules_ends_nl y) as [y' ->].
  exists (Split nl y'). split; [exact (Split_app nl y' "")|].
  rewrite str_app_assoc. change (y' +:+ newline +:+ line +:+ newline) with (y' +:+ String nl (line +:+ String nl "")).
  rewrite Split_app, Split_app_sep; [done|]. unfold line. apply append_line_no_byte; [done|by right].
Qed.

End AppendToListing.

Lemma iptConclude_state input rules jump port :
  state (iptConclude input rules jump port) = ruleAbsent ->
  (iptablesDecide rules port).1 = ruleAbsent /\ jump = "".
Proof.
  unfold iptConclude. destruct (iptablesDecide rules port) as [st rule]. cbn.
  destruct (bool_decide (st = ruleAbsent)) eqn:E; cbn.
  - destruct (decide (jump = "")) as [->|Hj]; [|by rewrite bool_decide_eq_false_2].
    intros _. split; [by apply bool_decide_eq_true in E|done].
  - destruct (iptUnscopedRead input rules port st). cbn. apply bool_decide_eq_false in E. done.
Qed.

(** The lines an absent answer walked: all undecided, none a qualified jump. *)
Lemma iptAnswer_absent out chain unseen port :
  (forall r, unseen = Some r -> state r <> ruleAbsent) ->
  state (iptAnswer out chain unseen port) = ruleAbsent ->
  Forall (fun l => qualified_jump l = false) (Split nl (iptRules out))
  /\ (existsb iptTSInputJump (Split nl (iptRules out)) = true -> chain.2 = None)
  /\ Forall (fun l => iptDecideLine l port = None)
       (if existsb iptTSInputJump (Split nl (iptRules out))
        then walked_lines (iptRules chain.1) (Split nl (iptRules out)) else Split nl (iptRules out)).
Proof.
  intros Hu. unfold iptAnswer. destruct (iptBeforeQualifiedJump (iptRules out)) as [rules0 jump] eqn:Ej.
  intros H.
  assert (Hj : jump = "").
  { destruct (existsb iptTSInputJump (Split nl rules0)); [destruct chain.2; [done|]|];
      repeat case_match; try (by apply iptConclude_state in H as [_ ?]); by destruct (Hu _ eq_refl). }
  subst jump. assert (Hq : (iptBeforeQualifiedJump (iptRules out)).2 = "") by (by rewrite Ej).
  apply iptBeforeQualifiedJump_none in Hq. pose proof Hq as Hall.
  apply iptBeforeQualifiedJump_all in Hall. rewrite Ej in Hall. injection Hall as ->.
  split; [done|]. destruct (existsb iptTSInputJump (Split nl (iptRules out))) eqn:Ed.
  - destruct chain.2; [done|]. split; [done|].
    rewrite <- iptInlineChain_lines. apply iptDecideLines_absent. rewrite andb_false_r in H.
    by apply iptConclude_state in H as [? _].
  - split; [done|]. apply iptDecideLines_absent.
    repeat case_match; try (by apply iptConclude_state in H as [? _]); by destruct (Hu _ eq_refl).
Qed.

Section AppendAnswer.
Context (port : Z) (Hport : (0 <= port <= max_int64)%Z).
Let line := printed_line (iptablesAppend port).

Lemma append_decides_after ls :
  Forall (fun l => iptDecideLine l port = None) ls ->
  iptDecideLines (ls ++ [line; ""]) port = (rulePresent, "").
Proof using Hport.
  intros H. rewrite iptDecideLines_app by done. cbn [app iptDecideLines]. unfold line.
  by rewrite append_line_decides, Z.eqb_refl.
Qed.

(** A read that found nothing finds the appended rule, and nothing else. *)
Lemma iptAnswer_after_append y chain unseen0 unseen :
  (forall r, unseen0 = Some r -> state r <> ruleAbsent) ->
  state (iptAnswer (y +:+ newline) chain unseen0 port) = ruleAbsent ->
  let r := iptAnswer ((y +:+ newline) +:+ line +:+ newline) chain unseen port in
  state r = rulePresent /\ copies r = 0%nat /\ foreign r = [] /\ ufwInactive r = false.
Proof using Hport.
  intros Hu0 Habs. apply iptAnswer_absent in Habs as (Hq & Hc & Hd); [|done].
  destruct (appended_lines port Hport y) as (z & Hz & Hz'). fold line in Hz'.
  rewrite Hz in Hq, Hc, Hd. apply Forall_app in Hq as [Hqz _].
  rewrite existsb_app_single in Hc, Hd by done.
  set (i1 := iptRules ((y +:+ newline) +:+ line +:+ newline)) in *.
  assert (Hj1 : iptBeforeQualifiedJump i1 = (i1, "")).
  { apply iptBeforeQualifiedJump_all. rewrite Hz'. apply Forall_app. split; [done|].
    repeat constructor. unfold line. by apply append_not_qualified. }
  assert (Hdiv : existsb iptTSInputJump (Split nl i1) = existsb iptTSInputJump z).
  { rewrite Hz'. change [line; ""] with ([line] ++ [""]). rewrite app_assoc, !existsb_app_single; [done|..|done].
    unfold line. by apply append_not_jump. }
  (* what the walk decides, and the rules of setup the listing holds *)
  assert (Hfin : forall rules, iptDecideLines (Split nl rules) port = (rulePresent, "") ->
            List.filter (is_legacy_line port) z = [] -> List.filter (is_unscoped_line port) z = [] ->
            let r := iptConclude i1 rules "" port in
            state r = rulePresent /\ copies r = 0%nat /\ foreign r = [] /\ ufwInactive r = false).
  { intros rules Hr Hl Hu. unfold iptConclude, iptablesDecide. rewrite Hr. cbn.
    unfold iptUnscopedRead, iptLegacyCopies, iptUnscoped. rewrite Hz', !List.filter_app, Hl, Hu. cbn.
    unfold line. by rewrite append_not_legacy, append_not_unscoped. }
  unfold iptAnswer. fold i1. rewrite Hj1, Hdiv.
  destruct (existsb iptTSInputJump z) eqn:Ez.
  - rewrite Hc by done. rewrite andb_false_r. rewrite walked_lines_app in Hd.
    pose proof (walked_undecided port (iptRules chain.1) z Hport) as Hw.
    apply Forall_app in Hd as [Hd _]. destruct (Hw Hd) as [Hl Hu]. apply Hfin; [|done|done].
    rewrite iptInlineChain_lines, Hz', walked_lines_app.
    rewrite (walked_lines_plain _ [line; ""]); [by apply append_decides_after|].
    constructor; [by apply append_not_jump|by constructor].
  - apply Forall_app in Hd as [Hd _].
    destruct (undecided_no_copies port z Hport Hd) as [Hl Hu].
    assert (Hp : iptDecideLines (Split nl i1) port = (rulePresent, "")).
    { rewrite Hz'. by apply append_decides_after. }
    unfold iptablesDecide. rewrite Hp. cbn. by apply Hfin.
Qed.
End AppendAnswer.

(** A hidden chain always makes the read unknown. *)
Lemma tsInputInNFT_unknown port : returns (fun o => forall r, o = Some r -> state r = ruleUnknown) (tsInputInNFT port).
Proof. intros [e|]; cbn; [done|]. intros [out [e|]]; cbn; intros r; repeat case_match; by intros [= <-]. Qed.

Lemma tsInputUnreached_unknown port : returns (fun o => forall r, o = Some r -> state r = ruleUnknown) (tsInputUnreached port).
Proof.
  intros [out [e|]]; cbn; repeat case_match; try apply tsInputInNFT_unknown; intros r; by intros [= <-].
Qed.

Section Run.
Context {W : Type} (h : handler W) (listing : W -> string) `{!IptablesHost h listing}.
Context (port : Z) (Hport : (0 <= port <= max_int64)%Z).

Lemma host_read X (c : call X) w : mutating X c = false -> h X c w = ((h X c w).1, w).
Proof using Type*. intros H. rewrite (surjective_pairing (h X c w)) at 1. by rewrite host_reads. Qed.

Lemma run_reads {A} (p : prog A) w : only read_call p -> run h p w = ((run h p w).1, w).
Proof using Type*.
  intros H. rewrite (surjective_pairing (run h p w)) at 1.
  by rewrite (read_only_state h p host_reads H).
Qed.

Definition ts_chain (w : W) : string * option exec_error := (h _ (Output backendIPT ["-S"; tsInputChain]) w).1.
Definition ts_unseen (w : W) : option firewallRead := (run h (tsInputUnreached port) w).1.

Lemma run_readIptables w :
  run h (readIptables port) w = (iptAnswer (listing w) (ts_chain w) (ts_unseen w) port, w).
Proof using Type*.
  unfold readIptables. cbn [mbind prog_bind do prog_bind_fix run].
  rewrite host_read by done. rewrite host_listing. unfold iptAnswer, ts_chain, ts_unseen.
  destruct (iptBeforeQualifiedJump (iptRules (listing w))) as [rules0 jump].
  rewrite run_bind_fix. destruct (existsb iptTSInputJump (Split nl rules0)).
  - cbn [mbind prog_bind do prog_bind_fix run]. rewrite host_read by done.
    destruct (h _ (Output backendIPT ["-S"; tsInputChain]) w).1 as [chain [e|]]; cbn -[iptConclude]; [done|].
    by rewrite andb_false_r.
  - cbn [run mret prog_ret]. destruct (_ && _ && _); [|done]. rewrite run_bind_fix.
    rewrite (run_reads _ w) by apply tsInputUnreached_reads. done.
Qed.

Lemma run_readLinuxFirewall w :
  run h (readLinuxFirewall port) w = (iptAnswer (listing w) (ts_chain w) (ts_unseen w) port, w).
Proof using Type*.
  rewrite <- run_readIptables. unfold readLinuxFirewall.
  cbn [mbind prog_bind do prog_bind_fix run].
  rewrite host_read by done. rewrite host_elevated. cbn [negb].
  cbn [mbind prog_bind do prog_bind_fix run]. rewrite host_read by done.
  destruct (host_no_ufw w) as [e He]. rewrite He.
  cbn [mbind prog_bind do prog_bind_fix run]. rewrite host_read by done. by rewrite host_iptables.
Qed.
End Run.

(** The setup step on such a host, where nothing decides the port and where an
    allowing rule is the only one. *)
Section SetupRun.
Context {W : Type} (h : handler W) (listing : W -> string) `{!IptablesHost h listing}.
Context (port : Z) (Hport : (0 <= port <= max_int64)%Z).

Let answer (w : W) := iptAnswer (listing w) (ts_chain h w) (ts_unseen h port w) port.

Lemma ts_unseen_unknown w r : ts_unseen h port w = Some r -> state r = ruleUnknown.
Proof using Type. apply (returns_run h _ _ w (tsInputUnreached_unknown port)). Qed.

Lemma answer_absent_plain w :
  state (answer w) = ruleAbsent -> ufwInactive (answer w) = false /\ backend (answer w) = backendIPT.
Proof using Type.
  unfold answer, iptAnswer, iptConclude. pose proof (ts_unseen_unknown w) as Hu.
  repeat case_match; try done; cbn; intros Hs; simplify_eq; try done.
  all: by rewrite (Hu _ eq_refl) in Hs.
Qed.

Lemma run_setup_absent w :
  state (answer w) = ruleAbsent ->
  (run h (firewallSetupStep port) w).2 = (h _ (Run backendIPT (iptablesAppend port)) w).2
  /\ StepOutcome (run h (firewallSetupStep port) w).1
     = match (h _ (Run backendIPT (iptablesAppend port)) w).1 with
       | Some _ => OutcomeFailed | None => OutcomeChanged end.
Proof using Type*.
  intros H. destruct (answer_absent_plain w H) as [Hu Hb].
  unfold firewallSetupStep. rewrite run_bind, (run_readLinuxFirewall h listing) by done. fold (answer w).
  unfold firewallSetupOn, inactiveUFWDecides, addFirewallRule, iptAdd. rewrite Hu, H, Hb.
  rewrite (bool_decide_eq_false_2 (backendIPT = backendUFW)) by done. cbn.
  by destruct (h _ (Run backendIPT (iptablesAppend port)) w) as [[e|] w'].
Qed.

Lemma run_setup_present w :
  (state (answer w) = rulePresent /\ copies (answer w) = 0%nat /\ foreign (answer w) = [] /\ ufwInactive (answer w) = false) ->
  (StepOutcome (run h (firewallSetupStep port) w).1 = OutcomeOK /\ trace h (firewallSetupStep port) w = [])
  /\ (run h (firewallSetupStep port) w).2 = w.
Proof using Type*.
  intros (H & Hc & Hf & Hu). unfold firewallSetupStep.
  rewrite run_bind, trace_bind, !(run_readLinuxFirewall h listing) by done. fold (answer w).
  rewrite trace_read_only by apply readLinuxFirewall_reads. cbn [fst snd].
  unfold firewallSetupOn, inactiveUFWDecides, iptLegacy, extraCopies. rewrite Hu, H, Hc, Hf.
  rewrite (bool_decide_eq_true_2 ([] = [])) by done. cbn. by rewrite andb_false_r.
Qed.
End SetupRun.

(** * A simulated host

    iptables with a list of INPUT rules in the form it prints them: [-A] adds
    at the end, [-D] deletes the first equal rule or fails, and there is no
    ts-input chain and no ufw or nft. *)
Definition sim_listing (rules : list string) : string :=
  Join ("-P INPUT ACCEPT" :: rules) newline +:+ newline.

Fixpoint delete_first (r : string) (rules : list string) : option (list string) :=
  match rules with
  | [] => None
  | x :: l => if bool_decide (x = r) then Some l else cons x <$> delete_first r l
  end.

Definition sim_error (text : string) : exec_error := mkExecError text (Some text) false.

Definition sim_run (name : string) (args : list string) (rules : list string) : option exec_error * list string :=
  if negb (bool_decide (name = backendIPT)) then (Some (sim_error "no such command"), rules)
  else match args with
       | "-A" :: _ => (None, rules ++ [Join (iptPrinted args) " "])
       | "-D" :: r =>
           match delete_first (Join (iptPrinted ("-A" :: r)) " ") rules with
           | Some rules' => (None, rules')
           | None => (Some (sim_error "iptables: Bad rule"), rules)
           end
       | _ => (Some (sim_error "iptables: bad argument"), rules)
       end.

Definition sim_output (name : string) (args : list string) (rules : list string) : string * option exec_error :=
  if bool_decide (name = backendIPT) && bool_decide (args = ["-S"; iptInput]) then (sim_listing rules, None)
  else ("", Some (sim_error "iptables: No chain/target/match by that name")).

Definition sim_host : handler (list string) := fun X c =>
  match c in call X return list string -> X * list string with
  | Run name args => sim_run name args
  | Output name args => fun rules => (sim_output name args rules, rules)
  | LookPath name => fun rules =>
      (if bool_decide (name = backendIPT) then None else Some (sim_error "not found"), rules)
  | Elevated => fun rules => (true, rules)
  | ReadFile _ => fun rules => (Err (mkExecError "no such file" None true), rules)
  | WriteFile _ _ => fun rules => (Some (sim_error "read-only"), rules)
  end.

Lemma Join_app_single l x sep : l <> [] -> Join (l ++ [x]) sep = Join l sep +:+ sep +:+ x.
Proof.
  induction l as [|y l IH]; [done|]. intros _. destruct l as [|z l]; [done|].
  change ((y :: z :: l) ++ [x]) with (y :: (z :: l) ++ [x]).
  rewrite !Join_cons by done. rewrite IH by done. by rewrite !str_app_assoc.
Qed.

Lemma sim_listing_app rules x : sim_listing (rules ++ [x]) = sim_listing rules +:+ x +:+ newline.
Proof.
  unfold sim_listing.
  change ("-P INPUT ACCEPT" :: rules ++ [x]) with (("-P INPUT ACCEPT" :: rules) ++ [x]).
  rewrite Join_app_single by done. by rewrite !str_app_assoc.
Qed.

#[export] Instance sim_host_iptables : IptablesHost sim_host sim_listing.
Proof.
  split.
  - intros X c w H. by destruct c.
  - done.
  - intros w. by eexists.
  - done.
  - done.
  - intros w. by eexists.
  - intros port w _. change (sim_listing (w ++ [printed_line (iptablesAppend port)])
      = sim_listing w +:+ printed_line (iptablesAppend port) +:+ newline).
    apply sim_listing_app.
  - done.
Qed.

(** * Properties *)

Lemma deleteCopies_trace {W} (h : handler W) port n w :
  exists k, (k <= n)%nat
    /\ trace h (deleteCopies n port) w = replicate k (MRun backendIPT (iptablesDelete port))
    /\ ((run h (deleteCopies n port) w).1 = None -> k = n).
Proof.
  revert w. induction n as [|n IH]; intros w; [by exists 0%nat|].
  cbn [deleteCopies mbind prog_bind do prog_bind_fix trace run].
  destruct (h _ (Run backendIPT (iptablesDelete port)) w) as [[e|] w'].
  - exists 1%nat. cbn. split; [lia|]. by split.
  - destruct (IH w') as (k & Hk & Ht & Hr). exists (S k). cbn. rewrite Ht.
    split; [lia|]. split; [done|]. intros H. by rewrite (Hr H).
Qed.

(** Replacing the unscoped rules, the rule scoped to the tailnet goes in
    before any delete; a failed append deletes nothing; at most the counted
    copies are deleted, and the step reports a change only when all were. *)
Theorem legacy_append_before_delete :
  forall (W : Type) (h : handler W) (read : firewallRead) (port : Z) (w : W),
    exists k : nat, (k <= copies read)%nat
      /\ trace h (iptLegacySetupStep read port) w
         = (if scoped read then [] else [MRun backendIPT (iptablesAppend port)])
           ++ replicate k (MRun backendIPT (iptablesDelete port))
      /\ (scoped read = false /\ (h _ (Run backendIPT (iptablesAppend port)) w).1 <> None -> k = 0%nat)
      /\ (StepOutcome (run h (iptLegacySetupStep read port) w).1 = OutcomeChanged -> k = copies read).
Proof.
  intros W h read port w. unfold iptLegacySetupStep. destruct (scoped read).
  - cbn [mbind prog_bind mret prog_ret prog_bind_fix].
    destruct (deleteCopies_trace h port (copies read) w) as (k & Hk & Ht & Hr). exists k.
    split; [done|]. change (prog_bind_fix ?f ?p) with (p ≫= f). rewrite trace_bind, run_bind, Ht.
    split; [by destruct (run h _ w).1 as [e|]; cbn; repeat case_match; cbn; rewrite ?app_nil_r|].
    split; [by intros [? _]|]. destruct (run h (deleteCopies _ _) w) as [[e|] w'] eqn:E; [done|].
    intros _. by apply Hr.
  - unfold iptAdd. cbn [mbind prog_bind do prog_bind_fix trace run].
    destruct (h _ (Run backendIPT (iptablesAppend port)) w) as [[e|] w1] eqn:E; cbn [fst].
    + exists 0%nat. split; [lia|]. by split.
    + destruct (deleteCopies_trace h port (copies read) w1) as (k & Hk & Ht & Hr). exists k.
      split; [done|]. change (prog_bind_fix ?f ?p) with (p ≫= f). rewrite trace_bind, run_bind, Ht.
      split; [by destruct (run h _ w1).1 as [e|]; cbn; repeat case_match; cbn; rewrite ?app_nil_r|].
      split; [by intros [_ ?]|]. destruct (run h (deleteCopies _ _) w1) as [[e|] w'] eqn:E'; [done|].
      intros _. by apply Hr.
Qed.

(** C26: setup converges on a host where iptables is the firewall: when nothing
    decided the port and the step added its rule, running the step again finds
    the port allowed, runs no mutating command and leaves the host as it is. *)
Theorem firewall_setup_converges :
  forall (W : Type) (h : handler W) (listing : W -> string) (port : Z) (w : W),
    IptablesHost h listing ->
    (0 <= port <= 65535)%Z ->
    state (run h (readLinuxFirewall port) w).1 = ruleAbsent ->
    StepOutcome (run h (firewallSetupStep port) w).1 = OutcomeChanged ->
    let w1 := (run h (firewallSetupStep port) w).2 in
    StepOutcome (run h (firewallSetupStep port) w1).1 = OutcomeOK
    /\ trace h (firewallSetupStep port) w1 = []
    /\ (run h (firewallSetupStep port) w1).2 = w1.
Proof.
  intros W h listing port w Hh Hp Habs Hchg.
  assert (Hport : (0 <= port <= max_int64)%Z) by (unfold max_int64; lia).
  rewrite (run_readLinuxFirewall h listing) in Habs by done. cbn [fst] in Habs.
  destruct (host_lines w) as [y Hy].
  destruct (run_setup_absent h listing port Hport w Habs) as [Hrun Hout].
  set (app := Run backendIPT (iptablesAppend port)) in *.
  rewrite Hchg in Hout. destruct (h _ app w).1 as [e|] eqn:Happ; [done|]. clear Hout.
  cbv zeta. rewrite Hrun. set (w1 := (h _ app w).2).
  pose proof (host_append port w Happ) as Hl1. fold app w1 in Hl1.
  assert (Hun : forall v r, ts_unseen h port v = Some r -> state r <> ruleAbsent).
  { intros v r Hr. pose proof (returns_run h _ _ v (tsInputUnreached_unknown port) r Hr) as Hu. by rewrite Hu. }
  assert (Hch : ts_chain h w1 = ts_chain h w) by apply host_other_chains.
  rewrite Hy in Habs, Hl1.
  pose proof (iptAnswer_after_append port Hport y (ts_chain h w) (ts_unseen h port w) (ts_unseen h port w1) (Hun w) Habs) as Hans.
  rewrite <- Hl1, <- Hch in Hans.
  destruct (run_setup_present h listing port Hport w1 Hans) as [[H1 H2] H3]. by rewrite H1, H2, H3.
Qed.

Lemma firewall_setup_converges_witness :
  let w1 := (run sim_host (firewallSetupStep 3389) ["-A INPUT -i lo -j ACCEPT"]).2 in
  w1 = ["-A INPUT -i lo -j ACCEPT"; printed_line (iptablesAppend 3389)]
  /\ StepOutcome (run sim_host (firewallSetupStep 3389) w1).1 = OutcomeOK
  /\ trace sim_host (firewallSetupStep 3389) w1 = []
  /\ (run sim_host (firewallSetupStep 3389) w1).2 = w1.
Proof.
  split; [by vm_compute|].
  apply (firewall_setup_converges _ sim_host sim_listing 3389 ["-A INPUT -i lo -j ACCEPT"]).
  - exact _.
  - lia.
  - by vm_compute.
  - by vm_compute.
Defined.

(** A host whose INPUT holds the rule an earlier setup appended and, after it,
    a DROP of everything else. *)
Definition legacy_then_drop : list string :=
  [printed_line (iptablesLegacy 3389); "-A INPUT -j DROP"].

(** Replacing the unscoped rule can close the port: the scoped rule is
    appended at the end of INPUT, behind a DROP that follows the old rule, and
    the step reports that the port is now allowed on the tailnet interface
    while its next read says the DROP blocks it. *)
Theorem legacy_replacement_can_close_port :
  let before := (run sim_host (readLinuxFirewall 3389) legacy_then_drop).1 in
  let step := run sim_host (firewallSetupStep 3389) legacy_then_drop in
  state before = rulePresent
  /\ StepOutcome step.1 = OutcomeChanged
  /\ Message step.1 = "Firewall rule replaced: TCP 3389 is now allowed on tailscale0 only (iptables)"
  /\ step.2 = ["-A INPUT -j DROP"; printed_line (iptablesAppend 3389)]
  /\ state (run sim_host (readLinuxFirewall 3389) step.2).1 = ruleBlocked
  /\ StepOutcome (run sim_host (firewallSetupStep 3389) step.2).1 <> OutcomeOK.
Proof. vm_compute. repeat split; discriminate. Qed.
