(* ===== verification/XrdpPort.v ===== *)
(** The xrdp listener step (src/internal/host/xrdp_port.go): reading the port
    of [Globals] in xrdp.ini, rewriting it, and the setup and check halves of
    the step. *)
From S2P Require Import Prelude GoStrings GoNet EnvFile HostRunner.
From Stdlib Require Import Ascii.

Open Scope bool_scope.

Definition xrdpINIPath := "/etc/xrdp/xrdp.ini".
Definition xrdpPortName := "xrdp port".
Definition keyPort := "port".
Definition globalsHeader := "[Globals]".

(** * The value of a port line *)

(** White space of the regular expression: not the vertical tab. *)
Definition re_space (c : ascii) : bool := is_space c && negb (eqc c "011").

(** [^((?:tcp6?://[^\s]*:)?)(\d+)$]: what precedes the port, and its digits.
    The digits hold no colon, so the prefix ends at the last one. *)
Definition xrdpPortValue (value : string) : option (string * string) :=
  let '(before, digits) :=
    match last_index_byte ":" value with
    | Some i => (str_take (S i) value, str_drop (S i) value)
    | None => ("", value)
    end in
  let scheme := bool_decide (before = "")
    || ((HasPrefix before "tcp://" || HasPrefix before "tcp6://") && negb (str_any re_space before)) in
  if scheme && negb (bool_decide (digits = "")) && str_all is_digit digits then Some (before, digits) else None.

(** A number out of range is the largest. *)
Definition port_number (digits : string) : Z := default max_int64 (Atoi digits).

(** * Reading *)

(** [None] is the index -1. *)
Record xrdpListener : Type := mkListener {
  lines : list string;
  line : option nat;
  globals : option nat;
  value : string;
  prefix : string;
  port : Z;
}.

Definition see_globals (i : nat) (l : xrdpListener) : xrdpListener :=
  mkListener (lines l) (line l) (match globals l with None => Some i | g => g end) (value l) (prefix l) (port l).
Definition see_value (i : nat) (v : string) (l : xrdpListener) : xrdpListener :=
  mkListener (lines l) (Some i) (globals l) v (prefix l) (port l).
Definition see_port (before digits : string) (l : xrdpListener) : xrdpListener :=
  mkListener (lines l) (line l) (globals l) (value l) before (port_number digits).

Definition globalsPort (section line : string) : option string :=
  let '(key, value, found) := Cut "=" line in
  if negb (bool_decide (section = globalsHeader)) || negb found || negb (bool_decide (TrimSpace key = keyPort)) then None
  else Some (TrimSpace value).

Definition is_header (line : string) : bool := HasPrefix line "[" && HasSuffix line "]".

(** The loop of [readXRDPListener] from line [i] in [section]. *)
Fixpoint readLines (i : nat) (section : string) (l : xrdpListener) (rest : list string)
    : string * xrdpListener * option string :=
  match rest with
  | [] => (section, l, None)
  | raw :: rest =>
      let text := TrimSpace raw in
      if is_header text then
        readLines (S i) text (if bool_decide (text = globalsHeader) then see_globals i l else l) rest
      else
        match globalsPort section text with
        | None => readLines (S i) section l rest
        | Some v =>
            let l := see_value i v l in
            match xrdpPortValue v with
            | None => (section, l, Some (xrdpINIPath +:+ " sets port=" +:+ v +:+ ", which is not one TCP port"))
            | Some (before, digits) => readLines (S i) section (see_port before digits l) rest
            end
        end
  end.

Definition parseListener (data : string) : xrdpListener * option string :=
  let ls := Split nl data in
  let '(_, l, err) := readLines 0 "" (mkListener ls None None "" "" defaultRDPPort) ls in (l, err).

Definition zeroListener : xrdpListener := mkListener [] (Some 0%nat) (Some 0%nat) "" "" 0.

Definition readXRDPListener : prog (xrdpListener * option exec_error) :=
  data ← do (ReadFile xrdpINIPath);
  mret match data with
       | Err e => (zeroListener, Some e)
       | Ok data => let '(l, err) := parseListener data in (l, (fun t => mkExecError t None false) <$> err)
       end.

(** * Writing *)

Definition entry (l : xrdpListener) (p : Z) : string := "port=" +:+ prefix l +:+ Itoa p.
Definition withPort (l : xrdpListener) (p : Z) : string :=
  Join (match line l with
        | Some i => <[i := entry l p]> (lines l)
        | None => let at_ := match globals l with Some g => S g | None => 0%nat end in
                  take at_ (lines l) ++ entry l p :: drop at_ (lines l)
        end) newline.

(** * The step *)

(** Go's zero step; the callers drop it, since it is not included. *)
Definition emptyStep : SetupStep := mkStep "" OutcomeOK false "" "".

Definition xrdpPortJudge (l : xrdpListener) (err : option exec_error) (declared : Z) : SetupStep * bool :=
  match err with
  | Some e =>
      if err_not_exist e then
        if (declared =? defaultRDPPort)%Z then (emptyStep, false)
        else (newStep xrdpPortName OutcomeFailed ("Cannot apply RDP port " +:+ Itoa declared +:+ ": " +:+ xrdpINIPath +:+ " not found")
                "install xrdp, then re-run ts-bridge host setup", true)
      else (newStep xrdpPortName OutcomeFailed ("Cannot read the xrdp listener: " +:+ err_text e)
              ("set port=" +:+ Itoa declared +:+ " in the [Globals] section of " +:+ xrdpINIPath +:+ " and restart xrdp"), true)
  | None =>
      if (port l =? declared)%Z then
        (newStep xrdpPortName OutcomeOK ("xrdp listens on TCP " +:+ Itoa declared) "", negb (declared =? defaultRDPPort)%Z)
      else if bool_decide (line l = None) && bool_decide (globals l = None) then
        (newStep xrdpPortName OutcomeFailed ("Cannot apply RDP port " +:+ Itoa declared +:+ ": " +:+ xrdpINIPath +:+ " has no [Globals] section")
           ("add a [Globals] section with port=" +:+ Itoa declared +:+ " to " +:+ xrdpINIPath +:+ " and restart xrdp"), true)
      else (newStep xrdpPortName OutcomeChanged ("xrdp listens on TCP " +:+ Itoa (port l) +:+ ", not the declared " +:+ Itoa declared)
              "run ts-bridge host setup as root", true)
  end.

Definition xrdpPortRead (declared : Z) : prog (xrdpListener * SetupStep * bool) :=
  '(l, err) ← readXRDPListener; mret (l, (xrdpPortJudge l err declared).1, (xrdpPortJudge l err declared).2).

Definition xrdpPortCheckStep (declared : Z) : prog (SetupStep * bool) :=
  '(_, step, included) ← xrdpPortRead declared; mret (step, included).

Definition xrdpPortSetupStep (declared : Z) : prog (SetupStep * bool) :=
  '(l, step, included) ← xrdpPortRead declared;
  if negb (bool_decide (StepOutcome step = OutcomeChanged)) then mret (step, included)
  else
    let fixit := "set port=" +:+ Itoa declared +:+ " in the [Globals] section of " +:+ xrdpINIPath +:+ ", as root, and restart xrdp" in
    werr ← do (WriteFile xrdpINIPath (withPort l declared));
    match werr with
    | Some e => mret (newStep xrdpPortName OutcomeFailed ("Could not write " +:+ xrdpINIPath +:+ ": " +:+ err_text e) fixit, true)
    | None =>
        rerr ← do (Run "systemctl" ["restart"; "xrdp"]);
        mret match rerr with
             | Some e =>
                 (newStep xrdpPortName OutcomeFailed ("xrdp set to TCP " +:+ Itoa declared +:+ ", but restarting it failed: " +:+ err_text e)
                    "run `systemctl restart xrdp` as root", true)
             | None =>
                 (newStep xrdpPortName OutcomeChanged
                    ("xrdp listens on TCP " +:+ Itoa declared +:+ " (was " +:+ Itoa (port l) +:+ "); xrdp restarted") "", true)
             end
    end.

(** * Facts *)

(** ** Scanning *)

(** No line of [rest] gives a port, read from [section]. *)
Fixpoint quiet (section : string) (rest : list string) : bool :=
  match rest with
  | [] => true
  | raw :: rest =>
      let text := TrimSpace raw in
      if is_header text then quiet text rest
      else match globalsPort section text with Some _ => false | None => quiet section rest end
  end.

(** The listener but for where [Globals] is. *)
Definition same_port (l l' : xrdpListener) : Prop :=
  lines l' = lines l /\ line l' = line l /\ value l' = value l /\ prefix l' = prefix l /\ port l' = port l.

Lemma same_port_refl l : same_port l l.
Proof. done. Qed.

Lemma same_port_trans l1 l2 l3 : same_port l1 l2 -> same_port l2 l3 -> same_port l1 l3.
Proof. unfold same_port. intuition congruence. Qed.

Lemma quiet_read i section l rest :
  quiet section rest = true ->
  exists section' l', readLines i section l rest = (section', l', None) /\ same_port l l'.
Proof.
  revert i section l. induction rest as [|raw rest IH]; intros i section l; [by eexists _, _|]. cbn.
  destruct (is_header (TrimSpace raw)).
  - intros H. destruct (IH (S i) (TrimSpace raw)
      (if bool_decide (TrimSpace raw = globalsHeader) then see_globals i l else l) H) as (s & l' & E & P).
    exists s, l'. split; [done|]. revert P. by destruct (bool_decide _).
  - destruct (globalsPort section (TrimSpace raw)); [done|]. apply IH.
Qed.

Lemma readLines_app i section l a b :
  readLines i section l (a ++ b) =
    match readLines i section l a with
    | (section', l', None) => readLines (i + length a) section' l' b
    | r => r
    end.
Proof.
  revert i section l. induction a as [|raw a IH]; intros i section l; cbn; [by rewrite Nat.add_0_r|].
  rewrite <- Nat.add_succ_comm.
  destruct (is_header _); [apply IH|]. destruct (globalsPort _ _) as [v|]; [|apply IH].
  destruct (xrdpPortValue v) as [[before digits]|]; [apply IH|done].
Qed.

(** A line that gives the port. *)
Definition port_line (section raw before digits : string) : Prop :=
  is_header (TrimSpace raw) = false /\
  exists v, globalsPort section (TrimSpace raw) = Some v /\ xrdpPortValue v = Some (before, digits).

Lemma read_port_line i section l raw before digits b :
  port_line section raw before digits ->
  exists v, readLines i section l (raw :: b) = readLines (S i) section (see_port before digits (see_value i v l)) b.
Proof. intros (H1 & v & H2 & H3). exists v. cbn. by rewrite H1, H2, H3. Qed.

(** A successful scan met no port line, or ends after its last one. *)
Lemma readLines_last i section l rest section' l' :
  readLines i section l rest = (section', l', None) ->
  quiet section rest = true \/
  exists a raw b s1 l1 before digits, rest = a ++ raw :: b /\ readLines i section l a = (s1, l1, None) /\
    port_line s1 raw before digits /\ quiet s1 b = true /\
    line l' = Some (i + length a)%nat /\ prefix l' = before.
Proof.
  revert i section l. induction rest as [|raw rest IH]; intros i section l; [by left|]. cbn.
  destruct (is_header (TrimSpace raw)) eqn:Eh.
  - intros H. destruct (IH _ _ _ H) as [Hq|(a & raw' & b & s1 & l1 & bf & dg & -> & Ha & Hp & Hq & Hl & Hpre)]; [by left|].
    right. exists (raw :: a), raw', b, s1, l1, bf, dg. cbn. rewrite Eh. rewrite <- Nat.add_succ_comm. done.
  - destruct (globalsPort section (TrimSpace raw)) as [v|] eqn:Ev.
    + destruct (xrdpPortValue v) as [[bf dg]|] eqn:Ex; [|done]. intros H. right.
      destruct (IH _ _ _ H) as [Hq|(a & raw' & b & s1 & l1 & bf' & dg' & -> & Ha & Hp & Hq & Hl & Hpre)].
      * exists [], raw, rest, section, l, bf, dg. cbn. rewrite Nat.add_0_r.
        destruct (quiet_read (S i) section (see_port bf dg (see_value i v l)) rest Hq) as (s & l2 & E & (_ & P1 & _ & P2 & _)).
        rewrite E in H. injection H as -> ->. repeat split; try done. by exists v.
      * exists (raw :: a), raw', b, s1, l1, bf', dg'. cbn. rewrite Eh, Ev, Ex. rewrite <- Nat.add_succ_comm. done.
    + intros H. destruct (IH _ _ _ H) as [Hq|(a & raw' & b & s1 & l1 & bf & dg & -> & Ha & Hp & Hq & Hl & Hpre)]; [by left|].
      right. exists (raw :: a), raw', b, s1, l1, bf, dg. cbn. rewrite Eh, Ev. rewrite <- Nat.add_succ_comm. done.
Qed.

(** The lines a scan keeps, and the header it notes when no line gives a port. *)
Lemma readLines_lines i section l rest section' l' e :
  readLines i section l rest = (section', l', e) -> lines l' = lines l.
Proof.
  revert i section l. induction rest as [|raw rest IH]; intros i section l; cbn; [by intros [= <- <- <-]|].
  repeat case_match; intros H'; try (by rewrite (IH _ _ _ H')); by injection H' as <- <- <-.
Qed.

Lemma readLines_globals i section l rest section' l' e g :
  globals l = Some g -> readLines i section l rest = (section', l', e) -> globals l' = Some g.
Proof.
  revert i section l. induction rest as [|raw rest IH]; intros i section l Hg; cbn; [by intros [= <- <- <-]|].
  destruct (is_header _); [apply IH; destruct (bool_decide _); [cbn; by rewrite Hg|done]|].
  destruct (globalsPort _ _) as [v|]; [|by apply IH].
  destruct (xrdpPortValue v) as [[before digits]|]; [by apply IH|by intros [= <- <- <-]].
Qed.

Lemma quiet_globals i section l rest section' l' g :
  readLines i section l rest = (section', l', None) -> quiet section rest = true ->
  globals l = None -> globals l' = Some g ->
  exists a hdr b s1 l1, rest = a ++ hdr :: b /\ g = (i + length a)%nat /\ TrimSpace hdr = globalsHeader /\
    readLines i section l a = (s1, l1, None) /\ quiet globalsHeader b = true.
Proof.
  revert i section l. induction rest as [|raw rest IH]; intros i section l; cbn; [intros [= <- <-] _ -> [=]|].
  destruct (is_header (TrimSpace raw)) eqn:Eh.
  - destruct (bool_decide_reflect (TrimSpace raw = globalsHeader)) as [Eg|Eg]; intros H Hq Hn Hg.
    + exists [], raw, rest, section, l. rewrite Eg in Hq.
      assert (Hi : globals (see_globals i l) = Some i) by (cbn; by rewrite Hn).
      rewrite (readLines_globals _ _ _ _ _ _ _ i Hi H) in Hg.
      injection Hg as <-. repeat split; try done.
    + destruct (IH _ _ _ H Hq Hn Hg) as (a & hdr & b & s1 & l1 & -> & -> & Hh & Ha & Hb).
      exists (raw :: a), hdr, b, s1, l1. cbn. rewrite Eh, (bool_decide_eq_false_2 _ Eg), <- Nat.add_succ_comm. done.
  - destruct (globalsPort section (TrimSpace raw)) eqn:Ev; [done|]. intros H Hq Hn Hg.
    destruct (IH _ _ _ H Hq Hn Hg) as (a & hdr & b & s1 & l1 & -> & -> & Hh & Ha & Hb).
    exists (raw :: a), hdr, b, s1, l1. cbn. rewrite Eh, Ev, <- Nat.add_succ_comm. done.
Qed.

(** ** The rewritten line *)

(** A prefix the expression accepts. *)
Definition port_prefix (before : string) : Prop :=
  before = "" \/
  ((HasPrefix before "tcp://" = true \/ HasPrefix before "tcp6://" = true) /\ str_any re_space before = false /\
   exists r, before = r +:+ ":").

Lemma last_index_byte_take c s i : last_index_byte c s = Some i -> exists r, str_take (S i) s = r +:+ String c "".
Proof.
  revert i. induction s as [|x s IH]; intros i; cbn [last_index_byte]; [done|].
  destruct (last_index_byte c s) as [j|] eqn:E.
  - intros [= <-]. destruct (IH j eq_refl) as [r Hr]. exists (String x r).
    change (str_take (S (S j)) (String x s)) with (String x (str_take (S j) s)). by rewrite Hr.
  - destruct (eqc x c) eqn:Ex; [|done]. apply eqc_true in Ex as ->. intros [= <-]. by exists "".
Qed.

Lemma xrdpPortValue_prefix v before digits : xrdpPortValue v = Some (before, digits) -> port_prefix before.
Proof.
  unfold xrdpPortValue. destruct (last_index_byte ":" v) as [i|] eqn:E.
  - destruct (last_index_byte_take _ _ _ E) as [r Hr].
    generalize dependent (str_take (S i) v). generalize (str_drop (S i) v). intros d t ->.
    rewrite bool_decide_eq_false_2 by (by destruct r).
    cbn [orb]. destruct (_ && negb (str_any re_space _)) eqn:Ep; cbn [andb]; [|done].
    destruct (negb (bool_decide (d = "")) && _); [|done]. intros Hv. injection Hv as <- _. right. apply andb_true_iff in Ep as [Ep Es].
    apply orb_true_iff in Ep. apply negb_true_iff in Es. split; [done|]. split; [done|]. by exists r.
  - cbn. destruct (_ && _); [|done]. intros [= <- <-]. by left.
Qed.

Lemma xrdpPortValue_entry before n :
  port_prefix before -> (0 <= n)%Z -> xrdpPortValue (before +:+ Itoa n) = Some (before, Itoa n).
Proof.
  intros Hb Hn. pose proof (Itoa_all_digits n Hn) as Hd.
  assert (Hne : bool_decide (Itoa n = "") = false).
  { apply bool_decide_eq_false. pose proof (Itoa_word n Hn) as Hw. unfold is_word in Hw.
    apply andb_true_iff in Hw as [Hw _]. by apply negb_true_iff, bool_decide_eq_false in Hw. }
  unfold xrdpPortValue. destruct Hb as [->|(Hs & Hw & r & ->)].
  - cbn [String.append]. rewrite last_index_byte_none by (by apply digits_no_byte). cbn. by rewrite Hne, Hd.
  - rewrite str_app_assoc. change (":" +:+ Itoa n) with (String ":" (Itoa n)).
    rewrite last_index_byte_app by (by apply digits_no_byte).
    change (r +:+ String ":" (Itoa n)) with (r +:+ ":" +:+ Itoa n). rewrite <- str_app_assoc.
    replace (S (len r)) with (len (r +:+ ":")) by (rewrite len_app; unfold len; cbn; lia).
    rewrite str_take_app, str_drop_app. rewrite Hw, Hne, Hd.
    assert (HasPrefix (r +:+ ":") "tcp://" || HasPrefix (r +:+ ":") "tcp6://" = true) as -> by (by apply orb_true_iff).
    by rewrite orb_true_r.
Qed.

Lemma TrimSpace_edges s a c r d :
  s = String c r -> s = a +:+ String d "" -> is_space c = false -> is_space d = false -> TrimSpace s = s.
Proof.
  intros E1 E2 Hc Hd. unfold TrimSpace, trim. rewrite E1. cbn [trim_left]. rewrite Hc, <- E1, E2. by apply trim_right_id.
Qed.

Lemma Itoa_ends n : (0 <= n)%Z -> (exists c r, Itoa n = String c r /\ is_digit c = true) /\ exists a d, Itoa n = a +:+ String d "" /\ is_digit d = true.
Proof. intros Hn. destruct (Itoa_digit_word n Hn) as (c & r & E & Hc). split; [by exists c, r|by apply Itoa_last]. Qed.

Lemma digit_not_space c : is_digit c = true -> is_space c = false.
Proof. unfold is_digit, is_space, between, eqc. intros H. destruct c as [[] [] [] [] [] [] [] []]; vm_compute in H |- *; congruence. Qed.

Lemma TrimSpace_prefixed before n :
  port_prefix before -> (0 <= n)%Z -> TrimSpace (before +:+ Itoa n) = before +:+ Itoa n.
Proof.
  intros Hb Hn. destruct (Itoa_ends n Hn) as [(c & r & E1 & Hc) (a & d & E2 & Hd)].
  assert (Hend : before +:+ Itoa n = (before +:+ a) +:+ String d "") by (by rewrite E2, str_app_assoc).
  destruct Hb as [->|(Hs & _)].
  - cbn [String.append]. apply (TrimSpace_edges _ a c r d); [done|done| |]; by apply digit_not_space.
  - assert (Ht : exists t, before = String "t" t) by (destruct Hs as [[t ->]%HasPrefix_spec|[t ->]%HasPrefix_spec]; by eexists).
    destruct Ht as [t ->].
    apply (TrimSpace_edges _ (String "t" t +:+ a) "t" (t +:+ Itoa n) d); [done|done|done|by apply digit_not_space].
Qed.

Lemma entry_port_line l p :
  port_prefix (prefix l) -> (0 <= p)%Z -> port_line globalsHeader (entry l p) (prefix l) (Itoa p).
Proof.
  intros Hb Hp. destruct (Itoa_ends p Hp) as [_ (a & d & E2 & Hd)].
  assert (Ht : TrimSpace (entry l p) = entry l p).
  { apply (TrimSpace_edges _ ("port=" +:+ prefix l +:+ a) "p" ("ort=" +:+ prefix l +:+ Itoa p) d);
      [done| |done|by apply digit_not_space]. unfold entry. by rewrite E2, !str_app_assoc. }
  unfold port_line. rewrite Ht. split; [done|]. exists (prefix l +:+ Itoa p).
  split; [|by apply xrdpPortValue_entry]. unfold globalsPort, entry.
  change ("port=" +:+ prefix l +:+ Itoa p) with ("port" +:+ String "=" (prefix l +:+ Itoa p)).
  rewrite Cut_app by done. cbn. by rewrite TrimSpace_prefixed.
Qed.

Lemma entry_one_line l p : port_prefix (prefix l) -> (0 <= p)%Z -> no_byte nl (entry l p) = true.
Proof.
  intros Hb Hp. unfold entry. rewrite !no_byte_app.
  assert (Hi : no_byte nl (Itoa p) = true) by (by apply digits_no_byte, Itoa_all_digits).
  assert (Hn : no_byte nl (prefix l) = true).
  { destruct Hb as [->|(_ & Hw & _)]; [done|]. generalize dependent (prefix l). clear. intros s.
    unfold no_byte. induction s as [|c s IH]; [done|]. cbn. intros [Hc Hs]%orb_false_iff. rewrite IH by done.
    rewrite andb_true_r. apply negb_true_iff, eqc_false. by intros ->. }
  by rewrite Hn, Hi.
Qed.

(** ** The rewritten file *)

Definition with_lines (ls : list string) (l : xrdpListener) : xrdpListener :=
  mkListener ls (line l) (globals l) (value l) (prefix l) (port l).

Lemma readLines_with_lines ls i section l rest :
  readLines i section (with_lines ls l) rest =
    let '(section', l', e) := readLines i section l rest in (section', with_lines ls l', e).
Proof.
  revert i section l. induction rest as [|raw rest IH]; intros i section l; [done|]. cbn.
  destruct (is_header _).
  - rewrite <- IH. by destruct (bool_decide _).
  - destruct (globalsPort _ _) as [v|]; [|apply IH]. destruct (xrdpPortValue v) as [[before digits]|]; [|done].
    apply (IH (S i) section (see_port before digits (see_value i v l))).
Qed.

Definition start (ls : list string) : xrdpListener := mkListener ls None None "" "" defaultRDPPort.

Lemma parseListener_eq data l e :
  parseListener data = (l, e) <-> exists s, readLines 0 "" (start (Split nl data)) (Split nl data) = (s, l, e).
Proof.
  unfold parseListener. fold (start (Split nl data)). destruct (readLines _ _ _ _) as [[s l'] e']. split.
  - intros [= <- <-]. by exists s.
  - by intros (s' & [= -> -> ->]).
Qed.

Lemma port_number_Itoa p : (0 <= p <= 65535)%Z -> port_number (Itoa p) = p.
Proof. intros Hp. unfold port_number. rewrite Atoi_Itoa; [done|]. unfold min_int64, max_int64. lia. Qed.

Lemma port_line_globals s raw before digits : port_line s raw before digits -> s = globalsHeader /\ port_prefix before.
Proof.
  intros (_ & v & Hv & Hp). split; [|by eapply xrdpPortValue_prefix]. revert Hv. unfold globalsPort.
  destruct (Cut "=" _) as [[k x] f]. destruct (bool_decide_reflect (s = globalsHeader)); [done|done].
Qed.

(** Lines [a], the entry, and lines [b] without a port of their own. *)
Lemma reread l p a b l1 :
  port_prefix (prefix l) -> (0 <= p <= 65535)%Z ->
  Forall (fun x => no_byte nl x = true) (a ++ b) ->
  (exists ls, readLines 0 "" (start ls) a = (globalsHeader, l1, None)) -> quiet globalsHeader b = true ->
  exists l', parseListener (Join (a ++ entry l p :: b) newline) = (l', None) /\
    port l' = p /\ prefix l' = prefix l /\ lines l' = a ++ entry l p :: b /\ line l' <> None.
Proof.
  intros Hpre Hp Hnl (ls & Ha) Hb. set (ks := a ++ entry l p :: b).
  assert (Hsplit : Split nl (Join ks newline) = ks).
  { apply Split_Join; [by destruct a|]. unfold ks. apply Forall_app in Hnl as [Hna Hnb].
    apply Forall_app. split; [done|]. constructor; [|done]. apply entry_one_line; [done|lia]. }
  pose proof (readLines_with_lines ks 0 "" (start ls) a) as Hw. rewrite Ha in Hw.
  destruct (read_port_line (length a) globalsHeader (with_lines ks l1) _ _ _ b (entry_port_line l p Hpre ltac:(lia))) as (v & Hv).
  destruct (quiet_read (S (length a)) globalsHeader (see_port (prefix l) (Itoa p) (see_value (length a) v (with_lines ks l1))) b Hb)
    as (s' & l' & E & (P0 & P1 & _ & P2 & P3)).
  exists l'. split; [|split; [|split; [done|split; [done|by rewrite P1]]]].
  - apply parseListener_eq. exists s'. rewrite Hsplit. unfold ks at 2. rewrite readLines_app.
    change (start ks) with (with_lines ks (start ls)). rewrite Hw. cbn [Nat.add]. by rewrite Hv.
  - rewrite P3. cbn. by apply port_number_Itoa.
Qed.

Lemma Forall_drop_middle {A} (P : A -> Prop) a x b : Forall P (a ++ x :: b) -> Forall P (a ++ b).
Proof. rewrite !Forall_app, Forall_cons. tauto. Qed.

Lemma withPort_listens data l p :
  parseListener data = (l, None) -> line l <> None \/ globals l <> None -> (0 <= p <= 65535)%Z ->
  exists l', parseListener (withPort l p) = (l', None) /\ port l' = p /\ prefix l' = prefix l /\ line l' <> None /\
    (forall i, line l = Some i -> lines l' = <[i := entry l p]> (lines l)) /\
    (forall g, line l = None -> globals l = Some g -> exists a b, lines l = a ++ b /\ length a = S g /\ lines l' = a ++ entry l p :: b).
Proof.
  rewrite parseListener_eq. intros (s & H) Hplace Hp.
  pose proof (readLines_lines _ _ _ _ _ _ _ H) as Hlines. cbn in Hlines.
  pose proof (Split_parts_no_byte nl data) as Hnl. unfold withPort.
  destruct (readLines_last _ _ _ _ _ _ H) as [Hq|(a & raw & b & s1 & l1 & bf & dg & Els & Ha & Hpl & Hq & Hl & Hpre)].
  - destruct (quiet_read 0 "" (start (Split nl data)) _ Hq) as (s2 & l2 & E & (_ & P1 & _ & P2 & _)).
    rewrite E in H. injection H as -> ->. cbn in P1, P2. rewrite P1, Hlines in *.
    destruct Hplace as [?|Hg]; [done|]. destruct (globals l) as [g|] eqn:Eg; [|done].
    destruct (quiet_globals _ _ _ _ _ _ g E Hq eq_refl Eg) as (a & hdr & b & s1 & l1 & Els & -> & Hh & Ha & Hb).
    rewrite Els in *. cbn [Nat.add].
    assert (E2 : a ++ hdr :: b = (a ++ [hdr]) ++ b) by (by rewrite <- app_assoc).
    assert (E3 : S (length a) = length (a ++ [hdr])) by (rewrite length_app; cbn; lia).
    cbv zeta. rewrite E3, E2, take_app_length, drop_app_length.
    destruct (reread l p (a ++ [hdr]) b (if bool_decide (globalsHeader = globalsHeader) then see_globals (length a) l1 else l1))
      as (l' & R1 & R2 & R3 & R4 & R5); [by left|done|by rewrite <- app_assoc| |done|].
    { exists (a ++ hdr :: b). rewrite readLines_app, Ha. cbn. rewrite Hh. done. }
    exists l'. split; [done|]. split; [done|]. split; [done|]. split; [done|]. split; [done|].
    intros g _ [= <-]. exists (a ++ [hdr]), b. done.
  - destruct (port_line_globals _ _ _ _ Hpl) as [-> Hpp]. rewrite Hl, Hlines, Els in *. cbn [Nat.add].
    assert (E2 : <[length a := entry l p]> (a ++ raw :: b) = a ++ entry l p :: b).
    { rewrite <- (Nat.add_0_r (length a)) at 1. by rewrite insert_app_r. }
    rewrite E2. rewrite <- Hpre in Hpp.
    destruct (reread l p a b l1) as (l' & R1 & R2 & R3 & R4 & R5);
      [done|done|by eapply Forall_drop_middle|by eexists|done|].
    exists l'. split; [done|]. split; [done|]. split; [done|]. split; [done|]. split; [|done].
    intros i [= <-]. by rewrite R4, E2.
Qed.

(** ** Calls *)

Definition xrdp_port_call : call_pred := fun X c =>
  match c with
  | Run name args => bool_decide (name = "systemctl") && bool_decide (args = ["restart"; "xrdp"])
  | WriteFile path _ => bool_decide (path = xrdpINIPath)
  | _ => true
  end.

Lemma xrdpPortRead_reads p : only read_call (xrdpPortRead p).
Proof. unfold xrdpPortRead, readXRDPListener. walk_step. Qed.
#[export] Hint Resolve xrdpPortRead_reads : steps.

Lemma xrdpPortCheckStep_reads p : only read_call (xrdpPortCheckStep p).
Proof. unfold xrdpPortCheckStep. walk_step. Qed.

Lemma xrdpPortSetupStep_calls p : only xrdp_port_call (xrdpPortSetupStep p).
Proof.
  unfold xrdpPortSetupStep. apply only_bind.
  - eapply only_impl; [|apply xrdpPortRead_reads]. by intros X [].
  - intros [[l s] b]. cbn. destruct (negb _); walk_step.
Qed.

(** * Properties *)

(** Rewriting an xrdp.ini that can be read for a port from 0 to 65535 gives
    a file that reads as listening on that port, with the operator's address
    kept; every other line is kept, and the port's line is replaced, or added
    after the [Globals] header. *)
Theorem rewritten_ini_listens data l p
  (Hread : parseListener data = (l, None)) (Hplace : line l <> None \/ globals l <> None) (Hp : (0 <= p <= 65535)%Z) :
  exists l', parseListener (withPort l p) = (l', None) /\ port l' = p /\ prefix l' = prefix l /\
    (forall i, line l = Some i -> lines l' = <[i := entry l p]> (lines l)) /\
    (forall g, line l = None -> globals l = Some g ->
       exists a b, lines l = a ++ b /\ length a = S g /\ lines l' = a ++ entry l p :: b).
Proof. destruct (withPort_listens data l p Hread Hplace Hp) as (l' & H1 & H2 & H3 & _ & H4 & H5). by exists l'. Qed.

Section Converges.
Context {W : Type} (h : handler W) (file : W -> string).
Hypothesis host_reads : forall w, h _ (ReadFile xrdpINIPath) w = (Ok (file w), w).
Hypothesis host_writes : forall w data w', h _ (WriteFile xrdpINIPath data) w = (None, w') -> file w' = data.
Hypothesis restart_keeps : forall w, file (h _ (Run "systemctl" ["restart"; "xrdp"]) w).2 = file w.

Lemma run_xrdpPortSetupStep p w :
  (xrdpPortJudge (parseListener (file w)).1 ((fun t => mkExecError t None false) <$> (parseListener (file w)).2) p).1.(StepOutcome) <> OutcomeChanged ->
  run h (xrdpPortSetupStep p) w =
    (xrdpPortJudge (parseListener (file w)).1 ((fun t => mkExecError t None false) <$> (parseListener (file w)).2) p, w) /\
  trace h (xrdpPortSetupStep p) w = [].
Proof.
  unfold xrdpPortSetupStep, xrdpPortRead, readXRDPListener. cbn. rewrite !host_reads. cbn.
  destruct (parseListener (file w)) as [l e]. cbn. intros H. rewrite bool_decide_eq_false_2 by done. cbn.
  split; [|done]. by destruct (xrdpPortJudge _ _ _).
Qed.

(** Once the listener step changed xrdp to a declared port, the file reads
    as listening on it, and running the step again reports OK, runs no mutating
    call and leaves the host as it is. *)
Theorem xrdp_port_setup_converges p w s included w'
  (Hp : (0 <= p <= 65535)%Z)
  (Hrun : run h (xrdpPortSetupStep p) w = ((s, included), w')) (Hs : StepOutcome s = OutcomeChanged) :
  port (parseListener (file w')).1 = p /\ trace h (xrdpPortSetupStep p) w' = [] /\
  exists s', run h (xrdpPortSetupStep p) w' = ((s', negb (p =? defaultRDPPort)%Z), w') /\ StepOutcome s' = OutcomeOK.
Proof.
  assert (H : exists l', parseListener (file w') = (l', None) /\ port l' = p).
  { revert Hrun. unfold xrdpPortSetupStep, xrdpPortRead, readXRDPListener. cbn. rewrite host_reads. cbn.
    destruct (parseListener (file w)) as [l e] eqn:El. cbn.
    destruct (bool_decide_reflect (StepOutcome (xrdpPortJudge l ((fun t => mkExecError t None false) <$> e) p).1 = OutcomeChanged)) as [Ej|Ej];
      [|by intros [= <- _ _]].
    cbn. destruct (h _ (WriteFile xrdpINIPath (withPort l p)) w) as [[we|] w1] eqn:Ew; cbn; [by intros [= <- _ _]|].
    pose proof (restart_keeps w1) as Hk.
    destruct (h _ (Run "systemctl" ["restart"; "xrdp"]) w1) as [[re|] w2] eqn:Er; cbn; [by intros [= <- _ _]|].
    intros [= _ _ <-]. cbn in Hk. rewrite Hk, (host_writes _ _ _ Ew).
    destruct e as [t|]; [by revert Ej; cbn|]. revert Ej. unfold xrdpPortJudge. cbn.
    destruct (port l =? p)%Z; [done|].
    destruct (bool_decide (line l = None) && bool_decide (globals l = None)) eqn:Ep; [done|]. intros _.
    destruct (withPort_listens _ _ p El) as (l' & H1 & H2 & _); [|done|by exists l'].
    apply andb_false_iff in Ep as [Ep|Ep]; apply bool_decide_eq_false in Ep; tauto. }
  destruct H as (l' & El & Hport). rewrite El. split; [done|].
  assert (Hj : xrdpPortJudge (parseListener (file w')).1 ((fun t => mkExecError t None false) <$> (parseListener (file w')).2) p
    = (newStep xrdpPortName OutcomeOK ("xrdp listens on TCP " +:+ Itoa p) "", negb (p =? defaultRDPPort)%Z)).
  { rewrite El. cbn. by rewrite Hport, Z.eqb_refl. }
  destruct (run_xrdpPortSetupStep p w') as [Hr Ht]; [by rewrite Hj|]. split; [done|].
  eexists. split; [by rewrite Hr, Hj|done].
Qed.
End Converges.

(** * Witnesses *)

Definition demo_ini : string :=
  "; comment" +:+ newline +:+ "[Globals]" +:+ newline +:+ " port = tcp://10.0.0.5:3389 " +:+ newline +:+ "[Logging]" +:+ newline +:+ "port=9".
Definition demo_listener : xrdpListener := (parseListener demo_ini).1.

Lemma rewritten_ini_listens_witness :
  port demo_listener = 3389%Z /\ exists l', parseListener (withPort demo_listener 4000) = (l', None) /\ port l' = 4000%Z.
Proof.
  split; [vm_compute; reflexivity|].
  assert (H0 : parseListener demo_ini = (demo_listener, None)) by (vm_compute; reflexivity).
  assert (H1 : line demo_listener = Some 2%nat) by (vm_compute; reflexivity).
  destruct (rewritten_ini_listens demo_ini demo_listener 4000 H0) as (l' & E1 & E2 & _); [left; by rewrite H1|lia|].
  by exists l'.
Defined.

(** A host that is its xrdp.ini. *)
Definition ini_host : handler string := fun X c w =>
  match c in call X return X * string with
  | Run _ _ => (None, w)
  | Output _ _ => (("", None), w)
  | LookPath _ => (None, w)
  | Elevated => (true, w)
  | ReadFile _ => (Ok w, w)
  | WriteFile _ data => (None, data)
  end.

Lemma xrdp_port_setup_converges_witness :
  port (parseListener (run ini_host (xrdpPortSetupStep 4000) demo_ini).2).1 = 4000%Z.
Proof.
  destruct (run ini_host (xrdpPortSetupStep 4000) demo_ini) as [[s b] w] eqn:E.
  assert (Hs : StepOutcome (run ini_host (xrdpPortSetupStep 4000) demo_ini).1.1 = OutcomeChanged) by (vm_compute; reflexivity).
  rewrite E in Hs. refine (proj1 (xrdp_port_setup_converges ini_host (fun w => w) _ _ _ 4000 demo_ini s b w ltac:(lia) E Hs)).
  - reflexivity.
  - intros w0 data w1 H. injection H as H. exact (eq_sym H).
  - reflexivity.
Defined.
