(* ===== verification/LinuxSteps.v ===== *)
(** The Linux host steps together (src/internal/host/linux_steps.go, step.go):
    the xrdp service, setup and check over the xrdp, port, firewall and
    Tailscale steps, and the services a check reports. *)
From S2P Require Import Prelude GoStrings HostRunner Iptables Ufw LinuxFirewall FirewallConverge XrdpPort.
From Stdlib Require Import Ascii.

Open Scope bool_scope.
#[local] Arguments String.append : simpl never.

Definition xrdpName := "xrdp service".
Definition xrdpFixUnmask := "sudo systemctl unmask xrdp, then run ts-bridge host setup".
Definition xrdpFixSetup := "run ts-bridge host setup as root".

(** The declared host, as far as the Linux steps read it. *)
Record HostConfig : Type := mkHostConfig { Port : Z; PortDeclared : bool }.

Definition linuxPort (cfg : HostConfig) : Z := if (Port cfg =? 0)%Z then defaultRDPPort else Port cfg.

(** * The xrdp service *)

Record xrdpState : Type := mkXrdp {
  installed : bool;
  readable : bool;
  enabled : bool;
  active : bool;
  masked : bool;
  undecided : string;
}.

Definition readXRDP : prog xrdpState :=
  systemctl ← do (LookPath "systemctl");
  match systemctl with
  | Some _ =>
      look ← do (LookPath "xrdp");
      mret (mkXrdp (bool_decide (look = None)) false false false false "")
  | None =>
      '(out, _) ← do (Output "systemctl" ["is-enabled"; "xrdp"]);
      let e := TrimSpace out in
      if bool_decide (e = "not-found") then mret (mkXrdp false false false false false "")
      else
        '(out, _) ← do (Output "systemctl" ["is-active"; "xrdp"]);
        let a := TrimSpace out in
        let active := bool_decide (a = "active") in
        mret (if bool_decide (e = "") || bool_decide (a = "") then mkXrdp true false false false false ""
              else if contains_word ["enabled"; "static"] e then mkXrdp true true true active false ""
              else if bool_decide (e = "masked") then mkXrdp true true false active true ""
              else if contains_word ["disabled"; "enabled-runtime"] e then mkXrdp true true false active false ""
              else mkXrdp true false false active false e)
  end.

Definition xrdpUnmet (x : xrdpState) (unreadable : Outcome) : option SetupStep :=
  if negb (installed x) then Some (newStep xrdpName OutcomeFailed "xrdp is not installed" "sudo apt install xrdp")
  else if negb (bool_decide (undecided x = "")) then
    Some (newStep xrdpName unreadable
            ("systemctl is-enabled answered " +:+ Quote (undecided x) +:+ ", which ts-bridge does not interpret")
            "check systemctl status xrdp, and enable it by hand if it does not start at boot")
  else if negb (readable x) then
    Some (newStep xrdpName unreadable "Cannot read the xrdp service state: ts-bridge reads it with systemctl"
            "enable and start xrdp with your init system")
  else None.

Definition boolText (b : bool) : string := if b then "true" else "false".

Definition xrdpSetupOn (x : xrdpState) : prog SetupStep :=
  match xrdpUnmet x OutcomeFailed with
  | Some step => mret step
  | None =>
      if enabled x && active x then mret (newStep xrdpName OutcomeOK "xrdp is enabled and running" "")
      else if masked x then mret (newStep xrdpName OutcomeFailed "xrdp is masked, so it cannot be enabled" xrdpFixUnmask)
      else
        err ← do (Run "systemctl" ["enable"; "--now"; "xrdp"]);
        mret match err with
             | Some e => newStep xrdpName OutcomeFailed ("Could not enable xrdp: " +:+ err_text e) "sudo systemctl enable --now xrdp"
             | None => newStep xrdpName OutcomeChanged "xrdp enabled and started" ""
             end
  end.
Definition xrdpSetupStep : prog SetupStep := x ← readXRDP; xrdpSetupOn x.

Definition xrdpCheckStep (x : xrdpState) : SetupStep :=
  match xrdpUnmet x OutcomeUnverified with
  | Some step => step
  | None =>
      if enabled x && active x then newStep xrdpName OutcomeOK "xrdp is enabled and running" ""
      else if masked x then newStep xrdpName OutcomeManual "xrdp is masked, and setup does not unmask units" xrdpFixUnmask
      else newStep xrdpName OutcomeChanged
             ("xrdp is not enabled and running (enabled=" +:+ boolText (enabled x) +:+ ", active=" +:+ boolText (active x) +:+ ")")
             xrdpFixSetup
  end.

(** * Tailscale *)

Definition tailscaleIP : prog string :=
  '(out, err) ← do (Output "tailscale" ["ip"; "-4"]);
  mret match err with Some _ => "" | None => TrimSpace out end.
Definition tailscaleStep (ip : string) : SetupStep :=
  if negb (bool_decide (ip = "")) then newStep "Tailscale IP" OutcomeOK ("Tailscale IP: " +:+ ip) ""
  else newStep "Tailscale IP" OutcomeFailed "Tailscale not connected or CLI not available" "start Tailscale and log in".
Definition tailscaleIPStep : prog SetupStep := ip ← tailscaleIP; mret (tailscaleStep ip).

(** * Setup *)

(** A step that may be left out of the report. *)
Definition reported (s : SetupStep * bool) : list SetupStep := if s.2 then [s.1] else [].

Record SetupResult : Type := mkSetup { SetupRDPPort : Z; SetupSteps : list SetupStep }.

Definition setupLinux (cfg : HostConfig) : prog SetupResult :=
  let port := linuxPort cfg in
  xrdp ← xrdpSetupStep;
  ports ← (if PortDeclared cfg then s ← xrdpPortSetupStep port; mret (reported s) else mret []);
  fw ← firewallSetupStep port;
  ts ← tailscaleIPStep;
  mret (mkSetup port ([xrdp] ++ ports ++ [fw; ts])).

(** * Check *)

Record Service : Type := mkService {
  Kind : string;
  ServicePort : Z;
  Enabled : bool;
  Active : option bool;
  FirewallOK : bool;
  Unread : bool;
}.

Record CheckResult : Type := mkCheck {
  TailscaleIP : string;
  RDPPort : Z;
  RDPEnabled : bool;
  CheckFirewallOK : bool;
  TailscaleUp : bool;
  CheckElevated : bool;
  Services : list Service;
  Steps : list SetupStep;
}.

Definition ServiceRDP := "rdp".

(** What a check says of the rdp service from the three reads. *)
Definition rdpService (x : xrdpState) (fw : firewallRead) (port : Z) : Service :=
  mkService ServiceRDP port (enabled x)
    (if readable x then Some (active x) else None)
    (bool_decide (state fw = rulePresent) && negb (ufwInactive fw) && negb (iptLegacy fw))
    (bool_decide (StepOutcome (xrdpCheckStep x) = OutcomeUnverified)).

Definition checkLinux (cfg : HostConfig) : prog (list SetupStep * list Service) :=
  let port := linuxPort cfg in
  x ← readXRDP;
  fw ← readLinuxFirewall port;
  ports ← (if PortDeclared cfg then s ← xrdpPortCheckStep port; mret (reported s) else mret []);
  mret ([xrdpCheckStep x] ++ ports ++ [firewallCheckStep fw port], [rdpService x fw port]).

(** The last enabled rdp service gives the legacy port. *)
Definition legacy_rdp (acc : Z * bool) (svc : Service) : Z * bool :=
  if bool_decide (Kind svc = ServiceRDP) && Enabled svc then (ServicePort svc, true) else acc.
Definition deriveLegacy (r : CheckResult) : CheckResult :=
  let '(port, on) := fold_left legacy_rdp (Services r) (RDPPort r, RDPEnabled r) in
  mkCheck (TailscaleIP r) port on
    (negb (bool_decide (length (Services r) = 0%nat)) && forallb FirewallOK (Services r))
    (TailscaleUp r) (CheckElevated r) (Services r) (Steps r).

(** [checkFor] on Linux. *)
Definition checkForLinux (cfg : HostConfig) : prog CheckResult :=
  ip ← tailscaleIP;
  elevated ← do Elevated;
  '(steps, services) ← checkLinux cfg;
  mret (deriveLegacy (mkCheck ip 0 false false (negb (bool_decide (ip = ""))) elevated services (tailscaleStep ip :: steps))).

(** * Facts *)

Lemma readXRDP_reads : only read_call readXRDP.
Proof. unfold readXRDP. walk_step. Qed.
Lemma tailscaleIP_reads : only read_call tailscaleIP.
Proof. unfold tailscaleIP. walk_step. Qed.
#[export] Hint Resolve readXRDP_reads tailscaleIP_reads xrdpPortCheckStep_reads : steps.

Lemma checkForLinux_reads cfg : only read_call (checkForLinux cfg).
Proof. unfold checkForLinux, checkLinux. walk_step. Qed.

(** The mutating calls setup knows. *)
Definition setup_call (declared : bool) (port : Z) : call_pred := fun X c =>
  match c with
  | Run name args =>
      (bool_decide (name = "systemctl") && (bool_decide (args = ["enable"; "--now"; "xrdp"]) || bool_decide (args = ["restart"; "xrdp"])))
      || firewall_call port _ (Run name args)
  | WriteFile path _ => declared && bool_decide (path = xrdpINIPath)
  | _ => true
  end.

Lemma read_call_setup d port X (c : call X) : read_call X c = true -> setup_call d port X c = true.
Proof. by destruct c. Qed.
Lemma firewall_call_setup d port X (c : call X) : firewall_call port X c = true -> setup_call d port X c = true.
Proof. destruct c; cbn; try done. intros ->. apply orb_true_r. Qed.
Lemma xrdp_port_call_setup port X (c : call X) : xrdp_port_call X c = true -> setup_call true port X c = true.
Proof. destruct c; cbn; try done. intros [-> ->]%andb_true_iff. cbn. by rewrite orb_true_r. Qed.

Lemma xrdpSetupOn_calls d port x : only (setup_call d port) (xrdpSetupOn x).
Proof. unfold xrdpSetupOn. destruct (xrdpUnmet _ _); walk_step. Qed.

Lemma setupLinux_calls cfg : only (setup_call (PortDeclared cfg) (linuxPort cfg)) (setupLinux cfg).
Proof.
  assert (R : forall A (p : prog A), only read_call p -> only (setup_call (PortDeclared cfg) (linuxPort cfg)) p)
    by (intros A p; apply only_impl, read_call_setup).
  unfold setupLinux, xrdpSetupStep. apply only_bind; [apply only_bind; [apply R; auto with steps|intros; apply xrdpSetupOn_calls]|].
  intros s1. apply only_bind.
  { destruct (PortDeclared cfg); [|constructor]. apply only_bind; [|constructor].
    eapply only_impl; [apply xrdp_port_call_setup|apply xrdpPortSetupStep_calls]. }
  intros s2. apply only_bind; [eapply only_impl; [apply firewall_call_setup|apply firewallSetupStep_calls]|].
  intros s3. apply only_bind; [|constructor]. apply R. unfold tailscaleIPStep. walk_step.
Qed.

(** ** Check and setup agree *)

Definition step_ok (s : SetupStep) : Prop := StepOutcome s = OutcomeOK.

Lemma deleteCopies_returns n port (Q : option exec_error -> Prop) : (forall e, Q e) -> returns Q (deleteCopies n port).
Proof. intros HQ. induction n as [|n IH]; cbn; [done|]. intros [e|]; cbn; [done|exact IH]. Qed.

Lemma legacy_returns read port : returns (fun s => StepOutcome s <> OutcomeOK) (iptLegacySetupStep read port).
Proof.
  unfold iptLegacySetupStep. apply returns_bind.
  destruct (scoped read); cbn.
  - apply returns_bind, deleteCopies_returns. intros [e|]; cbn; [done|]. by destruct (bool_decide (foreign read = [])).
  - intros [e|]; cbn; [done|]. apply returns_bind, deleteCopies_returns. intros [e|]; cbn; [done|].
    by destruct (bool_decide (foreign read = [])).
Qed.

Section Agree.
Context {W : Type} (h : handler W).
Hypothesis reads_keep : forall X (c : call X) w, mutating X c = false -> (h X c w).2 = w.

(** What a program answers on a host. *)
Definition val {A} (p : prog A) (w : W) : A := (run h p w).1.

Lemma run_read_only {A} (p : prog A) w : only read_call p -> run h p w = (val p w, w).
Proof. intros Hp. unfold val. pose proof (read_only_state h p reads_keep Hp w) as H. destruct (run h p w). cbn in H. by subst. Qed.

Lemma xrdp_agree x w :
  (step_ok (xrdpCheckStep x) -> run h (xrdpSetupOn x) w = (xrdpCheckStep x, w) /\ trace h (xrdpSetupOn x) w = []) /\
  (step_ok (val (xrdpSetupOn x) w) -> step_ok (xrdpCheckStep x)).
Proof.
  unfold val, step_ok, xrdpCheckStep, xrdpSetupOn, xrdpUnmet.
  destruct (installed x); cbn; [|done]. destruct (bool_decide (undecided x = "")); cbn; [|done].
  destruct (readable x); cbn; [|done]. destruct (enabled x && active x); cbn; [done|].
  destruct (masked x); cbn; [done|]. destruct (h _ _ w) as [[e|] w']; cbn; done.
Qed.

Lemma port_agree p w :
  (Forall step_ok (reported (val (xrdpPortCheckStep p) w)) ->
     run h (xrdpPortSetupStep p) w = (val (xrdpPortCheckStep p) w, w) /\ trace h (xrdpPortSetupStep p) w = []) /\
  (Forall step_ok (reported (val (xrdpPortSetupStep p) w)) -> Forall step_ok (reported (val (xrdpPortCheckStep p) w))).
Proof.
  pose proof (run_read_only (xrdpPortRead p) w (xrdpPortRead_reads p)) as Hr.
  unfold val, xrdpPortCheckStep, xrdpPortSetupStep.
  rewrite !run_bind, !trace_bind, (trace_read_only h _ w (xrdpPortRead_reads p)), Hr.
  assert (Hinc : StepOutcome (val (xrdpPortRead p) w).1.2 = OutcomeChanged -> (val (xrdpPortRead p) w).2 = true).
  { unfold val, xrdpPortRead, readXRDPListener. cbn. destruct (h _ (ReadFile _) w) as [[d|e] w1]; cbn.
    - destruct (parseListener d) as [l err]. cbn. unfold xrdpPortJudge. by repeat case_match.
    - unfold xrdpPortJudge. by repeat case_match. }
  destruct (val (xrdpPortRead p) w) as [[l s] inc]. cbn in *.
  destruct (bool_decide_reflect (StepOutcome s = OutcomeChanged)) as [E|E]; cbn; [|done].
  rewrite (Hinc E). unfold reported. cbn. rewrite !Forall_singleton. unfold step_ok. rewrite E. split; [done|].
  destruct (h _ (WriteFile _ _) w) as [[we|] w1]; cbn; rewrite ?Forall_singleton; [done|].
  destruct (h _ (Run _ _) w1) as [[re|] w2]; cbn; rewrite ?Forall_singleton; done.
Qed.

Lemma firewall_ok_only_quiet read port :
  ends_ok (firewallSetupOn read port) = true \/
  returns (fun s => StepOutcome s <> OutcomeOK) (firewallSetupOn read port).
Proof.
  unfold firewallSetupOn, ufwInactiveSetupStep.
  destruct (inactiveUFWDecides read).
  { right. destruct (ufwInactiveState read port) as [st []]; cbn; [intros [e|]; cbn; [done|]|]; by rewrite ufwInactiveStep_outcome. }
  destruct (state read) eqn:Es.
  - right. destruct (firewallUnreadable read port "setup"). done.
  - right. unfold addFirewallRule. apply returns_bind.
    destruct (bool_decide (backend read = backendUFW)); cbn; by intros [e|].
  - destruct (iptLegacy read); [right; apply legacy_returns|].
    destruct (0 <? extraCopies read)%nat; [by right|by left].
  - by right.
Qed.

Lemma ends_ok_run p w : ends_ok p = true -> step_ok (val p w) /\ run h p w = (val p w, w) /\ trace h p w = [].
Proof. destruct p as [s|]; cbn; [|done]. intros H%bool_decide_eq_true. done. Qed.

Lemma firewall_agree read port w :
  (step_ok (firewallCheckStep read port) ->
     step_ok (val (firewallSetupOn read port) w) /\ run h (firewallSetupOn read port) w = (val (firewallSetupOn read port) w, w) /\
     trace h (firewallSetupOn read port) w = []) /\
  (step_ok (val (firewallSetupOn read port) w) -> step_ok (firewallCheckStep read port)).
Proof.
  split.
  - intros H%check_ok_iff_setup_ok. by apply ends_ok_run.
  - intros H. apply check_ok_iff_setup_ok. destruct (firewall_ok_only_quiet read port) as [Hq|Hq]; [done|].
    exfalso. apply (returns_run h _ _ w Hq), H.
Qed.
Lemma check_steps cfg w :
  Steps (val (checkForLinux cfg) w) =
    tailscaleStep (val tailscaleIP w) :: [xrdpCheckStep (val readXRDP w)] ++
    (if PortDeclared cfg then reported (val (xrdpPortCheckStep (linuxPort cfg)) w) else []) ++
    [firewallCheckStep (val (readLinuxFirewall (linuxPort cfg)) w) (linuxPort cfg)].
Proof.
  unfold val at 1. unfold checkForLinux, checkLinux.
  assert (He : run h (do Elevated) w = (val (do Elevated) w, w)) by (apply run_read_only, only_do; done).
  rewrite run_bind, (run_read_only _ w tailscaleIP_reads), run_bind, He, run_bind, run_bind, (run_read_only _ w readXRDP_reads),
    run_bind, (run_read_only _ w (readLinuxFirewall_reads _)), run_bind.
  destruct (PortDeclared cfg); [rewrite run_bind, (run_read_only _ w (xrdpPortCheckStep_reads _))|]; cbn.
  - unfold deriveLegacy. cbn. by destruct (legacy_rdp _ _).
  - unfold deriveLegacy. cbn. by destruct (legacy_rdp _ _).
Qed.

(** The port step of setup and check, if the port is declared. *)
Definition portSetup (cfg : HostConfig) : prog (list SetupStep) :=
  if PortDeclared cfg then s ← xrdpPortSetupStep (linuxPort cfg); mret (reported s) else mret [].
Definition portCheck (cfg : HostConfig) (w : W) : list SetupStep :=
  if PortDeclared cfg then reported (val (xrdpPortCheckStep (linuxPort cfg)) w) else [].

Lemma setup_run cfg w s1 w1 s2 w2 s3 w3 s4 w4 :
  run h xrdpSetupStep w = (s1, w1) -> run h (portSetup cfg) w1 = (s2, w2) ->
  run h (firewallSetupStep (linuxPort cfg)) w2 = (s3, w3) -> run h tailscaleIPStep w3 = (s4, w4) ->
  run h (setupLinux cfg) w = (mkSetup (linuxPort cfg) ([s1] ++ s2 ++ [s3; s4]), w4) /\
  trace h (setupLinux cfg) w = trace h xrdpSetupStep w ++ trace h (portSetup cfg) w1 ++
    trace h (firewallSetupStep (linuxPort cfg)) w2 ++ trace h tailscaleIPStep w3.
Proof.
  intros E1 E2 E3 E4. unfold setupLinux. cbv zeta. fold (portSetup cfg).
  rewrite run_bind, trace_bind, E1. cbn [fst snd]. rewrite run_bind, trace_bind, E2. cbn [fst snd].
  rewrite run_bind, trace_bind, E3. cbn [fst snd]. rewrite run_bind, trace_bind, E4. cbn. by rewrite app_nil_r.
Qed.

(** Each step of setup, next to the check of the state it starts from. *)
Lemma xrdp_step w :
  (step_ok (xrdpCheckStep (val readXRDP w)) ->
     run h xrdpSetupStep w = (xrdpCheckStep (val readXRDP w), w) /\ trace h xrdpSetupStep w = []) /\
  (step_ok (val xrdpSetupStep w) -> step_ok (xrdpCheckStep (val readXRDP w))).
Proof.
  unfold val at 3. unfold xrdpSetupStep. rewrite run_bind, trace_bind, (trace_read_only h _ w readXRDP_reads), (run_read_only _ w readXRDP_reads).
  apply xrdp_agree.
Qed.

Lemma port_step cfg w :
  (Forall step_ok (portCheck cfg w) -> run h (portSetup cfg) w = (portCheck cfg w, w) /\ trace h (portSetup cfg) w = []) /\
  (Forall step_ok (val (portSetup cfg) w) -> Forall step_ok (portCheck cfg w)).
Proof.
  unfold portSetup, portCheck, val at 3. destruct (PortDeclared cfg); [|done].
  destruct (port_agree (linuxPort cfg) w) as [H1 H2]. unfold val at 1 in H2. rewrite run_bind, trace_bind. split.
  - intros H. destruct (H1 H) as [-> ->]. done.
  - intros H. apply H2. by destruct (run h (xrdpPortSetupStep (linuxPort cfg)) w).
Qed.

Lemma firewall_step port w :
  (step_ok (firewallCheckStep (val (readLinuxFirewall port) w) port) ->
     exists s, step_ok s /\ run h (firewallSetupStep port) w = (s, w) /\ trace h (firewallSetupStep port) w = []) /\
  (step_ok (val (firewallSetupStep port) w) -> step_ok (firewallCheckStep (val (readLinuxFirewall port) w) port)).
Proof.
  unfold val at 2. unfold firewallSetupStep. rewrite run_bind, trace_bind, (trace_read_only h _ w (readLinuxFirewall_reads _)),
    (run_read_only _ w (readLinuxFirewall_reads _)).
  destruct (firewall_agree (val (readLinuxFirewall port) w) port w) as [H1 H2]. split; [|exact H2].
  intros H. eexists. by apply H1.
Qed.

Lemma tailscale_step w :
  run h tailscaleIPStep w = (tailscaleStep (val tailscaleIP w), w) /\ trace h tailscaleIPStep w = [].
Proof.
  unfold tailscaleIPStep. by rewrite run_bind, trace_bind, (run_read_only _ w tailscaleIP_reads),
    (trace_read_only h _ w tailscaleIP_reads).
Qed.

Lemma setup_ok_check_ok cfg w r w' :
  run h (setupLinux cfg) w = (r, w') -> Forall step_ok (SetupSteps r) -> Forall step_ok (Steps (val (checkForLinux cfg) w)).
Proof.
  destruct (run h xrdpSetupStep w) as [s1 w1] eqn:E1. destruct (run h (portSetup cfg) w1) as [s2 w2] eqn:E2.
  destruct (run h (firewallSetupStep (linuxPort cfg)) w2) as [s3 w3] eqn:E3. destruct (tailscale_step w3) as [E4 _].
  destruct (setup_run _ _ _ _ _ _ _ _ _ _ E1 E2 E3 E4) as [-> _]. intros [= <- <-]. cbn [SetupSteps].
  rewrite check_steps. fold (portCheck cfg w). rewrite Forall_cons, !Forall_app, !Forall_cons. intros (H1 & H2 & H3 & H4 & _).
  destruct (xrdp_step w) as [X1 X2]. unfold val at 1 in X2. rewrite E1 in X2. destruct (X1 (X2 H1)) as [Ew _].
  rewrite E1 in Ew. injection Ew as -> ->.
  destruct (port_step cfg w) as [P1 P2]. unfold val in P2. rewrite E2 in P2. destruct (P1 (P2 H2)) as [Ew _].
  rewrite E2 in Ew. injection Ew as -> ->.
  destruct (firewall_step (linuxPort cfg) w) as [F1 F2]. unfold val at 1 in F2. rewrite E3 in F2.
  destruct (F1 (F2 H3)) as (s & _ & Ew & _). rewrite E3 in Ew. injection Ew as -> ->.
  constructor; [done|]. rewrite !Forall_app, !Forall_singleton. auto.
Qed.

Lemma check_ok_setup_ok cfg w :
  Forall step_ok (Steps (val (checkForLinux cfg) w)) ->
  exists r, run h (setupLinux cfg) w = (r, w) /\ trace h (setupLinux cfg) w = [] /\ Forall step_ok (SetupSteps r).
Proof.
  rewrite check_steps. fold (portCheck cfg w). rewrite Forall_cons, !Forall_app, !Forall_singleton. intros (Ht & Hx & Hp & Hf).
  destruct (xrdp_step w) as [X1 _]. destruct (X1 Hx) as [E1 T1]. destruct (port_step cfg w) as [P1 _]. destruct (P1 Hp) as [E2 T2].
  destruct (firewall_step (linuxPort cfg) w) as [F1 _]. destruct (F1 Hf) as (s & Hs & E3 & T3).
  destruct (tailscale_step w) as [E4 T4].
  destruct (setup_run _ _ _ _ _ _ _ _ _ _ E1 E2 E3 E4) as [-> ->]. eexists. split; [done|].
  rewrite T1, T2, T3, T4. split; [done|]. cbn [SetupSteps]. constructor; [done|]. apply Forall_app. split; [done|]. by repeat constructor.
Qed.
End Agree.

(** * Properties *)

(** A check makes no mutating call, and leaves unchanged every host whose
    reads do. *)
Theorem check_changes_nothing :
  forall (W : Type) (h : handler W) (cfg : HostConfig) (w : W),
    trace h (checkForLinux cfg) w = [] /\
    ((forall X (c : call X) w, mutating X c = false -> (h X c w).2 = w) -> (run h (checkForLinux cfg) w).2 = w).
Proof.
  intros W h cfg w. split; [apply trace_read_only, checkForLinux_reads|].
  intros H. apply (read_only_state h _ H), checkForLinux_reads.
Qed.

(** C10: check and setup agree on every host that reading does not change: all
    the steps of a check are OK exactly when all those of a setup are, and then
    the setup runs no mutating call and leaves the host as it is. *)
Theorem check_agrees_with_setup :
  forall (W : Type) (h : handler W) (cfg : HostConfig) (w : W),
    (forall X (c : call X) w, mutating X c = false -> (h X c w).2 = w) ->
    (Forall step_ok (Steps (run h (checkForLinux cfg) w).1) <-> Forall step_ok (SetupSteps (run h (setupLinux cfg) w).1)) /\
    (Forall step_ok (SetupSteps (run h (setupLinux cfg) w).1) ->
       trace h (setupLinux cfg) w = [] /\ (run h (setupLinux cfg) w).2 = w).
Proof.
  intros W h cfg w Hr.
  assert (B : Forall step_ok (SetupSteps (run h (setupLinux cfg) w).1) -> Forall step_ok (Steps (run h (checkForLinux cfg) w).1))
    by (intros H; by eapply (setup_ok_check_ok h Hr); [apply surjective_pairing|]).
  split; [split; [|exact B]|].
  - intros H. destruct (check_ok_setup_ok h Hr cfg w H) as (r & -> & _ & ?). done.
  - intros H. destruct (check_ok_setup_ok h Hr cfg w (B H)) as (r & -> & ? & _). done.
Qed.

(** C11: whatever the host answers, a Linux setup runs no mutating command but
    enabling or restarting xrdp, ufw's allow of the port, and iptables' append
    of the rule scoped to the tailnet interface and delete of the unscoped rule
    setup itself wrote before; the only file it writes is xrdp.ini, and only
    for a declared port. *)
Theorem setup_linux_commands :
  forall (W : Type) (h : handler W) (cfg : HostConfig) (w : W) (m : mutation),
    In m (trace h (setupLinux cfg) w) ->
    In m [MRun "systemctl" ["enable"; "--now"; "xrdp"]; MRun "systemctl" ["restart"; "xrdp"];
          MRun backendUFW ["allow"; ufwAllowArg (linuxPort cfg)];
          MRun backendIPT (iptablesAppend (linuxPort cfg)); MRun backendIPT (iptablesDelete (linuxPort cfg))] \/
    (PortDeclared cfg = true /\ exists data, m = MWrite xrdpINIPath data).
Proof.
  intros W h cfg w m Hm. pose proof (only_trace h _ _ _ _ (setupLinux_calls cfg) Hm) as H.
  destruct m as [name args|path data]; cbn in H.
  - left. rewrite !orb_true_iff, !andb_true_iff, !orb_true_iff, !bool_decide_eq_true in H. cbn [In].
    destruct H as [[-> [->| ->]]|[[-> ->]|[-> [->| ->]]]]; tauto.
  - right. apply andb_true_iff in H as [Hd H%bool_decide_eq_true]. subst path. by eauto.
Qed.

(** * Witnesses *)

(** A host with systemd, Tailscale and iptables: whether xrdp is on, and the
    rules of INPUT. *)
Definition linux_host : handler (bool * list string) := fun X c =>
  match c in call X return bool * list string -> X * (bool * list string) with
  | Run name args => fun w =>
      if bool_decide (name = "systemctl") then (None, (true, w.2))
      else ((sim_run name args w.2).1, (w.1, (sim_run name args w.2).2))
  | Output name args => fun w =>
      if bool_decide (name = "systemctl") then
        ((if bool_decide (args = ["is-enabled"; "xrdp"]) then if w.1 then "enabled" else "disabled"
          else if w.1 then "active" else "inactive", None), w)
      else if bool_decide (name = "tailscale") then (("100.64.0.1", None), w)
      else (sim_output name args w.2, w)
  | LookPath name => fun w =>
      (if contains_word ["systemctl"; backendIPT] name then None else Some (sim_error "not found"), w)
  | Elevated => fun w => (true, w)
  | ReadFile _ => fun w => (Ok globalsHeader, w)
  | WriteFile _ _ => fun w => (None, w)
  end.

Lemma linux_host_reads X (c : call X) w : mutating X c = false -> (linux_host X c w).2 = w.
Proof.
  destruct c; cbn; try done; intros _. by repeat case_match.
Qed.

Definition demo_host_cfg : HostConfig := mkHostConfig 0 false.
Definition demo_ready : bool * list string := (true, [Join (iptPrinted (iptablesAppend 3389)) " "]).

Definition all_ok (l : list SetupStep) : bool := forallb (fun s => bool_decide (StepOutcome s = OutcomeOK)) l.
Lemma all_ok_spec l : all_ok l = true -> Forall step_ok l.
Proof.
  unfold all_ok. rewrite List.forallb_forall, List.Forall_forall. intros H s Hs.
  exact (bool_decide_eq_true_1 _ (H s Hs)).
Qed.

Lemma check_changes_nothing_witness : (run linux_host (checkForLinux demo_host_cfg) demo_ready).2 = demo_ready.
Proof. exact (proj2 (check_changes_nothing _ linux_host demo_host_cfg demo_ready) linux_host_reads). Defined.

Lemma check_agrees_with_setup_witness :
  all_ok (Steps (run linux_host (checkForLinux demo_host_cfg) demo_ready).1) = true /\
  trace linux_host (setupLinux demo_host_cfg) demo_ready = [].
Proof.
  assert (H0 : all_ok (Steps (run linux_host (checkForLinux demo_host_cfg) demo_ready).1) = true) by (vm_compute; reflexivity).
  split; [exact H0|].
  destruct (check_agrees_with_setup _ linux_host demo_host_cfg demo_ready linux_host_reads) as [H1 H2].
  exact (proj1 (H2 (proj1 H1 (all_ok_spec _ H0)))).
Defined.

Lemma setup_linux_commands_witness :
  trace linux_host (setupLinux demo_host_cfg) (false, []) =
    [MRun "systemctl" ["enable"; "--now"; "xrdp"]; MRun backendIPT (iptablesAppend 3389)] /\
  (In (MRun backendIPT (iptablesAppend 3389))
     [MRun "systemctl" ["enable"; "--now"; "xrdp"]; MRun "systemctl" ["restart"; "xrdp"];
      MRun backendUFW ["allow"; ufwAllowArg 3389]; MRun backendIPT (iptablesAppend 3389); MRun backendIPT (iptablesDelete 3389)]
   \/ (PortDeclared demo_host_cfg = true /\ exists data, MRun backendIPT (iptablesAppend 3389) = MWrite xrdpINIPath data)).
Proof.
  assert (H0 : trace linux_host (setupLinux demo_host_cfg) (false, []) =
    [MRun "systemctl" ["enable"; "--now"; "xrdp"]; MRun backendIPT (iptablesAppend 3389)]) by (vm_compute; reflexivity).
  split; [exact H0|]. apply (setup_linux_commands _ linux_host demo_host_cfg (false, [])). rewrite H0. right. left. reflexivity.
Defined.
