(* ===== verification/PosixAcl.v ===== *)
(** Reading a POSIX access ACL as the kernel stores it
    (src/internal/host/posixacl.go, statedir_acl_linux.go): the reading of the
    attribute, the header, the shape of the entries, and the principals it names
    with write. *)
From S2P Require Import Prelude GoStrings.
From Stdlib Require Import Ascii.

Open Scope Z_scope.
Open Scope bool_scope.

Definition aclXattrVersion : Z := 2.
Definition aclHeaderSize : nat := 4.
Definition aclEntrySize : nat := 8.
Definition aclUserObj : Z := 1.
Definition aclUser : Z := 2.
Definition aclGroupObj : Z := 4.
Definition aclGroup : Z := 8.
Definition aclMask : Z := 16.
Definition aclOther : Z := 32.
Definition aclWrite : Z := 2.

Inductive acl_error : Type :=
  | AclSize (n : nat) | AclVersion (v : Z) | AclTagCount (tag : Z) (found : nat) | AclNoMask.

(** [binary.LittleEndian]. *)
Definition le16 (a b : ascii) : Z := byte_val a + 256 * byte_val b.
Definition le32 (a b c d : ascii) : Z := le16 a b + 65536 * le16 c d.

Record aclEntry : Type := mkAclEntry { aclTag : Z; aclPerm : Z; aclId : Z }.

(** The loop over [raw] by entries. *)
Fixpoint aclEntries (s : string) : list aclEntry :=
  match s with
  | String t0 (String t1 (String p0 (String p1 (String i0 (String i1 (String i2 (String i3 r))))))) =>
      mkAclEntry (le16 t0 t1) (le16 p0 p1) (le32 i0 i1 i2 i3) :: aclEntries r
  | _ => []
  end.

Definition aclVersion (raw : string) : Z :=
  match raw with
  | String a (String b (String c (String d _))) => le32 a b c d
  | _ => 0
  end.

Definition aclHeaderValid (raw : string) : result acl_error unit :=
  if (len raw <? aclHeaderSize)%nat || negb ((len raw - aclHeaderSize) mod aclEntrySize =? 0)%nat then Err (AclSize (len raw))
  else if negb (aclVersion raw =? aclXattrVersion) then Err (AclVersion (aclVersion raw))
  else Ok tt.

Definition seen (es : list aclEntry) (tag : Z) : nat :=
  length (List.filter (fun e => aclTag e =? tag) es).

Definition aclShapeValid (es : list aclEntry) : result acl_error unit :=
  match List.find (fun tag => negb (seen es tag =? 1)%nat) [aclUserObj; aclGroupObj; aclOther] with
  | Some tag => Err (AclTagCount tag (seen es tag))
  | None => fail_if ((0 <? seen es aclUser + seen es aclGroup)%nat && negb (seen es aclMask =? 1)%nat) AclNoMask
  end.

Definition aclEntryWriter (e : aclEntry) : option string :=
  if (negb (aclTag e =? aclUser) && negb (aclTag e =? aclGroup)) || (Z.land (aclPerm e) aclWrite =? 0) || (aclId e =? 0) then None
  else Some ((if aclTag e =? aclGroup then "group" else "user") +:+ " " +:+ Itoa (aclId e)).

Definition aclWriters (raw : string) : result acl_error (list string) :=
  _ ← aclHeaderValid raw;
  let es := aclEntries (str_drop aclHeaderSize raw) in
  _ ← aclShapeValid es;
  Ok (omap aclEntryWriter es).

(** * Reading the attribute (statedir_acl_linux.go) *)

Inductive xattr_errno : Type := ENODATA | ENOTSUP | ENOENT | ERANGE | OtherErrno.
Definition noACL (e : xattr_errno) : bool := match e with ENODATA | ENOTSUP | ENOENT => true | _ => false end.

Inductive xattr_failure : Type := XattrErrno (e : xattr_errno) | XattrKeptChanging.

(** What the two calls of one turn answer: the size, and the bytes for a buffer
    of that size. *)
Record xattr_turn : Type := mkTurn { askSize : result xattr_errno nat; askBytes : nat -> result xattr_errno string }.

(** The loop, with [attempts] turns to go, from turn [i] on; [None] is a nil slice. *)
Fixpoint read_acl_loop (turns : nat -> xattr_turn) (attempts i : nat) : result xattr_failure (option string) :=
  match attempts with
  | O => Err XattrKeptChanging
  | S attempts =>
      match askSize (turns i) with
      | Err e => if noACL e then Ok None else Err (XattrErrno e)
      | Ok size =>
          match askBytes (turns i) size with
          | Err ERANGE => read_acl_loop turns attempts (S i)
          | Err e => if noACL e then Ok None else Err (XattrErrno e)
          | Ok raw => Ok (Some raw)
          end
      end
  end.
Definition readAccessACL (turns : nat -> xattr_turn) : result xattr_failure (option string) := read_acl_loop turns 3 0.

(** * The kernel's encoding *)

Definition byte (z : Z) : ascii := ascii_of_N (Z.to_N (z mod 256)).
Definition put16 (z : Z) (r : string) : string := String (byte z) (String (byte (z / 256)) r).
Definition put32 (z : Z) (r : string) : string := put16 z (put16 (z / 65536) r).
Fixpoint encodeEntries (es : list aclEntry) : string :=
  match es with
  | [] => ""
  | e :: es => put16 (aclTag e) (put16 (aclPerm e) (put32 (aclId e) (encodeEntries es)))
  end.
Definition encodeAcl (es : list aclEntry) : string := put32 aclXattrVersion (encodeEntries es).

(** An entry the kernel's fields can hold. *)
Definition entry_fits (e : aclEntry) : Prop :=
  0 <= aclTag e < 2 ^ 16 /\ 0 <= aclPerm e < 2 ^ 16 /\ 0 <= aclId e < 2 ^ 32.

(** A write entry for a user or group other than root. *)
Definition grants_write (e : aclEntry) : Prop :=
  (aclTag e = aclUser \/ aclTag e = aclGroup) /\ Z.testbit (aclPerm e) 1 = true /\ aclId e <> 0.

(** * Facts *)

Lemma byte_val_byte z : byte_val (byte z) = z mod 256.
Proof.
  unfold byte_val, byte. pose proof (Z.mod_pos_bound z 256 ltac:(lia)).
  rewrite N_ascii_embedding by lia. lia.
Qed.

Lemma le16_put z : 0 <= z < 2 ^ 16 -> le16 (byte z) (byte (z / 256)) = z.
Proof.
  intros H. unfold le16. rewrite !byte_val_byte, (Z.mod_small (z / 256)); [|split; [apply Z.div_pos; lia|apply Z.div_lt_upper_bound; lia]].
  pose proof (Z.div_mod z 256 ltac:(lia)). lia.
Qed.

Lemma byte_mod z : byte (z mod 65536) = byte z.
Proof. unfold byte. do 2 f_equal. replace 65536 with (256 * 256) by lia. rewrite Z.rem_mul_r by lia. rewrite Z.add_mod, Z.mul_comm, Z.mod_mul, Z.add_0_r, !Z.mod_mod by lia. done. Qed.

Lemma byte_div_mod z : byte (z mod 65536 / 256) = byte (z / 256).
Proof.
  unfold byte. do 2 f_equal. replace 65536 with (256 * 256) by lia. rewrite Z.rem_mul_r by lia.
  rewrite Z.mul_comm, Z.div_add, Z.div_small, Z.add_0_l, Z.mod_mod by (try apply Z.mod_pos_bound; lia). done.
Qed.

Lemma le32_put z : 0 <= z < 2 ^ 32 ->
  le32 (byte z) (byte (z / 256)) (byte (z / 65536)) (byte (z / 65536 / 256)) = z.
Proof.
  intros H. unfold le32. rewrite <- (byte_mod z), <- (byte_div_mod z), !le16_put.
  - pose proof (Z.div_mod z 65536 ltac:(lia)). lia.
  - split; [apply Z.div_pos; lia|apply Z.div_lt_upper_bound; lia].
  - apply Z.mod_pos_bound. lia.
Qed.

Lemma aclEntries_encode es : Forall entry_fits es -> aclEntries (encodeEntries es) = es.
Proof.
  induction 1 as [|[t p i] es (Ht & Hp & Hi) _ IH]; [done|]. cbn [encodeEntries put16 put32 aclEntries aclTag aclPerm aclId] in *.
  by rewrite !le16_put, le32_put, IH.
Qed.

Lemma len_encodeEntries es : len (encodeEntries es) = (aclEntrySize * length es)%nat.
Proof. unfold len. induction es as [|e es IH]; [done|]. cbn. rewrite IH. unfold aclEntrySize. lia. Qed.

Lemma aclHeaderValid_encode es : aclHeaderValid (encodeAcl es) = Ok tt.
Proof.
  assert (Hl : len (encodeAcl es) = (4 + aclEntrySize * length es)%nat).
  { unfold encodeAcl, put32, put16. pose proof (len_encodeEntries es). unfold len in *. cbn [String.length]. lia. }
  unfold aclHeaderValid. rewrite Hl.
  replace (4 + aclEntrySize * length es - aclHeaderSize)%nat with (length es * aclEntrySize)%nat by (unfold aclHeaderSize; lia).
  rewrite Nat.Div0.mod_mul. done.
Qed.

Lemma writer_grants e : is_Some (aclEntryWriter e) <-> grants_write e.
Proof.
  unfold aclEntryWriter, grants_write.
  assert (Hb : (Z.land (aclPerm e) aclWrite =? 0) = negb (Z.testbit (aclPerm e) 1)).
  { change aclWrite with (2 ^ 1). destruct (Z.testbit (aclPerm e) 1) eqn:E; cbn.
    - apply Z.eqb_neq. intros H. assert (H0 : Z.testbit (Z.land (aclPerm e) (2 ^ 1)) 1 = false) by (by rewrite H).
      rewrite Z.land_spec, E in H0. done.
    - apply Z.eqb_eq, Z.bits_inj'. intros n Hn. rewrite Z.land_spec, Z.bits_0.
      destruct (Z.eq_dec n 1) as [->|Hne]; [by rewrite E|]. rewrite Z.pow2_bits_false by lia. by rewrite andb_false_r. }
  rewrite Hb. destruct (Z.eqb_spec (aclTag e) aclUser) as [Eu|Eu], (Z.eqb_spec (aclTag e) aclGroup) as [Eg|Eg], (Z.testbit (aclPerm e) 1),
    (Z.eqb_spec (aclId e) 0) as [Ei|Ei]; cbn; rewrite ?is_Some_alt; intuition congruence.
Qed.

Lemma omap_nil_iff {A B} (f : A -> option B) l : omap f l = [] <-> Forall (fun x => f x = None) l.
Proof.
  induction l as [|x l IH]; [by split|]. rewrite Forall_cons. cbn. destruct (f x) as [y|]; [|rewrite <- IH; tauto].
  split; [done|]. by intros [[=] _].
Qed.

(** A well-formed ACL has one owner, one owning group and one other entry, and
    one mask when it names anyone. *)
Definition acl_shape (es : list aclEntry) : Prop :=
  seen es aclUserObj = 1%nat /\ seen es aclGroupObj = 1%nat /\ seen es aclOther = 1%nat /\
  ((0 < seen es aclUser + seen es aclGroup)%nat -> seen es aclMask = 1%nat).

Lemma aclShapeValid_spec es : aclShapeValid es = Ok tt <-> acl_shape es.
Proof.
  unfold aclShapeValid, acl_shape. cbn [List.find].
  destruct (Nat.eqb_spec (seen es aclUserObj) 1) as [E1|E1]; cbn [negb]; [|split; [done|intros (? & _); done]].
  destruct (Nat.eqb_spec (seen es aclGroupObj) 1) as [E2|E2]; cbn [negb]; [|split; [done|intros (_ & ? & _); done]].
  destruct (Nat.eqb_spec (seen es aclOther) 1) as [E3|E3]; cbn [negb]; [|split; [done|intros (_ & _ & ? & _); done]].
  rewrite fail_if_Ok, andb_false_iff, negb_false_iff, Nat.ltb_ge, Nat.eqb_eq. split.
  - intros H. repeat split; try done. intros; lia.
  - intros (_ & _ & _ & H). destruct (decide (0 < seen es aclUser + seen es aclGroup)%nat); [right; auto|left; lia].
Qed.

Lemma aclWriters_nil raw ws :
  aclWriters raw = Ok ws -> (ws = [] <-> Forall (fun e => ~ grants_write e) (aclEntries (str_drop aclHeaderSize raw))).
Proof.
  unfold aclWriters. intros ([] & _ & H)%bind_Ok. apply bind_Ok in H as ([] & _ & [= <-]).
  rewrite omap_nil_iff. apply Forall_iff. intros e. rewrite <- writer_grants. destruct (aclEntryWriter e); cbn.
  - split; [done|]. intros Hn. destruct Hn. by eexists.
  - split; [intros _ [? [=]]|done].
Qed.

(** * Reading the attribute *)

(** The turns of a kernel that serves an attribute which may change between any
    two calls: [at_size] and [at_bytes] are what it holds at each of them. *)
Definition kernel_turns (at_size at_bytes : nat -> option string) (i : nat) : xattr_turn :=
  mkTurn (match at_size i with Some raw => Ok (len raw) | None => Err ENODATA end)
         (fun n => match at_bytes i with None => Err ENODATA | Some raw => if (n <? len raw)%nat then Err ERANGE else Ok raw end).

(** An access list that is there all along is never taken for none, nor read in
    part: the answer is a list the file had, or a refusal. *)
Theorem acl_never_dropped at_size at_bytes :
  (forall i, is_Some (at_size i) /\ is_Some (at_bytes i)) ->
  match readAccessACL (kernel_turns at_size at_bytes) with
  | Ok None => False
  | Ok (Some raw) => exists i, at_bytes i = Some raw
  | Err e => e = XattrKeptChanging
  end.
Proof.
  intros Hall. unfold readAccessACL.
  enough (forall n i, match read_acl_loop (kernel_turns at_size at_bytes) n i with
    | Ok None => False | Ok (Some raw) => exists j, at_bytes j = Some raw | Err e => e = XattrKeptChanging end) as H by apply H.
  intros n. induction n as [|n IH]; intros i; [done|]. cbn [read_acl_loop kernel_turns askSize askBytes].
  destruct (Hall i) as [[a Ha] [b Hb]]. rewrite Ha, Hb. destruct (len a <? len b)%nat; [apply IH|by exists i].
Qed.

(** * Properties *)

(** An ACL as the kernel encodes it is read entry for entry: it is accepted
    exactly when its shape is the kernel's, and then the principals named are
    those of the entries, none exactly when no entry but root's grants write. *)
Theorem acl_writers_of_encoded es (Hfit : Forall entry_fits es) :
  (is_ok (aclWriters (encodeAcl es)) = true <-> acl_shape es) /\
  forall ws, aclWriters (encodeAcl es) = Ok ws ->
    ws = omap aclEntryWriter es /\ (ws = [] <-> Forall (fun e => ~ grants_write e) es).
Proof.
  assert (E : aclEntries (str_drop aclHeaderSize (encodeAcl es)) = es) by (by apply aclEntries_encode).
  split.
  - unfold aclWriters. rewrite aclHeaderValid_encode. cbn [mbind result_bind]. rewrite E.
    rewrite <- aclShapeValid_spec. destruct (aclShapeValid es) as [[]|]; cbn; done.
  - intros ws H. pose proof (aclWriters_nil _ _ H) as Hn. rewrite E in Hn. split; [|done].
    revert H. unfold aclWriters. rewrite aclHeaderValid_encode. cbn [mbind result_bind]. rewrite E.
    destruct (aclShapeValid es); cbn; [by intros [= <-]|done].
Qed.

Definition demo_acl : list aclEntry :=
  [mkAclEntry aclUserObj 7 (2 ^ 32 - 1); mkAclEntry aclUser 6 1000; mkAclEntry aclGroupObj 5 (2 ^ 32 - 1);
   mkAclEntry aclMask 7 (2 ^ 32 - 1); mkAclEntry aclOther 0 (2 ^ 32 - 1)].

Lemma acl_writers_of_encoded_witness :
  aclWriters (encodeAcl demo_acl) = Ok ["user 1000"] /\ ["user 1000"] = omap aclEntryWriter demo_acl.
Proof.
  assert (H0 : aclWriters (encodeAcl demo_acl) = Ok ["user 1000"]) by (vm_compute; reflexivity).
  split; [exact H0|]. refine (proj1 (proj2 (acl_writers_of_encoded demo_acl _) _ H0)).
  unfold demo_acl, entry_fits. repeat (apply List.Forall_cons; [cbn; unfold aclUserObj, aclUser, aclGroupObj, aclMask, aclOther; lia|]). apply List.Forall_nil.
Defined.
