(* ===== verification/WindowsAcl.v ===== *)
(** Windows access control on what holds a key (src/internal/host/statedir_windows.go,
    src/internal/secretfile/permissions_windows.go): the check of a directory's
    owner and access list, the walk that refuses links and junctions above it,
    its creation with the descriptor of [stateDirSDDL], and the owner-only list
    of a secret file.

    What the file system and the security API answer is a record; what an access
    list grants, directly and through inheritance, is the reference the checks
    are proved against. *)
From S2P Require Import Prelude GoStrings GoPath GoNet.
From Stdlib Require Import Ascii.

Open Scope Z_scope.
Open Scope bool_scope.

(** * Absolute paths on Windows (path/filepath) *)

(** [FromSlash]. *)
Definition FromSlash (p : string) : string := str_map (fun c => if eqc c "/" then bslash else c) p.

Definition bs : string := String bslash "".

(** [uncLen]: up to the second separator from [n] on. *)
Definition uncLen (p : string) (n : nat) : nat :=
  match Split bslash (str_drop n p) with
  | h :: s :: _ :: _ => (n + len h + 1 + len s)%nat
  | _ => len p
  end.

(** [pathHasPrefixFold]. *)
Definition hasPrefixFold (p prefix : string) : bool :=
  HasPrefix (ToUpper p) prefix
  && match str_drop (len prefix) p with "" => true | String c _ => eqc c bslash end.

(** [volumeNameLen], of a path with backslashes. *)
Definition volumeNameLen (p : string) : nat :=
  match p with
  | String _ (String ":" _) => 2
  | String c r =>
      if negb (eqc c bslash) then 0
      else if hasPrefixFold p (bs +:+ bs +:+ "." +:+ bs +:+ "UNC") then uncLen p 8
      else if hasPrefixFold p (bs +:+ bs +:+ ".") || hasPrefixFold p (bs +:+ bs +:+ "?") || hasPrefixFold p (bs +:+ "??") then
        if (len p =? 3)%nat then 3
        else match Split bslash (str_drop 4 p) with h :: _ :: _ => (4 + len h)%nat | _ => len p end
      else match r with
           | String d _ => if eqc d bslash then uncLen p 2 else 0
           | "" => 0
           end
  | "" => 0
  end.

(** [Clean]. What it does to keep a relative path relative concerns no path with
    a volume, and none that is clean already. *)
Definition winClean (path : string) : string :=
  let p := FromSlash path in
  let n := volumeNameLen p in
  let vol := str_take n p in
  let rest := str_drop n p in
  if bool_decide (rest = "") then
    if (1 <? n)%nat && HasPrefix p (bs +:+ bs) then p else path +:+ "."
  else
    let rooted := HasPrefix rest bs in
    let body := Join (clean_go rooted [] (Split bslash rest)) bs in
    vol +:+ (if rooted then bs +:+ body else if bool_decide (body = "") then "." else body).

(** [Dir]. *)
Definition winDir (path : string) : string :=
  let p := FromSlash path in
  let n := volumeNameLen p in
  let vol := str_take n p in
  let rest := str_drop n p in
  let dir := winClean (match last_index_byte bslash rest with Some i => str_take (S i) rest | None => "" end) in
  if bool_decide (dir = ".") && (2 <? n)%nat then vol else vol +:+ dir.

(** * Security identifiers, entries and descriptors *)

Record SID : Type := mkSID { authority : Z; subAuthorities : list Z }.
#[export] Instance SID_eq_dec : EqDecision SID.
Proof. solve_decision. Defined.

Definition LocalSystem : SID := mkSID 5 [18].
Definition Administrators : SID := mkSID 5 [32; 544].
Definition CreatorOwner : SID := mkSID 3 [0].

Definition trustedSID (sid : SID) : bool := bool_decide (sid = LocalSystem) || bool_decide (sid = Administrators).

Record ACE : Type := mkACE { AceType : Z; AceFlags : Z; AceMask : Z; aceSid : SID }.

Definition ACCESS_ALLOWED_ACE_TYPE : Z := 0.
Definition ACCESS_DENIED_ACE_TYPE : Z := 1.
Definition OBJECT_INHERIT_ACE : Z := 1.
Definition CONTAINER_INHERIT_ACE : Z := 2.
Definition INHERIT_ONLY_ACE : Z := 8.

(** An owner that cannot be read is [None]; so is a list that cannot be read or
    that is NULL, and an entry [GetAce] fails on. *)
Record SecurityDescriptor : Type := mkSD { sdOwner : option SID; sdDacl : option (list (option ACE)) }.

(** * Errors *)

Inductive acl_refusal : Type :=
  | OwnerUnreadable | OwnedBy (sid : SID) | NoDACL
  | ACEUnreadable (i : nat) | ACETypeUnsupported (t : Z) | AccessTo (sid : SID)
  | ReparsePoint (p : string) | PathUnreadable (p : string)
  | StatFailed | NotADirectory | NotRegular | PermissionsUnreadable
  | CreateDirFailed | ProtectFailed.

(** * The check of an access list *)

Definition inheritOnly (a : ACE) : bool := negb (Z.land (AceFlags a) INHERIT_ONLY_ACE =? 0).

Definition checkACE (a : ACE) : result acl_refusal unit :=
  if AceType a =? ACCESS_DENIED_ACE_TYPE then Ok tt
  else if negb (AceType a =? ACCESS_ALLOWED_ACE_TYPE) then Err (ACETypeUnsupported (AceType a))
  else if (AceMask a =? 0) || trustedSID (aceSid a) || (inheritOnly a && bool_decide (aceSid a = CreatorOwner)) then Ok tt
  else Err (AccessTo (aceSid a)).

(** The loop over the entries, from entry [i] on. *)
Fixpoint checkACEs (i : nat) (aces : list (option ACE)) : result acl_refusal unit :=
  match aces with
  | [] => Ok tt
  | None :: _ => Err (ACEUnreadable i)
  | Some a :: rest => _ ← checkACE a; checkACEs (S i) rest
  end.

Definition checkWindowsDACL (sd : SecurityDescriptor) : result acl_refusal unit :=
  match sdOwner sd with
  | None => Err OwnerUnreadable
  | Some owner =>
      if negb (trustedSID owner) then Err (OwnedBy owner)
      else match sdDacl sd with None => Err NoDACL | Some aces => checkACEs 0 aces end
  end.

(** * The directory *)

(** The type bits of a file mode that the code reads. *)
Record win_mode : Type := mkMode { modeDir : bool; modeSymlink : bool; modeIrregular : bool; modeOther : bool }.
Definition isRegular (m : win_mode) : bool := negb (modeDir m || modeSymlink m || modeIrregular m || modeOther m).
Definition reparse (m : win_mode) : bool := modeSymlink m || modeIrregular m.

Inductive win_lstat : Type := WAbsent | WFails | WMode (m : win_mode).

Record winfs : Type := mkWinFS {
  wLstat : string -> win_lstat;
  wSecurity : string -> option SecurityDescriptor;   (** GetNamedSecurityInfo *)
}.

(** The loop of [checkNoReparse]; [None] is a loop that did not end. *)
Fixpoint reparseLoop (fs : winfs) (fuel : nat) (p : string) : option (result acl_refusal unit) :=
  match fuel with
  | O => None
  | S fuel =>
      match wLstat fs p with
      | WMode m => if reparse m then Some (Err (ReparsePoint p))
                   else if bool_decide (winDir p = p) then Some (Ok tt) else reparseLoop fs fuel (winDir p)
      | WFails => Some (Err (PathUnreadable p))
      | WAbsent => if bool_decide (winDir p = p) then Some (Ok tt) else reparseLoop fs fuel (winDir p)
      end
  end.
Definition checkNoReparse (fs : winfs) (path : string) : option (result acl_refusal unit) :=
  reparseLoop fs (S (len (winClean path))) (winClean path).

(** What follows a check that may not end. *)
Definition and_then (r : option (result acl_refusal unit)) (k : option (result acl_refusal unit)) : option (result acl_refusal unit) :=
  match r with Some (Ok _) => k | r => r end.

Definition checkSecurity (fs : winfs) (path : string) : result acl_refusal unit :=
  match wSecurity fs path with None => Err PermissionsUnreadable | Some sd => checkWindowsDACL sd end.

Definition winCheckStateDir (fs : winfs) (path : string) : option (result acl_refusal unit) :=
  and_then (checkNoReparse fs path)
    (Some (match wLstat fs path with
           | WAbsent | WFails => Err StatFailed
           | WMode m => if negb (modeDir m) then Err NotADirectory else checkSecurity fs path
           end)).

Definition winCheckSecretFile (fs : winfs) (path : string) : result acl_refusal unit :=
  match wLstat fs path with
  | WAbsent | WFails => Err StatFailed
  | WMode m => if negb (isRegular m) then Err NotRegular else checkSecurity fs path
  end.

(** * Creating the directory *)

Definition stateDirSDDL : string := "O:BAD:PAI(A;OICI;FA;;;SY)(A;OICI;FA;;;BA)".

Section Create.
(** The file system after [os.MkdirAll], the descriptor Windows reads a string
    as, and the file system after [SetNamedSecurityInfo]; each may fail. *)
Variable mkdirAll : string -> winfs -> option winfs.
Variable fromString : string -> option SecurityDescriptor.
Variable setSecurity : string -> SecurityDescriptor -> winfs -> option winfs.

Definition protectStateDir (path : string) (fs : winfs) : option winfs :=
  sd ← fromString stateDirSDDL;
  owner ← sdOwner sd;
  dacl ← sdDacl sd;
  setSecurity path (mkSD (Some owner) (Some dacl)) fs.

Definition winEnsureStateDir (path : string) (fs : winfs) : option (result acl_refusal unit) * winfs :=
  match wLstat fs path with
  | WAbsent =>
      match checkNoReparse fs (winDir path) with
      | Some (Ok _) =>
          match mkdirAll path fs with
          | None => (Some (Err CreateDirFailed), fs)
          | Some made =>
              match protectStateDir path made with
              | None => (Some (Err ProtectFailed), made)
              | Some fs' => (winCheckStateDir fs' path, fs')
              end
          end
      | r => (r, fs)
      end
  | _ => (winCheckStateDir fs path, fs)
  end.

(** * The owner-only list of a secret file *)

(** FILE_ALL_ACCESS. *)
Definition fileAllAccess : Z := Z.lor (Z.lor 983040 1048576) 511.

Definition winHarden (tokenUser : option SID) (path : string) (directory : bool) (fs : winfs) : option winfs :=
  user ← tokenUser;
  let inheritance := if directory then Z.lor OBJECT_INHERIT_ACE CONTAINER_INHERIT_ACE else 0 in
  let acl := [Some (mkACE ACCESS_ALLOWED_ACE_TYPE inheritance fileAllAccess user)] in
  setSecurity path (mkSD (wSecurity fs path ≫= sdOwner) (Some acl)) fs.
End Create.

(** * The reference: what a descriptor grants *)

Definition in_token (token : list SID) (a : ACE) : bool := bool_decide (aceSid a ∈ token).

(** The rights an access check over the entries in order gives a token, with
    [denied] refused so far. An entry of any type but allow and deny is taken to
    grant its whole mask. *)
Fixpoint granted (token : list SID) (denied : Z) (aces : list ACE) : Z :=
  match aces with
  | [] => 0
  | a :: rest =>
      if inheritOnly a || negb (in_token token a) then granted token denied rest
      else if AceType a =? ACCESS_DENIED_ACE_TYPE then granted token (Z.lor denied (AceMask a)) rest
      else if AceType a =? ACCESS_ALLOWED_ACE_TYPE then
        Z.lor (Z.ldiff (AceMask a) denied) (granted token denied rest)
      else Z.lor (AceMask a) (granted token denied rest)
  end.

(** READ_CONTROL and WRITE_DAC, which an owner has whatever the list says. *)
Definition ownerRights : Z := Z.lor 131072 262144.
Definition allRights : Z := 2 ^ 32 - 1.

Definition access (token : list SID) (sd : SecurityDescriptor) : Z :=
  Z.lor (match sdOwner sd with Some o => if bool_decide (o ∈ token) then ownerRights else 0 | None => allRights end)
        (match sdDacl sd with
         | Some aces => match mapM id aces with Some aces => granted token 0 aces | None => allRights end
         | None => allRights
         end).

(** The descriptor of a file [creator] makes in a directory: the entries that
    files inherit, effective, with the creator in place of CREATOR OWNER. *)
Definition inherited (creator : SID) (a : ACE) : option (option ACE) :=
  if Z.land (AceFlags a) OBJECT_INHERIT_ACE =? 0 then None
  else Some (Some (mkACE (AceType a) 0 (AceMask a) (if bool_decide (aceSid a = CreatorOwner) then creator else aceSid a))).
Definition created_inside (creator : SID) (sd : SecurityDescriptor) : SecurityDescriptor :=
  mkSD (Some creator)
       (match sdDacl sd ≫= mapM id with Some aces => Some (omap (inherited creator) aces) | None => None end).

Definition stranger (token : list SID) : Prop := forall s, s ∈ token -> trustedSID s = false.

(** * What an accepted list grants *)

(** An entry that gives a stranger nothing. *)
Definition harmless (a : ACE) : Prop :=
  AceType a = ACCESS_DENIED_ACE_TYPE
  \/ (AceType a = ACCESS_ALLOWED_ACE_TYPE /\ (AceMask a = 0 \/ trustedSID (aceSid a) = true)).

Lemma checkACE_Ok a : checkACE a = Ok tt <-> harmless a \/ (AceType a = ACCESS_ALLOWED_ACE_TYPE /\ inheritOnly a = true /\ aceSid a = CreatorOwner).
Proof.
  unfold checkACE, harmless. destruct (Z.eqb_spec (AceType a) ACCESS_DENIED_ACE_TYPE) as [->|Hd]; [naive_solver|].
  destruct (Z.eqb_spec (AceType a) ACCESS_ALLOWED_ACE_TYPE) as [->|Ha]; cbn [negb]; [|naive_solver].
  destruct (Z.eqb_spec (AceMask a) 0) as [->|Hm]; [naive_solver|]. cbn [orb].
  destruct (trustedSID (aceSid a)) eqn:Et; [naive_solver|]. cbn [orb].
  destruct (inheritOnly a); cbn [andb]; [|naive_solver]. case_bool_decide; naive_solver.
Qed.

Lemma checkACEs_Ok i aces : checkACEs i aces = Ok tt -> exists l, mapM id aces = Some l /\ Forall (fun a => checkACE a = Ok tt) l.
Proof.
  revert i. induction aces as [|[a|] aces IH]; intros i; cbn; [by exists []| |done].
  intros ([] & Ha & Hr)%bind_Ok. destruct (IH _ Hr) as (l & -> & Hl). exists (a :: l). auto.
Qed.

Lemma granted_stranger token denied aces :
  stranger token -> Forall (fun a => harmless a \/ inheritOnly a = true) aces -> granted token denied aces = 0.
Proof.
  intros Hs. revert denied. induction aces as [|a aces IH]; intros denied; [done|]. intros [Ha Hr]%Forall_cons. cbn.
  destruct (inheritOnly a) eqn:Ei; [by apply IH|]. destruct Ha as [Ha|]; [|done]. cbn [orb].
  unfold in_token. case_bool_decide as Hin; cbn [negb]; [|by apply IH].
  destruct Ha as [->|[-> Hm]]; cbn; [by apply IH|]. rewrite IH by done.
  destruct Hm as [->|Ht]; [by rewrite Z.ldiff_0_l|]. by rewrite (Hs _ Hin) in Ht.
Qed.

(** An accepted descriptor names a trusted owner and gives a stranger nothing,
    nor does what a trusted account creates in the directory. *)
Lemma accepted_grants_nothing sd token :
  checkWindowsDACL sd = Ok tt -> stranger token ->
  (exists owner, sdOwner sd = Some owner /\ trustedSID owner = true)
  /\ access token sd = 0
  /\ forall creator, trustedSID creator = true -> access token (created_inside creator sd) = 0.
Proof.
  unfold checkWindowsDACL, access, created_inside. intros Hc Hs. destruct (sdOwner sd) as [owner|]; [|done].
  destruct (trustedSID owner) eqn:Eo; [|done]. cbn [negb] in Hc.
  destruct (sdDacl sd) as [aces|]; [|done]. destruct (checkACEs_Ok _ _ Hc) as (l & Hl & Hok).
  assert (forall s, trustedSID s = true -> bool_decide (s ∈ token) = false) as Hno.
  { intros s Ht. apply bool_decide_eq_false. intros Hin. by rewrite (Hs _ Hin) in Ht. }
  cbn [mbind option_bind sdOwner sdDacl]. rewrite Hl. split_and!.
  - eauto.
  - rewrite Hno by done. rewrite granted_stranger; [done|done|]. eapply Forall_impl; [exact Hok|].
    intros a [?|(_ & ? & _)]%checkACE_Ok; auto.
  - intros creator Ht. rewrite Hno by done.
    assert (exists k, mapM id (omap (inherited creator) l) = Some k /\ Forall harmless k) as (k & -> & Hk).
    { clear Hl Hc aces. induction Hok as [|a l Ha _ (k & Hk & Hf)]; [by exists []|]. cbn. unfold inherited at 1.
      destruct (_ =? 0); [by exists k|]. cbn. rewrite Hk. eexists. split; [done|]. constructor; [|done].
      unfold harmless. cbn. apply checkACE_Ok in Ha as [[->|[-> [->|Ha]]]|(-> & _ & ->)]; auto.
      right. split; [done|]. right. case_bool_decide; [by subst|done]. }
    rewrite granted_stranger; [done|done|]. eapply Forall_impl; [exact Hk|]. auto.
Qed.

(** * The directories above a path *)

(** An element of a cleaned path, in characters a Windows name may have. *)
Definition win_bytes (s : string) : bool := no_byte bslash s && no_byte "/" s && no_byte "?" s && no_byte ":" s.
Definition win_segment (s : string) : Prop := win_bytes s = true /\ s <> "" /\ s <> "." /\ s <> "..".

Definition winPath (vol : string) (l : list string) : string := vol +:+ bs +:+ Join l bs.

(** A drive, or the host and the share of a UNC path. *)
Definition is_drive (vol : string) : Prop := exists d, vol = String d ":" /\ d <> "/"%char.
Definition is_share (vol : string) : Prop :=
  exists h s, vol = bs +:+ bs +:+ h +:+ bs +:+ s /\ win_segment h /\ win_bytes s = true.
Definition is_volume (vol : string) : Prop := is_drive vol \/ is_share vol.

Lemma win_bytes_inv s : win_bytes s = true ->
  no_byte bslash s = true /\ no_byte "/" s = true /\ no_byte "?" s = true /\ no_byte ":" s = true.
Proof. unfold win_bytes. rewrite !andb_true_iff. tauto. Qed.

Lemma win_bytes_cons c s : win_bytes (String c s) = true ->
  c <> bslash /\ c <> "/"%char /\ c <> "?"%char /\ c <> ":"%char /\ win_bytes s = true.
Proof.
  intros (Ha & Hb & Hc & Hd)%win_bytes_inv. cbn in *. apply andb_true_iff in Ha as [Ha ?], Hb as [Hb ?], Hc as [Hc ?], Hd as [Hd ?].
  apply negb_true_iff, eqc_false in Ha, Hb, Hc, Hd. split_and!; try done. unfold win_bytes. by rewrite !andb_true_iff.
Qed.


Lemma FromSlash_app a b : FromSlash (a +:+ b) = FromSlash a +:+ FromSlash b.
Proof. unfold FromSlash. induction a as [|c a IH]; [done|]. cbn. by rewrite IH. Qed.

Lemma FromSlash_id s : no_byte "/" s = true -> FromSlash s = s.
Proof.
  unfold FromSlash. induction s as [|c s IH]; [done|]. cbn. intros [Hc Hs]%andb_true_iff. apply negb_true_iff in Hc. by rewrite Hc, IH.
Qed.

Lemma segments_no_slash l : Forall win_segment l -> no_byte "/" (Join l bs) = true.
Proof. intros H. apply no_byte_Join; [done|]. eapply Forall_impl; [exact H|]. by intros s [(_ & ? & _)%win_bytes_inv _]. Qed.

Lemma share_prefix h r t : win_segment h ->
  HasPrefix (ToUpper (bs +:+ bs +:+ h +:+ bs +:+ r)) (bs +:+ bs +:+ "." +:+ bs +:+ t) = false
  /\ hasPrefixFold (bs +:+ bs +:+ h +:+ bs +:+ r) (bs +:+ bs +:+ ".") = false
  /\ hasPrefixFold (bs +:+ bs +:+ h +:+ bs +:+ r) (bs +:+ bs +:+ "?") = false.
Proof.
  intros (Hb & H0 & H1 & _). destruct h as [|c h]; [done|]. apply win_bytes_cons in Hb as (Hc & _ & Hq & _ & Hb).
  assert (forall b, b = "."%char \/ b = "?"%char -> eqc b (upper_byte c) = true -> c = b) as Hu.
  { intros b [->| ->] E%eqc_true; revert E; destruct c as [[] [] [] [] [] [] [] []]; vm_compute; congruence. }
  assert (forall d, eqc bslash (upper_byte d) = true -> d = bslash) as Hub.
  { intros d E%eqc_true. revert E. destruct d as [[] [] [] [] [] [] [] []]; vm_compute; congruence. }
  unfold hasPrefixFold. cbn. change (eqc bslash (upper_byte bslash)) with true. cbn [andb]. split_and!.
  - destruct (eqc "." (upper_byte c)) eqn:E; [|done]. apply Hu in E as ->; [|by left].
    destruct h as [|d h]; [done|]. cbn. destruct (eqc bslash (upper_byte d)) eqn:E; [|done].
    apply Hub in E as ->. by apply win_bytes_cons in Hb as [? _].
  - destruct (eqc "." (upper_byte c)) eqn:E; [|done]. apply Hu in E as ->; [|by left].
    destruct h as [|d h]; [done|]. apply win_bytes_cons in Hb as [? _]. cbn. by apply eqc_false.
  - destruct (eqc "?" (upper_byte c)) eqn:E; [|done]. apply Hu in E as ->; [|by right]. done.
Qed.

Lemma volume_len vol r : is_volume vol -> volumeNameLen (vol +:+ bs +:+ r) = len vol.
Proof.
  intros [(d & -> & _)|(h & s & -> & Hh & Hs)]; [done|]. rewrite !str_app_assoc.
  pose proof (share_prefix h (s +:+ bs +:+ r) "UNC" Hh) as (H1 & H2 & H3).
  assert (forall r', volumeNameLen (bs +:+ bs +:+ h +:+ r') =
    if hasPrefixFold (bs +:+ bs +:+ h +:+ r') (bs +:+ bs +:+ "." +:+ bs +:+ "UNC") then uncLen (bs +:+ bs +:+ h +:+ r') 8
    else if hasPrefixFold (bs +:+ bs +:+ h +:+ r') (bs +:+ bs +:+ ".") || hasPrefixFold (bs +:+ bs +:+ h +:+ r') (bs +:+ bs +:+ "?") || false
      then if (len (bs +:+ bs +:+ h +:+ r') =? 3)%nat then 3%nat
           else match Split bslash (str_drop 4 (bs +:+ bs +:+ h +:+ r')) with x :: _ :: _ => (4 + len x)%nat | _ => len (bs +:+ bs +:+ h +:+ r') end
      else uncLen (bs +:+ bs +:+ h +:+ r') 2) as -> by (intros r'; reflexivity).
  unfold hasPrefixFold at 1. rewrite H1, H2, H3. cbn [andb orb].
  apply win_bytes_inv in Hs as (Hs & _). destruct Hh as [(Hh & _)%win_bytes_inv _].
  unfold uncLen. cbn [str_drop bs String.append]. rewrite !Split_app_sep by done.
  pose proof (Split_ne bslash r) as Hn. destruct (Split bslash r); [done|].
  assert (forall a b, len (String a b) = S (len b)) as Hl by done. rewrite !Hl, len_app, Hl. lia.
Qed.

Lemma volume_slash vol : is_volume vol -> FromSlash vol = vol.
Proof.
  intros [(d & -> & Hd)|(h & s & -> & (Hh & _) & Hs)].
  - cbn. by rewrite (proj2 (eqc_false _ _) Hd).
  - apply win_bytes_inv in Hh as (_ & ? & _), Hs as (_ & ? & _). rewrite !FromSlash_app, !FromSlash_id by done. done.
Qed.

(** The start of a rooted path without a volume. *)
Lemma rooted_no_volume r :
  r = "" \/ (exists d t, r = String d t /\ win_bytes (String d "") = true) -> volumeNameLen (bs +:+ r) = 0%nat.
Proof.
  intros [->|(d & t & -> & (Hb & _ & Hq & Hc & _)%win_bytes_cons)]; [done|]. unfold bs. cbn [String.append].
  assert (forall A (x y : A), match d with ":"%char => x | _ => y end = y) as Hd.
  { intros A x y. clear - Hc. destruct d as [[] [] [] [] [] [] [] []]; try done; congruence. }
  unfold volumeNameLen. rewrite Hd. rewrite eqc_refl. cbn [negb].
  assert (forall b, b = bslash \/ b = "?"%char -> eqc b (upper_byte d) = false) as Hu.
  { intros b Hb'. apply eqc_false. intros E. destruct Hb' as [->| ->]; revert E; clear - Hb Hq; unfold bslash in Hb;
    destruct d as [[] [] [] [] [] [] [] []]; vm_compute; congruence. }
  unfold hasPrefixFold. cbn [ToUpper str_map HasPrefix bs String.append].
  change (eqc bslash (upper_byte bslash)) with true. cbn [andb]. rewrite !Hu by auto. cbn [andb orb].
  by rewrite (proj2 (eqc_false _ _) Hb).
Qed.

(** An element of a clean path leads to no volume, and no path of them does. *)
Lemma segment_head s r : win_segment s -> exists d t, s +:+ r = String d t /\ win_bytes (String d "") = true.
Proof.
  intros (Hb & Hn & _). destruct s as [|d s]; [done|]. exists d, (s +:+ r). split; [done|].
  revert Hb. unfold win_bytes, no_byte. cbn [str_all].
  by destruct (eqc d bslash), (eqc d "/"), (eqc d "?"), (eqc d ":"); cbn; rewrite ?andb_false_r.
Qed.

Lemma winClean_rooted r :
  no_byte "/" r = true -> volumeNameLen (bs +:+ r) = 0%nat ->
  winClean (bs +:+ r) = bs +:+ Join (clean_go true [] (Split bslash r)) bs.
Proof.
  intros Hs Hv. unfold winClean. rewrite FromSlash_id by done. rewrite Hv.
  change (str_drop 0 (bs +:+ r)) with (bs +:+ r). change (str_take 0 (bs +:+ r)) with "".
  rewrite bool_decide_eq_false_2, (HasPrefix_app r bs) by done.
  change (Split bslash (bs +:+ r)) with (Split bslash ("" +:+ String bslash r)). by rewrite Split_app_sep.
Qed.

Lemma clean_go_segments stack l rest :
  Forall win_segment l -> clean_go true stack (l ++ rest) = clean_go true (rev l ++ stack) rest.
Proof.
  intros H. revert stack. induction H as [|s l (_ & H0 & H1 & H2) Hl IH]; intros stack; cbn; [done|].
  rewrite !bool_decide_eq_false_2 by done. cbn [orb]. rewrite IH. by rewrite <- app_assoc.
Qed.

(** The parent of a clean path, and the root's own. *)
Lemma winDir_step vol l s : is_volume vol -> Forall win_segment l -> win_segment s -> winDir (winPath vol (l ++ [s])) = winPath vol l.
Proof.
  intros Hv Hl Hs. unfold winDir, winPath.
  pose proof (segments_no_slash _ Hl) as Hls. destruct Hs as (Hsb & Hs0 & _). apply win_bytes_inv in Hsb as (Hsb & Hss & _).
  assert (no_byte "/" (Join (l ++ [s]) bs) = true) as Hj.
  { apply no_byte_Join; [done|]. apply Forall_app. split; [|by repeat constructor].
    eapply Forall_impl; [exact Hl|]. by intros x ((_ & ? & _)%win_bytes_inv & _). }
  rewrite !FromSlash_app, (volume_slash vol), (FromSlash_id (Join _ _)) by done. change (FromSlash bs) with bs.
  rewrite volume_len, str_take_app, str_drop_app by done.
  set (pre := match l with [] => "" | _ => bs +:+ Join l bs end).
  assert (bs +:+ Join (l ++ [s]) bs = pre +:+ String bslash s) as ->.
  { subst pre. destruct l; [done|]. rewrite Join_snoc by done. by rewrite !str_app_assoc. }
  rewrite last_index_byte_app by done.
  assert (str_take (S (len pre)) (pre +:+ String bslash s) = pre +:+ bs) as ->.
  { change (String bslash s) with (bs +:+ s). rewrite <- str_app_assoc.
    assert (S (len pre) = len (pre +:+ bs)) as -> by (rewrite len_app; cbn; lia). apply str_take_app. }
  assert (exists r, pre +:+ bs = bs +:+ r /\ no_byte "/" r = true /\ volumeNameLen (bs +:+ r) = 0%nat
                    /\ clean_go true [] (Split bslash r) = l) as (r & -> & Hr & Hv0 & Hc).
  { subst pre. destruct l as [|x l]; [by exists ""|]. exists (Join (x :: l) bs +:+ bs).
    split; [by rewrite str_app_assoc|]. split; [by rewrite no_byte_app, Hls|]. split.
    - apply rooted_no_volume. right. apply Forall_cons in Hl as [Hx _]. destruct l as [|y l]; [by apply segment_head|].
      rewrite Join_cons, str_app_assoc by done. by apply segment_head.
    - unfold bs at 2. rewrite Split_app, Split_Join by first [done|eapply Forall_impl; [exact Hl|]; by intros z ((? & _)%win_bytes_inv & _)].
      change (Split bslash "") with [""]. rewrite clean_go_segments by done. cbn [clean_go]. by rewrite app_nil_r, rev_involutive. }
  rewrite winClean_rooted, Hc by done. by rewrite bool_decide_eq_false_2.
Qed.

Lemma winDir_root vol : is_volume vol -> winDir (winPath vol []) = winPath vol [].
Proof.
  intros Hv. unfold winDir, winPath. rewrite !FromSlash_app, volume_slash by done. change (FromSlash bs) with bs. change (FromSlash (Join [] bs)) with "".
  rewrite volume_len, str_take_app, str_drop_app by done. done.
Qed.

(** The elements of a path below its volume. *)
Definition win_elements (r : string) : list string := clean_go true [] (Split bslash r).

Lemma win_elements_segments r : no_byte "/" r = true -> no_byte "?" r = true -> no_byte ":" r = true -> Forall win_segment (win_elements r).
Proof.
  intros Ha Hb Hc. unfold win_elements.
  assert (Forall (fun s => win_bytes s = true) (Split bslash r)) as Hp.
  { apply Forall_forall. intros s Hs. pose proof (Split_parts_no_byte bslash r) as Hn. rewrite Forall_forall in Hn.
    unfold win_bytes. rewrite (Hn s Hs). rewrite <- (Join_Split bslash r) in Ha, Hb, Hc. clear Hn.
    revert Ha Hb Hc. induction (Split bslash r) as [|x l IH]; [by apply elem_of_nil in Hs|].
    apply elem_of_cons in Hs. destruct l as [|y l].
    - destruct Hs as [->|Hs]; [|by apply elem_of_nil in Hs]. change (Join [x] _) with x. intros Ha' Hb' Hc'. by rewrite Ha', Hb', Hc'.
    - rewrite Join_cons, !no_byte_app by done. intros [Ha [_ Ha']%andb_true_iff]%andb_true_iff [Hb [_ Hb']%andb_true_iff]%andb_true_iff [Hc [_ Hc']%andb_true_iff]%andb_true_iff.
      destruct Hs as [->|Hs]; [by rewrite Ha, Hb, Hc|]. by apply IH. }
  assert (forall stack, Forall win_segment stack -> Forall win_segment (clean_go true stack (Split bslash r))) as H; [|by apply H].
  induction Hp as [|s l Hs Hl IH]; intros stack Hst; cbn; [by apply Forall_rev|].
  destruct (bool_decide_reflect (s = "")); cbn [orb]; [by apply IH|]. destruct (bool_decide_reflect (s = ".")); [by apply IH|].
  destruct (bool_decide_reflect (s = "..")); [|apply IH; by constructor].
  destruct stack as [|top stack]; [by apply IH|]. apply Forall_cons in Hst as [Ht Hst].
  rewrite bool_decide_eq_false_2 by apply Ht. by apply IH.
Qed.

Lemma winClean_path path vol r :
  is_volume vol -> FromSlash path = vol +:+ bs +:+ r -> winClean path = winPath vol (win_elements r).
Proof.
  intros Hv He. unfold winClean. rewrite He, volume_len, str_take_app, str_drop_app by done.
  rewrite bool_decide_eq_false_2, (HasPrefix_app r bs) by done.
  change (Split bslash (bs +:+ r)) with (Split bslash ("" +:+ String bslash r)). by rewrite Split_app_sep.
Qed.

Lemma win_elements_Join l : Forall win_segment l -> win_elements (Join l bs) = l.
Proof.
  intros H. unfold win_elements. destruct l as [|x l]; [done|].
  unfold bs. rewrite Split_Join by first [done|eapply Forall_impl; [exact H|]; by intros z ((? & _)%win_bytes_inv & _)].
  rewrite <- (app_nil_r (x :: l)) at 1. rewrite clean_go_segments by done. cbn [clean_go]. by rewrite app_nil_r, rev_involutive.
Qed.

(** The absolute paths of a host file: a drive or a share, and names Windows
    allows below it. *)
Definition below (path vol r : string) : Prop :=
  is_volume vol /\ FromSlash path = vol +:+ bs +:+ r /\ no_byte "?" r = true /\ no_byte ":" r = true.

Lemma FromSlash_no_slash s : no_byte "/" (FromSlash s) = true.
Proof. unfold FromSlash, no_byte. induction s as [|c s IH]; [done|]. cbn. rewrite IH. destruct (eqc c "/") eqn:E; [reflexivity|by rewrite E]. Qed.

Lemma below_segments path vol r : below path vol r -> Forall win_segment (win_elements r).
Proof.
  intros (_ & He & Hq & Hc). apply win_elements_segments; [|done..].
  pose proof (FromSlash_no_slash path) as H. rewrite He, !no_byte_app, !andb_true_iff in H. tauto.
Qed.

(** Nothing at [p], or something that is neither a link nor a junction. *)
Definition not_a_link (fs : winfs) (p : string) : Prop :=
  match wLstat fs p with WAbsent => True | WFails => False | WMode m => reparse m = false end.

(** The loop meets the path and every directory above it, up to the root. *)
Lemma reparseLoop_Ok fs vol l fuel :
  is_volume vol -> Forall win_segment l -> (length l < fuel)%nat ->
  exists r, reparseLoop fs fuel (winPath vol l) = Some r
    /\ (r = Ok tt <-> forall n, not_a_link fs (winPath vol (take n l))).
Proof.
  intros Hv. revert fuel. induction l as [|s l IH] using rev_ind; intros fuel Hl Hf.
  - destruct fuel as [|fuel]; [lia|]. cbn [reparseLoop]. rewrite winDir_root, bool_decide_eq_true_2 by done.
    assert (forall n, take n (@nil string) = []) as Hn by (by intros []). unfold not_a_link.
    destruct (wLstat fs (winPath vol [])) as [| |m] eqn:El; [| |destruct (reparse m) eqn:Em];
      (eexists; split; [done|]; split; [intros ? n; by rewrite ?Hn, El|intros Hall; specialize (Hall 0%nat); cbn in Hall; by rewrite El in Hall; first [done|congruence]]).
  - apply Forall_app in Hl as [Hl [Hs _]%Forall_cons]. rewrite length_app in Hf. cbn in Hf. destruct fuel as [|fuel]; [lia|].
    cbn [reparseLoop]. rewrite winDir_step by done.
    destruct (IH fuel Hl ltac:(lia)) as (r & Hr & Hall).
    assert (bool_decide (winPath vol l = winPath vol (l ++ [s])) = false) as Hne.
    { apply bool_decide_eq_false. unfold winPath. intros E. apply (f_equal len) in E. rewrite !len_app in E.
      destruct Hs as (_ & Hs0 & _). assert (len s <> 0)%nat as Hs1 by (by destruct s).
      destruct (decide (l = [])) as [->|Hl0];
        [change (Join ([] ++ [s]) bs) with s in E; change (len (Join [] bs)) with 0%nat in E; lia|].
      rewrite Join_snoc, !len_app in E by done. lia. }
    assert (forall n, take n (l ++ [s]) = take n l \/ take n (l ++ [s]) = l ++ [s]) as Ht.
    { intros n. destruct (decide (n <= length l)%nat); [left; by rewrite take_app_le|right; apply take_ge; rewrite length_app; cbn; lia]. }
    assert (forall P : Prop, not_a_link fs (winPath vol (l ++ [s])) -> (P <-> forall n, not_a_link fs (winPath vol (take n l))) ->
              (P <-> forall n, not_a_link fs (winPath vol (take n (l ++ [s]))))) as Hiff.
    { intros P Hs' ->. split; intros Hall' n; [by destruct (Ht n) as [-> | ->]|].
      destruct (decide (n <= length l)%nat) as [Hn|Hn]; [by rewrite <- (take_app_le l [s])|].
      rewrite (take_ge l n) by lia. pose proof (Hall' (length l)) as H. by rewrite take_app_length in H. }
    assert (forall e : acl_refusal, ~ not_a_link fs (winPath vol (l ++ [s])) ->
              (Err e = @Ok acl_refusal unit tt <-> forall n, not_a_link fs (winPath vol (take n (l ++ [s]))))) as Hbad.
    { intros e Hno. split; [done|]. intros Hall'. specialize (Hall' (length (l ++ [s]))). by rewrite take_ge in Hall'. }
    assert (forall x, wLstat fs (winPath vol (l ++ [s])) = x ->
              not_a_link fs (winPath vol (l ++ [s])) = match x with WAbsent => True | WFails => False | WMode m => reparse m = false end) as Hx
      by (by intros x <-).
    rewrite Hne. destruct (wLstat fs (winPath vol (l ++ [s]))) as [| |m]; rewrite (Hx _ eq_refl) in Hiff, Hbad.
    + exists r. split; [done|]. by apply Hiff.
    + eexists. split; [done|]. apply Hbad. tauto.
    + destruct (reparse m); [|exists r; split; [done|by apply Hiff]]. eexists. split; [done|]. by apply Hbad.
Qed.

Lemma length_Join l : Forall win_segment l -> (length l <= len (Join l bs))%nat.
Proof.
  induction 1 as [|s l (_ & Hs & _) Hl IH]; [done|]. assert (len s <> 0)%nat by (by destruct s).
  destruct l as [|y l]; [change (Join [s] bs) with s; cbn [length]; lia|].
  rewrite Join_cons, !len_app by done. cbn [length] in *. lia.
Qed.

Lemma checkNoReparse_Ok fs path vol r :
  below path vol r ->
  exists res, checkNoReparse fs path = Some res
    /\ (res = Ok tt <-> forall n, not_a_link fs (winPath vol (take n (win_elements r)))).
Proof.
  intros Hb. pose proof (below_segments _ _ _ Hb) as Hs. destruct Hb as (Hv & He & _).
  unfold checkNoReparse. rewrite (winClean_path path vol r) by done. apply reparseLoop_Ok; [done..|].
  pose proof (length_Join _ Hs). unfold winPath. rewrite !len_app. lia.
Qed.

Lemma winPath_below vol l : is_volume vol -> Forall win_segment l -> below (winPath vol l) vol (Join l bs).
Proof.
  intros Hv Hl. pose proof (segments_no_slash l Hl) as Hs. unfold below, winPath.
  rewrite !FromSlash_app, volume_slash, (FromSlash_id (Join l bs)) by done. split_and!; [done..| |];
    (apply no_byte_Join; [done|]; eapply Forall_impl; [exact Hl|]; by intros s ((_ & _ & ? & ?)%win_bytes_inv & _)).
Qed.

(** * Properties *)

(** C13: a state directory accepted on Windows is a directory that no link or
    junction leads to, at any element of its path. It is owned by SYSTEM or
    Administrators, and no account outside those two has any right on it, nor on
    a file either of them creates inside. The check always answers. *)
Theorem windows_state_dir_closed fs path vol r token :
  below path vol r -> stranger token ->
  exists res, winCheckStateDir fs path = Some res
    /\ (res = Ok tt ->
        (forall n, not_a_link fs (winPath vol (take n (win_elements r))))
        /\ (exists m, wLstat fs path = WMode m /\ modeDir m = true)
        /\ exists sd owner, wSecurity fs path = Some sd /\ sdOwner sd = Some owner /\ trustedSID owner = true
             /\ access token sd = 0
             /\ forall creator, trustedSID creator = true -> access token (created_inside creator sd) = 0).
Proof.
  intros Hb Hs. destruct (checkNoReparse_Ok fs path vol r Hb) as (res & Hr & Hlinks).
  unfold winCheckStateDir. rewrite Hr. destruct res as [[]|e]; cbn [and_then]; [|by eexists].
  eexists. split; [done|]. destruct (wLstat fs path) as [| |m]; [done..|].
  destruct (modeDir m) eqn:Em; cbn [negb]; [|done]. unfold checkSecurity. destruct (wSecurity fs path) as [sd|]; [|done].
  intros Hc. destruct (accepted_grants_nothing _ _ Hc Hs) as ((owner & Ho & Ht) & Ha & Hi).
  split; [by apply Hlinks|]. split; [by exists m|]. exists sd, owner. auto.
Qed.

(** The same of an enrolment key's file: a regular file that only SYSTEM and
    Administrators own and reach. *)
Theorem windows_secret_file_closed fs path token :
  winCheckSecretFile fs path = Ok tt -> stranger token ->
  (exists m, wLstat fs path = WMode m /\ isRegular m = true)
  /\ exists sd owner, wSecurity fs path = Some sd /\ sdOwner sd = Some owner /\ trustedSID owner = true /\ access token sd = 0.
Proof.
  unfold winCheckSecretFile. intros Hc Hs. destruct (wLstat fs path) as [| |m]; [done..|].
  destruct (isRegular m) eqn:Em; [|done]. cbn [negb] in Hc. unfold checkSecurity in Hc. destruct (wSecurity fs path) as [sd|]; [|done].
  destruct (accepted_grants_nothing _ _ Hc Hs) as ((owner & Ho & Ht) & Ha & _). split; [by exists m|]. exists sd, owner. auto.
Qed.

(** What Windows reads [stateDirSDDL] as: Administrators as the owner, and full
    control for SYSTEM and Administrators, inherited by what is created inside. *)
Definition stateDirSD : SecurityDescriptor :=
  mkSD (Some Administrators)
       (Some [Some (mkACE ACCESS_ALLOWED_ACE_TYPE 3 fileAllAccess LocalSystem);
              Some (mkACE ACCESS_ALLOWED_ACE_TYPE 3 fileAllAccess Administrators)]).

Section Creating.
Context (mkdirAll : string -> winfs -> option winfs) (fromString : string -> option SecurityDescriptor)
        (setSecurity : string -> SecurityDescriptor -> winfs -> option winfs).
(** A directory is made without a link, as are those above it that are missing;
    a descriptor that was set is the one read afterwards, and a descriptor set
    without an owner keeps the owner. *)
Hypothesis mkdirAll_makes : forall path fs fs', wLstat fs path = WAbsent -> mkdirAll path fs = Some fs' ->
  wLstat fs' path = WMode (mkMode true false false false)
  /\ forall p, wLstat fs' p = wLstat fs p \/ (wLstat fs p = WAbsent /\ wLstat fs' p = WMode (mkMode true false false false)).
Hypothesis setSecurity_sets : forall path sd fs fs', setSecurity path sd fs = Some fs' ->
  wSecurity fs' path = Some sd /\ forall p, wLstat fs' p = wLstat fs p.
Hypothesis fromString_reads : fromString stateDirSDDL = Some stateDirSD.

(** An absent state directory is created only when no link or junction leads to
    where it goes, and what the creation leaves, when its steps succeed, is a
    directory the check accepts; an existing one is never changed. *)
Theorem windows_state_dir_created vol l s fs res fs' :
  is_volume vol -> Forall win_segment l -> win_segment s ->
  winEnsureStateDir mkdirAll fromString setSecurity (winPath vol (l ++ [s])) fs = (res, fs') ->
  match wLstat fs (winPath vol (l ++ [s])) with
  | WAbsent =>
      (fs' <> fs -> forall n, not_a_link fs (winPath vol (take n l)))
      /\ (res = Some (Ok tt) \/ res = Some (Err CreateDirFailed) \/ res = Some (Err ProtectFailed)
          \/ (fs' = fs /\ exists e, res = Some (Err e) /\ checkNoReparse fs (winPath vol l) = Some (Err e)))
  | _ => fs' = fs /\ res = winCheckStateDir fs (winPath vol (l ++ [s]))
  end.
Proof.
  intros Hv Hl Hs. unfold winEnsureStateDir.
  destruct (wLstat fs _) eqn:Ea; [|by intros [= <- <-]..]. rewrite winDir_step by done.
  destruct (checkNoReparse_Ok fs _ _ _ (winPath_below vol l Hv Hl)) as (r & -> & Hr). rewrite win_elements_Join in Hr by done.
  destruct r as [[]|e]; [|intros [= <- <-]; split; [done|]; right; right; right; by eauto].
  pose proof (proj1 Hr eq_refl) as Hall. intros H. split; [done|]. revert H.
  destruct (mkdirAll _ fs) as [made|] eqn:Em; [|intros [= <- <-]; auto].
  destruct (protectStateDir _ _ _ made) as [fs1|] eqn:Ep; [|intros [= <- <-]; auto]. intros [= <- <-]. left.
  apply mkdirAll_makes in Em as [Hm Hk]; [|done]. unfold protectStateDir in Ep. rewrite fromString_reads in Ep. cbn in Ep.
  apply setSecurity_sets in Ep as [Hsd Hls].
  assert (Forall win_segment (l ++ [s])) as Hls' by (apply Forall_app; split; [done|by constructor]).
  destruct (checkNoReparse_Ok fs1 _ _ _ (winPath_below vol _ Hv Hls')) as (r & Hc & Hr'). rewrite win_elements_Join in Hr' by done.
  unfold winCheckStateDir. rewrite Hc. assert (r = Ok tt) as ->.
  { apply Hr'. intros n. unfold not_a_link. rewrite Hls.
    destruct (decide (n <= length l)%nat).
    - rewrite take_app_le by done. pose proof (Hall n) as Hn. unfold not_a_link in Hn.
      destruct (Hk (winPath vol (take n l))) as [-> |[_ ->]]; done.
    - rewrite take_ge by (rewrite length_app; cbn; lia). by rewrite Hm. }
  cbn [and_then]. rewrite Hls, Hm. cbn. unfold checkSecurity. rewrite Hsd. reflexivity.
Qed.

(** A hardened secret file gives nothing to anyone but its owner and the user
    whose process wrote it. *)
Theorem windows_hardened_owner_only user path dir fs fs' token owner :
  winHarden setSecurity (Some user) path dir fs = Some fs' -> user ∉ token ->
  (wSecurity fs path ≫= sdOwner) = Some owner -> owner ∉ token ->
  exists sd, wSecurity fs' path = Some sd /\ access token sd = 0.
Proof.
  unfold winHarden. cbn [mbind option_bind]. intros Hh Hu Ho Hn. apply setSecurity_sets in Hh as [-> _].
  eexists. split; [done|]. unfold access. cbn [sdOwner sdDacl mapM]. rewrite Ho.
  rewrite bool_decide_eq_false_2 by done. cbn. unfold in_token. cbn. rewrite bool_decide_eq_false_2 by done.
  by rewrite orb_true_r.
Qed.
End Creating.

(** * Runs *)

Definition Users : SID := mkSID 5 [32; 545].
Definition Everyone : SID := mkSID 1 [0].
Definition Owner (domain : Z) : SID := mkSID 5 [21; domain; 1001].

Definition plain_dir : win_mode := mkMode true false false false.
Definition junction : win_mode := mkMode false false true false.
Definition data_dir : string := winPath "C:" (["ProgramData"] ++ ["ts-bridge"]).
Definition demo_dirs (leaf : win_lstat) (sd : option SecurityDescriptor) : winfs :=
  mkWinFS (fun p => if contains_word [winPath "C:" []; winPath "C:" ["ProgramData"]] p then WMode plain_dir
                    else if bool_decide (p = data_dir) then leaf else WAbsent)
          (fun p => if bool_decide (p = data_dir) then sd else None).

(** A creator's own list, as the tests have it: SYSTEM, and CREATOR OWNER on what is inside. *)
Definition creator_sd : SecurityDescriptor :=
  mkSD (Some LocalSystem) (Some [Some (mkACE 1 0 fileAllAccess Users); Some (mkACE 0 0 fileAllAccess LocalSystem); Some (mkACE 0 11 fileAllAccess CreatorOwner)]).

Example creator_owner_accepted : winCheckStateDir (demo_dirs (WMode plain_dir) (Some creator_sd)) data_dir = Some (Ok tt).
Proof. vm_compute. reflexivity. Qed.
Example slashes_and_dots_accepted :
  winClean "C:/ProgramData//x/../ts-bridge/." = data_dir /\ winDir data_dir = winPath "C:" ["ProgramData"]
  /\ winClean (bs +:+ bs +:+ "nas/keys/a/..") = winPath (bs +:+ bs +:+ "nas" +:+ bs +:+ "keys") [].
Proof. vm_compute. auto. Qed.
Example junction_refused :
  winCheckStateDir (demo_dirs (WMode junction) (Some stateDirSD)) (data_dir +:+ bs +:+ "serve") = Some (Err (ReparsePoint data_dir)).
Proof. vm_compute. reflexivity. Qed.
Example readable_refused :
  checkWindowsDACL (mkSD (Some Administrators) (Some [Some (mkACE 0 0 fileAllAccess LocalSystem); Some (mkACE 0 0 131209 Users)])) = Err (AccessTo Users)
  /\ checkWindowsDACL (mkSD (Some Administrators) None) = Err NoDACL /\ checkWindowsDACL (mkSD (Some Users) (Some [])) = Err (OwnedBy Users).
Proof. vm_compute. auto. Qed.

Lemma demo_segments : Forall win_segment ["ProgramData"; "ts-bridge"].
Proof. repeat (constructor; [by split_and!|]). constructor. Qed.
Lemma drive_C : is_volume "C:".
Proof. left. exists "C"%char. split; [reflexivity|discriminate]. Qed.
Lemma demo_below : below data_dir "C:" (Join ["ProgramData"; "ts-bridge"] bs).
Proof. apply winPath_below; [apply drive_C|apply demo_segments]. Qed.
Lemma demo_stranger : stranger [Users; Everyone].
Proof. intros s [->|[->|[]%elem_of_nil]%elem_of_cons]%elem_of_cons; reflexivity. Qed.

Lemma windows_state_dir_closed_witness :
  access [Users; Everyone] creator_sd = 0 /\ access [Users; Everyone] (created_inside LocalSystem creator_sd) = 0
  /\ access [Users; Everyone] (created_inside Users creator_sd) <> 0.
Proof.
  destruct (windows_state_dir_closed (demo_dirs (WMode plain_dir) (Some creator_sd)) _ _ _ [Users; Everyone] demo_below demo_stranger)
    as (res & Hr & Hall).
  rewrite creator_owner_accepted in Hr. injection Hr as <-. destruct (Hall eq_refl) as (_ & _ & sd & owner & Hsd & _ & _ & Ha & Hc).
  vm_compute in Hsd. injection Hsd as <-. split; [exact Ha|]. split; [by apply Hc|]. vm_compute. discriminate.
Defined.

Lemma windows_secret_file_closed_witness :
  access [Users; Everyone] stateDirSD = 0.
Proof.
  destruct (windows_secret_file_closed (demo_dirs (WMode (mkMode false false false false)) (Some stateDirSD)) data_dir [Users; Everyone]
    ltac:(vm_compute; reflexivity) demo_stranger) as (_ & sd & owner & Hsd & _ & _ & Ha).
  vm_compute in Hsd. injection Hsd as <-. exact Ha.
Defined.

(** A file system that makes directories and sets descriptors. *)
Definition demo_mkdir (path : string) (fs : winfs) : option winfs :=
  Some (mkWinFS (fun p => if bool_decide (p = path) then match wLstat fs p with WAbsent => WMode plain_dir | x => x end else wLstat fs p) (wSecurity fs)).
Definition demo_read (s : string) : option SecurityDescriptor := if bool_decide (s = stateDirSDDL) then Some stateDirSD else None.
Definition demo_set (path : string) (sd : SecurityDescriptor) (fs : winfs) : option winfs :=
  Some (mkWinFS (wLstat fs) (fun p => if bool_decide (p = path) then Some sd else wSecurity fs p)).

Lemma demo_mkdir_makes path fs fs' : wLstat fs path = WAbsent -> demo_mkdir path fs = Some fs' ->
  wLstat fs' path = WMode (mkMode true false false false)
  /\ forall p, wLstat fs' p = wLstat fs p \/ (wLstat fs p = WAbsent /\ wLstat fs' p = WMode (mkMode true false false false)).
Proof.
  intros Ha [= <-]. cbn. split; [by rewrite bool_decide_eq_true_2, Ha|]. intros p. case_bool_decide as Hp; [|by left].
  subst p. rewrite Ha. by right.
Qed.
Lemma demo_set_sets path sd fs fs' : demo_set path sd fs = Some fs' ->
  wSecurity fs' path = Some sd /\ forall p, wLstat fs' p = wLstat fs p.
Proof. intros [= <-]. cbn. by rewrite bool_decide_eq_true_2. Qed.

Lemma windows_state_dir_created_witness :
  (winEnsureStateDir demo_mkdir demo_read demo_set data_dir (demo_dirs WAbsent None)).1 = Some (Ok tt)
  /\ forall n, not_a_link (demo_dirs WAbsent None) (winPath "C:" (take n ["ProgramData"])).
Proof.
  destruct (winEnsureStateDir demo_mkdir demo_read demo_set data_dir (demo_dirs WAbsent None)) as [res fs'] eqn:E.
  assert (winSec : Forall win_segment ["ProgramData"] /\ win_segment "ts-bridge").
  { pose proof demo_segments as H. apply Forall_cons in H as [Ha [Hb _]%Forall_cons]. split; [by constructor|done]. }
  assert (wLstat (demo_dirs WAbsent None) data_dir = WAbsent) as Ha by (vm_compute; reflexivity).
  assert (demo_read stateDirSDDL = Some stateDirSD) as Hread by (vm_compute; reflexivity).
  pose proof (windows_state_dir_created demo_mkdir demo_read demo_set demo_mkdir_makes demo_set_sets Hread
    "C:" ["ProgramData"] "ts-bridge" (demo_dirs WAbsent None) res fs' drive_C (proj1 winSec) (proj2 winSec) E) as Hl.
  fold data_dir in Hl. rewrite Ha in Hl. destruct Hl as [Hl _].
  assert (wSecurity fs' data_dir = Some stateDirSD) as Hs.
  { transitivity (wSecurity (winEnsureStateDir demo_mkdir demo_read demo_set data_dir (demo_dirs WAbsent None)).2 data_dir); [by rewrite E|vm_compute; reflexivity]. }
  split; [transitivity (winEnsureStateDir demo_mkdir demo_read demo_set data_dir (demo_dirs WAbsent None)).1; [by rewrite E|vm_compute; reflexivity]|].
  apply Hl. intros ->. vm_compute in Hs. discriminate.
Defined.

Lemma windows_hardened_owner_only_witness :
  exists fs', winHarden demo_set (Some (Owner 7)) data_dir false (demo_dirs (WMode plain_dir) (Some creator_sd)) = Some fs'
    /\ exists sd, wSecurity fs' data_dir = Some sd /\ access [Users; Everyone] sd = 0.
Proof.
  destruct (winHarden demo_set (Some (Owner 7)) data_dir false (demo_dirs (WMode plain_dir) (Some creator_sd))) as [fs'|] eqn:E; [|discriminate].
  exists fs'. split; [reflexivity|].
  refine (windows_hardened_owner_only demo_set demo_set_sets (Owner 7) data_dir false (demo_dirs (WMode plain_dir) (Some creator_sd)) fs' _ LocalSystem E _ _ _).
  - intros [H|[H|[]%elem_of_nil]%elem_of_cons]%elem_of_cons; discriminate H.
  - vm_compute. reflexivity.
  - intros H. apply demo_stranger in H. discriminate.
Defined.
