(* ===== verification/StateDir.v ===== *)
(** The directories a node's key and its enrolment key sit under
    (src/internal/host/statedir.go, statedir_unix.go): the walk over the
    ancestors as the kernel resolves the path, links included, and the checks
    of each of them and of the leaf.

    The file system is what [lstat], [readlink] and the ACL read answer. *)
From S2P Require Import Prelude GoStrings GoPath PosixAcl.
From Stdlib Require Import Ascii.

Open Scope bool_scope.

(** * The file system *)

Inductive file_kind : Type := KDir | KSymlink | KRegular | KOther.
#[export] Instance file_kind_eq_dec : EqDecision file_kind.
Proof. solve_decision. Defined.

Record FileInfo : Type := mkInfo {
  kind : file_kind;
  perm : Z;                  (** the low nine bits *)
  special : bool;            (** setuid, setgid or sticky *)
}.

(** [LNoOwner]: the answer carries no owner. *)
Inductive lstat_answer : Type := LAbsent | LError | LNoOwner (i : FileInfo) | LInfo (i : FileInfo) (uid : Z).

(** The ACL read, where the platform has one: no ACL, its bytes, or a failure. *)
Record ancestorFS : Type := mkFS {
  lstat : string -> lstat_answer;
  readlink : string -> option string;
  acl : option (string -> result unit (option string));
}.

(** * Errors *)

Inductive dir_error : Type :=
  | HasDotDot
  | AncestorUnreadable (dir : string)
  | AncestorLinkOwner (dir : string) (uid : Z)
  | AncestorNotDir (dir : string)
  | AncestorOwner (dir : string) (uid : Z)
  | AncestorMode (dir : string) (perm : Z)
  | AclUnreadable (dir : string)
  | AclMalformed (dir : string) (e : acl_error)
  | AclGrants (dir : string) (writers : list string)
  | TooManyLinks (dir : string)
  | LinkUnreadable (dir : string)
  | LeafUnreadable | LeafOwnerUnreadable
  | LeafKind | LeafMode (perm : Z) | LeafOwner (uid : Z)
  | CreateFailed.

(** * One ancestor *)

Definition checkAncestor (dir : string) (i : FileInfo) (uid : Z) : result dir_error unit :=
  match kind i with
  | KSymlink => if negb (uid =? 0)%Z then Err (AncestorLinkOwner dir uid) else Ok tt
  | KDir =>
      if negb (uid =? 0)%Z then Err (AncestorOwner dir uid)
      else if negb (Z.land (perm i) 18 =? 0)%Z then Err (AncestorMode dir (perm i))
      else Ok tt
  | _ => Err (AncestorNotDir dir)
  end.

Definition checkAncestorACL (fs : ancestorFS) (dir : string) (i : FileInfo) : result dir_error unit :=
  match acl fs with
  | None => Ok tt
  | Some read =>
      if negb (bool_decide (kind i = KDir)) then Ok tt
      else
        match read dir with
        | Err _ => Err (AclUnreadable dir)
        | Ok None => Ok tt
        | Ok (Some raw) =>
            writers ← map_err (AclMalformed dir) (aclWriters raw);
            fail_if (negb (bool_decide (writers = []))) (AclGrants dir writers)
        end
  end.

(** [None] is a nil FileInfo: the ancestor is absent. *)
Definition ancestorAt (fs : ancestorFS) (dir : string) : result dir_error (option FileInfo) :=
  match lstat fs dir with
  | LAbsent => Ok None
  | LError | LNoOwner _ => Err (AncestorUnreadable dir)
  | LInfo i uid =>
      _ ← (if (uid =? 0)%Z then checkAncestorACL fs dir i else Ok tt);
      _ ← checkAncestor dir i uid;
      Ok (Some i)
  end.

(** * The walk *)

Definition maxLinkHops : nat := 40.

Definition components (p : string) : list string :=
  List.filter (fun c => negb (bool_decide (c = "")) && negb (bool_decide (c = "."))) (Split "/" p).

(** Where a link's target starts from. *)
Definition link_base (cur target : string) : string := if IsAbs target then "/" else cur.

(** The loop of [walkAncestors], with [budget] links left to follow: each link
    takes one of the budget, and every other turn shortens [rest]. *)
Fixpoint walk (fs : ancestorFS) (budget : nat) : list string -> string -> result dir_error unit :=
  fix go (rest : list string) (cur : string) {struct rest} : result dir_error unit :=
    match rest with
    | [] => Ok tt
    | c :: rest =>
        if bool_decide (c = "..") then go rest (Dir cur)
        else
          let next := JoinPath [cur; c] in
          match ancestorAt fs next with
          | Err e => Err e
          | Ok None => Ok tt
          | Ok (Some i) =>
              if negb (bool_decide (kind i = KSymlink)) then go rest next
              else
                match budget with
                | O => Err (TooManyLinks next)
                | S budget =>
                    match readlink fs next with
                    | None => Err (LinkUnreadable next)
                    | Some target => walk fs budget (components target ++ rest) (link_base cur target)
                    end
                end
          end
    end.

Definition walkAncestors (fs : ancestorFS) (path : string) : result dir_error unit :=
  _ ← ancestorAt fs "/"; walk fs maxLinkHops (components (Dir path)) "/".

(** * The leaf *)

Definition refuseDotDot (path : string) : result dir_error unit :=
  fail_if (contains_word (Split "/" path) "..") HasDotDot.

Definition checkUnixStateDir (i : FileInfo) (uid : Z) : result dir_error unit :=
  if negb (bool_decide (kind i = KDir)) then Err LeafKind
  else if negb (perm i =? 448)%Z || special i then Err (LeafMode (perm i))
  else if negb (uid =? 0)%Z then Err (LeafOwner uid)
  else Ok tt.

Definition checkUnixSecretFile (i : FileInfo) (uid : Z) : result dir_error unit :=
  if negb (bool_decide (kind i = KRegular)) then Err LeafKind
  else if negb (Z.land (perm i) 63 =? 0)%Z || special i then Err (LeafMode (perm i))
  else if negb (uid =? 0)%Z then Err (LeafOwner uid)
  else Ok tt.

(** The leaf is read without following it. *)
Definition checkLeaf (check : FileInfo -> Z -> result dir_error unit) (fs : ancestorFS) (path : string) : result dir_error unit :=
  match lstat fs path with
  | LAbsent | LError => Err LeafUnreadable
  | LNoOwner _ => Err LeafOwnerUnreadable
  | LInfo i uid => check i uid
  end.

Definition CheckStateDir (fs : ancestorFS) (path : string) : result dir_error unit :=
  _ ← refuseDotDot path;
  let path := Clean path in
  _ ← walkAncestors fs path;
  checkLeaf checkUnixStateDir fs path.

Definition CheckSecretFile (fs : ancestorFS) (path : string) : result dir_error unit :=
  _ ← refuseDotDot path;
  let path := Clean path in
  _ ← walkAncestors fs path;
  checkLeaf checkUnixSecretFile fs path.

(** Creating the directory ([createStateDir]) gives the file system after it,
    or fails; an existing directory is never repaired. *)
Definition EnsureStateDir (create : string -> ancestorFS -> option ancestorFS) (fs : ancestorFS) (path : string)
    : result dir_error unit * ancestorFS :=
  match refuseDotDot path with
  | Err e => (Err e, fs)
  | Ok _ =>
      let path := Clean path in
      match lstat fs path with
      | LAbsent =>
          match walkAncestors fs path with
          | Err e => (Err e, fs)
          | Ok _ =>
              match create path fs with
              | None => (Err CreateFailed, fs)
              | Some fs' => (CheckStateDir fs' path, fs')
              end
          end
      | _ => (CheckStateDir fs path, fs)
      end
  end.

(** * The reference: what the kernel passes through *)

(** The paths met resolving [rest] from [cur] (path_resolution(7)): each
    component on entry, and a link's target in place of the link. *)
Inductive passes (fs : ancestorFS) : list string -> string -> string -> Prop :=
  | pass_here c rest cur : c <> ".." -> passes fs (c :: rest) cur (JoinPath [cur; c])
  | pass_up rest cur p : passes fs rest (Dir cur) p -> passes fs (".." :: rest) cur p
  | pass_entry c rest cur p i uid :
      c <> ".." -> lstat fs (JoinPath [cur; c]) = LInfo i uid -> kind i <> KSymlink ->
      passes fs rest (JoinPath [cur; c]) p -> passes fs (c :: rest) cur p
  | pass_link c rest cur p i uid target :
      c <> ".." -> lstat fs (JoinPath [cur; c]) = LInfo i uid -> kind i = KSymlink ->
      readlink fs (JoinPath [cur; c]) = Some target ->
      passes fs (components target ++ rest) (link_base cur target) p -> passes fs (c :: rest) cur p.

(** Only root can change what [p] names: a link of root's, or a directory of
    root's that neither group nor others may write, nor anyone its ACL names. *)
Definition only_root_changes (fs : ancestorFS) (p : string) : Prop :=
  exists i, lstat fs p = LInfo i 0 /\
    (kind i = KSymlink \/
     (kind i = KDir /\ Z.testbit (perm i) 4 = false /\ Z.testbit (perm i) 1 = false /\
      forall read, acl fs = Some read ->
        read p = Ok None \/
        exists raw, read p = Ok (Some raw) /\ Forall (fun e => ~ grants_write e) (aclEntries (str_drop aclHeaderSize raw)))).

Definition absent (fs : ancestorFS) (p : string) : Prop := lstat fs p = LAbsent.

(** * Facts *)

Lemma land_18 m : Z.land m 18 = 0%Z -> Z.testbit m 4 = false /\ Z.testbit m 1 = false.
Proof.
  intros H. assert (Hb : forall n, Z.testbit (Z.land m 18) n = false) by (intros n; by rewrite H, Z.bits_0).
  split; [specialize (Hb 4%Z)|specialize (Hb 1%Z)]; rewrite Z.land_spec in Hb; cbn in Hb; by rewrite andb_true_r in Hb.
Qed.

Lemma checkAncestorACL_Ok fs dir i :
  kind i = KDir -> checkAncestorACL fs dir i = Ok tt ->
  forall read, acl fs = Some read ->
    read dir = Ok None \/
    exists raw, read dir = Ok (Some raw) /\ Forall (fun e => ~ grants_write e) (aclEntries (str_drop aclHeaderSize raw)).
Proof.
  unfold checkAncestorACL. intros Hk H read Hr. rewrite Hr, Hk, bool_decide_eq_true_2 in H by done. cbn in H.
  destruct (read dir) as [[raw|]|]; [|by left|done]. right. exists raw. split; [done|].
  apply bind_Ok in H as (ws & Hw%map_err_Ok & H%fail_if_Ok). apply negb_false_iff, bool_decide_eq_true in H.
  by apply (aclWriters_nil raw ws Hw).
Qed.

Lemma ancestorAt_Some fs p i :
  ancestorAt fs p = Ok (Some i) -> only_root_changes fs p /\ exists uid, lstat fs p = LInfo i uid.
Proof.
  unfold ancestorAt. destruct (lstat fs p) as [| | |i' uid] eqn:El; try done. intros H.
  apply bind_Ok in H as ([] & Ha & H). apply bind_Ok in H as ([] & Hc & H). injection H as ->.
  split; [|by exists uid]. revert Hc. unfold checkAncestor.
  destruct (Z.eqb_spec uid 0) as [E0|E0]; cbn [negb]; [subst uid|by destruct (kind i)].
  destruct (kind i) eqn:Ek; try done.
  - destruct (Z.eqb_spec (Z.land (perm i) 18) 0) as [Hp|]; cbn; [|done]. intros _. exists i. split; [done|]. right.
    destruct (land_18 _ Hp) as [? ?]. repeat split; try done. by apply (checkAncestorACL_Ok fs p i).
  - intros _. exists i. split; [done|]. by left.
Qed.

Lemma ancestorAt_None fs p : ancestorAt fs p = Ok None -> absent fs p.
Proof.
  unfold ancestorAt, absent. destruct (lstat fs p) as [| | |i uid]; try done. intros H.
  apply bind_Ok in H as ([] & _ & H). by apply bind_Ok in H as ([] & _ & H).
Qed.

Lemma walk_cons fs budget c rest cur :
  walk fs budget (c :: rest) cur =
    if bool_decide (c = "..") then walk fs budget rest (Dir cur)
    else
      match ancestorAt fs (JoinPath [cur; c]) with
      | Err e => Err e
      | Ok None => Ok tt
      | Ok (Some i) =>
          if negb (bool_decide (kind i = KSymlink)) then walk fs budget rest (JoinPath [cur; c])
          else
            match budget with
            | O => Err (TooManyLinks (JoinPath [cur; c]))
            | S budget =>
                match readlink fs (JoinPath [cur; c]) with
                | None => Err (LinkUnreadable (JoinPath [cur; c]))
                | Some target => walk fs budget (components target ++ rest) (link_base cur target)
                end
            end
      end.
Proof. by destruct budget. Qed.

(** The walk meets every path the kernel does. *)
Lemma walk_sound fs budget rest cur p :
  passes fs rest cur p -> walk fs budget rest cur = Ok tt -> absent fs p \/ only_root_changes fs p.
Proof.
  intros Hp. revert budget. induction Hp as [c rest cur Hc|rest cur p Hp IH|c rest cur p i uid Hc Hl Hk Hp IH
    |c rest cur p i uid target Hc Hl Hk Ht Hp IH]; intros budget; rewrite walk_cons.
  - rewrite bool_decide_eq_false_2 by done. destruct (ancestorAt _ _) as [[i|]|e] eqn:Ea; [|intros _; left|done].
    + intros _. right. by apply ancestorAt_Some in Ea as [? _].
    + by apply ancestorAt_None.
  - rewrite bool_decide_eq_true_2 by done. apply IH.
  - rewrite bool_decide_eq_false_2 by done. destruct (ancestorAt _ _) as [[i'|]|e] eqn:Ea; [| |done].
    + apply ancestorAt_Some in Ea as (_ & uid' & Hl'). rewrite Hl in Hl'. injection Hl' as <- <-.
      rewrite bool_decide_eq_false_2 by done. cbn [negb]. apply IH.
    + apply ancestorAt_None in Ea. unfold absent in Ea. by rewrite Hl in Ea.
  - rewrite bool_decide_eq_false_2 by done. destruct (ancestorAt _ _) as [[i'|]|e] eqn:Ea; [| |done].
    + apply ancestorAt_Some in Ea as (_ & uid' & Hl'). rewrite Hl in Hl'. injection Hl' as <- <-.
      rewrite bool_decide_eq_true_2 by done. cbn [negb]. destruct budget as [|budget]; [done|]. rewrite Ht. apply IH.
    + apply ancestorAt_None in Ea. unfold absent in Ea. by rewrite Hl in Ea.
Qed.

(** Every refusal of the walk names what it met. *)
Lemma walk_refuses fs budget rest cur e :
  walk fs budget rest cur = Err e ->
  exists p, passes fs rest cur p /\
    (ancestorAt fs p = Err e \/ e = TooManyLinks p \/ (e = LinkUnreadable p /\ readlink fs p = None)).
Proof.
  revert rest cur. induction budget as [|budget IHb]; intros rest; induction rest as [|c rest IH]; intros cur; try done;
    rewrite walk_cons; destruct (bool_decide_reflect (c = "..")) as [->|Hc].
  1,3: intros H; destruct (IH _ H) as (p & Hp & He); exists p; split; [by constructor|done].
  all: destruct (ancestorAt fs (JoinPath [cur; c])) as [[i|]|e'] eqn:Ea; [|done|].
  2,4: intros [= <-]; exists (JoinPath [cur; c]); split; [by constructor|by left].
  all: destruct (ancestorAt_Some _ _ _ Ea) as (_ & uid & Hl); destruct (bool_decide_reflect (kind i = KSymlink)) as [Hk|Hk]; cbn [negb].
  2,4: intros H; destruct (IH _ H) as (p & Hp & He); exists p; split; [by eapply pass_entry|done].
  - intros [= <-]. exists (JoinPath [cur; c]). split; [by constructor|]. right. by left.
  - destruct (readlink fs (JoinPath [cur; c])) as [target|] eqn:Et.
    + intros H. destruct (IHb _ _ H) as (p & Hp & He). exists p. split; [by eapply pass_link|done].
    + intros [= <-]. exists (JoinPath [cur; c]). split; [by constructor|]. right. by right.
Qed.

(** The paths met on the way to [path], from the root. *)
Definition on_the_way (fs : ancestorFS) (path p : string) : Prop :=
  p = "/" \/ passes fs (components (Dir path)) "/" p.

Lemma walkAncestors_sound fs path p :
  walkAncestors fs path = Ok tt -> on_the_way fs path p -> absent fs p \/ only_root_changes fs p.
Proof.
  unfold walkAncestors. intros (o & Hr & Hw)%bind_Ok [->|Hp]; [|by eapply walk_sound].
  destruct o; [right; by apply ancestorAt_Some in Hr as [? _]|left; by apply ancestorAt_None].
Qed.

Lemma walkAncestors_refuses fs path e :
  walkAncestors fs path = Err e ->
  exists p, on_the_way fs path p /\
    (ancestorAt fs p = Err e \/ e = TooManyLinks p \/ (e = LinkUnreadable p /\ readlink fs p = None)).
Proof.
  unfold walkAncestors. intros [H|(o & _ & H)]%bind_Err.
  - exists "/". split; [by left|by left].
  - destruct (walk_refuses _ _ _ _ _ H) as (p & Hp & He). exists p. split; [by right|done].
Qed.

Lemma refuseDotDot_Ok path : refuseDotDot path = Ok tt <-> ~ (".." ∈ Split "/" path).
Proof. unfold refuseDotDot, contains_word. by rewrite fail_if_Ok, bool_decide_eq_false. Qed.

(** * Properties *)

(** C30: a state directory that is accepted has no [..] in its path, is itself a
    root-owned directory of mode 0700, not a link, and every path the kernel
    passes through to reach it is one only root can change, ACLs and the
    targets of links included (or is absent). A refusal of the ancestors names
    one that is untrusted or unreadable, or more than 40 links. *)
Theorem state_dir_trusted fs path :
  (CheckStateDir fs path = Ok tt ->
     ~ (".." ∈ Split "/" path) /\
     (exists i, lstat fs (Clean path) = LInfo i 0 /\ kind i = KDir /\ perm i = 448%Z /\ special i = false) /\
     forall p, on_the_way fs (Clean path) p -> absent fs p \/ only_root_changes fs p) /\
  (forall e, walkAncestors fs (Clean path) = Err e ->
     exists p, on_the_way fs (Clean path) p /\
       (ancestorAt fs p = Err e \/ e = TooManyLinks p \/ (e = LinkUnreadable p /\ readlink fs p = None))).
Proof.
  split; [|apply walkAncestors_refuses]. unfold CheckStateDir.
  intros ([] & Hd%refuseDotDot_Ok & H)%bind_Ok. apply bind_Ok in H as ([] & Hw & Hl). split; [done|]. split.
  - revert Hl. unfold checkLeaf. destruct (lstat fs (Clean path)) as [| | |i uid]; try done. unfold checkUnixStateDir.
    destruct (bool_decide_reflect (kind i = KDir)); cbn; [|done].
    destruct (Z.eqb_spec (perm i) 448); cbn; [|done]. destruct (special i) eqn:Es; cbn; [done|].
    destruct (Z.eqb_spec uid 0) as [E0|]; cbn; [subst uid|done]. intros _. by exists i.
  - intros p Hp. by eapply walkAncestors_sound.
Qed.

(** An enrolment key file that is accepted is a root-owned regular file no
    other account can read or write, below ancestors only root can change. *)
Theorem secret_file_trusted fs path (Hok : CheckSecretFile fs path = Ok tt) :
  (exists i, lstat fs (Clean path) = LInfo i 0 /\ kind i = KRegular /\ special i = false /\
     forall b, (0 <= b < 6)%Z -> Z.testbit (perm i) b = false) /\
  forall p, on_the_way fs (Clean path) p -> absent fs p \/ only_root_changes fs p.
Proof.
  revert Hok. unfold CheckSecretFile. intros ([] & _ & H)%bind_Ok. apply bind_Ok in H as ([] & Hw & Hl). split.
  - revert Hl. unfold checkLeaf. destruct (lstat fs (Clean path)) as [| | |i uid]; try done. unfold checkUnixSecretFile.
    destruct (bool_decide_reflect (kind i = KRegular)); cbn; [|done].
    destruct (Z.eqb_spec (Z.land (perm i) 63) 0) as [Ep|]; cbn; [|done]. destruct (special i) eqn:Es; cbn; [done|].
    destruct (Z.eqb_spec uid 0) as [E0|]; cbn; [subst uid|done]. intros _. exists i. repeat split; try done.
    intros b Hb. assert (Ht : Z.testbit (Z.land (perm i) (Z.ones 6)) b = false) by (change (Z.ones 6) with 63%Z; by rewrite Ep, Z.bits_0).
    rewrite Z.land_spec, Z.ones_spec_low, andb_true_r in Ht by lia. done.
  - intros p Hp. by eapply walkAncestors_sound.
Qed.

(** Preparing the state directory creates it only when it is absent and
    every ancestor is trusted, and succeeds only when the directory it leaves
    passes the check. *)
Theorem ensure_state_dir create fs path r fs' (Hrun : EnsureStateDir create fs path = (r, fs')) :
  (r = Ok tt -> CheckStateDir fs' path = Ok tt \/ CheckStateDir fs' (Clean path) = Ok tt) /\
  (fs' <> fs -> create (Clean path) fs = Some fs' /\ absent fs (Clean path) /\ ~ (".." ∈ Split "/" path) /\
     forall p, on_the_way fs (Clean path) p -> absent fs p \/ only_root_changes fs p).
Proof.
  revert Hrun. unfold EnsureStateDir. destruct (refuseDotDot path) as [[]|e] eqn:Ed; [|by intros [= <- <-]].
  apply refuseDotDot_Ok in Ed. cbv zeta.
  destruct (lstat fs (Clean path)) eqn:El; try (intros [= <- <-]; split; [by right|done]).
  destruct (walkAncestors fs (Clean path)) as [[]|e] eqn:Ew; [|by intros [= <- <-]].
  destruct (create (Clean path) fs) as [fs1|] eqn:Ec; [|by intros [= <- <-]]. intros [= <- <-].
  split; [by right|]. intros _. split; [done|]. split; [done|]. split; [done|]. intros p Hp. by eapply walkAncestors_sound.
Qed.

(** * Witnesses *)

Definition root_dir (p : Z) : lstat_answer := LInfo (mkInfo KDir p false) 0.

(** [/var/lib] is a link of root's to [/data/state/../state]. *)
Definition demo_fs : ancestorFS :=
  mkFS (fun p =>
          if contains_word ["/"; "/var"; "/data"; "/data/state"] p then root_dir 493
          else if contains_word ["/data/state/node"; "/var/lib/node"] p then root_dir 448
          else if bool_decide (p = "/var/lib/key") then LInfo (mkInfo KRegular 384 false) 0
          else if bool_decide (p = "/var/lib") then LInfo (mkInfo KSymlink 511 false) 0 else LAbsent)
       (fun p => if bool_decide (p = "/var/lib") then Some "/data/state/../state" else None)
       (Some (fun p => Ok (if bool_decide (p = "/data") then Some (encodeAcl [mkAclEntry 1 7 0; mkAclEntry 4 5 0; mkAclEntry 32 5 0]) else None))).

Lemma state_dir_trusted_witness :
  CheckStateDir demo_fs "/var/lib/node/" = Ok tt /\
  (absent demo_fs "/data/state" \/ only_root_changes demo_fs "/data/state").
Proof.
  assert (H0 : CheckStateDir demo_fs "/var/lib/node/" = Ok tt) by (vm_compute; reflexivity).
  split; [exact H0|].
  refine (proj2 (proj2 (proj1 (state_dir_trusted demo_fs "/var/lib/node/") H0)) "/data/state" _).
  assert (E : Clean "/var/lib/node/" = "/var/lib/node") by (vm_compute; reflexivity). rewrite E.
  right. assert (E2 : components (Dir "/var/lib/node") = ["var"; "lib"]) by (vm_compute; reflexivity). rewrite E2.
  eapply pass_entry; [done|vm_compute; reflexivity|done|].
  eapply pass_link; [done|vm_compute; reflexivity|done|vm_compute; reflexivity|].
  assert (E3 : components "/data/state/../state" ++ [] = ["data"; "state"; ".."; "state"]) by (vm_compute; reflexivity).
  rewrite E3. eapply pass_entry; [done|vm_compute; reflexivity|done|].
  exact (pass_here demo_fs "state" [".."; "state"] "/data" ltac:(done)).
Defined.

Lemma secret_file_trusted_witness :
  CheckSecretFile demo_fs "/var/lib/key" = Ok tt /\ exists i, lstat demo_fs (Clean "/var/lib/key") = LInfo i 0 /\ kind i = KRegular.
Proof.
  assert (H0 : CheckSecretFile demo_fs "/var/lib/key" = Ok tt) by (vm_compute; reflexivity).
  split; [exact H0|]. destruct (secret_file_trusted demo_fs "/var/lib/key" H0) as [(i & H1 & H2 & _) _]. by exists i.
Defined.

Lemma ensure_state_dir_witness :
  (EnsureStateDir (fun _ _ => None) demo_fs "/var/lib/node").1 = Ok tt /\
  (CheckStateDir demo_fs "/var/lib/node" = Ok tt \/ CheckStateDir demo_fs (Clean "/var/lib/node") = Ok tt).
Proof.
  assert (H0 : (EnsureStateDir (fun _ _ => None) demo_fs "/var/lib/node").1 = Ok tt) by (vm_compute; reflexivity).
  split; [exact H0|].
  exact (proj1 (ensure_state_dir (fun _ _ => None) demo_fs "/var/lib/node" _ demo_fs eq_refl) H0).
Defined.
