(* ===== verification/HostFs.v ===== *)
(** What internal/host and internal/profile do to the machine itself: the
    environment of the commands the runner starts and its file replacement
    (execRunner of src/internal/host/step.go), the creation of a state directory
    on Unix (createStateDir of src/internal/host/statedir_unix.go), and the rename
    that is tried again (src/internal/profile/transaction.go). *)
From S2P Require Import Prelude GoStrings GoPath SecretFile PosixAcl StateDir.
From Stdlib Require Import Ascii.

Open Scope bool_scope.

(** * The environment of a command *)

Definition locale_variable (kv : string) : bool := HasPrefix kv "LC_ALL=" || HasPrefix kv "LANGUAGE=".
Definition commandEnv (environ : list string) : list string := delete_func locale_variable environ ++ ["LC_ALL=C"].

(** The value a child reads: that of the last entry of the name. *)
Definition env_value (k : string) (environ : list string) : option string :=
  last (omap (fun kv => if HasPrefix kv (k +:+ "=") then Some (str_drop (S (len k)) kv) else None) environ).

(** * Replacing a configuration file *)

Inductive runner_fault : Type := RCreateTemp | RWrite (taken : nat) | RClose | RChmod | RRename.
#[export] Instance runner_fault_eq_dec : EqDecision runner_fault.
Proof. solve_decision. Defined.

Inductive runner_error : Type := RNotFound | RFailed (at_ : runner_fault).

(** [execRunner.WriteFile] through the fresh name [temp]: the states of the
    directory from the first to what it leaves, and the error. *)
Definition runnerWriteFile (temp path data : string) (d : directory) (fault : option runner_fault)
    : list directory * option runner_error :=
  match d !! path with
  | None => ([d], Some RNotFound)
  | Some info =>
      let put c m : directory := <[temp := mkFile c m]> d in
      let gone : directory := delete temp d in
      let failed at_ states := (states ++ [gone], Some (RFailed at_)) in
      match fault with
      | Some RCreateTemp => ([d], Some (RFailed RCreateTemp))
      | Some (RWrite n) => failed (RWrite n) [d; put "" 384%Z; put (str_take n data) 384%Z]
      | Some RClose => failed RClose [d; put "" 384%Z; put data 384%Z]
      | Some RChmod => failed RChmod [d; put "" 384%Z; put data 384%Z]
      | Some RRename => failed RRename [d; put "" 384%Z; put data 384%Z; put data (mode info)]
      | None =>
          ([d; put "" 384%Z; put data 384%Z; put data (mode info); <[path := mkFile data (mode info)]> gone], None)
      end
  end.

(** * Creating a state directory *)

(** The names of a Unix file system and the process that acts on it. *)
Abbreviation tree := (gmap string (FileInfo * Z)).

Definition tree_lstat (t : tree) (p : string) : lstat_answer :=
  match t !! p with None => LAbsent | Some (i, uid) => LInfo i uid end.
Definition tree_fs (readlink : string -> option string) (t : tree) : ancestorFS := mkFS (tree_lstat t) readlink None.

Section Create.
(** The umask and the user of the process, what [os.MkdirAll] makes of the
    directories above, and what anyone does between making the last one and
    opening it. *)
Variables (umask uid : Z) (mkdirAll : string -> tree -> option tree) (meanwhile : tree -> tree).

(** [os.Mkdir]: anything at the path, a link too, is EEXIST. *)
Definition Mkdir (path : string) (mode : Z) (t : tree) : option tree :=
  match t !! path with
  | Some _ => None
  | None => Some (<[path := (mkInfo KDir (Z.land mode (Z.lnot umask)) false, uid)]> t)
  end.

(** Opening without following a link, as a directory, and the mode through the
    descriptor, which only the owner and root may change. *)
Definition chmodDir (path : string) (mode : Z) (t : tree) : option tree :=
  match t !! path with
  | Some (i, owner) =>
      if bool_decide (kind i = KDir) && ((uid =? 0)%Z || (uid =? owner)%Z)
      then Some (<[path := (mkInfo KDir mode false, owner)]> t) else None
  | None => None
  end.

Definition createStateDir (path : string) (t : tree) : option tree :=
  t ← mkdirAll (Dir path) t;
  t ← Mkdir path 448 t;
  chmodDir path 448 (meanwhile t).
End Create.

(** * The rename of the profile store *)

(** The loop from attempt [i] on: the error of the last one, and the
    milliseconds slept after each that failed. *)
Fixpoint retryLoop {E} (rename : nat -> result E unit) (attempts i : nat) (err : result E unit) : result E unit * list Z :=
  match attempts with
  | O => (err, [])
  | S attempts =>
      match rename i with
      | Ok _ => (Ok tt, [])
      | Err e => let '(r, slept) := retryLoop rename attempts (S i) (Err e) in (r, (10 * Z.of_nat (S i))%Z :: slept)
      end
  end.
Definition retrying {E} (rename : nat -> result E unit) : result E unit * list Z := retryLoop rename 5 0 (Ok tt).

(** * Facts *)

Lemma env_value_app k a b : env_value k (a ++ b) = match env_value k b with Some v => Some v | None => env_value k a end.
Proof.
  unfold env_value. rewrite omap_app, last_app. done.
Qed.

Lemma HasPrefix_key k k' v : no_byte "=" k = true -> no_byte "=" k' = true ->
  HasPrefix (k' +:+ "=" +:+ v) (k +:+ "=") = bool_decide (k = k').
Proof.
  revert k'. induction k as [|c k IH]; intros [|c' k'] Hk Hk'; cbn in *; try done.
  - by destruct v.
  - apply andb_true_iff in Hk' as [Hc _]. apply negb_true_iff in Hc. destruct (eqc "=" c') eqn:E; [|done].
    apply eqc_true in E as <-. done.
  - apply andb_true_iff in Hk as [Hc _]. apply negb_true_iff in Hc. by rewrite Hc.
  - apply andb_true_iff in Hk as [_ Hk], Hk' as [_ Hk']. rewrite IH by done.
    destruct (eqc c c') eqn:E; cbn [andb].
    + apply eqc_true in E as <-. apply bool_decide_ext. split; congruence.
    + apply eqc_false in E. symmetry. apply bool_decide_eq_false. congruence.
Qed.

Lemma locale_variable_of k v : no_byte "=" k = true ->
  locale_variable (k +:+ "=" +:+ v) = bool_decide ("LC_ALL" = k) || bool_decide ("LANGUAGE" = k).
Proof.
  intros Hk. unfold locale_variable. change "LC_ALL=" with ("LC_ALL" +:+ "="). change "LANGUAGE=" with ("LANGUAGE" +:+ "=").
  by rewrite !HasPrefix_key.
Qed.

Lemma env_value_other k k' v : no_byte "=" k = true -> no_byte "=" k' = true -> k <> k' -> env_value k [k' +:+ "=" +:+ v] = None.
Proof. intros Hk Hk' Hne. unfold env_value. cbn [omap list_omap]. by rewrite HasPrefix_key, bool_decide_eq_false_2. Qed.

(** * Properties *)

(** Every command the runner starts speaks English: it reads LC_ALL as C and no
    LANGUAGE, whatever the environment was, and every other variable as it was. *)
Theorem commands_speak_english environ k :
  no_byte "=" k = true -> Forall (fun kv => exists k' v, kv = k' +:+ "=" +:+ v /\ no_byte "=" k' = true) environ ->
  env_value k (commandEnv environ)
  = if bool_decide (k = "LC_ALL") then Some "C" else if bool_decide (k = "LANGUAGE") then None else env_value k environ.
Proof.
  intros Hk Henv. unfold commandEnv. rewrite env_value_app.
  assert (env_value k ["LC_ALL=C"] = if bool_decide (k = "LC_ALL") then Some "C" else None) as ->.
  { unfold env_value. cbn [omap list_omap]. change "LC_ALL=C" with ("LC_ALL" +:+ "=" +:+ "C"). rewrite HasPrefix_key by done.
    case_bool_decide as E; [by subst k|done]. }
  case_bool_decide as E; [done|]. induction Henv as [|kv environ (k' & v & -> & Hk') _ IH]; [by destruct (bool_decide (k = "LANGUAGE"))|].
  change (?x :: environ) with ([x] ++ environ). rewrite delete_func_app, !env_value_app, IH. clear IH.
  unfold delete_func at 1. cbn [List.filter]. rewrite locale_variable_of by done.
  destruct (bool_decide_reflect ("LC_ALL" = k')) as [<-|H1]; cbn [orb negb].
  { rewrite env_value_other by done. by destruct (bool_decide (k = "LANGUAGE")), (env_value k environ). }
  destruct (bool_decide_reflect ("LANGUAGE" = k')) as [<-|H2]; cbn [negb].
  { case_bool_decide; [done|]. rewrite env_value_other by done. by destruct (env_value k environ). }
  case_bool_decide as Hl; [|done]. subst k. by rewrite env_value_other.
Qed.

(** A configuration file of the host is the old one or the complete new one at
    every moment, with the mode it had; a write that fails leaves the directory as
    it was, and none creates a file that was not there. *)
Theorem runner_file_replaced_whole temp path data d fault states e :
  temp <> path -> d !! temp = None -> runnerWriteFile temp path data d fault = (states, e) ->
  (forall s, s ∈ states -> s !! path = d !! path \/ exists old, d !! path = Some old /\ s !! path = Some (mkFile data (mode old)))
  /\ match e with
     | Some _ => last states = Some d
     | None => exists old, d !! path = Some old /\ last states = Some (<[path := mkFile data (mode old)]> d)
     end.
Proof.
  intros Hne Hf. unfold runnerWriteFile. destruct (d !! path) as [info|] eqn:Ed.
  2:{ intros [= <- <-]. split; [|done]. intros s [->|[]%elem_of_nil]%elem_of_cons. by left. }
  rewrite (delete_id d) by done.
  destruct fault as [[| n| | |]|]; intros [= <- <-];
    (split; [intros s; rewrite ?elem_of_cons, ?elem_of_nil; intros H; repeat (destruct H as [->|H]); try done; simplify_map_eq; eauto|]);
    try done. exists info. split; [done|]. done.
Qed.

(** The rename of the store succeeds exactly when one of five attempts does, and
    then makes no further one; else the error is the fifth's. The waits grow by
    ten milliseconds, and one follows the last attempt too. *)
Theorem rename_tried_five_times {E} (rename : nat -> result E unit) :
  match retrying rename with
  | (Ok _, slept) => exists n, (n < 5)%nat /\ rename n = Ok tt /\ (forall i, (i < n)%nat -> is_ok (rename i) = false)
                      /\ slept = map (fun i => 10 * Z.of_nat (S i))%Z (seq 0 n)
  | (Err e, slept) => (forall i, (i < 5)%nat -> is_ok (rename i) = false) /\ rename 4%nat = Err e /\ slept = [10; 20; 30; 40; 50]%Z
  end.
Proof.
  unfold retrying. cbn [retryLoop].
  destruct (rename 0%nat) as [[]|e0] eqn:E0; [exists 0%nat; split_and!; try done; intros; lia|].
  destruct (rename 1%nat) as [[]|e1] eqn:E1; [exists 1%nat; split_and!; try done; [lia|intros [|i] Hi; [by rewrite E0|lia]]|].
  destruct (rename 2%nat) as [[]|e2] eqn:E2; [exists 2%nat; split_and!; try done; [lia|intros [|[|i]] Hi; [by rewrite E0|by rewrite E1|lia]]|].
  destruct (rename 3%nat) as [[]|e3] eqn:E3; [exists 3%nat; split_and!; try done; [lia|intros [|[|[|i]]] Hi; [by rewrite E0|by rewrite E1|by rewrite E2|lia]]|].
  destruct (rename 4%nat) as [[]|e4] eqn:E4;
    [exists 4%nat; split_and!; try done; [lia|intros [|[|[|[|i]]]] Hi; [by rewrite E0|by rewrite E1|by rewrite E2|by rewrite E3|lia]]|].
  split_and!; try done. intros [|[|[|[|[|i]]]]] Hi; [by rewrite E0|by rewrite E1|by rewrite E2|by rewrite E3|by rewrite E4|lia].
Qed.

(** Creating an absent state directory as root: left alone, it gives a directory
    of root's with mode 0700 whatever the umask, which the check accepts when it
    still trusts what is above; whatever was put at the path before is not used,
    and whatever but a directory was put there in between is not followed. *)
Theorem state_dir_created umask mkdirAll meanwhile readlink path t t1 :
  let p := Clean path in
  let create q (_ : ancestorFS) := tree_fs readlink <$> createStateDir umask 0 mkdirAll meanwhile q t in
  let made := <[p := (mkInfo KDir (Z.land 448 (Z.lnot umask)) false, 0%Z)]> t1 in
  let left_alone := <[p := (mkInfo KDir 448 false, 0%Z)]> t1 in
  let r := EnsureStateDir create (tree_fs readlink t) path in
  refuseDotDot path = Ok tt -> refuseDotDot p = Ok tt -> Clean p = p ->
  t !! p = None -> walkAncestors (tree_fs readlink t) p = Ok tt -> mkdirAll (Dir p) t = Some t1 ->
  (t1 !! p = None -> meanwhile made = made -> walkAncestors (tree_fs readlink left_alone) p = Ok tt ->
     r = (Ok tt, tree_fs readlink left_alone))
  /\ (is_Some (t1 !! p) -> r.1 = Err CreateFailed)
  /\ (forall i owner, t1 !! p = None -> meanwhile made !! p = Some (i, owner) -> kind i <> KDir -> r.1 = Err CreateFailed).
Proof.
  intros p create made left_alone r Hd Hdp Hcl Ha Hw Hm. subst r. unfold EnsureStateDir. rewrite Hd. cbv zeta. fold p.
  assert (lstat (tree_fs readlink t) p = LAbsent) as Hl by (cbn; unfold tree_lstat; by rewrite Ha).
  rewrite Hl, Hw. unfold create, createStateDir. rewrite Hm. cbn [mbind option_bind]. unfold Mkdir.
  split; [|split].
  - intros H1 Hid Hw'. rewrite H1. cbn [mbind option_bind]. fold made. rewrite Hid. unfold chmodDir.
    assert (made !! p = Some (mkInfo KDir (Z.land 448 (Z.lnot umask)) false, 0%Z)) as -> by apply lookup_insert_eq. cbn [kind]. rewrite bool_decide_eq_true_2 by done. cbn [andb]. rewrite Z.eqb_refl. cbn [orb].
    unfold made. rewrite insert_insert_eq. fold left_alone. cbn [fmap option_fmap option_map].
    unfold CheckStateDir. rewrite Hdp. cbn [mbind result_bind]. cbv zeta. rewrite Hcl, Hw'. cbn [mbind result_bind].
    unfold checkLeaf. cbn [lstat tree_fs]. unfold tree_lstat, left_alone. by rewrite lookup_insert_eq.
  - intros [x H1]. by rewrite H1.
  - intros i owner H1 Hme Hk. rewrite H1. cbn [mbind option_bind]. fold made. unfold chmodDir. rewrite Hme.
    by rewrite bool_decide_eq_false_2.
Qed.

(** * Runs *)

Example english_env :
  commandEnv ["PATH=/bin"; "LANGUAGE=de"; "LC_ALL=de_DE"; "LANG=de_DE"] = ["PATH=/bin"; "LANG=de_DE"; "LC_ALL=C"].
Proof. reflexivity. Qed.

Definition root_tree : tree :=
  {[ "/" := (mkInfo KDir 493 false, 0%Z); "/var" := (mkInfo KDir 493 false, 0%Z); "/var/lib" := (mkInfo KDir 493 false, 0%Z) ]}.
Definition state_path : string := "/var/lib/ts".

(** With a umask of 0277 the mode is still 0700. *)
Lemma state_dir_created_witness :
  (EnsureStateDir (fun q _ => tree_fs (fun _ => None) <$> createStateDir 191 0 (fun _ t => Some t) (fun t => t) q root_tree)
     (tree_fs (fun _ => None) root_tree) state_path).1 = Ok tt.
Proof.
  destruct (state_dir_created 191 (fun _ t => Some t) (fun t => t) (fun _ => None) state_path root_tree root_tree
    ltac:(vm_compute; reflexivity) ltac:(vm_compute; reflexivity) ltac:(vm_compute; reflexivity) ltac:(vm_compute; reflexivity)
    ltac:(vm_compute; reflexivity) ltac:(reflexivity)) as [H _].
  specialize (H ltac:(vm_compute; reflexivity) ltac:(reflexivity) ltac:(vm_compute; reflexivity)).
  cbv zeta in H. rewrite H. reflexivity.
Defined.
