(* ===== verification/Bootstrap.v ===== *)
(** The SSH bootstrap (src/internal/bootstrapssh): bootstrap.go, env.go and
    control_proxy.go.

    The endpoint's grammar and the arguments of ssh; the environment the child
    inherits; starting the child and waiting for its SOCKS listener; the HTTP
    proxy that carries the control plane's traffic and nothing else. The child
    process, the sockets and package net/http are the run's environment. *)
From S2P Require Import Prelude GoStrings GoNet GoErr ControlUrl.
From Stdlib Require Import Ascii.

Open Scope bool_scope.

(** * The endpoint *)

Inductive endpoint_error : Type :=
  | EmptyEndpoint
  | EndpointDash
  | EndpointWhitespace
  | InvalidUser (endpoint : string)
  | InvalidEndpoint (endpoint : string) (e : addr_error)
  | InvalidBracketed (hostPort : string)
  | UnbracketedIPv6 (endpoint : string)
  | InvalidHost (endpoint : string)
  | InvalidPort (port : string)
  | InvalidSocks (addr : string) (e : addr_error)
  | SocksNotLoopback (host : string).

(** The bytes of [strings.ContainsAny(endpoint, " \t\r\n")]. *)
Definition endpoint_space (c : ascii) : bool :=
  eqc c " " || eqc c "009" || eqc c "013" || eqc c "010".

Definition splitSSHUser (endpoint : string) : result endpoint_error (string * string) :=
  match last_index_byte "@" endpoint with
  | None => Ok ("", endpoint)
  | Some at_ =>
      let user := str_take at_ endpoint in
      let hostPort := str_drop (S at_) endpoint in
      if bool_decide (user = "") || HasPrefix user "-" then Err (InvalidUser endpoint)
      else Ok (user, hostPort)
  end.

Definition splitSSHHostPort (endpoint hostPort : string) : result endpoint_error (string * string) :=
  if HasPrefix hostPort "[" then
    if Contains hostPort "]:" then map_err (InvalidEndpoint endpoint) (SplitHostPort hostPort)
    else if HasSuffix hostPort "]" then Ok (TrimSuffix (TrimPrefix hostPort "[") "]", "")
    else Err (InvalidBracketed hostPort)
  else if (count_byte ":" hostPort =? 0)%nat then Ok (hostPort, "")
  else if (count_byte ":" hostPort =? 1)%nat then
    let '(host, port, _) := Cut ":" hostPort in
    if bool_decide (port = "") then Err (InvalidPort port) else Ok (host, port)
  else Err (UnbracketedIPv6 endpoint).

Definition validateSSHPort (port : string) : result endpoint_error unit :=
  if bool_decide (port = "") then Ok tt
  else match parse_port port with Some _ => Ok tt | None => Err (InvalidPort port) end.

Definition parseEndpoint (endpoint0 : string) : result endpoint_error (string * string * string) :=
  let endpoint := TrimSpace endpoint0 in
  _ ← fail_if (bool_decide (endpoint = "")) EmptyEndpoint;
  _ ← fail_if (HasPrefix endpoint "-") EndpointDash;
  _ ← fail_if (str_any endpoint_space endpoint) EndpointWhitespace;
  uh ← splitSSHUser endpoint;
  hp ← splitSSHHostPort endpoint uh.2;
  _ ← fail_if (bool_decide (hp.1 = "") || HasPrefix hp.1 "-") (InvalidHost endpoint);
  _ ← validateSSHPort hp.2;
  Ok (uh.1, hp.1, hp.2).

Definition ValidateEndpoint (endpoint : string) : result endpoint_error unit :=
  _ ← parseEndpoint endpoint; Ok tt.

(** * The arguments of ssh *)

Definition fixedSSHArgs (socksAddr : string) : list string :=
  ["-N"; "-D"; socksAddr; "-o"; "ExitOnForwardFailure=yes"; "-o"; "ServerAliveInterval=15";
   "-o"; "ServerAliveCountMax=3"].

Definition buildSSHArgs (endpoint socksAddr : string) : result endpoint_error (list string) :=
  uhp ← parseEndpoint endpoint;
  sp ← map_err (InvalidSocks socksAddr) (SplitHostPort socksAddr);
  _ ← fail_if (negb (bool_decide (sp.1 = "localhost"))
               && negb (match ParseIP sp.1 with Some ip => IsLoopback ip | None => false end))
              (SocksNotLoopback sp.1);
  let '(user, host, port) := uhp in
  Ok (fixedSSHArgs socksAddr
      ++ (if bool_decide (port = "") then [] else ["-p"; port])
      ++ (if bool_decide (user = "") then [] else ["-l"; user])
      ++ [host]).

(** * The child's environment *)

Definition secretPrefixes : list string := ["TS_"; "TAILSCALE_"; "HEADSCALE_"].
Definition secretSuffixes : list string := ["KEY"; "SECRET"; "TOKEN"; "PASSWORD"].

Definition hasAnyPrefix (s : string) (prefixes : list string) : bool := existsb (HasPrefix s) prefixes.
Definition hasAnySuffix (s : string) (suffixes : list string) : bool := existsb (HasSuffix s) suffixes.

Definition isSecretName (name0 : string) : bool :=
  let name := ToUpper name0 in
  hasAnyPrefix name secretPrefixes && hasAnySuffix name secretSuffixes.

(** The name of a [NAME=value] entry. *)
Definition env_name (kv : string) : string := (Cut "=" kv).1.1.

Definition withoutSecrets (environ : list string) : list string :=
  fold_left (fun kept kv => if isSecretName (env_name kv) then kept else kept ++ [kv]) environ [].

(** * Starting the child *)

Definition defaultReadyTimeout : Z := 30 * 10 ^ 9.
Definition defaultPollInterval : Z := 50 * 10 ^ 6.

Definition readyTimeout (cfg : Z) : Z := if (cfg <=? 0)%Z then defaultReadyTimeout else cfg.
Definition pollEvery (deps : Z) : Z := if (deps <=? 0)%Z then defaultPollInterval else deps.

Inductive start_error : Type :=
  | NoSSH
  | BadArgs (e : endpoint_error)
  | CannotBind (addr : string)
  | NotStarted
  | WaitCancelled
  | NotReady (addr : string) (timeout : Z)
  | ExitedCleanly
  | ExitedWith (e : goerr).

Definition exitBeforeReadyError (err : option goerr) : start_error :=
  match err with None => ExitedCleanly | Some e => ExitedWith e end.

(** What one round of [waitUntilReady] meets: a dial that succeeds, with
    whether the child has exited by then, or one that fails and the channel the
    select takes. *)
Inductive wait_round : Type :=
  | Dialled (exited : option (option goerr))
  | DialFailed_Deadline (ctxDone : bool)
  | DialFailed_Exited (err : option goerr)
  | DialFailed_Tick.

(** The loop over its rounds; [None] while every round so far ended in a tick. *)
Fixpoint waitUntilReady (addr : string) (timeout : Z) (rounds : list wait_round)
    : option (result start_error unit) :=
  match rounds with
  | [] => None
  | Dialled None :: _ => Some (Ok tt)
  | Dialled (Some err) :: _ => Some (Err (exitBeforeReadyError err))
  | DialFailed_Deadline true :: _ => Some (Err WaitCancelled)
  | DialFailed_Deadline false :: _ => Some (Err (NotReady addr timeout))
  | DialFailed_Exited err :: _ => Some (Err (exitBeforeReadyError err))
  | DialFailed_Tick :: rest => waitUntilReady addr timeout rest
  end.

Record BootstrapConfig : Type := mkBootstrap {
  Endpoint : string;
  SOCKSAddr : string;
  ReadyTimeout : Z;
}.

(** The machine [start] runs on. *)
Record start_env : Type := mkStartEnv {
  lookPath : option string;
  canBind : bool;
  environ : list string;
  starts : bool;
  rounds : list wait_round;
}.

(** What [start] does to the machine, in order. *)
Inductive start_op : Type :=
  | ProbeListen (addr : string)
  | ProbeClose
  | Spawn (path : string) (args env : list string)
  | Contain
  | CancelChild
  | AwaitExit.

(** [Tunnel.Close]: cancel, then wait for the child. *)
Definition closeTunnel : list start_op := [CancelChild; AwaitExit].

(** [start]: what was done, and how it ended ([None]: still waiting). *)
Definition start (cfg : BootstrapConfig) (w : start_env) : list start_op * option (result start_error unit) :=
  match lookPath w with
  | None => ([], Some (Err NoSSH))
  | Some sshPath =>
      match buildSSHArgs (Endpoint cfg) (SOCKSAddr cfg) with
      | Err e => ([], Some (Err (BadArgs e)))
      | Ok args =>
          if negb (canBind w) then ([ProbeListen (SOCKSAddr cfg); CancelChild], Some (Err (CannotBind (SOCKSAddr cfg))))
          else
            let spawn := [ProbeListen (SOCKSAddr cfg); ProbeClose; Spawn sshPath args (withoutSecrets (environ w))] in
            if negb (starts w) then (spawn ++ [CancelChild], Some (Err NotStarted))
            else
              match waitUntilReady (SOCKSAddr cfg) (readyTimeout (ReadyTimeout cfg)) (rounds w) with
              | None => (spawn ++ [Contain], None)
              | Some (Ok tt) => (spawn ++ [Contain], Some (Ok tt))
              | Some (Err e) => (spawn ++ [Contain] ++ closeTunnel, Some (Err e))
              end
      end
  end.

(** * The control proxy *)

Section ControlProxy.
Context `{UrlPackage}.

Inductive control_error : Type :=
  | ControlNotURL (raw : string)
  | ControlNoHost (raw : string)
  | ProxyCancelled
  | ProxyDialer
  | ProxyBind
  | ProxyTaken.

Definition controlHostname (controlURL : string) : result control_error string :=
  match urlParse controlURL with
  | None => Err (ControlNotURL controlURL)
  | Some control =>
      if bool_decide (Hostname control = "") then Err (ControlNoHost controlURL) else Ok (Hostname control)
  end.

(** Where a request is sent: the control proxy, or what the environment says. *)
Inductive proxy_choice : Type := UseProxy (addr : string) | UseEnvironment | Direct.

Definition controlProxyFunc (controlURL proxyAddr : string) (hasFallback : bool)
    : result control_error (URL -> proxy_choice) :=
  hostname ← controlHostname controlURL;
  Ok (fun requestURL =>
        if EqualFold (Hostname requestURL) hostname then UseProxy proxyAddr
        else if negb hasFallback then Direct
        else UseEnvironment).

Record http_request : Type := mkRequest { Method : string; RequestURL : URL }.

(** What [controlProxyConnect] meets on the way. *)
Record connect_env : Type := mkConnectEnv {
  dials : bool;
  hijackable : bool;
  hijacks : bool;
  writes : bool;
  flushes : bool;
}.

(** What the handler does, in order. *)
Inductive proxy_op : Type :=
  | Respond (code : Z)
  | DialUpstream (addr : string)
  | Established
  | Relay
  | CloseClient
  | CloseUpstream
  | Forward (addr : string).

(** The client is the handler's to close once hijacked; the upstream once dialled. *)
Definition controlProxyConnect (e : connect_env) (addr : string) : list proxy_op :=
  DialUpstream addr ::
  if negb (dials e) then [Respond 502]
  else
    (if negb (hijackable e) then [Respond 505]
     else if negb (hijacks e) then []
     else
       (if negb (writes e) then [] else if negb (flushes e) then [Established] else [Established; Relay])
       ++ [CloseClient])
    ++ [CloseUpstream].

Definition controlProxyHandler (hostname : string) (e : connect_env) (r : http_request) : list proxy_op :=
  if negb (EqualFold (Hostname (RequestURL r)) hostname) then [Respond 403]
  else if bool_decide (Method r = "CONNECT") then controlProxyConnect e (Host (RequestURL r))
  else if negb (bool_decide (Scheme (RequestURL r) = "http")) then [Respond 400]
  else [Forward (Host (RequestURL r))].

(** Setting the proxy up: the steps that can fail, and what is closed then. *)
Record proxy_env : Type := mkProxyEnv { ctxDone : bool; hasDialer : bool; binds : option string; installs : bool }.

Definition startControlProxy (controlURL : string) (w : proxy_env) : result control_error (string * string) :=
  _ ← fail_if (ctxDone w) ProxyCancelled;
  hostname ← controlHostname controlURL;
  _ ← fail_if (negb (hasDialer w)) ProxyDialer;
  match binds w with
  | None => Err ProxyBind
  | Some addr => Ok (hostname, addr)
  end.

(** The proxy that is left running, and the proxy function that is installed. *)
Record control_setup : Type := mkSetup {
  running : option (string * string);
  installed : option (URL -> proxy_choice);
}.

Definition ConfigureControlProxy (controlURL : string) (w : proxy_env) : control_setup * option control_error :=
  match startControlProxy controlURL w with
  | Err e => (mkSetup None None, Some e)
  | Ok (hostname, addr) =>
      match controlProxyFunc controlURL addr true with
      | Err e => (mkSetup None None, Some e)
      | Ok f =>
          if installs w then (mkSetup (Some (hostname, addr)) (Some f), None)
          else (mkSetup None None, Some ProxyTaken)
      end
  end.

End ControlProxy.

(** [controlProxyCopyError] and [relayControlProxy]: the errors of the two
    copies, less the ones a closed connection gives. *)
Definition controlProxyCopyError (err : option goerr) : option goerr :=
  match err with
  | Some e => if errorsIs e ErrClosed || errorsIs e EOF then None else Some e
  | None => None
  end.

Definition relayControlProxy (toUpstream toClient : option goerr) : list goerr :=
  option_list (controlProxyCopyError toClient) ++ option_list (controlProxyCopyError toUpstream).

(** * The endpoint's grammar *)

(** * The endpoint's grammar *)

(** [s] holds no byte of the class [p]: every part of it does not either. *)
Lemma SplitHostPort_free p s h q :
  SplitHostPort s = Ok (h, q) -> str_any p s = false -> str_any p h = false /\ str_any p q = false.
Proof.
  unfold SplitHostPort. destruct (last_index_byte ":" s) as [i|]; [|done]. intros H Hs.
  assert (forall n, str_any p (str_take n s) = false /\ str_any p (str_drop n s) = false) as Hp
    by (split; auto with go).
  revert H. destruct (Hp (S i)) as [_ Hd]. destruct (Hp i) as [Ht _].
  assert (forall e, str_any p (str_drop 1 (str_take e s)) = false) as Hb by (intros; auto with go).
  revert Hd Ht Hb. generalize (str_drop (S i) s) (str_take i s). intros d t Hd Ht Hb.
  destruct s as [|c s']; [|destruct c as [[] [] [] [] [] [] [] []]];
    cbv beta iota zeta; repeat (destruct (index_byte _ _) as [e|] || case_match); try done;
    intros [= <- <-]; split; try done; apply (Hb e).
Qed.

Lemma splitSSHUser_Ok p ep u hp :
  splitSSHUser ep = Ok (u, hp) ->
  HasPrefix u "-" = false /\ (str_any p ep = false -> str_any p u = false /\ str_any p hp = false).
Proof.
  unfold splitSSHUser. destruct (last_index_byte "@" ep) as [i|]; [|intros [= <- <-]; by split].
  pose proof (str_any_take p i ep) as Ht. pose proof (str_any_drop p (S i) ep) as Hd.
  revert Ht Hd. generalize (str_take i ep) (str_drop (S i) ep). intros a b Ha Hb.
  destruct (_ || _) eqn:E; [done|]. apply orb_false_iff in E as [_ E]. intros [= <- <-]. auto.
Qed.

Lemma Cut_free p sep s a b ok :
  Cut sep s = (a, b, ok) -> str_any p s = false -> str_any p a = false /\ str_any p b = false.
Proof.
  revert a b ok. induction s as [|c s IH]; cbn; intros a b ok; [by intros [= <- <- <-]|].
  rewrite orb_false_iff. destruct (eqc c sep); [by intros [= <- <- <-] [_ ?]|].
  destruct (Cut sep s) as [[a' b'] ok'] eqn:E. intros [= <- <- <-] [Hc Hs].
  destruct (IH _ _ _ eq_refl Hs) as [Ha Hb]. cbn. by rewrite Hc, Ha.
Qed.

Lemma splitSSHHostPort_Ok p ep hp h q :
  splitSSHHostPort ep hp = Ok (h, q) -> str_any p hp = false -> str_any p h = false /\ str_any p q = false.
Proof.
  unfold splitSSHHostPort. intros H Hf.
  destruct (HasPrefix hp "[").
  { destruct (Contains hp "]:").
    - inv_ok. by apply (SplitHostPort_free p) in H.
    - destruct (HasSuffix hp "]"); [|done]. unfold TrimSuffix, TrimPrefix in H.
      assert (forall a b, Ok (E:=endpoint_error) (a, b) = Ok (h, q) -> a = h /\ b = q) as Hi by (intros ? ? [= <- <-]; done).
      apply Hi in H as [<- <-]. split; [|done].
      destruct (HasPrefix hp "["), (HasSuffix _ "]"); auto with go. }
  destruct (_ =? 0)%nat; [by intros; injection H as <- <-|].
  destruct (_ =? 1)%nat; [|done]. destruct (Cut ":" hp) as [[a b] ok] eqn:E.
  destruct (bool_decide (b = "")); [done|]. injection H as <- <-. by apply (Cut_free p) in E.
Qed.

Lemma validateSSHPort_Ok q u :
  validateSSHPort q = Ok u <-> q = "" \/ exists n, parse_port q = Some n.
Proof.
  destruct u. unfold validateSSHPort. case_bool_decide as Hq; [naive_solver|].
  destruct (parse_port q) as [n|]; naive_solver.
Qed.

(** A port that parses does not look like an option. *)
Lemma parse_port_no_dash q n : parse_port q = Some n -> HasPrefix q "-" = false.
Proof.
  intros H. destruct (HasPrefix q "-") eqn:E; [|done]. apply HasPrefix_spec in E as [r ->].
  pose proof (parse_port_range _ _ H) as Hr. exfalso. revert H. unfold parse_port, Atoi.
  cbn [String.append]. case_bool_decide; [done|].
  destruct (parse_digits 0 r) as [v|] eqn:Ev; [|done]. apply parse_digits_nonneg in Ev; [|lia].
  cbn. destruct (_ && _); [|done]. cbn. destruct (port_in_range _); [|done]. intros [= <-]. lia.
Qed.

Lemma parseEndpoint_Ok ep u h q :
  parseEndpoint ep = Ok (u, h, q) ->
  h <> "" /\ HasPrefix h "-" = false /\ HasPrefix u "-" = false
  /\ (q = "" \/ exists n, parse_port q = Some n)
  /\ Forall (fun s => str_any endpoint_space s = false) [u; h; q].
Proof.
  unfold parseEndpoint. intros H. apply bind_Ok in H as (? & _ & H).
  apply bind_Ok in H as (? & _ & H). apply bind_Ok in H as (? & Hw%fail_if_Ok & H).
  apply bind_Ok in H as ([u' hp] & Hu & H). apply bind_Ok in H as ([h' q'] & Hh & H).
  apply bind_Ok in H as (? & Hb%fail_if_Ok & H). apply bind_Ok in H as (v & Hq%validateSSHPort_Ok & H).
  cbn [fst snd] in *. injection H as <- <- <-.
  apply orb_false_iff in Hb as [Hne%bool_decide_eq_false Hd].
  apply (splitSSHUser_Ok endpoint_space) in Hu as [Hu Hf]. destruct (Hf Hw) as [Hfu Hfp].
  apply (splitSSHHostPort_Ok endpoint_space) in Hh as [Hfh Hfq]; [|done].
  repeat split; try done. by repeat constructor.
Qed.

(** C34: the arguments are the fixed ones, the port, the user and the host. None of
    the three reads as an option or holds white space, and the listener is on
    loopback. *)
Theorem ssh_args_safe endpoint socks args :
  buildSSHArgs endpoint socks = Ok args ->
  exists user host port sh sp,
    parseEndpoint endpoint = Ok (user, host, port)
    /\ args = fixedSSHArgs socks ++ (if bool_decide (port = "") then [] else ["-p"; port])
              ++ (if bool_decide (user = "") then [] else ["-l"; user]) ++ [host]
    /\ host <> ""
    /\ Forall (fun a => HasPrefix a "-" = false /\ str_any endpoint_space a = false) [user; host; port]
    /\ (port = "" \/ exists n, Atoi port = Some n /\ (1 <= n <= 65535)%Z)
    /\ SplitHostPort socks = Ok (sh, sp)
    /\ (sh = "localhost" \/ exists ip, ParseIP sh = Some ip /\ IsLoopback ip = true).
Proof.
  unfold buildSSHArgs. intros H. apply bind_Ok in H as ([[u h] q] & Hp & H).
  apply bind_Ok in H as ([sh sp] & Hs%map_err_Ok & H). apply bind_Ok in H as (? & Hl%fail_if_Ok & H).
  injection H as <-. cbn [fst snd] in *. exists u, h, q, sh, sp.
  destruct (parseEndpoint_Ok _ _ _ _ Hp) as (Hne & Hd & Hu & Hq & Hf).
  apply Forall_cons in Hf as [Hf1 Hf]. apply Forall_cons in Hf as [Hf2 Hf]. apply Forall_cons in Hf as [Hf3 _].
  assert (HasPrefix q "-" = false) as Hqd.
  { destruct Hq as [->|[n Hn]]; [done|by eapply parse_port_no_dash]. }
  split_and!; try done.
  - rewrite !Forall_cons, Forall_nil. split_and!; done.
  - destruct Hq as [->|[n Hn]]; [by left|right]. exists n. split; [|by eapply parse_port_range].
    revert Hn. unfold parse_port. destruct (Atoi q) as [z|]; cbn -[port_in_range]; [|done]. by destruct (port_in_range z).
  - apply andb_false_iff in Hl as [Hl|Hl]; apply negb_false_iff in Hl.
    + left. by apply bool_decide_eq_true in Hl.
    + right. destruct (ParseIP sh) as [ip|]; [|done]. by exists ip.
Qed.

Lemma ssh_args_safe_witness :
  buildSSHArgs "ops@[fd00::1]:2222" "127.0.0.1:1055"
    = Ok (fixedSSHArgs "127.0.0.1:1055" ++ ["-p"; "2222"; "-l"; "ops"; "fd00::1"])
  /\ "fd00::1" <> "".
Proof.
  assert (buildSSHArgs "ops@[fd00::1]:2222" "127.0.0.1:1055"
    = Ok (fixedSSHArgs "127.0.0.1:1055" ++ ["-p"; "2222"; "-l"; "ops"; "fd00::1"])) as H by reflexivity.
  split; [exact H|]. destruct (ssh_args_safe _ _ _ H) as (u & h & q & sh & sp & Hp & _ & Hne & _).
  vm_compute in Hp. injection Hp as _ <- _. exact Hne.
Defined.

(** ** Writing an endpoint *)

(** The endpoint a user writes for a user, a host and a port. *)
Definition renderEndpoint (user host : string) (port : option Z) : string :=
  (if bool_decide (user = "") then "" else user +:+ "@")
  +:+ joined_host host +:+ match port with Some n => ":" +:+ Itoa n | None => "" end.

Lemma str_any_space_sub s : str_any is_space s = false -> str_any endpoint_space s = false.
Proof.
  induction s as [|c s IH]; cbn; [done|]. rewrite !orb_false_iff. intros [Hc Hs]. split; [|by apply IH].
  unfold endpoint_space. unfold is_space in Hc. apply orb_false_iff in Hc as [Hb ->]. cbn.
  destruct (eqc c "009") eqn:E1; [apply eqc_true in E1 as ->; discriminate Hb|].
  destruct (eqc c "013") eqn:E2; [apply eqc_true in E2 as ->; discriminate Hb|].
  destruct (eqc c "010") eqn:E3; [apply eqc_true in E3 as ->; discriminate Hb|]. done.
Qed.

Lemma count_byte_app c a b : count_byte c (a +:+ b) = (count_byte c a + count_byte c b)%nat.
Proof. induction a as [|d a IH]; cbn; [done|]. rewrite IH. lia. Qed.
Lemma count_byte_none c s : no_byte c s = true -> count_byte c s = 0%nat.
Proof.
  unfold no_byte. induction s as [|d s IH]; cbn; [done|].
  rewrite andb_true_iff, negb_true_iff. intros [-> H]. by rewrite IH.
Qed.
Lemma HasPrefix_byte_free c a b : a <> "" -> no_byte c a = true -> HasPrefix (a +:+ b) (String c "") = false.
Proof.
  destruct a as [|d a]; [done|]. unfold no_byte. cbn. rewrite andb_true_iff, negb_true_iff.
  intros _ [H _]. apply andb_false_iff. left. apply eqc_false. apply eqc_false in H. congruence.
Qed.
Lemma Contains_mid sub a b : Contains (a +:+ sub +:+ b) sub = true.
Proof.
  induction a as [|c a IH].
  - cbn [String.append]. pose proof (HasPrefix_app b sub) as H.
    destruct (sub +:+ b); cbn [Contains]; by rewrite H.
  - cbn [String.append Contains]. rewrite IH. apply orb_true_r.
Qed.
Lemma Contains_bracket_end h : no_byte "]" h = true -> Contains (h +:+ "]") "]:" = false.
Proof.
  unfold no_byte. induction h as [|c h IH]; [done|].
  cbn [str_all]. rewrite andb_true_iff, negb_true_iff. intros [Hc Hh].
  cbn [String.append Contains]. rewrite (IH Hh), orb_false_r. cbn [HasPrefix].
  rewrite (proj2 (eqc_false "]" c)); [done|]. apply eqc_false in Hc. congruence.
Qed.

Lemma splitSSHHostPort_render ep h port :
  h <> "" -> no_byte "[" h = true -> no_byte "]" h = true ->
  match port with Some n => (1 <= n <= 65535)%Z | None => True end ->
  splitSSHHostPort ep (joined_host h +:+ match port with Some n => ":" +:+ Itoa n | None => "" end)
  = Ok (h, match port with Some n => Itoa n | None => "" end).
Proof.
  intros Hne Ho Hc Hp. unfold joined_host.
  destruct (has_byte ":" h) eqn:E.
  - unfold splitSSHHostPort. replace (HasPrefix (_ +:+ _) "[") with true
      by (symmetry; rewrite str_app_assoc; apply HasPrefix_app).
    cbn [String.append].
    destruct port as [n|].
    + assert (Contains (String "[" ((h +:+ "]") +:+ String ":" (Itoa n))) "]:" = true) as ->.
      { rewrite str_app_assoc. apply (Contains_mid "]:" (String "[" h) (Itoa n)). }
      assert (String "[" ((h +:+ "]") +:+ String ":" (Itoa n)) = JoinHostPort h (Itoa n)) as ->.
      { unfold JoinHostPort. by rewrite E, str_app_assoc. }
      rewrite SplitHostPort_JoinHostPort; [done..|].
      apply Itoa_all_digits. lia.
    + rewrite str_app_nil_r. cbn [Contains HasPrefix].
      replace (eqc "]" "[") with false by done. cbn [andb orb]. rewrite Contains_bracket_end by done.
      replace (String "[" (h +:+ "]")) with ("[" +:+ h +:+ "]") by done.
      unfold TrimPrefix. rewrite HasPrefix_app, str_drop_app. unfold TrimSuffix. rewrite HasSuffix_app.
      replace (HasSuffix ("[" +:+ h +:+ "]") "]") with true by (symmetry; apply (HasSuffix_app ("[" +:+ h) "]")).
      do 2 f_equal. rewrite len_app. replace (len h + len "]" - len "]")%nat with (len h) by lia.
      apply str_take_app.
  - apply has_byte_false in E. unfold splitSSHHostPort. rewrite HasPrefix_byte_free by done.
    rewrite count_byte_app, (count_byte_none ":" h) by done. destruct port as [n|].
    + assert (no_byte ":" (Itoa n) = true) as Hi by (apply digits_no_byte; [done|apply Itoa_all_digits; lia]).
      cbn [String.append count_byte]. rewrite eqc_refl, count_byte_none by done. cbn [Nat.add Nat.eqb].
      assert (Cut ":" (h +:+ String ":" (Itoa n)) = (h, Itoa n, true)) as -> by by apply Cut_app.
      rewrite bool_decide_eq_false_2; [done|]. destruct (Itoa_digit_word n) as (c & r & -> & _); [lia|done].
    + by rewrite str_app_nil_r.
Qed.

(** What a user, a host and a port may hold to be written as an endpoint. *)
Definition endpoint_user (u : string) : Prop :=
  str_any is_space u = false /\ HasPrefix u "-" = false.
Definition endpoint_host (h : string) : Prop :=
  h <> "" /\ HasPrefix h "-" = false /\ str_any is_space h = false
  /\ no_byte "@" h = true /\ no_byte "[" h = true /\ no_byte "]" h = true.

Lemma Itoa_no_space n : (0 <= n)%Z -> str_any is_space (Itoa n) = false.
Proof. intros H. apply digits_no_space, Itoa_all_digits, H. Qed.

Lemma HasPrefix_dash_app a b : a <> "" -> HasPrefix a "-" = false -> HasPrefix (a +:+ b) "-" = false.
Proof. destruct a as [|c a]; [done|]. cbn. destruct (eqc "-" c); [by destruct a|done]. Qed.

Section Render.
Context (u h : string) (port : option Z).
Context (Hu : endpoint_user u) (Hh : endpoint_host h)
        (Hp : match port with Some n => (1 <= n <= 65535)%Z | None => True end).

Let tail : string := joined_host h +:+ match port with Some n => ":" +:+ Itoa n | None => "" end.

Lemma tail_free (p : ascii -> bool) :
  str_any p h = false -> p "["%char = false -> p "]"%char = false -> p ":"%char = false ->
  (forall n, (0 <= n)%Z -> str_any p (Itoa n) = false) -> str_any p tail = false.
Proof.
  intros H1 H2 H3 H4 H5. unfold tail, joined_host.
  destruct (has_byte ":" h), port as [n|]; rewrite !str_any_app; cbn; rewrite H1, ?H2, ?H3, ?H4; cbn; try done;
    apply H5; lia.
Qed.

Lemma tail_no_at : no_byte "@" tail = true.
Proof.
  destruct Hh as (_ & _ & _ & Ha & _). unfold tail, joined_host.
  destruct (has_byte ":" h), port as [n|]; rewrite !no_byte_app, Ha; cbn; try done;
    (apply digits_no_byte; [done|apply Itoa_all_digits; lia]).
Qed.

Lemma tail_head : HasPrefix tail "-" = false /\ tail <> "".
Proof.
  destruct Hh as (Hne & Hd & _). unfold tail, joined_host.
  destruct (has_byte ":" h); [done|]. split; [by apply HasPrefix_dash_app|by destruct h].
Qed.

Lemma renderEndpoint_free : str_any is_space (renderEndpoint u h port) = false.
Proof.
  destruct Hu as [Hus _], Hh as (_ & _ & Hhs & _).
  unfold renderEndpoint. fold tail. rewrite str_any_app.
  rewrite (tail_free is_space) by (done || apply Itoa_no_space).
  case_bool_decide; [done|]. by rewrite str_any_app, Hus.
Qed.

Lemma renderEndpoint_head : HasPrefix (renderEndpoint u h port) "-" = false /\ renderEndpoint u h port <> "".
Proof.
  destruct tail_head as [Hd Hne]. unfold renderEndpoint. fold tail. case_bool_decide as E; [by split|].
  destruct Hu as [_ Hud]. rewrite str_app_assoc.
  split; [by apply HasPrefix_dash_app|by destruct u].
Qed.

Lemma splitSSHUser_render : splitSSHUser (renderEndpoint u h port) = Ok (u, tail).
Proof.
  unfold renderEndpoint. fold tail. unfold splitSSHUser. case_bool_decide as E.
  - subst u. cbn [String.append]. by rewrite last_index_byte_none by apply tail_no_at.
  - rewrite str_app_assoc. cbn [String.append].
    rewrite last_index_byte_app by apply tail_no_at. rewrite str_take_app, str_drop_app_sep.
    rewrite bool_decide_eq_false_2 by done. by destruct Hu as [_ ->].
Qed.

(** Every user, host and port that can be written is read back. *)
Theorem endpoint_roundtrip :
  parseEndpoint (renderEndpoint u h port) = Ok (u, h, match port with Some n => Itoa n | None => "" end).
Proof.
  unfold parseEndpoint, TrimSpace. rewrite trim_none by apply renderEndpoint_free.
  destruct renderEndpoint_head as [Hd Hne].
  rewrite bool_decide_eq_false_2, Hd, (str_any_space_sub _ renderEndpoint_free) by done.
  cbn [fail_if mbind result_bind]. rewrite splitSSHUser_render. cbn [snd].
  destruct Hh as (Hhne & Hhd & _ & _ & Ho & Hc). cbn [mbind result_bind snd]. unfold tail. rewrite splitSSHHostPort_render by done.
  cbn [mbind result_bind fst snd]. rewrite bool_decide_eq_false_2, Hhd by done. cbn [orb fail_if mbind result_bind].
  replace (validateSSHPort _) with (Ok (E:=endpoint_error) tt); [done|].
  symmetry. apply validateSSHPort_Ok. destruct port as [n|]; [right|by left].
  exists n. by apply parse_port_Itoa.
Qed.
End Render.

Lemma endpoint_roundtrip_witness :
  parseEndpoint (renderEndpoint "a@b" "fd00::1" (Some 22%Z)) = Ok ("a@b", "fd00::1", "22").
Proof. apply (endpoint_roundtrip "a@b" "fd00::1" (Some 22)%Z); [done|done|lia]. Defined.

(** * The child's environment *)

Lemma withoutSecrets_filter environ :
  withoutSecrets environ = List.filter (fun kv => negb (isSecretName (env_name kv))) environ.
Proof.
  unfold withoutSecrets.
  enough (forall kept, fold_left (fun kept kv => if isSecretName (env_name kv) then kept else kept ++ [kv]) environ kept
    = kept ++ List.filter (fun kv => negb (isSecretName (env_name kv))) environ) as H by apply H.
  induction environ as [|kv l IH]; intros kept; cbn; [by rewrite app_nil_r|].
  destruct (isSecretName _); cbn; rewrite IH; [done|by rewrite <- app_assoc].
Qed.

(** A secret name in any letter case: a namespace in front, a credential's kind behind. *)
Lemma isSecretName_spec name :
  isSecretName name = true <->
  (exists p r, In p secretPrefixes /\ ToUpper name = p +:+ r)
  /\ (exists s a, In s secretSuffixes /\ ToUpper name = a +:+ s).
Proof.
  unfold isSecretName, hasAnyPrefix, hasAnySuffix. rewrite andb_true_iff, !existsb_exists.
  setoid_rewrite HasSuffix_spec. setoid_rewrite HasPrefix_spec. split.
  - intros [(p & Hp & r & Hr) (s & Hs & a & Ha)]. split; eauto 6.
  - intros [(p & r & Hp & Hr) (s & a & Hs & Ha)]. split; eauto 6.
Qed.

(** The child never sees a credential, and sees everything else, in order. *)
Theorem child_environment environ :
  withoutSecrets environ `sublist_of` environ
  /\ forall kv, In kv (withoutSecrets environ) <->
       In kv environ /\
       ~ ((exists p r, In p secretPrefixes /\ ToUpper (env_name kv) = p +:+ r)
          /\ (exists s a, In s secretSuffixes /\ ToUpper (env_name kv) = a +:+ s)).
Proof.
  rewrite withoutSecrets_filter. split.
  - induction environ as [|kv l IH]; cbn; [constructor|].
    destruct (isSecretName _); cbn; [by apply sublist_cons|by apply sublist_skip].
  - intros kv. rewrite filter_In, <- isSecretName_spec, negb_true_iff.
    destruct (isSecretName _); naive_solver.
Qed.

(** * Starting *)

Definition spawned (ops : list start_op) : Prop := exists p a e, In (Spawn p a e) ops.

(** How [waitUntilReady] ends is decided by the first round that is not a tick. *)
Lemma waitUntilReady_ticks addr timeout n rest :
  waitUntilReady addr timeout (replicate n DialFailed_Tick ++ rest) = waitUntilReady addr timeout rest.
Proof. by induction n. Qed.

Lemma waitUntilReady_ready addr timeout rs :
  waitUntilReady addr timeout rs = Some (Ok tt) <->
  exists n rest, rs = replicate n DialFailed_Tick ++ Dialled None :: rest.
Proof.
  split.
  - induction rs as [|r rs IH]; [done|]. destruct r as [[e|]|[]|e|]; cbn; try done.
    + intros _. by exists 0%nat, rs.
    + intros H. destruct (IH H) as (n & rest & ->). by exists (S n), rest.
  - intros (n & rest & ->). by rewrite waitUntilReady_ticks.
Qed.

(** Starting the child: on success the listener was dialled while the child ran;
    on failure no child is left (it was never started, or it was cancelled and
    waited for); what is started is ssh with the built arguments and an
    environment without the secrets. *)
Theorem start_outcome cfg w ops r :
  start cfg w = (ops, Some r) ->
  (forall p a e, In (Spawn p a e) ops ->
     lookPath w = Some p /\ buildSSHArgs (Endpoint cfg) (SOCKSAddr cfg) = Ok a
     /\ e = withoutSecrets (environ w))
  /\ match r with
     | Ok _ => spawned ops /\ ~ In CancelChild ops
               /\ exists n rest, rounds w = replicate n DialFailed_Tick ++ Dialled None :: rest
     | Err _ => (spawned ops -> In CancelChild ops /\ (starts w = true -> List.last ops ProbeClose = AwaitExit))
     end.
Proof.
  unfold start. destruct (lookPath w) as [path|]; [|intros [= <- <-]; split; [done|by intros (?&?&?&?)]].
  destruct (buildSSHArgs _ _) as [args|e] eqn:Ea; [|intros [= <- <-]; split; [done|by intros (?&?&?&?)]].
  destruct (canBind w); cbn [negb].
  2:{ intros [= <- <-]. split; [|by intros (?&?&?&[?|[?|[]]])]. by intros ??? [?|[?|[]]]. }
  destruct (starts w) eqn:Es; cbn [negb].
  2:{ intros [= <- <-]. split.
      - intros p a e H. cbn in H. destruct H as [H|[H|[H|[H|[]]]]]; naive_solver.
      - intros _. split; [cbn; auto|done]. }
  destruct (waitUntilReady _ _ _) as [[[]|e]|] eqn:Ew; [..|done]; intros [= <- <-].
  - split; [intros p a e H; cbn in H; destruct H as [H|[H|[H|[H|[]]]]]; naive_solver|].
    split_and!; [do 3 eexists; cbn; eauto|cbn; naive_solver|by eapply waitUntilReady_ready].
  - split; [intros p a e' H; cbn in H; destruct H as [H|[H|[H|[H|[H|[H|[]]]]]]]; naive_solver|].
    intros _. split; [cbn; auto 10|done].
Qed.

Lemma start_outcome_witness :
  let w := mkStartEnv (Some "/usr/bin/ssh") true ["HOME=/root"; "ts_authkey=k"] true [DialFailed_Tick; DialFailed_Exited None] in
  exists ops, start (mkBootstrap "me@host" "127.0.0.1:1055" 0) w = (ops, Some (Err ExitedCleanly))
    /\ (spawned ops -> In CancelChild ops /\ (starts w = true -> List.last ops ProbeClose = AwaitExit)).
Proof.
  intros w. eexists. split; [reflexivity|]. intros Hs.
  refine (proj2 (start_outcome (mkBootstrap "me@host" "127.0.0.1:1055" 0) w _ (Err ExitedCleanly) _) Hs). reflexivity.
Defined.

(** * The control proxy *)

Section ControlProxyFacts.
Context `{UrlPackage}.

(** The addresses the handler reaches out to. *)
Definition reaches (op : proxy_op) : option string :=
  match op with DialUpstream a | Forward a => Some a | _ => None end.

Lemma controlProxyConnect_reaches e a op b : In op (controlProxyConnect e a) -> reaches op = Some b -> b = a.
Proof. unfold controlProxyConnect. destruct e as [[] [] [] [] []]; cbn; naive_solver. Qed.

(** C35: end to end: what the installed function sends to the proxy is what the proxy
    serves, and the proxy reaches only the request's own address, on the control
    plane's host; a refused set-up leaves no proxy and no function behind. *)
Theorem control_proxy_confined controlURL w st err :
  ConfigureControlProxy controlURL w = (st, err) ->
  match err with
  | Some _ => running st = None /\ installed st = None
  | None =>
      exists u hostname addr f,
        urlParse controlURL = Some u /\ hostname = Hostname u /\ hostname <> ""
        /\ running st = Some (hostname, addr) /\ installed st = Some f
        /\ forall e m ru,
             let ops := controlProxyHandler hostname e (mkRequest m ru) in
             (f ru = UseProxy addr -> EqualFold (Hostname ru) hostname = true /\ ~ In (Respond 403) ops)
             /\ (f ru <> UseProxy addr -> f ru = UseEnvironment /\ ops = [Respond 403])
             /\ (forall op a, In op ops -> reaches op = Some a ->
                   a = Host ru /\ EqualFold (Hostname ru) hostname = true)
  end.
Proof.
  unfold ConfigureControlProxy, startControlProxy, controlProxyFunc, controlHostname.
  destruct (ctxDone w); [by intros [= <- <-]|].
  destruct (urlParse controlURL) as [u|]; [|by intros [= <- <-]].
  case_bool_decide as Hne; [by intros [= <- <-]|].
  destruct (hasDialer w); [|by intros [= <- <-]].
  destruct (binds w) as [addr|]; [|by intros [= <- <-]].
  cbn. destruct (installs w); [|by intros [= <- <-]]. intros [= <- <-].
  do 4 eexists. split_and!; [done..|]. intros e m ru. cbn. unfold controlProxyHandler. cbn.
  destruct (EqualFold (Hostname ru) (Hostname u)); cbn.
  - split_and!; [|done|].
    + intros _. split; [done|]. case_bool_decide.
      * unfold controlProxyConnect. destruct e as [[] [] [] [] []]; cbn; naive_solver.
      * case_bool_decide; cbn; naive_solver.
    + intros op a. case_bool_decide.
      * intros Hin Hr. split; [by eapply controlProxyConnect_reaches|done].
      * case_bool_decide; cbn; naive_solver.
  - split_and!; [done|done|]. cbn. naive_solver.
Qed.

(** Once dialled the upstream is closed last, and once hijacked the client is closed before it. *)
Theorem connect_closes e addr :
  let ops := controlProxyConnect e addr in
  (dials e = true -> List.last ops Relay = CloseUpstream)
  /\ (dials e && hijackable e && hijacks e = true -> exists pre, ops = pre ++ [CloseClient; CloseUpstream])
  /\ (In Relay ops -> exists pre, ops = pre ++ [Established; Relay; CloseClient; CloseUpstream]).
Proof.
  unfold controlProxyConnect. cbv zeta. split_and!.
  - by destruct e as [[] [] [] [] []].
  - destruct e as [[] [] [] [] []]; cbn; intros He; try discriminate He;
      [by exists [DialUpstream addr; Established; Relay]|by exists [DialUpstream addr; Established]|..];
      by exists [DialUpstream addr].
  - destruct e as [[] [] [] [] []]; cbn; intros Hr; [by exists [DialUpstream addr]|..];
      exfalso; repeat (destruct Hr as [Hr|Hr]; [discriminate Hr|]); exact Hr.
Qed.
End ControlProxyFacts.

Lemma control_proxy_confined_witness :
  let w := mkProxyEnv false true (Some "127.0.0.1:9") true in
  exists st f, @ConfigureControlProxy simpleUrl "https://hs.example.com" w = (st, None)
    /\ installed st = Some f
    /\ f (mkURL "https" false "HS.example.com:443" "" "" "") = UseProxy "127.0.0.1:9".
Proof.
  intros w. eexists _, _. split; [reflexivity|].
  destruct (@control_proxy_confined simpleUrl "https://hs.example.com" w _ None eq_refl)
    as (u & h & a & f & Hu & Hh & _ & _ & Hf & Hall).
  split; [reflexivity|]. vm_compute in Hf. reflexivity.
Defined.
