(* ===== verification/HostFile.v ===== *)
(** The host configuration file and the host settings (src/internal/host/file.go,
    mesh.go, firewall_rule.go, config.go): decoding, the checks in the code's
    order, and the precedence flags > environment > file > defaults.

    Reading bytes as YAML is a library: a document is the map of its keys and
    the [File] the decoder makes of it, either of which may fail. *)
From S2P Require Import Prelude GoStrings GoNet ControlUrl HostRunner Bootstrap.
From Stdlib Require Import Ascii.

Open Scope bool_scope.
#[local] Set Warnings "-register-all".

(** * The file *)

Definition fileVersion : Z := 1.
Definition ServiceRDP := "rdp".
Definition ServiceSSH := "ssh".
Definition ServiceVNC := "vnc".
Definition goosWindows := "windows".
Definition goosLinux := "linux".
Definition goosDarwin := "darwin".

(** The port of a kind the code knows. *)
Definition defaultPorts (kind : string) : option Z :=
  if bool_decide (kind = ServiceRDP) then Some defaultRDPPort
  else if bool_decide (kind = ServiceSSH) then Some 22%Z
  else if bool_decide (kind = ServiceVNC) then Some 5900%Z
  else None.

Record FileService : Type := mkFileService { sKind : string; sPort : option Z }.
Record FileFirewall : Type := mkFileFirewall { Rule : option string }.
Record FilePower : Type := mkFilePower { PreventSleep : option bool }.
Record FileMesh : Type := mkFileMesh {
  BootstrapSSH : option string;
  BootstrapSOCKSAddr : option string;
  mHostname : option string;
  StateDir : option string;
  AuthKeyFile : option string;
  HealthAddr : option string;
}.
(** [hServices] is [None] for a nil slice: an absent key. *)
Record FileHost : Type := mkFileHost {
  hServices : option (list FileService);
  hFirewall : option FileFirewall;
  hPower : option FilePower;
  hControlURL : option string;
  hMesh : option FileMesh;
}.
Record File : Type := mkFile { Version : Z; fHost : FileHost }.

Definition noHost : FileHost := mkFileHost None None None None None.

(** * What an OS's steps can do *)

Record osCapability : Type := mkCapability {
  kinds : list string;
  power : bool;
  firewallRule : bool;
  canServe : bool;
  planned : list (string * string);
}.

Definition osCapabilities (goos : string) : option osCapability :=
  if bool_decide (goos = goosWindows) then Some (mkCapability [ServiceRDP] true true true [(ServiceSSH, "#521")])
  else if bool_decide (goos = goosLinux) then Some (mkCapability [ServiceRDP] false false true [(ServiceSSH, "#521")])
  else if bool_decide (goos = goosDarwin)
       then Some (mkCapability [] false false false [(ServiceSSH, "#459"); (ServiceVNC, "#459")])
  else None.

Definition linuxCapability : osCapability := mkCapability [ServiceRDP] false false true [(ServiceSSH, "#521")].
Definition capabilityFor (goos : string) : osCapability := default linuxCapability (osCapabilities goos).

(** The row [LoadServeFile] reads with. *)
Definition serveCapability (goos : string) : osCapability :=
  let c := capabilityFor goos in
  if canServe c then mkCapability (kinds c ++ [ServiceSSH]) (power c) (firewallRule c) (canServe c) (planned c) else c.

(** * Errors *)

Inductive rule_error : Type := RuleEmpty | RuleTooLong (n : nat) | RuleChars (name : string).

Inductive host_file_error : Type :=
  | ReadFailed
  | ParseYAML
  | SeveralDocuments
  | DecodeFailed
  | NoValue (path : string)
  | BadVersion (v : Z)
  | ServicesEmpty
  | KindUnknown (i : nat) (kind : string)
  | KindNotHere (i : nat) (kind goos ref : string)
  | ServicePort (i : nat) (port : Z)
  | KindTwice (i : nat) (kind : string)
  | NoFirewall (goos : string)
  | BadRule (e : rule_error)
  | NoPower (goos : string)
  | ControlEmpty
  | ControlBad (e : url_error)
  | NoServe (goos : string)
  | MeshEmpty (key : string)
  | MeshEndpoint (e : endpoint_error)
  | MeshNeedsControl
  | MeshHostname
  | MeshPath (key goos : string)
  | MeshAddr (key : string) (e : addr_error)
  | MeshNotLoopback (key : string)
  | MeshPort (key : string).

(** * The firewall rule's name *)

Definition maxFirewallRuleName : nat := 64.
Definition is_alnum (c : ascii) : bool := is_letter c || is_digit c.
(** The class of [validFirewallRuleRe]. *)
Definition rule_char (c : ascii) : bool := is_alnum c || eqc c "_" || eqc c "-".

Definition sanitizeFirewallRule (name : string) : result rule_error string :=
  if bool_decide (name = "") then Err RuleEmpty
  else if (maxFirewallRuleName <? len name)%nat then Err (RuleTooLong (len name))
  else if negb (str_all rule_char name) then Err (RuleChars name)
  else Ok name.

(** * Services, firewall, control plane *)

Definition validateService (i : nat) (s : FileService) (goos : string) (capab : osCapability)
    : result host_file_error unit :=
  match defaultPorts (sKind s) with
  | None => Err (KindUnknown i (sKind s))
  | Some _ =>
      if negb (contains_word (kinds capab) (sKind s)) then
        let ref := match List.find (fun p => bool_decide (p.1 = sKind s)) (planned capab) with
                   | Some p => p.2
                   | None => "ADR-017 §5"
                   end in
        Err (KindNotHere i (sKind s) goos ref)
      else match sPort s with
           | Some p => if (p <? 1)%Z || (65535 <? p)%Z then Err (ServicePort i p) else Ok tt
           | None => Ok tt
           end
  end.

(** The loop over the services, with the kinds already seen. *)
Fixpoint validateEach (i : nat) (seen : list string) (services : list FileService) (goos : string)
    (capab : osCapability) : result host_file_error unit :=
  match services with
  | [] => Ok tt
  | s :: services =>
      _ ← validateService i s goos capab;
      if contains_word seen (sKind s) then Err (KindTwice i (sKind s))
      else validateEach (S i) (sKind s :: seen) services goos capab
  end.

Definition validateServices (services : option (list FileService)) (goos : string) (capab : osCapability)
    : result host_file_error unit :=
  match services with
  | None => Ok tt
  | Some [] => Err ServicesEmpty
  | Some l => validateEach 0 [] l goos capab
  end.

Definition validateFirewall (fw : option FileFirewall) (goos : string) (capab : osCapability)
    : result host_file_error unit :=
  match fw with
  | None => Ok tt
  | Some f =>
      if negb (firewallRule capab) then Err (NoFirewall goos)
      else match Rule f with
           | None => Ok tt
           | Some rule => _ ← map_err BadRule (sanitizeFirewallRule rule); Ok tt
           end
  end.

(** * The mesh section *)

(** [hostnameLabel]: 1 to 63 letters, digits and hyphens, no hyphen at an end. *)
Definition hostnameLabel (s : string) : bool :=
  (len s <=? 63)%nat && str_all (fun c => is_alnum c || eqc c "-") s
  && match s with String c _ => is_alnum c | "" => false end
  && match str_rev s with String c _ => is_alnum c | "" => false end.

(** The fields of the section with their keys, in the order they are checked. *)
Definition meshField (m : FileMesh) : list (string * option string) :=
  [("bootstrap_ssh", BootstrapSSH m); ("bootstrap_socks_addr", BootstrapSOCKSAddr m); ("hostname", mHostname m);
   ("state_dir", StateDir m); ("auth_key_file", AuthKeyFile m); ("health_addr", HealthAddr m)].

Definition checkMeshEmpty (m : FileMesh) : result host_file_error unit :=
  match List.find (fun f => bool_decide (f.2 = Some "")) (meshField m) with
  | Some f => Err (MeshEmpty f.1)
  | None => Ok tt
  end.

(** Absolute on [goos], which need not be the OS running the check. *)
Definition isAbsFor (goos p : string) : bool :=
  if negb (bool_decide (goos = goosWindows)) then HasPrefix p "/"
  else if HasPrefix p (String bslash (String bslash "")) then true
  else match p with
       | String a (String b (String c _)) => is_letter a && eqc b ":" && (eqc c bslash || eqc c "/")
       | _ => false
       end.

Definition checkMeshPaths (m : FileMesh) (goos : string) : result host_file_error unit :=
  match List.find (fun f => match f.2 with Some p => negb (isAbsFor goos p) | None => false end)
          [("state_dir", StateDir m); ("auth_key_file", AuthKeyFile m)] with
  | Some f => Err (MeshPath f.1 goos)
  | None => Ok tt
  end.

Definition validateBootstrapSSH (endpoint : option string) (hasControlURL : bool) : result host_file_error unit :=
  match endpoint with
  | None => Ok tt
  | Some ep =>
      _ ← map_err MeshEndpoint (ValidateEndpoint ep);
      fail_if (negb hasControlURL) MeshNeedsControl
  end.

Definition validateLoopbackAddr (key : string) (addr : option string) : result host_file_error unit :=
  match addr with
  | None => Ok tt
  | Some a =>
      hp ← map_err (MeshAddr key) (SplitHostPort a);
      _ ← fail_if (negb (bool_decide (hp.1 = "localhost"))
                   && negb (match ParseIP hp.1 with Some ip => IsLoopback ip | None => false end)) (MeshNotLoopback key);
      match parse_port hp.2 with Some _ => Ok tt | None => Err (MeshPort key) end
  end.

Definition validateMesh (mesh : option FileMesh) (hasControlURL : bool) (goos : string) (capab : osCapability)
    : result host_file_error unit :=
  match mesh with
  | None => Ok tt
  | Some m =>
      _ ← fail_if (negb (canServe capab)) (NoServe goos);
      _ ← checkMeshEmpty m;
      _ ← validateBootstrapSSH (BootstrapSSH m) hasControlURL;
      _ ← fail_if (match mHostname m with Some h => negb (hostnameLabel h) | None => false end) MeshHostname;
      _ ← checkMeshPaths m goos;
      _ ← validateLoopbackAddr "bootstrap_socks_addr" (BootstrapSOCKSAddr m);
      validateLoopbackAddr "health_addr" (HealthAddr m)
  end.

(** * Known keys *)

(** A decoded value, as far as the key check looks into it. *)
Inductive yaml : Type :=
  | YNil
  | YScalar
  | YSeq (l : list yaml)
  | YMap (m : list (string * yaml)).

Definition asMap (v : option yaml) : list (string * yaml) := match v with Some (YMap m) => m | _ => [] end.
Definition key_value (m : list (string * yaml)) (k : string) : option yaml :=
  snd <$> List.find (fun p => bool_decide (p.1 = k)) m.

Definition topKeys := ["version"; "host"].
Definition hostKeys := ["services"; "firewall"; "power"; "control_url"; "mesh"].
Definition serviceKeys := ["kind"; "port"].
Definition firewallKeys := ["rule"].
Definition powerKeys := ["prevent_sleep"].
Definition meshKeys := ["bootstrap_ssh"; "bootstrap_socks_addr"; "hostname"; "state_dir"; "auth_key_file"; "health_addr"].

Record keyLevel : Type := mkLevel { lm : list (string * yaml); prefix : string; known : list string }.

Definition key_path (l : keyLevel) (key : string) : string :=
  if bool_decide (prefix l = "") then key else prefix l +:+ "." +:+ key.

(** [keyLevel.check]: the paths warned about, and the first key without a value. *)
Fixpoint check_keys_go (l : keyLevel) (keys : list string) (warned : list string) : list string * result host_file_error unit :=
  match keys with
  | [] => (warned, Ok tt)
  | key :: keys =>
      if negb (contains_word (known l) key) then check_keys_go l keys (warned ++ [key_path l key])
      else match key_value (lm l) key with
           | Some YNil => (warned, Err (NoValue (key_path l key)))
           | _ => check_keys_go l keys warned
           end
  end.
Definition check_level (l : keyLevel) (warned : list string) : list string * result host_file_error unit :=
  check_keys_go l (sortNames (map fst (lm l))) warned.

Definition service_levels (services : option yaml) : list keyLevel :=
  match services with
  | Some (YSeq l) =>
      imap (fun i s => mkLevel (asMap (Some s)) ("host.services[" +:+ Itoa (Z.of_nat i) +:+ "]") serviceKeys) l
  | _ => []
  end.

Definition key_levels (raw : list (string * yaml)) : list keyLevel :=
  let hostMap := asMap (key_value raw "host") in
  [mkLevel raw "" topKeys; mkLevel hostMap "host" hostKeys;
   mkLevel (asMap (key_value hostMap "firewall")) "host.firewall" firewallKeys;
   mkLevel (asMap (key_value hostMap "power")) "host.power" powerKeys;
   mkLevel (asMap (key_value hostMap "mesh")) "host.mesh" meshKeys]
  ++ service_levels (key_value hostMap "services").

Fixpoint check_levels (levels : list keyLevel) (warned : list string) : list string * result host_file_error unit :=
  match levels with
  | [] => (warned, Ok tt)
  | l :: levels =>
      match check_level l warned with
      | (w, Err e) => (w, Err e)
      | (w, Ok _) => check_levels levels w
      end
  end.

(** [checkKeys]; [None] is a document that does not decode to a map. *)
Definition checkKeys (raw : option (list (string * yaml))) : list string * result host_file_error unit :=
  match raw with
  | None => ([], Err DecodeFailed)
  | Some raw => check_levels (key_levels raw) []
  end.

(** * Loading *)

Section Loading.
Context `{UrlPackage}.

Definition validateControlURL (raw : option string) : result host_file_error unit :=
  match raw with
  | None => Ok tt
  | Some u => if bool_decide (u = "") then Err ControlEmpty else map_err ControlBad (Validate u)
  end.

Definition validate (f : File) (goos : string) (capab : osCapability) : result host_file_error unit :=
  let h := fHost f in
  _ ← fail_if (negb (Version f =? fileVersion)%Z) (BadVersion (Version f));
  _ ← validateServices (hServices h) goos capab;
  _ ← validateFirewall (hFirewall h) goos capab;
  _ ← fail_if (negb (bool_decide (hPower h = None)) && negb (power capab)) (NoPower goos);
  _ ← validateControlURL (hControlURL h);
  validateMesh (hMesh h) (negb (bool_decide (hControlURL h = None))) goos capab.

(** What the YAML library answers: no document, a failure, or a document with
    what it decodes to and whether the stream ends after it. *)
Inductive yaml_stream : Type :=
  | NoDocument
  | BadDocument
  | Document (raw : option (list (string * yaml))) (decoded : option File) (last : bool).

Definition decodeFile (data : yaml_stream) : list string * result host_file_error File :=
  match data with
  | NoDocument => ([], Ok (mkFile fileVersion noHost))
  | BadDocument => ([], Err ParseYAML)
  | Document raw decoded last =>
      if negb last then ([], Err SeveralDocuments)
      else match checkKeys raw with
           | (w, Err e) => (w, Err e)
           | (w, Ok _) => (w, match decoded with Some f => Ok f | None => Err DecodeFailed end)
           end
  end.

(** [loadFile]: the paths warned about, and the file. [None] is a file that
    cannot be read. *)
Definition loadFile (data : option yaml_stream) (goos : string) (capab : osCapability)
    : list string * result host_file_error File :=
  match data with
  | None => ([], Err ReadFailed)
  | Some data =>
      let '(w, r) := decodeFile data in
      (w, f ← r; _ ← validate f goos capab; Ok f)
  end.

Definition LoadFile (data : option yaml_stream) (goos : string) := loadFile data goos (capabilityFor goos).
Definition LoadServeFile (data : option yaml_stream) (goos : string) := loadFile data goos (serveCapability goos).

(** * The control plane a descriptor carries *)

Definition ControlPlaneSaaS := "saas".

(** The [ControlURL] member of the JSON [tailscale debug prefs] prints. *)
Context (prefsControlURL : string -> option string).

Definition detectControlURL : prog string :=
  '(out, err) ← do (Output "tailscale" ["debug"; "prefs"]);
  if bool_decide (is_Some err) then mret (M:=prog) ""
  else match prefsControlURL out with
       | None => mret ""
       | Some u =>
           let raw := TrimSpace u in
           mret (if is_ok (validateControlURL (Some raw)) then raw else "")
       end.

Definition classifyControlURL (raw : string) : string :=
  match urlParse raw with
  | Some u => if contains_word saasHosts (ToLower (Hostname u)) then ControlPlaneSaaS else raw
  | None => raw
  end.

Definition resolveControlPlane (declared : string) : prog string :=
  d ← (if bool_decide (declared = "") then detectControlURL else mret declared);
  mret (classifyControlURL d).
End Loading.

(** * The settings *)

Record DeclaredService : Type := mkDeclared { dKind : string; dPort : Z }.

Record Flags : Type := mkFlags {
  flFirewallRule : string;
  flNoSleep : bool;
  flNoSleepSet : bool;
  flPort : Z;
  flVerbose : bool;
  flVerboseSet : bool;
  flLogFormat : string;
}.

Record Config : Type := mkConfig {
  FirewallRule : string;
  NoSleep : bool;
  cPort : Z;
  PortDeclared : bool;
  Verbose : bool;
  LogFormat : string;
  Services : list DeclaredService;
  cControlURL : string;
}.

Definition parseBoolEnv (value : string) : bool :=
  contains_word ["1"; "true"; "yes"; "on"] (ToLower (TrimSpace value)).

Definition defaults : Config := mkConfig "Tailscale-RDP-Ingress" false defaultRDPPort false false "text" [] "".

(** The default port of a kind the code names, zero of another: a map read. *)
Definition portOf (kind : string) : Z := default 0%Z (defaultPorts kind).

Definition defaultsFor (goos : string) : Config :=
  let kind := if bool_decide (goos = goosDarwin) then ServiceSSH else ServiceRDP in
  let d := defaults in
  mkConfig (FirewallRule d) (NoSleep d) (cPort d) (PortDeclared d) (Verbose d) (LogFormat d)
    [mkDeclared kind (portOf kind)] (cControlURL d).

(** One service of the file: appended, and an rdp service sets the legacy port. *)
Definition applyService (cfg : Config) (s : FileService) : Config :=
  let port := default (portOf (sKind s)) (sPort s) in
  let rdp := bool_decide (sKind s = ServiceRDP) in
  mkConfig (FirewallRule cfg) (NoSleep cfg)
    (if rdp then port else cPort cfg)
    (if rdp then negb (bool_decide (sPort s = None)) else PortDeclared cfg)
    (Verbose cfg) (LogFormat cfg) (Services cfg ++ [mkDeclared (sKind s) port]) (cControlURL cfg).

Definition setServices (l : list DeclaredService) (cfg : Config) : Config :=
  mkConfig (FirewallRule cfg) (NoSleep cfg) (cPort cfg) (PortDeclared cfg) (Verbose cfg) (LogFormat cfg) l (cControlURL cfg).

Definition applyFile (cfg : Config) (h : FileHost) : Config :=
  let cfg := match hServices h with
             | Some l => fold_left applyService l (setServices [] cfg)
             | None => cfg
             end in
  mkConfig
    (match hFirewall h with Some (mkFileFirewall (Some r)) => r | _ => FirewallRule cfg end)
    (match hPower h with Some (mkFilePower (Some p)) => negb p | _ => NoSleep cfg end)
    (cPort cfg) (PortDeclared cfg) (Verbose cfg) (LogFormat cfg) (Services cfg)
    (default (cControlURL cfg) (hControlURL h)).

(** [TS_HOST_RDP_PORT]: a value that is no port is warned about and ignored. *)
Definition envPort (v : string) : option Z := if bool_decide (v = "") then None else parse_port v.
(** [TS_HOST_LOG_FORMAT]. *)
Definition envFormat (v : string) : option string :=
  if bool_decide (v = "") then None
  else let format := ToLower v in if contains_word ["text"; "json"] format then Some format else None.

Definition applyEnv (cfg : Config) (getenv : string -> string) : Config :=
  let str k cur := if bool_decide (getenv k = "") then cur else getenv k in
  let bool_ k cur := if bool_decide (getenv k = "") then cur else parseBoolEnv (getenv k) in
  let port := envPort (getenv "TS_HOST_RDP_PORT") in
  mkConfig (str "TS_HOST_FIREWALL_RULE" (FirewallRule cfg))
    (bool_ "TS_HOST_NO_SLEEP" (NoSleep cfg))
    (default (cPort cfg) port) (PortDeclared cfg || bool_decide (is_Some port))
    (bool_ "TS_HOST_VERBOSE" (Verbose cfg))
    (default (LogFormat cfg) (envFormat (getenv "TS_HOST_LOG_FORMAT")))
    (Services cfg) (cControlURL cfg).

Definition applyFlags (cfg : Config) (fl : Flags) : Config :=
  mkConfig (if bool_decide (flFirewallRule fl = "") then FirewallRule cfg else flFirewallRule fl)
    (if flNoSleepSet fl then flNoSleep fl else NoSleep cfg)
    (if (0 <? flPort fl)%Z then flPort fl else cPort cfg)
    (PortDeclared cfg || (0 <? flPort fl)%Z)
    (if flVerboseSet fl then flVerbose fl else Verbose cfg)
    (if bool_decide (flLogFormat fl = "") then LogFormat cfg else flLogFormat fl)
    (Services cfg) (cControlURL cfg).

Definition mirrorPort (cfg : Config) : Config :=
  setServices (map (fun s => if bool_decide (dKind s = ServiceRDP) then mkDeclared (dKind s) (cPort cfg) else s) (Services cfg)) cfg.

Definition Resolve (goos : string) (f : File) (getenv : string -> string) (fl : Flags) : Config :=
  mirrorPort (applyFlags (applyEnv (applyFile (defaultsFor goos) (fHost f)) getenv) fl).

Definition Merge (goos : string) (getenv : string -> string) (fl : Flags) : Config :=
  Resolve goos (mkFile 0 noHost) getenv fl.

Definition LoadConfig (getenv : string -> string) : result rule_error Config :=
  let cfg := applyEnv defaults getenv in
  _ ← sanitizeFirewallRule (FirewallRule cfg); Ok cfg.

(** * What a valid file is *)

Definition valid_port (p : option Z) : Prop := match p with Some n => (1 <= n <= 65535)%Z | None => True end.
Definition valid_service (capab : osCapability) (s : FileService) : Prop :=
  is_Some (defaultPorts (sKind s)) /\ sKind s ∈ kinds capab /\ valid_port (sPort s).
Definition valid_services (capab : osCapability) (services : option (list FileService)) : Prop :=
  match services with
  | None => True
  | Some l => l <> [] /\ Forall (valid_service capab) l /\ NoDup (map sKind l)
  end.
Definition valid_rule (name : string) : Prop :=
  name <> "" /\ (len name <= 64)%nat /\ str_all rule_char name = true.
Definition valid_loopback (addr : option string) : Prop :=
  match addr with
  | None => True
  | Some a => exists h p, SplitHostPort a = Ok (h, p) /\ is_Some (parse_port p)
                /\ (h = "localhost" \/ exists ip, ParseIP h = Some ip /\ IsLoopback ip = true)
  end.
Definition valid_mesh (hasControl : bool) (goos : string) (capab : osCapability) (m : FileMesh) : Prop :=
  canServe capab = true /\ (Some "" ∉ map snd (meshField m))
  /\ (forall ep, BootstrapSSH m = Some ep -> is_ok (parseEndpoint ep) = true /\ hasControl = true)
  /\ (forall h, mHostname m = Some h -> hostnameLabel h = true)
  /\ (forall p, StateDir m = Some p \/ AuthKeyFile m = Some p -> isAbsFor goos p = true)
  /\ valid_loopback (BootstrapSOCKSAddr m) /\ valid_loopback (HealthAddr m).

Definition valid_file `{UrlPackage} (goos : string) (capab : osCapability) (f : File) : Prop :=
  let h := fHost f in
  Version f = fileVersion
  /\ valid_services capab (hServices h)
  /\ (forall fw, hFirewall h = Some fw -> firewallRule capab = true /\ (forall r, Rule fw = Some r -> valid_rule r))
  /\ (hPower h <> None -> power capab = true)
  /\ (forall u, hControlURL h = Some u -> u <> "" /\ Validate u = Ok tt)
  /\ (forall m, hMesh h = Some m -> valid_mesh (bool_decide (is_Some (hControlURL h))) goos capab m).

(** * The checks against it *)

Lemma sanitizeFirewallRule_Ok name r : sanitizeFirewallRule name = Ok r <-> r = name /\ valid_rule name.
Proof.
  unfold sanitizeFirewallRule, valid_rule, maxFirewallRuleName.
  case_bool_decide as E; [naive_solver|]. destruct (Nat.ltb_spec 64 (len name)); [split; [done|lia]|].
  destruct (str_all rule_char name); cbn; [|naive_solver].
  split; [intros [= <-]; split_and!; try done; lia|]. by intros [-> _].
Qed.

Lemma validateService_Ok i s goos capab : validateService i s goos capab = Ok tt <-> valid_service capab s.
Proof.
  unfold validateService, valid_service, contains_word. destruct (defaultPorts (sKind s)) as [d|].
  2:{ split; [done|]. by intros [[? ?] _]. }
  case_bool_decide as Hk; cbn; [|naive_solver]. destruct (sPort s) as [p|]; cbn; [|naive_solver].
  destruct (Z.ltb_spec p 1), (Z.ltb_spec 65535 p); cbn; split;
    try (intros (_ & _ & ?); lia); done.
Qed.

Lemma validateEach_Ok l i seen goos capab :
  validateEach i seen l goos capab = Ok tt <->
  Forall (valid_service capab) l /\ NoDup (map sKind l) /\ forall s, s ∈ l -> sKind s ∉ seen.
Proof.
  revert i seen. induction l as [|s l IH]; intros i seen; cbn.
  - split; [|done]. intros _. split_and!; [constructor|constructor|]. intros ? []%elem_of_nil.
  - rewrite bind_Ok. setoid_rewrite Forall_cons. setoid_rewrite NoDup_cons.
    assert (Hs := validateService_Ok i s goos capab). unfold contains_word.
    assert (forall x, x ∈ map sKind l <-> exists t, x = sKind t /\ t ∈ l) as Hm by (intros; apply list_elem_of_fmap).
    rewrite Hm. split.
    + intros ([] & Hv%Hs & H). case_bool_decide as E; [done|]. apply IH in H as (Hf & Hn & Hd).
      split_and!; try done.
      * intros (t & Ht & Hin). apply (Hd t Hin). rewrite <- Ht. by left.
      * intros t [->|Hin]%elem_of_cons; [done|]. intros Hin'. apply (Hd t Hin). by right.
    + intros ((Hv & Hf) & (Hn & Hnd) & Hd). exists tt. split; [by apply Hs|].
      rewrite bool_decide_eq_false_2 by (apply Hd; by left). apply IH. split_and!; try done.
      intros t Hin [Heq|Hin']%elem_of_cons; [naive_solver|]. apply (Hd t); [by right|done].
Qed.

Lemma validateServices_Ok services goos capab :
  validateServices services goos capab = Ok tt <-> valid_services capab services.
Proof.
  destruct services as [[|s l]|]; [split; [done|by intros [? _]]| |done].
  unfold validateServices, valid_services. rewrite validateEach_Ok. split; [naive_solver|].
  intros (_ & ? & ?). split_and!; try done. intros ? _. apply not_elem_of_nil.
Qed.

Lemma find_none_iff {A} (f : A -> bool) l : List.find f l = None <-> forall x, x ∈ l -> f x = false.
Proof.
  split.
  - intros H x Hx. apply (List.find_none _ _ H), list_elem_of_In, Hx.
  - intros H. destruct (List.find f l) as [x|] eqn:E; [|done].
    apply List.find_some in E as [Hin Hf]. rewrite H in Hf; [done|by apply list_elem_of_In].
Qed.

Lemma validateLoopbackAddr_Ok key addr :
  validateLoopbackAddr key addr = Ok tt <-> valid_loopback addr.
Proof.
  destruct addr as [a|]; [|done]. unfold validateLoopbackAddr, valid_loopback. split.
  - intros H. apply bind_Ok in H as ([h p] & Hs%map_err_Ok & H). apply bind_Ok in H as (? & Hl%fail_if_Ok & H).
    cbn [fst snd] in *. exists h, p. destruct (parse_port p); [|done]. split_and!; [done..|].
    apply andb_false_iff in Hl as [Hl|Hl]; apply negb_false_iff in Hl.
    + left. by apply bool_decide_eq_true in Hl.
    + right. destruct (ParseIP h) as [ip|]; [by exists ip|done].
  - intros (h & p & -> & [n Hn] & Hl). cbn [map_err mbind result_bind fst snd]. rewrite Hn.
    destruct Hl as [->|(ip & -> & ->)]; [done|]. by rewrite andb_false_r.
Qed.

Lemma checkMeshEmpty_Ok m : checkMeshEmpty m = Ok tt <-> Some "" ∉ map snd (meshField m).
Proof.
  unfold checkMeshEmpty. destruct (List.find _ _) as [x|] eqn:E.
  - split; [done|]. intros Hn. exfalso. apply Hn. apply List.find_some in E as [Hin Hf%bool_decide_eq_true].
    apply list_elem_of_fmap. exists x. by rewrite list_elem_of_In.
  - rewrite find_none_iff in E. split; [intros _|done].
    intros (x & Hx & Hin)%list_elem_of_fmap. apply E in Hin. by apply bool_decide_eq_false in Hin.
Qed.

Lemma checkMeshPaths_Ok m goos :
  checkMeshPaths m goos = Ok tt <-> forall p, StateDir m = Some p \/ AuthKeyFile m = Some p -> isAbsFor goos p = true.
Proof.
  unfold checkMeshPaths. destruct (List.find _ _) as [x|] eqn:E.
  - split; [done|]. intros Hall. exfalso. apply List.find_some in E as [Hin Hf].
    destruct Hin as [<-|[<-|[]]]; cbn in Hf.
    + destruct (StateDir m) as [p|]; [|done]. rewrite Hall in Hf by auto. done.
    + destruct (AuthKeyFile m) as [p|]; [|done]. rewrite Hall in Hf by auto. done.
  - rewrite find_none_iff in E. split; [intros _|done]. intros p Hp.
    enough (negb (isAbsFor goos p) = false) as Hn by by apply negb_false_iff.
    destruct Hp as [Hp|Hp]; [apply (E ("state_dir", Some p))|apply (E ("auth_key_file", Some p))];
      rewrite <- Hp; set_solver.
Qed.

Lemma validateMesh_Ok m hasControl goos capab :
  validateMesh (Some m) hasControl goos capab = Ok tt <-> valid_mesh hasControl goos capab m.
Proof.
  unfold validateMesh, valid_mesh, validateBootstrapSSH.
  rewrite <- checkMeshEmpty_Ok, <- checkMeshPaths_Ok,
    <- (validateLoopbackAddr_Ok "bootstrap_socks_addr"), <- (validateLoopbackAddr_Ok "health_addr").
  rewrite !check_Ok, !fail_if_Ok, negb_false_iff.
  assert ((forall h, mHostname m = Some h -> hostnameLabel h = true) <->
    match mHostname m with Some h => negb (hostnameLabel h) | None => false end = false) as <-.
  { destruct (mHostname m); [rewrite negb_false_iff|]; naive_solver. }
  assert ((forall ep, BootstrapSSH m = Some ep -> is_ok (parseEndpoint ep) = true /\ hasControl = true) <->
    match BootstrapSSH m with None => Ok tt | Some ep => _ ← map_err MeshEndpoint (ValidateEndpoint ep);
      fail_if (negb hasControl) MeshNeedsControl end = Ok tt) as <-.
  { destruct (BootstrapSSH m) as [ep|]; [|naive_solver]. rewrite check_Ok, map_err_Ok, fail_if_Ok, negb_false_iff.
    assert (ValidateEndpoint ep = Ok tt <-> is_ok (parseEndpoint ep) = true) as ->
      by (unfold ValidateEndpoint; by destruct (parseEndpoint ep)).
    split; [intros Hall; by apply Hall|by intros H ep' [= <-]]. }
  done.
Qed.

(** The checks accept exactly the valid files. *)
Theorem validate_spec `{UrlPackage} f goos capab :
  validate f goos capab = Ok tt <-> valid_file goos capab f.
Proof.
  unfold validate, valid_file. destruct (fHost f) as [sv fw pw cu me]. cbn.
  rewrite !check_Ok, !fail_if_Ok, negb_false_iff, Z.eqb_eq, validateServices_Ok.
  assert (validateFirewall fw goos capab = Ok tt <->
    (forall x, fw = Some x -> firewallRule capab = true /\ (forall r, Rule x = Some r -> valid_rule r))) as ->.
  { destruct fw as [[r]|]; [|naive_solver]. unfold validateFirewall. cbn [Rule].
    destruct (firewallRule capab); cbn [negb]; [|naive_solver]. destruct r as [r|]; [|naive_solver].
    rewrite bind_Ok. setoid_rewrite map_err_Ok. setoid_rewrite sanitizeFirewallRule_Ok. naive_solver. }
  assert (negb (bool_decide (pw = None)) && negb (power capab) = false <-> (pw <> None -> power capab = true)) as ->.
  { case_bool_decide; destruct (power capab); cbn; naive_solver. }
  assert (validateControlURL cu = Ok tt <-> (forall u, cu = Some u -> u <> "" /\ Validate u = Ok tt)) as ->.
  { destruct cu as [u|]; cbn; [|naive_solver]. case_bool_decide; [naive_solver|]. rewrite map_err_Ok. naive_solver. }
  assert (negb (bool_decide (cu = None)) = bool_decide (is_Some cu)) as -> by by destruct cu.
  assert (validateMesh me (bool_decide (is_Some cu)) goos capab = Ok tt <->
    (forall m, me = Some m -> valid_mesh (bool_decide (is_Some cu)) goos capab m)) as ->.
  { destruct me as [m|]; [rewrite validateMesh_Ok|]; naive_solver. }
  done.
Qed.

(** * Precedence *)

(** The reference: the first layer that gives a value, else the default. *)
Definition first_given {A} (layers : list (option A)) (d : A) : A := foldr (fun o rest => default rest o) d layers.
Definition given (v : string) : option string := if bool_decide (v = "") then None else Some v.
Definition when {A} (b : bool) (v : A) : option A := if b then Some v else None.

Definition declared (s : FileService) : DeclaredService := mkDeclared (sKind s) (default (portOf (sKind s)) (sPort s)).
(** The rdp service of the file: the last one. *)
Definition rdp_of (l : list FileService) : option FileService := last (filter (fun s => sKind s = ServiceRDP) l).

Definition Resolve_reference (goos : string) (f : File) (getenv : string -> string) (fl : Flags) : Config :=
  let h := fHost f in
  let rdp := hServices h ≫= rdp_of in
  let port := first_given [when (0 <? flPort fl)%Z (flPort fl); envPort (getenv "TS_HOST_RDP_PORT");
                           dPort ∘ declared <$> rdp] defaultRDPPort in
  let env_bool k := parseBoolEnv <$> given (getenv k) in
  mkConfig
    (first_given [given (flFirewallRule fl); given (getenv "TS_HOST_FIREWALL_RULE"); hFirewall h ≫= Rule]
       "Tailscale-RDP-Ingress")
    (first_given [when (flNoSleepSet fl) (flNoSleep fl); env_bool "TS_HOST_NO_SLEEP";
                  negb <$> (hPower h ≫= PreventSleep)] false)
    port
    (bool_decide (is_Some (envPort (getenv "TS_HOST_RDP_PORT"))) || (0 <? flPort fl)%Z
     || bool_decide (is_Some (rdp ≫= sPort)))
    (first_given [when (flVerboseSet fl) (flVerbose fl); env_bool "TS_HOST_VERBOSE"] false)
    (first_given [given (flLogFormat fl); envFormat (getenv "TS_HOST_LOG_FORMAT")] "text")
    (map (fun s => if bool_decide (dKind s = ServiceRDP) then mkDeclared (dKind s) port else s)
       (match hServices h with
        | Some l => map declared l
        | None => [if bool_decide (goos = goosDarwin) then mkDeclared ServiceSSH 22 else mkDeclared ServiceRDP defaultRDPPort]
        end))
    (default "" (hControlURL h)).

Lemma applyService_fold l cfg :
  fold_left applyService l cfg =
  mkConfig (FirewallRule cfg) (NoSleep cfg)
    (default (cPort cfg) (dPort ∘ declared <$> rdp_of l))
    (match rdp_of l with Some s => bool_decide (is_Some (sPort s)) | None => PortDeclared cfg end)
    (Verbose cfg) (LogFormat cfg) (Services cfg ++ map declared l) (cControlURL cfg).
Proof.
  induction l as [|s l IH] using rev_ind; cbn; [destruct cfg; cbn; by rewrite app_nil_r|].
  rewrite fold_left_app, IH. cbn. unfold applyService, rdp_of. cbn.
  rewrite filter_app, map_app, app_assoc, filter_cons, filter_nil. case_bool_decide as E.
  - rewrite decide_True, last_snoc by done. cbn. f_equal. by destruct (sPort s).
  - rewrite decide_False, app_nil_r by done. done.
Qed.

Lemma given_if v cur : (if bool_decide (v = "") then cur else v) = default cur (given v).
Proof. unfold given. by case_bool_decide. Qed.
Lemma when_if {A} (b : bool) (v cur : A) : (if b then v else cur) = default cur (when b v).
Proof. by destruct b. Qed.

Lemma Resolve_eq goos f getenv fl : Resolve goos f getenv fl = Resolve_reference goos f getenv fl.
Proof.
  unfold Resolve, Resolve_reference, mirrorPort, applyFlags, applyEnv, setServices, first_given.
  cbn [foldr cPort FirewallRule NoSleep PortDeclared Verbose LogFormat Services cControlURL].
  set (cfg := applyFile (defaultsFor goos) (fHost f)).
  assert (cfg = mkConfig (default "Tailscale-RDP-Ingress" (hFirewall (fHost f) ≫= Rule))
    (default false (negb <$> (hPower (fHost f) ≫= PreventSleep)))
    (default defaultRDPPort (dPort ∘ declared <$> (hServices (fHost f) ≫= rdp_of)))
    (bool_decide (is_Some ((hServices (fHost f) ≫= rdp_of) ≫= sPort))) false "text"
    (match hServices (fHost f) with
     | Some l => map declared l
     | None => [if bool_decide (goos = goosDarwin) then mkDeclared ServiceSSH 22 else mkDeclared ServiceRDP defaultRDPPort]
     end) (default "" (hControlURL (fHost f)))) as ->.
  { subst cfg. unfold applyFile. destruct (fHost f) as [sv fw pw cu me]. cbn.
    destruct sv as [l|]; cbn; [rewrite applyService_fold; cbn|].
    - f_equal; [by destruct fw as [[[r|]]|]|by destruct pw as [[[p|]]|]|by destruct (rdp_of l)].
    - f_equal; [by destruct fw as [[[r|]]|]|by destruct pw as [[[p|]]|]|by case_bool_decide]. }
  cbn [cPort FirewallRule NoSleep PortDeclared Verbose LogFormat Services cControlURL].
  assert (forall k (cur : bool), (if bool_decide (getenv k = "") then cur else parseBoolEnv (getenv k))
    = default cur (parseBoolEnv <$> given (getenv k))) as Hb by (intros; unfold given; by case_bool_decide).
  rewrite !Hb, !given_if, !when_if. f_equal.
  destruct (bool_decide _) , (bool_decide _), (0 <? flPort fl)%Z; reflexivity.
Qed.

(** Flags win over the environment, the environment over the file, the file over
    the defaults, setting by setting; the rdp service listens on the legacy port. *)
Theorem resolve_precedence goos f getenv fl :
  Resolve goos f getenv fl = Resolve_reference goos f getenv fl.
Proof. apply Resolve_eq. Qed.

(** * Well-formed settings *)

Definition in_port_range (p : Z) : Prop := (1 <= p <= 65535)%Z.

(** What the steps and [host serve] rely on. *)
Record well_formed (cfg : Config) : Prop := {
  wf_some : Services cfg <> [];
  wf_kinds : Forall (fun s => is_Some (defaultPorts (dKind s))) (Services cfg);
  wf_once : NoDup (map dKind (Services cfg));
  wf_ports : Forall (fun s => in_port_range (dPort s)) (Services cfg);
  wf_port : in_port_range (cPort cfg);
  wf_rdp : Forall (fun s => dKind s = ServiceRDP -> dPort s = cPort cfg) (Services cfg);
  wf_format : LogFormat cfg ∈ ["text"; "json"];
  wf_rule : valid_rule (FirewallRule cfg);
}.

(** What the command line has to give for that. *)
Definition flags_ok (fl : Flags) : Prop :=
  (flPort fl <= 65535)%Z /\ flLogFormat fl ∈ [""; "text"; "json"] /\ (flFirewallRule fl <> "" -> valid_rule (flFirewallRule fl)).
Definition env_ok (getenv : string -> string) : Prop :=
  getenv "TS_HOST_FIREWALL_RULE" <> "" -> valid_rule (getenv "TS_HOST_FIREWALL_RULE").

Lemma defaultPorts_range k p : defaultPorts k = Some p -> in_port_range p.
Proof. unfold defaultPorts, in_port_range, defaultRDPPort. repeat case_match; naive_solver lia. Qed.

Lemma declared_port_range capab s : valid_service capab s -> in_port_range (dPort (declared s)).
Proof.
  intros ([d Hd] & _ & Hp). cbn. unfold portOf. rewrite Hd. cbn. destruct (sPort s) as [p|]; cbn; [done|].
  by eapply defaultPorts_range.
Qed.

Lemma map_dKind_mirror port l :
  map dKind (map (fun s => if bool_decide (dKind s = ServiceRDP) then mkDeclared (dKind s) port else s) l) = map dKind l.
Proof. rewrite map_map. apply map_ext. intros s. by case_bool_decide. Qed.

Lemma first_given_ind {A} (P : A -> Prop) layers d :
  P d -> Forall (fun o => match o with Some v => P v | None => True end) layers -> P (first_given layers d).
Proof. intros Hd. induction 1 as [|[v|] l Hv _ IH]; done. Qed.

Lemma envFormat_known v s : envFormat v = Some s -> s ∈ ["text"; "json"].
Proof.
  unfold envFormat, contains_word. case_bool_decide; [done|]. case_bool_decide; [|done]. by intros [= <-].
Qed.

(** The services of settings resolved from a validated file. *)
Lemma resolved_services `{UrlPackage} f goos capab getenv fl :
  validate f goos capab = Ok tt -> (flPort fl <= 65535)%Z ->
  let cfg := Resolve goos f getenv fl in
  Services cfg <> []
  /\ Forall (fun s => is_Some (defaultPorts (dKind s)) /\ in_port_range (dPort s)) (Services cfg)
  /\ NoDup (map dKind (Services cfg))
  /\ in_port_range (cPort cfg)
  /\ Forall (fun s => dKind s = ServiceRDP -> dPort s = cPort cfg) (Services cfg).
Proof.
  intros (_ & Hs & _)%validate_spec Hp. rewrite Resolve_eq.
  unfold Resolve_reference. set (port := first_given [_; _; _] defaultRDPPort).
  assert (in_port_range port) as Hport.
  { subst port. apply first_given_ind; [done|]. rewrite !Forall_cons. split_and!; [..|by apply Forall_nil].
    - unfold when. destruct (Z.ltb_spec 0 (flPort fl)); [|done]. unfold in_port_range. lia.
    - unfold envPort. case_bool_decide; [done|]. destruct (parse_port _) eqn:E; [by apply parse_port_range in E|done].
    - destruct (hServices (fHost f)) as [l|]; [|done]. cbn. destruct (rdp_of l) as [s|] eqn:E; [|done]. cbn.
      destruct Hs as (_ & Hs & _). rewrite Forall_forall in Hs. eapply (declared_port_range capab), Hs.
      unfold rdp_of in E. apply last_Some in E as [l' E].
      assert (s ∈ filter (fun s => sKind s = ServiceRDP) l) as Hin by (rewrite E; set_solver).
      by apply list_elem_of_filter in Hin as [_ ?]. }
  set (base := match hServices (fHost f) with Some l => map declared l | None => _ end).
  assert (base <> [] /\ Forall (fun s => is_Some (defaultPorts (dKind s)) /\ in_port_range (dPort s)) base
          /\ NoDup (map dKind base)) as (Hne & Hall & Hnd).
  { subst base. destruct (hServices (fHost f)) as [l|].
    - destruct Hs as (Hne & Hs & Hnd). split_and!.
      + by destruct l.
      + apply Forall_map, (Forall_impl _ _ _ Hs). intros s Hv. split; [by destruct Hv|by eapply declared_port_range].
      + by rewrite map_map.
    - case_bool_decide; (split_and!; [done|repeat constructor; done|repeat constructor; set_solver]). }
  clearbody base port. cbv zeta. cbn [Services cPort]. split_and!.
  - by destruct base.
  - apply Forall_map, (Forall_impl _ _ _ Hall). intros s [? ?]. by case_bool_decide.
  - by rewrite map_dKind_mirror.
  - done.
  - apply Forall_map, Forall_true. intros s. by case_bool_decide.
Qed.

(** C33: settings resolved from a validated file are well formed, whatever the
    environment and the flags say within their own limits. *)
Theorem resolved_well_formed `{UrlPackage} f goos capab getenv fl :
  validate f goos capab = Ok tt -> env_ok getenv -> flags_ok fl ->
  well_formed (Resolve goos f getenv fl).
Proof.
  intros Hval He (Hp & Hl & Hr).
  destruct (resolved_services f goos capab getenv fl Hval Hp) as (H1 & H2 & H3 & H4 & H5).
  apply validate_spec in Hval as (_ & _ & Hf & _).
  split; try done; [by apply (Forall_impl _ _ _ H2); intros ? []|by apply (Forall_impl _ _ _ H2); intros ? []|..];
    rewrite Resolve_eq; unfold Resolve_reference; cbn [LogFormat FirewallRule].
  - apply first_given_ind; [set_solver|]. rewrite !Forall_cons. split_and!; [..|by apply Forall_nil].
    + unfold given. case_bool_decide; [done|]. set_solver.
    + destruct (envFormat _) eqn:E; [by eapply envFormat_known|done].
  - apply first_given_ind; [repeat split; vm_compute; (done || lia)|]. rewrite !Forall_cons. split_and!; [..|by apply Forall_nil].
    + unfold given. case_bool_decide; [done|]. by apply Hr.
    + unfold given. case_bool_decide; [done|]. by apply He.
    + destruct (hFirewall (fHost f)) as [[[r|]]|]; cbn; [|done..]. by apply (Hf _ eq_refl).
Qed.

(** A host file, an environment and flags to run the definitions on. *)
Definition sample_file : File :=
  mkFile 1 (mkFileHost (Some [mkFileService "ssh" None; mkFileService "rdp" (Some 3390%Z)])
    None None (Some "https://hs.example.com")
    (Some (mkFileMesh (Some "ops@bastion:2222") None (Some "host-1") (Some "/var/lib/ts") None (Some "127.0.0.1:8080")))).
Definition sample_env (k : string) : string :=
  if bool_decide (k = "TS_HOST_RDP_PORT") then "4000" else if bool_decide (k = "TS_HOST_LOG_FORMAT") then "JSON" else "".
Definition no_flags : Flags := mkFlags "" false false 0 false false "".

Lemma resolved_well_formed_witness :
  @validate simpleUrl sample_file "linux" (serveCapability "linux") = Ok tt
  /\ Services (Resolve "linux" sample_file sample_env no_flags) = [mkDeclared "ssh" 22; mkDeclared "rdp" 4000]
  /\ well_formed (Resolve "linux" sample_file sample_env no_flags).
Proof.
  assert (@validate simpleUrl sample_file "linux" (serveCapability "linux") = Ok tt) as Hv by (vm_compute; reflexivity).
  split; [exact Hv|]. split; [vm_compute; reflexivity|].
  apply (@resolved_well_formed simpleUrl _ _ _ _ _ Hv).
  - intros H. exfalso. apply H. reflexivity.
  - split; [cbn; lia|]. split; [apply elem_of_cons; left; reflexivity|]. intros H. exfalso. apply H. reflexivity.
Defined.

(** The --port flag is not checked against the range the file and the variable are. *)
Theorem port_flag_unchecked goos f getenv fl :
  (65535 < flPort fl)%Z ->
  cPort (Resolve goos f getenv fl) = flPort fl /\ PortDeclared (Resolve goos f getenv fl) = true
  /\ ~ well_formed (Resolve goos f getenv fl).
Proof.
  intros Hp. rewrite Resolve_eq. unfold Resolve_reference, first_given, when. cbn.
  destruct (Z.ltb_spec 0 (flPort fl)); [|lia]. cbn. split; [done|]. split; [by rewrite orb_true_r|].
  intros [_ _ _ _ H' _ _ _]. cbn in H'. destruct (Z.ltb_spec 0 (flPort fl)); [|lia]. cbn in H'. unfold in_port_range in H'. lia.
Qed.

Lemma port_flag_unchecked_witness :
  cPort (Resolve "linux" sample_file sample_env (mkFlags "" false false 70000 false false "")) = 70000%Z.
Proof. exact (proj1 (port_flag_unchecked "linux" sample_file sample_env (mkFlags "" false false 70000 false false "") eq_refl)). Defined.

(** * Reading for publication *)

Lemma loadFile_Ok `{UrlPackage} data goos capab w f :
  loadFile data goos capab = (w, Ok f) <->
  exists d, data = Some d /\ decodeFile d = (w, Ok f) /\ valid_file goos capab f.
Proof.
  unfold loadFile. destruct data as [d|]; [|split; [done|by intros (? & ? & _)]].
  destruct (decodeFile d) as [w1 [f1|e]] eqn:E; cbn; [|split; [done|intros (? & [= <-] & ? & _); congruence]].
  split.
  - intros H1. exists d. split; [done|].
    destruct (validate f1 goos capab) as [[]|] eqn:Ev; [|done]. injection H1 as -> ->. by rewrite <- validate_spec.
  - intros (? & [= <-] & Hd & Hv%validate_spec). rewrite E in Hd. injection Hd as -> ->. by rewrite Hv.
Qed.

(** [host serve] reads every file that setup and check read, and what it reads
    beyond them declares an ssh service. *)
Theorem serve_file_extends `{UrlPackage} data goos w f :
  (LoadFile data goos = (w, Ok f) -> LoadServeFile data goos = (w, Ok f))
  /\ (LoadServeFile data goos = (w, Ok f) ->
      LoadFile data goos = (w, Ok f)
      \/ (canServe (capabilityFor goos) = true
          /\ exists l, hServices (fHost f) = Some l /\ ServiceSSH ∈ map sKind l)).
Proof.
  unfold LoadFile, LoadServeFile, serveCapability. destruct (canServe (capabilityFor goos)) eqn:Ec; [|by split; [|left]].
  rewrite !loadFile_Ok. unfold valid_file, valid_mesh. cbn [canServe power firewallRule kinds].
  split.
  - intros (d & -> & Hd & H1 & Hs & H3). exists d. rewrite Ec in H3. split; [done|]. split; [done|]. split; [done|].
    split; [|exact H3]. destruct (hServices (fHost f)) as [l|]; [|done]. destruct Hs as (Hne & Hs & Hnd). split_and!; try done.
    apply (Forall_impl _ _ _ Hs). intros s (? & ? & ?). split_and!; try done. cbn. set_solver.
  - intros (d & -> & Hd & H1 & Hs & H3).
    destruct (hServices (fHost f)) as [l|] eqn:El.
    2:{ left. exists d. rewrite Ec. split; [done|]. split; [done|]. split; [done|]. split; [done|exact H3]. }
    destruct (decide (ServiceSSH ∈ map sKind l)) as [Hssh|Hssh]; [right; eauto|left].
    exists d. split; [done|]. split; [done|]. split; [done|]. rewrite Ec. split; [|exact H3].
    destruct Hs as (Hne & Hs & Hnd). split_and!; try done.
    rewrite Forall_forall in Hs |- *. intros s Hin. destruct (Hs s Hin) as (? & Hk & ?). split_and!; try done.
    cbn in Hk. apply elem_of_app in Hk as [?|Hk%list_elem_of_singleton]; [done|].
    exfalso. apply Hssh. rewrite <- Hk. by apply list_elem_of_fmap_2.
Qed.

(** * The key check *)

(** No known key of the level is without a value. *)
Definition level_ok (l : keyLevel) : Prop :=
  forall key, key ∈ map fst (lm l) -> key ∈ known l -> key_value (lm l) key <> Some YNil.
(** The unknown keys of the level, sorted, by their path. *)
Definition unknown_paths (l : keyLevel) : list string :=
  map (key_path l) (filter (fun key => key ∉ known l) (sortNames (map fst (lm l)))).

Lemma check_keys_go_Ok l keys w w' :
  check_keys_go l keys w = (w', Ok tt) <->
  w' = w ++ map (key_path l) (filter (fun key => key ∉ known l) keys)
  /\ forall key, key ∈ keys -> key ∈ known l -> key_value (lm l) key <> Some YNil.
Proof.
  revert w. induction keys as [|key keys IH]; intros w; cbn [check_keys_go].
  - rewrite filter_nil, app_nil_r. split; [|by intros [-> _]]. intros [= <-]. split; [done|]. intros ? []%elem_of_nil.
  - rewrite filter_cons. unfold contains_word. case_bool_decide as E; cbn [negb].
    + rewrite decide_False by (intros Hn; by apply Hn). setoid_rewrite elem_of_cons.
      assert (check_keys_go l keys w = (w', Ok tt) <-> w' = w ++ map (key_path l) (filter (fun key => key ∉ known l) keys)
        /\ forall key, key ∈ keys -> key ∈ known l -> key_value (lm l) key <> Some YNil) as IH' by apply IH.
      destruct (key_value (lm l) key) as [[]|] eqn:Ev; rewrite ?IH'; naive_solver.
    + rewrite decide_True by done. cbn [map]. rewrite IH, <- app_assoc. cbn [app]. setoid_rewrite elem_of_cons. naive_solver.
Qed.

(** A document passes when no level has a known key without a value; the
    warnings are the unknown keys of every level, in order. *)
Theorem checkKeys_spec raw w :
  checkKeys (Some raw) = (w, Ok tt) <->
  Forall level_ok (key_levels raw) /\ w = List.concat (map unknown_paths (key_levels raw)).
Proof.
  unfold checkKeys. generalize (key_levels raw). intros levels.
  enough (forall w0, check_levels levels w0 = (w, Ok tt) <->
    Forall level_ok levels /\ w = w0 ++ List.concat (map unknown_paths levels)) as H by apply (H []).
  induction levels as [|l levels IH]; intros w0; cbn.
  - rewrite app_nil_r. split; [intros [= <-]; by split|by intros [_ ->]].
  - rewrite Forall_cons. unfold check_level.
    assert (Hg := check_keys_go_Ok l (sortNames (map fst (lm l))) w0).
    setoid_rewrite (sortNames_perm (map fst (lm l))) in Hg at 3.
    destruct (check_keys_go _ _ _) as [w1 [[]|e]] eqn:E.
    + rewrite IH. destruct (Hg w1) as [Hg1 _]. destruct (Hg1 eq_refl) as [-> Hl].
      rewrite <- app_assoc. fold (unknown_paths l). split; [|naive_solver]. intros [? ->]. split; [split; [|done]|done].
      exact Hl.
    + split; [done|]. intros [[Hl _] _].
      destruct (Hg (w0 ++ unknown_paths l)) as [_ Hg2]. unfold unknown_paths in Hg2. exfalso.
      enough ((w1, Err e) = (w0 ++ map (key_path l) (filter (fun key => key ∉ known l) (sortNames (map fst (lm l)))), Ok tt)) by done.
      apply Hg2. split; [done|]. exact Hl.
Qed.
