(* ===== verification/Serve.v ===== *)
(** The host side of [host serve] (src/internal/serve): publish.go, control.go,
    bootstrap.go, node.go.

    Publishing the services; folding the sources' reports into the health
    status; the supervisor of the SSH bootstrap and the watch of the control
    session as state machines over the events they meet; the node's settings
    and when the enrolment key is read. *)
From S2P Require Import Prelude GoStrings GoNet GoErr GoPath Health HostFile.
From Stdlib Require Import Ascii.

Open Scope bool_scope.

(** * Publishing *)

Record Service : Type := mkService { Kind : string; Port : Z }.

Definition listen_addr (s : Service) : string := ":" +:+ Itoa (Port s).
Definition target_addr (s : Service) : string := JoinHostPort "127.0.0.1" (Itoa (Port s)).

Arguments listen_addr : simpl never.
Arguments target_addr : simpl never.

(** What [Publish] does to the node: listeners opened and closed, and the local
    address each accept loop forwards to. *)
Inductive publish_op : Type :=
  | Listen (addr : string)
  | Serve (addr target : string)
  | CloseListener (addr : string).

Inductive publish_error : Type := PublishFailed (kind : string) (port : Z).

(** The loop over the services: the addresses open so far, or the failure. *)
Fixpoint openAll (listens : string -> bool) (services : list Service) (opened : list string)
    : list publish_op * result publish_error (list string) :=
  match services with
  | [] => ([], Ok opened)
  | s :: services =>
      if listens (listen_addr s) then
        let '(ops, r) := openAll listens services (opened ++ [listen_addr s]) in (Listen (listen_addr s) :: ops, r)
      else (Listen (listen_addr s) :: map CloseListener opened, Err (PublishFailed (Kind s) (Port s)))
  end.

(** [Publish]; [listens] is the node's answer to each address. *)
Definition Publish (listens : string -> bool) (services : list Service)
    : list publish_op * result publish_error (list string) :=
  let '(ops, r) := openAll listens services [] in
  match r with
  | Ok opened => (ops ++ map (fun s => Serve (listen_addr s) (target_addr s)) services, Ok opened)
  | Err e => (ops, Err e)
  end.

(** [closeListeners]: every listener is closed; the errors less those of a closed one. *)
Definition closeListeners (errs : list (option goerr)) : list goerr :=
  omap (fun e => match e with Some e => if errorsIs e ErrClosed then None else Some e | None => None end) errs.

(** * Readiness *)

(** [Health]: the status it serves and the sources that are down. *)
Record serveHealth : Type := mkHealth { Status : TunnelStatus; down : gmap string string }.
Definition zeroHealth : serveHealth := mkHealth zeroStatus ∅.

Definition store (h : serveHealth) : serveHealth :=
  if bool_decide (down h = ∅) then mkHealth (MarkReady (Status h)) (down h)
  else match sortedKeys (down h) with
       | s :: _ => mkHealth (Store false (default "" (down h !! s)) (Status h)) (down h)
       | [] => h
       end.
Definition Down (source reason : string) (h : serveHealth) : serveHealth :=
  store (mkHealth (Status h) (<[source := reason]> (down h))).
Definition Up (source : string) (h : serveHealth) : serveHealth :=
  store (mkHealth (Status h) (delete source (down h))).

(** A report to the [Readiness] interface. *)
Inductive report : Type := RDown (source reason : string) | RUp (source : string).
Definition apply_report (h : serveHealth) (r : report) : serveHealth :=
  match r with RDown s why => Down s why h | RUp s => Up s h end.

(** * The control session *)

Definition ReasonControlPlaneUnreachable := "control_plane_unreachable".
Definition controlSource := "control".

(** What the watch's select receives. *)
Inductive watch_event : Type := Watched (state : string) | BusClosed (ctxErr : bool) | WatchCtxDone.

(** [WatchControlSession]: the reports it makes; [reported, wasUp] as one
    option. It ends at the first event that is not a state. *)
Fixpoint WatchControlSession (last : option bool) (evs : list watch_event) : list report :=
  match evs with
  | [] => []
  | WatchCtxDone :: _ => []
  | BusClosed ctxErr :: _ => if ctxErr then [] else [RDown controlSource ReasonControlPlaneUnreachable]
  | Watched s :: evs =>
      let up := bool_decide (s = "Running") in
      if bool_decide (last = Some up) then WatchControlSession last evs
      else (if up then RUp controlSource else RDown controlSource ReasonControlPlaneUnreachable)
           :: WatchControlSession (Some up) evs
  end.

(** [NodeTags]: the status, its node and its tags may each be missing. *)
Definition NodeTags (status : option (option (option (list string)))) : list string :=
  match status with Some (Some (Some tags)) => tags | _ => [] end.

(** * The supervisor *)

Definition ReasonSSHBootstrapFailed := "ssh_bootstrap_failed".
Definition bootstrapSource := "bootstrap".

Record Supervisor : Type := mkSupervisor { Base : Z; Max : Z; Jitter : Z -> Z; hasOnStartError : bool }.

(** The jitter of production: up to 20% more, [r] the random number. *)
Definition jitterBound (d : Z) : Z := Z.quot d 5 + 1.

Inductive sup_state : Type :=
  | Watching                    (** the select of [Run] *)
  | Restarting (delay : Z)      (** asleep in [restart] *)
  | Returned.

(** What [Run] meets: its context ends, the tunnel exits (with the context over
    by then or not), the sleep is cut short, or ends and [Start] answers. *)
Inductive sup_event : Type :=
  | CtxEnds
  | TunnelExits (err : string) (ctxErr : bool)
  | SleepCut
  | StartAnswers (err : option string).

Inductive sup_op : Type :=
  | OnExit (err : string)
  | Report (r : report)
  | CloseTunnel
  | Sleep (d : Z)
  | Started
  | OnStartError (err : string) (next : Z).

Definition nextDelay (s : Supervisor) (delay : Z) : Z := Z.min (wrap64 (delay * 2)) (Max s).

(** One event; [None] when the loop is not waiting for it. *)
Definition sup_step (s : Supervisor) (st : sup_state) (ev : sup_event) : option (sup_state * list sup_op) :=
  match st, ev with
  | Watching, CtxEnds => Some (Returned, [CloseTunnel])
  | Watching, TunnelExits err ctxErr =>
      if ctxErr then Some (Returned, [])
      else Some (Restarting (Base s),
                 [OnExit ("SSH bootstrap exited: " +:+ err); Report (RDown bootstrapSource ReasonSSHBootstrapFailed);
                  CloseTunnel; Sleep (Jitter s (Base s))])
  | Restarting _, SleepCut => Some (Returned, [])
  | Restarting _, StartAnswers None => Some (Watching, [Started; Report (RUp bootstrapSource)])
  | Restarting delay, StartAnswers (Some err) =>
      let next := nextDelay s delay in
      Some (Restarting next,
            (if hasOnStartError s then [OnStartError err next] else []) ++ [Sleep (Jitter s next)])
  | _, _ => None
  end.

(** [Run] over the events it meets. *)
Fixpoint Run (s : Supervisor) (st : sup_state) (evs : list sup_event) : option (sup_state * list sup_op) :=
  match evs with
  | [] => Some (st, [])
  | ev :: evs =>
      '(st1, ops1) ← sup_step s st ev; '(st2, ops2) ← Run s st1 evs; Some (st2, ops1 ++ ops2)
  end.

(** * The node's settings *)

Definition stateFile := "tailscaled.state".

Record NodeConfig : Type := mkNodeConfig {
  Hostname : string;
  nStateDir : string;
  nControlURL : string;
  AuthKey : string;
  Enrolling : bool;
}.

Inductive node_error : Type :=
  | NoStateDir
  | StateUnreadable
  | NoKeyFile (stateDir : string)
  | KeyRefused (path : string)
  | KeyUnreadable (path : string)
  | KeyEmpty (path : string).

Inductive stat_answer : Type := StatOk | StatAbsent | StatFails.

(** The files and the name of the machine. *)
Record node_env : Type := mkNodeEnv {
  osHostname : string;
  statState : string -> stat_answer;
  lstatKey : string -> stat_answer;
  checkKey : string -> bool;
  readKey : string -> option string;
}.

(** What is done to the key file, in order. *)
Inductive key_op : Type := CheckKey (path : string) | ReadKey (path : string).

Definition NodeHostname (e : node_env) (m : FileMesh) : string :=
  match mHostname m with Some h => h | None => ToLower (osHostname e) end.

Definition readAuthKey (e : node_env) (path : string) : result node_error string :=
  match readKey e path with
  | None => Err (KeyUnreadable path)
  | Some data => let key := TrimSpace data in if bool_decide (key = "") then Err (KeyEmpty path) else Ok key
  end.

Definition checkLeftoverKey (e : node_env) (path : option string) : list key_op * result node_error unit :=
  match path with
  | None => ([], Ok tt)
  | Some p =>
      match lstatKey e p with
      | StatAbsent => ([], Ok tt)
      | _ => ([CheckKey p], if checkKey e p then Ok tt else Err (KeyRefused p))
      end
  end.

Definition NewNodeConfig (e : node_env) (m : FileMesh) (controlURL : string) : list key_op * result node_error NodeConfig :=
  match StateDir m with
  | None => ([], Err NoStateDir)
  | Some dir =>
      let nc := mkNodeConfig (NodeHostname e m) dir controlURL "" false in
      match statState e (JoinPath [dir; stateFile]) with
      | StatOk => let '(ops, r) := checkLeftoverKey e (AuthKeyFile m) in (ops, _ ← r; Ok nc)
      | StatFails => ([], Err StateUnreadable)
      | StatAbsent =>
          match AuthKeyFile m with
          | None => ([], Err (NoKeyFile dir))
          | Some p =>
              if negb (checkKey e p) then ([CheckKey p], Err (KeyRefused p))
              else ([CheckKey p; ReadKey p],
                    key ← readAuthKey e p;
                    Ok (mkNodeConfig (Hostname nc) dir controlURL key true))
          end
      end
  end.

(** * Publishing is exact *)

Lemma openAll_spec listens services opened ops r :
  openAll listens services opened = (ops, r) ->
  match r with
  | Ok all => all = opened ++ map listen_addr services /\ ops = map (fun s => Listen (listen_addr s)) services
              /\ Forall (fun s => listens (listen_addr s) = true) services
  | Err e => exists pre s post, services = pre ++ s :: post /\ e = PublishFailed (Kind s) (Port s)
              /\ Forall (fun s => listens (listen_addr s) = true) pre /\ listens (listen_addr s) = false
              /\ ops = map (fun s => Listen (listen_addr s)) (pre ++ [s])
                       ++ map CloseListener (opened ++ map listen_addr pre)
  end.
Proof.
  revert opened ops. induction services as [|s services IH]; intros opened ops; cbn.
  - intros [= <- <-]. rewrite app_nil_r. split_and!; [done|done|constructor].
  - destruct (listens (listen_addr s)) eqn:El.
    + destruct (openAll _ _ _) as [ops' r'] eqn:E. intros [= <- <-]. specialize (IH _ _ E). destruct r' as [all|e].
      * destruct IH as (-> & -> & Hf). rewrite <- app_assoc. split_and!; [done|done|by constructor].
      * destruct IH as (pre & x & post & -> & -> & Hf & Hx & ->). exists (s :: pre), x, post.
        rewrite <- app_assoc. split_and!; try done. by constructor.
    + intros [= <- <-]. exists [], s, services. rewrite app_nil_r. split_and!; done.
Qed.

(** The node listens on exactly the declared ports, each forwarded to the same
    port of this host; or on none, when one cannot listen. *)
Theorem publish_exact listens services ops r :
  Publish listens services = (ops, r) ->
  match r with
  | Ok opened =>
      opened = map listen_addr services
      /\ ops = map (fun s => Listen (listen_addr s)) services ++ map (fun s => Serve (listen_addr s) (target_addr s)) services
  | Err (PublishFailed k p) =>
      (forall a t, Serve a t ∉ ops)
      /\ exists s, s ∈ services /\ (Kind s, Port s) = (k, p) /\ listens (listen_addr s) = false
         /\ forall a, Listen a ∈ ops -> a = listen_addr s \/ CloseListener a ∈ ops
  end.
Proof.
  unfold Publish. destruct (openAll listens services []) as [ops1 r1] eqn:E. apply openAll_spec in E.
  destruct r1 as [all|e]; intros [= <- <-].
  - by destruct E as (-> & -> & _).
  - destruct E as (pre & s & post & -> & -> & _ & Hs & ->). cbn. split.
    + intros a t. rewrite elem_of_app, !list_elem_of_fmap. naive_solver.
    + exists s. split; [set_solver|]. split; [done|]. split; [done|]. intros a.
      rewrite !elem_of_app, !list_elem_of_fmap. intros [(x & Hx1 & Hx)|(x & Hx1 & _)]; [|done].
      injection Hx1 as ->. apply elem_of_app in Hx as [Hx|Hx%list_elem_of_singleton]; [|left; by subst].
      right. right. exists (listen_addr x). split; [done|]. by apply list_elem_of_fmap_2.
Qed.

Lemma publish_exact_witness :
  let ss := [mkService "ssh" 22; mkService "rdp" 3389] in
  exists ops, Publish (fun a => bool_decide (a = ":22")) ss = (ops, Err (PublishFailed "rdp" 3389))
    /\ CloseListener ":22" ∈ ops /\ forall a t, Serve a t ∉ ops.
Proof.
  intros ss. eexists. split; [vm_compute; reflexivity|]. split; [set_solver|].
  refine (proj1 (publish_exact (fun a => bool_decide (a = ":22")) ss _ (Err (PublishFailed "rdp" 3389)) _)).
  vm_compute. reflexivity.
Defined.

(** * Readiness refines a set of sources *)

(** The specification: what was last reported of a source, over a history. *)
Fixpoint outage (hist : list report) (source : string) : option string :=
  match hist with
  | [] => None
  | RDown s why :: hist => if bool_decide (s = source) then Some why else outage hist source
  | RUp s :: hist => if bool_decide (s = source) then None else outage hist source
  end.

(** Ready when no source's last report is an outage; else the reason of the
    first source, by name, whose is. The history is latest first. *)
Definition spec_answer (hist : list report) (a : bool * string) : Prop :=
  (a = (true, "") /\ forall s, outage hist s = None)
  \/ exists s, a = (false, default "" (outage hist s)) /\ is_Some (outage hist s)
       /\ forall s', is_Some (outage hist s') -> String.ltb s' s = false.

(** The relation between the history and the state. *)
Definition folds (hist : list report) (h : serveHealth) : Prop :=
  (forall s, down h !! s = outage hist s) /\ (hist <> [] -> spec_answer hist (Load (Status h))).

Lemma store_answer hist h :
  (forall s, down h !! s = outage hist s) -> spec_answer hist (Load (Status (store h))) /\ down (store h) = down h.
Proof.
  intros Hd. unfold store. case_bool_decide as E.
  - split; [|done]. left. split; [done|]. intros s. by rewrite <- Hd, E, lookup_empty.
  - destruct (sortedKeys (down h)) as [|s l] eqn:Es.
    { exfalso. apply E, map_eq. intros s. rewrite lookup_empty. destruct (down h !! s) eqn:Hs; [|done].
      assert (s ∈ sortedKeys (down h)) as Hin by (apply elem_of_sortedKeys; by eexists). rewrite Es in Hin. set_solver. }
    split; [|done]. right. exists s. apply sortNames_head in Es as [Hin Hmin].
    assert (forall k, k ∈ map fst (map_to_list (down h)) <-> is_Some (outage hist k)) as Hk.
    { intros k. rewrite <- Hd, <- elem_of_sortedKeys. unfold sortedKeys. by rewrite sortNames_perm. }
    cbn. rewrite Hd. split; [done|]. split; [by apply Hk|]. intros s' Hs'. by apply Hmin, Hk.
Qed.

Lemma apply_report_folds hist h r : folds hist h -> folds (r :: hist) (apply_report h r).
Proof.
  intros [Hd _]. unfold folds.
  assert (forall h', (forall s, down h' !! s = outage (r :: hist) s) ->
    (forall s, down (store h') !! s = outage (r :: hist) s)
    /\ (r :: hist <> [] -> spec_answer (r :: hist) (Load (Status (store h'))))) as H.
  { intros h' Hh. destruct (store_answer _ _ Hh) as [Ha Hs]. split; [by rewrite Hs|done]. }
  destruct r as [s why|s]; apply H; intros s'; cbn; case_bool_decide as E.
  - subst. by rewrite lookup_insert_eq.
  - by rewrite lookup_insert_ne.
  - subst. by rewrite lookup_delete_eq.
  - by rewrite lookup_delete_ne.
Qed.

(** C14: after any reports the served status is the specification's answer. *)
Theorem readiness_refines hist :
  hist <> [] -> spec_answer hist (Load (Status (fold_left apply_report (rev hist) zeroHealth))).
Proof.
  intros Hne. enough (folds hist (fold_left apply_report (rev hist) zeroHealth)) as [_ H] by by apply H.
  clear Hne. induction hist as [|r hist IH]; [split; [intros s; apply lookup_empty|done]|].
  cbn. rewrite fold_left_app. cbn. by apply apply_report_folds.
Qed.

Lemma readiness_refines_witness :
  let hist := [RUp "serve"; RDown "control" "c"; RDown "bootstrap" "b"] in
  Load (Status (fold_left apply_report (rev hist) zeroHealth)) = (false, "b") /\ spec_answer hist (false, "b").
Proof.
  intros hist. assert (Load (Status (fold_left apply_report (rev hist) zeroHealth)) = (false, "b")) as E by (vm_compute; reflexivity).
  split; [exact E|]. rewrite <- E. apply readiness_refines. discriminate.
Defined.

(** The specification has one answer. *)
Lemma spec_answer_unique hist a b : spec_answer hist a -> spec_answer hist b -> a = b.
Proof.
  intros [[-> Ha]|(s & -> & Hs & Hmin)] [[-> Hb]|(s' & -> & Hs' & Hmin')]; try done.
  - rewrite Ha in Hs'. by destruct Hs'.
  - rewrite Hb in Hs. by destruct Hs.
  - destruct (ltb_total s s' (Hmin' s Hs)) as [->|H]; [done|]. by rewrite (Hmin s' Hs') in H.
Qed.

(** * The supervisor *)

Definition reports_of (ops : list sup_op) : list report :=
  omap (fun o => match o with Report r => Some r | _ => None end) ops.
Definition count_op (p : sup_op -> bool) (ops : list sup_op) : nat := length (List.filter p ops).
Definition is_started (o : sup_op) : bool := match o with Started => true | _ => false end.
Definition is_closed (o : sup_op) : bool := match o with CloseTunnel => true | _ => false end.
Definition is_exit (o : sup_op) : bool := match o with OnExit _ => true | _ => false end.

(** The reports alternate, starting from [up]; the last is the state it ends in. *)
Fixpoint alternates (up : bool) (l : list report) : option bool :=
  match l with
  | [] => Some up
  | RDown s _ :: l => if up && bool_decide (s = bootstrapSource) then alternates false l else None
  | RUp s :: l => if negb up && bool_decide (s = bootstrapSource) then alternates true l else None
  end.

Definition is_up (st : sup_state) : bool := match st with Watching => true | _ => false end.
Definition running (st : sup_state) : bool := match st with Returned => false | _ => true end.

Lemma reports_of_app a b : reports_of (a ++ b) = reports_of a ++ reports_of b.
Proof. apply omap_app. Qed.
Lemma count_op_app p a b : count_op p (a ++ b) = (count_op p a + count_op p b)%nat.
Proof. unfold count_op. by rewrite List.filter_app, length_app. Qed.
Lemma alternates_app up a b m : alternates up a = Some m -> alternates up (a ++ b) = alternates m b.
Proof.
  revert up. induction a as [|r a IH]; intros up; cbn; [by intros [= ->]|].
  destruct r; case_match; try done; apply IH.
Qed.

(** What one event keeps: the reports' alternation, one [OnExit] per outage, and
    at most one tunnel: one while watching, none while restarting. *)
Definition step_ok (st st' : sup_state) (ops : list sup_op) : Prop :=
  (running st' = true -> alternates (is_up st) (reports_of ops) = Some (is_up st'))
  /\ is_Some (alternates (is_up st) (reports_of ops))
  /\ count_op is_exit ops = length (List.filter (fun r => match r with RDown _ _ => true | _ => false end) (reports_of ops))
  /\ let opened := (Nat.b2n (is_up st) + count_op is_started ops)%nat in
     (running st' = true -> opened = (Nat.b2n (is_up st') + count_op is_closed ops)%nat)
     /\ (count_op is_closed ops <= opened <= S (count_op is_closed ops))%nat.

Lemma sup_step_ok s st ev st' ops : sup_step s st ev = Some (st', ops) -> step_ok st st' ops.
Proof.
  unfold step_ok. destruct st as [|d|], ev as [|e []| |[e|]]; cbn; intros [= <- <-]; cbn;
    try (split_and!; (done || by eexists || lia)).
  destruct (hasOnStartError s); cbn; split_and!; (done || by eexists || lia).
Qed.

Lemma sup_step_returned s st ev : running st = false -> sup_step s st ev = None.
Proof. destruct st, ev; done. Qed.

Lemma Run_ok s st evs st' ops :
  running st = true -> Run s st evs = Some (st', ops) -> step_ok st st' ops.
Proof.
  revert st ops. induction evs as [|ev evs IH]; intros st ops Hr; cbn.
  - intros [= <- <-]. unfold step_ok. cbn. split_and!; (done || by eexists || (destruct st; cbn; lia)).
  - destruct (sup_step s st ev) as [[st1 ops1]|] eqn:E1; [|done]. cbn.
    destruct (Run s st1 evs) as [[st2 ops2]|] eqn:E2; [|done]. cbn. intros [= <- <-].
    apply sup_step_ok in E1 as (Ha1 & Hb1 & Hc1 & Hd1 & He1).
    destruct (running st1) eqn:Hr1.
    + destruct (IH _ _ Hr1 E2) as (Ha2 & Hb2 & Hc2 & Hd2 & He2). specialize (Ha1 eq_refl). specialize (Hd1 eq_refl).
      unfold step_ok. rewrite reports_of_app, !count_op_app, List.filter_app, length_app, (alternates_app _ _ _ _ Ha1).
      split_and!; try done; try lia. intros H2. specialize (Hd2 H2). lia.
    + destruct evs as [|ev2 evs]; cbn in E2; [|by rewrite sup_step_returned in E2].
      injection E2 as <- <-. rewrite app_nil_r. unfold step_ok. rewrite Hr1. split_and!; (done || lia).
Qed.

(** Reports about another source do not touch a source's outage. *)
Definition about (source : string) (r : report) : bool :=
  match r with RDown s _ | RUp s => bool_decide (s = source) end.
Lemma outage_about hist source : outage hist source = outage (List.filter (about source) hist) source.
Proof.
  induction hist as [|r hist IH]; [done|]. destruct r as [s why|s]; cbn; case_bool_decide as E; cbn;
    rewrite ?bool_decide_eq_true_2 by done; done.
Qed.

Lemma alternates_outage l up m :
  alternates up l = Some m ->
  forall pre, (outage pre bootstrapSource = None <-> up = true) ->
  (outage (rev l ++ pre) bootstrapSource = None <-> m = true).
Proof.
  revert up. induction l as [|r l IH]; intros up; [by intros [= ->]|]. destruct r as [s why|s]; cbn.
  - destruct (up && bool_decide (s = bootstrapSource)) eqn:E; [|done].
    apply andb_true_iff in E as [_ ->%bool_decide_eq_true]. intros H pre _. rewrite <- app_assoc. apply (IH _ H).
    cbn. done.
  - destruct (negb up && bool_decide (s = bootstrapSource)) eqn:E; [|done].
    apply andb_true_iff in E as [_ ->%bool_decide_eq_true]. intros H pre _. rewrite <- app_assoc. apply (IH _ H).
    cbn. done.
Qed.

(** While [Run] runs: the bootstrap is reported down exactly while it restarts,
    once per outage, whatever the other sources report in between; and there is
    one tunnel while it watches and none while it restarts. *)
Theorem supervisor_reports s evs st ops hist :
  Run s Watching evs = Some (st, ops) -> running st = true ->
  List.filter (about bootstrapSource) hist = rev (reports_of ops) ->
  (outage hist bootstrapSource = None <-> st = Watching)
  /\ alternates true (reports_of ops) = Some (is_up st)
  /\ count_op is_exit ops = length (List.filter (fun r => match r with RDown _ _ => true | _ => false end) (reports_of ops))
  /\ (S (count_op is_started ops) = Nat.b2n (is_up st) + count_op is_closed ops)%nat.
Proof.
  intros Hrun Hr Hh. apply Run_ok in Hrun as (Ha & _ & Hc & Hd & _); [|done].
  specialize (Ha Hr). specialize (Hd Hr). split_and!; try done.
  rewrite outage_about, Hh. pose proof (alternates_outage _ _ _ Ha [] ltac:(done)) as Ho.
  rewrite app_nil_r in Ho. rewrite Ho. by destruct st.
Qed.

Lemma supervisor_reports_witness :
  let s := mkSupervisor 1000 8000 (fun d => d) true in
  let evs := [TunnelExits "x" false; StartAnswers (Some "refused"); StartAnswers None] in
  exists ops, Run s Watching evs = Some (Watching, ops)
    /\ (outage (RUp "control" :: rev (reports_of ops)) bootstrapSource = None <-> Watching = Watching).
Proof.
  intros s evs. eexists. split; [reflexivity|].
  refine (proj1 (supervisor_reports s evs Watching _ (RUp "control" :: rev (reports_of _)) eq_refl eq_refl _)). reflexivity.
Defined.

(** After [n] failed restarts the delay has doubled [n] times, up to the cap. *)
Theorem restart_delay s n e :
  (0 <= Base s <= Max s)%Z -> (2 * Max s <= max_int64)%Z ->
  exists ops, Run s (Restarting (Base s)) (replicate n (StartAnswers (Some e)))
              = Some (Restarting (Z.min (Base s * 2 ^ Z.of_nat n) (Max s)), ops)
    /\ (forall d, (forall x, (0 <= x <= Max s)%Z -> (x <= Jitter s x <= x + x / 5)%Z) ->
          Sleep d ∈ ops -> (Base s <= d <= Max s + Max s / 5)%Z).
Proof.
  intros Hb Hm.
  enough (forall k, exists ops, Run s (Restarting (Z.min (Base s * 2 ^ Z.of_nat k) (Max s))) (replicate n (StartAnswers (Some e)))
      = Some (Restarting (Z.min (Base s * 2 ^ Z.of_nat (k + n)) (Max s)), ops)
    /\ (forall d, (forall x, (0 <= x <= Max s)%Z -> (x <= Jitter s x <= x + x / 5)%Z) ->
          Sleep d ∈ ops -> (Base s <= d <= Max s + Max s / 5)%Z)) as H.
  { specialize (H 0%nat). cbn [Nat.add] in H. replace (Base s * 2 ^ Z.of_nat 0)%Z with (Base s) in H by lia.
    rewrite (Z.min_l (Base s) (Max s)) in H by lia. exact H. }
  induction n as [|n IH]; intros k.
  - exists []. rewrite Nat.add_0_r. split; [done|]. intros d _ []%elem_of_nil.
  - set (cur := Z.min (Base s * 2 ^ Z.of_nat k) (Max s)).
    assert (0 < 2 ^ Z.of_nat k)%Z as Hk by (apply Z.pow_pos_nonneg; lia).
    assert (Base s <= cur <= Max s)%Z as Hcur by (subst cur; nia).
    assert (nextDelay s cur = Z.min (Base s * 2 ^ Z.of_nat (S k)) (Max s)) as Hnext.
    { unfold nextDelay. rewrite wrap64_id by (unfold min_int64; lia).
      rewrite Nat2Z.inj_succ, Z.pow_succ_r by lia. subst cur. nia. }
    destruct (IH (S k)) as (ops & Hrun & Hs). cbn [replicate Run sup_step]. rewrite Hnext. cbn [mbind option_bind].
    rewrite Hrun. eexists. split; [cbn; do 2 f_equal; f_equal; f_equal; f_equal; f_equal; lia|].
    intros d Hj. rewrite !elem_of_app. intros [[Hd|Hd]|Hd]; [| |by apply Hs].
    + destruct (hasOnStartError s); [by apply list_elem_of_singleton in Hd|by apply elem_of_nil in Hd].
    + apply list_elem_of_singleton in Hd. injection Hd as ->.
      set (x := Z.min (Base s * 2 ^ Z.of_nat (S k)) (Max s)).
      assert (Base s <= x <= Max s)%Z as Hx.
      { subst x. rewrite Nat2Z.inj_succ, Z.pow_succ_r by lia. nia. }
      specialize (Hj x ltac:(lia)). assert (x / 5 <= Max s / 5)%Z by (apply Z.div_le_mono; lia). lia.
Qed.

(** * The control session's watch *)

Definition report_up (up : bool) : report :=
  if up then RUp controlSource else RDown controlSource ReasonControlPlaneUnreachable.

(** The state last seen, none before the first. *)
Definition last_up (seen : option bool) (states : list string) : option bool :=
  fold_left (fun _ s => Some (bool_decide (s = "Running"))) states seen.

(** Adjacent reports differ. *)
Fixpoint changes (last : option bool) (l : list report) : Prop :=
  match l with
  | [] => True
  | r :: l => exists up, r = report_up up /\ last <> Some up /\ changes (Some up) l
  end.

Lemma last_up_snoc seen l s : last_up seen (l ++ [s]) = Some (bool_decide (s = "Running")).
Proof. unfold last_up. by rewrite fold_left_app. Qed.

Lemma watch_states seen states evs :
  exists out, WatchControlSession seen (map Watched states ++ evs)
                = out ++ WatchControlSession (last_up seen states) evs
    /\ changes seen out
    /\ (last_up seen states = seen /\ out = [] \/ exists up out', last_up seen states = Some up /\ out = out' ++ [report_up up]).
Proof.
  revert seen. induction states as [|s states IH]; intros seen; cbn.
  - exists []. split; [done|]. split; [done|]. by left.
  - set (up := bool_decide (s = "Running")). destruct (IH (Some up)) as (out & H1 & H2 & H3).
    case_bool_decide as E.
    + subst seen. exists out. by split.
    + exists (report_up up :: out). split; [cbn; f_equal; exact H1|]. split; [by exists up|].
      right. destruct H3 as [[Hl ->]|(u & out' & Hl & ->)].
      * exists up, []. by split.
      * exists u, (report_up up :: out'). by split.
Qed.

(** The watch reports only changes, its last report is the last state seen, and
    a bus that ends while serve runs reads as unreachable. *)
Theorem watch_reports states ctxErr hist :
  let out := WatchControlSession None (map Watched states ++ [BusClosed ctxErr]) in
  let seen := WatchControlSession None (map Watched states) in
  changes None seen
  /\ out = seen ++ (if ctxErr then [] else [report_up false])
  /\ (forall s, last states = Some s -> (outage (rev seen ++ hist) controlSource = None <-> s = "Running"))
  /\ outage (rev out ++ hist) controlSource = (if ctxErr then outage (rev seen ++ hist) controlSource
                                               else Some ReasonControlPlaneUnreachable).
Proof.
  cbv zeta.
  assert (forall l seen, WatchControlSession seen (map Watched l ++ [BusClosed ctxErr])
    = WatchControlSession seen (map Watched l) ++ (if ctxErr then [] else [report_up false])) as ->.
  { induction l as [|s l IH]; intros seen; cbn; [by destruct ctxErr|].
    case_bool_decide; [apply IH|]. cbn. by rewrite IH. }
  destruct (watch_states None states []) as (out & H1 & H2 & H3). rewrite !app_nil_r in H1. rewrite H1.
  split; [done|]. split; [done|]. split.
  - intros s [l ->]%last_Some. rewrite last_up_snoc in H3.
    destruct H3 as [[? _]|(up & out' & [= <-] & ->)]; [done|].
    rewrite rev_app_distr. cbn. case_bool_decide; cbn; naive_solver.
  - destruct ctxErr; [by rewrite app_nil_r|]. by rewrite rev_app_distr.
Qed.

(** * The enrolment key *)

(** What the settings of a node are. *)
Lemma NewNodeConfig_Ok e m url ops nc :
  NewNodeConfig e m url = (ops, Ok nc) ->
  StateDir m = Some (nStateDir nc) /\ nControlURL nc = url /\ Hostname nc = NodeHostname e m
  /\ (Enrolling nc = true <-> statState e (JoinPath [nStateDir nc; stateFile]) = StatAbsent)
  /\ (Enrolling nc = true <-> AuthKey nc <> "")
  /\ (forall p, AuthKeyFile m = Some p -> lstatKey e p <> StatAbsent -> checkKey e p = true).
Proof.
  unfold NewNodeConfig. destruct (StateDir m) as [dir|]; [|done]. destruct (statState e _) eqn:Es; [| |done].
  - destruct (checkLeftoverKey _ _) as [ops1 r1] eqn:Ec. intros [<- Hnc]%pair_equal_spec. unfold checkLeftoverKey in Ec.
    apply check_Ok in Hnc as [-> [= <-]]. cbn [nStateDir Enrolling AuthKey nControlURL Hostname]. rewrite Es.
    split_and!; try done. intros p Hp Hl. rewrite Hp in Ec. destruct (lstatKey e p), (checkKey e p); done.
  - destruct (AuthKeyFile m) as [k|]; [|done]. destruct (checkKey e k) eqn:Ek; cbn [negb]; [|done].
    intros [<- Hnc]%pair_equal_spec. apply bind_Ok in Hnc as (key & Hkey & [= <-]).
    cbn [nStateDir Enrolling AuthKey nControlURL Hostname]. rewrite Es. split_and!; try done; [|by intros p [= <-]].
    unfold readAuthKey in Hkey. destruct (readKey e k); [|done]. case_bool_decide; [done|]. by injection Hkey as <-.
Qed.

(** The key is read only to enrol, and only after its file was checked; a node
    that has state never reads it, and checks one that was left behind. *)
Theorem node_key_use e m url ops r :
  NewNodeConfig e m url = (ops, r) ->
  (forall p, ReadKey p ∈ ops ->
     AuthKeyFile m = Some p /\ checkKey e p = true /\ ops = [CheckKey p; ReadKey p]
     /\ exists dir, StateDir m = Some dir /\ statState e (JoinPath [dir; stateFile]) = StatAbsent)
  /\ forall nc, r = Ok nc ->
       StateDir m = Some (nStateDir nc) /\ nControlURL nc = url /\ Hostname nc = NodeHostname e m
       /\ (Enrolling nc = true <-> statState e (JoinPath [nStateDir nc; stateFile]) = StatAbsent)
       /\ (Enrolling nc = true <-> AuthKey nc <> "")
       /\ (forall p, AuthKeyFile m = Some p -> lstatKey e p <> StatAbsent -> checkKey e p = true).
Proof.
  intros Hn. split; [|by intros nc ->; apply (NewNodeConfig_Ok _ _ _ _ _ Hn)]. revert Hn. unfold NewNodeConfig.
  destruct (StateDir m) as [dir|]; [|intros [= <- <-]; set_solver].
  destruct (statState e _) eqn:Es; [|destruct (AuthKeyFile m) as [k|]; [destruct (checkKey e k) eqn:Ek; cbn [negb]|]|];
    [|intros [= <- <-] p Hp..].
  - unfold checkLeftoverKey. intros Hn p Hp. exfalso.
    destruct (AuthKeyFile m) as [k|]; [destruct (lstatKey e k)|]; injection Hn as <- _; set_solver.
  - assert (p = k) as -> by set_solver. split_and!; eauto.
  - set_solver.
  - set_solver.
  - set_solver.
Qed.

Lemma node_key_use_witness :
  let e := mkNodeEnv "HOST" (fun _ => StatAbsent) (fun _ => StatOk) (fun _ => true) (fun _ => Some ("tskey-auth-1" +:+ newline)) in
  let m := mkFileMesh None None None (Some "/var/lib/ts") (Some "/etc/key") None in
  exists ops, NewNodeConfig e m "https://hs" = (ops, Ok (mkNodeConfig "host" "/var/lib/ts" "https://hs" "tskey-auth-1" true))
    /\ ("tskey-auth-1" <> "").
Proof.
  intros e m. eexists. split; [vm_compute; reflexivity|].
  destruct (node_key_use e m "https://hs" _ _ eq_refl) as [_ H].
  destruct (H (mkNodeConfig "host" "/var/lib/ts" "https://hs" "tskey-auth-1" true) eq_refl) as (_ & _ & _ & _ & Hk & _).
  exact (proj1 Hk eq_refl).
Defined.
