(* ===== verification/GoUrl.v ===== *)
(** Go's query strings: the parts of package [net/url] the descriptor uses
    (QueryEscape, QueryUnescape, ParseQuery, Values.Encode), and a concrete
    [UrlPackage] that keeps the query, for the witnesses. *)
From S2P Require Import Prelude GoStrings GoNet ControlUrl.
From Stdlib Require Import Ascii.

Open Scope bool_scope.

(** * Escaping *)

(** The bytes a query component keeps. *)
Definition unreserved (c : ascii) : bool :=
  is_letter c || is_digit c || eqc c "-" || eqc c "_" || eqc c "." || eqc c "~".

(** An upper-case hexadecimal digit. *)
Definition upper_hex (n : N) : ascii := if (n <? 10)%N then ascii_of_N (48 + n) else ascii_of_N (55 + n).

Definition escape_byte (c : ascii) (rest : string) : string :=
  if unreserved c then String c rest
  else if eqc c " " then String "+" rest
  else String "%" (String (upper_hex (N_of_ascii c / 16)) (String (upper_hex (N_of_ascii c mod 16)) rest)).

Fixpoint QueryEscape (s : string) : string :=
  match s with "" => "" | String c r => escape_byte c (QueryEscape r) end.

(** [None] is a malformed escape. *)
Fixpoint QueryUnescape (s : string) : option string :=
  match s with
  | "" => Some ""
  | String c r =>
      if eqc c "%" then
        match r with
        | String a (String b r) =>
            match hex_val a, hex_val b with
            | Some x, Some y => String (ascii_of_N (Z.to_N (x * 16 + y))) <$> QueryUnescape r
            | _, _ => None
            end
        | _ => None
        end
      else if eqc c "+" then String " " <$> QueryUnescape r
      else String c <$> QueryUnescape r
  end.

(** * Query strings *)

(** One part of a query: nothing for an empty or malformed one. *)
Definition query_part (part : string) : option (string * string) :=
  if bool_decide (part = "") then None
  else if has_byte ";" part then None
  else
    let '(k, v, _) := Cut "=" part in
    key ← QueryUnescape k; value ← QueryUnescape v; Some (key, value).

(** [URL.Query], as the pairs in order: malformed parts are dropped. *)
Definition parseQuery (raw : string) : list (string * string) := omap query_part (Split "&" raw).

(** [Values[key]]. *)
Definition values (q : list (string * string)) (key : string) : list string :=
  omap (fun p => if bool_decide (p.1 = key) then Some p.2 else None) q.

Definition encode_pair (k v : string) : string := QueryEscape k +:+ "=" +:+ QueryEscape v.

(** [Values.Encode]: sorted by key. *)
Definition Encode (m : gmap string (list string)) : string :=
  Join (List.concat (map (fun k => map (encode_pair k) (default [] (m !! k))) (sortedKeys m))) "&".

(** * Round trip *)

Lemma below_16 (P : N -> Prop) :
  Forall (fun k => P (N.of_nat k)) (seq 0 16) -> forall n, (n < 16)%N -> P n.
Proof.
  rewrite Forall_forall. intros HP n Hn. rewrite <- (N2Nat.id n). apply HP, elem_of_seq. lia.
Qed.

Lemma upper_hex_val n : (n < 16)%N -> hex_val (upper_hex n) = Some (Z.of_N n).
Proof.
  revert n. apply below_16. vm_compute. by repeat constructor.
Qed.

Lemma unescape_escape_byte c r : QueryUnescape (escape_byte c r) = String c <$> QueryUnescape r.
Proof.
  unfold escape_byte. destruct (unreserved c) eqn:Eu.
  - cbn [QueryUnescape]. destruct (eqc c "%") eqn:E1; [apply eqc_true in E1 as ->; discriminate Eu|].
    by destruct (eqc c "+") eqn:E2; [apply eqc_true in E2 as ->; discriminate Eu|].
  - destruct (eqc c " ") eqn:Es; [by apply eqc_true in Es as ->|]. cbn [QueryUnescape].
    rewrite eqc_refl. pose proof (N_ascii_bounded c) as Hb.
    rewrite !upper_hex_val by first [apply N.mod_lt; lia|apply N.Div0.div_lt_upper_bound; lia].
    do 2 f_equal.
    assert (Z.of_N (N_of_ascii c / 16) * 16 + Z.of_N (N_of_ascii c mod 16) = Z.of_N (N_of_ascii c))%Z as ->.
    { pose proof (N.div_mod (N_of_ascii c) 16 ltac:(lia)). lia. }
    by rewrite N2Z.id, ascii_N_embedding.
Qed.

Lemma QueryUnescape_escape s : QueryUnescape (QueryEscape s) = Some s.
Proof. induction s as [|c s IH]; [done|]. cbn [QueryEscape]. by rewrite unescape_escape_byte, IH. Qed.

(** What escaping leaves in a component. *)
Definition escaped_char (c : ascii) : bool := unreserved c || eqc c "%" || eqc c "+".

Lemma upper_hex_unreserved n : (n < 16)%N -> unreserved (upper_hex n) = true.
Proof.
  revert n. apply below_16. vm_compute. by repeat constructor.
Qed.

Lemma QueryEscape_chars s : str_all escaped_char (QueryEscape s) = true.
Proof.
  induction s as [|c s IH]; [done|]. cbn [QueryEscape]. unfold escape_byte.
  destruct (unreserved c) eqn:Eu; [cbn; rewrite IH; unfold escaped_char; by rewrite Eu|].
  destruct (eqc c " "); [exact IH|]. cbn [str_all]. rewrite IH. pose proof (N_ascii_bounded c).
  unfold escaped_char. rewrite !upper_hex_unreserved by first [apply N.mod_lt; lia|apply N.Div0.div_lt_upper_bound; lia].
  done.
Qed.

Lemma escaped_no_byte b s : escaped_char b = false -> str_all escaped_char s = true -> no_byte b s = true.
Proof.
  intros Hb. apply str_all_impl. intros c Hc. apply negb_true_iff, eqc_false. intros ->. congruence.
Qed.

Lemma query_part_encode k v : query_part (encode_pair k v) = Some (k, v).
Proof.
  unfold query_part, encode_pair. rewrite bool_decide_eq_false_2 by by destruct (QueryEscape k).
  pose proof (QueryEscape_chars k) as Hk. pose proof (QueryEscape_chars v) as Hv.
  assert (has_byte ";" (QueryEscape k +:+ "=" +:+ QueryEscape v) = false) as ->.
  { apply has_byte_false. rewrite !no_byte_app. cbn. by rewrite !escaped_no_byte. }
  cbn [String.append]. rewrite Cut_app by by apply escaped_no_byte. by rewrite !QueryUnescape_escape.
Qed.

Lemma encode_pair_no_amp k v : no_byte "&" (encode_pair k v) = true.
Proof.
  unfold encode_pair. rewrite !no_byte_app. cbn. by rewrite !escaped_no_byte by (done || apply QueryEscape_chars).
Qed.

Lemma parseQuery_Join l : parseQuery (Join (map (fun p => encode_pair p.1 p.2) l) "&") = l.
Proof.
  unfold parseQuery. destruct (decide (l = [])) as [->|Hne]; [done|].
  rewrite (Split_Join "&"); [|by destruct l|apply Forall_map, Forall_true; intros; apply encode_pair_no_amp].
  clear Hne. induction l as [|[k v] l IH]; [done|]. cbn [map omap list_omap fst snd]. rewrite query_part_encode. by rewrite IH.
Qed.

Lemma values_app q1 q2 k : values (q1 ++ q2) k = values q1 k ++ values q2 k.
Proof. apply omap_app. Qed.

Lemma values_of_key k k' l : values (map (pair k') l) k = if bool_decide (k' = k) then l else [].
Proof. unfold values. induction l as [|v l IH]; cbn; [by case_bool_decide|]. rewrite IH. by case_bool_decide. Qed.

Lemma values_of_keys (m : gmap string (list string)) keys k :
  NoDup keys ->
  values (List.concat (map (fun k => map (pair k) (default [] (m !! k))) keys)) k
  = if bool_decide (k ∈ keys) then default [] (m !! k) else [].
Proof.
  induction 1 as [|x keys Hx _ IH]; cbn [map List.concat]; [done|]. rewrite values_app, IH, values_of_key.
  destruct (decide (x = k)) as [->|Hne].
  - rewrite bool_decide_eq_true_2, (bool_decide_eq_false_2 (k ∈ keys)), app_nil_r, bool_decide_eq_true_2 by set_solver. done.
  - rewrite bool_decide_eq_false_2 by done. cbn.
    destruct (decide (k ∈ keys)); [rewrite !bool_decide_eq_true_2 by set_solver|rewrite !bool_decide_eq_false_2 by set_solver]; done.
Qed.

(** A query that was encoded reads back, key by key. *)
Lemma values_Encode (m : gmap string (list string)) k : values (parseQuery (Encode m)) k = default [] (m !! k).
Proof.
  unfold Encode.
  assert (List.concat (map (fun k => map (encode_pair k) (default [] (m !! k))) (sortedKeys m))
    = map (fun p => encode_pair p.1 p.2) (List.concat (map (fun k => map (pair k) (default [] (m !! k))) (sortedKeys m)))) as ->.
  { induction (sortedKeys m) as [|x l IH]; [done|]. cbn. rewrite map_app, IH, map_map. done. }
  rewrite parseQuery_Join, values_of_keys.
  2:{ unfold sortedKeys. rewrite sortNames_perm. apply NoDup_fst_map_to_list. }
  case_bool_decide as E; [done|]. rewrite elem_of_sortedKeys in E. by apply eq_None_not_Some in E as ->.
Qed.

(** The bytes of an encoded query. *)
Definition query_char (c : ascii) : bool := escaped_char c || eqc c "=" || eqc c "&".
Lemma Join_chars p l sep : str_all p sep = true -> Forall (fun x => str_all p x = true) l -> str_all p (Join l sep) = true.
Proof.
  intros Hs. induction 1 as [|x l Hx _ IH]; [done|]. destruct l as [|y l]; [done|].
  rewrite Join_cons, !str_all_app, Hx, Hs by done. done.
Qed.
Lemma Encode_chars m : str_all query_char (Encode m) = true.
Proof.
  apply Join_chars; [done|]. apply Forall_concat, Forall_map, Forall_true. intros k.
  apply Forall_map, Forall_true. intros v. unfold encode_pair. rewrite !str_all_app.
  assert (forall s, str_all query_char (QueryEscape s) = true) as Hq.
  { intros s. eapply str_all_impl; [|apply QueryEscape_chars]. intros c Hc. unfold query_char. by rewrite Hc. }
  by rewrite !Hq.
Qed.

(** * A concrete package *)

(** URLs of the form [scheme://host/path?query]. *)
Definition queryUrlParse (raw : string) : option URL :=
  let '(base, q, _) := Cut "?" raw in
  (fun u => mkURL (Scheme u) (hasUser u) (Host u) (Path u) q "") <$> simpleParse base.
Definition queryUrlString (u : URL) : string :=
  simpleString u +:+ (if bool_decide (RawQuery u = "") then "" else "?" +:+ RawQuery u).
Definition queryUrl : UrlPackage := Build_UrlPackage queryUrlParse queryUrlString.
