(* ===== verification/Descriptor.v ===== *)
(** The shareable descriptor (src/internal/profile/descriptor.go): printing a
    host as a tsb:// URI, reading it back, and what an error shows of it. *)
From S2P Require Import Prelude GoStrings GoNet ProfileStore ControlUrl GoUrl.
From Stdlib Require Import Ascii.

Open Scope bool_scope.

Definition scheme := "tsb".
Definition cpSaas := "saas".
Definition maxPort : Z := 65535.

(** Why a descriptor is refused; [BadCp] carries the control URL's own error. *)
Inductive parse_reason : Type :=
  | EmptyInput
  | MalformedURL
  | WrongScheme
  | MissingHost
  | MissingPort
  | InvalidPort (port : string)
  | Repeated (key : string)
  | MissingCp
  | BadCp (e : url_error)
  | BadVersion.

Record ParseError : Type := mkParseError { Input : string; Reason : parse_reason }.

(** The parts of a URL the model's record does not name: an opaque URL's text,
    and a question mark with no query. *)
Class UrlRest : Type := { Opaque : URL -> string; ForceQuery : URL -> bool }.

Section Descriptor.
Context `{UrlPackage} `{UrlRest}.

Definition descriptorQuery (d : Descriptor) : gmap string (list string) :=
  let cp := if bool_decide (dControlURL d = "") then cpSaas else dControlURL d in
  let q := {[ "cp" := [cp] ]} : gmap string (list string) in
  if (1 <? dVersion d)%Z then <["v" := [Itoa (dVersion d)]]> q else q.

(** [Descriptor.String]. *)
Definition String_ (d : Descriptor) : string :=
  urlString (mkURL scheme false (dHost d +:+ ":" +:+ Itoa (dPort d)) "" (Encode (descriptorQuery d)) "").

(** The one value of a key; [Err] when it is given more than once. *)
Definition singleParam (q : list (string * string)) (key : string) : result parse_reason (option string) :=
  match values q key with
  | [] => Ok None
  | [v] => Ok (Some v)
  | _ => Err (Repeated key)
  end.

Definition controlURLFromParam (cp : string) : result parse_reason string :=
  if EqualFold cp cpSaas then Ok ""
  else _ ← map_err BadCp (Validate cp); Ok cp.

Definition versionFromParam (vs : string) : result parse_reason Z :=
  if bool_decide (vs = "") then Ok 1%Z
  else match Atoi vs with
       | Some v => if (v <? 1)%Z then Err BadVersion else Ok v
       | None => Err BadVersion
       end.

(** What an error shows: scheme, host and port, and that there was a path or a
    query; the ellipsis is the UTF-8 one. *)
Definition ellipsis : string := String "226" (String "128" (String "166" "")).
Definition redactDescriptor (raw : string) : string :=
  match urlParse raw with
  | None => "(unparseable)"
  | Some u =>
      if negb (bool_decide (Opaque u = "")) then "(unparseable)"
      else
        urlString (mkURL (Scheme u) false (Host u) "" "" "")
        +:+ (if negb (bool_decide (Path u = "")) && negb (bool_decide (Path u = "/")) then "/" +:+ ellipsis else "")
        +:+ (if negb (bool_decide (RawQuery u = "")) || ForceQuery u then "?" +:+ ellipsis else "")
  end.

(** The checks of [Parse], in order. *)
Definition parseChecks (raw : string) : result parse_reason Descriptor :=
  _ ← fail_if (bool_decide (raw = "")) EmptyInput;
  u ← (match urlParse raw with Some u => Ok u | None => Err MalformedURL end);
  _ ← fail_if (negb (bool_decide (Scheme u = scheme))) WrongScheme;
  let host := Hostname u in
  _ ← fail_if (bool_decide (host = "")) MissingHost;
  let portStr := Port u in
  _ ← fail_if (bool_decide (portStr = "")) MissingPort;
  port ← (match Atoi portStr with
          | Some p => if (p <=? 0)%Z || (maxPort <? p)%Z then Err (InvalidPort portStr) else Ok p
          | None => Err (InvalidPort portStr)
          end);
  let q := parseQuery (RawQuery u) in
  cp ← singleParam q "cp";
  cp ← (match cp with Some cp => Ok cp | None => Err MissingCp end);
  controlURL ← controlURLFromParam cp;
  vs ← singleParam q "v";
  version ← versionFromParam (default "" vs);
  Ok (mkDescriptor host port controlURL version).

Definition Parse (raw : string) : result ParseError Descriptor :=
  map_err (mkParseError (redactDescriptor raw)) (parseChecks raw).

(** * What is read is valid *)

Definition descriptor_ok (d : Descriptor) : Prop :=
  dHost d <> "" /\ (1 <= dPort d <= 65535)%Z /\ (1 <= dVersion d)%Z
  /\ (dControlURL d = "" \/ (Validate (dControlURL d) = Ok tt /\ EqualFold (dControlURL d) cpSaas = false)).

Lemma versionFromParam_Ok vs v : versionFromParam vs = Ok v -> (1 <= v)%Z.
Proof.
  unfold versionFromParam. case_bool_decide; [by intros [= <-]|].
  destruct (Atoi vs) as [z|]; [|done]. destruct (Z.ltb_spec z 1); [done|]. by intros [= <-].
Qed.

(** A descriptor that is accepted names a host, a port, a version and a control
    plane that connect would accept. *)
Theorem parsed_descriptor_ok raw d : Parse raw = Ok d -> descriptor_ok d.
Proof.
  unfold Parse, parseChecks. intros Hp%map_err_Ok.
  apply bind_Ok in Hp as (? & _ & Hp). apply bind_Ok in Hp as (u & _ & Hp). apply bind_Ok in Hp as (? & _ & Hp).
  apply bind_Ok in Hp as (? & Hh%fail_if_Ok%bool_decide_eq_false & Hp). apply bind_Ok in Hp as (? & _ & Hp).
  apply bind_Ok in Hp as (port & Hport & Hp). apply bind_Ok in Hp as (? & _ & Hp). apply bind_Ok in Hp as (cp & _ & Hp).
  apply bind_Ok in Hp as (url & Hurl & Hp). apply bind_Ok in Hp as (? & _ & Hp).
  apply bind_Ok in Hp as (v & Hv%versionFromParam_Ok & [= <-]). unfold descriptor_ok. cbn.
  split; [done|]. split; [|split; [done|]].
  - destruct (Atoi (Port u)) as [p|]; [|done]. unfold maxPort in Hport.
    destruct (Z.leb_spec p 0), (Z.ltb_spec 65535 p); try done. injection Hport as <-. lia.
  - unfold controlURLFromParam in Hurl. destruct (EqualFold cp cpSaas) eqn:Es; [injection Hurl as <-; by left|].
    apply check_Ok in Hurl as [Hc%map_err_Ok [= <-]]. by right.
Qed.

(** * Round trip *)

(** Names and IPv4 addresses: the hosts a descriptor is printed for. *)
Definition host_char (c : ascii) : bool := is_letter c || is_digit c || eqc c "." || eqc c "-".

Lemma splitHostPort_host h p :
  str_all host_char h = true -> str_all is_digit p = true ->
  splitHostPort (h +:+ ":" +:+ p) = (h, p).
Proof.
  intros Hh Hp. unfold splitHostPort. cbn [String.append].
  rewrite last_index_byte_app by by apply digits_no_byte.
  assert (forall a b, str_drop (len a) (a +:+ b) = b) as Hd by apply str_drop_app.
  rewrite Hd. cbn [validOptionalPort]. rewrite eqc_refl, Hp. cbn [andb].
  rewrite str_take_app, str_drop_app_sep.
  replace (HasPrefix h "[") with false; [done|]. destruct h as [|c h]; [done|]. cbn in *.
  destruct (eqc "[" c) eqn:E; [apply eqc_true in E as <-; discriminate Hh|done].
Qed.

(** [url.Parse] of what [URL.String] printed, for such a host and an encoded query. *)
Definition url_law : Prop :=
  forall h p q, str_all host_char h = true -> str_all is_digit p = true -> str_all query_char q = true ->
    urlParse (urlString (mkURL scheme false (h +:+ ":" +:+ p) "" q "")) = Some (mkURL scheme false (h +:+ ":" +:+ p) "" q "").

Lemma query_value d k : values (parseQuery (Encode (descriptorQuery d))) k = default [] (descriptorQuery d !! k).
Proof. apply values_Encode. Qed.

Lemma Parse_String d :
  url_law -> urlString (mkURL scheme false (dHost d +:+ ":" +:+ Itoa (dPort d)) "" (Encode (descriptorQuery d)) "") <> "" ->
  descriptor_ok d -> str_all host_char (dHost d) = true -> (dVersion d <= max_int64)%Z ->
  Parse (String_ d) = Ok d.
Proof.
  intros Hlaw Hne (Hh & Hp & Hv & Hc) Hhc Hvm. unfold Parse, parseChecks, String_.
  rewrite bool_decide_eq_false_2 by done. cbn [fail_if mbind result_bind].
  assert (str_all is_digit (Itoa (dPort d)) = true) as Hd by (apply Itoa_all_digits; lia).
  rewrite Hlaw by (done || apply Encode_chars). cbn [mbind result_bind Scheme].
  unfold Hostname, Port. cbn [Host]. rewrite splitHostPort_host by done. cbn [fst snd].
  rewrite (bool_decide_eq_true_2 (scheme = scheme)), (bool_decide_eq_false_2 (dHost d = "")) by done. cbn [negb fail_if mbind result_bind].
  rewrite bool_decide_eq_false_2 by (destruct (Itoa_digit_word (dPort d)) as (c & r & -> & _); [lia|done]).
  cbn [fail_if mbind result_bind]. rewrite Atoi_Itoa by (unfold min_int64, max_int64; lia).
  unfold maxPort. destruct (Z.leb_spec (dPort d) 0), (Z.ltb_spec 65535 (dPort d)); try lia. cbn [orb mbind result_bind RawQuery].
  unfold singleParam. rewrite !query_value.
  assert (descriptorQuery d !! "cp" = Some [if bool_decide (dControlURL d = "") then cpSaas else dControlURL d]) as ->.
  { unfold descriptorQuery. destruct (1 <? dVersion d)%Z; [rewrite lookup_insert_ne by done|]; apply lookup_singleton_eq. }
  assert (descriptorQuery d !! "v" = if (1 <? dVersion d)%Z then Some [Itoa (dVersion d)] else None) as ->.
  { unfold descriptorQuery. destruct (1 <? dVersion d)%Z; [apply lookup_insert_eq|by apply lookup_singleton_ne]. }
  cbn [from_option id mbind result_bind].
  assert (controlURLFromParam (if bool_decide (dControlURL d = "") then cpSaas else dControlURL d) = Ok (dControlURL d)) as ->.
  { unfold controlURLFromParam. case_bool_decide as E; [by rewrite E|].
    destruct Hc as [?|[-> ->]]; [done|]. done. }
  cbn [mbind result_bind]. destruct d as [dh dp dc dv]. cbn in *. destruct (Z.ltb_spec 1 dv); cbn [from_option id mbind result_bind].
  - unfold versionFromParam. rewrite bool_decide_eq_false_2 by (destruct (Itoa_digit_word dv) as (c & r & -> & _); [lia|done]).
    rewrite Atoi_Itoa by (unfold min_int64; lia). destruct (Z.ltb_spec dv 1); [lia|done].
  - assert (dv = 1)%Z as -> by lia. done.
Qed.

(** What is printed is read back. *)
Theorem descriptor_roundtrip d :
  url_law -> urlString (mkURL scheme false (dHost d +:+ ":" +:+ Itoa (dPort d)) "" (Encode (descriptorQuery d)) "") <> "" ->
  descriptor_ok d -> str_all host_char (dHost d) = true -> (dVersion d <= max_int64)%Z ->
  Parse (String_ d) = Ok d.
Proof. apply Parse_String. Qed.

(** * What an error shows *)

(** The parts of the input an error may depend on: the reason, the scheme, the
    host, and whether there is a path and a query. *)
Definition shown (raw : string) : option (bool * string * string * bool * bool) :=
  u ← urlParse raw;
  Some (bool_decide (Opaque u = ""), Scheme u, Host u,
        negb (bool_decide (Path u = "")) && negb (bool_decide (Path u = "/")),
        negb (bool_decide (RawQuery u = "")) || ForceQuery u).

(** Two inputs refused for the same reason that agree on those parts give the
    same error: user info, path and query never reach it. *)
Theorem error_shows_no_secret a b ea eb :
  Parse a = Err ea -> Parse b = Err eb -> Reason ea = Reason eb -> shown a = shown b -> ea = eb.
Proof.
  unfold Parse. intros Ha Hb Hr Hs.
  destruct (parseChecks a); [done|]. destruct (parseChecks b); [done|].
  injection Ha as <-. injection Hb as <-. cbn in Hr. subst. f_equal.
  unfold shown, redactDescriptor in *. destruct (urlParse a) as [u|], (urlParse b) as [w|]; try done.
  cbn in Hs. injection Hs as Ho -> -> -> ->.
  destruct (bool_decide (Opaque u = "")), (bool_decide (Opaque w = "")); done.
Qed.
End Descriptor.

(** * Witnesses *)

#[local] Instance simpleRest : UrlRest := Build_UrlRest (fun _ => "") (fun _ => false).

Definition headscale_host : Descriptor := mkDescriptor "100.64.0.7" 3389 "https://hs.example.com/a?b=c" 2.

Lemma parsed_descriptor_ok_witness :
  @Parse queryUrl simpleRest "tsb://h:22?cp=saas" = Ok (mkDescriptor "h" 22 "" 1)
  /\ "h" <> "".
Proof.
  assert (@Parse queryUrl simpleRest "tsb://h:22?cp=saas" = Ok (mkDescriptor "h" 22 "" 1)) as E by (vm_compute; reflexivity).
  split; [exact E|]. exact (proj1 (@parsed_descriptor_ok queryUrl simpleRest _ _ E)).
Defined.

Lemma Cut_query b q : no_byte "?" b = true -> Cut "?" (b +:+ "?" +:+ q) = (b, q, true).
Proof. intros Hb. cbn [String.append]. by apply Cut_app. Qed.

Lemma queryUrl_law : @url_law queryUrl.
Proof.
  intros h p q Hh Hp Hq. unfold urlParse, urlString, queryUrl, queryUrlParse, queryUrlString. cbn [RawQuery].
  unfold simpleString, scheme. cbn [Scheme Host Path]. rewrite str_app_nil_r.
  assert (forall b, is_digit b = false -> host_char b = false -> eqc ":" b = false -> no_byte b (h +:+ ":" +:+ p) = true) as Hn.
  { intros b H1 H2 H3. rewrite !no_byte_app. cbn. rewrite H3. rewrite (digits_no_byte b p) by done.
    rewrite andb_true_r. cbn. eapply str_all_impl; [|exact Hh]. intros c Hc. apply negb_true_iff, eqc_false. intros ->. congruence. }
  assert (simpleParse ("tsb" +:+ "://" +:+ h +:+ ":" +:+ p) = Some (mkURL "tsb" false (h +:+ ":" +:+ p) "" "" "")) as Hsp.
  { unfold simpleParse.
    replace ("tsb" +:+ "://" +:+ h +:+ ":" +:+ p) with ("tsb" +:+ String ":" ("//" +:+ h +:+ ":" +:+ p)) by done.
    rewrite Cut_app by done. rewrite HasPrefix_app. cbn [andb].
    replace (str_drop 2 ("//" +:+ h +:+ ":" +:+ p)) with (h +:+ ":" +:+ p) by done.
    rewrite !Cut_no_byte by (apply Hn; done). done. }
  assert (no_byte "?" ("tsb" +:+ "://" +:+ h +:+ ":" +:+ p) = true) as Hnq.
  { rewrite !(no_byte_app "?" "tsb"), (no_byte_app "?" "://"). rewrite Hn by done. done. }
  case_bool_decide as E.
  - subst q. rewrite !str_app_nil_r. rewrite Cut_no_byte by done. by rewrite Hsp.
  - rewrite !str_app_assoc.
    replace ("tsb" +:+ "://" +:+ h +:+ ":" +:+ p +:+ "?" +:+ q) with (("tsb" +:+ "://" +:+ h +:+ ":" +:+ p) +:+ "?" +:+ q)
      by (rewrite !str_app_assoc; done).
    rewrite Cut_query by done. by rewrite Hsp.
Qed.

Lemma descriptor_roundtrip_witness :
  @String_ queryUrl headscale_host = "tsb://100.64.0.7:3389?cp=https%3A%2F%2Fhs.example.com%2Fa%3Fb%3Dc&v=2"
  /\ @Parse queryUrl simpleRest (@String_ queryUrl headscale_host) = Ok headscale_host.
Proof.
  split; [vm_compute; reflexivity|].
  apply (@descriptor_roundtrip queryUrl simpleRest).
  - exact queryUrl_law.
  - vm_compute. discriminate.
  - split; [discriminate|]. split; [cbn; lia|]. split; [cbn; lia|]. right. split; vm_compute; reflexivity.
  - vm_compute. reflexivity.
  - vm_compute. discriminate.
Defined.

Lemma error_shows_no_secret_witness :
  exists e, @Parse queryUrl simpleRest "tsb://alice:s3cret@h:22?cp=x" = Err e
    /\ @Parse queryUrl simpleRest "tsb://h:22?cp=y&token=z" = Err e.
Proof.
  destruct (@Parse queryUrl simpleRest "tsb://alice:s3cret@h:22?cp=x") as [|ea] eqn:Ea; [vm_compute in Ea; discriminate|].
  destruct (@Parse queryUrl simpleRest "tsb://h:22?cp=y&token=z") as [|eb] eqn:Eb; [vm_compute in Eb; discriminate|].
  exists ea. split; [reflexivity|]. rewrite (@error_shows_no_secret queryUrl simpleRest _ _ ea eb Ea Eb); [reflexivity| |].
  - vm_compute in Ea, Eb. injection Ea as <-. injection Eb as <-. reflexivity.
  - vm_compute. reflexivity.
Defined.
