(* ===== verification/StoreLock.v ===== *)
(** The locks beside the profile store (src/internal/profile/lock.go, lock_unix.go):
    one attempt, the wait for the store's lock, and a profile's own lock.

    The kernel's answers, the clock and the hash of a name are the run's
    environment; an attempt is numbered, and the clock is read after it. *)
From S2P Require Import Prelude GoStrings GoPath.
From Stdlib Require Import Ascii.

(** * One attempt *)

Inductive flock_answer : Type := FlockOk | FlockWouldBlock | FlockFails.

(** [lockFile]. *)
Inductive lock_error : Type :=
  | LockDirectory
  | LockOpen
  | LockHeld
  | LockFailed.
#[export] Instance lock_error_eq_dec : EqDecision lock_error.
Proof. solve_decision. Defined.

Definition lockFile (a : flock_answer) : result lock_error unit :=
  match a with
  | FlockOk => Ok tt
  | FlockWouldBlock => Err LockHeld
  | FlockFails => Err LockFailed
  end.

(** What an attempt meets: the directory, the open, the kernel's lock. *)
Record attempt : Type := mkAttempt { mkdirs : bool; opens : bool; flock : flock_answer }.

(** [tryLock]: the file the attempt locks is the lock's name in the locks
    directory of the store. *)
Definition lock_path (store fileName : string) : string := JoinPath [JoinPath [Dir store; "locks"]; fileName].
Definition tryLock (store fileName : string) (a : attempt) : result lock_error string :=
  _ ← fail_if (negb (mkdirs a)) LockDirectory;
  _ ← fail_if (negb (opens a)) LockOpen;
  _ ← lockFile (flock a);
  Ok (lock_path store fileName).

(** * Waiting for the store's lock *)

Definition storeLockWait : Z := 10 * 10 ^ 9.
Definition storeLockPoll : Z := 25 * 10 ^ 6.

Inductive store_lock_error : Type := StoreLockFailed (e : lock_error) | StoreBusy.

Section Wait.
(** The answers to the attempts, and the clock: read once before the first, then
    after each attempt that found the lock held. *)
Context (store : string) (try_ : nat -> attempt) (start : Z) (clock : nat -> Z) (wait : Z).

(** The loop from attempt [i] on; [None] is fuel that ran out. *)
Fixpoint lockLoop (fuel i : nat) : option (result store_lock_error string) :=
  match fuel with
  | O => None
  | S fuel =>
      match tryLock store "store.lock" (try_ i) with
      | Ok file => Some (Ok file)
      | Err LockHeld =>
          if (clock i <? start + wait)%Z then lockLoop fuel (S i) else Some (Err StoreBusy)
      | Err e => Some (Err (StoreLockFailed e))
      end
  end.

(** The attempts the wait leaves room for, and one more. *)
Definition maxAttempts : nat := S (S (Z.to_nat (wait / storeLockPoll))).

Definition lockStore : option (result store_lock_error string) := lockLoop maxAttempts 0.

(** Time passes: each sleep lasts at least the poll. *)
Context (Hstart : (start <= clock 0%nat)%Z) (Hsleep : forall i, (clock i + storeLockPoll <= clock (S i))%Z).

Lemma clock_after i : (start + Z.of_nat i * storeLockPoll <= clock i)%Z.
Proof.
  induction i as [|i IH]; [lia|]. specialize (Hsleep i). rewrite Nat2Z.inj_succ. lia.
Qed.

Lemma lockLoop_returns fuel i :
  (start + wait <= clock (i + fuel - 1))%Z -> (0 < fuel)%nat ->
  exists n r, (i <= n < i + fuel)%nat /\ lockLoop fuel i = Some r
    /\ (forall j, (i <= j < n)%nat -> tryLock store "store.lock" (try_ j) = Err LockHeld /\ (clock j < start + wait)%Z)
    /\ r = match tryLock store "store.lock" (try_ n) with
           | Ok f => Ok f
           | Err LockHeld => Err StoreBusy
           | Err e => Err (StoreLockFailed e)
           end
    /\ (r = Err StoreBusy -> (start + wait <= clock n)%Z).
Proof.
  revert i. induction fuel as [|fuel IH]; intros i Hc Hf; [lia|]. cbn [lockLoop].
  destruct (tryLock _ _ (try_ i)) as [f|e] eqn:Et.
  - exists i, (Ok f). rewrite Et. split_and!; try done; try lia. 
  - destruct (decide (e = LockHeld)) as [->|He].
    + destruct (Z.ltb_spec (clock i) (start + wait)) as [Hlt|Hge].
      * destruct fuel as [|fuel]; [replace (i + 1 - 1)%nat with i in Hc by lia; lia|].
        destruct (IH (S i)) as (n & r & Hn & Hl & Hheld & Hr & Hb); [|lia|].
        { replace (S i + S fuel - 1)%nat with (i + S (S fuel) - 1)%nat by lia. exact Hc. }
        exists n, r. split_and!; try done; try lia.
        intros j Hj. destruct (decide (j = i)) as [->|Hne]; [done|]. apply Hheld. lia.
      * exists i, (Err StoreBusy). rewrite Et. split_and!; try done; try lia.
    + exists i, (Err (StoreLockFailed e)). rewrite Et. split_and!; try done; try lia; by destruct e.
Qed.

(** C36: the wait ends: within the attempts it leaves room for, one of them takes the
    lock or fails for another reason, or the time is over and the lock was held
    at every attempt. *)
Theorem lock_wait_terminates :
  (0 <= wait)%Z ->
  exists n r, (n < maxAttempts)%nat /\ lockStore = Some r
    /\ (forall j, (j < n)%nat -> tryLock store "store.lock" (try_ j) = Err LockHeld)
    /\ match r with
       | Ok file => file = lock_path store "store.lock" /\ tryLock store "store.lock" (try_ n) = Ok file
       | Err (StoreLockFailed e) => e <> LockHeld /\ tryLock store "store.lock" (try_ n) = Err e
       | Err StoreBusy => tryLock store "store.lock" (try_ n) = Err LockHeld /\ (start + wait <= clock n)%Z
       end.
Proof.
  intros Hw. unfold lockStore, maxAttempts.
  destruct (lockLoop_returns (S (S (Z.to_nat (wait / storeLockPoll)))) 0) as (n & r & Hn & Hl & Hheld & Hr & Hb); [|lia|].
  - pose proof (clock_after (S (Z.to_nat (wait / storeLockPoll)))) as Hc.
    replace (0 + S (S (Z.to_nat (wait / storeLockPoll))) - 1)%nat with (S (Z.to_nat (wait / storeLockPoll))) by lia.
    rewrite Nat2Z.inj_succ, Z2Nat.id in Hc by (apply Z.div_pos; unfold storeLockPoll; lia).
    pose proof (Z.mod_pos_bound wait storeLockPoll ltac:(unfold storeLockPoll; lia)).
    pose proof (Z.div_mod wait storeLockPoll ltac:(unfold storeLockPoll; lia)). lia.
  - exists n, r. split; [lia|]. split; [done|]. split; [intros j Hj; apply Hheld; lia|].
    destruct (tryLock store "store.lock" (try_ n)) as [f|e] eqn:Et; subst r.
    + split; [|done]. unfold tryLock in Et. inv_ok. by subst.
    + destruct e; (split; [done|]); auto.
Qed.
End Wait.

Lemma lock_wait_terminates_witness :
  let try_ i := mkAttempt true true (if (i <? 3)%nat then FlockWouldBlock else FlockOk) in
  let clock i := (Z.of_nat i * storeLockPoll)%Z in
  lockStore "/home/u/.ts/profiles.yaml" try_ 0 clock storeLockWait = Some (Ok "/home/u/.ts/locks/store.lock")
  /\ exists n, (n < maxAttempts storeLockWait)%nat
       /\ tryLock "/home/u/.ts/profiles.yaml" "store.lock" (try_ n) = Ok "/home/u/.ts/locks/store.lock".
Proof.
  intros try_ clock.
  assert (lockStore "/home/u/.ts/profiles.yaml" try_ 0 clock storeLockWait = Some (Ok "/home/u/.ts/locks/store.lock")) as E
    by (vm_compute; reflexivity).
  split; [exact E|].
  destruct (lock_wait_terminates "/home/u/.ts/profiles.yaml" try_ 0 clock storeLockWait) as (n & r & Hn & Hl & _ & Hr).
  - vm_compute. discriminate.
  - intros i. unfold clock. rewrite Nat2Z.inj_succ. lia.
  - vm_compute. discriminate.
  - rewrite Hl in E. injection E as ->. exists n. split; [exact Hn|exact (proj2 Hr)].
Defined.

(** * A profile's lock *)

Inductive profile_lock_error : Type := LockNameEmpty | ProfileInUse (name : string) | ProfileLock (name : string) (e : lock_error).

Section ProfileLock.
(** SHA-256, in lower-case hexadecimal. *)
Context (sha256hex : string -> string).

Definition lockFileName (name : string) : string := sha256hex name +:+ ".lock".

Definition Lock (store name : string) (a : attempt) : result profile_lock_error string :=
  if bool_decide (TrimSpace name = "") then Err LockNameEmpty
  else match tryLock store (lockFileName name) a with
       | Ok f => Ok f
       | Err LockHeld => Err (ProfileInUse name)
       | Err e => Err (ProfileLock name e)
       end.

End ProfileLock.

Lemma Dir_abs path : IsAbs path = true -> IsAbs (Dir path) = true.
Proof.
  intros (r & ->)%IsAbs_inv. unfold Dir. cbn [last_index_byte].
  assert (eqc "/" "/" = true) as -> by apply eqc_refl.
  destruct (last_index_byte "/" r); cbn [str_take]; apply Clean_abs, IsAbs_slash.
Qed.

(** The file of a plain name in the locks directory. *)
Lemma lock_path_in store :
  IsAbs store = true ->
  exists dir, forall fileName, plain_segment fileName = true -> lock_path store fileName = dir +:+ "/" +:+ fileName.
Proof.
  intros Ha%Dir_abs. unfold lock_path. cbn [JoinPath].
  assert (Dir store <> "") as Hne by (intros E; by rewrite E in Ha).
  rewrite (bool_decide_eq_false_2 (Dir store = "")) by done. set (D := Clean (Join [Dir store; "locks"] "/")).
  assert (IsAbs D = true /\ exists x, D = x +:+ "/" +:+ "locks") as [HD [x Hx]].
  { subst D. cbn [Join]. split; [by apply Clean_abs, IsAbs_app|].
    rewrite Clean_rooted by by apply IsAbs_app. cbn [String.append].
    rewrite Split_app, (Split_no_byte _ "locks"), clean_go_snoc by done.
    destruct (clean_go true [] (Split "/" (Dir store))) as [|y l] eqn:E; [by exists ""|].
    rewrite Join_snoc by done. by exists ("/" +:+ Join (y :: l) "/"). }
  exists (Clean D). intros fileName Hf. rewrite bool_decide_eq_false_2 by (intros E; by rewrite E in HD). cbn [Join].
  apply Clean_snoc; [done..|]. rewrite Clean_rooted by done. rewrite Hx. cbn [String.append].
  rewrite Split_app, (Split_no_byte _ "locks"), clean_go_snoc by done.
  destruct (clean_go true [] (Split "/" x)) as [|y l] eqn:E; [done|]. rewrite Join_snoc by done.
  destruct (Join (y :: l) "/"); done.
Qed.

(** Whatever a profile is called, its lock is a file of the locks directory named
    by the hash of the name alone, and never the store's own lock. *)
Theorem profile_lock_confined (sha256hex : string -> string) store :
  (forall s, str_all (fun c => is_digit c || between "a" c "f") (sha256hex s) = true /\ len (sha256hex s) = 64%nat) ->
  IsAbs store = true ->
  exists dir, lock_path store "store.lock" = dir +:+ "/store.lock"
    /\ forall name a f, Lock sha256hex store name a = Ok f ->
         TrimSpace name <> "" /\ f = dir +:+ "/" +:+ sha256hex name +:+ ".lock" /\ f <> lock_path store "store.lock".
Proof.
  intros Hsha Ha. destruct (lock_path_in store Ha) as [dir Hdir]. exists dir.
  rewrite (Hdir "store.lock") by done. split; [done|]. intros name a f. unfold Lock.
  case_bool_decide as Hn; [done|]. destruct (tryLock _ _ _) as [g|e] eqn:Et; [|by destruct e].
  intros [= ->]. split; [done|]. unfold tryLock in Et. inv_ok. subst f.
  destruct (Hsha name) as [Hc Hl]. rewrite (Hdir (lockFileName sha256hex name)).
  - unfold lockFileName. split; [done|]. intros Heq. apply (f_equal len) in Heq. rewrite !len_app, Hl in Heq. cbn in Heq. lia.
  - unfold plain_segment, lockFileName. apply andb_true_iff. split.
    + rewrite no_byte_app. apply andb_true_iff. split; [|done]. eapply str_all_impl; [|exact Hc].
      intros c Hc'. apply negb_true_iff, eqc_false. intros ->. discriminate.
    + apply negb_true_iff, bool_decide_eq_false. rewrite !not_elem_of_cons.
      split_and!; try apply not_elem_of_nil; intros Heq; apply (f_equal len) in Heq; rewrite len_app, Hl in Heq; cbn in Heq; lia.
Qed.

Lemma profile_lock_confined_witness :
  let sha (_ : string) := Join (replicate 64 "a") "" in
  Lock sha "/h/.ts/profiles.yaml" "../office" (mkAttempt true true FlockOk)
    = Ok ("/h/.ts/locks/" +:+ sha "../office" +:+ ".lock")
  /\ TrimSpace "../office" <> "".
Proof.
  intros sha.
  assert (Lock sha "/h/.ts/profiles.yaml" "../office" (mkAttempt true true FlockOk)
    = Ok ("/h/.ts/locks/" +:+ sha "../office" +:+ ".lock")) as E by (vm_compute; reflexivity).
  split; [exact E|].
  destruct (profile_lock_confined sha "/h/.ts/profiles.yaml") as (dir & _ & H);
    [intros s; split; vm_compute; reflexivity|reflexivity|].
  exact (proj1 (H _ _ _ E)).
Defined.
