(* ===== verification/Connect.v ===== *)
(** The connect command up to the bridge (src/cmd/cli/connect.go,
    profile_credentials.go): the flags, the auth key file, the profile under the
    YAML layer, the managed credential bound to its control plane, and the order
    of the steps.

    The stores, the files and the machine are what they answer in this run. *)
From S2P Require Import Prelude GoStrings GoNet EnvFile SecretFile Credential ProfileStore ControlUrl Config ConfigMerge.
From Stdlib Require Import Ascii.

Open Scope bool_scope.

(** * The flags *)

(** What Cobra answers for a flag, by the getter that is called ([GetInt] and
    [GetInt64] are two), and whether it was given. *)
Record flag_values : Type := mkFlagValues {
  str_flag : string -> string;
  list_flag : string -> list string;
  dur_flag : string -> Z;
  int_flag : string -> Z;
  int64_flag : string -> Z;
  bool_flag : string -> bool;
  Changed : string -> bool;
}.

Definition collectChangedBool (v : flag_values) (name : string) : option bool :=
  if Changed v name then Some (bool_flag v name) else None.
Definition collectVerboseFlag (v : flag_values) : option bool := collectChangedBool v "verbose".
Definition collectOptionalNumericFlags (v : flag_values) : option Z * option Z :=
  (if Changed v "idle-timeout" then Some (dur_flag v "idle-timeout") else None,
   if Changed v "dial-retries" then Some (int_flag v "dial-retries") else None).

Definition collectFlags (v : flag_values) : FlagSet :=
  let '(idle, retries) := collectOptionalNumericFlags v in
  {|
    f_Target := str_flag v "target";
    f_SOCKS5Addr := str_flag v "socks5";
    f_SOCKS5Routes := list_flag v "route";
    f_AuthKey := str_flag v "auth-key";
    f_AuthKeyFile := str_flag v "auth-key-file";
    f_ProfileAuthKey := "";
    f_Instance := str_flag v "instance";
    f_LocalAddr := str_flag v "local-addr";
    f_Hostname := str_flag v "hostname";
    f_StateDir := str_flag v "state-dir";
    f_ControlURL := str_flag v "control-url";
    f_BootstrapSSH := str_flag v "bootstrap-ssh";
    f_BootstrapSOCKSAddr := str_flag v "bootstrap-socks-addr";
    f_Timeout := dur_flag v "timeout";
    f_DialTimeout := dur_flag v "dial-timeout";
    f_DrainTimeout := dur_flag v "drain-timeout";
    f_IdleTimeout := idle;
    f_MaxConns := int64_flag v "max-conns";
    f_DialRetries := retries;
    f_DialBackoffBase := dur_flag v "dial-backoff-base";
    f_DialBackoffMax := dur_flag v "dial-backoff-max";
    f_HealthAddr := str_flag v "health-addr";
    f_LogFormat := str_flag v "log-format";
    f_ManualMode := bool_flag v "manual-mode";
    f_PortRange := str_flag v "port-range";
    f_Config := str_flag v "config";
    f_Reset := bool_flag v "reset";
    f_HealthAllowRemote := collectChangedBool v "health-allow-remote";
    f_Verbose := collectVerboseFlag v;
  |}.

(** * The auth key file *)

Inductive key_file : Type :=
  | KeyAbsFails | KeyStatFails | KeyReadFails
  | KeyData (perm : Z) (data : string).

Inductive key_file_error : Type := KeyPath | KeyStat | KeyRead | KeyFileEmpty | KeyLineBreak.

Definition trimTrailingNewline (s : string) : string := trim_right line_break s.

(** The key, and whether the loose permissions are warned about. *)
Definition readAuthKeyFile (windows : bool) (f : key_file) : bool * result key_file_error string :=
  match f with
  | KeyAbsFails => (false, Err KeyPath)
  | KeyStatFails => (false, Err KeyStat)
  | KeyReadFails => (false, Err KeyRead)
  | KeyData perm data =>
      (negb windows && negb (Z.land perm 63 =? 0)%Z,
       let key := trimTrailingNewline data in
       if bool_decide (key = "") then Err KeyFileEmpty
       else if str_any line_break key then Err KeyLineBreak
       else Ok key)
  end.

(** * The profile *)

Inductive connect_error : Type :=
  | KeyFileError (e : key_file_error)
  | DotEnvError (e : env_file_error)
  | YAMLLoadFailed
  | ProfileLoadError (name : string) (e : profile_error)
  | CredentialElsewhere (layer : string)
  | CredentialLoadError (name : string) (e : cred_error)
  | MergeError (e : merge_error) (hint : bool)
  | HealthListener (e : health_error)
  | ProfileLockError.

(** The environment of a run. [yamlConfig] is what reading the YAML file gives. *)
Record connect_world : Type := mkWorld {
  host : machine;
  keyFileAt : string -> key_file;
  dotEnv : env_file;
  yamlConfig : string -> option PartialConfig;
  getProfile : string -> result profile_error Profile;
  getCredential : string -> result cred_error string;
  lockProfile : string -> bool;
}.

(** Filling the empty fields of the YAML layer. *)
Definition orProfile (dst value : string) : string := if bool_decide (dst = "") then value else dst.

Definition applyProfileRuntime (y : PartialConfig) (selected : Profile) : PartialConfig :=
  let s := Settings selected in
  mkPartial (y_Version y) (y_Target y)
    (orProfile (y_LocalAddr y) (ProfileStore.LocalAddr s))
    (y_SOCKS5Addr y) (y_SOCKS5Routes y)
    (orProfile (y_Hostname y) (ProfileStore.Hostname s))
    (y_ControlURL y)
    (orProfile (y_BootstrapSSH y) (ProfileStore.BootstrapSSH s))
    (orProfile (y_BootstrapSOCKSAddr y) (ProfileStore.BootstrapSOCKSAddr s))
    (orProfile (y_StateDir y) (ProfileStore.StateDir s))
    (orProfile (y_HealthAddr y) (ProfileStore.HealthAddr s))
    (y_LogFormat y) (y_AuthKey y) (y_Timeout y) (y_DialTimeout y) (y_DrainTimeout y) (y_IdleTimeout y)
    (y_DialRetries y) (y_DialBackoffBase y) (y_DialBackoffMax y) (y_MaxConnections y) (y_AutoInstance y).

Definition set_y_target_url (target url : string) (y : PartialConfig) : PartialConfig :=
  mkPartial (y_Version y) target (y_LocalAddr y) (y_SOCKS5Addr y) (y_SOCKS5Routes y) (y_Hostname y) url
    (y_BootstrapSSH y) (y_BootstrapSOCKSAddr y) (y_StateDir y) (y_HealthAddr y) (y_LogFormat y) (y_AuthKey y)
    (y_Timeout y) (y_DialTimeout y) (y_DrainTimeout y) (y_IdleTimeout y) (y_DialRetries y) (y_DialBackoffBase y)
    (y_DialBackoffMax y) (y_MaxConnections y) (y_AutoInstance y).

(** The flags with an auth key of their own and a profile's. *)
Definition set_keys (key profileKey : string) (f : FlagSet) : FlagSet :=
  mkFlags (f_Target f) (f_SOCKS5Addr f) (f_SOCKS5Routes f) key (f_AuthKeyFile f) profileKey (f_Instance f)
    (f_LocalAddr f) (f_Hostname f) (f_StateDir f) (f_ControlURL f) (f_BootstrapSSH f) (f_BootstrapSOCKSAddr f)
    (f_Timeout f) (f_DialTimeout f) (f_DrainTimeout f) (f_IdleTimeout f) (f_MaxConns f) (f_DialRetries f)
    (f_DialBackoffBase f) (f_DialBackoffMax f) (f_HealthAddr f) (f_LogFormat f) (f_ManualMode f) (f_PortRange f)
    (f_Config f) (f_Reset f) (f_HealthAllowRemote f) (f_Verbose f).

(** The control URL a layer above the profile sets, trimmed, and that layer. *)
Definition overridingControlURL (en : environment) (f : FlagSet) (y : PartialConfig) : string * string :=
  match List.find (fun c => negb (bool_decide (c.1 = "")))
          [(f_ControlURL f, "--control-url"); (Getenv en "TS_CONTROL_URL", "TS_CONTROL_URL (environment or ./.env)");
           (y_ControlURL y, "the YAML config")] with
  | Some (value, layer) => (TrimSpace value, layer)
  | None => ("", "")
  end.

Section Connect.
Context `{UrlPackage}.

Definition loadCommandProfile (w : connect_world) (name : string) : result connect_error Profile :=
  if bool_decide (name = "") then Ok zeroEntry else map_err (ProfileLoadError name) (getProfile w name).

Definition loadManagedProfileCredential (w : connect_world) (selected : Profile) : result connect_error string :=
  if bool_decide (CredentialName selected = "") then Ok ""
  else map_err (CredentialLoadError (CredentialName selected)) (getCredential w (CredentialName selected)).

Definition loadBoundProfileCredential (w : connect_world) (en : environment) (selected : Profile)
    (f : FlagSet) (y : PartialConfig) : result connect_error string :=
  if bool_decide (CredentialName selected = "") then Ok ""
  else
    let '(resolved, layer) := overridingControlURL en f y in
    if negb (bool_decide (layer = "")) && negb (SameControlURL resolved (ProfileStore.ControlURL selected))
    then Err (CredentialElsewhere layer)
    else loadManagedProfileCredential w selected.

(** The YAML layer and the flags with the profile under them, and its target. *)
Definition applyConnectProfile (w : connect_world) (en : environment) (y : PartialConfig) (f : FlagSet) (name : string)
    : result connect_error (PartialConfig * FlagSet * string) :=
  selected ← loadCommandProfile w name;
  f ← (if bool_decide (f_AuthKey f = "") && bool_decide (f_AuthKeyFile f = "")
          && bool_decide (Getenv en "TS_AUTHKEY" = "")
       then key ← loadBoundProfileCredential w en selected f y; Ok (set_keys (f_AuthKey f) key f)
       else Ok f);
  let y := set_y_target_url (orProfile (y_Target y) (ProfileStore.Target selected))
             (orProfile (y_ControlURL y) (ProfileStore.ControlURL selected)) y in
  Ok (applyProfileRuntime y selected, f, ProfileStore.Target selected).

Definition withAuthSetHint (e : merge_error) (profileName : string) : connect_error :=
  MergeError e (negb (bool_decide (profileName = ""))
                && match e with ErrAuthKeyRequired => true | _ => false end).

Definition set_env (en : environment) (m : machine) : machine :=
  mkMachine en (goos m) (osHostname m) (pid m) (tempDir m) (canListen m).
Definition set_Quiet (q : bool) (c : Config) : Config :=
  mkConfig (LocalAddr c) (SOCKS5Addr c) (SOCKS5Routes c) (Target c) (AuthKey c) (Hostname c) (StateDir c) (ControlURL c)
    (BootstrapSSH c) (BootstrapSOCKSAddr c) (ConnectTimeout c) (DialTimeout c) (DrainTimeout c) (IdleTimeout c)
    (DialRetries c) (DialBackoffBase c) (DialBackoffMax c) (MaxConnections c) (HealthAddr c) (HealthAllowRemote c)
    (Verbose c) q (LogFormat c) (AutoInstance c) (EphemeralState c).

(** [runConnect] up to the runner: the configuration the bridge is started with. *)
Definition runConnect (w : connect_world) (flags : FlagSet) (profileName : string) (quiet : bool)
    : result connect_error Config :=
  flags ← (if bool_decide (f_AuthKeyFile flags = "") then Ok flags
           else key ← map_err KeyFileError
                        (readAuthKeyFile (bool_decide (goos (host w) = "windows")) (keyFileAt w (f_AuthKeyFile flags))).2;
                Ok (set_keys key (f_ProfileAuthKey flags) flags));
  en ← map_err DotEnvError (Load (dotEnv w) (env (host w)));
  y ← (match yamlConfig w (f_Config flags) with Some y => Ok y | None => Err YAMLLoadFailed end);
  '(y, flags, _) ← applyConnectProfile w en y flags profileName;
  cfg ← (match Merge (set_env en (host w)) y flags with
         | Ok cfg => Ok cfg
         | Err e => Err (withAuthSetHint e profileName)
         end);
  _ ← map_err HealthListener (ValidateHealthListener cfg);
  _ ← fail_if (negb (bool_decide (profileName = "")) && negb (lockProfile w profileName)) ProfileLockError;
  Ok (set_Quiet quiet cfg).
End Connect.

(** * Comparing targets *)

Definition sameConnectHost (a b : string) : bool :=
  let '(addrA, zoneA, _) := Cut "%" a in
  let '(addrB, zoneB, _) := Cut "%" b in
  EqualFold addrA addrB && bool_decide (zoneA = zoneB).
Definition sameConnectTarget (a b : string) : bool :=
  match SplitHostPort a, SplitHostPort b with
  | Ok (hostA, portA), Ok (hostB, portB) => sameConnectHost hostA hostB && bool_decide (portA = portB)
  | _, _ => sameConnectHost a b
  end.

(** The layer the override warning names, when there is one. *)
Definition warnConnectTargetOverride (en : environment) (profileName profileTarget target flagTarget : string) : option string :=
  if bool_decide (profileName = "") || bool_decide (profileTarget = "") || bool_decide (target = "")
     || sameConnectTarget target profileTarget then None
  else if negb (bool_decide (flagTarget = "")) then Some "--target"
  else if negb (bool_decide (Getenv en "TS_TARGET" = "")) then Some "TS_TARGET"
  else Some "YAML".

(** * A profile from a configuration file *)

(** [importProfileConfig]: what the file gives replaces, the rest stays. *)
Definition importProfileConfig (imported : option Profile) (selected : Profile) : option Profile :=
  imported ← imported;
  let over value old := if bool_decide (value = "") then old else value in
  let i := Settings imported in
  let s := Settings selected in
  Some (mkProfile (over (ProfileStore.Target imported) (ProfileStore.Target selected))
    (over (ProfileStore.ControlURL imported) (ProfileStore.ControlURL selected)) (CredentialName selected)
    (mkRuntime (over (ProfileStore.BootstrapSSH i) (ProfileStore.BootstrapSSH s))
       (over (ProfileStore.BootstrapSOCKSAddr i) (ProfileStore.BootstrapSOCKSAddr s))
       (over (ProfileStore.Hostname i) (ProfileStore.Hostname s)) (over (ProfileStore.StateDir i) (ProfileStore.StateDir s))
       (over (ProfileStore.LocalAddr i) (ProfileStore.LocalAddr s)) (over (ProfileStore.HealthAddr i) (ProfileStore.HealthAddr s)))).

(** What decoding the file gives. *)
Inductive profile_doc : Type :=
  | DocUnreadable | DocBad | DocDecoded (version : Z) (p : Profile) (single : bool).
Definition readProfileConfig (d : profile_doc) : option Profile :=
  match d with
  | DocDecoded version p single =>
      if negb (version =? 0)%Z && negb (version =? 1)%Z then None
      else if negb single then None
      else Some (mkProfile (ProfileStore.Target p) (ProfileStore.ControlURL p) "" (Settings p))
  | _ => None
  end.

(** * The key file *)

Lemma trim_right_split cut s : exists t, s = trim_right cut s +:+ t /\ str_all cut t = true.
Proof.
  induction s as [|c s [t [IH Ht]]]; [by exists ""|]. cbn.
  destruct (trim_right cut s) as [|d r] eqn:E.
  - cbn in IH. subst t. destruct (cut c) eqn:Ec; [exists (String c s); cbn; by rewrite Ec|by exists s].
  - exists t. cbn in *. by rewrite IH at 1.
Qed.

(** What is read is the file's one line: not empty, with no line break, and only
    line breaks were dropped after it. *)
Theorem key_file_line windows f warned key :
  readAuthKeyFile windows f = (warned, Ok key) ->
  exists perm data rest, f = KeyData perm data /\ data = key +:+ rest /\ str_all line_break rest = true
    /\ key <> "" /\ str_any line_break key = false
    /\ (warned = true <-> windows = false /\ Z.land perm 63 <> 0%Z).
Proof.
  unfold readAuthKeyFile. destruct f as [| | |perm data]; [done..|]. cbn.
  case_bool_decide as He; [done|]. destruct (str_any line_break (trimTrailingNewline data)) eqn:Eb; [done|].
  intros [= <- <-]. destruct (trim_right_split line_break data) as (t & Ht & Hc).
  exists perm, data, t. split_and!; try done.
  rewrite andb_true_iff, !negb_true_iff, Z.eqb_neq. done.
Qed.

Lemma key_file_line_witness :
  readAuthKeyFile false (KeyData 416 ("tskey-auth-1" +:+ newline)) = (true, Ok "tskey-auth-1") /\ "tskey-auth-1" <> "".
Proof.
  assert (readAuthKeyFile false (KeyData 416 ("tskey-auth-1" +:+ newline)) = (true, Ok "tskey-auth-1")) as E by (vm_compute; reflexivity).
  split; [exact E|]. destruct (key_file_line _ _ _ _ E) as (? & ? & ? & _ & _ & _ & Hne & _). exact Hne.
Defined.

(** * Where the key comes from *)

Section KeySource.
Context `{UrlPackage}.

Lemma set_Quiet_same q c : AuthKey (set_Quiet q c) = AuthKey c /\ ControlURL (set_Quiet q c) = ControlURL c.
Proof. done. Qed.

(** The steps of a run that succeeds. *)
Lemma runConnect_Ok w f name quiet cfg :
  runConnect w f name quiet = Ok cfg ->
  exists key en y y' f' target c,
    (if bool_decide (f_AuthKeyFile f = "") then key = f_AuthKey f
     else (readAuthKeyFile (bool_decide (goos (host w) = "windows")) (keyFileAt w (f_AuthKeyFile f))).2 = Ok key)
    /\ Load (dotEnv w) (env (host w)) = Ok en
    /\ yamlConfig w (f_Config f) = Some y
    /\ applyConnectProfile w en y (set_keys key (f_ProfileAuthKey f) f) name = Ok (y', f', target)
    /\ Merge (set_env en (host w)) y' f' = Ok c
    /\ ValidateHealthListener c = Ok tt
    /\ (name <> "" -> lockProfile w name = true)
    /\ cfg = set_Quiet quiet c.
Proof.
  unfold runConnect. intros Hr. apply bind_Ok in Hr as (f1 & Hf & Hr). apply bind_Ok in Hr as (en & He%map_err_Ok & Hr).
  apply bind_Ok in Hr as (y & Hy & Hr). apply bind_Ok in Hr as ([[y1 f2] t] & Ha & Hr).
  apply bind_Ok in Hr as (c & Hc & Hr). apply bind_Ok in Hr as ([] & Hh%map_err_Ok & Hr).
  apply bind_Ok in Hr as ([] & Hl%fail_if_Ok & [= <-]).
  assert (exists key, f1 = set_keys key (f_ProfileAuthKey f) f
    /\ (if bool_decide (f_AuthKeyFile f = "") then key = f_AuthKey f
        else (readAuthKeyFile (bool_decide (goos (host w) = "windows")) (keyFileAt w (f_AuthKeyFile f))).2 = Ok key)) as (key & -> & Hkey).
  { destruct (bool_decide (f_AuthKeyFile f = "")).
    - injection Hf as <-. exists (f_AuthKey f). by destruct f.
    - apply bind_Ok in Hf as (key & Hk%map_err_Ok & [= <-]). by exists key. }
  exists key, en, y, y1, f2, t, c. split_and!; try done.
  - cbn [set_keys f_Config] in Hy. destruct (yamlConfig w (f_Config f)); [by injection Hy as <-|done].
  - destruct (Merge _ _ _); [by injection Hc as <-|done].
  - intros Hn. rewrite bool_decide_eq_false_2 in Hl by done. cbn in Hl. by apply negb_false_iff in Hl.
Qed.

(** What the profile gives the flags and the YAML layer. *)
Lemma applyConnectProfile_Ok w en y f name y' f' target :
  applyConnectProfile w en y f name = Ok (y', f', target) ->
  exists p, loadCommandProfile w name = Ok p
    /\ target = ProfileStore.Target p
    /\ y' = applyProfileRuntime (set_y_target_url (orProfile (y_Target y) (ProfileStore.Target p))
              (orProfile (y_ControlURL y) (ProfileStore.ControlURL p)) y) p
    /\ exists k, f' = set_keys (f_AuthKey f) k f
    /\ if bool_decide (f_AuthKey f = "") && bool_decide (f_AuthKeyFile f = "") && bool_decide (Getenv en "TS_AUTHKEY" = "")
       then loadBoundProfileCredential w en p f y = Ok k else k = f_ProfileAuthKey f.
Proof.
  unfold applyConnectProfile. intros Hr. apply bind_Ok in Hr as (p & Hp & Hr). apply bind_Ok in Hr as (f1 & Hf & Hr).
  injection Hr as <- <- <-. exists p. split_and!; try done.
  destruct (_ && _ && _).
  - apply bind_Ok in Hf as (k & Hk & [= <-]). by exists k.
  - injection Hf as <-. exists (f_ProfileAuthKey f). by destruct f.
Qed.

Lemma SameControlURL_trim url url' : SameControlURL (TrimSpace url) url' = SameControlURL url url'.
Proof. unfold SameControlURL. by rewrite normalizeControlURL_slash. Qed.

(** The credential that is loaded is the profile's, and every layer that sets a
    control URL sets the profile's own. *)
Lemma loadBound_Ok w en p f y k :
  loadBoundProfileCredential w en p f y = Ok k ->
  (CredentialName p = "" /\ k = "")
  \/ (CredentialName p <> "" /\ getCredential w (CredentialName p) = Ok k
      /\ SameControlURL (first_nonempty [f_ControlURL f; Getenv en "TS_CONTROL_URL";
            orProfile (y_ControlURL y) (ProfileStore.ControlURL p)] "") (ProfileStore.ControlURL p) = true).
Proof.
  unfold loadBoundProfileCredential, loadManagedProfileCredential, overridingControlURL, first_nonempty, orProfile.
  case_bool_decide as Hc; [by intros [= <-]; left|]. cbn [List.find List.filter fst].
  assert (forall url, SameControlURL url url = true) as Hrefl by (intros; by apply SameControlURL_spec).
  destruct (bool_decide_reflect (f_ControlURL f = "")); cbn;
    [|rewrite SameControlURL_trim; destruct (SameControlURL _ _) eqn:Es; cbn; [|done]; intros Hk%map_err_Ok; by right].
  destruct (bool_decide_reflect (Getenv en "TS_CONTROL_URL" = "")); cbn;
    [|rewrite SameControlURL_trim; destruct (SameControlURL _ _) eqn:Es; cbn; [|done]; intros Hk%map_err_Ok; by right].
  destruct (bool_decide_reflect (y_ControlURL y = "")) as [Hy|Hy]; cbn.
  - intros Hk%map_err_Ok. right. split; [done|]. split; [done|].
    case_bool_decide as Hu; cbn; [by rewrite Hu|done].
  - rewrite SameControlURL_trim. destruct (SameControlURL _ _) eqn:Es; cbn; [|done]. intros Hk%map_err_Ok. right.
    rewrite bool_decide_eq_false_2 by done. by cbn.
Qed.

Lemma merged_key m y f c :
  Merge m y f = Ok c -> AuthKey c <> "" /\ AuthKey c = first_nonempty [f_AuthKey f; Getenv (env m) "TS_AUTHKEY"; f_ProfileAuthKey f] "".
Proof.
  intros Hm%Merge_Ok. split; [|by apply (l_key _ _ _ _ (layered_of_layers _ _ _ _ Hm))].
  destruct (validateMergedProxyConfig_Ok _ (mf_proxy _ _ _ _ _ Hm) (apply_layers_mode _ _ _ (mf_modes _ _ _ _ _ Hm))) as [Hv _].
  rewrite (core_field AuthKey _ _ (mf_core _ _ _ _ _ Hm)) by done. intros E. rewrite E in Hv. discriminate Hv.
Qed.

(** Without a key file, a flag and a variable, the key is the managed credential of
    the selected profile, and the connection goes to that profile's plane. *)
Lemma runConnect_managed w f name quiet cfg en :
  runConnect w f name quiet = Ok cfg -> Load (dotEnv w) (env (host w)) = Ok en ->
  f_AuthKeyFile f = "" -> f_AuthKey f = "" -> Getenv en "TS_AUTHKEY" = "" ->
  exists p, getProfile w name = Ok p /\ getCredential w (CredentialName p) = Ok (AuthKey cfg)
    /\ SameControlURL (ControlURL cfg) (ProfileStore.ControlURL p) = true.
Proof.
  intros (key & en2 & y & y' & f' & target & c & Hkey & He2 & _ & Ha & Hm & _ & _ & ->)%runConnect_Ok He F1 F2 E.
  assert (en2 = en) as -> by congruence. rewrite F1, bool_decide_eq_true_2 in Hkey by done. rewrite F2 in Hkey. subst key.
  destruct (set_Quiet_same quiet c) as [-> ->].
  apply applyConnectProfile_Ok in Ha as (p & Hp & _ & Hy' & k & Hf' & Hk).
  cbn [f_AuthKey f_AuthKeyFile set_keys] in Hk. rewrite F1, E, !bool_decide_eq_true_2 in Hk by done. cbn [andb] in Hk.
  pose proof (merged_key _ _ _ _ Hm) as [Hne Hl]. pose proof (l_url _ _ _ _ (layered_of_layers _ _ _ _ (Merge_Ok _ _ _ _ Hm))) as Hu.
  assert (AuthKey c = k) as <-.
  { rewrite Hl, Hf'. apply (first_nonempty_silent [_; _]). by repeat constructor. }
  apply loadBound_Ok in Hk as [[_ Ec]|(Hn & Hg & Hs)]; [done|]. exists p. split; [|split; [done|]].
  - unfold loadCommandProfile in Hp. destruct (bool_decide (name = "")); [injection Hp as <-; by destruct Hn|].
    by apply map_err_Ok in Hp.
  - rewrite Hu, SameControlURL_trim. subst y' f'. exact Hs.
Qed.

(** C37: the key a connection uses: the key file's, else the flag's, else the
    environment's; only when none of them gives one, the managed credential of
    the selected profile, and then the connection goes to the profile's own
    control plane. *)
Theorem connect_key_source w f name quiet cfg :
  runConnect w f name quiet = Ok cfg ->
  exists en, Load (dotEnv w) (env (host w)) = Ok en
  /\ AuthKey cfg <> ""
  /\ if bool_decide (f_AuthKeyFile f = "") then
       if bool_decide (f_AuthKey f = "") then
         if bool_decide (Getenv en "TS_AUTHKEY" = "") then
           exists p, getProfile w name = Ok p /\ getCredential w (CredentialName p) = Ok (AuthKey cfg)
             /\ SameControlURL (ControlURL cfg) (ProfileStore.ControlURL p) = true
         else AuthKey cfg = Getenv en "TS_AUTHKEY"
       else AuthKey cfg = f_AuthKey f
     else (readAuthKeyFile (bool_decide (goos (host w) = "windows")) (keyFileAt w (f_AuthKeyFile f))).2 = Ok (AuthKey cfg).
Proof.
  intros Hr.
  pose proof Hr as (key & en & y & y' & f' & target & c & Hkey & He & _ & Ha & Hm & _ & _ & ->)%runConnect_Ok.
  exists en. split; [done|]. pose proof (merged_key _ _ _ _ Hm) as [Hne Hl]. destruct (set_Quiet_same quiet c) as [Eq _].
  rewrite Eq. split; [done|]. apply applyConnectProfile_Ok in Ha as (p & _ & _ & _ & k & Hf' & _). subst f'.
  cbn [f_AuthKey set_keys env set_env] in Hl. unfold first_nonempty in Hl. cbn [List.filter] in Hl.
  destruct (bool_decide_reflect (f_AuthKeyFile f = "")) as [Hkf|Hkf].
  - subst key. destruct (bool_decide_reflect (f_AuthKey f = "")) as [Hak|Hak]; [|exact Hl].
    destruct (bool_decide_reflect (Getenv en "TS_AUTHKEY" = "")) as [Ee|Ee]; [|exact Hl].
    rewrite <- Eq. by apply (runConnect_managed w f name quiet (set_Quiet quiet c) en).
  - rewrite Hkey. f_equal. symmetry. destruct (bool_decide_reflect (key = "")) as [->|]; [|exact Hl]. exfalso.
    destruct (keyFileAt w (f_AuthKeyFile f)) as [| | |perm data] in Hkey; try discriminate Hkey. cbn in Hkey.
    destruct (bool_decide_reflect (trimTrailingNewline data = "")); [discriminate Hkey|].
    destruct (str_any line_break (trimTrailingNewline data)); [discriminate Hkey|]. injection Hkey as ?. done.
Qed.
End KeySource.

(** * The profile is the lowest layer *)

Section Layers.
Context `{UrlPackage}.

Lemma first_nonempty_or a b l d : first_nonempty (a ++ [orProfile b l]) d = first_nonempty (a ++ [b; l]) d.
Proof.
  unfold first_nonempty, orProfile. rewrite !List.filter_app. cbn.
  destruct (bool_decide_reflect (b = "")) as [->|Hb]; cbn; [done|].
  rewrite bool_decide_eq_false_2 by done. by destruct (List.filter _ a).
Qed.

Lemma loadCommandProfile_Ok w name p :
  loadCommandProfile w name = Ok p <-> (name = "" /\ p = zeroEntry) \/ (name <> "" /\ getProfile w name = Ok p).
Proof.
  unfold loadCommandProfile. case_bool_decide as E; rewrite ?map_err_Ok; [|naive_solver].
  split; [intros [= <-]; by left|]. by intros [[_ ->]|[? _]].
Qed.

(** A profile's values are used where neither a flag, nor the environment, nor
    the YAML file gives one, and the profile is locked while it is used. *)
Theorem connect_profile_lowest w f name quiet cfg :
  runConnect w f name quiet = Ok cfg ->
  exists p en y, (name = "" /\ p = zeroEntry \/ name <> "" /\ getProfile w name = Ok p /\ lockProfile w name = true)
  /\ Load (dotEnv w) (env (host w)) = Ok en /\ yamlConfig w (f_Config f) = Some y
  /\ ControlURL cfg = TrimSpace (first_nonempty [f_ControlURL f; Getenv en "TS_CONTROL_URL"; y_ControlURL y; ProfileStore.ControlURL p] "")
  /\ HealthAddr cfg = first_nonempty [f_HealthAddr f; Getenv en "TS_HEALTH_ADDR"; y_HealthAddr y; ProfileStore.HealthAddr (Settings p)] ""
  /\ (forall h, first_nonempty [f_Hostname f; Getenv en "TS_HOSTNAME"; y_Hostname y; ProfileStore.Hostname (Settings p)] "" = h ->
        h <> "" -> Hostname cfg = h)
  /\ (forall a, first_nonempty [f_LocalAddr f; Getenv en "TS_LOCAL_ADDR"; y_LocalAddr y; ProfileStore.LocalAddr (Settings p)] "" = a ->
        a <> "" -> LocalAddr cfg = a)
  /\ (f_Target f = "" -> f_SOCKS5Addr f = "" -> Getenv en "TS_TARGET" = "" -> Getenv en "TS_SOCKS5_ADDR" = "" ->
      y_Target y = "" -> y_SOCKS5Addr y = "" -> Target cfg = ProfileStore.Target p /\ SOCKS5Addr cfg = "").
Proof.
  intros (key & en & y & y' & f' & target & c & _ & He & Hy & Ha & Hm & _ & Hl & ->)%runConnect_Ok.
  apply applyConnectProfile_Ok in Ha as (p & Hp & _ & Hy' & k & Hf' & _).
  pose proof (Merge_Ok _ _ _ _ Hm) as M. pose proof (layered_of_layers _ _ _ _ M) as L.
  exists p, en, y. split; [apply loadCommandProfile_Ok in Hp as [?|[? ?]]; [by left|right; auto]|].
  split; [done|]. split; [done|].
  pose proof (l_url _ _ _ _ L) as Hu. pose proof (l_health _ _ _ _ L) as Hh. pose proof (fun h => layered_hostname _ _ _ _ h L) as Hn.
  pose proof (fun a => layered_local _ _ _ _ a L) as Hla. pose proof (l_mode _ _ _ _ L) as Hmode.
  subst f' y'. cbn [f_ControlURL f_HealthAddr f_Hostname f_LocalAddr f_Target f_SOCKS5Addr set_keys
    y_ControlURL y_HealthAddr y_Hostname y_LocalAddr y_Target y_SOCKS5Addr applyProfileRuntime set_y_target_url
    ControlURL HealthAddr Hostname LocalAddr Target SOCKS5Addr set_Quiet env set_env] in *.
  split; [rewrite Hu; f_equal; apply (first_nonempty_or [_; _])|].
  split; [rewrite Hh; apply (first_nonempty_or [_; _])|].
  split; [intros h <- Hne; apply Hn; [apply (first_nonempty_or [_; _])|done]|].
  split; [intros a <- Hne; apply Hla; [apply (first_nonempty_or [_; _])|done]|].
  intros E1 E2 E3 E4 E5 E6. rewrite E1, E2, E3, E4, E5, E6 in Hmode. unfold orProfile in Hmode. cbn in Hmode.
  destruct (bool_decide_reflect (ProfileStore.Target p = "")) as [Ht|Ht].
  - rewrite Ht in Hmode. cbn in Hmode. injection Hmode as -> ->. by rewrite Ht.
  - unfold mode_of in Hmode. rewrite (bool_decide_eq_false_2 (ProfileStore.Target p = "")) in Hmode by done.
    cbn in Hmode. by injection Hmode as -> ->.
Qed.

(** The YAML file does not take precedence over a profile's target: when it asks
    for a SOCKS5 listener instead, the two are refused as one layer's. *)
Theorem yaml_socks5_refuses_profile_target w f name quiet y en p :
  f_AuthKeyFile f = "" -> f_AuthKey f <> "" ->
  Load (dotEnv w) (env (host w)) = Ok en -> yamlConfig w (f_Config f) = Some y ->
  name <> "" -> getProfile w name = Ok p -> ProfileStore.Target p <> "" ->
  y_AuthKey y = "" -> y_Target y = "" -> y_SOCKS5Addr y <> "" ->
  runConnect w f name quiet = Err (MergeError (BothModes "YAML config") false).
Proof.
  intros Hkf Hk He Hy Hn Hp Ht Hyk Hyt Hys. unfold runConnect.
  rewrite (bool_decide_eq_true_2 (f_AuthKeyFile f = "")) by done. cbn [mbind result_bind]. rewrite He. cbn [map_err mbind result_bind].
  rewrite Hy. cbn [mbind result_bind]. unfold applyConnectProfile, loadCommandProfile.
  rewrite (bool_decide_eq_false_2 (name = "")), Hp by done. cbn [map_err mbind result_bind].
  rewrite (bool_decide_eq_false_2 (f_AuthKey f = "")) by done. cbn [andb mbind result_bind].
  unfold Merge, validateYAMLAuthKey, validateModeInputs, validateModeLayer.
  cbn [y_AuthKey y_Target y_SOCKS5Addr applyProfileRuntime set_y_target_url]. rewrite Hyk. cbn [fail_if mbind result_bind negb].
  rewrite (bool_decide_eq_true_2 ("" = "")) by done. cbn [fail_if mbind result_bind negb].
  unfold orProfile. rewrite Hyt, (bool_decide_eq_true_2 ("" = "")) by done.
  rewrite (bool_decide_eq_false_2 (ProfileStore.Target p = "")), (bool_decide_eq_false_2 (y_SOCKS5Addr y = "")) by done.
  cbn. unfold withAuthSetHint. by rewrite andb_false_r.
Qed.
End Layers.

(** * A run *)

Definition demo_profile : Profile :=
  mkProfile "office:3389" "https://hs.example.com" "work" (mkRuntime "" "" "laptop" "" "" "").
Definition demo_world (vars : environment) (y : PartialConfig) : connect_world :=
  mkWorld (demo_merge_machine vars) (fun _ => KeyReadFails) EnvMissing (fun _ => Some y)
    (fun n => if bool_decide (n = "office") then Ok demo_profile else Err (ErrNotFound n))
    (fun n => if bool_decide (n = "work") then Ok "hskey-auth-1" else Err ReadMissing) (fun _ => true).
Definition demo_connected : Config :=
  match @runConnect simpleUrl (demo_world ∅ no_yaml) no_flags "office" false with Ok c => c | Err _ => defaults end.

Lemma demo_connected_ok : @runConnect simpleUrl (demo_world ∅ no_yaml) no_flags "office" false = Ok demo_connected.
Proof.
  unfold demo_connected.
  assert (Hok : is_ok (@runConnect simpleUrl (demo_world ∅ no_yaml) no_flags "office" false) = true) by (vm_compute; reflexivity).
  by destruct (@runConnect simpleUrl (demo_world ∅ no_yaml) no_flags "office" false).
Qed.

Lemma connect_key_source_witness :
  AuthKey demo_connected = "hskey-auth-1"
  /\ @SameControlURL simpleUrl (ControlURL demo_connected) (ProfileStore.ControlURL demo_profile) = true.
Proof.
  split; [vm_compute; reflexivity|].
  destruct (@connect_key_source simpleUrl _ _ _ _ _ demo_connected_ok) as (en & He & _ & Hk).
  injection He as <-. destruct Hk as (p & Hp & _ & Hs). injection Hp as <-. exact Hs.
Defined.

Lemma connect_profile_lowest_witness :
  Target demo_connected = "office:3389" /\ Hostname demo_connected = "laptop"
  /\ HealthAddr demo_connected = "".
Proof.
  split; [vm_compute; reflexivity|]. split; [vm_compute; reflexivity|].
  destruct (@connect_profile_lowest simpleUrl _ _ _ _ _ demo_connected_ok) as (p & en & y & Hp & He & Hy & _ & Hh & _).
  injection He as <-. injection Hy as <-. destruct Hp as [[Hn _]|(_ & Hp & _)]; [discriminate Hn|].
  injection Hp as <-. rewrite Hh. reflexivity.
Defined.

(** The key is refused to another control plane. *)
Example key_not_sent_elsewhere :
  @runConnect simpleUrl (demo_world {[ "TS_CONTROL_URL" := "https://evil.example" ]} no_yaml) no_flags "office" false
  = Err (CredentialElsewhere "TS_CONTROL_URL (environment or ./.env)").
Proof. vm_compute. reflexivity. Qed.

Definition socks_yaml : PartialConfig :=
  mkPartial 1 "" "" "127.0.0.1:1080" ∅ "" "" "" "" "" "" "" "" 0 0 0 0 0 0 0 0 None.
Lemma yaml_socks5_refuses_profile_target_witness :
  @runConnect simpleUrl (demo_world ∅ socks_yaml) (set_keys "hskey-auth-1" "" no_flags) "office" false
  = Err (MergeError (BothModes "YAML config") false).
Proof.
  apply (@yaml_socks5_refuses_profile_target simpleUrl _ _ _ _ socks_yaml ∅ demo_profile); done.
Defined.

(** * Comparing targets *)

(** A command without flags overrides nothing, the numeric ones included. *)
Lemma collectFlags_unset v :
  (forall n, str_flag v n = "") -> (forall n, list_flag v n = []) -> (forall n, dur_flag v n = 0%Z) ->
  (forall n, int_flag v n = 0%Z) -> (forall n, int64_flag v n = 0%Z) -> (forall n, bool_flag v n = false) -> (forall n, Changed v n = false) ->
  collectFlags v = no_flags.
Proof.
  intros H1 H2 H3 H4 H4' H5 H6. unfold collectFlags, collectOptionalNumericFlags, collectVerboseFlag, collectChangedBool.
  by rewrite !H6, !H1, !H2, !H3, !H4', !H5.
Qed.

#[export] Instance sameConnectHost_equiv : Equivalence (fun a b => sameConnectHost a b = true).
Proof.
  unfold sameConnectHost, EqualFold. split.
  - intros a. destruct (Cut "%" a) as [[x y] z]. by rewrite !bool_decide_eq_true_2.
  - intros a b. destruct (Cut "%" a) as [[x y] z], (Cut "%" b) as [[x' y'] z'].
    rewrite !andb_true_iff, !bool_decide_eq_true. intros [-> ->]. done.
  - intros a b c. destruct (Cut "%" a) as [[x y] z], (Cut "%" b) as [[x' y'] z'], (Cut "%" c) as [[x'' y''] z''].
    rewrite !andb_true_iff, !bool_decide_eq_true. intros [-> ->] [-> ->]. done.
Qed.

(** A warning is given only for a selected profile with a target another layer
    moved the connection away from, and it names a layer that did. *)
Theorem override_warning en name profileTarget target flagTarget source :
  warnConnectTargetOverride en name profileTarget target flagTarget = Some source ->
  name <> "" /\ profileTarget <> "" /\ sameConnectTarget target profileTarget = false /\ target <> profileTarget
  /\ (source = "--target" <-> flagTarget <> "")
  /\ (source = "TS_TARGET" <-> flagTarget = "" /\ Getenv en "TS_TARGET" <> "").
Proof.
  unfold warnConnectTargetOverride.
  destruct (_ || _ || _ || _) eqn:E; [done|]. rewrite !orb_false_iff in E. destruct E as [[[E1 E2] E3] E4].
  apply bool_decide_eq_false in E1, E2, E3.
  assert (target <> profileTarget) as Hne.
  { intros ->. assert (forall a, sameConnectHost a a = true) as Hr by (intros a; apply sameConnectHost_equiv).
    unfold sameConnectTarget in E4. destruct (SplitHostPort profileTarget) as [[h p]|]; rewrite ?Hr in E4; [|done].
    by rewrite bool_decide_eq_true_2 in E4. }
  destruct (bool_decide_reflect (flagTarget = "")); cbn; [|intros [= <-]; split_and!; try done; split; [done|by intros [? _]]].
  destruct (bool_decide_reflect (Getenv en "TS_TARGET" = "")); cbn; intros [= <-]; split_and!; try done;
    split; try done; by intros [? ?].
Qed.

Lemma override_warning_witness :
  warnConnectTargetOverride {[ "TS_TARGET" := "b:1" ]} "office" "Office:3389" "b:1" "" = Some "TS_TARGET"
  /\ "b:1" <> "Office:3389".
Proof.
  assert (warnConnectTargetOverride {[ "TS_TARGET" := "b:1" ]} "office" "Office:3389" "b:1" "" = Some "TS_TARGET") as E
    by (vm_compute; reflexivity).
  split; [exact E|]. destruct (override_warning _ _ _ _ _ _ E) as (_ & _ & _ & Hne & _). exact Hne.
Defined.
