(* ===== verification/YamlFile.v ===== *)
(** The YAML configuration file (src/internal/config/yaml.go, LoadYAMLConfig of
    src/internal/config/merge.go): reading it, the warnings about loose
    permissions and unknown keys, and the refusal of a key in it.

    A document is what the YAML library makes of the bytes: the map of its top
    keys, in the order the code ranges over it, and the structure it decodes to. *)
From S2P Require Import Prelude GoStrings GoNet GoPath EnvFile Credential ControlUrl Config ConfigMerge ProfileStore Connect.

Open Scope bool_scope.

(** * The decoder *)

(** A value under a top key: [decodeYAML] asks only whether it is a string. *)
Inductive raw_value : Type := RawString (s : string) | RawOther.

(** [rawMap] is [None] where [yaml.Unmarshal] fails; [decodedDoc] is [None] where
    [Decode] does, as it does at the end of an empty file. *)
Record yaml_doc : Type := mkDoc { rawMap : option (list (string * raw_value)); decodedDoc : option PartialConfig }.

Inductive yaml_error : Type := YAMLUnreadable | YAMLUnparsable | YAMLAuthKeyInFile | YAMLUndecodable.
Inductive yaml_warning : Type := UnknownField (key : string) | LoosePermissions (perm : Z).

Definition knownFields : list string :=
  ["version"; "target"; "local_addr"; "socks5_addr"; "socks5_routes"; "hostname"; "control_url"; "bootstrap_ssh";
   "bootstrap_socks_addr"; "state_dir"; "health_addr"; "log_format"; "auth_key"; "timeout"; "dial_timeout";
   "drain_timeout"; "idle_timeout"; "dial_retries"; "dial_backoff_base"; "dial_backoff_max"; "max_connections"; "auto_instance"].

(** [raw[key]], of keys that are distinct. *)
Definition raw_at (raw : list (string * raw_value)) (key : string) : option raw_value :=
  snd <$> List.find (fun p => bool_decide (p.1 = key)) raw.

Definition unknownKeys (raw : list (string * raw_value)) : list string :=
  List.filter (fun key => negb (contains_word knownFields (ToLower key))) (map fst raw).

Definition decodeYAML (doc : yaml_doc) : list yaml_warning * result yaml_error PartialConfig :=
  match rawMap doc with
  | None => ([], Err YAMLUnparsable)
  | Some raw =>
      (map UnknownField (unknownKeys raw),
       match raw_at raw "auth_key" with
       | Some (RawString s) => if negb (bool_decide (s = "")) then Err YAMLAuthKeyInFile
                               else match decodedDoc doc with Some cfg => Ok cfg | None => Err YAMLUndecodable end
       | _ => match decodedDoc doc with Some cfg => Ok cfg | None => Err YAMLUndecodable end
       end)
  end.

(** * The file *)

(** What [os.ReadFile] and [os.Stat] answer: [None] is a failure. *)
Record yaml_file : Type := mkYamlFile { fileDoc : option yaml_doc; filePerm : option Z }.

Definition LoadYAMLConfig (goos : string) (files : string -> yaml_file) (path : string) : list yaml_warning * result yaml_error PartialConfig :=
  if bool_decide (path = "") then ([], Ok no_yaml)
  else
    match fileDoc (files path) with
    | None => ([], Err YAMLUnreadable)
    | Some doc =>
        let loose := if negb (bool_decide (goos = "windows")) then
                       match filePerm (files path) with
                       | Some perm => if negb (Z.land perm 63 =? 0)%Z then [LoosePermissions perm] else []
                       | None => []
                       end
                     else [] in
        (loose ++ (decodeYAML doc).1, (decodeYAML doc).2)
    end.

(** The YAML layer of a connection, from files. *)
Definition yamlLayer (goos : string) (files : string -> yaml_file) (path : string) : option PartialConfig :=
  match (LoadYAMLConfig goos files path).2 with Ok y => Some y | Err _ => None end.

(** * Facts *)

Lemma raw_at_Some raw key v : raw_at raw key = Some v -> (key, v) ∈ raw.
Proof.
  unfold raw_at. destruct (List.find _ raw) as [[k x]|] eqn:E; [|done]. cbn. intros [= ->].
  apply List.find_some in E as [Hin Hk]. cbn in Hk. apply bool_decide_eq_true in Hk as ->. by apply list_elem_of_In.
Qed.

Lemma decodeYAML_Ok doc warnings cfg :
  decodeYAML doc = (warnings, Ok cfg) ->
  exists raw, rawMap doc = Some raw /\ decodedDoc doc = Some cfg /\ warnings = map UnknownField (unknownKeys raw)
    /\ forall s, raw_at raw "auth_key" = Some (RawString s) -> s = "".
Proof.
  unfold decodeYAML. destruct (rawMap doc) as [raw|]; [|done]. intros [= <- Hr]. exists raw. split; [done|].
  destruct (raw_at raw "auth_key") as [[s|]|].
  - destruct (bool_decide_reflect (s = "")) as [Hs|]; [|done]. cbn in Hr. destruct (decodedDoc doc); [|done]. injection Hr as ->.
    split_and!; try done. intros s' [= <-]. exact Hs.
  - destruct (decodedDoc doc); [|done]. injection Hr as ->. by split_and!.
  - destruct (decodedDoc doc); [|done]. injection Hr as ->. by split_and!.
Qed.

Lemma yamlLayer_Some goos files path y :
  yamlLayer goos files path = Some y ->
  (path = "" /\ y = no_yaml)
  \/ exists doc raw, path <> "" /\ fileDoc (files path) = Some doc /\ rawMap doc = Some raw /\ decodedDoc doc = Some y
       /\ forall s, raw_at raw "auth_key" = Some (RawString s) -> s = "".
Proof.
  unfold yamlLayer, LoadYAMLConfig. case_bool_decide as Hp; [cbn; intros [= <-]; by left|].
  destruct (fileDoc (files path)) as [doc|] eqn:Ed; [|done]. cbn [snd].
  destruct (decodeYAML doc) as [warnings [cfg|e]] eqn:E; [|done]. intros [= ->].
  apply decodeYAML_Ok in E as (raw & ? & ? & _ & ?). right. by exists doc, raw.
Qed.

(** * Properties *)

Section Layers.
Context `{UrlPackage}.

(** A connection that reads a YAML file reads one that exists and decodes, and
    never one with an auth key in it: whatever the flags, the environment and the
    profile give, such a file stops it before anything is merged. *)
Theorem connect_refuses_yaml_key w files f name quiet cfg :
  yamlConfig w = yamlLayer (goos (host w)) files ->
  runConnect w f name quiet = Ok cfg -> f_Config f <> "" ->
  exists doc raw y, fileDoc (files (f_Config f)) = Some doc /\ rawMap doc = Some raw /\ decodedDoc doc = Some y
    /\ y_AuthKey y = ""
    /\ forall s, (("auth_key", RawString s) ∈ raw) -> NoDup (map fst raw) -> s = "".
Proof.
  intros Hw (key & en & y & y' & f' & target & c & _ & _ & Hy & Ha & Hm & _)%runConnect_Ok Hp. rewrite Hw in Hy.
  apply yamlLayer_Some in Hy as [[? _]|(doc & raw & _ & Hd & Hr & Hc & Hk)]; [done|].
  exists doc, raw, y. split; [done|]. split; [done|]. split; [done|]. split.
  - apply applyConnectProfile_Ok in Ha as (p & _ & _ & -> & _).
    unfold Merge in Hm. apply bind_Ok in Hm as ([] & Hv & _). unfold validateYAMLAuthKey in Hv.
    apply fail_if_Ok, negb_false_iff, bool_decide_eq_true in Hv. exact Hv.
  - intros s Hin Hnd. apply Hk. unfold raw_at. clear Hr Hk. induction raw as [|[k v] raw IH]; [by apply elem_of_nil in Hin|].
    cbn in Hnd. apply NoDup_cons in Hnd as [Hno Hnd]. cbn. case_bool_decide as Hkk.
    + apply elem_of_cons in Hin as [[= <- <-]|Hin]; [done|]. exfalso. apply Hno, list_elem_of_fmap. subst k. by exists ("auth_key", RawString s).
    + apply elem_of_cons in Hin as [[= <- <-]|Hin]; [done|]. by apply IH.
Qed.
End Layers.

(** What a decoder that matches keys exactly gives: a field whose key the map has
    not keeps its zero value. *)
Definition decodes_by_key (doc : yaml_doc) : Prop :=
  forall raw c, rawMap doc = Some raw -> decodedDoc doc = Some c ->
    (raw_at raw "target" = None -> y_Target c = "") /\ (raw_at raw "control_url" = None -> y_ControlURL c = "").

(** Every key that no field has, in any letter case, is warned about, in order;
    but a key that differs from a field's in letter case alone is neither warned
    about nor read: the setting is lost in silence. *)
Theorem unknown_keys_warned doc warnings cfg :
  decodeYAML doc = (warnings, Ok cfg) -> decodes_by_key doc ->
  exists raw, rawMap doc = Some raw
    /\ (forall key, UnknownField key ∈ warnings <-> key ∈ map fst raw /\ ~ ToLower key ∈ knownFields)
    /\ (forall key, key ∈ map fst raw -> ToLower key = "target" -> key <> "target" -> ~ UnknownField key ∈ warnings)
    /\ (raw_at raw "target" = None -> y_Target cfg = "").
Proof.
  intros (raw & Hr & Hc & -> & _)%decodeYAML_Ok Hd. exists raw. split; [done|].
  assert (forall key, UnknownField key ∈ map UnknownField (unknownKeys raw) <-> key ∈ map fst raw /\ ~ ToLower key ∈ knownFields) as Hk.
  { intros key. transitivity (key ∈ unknownKeys raw).
    - rewrite list_elem_of_fmap. split; [by intros (k & [= <-] & ?)|by exists key].
    - unfold unknownKeys. rewrite !list_elem_of_In, List.filter_In, negb_true_iff. unfold contains_word.
      by rewrite bool_decide_eq_false, list_elem_of_In. }
  split; [done|]. split.
  - intros key Hin Hl Hne [_ Hno]%Hk. apply Hno. rewrite Hl. right; left.
  - intros Ht. by apply (Hd _ _ Hr Hc).
Qed.

(** * Runs *)

Definition demo_yaml (raw : list (string * raw_value)) (c : PartialConfig) : yaml_file :=
  mkYamlFile (Some (mkDoc (Some raw) (Some c))) (Some 420%Z).
Definition shouted_raw : list (string * raw_value) := [("version", RawOther); ("Target", RawString "100.64.0.1:3389"); ("tarqet", RawString "x")].

(** A misspelt key is warned about, a shouted one is not; the file is world-readable. *)
Example shouted_key_lost :
  (LoadYAMLConfig "linux" (fun _ => demo_yaml shouted_raw no_yaml) "ts.yaml").1 = [LoosePermissions 420; UnknownField "tarqet"].
Proof. vm_compute. reflexivity. Qed.

(** An empty file, of which the decoder says that it ended, is refused; so is a
    file that is not there. *)
Example empty_file_refused :
  LoadYAMLConfig "windows" (fun _ => mkYamlFile (Some (mkDoc (Some []) None)) None) "ts.yaml" = ([], Err YAMLUndecodable)
  /\ LoadYAMLConfig "linux" (fun _ => mkYamlFile None None) "ts.yaml" = ([], Err YAMLUnreadable).
Proof. vm_compute. auto. Qed.

Lemma unknown_keys_warned_witness :
  UnknownField "tarqet" ∈ (decodeYAML (mkDoc (Some shouted_raw) (Some no_yaml))).1
  /\ ~ UnknownField "Target" ∈ (decodeYAML (mkDoc (Some shouted_raw) (Some no_yaml))).1.
Proof.
  destruct (decodeYAML (mkDoc (Some shouted_raw) (Some no_yaml))) as [ws r] eqn:E.
  assert (r = Ok no_yaml) as -> by (vm_compute in E; by injection E as _ <-).
  destruct (unknown_keys_warned _ _ _ E) as (raw & [= <-] & Hk & Hs & _).
  { intros raw c [= <-] [= <-]. split; reflexivity. }
  split; [apply Hk|apply Hs]; [split; [right; right; left|]| |reflexivity|discriminate].
  - intros H. apply (bool_decide_spec (_ ∈ _)) in H. by vm_compute in H.
  - right; left.
Defined.

Definition yaml_world : connect_world :=
  mkWorld (demo_merge_machine ∅) (fun _ => KeyReadFails) EnvMissing
    (yamlLayer (goos (demo_merge_machine ∅)) (fun _ => demo_yaml [("version", RawOther); ("auth_key", RawString "")] no_yaml))
    (fun n => if bool_decide (n = "office") then Ok demo_profile else Err (ErrNotFound n))
    (fun n => if bool_decide (n = "work") then Ok "hskey-auth-1" else Err ReadMissing) (fun _ => true).
Definition config_flags : FlagSet :=
  mkFlags "" "" [] "" "" "" "" "" "" "" "" "" "" 0 0 0 None 0 None 0 0 "" "" false "" "ts.yaml" false None None.

Lemma connect_refuses_yaml_key_witness :
  exists cfg, @runConnect simpleUrl yaml_world config_flags "office" false = Ok cfg
    /\ exists doc raw, rawMap doc = Some raw /\ forall s, ("auth_key", RawString s) ∈ raw -> NoDup (map fst raw) -> s = "".
Proof.
  assert (is_ok (@runConnect simpleUrl yaml_world config_flags "office" false) = true) as Hok by (vm_compute; reflexivity).
  destruct (@runConnect simpleUrl yaml_world config_flags "office" false) as [cfg|] eqn:E; [|discriminate].
  exists cfg. split; [reflexivity|].
  destruct (@connect_refuses_yaml_key simpleUrl yaml_world (fun _ => demo_yaml [("version", RawOther); ("auth_key", RawString "")] no_yaml)
    config_flags "office" false cfg eq_refl E ltac:(discriminate)) as (doc & raw & y & _ & Hr & _ & _ & Hs).
  exists doc, raw. split; [exact Hr|exact Hs].
Defined.

(** With a key in the file the same connection is refused. *)
Example yaml_key_refused :
  yamlLayer "linux" (fun _ => demo_yaml [("auth_key", RawString "tskey-auth-x")] no_yaml) "ts.yaml" = None.
Proof. vm_compute. reflexivity. Qed.
