(* ===== verification/Signals.v ===== *)
(** The command's lifecycle lines, exit status and arguments (src/cmd/cli/signal.go,
    exit.go, args.go): what a calling program reads of a run. *)
From S2P Require Import Prelude GoStrings GoErr.
From Stdlib Require Import Ascii.

(** * Lifecycle lines *)

Definition reasonBadAuthKey := "bad_authkey".
Definition reasonControlPlaneUnreachable := "control_plane_unreachable".
Definition reasonSSHBootstrapFailed := "ssh_bootstrap_failed".
Definition reasonNodeNotTagged := "node_not_tagged".
Definition reasonPublishFailed := "publish_failed".
Definition reasonUnknown := "unknown".

Definition formatReadyLine (localAddr target : string) : string :=
  "READY local=" +:+ localAddr +:+ " target=" +:+ target.

Definition quoted (s : string) : string := String dquote s +:+ String dquote "".
Definition formatErrorLine (reason detail : string) : string :=
  "ERROR reason=" +:+ reason +:+ " detail=" +:+ quoted detail.

(** The five replacements, in the source's order. *)
Definition collapse (s : string) : string :=
  ReplaceAll (ReplaceAll (ReplaceAll s (String "013" newline) " ") newline " ") (String "013" "") " ".
Definition backslashed (s : string) : string :=
  ReplaceAll (ReplaceAll s (String bslash "") (String bslash (String bslash "")))
             (String dquote "") (String bslash (String dquote "")).
Definition escapeSignalDetail (s : string) : string := TrimSpace (backslashed (collapse s)).

(** What is written to the stream. *)
Definition emitReady (localAddr target : string) : string := formatReadyLine localAddr target +:+ newline.
Definition emitReadyIfActive (cause : option goerr) (localAddr target : string) : result goerr string :=
  match cause with Some c => Err c | None => Ok (emitReady localAddr target) end.
Definition emitError (reason detail : string) : string :=
  formatErrorLine reason (escapeSignalDetail detail) +:+ newline.

(** * Exit status *)

(** A command's error: plain, wrapped, or carrying an exit status. *)
Inductive cmd_error : Type :=
  | CmdError (text : string)
  | CmdWrapped (text : string) (e : cmd_error)
  | ExitError (Code : Z) (e : cmd_error).

(** [errors.As] with an [ExitError]: the outermost in the chain. *)
Fixpoint asExitError (e : cmd_error) : option Z :=
  match e with
  | CmdError _ => None
  | CmdWrapped _ e' => asExitError e'
  | ExitError code _ => Some code
  end.
Definition ExitCode (err : option cmd_error) : Z :=
  match err with None => 0 | Some e => default 1%Z (asExitError e) end.

(** * Arguments *)

(** The loop of [NormalizeArgs] at index [i]; out of range it has ended. *)
Fixpoint normalizeLoop (fuel i : nat) (out : list string) : list string :=
  match fuel with
  | O => out
  | S k =>
      match out !! i with
      | None => out
      | Some a => normalizeLoop k (S i) (if bool_decide (a = "-v") then <[i := "--verbose"]> out else out)
      end
  end.
Definition NormalizeArgs (argv : list string) : list string := normalizeLoop (length argv) 1 argv.

Definition LegacyVersionRequested (argv : list string) : bool :=
  existsb (fun a => bool_decide (a = "-version") || bool_decide (a = "--version")) (tail argv).

(** * A reader of the lines *)

(** A quoted field to its closing quote, which ends the line; a backslash takes
    the next byte as it is. *)
Fixpoint read_quoted (s : string) : option string :=
  match s with
  | "" => None
  | String c r =>
      if eqc c dquote then (if bool_decide (r = "") then Some "" else None)
      else if eqc c bslash then match r with "" => None | String d r' => String d <$> read_quoted r' end
      else String c <$> read_quoted r
  end.

(** The reason and the detail of an ERROR line. *)
Definition read_error_line (line : string) : option (string * string) :=
  if negb (HasPrefix line "ERROR reason=") then None else
  let '(reason, rest, _) := Cut " " (str_drop 13 line) in
  if negb (HasPrefix rest (String.append "detail=" (String dquote ""))) then None else
  (fun d => (reason, d)) <$> read_quoted (str_drop 8 rest).

(** * Escaping *)

Definition escaped (c : ascii) : string :=
  if eqc c bslash then String bslash (String bslash "")
  else if eqc c dquote then String bslash (String dquote "")
  else String c "".

#[local] Arguments backslashed : simpl never.
#[local] Arguments collapse : simpl never.

Lemma backslashed_cons c r : backslashed (String c r) = escaped c +:+ backslashed r.
Proof.
  unfold backslashed, escaped. rewrite ReplaceAll_byte. destruct (eqc c bslash) eqn:E.
  - change (String bslash (String bslash "") +:+ ?x) with (String bslash (String bslash x)). by rewrite !ReplaceAll_byte.
  - change (String c "" +:+ ?x) with (String c x). by rewrite ReplaceAll_byte.
Qed.

Lemma read_quoted_backslashed s : read_quoted (backslashed s +:+ String dquote "") = Some s.
Proof.
  induction s as [|c r IH]; [done|]. rewrite backslashed_cons, str_app_assoc. unfold escaped.
  destruct (eqc c bslash) eqn:E; [apply eqc_true in E as ->; cbn; by rewrite IH|].
  destruct (eqc c dquote) eqn:E'; [apply eqc_true in E' as ->; cbn; by rewrite IH|].
  cbn [String.append read_quoted]. by rewrite E, E', IH.
Qed.

(** Escaping moves no white space and adds none, so trimming before is trimming after. *)
Lemma escaped_space c : is_space c = true -> escaped c = String c "".
Proof.
  intros H. unfold escaped. destruct (eqc c bslash) eqn:E; [by apply eqc_true in E as ->|].
  by destruct (eqc c dquote) eqn:E'; [apply eqc_true in E' as ->|].
Qed.

Lemma escaped_solid c : is_space c = false ->
  exists d r, escaped c = String d r /\ is_space d = false /\ str_any is_space r = false.
Proof.
  intros H. unfold escaped. destruct (eqc c bslash); [by eexists _, _|]. destruct (eqc c dquote); [by eexists _, _|].
  by exists c, "".
Qed.

Lemma backslashed_empty s : backslashed s = "" <-> s = "".
Proof.
  split; [|by intros ->]. destruct s as [|c r]; [done|]. rewrite backslashed_cons.
  destruct (is_space c) eqn:E; [by rewrite escaped_space|]. by destruct (escaped_solid c E) as (d & r' & -> & _).
Qed.

Lemma trim_left_backslashed s : trim_left is_space (backslashed s) = backslashed (trim_left is_space s).
Proof.
  induction s as [|c r IH]; [done|]. rewrite backslashed_cons. cbn [trim_left]. destruct (is_space c) eqn:E.
  - rewrite escaped_space by done. cbn. by rewrite E.
  - rewrite backslashed_cons. destruct (escaped_solid c E) as (d & r' & -> & Hd & _). cbn. by rewrite Hd.
Qed.

Lemma trim_right_solid a s : str_any is_space a = false ->
  trim_right is_space (a +:+ s) = a +:+ trim_right is_space s.
Proof.
  induction a as [|c a IH]; [done|]. cbn. rewrite orb_false_iff. intros [Hc Ha]. rewrite (IH Ha).
  destruct (a +:+ trim_right is_space s) eqn:E; [by rewrite Hc|]. done.
Qed.

Lemma trim_right_backslashed s : trim_right is_space (backslashed s) = backslashed (trim_right is_space s).
Proof.
  induction s as [|c r IH]; [done|]. rewrite backslashed_cons. destruct (is_space c) eqn:E.
  - rewrite escaped_space by done. cbn. rewrite IH, E. destruct (trim_right is_space r) as [|d r'] eqn:Er; [done|].
    destruct (backslashed (String d r')) eqn:Eb; [by apply (proj1 (backslashed_empty _)) in Eb|].
    by rewrite <- Eb, (backslashed_cons c), escaped_space.
  - cbn [trim_right]. destruct (escaped_solid c E) as (d & r' & He & Hd & Hr').
    assert (str_any is_space (escaped c) = false) as Hs by (rewrite He; cbn; by rewrite Hd, Hr').
    rewrite trim_right_solid, IH by done. destruct (trim_right is_space r) as [|d' r''] eqn:Er.
    + rewrite E, backslashed_cons. done.
    + by rewrite (backslashed_cons c).
Qed.

Lemma escapeSignalDetail_trims s : escapeSignalDetail s = backslashed (TrimSpace (collapse s)).
Proof.
  unfold escapeSignalDetail, TrimSpace, trim. by rewrite trim_left_backslashed, trim_right_backslashed.
Qed.

(** ** One line *)

Definition broken (s : string) : bool := str_any line_break s.

Lemma ReplaceAll_absent b b' new s :
  no_byte b' new = true -> (b' = b \/ no_byte b' s = true) -> no_byte b' (ReplaceAll s (String b "") new) = true.
Proof.
  intros Hn. induction s as [|c r IH]; intros H; [done|]. rewrite ReplaceAll_byte, no_byte_app, andb_true_iff.
  assert (b' = b \/ (eqc c b' = false /\ no_byte b' r = true)) as Hc.
  { destruct H as [->|H]; [by left|]. right. by apply andb_true_iff in H as [H%negb_true_iff ?]. }
  split; [|apply IH; by destruct Hc as [?|[_ ?]]; [left|right]].
  destruct (eqc c b) eqn:E; [done|]. unfold no_byte. cbn. rewrite andb_true_r, negb_true_iff.
  by destruct Hc as [->|[? _]].
Qed.

Lemma broken_no_byte s : broken s = negb (no_byte nl s && no_byte "013" s).
Proof.
  unfold broken. induction s as [|c r IH]; [done|]. unfold no_byte in *. cbn. rewrite IH. unfold line_break, nl.
  destruct (eqc c "010"), (eqc c "013"); cbn; try done; by rewrite ?andb_false_r.
Qed.

Lemma collapse_one_line s : broken (collapse s) = false.
Proof.
  rewrite broken_no_byte. unfold collapse, newline.
  rewrite !ReplaceAll_absent; [done|done|by left|done|]. right. by apply ReplaceAll_absent; [|left].
Qed.

Lemma backslashed_absent b s : eqc bslash b = false -> eqc dquote b = false ->
  no_byte b s = true -> no_byte b (backslashed s) = true.
Proof.
  intros Hb Hd Hs. unfold backslashed.
  assert (no_byte b (String bslash (String bslash "")) = true) as H1 by (unfold no_byte; cbn [str_all]; by rewrite Hb).
  assert (no_byte b (String bslash (String dquote "")) = true) as H2 by (unfold no_byte; cbn [str_all]; by rewrite Hb, Hd).
  apply ReplaceAll_absent; [done|]. right. apply ReplaceAll_absent; auto.
Qed.

Lemma escape_one_line s : broken (escapeSignalDetail s) = false.
Proof.
  pose proof (collapse_one_line s) as H. rewrite broken_no_byte in H |- *. rewrite escapeSignalDetail_trims.
  rewrite negb_false_iff, andb_true_iff in H |- *. destruct H as [H1 H2].
  by split; apply backslashed_absent; try done; apply str_all_trim.
Qed.

(** * The lines a caller reads *)

(** Whatever an error says, the command writes exactly one line for it, and a
    reader that takes a backslash before a quote or a backslash as an escape
    gets the reason and the error's text, its line breaks turned into spaces
    and its ends trimmed: no text can end the field, break the line, or forge
    another reason. *)
Theorem error_line_roundtrip reason detail :
  is_word reason = true ->
  let written := emitError reason detail in
  exists line, Cut nl written = (line, "", true)
    /\ read_error_line line = Some (reason, TrimSpace (collapse detail)).
Proof.
  unfold is_word. rewrite andb_true_iff, !negb_true_iff. intros [_ Hr]. cbv zeta.
  assert (forall b, is_space b = true -> no_byte b reason = true) as Hno.
  { intros b Hb. revert Hr. unfold no_byte. induction reason as [|c r IH]; [done|]. cbn.
    rewrite orb_false_iff, andb_true_iff. intros [Hc Hr]. split; [|by apply IH].
    rewrite negb_true_iff. apply eqc_false. by intros ->; rewrite Hb in Hc. }
  exists (formatErrorLine reason (escapeSignalDetail detail)). split.
  - unfold emitError, newline. rewrite Cut_app; [done|]. unfold formatErrorLine, quoted.
    pose proof (escape_one_line detail) as H. rewrite broken_no_byte, negb_false_iff, andb_true_iff in H.
    rewrite !no_byte_app, (Hno nl eq_refl). change (String dquote ?x) with (String dquote "" +:+ x).
    rewrite !no_byte_app. destruct H as [-> _]. done.
  - unfold read_error_line, formatErrorLine. rewrite HasPrefix_app. cbn [negb].
    change 13%nat with (len "ERROR reason="). rewrite str_drop_app.
    change (" detail=" +:+ ?x) with (String " " ("detail=" +:+ x)). rewrite Cut_app by by apply Hno.
    unfold quoted. cbn [String.append HasPrefix]. rewrite !eqc_refl. cbn [andb negb str_drop].
    assert (forall s, HasPrefix s "" = true) as -> by by intros [].
    cbn [negb]. by rewrite escapeSignalDetail_trims, read_quoted_backslashed.
Qed.

Lemma error_line_roundtrip_witness :
  let written := emitError reasonUnknown (String.append "C:\state\" newline) in
  exists line, Cut nl written = (line, "", true) /\ read_error_line line = Some (reasonUnknown, "C:\state\").
Proof. apply (error_line_roundtrip reasonUnknown (String.append "C:\state\" newline)). reflexivity. Defined.

(** The READY line is three words of which the last two are the bound address
    and the target. *)
Lemma ready_line_words localAddr target :
  str_any is_space localAddr = false -> str_any is_space target = false ->
  Fields (formatReadyLine localAddr target) = ["READY"; "local=" +:+ localAddr; "target=" +:+ target].
Proof.
  intros Ha Ht. change (formatReadyLine localAddr target)
    with (Join ["READY"; "local=" +:+ localAddr; "target=" +:+ target] " ").
  apply Fields_Join. repeat constructor; unfold is_word; rewrite ?str_any_app, ?Ha, ?Ht; done.
Qed.

(** * Exit status and arguments *)

(** Only a command that returned no error, or an error that says so itself, exits 0;
    an error that says nothing exits 1. *)
Lemma ExitCode_zero err : ExitCode err = 0%Z <-> err = None \/ exists e, err = Some e /\ asExitError e = Some 0%Z.
Proof.
  destruct err as [e|]; cbn; [|by split; [left|]]. destruct (asExitError e) as [z|] eqn:E; cbn.
  - split; [intros ->; right; by exists e|]. intros [?|(e' & [= <-] & H)]; [done|congruence].
  - split; [done|]. intros [?|(e' & [= <-] & H)]; congruence.
Qed.

Lemma normalizeLoop_lookup fuel i out j :
  (length out <= fuel + i)%nat ->
  normalizeLoop fuel i out !! j
  = if bool_decide (i <= j)%nat then (fun a => if bool_decide (a = "-v") then "--verbose" else a) <$> out !! j else out !! j.
Proof.
  revert i out. induction fuel as [|k IH]; intros i out Hl; cbn [normalizeLoop].
  - case_bool_decide as Hij; [|done]. by rewrite lookup_ge_None_2 by lia.
  - destruct (out !! i) as [a|] eqn:Ei.
    + rewrite IH by (case_bool_decide; rewrite ?length_insert; lia).
      apply lookup_lt_Some in Ei as Hi. destruct (decide (i = j)) as [->|Hne].
      * rewrite bool_decide_eq_false_2, (bool_decide_eq_true_2 (j <= j)%nat) by lia. rewrite Ei. cbn.
        case_bool_decide; [by rewrite list_lookup_insert_eq|done].
      * assert ((if bool_decide (a = "-v") then <[i := "--verbose"]> out else out) !! j = out !! j) as ->
          by (case_bool_decide; [by rewrite list_lookup_insert_ne|done]).
        by do 2 case_bool_decide; try done; lia.
    + apply lookup_ge_None in Ei. case_bool_decide; [|done]. by rewrite lookup_ge_None_2 by lia.
Qed.

(** The rewritten arguments are as many, in the same places, the program's name
    untouched, and only the arguments that are exactly [-v] are replaced; doing it twice
    changes nothing more. *)
Theorem arguments_normalized argv :
  (forall i, NormalizeArgs argv !! i
     = if bool_decide (1 <= i)%nat then (fun a => if bool_decide (a = "-v") then "--verbose" else a) <$> argv !! i
       else argv !! i)
  /\ length (NormalizeArgs argv) = length argv
  /\ NormalizeArgs (NormalizeArgs argv) = NormalizeArgs argv.
Proof.
  assert (forall l i, NormalizeArgs l !! i = if bool_decide (1 <= i)%nat
    then (fun a => if bool_decide (a = "-v") then "--verbose" else a) <$> l !! i else l !! i) as Hl
    by (intros l i; apply normalizeLoop_lookup; lia).
  split; [apply Hl|]. split.
  - apply Nat.le_antisymm; apply Nat.nlt_ge; intros H%lookup_lt_is_Some; destruct H as [x Hx];
      [rewrite Hl in Hx|pose proof (Hl argv (length (NormalizeArgs argv))) as He; rewrite Hx in He].
    + rewrite lookup_ge_None_2 in Hx by done. by case_bool_decide.
    + rewrite (lookup_ge_None_2 (NormalizeArgs argv)) in He by done. by case_bool_decide.
  - apply list_eq. intros i. rewrite !Hl. case_bool_decide; [|done]. destruct (argv !! i) as [a|]; [|done]. cbn.
    by destruct (bool_decide_reflect (a = "-v")) as [->|Hne]; [|rewrite (bool_decide_eq_false_2 (a = "-v"))].
Qed.
