(* ===== verification/RunBridge.v ===== *)
(** One run of the bridge (src/cmd/cli/run.go): the state directory, the SSH
    tunnel, the node, the listener, what is announced, and how everything is
    released.

    What a run does to the machine is a list of operations in order. The kernel,
    the node, the control plane, the child process and the moment of a
    cancellation are the run's environment. *)
From S2P Require Import Prelude GoStrings GoNet GoErr Health Proxy Socks5 ControlUrl Config ConfigMerge Bootstrap Signals.
From Stdlib Require Import Ascii.
Set Default Proof Using "Type".

Definition cleanupMaxAttempts : nat := 5.
Definition cleanupRetryDelay : Z := 150 * 10 ^ 6.
Definition stateDirPerms : Z := 448.
Definition defaultControlURL := "https://control.tailscale.com".
Definition bannerWidth : nat := 22.

(** * What a run does *)

Record node_settings : Type := mkNode {
  nodeHostname : string;
  nodeAuthKey : string;
  nodeDir : string;
  nodeControlURL : string;
  nodeEphemeral : bool;
  nodeTimeout : Z;
}.

Inductive run_op : Type :=
  | Mkdir (dir : string) (perms : Z)
  | Warn (text : string)
  | Tunnel (op : start_op)
  | ControlProxy (controlURL socks : string)
  | NodeUp (s : node_settings)
  | NodeClose
  | Listen (actual : string)
  | ListenerClose
  | Stdout (text : string)
  | Stderr (text : string)
  | OnReady
  | HealthStart (addr : string)
  | GoShutdown
  | MarkedReady
  | Accepting
  | Draining (timeout : Z)
  | Cancel
  | RemoveAll (dir : string)
  | Sleep (d : Z)
  | CloseLog.

Inductive run_error : Type :=
  | CreateStateDir | StatStateDir | StateNotDir (dir : string)
  | TunnelError (e : start_error)
  | ControlError (e : control_error)
  | Cause (e : goerr)
  | InitFailed (control : string) (e : goerr)
  | BindFailed (addr : string)
  | ReadyCallback (e : goerr)
  | RoutesFailed (e : route_error)
  | AcceptError (e : goerr).

(** A run still waits, or has returned. *)
Inductive run_end : Type := Running | Returned (err : option run_error).

(** * The state directory *)

Inductive state_stat : Type :=
  | StateAbsent (created : bool)
  | StateStatFails
  | StateFile
  | StateDirectory (perm : Z).

Definition ensureStateDir (windows : bool) (dir : string) (s : state_stat) : list run_op * option run_error :=
  match s with
  | StateAbsent created => ([Mkdir dir stateDirPerms], if created then None else Some CreateStateDir)
  | StateStatFails => ([], Some StatStateDir)
  | StateFile => ([], Some (StateNotDir dir))
  | StateDirectory perm =>
      (if negb windows && negb (Z.land perm 63 =? 0)%Z then [Warn "state directory has loose permissions"] else [], None)
  end.

(** How one attempt to remove the ephemeral directory ends. *)
Inductive removal : Type := RemovedAll | AlreadyGone | RemoveFails (text : string).

Definition isRetryableCleanupError (text : string) : bool :=
  let errStr := ToLower text in
  Contains errStr "directory is not empty" || Contains errStr "access is denied"
  || Contains errStr "being used by another process" || Contains errStr "resource busy"
  || Contains errStr "device or resource busy".

Section Cleanup.
Variable dir : string.
Variable attempts : nat -> removal.

Fixpoint cleanupLoop (fuel attempt : nat) : list run_op :=
  match fuel with
  | O => []
  | S k =>
      RemoveAll dir ::
      match attempts attempt with
      | RemovedAll | AlreadyGone => []
      | RemoveFails text =>
          if negb (isRetryableCleanupError text) || (attempt =? cleanupMaxAttempts)%nat
          then [Warn "failed to cleanup ephemeral state directory"]
          else Sleep (Z.of_nat attempt * cleanupRetryDelay) :: cleanupLoop k (S attempt)
      end
  end.
Definition cleanupEphemeralStateDir : list run_op := cleanupLoop cleanupMaxAttempts 1.
End Cleanup.

(** * The environment of a run *)

(** The places where a run asks whether it has been cancelled, in order. *)
Inductive moment : Type := BeforeUp | UpFailed | StartFailed | Announcing | Printing | NotPrinted | Ending.
Definition moment_index (m : moment) : nat :=
  match m with
  | BeforeUp => 0 | UpFailed => 1 | StartFailed => 2 | Announcing => 3 | Printing => 4 | NotPrinted => 5 | Ending => 6
  end.

Record run_world : Type := mkRunWorld {
  onWindows : bool;
  stateStat : state_stat;
  ssh : start_env;
  proxyEnv : proxy_env;
  cause : moment -> option goerr;
  up : option goerr;
  bound : option string;
  onReady : option (option goerr);
  events : list loop_event;
  removals : nat -> removal;
  version : string;
  logDir : string;
}.

(** A context, once cancelled, keeps its cause. *)
Definition cause_kept (w : run_world) : Prop :=
  forall m m' c, (moment_index m <= moment_index m')%nat -> cause w m = Some c -> cause w m' = Some c.

(** * The node *)

Definition controlURLForError (controlURL : string) : string :=
  if bool_decide (controlURL = "") then "https://controlplane.tailscale.com (default)" else controlURL.

(** The reason, the hint and the remediation. *)
Definition diagnoseTailscaleInitError (err : option goerr) : string * string * string :=
  match err with
  | None => ("", "", "")
  | Some e =>
      let msg := ToLower (Error e) in
      if Contains msg "api key does not exist" || Contains msg "invalid key" || Contains msg "key expired"
      then (reasonBadAuthKey,
            "auth key rejected by control plane (likely expired, revoked, or single-use already consumed)",
            "regenerate a reusable+ephemeral auth key in your control plane admin and update TS_AUTHKEY on every client")
      else if Contains msg "context deadline exceeded" || Contains msg "i/o timeout"
      then (reasonControlPlaneUnreachable, "control plane unreachable within TS_TIMEOUT",
            "check network access to the control URL; raise TS_TIMEOUT if the link is slow")
      else (reasonUnknown, "", "")
  end.

Definition emitRunCause (c : option goerr) : list run_op * option goerr :=
  match c with
  | None => ([], None)
  | Some e => (if errorsIs e ErrSSHBootstrapExited then [Stderr (emitError reasonSSHBootstrapFailed (Error e))] else [], Some e)
  end.

Definition initTailscale (w : run_world) (cfg : Config) : list run_op * option run_error :=
  match cause w BeforeUp with
  | Some c => ([], Some (Cause c))
  | None =>
      let server := mkNode (Hostname cfg) (AuthKey cfg) (StateDir cfg) (ControlURL cfg) true (ConnectTimeout cfg) in
      match up w with
      | None => ([NodeUp server], None)
      | Some e =>
          match cause w UpFailed with
          | Some c => ([NodeUp server; NodeClose], Some (Cause c))
          | None =>
              let '(reason, hint, remediation) := diagnoseTailscaleInitError (Some e) in
              ([NodeUp server; Stderr (emitError reason (Error e))]
                 ++ (if bool_decide (hint = "") then [] else [Warn hint]) ++ [NodeClose],
               Some (InitFailed (controlURLForError (ControlURL cfg)) e))
          end
      end
  end.

(** * Announcing *)

Definition proxyListenerAddr (cfg : Config) : string :=
  if bool_decide (SOCKS5Addr cfg = "") then LocalAddr cfg else SOCKS5Addr cfg.
Definition readyTarget (cfg : Config) : string :=
  if bool_decide (SOCKS5Addr cfg = "") then Target cfg else "dynamic-socks5".

(** [%-*s]: blanks after a text shorter than the width. *)
Fixpoint blanks (n : nat) : string := match n with O => "" | S k => String " " (blanks k) end.
Definition padRight (width : nat) (s : string) : string := s +:+ blanks (width - len s).

Definition versionLine (v : string) : string :=
  "  |      TAILSCALE BRIDGE "
  +:+ padRight bannerWidth (if (bannerWidth <? len v)%nat then str_take (bannerWidth - 3) v +:+ "..." else v) +:+ "  |".

Definition writeStartupBanner (w : run_world) (cfg : Config) : string :=
  if Quiet cfg then "" else
  let border := "  +---------------------------------------+" in
  let row := fun label width v => "  |  " +:+ label +:+ padRight width v +:+ "  |" in
  String.concat "" (map (fun l => l +:+ newline)
    (["" ; border; versionLine (version w); border;
      row "Host:   " 26%nat (Hostname cfg); row "Local:  " 26%nat (proxyListenerAddr cfg);
      row "Target: " 26%nat (readyTarget cfg)]
     ++ (if bool_decide (ControlURL cfg = "") || bool_decide (ControlURL cfg = defaultControlURL) then []
         else [row "Control: " 25%nat (ControlURL cfg)])
     ++ (if bool_decide (HealthAddr cfg = "") then [] else [row "Health:  " 26%nat (HealthAddr cfg)])
     ++ (if EphemeralState cfg then ["  |  Node:    ephemeral (not persisted in admin console)  |"] else [])
     ++ (if bool_decide (logDir w = "") then [] else [row "Log:      " 26%nat (logDir w)])
     ++ [border; "  Waiting for connections..."; ""])).

Definition announceReady (w : run_world) (cfg : Config) (actual : string) : list run_op * option run_error :=
  match emitRunCause (cause w Announcing) with
  | (ops, Some c) => (ops, Some (Cause c))
  | (ops, None) =>
      let banner := if Quiet cfg then [] else [Stdout (writeStartupBanner w cfg)] in
      match emitReadyIfActive (cause w Printing) actual (readyTarget cfg) with
      | Err c => (ops ++ banner ++ (emitRunCause (cause w NotPrinted)).1, Some (Cause c))
      | Ok line =>
          (ops ++ banner ++ [Stdout line] ++ match onReady w with Some _ => [OnReady] | None => [] end,
           match onReady w with Some (Some e) => Some (ReadyCallback e) | _ => None end)
      end
  end.

(** * The SSH tunnel *)

Section Run.
Context `{UrlPackage}.
(** The texts of the tunnel's errors. *)
Variable startText : start_error -> string.
Variable controlText : control_error -> string.

Definition tunnel_error_text (e : run_error) : string :=
  match e with
  | TunnelError e => "start SSH control-plane bootstrap: " +:+ startText e
  | ControlError e => "configure SSH control-plane bootstrap: " +:+ controlText e
  | _ => ""
  end.

(** Whether a tunnel runs; [None] while its listener is still awaited. *)
Definition startConfiguredBootstrap (w : run_world) (cfg : Config) : list run_op * option (result run_error bool) :=
  if bool_decide (BootstrapSSH cfg = "") then ([], Some (Ok false)) else
  let '(ops, outcome) := start (mkBootstrap (BootstrapSSH cfg) (BootstrapSOCKSAddr cfg) (ConnectTimeout cfg)) (ssh w) in
  let started := map Tunnel ops in
  match outcome with
  | None => (started, None)
  | Some (Err e) => (started, Some (Err (TunnelError e)))
  | Some (Ok _) =>
      match ConfigureControlProxy (ControlURL cfg) (proxyEnv w) with
      | (_, Some e) => (started ++ map Tunnel closeTunnel, Some (Err (ControlError e)))
      | (_, None) => (started ++ [ControlProxy (ControlURL cfg) (BootstrapSOCKSAddr cfg)], Some (Ok true))
      end
  end.

(** [monitorBootstrap]: the cause it cancels the run with, if any, when the
    tunnel has ended with [err]. *)
Definition monitorBootstrap (runOver tunnelDone : bool) (err : option goerr) : option goerr :=
  if runOver || negb tunnelDone then None
  else
    let text := match err with Some e => Error e | None => "process exited without an error" end in
    Some (mkErr ("SSH bootstrap exited: " +:+ text) [ErrSSHBootstrapExited] []).

(** * The bridge *)

(** The routes, in the order the map is ranged over. *)
Definition socksTargetResolver (routes : list (string * string)) : result route_error resolver :=
  match routes with [] => Ok directSOCKSTarget | _ => NewAllowlistSOCKSTarget routes end.

(** How accepting ended; [None] while it goes on. *)
Definition accepting (w : run_world) (cfg : Config) : option (option goerr) :=
  if bool_decide (SOCKS5Addr cfg = "") then
    if returned (AcceptLoop (MaxConnections cfg) (events w)) then Some None else None
  else
    match socksEnd (AcceptSOCKS5Loop (MaxConnections cfg) (events w)) with
    | StillAccepting => None
    | ReturnedNil => Some None
    | ReturnedError e => Some (Some e)
    end.

Definition drainActiveConnections (cfg : Config) : list run_op :=
  if (DrainTimeout cfg <=? 0)%Z then [] else [Draining (DrainTimeout cfg)].

Definition warnHealthExposure (cfg : Config) : list run_op :=
  if HealthExposed cfg then [Warn "health endpoint is reachable beyond loopback (--health-allow-remote)"] else [].

(** From READY to the end. *)
Definition serveBridge (w : run_world) (cfg : Config) (routes : list (string * string)) : list run_op * run_end :=
  let health := if bool_decide (HealthAddr cfg = "") then [] else warnHealthExposure cfg ++ [HealthStart (HealthAddr cfg)] in
  let opened := health ++ [GoShutdown; MarkedReady] in
  match (if bool_decide (SOCKS5Addr cfg = "") then None else Some (socksTargetResolver routes)) with
  | Some (Err e) => (opened ++ [ListenerClose; NodeClose], Returned (Some (RoutesFailed e)))
  | _ =>
      match accepting w cfg with
      | None => (opened ++ [Accepting], Running)
      | Some errAccept =>
          let '(signal, c) := emitRunCause (cause w Ending) in
          (opened ++ [Accepting] ++ drainActiveConnections cfg ++ [NodeClose] ++ signal,
           Returned (match c with
                     | Some c => if errorsIs c ErrCanceled then AcceptError <$> errAccept else Some (Cause c)
                     | None => AcceptError <$> errAccept
                     end))
      end
  end.

Definition runBridge (w : run_world) (cfg : Config) (routes : list (string * string)) : list run_op * run_end :=
  match initTailscale w cfg with
  | (ops, Some err) =>
      let '(signal, c) := emitRunCause (cause w StartFailed) in
      (ops ++ signal, Returned (Some (match c with Some c => Cause c | None => err end)))
  | (ops, None) =>
      match bound w with
      | None => (ops ++ [NodeClose], Returned (Some (BindFailed (proxyListenerAddr cfg))))
      | Some actual =>
          match announceReady w cfg actual with
          | (said, Some err) => (ops ++ [Listen actual] ++ said ++ [ListenerClose; NodeClose], Returned (Some err))
          | (said, None) =>
              let '(rest, e) := serveBridge w cfg routes in
              (ops ++ [Listen actual] ++ said ++ rest, e)
          end
      end
  end.

(** [withBootstrapLifecycle]: the bridge between the tunnel's start and its end. *)
Definition withBootstrapLifecycle (w : run_world) (cfg : Config) (bridge : list run_op * run_end) : list run_op * run_end :=
  match startConfiguredBootstrap w cfg with
  | (ops, None) => (ops, Running)
  | (ops, Some (Err e)) => (ops ++ [Stderr (emitError reasonSSHBootstrapFailed (tunnel_error_text e))], Returned (Some e))
  | (ops, Some (Ok tunnel)) =>
      match bridge with
      | (bridged, Running) => (ops ++ bridged, Running)
      | (bridged, e) => (ops ++ bridged ++ [Cancel] ++ (if tunnel then map Tunnel closeTunnel else []), e)
      end
  end.

(** [run], with its deferred calls in the order they run. *)
Definition run (w : run_world) (cfg : Config) (routes : list (string * string)) : list run_op * run_end :=
  match ensureStateDir (onWindows w) (StateDir cfg) (stateStat w) with
  | (ops, Some err) => (ops, Returned (Some err))
  | (ops, None) =>
      match withBootstrapLifecycle w cfg (runBridge w cfg routes) with
      | (did, Running) => (ops ++ did, Running)
      | (did, e) =>
          (ops ++ did ++ (if EphemeralState cfg then cleanupEphemeralStateDir (StateDir cfg) (removals w) else [])
             ++ [Cancel; CloseLog], e)
      end
  end.
End Run.

(** * Shutting down *)

(** What a run's status says once it is over. *)
Definition shutdownReason (c : goerr) : string := if errorsIs c ErrCanceled then "" else Error c.

(** The goroutine [handleShutdown] runs once the context is done. *)
Inductive shutdown_op : Type := StoreStatus (r : bool) (why : string) | CloseListener | ShutdownHealth (timeout : Z).
Definition handleShutdown (c : goerr) (healthServer : bool) : list shutdown_op :=
  [StoreStatus false (shutdownReason c); CloseListener] ++ (if healthServer then [ShutdownHealth (5 * 10 ^ 9)] else []).

(** * The resources of a run *)

(** What a run holds, and what it may do next: a child it started, the node, the
    listener with its address, the health server, whether the shutdown goroutine
    owns the last two, whether READY was printed and whether the run's context was
    cancelled. *)
Record held : Type := mkHeld {
  hTunnel : bool;
  hNode : bool;
  hListener : option string;
  hHealth : bool;
  hShutdown : bool;
  hReady : bool;
  hCancelled : bool;
}.
Definition nothing_held : held := mkHeld false false None false false false false.

Definition set_tunnel (b : bool) (h : held) : held :=
  mkHeld b (hNode h) (hListener h) (hHealth h) (hShutdown h) (hReady h) (hCancelled h).
Definition set_node (b : bool) (h : held) : held :=
  mkHeld (hTunnel h) b (hListener h) (hHealth h) (hShutdown h) (hReady h) (hCancelled h).
Definition set_listener (a : option string) (h : held) : held :=
  mkHeld (hTunnel h) (hNode h) a (hHealth h) (hShutdown h) (hReady h) (hCancelled h).
Definition set_health (b : bool) (h : held) : held :=
  mkHeld (hTunnel h) (hNode h) (hListener h) b (hShutdown h) (hReady h) (hCancelled h).
Definition set_shutdown (h : held) : held :=
  mkHeld (hTunnel h) (hNode h) (hListener h) (hHealth h) true (hReady h) (hCancelled h).
Definition set_ready (h : held) : held :=
  mkHeld (hTunnel h) (hNode h) (hListener h) (hHealth h) (hShutdown h) true (hCancelled h).
Definition set_cancelled (h : held) : held :=
  mkHeld (hTunnel h) (hNode h) (hListener h) (hHealth h) (hShutdown h) (hReady h) true.

Definition is_ready (text : string) : bool := HasPrefix text "READY".
Definition bound_now (h : held) : bool := match hListener h with Some _ => true | None => false end.

Definition take (cfg : Config) (h : held) (op : run_op) : option held :=
  match op with
  | Tunnel Contain => if hTunnel h || hNode h then None else Some (set_tunnel true h)
  | Tunnel AwaitExit => if hTunnel h && negb (hNode h) then Some (set_tunnel false h) else None
  | NodeUp _ => if hNode h then None else Some (set_node true h)
  | NodeClose => if hNode h then Some (set_node false h) else None
  | Listen a => if hNode h && negb (bound_now h) then Some (set_listener (Some a) h) else None
  | ListenerClose => if bound_now h then Some (set_listener None h) else None
  | Stdout text =>
      if is_ready text then
        match hListener h with
        | Some a =>
            if hNode h && negb (hShutdown h) && negb (hReady h) && bool_decide (text = emitReady a (readyTarget cfg))
            then Some (set_ready h) else None
        | None => None
        end
      else Some h
  | HealthStart _ => if bound_now h && negb (hHealth h) && negb (hShutdown h) then Some (set_health true h) else None
  | GoShutdown => if bound_now h && negb (hShutdown h) then Some (set_shutdown h) else None
  | Accepting => if hShutdown h && hReady h && hNode h then Some h else None
  | Cancel => Some (set_cancelled h)
  | RemoveAll _ | CloseLog => if hTunnel h || hNode h then None else Some h
  | _ => Some h
  end.

Abbreviation takes cfg := (conforms (take cfg)).

(** What the shutdown goroutine closes, once the context is done with the cause [c]. *)
Definition finish (h : held) (op : shutdown_op) : held :=
  match op with
  | StoreStatus _ _ => h
  | CloseListener => set_listener None h
  | ShutdownHealth _ => set_health false h
  end.
Definition after_shutdown (c : goerr) (h : held) : held :=
  if hShutdown h then fold_left finish (handleShutdown c (hHealth h)) h else h.

(** The child and the node are gone; a shutdown goroutine that was started has been
    told, and with its work done the listener and the health server are closed too. *)
Definition released (h : held) : Prop :=
  hTunnel h = false /\ hNode h = false /\ (hShutdown h = true -> hCancelled h = true)
  /\ forall c, hListener (after_shutdown c h) = None /\ hHealth (after_shutdown c h) = false.

(** What is open belongs to the shutdown goroutine. *)
Definition handed_over (h : held) : Prop := hShutdown h = true \/ (hListener h = None /\ hHealth h = false).

Lemma released_nothing : released nothing_held.
Proof. by repeat split. Qed.
Lemma released_cancelled h :
  hTunnel h = false -> hNode h = false -> handed_over h -> released (set_cancelled h).
Proof.
  intros Ht Hn Hh. split_and!; [done|done|done|]. intros c. unfold after_shutdown. cbn. destruct Hh as [->|[Hl Hhe]].
  - destruct (hHealth h) eqn:E; by split.
  - destruct (hShutdown h), (hHealth h) eqn:E; by split.
Qed.
Lemma released_again h : released h -> released (set_cancelled h).
Proof.
  intros (Ht & Hn & _ & Hc). apply released_cancelled; [done|done|].
  destruct (Hc (plainErr "")) as [Hl Hh]. unfold after_shutdown in Hl, Hh. destruct (hShutdown h) eqn:E; [by left|by right].
Qed.

(** Operations that change nothing of what is held. *)
Definition neutral (op : run_op) : bool :=
  match op with
  | Mkdir _ _ | Warn _ | ControlProxy _ _ | Stderr _ | OnReady | MarkedReady | Draining _ | Sleep _ => true
  | Tunnel Contain | Tunnel AwaitExit => false
  | Tunnel _ => true
  | Stdout text => negb (is_ready text)
  | _ => false
  end.

Lemma take_neutral cfg h op : neutral op = true -> take cfg h op = Some h.
Proof.
  destruct op as [| |o| | | | | |t| | | | | | | | | | |]; try done; [by destruct o|]. cbn.
  by destruct (is_ready t).
Qed.

Lemma takes_neutral cfg h ops : forallb neutral ops = true -> takes cfg h ops = Some h.
Proof. apply conforms_neutral, take_neutral. Qed.

Lemma ensureStateDir_neutral b dir s : forallb neutral (ensureStateDir b dir s).1 = true.
Proof. destruct s as [| | |perm]; try done. cbn. by destruct (_ && _). Qed.

Lemma emitRunCause_neutral c : forallb neutral (emitRunCause c).1 = true.
Proof. destruct c as [c|]; [|done]. cbn. by destruct (errorsIs _ _). Qed.

Lemma emitRunCause_cause c : (emitRunCause c).2 = c.
Proof. by destruct c. Qed.

Lemma banner_not_ready w cfg : is_ready (writeStartupBanner w cfg) = false.
Proof.
  unfold writeStartupBanner. destruct (Quiet cfg); [done|]. unfold newline. cbn [app map].
  match goal with |- context [String.concat "" (?x :: ?l)] => assert (exists r, String.concat "" (x :: l) = String nl r) as [r ->] end;
    [|done]. cbn [String.append]. cbn [String.concat]. by eexists.
Qed.

Lemma cleanup_keeps cfg h dir answers fuel i :
  hTunnel h = false -> hNode h = false -> takes cfg h (cleanupLoop dir answers fuel i) = Some h.
Proof.
  intros Ht Hn. revert i. induction fuel as [|k IH]; intros i; [done|]. cbn. rewrite Ht, Hn. cbn.
  destruct (answers i); [done|done|]. destruct (_ || _); [done|]. cbn. apply IH.
Qed.

Lemma init_takes w cfg t :
  takes cfg (mkHeld t false None false false false false) (initTailscale w cfg).1
  = Some (mkHeld t (match (initTailscale w cfg).2 with None => true | Some _ => false end) None false false false false).
Proof.
  unfold initTailscale. destruct (cause w BeforeUp); [done|]. destruct (up w) as [e|]; [|done].
  destruct (cause w UpFailed); [done|]. destruct (diagnoseTailscaleInitError _) as [[r hi] re].
  cbn. by destruct (bool_decide (hi = "")).
Qed.

Lemma is_ready_line a t : is_ready (emitReady a t) = true.
Proof. reflexivity. Qed.

Lemma announce_takes w cfg t a :
  exists r, takes cfg (mkHeld t true (Some a) false false false false) (announceReady w cfg a).1 = Some (mkHeld t true (Some a) false false r false)
    /\ ((announceReady w cfg a).2 = None -> r = true).
Proof.
  unfold announceReady. pose proof (emitRunCause_neutral (cause w Announcing)) as Hn.
  pose proof (emitRunCause_neutral (cause w NotPrinted)) as Hn'.
  destruct (emitRunCause (cause w Announcing)) as [ops [c|]]; cbn [fst snd] in *.
  { exists false. by rewrite takes_neutral. }
  set (banner := if Quiet cfg then [] else _).
  assert (forallb neutral banner = true) as Hb.
  { unfold banner. destruct (Quiet cfg); [done|]. cbn. by rewrite banner_not_ready. }
  unfold emitReadyIfActive. destruct (cause w Printing) as [c|]; cbn [fst snd].
  - exists false. rewrite takes_neutral; [done|]. by rewrite !forallb_app, Hn, Hb, Hn'.
  - exists true. split; [|done]. rewrite app_assoc, conforms_app, takes_neutral by by rewrite forallb_app, Hn, Hb.
    cbn [mbind option_bind]. rewrite conforms_app. cbn [conforms take]. rewrite is_ready_line. cbn.
    rewrite bool_decide_eq_true_2 by done. by destruct (onReady w).
Qed.

Lemma serve_takes w cfg routes t a :
  exists h, takes cfg (mkHeld t true (Some a) false false true false) (serveBridge w cfg routes).1 = Some h
    /\ hTunnel h = t /\ hReady h = true
    /\ ((serveBridge w cfg routes).2 = Running \/ hNode h = false /\ handed_over h).
Proof.
  unfold serveBridge. set (health := if bool_decide (HealthAddr cfg = "") then [] else _).
  set (hb := negb (bool_decide (HealthAddr cfg = ""))).
  assert (forall rest, takes cfg (mkHeld t true (Some a) false false true false) ((health ++ [GoShutdown; MarkedReady]) ++ rest)
            = takes cfg (mkHeld t true (Some a) hb true true false) rest) as Ho.
  { intros rest. unfold health, hb, warnHealthExposure. by destruct (bool_decide (HealthAddr cfg = "")), (HealthExposed cfg). }
  assert (forallb neutral (drainActiveConnections cfg) = true) as Hd
    by (unfold drainActiveConnections; by destruct (_ <=? _)%Z).
  pose proof (emitRunCause_neutral (cause w Ending)) as Hs. cbv zeta.
  assert (exists h, takes cfg (mkHeld t true (Some a) false false true false)
      ((health ++ [GoShutdown; MarkedReady]) ++ [ListenerClose; NodeClose]) = Some h
      /\ hTunnel h = t /\ hReady h = true /\ hNode h = false /\ handed_over h) as He.
  { rewrite Ho. eexists. split; [reflexivity|]. unfold handed_over. cbn. auto. }
  assert (forall o : option (result route_error resolver), (forall e, o <> Some (Err e)) \/ exists e, o = Some (Err e)) as Hc.
  { intros [[r|e]|]; [left; by intros|right; by eexists|by left]. }
  destruct (Hc (if bool_decide (SOCKS5Addr cfg = "") then None else Some (socksTargetResolver routes))) as [Hno|[e ->]].
  2: { destruct He as (h & He & ? & ? & ? & ?). exists h. cbn [fst snd]. split_and!; auto. }
  destruct (if bool_decide (SOCKS5Addr cfg = "") then None else Some (socksTargetResolver routes)) as [[r|e]|];
    [|by destruct (Hno e)|].
  all: destruct (accepting w cfg) as [ea|]; [destruct (emitRunCause (cause w Ending)) as [sg c]|]; cbn [fst snd] in *;
    rewrite Ho; cbn [app conforms take hShutdown hReady hNode andb];
    [rewrite conforms_app, takes_neutral by done; cbn; rewrite takes_neutral by done|];
    (eexists; split; [reflexivity|]; unfold handed_over; cbn; split_and!; auto).
Qed.

Lemma bridge_takes w cfg routes t :
  exists h, takes cfg (mkHeld t false None false false false false) (runBridge w cfg routes).1 = Some h /\ hTunnel h = t
    /\ ((runBridge w cfg routes).2 = Running \/ hNode h = false /\ handed_over h)
    /\ ((runBridge w cfg routes).2 = Returned None -> hReady h = true).
Proof.
  unfold runBridge. pose proof (init_takes w cfg t) as Hi. destruct (initTailscale w cfg) as [ops [err|]]; cbn [fst snd] in *.
  { pose proof (emitRunCause_neutral (cause w StartFailed)) as Hn. destruct (emitRunCause _) as [sg c]. cbn [fst snd] in *.
    rewrite conforms_app, Hi. cbn. rewrite takes_neutral by done. eexists. split; [reflexivity|]. unfold handed_over. cbn. split_and!; auto; done. }
  destruct (bound w) as [a|]; cbn [fst snd].
  2: { rewrite conforms_app, Hi. cbn. eexists. split; [reflexivity|]. unfold handed_over. cbn. split_and!; auto; done. }
  destruct (announce_takes w cfg t a) as (r & Ha & Hr). destruct (announceReady w cfg a) as [said [err|]]; cbn [fst snd] in *.
  - rewrite conforms_app, Hi. cbn. unfold set_listener. cbn. rewrite conforms_app, Ha. cbn. eexists. split; [reflexivity|]. unfold handed_over. cbn. split_and!; auto; done.
  - rewrite (Hr eq_refl) in Ha. destruct (serve_takes w cfg routes t a) as (h & Hs & H1 & H2 & H3).
    destruct (serveBridge w cfg routes) as [rest e]. cbn [fst snd] in *.
    rewrite conforms_app, Hi. cbn. unfold set_listener. cbn. rewrite conforms_app, Ha. cbn. exists h. split_and!; auto.
Qed.

Section Protocol.
Context `{UrlPackage}.
Variable startText : start_error -> string.
Variable controlText : control_error -> string.

Lemma start_takes w cfg :
  exists h, takes cfg nothing_held (startConfiguredBootstrap w cfg).1 = Some h
    /\ match (startConfiguredBootstrap w cfg).2 with
       | None => True
       | Some (Err _) => h = nothing_held
       | Some (Ok tunnel) => h = mkHeld tunnel false None false false false false
       end.
Proof.
  unfold startConfiguredBootstrap. destruct (bool_decide (BootstrapSSH cfg = "")); [by eexists|].
  assert (forall b o, (start b (ssh w)) = o ->
    (o.2 = None -> exists h, takes cfg nothing_held (map Tunnel o.1) = Some h)
    /\ (forall e, o.2 = Some (Err e) -> takes cfg nothing_held (map Tunnel o.1) = Some nothing_held)
    /\ (forall u, o.2 = Some (Ok u) -> takes cfg nothing_held (map Tunnel o.1) = Some (mkHeld true false None false false false false)))
    as Hs.
  { intros b o <-. unfold start. destruct (lookPath (ssh w)); [|by split_and!; eauto].
    destruct (buildSSHArgs _ _); [|by split_and!; eauto].
    destruct (canBind (ssh w)); [|by split_and!; eauto]. destruct (starts (ssh w)); [|by split_and!; eauto].
    destruct (waitUntilReady _ _ _) as [[[]|e]|]; cbn; split_and!; by eauto. }
  destruct (start _ (ssh w)) as [ops out] eqn:E. destruct (Hs _ _ E) as (H1 & H2 & H3). cbn [fst snd] in *.
  destruct out as [[u|e]|]; cbn [fst snd].
  - destruct (ConfigureControlProxy _ _) as [cs [e|]]; cbn [fst snd]; rewrite conforms_app, (H3 u eq_refl); by eexists.
  - rewrite (H2 e eq_refl). by eexists.
  - destruct (H1 eq_refl) as [h Hh]. by exists h.
Qed.

Lemma lifecycle_takes w cfg bridge :
  (forall t, exists h, takes cfg (mkHeld t false None false false false false) bridge.1 = Some h /\ hTunnel h = t
    /\ (bridge.2 = Running \/ hNode h = false /\ handed_over h)
    /\ (bridge.2 = Returned None -> hReady h = true)) ->
  let r := withBootstrapLifecycle startText controlText w cfg bridge in
  exists h, takes cfg nothing_held r.1 = Some h
    /\ (r.2 = Running \/ released h) /\ (r.2 = Returned None -> hReady h = true).
Proof.
  intros Hb. unfold withBootstrapLifecycle. destruct (start_takes w cfg) as (h & Hh & Ho).
  destruct (startConfiguredBootstrap w cfg) as [ops [[t|e]|]]; cbn [fst snd] in *.
  - subst h. destruct (Hb t) as (h & Ht & H1 & H2 & H3). destruct bridge as [ops' [|err]]; cbn [fst snd] in *.
    + exists h. rewrite conforms_app, Hh. cbn. auto.
    + destruct H2 as [?|[H2 H4]]; [done|]. exists (set_cancelled (set_tunnel false h)).
      rewrite conforms_app, Hh. cbn. rewrite conforms_app, Ht. cbn.
      split; [|split; [right; by apply released_cancelled|done]].
      destruct t; cbn; rewrite ?H1, ?H2; [done|]. by destruct h; cbn in *; subst.
  - subst h. exists nothing_held. rewrite conforms_app, Hh. cbn. split_and!; [done|right; apply released_nothing|done].
  - exists h. split_and!; auto; done.
Qed.

#[local] Arguments cleanupEphemeralStateDir : simpl never.

(** C9: whatever fails and whenever the run is cancelled, a run takes and gives back
    its resources in order: the child, then the node, then the listener, then the
    health server; READY once at most, while the node is up and the listener bound,
    naming the address it is bound to; connections are accepted only after READY;
    the node is closed before the child, and both before the ephemeral state is
    removed. When the run has returned, the child and the node are closed, a
    shutdown goroutine that was started has been told to stop, and with its work
    done the listener and the health server are closed as well; and a run that
    returned no error had announced itself. *)
Theorem run_releases w cfg routes :
  let r := run startText controlText w cfg routes in
  exists h, takes cfg nothing_held r.1 = Some h
    /\ (r.2 = Running \/ released h) /\ (r.2 = Returned None -> hReady h = true).
Proof.
  unfold run. pose proof (ensureStateDir_neutral (onWindows w) (StateDir cfg) (stateStat w)) as Hn.
  destruct (ensureStateDir _ _ _) as [ops [err|]]; cbn [fst snd] in *.
  { exists nothing_held. rewrite takes_neutral by done. split_and!; [done|right; apply released_nothing|done]. }
  destruct (lifecycle_takes w cfg (runBridge w cfg routes)) as (h & Hh & H1 & H2).
  { intros t. apply bridge_takes. }
  destruct (withBootstrapLifecycle _ _ _ _ _) as [did [|err]]; cbn [fst snd] in *.
  { exists h. rewrite conforms_app, takes_neutral by done. auto. }
  destruct H1 as [?|Hr]; [done|]. exists (set_cancelled h). split; [|split; [right; by apply released_again|done]].
  rewrite conforms_app, takes_neutral by done. cbn. rewrite conforms_app, Hh. cbn. destruct Hr as (Ht & Hno & _).
  rewrite conforms_app. destruct (EphemeralState cfg); [unfold cleanupEphemeralStateDir; rewrite cleanup_keeps by done|];
    cbn; by rewrite Ht, Hno.
Qed.
End Protocol.

(** * The node a run brings up *)

(** The only node a run brings up is the configuration's. *)
Definition node_of (cfg : Config) : node_settings :=
  mkNode (Hostname cfg) (AuthKey cfg) (StateDir cfg) (ControlURL cfg) true (ConnectTimeout cfg).
Definition node_is (s : node_settings) (op : run_op) : Prop :=
  match op with NodeUp s' => s' = s | _ => True end.

Lemma neutral_node_is s ops : forallb neutral ops = true -> Forall (node_is s) ops.
Proof.
  induction ops as [|op ops IH]; cbn; [done|]. intros [Ho Hops]%andb_prop. constructor; [by destruct op|auto].
Qed.
Lemma tunnel_node_is s ops : Forall (node_is s) (map Tunnel ops).
Proof. induction ops; by constructor. Qed.
Lemma cleanup_node_is s dir answers fuel i : Forall (node_is s) (cleanupLoop dir answers fuel i).
Proof.
  revert i. induction fuel as [|k IH]; intros i; cbn; [done|]. constructor; [done|]. destruct (answers i); [done|done|].
  destruct (_ || _); by repeat constructor.
Qed.
Lemma emitRunCause_node_is s c : Forall (node_is s) (emitRunCause c).1.
Proof. apply neutral_node_is, emitRunCause_neutral. Qed.

Create HintDb node_is.
#[local] Hint Resolve tunnel_node_is cleanup_node_is emitRunCause_node_is : node_is.
Ltac nodes :=
  cbn [fst];
  repeat match goal with
         | |- Forall _ (_ ++ _) => apply Forall_app_2
         | |- Forall _ (_ :: _) => apply Forall_cons_2; [done|]
         | |- Forall _ [] => apply Forall_nil_2
         end; auto with node_is.

Lemma init_node_is w cfg : Forall (node_is (node_of cfg)) (initTailscale w cfg).1.
Proof.
  unfold initTailscale. destruct (cause w BeforeUp); [done|]. destruct (up w) as [e|]; [|by repeat constructor].
  destruct (cause w UpFailed); [by repeat constructor|]. destruct (diagnoseTailscaleInitError _) as [[r hi] re].
  destruct (bool_decide _); by repeat constructor.
Qed.
Lemma announce_node_is s w cfg a : Forall (node_is s) (announceReady w cfg a).1.
Proof.
  unfold announceReady. pose proof (emitRunCause_node_is s (cause w Announcing)) as Hn.
  destruct (emitRunCause _) as [ops [c|]]; [done|]. destruct (emitReadyIfActive _ _ _); cbn [fst]; nodes;
    destruct (Quiet cfg), (onReady w); by repeat constructor.
Qed.
Lemma serve_node_is s w cfg routes : Forall (node_is s) (serveBridge w cfg routes).1.
Proof.
  unfold serveBridge. pose proof (emitRunCause_node_is s (cause w Ending)) as Hn.
  destruct (emitRunCause _) as [ops c]. cbn [fst] in *.
  assert (Forall (node_is s) (if bool_decide (HealthAddr cfg = "") then [] else warnHealthExposure cfg ++ [HealthStart (HealthAddr cfg)])).
  { unfold warnHealthExposure. destruct (bool_decide _), (HealthExposed cfg); by repeat constructor. }
  assert (Forall (node_is s) (drainActiveConnections cfg)).
  { unfold drainActiveConnections. destruct (_ <=? _)%Z; by repeat constructor. }
  destruct (if bool_decide (SOCKS5Addr cfg = "") then None else _) as [[?|?]|]; try destruct (accepting w cfg); by nodes.
Qed.
Lemma bridge_node_is w cfg routes : Forall (node_is (node_of cfg)) (runBridge w cfg routes).1.
Proof.
  unfold runBridge. pose proof (init_node_is w cfg) as Hi. destruct (initTailscale w cfg) as [ops [err|]]; cbn [fst] in Hi.
  - pose proof (emitRunCause_node_is (node_of cfg) (cause w StartFailed)) as Hn. destruct (emitRunCause _). cbn [fst] in *. by nodes.
  - destruct (bound w) as [a|]; [|by nodes]. pose proof (announce_node_is (node_of cfg) w cfg a) as Ha.
    destruct (announceReady w cfg a) as [said [err|]]; [by nodes|].
    pose proof (serve_node_is (node_of cfg) w cfg routes). destruct (serveBridge w cfg routes). by nodes.
Qed.
Lemma start_node_is `{UrlPackage} s w cfg : Forall (node_is s) (startConfiguredBootstrap w cfg).1.
Proof.
  unfold startConfiguredBootstrap. destruct (bool_decide _); [done|]. destruct (start _ _) as [ops [[?|?]|]]; [|by nodes..].
  destruct (ConfigureControlProxy _ _) as [? [?|]]; by nodes.
Qed.

(** Whatever happens in a run, the node it brings up is the configuration's. *)
Lemma run_node_is `{UrlPackage} startText controlText w cfg routes :
  Forall (node_is (node_of cfg)) (run startText controlText w cfg routes).1.
Proof.
  unfold run. pose proof (neutral_node_is (node_of cfg) _ (ensureStateDir_neutral (onWindows w) (StateDir cfg) (stateStat w))) as Hn.
  destruct (ensureStateDir _ _ _) as [ops [err|]]; [done|]. cbn [fst] in Hn.
  assert (Forall (node_is (node_of cfg)) (withBootstrapLifecycle startText controlText w cfg (runBridge w cfg routes)).1) as Hl.
  { unfold withBootstrapLifecycle. pose proof (start_node_is (node_of cfg) w cfg) as Hs. pose proof (bridge_node_is w cfg routes) as Hb.
    destruct (startConfiguredBootstrap w cfg) as [ops' [[t|e]|]]; cbn [fst] in *; [|by nodes..].
    destruct (runBridge w cfg routes) as [br []]; cbn [fst] in *; [by nodes|]. destruct t; by nodes. }
  destruct (withBootstrapLifecycle _ _ _ _ _) as [did [|err]]; cbn [fst] in *; [by nodes|].
  destruct (EphemeralState cfg); unfold cleanupEphemeralStateDir; by nodes.
Qed.

(** * When the callback of a run is called *)

(** Operations beside the announcement: before it nothing is accepted either. *)
Definition calm (op : run_op) : bool :=
  match op with OnReady => false | Stdout text => negb (is_ready text) | _ => true end.
Definition plain (op : run_op) : bool := match op with Accepting => false | _ => calm op end.
Lemma plain_calm ops : forallb plain ops = true -> forallb calm ops = true.
Proof. induction ops as [|op ops IH]; cbn; [done|]. intros [Ho Hops]%andb_prop. rewrite (IH Hops). rewrite andb_true_r. by destruct op. Qed.

(** READY, and at once the callback, with nothing of the kind before or after; when
    the callback fails, nothing is ever accepted and its error is the run's; when it
    does not, connections are accepted next, unless the routes are not valid. *)
Definition announced (cfg : Config) (cb : option goerr) (ops : list run_op) (e : run_end) : Prop :=
  exists before a after, ops = before ++ [Stdout (emitReady a (readyTarget cfg)); OnReady] ++ after
    /\ forallb plain before = true /\ forallb calm after = true
    /\ match cb with
       | Some err => forallb plain after = true /\ e = Returned (Some (ReadyCallback err))
       | None => Accepting ∈ after \/ exists x, e = Returned (Some (RoutesFailed x))
       end.

Lemma announced_between cfg cb pre ops post e :
  forallb plain pre = true -> forallb plain post = true -> announced cfg cb ops e -> announced cfg cb (pre ++ ops ++ post) e.
Proof.
  intros Hpre Hpost (before & a & after & -> & Hb & Ha & Hc). exists (pre ++ before), a, (after ++ post).
  split; [by rewrite <- !app_assoc|]. rewrite !forallb_app, Hpre, Hb, Ha, (plain_calm _ Hpost). split_and!; try done.
  destruct cb as [err|].
  - destruct Hc as [Hc ->]. by rewrite Hc, Hpost.
  - destruct Hc as [Hc|?]; [left; apply elem_of_app; by left|by right].
Qed.

Lemma tunnel_plain ops : forallb plain (map Tunnel ops) = true.
Proof. by induction ops. Qed.
Lemma ensureStateDir_plain b dir s : forallb plain (ensureStateDir b dir s).1 = true.
Proof. destruct s as [| | |perm]; try done. cbn. by destruct (_ && _). Qed.
Lemma emitRunCause_plain c : forallb plain (emitRunCause c).1 = true.
Proof. destruct c as [c|]; [|done]. cbn. by destruct (errorsIs _ _). Qed.
Lemma cleanup_plain dir answers fuel i : forallb plain (cleanupLoop dir answers fuel i) = true.
Proof.
  revert i. induction fuel as [|k IH]; intros i; cbn; [done|]. destruct (answers i); [done|done|].
  destruct (_ || _); [done|]. apply IH.
Qed.
Lemma init_plain w cfg : forallb plain (initTailscale w cfg).1 = true.
Proof.
  unfold initTailscale. destruct (cause w BeforeUp); [done|]. destruct (up w) as [e|]; [|done].
  destruct (cause w UpFailed); [done|]. destruct (diagnoseTailscaleInitError _) as [[r hi] re]. by destruct (bool_decide _).
Qed.
Lemma serve_calm w cfg routes :
  forallb calm (serveBridge w cfg routes).1 = true
  /\ (Accepting ∈ (serveBridge w cfg routes).1 \/ exists x, (serveBridge w cfg routes).2 = Returned (Some (RoutesFailed x))).
Proof.
  unfold serveBridge. pose proof (plain_calm _ (emitRunCause_plain (cause w Ending))) as Hn.
  destruct (emitRunCause _) as [ops c]. cbn [fst] in *.
  set (health := if bool_decide (HealthAddr cfg = "") then [] else _).
  assert (forallb calm health = true) as Hh.
  { unfold health, warnHealthExposure. by destruct (bool_decide _), (HealthExposed cfg). }
  assert (forallb calm (drainActiveConnections cfg) = true) as Hd by (unfold drainActiveConnections; by destruct (_ <=? _)%Z).
  destruct (if bool_decide (SOCKS5Addr cfg = "") then None else _) as [[?|x]|].
  2:{ cbn [fst snd]. rewrite !forallb_app, Hh. split; [done|]. right. by exists x. }
  all: destruct (accepting w cfg); cbn [fst snd]; rewrite !forallb_app, Hh; cbn; rewrite ?forallb_app, ?Hd, ?Hn;
    (split; [done|left; rewrite !elem_of_app; set_solver]).
Qed.

Lemma bridge_announces w cfg routes cb :
  onReady w = Some cb ->
  (forallb plain (runBridge w cfg routes).1 = true /\ (runBridge w cfg routes).2 <> Returned None)
  \/ announced cfg cb (runBridge w cfg routes).1 (runBridge w cfg routes).2.
Proof.
  intros Hcb. unfold runBridge. pose proof (init_plain w cfg) as Hi. destruct (initTailscale w cfg) as [ops [err|]]; cbn [fst] in Hi.
  { left. pose proof (emitRunCause_plain (cause w StartFailed)) as Hn. destruct (emitRunCause _) as [sg c]. cbn [fst snd] in *.
    by rewrite forallb_app, Hi, Hn. }
  destruct (bound w) as [a|]; cbn [fst snd]; [|left; by rewrite forallb_app, Hi].
  unfold announceReady. pose proof (emitRunCause_plain (cause w Announcing)) as Hn.
  destruct (emitRunCause (cause w Announcing)) as [said [c|]]; cbn [fst snd] in *.
  { left. by rewrite !forallb_app, Hi, Hn. }
  set (banner := if Quiet cfg then [] else _).
  assert (forallb plain banner = true) as Hb.
  { unfold banner. destruct (Quiet cfg); [done|]. unfold plain. cbn. by rewrite banner_not_ready. }
  unfold emitReadyIfActive. destruct (cause w Printing) as [c|]; cbn [fst snd].
  { left. rewrite !forallb_app, Hi, Hn, Hb, emitRunCause_plain. done. }
  right. rewrite Hcb. set (before := ops ++ [Listen a] ++ said ++ banner).
  assert (forallb plain before = true) as Hbefore by (unfold before; by rewrite !forallb_app, Hi, Hn, Hb).
  destruct cb as [err|].
  - exists before, a, [ListenerClose; NodeClose]. unfold before. by rewrite <- !app_assoc.
  - pose proof (serve_calm w cfg routes) as [Hs Hx]. destruct (serveBridge w cfg routes) as [rest e]. cbn [fst snd] in *.
    exists before, a, rest. unfold before. by rewrite <- !app_assoc.
Qed.

Lemma run_announces `{UrlPackage} startText controlText w cfg routes cb :
  onReady w = Some cb ->
  let r := run startText controlText w cfg routes in
  (forallb plain r.1 = true /\ r.2 <> Returned None) \/ announced cfg cb r.1 r.2.
Proof.
  intros Hcb. cbv zeta. unfold run. pose proof (ensureStateDir_plain (onWindows w) (StateDir cfg) (stateStat w)) as Hn.
  destruct (ensureStateDir _ _ _) as [ops [err|]]; cbn [fst snd] in *; [by left|].
  assert (let l := withBootstrapLifecycle startText controlText w cfg (runBridge w cfg routes) in
    (forallb plain l.1 = true /\ l.2 <> Returned None) \/ announced cfg cb l.1 l.2) as Hl.
  { cbv zeta. unfold withBootstrapLifecycle.
    assert (forallb plain (startConfiguredBootstrap w cfg).1 = true) as Hs.
    { unfold startConfiguredBootstrap. destruct (bool_decide _); [done|]. destruct (start _ _) as [o [[?|?]|]]; [|apply tunnel_plain..].
      destruct (ConfigureControlProxy _ _) as [? [?|]]; cbn [fst]; by rewrite forallb_app, !tunnel_plain. }
    destruct (startConfiguredBootstrap w cfg) as [ops' [[t|e]|]]; cbn [fst snd] in *; [| |by left].
    2:{ left. by rewrite forallb_app, Hs. }
    destruct (bridge_announces w cfg routes cb Hcb) as [[Hp Hne]|Ha]; destruct (runBridge w cfg routes) as [br [|e]]; cbn [fst snd] in *.
    - left. by rewrite forallb_app, Hs, Hp.
    - left. rewrite !forallb_app, Hs, Hp. split; [|done]. by destruct t.
    - right. rewrite <- (app_nil_r br). by apply announced_between.
    - right. apply announced_between; [done| |done]. cbn. by destruct t. }
  cbv zeta in Hl. destruct (withBootstrapLifecycle _ _ _ _ _) as [did [|err]]; cbn [fst snd] in *.
  - destruct Hl as [[Hl ?]|Hl]; [left; by rewrite forallb_app, Hn, Hl|right].
    rewrite <- (app_nil_r did). by apply announced_between.
  - assert (forallb plain ((if EphemeralState cfg then cleanupEphemeralStateDir (StateDir cfg) (removals w) else []) ++ [Cancel; CloseLog]) = true) as Hc.
    { rewrite forallb_app. destruct (EphemeralState cfg); [unfold cleanupEphemeralStateDir; by rewrite cleanup_plain|done]. }
    destruct Hl as [[Hl ?]|Hl]; [left; rewrite !forallb_app, Hn, Hl; by rewrite forallb_app in Hc|right].
    by apply announced_between.
Qed.

(** * What a run reports *)

Definition errorLines (ops : list run_op) : list string :=
  omap (fun op => match op with Stderr t => Some t | _ => None end) ops.

Lemma errorLines_app a b : errorLines (a ++ b) = errorLines a ++ errorLines b.
Proof. apply omap_app. Qed.

Definition silent (op : run_op) : bool := match op with Stderr _ => false | _ => true end.
Lemma errorLines_silent ops : forallb silent ops = true -> errorLines ops = [].
Proof. unfold errorLines. induction ops as [|op ops IH]; [done|]. cbn. destruct op; cbn; auto; done. Qed.

Lemma tunnel_silent l : errorLines (map Tunnel l) = [].
Proof. apply errorLines_silent. by induction l. Qed.

Lemma ensureStateDir_silent b dir s : errorLines (ensureStateDir b dir s).1 = [].
Proof. destruct s as [| | |perm]; try done. cbn. by destruct (_ && _). Qed.

Lemma cleanup_silent dir answers fuel i : errorLines (cleanupLoop dir answers fuel i) = [].
Proof.
  revert i. induction fuel as [|k IH]; intros i; [done|]. cbn. destruct (answers i); [done|done|].
  destruct (_ || _); [done|]. apply IH.
Qed.

Definition ssh_exit_line (c : goerr) : list string :=
  if errorsIs c ErrSSHBootstrapExited then [emitError reasonSSHBootstrapFailed (Error c)] else [].

Lemma emitRunCause_lines c : errorLines (emitRunCause c).1 = match c with Some e => ssh_exit_line e | None => [] end.
Proof. destruct c as [c|]; [|done]. unfold ssh_exit_line. cbn. by destruct (errorsIs _ _). Qed.

Definition init_line (e : goerr) : string := emitError (diagnoseTailscaleInitError (Some e)).1.1 (Error e).

#[local] Arguments emitError : simpl never.
#[local] Arguments diagnoseTailscaleInitError : simpl never.
Lemma init_lines w cfg :
  match (initTailscale w cfg).2 with
  | Some (InitFailed u e) => u = controlURLForError (ControlURL cfg) /\ up w = Some e
      /\ errorLines (initTailscale w cfg).1 = [init_line e]
  | Some (Cause c) => errorLines (initTailscale w cfg).1 = [] /\ (cause w BeforeUp = Some c \/ cause w UpFailed = Some c)
  | Some _ => False
  | None => errorLines (initTailscale w cfg).1 = []
  end.
Proof.
  unfold initTailscale, init_line. destruct (cause w BeforeUp) as [c|]; [cbn; by auto|].
  destruct (up w) as [e|]; [|done]. destruct (cause w UpFailed) as [c|]; [cbn; by auto|].
  destruct (diagnoseTailscaleInitError _) as [[r hi] re] eqn:Ed. cbn [fst snd]. split_and!; [done|done|].
  rewrite Ed. by destruct (bool_decide (hi = "")).
Qed.

(** The ERROR lines of a run that returned an error. *)
Definition lines_fit (w : run_world) (text : run_error -> string) (err : run_error) (lines : list string) : Prop :=
  match err with
  | TunnelError _ | ControlError _ => lines = [emitError reasonSSHBootstrapFailed (text err)]
  | InitFailed _ e => up w = Some e /\ lines = [init_line e]
  | Cause c => exists before, lines = before ++ ssh_exit_line c /\ (before = [] \/ exists e, up w = Some e /\ before = [init_line e])
  | AcceptError _ => (forall c, cause w Ending = Some c -> errorsIs c ErrSSHBootstrapExited = false) -> lines = []
  | _ => lines = []
  end.

Lemma announce_lines w cfg a text :
  cause_kept w ->
  match (announceReady w cfg a).2 with
  | Some err => lines_fit w text err (errorLines (announceReady w cfg a).1)
      /\ match err with Cause _ | ReadyCallback _ => True | _ => False end
  | None => errorLines (announceReady w cfg a).1 = []
  end.
Proof.
  intros Hk. unfold announceReady. pose proof (emitRunCause_lines (cause w Announcing)) as Hl.
  pose proof (emitRunCause_cause (cause w Announcing)) as Hc.
  destruct (emitRunCause (cause w Announcing)) as [ops [c|]]; cbn [fst snd] in *; rewrite <- Hc in Hl.
  { split; [|done]. exists []. auto. }
  set (banner := if Quiet cfg then [] else _).
  assert (errorLines banner = []) as Hb by (unfold banner; by destruct (Quiet cfg)).
  unfold emitReadyIfActive. destruct (cause w Printing) as [c|] eqn:Ep; cbn [fst snd].
  - split; [|done]. exists []. split; [|by left]. rewrite !errorLines_app, Hl, Hb, emitRunCause_lines.
    by rewrite (Hk Printing NotPrinted c ltac:(cbn; lia) Ep).
  - destruct (onReady w) as [[e|]|]; cbn; rewrite !errorLines_app, Hl, Hb; done.
Qed.

Lemma serve_lines w cfg routes text err :
  (serveBridge w cfg routes).2 = Returned (Some err) ->
  lines_fit w text err (errorLines (serveBridge w cfg routes).1)
  /\ match err with RoutesFailed _ | Cause _ | AcceptError _ => True | _ => False end.
Proof.
  unfold serveBridge. set (health := if bool_decide (HealthAddr cfg = "") then [] else _).
  assert (forall rest, errorLines ((health ++ [GoShutdown; MarkedReady]) ++ rest) = errorLines rest) as Ho.
  { intros rest. rewrite !errorLines_app. unfold health, warnHealthExposure.
    by destruct (bool_decide (HealthAddr cfg = "")), (HealthExposed cfg). }
  assert (forall rest, errorLines ([Accepting] ++ drainActiveConnections cfg ++ [NodeClose] ++ rest) = errorLines rest) as Hd.
  { intros rest. rewrite !errorLines_app. unfold drainActiveConnections. by destruct (_ <=? _)%Z. }
  cbv zeta. pose proof (emitRunCause_lines (cause w Ending)) as Hl. pose proof (emitRunCause_cause (cause w Ending)) as Hc.
  destruct (emitRunCause (cause w Ending)) as [sg c]. cbn [fst snd] in *. rewrite <- Hc in Hl.
  destruct (if bool_decide (SOCKS5Addr cfg = "") then None else _) as [[r|e]|];
    [|cbn [fst snd]; intros [= <-]; by rewrite Ho|];
    (destruct (accepting w cfg) as [ea|]; [|done]; cbn [fst snd]; rewrite Ho, Hd, Hl; destruct c as [c|];
      [destruct (errorsIs c ErrCanceled) eqn:Ec|]; [destruct ea|..|destruct ea]; try done; intros [= <-]; split; try done;
      cbn; [rewrite <- Hc; intros Hx; unfold ssh_exit_line; by rewrite (Hx c eq_refl)|exists []; auto]).
Qed.

Lemma bridge_lines w cfg routes text err :
  cause_kept w -> (runBridge w cfg routes).2 = Returned (Some err) ->
  lines_fit w text err (errorLines (runBridge w cfg routes).1)
  /\ match err with InitFailed _ _ | BindFailed _ | ReadyCallback _ | RoutesFailed _ | Cause _ | AcceptError _ => True | _ => False end.
Proof.
  intros Hk. unfold runBridge. pose proof (init_lines w cfg) as Hi.
  destruct (initTailscale w cfg) as [ops [e|]]; cbn [fst snd] in *.
  { pose proof (emitRunCause_lines (cause w StartFailed)) as Hl. pose proof (emitRunCause_cause (cause w StartFailed)) as Hc.
    destruct (emitRunCause _) as [sg c]; cbn [fst snd] in *. rewrite <- Hc in Hl.
    rewrite errorLines_app, Hl. intros [= <-]. destruct c as [c|].
    - split; [|done]. exists (errorLines ops). split; [done|]. destruct e; try done; [left; tauto|right].
      eexists. by split; apply Hi.
    - rewrite app_nil_r. destruct e; try done; cbn; [|by split; [split; apply Hi|]]. exfalso.
      destruct Hi as [_ [Hb|Hb]]; [pose proof (Hk BeforeUp StartFailed _ ltac:(cbn; lia) Hb)|
        pose proof (Hk UpFailed StartFailed _ ltac:(cbn; lia) Hb)]; congruence. }
  destruct (bound w) as [a|]; cbn [fst snd].
  2: { intros [= <-]. rewrite errorLines_app, Hi. done. }
  pose proof (announce_lines w cfg a text Hk) as Ha. destruct (announceReady w cfg a) as [said [e|]]; cbn [fst snd] in *.
  - intros [= <-]. destruct Ha as [Ha Hv]. rewrite !errorLines_app, Hi. cbn [app errorLines omap list_omap].
    rewrite app_nil_r. split; [exact Ha|]. by destruct e.
  - pose proof (serve_lines w cfg routes text err) as Hs. destruct (serveBridge w cfg routes) as [rest e]. cbn [fst snd] in *.
    intros ->. destruct (Hs eq_refl) as [Hf Hv]. rewrite !errorLines_app, Hi, Ha. split; [exact Hf|]. by destruct err.
Qed.

Section Reported.
Context `{UrlPackage}.
Variable startText : start_error -> string.
Variable controlText : control_error -> string.

Lemma start_silent w cfg : errorLines (startConfiguredBootstrap w cfg).1 = [].
Proof.
  unfold startConfiguredBootstrap. destruct (bool_decide (BootstrapSSH cfg = "")); [done|].
  destruct (start _ _) as [ops [[u|e]|]]; cbn [fst snd]; try apply tunnel_silent.
  destruct (ConfigureControlProxy _ _) as [cs [e|]]; cbn [fst]; rewrite errorLines_app, tunnel_silent; [apply tunnel_silent|done].
Qed.

Lemma start_error_kind w cfg e :
  (startConfiguredBootstrap w cfg).2 = Some (Err e) -> match e with TunnelError _ | ControlError _ => True | _ => False end.
Proof.
  unfold startConfiguredBootstrap. destruct (bool_decide (BootstrapSSH cfg = "")); [done|].
  destruct (start _ _) as [ops [[u|e']|]]; cbn [snd]; [|by intros [= <-]|done].
  destruct (ConfigureControlProxy _ _) as [cs [e'|]]; cbn [snd]; [by intros [= <-]|done].
Qed.

(** C25: a run that fails says why, on one line each: a tunnel that could not be set
    up, or ended while the run was on, is [ssh_bootstrap_failed] with its text; a
    node that did not come up has the reason diagnosed from the control plane's
    answer; a run that was cancelled from outside, or whose listener or callback
    failed, adds no ERROR line of its own. *)
Theorem failure_reported w cfg routes ops err :
  cause_kept w ->
  run startText controlText w cfg routes = (ops, Returned (Some err)) ->
  lines_fit w (tunnel_error_text startText controlText) err (errorLines ops).
Proof.
  intros Hk. unfold run. pose proof (ensureStateDir_silent (onWindows w) (StateDir cfg) (stateStat w)) as He.
  assert (forall e, (ensureStateDir (onWindows w) (StateDir cfg) (stateStat w)).2 = Some e ->
    match e with CreateStateDir | StatStateDir | StateNotDir _ => True | _ => False end) as Hek.
  { intros e. destruct (stateStat w) as [[]| | |]; cbn; by intros [= <-]. }
  destruct (ensureStateDir _ _ _) as [ops0 [e|]]; cbn [fst snd] in *.
  { intros [= <- <-]. rewrite He. specialize (Hek e eq_refl). by destruct e. }
  unfold withBootstrapLifecycle. pose proof (start_silent w cfg) as Hs. pose proof (start_error_kind w cfg) as Hsk.
  assert (forall e rest, errorLines (ops0 ++ rest ++ (if EphemeralState cfg then cleanupEphemeralStateDir (StateDir cfg) (removals w)
            else []) ++ [Cancel; CloseLog]) = e -> errorLines rest = e) as Hrest.
  { intros e rest <-. rewrite !errorLines_app, He. destruct (EphemeralState cfg);
      [unfold cleanupEphemeralStateDir; rewrite cleanup_silent|]; by rewrite app_nil_r. }
  destruct (startConfiguredBootstrap w cfg) as [ops1 [[t|e]|]]; cbn [fst snd] in *; [| |done].
  - pose proof (bridge_lines w cfg routes (tunnel_error_text startText controlText) err Hk) as Hb.
    destruct (runBridge w cfg routes) as [ops2 [|e]]; [done|]. cbn [fst snd] in *.
    intros [= Ho ->]. apply (f_equal errorLines) in Ho. apply Hrest in Ho. rewrite <- Ho.
    rewrite !errorLines_app, Hs. destruct (Hb eq_refl) as [Hf _].
    by destruct t; cbn; rewrite app_nil_r.
  - intros [= Ho ->]. apply (f_equal errorLines) in Ho. apply Hrest in Ho. rewrite <- Ho.
    rewrite errorLines_app, Hs. specialize (Hsk err eq_refl). by destruct err.
Qed.
End Reported.

(** * Removing the ephemeral state *)

Definition removals_of (ops : list run_op) : nat :=
  length (List.filter (fun op => match op with RemoveAll _ => true | _ => false end) ops).
Definition sleeps_of (ops : list run_op) : list Z := omap (fun op => match op with Sleep d => Some d | _ => None end) ops.

Lemma cleanup_attempts dir answers fuel i :
  (i + fuel = S cleanupMaxAttempts)%nat -> (1 <= fuel)%nat ->
  exists n, (i <= n <= cleanupMaxAttempts)%nat
    /\ let ops := cleanupLoop dir answers fuel i in
       removals_of ops = (n - i + 1)%nat
    /\ sleeps_of ops = map (fun k => (Z.of_nat k * cleanupRetryDelay)%Z) (seq i (n - i))
    /\ (forall k, (i <= k < n)%nat -> exists text, answers k = RemoveFails text /\ isRetryableCleanupError text = true)
    /\ (forall text, answers n = RemoveFails text -> isRetryableCleanupError text = true -> n = cleanupMaxAttempts).
Proof.
  unfold cleanupMaxAttempts. revert i. induction fuel as [|k IH]; intros i Hi Hf; [lia|]. cbn [cleanupLoop].
  destruct (answers i) as [| |text] eqn:Ea.
  1,2: exists i; rewrite Nat.sub_diag; split; [lia|]; split_and!; try done; [intros; lia|congruence].
  destruct (isRetryableCleanupError text) eqn:Er; cbn [negb orb];
    [destruct (i =? cleanupMaxAttempts)%nat eqn:Em|].
  - apply Nat.eqb_eq in Em. unfold cleanupMaxAttempts in Em. exists i. rewrite Nat.sub_diag. split; [lia|].
    split_and!; try done; intros; lia.
  - apply Nat.eqb_neq in Em. unfold cleanupMaxAttempts in Em. destruct (IH (S i)) as (n & Hn & H1 & H2 & H3 & H4); [lia|lia|].
    exists n. split; [lia|]. unfold removals_of, sleeps_of in *. cbn. rewrite H1, H2.
    replace (n - i)%nat with (S (n - S i)) by lia. split_and!; [lia|done| |done].
    intros j Hj. destruct (decide (j = i)) as [->|]; [by exists text|apply H3; lia].
  - exists i. rewrite Nat.sub_diag. split; [lia|]. split_and!; try done; [intros; lia|congruence].
Qed.

(** The ephemeral directory is removed in one to five attempts: another one is made
    only after a failure that may pass, after waits of 150, 300, 450 and 600 ms; the
    loop gives up on such a failure at the fifth attempt only. *)
Theorem cleanup_bounded dir answers :
  let ops := cleanupEphemeralStateDir dir answers in
  exists n, (1 <= n <= cleanupMaxAttempts)%nat
    /\ removals_of ops = n
    /\ sleeps_of ops = map (fun k => (Z.of_nat k * cleanupRetryDelay)%Z) (seq 1 (n - 1))
    /\ (forall k, (1 <= k < n)%nat -> exists text, answers k = RemoveFails text /\ isRetryableCleanupError text = true)
    /\ (forall text, answers n = RemoveFails text -> isRetryableCleanupError text = true -> n = cleanupMaxAttempts)
    /\ (fold_right Z.add 0 (sleeps_of ops) <= 1500 * 10 ^ 6)%Z.
Proof.
  destruct (cleanup_attempts dir answers cleanupMaxAttempts 1) as (n & Hn & H1 & H2 & H3 & H4); [done|unfold cleanupMaxAttempts; lia|].
  exists n. cbv zeta. unfold cleanupEphemeralStateDir. split_and!; try done; [lia|lia|rewrite H1; lia|].
  rewrite H2. unfold cleanupMaxAttempts in Hn.
  assert (n = 1 \/ n = 2 \/ n = 3 \/ n = 4 \/ n = 5)%nat as [->|[->|[->|[->| ->]]]] by lia; by vm_compute.
Qed.

(** * Routes *)

Lemma normalizeSOCKSAddress_dialable a : dialable a -> exists k, normalizeSOCKSAddress a = Ok k.
Proof.
  intros (h & p & n & Hs & Hh & Hp). unfold normalizeSOCKSAddress. rewrite Hs. cbn.
  rewrite bool_decide_eq_false_2 by done. cbn. rewrite Hp. by eexists.
Qed.

Lemma normalizeRoutes_total routes acc :
  Forall (fun kv => dialable kv.1 /\ dialable kv.2) routes -> exists m, normalizeRoutes routes acc = Ok m.
Proof.
  intros Hr. revert acc. induction Hr as [|[s d] routes [Hs Hd] _ IH]; intros acc; [by eexists|].
  cbn in Hs, Hd |- *. destruct (normalizeSOCKSAddress_dialable _ Hs) as [k ->]. destruct (normalizeSOCKSAddress_dialable _ Hd) as [k' ->]. apply IH.
Qed.

Lemma bridge_routes_error w cfg routes e :
  (runBridge w cfg routes).2 = Returned (Some (RoutesFailed e)) -> socksTargetResolver routes = Err e.
Proof.
  unfold runBridge. pose proof (init_lines w cfg) as Hi. destruct (initTailscale w cfg) as [ops [e'|]]; cbn [fst snd] in *.
  { destruct (emitRunCause _) as [sg [c|]]; cbn [snd]; [done|]. by intros [= ->]. }
  destruct (bound w) as [a|]; cbn [snd]; [|done].
  destruct (announceReady w cfg a) as [said [e'|]] eqn:Ea; cbn [snd].
  - intros [= ->]. exfalso. revert Ea. unfold announceReady, emitReadyIfActive.
    destruct (emitRunCause _) as [ops' [c|]]; [done|]. destruct (cause w Printing); [done|]. by destruct (onReady w) as [[]|].
  - unfold serveBridge. destruct (bool_decide (SOCKS5Addr cfg = "")).
    2: destruct (socksTargetResolver routes) as [r|e'] eqn:Er; [|by intros [= ->]].
    all: destruct (accepting w cfg) as [ea|]; [|done]; destruct (emitRunCause _) as [sg [c|]]; cbn [snd];
      [destruct (errorsIs c ErrCanceled)|]; try done; by destruct ea.
Qed.

Section Routes.
Context `{UrlPackage}.
Variable startText : start_error -> string.
Variable controlText : control_error -> string.

(** Every route a merged configuration holds is one the SOCKS5 front end accepts,
    in whatever order the map is ranged over: a bridge that has announced itself
    never fails on its routes. *)
Theorem merged_routes_accepted m y f cfg w routes :
  Merge m y f = Ok cfg -> routes ≡ₚ map_to_list (SOCKS5Routes cfg) ->
  (exists resolve, socksTargetResolver routes = Ok resolve)
  /\ forall e, (run startText controlText w cfg routes).2 <> Returned (Some (RoutesFailed e)).
Proof.
  intros HM Hp. assert (exists resolve, socksTargetResolver routes = Ok resolve) as [resolve Hr].
  { unfold socksTargetResolver. destruct routes as [|r routes']; [by eexists|].
    pose proof (Merge_Ok _ _ _ _ HM) as M. rewrite (core_field SOCKS5Routes _ _ (mf_core _ _ _ _ _ M)) in Hp by done.
    pose proof (mf_proxy _ _ _ _ _ M) as Hv. unfold validateMergedProxyConfig in Hv.
    apply bind_Ok in Hv as ([] & _ & Hv). apply bind_Ok in Hv as ([] & _ & Hv). apply bind_Ok in Hv as ([] & Hv & _).
    destruct (normalizeRoutes_total (r :: routes') ∅) as [k Hk].
    - rewrite Hp. apply Forall_forall. intros [s d] Hin%elem_of_map_to_list. by apply (validateSOCKS5Routes_Ok _ Hv).
    - unfold NewAllowlistSOCKSTarget. rewrite Hk. by eexists. }
  split; [by exists resolve|]. intros e. unfold run, withBootstrapLifecycle.
  destruct (ensureStateDir _ _ _) as [ops0 [err|]] eqn:Ee; cbn [snd].
  { unfold ensureStateDir in Ee. destruct (stateStat w) as [[]| | |]; injection Ee as _ <-; done || congruence. }
  assert (forall e', (runBridge w cfg routes).2 = Returned (Some e') -> e' <> RoutesFailed e) as Hb.
  { intros e' He' ->. apply bridge_routes_error in He'. congruence. }
  pose proof (start_error_kind w cfg) as Hk.
  destruct (startConfiguredBootstrap w cfg) as [ops1 [[t|e']|]]; cbn [fst snd] in *; [| |done].
  - destruct (runBridge w cfg routes) as [ops2 [|[e'|]]]; cbn [fst snd] in *; [done| |done]. intros [= ->]. by apply (Hb _ eq_refl).
  - intros [= ->]. by specialize (Hk _ eq_refl).
Qed.
End Routes.

(** Two routes for one destination, written differently, pass every check; which
    one is used depends on the order the map is ranged over. *)
Lemma route_order_decides :
  exists a b, normalizeRoutes [a; b] ∅ <> normalizeRoutes [b; a] ∅
    /\ @validateSOCKS5Routes (list_to_map [a; b]) = Ok tt.
Proof.
  exists ("db:80", "10.0.0.1:80"), ("DB:80", "10.0.0.2:80"). split; [|vm_compute; reflexivity].
  intros H. apply (f_equal (fun r => match r with Ok m => m !! "db:80" | Err _ => None end)) in H. vm_compute in H. discriminate.
Qed.

(** * Readiness while the run ends *)

(** The writes of [MarkReady] and of [handleShutdown] to the tunnel's status, which
    two goroutines make; the second starts once the run has been cancelled. *)
Inductive status_write : Type := WReason (r : string) | WReady (b : bool).
Definition write (op : status_write) (s : TunnelStatus) : TunnelStatus :=
  match op with WReason r => storeReason r s | WReady b => storeReady b s end.
Definition writes_of (op : shutdown_op) : list status_write :=
  match op with StoreStatus b r => [WReason r; WReady b] | _ => [] end.
Definition markReadyWrites : list status_write := [WReason ""; WReady true].
Definition shutdownWrites (c : goerr) : list status_write := concat (map writes_of (handleShutdown c true)).

Record stopping : Type := mkStopping {
  sStatus : TunnelStatus;
  sCause : option goerr;
  sMain : list status_write;
  sHandler : option (list status_write);
}.

Inductive stop_step : stopping -> stopping -> Prop :=
  | StopCancel s c l : stop_step (mkStopping s None l None) (mkStopping s (Some c) l None)
  | StopMain s c op l h : stop_step (mkStopping s c (op :: l) h) (mkStopping (write op s) c l h)
  | StopBegin s c l : stop_step (mkStopping s (Some c) l None) (mkStopping s (Some c) l (Some (shutdownWrites c)))
  | StopHandler s c l op h : stop_step (mkStopping s c l (Some (op :: h))) (mkStopping (write op s) c l (Some h)).

Definition stopping_ok (x : stopping) : Prop :=
  sMain x = [] /\
  match sHandler x with
  | None => True
  | Some h => exists c, sCause x = Some c /\
      (h = shutdownWrites c
       \/ h = [WReady false] /\ reason (sStatus x) = Some (shutdownReason c)
       \/ h = [] /\ sStatus x = mkStatus false (Some (shutdownReason c)))
  end.

Lemma stop_step_ok x y : stopping_ok x -> stop_step x y -> stopping_ok y.
Proof.
  intros [Hm Hh] Hs. destruct Hs as [s c l|s c op l h|s c l|s c l op h]; cbn in *; [done|done| |].
  - split; [done|]. exists c. auto.
  - split; [done|]. destruct Hh as (c' & Hc & [H|[[H Hr]|[H _]]]); [..|done].
    + injection H as -> ->. exists c'. auto.
    + injection H as -> ->. exists c'. split; [done|]. right. right. destruct s. cbn in *. by subst.
Qed.

(** Once the startup's mark is set, a run that is over answers 503 on its readiness
    endpoint, with the cause it ended for unless that is an ordinary cancellation,
    from the moment its shutdown stored the status. *)
Theorem shutdown_not_ready s x :
  reachable stop_step (mkStopping s None [] None) x -> sHandler x = Some [] ->
  exists c, sCause x = Some c
    /\ readyHandler (Load (sStatus x)) None
       = (503%Z, mkBody "not_ready" (if bool_decide (shutdownReason c = "") then None else Some (shutdownReason c)) None None).
Proof.
  intros Hr Hh. assert (stopping_ok x) as [_ Hx].
  { revert Hr. apply invariant_reachable; [by split|]. intros. by eapply stop_step_ok. }
  rewrite Hh in Hx. destruct Hx as (c & Hc & [H|[[H _]|[_ Hs]]]); [done|done|]. exists c. split; [done|]. rewrite Hs.
  unfold readyHandler, Load. cbn. by destruct (bool_decide (shutdownReason c = "")).
Qed.

(** Without that condition it need not: a run cancelled between the start of the
    shutdown goroutine and the mark ends as ready. *)
Lemma late_mark_ready c :
  exists x, reachable stop_step (mkStopping zeroStatus None markReadyWrites None) x
    /\ sHandler x = Some [] /\ sMain x = [] /\ sCause x = Some c /\ (readyHandler (Load (sStatus x)) None).1 = 200%Z.
Proof.
  eexists. split; [|split_and!; [| | |]].
  - eapply reach_step; [|apply StopMain]. eapply reach_step; [|apply StopMain].
    eapply reach_step; [|apply StopHandler]. eapply reach_step; [|apply StopHandler].
    eapply reach_step; [|apply StopBegin]. eapply reach_step; [|apply StopCancel]. apply reach_init.
  - done.
  - done.
  - done.
  - done.
Qed.

(** * The banner *)

Lemma len_blanks n : len (blanks n) = n.
Proof. unfold len. induction n as [|n IH]; [done|]. cbn. by rewrite IH. Qed.

Lemma len_take_long n s : (n <= len s)%nat -> len (str_take n s) = n.
Proof.
  unfold len. revert s. induction n as [|n IH]; intros s H; [done|]. destruct s as [|c s]; cbn in *; [lia|].
  by rewrite IH by lia.
Qed.

(** The version's row is as long for every version as for none, whatever is cut;
    it is longer than the border's rows. *)
Theorem version_row_width v :
  len (versionLine v) = len (versionLine "") /\ (43 < len (versionLine v))%nat
  /\ len "  +---------------------------------------+" = 43%nat.
Proof.
  assert (len (versionLine v) = len (versionLine "")) as Hl.
  { unfold versionLine, padRight. autorewrite with gostr. rewrite !len_blanks.
    destruct (bannerWidth <? len v)%nat eqn:E.
    - apply Nat.ltb_lt in E. rewrite len_app, len_take_long by (unfold bannerWidth in *; lia). reflexivity.
    - apply Nat.ltb_ge in E. cbn [len]. change (len "") with 0%nat. destruct (bannerWidth <? 0)%nat; cbn; unfold bannerWidth in *; cbn in *; lia. }
  rewrite Hl. split; [done|]. split; [vm_compute; lia|reflexivity].
Qed.

(** * Runs *)

Definition demo_ssh : start_env := mkStartEnv (Some "/usr/bin/ssh") true [] true [Dialled None].
Definition demo_run_world (c : moment -> option goerr) (upErr : option goerr) : run_world :=
  mkRunWorld false (StateAbsent true) demo_ssh (mkProxyEnv false true (Some "127.0.0.1:7001") true) c upErr
    (Some "127.0.0.1:33400") None [AcceptFailed (mkErr "closed" [ErrClosed] [])] (fun _ => RemovedAll) "1.2.3" "".
Definition rejected_key : goerr := plainErr "control: invalid key: unable to validate API key".

Lemma failure_reported_witness :
  let r := @run simpleUrl (fun _ => "") (fun _ => "") (demo_run_world (fun _ => None) (Some rejected_key)) demo_config [] in
  r.2 = Returned (Some (InitFailed "https://headscale.test" rejected_key))
  /\ errorLines r.1 = [emitError reasonBadAuthKey (Error rejected_key)].
Proof.
  cbv zeta. destruct (@run simpleUrl (fun _ => "") (fun _ => "") (demo_run_world (fun _ => None) (Some rejected_key)) demo_config [])
    as [ops e] eqn:E. cbn [fst snd].
  assert (e = Returned (Some (InitFailed "https://headscale.test" rejected_key))) as ->.
  { apply (f_equal snd) in E. cbn [snd] in E. rewrite <- E. vm_compute. reflexivity. }
  split; [done|]. apply (@failure_reported simpleUrl) in E; [|by intros]. exact (proj2 E).
Defined.

Lemma merged_routes_accepted_witness :
  exists resolve, socksTargetResolver (map_to_list (SOCKS5Routes demo_config)) = Ok resolve.
Proof.
  exact (proj1 (@merged_routes_accepted simpleUrl (fun _ => "") (fun _ => "") _ _ _ _
    (demo_run_world (fun _ => None) None) _ demo_merged_ok ltac:(reflexivity))).
Defined.

Definition interrupted : goerr := mkErr "context canceled" [ErrCanceled] [].
Lemma shutdown_not_ready_witness :
  exists c, Some interrupted = Some c /\ readyHandler (false, "") None
    = (503%Z, mkBody "not_ready" (if bool_decide (shutdownReason c = "") then None else Some (shutdownReason c)) None None).
Proof.
  apply (shutdown_not_ready (mkStatus true (Some ""))
           (mkStopping (mkStatus false (Some "")) (Some interrupted) [] (Some []))); [|reflexivity].
  eapply reach_step; [|apply (StopHandler (mkStatus true (Some "")) _ _ (WReady false))].
  eapply reach_step; [|apply (StopHandler (mkStatus true (Some "")) _ _ (WReason ""))].
  eapply reach_step; [|apply StopBegin]. eapply reach_step; [|apply StopCancel]. apply reach_init.
Defined.
