(* ===== verification/HostServe.v ===== *)
(** The command [host serve] (src/cmd/cli/host_serve.go): the plan it reads from the
    host file, the tunnel it may need, the node, and the declared services it
    publishes on it.

    As for the bridge, what a run does is a list of operations; the node, the
    files, the child process and the moment the context ends are its
    environment. The supervisor and the control session's watch run beside it and
    are defined in [Serve]. *)
From S2P Require Import Prelude GoStrings GoNet GoErr Health ControlUrl Config Bootstrap Signals RunBridge HostFile Serve.
From Stdlib Require Import Ascii.

Open Scope bool_scope.

Definition defaultServeSOCKSAddr := "127.0.0.1:1055".

(** * The plan *)

Record servePlan : Type := mkPlan { pNode : NodeConfig; pMesh : FileMesh; pServices : list Service }.

Inductive serve_error : Type :=
  | ConfigRequired
  | HostFileError (e : host_file_error)
  | NoMesh | NoControlURL | NoStateDirectory
  | StateDirRefused
  | NodeSettings (e : node_error)
  | ServeTunnel (e : start_error)
  | ServeControl (e : control_error)
  | NodeFailed (control : string) (e : goerr)
  | Untagged (hostname stateDir : string)
  | ServePublish (e : publish_error).

Inductive serve_op : Type :=
  | EnsureDir (dir : string)
  | KeyOp (op : key_op)
  | TunnelOp (op : start_op)
  | ProxyOp (controlURL socks : string)
  | Supervise (base max : Z)
  | StopSupervisor
  | NodeStart (nc : NodeConfig) (timeout : Z)
  | NodeStop
  | PublishOp (op : publish_op)
  | Unpublish
  | WatchOp
  | ReportOp (r : report)
  | HealthOp (addr : string)
  | HealthStop
  | Out (text : string)
  | ErrOut (text : string).

Inductive serve_end : Type := Serving | Stopped (err : option serve_error).

(** The environment of a run. *)
Record serve_world : Type := mkServeWorld {
  configFlag : string;
  verboseFlag : option bool;
  fileAt : string -> option yaml_stream;
  osName : string;
  env_of : string -> string;
  ensures : string -> bool;
  files : node_env;
  sshEnv : start_env;
  proxySetup : proxy_env;
  nodeUp : result goerr (option (option (option (list string))));
  ctxOver : bool;
  canListen : string -> bool;
  hasLocalAPI : bool;
  ended : bool;
}.

Definition serveServices (cfg : HostFile.Config) : list Service :=
  map (fun s => Serve.mkService (dKind s) (dPort s)) (HostFile.Services cfg).

(** The READY line; [%t] prints a boolean. *)
Definition formatServeReady (node : string) (services : list Service) (enrolled : bool) : string :=
  "READY node=" +:+ node +:+ " services="
  +:+ Join (map (fun s => Serve.Kind s +:+ String ":" (Itoa (Serve.Port s))) services) ","
  +:+ " enrolled=" +:+ (if enrolled then "true" else "false").

(** [serveReport]: the node, and every declared service as published. *)
Definition serveReport (p : servePlan) : string * list ServiceState :=
  (Serve.Hostname (pNode p), map (fun s => Health.mkService (Serve.Kind s) (Serve.Port s) true) (pServices p)).

Definition untagged_text (nc : NodeConfig) : string :=
  "node " +:+ Serve.Hostname nc +:+ " has no tags, so the host would be a user's node: remove the node from the control plane, empty state_dir "
  +:+ nStateDir nc +:+ ", put a tagged auth key in auth_key_file and start again (the key is read only while state_dir is empty)".

Section HostServe.
Context `{UrlPackage}.
(** The texts of the errors of other packages. *)
Variable startText : start_error -> string.
Variable controlText : control_error -> string.
Variable publishText : publish_error -> string.

Definition loadServePlan (w : serve_world) : list serve_op * result serve_error servePlan :=
  if bool_decide (configFlag w = "") then ([], Err ConfigRequired) else
  match (LoadServeFile (fileAt w (configFlag w)) (osName w)).2 with
  | Err e => ([], Err (HostFileError e))
  | Ok file =>
      match hMesh (fHost file), hControlURL (fHost file) with
      | None, _ => ([], Err NoMesh)
      | Some _, None => ([], Err NoControlURL)
      | Some mesh, Some control =>
          match HostFile.StateDir mesh with
          | None => ([], Err NoStateDirectory)
          | Some dir =>
              if negb (ensures w dir) then ([EnsureDir dir], Err StateDirRefused) else
              let '(ops, node) := NewNodeConfig (files w) mesh control in
              (EnsureDir dir :: map KeyOp ops,
               nc ← map_err NodeSettings node;
               let cfg := Resolve (osName w) file (env_of w)
                            (mkFlags "" false false 0 (default false (verboseFlag w)) (bool_decide (is_Some (verboseFlag w))) "") in
               Ok (mkPlan nc mesh (serveServices cfg)))
          end
      end
  end.

Definition serve_error_text (e : serve_error) : string :=
  match e with
  | ServeTunnel e => "start SSH control-plane bootstrap: " +:+ startText e
  | ServeControl e => "configure SSH control-plane bootstrap: " +:+ controlText e
  | ServePublish e => publishText e
  | _ => ""
  end.

(** Whether a supervisor runs; [None] while the tunnel is still awaited. *)
Definition startServeBootstrap (w : serve_world) (p : servePlan) : list serve_op * option (result serve_error bool) :=
  match HostFile.BootstrapSSH (pMesh p) with
  | None => ([], Some (Ok false))
  | Some endpoint =>
      let socks := default defaultServeSOCKSAddr (HostFile.BootstrapSOCKSAddr (pMesh p)) in
      let '(ops, outcome) := start (mkBootstrap endpoint socks defaultTimeout) (sshEnv w) in
      let started := map TunnelOp ops in
      match outcome with
      | None => (started, None)
      | Some (Err e) => (started, Some (Err (ServeTunnel e)))
      | Some (Ok _) =>
          match ConfigureControlProxy (nControlURL (pNode p)) (proxySetup w) with
          | (_, Some e) => (started ++ map TunnelOp closeTunnel, Some (Err (ServeControl e)))
          | (_, None) =>
              (started ++ [ProxyOp (nControlURL (pNode p)) socks; Supervise defaultDialBackoffBase defaultDialBackoffMax],
               Some (Ok true))
          end
      end
  end.

Definition runServeNode (w : serve_world) (p : servePlan) : list serve_op * serve_end :=
  let nc := pNode p in
  let up := [NodeStart nc defaultTimeout] in
  match nodeUp w with
  | Err e =>
      if ctxOver w then (up ++ [NodeStop], Stopped None)
      else
        let '(reason, _, _) := diagnoseTailscaleInitError (Some e) in
        (up ++ [NodeStop; ErrOut (emitError reason (Error e))], Stopped (Some (NodeFailed (nControlURL nc) e)))
  | Ok status =>
      if bool_decide (NodeTags status = [])
      then (up ++ [ErrOut (emitError reasonNodeNotTagged (untagged_text nc)); NodeStop],
            Stopped (Some (Untagged (Serve.Hostname nc) (nStateDir nc))))
      else
        match Publish (canListen w) (pServices p) with
        | (ops, Err e) =>
            (up ++ map PublishOp ops ++ [ErrOut (emitError reasonPublishFailed (publishText e)); NodeStop],
             Stopped (Some (ServePublish e)))
        | (ops, Ok _) =>
            let serving :=
              up ++ map PublishOp ops ++ (if hasLocalAPI w then [WatchOp] else []) ++ [ReportOp (RUp "serve")]
              ++ match HealthAddr (pMesh p) with Some a => [HealthOp a] | None => [] end
              ++ [Out (formatServeReady (Serve.Hostname nc) (pServices p) (Enrolling nc) +:+ newline)] in
            if ended w
            then (serving ++ match HealthAddr (pMesh p) with Some _ => [HealthStop] | None => [] end
                    ++ [Unpublish; NodeStop], Stopped None)
            else (serving, Serving)
        end
  end.

Definition runHostServe (w : serve_world) : list serve_op * serve_end :=
  match loadServePlan w with
  | (ops, Err e) => (ops, Stopped (Some e))
  | (ops, Ok p) =>
      match startServeBootstrap w p with
      | (boot, None) => (ops ++ boot, Serving)
      | (boot, Some (Err e)) =>
          (ops ++ boot ++ [ErrOut (emitError reasonSSHBootstrapFailed (serve_error_text e))], Stopped (Some e))
      | (boot, Some (Ok supervised)) =>
          match runServeNode w p with
          | (did, Serving) => (ops ++ boot ++ did, Serving)
          | (did, e) => (ops ++ boot ++ did ++ (if supervised then [StopSupervisor] else []), e)
          end
      end
  end.
End HostServe.

(** * What is published *)

Definition published (ops : list serve_op) : list publish_op :=
  omap (fun o => match o with PublishOp op => Some op | _ => None end) ops.
Definition printed (ops : list serve_op) : list string :=
  omap (fun o => match o with Out t => Some t | _ => None end) ops.

Lemma published_app a b : published (a ++ b) = published a ++ published b.
Proof. apply omap_app. Qed.
Lemma printed_app a b : printed (a ++ b) = printed a ++ printed b.
Proof. apply omap_app. Qed.

Lemma published_map l : published (map PublishOp l) = l.
Proof. unfold published. induction l as [|o l IH]; [done|]. cbn. by f_equal. Qed.
Lemma printed_publish l : printed (map PublishOp l) = [].
Proof. by induction l. Qed.

(** Operations that neither publish nor print. *)
Definition quiet (o : serve_op) : bool := match o with PublishOp _ | Out _ => false | _ => true end.
Lemma quiet_none ops : forallb quiet ops = true -> published ops = [] /\ printed ops = [].
Proof.
  induction ops as [|o ops IH]; [done|]. cbn. intros [Ho Hr]%andb_true_iff. destruct (IH Hr) as [H1 H2]. by destruct o.
Qed.

Lemma quiet_map {A} (f : A -> serve_op) l : (forall a, quiet (f a) = true) -> forallb quiet (map f l) = true.
Proof. intros Hf. induction l as [|a l IH]; [done|]. cbn. by rewrite Hf. Qed.

#[export] Hint Resolve quiet_map : go.
#[local] Arguments emitError : simpl never.
#[local] Arguments formatServeReady : simpl never.
#[local] Arguments diagnoseTailscaleInitError : simpl never.

Section Facts.
Context `{UrlPackage}.
Variable startText : start_error -> string.
Variable controlText : control_error -> string.
Variable publishText : publish_error -> string.

Lemma plan_quiet w : forallb quiet (loadServePlan w).1 = true.
Proof.
  unfold loadServePlan. case_bool_decide; [done|]. destruct (LoadServeFile _ _).2 as [f|]; [|done].
  destruct (hMesh (fHost f)) as [m|], (hControlURL (fHost f)) as [c|]; try done.
  destruct (HostFile.StateDir m) as [d|]; [|done]. destruct (ensures w d); [|done]. cbn [negb].
  destruct (NewNodeConfig _ _ _) as [ops nc]. cbn. by apply quiet_map.
Qed.

Lemma boot_quiet w p : forallb quiet (startServeBootstrap w p).1 = true.
Proof.
  unfold startServeBootstrap. destruct (HostFile.BootstrapSSH (pMesh p)); [|done].
  destruct (start _ _) as [ops [[u|e]|]]; cbn [fst]; [|by apply quiet_map|by apply quiet_map].
  destruct (ConfigureControlProxy _ _) as [cs [e|]]; cbn [fst]; rewrite forallb_app, quiet_map by done; done.
Qed.

(** The lines printed and the operations published by the node's part. *)
Lemma node_published w p ops e :
  runServeNode publishText w p = (ops, e) ->
  (printed ops = [] \/ printed ops = [formatServeReady (Serve.Hostname (pNode p)) (pServices p) (Enrolling (pNode p)) +:+ newline]
     /\ exists opened, Publish (canListen w) (pServices p) = (published ops, Ok opened))
  /\ (published ops = [] \/ (exists status, nodeUp w = Ok status /\ NodeTags status <> [])
       /\ published ops = (Publish (canListen w) (pServices p)).1).
Proof.
  unfold runServeNode. destruct (nodeUp w) as [status|err].
  2: { destruct (ctxOver w); [by intros [= <- <-]; auto|]. destruct (diagnoseTailscaleInitError _) as [[r h] m].
       by intros [= <- <-]; auto. }
  case_bool_decide as Ht; [by intros [= <- <-]; auto|]. destruct (Publish (canListen w) (pServices p)) as [pops [opened|perr]] eqn:Ep.
  - set (serving := [NodeStart (pNode p) defaultTimeout] ++ _).
    assert (published serving = pops /\ printed serving
      = [formatServeReady (Serve.Hostname (pNode p)) (pServices p) (Enrolling (pNode p)) +:+ newline]) as [Hp Ho].
    { subst serving. rewrite !published_app, !printed_app, published_map, printed_publish.
      destruct (hasLocalAPI w), (HealthAddr (pMesh p)); cbn; by rewrite app_nil_r. }
    destruct (ended w); intros [<- <-]%pair_equal_spec.
    + rewrite published_app, printed_app, Hp, Ho.
      assert (published (match HealthAddr (pMesh p) with Some _ => [HealthStop] | None => [] end ++ [Unpublish; NodeStop]) = []
        /\ printed (match HealthAddr (pMesh p) with Some _ => [HealthStop] | None => [] end ++ [Unpublish; NodeStop]) = []) as [-> ->]
        by by destruct (HealthAddr (pMesh p)).
      rewrite !app_nil_r. split; right; eauto.
    + rewrite Hp, Ho. split; right; eauto.
  - intros [<- <-]%pair_equal_spec. rewrite !published_app, !printed_app, published_map, printed_publish. cbn. rewrite app_nil_r.
    split; [by left|right]. eauto.
Qed.

Lemma serve_published w ops e :
  runHostServe startText controlText publishText w = (ops, e) ->
  printed ops = [] /\ published ops = []
  \/ exists p did de, (loadServePlan w).2 = Ok p /\ runServeNode publishText w p = (did, de)
       /\ printed ops = printed did /\ published ops = published did.
Proof.
  unfold runHostServe. pose proof (plan_quiet w) as Hq%quiet_none. destruct (loadServePlan w) as [pre [p|er]]; cbn [fst snd] in *.
  2: { intros [= <- <-]. left. tauto. }
  pose proof (boot_quiet w p) as Hb%quiet_none. destruct Hq as [Hq1 Hq2], Hb as [Hb1 Hb2].
  destruct (startServeBootstrap w p) as [boot [[sup|er]|]]; cbn [fst] in *.
  - destruct (runServeNode publishText w p) as [did de] eqn:En. intros Hr. right. exists p, did, de. split; [done|]. split; [done|].
    assert (ops = pre ++ boot ++ did ++ [] \/ ops = pre ++ boot ++ did ++ (if sup then [StopSupervisor] else [])) as [-> | ->]
      by (destruct de; injection Hr as <- <-; rewrite ?app_nil_r; auto).
    + by rewrite app_nil_r, !published_app, !printed_app, Hq1, Hq2, Hb1, Hb2.
    + rewrite !published_app, !printed_app, Hq1, Hq2, Hb1, Hb2. destruct sup; cbn; by rewrite !app_nil_r.
  - intros [= <- <-]. left. by rewrite !published_app, !printed_app, Hq1, Hq2, Hb1, Hb2.
  - intros [= <- <-]. left. by rewrite !published_app, !printed_app, Hq1, Hq2, Hb1, Hb2.
Qed.

(** C12: nothing listens on the node before it came up with tags, and nothing but the
    ports of the plan's services, each forwarded to the same port of this host. READY
    is printed once at most, after every one of them was opened, and names exactly
    them. *)
Theorem serve_publishes_plan w ops e :
  runHostServe startText controlText publishText w = (ops, e) ->
  (forall o, o ∈ published ops ->
     exists p status s, (loadServePlan w).2 = Ok p /\ nodeUp w = Ok status /\ NodeTags status <> [] /\ s ∈ pServices p
       /\ (o = Serve.Listen (listen_addr s) \/ o = Serve.Serve (listen_addr s) (target_addr s) \/ o = CloseListener (listen_addr s)))
  /\ (printed ops = []
      \/ exists p, (loadServePlan w).2 = Ok p
         /\ printed ops = [formatServeReady (Serve.Hostname (pNode p)) (pServices p) (Enrolling (pNode p)) +:+ newline]
         /\ published ops = map (fun s => Serve.Listen (listen_addr s)) (pServices p)
                            ++ map (fun s => Serve.Serve (listen_addr s) (target_addr s)) (pServices p)).
Proof.
  intros [[Hp Ho]|(p & did & de & Hl & Hn & Hp & Ho)]%serve_published.
  { rewrite Hp, Ho. split; [by intros o ?%elem_of_nil|by left]. }
  rewrite Hp, Ho. destruct (node_published _ _ _ _ Hn) as [Hr Hs]. split.
  - intros o Hin. destruct Hs as [He|[(status & Hu & Ht) He]]; [by rewrite He in Hin; apply elem_of_nil in Hin|].
    rewrite He in Hin. exists p, status. unfold Publish in Hin.
    destruct (openAll (canListen w) (pServices p) []) as [ops1 r1] eqn:E. apply openAll_spec in E.
    destruct r1 as [all|er]; cbn [fst] in Hin.
    + destruct E as (_ & -> & _). apply elem_of_app in Hin as [(s & -> & ?)%list_elem_of_fmap|(s & -> & ?)%list_elem_of_fmap]; exists s; split_and!; auto.
    + destruct E as (pre & s0 & post & Es & _ & _ & _ & ->). rewrite Es. rewrite app_nil_l in Hin.
      apply elem_of_app in Hin as [(s & -> & Hs)%list_elem_of_fmap|(a & -> & (s & -> & Hs)%list_elem_of_fmap)%list_elem_of_fmap];
        exists s; (split_and!; [done|done|done|set_solver|auto]).
  - destruct Hr as [?|(Hr & opened & Hpub)]; [by left|right]. exists p. split; [done|]. split; [done|].
    unfold Publish in Hpub. destruct (openAll (canListen w) (pServices p) []) as [ops1 r1] eqn:E. apply openAll_spec in E.
    destruct r1 as [all|er]; [|done]. destruct E as (_ & -> & _). by injection Hpub as <- _.
Qed.
End Facts.

(** * The resources of a run *)

(** What the run holds: a child it started, whether the supervisor owns it, the
    node, open ports on it, and the health server. *)
Record serve_held : Type := mkServeHeld { child : bool; owned : bool; joined : bool; open : bool; health : bool }.
Definition holds_nothing : serve_held := mkServeHeld false false false false false.

Definition serve_next (h : serve_held) (op : serve_op) : option serve_held :=
  match op with
  | TunnelOp Contain => if child h || joined h then None else Some (mkServeHeld true (owned h) (joined h) (open h) (health h))
  | TunnelOp AwaitExit => if child h && negb (owned h) then Some (mkServeHeld false false (joined h) (open h) (health h)) else None
  | Supervise _ _ => if child h && negb (owned h) then Some (mkServeHeld true true (joined h) (open h) (health h)) else None
  | StopSupervisor => if owned h && negb (joined h) then Some (mkServeHeld false false (joined h) (open h) (health h)) else None
  | NodeStart _ _ => if joined h then None else Some (mkServeHeld (child h) (owned h) true (open h) (health h))
  | NodeStop => if joined h && negb (open h) then Some (mkServeHeld (child h) (owned h) false (open h) (health h)) else None
  | PublishOp (Serve.Serve _ _) => if joined h then Some (mkServeHeld (child h) (owned h) (joined h) true (health h)) else None
  | PublishOp _ => if joined h then Some h else None
  | Unpublish => if joined h then Some (mkServeHeld (child h) (owned h) (joined h) false (health h)) else None
  | HealthOp _ => if health h then None else Some (mkServeHeld (child h) (owned h) (joined h) (open h) true)
  | HealthStop => if health h then Some (mkServeHeld (child h) (owned h) (joined h) (open h) false) else None
  | _ => Some h
  end.

Abbreviation serves := (conforms serve_next).

Definition serve_neutral (op : serve_op) : bool :=
  match op with
  | EnsureDir _ | KeyOp _ | ProxyOp _ _ | WatchOp | ReportOp _ | Out _ | ErrOut _ => true
  | TunnelOp Contain | TunnelOp AwaitExit => false
  | TunnelOp _ => true
  | _ => false
  end.

Lemma serves_neutral h ops : forallb serve_neutral ops = true -> serves h ops = Some h.
Proof. apply conforms_neutral. intros s [| |o| | | | | | | | | | | | |]; try done. by destruct o. Qed.

(** Ports are opened on a node that is up, and the run knows whether one serves. *)
Lemma publish_serves c o b hl ops :
  exists b', serves (mkServeHeld c o true b hl) (map PublishOp ops) = Some (mkServeHeld c o true b' hl)
    /\ ((forall a t, Serve.Serve a t ∉ ops) -> b' = b).
Proof.
  revert b. induction ops as [|op ops IH]; intros b; [by exists b|]. destruct op as [a|a t|a]; cbn;
    [destruct (IH b) as (b' & H1 & H2)|destruct (IH true) as (b' & H1 & _)|destruct (IH b) as (b' & H1 & H2)];
    exists b'; split; try done; intros Hno.
  - apply H2. intros a' t' Hin. apply (Hno a' t'). by right.
  - destruct (Hno a t). by left.
  - apply H2. intros a' t' Hin. apply (Hno a' t'). by right.
Qed.

Lemma node_serves publishText w p c o :
  exists h, serves (mkServeHeld c o false false false) (runServeNode publishText w p).1 = Some h
    /\ child h = c /\ owned h = o
    /\ ((runServeNode publishText w p).2 = Serving \/ h = mkServeHeld c o false false false).
Proof.
  unfold runServeNode. destruct (nodeUp w) as [status|err].
  2: { destruct (ctxOver w); [|destruct (diagnoseTailscaleInitError _) as [[r hi] m]];
         eexists; (split; [reflexivity|]); auto. }
  destruct (bool_decide (NodeTags status = [])); [eexists; (split; [reflexivity|]); auto|].
  destruct (Publish (canListen w) (pServices p)) as [ops [opened|err]] eqn:Ep; cbn [fst snd].
  - destruct (publish_serves c o false false ops) as (b & Hb & _).
    set (serving := [NodeStart (pNode p) defaultTimeout] ++ _).
    assert (serves (mkServeHeld c o false false false) serving
      = Some (mkServeHeld c o true b (match HealthAddr (pMesh p) with Some _ => true | None => false end))) as Hs.
    { subst serving. rewrite !conforms_app. cbn. rewrite conforms_app, Hb. by destruct (hasLocalAPI w), (HealthAddr (pMesh p)). }
    destruct (ended w); cbn [fst snd]; [|rewrite Hs; eexists; split; [reflexivity|]; auto].
    rewrite conforms_app, Hs. destruct (HealthAddr (pMesh p)); (eexists; split; [reflexivity|]; auto).
  - destruct (publish_serves c o false false ops) as (b & Hb & Hno). rewrite Hno in Hb.
    + rewrite conforms_app. cbn. rewrite conforms_app, Hb. eexists. split; [reflexivity|]. auto.
    + intros a t. unfold Publish in Ep. destruct (openAll (canListen w) (pServices p) []) as [ops1 r1] eqn:E.
      apply openAll_spec in E. destruct r1 as [all|e1]; [done|]. injection Ep as <- _.
      destruct E as (pre & s & post & _ & _ & _ & _ & ->). rewrite elem_of_app, !list_elem_of_fmap. naive_solver.
Qed.

Section Releases.
Context `{UrlPackage}.
Variable startText : start_error -> string.
Variable controlText : control_error -> string.
Variable publishText : publish_error -> string.

Lemma boot_serves w p :
  exists h, serves holds_nothing (startServeBootstrap w p).1 = Some h
    /\ match (startServeBootstrap w p).2 with
       | None => True
       | Some (Err _) => h = holds_nothing
       | Some (Ok supervised) => h = mkServeHeld supervised supervised false false false
       end.
Proof.
  unfold startServeBootstrap. destruct (HostFile.BootstrapSSH (pMesh p)) as [ep|]; [|by eexists].
  assert (forall b o, (start b (sshEnv w)) = o ->
    (o.2 = None -> exists h, serves holds_nothing (map TunnelOp o.1) = Some h)
    /\ (forall e, o.2 = Some (Err e) -> serves holds_nothing (map TunnelOp o.1) = Some holds_nothing)
    /\ (forall u, o.2 = Some (Ok u) -> serves holds_nothing (map TunnelOp o.1) = Some (mkServeHeld true false false false false)))
    as Hs.
  { intros b o <-. unfold start. destruct (lookPath (sshEnv w)); [|by split_and!; eauto].
    destruct (buildSSHArgs _ _); [|by split_and!; eauto].
    destruct (canBind (sshEnv w)); [|by split_and!; eauto]. destruct (starts (sshEnv w)); [|by split_and!; eauto].
    destruct (waitUntilReady _ _ _) as [[[]|e]|]; cbn; split_and!; by eauto. }
  destruct (start _ (sshEnv w)) as [ops out] eqn:E. destruct (Hs _ _ E) as (H1 & H2 & H3). cbn [fst snd] in *.
  destruct out as [[u|e]|]; cbn [fst snd].
  - destruct (ConfigureControlProxy _ _) as [cs [e|]]; cbn [fst snd]; rewrite conforms_app, (H3 u eq_refl); by eexists.
  - rewrite (H2 e eq_refl). by eexists.
  - destruct (H1 eq_refl) as [h Hh]. by exists h.
Qed.

Lemma plan_neutral w : forallb serve_neutral (loadServePlan w).1 = true.
Proof.
  unfold loadServePlan. case_bool_decide; [done|]. destruct (LoadServeFile _ _).2 as [f|]; [|done].
  destruct (hMesh (fHost f)) as [m|], (hControlURL (fHost f)) as [c|]; try done.
  destruct (HostFile.StateDir m) as [d|]; [|done]. destruct (ensures w d); [|done]. cbn [negb].
  destruct (NewNodeConfig _ _ _) as [ops nc]. cbn. by induction ops.
Qed.

(** A run takes and gives back in order: the child before the node, the node before
    its ports; ports are closed before the node, the node before the supervisor,
    which owns the child once it runs. When the run has ended, wherever it failed,
    nothing of it is left. *)
Theorem serve_releases w :
  let r := runHostServe startText controlText publishText w in
  exists h, serves holds_nothing r.1 = Some h /\ (r.2 = Serving \/ h = holds_nothing).
Proof.
  unfold runHostServe. pose proof (plan_neutral w) as Hn. destruct (loadServePlan w) as [pre [p|e]]; cbn [fst snd] in *.
  2: { rewrite serves_neutral by done. eexists. auto. }
  destruct (boot_serves w p) as (h & Hh & Ho). destruct (startServeBootstrap w p) as [boot [[sup|e]|]]; cbn [fst snd] in *; subst.
  - destruct (node_serves publishText w p sup sup) as (h & Hs & Hc & Hw & He).
    destruct (runServeNode publishText w p) as [did de]. cbn [fst snd] in *.
    assert (serves holds_nothing (pre ++ boot ++ did) = Some h) as Hall.
    { rewrite conforms_app, serves_neutral by done. cbn. rewrite conforms_app, Hh. exact Hs. }
    destruct de as [|err]; cbn [fst snd]; [exists h; auto|]. destruct He as [?| ->]; [done|].
    exists holds_nothing. rewrite !app_assoc, <- (app_assoc pre), conforms_app, Hall. destruct sup; cbn; auto.
  - exists holds_nothing. rewrite conforms_app, serves_neutral by done. cbn. rewrite conforms_app, Hh. cbn. auto.
  - exists h. rewrite conforms_app, serves_neutral by done. cbn. rewrite Hh. auto.
Qed.

(** * The plan *)

(** A plan comes from a valid file with a mesh, a control plane and a state
    directory the checks accepted; its services are the resolved ones, of known
    kinds, each once, on ports in range; it enrols exactly when there is no node
    state, with a key it then holds. *)
Theorem serve_plan_checked w p :
  (loadServePlan w).2 = Ok p ->
  exists warned file mesh dir control,
    LoadServeFile (fileAt w (configFlag w)) (osName w) = (warned, Ok file)
    /\ hMesh (fHost file) = Some mesh /\ pMesh p = mesh /\ hControlURL (fHost file) = Some control
    /\ HostFile.StateDir mesh = Some dir /\ ensures w dir = true
    /\ nStateDir (pNode p) = dir /\ nControlURL (pNode p) = control
    /\ (Enrolling (pNode p) = true <-> Serve.AuthKey (pNode p) <> "")
    /\ pServices p <> [] /\ NoDup (map Serve.Kind (pServices p))
    /\ Forall (fun s => is_Some (defaultPorts (Serve.Kind s)) /\ in_port_range (Serve.Port s)) (pServices p).
Proof.
  intros Hp. unfold loadServePlan in Hp. case_bool_decide; [done|].
  destruct (LoadServeFile _ _) as [warned [f|]] eqn:El; cbn [snd] in Hp; [|done].
  destruct (hMesh (fHost f)) as [m|] eqn:Em, (hControlURL (fHost f)) as [c|] eqn:Ec; try done.
  destruct (HostFile.StateDir m) as [d|] eqn:Ed; [|done]. destruct (ensures w d) eqn:Es; [|done]. cbn [negb] in Hp.
  destruct (NewNodeConfig (files w) m c) as [ops nc] eqn:En. cbn [snd] in Hp.
  apply bind_Ok in Hp as (nc' & Hnc%map_err_Ok & [= <-]). cbn [pNode pMesh pServices].
  subst nc. destruct (NewNodeConfig_Ok _ _ _ _ _ En) as (Hd & Hu & _ & _ & Hk & _).
  unfold LoadServeFile in El. apply loadFile_Ok in El as El'. destruct El' as (raw & _ & _ & Hv).
  destruct (resolved_services f (osName w) _ (env_of w)
    (mkFlags "" false false 0 (default false (verboseFlag w)) (bool_decide (is_Some (verboseFlag w))) "")
    (proj2 (validate_spec _ _ _) Hv)) as (H1 & H2 & H3 & _); [cbn; lia|].
  exists warned, f, m, d, c. rewrite Ed in Hd. injection Hd as Hd. unfold serveServices. split_and!; try done.
  - intros Hm. apply H1. by destruct (HostFile.Services _).
  - by rewrite map_map.
  - apply Forall_map. exact H2.
Qed.
End Releases.

(** * Reading READY *)

Definition ready_service (s : Service) : string := Serve.Kind s +:+ String ":" (Itoa (Serve.Port s)).

(** A reader of the services: words, then commas, then colons. *)
Definition read_services (line : string) : option (list (string * option Z)) :=
  w ← Fields line !! 2;
  if HasPrefix w "services="
  then Some (map (fun x => let '(k, p, _) := Cut ":" x in (k, Atoi p)) (Split "," (str_drop 9 w)))
  else None.

Lemma known_kind k p : defaultPorts k = Some p -> is_word k = true /\ no_byte ":" k = true /\ no_byte "," k = true.
Proof.
  unfold defaultPorts. do 3 (case_bool_decide; [subst; vm_compute; auto|]). done.
Qed.

Definition service_word (s : Service) : Prop :=
  is_Some (defaultPorts (Serve.Kind s)) /\ in_port_range (Serve.Port s).

Lemma ready_service_facts s : service_word s ->
  str_any is_space (ready_service s) = false /\ no_byte "," (ready_service s) = true
  /\ Cut ":" (ready_service s) = (Serve.Kind s, Itoa (Serve.Port s), true) /\ Atoi (Itoa (Serve.Port s)) = Some (Serve.Port s).
Proof.
  intros [[d Hd] Hp]. destruct (known_kind _ _ Hd) as (Hw & Hc & Hk). unfold in_port_range in Hp.
  pose proof (Itoa_all_digits (Serve.Port s) ltac:(lia)) as Hdig. unfold ready_service.
  apply andb_true_iff in Hw as [_ Hw%negb_true_iff]. split_and!.
  - rewrite str_any_app, Hw. cbn. by apply digits_no_space.
  - rewrite no_byte_app, Hk. change (String ":" ?x) with ("" +:+ String ":" x). unfold no_byte. cbn.
    by apply (digits_no_byte "," _ eq_refl).
  - by apply Cut_app.
  - apply Atoi_Itoa. unfold min_int64, max_int64. lia.
Qed.

Lemma services_no_space l : Forall service_word l -> str_any is_space (Join (map ready_service l) ",") = false.
Proof.
  induction 1 as [|s l Hs Hl IH]; [done|]. destruct (ready_service_facts s Hs) as (H1 & _).
  destruct l as [|s' l]; [exact H1|]. cbn [map] in *. rewrite Join_cons by done. by rewrite !str_any_app, H1, IH.
Qed.

(** The services a caller reads off the READY line are those published: every kind
    with its port, in order. *)
Theorem serve_ready_roundtrip node services enrolled :
  str_any is_space node = false -> services <> [] -> Forall service_word services ->
  Fields (formatServeReady node services enrolled)
  = ["READY"; "node=" +:+ node; "services=" +:+ Join (map ready_service services) ",";
     "enrolled=" +:+ (if enrolled then "true" else "false")]
  /\ read_services (formatServeReady node services enrolled)
     = Some (map (fun s => (Serve.Kind s, Some (Serve.Port s))) services).
Proof.
  intros Hn Hne Hs.
  assert (Fields (formatServeReady node services enrolled)
    = ["READY"; "node=" +:+ node; "services=" +:+ Join (map ready_service services) ",";
       "enrolled=" +:+ (if enrolled then "true" else "false")]) as Hf.
  { change (formatServeReady node services enrolled) with
      (Join ["READY"; "node=" +:+ node; "services=" +:+ Join (map ready_service services) ",";
             "enrolled=" +:+ (if enrolled then "true" else "false")] " ").
    apply Fields_Join. repeat constructor; unfold is_word; rewrite ?str_any_app, ?Hn, ?services_no_space by done; by destruct enrolled. }
  split; [exact Hf|]. unfold read_services. rewrite Hf. cbn [lookup list_lookup mbind option_bind].
  rewrite HasPrefix_app. change 9%nat with (len "services="). rewrite str_drop_app. f_equal.
  rewrite Split_Join.
  - rewrite map_map. apply map_ext_in. intros s Hin%list_elem_of_In. rewrite Forall_forall in Hs.
    destruct (ready_service_facts s (Hs s Hin)) as (_ & _ & -> & ->). done.
  - by destruct services.
  - apply Forall_map, (Forall_impl _ _ _ Hs). intros s H1. by apply ready_service_facts.
Qed.

(** * Runs *)

Definition demo_doc (services : option (list FileService)) : option yaml_stream :=
  Some (Document
    (Some [("version", YScalar); ("host", YMap (match services with Some _ => [("services", YSeq [])] | None => [] end
       ++ [("control_url", YScalar); ("mesh", YMap [("hostname", YScalar); ("state_dir", YScalar); ("health_addr", YScalar)])]))])
    (Some (mkFile 1 (mkFileHost services None None (Some "https://hs.example.com")
      (Some (mkFileMesh None None (Some "host-1") (Some "/var/lib/ts") None (Some "127.0.0.1:8080")))))) true).
Definition demo_serve_world (services : option (list FileService)) (rdpPort : string) (status : option (option (option (list string))))
    : serve_world :=
  mkServeWorld "/etc/ts-bridge/host.yaml" None (fun _ => demo_doc services) "linux"
    (fun k => if bool_decide (k = "TS_HOST_RDP_PORT") then rdpPort else "") (fun _ => true)
    (mkNodeEnv "HOST" (fun _ => StatOk) (fun _ => StatAbsent) (fun _ => true) (fun _ => None))
    demo_ssh (mkProxyEnv false true None true) (Ok status) false (fun _ => true) true true.
Definition demo_run (w : serve_world) := @runHostServe simpleUrl (fun _ => "") (fun _ => "") (fun _ => "") w.
Definition demo_services := Some [mkFileService "ssh" None; mkFileService "rdp" (Some 3390%Z)].

(** An untagged node publishes nothing and says so. *)
Example untagged_node :
  published (demo_run (demo_serve_world demo_services "" (Some (Some (Some []))))).1 = []
  /\ (demo_run (demo_serve_world demo_services "" (Some (Some (Some []))))).2 = Stopped (Some (Untagged "host-1" "/var/lib/ts")).
Proof. vm_compute. done. Qed.

Lemma serve_publishes_plan_witness :
  let w := demo_serve_world demo_services "" (Some (Some (Some ["tag:host"]))) in
  printed (demo_run w).1 = ["READY node=host-1 services=ssh:22,rdp:3390 enrolled=false" +:+ newline]
  /\ exists p, (@loadServePlan simpleUrl w).2 = Ok p.
Proof.
  intros w. assert (printed (demo_run w).1 = ["READY node=host-1 services=ssh:22,rdp:3390 enrolled=false" +:+ newline]) as Hp
    by (vm_compute; reflexivity).
  split; [exact Hp|].
  destruct (@serve_publishes_plan simpleUrl (fun _ => "") (fun _ => "") (fun _ => "") w (demo_run w).1 (demo_run w).2)
    as [_ [Hno|(p & Hl & _)]].
  - unfold demo_run. by destruct (runHostServe _ _ _ w).
  - rewrite Hno in Hp. discriminate.
  - exists p. exact Hl.
Defined.

Lemma serve_plan_checked_witness :
  let w := demo_serve_world demo_services "" None in
  exists p, (@loadServePlan simpleUrl w).2 = Ok p /\ nStateDir (pNode p) = "/var/lib/ts" /\ pServices p <> [].
Proof.
  intros w. assert (is_ok (@loadServePlan simpleUrl w).2 = true) as Hok by (vm_compute; reflexivity).
  destruct (@loadServePlan simpleUrl w).2 as [p|e] eqn:Hp; [|discriminate]. exists p. split; [reflexivity|].
  destruct (@serve_plan_checked simpleUrl w p Hp) as (wd & f & m & d & c & Hl & Hm & _ & _ & Hd & _ & Hs & _ & _ & Hne & _).
  split; [|exact Hne]. rewrite Hs.
  vm_compute in Hl. injection Hl as _ Hf. subst f. injection Hm as <-. injection Hd as <-. reflexivity.
Defined.

Lemma serve_ready_roundtrip_witness :
  read_services (formatServeReady "host-1" [Serve.mkService "ssh" 22; Serve.mkService "rdp" 3390] true)
  = Some [("ssh", Some 22%Z); ("rdp", Some 3390%Z)].
Proof.
  refine (proj2 (serve_ready_roundtrip "host-1" [Serve.mkService "ssh" 22; Serve.mkService "rdp" 3390] true _ _ _)); [reflexivity|done|].
  repeat constructor; cbn; try (eexists; reflexivity); unfold in_port_range; cbn; lia.
Defined.

(** The ports published are not always those the file declares: [TS_HOST_RDP_PORT]
    moves the rdp service, and a file without services publishes the rdp port. *)
Theorem serve_publishes_undeclared :
  (exists p, (@loadServePlan simpleUrl (demo_serve_world (Some [mkFileService "rdp" (Some 3389%Z)]) "4000" None)).2 = Ok p
     /\ pServices p = [Serve.mkService "rdp" 4000])
  /\ (exists p, (@loadServePlan simpleUrl (demo_serve_world None "" None)).2 = Ok p /\ pServices p = [Serve.mkService "rdp" 3389]).
Proof.
  split; match goal with |- exists p, ?l = _ /\ _ => assert (is_ok l = true) as Hok by (vm_compute; reflexivity);
    assert (match l with Ok p => Some (pServices p) | Err _ => None end = Some (match l with Ok p => pServices p | Err _ => [] end)) as Hs
      by (destruct l; [reflexivity|discriminate]);
    destruct l as [p|e] eqn:E; [|discriminate]; exists p; split; [reflexivity|];
    apply (f_equal (fun r => match r with Ok p => pServices p | Err _ => [] end)) in E; rewrite <- E; vm_compute; reflexivity end.
Qed.
