(* ===== verification/WindowsSteps.v ===== *)
(** The Windows host steps (src/internal/host/windows_steps.go): unattended mode,
    the services, the network profile, Remote Desktop, the firewall rule and the
    power timeouts, setup and check.

    The steps are programs over the runner, as the Linux ones are. What a
    PowerShell script does is the host's; the scripts are given to it as the
    source writes them. *)
From S2P Require Import Prelude GoStrings GoNet HostRunner LinuxFirewall LinuxSteps HostFile.
From Stdlib Require Import Ascii.

Open Scope bool_scope.
#[local] Arguments String.append : simpl never.

(** * Scripts *)

(** A script, written with [~] for a double quote. *)
Definition ps (s : string) : string := str_map (fun c => if eqc c "~" then dquote else c) s.

Record psField : Type := mkPsField { Key : string; Expr : string }.
Definition print (f : psField) : string := ps "Write-Output ~" +:+ Key f +:+ "=" +:+ Expr f +:+ ps "~".
Definition printAll (fields : list psField) : string := Join (map print fields) "; ".

Definition netCategory := mkPsField "category" "$($_.NetworkCategory)".
Definition denyPolicy := mkPsField "policy" "$p".
Definition denyLocal := mkPsField "local" "$l".
Definition keyPort := "port".
Definition fwCount := mkPsField "count" "$($r.Count)".
Definition fwEnabled := mkPsField "enabled" "$($x.Enabled)".
Definition fwAction := mkPsField "action" "$($x.Action)".
Definition fwDirection := mkPsField "direction" "$($x.Direction)".
Definition fwProfile := mkPsField "profile" "$($x.Profile)".
Definition fwRemote := mkPsField "remote" "$(($x | Get-NetFirewallAddressFilter).RemoteAddress)".
Definition fwProtocol := mkPsField "protocol" "$($f.Protocol)".
Definition fwPort := mkPsField keyPort "$($f.LocalPort)".

Definition tailscaleProfiles : string :=
  ps "Get-NetConnectionProfile | Where-Object { $_.InterfaceAlias -match ~Tailscale~ -or $_.Name -match ~Tailscale~ } | ForEach-Object { ".
Definition psNetworkProfilePrivate : string := tailscaleProfiles +:+ "$_ | Set-NetConnectionProfile -NetworkCategory Private }".
Definition psReadRDPPort : string :=
  "$RdpPort = (Get-ItemProperty -Path 'HKLM:\SYSTEM\CurrentControlSet\Control\Terminal Server\WinStations\RDP-Tcp' -ErrorAction SilentlyContinue).PortNumber; if (-not $RdpPort) { $RdpPort = 3389 }; Write-Output $RdpPort".
Definition psEnableRDP : string :=
  ps "Set-ItemProperty -Path 'HKLM:\System\CurrentControlSet\Control\Terminal Server' -Name ~fDenyTSConnections~ -Value 0; " +:+ psReadRDPPort.

Definition psReadNetworkProfile : string := tailscaleProfiles +:+ print netCategory +:+ " }".
Definition psReadRDPDeny : string :=
  "$p = (Get-ItemProperty -Path 'HKLM:\SOFTWARE\Policies\Microsoft\Windows NT\Terminal Services' -Name fDenyTSConnections -ErrorAction SilentlyContinue).fDenyTSConnections; $l = (Get-ItemProperty -Path 'HKLM:\SYSTEM\CurrentControlSet\Control\Terminal Server' -Name fDenyTSConnections -ErrorAction SilentlyContinue).fDenyTSConnections; "
  +:+ printAll [denyPolicy; denyLocal].
Definition psReadFirewallRule (rule : string) : string :=
  "$r = @(Get-NetFirewallRule -DisplayName " +:+ Quote rule +:+ " -ErrorAction SilentlyContinue); " +:+ print fwCount +:+ "; foreach ($x in $r) { "
  +:+ printAll [fwEnabled; fwAction; fwDirection; fwProfile; fwRemote] +:+ "; $f = $x | Get-NetFirewallPortFilter; "
  +:+ printAll [fwProtocol; fwPort] +:+ " }".
Definition psRecreateRule (rule : string) (port : Z) : string :=
  "Remove-NetFirewallRule -DisplayName " +:+ Quote rule +:+ " -ErrorAction SilentlyContinue; New-NetFirewallRule -DisplayName " +:+ Quote rule
  +:+ " -Direction Inbound -Action Allow -Protocol TCP -LocalPort " +:+ Itoa port
  +:+ ps " -Profile Any -Enabled True | Out-Null; Enable-NetFirewallRule -DisplayGroup ~Remote Desktop~ -ErrorAction SilentlyContinue".

Definition psArgs (script : string) : list string := ["-NoProfile"; "-ExecutionPolicy"; "Bypass"; "-Command"; script].
Definition runPS (script : string) : prog (option exec_error) := do (Run "powershell" (psArgs script)).
Definition outputPS (script : string) : prog (result exec_error string) :=
  '(out, err) ← do (Output "powershell" (psArgs script));
  mret match err with Some e => Err e | None => Ok out end.

(** * Reading what they print *)

(** The first occurrence of a key wins. *)
Definition key_line (fields : gmap string string) (line : string) : gmap string string :=
  let '(key, value, _) := Cut "=" (TrimSpace line) in
  match fields !! key with Some _ => fields | None => <[key := value]> fields end.
Definition parseKeyValues (out : string) : gmap string string := fold_left key_line (Split nl out) ∅.
Definition field (fields : gmap string string) (f : psField) : string := default "" (fields !! Key f).

(** [strconv.Atoi] with its error ignored: zero for what is no number, the
    nearest end of the range for a number out of it. *)
Definition atoiValue (s : string) : Z :=
  match Atoi s with
  | Some n => n
  | None =>
      let '(neg, d) := match s with String "-" r => (true, r) | String "+" r => (false, r) | _ => (false, s) end in
      match (if bool_decide (d = "") then None else parse_digits 0 d) with
      | Some _ => if neg : bool then min_int64 else max_int64
      | None => 0
      end
  end.

Definition readPortPS (script : string) : prog (result exec_error Z) :=
  out ← outputPS script;
  mret match out with
       | Err e => Err e
       | Ok o => let port := atoiValue (TrimSpace o) in Ok (if (port <? 1)%Z then defaultRDPPort else port)
       end.

(** The two counts: the profiles listed, and the private ones. *)
Definition profile_line (acc : nat * nat) (line : string) : nat * nat :=
  let l := TrimSpace line in
  if HasPrefix l (Key netCategory +:+ "=")
  then (S acc.1, if bool_decide (TrimPrefix l (Key netCategory +:+ "=") = "Private") then S acc.2 else acc.2)
  else acc.
Definition parseNetworkProfiles (out : string) : nat * nat := fold_left profile_line (Split nl out) (0, 0)%nat.

(** The digits of the matches of [0x[0-9a-fA-F]{8}], leftmost first, none
    overlapping; [skip] bytes of the last one are still to be passed over. *)
Definition is_hex (c : ascii) : bool := bool_decide (is_Some (hex_val c)).
Definition hex_at (s : string) : option string :=
  let d := str_take 8 (str_drop 2 s) in
  if HasPrefix s "0x" && (len d =? 8)%nat && str_all is_hex d then Some d else None.
Fixpoint hex_go (skip : nat) (s : string) : list string :=
  match s with
  | "" => []
  | String _ r =>
      match skip with
      | S k => hex_go k r
      | O => match hex_at s with Some d => d :: hex_go 9 r | None => hex_go 0 r end
      end
  end.
Definition hexValues (s : string) : list string := hex_go 0 s.
(** [strconv.ParseUint] in base 16 of hexadecimal digits, which 32 bits hold. *)
Definition parse_hex (d : string) : Z :=
  fold_left (fun acc c => acc * 16 + default 0 (hex_val c))%Z (String.list_ascii_of_string d) 0%Z.

(** * The services and the network *)

Definition actStep (name : string) (err : option exec_error) (okMsg failMsg fix_ : string) : SetupStep :=
  match err with
  | Some _ => newStep name OutcomeFailed failMsg fix_
  | None => newStep name OutcomeChanged okMsg ""
  end.
Definition actRead (name : string) (err : option exec_error) (okMsg failMsg fix_ : string) : SetupStep :=
  match err with
  | Some _ => newStep name OutcomeFailed failMsg fix_
  | None => newStep name OutcomeOK okMsg ""
  end.

(** Start type and state; a read that fails reports false. *)
Definition serviceState (svc : string) : prog (bool * bool) :=
  '(qc, e1) ← do (Output "sc" ["qc"; svc]);
  '(query, e2) ← do (Output "sc" ["query"; svc]);
  mret (bool_decide (e1 = None) && Contains qc "AUTO_START", bool_decide (e2 = None) && Contains query "RUNNING").

Definition serviceStep (svc name failMsg fix_ : string) : prog SetupStep :=
  st ← serviceState svc;
  if st.1 && st.2 then mret (newStep name OutcomeOK "Already running" "") else
  e1 ← (if st.1 then mret None else do (Run "sc" ["config"; svc; "start=auto"]));
  match e1 with
  | Some e => mret (newStep name OutcomeFailed (failMsg +:+ ": sc config: " +:+ err_text e) fix_)
  | None =>
      e2 ← (if st.2 then mret None else do (Run "net" ["start"; svc]));
      mret match e2 with
           | Some e => newStep name OutcomeFailed (failMsg +:+ ": net start: " +:+ err_text e) fix_
           | None => newStep name OutcomeChanged "Running" ""
           end
  end.

Definition networkProfileName := "Network profile".
Definition networkProfileStep : prog SetupStep :=
  let failed := newStep networkProfileName OutcomeFailed "Could not set network profile to Private" "set the Tailscale network profile to Private" in
  out ← outputPS psReadNetworkProfile;
  match out with
  | Err _ => mret failed
  | Ok o =>
      let counts := parseNetworkProfiles o in
      if (counts.1 =? 0)%nat
      then mret (newStep networkProfileName OutcomeManual "No Tailscale network adapter" "install Tailscale and log in, then run host setup again")
      else if (counts.2 =? counts.1)%nat then mret (newStep networkProfileName OutcomeOK "Already Private" "")
      else
        err ← runPS psNetworkProfilePrivate;
        mret match err with Some _ => failed | None => newStep networkProfileName OutcomeChanged "Set to Private" "" end
  end.

(** * Power *)

Definition powerSettings : list (string * string * string) :=
  [("standby-timeout-ac", "SUB_SLEEP", "STANDBYIDLE"); ("hibernate-timeout-ac", "SUB_SLEEP", "HIBERNATEIDLE");
   ("monitor-timeout-ac", "SUB_VIDEO", "VIDEOIDLE")].
Definition powerName := "Power settings".

Definition ac_index (sub setting out : string) : result string bool :=
  let hex := hexValues out in
  if (length hex <? 2)%nat then Err ("powercfg printed no AC setting index for " +:+ sub +:+ " " +:+ setting)
  else Ok (parse_hex (default "" (hex !! (length hex - 2)%nat)) =? 0)%Z.
Definition readACTimeoutZero (sub setting : string) : prog (result string bool) :=
  '(out, err) ← do (Output "powercfg" ["/query"; "SCHEME_CURRENT"; sub; setting]);
  mret match err with Some e => Err (err_text e) | None => ac_index sub setting out end.
Definition acTimeoutZero (sub setting : string) : prog bool :=
  r ← readACTimeoutZero sub setting; mret match r with Ok zero => zero | Err _ => false end.

Fixpoint powerLoop (settings : list (string * string * string)) (changed : bool) : prog SetupStep :=
  match settings with
  | [] => mret (if changed then newStep powerName OutcomeChanged "Sleep disabled (AC power)" ""
                else newStep powerName OutcomeOK "Sleep already disabled (AC power)" "")
  | (change, sub, setting) :: rest =>
      zero ← acTimeoutZero sub setting;
      if zero : bool then powerLoop rest changed
      else
        err ← do (Run "powercfg" ["/change"; change; "0"]);
        match err with
        | Some _ => mret (newStep powerName OutcomeFailed ("Could not modify power settings (" +:+ change +:+ ")") "disable sleep on AC power")
        | None => powerLoop rest true
        end
  end.
Definition powerStep : prog SetupStep := powerLoop powerSettings false.

Fixpoint powerCheckLoop (settings : list (string * string * string)) (drift : list string) : prog SetupStep :=
  match settings with
  | [] =>
      mret (if bool_decide (drift = []) then newStep powerName OutcomeOK "Sleep disabled (AC power)" ""
            else newStep powerName OutcomeChanged ("Sleep is enabled on AC power: " +:+ Join drift ", " +:+ " not 0")
                   "run ts-bridge host setup as an administrator")
  | (change, sub, setting) :: rest =>
      zero ← readACTimeoutZero sub setting;
      match (zero : result string bool) with
      | Err e => mret (newStep powerName OutcomeFailed ("Could not read " +:+ change +:+ ": " +:+ e)
                         "run `powercfg /query SCHEME_CURRENT` to inspect the power plan")
      | Ok z => powerCheckLoop rest (if z then drift else drift ++ [change])
      end
  end.
Definition powerCheckStep : prog SetupStep := powerCheckLoop powerSettings [].

(** * Remote Desktop *)

Definition rdpEnableFix := "enable Remote Desktop in Settings > System > Remote Desktop".
Definition rdpPolicyFix : string :=
  "Group Policy denies Remote Desktop: set HKLM\SOFTWARE\Policies\Microsoft\Windows NT\Terminal Services\fDenyTSConnections to 0 "
  +:+ "(Computer Configuration > Administrative Templates > Windows Components > Remote Desktop Services > Remote Desktop Session Host > Connections)".
Definition rdpName := "RDP configuration".

Record rdpDeny : Type := mkDeny { policy : string; local : string }.

(** Whether Remote Desktop is denied, and whether by policy. *)
Definition effective (d : rdpDeny) : bool * bool :=
  if negb (bool_decide (policy d = "")) then (negb (bool_decide (policy d = "0")), true)
  else (negb (bool_decide (local d = "0")), false).

Definition readRDPDeny : prog (result exec_error rdpDeny) :=
  out ← outputPS psReadRDPDeny;
  mret match out with
       | Err e => Err e
       | Ok o => let f := parseKeyValues o in Ok (mkDeny (field f denyPolicy) (field f denyLocal))
       end.

Definition result_err {A} (r : result exec_error A) : option exec_error := match r with Err e => Some e | Ok _ => None end.
Definition portOr (r : result exec_error Z) : Z := match r with Ok p => p | Err _ => defaultRDPPort end.
Definition portOrDefault : prog Z := r ← readPortPS psReadRDPPort; mret (portOr r).

Definition rdpSetupStep : prog (SetupStep * Z) :=
  deny ← readRDPDeny;
  match deny with
  | Err _ =>
      port ← portOrDefault;
      mret (newStep rdpName OutcomeFailed ("Could not read fDenyTSConnections, assuming port " +:+ Itoa port) rdpEnableFix, port)
  | Ok d =>
      let '(denied, byPolicy) := effective d in
      if denied && byPolicy then
        port ← portOrDefault;
        mret (newStep rdpName OutcomeManual "Remote Desktop is denied by Group Policy" rdpPolicyFix, port)
      else if negb denied then
        r ← readPortPS psReadRDPPort;
        mret (actRead rdpName (result_err r) ("RDP already enabled on port " +:+ Itoa (portOr r))
                "Could not read the RDP port, assuming port 3389" rdpEnableFix, portOr r)
      else
        r ← readPortPS psEnableRDP;
        mret (actStep rdpName (result_err r) ("RDP enabled on port " +:+ Itoa (portOr r))
                "Could not verify RDP settings, assuming port 3389" rdpEnableFix, portOr r)
  end.

Definition rdpCheckStep (port : Z) : prog (SetupStep * bool) :=
  deny ← readRDPDeny;
  mret match deny with
       | Err _ => (newStep rdpName OutcomeFailed "Could not read fDenyTSConnections from the registry" rdpEnableFix, false)
       | Ok d =>
           let '(denied, byPolicy) := effective d in
           if denied && byPolicy then (newStep rdpName OutcomeManual "Remote Desktop is denied by Group Policy" rdpPolicyFix, false)
           else if denied
           then (newStep rdpName OutcomeChanged "Remote Desktop is disabled (fDenyTSConnections)" "run ts-bridge host setup as an administrator", false)
           else (newStep rdpName OutcomeOK ("RDP enabled on port " +:+ Itoa port) "", true)
       end.

Definition declaredRDPPort (step : SetupStep) (cfg : Config) (port : Z) : SetupStep :=
  if negb (PortDeclared cfg) || (port =? cPort cfg)%Z || negb (Succeeded (StepOutcome step)) then step
  else newStep (Name step) OutcomeManual
         ("RDP listens on port " +:+ Itoa port +:+ " (set in the registry), not the declared " +:+ Itoa (cPort cfg))
         ("declare port " +:+ Itoa port +:+ ", or change PortNumber under HKLM\SYSTEM\CurrentControlSet\Control\Terminal Server\WinStations\RDP-Tcp to "
          +:+ Itoa (cPort cfg) +:+ " and restart the TermService service").

(** * The firewall rule *)

Definition windowsFirewallNameFix := "set host.firewall.rule (or --firewall-rule) to a name of A-Z, a-z, 0-9, - and _".
Definition windowsFirewallFix (port : Z) : string := "allow TCP " +:+ Itoa port +:+ " inbound in Windows Defender Firewall".
Definition firewallName := "Firewall rule".

(** The texts of the errors of a rule's name. *)
Definition rule_error_text (e : rule_error) : string :=
  match e with
  | RuleEmpty => "firewall rule name must not be empty"
  | RuleTooLong n =>
      "firewall rule name must be at most " +:+ Itoa (Z.of_nat maxFirewallRuleName) +:+ " characters (got " +:+ Itoa (Z.of_nat n) +:+ ")"
  | RuleChars name => "firewall rule name contains invalid characters (only A-Z, a-z, 0-9, -, _ allowed): " +:+ Quote name
  end.

(** Whether the rule is as setup creates it, and whether any has its name. *)
Definition rule_read (port : Z) (out : string) : bool * bool :=
  let f := parseKeyValues out in
  let eqf k v := bool_decide (field f k = v) in
  (eqf fwCount "1" && eqf fwEnabled "True" && eqf fwAction "Allow" && eqf fwDirection "Inbound" && eqf fwProtocol "TCP"
     && eqf fwProfile "Any" && eqf fwRemote "Any" && ((port =? 0)%Z || eqf fwPort (Itoa port)),
   negb (eqf fwCount "0")).
Definition windowsFirewallRuleOK (rule : string) (port : Z) : prog (result exec_error (bool * bool)) :=
  out ← outputPS (psReadFirewallRule rule);
  mret match out with Err e => Err e | Ok o => Ok (rule_read port o) end.

Definition windowsFirewallSetupStep (ruleName : string) (port : Z) : prog SetupStep :=
  match sanitizeFirewallRule ruleName with
  | Err e => mret (newStep firewallName OutcomeFailed
                     ("Failed to configure firewall: validate firewall rule: " +:+ rule_error_text e) windowsFirewallNameFix)
  | Ok rule =>
      read ← windowsFirewallRuleOK rule port;
      if match read with Ok (true, _) => true | _ => false end
      then mret (newStep firewallName OutcomeOK ("Rule '" +:+ rule +:+ "' already active (port " +:+ Itoa port +:+ ")") "")
      else
        err ← runPS (psRecreateRule rule port);
        mret (actStep firewallName err ("Rule '" +:+ rule +:+ "' active (port " +:+ Itoa port +:+ ")")
                ("Failed to configure firewall: " +:+ match err with Some e => err_text e | None => "<nil>" end) (windowsFirewallFix port))
  end.

Definition windowsFirewallCheckStep (ruleName : string) (port : Z) : prog (SetupStep * bool) :=
  match sanitizeFirewallRule ruleName with
  | Err e => mret (newStep firewallName OutcomeFailed ("Invalid firewall rule name: " +:+ rule_error_text e) windowsFirewallNameFix, false)
  | Ok rule =>
      read ← windowsFirewallRuleOK rule port;
      mret match read with
           | Err _ => (newStep firewallName OutcomeFailed ("Could not read firewall rule '" +:+ rule +:+ "'")
                         ("run Get-NetFirewallRule -DisplayName " +:+ Quote rule +:+ " to see why the read fails"), false)
           | Ok (ok, found) =>
               if negb ok && found
               then (newStep firewallName OutcomeChanged
                       ("Rule '" +:+ rule +:+ "' differs from what setup creates (inbound TCP " +:+ Itoa port
                        +:+ ", any address, every profile, enabled, one rule)") "run ts-bridge host setup as an administrator", false)
               else (firewallReadStep firewallName ok port, ok)
           end
  end.

(** * Setup and check *)

Section Windows.
(** Whether the JSON that [tailscale debug prefs] prints parses with [ForceDaemon] true. *)
Variable forceDaemon : string -> bool.

Definition unattendedName := "Tailscale unattended mode".
Definition unattendedStep : prog SetupStep :=
  '(out, err) ← do (Output "tailscale" ["debug"; "prefs"]);
  if bool_decide (err = None) && forceDaemon out then mret (newStep unattendedName OutcomeOK "Unattended mode already enabled" "") else
  err ← do (Run "tailscale" ["set"; "--unattended"]);
  match err with
  | None => mret (newStep unattendedName OutcomeChanged "Unattended mode enabled" "")
  | Some _ =>
      found ← do (LookPath "tailscale");
      mret match found with
           | Some _ => newStep unattendedName OutcomeFailed "Tailscale CLI not found — is Tailscale installed?" "install Tailscale"
           | None => newStep unattendedName OutcomeFailed "Could not enable via CLI — check Tailscale GUI" "enable unattended mode in the Tailscale GUI"
           end
  end.

Definition setupWindows (cfg : Config) : prog SetupResult :=
  unattended ← unattendedStep;
  tailscale ← serviceStep "Tailscale" "Tailscale service" "Tailscale service not found — is Tailscale installed?" "install Tailscale";
  ssdp ← serviceStep "SSDPSRV" "SSDP Discovery" "Failed to start SSDPSRV" "start the SSDPSRV service";
  upnp ← serviceStep "upnphost" "UPnP Device Host" "Failed to start upnphost" "start the upnphost service";
  network ← networkProfileStep;
  '(rdp, rdpPort) ← rdpSetupStep;
  firewall ← windowsFirewallSetupStep (FirewallRule cfg) rdpPort;
  power ← (if NoSleep cfg then mret [] else p ← powerStep; mret [p]);
  mret (mkSetup rdpPort ([unattended; tailscale; ssdp; upnp; network; declaredRDPPort rdp cfg rdpPort; firewall] ++ power)).
End Windows.

(** The steps and the service a check adds. *)
Definition checkWindows (cfg : Config) : prog (list SetupStep * list Service) :=
  read ← readPortPS psReadRDPPort;
  '(step, port, on) ← match read with
                      | Err e => mret (actRead rdpName (Some e) "" "Could not read the RDP port from the registry" rdpEnableFix, 0%Z, false)
                      | Ok p => '(s, on) ← rdpCheckStep p; mret (declaredRDPPort s cfg p, p, on)
                      end;
  '(fwStep, fwOK) ← windowsFirewallCheckStep (FirewallRule cfg) port;
  power ← (if NoSleep cfg then mret [] else p ← powerCheckStep; mret [p]);
  mret ([step; fwStep] ++ power,
        [LinuxSteps.mkService LinuxSteps.ServiceRDP port on None fwOK (match read with Err _ => true | Ok _ => false end)]).

(** * What the steps may change *)

#[local] Arguments psRecreateRule : simpl never.
#[local] Arguments psReadFirewallRule : simpl never.
#[local] Arguments print : simpl never.

(** The calls that can change a Windows host: the mutating ones, and the script that
    enables Remote Desktop, which is run for its output. *)
Definition win_mutating : call_pred := fun X c =>
  match c with
  | Output name args => bool_decide (name = "powershell") && bool_decide (args = psArgs psEnableRDP)
  | _ => mutating X c
  end.
Definition win_read : call_pred := fun X c => negb (win_mutating X c).

Lemma ps_reads script : script <> psEnableRDP -> only win_read (outputPS script).
Proof.
  intros Hs. unfold outputPS, win_read. apply only_bind; [|intros [o [e|]]; apply only_ret].
  apply only_do. cbn. rewrite (bool_decide_eq_false_2 (psArgs script = _)); [done|]. by intros [=].
Qed.


Lemma first_byte_ne c d a b : c <> d -> String c a <> String d b.
Proof. by intros H [= ? ?]. Qed.

Ltac script_ne := first [ vm_compute; discriminate
  | match goal with |- ?a <> ?b => unfold psReadFirewallRule, psEnableRDP; apply first_byte_ne; discriminate end ].

Lemma readPortPS_win script : script <> psEnableRDP -> only win_read (readPortPS script).
Proof. intros Hs. apply only_bind; [by apply ps_reads|]. intros [o|e]; apply only_ret. Qed.

Lemma serviceState_win svc : only win_read (serviceState svc).
Proof. unfold serviceState. walk_step. Qed.

Lemma readDeny_win : only win_read readRDPDeny.
Proof. apply only_bind; [apply ps_reads; script_ne|]. intros [o|e]; apply only_ret. Qed.

Lemma readPort_win : only win_read (readPortPS psReadRDPPort).
Proof. apply readPortPS_win. script_ne. Qed.

Lemma portOrDefault_win : only win_read portOrDefault.
Proof. apply only_bind; [apply readPort_win|]. intros; apply only_ret. Qed.

Lemma readAC_win sub setting : only win_read (readACTimeoutZero sub setting).
Proof. unfold readACTimeoutZero. walk_step. Qed.

Lemma firewallOK_win rule port : only win_read (windowsFirewallRuleOK rule port).
Proof. apply only_bind; [apply ps_reads; script_ne|]. intros [o|e]; apply only_ret. Qed.

#[export] Hint Resolve readDeny_win readPort_win portOrDefault_win readAC_win firewallOK_win serviceState_win : steps.

Lemma powerCheck_win l drift : only win_read (powerCheckLoop l drift).
Proof.
  revert drift. induction l as [|[[c s] t] l IH]; intros drift; cbn [powerCheckLoop]; [apply only_ret|].
  apply only_bind; [apply readAC_win|]. intros [z|e]; [apply IH|apply only_ret].
Qed.

Lemma rdpCheck_win port : only win_read (rdpCheckStep port).
Proof. apply only_bind; [apply readDeny_win|]. intros [d|e]; apply only_ret. Qed.

Lemma firewallCheck_win rule port : only win_read (windowsFirewallCheckStep rule port).
Proof.
  unfold windowsFirewallCheckStep. destruct (sanitizeFirewallRule rule); [|apply only_ret].
  apply only_bind; [apply firewallOK_win|]. intros [[? ?]|e]; [|apply only_ret]. cbn. walk_step.
Qed.

Lemma checkWindows_win cfg : only win_read (checkWindows cfg).
Proof.
  unfold checkWindows. apply only_bind; [apply readPort_win|]. intros read. apply only_bind.
  { destruct read as [p|e]; [|apply only_ret]. apply only_bind; [apply rdpCheck_win|]. intros [s on]. apply only_ret. }
  intros [[step port] on]. apply only_bind; [apply firewallCheck_win|]. intros [fs fok]. apply only_bind; [|intros; apply only_ret].
  destruct (NoSleep cfg); [apply only_ret|]. apply only_bind; [apply powerCheck_win|]. intros; apply only_ret.
Qed.

Section Host.
Context {W : Type} (h : handler W).

(** A step's value and state on a host, and the mutations it makes, in pieces. *)
Lemma in_trace_bind {A B} (p : prog A) (f : A -> prog B) w m :
  In m (trace h (p ≫= f) w) -> In m (trace h p w) \/ In m (trace h (f (run h p w).1) (run h p w).2).
Proof. rewrite trace_bind. apply in_app_or. Qed.

Lemma trace_ret {A} (a : A) w : trace h (mret a) w = [].
Proof. done. Qed.

Lemma win_read_trace {A} (p : prog A) w : only win_read p -> trace h p w = [].
Proof.
  intros Hp. apply trace_read_only. revert Hp. apply only_impl. intros X c. unfold win_read, read_call.
  by destruct c.
Qed.

Lemma rdpSetup_trace w : trace h rdpSetupStep w = [].
Proof.
  apply trace_read_only. unfold rdpSetupStep, readRDPDeny, portOrDefault, readPortPS, outputPS. walk_step.
Qed.

Definition service_mutations (svc : string) : list mutation := [MRun "sc" ["config"; svc; "start=auto"]; MRun "net" ["start"; svc]].

Lemma serviceStep_trace svc n f x w m : In m (trace h (serviceStep svc n f x) w) -> In m (service_mutations svc).
Proof.
  unfold serviceStep. intros [H|H]%in_trace_bind; [by rewrite win_read_trace in H by apply serviceState_win|].
  revert H. destruct (run h (serviceState svc) w).1 as [a r]. cbn [fst snd]. destruct a, r; cbn [andb]; [done|..];
    repeat (cbn; destruct (h _ _ _) as [[e|] ?]; cbn); tauto.
Qed.

Lemma powerLoop_trace l ch w m :
  In m (trace h (powerLoop l ch) w) -> exists c s t, In (c, s, t) l /\ m = MRun "powercfg" ["/change"; c; "0"].
Proof.
  revert ch w. induction l as [|[[c s] t] l IH]; intros ch w; cbn [powerLoop]; [done|].
  intros [H|H]%in_trace_bind.
  { exfalso. revert H. rewrite win_read_trace; [done|]. apply only_bind; [apply readAC_win|]. intros [?|?]; apply only_ret. }
  revert H. destruct (run h (acTimeoutZero s t) w).1.
  - intros H. destruct (IH _ _ H) as (c' & s' & t' & Hin & ->). exists c', s', t'. split; [by right|done].
  - intros [H|H]%in_trace_bind.
    + cbn in H. destruct (h _ _ _) as [e w']. cbn in H. destruct H as [<-|[]]. exists c, s, t. split; [by left|done].
    + revert H. destruct (run h (do _) _).1 as [e|]; [done|]. intros H.
      destruct (IH _ _ H) as (c' & s' & t' & Hin & ->). exists c', s', t'. split; [by right|done].
Qed.

Lemma firewallSetup_trace rule port w m :
  In m (trace h (windowsFirewallSetupStep rule port) w) ->
  valid_rule rule /\ m = MRun "powershell" (psArgs (psRecreateRule rule port)).
Proof.
  unfold windowsFirewallSetupStep. destruct (sanitizeFirewallRule rule) as [r|e] eqn:Es; [|done].
  apply sanitizeFirewallRule_Ok in Es as [-> Hv].
  intros [H|H]%in_trace_bind; [by rewrite win_read_trace in H by apply firewallOK_win|].
  revert H. destruct (match _ with Ok (true, _) => true | _ => false end); [done|].
  intros [H|H]%in_trace_bind; [|done]. cbn in H. destruct (h _ _ _) as [e w']. cbn in H. by destruct H as [<-|[]].
Qed.
End Host.

(** The commands setup runs besides the firewall's and power's. *)
Definition windows_commands : list mutation :=
  [MRun "tailscale" ["set"; "--unattended"]]
  ++ concat (map service_mutations ["Tailscale"; "SSDPSRV"; "upnphost"])
  ++ [MRun "powershell" (psArgs psNetworkProfilePrivate)].

Lemma unattended_trace {W} (h : handler W) fd w m :
  In m (trace h (unattendedStep fd) w) -> In m windows_commands.
Proof.
  unfold unattendedStep. intros [H|H]%in_trace_bind; [cbn in H; by destruct (h _ _ _)|]. revert H.
  destruct (run h _ w).1 as [out err]. destruct (_ && _); [done|]. intros [H|H]%in_trace_bind.
  - cbn in H. destruct (h _ _ _) as [e w']. cbn in H. destruct H as [<-|[]]. by left.
  - revert H. destruct (run h (do _) _).1; [|done]. cbn. by destruct (h _ _ _).
Qed.

Lemma network_trace {W} (h : handler W) w m : In m (trace h networkProfileStep w) -> In m windows_commands.
Proof.
  unfold networkProfileStep. intros [H|H]%in_trace_bind; [by rewrite win_read_trace in H by (apply ps_reads; script_ne)|].
  revert H. destruct (run h _ w).1 as [o|e]; [|done]. destruct (parseNetworkProfiles o) as [n p]. cbn [fst snd].
  destruct (n =? 0)%nat; [done|]. destruct (p =? n)%nat; [done|]. intros [H|H]%in_trace_bind; [|done].
  cbn in H. destruct (h _ _ _) as [e w']. destruct H as [<-|[]].
  unfold windows_commands. rewrite !in_app_iff. right. right. by left.
Qed.

Lemma service_commands svc m : svc ∈ ["Tailscale"; "SSDPSRV"; "upnphost"] -> In m (service_mutations svc) -> In m windows_commands.
Proof.
  intros Hs Hm. unfold windows_commands. rewrite !in_app_iff. right. left. apply in_concat.
  exists (service_mutations svc). split; [|done]. apply in_map, list_elem_of_In, Hs.
Qed.

(** Whatever the host answers, setup on Windows runs only its own commands: the
    node's unattended mode, the three services, the network profile; the firewall
    rule's script, for the port it found and a name that cannot leave its quotes; and
    the AC timeouts, unless the host keeps its sleep settings. It writes no file. *)
Theorem windows_setup_commands :
  forall (W : Type) (h : handler W) (fd : string -> bool) (cfg : Config) (w : W) (m : mutation),
    In m (trace h (setupWindows fd cfg) w) ->
    In m windows_commands
    \/ (valid_rule (FirewallRule cfg)
        /\ m = MRun "powershell" (psArgs (psRecreateRule (FirewallRule cfg) (SetupRDPPort (run h (setupWindows fd cfg) w).1))))
    \/ (NoSleep cfg = false /\ exists c s t, In (c, s, t) powerSettings /\ m = MRun "powercfg" ["/change"; c; "0"]).
Proof.
  intros W h fd cfg w m. unfold setupWindows.
  rewrite !run_bind. intros [H|H]%in_trace_bind; [left; by eapply unattended_trace|]. revert H.
  destruct (run h (unattendedStep fd) w) as [s1 w1]. cbn [fst snd]. rewrite !run_bind.
  intros [H|H]%in_trace_bind; [left; by eapply (service_commands "Tailscale"), serviceStep_trace; [set_solver|]|]. revert H.
  destruct (run h (serviceStep "Tailscale" _ _ _) w1) as [s2 w2]. cbn [fst snd]. rewrite !run_bind.
  intros [H|H]%in_trace_bind; [left; by eapply (service_commands "SSDPSRV"), serviceStep_trace; [set_solver|]|]. revert H.
  destruct (run h (serviceStep "SSDPSRV" _ _ _) w2) as [s3 w3]. cbn [fst snd]. rewrite !run_bind.
  intros [H|H]%in_trace_bind; [left; by eapply (service_commands "upnphost"), serviceStep_trace; [set_solver|]|]. revert H.
  destruct (run h (serviceStep "upnphost" _ _ _) w3) as [s4 w4]. cbn [fst snd]. rewrite !run_bind.
  intros [H|H]%in_trace_bind; [left; by eapply network_trace|]. revert H.
  destruct (run h networkProfileStep w4) as [s5 w5]. cbn [fst snd]. rewrite !run_bind.
  intros [H|H]%in_trace_bind; [by rewrite rdpSetup_trace in H|]. revert H.
  destruct (run h rdpSetupStep w5) as [[s6 port] w6]. cbn [fst snd]. rewrite !run_bind.
  intros [H|H]%in_trace_bind; [right; left|].
  - apply firewallSetup_trace in H as [Hv ->]. split; [done|].
    destruct (run h (windowsFirewallSetupStep _ _) w6) as [s7 w7]. rewrite run_bind. by destruct (run h _ w7).
  - revert H. destruct (run h (windowsFirewallSetupStep _ _) w6) as [s7 w7]. cbn [fst snd].
    intros [H|H]%in_trace_bind; [|done]. right. right. destruct (NoSleep cfg); [done|]. split; [done|].
    apply in_trace_bind in H as [H|H]; [|done]. by eapply powerLoop_trace.
Qed.

(** * Setup and check *)

Section Agreement.
Context {W : Type} (h : handler W).
Hypothesis keep : forall X (c : call X) w, win_read X c = true -> (h X c w).2 = w.

Definition val {A} (p : prog A) (w : W) : A := (run h p w).1.
Lemma run_win {A} (p : prog A) w : only win_read p -> run h p w = (val p w, w).
Proof. intros Hp. unfold val. pose proof (only_state h win_read p keep Hp w) as H. destruct (run h p w). cbn in H. by subst. Qed.

(** Remote Desktop is enabled only when nothing in the registry allows it and no
    policy decides it: a host where a policy does, or that cannot be read, is left as it is. *)
Lemma rdp_enabled_only_locally w :
  (run h rdpSetupStep w).2 <> w ->
  exists d, val readRDPDeny w = Ok d /\ policy d = "" /\ local d <> "0".
Proof.
  unfold rdpSetupStep. rewrite run_bind, (run_win readRDPDeny) by apply readDeny_win.
  destruct (val readRDPDeny w) as [d|e].
  - unfold effective. case_bool_decide as Hp; cbn [negb].
    + case_bool_decide as Hl; cbn [negb andb]; [|by intros _; exists d].
      rewrite run_bind, run_win by apply readPort_win. done.
    + destruct (negb (bool_decide (policy d = "0"))); cbn [negb andb];
        rewrite run_bind, run_win by first [apply portOrDefault_win|apply readPort_win]; done.
  - rewrite run_bind, run_win by apply portOrDefault_win. done.
Qed.

Lemma declared_outcome step cfg port :
  StepOutcome (declaredRDPPort step cfg port)
  = if negb (PortDeclared cfg) || (port =? cPort cfg)%Z || negb (Succeeded (StepOutcome step)) then StepOutcome step else OutcomeManual.
Proof. unfold declaredRDPPort. by destruct (_ || _). Qed.

(** A step is OK after the declared port was compared exactly when it was OK and the
    port is not another one. *)
Lemma declared_ok step cfg port :
  StepOutcome (declaredRDPPort step cfg port) = OutcomeOK <->
  StepOutcome step = OutcomeOK /\ negb (PortDeclared cfg) || (port =? cPort cfg)%Z = true.
Proof.
  rewrite declared_outcome. destruct (negb (PortDeclared cfg) || (port =? cPort cfg)%Z); cbn; [naive_solver|].
  destruct (StepOutcome step); cbn; naive_solver.
Qed.

(** The rdp step of setup and of check. *)
Lemma rdp_agree cfg w port :
  val (readPortPS psReadRDPPort) w = Ok port ->
  (StepOutcome (declaredRDPPort (val (rdpCheckStep port) w).1 cfg port) = OutcomeOK <->
   exists s, run h rdpSetupStep w = ((s, port), w) /\ StepOutcome (declaredRDPPort s cfg port) = OutcomeOK).
Proof.
  intros Hp. setoid_rewrite declared_ok. unfold rdpCheckStep, rdpSetupStep, val at 1.
  rewrite !run_bind, !(run_win readRDPDeny) by apply readDeny_win. cbn [run fst].
  destruct (val readRDPDeny w) as [d|e].
  2: { split; [by intros [? _]|]. rewrite run_bind, (run_win portOrDefault) by apply portOrDefault_win.
       by intros (s & [= <- _] & [? _]). }
  destruct (effective d) as [denied byPolicy]. destruct denied, byPolicy; cbn [andb negb].
  - split; [by intros [? _]|]. rewrite run_bind, (run_win portOrDefault) by apply portOrDefault_win. by intros (s & [= <- _] & [? _]).
  - split; [by intros [? _]|]. intros (s & H & Hs & _). exfalso. revert H. rewrite run_bind.
    destruct (run h (readPortPS psEnableRDP) w) as [r w']. cbn. intros [= Hs' _ _]. subst s. revert Hs.
    unfold actStep. by destruct (result_err r).
  - rewrite run_bind, (run_win (readPortPS psReadRDPPort)), Hp by apply readPort_win. cbn. split; [intros [_ H]|intros (s & [= <-] & _ & H)]; eauto.
  - rewrite run_bind, (run_win (readPortPS psReadRDPPort)), Hp by apply readPort_win. cbn. split; [intros [_ H]|intros (s & [= <-] & _ & H)]; eauto.
Qed.

Lemma firewall_agree_win rule port w :
  StepOutcome (val (windowsFirewallCheckStep rule port) w).1 = OutcomeOK <->
  exists s, run h (windowsFirewallSetupStep rule port) w = (s, w) /\ StepOutcome s = OutcomeOK.
Proof.
  unfold windowsFirewallCheckStep, windowsFirewallSetupStep, val. destruct (sanitizeFirewallRule rule) as [r|e].
  2: { cbn. split; [done|]. by intros (s & [= <-] & ?). }
  rewrite !run_bind, !(run_win (windowsFirewallRuleOK r port)) by apply firewallOK_win.
  destruct (val (windowsFirewallRuleOK r port) w) as [[ok found]|e].
  - destruct ok; cbn [negb andb].
    + cbn. split; [|done]. intros _. eexists. by split; [reflexivity|].
    + split; [destruct found; done|]. rewrite run_bind. destruct (run h (runPS _) w) as [e w'].
      cbn. intros (s & [= <- _] & Hs). unfold actStep in Hs. by destruct e.
  - split; [done|]. rewrite run_bind. destruct (run h (runPS _) w) as [e' w'].
    cbn. intros (s & [= <- _] & Hs). unfold actStep in Hs. by destruct e'.
Qed.

Lemma power_agree l w :
  StepOutcome (val (powerCheckLoop l []) w) = OutcomeOK <->
  exists s, run h (powerLoop l false) w = (s, w) /\ StepOutcome s = OutcomeOK.
Proof.
  assert (forall l drift, drift <> [] -> StepOutcome (val (powerCheckLoop l drift) w) <> OutcomeOK) as Hd.
  { clear l. induction l as [|[[c s] t] l IH]; intros drift Hne; cbn [powerCheckLoop]; unfold val.
    - cbn. by rewrite bool_decide_eq_false_2.
    - rewrite run_bind, (run_win (readACTimeoutZero s t)) by apply readAC_win.
      destruct (val (readACTimeoutZero s t) w) as [[]|e]; [by apply IH|apply IH; by destruct drift|done]. }
  assert (forall l w', StepOutcome (run h (powerLoop l true) w').1 <> OutcomeOK) as Ht.
  { clear l. induction l as [|[[c s] t] l IH]; intros w'; cbn [powerLoop]; [done|].
    rewrite run_bind. destruct (run h (acTimeoutZero s t) w') as [[] w1]; [apply IH|].
    rewrite run_bind. destruct (run h (do _) w1) as [[e|] w2]; [done|apply IH]. }
  induction l as [|[[c s] t] l IH]; cbn [powerCheckLoop powerLoop].
  { split; [|done]. intros _. eexists. by split. }
  unfold val. unfold acTimeoutZero. rewrite !run_bind, !(run_win (readACTimeoutZero s t)) by apply readAC_win.
  destruct (val (readACTimeoutZero s t) w) as [[]|e]; cbn [run mret prog_ret].
  - exact IH.
  - split; [by intros H%Hd|]. intros (s' & H & Hs). exfalso. revert H. rewrite run_bind.
    destruct (run h (do _) w) as [[e|] w2]; [by intros [= <- _]|]. intros H. apply (Ht l w2). by rewrite H.
  - split; [done|]. intros (s' & H & Hs). exfalso. revert H. rewrite run_bind.
    destruct (run h (do _) w) as [[e'|] w2]; [by intros [= <- _]|]. intros H. apply (Ht l w2). by rewrite H.
Qed.

(** The three steps setup and check share. *)
Definition setup_agrees (cfg : Config) (w : W) : Prop :=
  exists port rdp firewall,
    run h rdpSetupStep w = ((rdp, port), w) /\ StepOutcome (declaredRDPPort rdp cfg port) = OutcomeOK
    /\ run h (windowsFirewallSetupStep (FirewallRule cfg) port) w = (firewall, w) /\ StepOutcome firewall = OutcomeOK
    /\ (NoSleep cfg = false -> exists power, run h powerStep w = (power, w) /\ StepOutcome power = OutcomeOK).

Lemma rdp_ok_port w s port w' :
  run h rdpSetupStep w = ((s, port), w') -> StepOutcome s = OutcomeOK -> val (readPortPS psReadRDPPort) w = Ok port /\ w' = w.
Proof.
  unfold rdpSetupStep. rewrite run_bind, (run_win readRDPDeny) by apply readDeny_win.
  destruct (val readRDPDeny w) as [d|e].
  2: { rewrite run_bind, (run_win portOrDefault) by apply portOrDefault_win. by intros [= <- _]. }
  destruct (effective d) as [denied byPolicy]. destruct denied, byPolicy; cbn [andb negb].
  - rewrite run_bind, (run_win portOrDefault) by apply portOrDefault_win. by intros [= <- _].
  - rewrite run_bind. destruct (run h (readPortPS psEnableRDP) w) as [r w1]. cbn. intros [= <- _ _].
    unfold actStep. by destruct (result_err r).
  - rewrite run_bind, (run_win (readPortPS psReadRDPPort)) by apply readPort_win. cbn. intros [= <- <- <-].
    destruct (val _ w) as [p|e]; [done|]. done.
  - rewrite run_bind, (run_win (readPortPS psReadRDPPort)) by apply readPort_win. cbn. intros [= <- <- <-].
    destruct (val _ w) as [p|e]; [done|]. done.
Qed.

#[local] Arguments rdpCheckStep : simpl never.
#[local] Arguments windowsFirewallCheckStep : simpl never.
#[local] Arguments powerCheckStep : simpl never.

Lemma check_windows_steps cfg w :
  Forall step_ok (val (checkWindows cfg) w).1 <->
  exists port, val (readPortPS psReadRDPPort) w = Ok port
    /\ StepOutcome (declaredRDPPort (val (rdpCheckStep port) w).1 cfg port) = OutcomeOK
    /\ StepOutcome (val (windowsFirewallCheckStep (FirewallRule cfg) port) w).1 = OutcomeOK
    /\ (NoSleep cfg = false -> StepOutcome (val powerCheckStep w) = OutcomeOK).
Proof.
  unfold checkWindows, val at 1. rewrite run_bind, (run_win (readPortPS psReadRDPPort)) by apply readPort_win.
  destruct (val (readPortPS psReadRDPPort) w) as [port|e].
  - rewrite run_bind, run_bind, (run_win (rdpCheckStep port)) by apply rdpCheck_win.
    destruct (val (rdpCheckStep port) w) as [s on] eqn:Es. cbn [run mret prog_ret fst].
    rewrite run_bind, (run_win (windowsFirewallCheckStep _ _)) by apply firewallCheck_win.
    destruct (val (windowsFirewallCheckStep (FirewallRule cfg) port) w) as [fs fok] eqn:Ef. rewrite run_bind.
    destruct (NoSleep cfg).
    + cbn. rewrite !Forall_cons. unfold step_ok at 1 2. split.
      * intros (H1 & H2 & _). exists port. rewrite Es, Ef. by split_and!.
      * intros (p & [= <-] & H1 & H2 & _). rewrite Es in H1. rewrite Ef in H2. split_and!; [done|done|constructor].
    + rewrite run_bind, (run_win powerCheckStep) by apply powerCheck_win. cbn. rewrite !Forall_cons. unfold step_ok at 1 2 3. split.
      * intros (H1 & H2 & H3 & _). exists port. rewrite Es, Ef. by split_and!.
      * intros (p & [= <-] & H1 & H2 & H3). rewrite Es in H1. rewrite Ef in H2. split_and!; [done|done|by apply H3|constructor].
  - split; [|by intros (p & ? & _)]. rewrite run_bind. cbn [run mret prog_ret].
    rewrite run_bind, (run_win (windowsFirewallCheckStep _ _)) by apply firewallCheck_win.
    destruct (val (windowsFirewallCheckStep _ _) w) as [fs fok]. rewrite run_bind. destruct (run h _ w) as [pw w']. cbn.
    by intros [H _]%Forall_cons.
Qed.

(** On a Windows host that reading does not change, check reports every step OK
    exactly when the same steps of setup are OK, and then they leave the host as it
    is. *)
Theorem windows_check_agrees cfg w :
  Forall step_ok (val (checkWindows cfg) w).1 <-> setup_agrees cfg w.
Proof.
  rewrite check_windows_steps. unfold setup_agrees. split.
  - intros (port & Hp & Hr & Hf & Hs). apply (rdp_agree cfg w port Hp) in Hr as (s & Hr & Ho).
    apply firewall_agree_win in Hf as (f & Hf & Hof). exists port, s, f. split_and!; try done.
    intros Hn. apply power_agree. by apply Hs.
  - intros (port & s & f & Hr & Ho & Hf & Hof & Hs). exists port.
    assert (StepOutcome s = OutcomeOK) as Hso by by apply declared_ok in Ho as [? _].
    destruct (rdp_ok_port _ _ _ _ Hr Hso) as [Hp _]. split_and!; [done| | |].
    + apply (rdp_agree cfg w port Hp). eauto.
    + apply firewall_agree_win. eauto.
    + intros Hn. apply power_agree. by apply Hs.
Qed.
End Agreement.

(** * Reading what the scripts print *)

(** A printed line, and the lines PowerShell prints. *)
Definition kv_text (kv : string * string) : string := kv.1 +:+ String "=" kv.2.
Definition rendered (l : list (string * string)) : string :=
  String.concat "" (map (fun kv => kv_text kv +:+ String "013" newline) l).
Definition line_ok (kv : string * string) : Prop :=
  kv.1 <> "" /\ no_byte "=" kv.1 = true /\ no_byte nl (kv_text kv) = true /\ TrimSpace (kv_text kv) = kv_text kv.
Definition first_value (l : list (string * string)) (k : string) : option string :=
  snd <$> List.find (fun kv => bool_decide (kv.1 = k)) l.

Lemma split_rendered l : Forall line_ok l ->
  Split nl (rendered l) = map (fun kv => kv_text kv +:+ String "013" "") l ++ [""].
Proof.
  unfold rendered. induction 1 as [|kv l (Hk & He & Hn & Ht) Hl IH]; [done|]. cbn [map].
  assert (forall x r, String.concat "" (x :: r) = x +:+ String.concat "" r) as ->.
  { intros x r. cbn. destruct r; [by rewrite str_app_nil_r|done]. }
  rewrite str_app_assoc. change (String "013" newline +:+ ?r) with (String "013" "" +:+ String nl r).
  rewrite <- str_app_assoc, Split_app_sep, IH; [done|]. by rewrite no_byte_app, Hn.
Qed.

Lemma key_line_lookup acc kv k : line_ok kv ->
  key_line acc (kv_text kv +:+ String "013" "") !! k
  = match acc !! k with Some v => Some v | None => if bool_decide (kv.1 = k) then Some kv.2 else None end.
Proof.
  intros (Hk & He & Hn & Ht). unfold key_line. rewrite TrimSpace_snoc by (done || by destruct kv as [[|? ?] ?]).
  unfold kv_text. rewrite Cut_app by done. destruct (acc !! kv.1) as [v|] eqn:E.
  - case_bool_decide as Hd; [subst; by rewrite E|]. by destruct (acc !! k).
  - case_bool_decide as Hd; [subst; by rewrite lookup_insert_eq, E|]. rewrite lookup_insert_ne by done. by destruct (acc !! k).
Qed.

(** Of every key but the empty one the first value printed is read. *)
Lemma parse_rendered l k : Forall line_ok l -> k <> "" -> parseKeyValues (rendered l) !! k = first_value l k.
Proof.
  intros Hl Hk. unfold parseKeyValues. rewrite split_rendered, fold_left_app by done.
  assert (forall acc, fold_left key_line (map (fun kv => kv_text kv +:+ String "013" "") l) acc !! k
    = match acc !! k with Some v => Some v | None => first_value l k end) as Hf.
  { unfold first_value. induction Hl as [|kv l Hkv Hl IH]; intros acc; cbn; [by destruct (acc !! k)|].
    rewrite IH, key_line_lookup by done. destruct (acc !! k); [done|]. by case_bool_decide. }
  cbn. unfold key_line. change (Cut "=" (TrimSpace "")) with (@pair (string * string) bool ("", "") false). cbn.
  destruct (_ !! ""); [by rewrite Hf|]. rewrite lookup_insert_ne by done. by rewrite Hf.
Qed.

(** The rules that carry a name, as the script prints them. *)
Record fw_rule : Type := mkFwRule {
  rEnabled : string; rAction : string; rDirection : string; rProfile : string; rRemote : string; rProtocol : string; rPort : string }.
Definition rule_lines (r : fw_rule) : list (string * string) :=
  [("enabled", rEnabled r); ("action", rAction r); ("direction", rDirection r); ("profile", rProfile r);
   ("remote", rRemote r); ("protocol", rProtocol r); ("port", rPort r)].
Definition rules_lines (rules : list fw_rule) : list (string * string) :=
  ("count", Itoa (Z.of_nat (length rules))) :: concat (map rule_lines rules).

(** The rule counts as converged exactly when one rule carries the name, and it is as
    setup creates it; several rules, or one that is disabled, blocks, is narrower, or
    is for another port, do not; and whether any carries the name is told apart. *)
Theorem firewall_rule_read rules port :
  Forall line_ok (rules_lines rules) ->
  ((rule_read port (rendered (rules_lines rules))).1 = true <->
     exists p, rules = [mkFwRule "True" "Allow" "Inbound" "Any" "Any" "TCP" p] /\ (port = 0%Z \/ p = Itoa port))
  /\ ((rule_read port (rendered (rules_lines rules))).2 = true <-> rules <> []).
Proof.
  intros Hl. unfold rule_read, field. cbn [fst snd].
  rewrite !parse_rendered by (done || by vm_compute).
  assert (forall n, Itoa (Z.of_nat (length rules)) = Itoa (Z.of_nat n) <-> length rules = n) as Hc.
  { intros n. split; [|by intros ->]. by intros Hn%Itoa_inj%Nat2Z.inj. }
  change (first_value (rules_lines rules) (Key fwCount)) with (Some (Itoa (Z.of_nat (length rules)))). cbn [default].
  change "1" with (Itoa (Z.of_nat 1)). change "0" with (Itoa (Z.of_nat 0)). split.
  - rewrite !andb_true_iff, !bool_decide_eq_true, Hc. destruct rules as [|[e a d p r pr po] [|r2 rules]].
    + split; [by intros [[[[[[[? _] _] _] _] _] _] _]|by intros (? & ? & _)].
    + set (l := rules_lines _).
      repeat match goal with |- context [first_value l (Key ?f)] =>
        let v := eval vm_compute in (first_value l (Key f)) in change (first_value l (Key f)) with v end.
      cbn [from_option length]; unfold id. rewrite orb_true_iff, Z.eqb_eq, bool_decide_eq_true. split.
      * intros [[[[[[[_ ->] ->] ->] ->] ->] ->] Hp]. by exists po.
      * intros (x & [= -> -> -> -> -> -> ->] & Hp). by split_and!.
    + split; [by intros [[[[[[[? _] _] _] _] _] _] _]|by intros (? & ? & _)].
  - rewrite negb_true_iff, bool_decide_eq_false, Hc. by destruct rules.
Qed.

(** * A host *)

Definition good_rule : fw_rule := mkFwRule "True" "Allow" "Inbound" "Any" "Any" "TCP" "3389".
Definition exec_failed : exec_error := mkExecError "exit status 1" None false.
Definition zero_timeouts : string := "Current AC Power Setting Index: 0x00000000 Current DC Power Setting Index: 0x00000384".

(** A host that serves Remote Desktop as declared, and on which nothing can be run. *)
Definition windows_host : handler unit := fun X c =>
  match c in call X return unit -> X * unit with
  | Run _ _ => fun w => (Some exec_failed, w)
  | Output name args => fun w =>
      (if bool_decide (args = psArgs psReadRDPPort) then ("3389", None)
       else if bool_decide (args = psArgs psReadRDPDeny) then (rendered [("policy", ""); ("local", "0")], None)
       else if bool_decide (args = psArgs (psReadFirewallRule "Tailscale-RDP-Ingress")) then (rendered (rules_lines [good_rule]), None)
       else if bool_decide (name = "powercfg") then (zero_timeouts, None)
       else ("", Some exec_failed), w)
  | LookPath _ => fun w => (None, w)
  | Elevated => fun w => (true, w)
  | ReadFile _ => fun w => (Err exec_failed, w)
  | WriteFile _ _ => fun w => (Some exec_failed, w)
  end.
Definition demo_windows : Config := mkConfig "Tailscale-RDP-Ingress" false 3389 true false "text" [mkDeclared "rdp" 3389] "".

Definition outcomes (l : list SetupStep) : list Outcome := map StepOutcome l.

Lemma firewall_rule_read_witness :
  (rule_read 3389 (rendered (rules_lines [good_rule; good_rule]))).1 = false
  /\ (rule_read 3389 (rendered (rules_lines [good_rule]))).1 = true.
Proof.
  split; [vm_compute; reflexivity|]. refine (proj2 (proj1 (firewall_rule_read [good_rule] 3389 _)) _).
  - unfold rules_lines. repeat constructor; vm_compute; (discriminate || reflexivity).
  - exists "3389". split; [reflexivity|]. right. reflexivity.
Defined.

Lemma windows_host_keeps X (c : call X) w : win_read X c = true -> (windows_host X c w).2 = w.
Proof. destruct w. by destruct (windows_host X c tt) as [x []]. Qed.
Lemma demo_check_ok : Forall step_ok (val windows_host (checkWindows demo_windows) tt).1.
Proof. apply all_ok_spec. vm_compute. reflexivity. Qed.

Lemma windows_check_agrees_witness :
  outcomes (val windows_host (checkWindows demo_windows) tt).1 = [OutcomeOK; OutcomeOK; OutcomeOK]
  /\ setup_agrees windows_host demo_windows tt.
Proof.
  split; [vm_compute; reflexivity|].
  exact (proj1 (windows_check_agrees windows_host windows_host_keeps demo_windows tt) demo_check_ok).
Defined.

Lemma windows_setup_commands_witness :
  trace windows_host (setupWindows (fun _ => false) demo_windows) tt
  = [MRun "tailscale" ["set"; "--unattended"]]
    ++ concat (map (fun s => [MRun "sc" ["config"; s; "start=auto"]]) ["Tailscale"; "SSDPSRV"; "upnphost"])
  /\ (In (MRun "tailscale" ["set"; "--unattended"]) windows_commands
      \/ valid_rule (FirewallRule demo_windows) \/ NoSleep demo_windows = false).
Proof.
  split; [vm_compute; reflexivity|].
  destruct (windows_setup_commands unit windows_host (fun _ => false) demo_windows tt (MRun "tailscale" ["set"; "--unattended"]))
    as [H|[[H _]|[H _]]]; [vm_compute; auto|by left|by right; left|by right; right].
Defined.

(** A check that reports every step OK says nothing of the steps it does not have: here
    setup cannot set unattended mode, nor any of the services. *)
Theorem windows_check_is_partial :
  exists (h : handler unit) (cfg : Config),
    (forall X (c : call X) w, win_read X c = true -> (h X c w).2 = w)
    /\ Forall step_ok (val h (checkWindows cfg) tt).1
    /\ outcomes (SetupSteps (run h (setupWindows (fun _ => false) cfg) tt).1)
       = [OutcomeFailed; OutcomeFailed; OutcomeFailed; OutcomeFailed; OutcomeFailed; OutcomeOK; OutcomeOK; OutcomeOK].
Proof.
  exists windows_host, demo_windows. split; [exact windows_host_keeps|]. split; [exact demo_check_ok|].
  vm_compute. reflexivity.
Qed.
