(* ===== verification/HostCli.v ===== *)
(** The commands [host setup], [host check] and [import] (src/cmd/cli/host.go,
    host_check_published.go, import.go), over the steps of the host package
    (src/internal/host/step.go): what they print, their exit status, the descriptor
    a host prints and a client imports, and the probe of [host serve].

    A command is a program over the runner, as the steps are. The files, the flags,
    the environment and what answers on the health address are its world. *)
From S2P Require Import Prelude GoStrings GoNet GoErr Health Credential ControlUrl GoUrl EnvFile ProfileStore Descriptor Signals.
From S2P Require Import HostRunner LinuxFirewall LinuxSteps WindowsSteps HostFile Serve HostServe.
From Stdlib Require Import Ascii.

Open Scope bool_scope.

(** * The steps of an operating system *)

Section Steps.
Context `{UrlPackage}.
(** The [ForceDaemon] and [ControlURL] members of the preferences tailscale prints. *)
Variable forceDaemon : string -> bool.
Variable prefsControlURL : string -> option string.

Definition linuxConfig (cfg : Config) : HostConfig := mkHostConfig (cPort cfg) (HostFile.PortDeclared cfg).

Definition setupFor (goos : string) (cfg : Config) : prog SetupResult :=
  if bool_decide (goos = goosWindows) then setupWindows forceDaemon cfg
  else if bool_decide (goos = goosDarwin) then mret (mkSetup defaultRDPPort [])
  else setupLinux (linuxConfig cfg).

(** A check of Linux is [checkForLinux]; the others begin and end as it does. *)
Definition checkFor (goos : string) (cfg : Config) : prog CheckResult :=
  let framed := fun (steps : prog (list SetupStep * list LinuxSteps.Service)) =>
    ip ← tailscaleIP;
    elevated ← do Elevated;
    '(more, services) ← steps;
    mret (deriveLegacy (mkCheck ip 0 false false (negb (bool_decide (ip = ""))) elevated services (tailscaleStep ip :: more))) in
  if bool_decide (goos = goosWindows) then framed (checkWindows cfg)
  else if bool_decide (goos = goosDarwin) then framed (mret ([], []))
  else checkForLinux (linuxConfig cfg).

(** The result and the control plane its descriptor carries. *)
Definition setupOn (goos : string) (cfg : Config) : prog (SetupResult * string) :=
  r ← setupFor goos cfg;
  control ← resolveControlPlane prefsControlURL (cControlURL cfg);
  mret (r, control).
Definition checkOn (goos : string) (cfg : Config) : prog (CheckResult * string) :=
  r ← checkFor goos cfg;
  control ← resolveControlPlane prefsControlURL (cControlURL cfg);
  mret (r, control).
End Steps.

(** * Exit status *)

Definition exitNotConverged : Z := 2.

Definition outcomeText (o : Outcome) : string :=
  match o with
  | OutcomeOK => "ok" | OutcomeChanged => "changed" | OutcomeFailed => "failed"
  | OutcomeManual => "manual" | OutcomeUnverified => "unverified"
  end.

(** [x of y] in the message of a command that did not converge. *)
Definition notConverged (what : string) (named : list string) (steps : list SetupStep) (how : string) : cmd_error :=
  ExitError exitNotConverged
    (CmdError (what +:+ Itoa (Z.of_nat (length named)) +:+ " of " +:+ Itoa (Z.of_nat (length steps)) +:+ how +:+ Join named ", ")).

Definition failedSteps (steps : list SetupStep) : list string :=
  omap (fun s => if bool_decide (StepOutcome s = OutcomeFailed) then Some (Name s) else None) steps.
Definition setupConvergence (steps : list SetupStep) : option cmd_error :=
  match failedSteps steps with
  | [] => None
  | failed => Some (notConverged "host setup did not converge: " failed steps " steps failed: ")
  end.

Definition pendingSteps (steps : list SetupStep) : list string :=
  omap (fun s => if bool_decide (StepOutcome s = OutcomeOK) then None
                 else Some (Name s +:+ " (" +:+ outcomeText (StepOutcome s) +:+ ")")) steps.
Definition checkConvergence (steps : list SetupStep) : option cmd_error :=
  match pendingSteps steps with
  | [] => None
  | pending => Some (notConverged "host not converged: " pending steps " steps not ok: ")
  end.

(** * The descriptor *)

Section Printing.
Context `{UrlPackage}.

Definition buildDescriptorLine (ip : string) (port : Z) (controlURL : string) : string :=
  if bool_decide (ip = "") || (port =? 0)%Z then "" else String_ (mkDescriptor ip port controlURL 1).
Definition descriptorOmittedNote := "Descriptor omitted: control plane unknown; declare host.control_url".
Definition hostDescriptorLine (ip : string) (port : Z) (controlURL : string) : string :=
  if bool_decide (controlURL = "") then ""
  else buildDescriptorLine ip port (if bool_decide (controlURL = ControlPlaneSaaS) then "" else controlURL).

(** * Documents *)

Record setupStepJSON : Type := mkStepJSON { jName : string; jOutcome : string; jSuccess : bool; jMessage : string; jFix : string }.
Definition stepsJSON (steps : list SetupStep) : list setupStepJSON :=
  map (fun s => mkStepJSON (Name s) (outcomeText (StepOutcome s)) (Success s) (Message s) (Fix s)) steps.

(** An empty descriptor or reason is left out of the document. *)
Record setupJSONOutput : Type := mkSetupJSON {
  jSteps : list setupStepJSON;
  jRDPPort : Z;
  jWarnings : list string;
  jErrors : list string;
  jDescriptor : string;
  jNotApplicable : string;
}.
Definition setupJSON (ip : string) (r : SetupResult) (control : string) : setupJSONOutput :=
  mkSetupJSON (stepsJSON (SetupSteps r)) (SetupRDPPort r)
    (omap (fun s => if Success s then None else Some (Message s)) (SetupSteps r)) []
    (hostDescriptorLine ip (SetupRDPPort r) control) "".

Record serviceJSON : Type := mkServiceJSON {
  jKind : string; jPort : Z; jEnabled : bool; jActive : option bool; jFirewallOK : bool; jUnread : bool; jPublished : option bool;
}.
Record checkJSONOutput : Type := mkCheckJSON {
  cjIP : string; cjRDPPort : Z; cjRDPEnabled : bool; cjFirewallOK : bool; cjUp : bool; cjPlatform : string;
  cjDescriptor : string; cjServices : list serviceJSON; cjSteps : list setupStepJSON;
}.

Definition serviceKey (kind : string) (port : Z) : string := kind +:+ String ":" (Itoa port).

Definition checkJSON (goos : string) (r : CheckResult) (control : string) (published : option (gmap string bool)) : checkJSONOutput :=
  mkCheckJSON (TailscaleIP r) (RDPPort r) (RDPEnabled r) (CheckFirewallOK r) (TailscaleUp r) goos
    (hostDescriptorLine (TailscaleIP r) (RDPPort r) control)
    (map (fun s : LinuxSteps.Service => mkServiceJSON (LinuxSteps.Kind s) (LinuxSteps.ServicePort s) (LinuxSteps.Enabled s) (LinuxSteps.Active s) (LinuxSteps.FirewallOK s) (LinuxSteps.Unread s)
                     ((fun m => default false (m !! serviceKey (LinuxSteps.Kind s) (LinuxSteps.ServicePort s))) <$> published)) (LinuxSteps.Services r))
    (stepsJSON (Steps r)).

(** * Text *)

Inductive output : Type :=
  | Out (line : string)
  | ErrOut (line : string)
  | Warned (path : string)
  | SetupDoc (d : setupJSONOutput)
  | CheckDoc (d : checkJSONOutput).

Definition rule39 := "  ---------------------------------------".
Definition printStep (num total : nat) (msg : string) : string :=
  "  [" +:+ Itoa (Z.of_nat num) +:+ "/" +:+ Itoa (Z.of_nat total) +:+ "] " +:+ msg.
Definition printOk (msg : string) : output := Out ("       " +:+ msg).
Definition printWarn (msg : string) : output := ErrOut ("       WARNING: " +:+ msg).

Definition printClientTarget (ip : string) (r : SetupResult) (control : string) : list output :=
  if bool_decide (ip = "") then [Out "  The client target appears once Tailscale is up."]
  else
    let desc := hostDescriptorLine ip (SetupRDPPort r) control in
    [Out "  For a client (ts-bridge connect, .env):"; Out ("  TS_TARGET=" +:+ ip +:+ ":" +:+ Itoa (SetupRDPPort r))]
    ++ (if negb (bool_decide (desc = ""))
        then [Out ""; Out "  Shareable descriptor:"; Out ("  " +:+ desc);
              Out ("  (import with: ts-bridge import <name> " +:+ Quote desc +:+ ")")]
        else if negb (SetupRDPPort r =? 0)%Z then [Out ""; Out ("  " +:+ descriptorOmittedNote)] else []).

Definition printSetupSummary (ip : string) (r : SetupResult) (control : string) : list output :=
  [Out ""; Out rule39]
  ++ match failedSteps (SetupSteps r) with
     | [] => [Out "  HOST READY"]
     | failed => [Out "  HOST NOT READY"; Out ("  Failed steps: " +:+ Join failed ", ")]
     end
  ++ [Out rule39] ++ (if bool_decide (ip = "") then [] else [Out ("  Tailscale IP: " +:+ ip)])
  ++ [Out ("  RDP Port:     " +:+ Itoa (SetupRDPPort r)); Out ""] ++ printClientTarget ip r control ++ [Out ""].

Definition setupResultText (ip : string) (r : SetupResult) (control : string) : list output :=
  let total := length (SetupSteps r) in
  concat (imap (fun i s => [Out (printStep (S i) total (Name s)); if Success s then printOk (Message s) else printWarn (Message s)])
            (SetupSteps r))
  ++ printSetupSummary ip r control.

Definition notApplicableReason := "Host setup is not applicable on macOS.".
Definition notApplicableHint := "Use the client mode (ts-bridge connect) to connect to a remote host.".
Definition printSetupNotApplicable (json : bool) : list output :=
  if json then [SetupDoc (mkSetupJSON [] 0 [] [] "" (notApplicableReason +:+ " " +:+ notApplicableHint))]
  else [Out notApplicableReason; Out notApplicableHint].

Definition printElevationError (goos : string) : list output :=
  if bool_decide (goos = goosWindows) then
    map ErrOut ["" ; "ERROR: This operation requires Administrator privileges."; ""; "To run as Administrator:";
      "  1. Open PowerShell as Administrator (right-click → Run as Administrator)"; "  2. Re-run: ts-bridge host setup"; ""]
  else if bool_decide (goos = goosLinux) then
    map ErrOut [""; "ERROR: This operation requires root privileges."; ""; "To run as root:"; "  sudo ts-bridge host setup"; ""]
  else [].

Definition statusStr (ok : bool) : string := if ok then "✓ OK" else "✗ NOT OK".

Definition rdpLine (r : CheckResult) : string :=
  if (0 <? RDPPort r)%Z then statusStr (RDPEnabled r) +:+ " (port " +:+ Itoa (RDPPort r) +:+ ")" else
  match List.find (fun s => bool_decide (LinuxSteps.Kind s = LinuxSteps.ServiceRDP)) (LinuxSteps.Services r) with
  | None => "no service declared"
  | Some svc =>
      let port := if (0 <? LinuxSteps.ServicePort svc)%Z then Itoa (LinuxSteps.ServicePort svc) else "unknown" in
      if LinuxSteps.Unread svc
      then "unread (rdp, port " +:+ port +:+ "): see the steps below for the cause"
           +:+ (if CheckElevated r then "" else "; running as root/administrator may help")
      else statusStr false +:+ " (rdp, port " +:+ port +:+ ")"
  end.

Definition printCheckText (goos : string) (r : CheckResult) (control : string) : list output :=
  let desc := hostDescriptorLine (TailscaleIP r) (RDPPort r) control in
  [Out ""; Out "  HOST CHECK"; Out rule39; Out ("  Platform:      " +:+ goos); Out ("  Tailscale:     " +:+ statusStr (TailscaleUp r));
   Out ("  Tailscale IP:  " +:+ TailscaleIP r); Out ("  RDP:           " +:+ rdpLine r);
   Out ("  Firewall:      " +:+ statusStr (CheckFirewallOK r))]
  ++ omap (fun s => if bool_decide (StepOutcome s = OutcomeOK) then None
                    else Some (Out ("  ! " +:+ Name s +:+ " (" +:+ outcomeText (StepOutcome s) +:+ "): " +:+ Fix s))) (Steps r)
  ++ (if negb (bool_decide (desc = "")) then [Out ("  Descriptor:    " +:+ desc)]
      else if negb (bool_decide (TailscaleIP r = "")) && negb (RDPPort r =? 0)%Z then [Out ("  " +:+ descriptorOmittedNote)] else [])
  ++ [Out rule39; Out ""].

Definition reportCheck (goos : string) (r : CheckResult) (control : string) (published : option (gmap string bool)) (json : bool)
    : list output * option cmd_error :=
  (if json then [CheckDoc (checkJSON goos r control published)] else printCheckText goos r control, checkConvergence (Steps r)).
End Printing.

(** * The probe of [host serve] *)

(** What answers a GET: the status code, and the node and services of its body when
    the body decodes. *)
Abbreviation probe_answer := (Z * option (string * list ServiceState))%type.

Definition markPublished (published : gmap string bool) (s : ServiceState) : gmap string bool :=
  let k := serviceKey (Health.Kind s) (Health.Port s) in
  if bool_decide (is_Some (published !! k)) && Published s then <[k := true]> published else published.

Definition probeServePublished (machine : node_env) (get : string -> option probe_answer) (file : File) (declared : list DeclaredService)
    : option (gmap string bool) :=
  mesh ← hMesh (fHost file);
  addr ← HealthAddr mesh;
  let published := fold_left (fun m s => <[serviceKey (dKind s) (dPort s) := false]> m) declared ∅ in
  Some match get ("http://" +:+ addr +:+ "/health/ready") with
       | None => published
       | Some (code, body) =>
           if negb (code =? 200)%Z then published else
           match body with
           | None => published
           | Some (node, services) =>
               if negb (bool_decide (node = NodeHostname machine mesh)) then published
               else fold_left markPublished services published
           end
       end.

(** * The commands *)

(** The world of a command: the platform, the flags given, the files, the
    environment, the machine and what answers a GET. *)
Record host_cmd : Type := mkHostCmd {
  hostGOOS : string;
  configPath : string;
  hostFileAt : string -> option yaml_stream;
  dotEnv : env_file;
  environ : environment;
  jsonOut : bool;
  cmdFlags : Flags;
  machine : node_env;
  httpGet : string -> option probe_answer;
}.

Definition emptyFile : File := mkFile 0 noHost.
Definition needsElevation : cmd_error := CmdError "host setup requires elevated privileges".

Section Commands.
Context `{UrlPackage}.
Variable forceDaemon : string -> bool.
Variable prefsControlURL : string -> option string.
(** The texts of the errors of other packages. *)
Variable fileText : host_file_error -> string.
Variable envText : env_file_error -> string.

Definition loadHostFile (c : host_cmd) : list output * result cmd_error File :=
  if bool_decide (configPath c = "") then ([], Ok emptyFile)
  else
    let '(warned, file) := LoadFile (hostFileAt c (configPath c)) (hostGOOS c) in
    (map Warned warned, map_err (fun e => CmdError (fileText e)) file).

(** [envfile.Load] of [.env]: the environment after it. *)
Definition loadDotEnv (c : host_cmd) : result cmd_error environment :=
  map_err (fun e => CmdWrapped "load .env" (CmdError (envText e))) (EnvFile.Load (dotEnv c) (environ c)).

Definition resolveHostSetupConfig (c : host_cmd) (file : File) : result cmd_error Config :=
  env ← loadDotEnv c;
  let cfg := Resolve (hostGOOS c) file (Getenv env) (cmdFlags c) in
  _ ← map_err (fun e => CmdWrapped "invalid firewall rule" (CmdError (rule_error_text e))) (sanitizeFirewallRule (FirewallRule cfg));
  Ok cfg.

Definition printSetupResult (c : host_cmd) (r : SetupResult) (control : string) : prog (list output * option cmd_error) :=
  ip ← tailscaleIP;
  mret (if jsonOut c then [SetupDoc (setupJSON ip r control)] else setupResultText ip r control, setupConvergence (SetupSteps r)).

Definition runHostSetup (c : host_cmd) : prog (list output * option cmd_error) :=
  let '(warned, file) := loadHostFile c in
  match file with
  | Err e => mret (warned, Some e)
  | Ok file =>
      if bool_decide (hostGOOS c = goosDarwin) then mret (warned ++ printSetupNotApplicable (jsonOut c), None)
      else
        elevated ← do Elevated;
        if negb elevated then mret (M:=prog) (warned ++ printElevationError (hostGOOS c), Some needsElevation)
        else
          match resolveHostSetupConfig c file with
          | Err e => mret (warned, Some e)
          | Ok cfg =>
              '(r, control) ← setupOn forceDaemon prefsControlURL (hostGOOS c) cfg;
              '(printed, err) ← printSetupResult c r control;
              mret (warned ++ printed, err)
          end
  end.

(** Only these of the flags exist on [host check]. *)
Definition checkFlags (c : host_cmd) : Flags :=
  mkFlags "" false false 0 (flVerbose (cmdFlags c)) (flVerboseSet (cmdFlags c)) (flLogFormat (cmdFlags c)).

Definition runHostCheck (c : host_cmd) : prog (list output * option cmd_error) :=
  match loadDotEnv c with
  | Err e => mret ([], Some e)
  | Ok env =>
      let '(warned, file) := loadHostFile c in
      match file with
      | Err e => mret (warned, Some e)
      | Ok file =>
          let cfg := Resolve (hostGOOS c) file (Getenv env) (checkFlags c) in
          '(r, control) ← checkOn prefsControlURL (hostGOOS c) cfg;
          let published := if jsonOut c then probeServePublished (machine c) (httpGet c) file (HostFile.Services cfg) else None in
          let '(printed, err) := reportCheck (hostGOOS c) r control published (jsonOut c) in
          mret (warned ++ printed, err)
      end
  end.
End Commands.

(** * Import *)

Inductive import_error : Type := BadDescriptor (e : ParseError) | ImportFailed (name : string) (e : profile_error).

(** Whether the credential reference was dropped, and the descriptor printed. *)
Definition runImportDirect `{UrlPackage} `{UrlRest} (name raw : string) (force : bool) (sys : system) (w : world)
    : result import_error (bool * string) * world :=
  match Parse raw with
  | Err e => (Err (BadDescriptor e), w)
  | Ok d =>
      let '(r, w') := Import name d force sys w in
      (match r with Ok cleared => Ok (cleared, String_ d) | Err e => Err (ImportFailed name e) end, w')
  end.

(** * Exit status *)

Lemma omap_nil {A B} (f : A -> option B) l : omap f l = [] <-> Forall (fun x => f x = None) l.
Proof.
  induction l as [|x l IH]; cbn; [done|]. rewrite Forall_cons. destruct (f x); [split; [done|by intros [? _]]|]. rewrite IH. naive_solver.
Qed.

Definition step_failed (s : SetupStep) : Prop := StepOutcome s = OutcomeFailed.

Lemma failedSteps_nil steps : failedSteps steps = [] <-> Forall (fun s => ~ step_failed s) steps.
Proof.
  unfold failedSteps, step_failed. rewrite omap_nil. apply Forall_iff. intros s. by case_bool_decide.
Qed.

Lemma pendingSteps_nil steps : pendingSteps steps = [] <-> Forall LinuxSteps.step_ok steps.
Proof. unfold pendingSteps, LinuxSteps.step_ok. rewrite omap_nil. apply Forall_iff. intros s. by case_bool_decide. Qed.

(** The exit status of the two verdicts, with what it says of the steps. *)
Lemma setupConvergence_code steps :
  (ExitCode (setupConvergence steps) = 0%Z /\ Forall (fun s => ~ step_failed s) steps)
  \/ (ExitCode (setupConvergence steps) = 2%Z /\ Exists step_failed steps).
Proof.
  unfold setupConvergence. destruct (failedSteps steps) eqn:E; [left; split; [done|by apply failedSteps_nil]|right].
  split; [done|]. apply List.Exists_exists. assert (In s (failedSteps steps)) as Hin by (rewrite E; by left).
  apply list_elem_of_In, list_elem_of_omap in Hin as (x & Hx%list_elem_of_In & Hs). exists x. split; [done|].
  unfold step_failed. by case_bool_decide.
Qed.

Lemma checkConvergence_code steps :
  (ExitCode (checkConvergence steps) = 0%Z /\ Forall LinuxSteps.step_ok steps)
  \/ (ExitCode (checkConvergence steps) = 2%Z /\ ~ Forall LinuxSteps.step_ok steps).
Proof.
  unfold checkConvergence. destruct (pendingSteps steps) eqn:E; [left; split; [done|by apply pendingSteps_nil]|right].
  split; [done|]. intros Ha%pendingSteps_nil. congruence.
Qed.

(** ** What the commands read *)


Lemma tailscaleIP_win : only win_read tailscaleIP.
Proof. apply only_bind; [by apply only_do|]. intros [out [e|]]; apply only_ret. Qed.

Section Runs.
Context `{UrlPackage}.
Variable forceDaemon : string -> bool.
Variable prefsControlURL : string -> option string.
Variable fileText : host_file_error -> string.
Variable envText : env_file_error -> string.
Abbreviation setup := (runHostSetup forceDaemon prefsControlURL fileText envText).
Abbreviation check := (runHostCheck prefsControlURL fileText envText).

Lemma control_win declared : only win_read (resolveControlPlane prefsControlURL declared).
Proof.
  apply only_bind; [|intros; apply only_ret]. case_bool_decide; [|apply only_ret]. unfold detectControlURL.
  apply only_bind; [by apply only_do|]. intros [out e]. case_bool_decide; [apply only_ret|].
  destruct (prefsControlURL out); apply only_ret.
Qed.

Lemma loadHostFile_Err c e : (loadHostFile fileText c).2 = Err e -> ExitCode (Some e) = 1%Z.
Proof.
  unfold loadHostFile. case_bool_decide; [done|]. destruct (LoadFile _ _) as [w [f|fe]]; [done|]. by intros [= <-].
Qed.

Lemma loadDotEnv_Err c e : loadDotEnv envText c = Err e -> ExitCode (Some e) = 1%Z.
Proof. unfold loadDotEnv. destruct (EnvFile.Load _ _); [done|]. by intros [= <-]. Qed.

Lemma resolve_Err c file e : resolveHostSetupConfig envText c file = Err e -> ExitCode (Some e) = 1%Z.
Proof.
  unfold resolveHostSetupConfig. intros [He|(env & _ & He)]%bind_Err; [by apply loadDotEnv_Err in He|].
  destruct (sanitizeFirewallRule _); [done|]. by injection He as <-.
Qed.

(** [host setup] exits 1 only before it touched the host, 0 on macOS, and else by
    the steps of a setup of the resolved settings: 2 exactly when one failed. *)
Theorem host_setup_status {W} (h : handler W) c w :
  let code := ExitCode (run h (setup c) w).1.2 in
  (code = 1%Z /\ trace h (setup c) w = [] /\ ((run h (setup c) w).2 = w \/ (run h (setup c) w).2 = (h _ Elevated w).2))
  \/ (code = 0%Z /\ hostGOOS c = goosDarwin /\ trace h (setup c) w = [] /\ (run h (setup c) w).2 = w)
  \/ exists file cfg r control,
       hostGOOS c <> goosDarwin /\ (loadHostFile fileText c).2 = Ok file /\ resolveHostSetupConfig envText c file = Ok cfg
       /\ valid_rule (FirewallRule cfg) /\ (h _ Elevated w).1 = true
       /\ (run h (setupOn forceDaemon prefsControlURL (hostGOOS c) cfg) (h _ Elevated w).2).1 = (r, control)
       /\ ((code = 0%Z /\ Forall (fun s => ~ step_failed s) (SetupSteps r))
           \/ (code = 2%Z /\ Exists step_failed (SetupSteps r))).
Proof.
  unfold runHostSetup. destruct (loadHostFile fileText c) as [warned [file|e]] eqn:El.
  2: { left. split; [|split; [done|by left]]. eapply loadHostFile_Err. by rewrite El. }
  case_bool_decide as Hd; [right; left; done|]. rewrite run_bind, trace_bind. cbn [run trace do mutation_of app].
  destruct (h bool Elevated w) as [[|] w1] eqn:Eh; cbn [negb fst snd].
  2: { left. split; [done|]. split; [done|by right]. }
  destruct (resolveHostSetupConfig envText c file) as [cfg|e] eqn:Er.
  2: { left. split; [by eapply resolve_Err|]. split; [done|by right]. }
  right; right. exists file, cfg.
  destruct (run h (setupOn forceDaemon prefsControlURL (hostGOOS c) cfg) w1) as [[r control] w2] eqn:Es. exists r, control.
  split; [done|]. split; [done|]. split; [done|]. split.
  { unfold resolveHostSetupConfig in Er. apply bind_Ok in Er as (env & _ & Er). apply bind_Ok in Er as (n & Hs & [= <-]).
    by apply map_err_Ok, sanitizeFirewallRule_Ok in Hs as [_ Hs]. }
  split; [done|]. split; [done|]. rewrite run_bind, Es, run_bind. unfold printSetupResult. rewrite run_bind.
  destruct (run h tailscaleIP w2) as [ip w3]. cbn. apply setupConvergence_code.
Qed.

(** The calls that only read a host of this platform. *)
Definition host_read (goos : string) : call_pred := if bool_decide (goos = goosWindows) then win_read else read_call.

Lemma win_read_read X (c : call X) : win_read X c = true -> read_call X c = true.
Proof. unfold win_read, read_call. by destruct c. Qed.

Lemma host_read_of goos X (c : call X) : win_read X c = true -> host_read goos X c = true.
Proof. unfold host_read. case_bool_decide; [done|apply win_read_read]. Qed.

Lemma checkFor_reads goos cfg : only (host_read goos) (checkFor goos cfg).
Proof.
  unfold checkFor, host_read. case_bool_decide as Hw.
  - apply only_bind; [apply tailscaleIP_win|]. intros ip. apply only_bind; [by apply only_do|]. intros e.
    apply only_bind; [apply checkWindows_win|]. intros [more services]. apply only_ret.
  - case_bool_decide; [|apply checkForLinux_reads]. apply only_bind; [apply tailscaleIP_reads|]. intros ip.
    apply only_bind; [by apply only_do|]. intros e. apply only_ret.
Qed.

Lemma check_reads c : only (host_read (hostGOOS c)) (check c).
Proof.
  unfold runHostCheck. destruct (loadDotEnv envText c) as [env|e]; [|apply only_ret].
  destruct (loadHostFile fileText c) as [warned [file|e]]; [|apply only_ret]. apply only_bind; [|by intros [r control]; apply only_ret].
  apply only_bind; [apply checkFor_reads|]. intros r. apply only_bind; [|intros; apply only_ret].
  eapply only_impl, control_win. intros X d. apply host_read_of.
Qed.

Lemma host_read_read goos X (c : call X) : host_read goos X c = true -> read_call X c = true.
Proof. unfold host_read. case_bool_decide; [apply win_read_read|done]. Qed.

(** [host check] makes no mutating call on any platform and leaves every host
    unchanged whose reads do; it exits 1 before it read anything, and else 0 exactly
    when every step is OK, 2 when one is not. *)
Theorem host_check_status {W} (h : handler W) c w :
  let code := ExitCode (run h (check c) w).1.2 in
  trace h (check c) w = []
  /\ ((forall X (d : call X) v, host_read (hostGOOS c) X d = true -> (h X d v).2 = v) -> (run h (check c) w).2 = w)
  /\ ((code = 1%Z /\ (run h (check c) w).2 = w)
      \/ exists env file r control,
           loadDotEnv envText c = Ok env /\ (loadHostFile fileText c).2 = Ok file
           /\ (run h (checkOn prefsControlURL (hostGOOS c) (Resolve (hostGOOS c) file (Getenv env) (checkFlags c))) w).1 = (r, control)
           /\ ((code = 0%Z /\ Forall LinuxSteps.step_ok (Steps r)) \/ (code = 2%Z /\ ~ Forall LinuxSteps.step_ok (Steps r)))).
Proof.
  split; [|split].
  - apply trace_read_only. eapply only_impl; [|apply check_reads]. intros X d. apply host_read_read.
  - intros Hk. exact (only_state h _ _ Hk (check_reads c) w).
  - unfold runHostCheck. destruct (loadDotEnv envText c) as [env|e] eqn:Ee.
    2: { left. split; [by eapply loadDotEnv_Err|done]. }
    destruct (loadHostFile fileText c) as [warned [file|e]] eqn:El.
    2: { left. split; [|done]. eapply loadHostFile_Err. by rewrite El. }
    right. destruct (run h (checkOn prefsControlURL (hostGOOS c) (Resolve (hostGOOS c) file (Getenv env) (checkFlags c))) w)
      as [[r control] w1] eqn:Er. exists env, file, r, control.
    split; [done|]. split; [done|]. split; [by rewrite Er|]. rewrite !run_bind, Er. cbn [run mret prog_ret reportCheck fst snd]. apply checkConvergence_code.
Qed.

(** ** A checked host needs no setup *)

Lemma setupOn_ok {W} (h : handler W) cfg w goos r control w' :
  (forall X (d : call X) v, mutating X d = false -> (h X d v).2 = v) ->
  goos <> goosWindows -> goos <> goosDarwin ->
  run h (checkOn prefsControlURL goos cfg) w = ((r, control), w') -> Forall LinuxSteps.step_ok (Steps r) ->
  exists s, run h (setupOn forceDaemon prefsControlURL goos cfg) w = ((s, control), w)
    /\ trace h (setupOn forceDaemon prefsControlURL goos cfg) w = [] /\ Forall LinuxSteps.step_ok (SetupSteps s).
Proof.
  intros Hk Hw Hd. unfold checkOn, setupOn, checkFor, setupFor. rewrite !bool_decide_eq_false_2 by done.
  rewrite run_bind, (run_read_only h Hk _ w (checkForLinux_reads _)), run_bind. unfold val.
  assert (only read_call (resolveControlPlane prefsControlURL (cControlURL cfg))) as Hc
    by (eapply only_impl, control_win; intros X d; apply win_read_read).
  rewrite (run_read_only h Hk _ w Hc). cbn [run mret prog_ret fst snd]. intros [= <- <- <-] Hok.
  destruct (check_ok_setup_ok h Hk (linuxConfig cfg) w Hok) as (s & Hs & Ht & Hso). exists s.
  rewrite run_bind, Hs, run_bind, (run_read_only h Hk _ w Hc). split; [done|]. split; [|done].
  rewrite trace_bind, Ht, Hs. cbn [fst snd app]. by rewrite trace_bind, (trace_read_only h _ w Hc).
Qed.

(** C28: on Linux, what [host check] accepts [host setup] leaves as it is: when the check
    exits 0, the setup of the same file and environment runs no mutating command and
    leaves the host unchanged, and exits 0 if it may run at all. *)
Theorem checked_host_needs_no_setup {W} (h : handler W) c w :
  (forall X (d : call X) v, mutating X d = false -> (h X d v).2 = v) ->
  hostGOOS c <> goosWindows -> hostGOOS c <> goosDarwin -> cmdFlags c = checkFlags c ->
  ExitCode (run h (check c) w).1.2 = 0%Z ->
  trace h (setup c) w = [] /\ (run h (setup c) w).2 = w
  /\ ((h _ Elevated w).1 = true -> (forall file, (loadHostFile fileText c).2 = Ok file -> is_ok (resolveHostSetupConfig envText c file) = true) ->
      ExitCode (run h (setup c) w).1.2 = 0%Z).
Proof.
  intros Hk Hw Hd Hf. unfold runHostCheck, runHostSetup. destruct (loadDotEnv envText c) as [env|e] eqn:Ee.
  2: { intros He. change (ExitCode (Some e) = 0%Z) in He. apply loadDotEnv_Err in Ee. congruence. }
  destruct (loadHostFile fileText c) as [warned [file|e]] eqn:El.
  2: { intros He. change (ExitCode (Some e) = 0%Z) in He. assert ((loadHostFile fileText c).2 = Err e) as He' by by rewrite El.
       apply loadHostFile_Err in He'. congruence. }
  rewrite (bool_decide_eq_false_2 (hostGOOS c = goosDarwin)) by done. rewrite <- Hf.
  set (cfg := Resolve (hostGOOS c) file (Getenv env) (cmdFlags c)). rewrite run_bind.
  destruct (run h (checkOn prefsControlURL (hostGOOS c) cfg) w) as [[r control] w1] eqn:Er. cbn [run mret prog_ret fst snd reportCheck].
  intros Hz. assert (Forall LinuxSteps.step_ok (Steps r)) as Hok.
  { destruct (checkConvergence_code (Steps r)) as [[_ ?]|[H2 _]]; [done|]. cbn in Hz. by rewrite H2 in Hz. }
  destruct (setupOn_ok h cfg w _ r control w1 Hk Hw Hd Er Hok) as (s & Hs & Ht & Hso).
  rewrite run_bind, trace_bind. cbn [run trace do mutation_of app]. pose proof (Hk _ Elevated w eq_refl) as Hkw.
  destruct (h bool Elevated w) as [el w0]. cbn in Hkw. subst w0. cbn [fst snd]. destruct el; cbn [negb]; [|done].
  destruct (resolveHostSetupConfig envText c file) as [cfg'|e] eqn:Ec.
  2: { split_and!; [done|done|]. intros _ Hr. specialize (Hr file eq_refl). by rewrite Ec in Hr. }
  assert (cfg' = cfg) as ->.
  { unfold resolveHostSetupConfig in Ec. rewrite Ee in Ec. cbn in Ec. fold cfg in Ec. by destruct (sanitizeFirewallRule _); [injection Ec as <-|]. }
  rewrite run_bind, trace_bind, Hs, Ht. cbn [fst snd app]. unfold printSetupResult. rewrite !run_bind, !trace_bind, !run_bind.
  rewrite !(run_read_only h Hk _ w tailscaleIP_reads), (trace_read_only h _ w tailscaleIP_reads). cbn [run trace mret prog_ret fst snd app].
  split_and!; [done|done|]. intros _ _. destruct (setupConvergence_code (SetupSteps s)) as [[? _]|[_ He]]; [done|]. exfalso.
  apply List.Exists_exists in He as (x & Hx & Hbad). rewrite List.Forall_forall in Hso. specialize (Hso x Hx).
  unfold LinuxSteps.step_ok, step_failed in *. congruence.
Qed.
End Runs.

(** * What the probe says *)

#[local] Arguments String.append : simpl never.

Lemma serviceKey_inj k p k' p' : serviceKey k p = serviceKey k' p' <-> k = k' /\ p = p'.
Proof.
  split; [|by intros [-> ->]]. unfold serviceKey. intros E.
  assert (forall k p, last_index_byte ":" (k +:+ String ":" (Itoa p)) = Some (len k)) as Hl
    by (intros; by apply last_index_byte_app, Itoa_no_byte).
  assert (len k = len k') as Hlen by (pose proof (Hl k p) as H1; rewrite E, Hl in H1; by injection H1).
  assert (k = k') as <-.
  { apply (f_equal (str_take (len k))) in E. rewrite str_take_app in E. rewrite Hlen, str_take_app in E. done. }
  split; [done|]. apply (f_equal (str_drop (S (len k)))) in E. rewrite !str_drop_app_sep in E. by apply Itoa_inj.
Qed.

#[local] Instance DeclaredService_eq_dec : EqDecision DeclaredService.
Proof. solve_decision. Defined.

(** The services a probe can answer about, none published yet. *)
Lemma declared_keys (l : list DeclaredService) (m : gmap string bool) k :
  fold_left (fun m s => <[serviceKey (dKind s) (dPort s) := false]> m) l m !! k
  = if decide (k ∈ map (fun s => serviceKey (dKind s) (dPort s)) l) then Some false else m !! k.
Proof.
  revert m. induction l as [|s l IH]; intros m; cbn [fold_left map]; [by rewrite decide_False by set_solver|].
  rewrite IH. destruct (decide (k = serviceKey (dKind s) (dPort s))) as [->|Hne].
  - rewrite lookup_insert_eq. rewrite (decide_True (P := _ ∈ _ :: _)) by set_solver. by destruct (decide _).
  - rewrite lookup_insert_ne by done. destruct (decide (k ∈ map _ l)); [by rewrite decide_True by set_solver|].
    by rewrite decide_False by set_solver.
Qed.

Definition listed (services : list ServiceState) (k : string) : bool :=
  existsb (fun s => bool_decide (serviceKey (Health.Kind s) (Health.Port s) = k) && Published s) services.

Lemma marked_keys services (m : gmap string bool) k :
  fold_left markPublished services m !! k = (fun b => b || listed services k) <$> m !! k.
Proof.
  revert m. induction services as [|s l IH]; intros m; cbn [fold_left listed existsb].
  { destruct (m !! k); cbn; [by rewrite orb_false_r|done]. }
  rewrite IH. unfold markPublished. case_bool_decide as Hs; cbn [andb].
  - destruct (Published s) eqn:Hp; [|by rewrite andb_false_r].
    destruct (decide (serviceKey (Health.Kind s) (Health.Port s) = k)) as [<-|Hne].
    + rewrite lookup_insert_eq, (bool_decide_eq_true_2 (_ = _)) by done. destruct Hs as [b ->]. cbn. by rewrite orb_true_r.
    + rewrite lookup_insert_ne, (bool_decide_eq_false_2 (_ = _)) by done. done.
  - case_bool_decide as Hk; [|done]. subst k. destruct (m !! _) eqn:E; [by destruct Hs|done].
Qed.

Lemma listed_true services k p :
  listed services (serviceKey k p) = true <-> exists s, s ∈ services /\ Health.Kind s = k /\ Health.Port s = p /\ Published s = true.
Proof.
  unfold listed. rewrite List.existsb_exists. setoid_rewrite andb_true_iff. setoid_rewrite bool_decide_eq_true.
  setoid_rewrite serviceKey_inj. setoid_rewrite <- list_elem_of_In. naive_solver.
Qed.

(** Without a ready answer that names the node, nothing is published. *)
Ltac unpublished Hno :=
  split; [by apply Hno|]; split; [by intros Ht; destruct Hno as [_ []]|];
  intros (_ & mesh' & addr' & sv & s & [= <-] & Ha & Hg & _); congruence.

Lemma probe_spec machine get file declared m k p :
  probeServePublished machine get file declared = Some m ->
  (is_Some (m !! serviceKey k p) <-> mkDeclared k p ∈ declared)
  /\ (m !! serviceKey k p = Some true <->
      mkDeclared k p ∈ declared
      /\ exists mesh addr services s,
           hMesh (fHost file) = Some mesh /\ HealthAddr mesh = Some addr
           /\ get ("http://" +:+ addr +:+ "/health/ready") = Some (200%Z, Some (NodeHostname machine mesh, services))
           /\ s ∈ services /\ Health.Kind s = k /\ Health.Port s = p /\ Published s = true).
Proof.
  unfold probeServePublished. intros Hp. destruct (hMesh (fHost file)) as [mesh|] eqn:Em; [|done].
  cbn [mbind option_bind] in Hp. destruct (HealthAddr mesh) as [addr|] eqn:Ea; [|done]. cbn [mbind option_bind] in Hp.
  apply (inj Some) in Hp. subst m.
  assert (forall d, (serviceKey k p ∈ map (fun s => serviceKey (dKind s) (dPort s)) d) <-> mkDeclared k p ∈ d) as Hd.
  { intros d. rewrite list_elem_of_In, in_map_iff. setoid_rewrite <- list_elem_of_In. split.
    - intros ([k' p'] & H%serviceKey_inj & Hin). by destruct H as [<- <-].
    - intros Hin. by exists (mkDeclared k p). }
  set (base := fold_left _ declared ∅).
  assert (base !! serviceKey k p = if decide (mkDeclared k p ∈ declared) then Some false else None) as Hb.
  { unfold base. rewrite declared_keys, lookup_empty. destruct (decide (mkDeclared k p ∈ declared)) as [Hin|Hin].
    - by rewrite decide_True by by apply Hd.
    - by rewrite decide_False by by rewrite Hd. }
  set (quiet := (is_Some (base !! serviceKey k p) <-> mkDeclared k p ∈ declared) /\ base !! serviceKey k p <> Some true).
  assert (Hno : quiet).
  { unfold quiet. rewrite Hb. destruct (decide _); split; try done; split; try done. }
  destruct (get _) as [[code body]|] eqn:Eg; [|unpublished Hno].
  destruct (Z.eqb_spec code 200) as [->|Hc]; cbn [negb]; [|unpublished Hno].
  destruct body as [[node services]|]; [|unpublished Hno]. case_bool_decide as Hn; cbn [negb]; [|unpublished Hno].
  rewrite marked_keys, Hb. destruct (decide (mkDeclared k p ∈ declared)) as [Hin|Hin]; cbn.
  2: { split; [split; [by intros [? ?]|done]|]. split; [done|]. by intros [? _]. }
  split; [split; [done|by eexists]|]. split.
  - intros [= Ht]. apply listed_true in Ht as (s & Hs). split; [done|]. exists mesh, addr, services, s. subst node. naive_solver.
  - intros (_ & mesh' & addr' & sv & s & [= <-] & Ha & Hg & Hs). rewrite Ea in Ha. apply (inj Some) in Ha. subst addr'.
    rewrite Eg in Hg. injection Hg as _ ->. f_equal.
    apply listed_true. eauto.
Qed.

(** The probe says of exactly the declared services whether they are published; it
    says so of one only when a responder is ready, names the node of the file and
    lists that service as published. *)
Theorem probe_published machine get file declared m k p :
  probeServePublished machine get file declared = Some m ->
  (is_Some (m !! serviceKey k p) <-> mkDeclared k p ∈ declared)
  /\ (m !! serviceKey k p = Some true <->
      mkDeclared k p ∈ declared
      /\ exists mesh addr services s,
           hMesh (fHost file) = Some mesh /\ HealthAddr mesh = Some addr
           /\ get ("http://" +:+ addr +:+ "/health/ready") = Some (200%Z, Some (NodeHostname machine mesh, services))
           /\ s ∈ services /\ Health.Kind s = k /\ Health.Port s = p /\ Published s = true).
Proof. apply probe_spec. Qed.

(** What [host serve] answers on /health/ready, decoded: a member its body leaves out
    decodes to the zero value. *)
Definition serve_answer (p : servePlan) (st : TunnelStatus) : probe_answer :=
  let '(code, body) := readyHandler (Health.Load st) (Some (serveReport p)) in
  (code, Some (default "" (node body), default [] (Health.services body))).

Lemma plan_node `{UrlPackage} w p warned file mesh :
  (loadServePlan w).2 = Ok p -> LoadServeFile (fileAt w (configFlag w)) (osName w) = (warned, Ok file) ->
  hMesh (fHost file) = Some mesh -> Serve.Hostname (pNode p) = NodeHostname (files w) mesh.
Proof.
  intros Hp Hl Hm. unfold loadServePlan in Hp. case_bool_decide; [done|]. rewrite Hl in Hp. cbn [snd] in Hp. rewrite Hm in Hp.
  destruct (hControlURL (fHost file)) as [c|]; [|done]. destruct (HostFile.StateDir mesh) as [d|]; [|done].
  destruct (ensures w d); [|done]. cbn [negb] in Hp. destruct (NewNodeConfig (files w) mesh c) as [ops nc] eqn:En.
  cbn [snd] in Hp. apply bind_Ok in Hp as (nc' & ->%map_err_Ok & [= <-]). by apply NewNodeConfig_Ok in En as (_ & _ & ? & _).
Qed.

(** With [host serve] running from the same file on the same machine and answering, a
    check reports a declared service as published exactly when serve is ready and
    published that service. *)
Theorem probe_reports_serve `{UrlPackage} w p warned file mesh addr st get declared :
  LoadServeFile (fileAt w (configFlag w)) (osName w) = (warned, Ok file) -> (loadServePlan w).2 = Ok p ->
  hMesh (fHost file) = Some mesh -> HealthAddr mesh = Some addr ->
  get ("http://" +:+ addr +:+ "/health/ready") = Some (serve_answer p st) ->
  exists m, probeServePublished (files w) get file declared = Some m
    /\ forall k q, m !! serviceKey k q = Some true <->
         mkDeclared k q ∈ declared /\ (Health.Load st).1 = true /\ Serve.mkService k q ∈ pServices p.
Proof.
  intros Hl Hp Hm Ha Hg. assert (exists m, probeServePublished (files w) get file declared = Some m) as (m & Hpr).
  { unfold probeServePublished. rewrite Hm. cbn [mbind option_bind]. rewrite Ha. cbn [mbind option_bind]. by eexists. }
  exists m. split; [done|]. intros k q. rewrite (proj2 (probe_spec _ _ _ _ _ k q Hpr)).
  pose proof (plan_node _ _ _ _ _ Hp Hl Hm) as Hn. unfold serve_answer, readyHandler in Hg.
  destruct (Health.Load st) as [[|] why]; cbn [fst snd fmap option_fmap option_map serveReport node Health.services default] in *; split.
  - intros (Hd & mesh' & addr' & sv & s & Hm' & Ha' & Hg' & Hs & <- & <- & _). split; [done|]. split; [done|].
    assert (mesh' = mesh) as -> by congruence. assert (addr' = addr) as -> by congruence. rewrite Hg in Hg'.
    injection Hg' as _ <-. apply list_elem_of_fmap in Hs as ([k' q'] & -> & Hin). done.
  - intros (Hd & _ & Hin). split; [done|]. exists mesh, addr. eexists _, (Health.mkService k q true). split_and!; try done.
    + rewrite Hg, <- Hn. reflexivity.
    + apply list_elem_of_fmap. by exists (Serve.mkService k q).
  - intros (Hd & mesh' & addr' & sv & s & Hm' & Ha' & Hg' & _).
    assert (mesh' = mesh) as -> by congruence. assert (addr' = addr) as -> by congruence. rewrite Hg in Hg'. discriminate.
  - by intros (_ & ? & _).
Qed.

(** * From the host's descriptor to the client's profile *)

Section Client.
Context `{UrlPackage} `{UrlRest}.
Variable prefsControlURL : string -> option string.

(** What a control plane of a result is: unknown, Tailscale's, or a valid URL. *)
Definition known_plane (control : string) : Prop := control = ControlPlaneSaaS \/ Validate control = Ok tt.

Lemma resolved_plane declared :
  (declared = "" \/ Validate declared = Ok tt) ->
  returns (fun c => c = "" \/ known_plane c) (resolveControlPlane prefsControlURL declared).
Proof.
  assert (forall raw, (raw = "" \/ Validate raw = Ok tt) -> classifyControlURL raw = "" \/ known_plane (classifyControlURL raw)) as Hc.
  { intros raw Hr. unfold classifyControlURL, known_plane. destruct (urlParse raw); [|naive_solver].
    destruct (contains_word _ _); naive_solver. }
  intros Hd. apply returns_bind. case_bool_decide as He; [|by apply Hc].
  unfold detectControlURL. apply returns_bind. intros [out e]. cbn [returns]. case_bool_decide; [apply Hc; by left|].
  destruct (prefsControlURL out) as [u|]; [|apply Hc; by left]. apply Hc.
  destruct (validateControlURL (Some (TrimSpace u))) as [[]|] eqn:Ev; cbn [is_ok]; [|by left]. right.
  unfold validateControlURL in Ev. case_bool_decide; [done|]. by apply map_err_Ok in Ev.
Qed.

(** The control plane a client is given: none for Tailscale's. *)
Definition client_plane (control : string) : string := if bool_decide (control = ControlPlaneSaaS) then "" else control.

Lemma descriptor_read ip port control :
  url_law -> hostDescriptorLine ip port control <> "" -> str_all host_char ip = true -> (0 <= port <= 65535)%Z ->
  (control = "" \/ known_plane control) -> (EqualFold control cpSaas = true -> control = ControlPlaneSaaS) ->
  Parse (hostDescriptorLine ip port control) = Ok (mkDescriptor ip port (client_plane control) 1).
Proof.
  intros Hlaw. unfold hostDescriptorLine, buildDescriptorLine. case_bool_decide as Hc; [done|]. fold (client_plane control).
  case_bool_decide as Hi; cbn [orb]; [done|]. destruct (Z.eqb_spec port 0) as [|Hp]; [done|]. intros Hne Hh Hr Hk Hs.
  assert (port <> 0)%Z as Hp0 by done. apply Parse_String; [done|exact Hne| |done|]. 2: { vm_compute. done. }
  split; [done|]. split; [cbn [ProfileStore.dPort]; lia|]. split; [done|].
  cbn [dControlURL]. unfold client_plane. case_bool_decide as Hsaas; [by left|right].
  destruct Hk as [?|[?|Hv]]; [done|done|]. split; [done|]. destruct (EqualFold control cpSaas); [by destruct Hsaas; apply Hs|done].
Qed.

Lemma importEntry_Ok name d force sys w cleared w' :
  importEntry name d force sys w = (Ok cleared, w') ->
  creds w' = creds w /\ exists f e, disk w' = Some f /\ Profiles f !! name = Some e
    /\ Target e = dHost d +:+ ":" +:+ Itoa (ProfileStore.dPort d) /\ ControlURL e = dControlURL d.
Proof.
  unfold importEntry, mbind, M_bind, load, ensure, save. destruct (loadFails sys (tick w)); [done|].
  destruct (bindCredential _ _ _ _) as [[cn cl]|e]; [|done]. cbn [tick next].
  destruct (saveFault sys _) as [[]|]; [done|done|]. intros [= <- <-]. split; [done|]. eexists _, _. split; [done|].
  split; [apply lookup_insert_eq|done].
Qed.

Lemma Import_Ok name d force sys w cleared w' :
  Import name d force sys w = (Ok cleared, w') ->
  creds w' = creds w /\ exists f e, disk w' = Some f /\ Profiles f !! name = Some e
    /\ Target e = dHost d +:+ ":" +:+ Itoa (ProfileStore.dPort d) /\ ControlURL e = dControlURL d.
Proof.
  unfold Import, Update. destruct (lockAnswer sys (tick w)); [|done|done].
  destruct (importEntry name d force sys (next w)) as [r w1] eqn:Hi. destruct (unlockFails sys (tick w1)); [done|].
  intros [-> <-]%pair_equal_spec. apply importEntry_Ok in Hi as (Hc & f & e & He). split; [done|]. by exists f, e.
Qed.

(** A client that imports the descriptor a host printed connects to the address the
    host printed as TS_TARGET, over the control plane the host uses; an unknown
    control plane prints no descriptor. *)
Theorem host_descriptor_imports {W} (h : handler W) fd goos cfg v ip name force sys w cleared shown w' :
  url_law -> (cControlURL cfg = "" \/ Validate (cControlURL cfg) = Ok tt) ->
  let '(r, control) := (HostRunner.run h (setupOn fd prefsControlURL goos cfg) v).1 in
  let desc := hostDescriptorLine ip (SetupRDPPort r) control in
  (control = "" -> desc = "")
  /\ (desc <> "" -> str_all host_char ip = true -> (0 <= SetupRDPPort r <= 65535)%Z ->
      (EqualFold control cpSaas = true -> control = ControlPlaneSaaS) ->
      runImportDirect name desc force sys w = (Ok (cleared, shown), w') ->
      shown = desc
      /\ exists f e, disk w' = Some f /\ Profiles f !! name = Some e
           /\ Out ("  TS_TARGET=" +:+ Target e) ∈ printClientTarget ip r control
           /\ ControlURL e = client_plane control).
Proof.
  intros Hlaw Hcfg. unfold setupOn. rewrite run_bind. destruct (HostRunner.run h (setupFor fd goos cfg) v) as [r v1].
  rewrite run_bind. pose proof (returns_run h _ _ v1 (resolved_plane _ Hcfg)) as Hk.
  destruct (HostRunner.run h (resolveControlPlane prefsControlURL (cControlURL cfg)) v1) as [control v2]. cbn [fst] in Hk.
  cbn [HostRunner.run mret prog_ret fst]. split.
  - intros ->. done.
  - intros Hne Hh Hr Hs. unfold runImportDirect. rewrite descriptor_read by done.
    destruct (Import name _ force sys w) as [[c|e] w1] eqn:Hi; [|done]. intros [= <- <- <-].
    apply Import_Ok in Hi as (_ & f & e & Hd & He & Ht & Hc). cbn [dHost ProfileStore.dPort dControlURL] in *. split.
    + unfold hostDescriptorLine, buildDescriptorLine in *. case_bool_decide; [done|]. by destruct (_ || _).
    + exists f, e. split; [done|]. split; [done|]. split; [|done]. rewrite Ht. unfold printClientTarget.
      unfold hostDescriptorLine, buildDescriptorLine in Hne. case_bool_decide as Hi; [subst; by destruct (bool_decide _)|].
      destruct (bool_decide (ip = "")); [done|]. apply list_elem_of_In. cbn [app In]. right; left. done.
Qed.
End Client.

(** * Runs *)

Definition no_cmd_flags : Flags := mkFlags "" false false 0 false false "".
Definition demo_machine : node_env := mkNodeEnv "HOST" (fun _ => StatOk) (fun _ => StatAbsent) (fun _ => true) (fun _ => None).
Definition demo_cmd (goos : string) (env : env_file) : host_cmd :=
  mkHostCmd goos "" (fun _ => None) env ∅ false no_cmd_flags demo_machine (fun _ => None).
Definition demo_setup (goos : string) (env : env_file) :=
  @runHostSetup simpleUrl (fun _ => false) (fun _ => None) (fun _ => "") (fun _ => "") (demo_cmd goos env).
Definition demo_check (goos : string) (env : env_file) :=
  @runHostCheck simpleUrl (fun _ => None) (fun _ => "") (fun _ => "") (demo_cmd goos env).

(** Exit 0 on a host that is ready and on macOS, 2 while xrdp and the rule are missing,
    1 for an invalid rule name, which stops setup and not a Linux check. *)
Example setup_exits :
  map (fun p => ExitCode (HostRunner.run linux_host p.1 p.2).1.2)
    [(demo_setup "linux" EnvMissing, demo_ready); (demo_setup "darwin" EnvMissing, demo_ready);
     (demo_check "linux" EnvMissing, (false, [])); (demo_setup "linux" EnvMissing, (false, []));
     (demo_setup "linux" (EnvData "TS_HOST_FIREWALL_RULE=a b"), demo_ready);
     (demo_check "linux" (EnvData "TS_HOST_FIREWALL_RULE=a b"), demo_ready)]
  = [0; 0; 2; 0; 1; 0]%Z.
Proof. vm_compute. reflexivity. Qed.

Lemma host_check_status_witness :
  ExitCode (HostRunner.run linux_host (demo_check "linux" EnvMissing) (false, [])).1.2 = 2%Z
  /\ (HostRunner.run linux_host (demo_check "linux" EnvMissing) (false, [])).2 = (false, []).
Proof.
  split; [vm_compute; reflexivity|].
  destruct (@host_check_status simpleUrl (fun _ => None) (fun _ => "") (fun _ => "") _ linux_host (demo_cmd "linux" EnvMissing) (false, []))
    as (_ & Hs & _).
  apply Hs. intros X d v Hd. apply linux_host_reads. unfold host_read, read_call in Hd. by apply negb_true_iff.
Defined.

Lemma checked_host_needs_no_setup_witness :
  ExitCode (HostRunner.run linux_host (demo_check "linux" EnvMissing) demo_ready).1.2 = 0%Z
  /\ trace linux_host (demo_setup "linux" EnvMissing) demo_ready = []
  /\ ExitCode (HostRunner.run linux_host (demo_setup "linux" EnvMissing) demo_ready).1.2 = 0%Z.
Proof.
  assert (ExitCode (HostRunner.run linux_host (demo_check "linux" EnvMissing) demo_ready).1.2 = 0%Z) as H0 by (vm_compute; reflexivity).
  split; [exact H0|].
  destruct (@checked_host_needs_no_setup simpleUrl (fun _ => false) (fun _ => None) (fun _ => "") (fun _ => "") _ linux_host
    (demo_cmd "linux" EnvMissing) demo_ready linux_host_reads ltac:(discriminate) ltac:(discriminate) eq_refl H0) as (Ht & _ & Hc).
  split; [exact Ht|]. apply Hc; [reflexivity|]. intros file Hf. cbn in Hf. injection Hf as <-. vm_compute. reflexivity.
Defined.

Definition demo_file : File :=
  mkFile 1 (mkFileHost demo_services None None (Some "https://hs.example.com")
    (Some (mkFileMesh None None (Some "host-1") (Some "/var/lib/ts") None (Some "127.0.0.1:8080")))).

Lemma probe_published_witness :
  let body := ("host-1", [Health.mkService "rdp" 3390 true; Health.mkService "ssh" 22 false]) in
  exists m, probeServePublished demo_machine (fun _ => Some (200%Z, Some body)) demo_file [mkDeclared "rdp" 3390; mkDeclared "ssh" 22] = Some m
    /\ m !! serviceKey "rdp" 3390 = Some true /\ m !! serviceKey "ssh" 22 = Some false.
Proof.
  intros body. eexists. split; [reflexivity|]. split; [|vm_compute; reflexivity].
  apply (probe_published demo_machine (fun _ => Some (200%Z, Some body)) demo_file [mkDeclared "rdp" 3390; mkDeclared "ssh" 22] _
    "rdp" 3390%Z eq_refl).
  split; [by left|]. eexists _, _, body.2, (Health.mkService "rdp" 3390 true).
  split; [reflexivity|]. split; [reflexivity|]. split; [reflexivity|]. split; [by left|]. by split_and!.
Defined.

Lemma probe_reports_serve_witness :
  let w := demo_serve_world demo_services "" None in
  exists p m, (@loadServePlan simpleUrl w).2 = Ok p
    /\ probeServePublished (files w) (fun _ => Some (serve_answer p (MarkReady zeroStatus))) demo_file
         [mkDeclared "rdp" 3390; mkDeclared "rdp" 3389] = Some m
    /\ m !! serviceKey "rdp" 3390 = Some true /\ m !! serviceKey "rdp" 3389 <> Some true.
Proof.
  intros w. assert (is_ok (@loadServePlan simpleUrl w).2 = true) as Hok by (vm_compute; reflexivity).
  destruct (@loadServePlan simpleUrl w).2 as [p|e] eqn:Hp; [|discriminate].
  assert (pServices p = [Serve.mkService "ssh" 22; Serve.mkService "rdp" 3390]) as Hs.
  { apply (f_equal (fun r => match r with Ok p => pServices p | Err _ => [] end)) in Hp. rewrite <- Hp. vm_compute. reflexivity. }
  destruct (@probe_reports_serve simpleUrl w p [] demo_file (mkFileMesh None None (Some "host-1") (Some "/var/lib/ts") None (Some "127.0.0.1:8080"))
    "127.0.0.1:8080" (MarkReady zeroStatus) (fun _ => Some (serve_answer p (MarkReady zeroStatus))) [mkDeclared "rdp" 3390; mkDeclared "rdp" 3389])
    as (m & Hm & Hpub); [vm_compute; reflexivity|exact Hp|reflexivity|reflexivity|reflexivity|].
  exists p, m. split; [reflexivity|]. split; [exact Hm|]. split.
  - apply Hpub. rewrite Hs. split; [by left|]. split; [reflexivity|]. by right; left.
  - intros Hb. apply Hpub in Hb as (_ & _ & Hb). rewrite Hs in Hb. set_solver.
Defined.

#[local] Instance rest_of_url : UrlRest := Build_UrlRest (fun _ => "") (fun _ => false).

Lemma host_descriptor_imports_witness :
  let cfg := Resolve "linux" demo_file (fun _ => "") no_cmd_flags in
  let '(r, control) := (HostRunner.run linux_host (@setupOn queryUrl (fun _ => false) (fun _ => None) "linux" cfg) demo_ready).1 in
  let desc := @hostDescriptorLine queryUrl "100.64.0.1" (SetupRDPPort r) control in
  desc = "tsb://100.64.0.1:3390?cp=https%3A%2F%2Fhs.example.com"
  /\ exists f e, disk (@runImportDirect queryUrl rest_of_url "office" desc false healthy (mkWorld None Credential.emptyStore 0)).2 = Some f
       /\ Profiles f !! "office" = Some e /\ Target e = "100.64.0.1:3390" /\ ControlURL e = "https://hs.example.com".
Proof.
  intros cfg.
  pose proof (fun cl sh w' => @host_descriptor_imports queryUrl rest_of_url (fun _ => None) _ linux_host (fun _ => false) "linux" cfg demo_ready
    "100.64.0.1" "office" false healthy (mkWorld None Credential.emptyStore 0) cl sh w' queryUrl_law (or_intror (eq_refl (Ok tt)))) as Hall.
  revert Hall. destruct (HostRunner.run _ _ _).1 as [r control] eqn:E. intros Hall.
  assert (SetupRDPPort r = 3390%Z /\ control = "https://hs.example.com") as [Hr Hc].
  { split; [apply (f_equal (fun x => SetupRDPPort x.1)) in E|apply (f_equal snd) in E]; cbn [fst snd] in E; rewrite <- E; vm_compute; reflexivity. }
  subst control. rewrite Hr in Hall |- *. split; [vm_compute; reflexivity|].
  set (desc := hostDescriptorLine _ _ _) in *.
  assert (is_ok (@runImportDirect queryUrl rest_of_url "office" desc false healthy (mkWorld None Credential.emptyStore 0)).1 = true) as Hok
    by (vm_compute; reflexivity).
  destruct (@runImportDirect queryUrl rest_of_url "office" desc false healthy (mkWorld None Credential.emptyStore 0)) as [[[cl sh]|e] w'] eqn:Ei;
    [|discriminate].
  destruct (Hall cl sh w') as [_ Hi].
  destruct Hi as (_ & f & e & Hd & He & _ & Hu); [vm_compute; discriminate|reflexivity|lia|discriminate|exact Ei|].
  exists f, e. split; [exact Hd|]. split; [exact He|]. split; [|exact Hu].
  apply (f_equal (fun x => match disk x.2 with Some f => Target <$> (Profiles f !! "office") | None => None end)) in Ei.
  cbn [snd] in Ei. rewrite Hd, He in Ei. cbn in Ei. assert (Some (Target e) = Some "100.64.0.1:3390") as Ht
    by (rewrite <- Ei; vm_compute; reflexivity). by injection Ht.
Defined.
