(* ===== verification/EnvText.v ===== *)
(** Writing .env files and reading them back: what one line reads as, the lines of
    a file, and the variables of a list of pairs. The commands that write such
    files share these facts. *)
From S2P Require Import Prelude GoStrings GoNet EnvFile.
From Stdlib Require Import Ascii.

Open Scope bool_scope.

(** Lines, each with its end. *)
Definition unlines (l : list string) : string := String.concat "" (map (fun x => x +:+ newline) l).

(** A key as a line can hold one. *)
Definition env_key (k : string) : Prop :=
  k <> "" /\ no_byte "=" k = true /\ TrimSpace k = k /\ HasPrefix k "#" = false.

(** What a value reads back as. *)
Definition as_read (v : string) : string := unquote (TrimSpace v).

(** A line a file can hold and a reader takes whole. *)
Definition line_ok (l : string) : Prop := no_byte nl l = true /\ (Z.of_nat (len l) < max_line)%Z.

Definition read_pair (kv : string * string) : string * string := (kv.1, as_read kv.2).

(** Every variable of a file can be written to one line of a file. *)
Definition writable_values (m : gmap string string) : Prop := map_Forall (fun k v => env_key k /\ line_ok (env_text (k, v))) m.

(** What a file whose text is [content] reads as: the values [m], each as it is read. *)
Definition reads_as (content : string) (m : gmap string string) : Prop :=
  exists m', Values (EnvData content) = Ok m' /\ forall k, m' !! k = as_read <$> m !! k.

(** The pairs of [keys] that [m] has. *)
Definition keyPairs (values : gmap string string) (keys : list string) : list (string * string) :=
  omap (fun k => (fun v => (k, v)) <$> values !! k) keys.

(** A line's key and value before its quotes are removed. *)
Definition raw_line (raw : string) : option (string * string) :=
  let line := TrimSpace raw in
  if bool_decide (line = "") || HasPrefix line "#" then None
  else
    match index_byte "=" line with
    | None | Some 0%nat => None
    | Some idx => Some (TrimSpace (str_take idx line), TrimSpace (str_drop (S idx) line))
    end.

(** * Lines *)

Lemma unlines_cons x l : unlines (x :: l) = x +:+ String nl (unlines l).
Proof.
  unfold unlines. destruct l as [|y l]; cbn [map String.concat]; [done|].
  by rewrite str_app_assoc.
Qed.

Lemma scan_unlines l : Forall (fun x => no_byte nl x = true) l -> scan_lines (unlines l) = l.
Proof.
  intros H. assert (Split nl (unlines l) = l ++ [""]) as Hs.
  { induction H as [|x l Hx _ IH]; [done|]. rewrite unlines_cons, Split_app_sep, IH by done. done. }
  unfold scan_lines. by rewrite Hs, last_snoc, removelast_last.
Qed.

(** * One line *)

Lemma trim_right_keep a c s :
  is_space c = false -> trim_right is_space (a +:+ String c s) = a +:+ String c (trim_right is_space s).
Proof.
  intros Hc. induction a as [|x a IH]; cbn.
  - destruct (trim_right is_space s); [by rewrite Hc|done].
  - rewrite IH. by destruct a.
Qed.

Lemma TrimSpace_right s : TrimSpace (trim_right is_space s) = TrimSpace s.
Proof. unfold TrimSpace, trim. by rewrite trim_left_right_comm, trim_right_idem. Qed.

Lemma TrimSpace_cr s : TrimSpace (s +:+ String cr "") = TrimSpace s.
Proof. by rewrite <- TrimSpace_right, trim_right_snoc, TrimSpace_right. Qed.

Lemma drop_cr_or s : drop_cr s = s \/ s = drop_cr s +:+ String cr "".
Proof.
  unfold drop_cr, TrimSuffix. destruct (HasSuffix s (String cr "")) eqn:E; [right|by left].
  apply HasSuffix_spec in E as [a ->]. rewrite len_app. change (len (String cr "")) with 1%nat.
  replace (len a + 1 - 1)%nat with (len a) by lia. by rewrite str_take_app.
Qed.

(** The carriage return a line may end in makes no difference. *)
Lemma env_line_drop_cr s : env_line (drop_cr s) = env_line s.
Proof.
  assert (TrimSpace (drop_cr s) = TrimSpace s) as E.
  { destruct (drop_cr_or s) as [->|Hs]; [done|]. rewrite Hs at 2. by rewrite TrimSpace_cr. }
  unfold env_line. by rewrite E.
Qed.

Lemma trim_left_fixed k : k <> "" -> TrimSpace k = k -> exists c r, k = String c r /\ is_space c = false.
Proof.
  destruct k as [|c r]; [done|]. intros _ H. exists c, r. split; [done|]. destruct (is_space c) eqn:E; [|done]. exfalso.
  unfold TrimSpace, trim in H. cbn in H. rewrite E in H. pose proof (len_trim_right is_space (trim_left is_space r)).
  pose proof (len_trim_left is_space r). rewrite H in *. unfold len in *. cbn in *. lia.
Qed.

Lemma env_line_kv k v : env_key k -> env_line (env_text (k, v)) = Some (k, as_read v).
Proof.
  intros (Hne & Heq & Ht & Hc). destruct (trim_left_fixed k Hne Ht) as (c & r & -> & Hs). unfold env_text. cbn [fst snd].
  assert (TrimSpace (String c r +:+ "=" +:+ v) = String c r +:+ String "=" (trim_right is_space v)) as E.
  { unfold TrimSpace, trim. cbn [String.append trim_left]. rewrite Hs. apply (trim_right_keep (String c r)). done. }
  unfold env_line. rewrite E. rewrite bool_decide_eq_false_2 by done.
  rewrite HasPrefix_app_byte, Hc by done. cbn [orb]. rewrite index_byte_app by done.
  destruct (len (String c r)) as [|n] eqn:Hl; [done|]. rewrite <- Hl, str_take_app, str_drop_app_sep, Ht, TrimSpace_right. done.
Qed.

Lemma env_line_comment r : env_line (String "#" r) = None.
Proof.
  unfold env_line. assert (TrimSpace (String "#" r) = String "#" (trim_right is_space r)) as -> by by apply (trim_right_keep "" "#" r).
  assert (HasPrefix (String "#" (trim_right is_space r)) "#" = true) as -> by (cbn; by destruct (trim_right is_space r)).
  by rewrite orb_true_r.
Qed.

(** What one line reads as fits in the line. *)
Lemma len_str_drop_le n s : (len (str_drop n s) <= len s)%nat.
Proof. pose proof (f_equal len (str_take_drop n s)) as H. rewrite len_app in H. lia. Qed.
Lemma len_str_take_le n s : (len (str_take n s) <= len s)%nat.
Proof. pose proof (f_equal len (str_take_drop n s)) as H. rewrite len_app in H. lia. Qed.

Lemma len_unquote s : (len (unquote s) <= len s)%nat.
Proof. unfold unquote. destruct (_ || _); [|done]. etrans; [apply len_str_drop_le|apply len_str_take_le]. Qed.

Lemma no_byte_sub c s t u : s = t +:+ u -> no_byte c s = true -> no_byte c t = true /\ no_byte c u = true.
Proof. intros ->. rewrite no_byte_app, andb_true_iff. done. Qed.

Lemma no_byte_unquote c s : no_byte c s = true -> no_byte c (unquote s) = true.
Proof.
  intros H. unfold unquote. destruct (_ || _); [|done]. destruct (no_byte_sub c s _ _ (eq_sym (str_take_drop (len s - 1) s)) H) as [Ht _].
  exact (proj2 (no_byte_sub c _ _ _ (eq_sym (str_take_drop 1 _)) Ht)).
Qed.

Lemma env_line_raw raw : env_line raw = (fun kv => (kv.1, unquote kv.2)) <$> raw_line raw.
Proof. unfold env_line, raw_line. destruct (_ || _); [done|]. by destruct (index_byte "=" _) as [[|n]|]. Qed.

(** A key and a value that one line of [n] bytes holds. *)
Definition from_line (k v : string) (n : nat) : Prop :=
  env_key k /\ no_byte nl (env_text (k, v)) = true /\ (len (env_text (k, v)) <= n)%nat.

Lemma raw_line_spec raw k v :
  no_byte nl raw = true -> raw_line raw = Some (k, v) -> from_line k v (len raw) /\ TrimSpace v = v.
Proof.
  intros Hr. unfold raw_line. destruct (bool_decide (TrimSpace raw = "") || _) eqn:E0; [done|]. apply orb_false_iff in E0 as [_ Hc].
  destruct (index_byte "=" (TrimSpace raw)) as [[|n]|] eqn:Hi; [done| |done]. intros [<- <-]%(inj Some)%pair_equal_spec.
  split; [|apply trim_idem].
  apply index_byte_split in Hi as (Hs & Hnb & Hl). pose proof (len_trim is_space raw) as Hle. fold (TrimSpace raw) in Hle.
  set (a := str_take (S n) (TrimSpace raw)) in *. set (b := str_drop (S (S n)) (TrimSpace raw)) in *.
  assert (exists c r, a = String c r /\ is_space c = false) as (c & r & Ha & Hsp).
  { destruct a as [|c r] eqn:Ha; [done|]. exists c, r. split; [done|]. destruct (trim_left_fixed (TrimSpace raw)) as (c' & r' & Hx & Hy).
    - by rewrite Hs.
    - apply trim_idem.
    - rewrite Hs in Hx. cbn in Hx. injection Hx as -> _. done. }
  assert (TrimSpace a = String c (trim_right is_space r)) as Hta.
  { unfold TrimSpace, trim. rewrite Ha. cbn [trim_left]. rewrite Hsp. by apply (trim_right_keep "" c r). }
  repeat split.
  - by rewrite Hta.
  - by apply str_all_trim.
  - apply trim_idem.
  - rewrite Hs, Ha in Hc. rewrite Hta. change (String c r +:+ ?x) with (String c "" +:+ (r +:+ x)) in Hc.
    change (String c ?x) with (String c "" +:+ x). by rewrite HasPrefix_app_byte in Hc |- * by done.
  - apply (str_all_trim _ is_space) in Hr. fold (TrimSpace raw) in Hr. change (no_byte nl (TrimSpace raw) = true) in Hr.
    destruct (no_byte_sub nl _ _ _ Hs Hr) as [Hna Hnb']. unfold env_text. cbn [fst snd]. rewrite !no_byte_app, !andb_true_iff.
    cbn in Hnb'. repeat split; by apply str_all_trim.
  - unfold env_text. cbn [fst snd]. rewrite !len_app. change (len "=") with 1%nat.
    pose proof (len_trim is_space b). pose proof (len_trim is_space a). unfold TrimSpace in *. rewrite Hs, len_app in Hle.
    assert (len (String "=" b) = S (len b)) as He by done. rewrite He in Hle. lia.
Qed.

Lemma env_line_spec raw k v : no_byte nl raw = true -> env_line raw = Some (k, v) -> from_line k v (len raw).
Proof.
  intros Hr. rewrite env_line_raw. destruct (raw_line raw) as [[k' v']|] eqn:E; [|done]. cbn. intros [<- <-]%(inj Some)%pair_equal_spec.
  apply raw_line_spec in E as [(Hk & Hn & Hl) _]; [|done]. split; [done|]. unfold env_text in *. cbn [fst snd] in *.
  pose proof (len_unquote v'). rewrite !no_byte_app, !andb_true_iff, !len_app in *. destruct Hn as (H1 & H2 & H3).
  split; [|lia]. repeat split; try done. by apply no_byte_unquote.
Qed.

(** * A file *)

Lemma Values_unlines lines : Forall line_ok lines -> Values (EnvData (unlines lines)) = Ok (env_lines lines ∅).
Proof.
  intros H. unfold Values. rewrite scan_unlines by (eapply Forall_impl; [exact H|by intros ? []]).
  replace (existsb _ lines) with false; [done|]. symmetry. induction H as [|l lines [_ Hl] _ IH]; [done|].
  cbn [existsb]. rewrite IH, orb_false_r. by apply Z.leb_gt.
Qed.

(** The variables of lines, one after the other. *)
Lemma env_lines_omap lines m :
  env_lines lines m = fold_left (fun m kv => <[kv.1 := kv.2]> m) (omap env_line lines) m.
Proof.
  revert m. induction lines as [|l lines IH]; intros m; [done|]. cbn [env_lines omap list_omap]. rewrite env_line_drop_cr, IH.
  by destruct (env_line l) as [[k v]|].
Qed.

Lemma omap_env_none lines : Forall (fun l => env_line l = None) lines -> omap env_line lines = [].
Proof. intros H. induction H as [|l lines Hl _ IH]; [done|]. cbn. by rewrite Hl. Qed.

Lemma omap_env_pairs pairs : Forall (fun kv => env_key kv.1) pairs -> omap env_line (map env_text pairs) = map read_pair pairs.
Proof. intros H. induction H as [|[k v] pairs Hk _ IH]; [done|]. cbn [map omap list_omap]. rewrite env_line_kv by done. by f_equal. Qed.

Lemma read_pairs_lookup (pairs : list (string * string)) (m : gmap string string) (k : string) :
  NoDup pairs.*1 ->
  fold_left (fun m kv => <[kv.1 := kv.2]> m) (map read_pair pairs) m !! k
  = match list_to_map (M := gmap string string) pairs !! k with Some v => Some (as_read v) | None => m !! k end.
Proof.
  revert m. induction pairs as [|[k0 v0] pairs IH]; intros m; [done|]. intros [Hni Hnd]%NoDup_cons.
  cbn [map fold_left list_to_map foldr read_pair fst snd]. rewrite IH by done.
  destruct (decide (k = k0)) as [->|Hne].
  - rewrite lookup_insert_eq, (not_elem_of_list_to_map_1 pairs k0) by done. by rewrite lookup_insert_eq.
  - by rewrite !lookup_insert_ne by done.
Qed.

Lemma scan_lines_no_nl data : Forall (fun l => no_byte nl l = true) (scan_lines data).
Proof.
  unfold scan_lines. pose proof (Split_parts_no_byte nl data) as H. destruct (last (Split nl data)) as [[|c s]|] eqn:E; [|done..].
  apply last_Some in E as [l El]. rewrite El in *. rewrite removelast_last. by apply Forall_app in H as [H _].
Qed.

Lemma scan_lines_short data l :
  existsb (fun l => (max_line <=? Z.of_nat (len l))%Z) (scan_lines data) = false -> l ∈ scan_lines data -> line_ok l.
Proof.
  intros E Hl. split; [exact (proj1 (Forall_forall _ _) (scan_lines_no_nl data) l Hl)|].
  apply Z.leb_gt. apply not_true_iff_false. intros Hm. apply not_true_iff_false in E. apply E, existsb_exists. exists l.
  by apply list_elem_of_In in Hl.
Qed.

Lemma from_line_ok k v l : line_ok l -> from_line k v (len l) -> env_key k /\ line_ok (env_text (k, v)).
Proof. intros [_ Hl] (Hk & Hn & Hle). split; [done|]. split; [done|lia]. Qed.

Lemma Values_writable f m : Values f = Ok m -> writable_values m.
Proof.
  destruct f as [data| |]; cbn; [|intros [= <-]; apply map_Forall_empty|done].
  destruct (existsb _ _) eqn:E; [done|]. intros [= <-] k v Hkv. apply env_lines_lookup in Hkv as [Hkv|(l & Hl & Hkv)]; [done|].
  rewrite env_line_drop_cr in Hkv. pose proof (scan_lines_short data l E Hl) as Hok.
  apply (from_line_ok k v l); [done|]. apply env_line_spec; [apply Hok|done].
Qed.

(** ** The variables of a map, as lines *)

Lemma elem_of_keyPairs m keys k v : (k, v) ∈ keyPairs m keys <-> k ∈ keys /\ m !! k = Some v.
Proof.
  unfold keyPairs. rewrite list_elem_of_omap. split.
  - intros (x & Hx & H). destruct (m !! x) as [y|] eqn:E; [|done]. by injection H as -> ->.
  - intros [Hk Hm]. exists k. by rewrite Hm.
Qed.

Lemma NoDup_keyPairs m keys : NoDup keys -> NoDup (keyPairs m keys).*1.
Proof.
  intros H. induction H as [|k keys Hk _ IH]; [constructor|]. cbn [keyPairs omap list_omap]. destruct (m !! k) as [v|]; [|done].
  cbn. constructor; [|done]. intros ([k' v'] & -> & Hin)%list_elem_of_fmap. by apply elem_of_keyPairs in Hin as [? _].
Qed.

Lemma NoDup_sortedKeys {V} (m : gmap string V) : NoDup (sortedKeys m).
Proof. unfold sortedKeys. rewrite sortNames_perm. apply NoDup_fst_map_to_list. Qed.

(** A file of lines whose variables are [pairs] reads as [m], if those are [m]'s. *)
Lemma reads_as_pairs lines pairs (m : gmap string string) :
  Forall line_ok lines -> omap env_line lines = map read_pair pairs ->
  NoDup pairs.*1 -> (forall k v, (k, v) ∈ pairs <-> m !! k = Some v) ->
  reads_as (unlines lines) m.
Proof.
  intros Hl Hp Hnd Hm. eexists. split; [by apply Values_unlines|]. intros k.
  rewrite env_lines_omap, Hp, read_pairs_lookup by done.
  assert (list_to_map pairs !! k = m !! k) as ->; [|by destruct (m !! k)].
  apply option_eq. intros v. rewrite <- Hm. symmetry. by apply elem_of_list_to_map.
Qed.
