(* ===== verification/InitCli.v ===== *)
(** The command [init] (src/cmd/cli/init.go, confirm_overwrite.go): the wizard's
    input, the checks, the .env and YAML files it writes, and the profile it
    configures; and what [connect] reads back of them.

    A run gives the files it writes, in order, and its error; what was asked for is a
    relation on the flags and the lines typed ([asked]). The terminal is the
    text typed: it hands over one line per read, so a reader opened later goes on
    where the last one stopped. What is printed is left out. *)
From S2P Require Import Prelude GoStrings GoNet GoPath EnvFile EnvText Credential ControlUrl Config ProfileStore ConfigMerge Connect.
From Stdlib Require Import Ascii.

Open Scope bool_scope.

(** * Reading the terminal *)

(** [bufio.Reader.ReadString] with a newline: the line with its end, whether it had
    one, and the rest. *)
Definition ReadString (s : string) : string * bool * string :=
  match index_byte nl s with
  | Some i => (str_take (S i) s, true, str_drop (S i) s)
  | None => (s, false, "")
  end.

Inductive init_error : Type :=
  | BadFormat (format : string)
  | EmptyKeyFileFlag
  | ProfileFlag (flag : string)
  | KeyNeedsTarget
  | InitKeyFile (e : key_file_error)
  | NotATerminal
  | InputEnded
  | MaskedInput
  | ValueRequired
  | KeyRequired
  | InitKeyInvalid (urlHint : bool) (e : key_error)
  | InitTargetRequired | InitTargetFormat (e : addr_error) | InitTargetHost | InitTargetPort (port : string)
  | RangeFormatInvalid | RangeStartInvalid | RangeEndInvalid | RangeOutOfBounds (start end_ : Z)
  | ExistingUnreadable (path : string) (e : env_file_error)
  | PlaneRefused (e : plane_error) (source : string)
  | Aborted (path : string) | AlreadyExists (path : string)
  | WriteFailed (path : string)
  | ProfileListFailed (e : profile_error)
  | ProfileExists (name : string)
  | ProfileFileBad
  | ProfileTarget (name : string) (e : init_error)
  | ProfileWriteFailed (name : string) (e : profile_error).

(** Readers of one value: the value and the rest of the input. *)
Definition readRequiredInput (input : string) : string * result init_error string :=
  let '(line, ended, rest) := ReadString input in
  if negb ended then (rest, Err InputEnded)
  else let value := TrimSpace line in
       (rest, if bool_decide (value = "") then Err ValueRequired else Ok value).
Definition readOptionalInput (input : string) : string * result init_error string :=
  let '(line, ended, rest) := ReadString input in
  (rest, if negb ended then Err InputEnded else Ok (TrimSpace line)).

(** The loop of [readChoiceInput]; [None] is fuel that ran out. *)
Fixpoint choiceLoop (fuel : nat) (choices : list string) (input : string) : option (string * result init_error string) :=
  match fuel with
  | O => None
  | S fuel =>
      let '(line, ended, rest) := ReadString input in
      if negb ended then Some (rest, Err InputEnded) else
      let value := TrimSpace (ToLower line) in
      if bool_decide (value = "") then Some (rest, Ok (default "" (head choices)))
      else if contains_word choices value then Some (rest, Ok value)
      else choiceLoop fuel choices rest
  end.
Definition readChoiceInput (choices : list string) (input : string) : option (string * result init_error string) :=
  choiceLoop (S (len input)) choices input.

(** [confirmOverwrite]: an answer that is neither is asked for again. *)
Definition answerYes := "yes".
Fixpoint confirmLoop (fuel : nat) (input : string) : option (string * bool) :=
  match fuel with
  | O => None
  | S fuel =>
      let '(line, ended, rest) := ReadString input in
      if negb ended then Some (rest, false) else
      let answer := TrimSpace (ToLower line) in
      if bool_decide (answer = "y") || bool_decide (answer = answerYes) then Some (rest, true)
      else if bool_decide (answer = "") || bool_decide (answer = "n") || bool_decide (answer = "no") then Some (rest, false)
      else confirmLoop fuel rest
  end.
Definition confirmOverwrite (input : string) : option (string * bool) := confirmLoop (S (len input)) input.

(** * Flags *)

Record initFlags : Type := mkInitFlags {
  iAuthKey : string;
  iAuthKeyFile : string;
  iTarget : string;
  iInstance : string;
  iPortRange : string;
  iFormat : string;
  iConfig : string;
  iForce : bool;
  iProfile : string;
  iControlURL : string;
}.
Definition set_iAuthKey (k : string) (f : initFlags) : initFlags :=
  mkInitFlags k (iAuthKeyFile f) (iTarget f) (iInstance f) (iPortRange f) (iFormat f) (iConfig f) (iForce f) (iProfile f) (iControlURL f).
Definition set_iConfig (p : string) (f : initFlags) : initFlags :=
  mkInitFlags (iAuthKey f) (iAuthKeyFile f) (iTarget f) (iInstance f) (iPortRange f) (iFormat f) p (iForce f) (iProfile f) (iControlURL f).

Definition formatYAML := "yaml".
Definition formatENV := "env".

Definition parseInitFlags (v : flag_values) : result init_error initFlags :=
  let format := ToLower (str_flag v "format") in
  if contains_word [formatYAML; formatENV] format
  then Ok (mkInitFlags (str_flag v "auth-key") (str_flag v "auth-key-file") (str_flag v "target") (str_flag v "instance")
             (str_flag v "port-range") format (str_flag v "config") (bool_flag v "force") (str_flag v "profile")
             (str_flag v "control-url"))
  else Err (BadFormat (str_flag v "format")).

(** * Validation *)

Definition validateAuthKey (key : string) : result init_error unit :=
  match ValidateKey key with
  | Ok _ => Ok tt
  | Err e =>
      if bool_decide (key = "") then Err KeyRequired
      else Err (InitKeyInvalid (HasPrefix key "http://" || HasPrefix key "https://") e)
  end.

Definition validateTarget (target : string) : result init_error unit :=
  if bool_decide (target = "") then Err InitTargetRequired
  else
    '(host, portStr) ← map_err InitTargetFormat (SplitHostPort target);
    if bool_decide (host = "") then Err InitTargetHost
    else match Atoi portStr with
         | Some port => if (port <? 1)%Z || (65535 <? port)%Z then Err (InitTargetPort portStr) else Ok tt
         | None => Err (InitTargetPort portStr)
         end.

Definition validatePortRange (pr : string) : result init_error unit :=
  match Split "-" pr with
  | [a; b] =>
      match Atoi (TrimSpace a) with
      | None => Err RangeStartInvalid
      | Some start =>
          match Atoi (TrimSpace b) with
          | None => Err RangeEndInvalid
          | Some end_ =>
              if (start <? 1)%Z || (65535 <? end_)%Z || (end_ <? start)%Z then Err (RangeOutOfBounds start end_) else Ok tt
          end
      end
  | _ => Err RangeFormatInvalid
  end.

Definition validateProfileModeFlags (v : flag_values) : result init_error unit :=
  match List.find (Changed v) ["auth-key"; "auth-key-file"; "instance"; "port-range"] with
  | Some flag => Err (ProfileFlag flag)
  | None => fail_if (Changed v "format") (ProfileFlag "format")
  end.

(** * The files *)

(** The time it was generated is a parameter. *)
Definition buildYAMLContent (now : string) (f : initFlags) : string :=
  unlines (["# ts-bridge YAML configuration"; "# Non-sensitive settings only — auth key is stored in .env";
            "# Generated by ts-bridge init on " +:+ now; ""; "version: 1"; "target: " +:+ iTarget f]
    ++ (if bool_decide (iControlURL f = "") then [] else ["control_url: " +:+ iControlURL f])
    ++ (if bool_decide (iInstance f = "") then [] else ["hostname: tsb-" +:+ SanitizeHostnameLabel (iInstance f)])
    ++ (if bool_decide (iPortRange f = "") then [] else ["port_range: " +:+ iPortRange f])).

Definition setting (key value : string) : list string := if bool_decide (value = "") then [] else [env_text (key, value)].
Definition envConfigLines (f : initFlags) : list string :=
  ["# ── Required ─────────────────────────────────────────────────"; "#";
   "# Auth key (tskey- for Tailscale SaaS, hskey- for Headscale)";
   "#   Tailscale: https://login.tailscale.com/admin/settings/keys";
   "#   Headscale: headscale preauthkeys create --user <ID> --reusable --ephemeral --expiration 8760h"; "#";
   "# Note: Keys in .env/environment are visible to child processes.";
   "# For hardened setups, consider omitting TS_AUTHKEY and passing --auth-key-file /path/to/key"]
  ++ [env_text ("TS_AUTHKEY", iAuthKey f)] ++ [""; "# Target host:port on the Tailscale/Headscale network"]
  ++ [env_text ("TS_TARGET", iTarget f)]
  ++ [""; "# ── Optional (sensible defaults) ─────────────────────────────";
      "# See README.md → Configuration Reference for all options."]
  ++ setting "TS_INSTANCE_NAME" (iInstance f) ++ setting "TS_PORT_RANGE" (iPortRange f)
  ++ ["#"; "# TS_LOCAL_ADDR=127.0.0.1:33389   # Local bind address"]
  ++ (if bool_decide (iControlURL f = "") then ["# TS_CONTROL_URL=                  # Custom control plane"]
      else [env_text ("TS_CONTROL_URL", iControlURL f)])
  ++ ["# TS_BOOTSTRAP_SSH=                # OpenSSH endpoint for blocked control plane";
      "# TS_BOOTSTRAP_SOCKS_ADDR=127.0.0.1:1055 # Loopback SOCKS listener";
      "# TS_IDLE_TIMEOUT=                 # Close idle conns after this duration";
      "# TS_DIAL_TIMEOUT=5s               # Per-connection target dial timeout";
      "# TS_DIAL_RETRIES=3                # Max retries for transient dial failures";
      "# TS_DIAL_BACKOFF_BASE=1s          # Base backoff for retries";
      "# TS_DIAL_BACKOFF_MAX=30s          # Cap on backoff duration per retry"].
Definition buildEnvConfigContent (f : initFlags) : string := unlines (envConfigLines f).

Definition envKeyOrder : list string :=
  ["TS_TARGET"; "TS_INSTANCE_NAME"; "TS_PORT_RANGE"; "TS_LOCAL_ADDR"; "TS_HOSTNAME"; "TS_STATE_DIR"; "TS_CONTROL_URL";
   "TS_BOOTSTRAP_SSH"; "TS_BOOTSTRAP_SOCKS_ADDR"; "TS_HEALTH_ADDR"; "TS_LOG_FORMAT"; "TS_IDLE_TIMEOUT"; "TS_DIAL_TIMEOUT";
   "TS_DIAL_RETRIES"; "TS_DIAL_BACKOFF_BASE"; "TS_DIAL_BACKOFF_MAX"; "TS_MAX_CONNECTIONS"; "TS_TIMEOUT"; "TS_DRAIN_TIMEOUT";
   "TS_VERBOSE"].

(** The variables a .env beside a YAML file has: the key, the known ones in order,
    the others by name. *)
Definition keptValues (f : initFlags) (values : gmap string string) : gmap string string :=
  let values := <["TS_TARGET" := iTarget f]> values in
  let values := if bool_decide (iControlURL f = "") then values else <["TS_CONTROL_URL" := iControlURL f]> values in
  delete "TS_AUTHKEY" values.
Definition envPairs (f : initFlags) (values : gmap string string) : list (string * string) :=
  let kept := keptValues f values in
  let rest := foldr delete kept envKeyOrder in
  ("TS_AUTHKEY", iAuthKey f) :: keyPairs kept envKeyOrder ++ keyPairs rest (sortedKeys rest).
Definition buildEnvContent (now : string) (f : initFlags) (values : gmap string string) : string :=
  unlines (["# ts-bridge environment configuration"; "# Auth key — DO NOT commit this file (visible to child processes)";
            "# Secure alternative: pass --auth-key-file /path/to/key (chmod 0600)"; "# Generated by ts-bridge init on " +:+ now; ""]
           ++ map env_text (envPairs f values)).

(** * The run *)

Record init_world : Type := mkInitWorld {
  terminal : bool;
  masked : option string;
  typed : string;
  existsAt : string -> bool;
  envAt : string -> env_file;
  writable : string -> bool;
  now : string;
  keyAt : string -> key_file;
  onWindows : bool;
}.

(** The path and the text of a file written, and what a run gives: the files it wrote and its error. *)
Abbreviation write := (string * string)%type.
Abbreviation init_end := (list write * result init_error unit)%type.

Definition defaultConfigPath (format : string) : string := if bool_decide (format = formatYAML) then "ts-bridge.yaml" else ".env".
Definition envBeside (path : string) : string := JoinPath [Dir path; ".env"].

Section Init.
Context `{UrlPackage}.

Definition ensureWritable (w : init_world) (path : string) (force : bool) (input : string) : option (string * result init_error unit) :=
  if existsAt w path then
    if negb force && terminal w then
      '(rest, yes) ← confirmOverwrite input;
      Some (rest, if yes : bool then Ok tt else Err (Aborted path))
    else Some (input, fail_if (negb force) (AlreadyExists path))
  else Some (input, Ok tt).

Definition writeFileWithPerms (w : init_world) (path content : string) : list write * result init_error unit :=
  if writable w path then ([(path, content)], Ok tt) else ([], Err (WriteFailed path)).

Definition writeYAMLConfig (w : init_world) (f : initFlags) (input : string) : option init_end :=
  let yamlPath := iConfig f in
  let envPath := envBeside yamlPath in
  '(input, r) ← ensureWritable w yamlPath (iForce f) input;
  match r with
  | Err e => Some ([], Err e)
  | Ok _ =>
      '(_, r) ← ensureWritable w envPath (iForce f) input;
      match r with
      | Err e => Some ([], Err e)
      | Ok _ =>
          Some match Values (envAt w envPath) with
               | Err e => ([], Err (ExistingUnreadable envPath e))
               | Ok existing =>
                   match writeFileWithPerms w yamlPath (buildYAMLContent (now w) f) with
                   | (ws, Err e) => (ws, Err e)
                   | (ws, Ok _) =>
                       let '(ws', r) := writeFileWithPerms w envPath (buildEnvContent (now w) f existing) in (ws ++ ws', r)
                   end
               end
      end
  end.

Definition writeEnvConfig (w : init_world) (f : initFlags) (input : string) : option init_end :=
  '(_, r) ← ensureWritable w (iConfig f) (iForce f) input;
  Some match r with
       | Err e => ([], Err e)
       | Ok _ => writeFileWithPerms w (iConfig f) (buildEnvConfigContent f)
       end.

(** The control URL connect will use, and where it comes from. *)
Definition effectiveControlURL (w : init_world) (f : initFlags) : result init_error (string * string) :=
  if negb (bool_decide (iControlURL f = "")) || negb (bool_decide (iFormat f = formatYAML))
  then Ok (iControlURL f, "--control-url")
  else
    let envPath := envBeside (iConfig f) in
    values ← map_err (ExistingUnreadable envPath) (Values (envAt w envPath));
    Ok (Getenv values "TS_CONTROL_URL", envPath).

Definition checkConfig (w : init_world) (f : initFlags) : result init_error unit :=
  _ ← validateTarget (iTarget f);
  '(controlURL, source) ← effectiveControlURL w f;
  map_err (fun e => PlaneRefused e source) (ValidateControlPlane (iAuthKey f) controlURL).
Definition writeConfig (w : init_world) (f : initFlags) (input : string) : option init_end :=
  match checkConfig w f with
  | Err e => Some ([], Err e)
  | Ok _ => if bool_decide (iFormat f = formatYAML) then writeYAMLConfig w f input else writeEnvConfig w f input
  end.

(** An optional answer that has to pass a check, if given. *)
Definition optionally (check : string -> result init_error unit) (value : string) : result init_error unit :=
  if bool_decide (value = "") then Ok tt else check value.

Definition checkFlags (f : initFlags) : result init_error unit :=
  _ ← validateAuthKey (iAuthKey f);
  _ ← validateTarget (iTarget f);
  optionally validatePortRange (iPortRange f).
Definition runInitNonInteractive (w : init_world) (f : initFlags) (input : string) : option init_end :=
  let f := if bool_decide (iConfig f = "") then set_iConfig (defaultConfigPath (iFormat f)) f else f in
  match checkFlags f with
  | Err e => Some ([], Err e)
  | Ok _ =>
      writeConfig w (mkInitFlags (iAuthKey f) (iAuthKeyFile f) (iTarget f) (TrimSpace (iInstance f)) (iPortRange f) (iFormat f)
                       (iConfig f) (iForce f) (iProfile f) (iControlURL f)) input
  end.

(** The masked key, then the answers; the settings and the rest of the input. *)
Definition collectInteractiveInputs (w : init_world) (f : initFlags) (input : string) : option (string * result init_error initFlags) :=
  match masked w with
  | None => Some (input, Err MaskedInput)
  | Some key =>
      match validateAuthKey key with
      | Err e => Some (input, Err e)
      | Ok _ =>
          match readRequiredInput input with
          | (input, Err e) => Some (input, Err e)
          | (input, Ok target) =>
              match validateTarget target with
              | Err e => Some (input, Err e)
              | Ok _ =>
                  match readOptionalInput input with
                  | (input, Err e) => Some (input, Err e)
                  | (input, Ok instance) =>
                      let '(input, range) :=
                        if bool_decide (instance = "") then
                          let '(input, r) := readOptionalInput input in
                          (input, pr ← r; _ ← optionally validatePortRange pr;
                                  Ok (if bool_decide (pr = "") then iPortRange f else pr))
                        else (input, Ok (iPortRange f)) in
                      match range with
                      | Err e => Some (input, Err e)
                      | Ok range =>
                          '(input, r) ← readChoiceInput [formatYAML; formatENV] input;
                          Some (input, format ← r;
                                Ok (mkInitFlags key (iAuthKeyFile f) target instance range format (iConfig f) (iForce f)
                                      (iProfile f) (iControlURL f)))
                      end
                  end
              end
          end
      end
  end.
Definition runInitInteractive (w : init_world) (f : initFlags) : option init_end :=
  if negb (terminal w) then Some ([], Err NotATerminal) else
  '(input, r) ← collectInteractiveInputs w f (typed w);
  match r with
  | Err e => Some ([], Err e)
  | Ok f => writeConfig w (if bool_decide (iConfig f = "") then set_iConfig (defaultConfigPath (iFormat f)) f else f) input
  end.

(** ** Profile mode *)

Definition withTarget (target controlURL : string) (p : Profile) : Profile :=
  mkProfile (if bool_decide (target = "") then Target p else target)
    (if bool_decide (controlURL = "") then ProfileStore.ControlURL p else controlURL) (CredentialName p) (Settings p).

(** [doc] is what reading the file of [--config] gives. *)
Definition runInitProfile (f : initFlags) (doc : profile_doc) (sys : system) (st : world) : result init_error bool * world :=
  match ListProfiles sys st with
  | (Err e, st) => (Err (ProfileListFailed e), st)
  | (Ok profiles, st) =>
      let found := profiles !! iProfile f in
      if bool_decide (is_Some found) && negb (iForce f) then (Err (ProfileExists (iProfile f)), st) else
      match (if bool_decide (iConfig f = "") then Some (default zeroEntry found)
             else importProfileConfig (readProfileConfig doc) (default zeroEntry found)) with
      | None => (Err ProfileFileBad, st)
      | Some selected =>
          let selected := withTarget (iTarget f) (iControlURL f) selected in
          match validateTarget (Target selected) with
          | Err e => (Err (ProfileTarget (iProfile f) e), st)
          | Ok _ =>
              let '(r, st) := Configure (iProfile f) selected (iForce f) sys st in
              (map_err (ProfileWriteFailed (iProfile f)) r, st)
          end
      end
  end.

(** ** The command *)

Inductive init_run : Type :=
  | Files (e : init_end)
  | ProfileRun (r : result init_error bool) (st : world).

Definition refused (e : init_error) : option init_run := Some (Files ([], Err e)).

(** The key a run without profile has, or why it is refused. *)
Definition initKey (v : flag_values) (w : init_world) (f : initFlags) : result init_error initFlags :=
  _ ← fail_if ((Changed v "auth-key" || Changed v "auth-key-file") && bool_decide (iTarget f = "")) KeyNeedsTarget;
  if bool_decide (iAuthKeyFile f = "") then Ok f
  else key ← map_err InitKeyFile (readAuthKeyFile (onWindows w) (keyAt w (iAuthKeyFile f))).2; Ok (set_iAuthKey key f).

Definition runInit (v : flag_values) (w : init_world) (doc : profile_doc) (sys : system) (st : world) : option init_run :=
  match parseInitFlags v with
  | Err e => refused e
  | Ok f =>
      if Changed v "auth-key-file" && bool_decide (TrimSpace (iAuthKeyFile f) = "") then refused EmptyKeyFileFlag
      else if negb (bool_decide (iProfile f = "")) then
        match validateProfileModeFlags v with
        | Err e => refused e
        | Ok _ => let '(r, st) := runInitProfile f doc sys st in Some (ProfileRun r st)
        end
      else
        match initKey v w f with
        | Err e => refused e
        | Ok f =>
            Files <$> (if bool_decide (iAuthKey f = "") || bool_decide (iTarget f = "")
                       then runInitInteractive w f else runInitNonInteractive w f (typed w))
        end
  end.
End Init.

(** * What the files say *)

Definition given (key value : string) : list (string * string) := if bool_decide (value = "") then [] else [(key, value)].
(** The variables of a file in .env mode. *)
Definition envSettings (f : initFlags) : list (string * string) :=
  [("TS_AUTHKEY", iAuthKey f); ("TS_TARGET", iTarget f)] ++ given "TS_INSTANCE_NAME" (iInstance f)
  ++ given "TS_PORT_RANGE" (iPortRange f) ++ given "TS_CONTROL_URL" (iControlURL f).
(** Those of the file beside a YAML file: what was there, with the settings. *)
Definition besideValues (f : initFlags) (old : gmap string string) : gmap string string :=
  <["TS_AUTHKEY" := iAuthKey f]> (keptValues f old).

(** Settings a line can hold whole. *)
Definition fits (f : initFlags) : Prop :=
  Forall (fun kv => line_ok (env_text kv))
    [("TS_AUTHKEY", iAuthKey f); ("TS_TARGET", iTarget f); ("TS_INSTANCE_NAME", iInstance f);
     ("TS_PORT_RANGE", iPortRange f); ("TS_CONTROL_URL", iControlURL f)].

(** * The prompts end *)

Lemma ReadString_rest s line rest : ReadString s = (line, true, rest) -> (len rest < len s)%nat.
Proof.
  unfold ReadString. destruct (index_byte nl s) as [i|] eqn:E; [|done]. intros [= _ <-].
  apply index_byte_split in E as (Hs & _). rewrite Hs at 2. rewrite len_app. unfold len. cbn. lia.
Qed.

(** A round of a prompt consumes a line, so as many rounds as bytes are enough. *)
Lemma choiceLoop_total fuel choices input : (len input < fuel)%nat -> is_Some (choiceLoop fuel choices input).
Proof.
  revert input. induction fuel as [|fuel IH]; intros input Hf; [lia|]. cbn [choiceLoop].
  destruct (ReadString input) as [[line ended] rest] eqn:E. destruct ended; cbn [negb]; [|by eexists].
  apply ReadString_rest in E. repeat case_match; try by eexists. apply IH. lia.
Qed.

Lemma confirmLoop_total fuel input : (len input < fuel)%nat -> is_Some (confirmLoop fuel input).
Proof.
  revert input. induction fuel as [|fuel IH]; intros input Hf; [lia|]. cbn [confirmLoop].
  destruct (ReadString input) as [[line ended] rest] eqn:E. destruct ended; cbn [negb]; [|by eexists].
  apply ReadString_rest in E. repeat case_match; try by eexists. apply IH. lia.
Qed.

Lemma readChoiceInput_total choices input : is_Some (readChoiceInput choices input).
Proof. apply choiceLoop_total. lia. Qed.
Lemma confirmOverwrite_total input : is_Some (confirmOverwrite input).
Proof. apply confirmLoop_total. lia. Qed.

Ltac some := eexists; reflexivity.

Section Ends.
Context `{UrlPackage}.

Lemma ensureWritable_total w path force input : is_Some (ensureWritable w path force input).
Proof.
  unfold ensureWritable. destruct (existsAt w path); [|some]. destruct (negb force && terminal w); [|some].
  destruct (confirmOverwrite_total input) as [[rest yes] ->]. some.
Qed.

Lemma writeConfig_total w f input : is_Some (writeConfig w f input).
Proof.
  unfold writeConfig. destruct (checkConfig w f); [|some]. destruct (bool_decide _).
  - unfold writeYAMLConfig. destruct (ensureWritable_total w (iConfig f) (iForce f) input) as [[rest r] ->]. cbn [mbind option_bind].
    destruct r; [|some].
    destruct (ensureWritable_total w (envBeside (iConfig f)) (iForce f) rest) as [[rest' r] ->]. cbn [mbind option_bind]. destruct r; some.
  - unfold writeEnvConfig. destruct (ensureWritable_total w (iConfig f) (iForce f) input) as [[rest r] ->]. some.
Qed.

Lemma collectInteractiveInputs_total w f input : is_Some (collectInteractiveInputs w f input).
Proof.
  unfold collectInteractiveInputs. repeat (case_match; [|some]); try some.
  repeat (case_match; try some); subst.
  all: match goal with |- is_Some (readChoiceInput ?c ?i ≫= _) => destruct (readChoiceInput_total c i) as [[? ?] ->]; some end.
Qed.

Lemma runInit_total v w doc sys st : is_Some (runInit v w doc sys st).
Proof.
  unfold runInit, refused. destruct (parseInitFlags v); [|some]. case_match; [some|]. case_match.
  { case_match; [|some]. destruct (runInitProfile _ _ _ _). some. }
  destruct (initKey v w _) as [f|]; [|some]. case_match.
  - unfold runInitInteractive. destruct (negb (terminal w)); [some|].
    destruct (collectInteractiveInputs_total w f (typed w)) as [[input [g|]] ->]; [|some]. cbn.
    match goal with |- context [writeConfig w ?g input] => destruct (writeConfig_total w g input) as [? ->] end. some.
  - unfold runInitNonInteractive. destruct (checkFlags _); [|some].
    match goal with |- context [writeConfig w ?g ?i] => destruct (writeConfig_total w g i) as [? ->] end. some.
Qed.
End Ends.

(** * The files read back *)

Ltac known_key := repeat split; by vm_compute.
(** Lines known to hold no variable. *)
Ltac drop_comments :=
  repeat match goal with
  | |- context [omap env_line ?l] => let H := fresh in assert (omap env_line l = []) as H by (vm_compute; reflexivity); rewrite H; clear H
  end.

Lemma omap_pair k v : env_key k -> omap env_line [env_text (k, v)] = map read_pair [(k, v)].
Proof. intros Hk. by apply (omap_env_pairs [(k, v)]), Forall_singleton. Qed.

Lemma omap_setting k v : env_key k -> omap env_line (setting k v) = map read_pair (given k v).
Proof. intros Hk. unfold setting, given. destruct (bool_decide (v = "")); [done|by apply omap_pair]. Qed.

Lemma omap_envConfigLines f : omap env_line (envConfigLines f) = map read_pair (envSettings f).
Proof.
  unfold envConfigLines, envSettings. rewrite !omap_app, !map_app, !omap_setting, !omap_pair by known_key.
  unfold given. destruct (bool_decide (iControlURL f = "")); rewrite ?omap_pair by known_key; drop_comments; done.
Qed.

Lemma Forall_given (P : string * string -> Prop) k v : P (k, v) -> Forall P (given k v).
Proof. intros Hp. unfold given. destruct (bool_decide (v = "")); [constructor|by apply Forall_singleton]. Qed.

Lemma NoDup_envSettings f : NoDup (envSettings f).*1.
Proof.
  unfold envSettings, given. repeat case_bool_decide; apply (bool_decide_unpack _); vm_compute; exact I.
Qed.

Ltac closed_lines := repeat constructor; vm_compute; reflexivity.

Lemma setting_ok (k v : string) : line_ok (env_text (k, v)) -> Forall line_ok (setting k v).
Proof. intros Hl. unfold setting. destruct (bool_decide (v = "")); [constructor|by apply Forall_singleton]. Qed.

Lemma envConfigLines_ok f : fits f -> Forall line_ok (envConfigLines f).
Proof.
  unfold fits. rewrite !Forall_cons. intros (Hk & Ht & Hi & Hr & Hu & _). unfold envConfigLines.
  rewrite !Forall_app, !Forall_singleton. repeat (split; [first [done|by apply setting_ok|closed_lines]|]).
  split; [|closed_lines]. destruct (bool_decide (iControlURL f = "")); [closed_lines|by apply Forall_singleton].
Qed.

Lemma env_file_reads_as f : fits f -> reads_as (buildEnvConfigContent f) (list_to_map (envSettings f)).
Proof.
  intros Hf. apply (reads_as_pairs _ (envSettings f)).
  - by apply envConfigLines_ok.
  - apply omap_envConfigLines.
  - apply NoDup_envSettings.
  - intros k v. apply elem_of_list_to_map, NoDup_envSettings.
Qed.

(** ** Beside a YAML file *)

Lemma keptValues_key f old : keptValues f old !! "TS_AUTHKEY" = None.
Proof. unfold keptValues. apply lookup_delete_eq. Qed.

Lemma elem_of_envPairs f old k v : (k, v) ∈ envPairs f old <-> besideValues f old !! k = Some v.
Proof.
  unfold envPairs, besideValues. set (kept := keptValues f old). set (rest := foldr delete kept envKeyOrder).
  rewrite elem_of_cons, elem_of_app, !elem_of_keyPairs, elem_of_sortedKeys.
  assert (Hrest : k ∉ envKeyOrder -> rest !! k = kept !! k) by (intros Hk; by apply lookup_foldr_delete_not_elem_of).
  assert (Hrest' : rest !! k = Some v -> kept !! k = Some v).
  { intros Hr. apply lookup_foldr_delete_Some in Hr as [_ Hr]. done. }
  destruct (decide (k = "TS_AUTHKEY")) as [->|Hne].
  - rewrite lookup_insert_eq. split; [|intros [= ->]; by left].
    pose proof (keptValues_key f old : kept !! "TS_AUTHKEY" = None) as Hn.
    intros [[= ->]|[[_ Hx]|[_ Hx%Hrest']]]; [done|congruence..].
  - rewrite lookup_insert_ne by done. split.
    + intros [[= Hk _]|[[_ Hx]|[_ Hx]]]; [done|done|by apply Hrest'].
    + intros Hx. right. destruct (decide (k ∈ envKeyOrder)) as [Hin|Hin]; [by left|right]. rewrite Hrest by done. by rewrite Hx.
Qed.

Lemma NoDup_envPairs f old : NoDup (envPairs f old).*1.
Proof.
  unfold envPairs. set (kept := keptValues f old). set (rest := foldr delete kept envKeyOrder).
  assert (Hkey : forall m keys, (forall v, m !! "TS_AUTHKEY" = Some v -> False) -> "TS_AUTHKEY" ∉ (keyPairs m keys).*1).
  { intros m keys Hn ([k v] & Hk & Hin)%list_elem_of_fmap. cbn in Hk. subst k. apply elem_of_keyPairs in Hin as [_ Hin]. by apply (Hn v). }
  pose proof (keptValues_key f old : kept !! "TS_AUTHKEY" = None) as Hn.
  cbn [fmap list_fmap fst]. rewrite fmap_app, NoDup_cons, elem_of_app, NoDup_app. split.
  - intros [Hx|Hx]; revert Hx; apply Hkey; intros v Hv; [congruence|].
    apply lookup_foldr_delete_Some in Hv as [_ Hv]. congruence.
  - split; [apply NoDup_keyPairs, (bool_decide_unpack _); vm_compute; exact I|]. split; [|apply NoDup_keyPairs, NoDup_sortedKeys].
    intros k ([k1 v1] & -> & H1)%list_elem_of_fmap ([k2 v2] & E & H2)%list_elem_of_fmap. cbn in E. subst k2.
    apply elem_of_keyPairs in H1 as [H1 _]. apply elem_of_keyPairs in H2 as [_ H2].
    apply lookup_foldr_delete_Some in H2 as [H2 _]. done.
Qed.

Lemma besideValues_writable f old k v :
  fits f -> writable_values old -> besideValues f old !! k = Some v -> env_key k /\ line_ok (env_text (k, v)).
Proof.
  unfold fits. rewrite !Forall_cons. intros (Hk & Ht & _ & _ & Hu & _) Hold. unfold besideValues, keptValues.
  destruct (decide (k = "TS_AUTHKEY")) as [->|Hk'].
  { rewrite lookup_insert_eq. intros [= <-]. split; [known_key|done]. }
  rewrite lookup_insert_ne, lookup_delete_ne by done.
  assert (Hbase : <["TS_TARGET" := iTarget f]> old !! k = Some v -> env_key k /\ line_ok (env_text (k, v))).
  { destruct (decide (k = "TS_TARGET")) as [->|Hk2].
    - rewrite lookup_insert_eq. intros [= <-]. split; [known_key|done].
    - rewrite lookup_insert_ne by done. apply Hold. }
  destruct (bool_decide (iControlURL f = "")); [done|]. destruct (decide (k = "TS_CONTROL_URL")) as [->|Hk2].
  - rewrite lookup_insert_eq. intros [= <-]. split; [known_key|done].
  - by rewrite lookup_insert_ne by done.
Qed.

Lemma beside_file_reads_as now f old :
  fits f -> line_ok ("# Generated by ts-bridge init on " +:+ now) -> writable_values old ->
  reads_as (buildEnvContent now f old) (besideValues f old).
Proof.
  intros Hf Hnow Hold. assert (Hp : Forall (fun kv => env_key kv.1 /\ line_ok (env_text kv)) (envPairs f old)).
  { apply Forall_forall. intros [k v] Hin%elem_of_envPairs. by eapply besideValues_writable. }
  unfold buildEnvContent. apply (reads_as_pairs _ (envPairs f old)).
  - apply Forall_app. split.
    + repeat (constructor; [first [exact Hnow|split; vm_compute; reflexivity]|]). constructor.
    + apply Forall_map. eapply Forall_impl; [exact Hp|by intros ? []].
  - rewrite omap_app, omap_env_pairs by (eapply Forall_impl; [exact Hp|by intros ? []]).
    rewrite omap_env_none; [done|]. repeat (constructor; [first [by apply (env_line_comment (_ +:+ _))|vm_compute; reflexivity]|]). constructor.
  - apply NoDup_envPairs.
  - apply elem_of_envPairs.
Qed.

(** * What a run writes *)

(** [rest] is what is left of [input] after some of it was read. *)
Definition left_of (rest input : string) : Prop := exists pre, input = pre +:+ rest.

(** Somewhere in the input a line says yes. *)
Definition says_yes (input : string) : Prop :=
  exists at_ line rest, left_of at_ input /\ ReadString at_ = (line, true, rest)
    /\ (TrimSpace (ToLower line) = "y" \/ TrimSpace (ToLower line) = answerYes).

(** The files of a run that succeeded, in their order. *)
Definition wrote (w : init_world) (f : initFlags) (ws : list write) : Prop :=
  (iFormat f <> formatYAML /\ ws = [(iConfig f, buildEnvConfigContent f)])
  \/ (iFormat f = formatYAML /\ exists old, Values (envAt w (envBeside (iConfig f))) = Ok old
      /\ ws = [(iConfig f, buildYAMLContent (now w) f); (envBeside (iConfig f), buildEnvContent (now w) f old)]).

Lemma left_of_refl s : left_of s s.
Proof. by exists "". Qed.
Lemma left_of_trans a b c : left_of a b -> left_of b c -> left_of a c.
Proof. intros [p ->] [q ->]. exists (q +:+ p). by rewrite str_app_assoc. Qed.
Lemma says_yes_left rest input : left_of rest input -> says_yes rest -> says_yes input.
Proof. intros Hl (a & line & r & Ha & H). exists a, line, r. split; [by eapply left_of_trans|done]. Qed.

Lemma ReadString_left s : left_of (ReadString s).2 s.
Proof.
  unfold ReadString. destruct (index_byte nl s) as [i|]; cbn; [|by exists s; rewrite str_app_nil_r].
  exists (str_take (S i) s). symmetry. apply str_take_drop.
Qed.

Lemma confirmLoop_spec fuel input rest yes :
  confirmLoop fuel input = Some (rest, yes) -> left_of rest input /\ (yes = true -> says_yes input).
Proof.
  revert input. induction fuel as [|fuel IH]; intros input; [done|]. cbn [confirmLoop].
  pose proof (ReadString_left input) as Hl. destruct (ReadString input) as [[line ended] r] eqn:E. cbn in Hl.
  destruct ended; cbn [negb]; [|by intros [= <- <-]].
  destruct (_ || _) eqn:Ey.
  { intros [= <- <-]. split; [done|]. intros _. exists input, line, r. split; [apply left_of_refl|]. split; [done|].
    apply orb_true_iff in Ey as [Ey|Ey]; apply bool_decide_eq_true in Ey; auto. }
  destruct (_ || _ || _); [by intros [= <- <-]|]. intros H. apply IH in H as [H1 H2].
  split; [by eapply left_of_trans|]. intros Hy. eapply says_yes_left; [exact Hl|by apply H2].
Qed.

Lemma readRequiredInput_left s : left_of (readRequiredInput s).1 s.
Proof. unfold readRequiredInput. pose proof (ReadString_left s). by destruct (ReadString s) as [[? []] ?]. Qed.
Lemma readOptionalInput_left s : left_of (readOptionalInput s).1 s.
Proof. unfold readOptionalInput. pose proof (ReadString_left s). by destruct (ReadString s) as [[? []] ?]. Qed.
Lemma choiceLoop_left fuel choices input rest r : choiceLoop fuel choices input = Some (rest, r) -> left_of rest input.
Proof.
  revert input. induction fuel as [|fuel IH]; intros input; [done|]. cbn [choiceLoop]. pose proof (ReadString_left input) as Hl.
  destruct (ReadString input) as [[line ended] s]. cbn in Hl. destruct ended; cbn [negb]; [|by intros [= <- <-]].
  repeat (case_match; [by intros [= <- <-]|]). intros Hr%IH. by eapply left_of_trans.
Qed.

(** * What was asked for *)

(** The input goes on with [line], then with [rest]. *)
Definition typed_line (s line rest : string) : Prop := s = line +:+ newline +:+ rest /\ no_byte nl line = true.
(** The next line, without the space around it. *)
Definition answer (s value rest : string) : Prop := exists line, typed_line s line rest /\ value = TrimSpace line.

(** Which of [choices] the lines pick: a line that names none of them is passed
    over, and a blank one picks the first. *)
Inductive chooses (choices : list string) : string -> string -> string -> Prop :=
  | chooses_first s line rest : typed_line s line rest -> TrimSpace (ToLower line) = "" ->
      chooses choices s (default "" (head choices)) rest
  | chooses_named s line rest : typed_line s line rest -> TrimSpace (ToLower line) <> "" ->
      TrimSpace (ToLower line) ∈ choices -> chooses choices s (TrimSpace (ToLower line)) rest
  | chooses_again s line rest value end_ : typed_line s line rest -> TrimSpace (ToLower line) <> "" ->
      TrimSpace (ToLower line) ∉ choices -> chooses choices rest value end_ -> chooses choices s value end_.

(** The answers of the wizard: the target, the instance name, the port range when no
    instance is named ([kept] when it is left blank), and the format. *)
Definition wizard_answers (kept s target instance range format : string) : Prop :=
  exists s1 s2 s3 rest, answer s target s1 /\ answer s1 instance s2
    /\ (instance = "" /\ (exists typed, answer s2 typed s3 /\ range = if bool_decide (typed = "") then kept else typed)
        \/ instance <> "" /\ s3 = s2 /\ range = kept)
    /\ chooses ["yaml"; "env"] s3 format rest.

(** The key the flags give: that of --auth-key-file, or of --auth-key. *)
Definition flag_key (v : flag_values) (w : init_world) (key : string) : Prop :=
  str_flag v "auth-key-file" = "" /\ key = str_flag v "auth-key"
  \/ str_flag v "auth-key-file" <> "" /\ exists perm text,
       keyAt w (str_flag v "auth-key-file") = KeyData perm text /\ key = trimTrailingNewline text.

(** The settings of a run: with the key and the target both in the flags, those of
    the flags, else those of the answers, with the masked key; the file is that of
    --config, or the one the format has. *)
Definition asked (v : flag_values) (w : init_world) (f : initFlags) : Prop :=
  exists key, flag_key v w key
  /\ iConfig f = (if bool_decide (str_flag v "config" = "") then if bool_decide (iFormat f = "yaml") then "ts-bridge.yaml" else ".env"
                  else str_flag v "config")
  /\ iControlURL f = str_flag v "control-url" /\ iForce f = bool_flag v "force"
  /\ iAuthKeyFile f = str_flag v "auth-key-file" /\ iProfile f = str_flag v "profile"
  /\ if bool_decide (key = "") || bool_decide (str_flag v "target" = "")
     then terminal w = true /\ masked w = Some (iAuthKey f)
          /\ wizard_answers (str_flag v "port-range") (typed w) (iTarget f) (iInstance f) (iPortRange f) (iFormat f)
     else iAuthKey f = key /\ iTarget f = str_flag v "target" /\ iInstance f = TrimSpace (str_flag v "instance")
          /\ iPortRange f = str_flag v "port-range" /\ iFormat f = ToLower (str_flag v "format").

(** ** The lines typed *)

Lemma str_take_S_sep c a b : str_take (S (len a)) (a +:+ String c b) = a +:+ String c "".
Proof. unfold len. induction a as [|x a IH]; cbn; [by destruct b|]. f_equal. exact IH. Qed.

Lemma ReadString_line s l rest : ReadString s = (l, true, rest) <-> exists line, l = line +:+ newline /\ typed_line s line rest.
Proof.
  unfold ReadString, typed_line, newline. split.
  - destruct (index_byte nl s) as [i|] eqn:E; [|done]. intros [= <- <-]. apply index_byte_split in E as (Hs & Hn & Hi).
    exists (str_take i s). split; [|by split]. rewrite <- (str_take_S_sep nl _ (str_drop (S i) s)). by rewrite Hi, <- Hs.
  - intros (line & -> & -> & Hn). cbn [String.append]. rewrite index_byte_app by done.
    by rewrite str_take_S_sep, str_drop_app_sep.
Qed.

(** There is one next line. *)
Lemma typed_line_unique s a b rest rest' : typed_line s a rest -> typed_line s b rest' -> a = b /\ rest = rest'.
Proof.
  intros Ha Hb. assert (ReadString s = (a +:+ newline, true, rest)) as E by (apply ReadString_line; eauto).
  assert (ReadString s = (b +:+ newline, true, rest')) as E' by (apply ReadString_line; eauto).
  rewrite E in E'. injection E' as Hab ->. split; [|done]. apply (f_equal (str_take (len a))) in Hab as Hab'.
  assert (len a = len b) as El by (apply (f_equal len) in Hab; rewrite !len_app in Hab; lia).
  rewrite str_take_app, El, str_take_app in Hab'. done.
Qed.

Lemma answer_unique s a b rest rest' : answer s a rest -> answer s b rest' -> a = b /\ rest = rest'.
Proof. intros (l & Hl & ->) (m & Hm & ->). by destruct (typed_line_unique _ _ _ _ _ Hl Hm) as [-> ->]. Qed.

Lemma chooses_unique choices s a rest : chooses choices s a rest -> forall b rest', chooses choices s b rest' -> a = b /\ rest = rest'.
Proof.
  induction 1 as [s l r Hl E|s l r Hl E Hin|s l r value end_ Hl E Hin _ IH];
    intros b rest' Hb; inversion Hb as [s' l' r' Hl' E'|s' l' r' Hl' E' Hin'|s' l' r' value' end' Hl' E' Hin' Hr']; subst;
    destruct (typed_line_unique _ _ _ _ _ Hl Hl') as [-> ->]; try done. by apply IH.
Qed.

Lemma TrimSpace_newline s : TrimSpace (s +:+ newline) = TrimSpace s.
Proof. unfold newline. by rewrite <- TrimSpace_right, trim_right_snoc, TrimSpace_right. Qed.
Lemma ToLower_newline s : ToLower (s +:+ newline) = ToLower s +:+ newline.
Proof. unfold ToLower. induction s as [|c s IH]; cbn; [done|by rewrite IH]. Qed.

Lemma readRequiredInput_answer s rest a : readRequiredInput s = (rest, Ok a) -> answer s a rest /\ a <> "".
Proof.
  unfold readRequiredInput. destruct (ReadString s) as [[l []] r] eqn:E; cbn [negb]; [|done].
  apply ReadString_line in E as (line & -> & Hl). rewrite TrimSpace_newline. case_bool_decide; [done|]. intros [= <- <-]. split; [by exists line|done].
Qed.
Lemma readOptionalInput_answer s rest a : readOptionalInput s = (rest, Ok a) -> answer s a rest.
Proof.
  unfold readOptionalInput. destruct (ReadString s) as [[l []] r] eqn:E; cbn [negb]; [|done].
  apply ReadString_line in E as (line & -> & Hl). rewrite TrimSpace_newline. intros [= <- <-]. by exists line.
Qed.
Lemma readChoiceInput_chooses choices s rest a : readChoiceInput choices s = Some (rest, Ok a) -> chooses choices s a rest.
Proof.
  unfold readChoiceInput. generalize (S (len s)) as fuel. intros fuel. revert s.
  induction fuel as [|fuel IH]; intros s; [done|]. cbn [choiceLoop].
  destruct (ReadString s) as [[l []] r] eqn:E; cbn [negb]; [|done]. apply ReadString_line in E as (line & -> & Hl).
  rewrite ToLower_newline, TrimSpace_newline. case_bool_decide as He; [intros [= <- <-]; by econstructor|].
  destruct (contains_word choices _) eqn:Hc.
  - apply bool_decide_eq_true in Hc. intros [= <- <-]. by apply chooses_named.
  - intros H%IH. eapply chooses_again; [done..| |exact H]. by apply bool_decide_eq_false in Hc.
Qed.

Section Writes.
Context `{UrlPackage}.

(** A path that may be written is free, or forced, or was confirmed. *)
Definition may_replace (w : init_world) (force : bool) (input path : string) : Prop :=
  existsAt w path = true -> force = true \/ terminal w = true /\ says_yes input.

Lemma ensureWritable_spec w path force input rest r :
  ensureWritable w path force input = Some (rest, r) -> left_of rest input /\ (r = Ok tt -> may_replace w force input path).
Proof.
  unfold ensureWritable, may_replace, confirmOverwrite. destruct (existsAt w path) eqn:Ex; [|by intros [= <- <-]; split; [apply left_of_refl|]].
  destruct force, (terminal w); cbn [negb andb]; try by intros [= <- <-]; split; [apply left_of_refl|auto].
  destruct (confirmLoop _ input) as [[rest' yes]|] eqn:Ec; [|done]. cbn [mbind option_bind]. intros [= <- <-].
  apply confirmLoop_spec in Ec as [Hl Hy]. split; [done|]. destruct yes; [|done]. intros _ _. right. auto.
Qed.

Lemma writeFileWithPerms_spec w path content ws r :
  writeFileWithPerms w path content = (ws, r) ->
  (ws = [(path, content)] /\ r = Ok tt) \/ (ws = [] /\ r = Err (WriteFailed path)).
Proof. unfold writeFileWithPerms. destruct (writable w path); intros [= <- <-]; auto. Qed.

Ltac nothing_written := split; [constructor|]; split; [done|by left].

Lemma writeConfig_spec w f input ws r :
  writeConfig w f input = Some (ws, r) ->
  Forall (fun pc => may_replace w (iForce f) input pc.1) ws
  /\ (r = Ok tt -> checkConfig w f = Ok tt /\ wrote w f ws)
  /\ (is_ok r = false -> ws = [] \/ r = Err (WriteFailed (envBeside (iConfig f)))).
Proof.
  unfold writeConfig, wrote. destruct (checkConfig w f) as [[]|e] eqn:Ec; [|by intros [= <- <-]; nothing_written].
  destruct (bool_decide_reflect (iFormat f = formatYAML)) as [Hf|Hf].
  - unfold writeYAMLConfig. destruct (ensureWritable w (iConfig f) _ input) as [[rest r1]|] eqn:E1; [|done]. cbn [mbind option_bind].
    apply ensureWritable_spec in E1 as [Hl1 H1]. destruct r1 as [[]|e]; [|by intros [= <- <-]; nothing_written].
    destruct (ensureWritable w (envBeside _) _ rest) as [[rest' r2]|] eqn:E2; [|done]. cbn [mbind option_bind].
    apply ensureWritable_spec in E2 as [Hl2 H2]. destruct r2 as [[]|e]; [|by intros [= <- <-]; nothing_written].
    destruct (Values _) as [old|e]; [|by intros [= <- <-]; nothing_written].
    destruct (writeFileWithPerms w (iConfig f) _) as [ws1 r3] eqn:E3. apply writeFileWithPerms_spec in E3 as [[-> ->]|[-> ->]];
      [|by intros [= <- <-]; nothing_written].
    destruct (writeFileWithPerms w (envBeside _) _) as [ws2 r4] eqn:E4. intros [= <- <-].
    assert (may_replace w (iForce f) input (envBeside (iConfig f))) as H2'.
    { intros Hx. destruct (H2 eq_refl Hx) as [|[Ht Hy]]; [by left|right]. split; [done|by eapply says_yes_left]. }
    apply writeFileWithPerms_spec in E4 as [[-> ->]|[-> ->]].
    + split; [apply Forall_cons; split; [by apply H1|by apply Forall_singleton]|]. split; [|done]. intros _. split; [done|]. right. split; [done|]. by exists old.
    + split; [by apply Forall_singleton, H1|]. split; [done|]. intros _. by right.
  - unfold writeEnvConfig. destruct (ensureWritable w (iConfig f) _ input) as [[rest r1]|] eqn:E1; [|done]. cbn [mbind option_bind].
    apply ensureWritable_spec in E1 as [Hl1 H1]. destruct r1 as [[]|e]; [|by intros [= <- <-]; nothing_written].
    intros [= E4]. apply writeFileWithPerms_spec in E4 as [[-> ->]|[-> ->]]; [|nothing_written].
    split; [by apply Forall_singleton, H1|]. split; [|done]. intros _. split; [done|]. by left.
Qed.

Lemma collectInteractiveInputs_spec w f input rest g :
  collectInteractiveInputs w f input = Some (rest, Ok g) ->
  left_of rest input /\ validateAuthKey (iAuthKey g) = Ok tt /\ masked w = Some (iAuthKey g)
  /\ wizard_answers (iPortRange f) input (iTarget g) (iInstance g) (iPortRange g) (iFormat g)
  /\ g = mkInitFlags (iAuthKey g) (iAuthKeyFile f) (iTarget g) (iInstance g) (iPortRange g) (iFormat g) (iConfig f) (iForce f)
           (iProfile f) (iControlURL f).
Proof.
  unfold collectInteractiveInputs. destruct (masked w) as [key|]; [|done]. destruct (validateAuthKey key) as [[]|e] eqn:Ek; [|done].
  pose proof (readRequiredInput_left input) as L1. destruct (readRequiredInput input) as [s1 [target|e]] eqn:A1; [|done]. cbn in L1.
  destruct (validateTarget target); [|done].
  pose proof (readOptionalInput_left s1) as L2. destruct (readOptionalInput s1) as [s2 [instance|e]] eqn:A2; [|done]. cbn in L2.
  match goal with |- context [let '(_, _) := ?x in _] => destruct x as [s3 range] eqn:E3 end.
  assert (L3 : left_of s3 s2).
  { destruct (bool_decide (instance = "")); [|injection E3 as <- _; apply left_of_refl].
    pose proof (readOptionalInput_left s2) as L. destruct (readOptionalInput s2) as [s4 r]. by injection E3 as <- _. }
  destruct range as [range|e]; [|done]. destruct (readChoiceInput _ s3) as [[s5 [format|e]]|] eqn:E5; [|done..]. cbn.
  pose proof (readChoiceInput_chooses _ _ _ _ E5) as A5. apply choiceLoop_left in E5. intros [= <- <-]. cbn.
  split; [eapply left_of_trans; [exact E5|]; eapply left_of_trans; [exact L3|]; by eapply left_of_trans|].
  split; [done|]. split; [done|]. split; [|done]. exists s1, s2, s3, s5.
  split; [by apply readRequiredInput_answer|]. split; [by apply readOptionalInput_answer|]. split; [|exact A5].
  destruct (bool_decide_reflect (instance = "")) as [->|Hi]; [left; split; [done|]|right; by injection E3 as <- <-].
  destruct (readOptionalInput s2) as [s4 [typed|e]] eqn:A3; [|by injection E3]. cbn in E3. injection E3 as <- E3. inv_ok.
  exists typed. split; [by apply readOptionalInput_answer|done].
Qed.

(** The flags of a run that is not of a profile. *)
Lemma initKey_flags v w f g : parseInitFlags v = Ok f -> initKey v w f = Ok g ->
  flag_key v w (iAuthKey g)
  /\ g = mkInitFlags (iAuthKey g) (str_flag v "auth-key-file") (str_flag v "target") (str_flag v "instance")
           (str_flag v "port-range") (ToLower (str_flag v "format")) (str_flag v "config") (bool_flag v "force")
           (str_flag v "profile") (str_flag v "control-url").
Proof.
  unfold parseInitFlags, initKey, flag_key. destruct (contains_word _ _); [|done]. intros [= <-]. cbn.
  intros ([] & _ & Hb)%bind_Ok. destruct (bool_decide_reflect (str_flag v "auth-key-file" = "")) as [E|E].
  { injection Hb as <-. cbn. by split; [left|]. }
  apply bind_Ok in Hb as (key & Hk%map_err_Ok & [= <-]). cbn. split; [right; split; [done|]|done].
  destruct (keyAt w _) as [| | |perm text]; try done. cbn in Hk. exists perm, text. split; [done|].
  destruct (bool_decide (trimTrailingNewline text = "")); [done|]. by destruct (str_any line_break _); [|injection Hk].
Qed.

(** The settings asked for are the only ones. *)
Lemma flag_key_unique v w a b : flag_key v w a -> flag_key v w b -> a = b.
Proof. unfold flag_key. naive_solver congruence. Qed.

Lemma wizard_answers_unique kept s t i r m t' i' r' m' :
  wizard_answers kept s t i r m -> wizard_answers kept s t' i' r' m' -> (t, i, r, m) = (t', i', r', m').
Proof.
  intros (s1 & s2 & s3 & e & A1 & A2 & A3 & A4) (u1 & u2 & u3 & e' & B1 & B2 & B3 & B4).
  destruct (answer_unique _ _ _ _ _ A1 B1) as [-> ->]. destruct (answer_unique _ _ _ _ _ A2 B2) as [-> ->].
  assert (s3 = u3 /\ r = r') as [-> ->].
  { destruct A3 as [(-> & ta & Ha & ->)|(Hn & -> & ->)], B3 as [(Hb & tb & Hb' & ->)|(Hm & -> & ->)]; try done.
    by destruct (answer_unique _ _ _ _ _ Ha Hb') as [-> ->]. }
  by destruct (chooses_unique _ _ _ _ A4 _ _ B4) as [-> ->].
Qed.

Lemma asked_unique v w f g : asked v w f -> asked v w g -> f = g.
Proof.
  intros (k & Hk & Hc & Hu & Hf & Hp & Hn & Ha) (k' & Hk' & Hc' & Hu' & Hf' & Hp' & Hn' & Hb).
  pose proof (flag_key_unique _ _ _ _ Hk Hk') as <-. clear Hk Hk'. destruct f, g. cbn in *.
  destruct (_ || _); [|naive_solver congruence]. destruct Ha as (_ & Hm & Hw), Hb as (_ & Hm' & Hw').
  pose proof (wizard_answers_unique _ _ _ _ _ _ _ _ _ _ Hw Hw') as [= -> -> -> ->]. rewrite Hm in Hm'. injection Hm' as ->. congruence.
Qed.

(** A run that is not of a profile writes the one valid configuration asked for, or nothing. *)
Lemma runInit_files v w doc sys st ws r :
  runInit v w doc sys st = Some (Files (ws, r)) ->
  (ws = [] /\ is_ok r = false)
  \/ exists f input, asked v w f /\ left_of input (typed w) /\ validateAuthKey (iAuthKey f) = Ok tt /\ iForce f = bool_flag v "force"
       /\ writeConfig w f input = Some (ws, r).
Proof.
  unfold runInit, refused. destruct (parseInitFlags v) as [f|e] eqn:Ep; [|intros [= <- <-]; by left].
  case_match; [intros [= <- <-]; by left|]. case_match.
  { destruct (validateProfileModeFlags v); [|intros [= <- <-]; by left]. by destruct (runInitProfile f doc sys st). }
  destruct (initKey v w f) as [g|e] eqn:Ek; [|intros [= <- <-]; by left].
  destruct (initKey_flags _ _ _ _ Ep Ek) as [Hkey Hg]. rewrite Hg. cbn [iAuthKey iTarget]. set (key := iAuthKey g) in *. clearbody key. clear Hg Ek Ep g.
  destruct (_ || _) eqn:Ew.
  - unfold runInitInteractive. destruct (terminal w) eqn:Et; cbn [negb]; [|intros [= <- <-]; by left].
    destruct (collectInteractiveInputs w _ (typed w)) as [[input [h|e]]|] eqn:Ec; [|intros [= <- <-]; by left|done].
    cbn [mbind option_bind]. apply collectInteractiveInputs_spec in Ec as (Hl & Hk & Hm & Ha & Hh). cbn in Ha, Hh.
    destruct (writeConfig w _ input) as [[ws' r']|] eqn:Eo; [|done]. intros [= -> ->]. right. eexists _, input.
    split; [|split; [done|]; split; [|split; [|exact Eo]]; rewrite Hh; cbn; by destruct (bool_decide (str_flag v "config" = ""))].
    exists key. rewrite Ew. rewrite Hh. cbn. destruct (bool_decide_reflect (str_flag v "config" = "")) as [E|E]; cbn; rewrite ?E; by split_and!.
  - unfold runInitNonInteractive. destruct (checkFlags _) as [[]|e] eqn:Ec; [|intros [= <- <-]; by left].
    destruct (writeConfig w _ _) as [[ws' r']|] eqn:Eo; [|done]. intros [= -> ->]. right. eexists _, (typed w).
    split; [|split; [apply left_of_refl|]; split; [|split; [|exact Eo]]].
    + exists key. rewrite Ew. cbn. destruct (bool_decide_reflect (str_flag v "config" = "")) as [E|E]; cbn; rewrite ?E; by split_and!.
    + unfold checkFlags in Ec. apply bind_Ok in Ec as ([] & Ec & _). cbn in Ec |- *. by destruct (bool_decide (str_flag v "config" = "")).
    + cbn. by destruct (bool_decide (str_flag v "config" = "")).
Qed.
End Writes.

(** * Properties *)

(** Whatever is typed and whatever the machine answers, the command ends: every
    round of a prompt that asks again takes a line, and when the input ends the
    prompt gives up. *)
Theorem init_terminates `{UrlPackage} v w doc sys st : is_Some (runInit v w doc sys st).
Proof. apply runInit_total. Qed.

(** A file that was there before is only replaced with --force, or after a line that
    says yes was typed at a terminal; and a run that fails wrote nothing, unless what
    failed is writing the .env file beside the YAML file just written. *)
Theorem init_asks_before_replacing `{UrlPackage} v w doc sys st ws r
    (HR : runInit v w doc sys st = Some (Files (ws, r))) :
  (forall path text, (path, text) ∈ ws -> existsAt w path = true ->
     bool_flag v "force" = true \/ terminal w = true /\ says_yes (typed w))
  /\ (is_ok r = false -> ws = [] \/ exists yaml, r = Err (WriteFailed (envBeside yaml))).
Proof.
  destruct (runInit_files _ _ _ _ _ _ _ HR) as [[-> _]|(f & input & _ & Hl & _ & Hf & Hw)].
  { split; [by intros ? ? ?%elem_of_nil|by left]. }
  apply writeConfig_spec in Hw as (Hr & _ & He). split.
  - intros path text Hin Hx. rewrite Forall_forall in Hr. destruct (Hr _ Hin Hx) as [Hff|[Ht Hy]]; [left; congruence|].
    right. split; [done|by eapply says_yes_left].
  - intros Hnok. destruct (He Hnok) as [-> | ->]; [by left|right; by eexists].
Qed.


Definition demo_init_flags (format : string) (force : bool) : flag_values :=
  mkFlagValues
    (fun n => if bool_decide (n = "auth-key") then "hskey-1" else if bool_decide (n = "target") then "rdp:3389"
              else if bool_decide (n = "format") then format else "")
    (fun _ => []) (fun _ => 0%Z) (fun _ => 0%Z) (fun _ => 0%Z) (fun n => bool_decide (n = "force") && force)
    (fun n => bool_decide (n = "auth-key")).
Definition demo_init_world (exists_ : bool) (old : string) : init_world :=
  mkInitWorld false None "" (fun _ => exists_) (fun _ => EnvData old) (fun _ => true) "now" (fun _ => KeyReadFails) false.
Definition demo_old := "TS_CONTROL_URL=https://hs.test" +:+ newline +:+ "A=b" +:+ newline.
Definition demo_run (format : string) : option init_run :=
  @runInit simpleUrl (demo_init_flags format true) (demo_init_world true demo_old) DocBad healthy (ProfileStore.mkWorld None emptyStore 0).
Definition demo_writes (format : string) : list write :=
  match demo_run format with Some (Files (ws, _)) => ws | _ => [] end.

Lemma demo_yaml_run : demo_run "yaml" = Some (Files (demo_writes "yaml", Ok tt)).
Proof. vm_compute. reflexivity. Qed.

Lemma init_asks_before_replacing_witness :
  length (demo_writes "yaml") = 2
  /\ forall path text, (path, text) ∈ demo_writes "yaml" -> bool_flag (demo_init_flags "yaml" true) "force" = true.
Proof.
  split; [vm_compute; reflexivity|]. intros path text Hin.
  destruct (proj1 (@init_asks_before_replacing simpleUrl _ _ _ _ _ _ _ demo_yaml_run) path text Hin eq_refl) as [Hf|[Ht _]]; [exact Hf|discriminate Ht].
Defined.

(** The wizard, with a control plane from a flag: a masked key, a target, no instance, a range, and a format asked for
    twice. *)
Definition wizard_typed := "rdp:3389 " +:+ newline +:+ newline +:+ "33389-33400" +:+ newline +:+ "toml" +:+ newline +:+ "ENV" +:+ newline.
Definition wizard_flags : flag_values :=
  mkFlagValues
    (fun n => if bool_decide (n = "format") then "yaml" else if bool_decide (n = "control-url") then "https://hs.test" else "")
    (fun _ => []) (fun _ => 0%Z) (fun _ => 0%Z) (fun _ => 0%Z) (fun _ => false) (fun _ => false).
Definition wizard_world : init_world :=
  mkInitWorld true (Some "hskey-2") wizard_typed (fun _ => false) (fun _ => EnvMissing) (fun _ => true) "now" (fun _ => KeyReadFails) false.
Definition wizard_run : option init_run :=
  @runInit simpleUrl wizard_flags wizard_world DocBad healthy (ProfileStore.mkWorld None emptyStore 0).
Definition wizard_writes : list write := match wizard_run with Some (Files (ws, _)) => ws | _ => [] end.
Definition wizard_settings : initFlags := mkInitFlags "hskey-2" "" "rdp:3389" "" "33389-33400" "env" ".env" false "" "https://hs.test".

Lemma wizard_run_wrote : wizard_run = Some (Files (wizard_writes, Ok tt)).
Proof. vm_compute. reflexivity. Qed.

Ltac typed_is l := exists l; split; [split; vm_compute; reflexivity|vm_compute; reflexivity].
Lemma wizard_asked : asked wizard_flags wizard_world wizard_settings.
Proof.
  exists "". split; [left; split; reflexivity|]. do 5 (split; [reflexivity|]). split; [reflexivity|]. split; [reflexivity|].
  set (s3 := "toml" +:+ newline +:+ "ENV" +:+ newline). set (s2 := "33389-33400" +:+ newline +:+ s3).
  exists (newline +:+ s2), s2, s3, "". split; [typed_is "rdp:3389 "|]. split; [typed_is ""|]. split.
  - left. split; [reflexivity|]. exists "33389-33400". split; [typed_is "33389-33400"|reflexivity].
  - apply (chooses_again _ _ "toml" ("ENV" +:+ newline)); [split; vm_compute; reflexivity|discriminate| |].
    + apply (bool_decide_unpack _). vm_compute. exact I.
    + apply (chooses_named _ _ "ENV" ""); [split; vm_compute; reflexivity|discriminate|]. apply (bool_decide_unpack _). vm_compute. exact I.
Qed.

Lemma flags_asked : asked (demo_init_flags "yaml" true) (demo_init_world true demo_old)
  (mkInitFlags "hskey-1" "" "rdp:3389" "" "" "yaml" "ts-bridge.yaml" true "" "").
Proof. exists "hskey-1". split; [left; split; reflexivity|]. repeat split. Qed.

