(* ===== verification/InitConnect.v ===== *)
(** [init] and [connect] together: the .env file the wizard writes
    (src/cmd/cli/init.go) goes through the loader
    (src/internal/config/envfile/envfile.go) and the merge
    (src/internal/config/merge.go). *)
From S2P Require Import Prelude GoStrings GoNet EnvFile EnvText Credential ControlUrl Config InitCli ConfigMerge.
From Stdlib Require Import Ascii.

Open Scope bool_scope.

(** A value that reads back as it is, and that the environment takes. *)
Definition plain (v : string) : Prop := as_read v = v /\ no_byte nul v = true.
Definition plain_settings (f : initFlags) : Prop :=
  Forall plain [iAuthKey f; iTarget f; iInstance f; iPortRange f; iControlURL f].

Definition envFileKeys : list string := ["TS_AUTHKEY"; "TS_TARGET"; "TS_INSTANCE_NAME"; "TS_PORT_RANGE"; "TS_CONTROL_URL"].

(** An environment that says what [f] says and nothing else. *)
Definition env_of (f : initFlags) (en : environment) : Prop :=
  Getenv en "TS_AUTHKEY" = iAuthKey f /\ Getenv en "TS_TARGET" = iTarget f
  /\ Getenv en "TS_INSTANCE_NAME" = iInstance f /\ Getenv en "TS_PORT_RANGE" = iPortRange f
  /\ Getenv en "TS_CONTROL_URL" = iControlURL f /\ forall k, k ∉ envFileKeys -> Getenv en k = "".

(** * The layers *)

Section Layers.
Context (f : initFlags) (en : environment) (He : env_of f en) (Ht : iTarget f <> "").

Lemma env_unset k : k ∉ envFileKeys -> Getenv en k = "".
Proof. apply He. Qed.

Ltac unset := rewrite !env_unset by (apply (bool_decide_unpack _); vm_compute; exact I).

Lemma layers_of_env :
  let c := apply_layers en no_yaml no_flags in
  Target c = iTarget f /\ SOCKS5Addr c = "" /\ SOCKS5Routes c = ∅ /\ AuthKey c = iAuthKey f /\ ControlURL c = iControlURL f
  /\ BootstrapSSH c = "" /\ BootstrapSOCKSAddr c = "" /\ DialRetries c = 3%Z /\ IdleTimeout c = 0%Z.
Proof.
  destruct He as (Hk & Htg & _ & _ & Hu & _). intros c. subst c. unfold apply_layers. cbv zeta.
  assert (forall c, (if bool_decide (AuthKey c = "") then set_AuthKey (f_ProfileAuthKey no_flags) c else c) = c) as ->.
  { intros []. cbn. by case_bool_decide; subst. }
  unfold applyFlags, applyEnv, applyEnvProxyMode, applyEnvString, applyEnvDuration, applyEnvInt, applyEnvParsed.
  cbn [Target SOCKS5Addr SOCKS5Routes AuthKey ControlURL BootstrapSSH BootstrapSOCKSAddr DialRetries IdleTimeout].
  rewrite Hk, Htg, Hu. unset. rewrite (bool_decide_eq_false_2 (iTarget f = "")) by done. cbn.
  repeat split; repeat case_bool_decide; first [congruence|reflexivity|by symmetry].
Qed.
End Layers.

(** ** The checks [connect] makes, given those [init] made *)

Lemma target_accepted t : InitCli.validateTarget t = Ok tt -> t <> "" /\ ConfigMerge.validateTarget t = Ok tt.
Proof.
  unfold InitCli.validateTarget, ConfigMerge.validateTarget, parse_port, port_in_range. destruct (bool_decide_reflect (t = "")) as [|Ht]; [done|].
  destruct (SplitHostPort t) as [[host port]|e]; [|done]. cbn. destruct (bool_decide (host = "")); [done|]. cbn.
  destruct (Atoi port) as [n|]; [|done]. cbn. destruct (_ || _) eqn:E; [done|]. intros _. split; [done|].
  apply orb_false_iff in E as [E1%Z.ltb_ge E2%Z.ltb_ge]. by rewrite !(proj2 (Z.leb_le _ _)) by lia.
Qed.

Lemma key_accepted k : validateAuthKey k = Ok tt -> k <> "" /\ ValidateKey k = Ok tt.
Proof.
  unfold validateAuthKey. destruct (ValidateKey k) as [[]|e] eqn:E; [|by destruct (bool_decide (k = ""))].
  intros _. split; [|done]. intros ->. done.
Qed.

Lemma range_accepted r : validatePortRange r = Ok tt -> exists a b, parsePortRange r = Ok (a, b) /\ (a <= b)%Z.
Proof.
  unfold validatePortRange, parsePortRange. destruct (Split "-" r) as [|x [|y [|? ?]]]; try done.
  destruct (Atoi (TrimSpace x)) as [a|]; [|done]. destruct (Atoi (TrimSpace y)) as [b|]; [|done].
  destruct (_ || _) eqn:E; [done|]. intros _. exists a, b. rewrite !orb_false_iff, !Z.ltb_ge in E. destruct E as [[E1 E2] E3].
  assert ((a <? 1)%Z || (b >? 65535)%Z || (a >? b)%Z = false) as ->; [|done].
  rewrite !orb_false_iff, Z.ltb_ge, !Z.gtb_ltb, !Z.ltb_ge. done.
Qed.

Lemma default_range : exists a b, parsePortRange defaultAutoPortRange = Ok (a, b) /\ (a <= b)%Z.
Proof. eexists _, _. split; [vm_compute; reflexivity|lia]. Qed.

Section Merged.
Context `{UrlPackage} (m : machine) (f : initFlags).
Hypothesis (He : env_of f (env m)) (Ht : InitCli.validateTarget (iTarget f) = Ok tt)
  (Hk : validateAuthKey (iAuthKey f) = Ok tt) (Hp : ValidateControlPlane (iAuthKey f) (iControlURL f) = Ok tt)
  (Hr : optionally validatePortRange (iPortRange f) = Ok tt).

Lemma derive_error c e : deriveFlagLocalAddr m c no_flags = Err e -> e = NoFreePorts.
Proof.
  unfold deriveFlagLocalAddr, deriveAutoLocalAddr. cbn [f_PortRange no_flags]. cbv zeta.
  rewrite (bool_decide_eq_true_2 ("" = "")) by done. destruct He as (_ & _ & _ & -> & _).
  assert (exists a b, parsePortRange (if bool_decide (iPortRange f = "") then defaultAutoPortRange else iPortRange f) = Ok (a, b)
    /\ (a <= b)%Z) as (a & b & -> & Hle).
  { revert Hr. unfold optionally. destruct (bool_decide (iPortRange f = "")); intros Hr'; [apply default_range|by apply range_accepted]. }
  cbn [mbind result_bind]. intros Hs. match type of Hs with context [selectAvailablePort ?fr ?s a b] =>
    pose proof (selectAvailablePort_spec fr s a b Hle) as Hsel; destruct (selectAvailablePort fr s a b) as [p|e'] end; [done|].
  injection Hs as <-. by destruct Hsel.
Qed.

Lemma auto_error c e : applyAutoInstance m no_flags c = Err e -> e = DeriveLocalAddr NoFreePorts.
Proof.
  unfold applyAutoInstance. destruct (AutoInstance c); cbn [negb]; [|done]. rewrite bind_Err. intros [H1|(c' & _ & H2)].
  - destruct (_ && _); [|done]. apply bind_Err in H1 as [H1|(? & _ & ?)]; [|done].
    destruct (deriveFlagLocalAddr m c no_flags) as [|pe] eqn:E; [done|]. injection H1 as <-. f_equal. by eapply derive_error.
  - cbv zeta in H2. by destruct (_ && _).
Qed.

Lemma modes_accepted : validateModeInputs (env m) no_yaml no_flags = Ok tt.
Proof.
  unfold validateModeInputs, validateModeLayer. rewrite (env_unset f (env m) He "TS_SOCKS5_ADDR") by (apply (bool_decide_unpack _); vm_compute; exact I).
  cbn [y_Target y_SOCKS5Addr f_Target f_SOCKS5Addr no_yaml no_flags]. rewrite !(bool_decide_eq_true_2 ("" = "")) by done.
  cbn. by rewrite andb_false_r.
Qed.

Lemma proxy_accepted : validateMergedProxyConfig (apply_layers (env m) no_yaml no_flags) = Ok tt.
Proof.
  destruct (target_accepted _ Ht) as [Htne Htv]. destruct (key_accepted _ Hk) as [Hkne Hkv].
  destruct (layers_of_env f (env m) He Htne) as (L1 & L2 & L3 & L4 & _). unfold validateMergedProxyConfig, validateRequiredFields.
  rewrite L1, L2, L3, L4, Htv, Hkv. rewrite (bool_decide_eq_false_2 (iTarget f = "")), (bool_decide_eq_false_2 (iAuthKey f = "")) by done.
  rewrite (bool_decide_eq_true_2 (∅ = ∅)) by done. unfold validateSOCKS5Routes. rewrite map_to_list_empty. reflexivity.
Qed.

Lemma plane_accepted : ValidateControlPlane (iAuthKey f) (TrimSpace (iControlURL f)) = Ok tt.
Proof. revert Hp. unfold ValidateControlPlane, TrimSpace. by rewrite trim_idem. Qed.

Lemma retries_accepted c : DialRetries c = 3%Z -> validateDialRetries (env m) no_flags c = Ok tt.
Proof.
  intros Hc. unfold validateDialRetries. rewrite Hc.
  rewrite (env_unset f (env m) He "TS_DIAL_RETRIES") by (apply (bool_decide_unpack _); vm_compute; exact I). reflexivity.
Qed.

Lemma no_bootstrap c : BootstrapSSH c = "" -> BootstrapSOCKSAddr c = "" -> normalizeBootstrapConfig c = Ok (set_bootstrap "" "" c).
Proof. intros H1 H2. unfold normalizeBootstrapConfig. by rewrite H1, H2. Qed.

Lemma no_collision c : BootstrapSOCKSAddr c = "" -> validateBootstrapListenerCollision c = Ok tt.
Proof. intros Hc. unfold validateBootstrapListenerCollision, sameListenerEndpoint. by rewrite Hc. Qed.

Lemma merge_errors e : Merge m no_yaml no_flags = Err e -> e = DeriveLocalAddr NoFreePorts.
Proof.
  destruct (target_accepted _ Ht) as [Htne _].
  destruct (layers_of_env f (env m) He Htne) as (L1 & L2 & L3 & L4 & L5 & L6 & L7 & L8 & L9).
  unfold Merge. rewrite modes_accepted, proxy_accepted. set (c := apply_layers (env m) no_yaml no_flags) in *. clearbody c.
  cbv zeta. cbn [ControlURL AuthKey set_ControlURL]. rewrite L4, L5, plane_accepted. 
  change (validateYAMLAuthKey no_yaml) with (@Ok merge_error unit tt). cbn [mbind result_bind map_err].
  rewrite no_bootstrap by done. cbn [mbind result_bind]. rewrite retries_accepted by (cbn; exact L8). cbn [mbind result_bind].
  unfold validateIdleTimeout. cbn [IdleTimeout set_bootstrap set_ControlURL]. rewrite L9. cbn [Z.ltb Z.compare fail_if mbind result_bind].
  rewrite bind_Err. intros [Ha|(c2 & Ha & Hx)]; [by eapply auto_error|].
  apply applyAutoInstance_Ok in Ha as (_ & _ & _ & A4 & _).
  match type of A4 with context [resolveAutoInstance ?a ?b ?d ?e] => destruct (resolveAutoInstance_eq a b d e) as [b' Eb] end.
  rewrite Eb in A4. cbn in A4. change (if _ && _ then set_LocalAddr defaultLocalAddr c2 else c2) with (fallbacks_1 c2) in Hx.
  destruct (fallbacks_1_spec c2) as (a & Ea & _). rewrite Ea, no_collision in Hx by done. done.
Qed.

(** The merge of such an environment ends in a configuration of these settings, or
    for want of a free port. *)
Lemma merge_of_env :
  match Merge m no_yaml no_flags with
  | Ok cfg => Target cfg = iTarget f /\ AuthKey cfg = iAuthKey f /\ ControlURL cfg = TrimSpace (iControlURL f) /\ SOCKS5Addr cfg = ""
  | Err e => e = DeriveLocalAddr NoFreePorts
  end.
Proof.
  destruct (target_accepted _ Ht) as [Htne _].
  destruct (layers_of_env f (env m) He Htne) as (L1 & L2 & L3 & L4 & L5 & _).
  pose proof (Merge_Ok m no_yaml no_flags) as HM. pose proof merge_errors as HE. destruct (Merge m no_yaml no_flags) as [cfg|e]; [|by apply HE].
  destruct (HM cfg eq_refl) as [_ _ _ _ _ _ Hc Hu _ _ _ _ _ _ _ _]. rewrite Hu, L5. repeat split.
  - rewrite <- L1. exact (f_equal Target Hc).
  - rewrite <- L4. exact (f_equal AuthKey Hc).
  - rewrite <- L2. exact (f_equal SOCKS5Addr Hc).
Qed.
End Merged.

(** * From the file to the environment *)

Section Loaded.
Context (f : initFlags) (content : string) (en : environment).
Hypothesis (Hread : reads_as content (list_to_map (envSettings f))) (Hload : Load (EnvData content) ∅ = Ok en).

Lemma loaded_lookup k : en !! k = match (list_to_map (envSettings f) : gmap string string) !! k with
                                   | Some v => if settable k (as_read v) then Some (as_read v) else None
                                   | None => None
                                   end.
Proof.
  destruct Hread as (m & Hv & Hm). rewrite (Load_lookup _ _ _ m k Hv Hload), Hm, lookup_empty.
  by destruct (list_to_map (envSettings f) !! k).
Qed.

Lemma loaded_some k v : (k, v) ∈ envSettings f -> plain v -> settable k v = true -> Getenv en k = v.
Proof.
  intros Hin [Hv _] Hs. unfold Getenv. rewrite loaded_lookup. apply elem_of_list_to_map in Hin; [|apply NoDup_envSettings].
  by rewrite Hin, Hv, Hs.
Qed.

Lemma loaded_none k : k ∉ (envSettings f).*1 -> Getenv en k = "".
Proof. intros Hk. unfold Getenv. by rewrite loaded_lookup, not_elem_of_list_to_map_1. Qed.

Lemma loaded_given k v :
  settable k "" = true -> plain v -> (v <> "" -> (k, v) ∈ envSettings f) -> (v = "" -> k ∉ (envSettings f).*1) -> Getenv en k = v.
Proof.
  intros Hk Hp Hin Hni. destruct (decide (v = "")) as [->|Hv]; [by apply loaded_none, Hni|].
  apply loaded_some; [by apply Hin|done|]. destruct Hp as [_ Hp]. revert Hk. unfold settable. rewrite !andb_true_iff. tauto.
Qed.

Lemma settings_keys : (envSettings f).*1 ⊆ envFileKeys.
Proof. unfold envSettings, given, envFileKeys. repeat case_bool_decide; set_solver. Qed.

Lemma elem_of_envSettings k v :
  (k, v) ∈ envSettings f <->
  (k, v) = ("TS_AUTHKEY", iAuthKey f) \/ (k, v) = ("TS_TARGET", iTarget f) \/ (k, v) = ("TS_INSTANCE_NAME", iInstance f) /\ iInstance f <> ""
  \/ (k, v) = ("TS_PORT_RANGE", iPortRange f) /\ iPortRange f <> "" \/ (k, v) = ("TS_CONTROL_URL", iControlURL f) /\ iControlURL f <> "".
Proof. unfold envSettings, given. repeat case_bool_decide; rewrite ?elem_of_app, ?elem_of_cons, ?elem_of_nil; naive_solver. Qed.

Lemma key_not_set k v : (k, v) ∈ [("TS_INSTANCE_NAME", iInstance f); ("TS_PORT_RANGE", iPortRange f); ("TS_CONTROL_URL", iControlURL f)] ->
  v = "" -> k ∉ (envSettings f).*1.
Proof.
  intros Hin -> ([k' v'] & Hk & Hx)%list_elem_of_fmap. cbn in Hk. subst k'. apply elem_of_envSettings in Hx.
  rewrite !elem_of_cons, elem_of_nil in Hin. naive_solver.
Qed.

Lemma env_of_loaded : plain_settings f -> iAuthKey f <> "" -> iTarget f <> "" -> env_of f en.
Proof.
  unfold plain_settings. rewrite !Forall_cons. intros (Pk & Pt & Pi & Pr & Pu & _) Hk Ht.
  assert (forall k v, settable k "" = true -> plain v -> (v <> "" -> (k, v) ∈ envSettings f) ->
    (k, v) ∈ [("TS_INSTANCE_NAME", iInstance f); ("TS_PORT_RANGE", iPortRange f); ("TS_CONTROL_URL", iControlURL f)] -> Getenv en k = v) as G.
  { intros k v Hs Hp Hin Hset. apply loaded_given; [done..|]. intros Hv. by eapply key_not_set. }
  unfold env_of. split; [|split; [|split; [|split; [|split]]]].
  1, 2: apply loaded_given; [by vm_compute|done|rewrite elem_of_envSettings; tauto|done].
  1, 2, 3: apply G; [by vm_compute|done|rewrite elem_of_envSettings; tauto|rewrite !elem_of_cons; tauto].
  intros k Hn. apply loaded_none. intros Hin. by apply Hn, settings_keys.
Qed.
End Loaded.

(** * Properties *)

(** C16: what [init] writes in .env mode, [connect] accepts: with no other variable set,
    no flag and no YAML file, the file it wrote loads, and the merge gives
    the target, the key and the control URL init was given, in target mode; only
    the want of a free local port can stop it. *)
Theorem connect_accepts_init `{UrlPackage} (w : init_world) (f : initFlags) (input : string) (ws : list (string * string))
    (m : machine) (HW : writeConfig w f input = Some (ws, Ok tt)) (HF : iFormat f <> formatYAML)
    (HK : validateAuthKey (iAuthKey f) = Ok tt) (HR : optionally validatePortRange (iPortRange f) = Ok tt)
    (Hfits : fits f) (Hplain : plain_settings f) :
  exists text en, ws = [(iConfig f, text)] /\ Load (EnvData text) ∅ = Ok en /\
    (env m = en ->
     match Merge m no_yaml no_flags with
     | Ok cfg => Target cfg = iTarget f /\ AuthKey cfg = iAuthKey f /\ ControlURL cfg = TrimSpace (iControlURL f) /\ SOCKS5Addr cfg = ""
     | Err e => e = DeriveLocalAddr NoFreePorts
     end).
Proof.
  apply writeConfig_spec in HW as (_ & Hok & _). destruct (Hok eq_refl) as [Hc [[_ ->]|[Hy _]]]; [|done].
  pose proof (env_file_reads_as f Hfits) as Hread. destruct Hread as (m' & Hv & Hm).
  exists (buildEnvConfigContent f), (setAll (map_to_list m') ∅). split; [done|].
  assert (Load (EnvData (buildEnvConfigContent f)) ∅ = Ok (setAll (map_to_list m') ∅)) as Hload by (unfold Load; by rewrite Hv).
  split; [exact Hload|]. intros Hen. unfold checkConfig in Hc. apply check_Ok in Hc as [Ht Hc].
  apply bind_Ok in Hc as ([url source] & Hu & Hp). apply map_err_Ok in Hp.
  assert (url = iControlURL f) as ->.
  { unfold effectiveControlURL in Hu. rewrite (bool_decide_eq_false_2 (iFormat f = formatYAML)) in Hu by done.
    rewrite orb_true_r in Hu. by injection Hu as <-. }
  apply (merge_of_env m f); try done. rewrite Hen. eapply env_of_loaded; [by exists m'|exact Hload|done| |].
  - by destruct (key_accepted _ HK).
  - by destruct (target_accepted _ Ht).
Qed.

Definition demo_settings : initFlags :=
  mkInitFlags "hskey-1" "" "rdp:3389" "" "33389-33400" "env" ".env" false "" "https://hs.test".
Definition demo_init_end := @writeConfig simpleUrl (demo_init_world false "") demo_settings "".
Definition demo_env_writes : list (string * string) := match demo_init_end with Some (ws, _) => ws | None => [] end.
Lemma demo_init_ok : demo_init_end = Some (demo_env_writes, Ok tt).
Proof. vm_compute. reflexivity. Qed.

Lemma connect_accepts_init_witness :
  length demo_env_writes = 1 /\
  exists text en, demo_env_writes = [(".env", text)] /\ Load (EnvData text) ∅ = Ok en /\
    match @Merge simpleUrl (demo_merge_machine en) no_yaml no_flags with
    | Ok cfg => Target cfg = "rdp:3389" /\ AuthKey cfg = "hskey-1"
    | Err e => e = DeriveLocalAddr NoFreePorts
    end.
Proof.
  split; [vm_compute; reflexivity|].
  assert (Hfits : fits demo_settings) by (repeat constructor; vm_compute; reflexivity).
  assert (Hplain : plain_settings demo_settings) by (repeat constructor; vm_compute; reflexivity).
  pose proof (fun m => @connect_accepts_init simpleUrl _ demo_settings _ _ m demo_init_ok ltac:(discriminate)
    ltac:(vm_compute; reflexivity) ltac:(vm_compute; reflexivity) Hfits Hplain) as H.
  destruct (H (demo_merge_machine ∅)) as (text & en & Hw & Hl & _). exists text, en. split; [exact Hw|]. split; [exact Hl|].
  destruct (H (demo_merge_machine en)) as (text' & en' & Hw' & Hl' & Hm).
  assert (text' = text) as -> by (rewrite Hw in Hw'; by injection Hw'). rewrite Hl in Hl'. injection Hl' as <-. specialize (Hm eq_refl).
  destruct (Merge _ _ _) as [cfg|e]; [|exact Hm]. destruct Hm as (H1 & H2 & _). split; [exact H1|exact H2].
Defined.
