(* ===== verification/EnvUpdate.v ===== *)
(** Updating the target in a .env file (src/internal/discover/env.go): the lines
    read, the variable set, the file written; and what the loader reads of it
    afterwards. The directory and the file are what the machine answers. *)
From S2P Require Import Prelude GoStrings GoNet GoPath EnvFile EnvText.
From Stdlib Require Import Ascii.

Open Scope bool_scope.

Inductive update_error : Type := CreateDirFailed (dir : string) | ReadEnvFailed | WriteEnvFailed.

(** What the machine says of the path. *)
Record env_place : Type := mkPlace {
  dirMissing : bool;
  mkdirFails : bool;
  envText : env_file;
  writeFails : bool;
}.

(** [("", "")] is a line that is not KEY=VALUE. *)
Definition parseEnvLine (line : string) : string * string :=
  match index_byte "=" line with
  | None | Some 0%nat => ("", "")
  | Some idx => (TrimSpace (str_take idx line), TrimSpace (str_drop (S idx) line))
  end.

(** One round of the loop: the variables so far and the other lines, a carriage
    return dropped. *)
Definition read_round (acc : gmap string string * list string) (line : string) : gmap string string * list string :=
  let '(vars, others) := acc in
  let line := TrimSuffix line (String cr "") in
  let trimmed := TrimSpace line in
  if bool_decide (trimmed = "") || HasPrefix trimmed "#" then (vars, others ++ [line])
  else
    let '(key, val) := parseEnvLine line in
    if bool_decide (key = "") then (vars, others) else (<[key := val]> vars, others).

Definition readEnvFile (f : env_file) : result update_error (gmap string string * list string) :=
  match f with
  | EnvMissing => Ok (∅, [])
  | EnvUnreadable => Err ReadEnvFailed
  | EnvData data =>
      if bool_decide (data = "") then Ok (∅, [])
      else Ok (fold_left read_round (Split nl (TrimSuffix data newline)) (∅, []))
  end.

Definition knownTSKeys : list string :=
  ["TS_AUTHKEY"; "TS_TARGET"; "TS_INSTANCE_NAME"; "TS_PORT_RANGE"; "TS_LOCAL_ADDR"; "TS_HOSTNAME"; "TS_STATE_DIR";
   "TS_CONTROL_URL"; "TS_HEALTH_ADDR"; "TS_LOG_FORMAT"; "TS_IDLE_TIMEOUT"; "TS_DIAL_TIMEOUT"; "TS_DIAL_RETRIES";
   "TS_DIAL_BACKOFF_BASE"; "TS_DIAL_BACKOFF_MAX"; "TS_MAX_CONNECTIONS"; "TS_TIMEOUT"; "TS_DRAIN_TIMEOUT"; "TS_VERBOSE"].

(** The variables written: the known ones in order, then the other TS_ ones, in the
    order the map is ranged over. *)
Definition writtenVars (vars : gmap string string) : list (string * string) :=
  keyPairs vars knownTSKeys
  ++ List.filter (fun kv => HasPrefix kv.1 "TS_") (map_to_list (foldr delete vars knownTSKeys)).
Definition writeEnvFile (writeFails : bool) (vars : gmap string string) (comments : list string) : result update_error string :=
  let text := unlines (comments ++ map env_text (writtenVars vars)) in
  if writeFails then Err WriteEnvFailed else Ok text.

(** The text the file holds afterwards. *)
Definition UpdateEnv (path target : string) (port : Z) (p : env_place) : result update_error string :=
  let dir := Dir path in
  _ ← fail_if (negb (bool_decide (dir = "")) && negb (bool_decide (dir = ".")) && dirMissing p && mkdirFails p) (CreateDirFailed dir);
  '(vars, others) ← readEnvFile (envText p);
  writeEnvFile (writeFails p) (<["TS_TARGET" := target +:+ ":" +:+ Itoa port]> vars) others.

(** * What is read *)

(** A comment or a blank line. *)
Definition is_other (line : string) : bool := bool_decide (TrimSpace line = "") || HasPrefix (TrimSpace line) "#".

Lemma trim_left_sign a b : trim_left is_space (a +:+ String "=" b) = trim_left is_space a +:+ String "=" b.
Proof. induction a as [|c a IH]; [done|]. cbn. by destruct (is_space c). Qed.

Lemma TrimSpace_sign a b : TrimSpace (a +:+ String "=" b) = trim_left is_space a +:+ String "=" (trim_right is_space b).
Proof. unfold TrimSpace, trim. rewrite trim_left_sign. by apply trim_right_keep. Qed.

Lemma TrimSpace_left s : TrimSpace (trim_left is_space s) = TrimSpace s.
Proof. unfold TrimSpace, trim. by rewrite trim_left_idem. Qed.

Lemma TrimSpace_ne s : trim_left is_space s <> "" -> TrimSpace s <> "".
Proof.
  unfold TrimSpace, trim. destruct (trim_left is_space s) as [|c r] eqn:E; [done|]. intros _. apply trim_left_head in E.
  assert (trim_right is_space (String c r) = String c (trim_right is_space r)) as -> by by apply (trim_right_keep "" c r). done.
Qed.

Lemma no_sign_line line : no_byte "=" line = true -> index_byte "=" (TrimSpace line) = None.
Proof. intros Hn. apply index_byte_none. by apply str_all_trim. Qed.

(** The loop reads a line as the loader does, quotes kept. *)
Lemma parseEnvLine_raw line :
  is_other line = false ->
  (if bool_decide ((parseEnvLine line).1 = "") then None else Some (parseEnvLine line)) = raw_line line.
Proof.
  unfold is_other, raw_line, parseEnvLine. intros Ho. rewrite Ho. destruct (index_byte "=" line) as [i|] eqn:Ei.
  - apply index_byte_split in Ei as (Hs & Hnb & Hl). set (a := str_take i line) in *. set (b := str_drop (S i) line) in *.
    assert (TrimSpace line = trim_left is_space a +:+ String "=" (trim_right is_space b)) as -> by (rewrite Hs; apply TrimSpace_sign). rewrite index_byte_app by (by apply str_all_trim_left). rewrite str_take_app, str_drop_app_sep.
    rewrite TrimSpace_left, TrimSpace_right. destruct i as [|n].
    + by destruct a.
    + cbn [fst snd]. destruct (decide (trim_left is_space a = "")) as [Ha|Ha].
      * assert (TrimSpace a = "") as Hta by (unfold TrimSpace, trim; by rewrite Ha). rewrite Ha. by rewrite bool_decide_eq_true_2.
      * rewrite bool_decide_eq_false_2 by (by apply TrimSpace_ne). by destruct (trim_left is_space a).
  - rewrite no_sign_line; [done|]. by apply index_byte_none.
Qed.

(** The state of the loop after lines. *)
Definition read_lines (lines : list string) : gmap string string * list string :=
  fold_left read_round lines (∅, []).

Lemma read_round_spec vars others line :
  read_round (vars, others) line
  = (match raw_line (drop_cr line) with Some (k, v) => <[k := v]> vars | None => vars end,
     if is_other (drop_cr line) then others ++ [drop_cr line] else others).
Proof.
  unfold read_round. change (TrimSuffix line (String cr "")) with (drop_cr line). cbv zeta.
  change (bool_decide (TrimSpace (drop_cr line) = "") || HasPrefix (TrimSpace (drop_cr line)) "#") with (is_other (drop_cr line)).
  destruct (is_other (drop_cr line)) eqn:Ho.
  - assert (raw_line (drop_cr line) = None) as ->; [|done]. unfold raw_line. unfold is_other in Ho. by rewrite Ho.
  - rewrite <- (parseEnvLine_raw _ Ho). destruct (parseEnvLine (drop_cr line)) as [k v]. cbn [fst]. by destruct (bool_decide (k = "")).
Qed.

(** The variables and the other lines, as functions of the lines. *)
Lemma read_lines_spec lines vars others :
  fold_left read_round lines (vars, others)
  = (fold_left (fun m kv => <[kv.1 := kv.2]> m) (omap (fun l => raw_line (drop_cr l)) lines) vars,
     others ++ List.filter is_other (map drop_cr lines)).
Proof.
  revert vars others. induction lines as [|l lines IH]; intros vars others; cbn [fold_left map List.filter]; [by rewrite app_nil_r|].
  rewrite read_round_spec, IH. cbn [omap list_omap]. f_equal.
  - by destruct (raw_line (drop_cr l)) as [[k v]|].
  - destruct (is_other (drop_cr l)); [by rewrite <- app_assoc|done].
Qed.

(** * The lines of a file *)

Lemma Join_snoc_empty l sep : l <> [] -> Join (l ++ [""]) sep = Join l sep +:+ sep.
Proof.
  induction l as [|x l IH]; [done|]. intros _. destruct l as [|y l]; [cbn; by rewrite str_app_nil_r|].
  change ((x :: y :: l) ++ [""]) with (x :: ((y :: l) ++ [""])). rewrite !Join_cons by done. rewrite IH by done. by rewrite !str_app_assoc.
Qed.

Lemma lines_scanned data : data <> "" -> Split nl (TrimSuffix data newline) = scan_lines data.
Proof.
  intros Hd. unfold TrimSuffix, scan_lines. destruct (HasSuffix data newline) eqn:E.
  - apply HasSuffix_spec in E as [a ->]. rewrite len_app. replace (len a + len newline - len newline)%nat with (len a) by lia.
    rewrite str_take_app. change (a +:+ newline) with (a +:+ String nl ""). rewrite Split_app. cbn [Split]. by rewrite last_snoc, removelast_last.
  - destruct (last (Split nl data)) as [[|c s]|] eqn:El; [|done..]. exfalso. apply last_Some in El as [l El].
    pose proof (Join_Split nl data) as Hj. rewrite El in Hj. destruct l as [|x l]; [by cbn in Hj; subst|].
    rewrite Join_snoc_empty in Hj by done. rewrite <- Hj in E. unfold newline in E. by rewrite HasSuffix_app in E.
Qed.

(** ** Folding pairs into a map *)

Definition insert_pairs (pairs : list (string * string)) (m : gmap string string) : gmap string string :=
  fold_left (fun m kv => <[kv.1 := kv.2]> m) pairs m.

Lemma insert_pairs_fmap (g : string -> string) pairs m :
  insert_pairs (map (fun kv => (kv.1, g kv.2)) pairs) (g <$> m) = g <$> insert_pairs pairs m.
Proof. revert m. induction pairs as [|[k v] pairs IH]; intros m; [done|]. cbn. rewrite <- fmap_insert. apply IH. Qed.

Lemma insert_pairs_Forall (P : string -> string -> Prop) pairs m :
  Forall (fun kv => P kv.1 kv.2) pairs -> map_Forall P m -> map_Forall P (insert_pairs pairs m).
Proof.
  intros H. revert m. induction H as [|[k v] pairs Hp _ IH]; intros m Hm; [done|]. cbn. apply IH. by apply map_Forall_insert_2.
Qed.

(** The variables of a file before and after the quotes are removed. *)
Lemma env_lines_raw lines :
  env_lines lines ∅ = unquote <$> insert_pairs (omap (fun l => raw_line (drop_cr l)) lines) ∅.
Proof.
  rewrite env_lines_omap, <- (insert_pairs_fmap unquote), fmap_empty. unfold insert_pairs. f_equal.
  induction lines as [|l lines IH]; [done|]. cbn [omap list_omap]. rewrite <- env_line_drop_cr, env_line_raw.
  destruct (raw_line (drop_cr l)) as [[k v]|]; cbn [fmap option_fmap option_map map]; by rewrite IH.
Qed.

(** * What is written *)

(** What the variables of a map become when the file is written. *)
Definition ts_only (m : gmap string string) : gmap string string := filter (fun kv => HasPrefix kv.1 "TS_" = true) m.

Lemma known_keys_ts : Forall (fun k => HasPrefix k "TS_" = true) knownTSKeys.
Proof. repeat constructor. Qed.
Lemma NoDup_knownTSKeys : NoDup knownTSKeys.
Proof. apply (bool_decide_unpack _). vm_compute. exact I. Qed.

Lemma elem_of_filter_pairs (p : string * string -> bool) l x : x ∈ List.filter p l <-> x ∈ l /\ p x = true.
Proof. by rewrite !list_elem_of_In, List.filter_In. Qed.

Lemma elem_of_writtenVars vars k v : (k, v) ∈ writtenVars vars <-> ts_only vars !! k = Some v.
Proof.
  unfold writtenVars, ts_only. rewrite elem_of_app, elem_of_keyPairs, elem_of_filter_pairs, elem_of_map_to_list, map_lookup_filter_Some.
  cbn [fst]. pose proof (proj1 (Forall_forall _ _) known_keys_ts k) as Hk. rewrite lookup_foldr_delete_Some.
  destruct (decide (k ∈ knownTSKeys)); naive_solver.
Qed.

Lemma NoDup_filter_keys (p : string * string -> bool) l : NoDup l.*1 -> NoDup (List.filter p l).*1.
Proof.
  induction l as [|[k v] l IH]; [done|]. cbn. intros [Hk Hl]%NoDup_cons. destruct (p (k, v)); [|by apply IH]. cbn.
  constructor; [|by apply IH]. intros ([k' v'] & E & Hin)%list_elem_of_fmap. cbn in E. subst k'. apply Hk.
  apply elem_of_filter_pairs in Hin as [Hin _]. apply list_elem_of_fmap. by exists (k, v').
Qed.

Lemma NoDup_writtenVars vars : NoDup (writtenVars vars).*1.
Proof.
  unfold writtenVars. rewrite fmap_app, NoDup_app. split; [apply NoDup_keyPairs, NoDup_knownTSKeys|].
  split; [|apply NoDup_filter_keys, NoDup_fst_map_to_list].
  intros k ([k1 v1] & -> & H1)%list_elem_of_fmap ([k2 v2] & E & H2)%list_elem_of_fmap. cbn in E. subst k2.
  apply elem_of_keyPairs in H1 as [H1 _]. apply elem_of_filter_pairs in H2 as [H2 _]. apply elem_of_map_to_list in H2.
  by apply lookup_foldr_delete_Some in H2 as [H2 _].
Qed.

(** A variable as it was read: what a line holds, its value trimmed. *)
Definition kept_var (k v : string) : Prop := (env_key k /\ line_ok (env_text (k, v))) /\ TrimSpace v = v.

Lemma drop_cr_ok l : line_ok l -> line_ok (drop_cr l).
Proof.
  intros [Hn Hl]. destruct (drop_cr_or l) as [->|Hs]; [done|]. split.
  - by destruct (no_byte_sub nl l _ _ Hs Hn).
  - pose proof (f_equal len Hs) as Hlen. rewrite len_app in Hlen. lia.
Qed.

(** ** A file read for an update, and the loader's reading of it *)

Lemma readEnvFile_spec f vars others old :
  readEnvFile f = Ok (vars, others) -> Values f = Ok old ->
  old = unquote <$> vars /\ map_Forall kept_var vars /\ Forall (fun l => line_ok l /\ env_line l = None) others
  /\ forall data, f = EnvData data -> others = List.filter is_other (map drop_cr (scan_lines data)).
Proof.
  destruct f as [data| |]; cbn [readEnvFile Values]; [|intros [= <- <-] [= <-]; by rewrite fmap_empty|done].
  destruct (existsb _ _) eqn:E; [done|]. destruct (bool_decide_reflect (data = "")) as [->|Hne].
  - intros [= <- <-] [= <-]. split; [by rewrite fmap_empty|]. split; [done|]. split; [constructor|by intros ? [= <-]].
  - rewrite lines_scanned, read_lines_spec by done. intros [= <- <-] [= <-].
    assert (Forall line_ok (map drop_cr (scan_lines data))) as Hok.
    { apply Forall_map, Forall_forall. intros l Hl. by eapply drop_cr_ok, scan_lines_short. }
    split; [apply env_lines_raw|]. split; [|split].
    + apply insert_pairs_Forall; [|done]. apply Forall_forall. intros [k v] (l & Hl & Hkv)%list_elem_of_omap. cbn.
      pose proof (scan_lines_short data l E Hl) as Hl'. apply drop_cr_ok in Hl'.
      apply raw_line_spec in Hkv as [Hf Ht]; [|apply Hl']. split; [by eapply from_line_ok|done].
    + apply Forall_forall. intros l Hl. apply list_elem_of_In, List.filter_In in Hl as [Hl Ho]. apply list_elem_of_In in Hl.
      split; [by eapply Forall_forall|]. unfold env_line. unfold is_other in Ho. by rewrite Ho.
    + by intros data' [= <-].
Qed.

Lemma written_reads_as vars others :
  Forall (fun l => line_ok l /\ env_line l = None) others -> map_Forall (fun k v => env_key k /\ line_ok (env_text (k, v))) vars ->
  reads_as (unlines (others ++ map env_text (writtenVars vars))) (ts_only vars).
Proof.
  intros Ho Hv. assert (Forall (fun kv => env_key kv.1 /\ line_ok (env_text kv)) (writtenVars vars)) as Hw.
  { apply Forall_forall. intros [k v] Hin%elem_of_writtenVars. apply map_lookup_filter_Some in Hin as [Hin _]. by apply Hv. }
  apply (reads_as_pairs _ (writtenVars vars)).
  - apply Forall_app. split; [eapply Forall_impl; [exact Ho|by intros ? []]|]. apply Forall_map.
    eapply Forall_impl; [exact Hw|by intros ? []].
  - rewrite omap_app, omap_env_pairs by (eapply Forall_impl; [exact Hw|by intros ? []]).
    rewrite omap_env_none; [done|]. eapply Forall_impl; [exact Ho|by intros ? []].
  - apply NoDup_writtenVars.
  - apply elem_of_writtenVars.
Qed.

Lemma updated_file path target port p text old :
  UpdateEnv path target port p = Ok text -> Values (envText p) = Ok old ->
  line_ok (env_text ("TS_TARGET", target +:+ ":" +:+ Itoa port)) ->
  exists new, Values (EnvData text) = Ok new
     /\ new !! "TS_TARGET" = Some (as_read (target +:+ ":" +:+ Itoa port))
     /\ forall k, k <> "TS_TARGET" -> new !! k = if HasPrefix k "TS_" then old !! k else None.
Proof.
  intros HU HV HT.   unfold UpdateEnv in HU. cbv zeta in HU. apply check_Ok in HU as [_ HU].
  apply bind_Ok in HU as ([vars others] & Hr & Hw). destruct (readEnvFile_spec _ _ _ _ Hr HV) as (-> & Hk & Ho & Hd).
  unfold writeEnvFile in Hw. destruct (writeFails p); [done|]. injection Hw as <-. set (value := target +:+ ":" +:+ Itoa port) in *.
  destruct (written_reads_as (<["TS_TARGET" := value]> vars) others) as (new & Hn & Hlook); [done| |].
  { apply map_Forall_insert_2; [split; [|done]|]; [repeat split; by vm_compute|]. by eapply map_Forall_impl; [exact Hk|intros ? ? []]. }
  exists new. split; [done|]. split.
  - rewrite Hlook. unfold ts_only. rewrite map_filter_insert_True, lookup_insert_eq; done.
  - intros k Hne. rewrite Hlook. unfold ts_only. rewrite map_lookup_filter, lookup_insert_ne, lookup_fmap by done.
    destruct (vars !! k) as [v|] eqn:Ev; cbn; [|by destruct (HasPrefix k "TS_")].
    apply Hk in Ev as [_ Htrim]. destruct (HasPrefix k "TS_"); [|done].
    change (Some (as_read v) = Some (unquote v)). unfold as_read. by rewrite Htrim.
Qed.

(** * Properties *)

(** An update sets the target and keeps every other TS_ variable as the loader reads
    it, and the comments and blank lines in their order, first. Every variable
    whose name does not start with TS_ is gone. *)
Theorem update_keeps_ts_variables path target port p text old
    (HU : UpdateEnv path target port p = Ok text) (HV : Values (envText p) = Ok old)
    (HT : line_ok (env_text ("TS_TARGET", target +:+ ":" +:+ Itoa port))) :
  (exists new, Values (EnvData text) = Ok new
     /\ new !! "TS_TARGET" = Some (as_read (target +:+ ":" +:+ Itoa port))
     /\ forall k, k <> "TS_TARGET" -> new !! k = if HasPrefix k "TS_" then old !! k else None)
  /\ (forall data, envText p = EnvData data ->
        exists vars, text = unlines (List.filter is_other (map drop_cr (scan_lines data)) ++ map env_text vars)).
Proof.
  split; [by eapply updated_file|]. intros data Hx. unfold UpdateEnv in HU. cbv zeta in HU. apply check_Ok in HU as [_ HU].
  apply bind_Ok in HU as ([vars others] & Hr & Hw). destruct (readEnvFile_spec _ _ _ _ Hr HV) as (_ & _ & _ & Hd).
  unfold writeEnvFile in Hw. destruct (writeFails p); [done|]. injection Hw as <-. eexists. by rewrite (Hd data Hx).
Qed.

Definition demo_place : env_place :=
  mkPlace false false (EnvData ("# mine" +:+ newline +:+ "TS_STATE_DIR='/a b'" +:+ newline +:+ "HTTPS_PROXY=http://proxy:8080")) false.

Lemma update_keeps_ts_variables_witness :
  is_ok (UpdateEnv ".env" "rdp" 3389 demo_place) = true /\
  exists text new, UpdateEnv ".env" "rdp" 3389 demo_place = Ok text /\ Values (EnvData text) = Ok new
    /\ new !! "TS_TARGET" = Some "rdp:3389" /\ new !! "TS_STATE_DIR" = Some "/a b" /\ new !! "HTTPS_PROXY" = None.
Proof.
  split; [vm_compute; reflexivity|].
  destruct (UpdateEnv ".env" "rdp" 3389 demo_place) as [text|e] eqn:EU; [|vm_compute in EU; discriminate EU].
  destruct (Values (envText demo_place)) as [old|e] eqn:EV; [|vm_compute in EV; discriminate EV].
  assert (old !! "TS_STATE_DIR" = Some "/a b") as Hold.
  { assert (match Values (envText demo_place) with Ok m => m !! "TS_STATE_DIR" = Some "/a b" | Err _ => False end) as Hx by (vm_compute; reflexivity).
    by rewrite EV in Hx. }
  assert (HT : line_ok (env_text ("TS_TARGET", "rdp" +:+ ":" +:+ Itoa 3389))) by (split; vm_compute; reflexivity).
  destruct (update_keeps_ts_variables _ _ _ _ _ _ EU EV HT) as [(new & Hn & Ht & Hk) _].
  exists text, new. split; [done|]. split; [exact Hn|]. split; [rewrite Ht; vm_compute; reflexivity|].
  split; [rewrite (Hk "TS_STATE_DIR") by discriminate; exact Hold|rewrite (Hk "HTTPS_PROXY") by discriminate; vm_compute; reflexivity].
Defined.
