(* ===== verification/Discover.v ===== *)
(** Device discovery: the two control-plane APIs (src/internal/discover/device.go,
    headscale.go, tailscale.go) and the command [discover]
    (src/cmd/cli/discover.go). What the APIs answer, the decoding of their JSON and
    the text of a time are parameters; a request is a value, so that what is sent
    and where is part of the result. What is printed is left out. *)
From S2P Require Import Prelude GoStrings GoNet GoPath EnvFile Credential ControlUrl GoUrl Descriptor ProfileStore Connect.
From S2P Require Import InitCli EnvText EnvUpdate HostCli.
From Stdlib Require Import Ascii Sorting.Sorted.

Open Scope bool_scope.

(** * Devices *)

(** The members of the API's device that the program fills. *)
Record Device : Type := mkDevice {
  Addresses : list string;
  DeviceID : string;
  NodeID : string;
  User : string;
  Name : string;
  Hostname : string;
  OS : string;
  Tags : list string;
  Created : string;
  LastSeen : string;
  Expires : string;
  Authorized : bool;
  IsExternal : bool;
}.

(** A JSON value, as far as it is looked at: of an array's items, the strings. *)
Inductive json_any : Type := JString (s : string) | JArray (l : list (option string)) | JOther.

(** A device as its JSON decodes, before [UnmarshalJSON] reads the addresses. *)
Record headscale_json : Type := mkHeadscaleJSON {
  jID : string;
  jDeviceName : string;
  jUser : string;
  jIP : json_any;
  jLastSeen : string;
  jExpires : string;
  jAuthorized : bool;
  jIsExternal : bool;
}.
Record HeadscaleDevice : Type := mkHeadscaleDevice {
  hID : string;
  hName : string;
  hUser : string;
  IPs : list string;
  hLastSeen : string;
  hExpires : string;
  hAuthorized : bool;
  hIsExternal : bool;
}.

(** One address or many. *)
Definition ips_of (v : json_any) : list string :=
  match v with
  | JString s => if bool_decide (s = "") then [] else [s]
  | JArray l => omap (fun i => match i with Some s => if bool_decide (s = "") then None else Some s | None => None end) l
  | JOther => []
  end.
Definition UnmarshalJSON (aux : headscale_json) : HeadscaleDevice :=
  mkHeadscaleDevice (jID aux) (jDeviceName aux) (jUser aux) (ips_of (jIP aux)) (jLastSeen aux) (jExpires aux) (jAuthorized aux)
    (jIsExternal aux).

Definition convertHeadscaleDevices (devices : list HeadscaleDevice) : list Device :=
  map (fun d => mkDevice (IPs d) "" "" (hUser d) (hName d) (hName d) "" [] "" (hLastSeen d) (hExpires d) (hAuthorized d) false) devices.

(** A time is seconds since the zero time. *)
Record ts_device : Type := mkTsDevice {
  tAddresses : list string;
  tID : string;
  tNodeID : string;
  tUser : string;
  tName : string;
  tHostname : string;
  tOS : string;
  tTags : list string;
  tCreated : Z;
  tLastSeen : option Z;
  tExpires : Z;
  tAuthorized : bool;
  tIsExternal : bool;
}.

(** * The APIs *)

Inductive api_error : Type :=
  | APIKeyRequired | ControlURLRequired | TailnetRequired
  | RequestInvalid
  | TransportFailed (text : string) (remediation : option string)
  | APIAuthFailed (status : Z) (msg : string)
  | EndpointNotFound (msg : string)
  | APIStatus (status : Z) (msg : string)
  | ResponseRead | ResponseFormat.

Record request : Type := mkRequest { rURL : string; rAuthorization : string }.
(** An answer's body is what could be read of it. *)
Inductive http_answer : Type := TransportError (text : string) | Response (status : Z) (body : string) (readFails : bool).
(** A call to an API: a request to a Headscale server, or Tailscale's client. *)
Inductive api_call : Type := HeadscaleGet (r : request) | TailscaleList (tailnet key : string).

(** [io.LimitReader]. *)
Definition limited (n : Z) (s : string) : string := str_take (Z.to_nat n) s.

Definition containsAny (text : string) (subs : list string) : bool := existsb (Contains text) subs.

Definition diagnoseHeadscaleAPIError (text : string) : option (string * string) :=
  let msg := ToLower text in
  if containsAny msg ["context deadline exceeded"; "i/o timeout"; "connection refused"]
  then Some ("Headscale API unreachable", "check that TS_CONTROL_URL points to a running Headscale instance and the network is reachable")
  else if containsAny msg ["tls"]
  then Some ("TLS certificate error", "verify the Headscale instance has a valid TLS certificate or use an HTTPS URL")
  else None.
Definition diagnoseTailscaleAPIError (text : string) : option (string * string) :=
  let msg := ToLower text in
  if containsAny msg ["api key does not exist"; "invalid key"; "key expired"; "unauthorized"; "401"; "403"]
  then Some ("API key rejected by Tailscale API (invalid, expired, or missing devices:read scope)",
             "generate a new API key at https://login.tailscale.com/admin/settings/keys with the " +:+ Quote "devices:read" +:+ " scope")
  else if containsAny msg ["not found"; "404"]
  then Some ("tailnet not found — check that the tailnet name is correct", "find your tailnet name at https://login.tailscale.com/admin/dns")
  else if containsAny msg ["rate limit"; "429"]
  then Some ("Tailscale API rate limit exceeded", "wait a moment and retry; the API allows ~60 requests/minute per key")
  else if containsAny msg ["context deadline exceeded"; "i/o timeout"; "connection refused"]
  then Some ("Tailscale API unreachable", "check network connectivity to https://api.tailscale.com")
  else None.

(** The world of a run: the APIs, the files and the terminal. *)
Record discover_world : Type := mkDiscoverWorld {
  requestValid : string -> bool;
  headscale : request -> http_answer;
  decodeArray : string -> option (list headscale_json);
  decodeWrapper : string -> option (list headscale_json);
  tailscale : string -> string -> result string (list ts_device);
  rfc3339 : Z -> string;
  variables : environment;
  keyFiles : string -> key_file;
  onWindowsHost : bool;
  terminalInput : bool;
  typedText : string;
  dotEnvPlace : env_place;
}.

Definition headscaleURL (controlURL : string) : string :=
  (if HasSuffix controlURL "/" then controlURL else controlURL +:+ "/") +:+ "api/v1/device".

Definition parseHeadscale (w : discover_world) (body : string) : result api_error (list HeadscaleDevice) :=
  match decodeArray w body with
  | Some raw => Ok (map UnmarshalJSON raw)
  | None => match decodeWrapper w body with Some raw => Ok (map UnmarshalJSON raw) | None => Err ResponseFormat end
  end.

Definition ListHeadscaleDevices (w : discover_world) (apiKey controlURL : string) : list api_call * result api_error (list HeadscaleDevice) :=
  if bool_decide (apiKey = "") then ([], Err APIKeyRequired)
  else if bool_decide (controlURL = "") then ([], Err ControlURLRequired)
  else
    let r := mkRequest (headscaleURL controlURL) ("Bearer " +:+ apiKey) in
    if negb (requestValid w (rURL r)) then ([], Err RequestInvalid)
    else
      ([HeadscaleGet r],
       match headscale w r with
       | TransportError text => Err (TransportFailed text (snd <$> diagnoseHeadscaleAPIError text))
       | Response status body readFails =>
           if negb (status =? 200)%Z then
             let msg := TrimSpace (limited 4096 body) in
             Err (if (status =? 401)%Z || (status =? 403)%Z then APIAuthFailed status msg
                  else if (status =? 404)%Z then EndpointNotFound msg else APIStatus status msg)
           else if readFails then Err ResponseRead
           else parseHeadscale w (limited (2 ^ 20) body)
       end).

Definition formatTSTime (w : discover_world) (t : Z) : string := if (t =? 0)%Z then "" else rfc3339 w t.
Definition formatTSTimePtr (w : discover_world) (t : option Z) : string := match t with None => "" | Some t => formatTSTime w t end.
Definition convertTailscaleDevices (w : discover_world) (devices : list ts_device) : list Device :=
  map (fun d => mkDevice (tAddresses d) (tID d) (tNodeID d) (tUser d) (tName d) (tHostname d) (tOS d) (tTags d)
                  (formatTSTime w (tCreated d)) (formatTSTimePtr w (tLastSeen d)) (formatTSTime w (tExpires d))
                  (tAuthorized d) (tIsExternal d)) devices.
Definition ListDevices (w : discover_world) (apiKey tailnet : string) : list api_call * result api_error (list Device) :=
  if bool_decide (apiKey = "") then ([], Err APIKeyRequired)
  else if bool_decide (tailnet = "") then ([], Err TailnetRequired)
  else ([TailscaleList tailnet apiKey],
        match tailscale w tailnet apiKey with
        | Err text => Err (TransportFailed text (snd <$> diagnoseTailscaleAPIError text))
        | Ok devices => Ok (convertTailscaleDevices w devices)
        end).

(** * The command *)

Record discoverFlags : Type := mkDiscoverFlags {
  dJSON : bool;
  dFilter : string;
  dAuto : bool;
  dPort : Z;
  dAPIKey : string;
  dAPIKeyFile : string;
  dTailnet : string;
  dProfile : string;
}.

Inductive discover_error : Type :=
  | ProfileNameMissing | JSONSavesNothing (profile : string) | BadPort (port : Z)
  | KeyFileFailed (e : key_file_error)
  | HeadscaleKeyMissing | TailscaleKeyMissing | TailnetMissing
  | FromHeadscale (e : api_error) | FromTailscale (e : api_error)
  | NoSelection | ManyHosts (input : string) | NoHost (input : string)
  | UpdateFailed (e : update_error)
  | ProfileImport (e : import_error).

Definition parseDiscoverFlags (v : flag_values) : result discover_error discoverFlags :=
  let apiKey := if bool_decide (str_flag v "api-key" = "") then str_flag v "auth-key" else str_flag v "api-key" in
  let f := mkDiscoverFlags (bool_flag v "json") (str_flag v "filter") (bool_flag v "auto") (int_flag v "port") apiKey
             (str_flag v "api-key-file") (str_flag v "tailnet") (str_flag v "profile") in
  _ ← fail_if (Changed v "profile" && bool_decide (dProfile f = "")) ProfileNameMissing;
  _ ← fail_if (dJSON f && negb (bool_decide (dProfile f = ""))) (JSONSavesNothing (dProfile f));
  _ ← fail_if ((dPort f <? 1)%Z || (65535 <? dPort f)%Z) (BadPort (dPort f));
  Ok f.

(** ** Listing *)

Definition discoverAPIKey (w : discover_world) (f : discoverFlags) (envName : string) : result discover_error string :=
  if negb (bool_decide (dAPIKeyFile f = "")) then map_err KeyFileFailed (readAuthKeyFile (onWindowsHost w) (keyFiles w (dAPIKeyFile f))).2
  else if negb (bool_decide (dAPIKey f = "")) then Ok (dAPIKey f)
  else Ok (Getenv (variables w) envName).

Definition discoverHeadscale (w : discover_world) (f : discoverFlags) (controlURL : string) : list api_call * result discover_error (list Device) :=
  match discoverAPIKey w f "TS_HEADSCALE_API_KEY" with
  | Err e => ([], Err e)
  | Ok apiKey =>
      if bool_decide (apiKey = "") then ([], Err HeadscaleKeyMissing)
      else let '(calls, r) := ListHeadscaleDevices w apiKey controlURL in
           (calls, devices ← map_err FromHeadscale r; Ok (convertHeadscaleDevices devices))
  end.
Definition discoverTailscale (w : discover_world) (f : discoverFlags) : list api_call * result discover_error (list Device) :=
  match discoverAPIKey w f "TS_API_KEY" with
  | Err e => ([], Err e)
  | Ok apiKey =>
      if bool_decide (apiKey = "") then ([], Err TailscaleKeyMissing)
      else
        let tailnet := if bool_decide (dTailnet f = "") then Getenv (variables w) "TS_TAILNET" else dTailnet f in
        if bool_decide (tailnet = "") then ([], Err TailnetMissing)
        else let '(calls, r) := ListDevices w apiKey tailnet in (calls, map_err FromTailscale r)
  end.
Definition discoverList (w : discover_world) (f : discoverFlags) : list api_call * result discover_error (list Device) :=
  let controlURL := Getenv (variables w) "TS_CONTROL_URL" in
  if negb (bool_decide (controlURL = "")) && negb (Contains controlURL "tailscale.com")
  then discoverHeadscale w f controlURL else discoverTailscale w f.

(** ** Choosing *)

(** An address without its prefix length. *)
Definition withoutCIDR (addr : string) : string :=
  match index_byte "/" addr with Some (S n) => str_take (S n) addr | _ => addr end.

Definition matchesFilter (filter : string) (d : Device) : bool :=
  Contains (ToLower (Hostname d)) filter || existsb (fun a => Contains (withoutCIDR a) filter) (Addresses d).
Definition filterDevices (devices : list Device) (filter : string) : list Device :=
  List.filter (matchesFilter (ToLower filter)) devices.

(** [sort.Slice] by this order; up to twelve devices it is an insertion sort, and
    the order of equal ones is unspecified beyond that. *)
Definition device_less (a b : Device) : bool :=
  if negb (Bool.eqb (Authorized a) (Authorized b)) then Authorized a else String.ltb (Hostname a) (Hostname b).
Fixpoint insert_device (d : Device) (l : list Device) : list Device :=
  match l with
  | [] => [d]
  | x :: r => if device_less x d then x :: insert_device d r else d :: l
  end.
Definition sortDevices (l : list Device) : list Device := fold_right insert_device [] l.

Definition deviceIP (d : Device) : string := match Addresses d with [] => "" | a :: _ => withoutCIDR a end.
Definition statusLabel (d : Device) : string := if Authorized d then "online" else "offline".

(** [fmt.Scanln] of one string: the token and the rest of the input. A line that
    goes on after the token loses only the next byte. *)
Definition is_blank (c : ascii) : bool := is_space c && negb (eqc c nl).
Fixpoint token (s : string) : string * string :=
  match s with
  | "" => ("", "")
  | String c r => if is_space c then ("", s) else let '(t, rest) := token r in (String c t, rest)
  end.
Definition Scanln (s : string) : string * string :=
  match trim_left is_blank s with
  | "" => ("", "")
  | String c r =>
      if eqc c nl then ("", r)
      else let '(t, rest) := token (String c r) in
           (t, match trim_left is_blank rest with "" => "" | String _ after => after end)
  end.
Definition readSelection (input : string) : string * result discover_error string :=
  let '(typed, rest) := Scanln input in
  let typed := TrimSpace typed in
  (rest, if bool_decide (typed = "") then Err NoSelection else Ok typed).

(** [fmt.Sscanf] with %d: what follows the number does not matter. *)
Fixpoint digits_of (s : string) : string :=
  match s with "" => "" | String c r => if is_digit c then String c (digits_of r) else "" end.
Definition Sscanf_d (s : string) : option Z :=
  match trim_left is_space s with
  | String c r => if eqc c "+" || eqc c "-" then Atoi (String c (digits_of r)) else Atoi (digits_of (String c r))
  | "" => None
  end.

Definition findByNumber (devices : list Device) (input : string) : option Device :=
  match Sscanf_d input with
  | Some index => if (0 <? index)%Z && (index <=? Z.of_nat (length devices))%Z then devices !! Z.to_nat (index - 1) else None
  | None => None
  end.
Definition findByExact (devices : list Device) (input : string) : option Device :=
  List.find (fun d => EqualFold (Hostname d) input) devices.
(** The last match and how many there are. *)
Definition findByPartial (devices : list Device) (input : string) : option Device * nat :=
  let l := List.filter (fun d => Contains (ToLower (Hostname d)) (ToLower input)) devices in (last l, length l).
Definition findDevice (devices : list Device) (input : string) : result discover_error Device :=
  match findByNumber devices input with
  | Some d => Ok d
  | None =>
      match findByExact devices input with
      | Some d => Ok d
      | None =>
          match findByPartial devices input with
          | (Some d, 1%nat) => Ok d
          | (_, n) => Err (if (1 <? n)%nat then ManyHosts input else NoHost input)
          end
      end
  end.
Definition selectHost (devices : list Device) (input : string) : string * result discover_error Device :=
  let devices := sortDevices devices in
  let '(rest, r) := readSelection input in (rest, typed ← r; findDevice devices typed).

Definition targetOf (d : Device) : string :=
  if negb (bool_decide (Hostname d = "")) then Hostname d
  else match Addresses d with a :: _ => withoutCIDR a | [] => Name d end.

(** ** Keeping the choice *)

(** How a run ended, when it ended well. *)
Inductive discover_end : Type :=
  | NoDevices | NoMatch
  | PrintedJSON (devices : list Device)
  | Skipped
  | EnvUpdated (text : string) (descriptor : string)
  | ProfileSaved (name : string) (cleared : bool).

Definition confirmEnvUpdate (input : string) : bool :=
  let '(line, ended, _) := ReadString input in
  if negb ended && bool_decide (line = "") then false
  else negb (contains_word ["n"; "no"] (ToLower (TrimSpace line))).
Definition promptEnvUpdate (w : discover_world) (input : string) : bool := terminalInput w && confirmEnvUpdate input.

Section Persist.
Context `{UrlPackage} `{UrlRest}.

Definition updateEnvFile (w : discover_world) (path target : string) (port : Z) (controlURL : string) : result discover_error discover_end :=
  text ← map_err UpdateFailed (UpdateEnv path target port (dotEnvPlace w));
  Ok (EnvUpdated text (buildDescriptorLine target port controlURL)).

Definition persistSelection (w : discover_world) (f : discoverFlags) (target controlURL input : string) (sys : system) (st : world)
    : result discover_error discover_end * world :=
  if negb (bool_decide (dProfile f = "")) then
    let '(r, st) := runImportDirect (dProfile f) (buildDescriptorLine target (dPort f) controlURL) false sys st in
    ('(cleared, _) ← map_err ProfileImport r; Ok (ProfileSaved (dProfile f) cleared), st)
  else
    (if dAuto f || promptEnvUpdate w input then updateEnvFile w ".env" target (dPort f) controlURL else Ok Skipped, st).

(** What is sent, how it ended, and the profile store. *)
Definition runDiscover (v : flag_values) (w : discover_world) (sys : system) (st : world)
    : list api_call * result discover_error discover_end * world :=
  match parseDiscoverFlags v with
  | Err e => ([], Err e, st)
  | Ok f =>
      match discoverList w f with
      | (calls, Err e) => (calls, Err e, st)
      | (calls, Ok []) => (calls, Ok NoDevices, st)
      | (calls, Ok devices) =>
          let devices := if bool_decide (dFilter f = "") then devices else filterDevices devices (dFilter f) in
          if (length devices =? 0)%nat then (calls, Ok NoMatch, st)
          else if dJSON f then (calls, Ok (PrintedJSON devices), st)
          else
            match selectHost devices (typedText w) with
            | (_, Err e) => (calls, Err e, st)
            | (input, Ok selected) =>
                let '(r, st) := persistSelection w f (targetOf selected) (Getenv (variables w) "TS_CONTROL_URL") input sys st in
                (calls, r, st)
            end
      end
  end.
End Persist.

(** * The order of the list *)

Lemma insert_device_perm d l : insert_device d l ≡ₚ d :: l.
Proof. induction l as [|x l IH]; cbn; [done|]. destruct (device_less x d); [|done]. rewrite IH. constructor. Qed.
Lemma sortDevices_perm l : sortDevices l ≡ₚ l.
Proof. induction l as [|d l IH]; cbn; [done|]. rewrite insert_device_perm. by constructor. Qed.

(** No device comes after one it should precede. *)
Definition in_order (a b : Device) : Prop := device_less b a = false.

Lemma device_less_asym a b : device_less a b = true -> device_less b a = false.
Proof.
  unfold device_less. destruct (Authorized a), (Authorized b); cbn; try done; intros H;
    apply not_true_iff_false; intros H2; pose proof (ltb_trans _ _ _ H H2) as H3; by rewrite ltb_irrefl in H3.
Qed.

Lemma insert_device_sorted d l : Sorted in_order l -> Sorted in_order (insert_device d l).
Proof.
  intros Hs. induction Hs as [|x l Hs IH Hx]; cbn; [by repeat constructor|].
  destruct (device_less x d) eqn:E; [|by repeat constructor].
  constructor; [done|]. destruct l as [|y l]; cbn; [constructor; by apply device_less_asym|].
  destruct (device_less y d); constructor; [by inversion Hx|by apply device_less_asym].
Qed.
Lemma sortDevices_sorted l : Sorted in_order (sortDevices l).
Proof. induction l as [|d l IH]; cbn; [constructor|by apply insert_device_sorted]. Qed.

(** * The choice *)

Lemma last_elem {A} (l : list A) x : last l = Some x -> x ∈ l.
Proof. intros [l' ->]%last_Some. apply elem_of_app. right. by left. Qed.

(** The three ways of naming a device. *)
Definition named (devices : list Device) (input : string) (d : Device) : Prop :=
  (exists n, Sscanf_d input = Some n /\ (1 <= n <= Z.of_nat (length devices))%Z /\ devices !! Z.to_nat (n - 1) = Some d)
  \/ (d ∈ devices /\ EqualFold (Hostname d) input = true)
  \/ (List.filter (fun d => Contains (ToLower (Hostname d)) (ToLower input)) devices = [d]).

Lemma findDevice_named devices input d : findDevice devices input = Ok d -> d ∈ devices /\ named devices input d.
Proof.
  unfold findDevice, named. destruct (findByNumber devices input) as [d'|] eqn:En.
  - intros [= ->]. unfold findByNumber in En. destruct (Sscanf_d input) as [n|]; [|done]. destruct (_ && _) eqn:E; [|done].
    apply andb_true_iff in E as [E1%Z.ltb_lt E2%Z.leb_le]. split; [by eapply list_elem_of_lookup_2|]. left. exists n. split; [done|]. split; [lia|done].
  - destruct (findByExact devices input) as [d'|] eqn:Ee.
    + intros [= ->]. apply List.find_some in Ee as [Hin He]. apply list_elem_of_In in Hin. auto.
    + unfold findByPartial. set (l := List.filter _ devices). destruct (last l) as [d'|] eqn:El; [|done].
      destruct l as [|x [|y l']] eqn:Hl; cbn; [done| |done]. intros [= ->]. cbn in El. injection El as ->.
      split; [|auto]. assert (d ∈ l) as Hin by (rewrite Hl; by left). subst l. apply list_elem_of_In, List.filter_In in Hin as [Hin _].
      by apply list_elem_of_In.
Qed.

Lemma selectHost_named devices input rest d : selectHost devices input = (rest, Ok d) ->
  d ∈ devices /\ exists typed, named (sortDevices devices) typed d.
Proof.
  unfold selectHost. destruct (readSelection input) as [rest' [typed|e]]; cbn; [|done]. intros [= _ Hf].
  apply findDevice_named in Hf as [Hin Hn]. split; [by rewrite sortDevices_perm in Hin|by exists typed].
Qed.

(** * What is sent *)

(** Tailscale's own control plane, as the command tells it. *)
Definition saas (controlURL : string) : Prop := controlURL = "" \/ Contains controlURL "tailscale.com" = true.

(** Where the key of a call comes from, in terms of the command line: the file of
    --api-key-file; else --api-key, else its deprecated name --auth-key, else the one
    variable of the plane. *)
Definition key_from (w : discover_world) (v : flag_values) (variable key : string) : Prop :=
  if bool_decide (str_flag v "api-key-file" = "")
  then key = ConfigMerge.first_nonempty [str_flag v "api-key"; str_flag v "auth-key"; Getenv (variables w) variable] ""
  else (readAuthKeyFile (onWindowsHost w) (keyFiles w (str_flag v "api-key-file"))).2 = Ok key.

(** A call goes to the plane TS_CONTROL_URL names, with a key for that plane: to the
    device list of the Headscale server at that URL, or to Tailscale's API for the
    tailnet of --tailnet or TS_TAILNET. *)
Definition call_ok (w : discover_world) (v : flag_values) (c : api_call) : Prop :=
  let controlURL := Getenv (variables w) "TS_CONTROL_URL" in
  match c with
  | HeadscaleGet r =>
      ~ saas controlURL
      /\ (exists base, rURL r = base +:+ "/api/v1/device" /\ (controlURL = base \/ controlURL = base +:+ "/"))
      /\ exists key, key_from w v "TS_HEADSCALE_API_KEY" key /\ key <> "" /\ rAuthorization r = "Bearer " +:+ key
  | TailscaleList tailnet key =>
      saas controlURL /\ key_from w v "TS_API_KEY" key /\ key <> ""
      /\ tailnet = ConfigMerge.first_nonempty [str_flag v "tailnet"; Getenv (variables w) "TS_TAILNET"] "" /\ tailnet <> ""
  end.

Lemma headscaleURL_base url : exists base, headscaleURL url = base +:+ "/api/v1/device" /\ (url = base \/ url = base +:+ "/").
Proof.
  unfold headscaleURL. destruct (HasSuffix url "/") eqn:E.
  - apply HasSuffix_spec in E as [a ->]. exists a. split; [by rewrite str_app_assoc|by right].
  - exists url. split; [by rewrite str_app_assoc|by left].
Qed.

Lemma discoverAPIKey_from v w f variable key :
  parseDiscoverFlags v = Ok f -> discoverAPIKey w f variable = Ok key -> key_from w v variable key.
Proof.
  unfold parseDiscoverFlags. cbv zeta. intros Hf. do 3 (apply check_Ok in Hf as [_ Hf]). injection Hf as <-.
  unfold discoverAPIKey, key_from. cbn [dAPIKeyFile dAPIKey]. destruct (bool_decide (str_flag v "api-key-file" = "")); cbn [negb].
  - unfold ConfigMerge.first_nonempty. cbn [List.filter].
    destruct (bool_decide_reflect (str_flag v "api-key" = "")) as [|Ha]; cbn [negb].
    + destruct (bool_decide_reflect (str_flag v "auth-key" = "")); cbn [negb]; [|by intros [= <-]].
      intros [= <-]. by destruct (bool_decide_reflect (Getenv (variables w) variable = "")).
    + rewrite (bool_decide_eq_false_2 (str_flag v "api-key" = "")) by done. by intros [= <-].
  - by intros H%map_err_Ok.
Qed.

Lemma ListHeadscaleDevices_calls w key url : (ListHeadscaleDevices w key url).1 = [] \/
  (ListHeadscaleDevices w key url).1 = [HeadscaleGet (mkRequest (headscaleURL url) ("Bearer " +:+ key))].
Proof. unfold ListHeadscaleDevices. repeat (case_match; [by left|]). cbn. by destruct (requestValid w _); [right|left]. Qed.

Lemma discoverList_calls v w f :
  parseDiscoverFlags v = Ok f -> (discoverList w f).1 = [] \/ exists c, (discoverList w f).1 = [c] /\ call_ok w v c.
Proof.
  intros Hf. unfold discoverList, call_ok. set (url := Getenv (variables w) "TS_CONTROL_URL").
  destruct (negb (bool_decide (url = "")) && negb (Contains url "tailscale.com")) eqn:E.
  - apply andb_true_iff in E as [Eu%negb_true_iff%bool_decide_eq_false Ec%negb_true_iff]. unfold discoverHeadscale.
    destruct (discoverAPIKey w f _) as [key|e] eqn:Ek; [|by left]. destruct (bool_decide_reflect (key = "")); [by left|].
    pose proof (ListHeadscaleDevices_calls w key url) as Hc. destruct (ListHeadscaleDevices w key url) as [calls r]. cbn in *.
    destruct Hc as [->| ->]; [by left|right]. eexists. split; [done|]. cbn. split; [unfold saas; intros [?|?]; congruence|].
    split; [apply headscaleURL_base|]. exists key. split; [by eapply discoverAPIKey_from|done].
  - assert (saas url) as Hs.
    { unfold saas. apply andb_false_iff in E as [E|E]; apply negb_false_iff in E; [left; by apply bool_decide_eq_true in E|by right]. }
    unfold discoverTailscale. destruct (discoverAPIKey w f _) as [key|e] eqn:Ek; [|by left].
    destruct (bool_decide_reflect (key = "")) as [|Hk]; [by left|]. cbv zeta. set (tailnet := if bool_decide (dTailnet f = "") then _ else _).
    destruct (bool_decide_reflect (tailnet = "")) as [|Ht]; [by left|]. unfold ListDevices.
    rewrite (bool_decide_eq_false_2 (key = "")), (bool_decide_eq_false_2 (tailnet = "")) by done. cbn. right.
    eexists. split; [done|]. cbn. split; [done|]. split; [by eapply discoverAPIKey_from|]. split; [done|]. split; [|done].
    subst tailnet. unfold ConfigMerge.first_nonempty. cbn [List.filter]. unfold parseDiscoverFlags in Hf. do 3 (apply check_Ok in Hf as [_ Hf]).
    injection Hf as <-. cbn [dTailnet] in *. destruct (bool_decide (str_flag v "tailnet" = "")); cbn [negb]; [|done].
    by rewrite bool_decide_eq_false_2.
Qed.

Definition set_variables (en : environment) (w : discover_world) : discover_world :=
  mkDiscoverWorld (requestValid w) (headscale w) (decodeArray w) (decodeWrapper w) (tailscale w) (rfc3339 w) en (keyFiles w)
    (onWindowsHost w) (terminalInput w) (typedText w) (dotEnvPlace w).

(** The variables the command looks at, once TS_CONTROL_URL has named the plane. *)
Definition planeVars (controlURL : string) : list string :=
  "TS_CONTROL_URL" :: (if negb (bool_decide (controlURL = "")) && negb (Contains controlURL "tailscale.com")
                       then ["TS_HEADSCALE_API_KEY"] else ["TS_API_KEY"; "TS_TAILNET"]).

Lemma discoverList_vars w f en :
  (forall k, k ∈ planeVars (Getenv (variables w) "TS_CONTROL_URL") -> Getenv en k = Getenv (variables w) k) ->
  discoverList (set_variables en w) f = discoverList w f.
Proof.
  intros Hen. unfold planeVars in Hen. unfold discoverList, discoverHeadscale, discoverTailscale, discoverAPIKey.
  cbn [variables set_variables keyFiles onWindowsHost]. rewrite (Hen "TS_CONTROL_URL") by (by left).
  destruct (negb (bool_decide _) && _); rewrite !Hen by set_solver; reflexivity.
Qed.

Section Runs.
Context `{UrlPackage} `{UrlRest}.

(** A run either stopped before a choice, or kept the target of a device it listed. *)
Lemma runDiscover_calls v w sys st : (runDiscover v w sys st).1.1 = [] \/
  exists c, (runDiscover v w sys st).1.1 = [c] /\ call_ok w v c.
Proof.
  unfold runDiscover. destruct (parseDiscoverFlags v) as [f|e] eqn:Hf; [|by left].
  pose proof (discoverList_calls v w f Hf) as Hc. destruct (discoverList w f) as [calls r]. cbn in Hc.
  destruct r as [[|d l]|e]; [done| |done]. cbv zeta. destruct (length _ =? 0)%nat; [done|]. destruct (dJSON f); [done|].
  destruct (selectHost _ _) as [input [d'|e]]; [|done]. by destruct (persistSelection _ _ _ _ _ _ _).
Qed.

Lemma runDiscover_vars v w sys st en :
  (forall k, k ∈ planeVars (Getenv (variables w) "TS_CONTROL_URL") -> Getenv en k = Getenv (variables w) k) ->
  runDiscover v (set_variables en w) sys st = runDiscover v w sys st.
Proof.
  intros Hen. unfold runDiscover. destruct (parseDiscoverFlags v) as [f|e]; [|done]. rewrite discoverList_vars by done.
  cbn [variables set_variables typedText]. by rewrite (Hen "TS_CONTROL_URL") by (by left).
Qed.

Lemma runDiscover_env v w sys st calls text desc st' :
  runDiscover v w sys st = (calls, Ok (EnvUpdated text desc), st') ->
  exists f devices d, parseDiscoverFlags v = Ok f /\ (discoverList w f).2 = Ok devices /\ d ∈ devices
    /\ st' = st /\ UpdateEnv ".env" (targetOf d) (dPort f) (dotEnvPlace w) = Ok text
    /\ (dAuto f = true \/ terminalInput w = true).
Proof.
  unfold runDiscover. destruct (parseDiscoverFlags v) as [f|e]; [|done]. destruct (discoverList w f) as [calls' [[|d0 l]|e]] eqn:El; [done| |done].
  cbv zeta. destruct (length _ =? 0)%nat; [done|]. destruct (dJSON f); [done|].
  destruct (selectHost _ _) as [input [d|e]] eqn:Es; [|done]. apply selectHost_named in Es as [Hin _].
  destruct (persistSelection _ _ _ _ _ _ _) as [r st2] eqn:Ep. intros [= -> -> ->]. exists f, (d0 :: l), d.
  split; [done|]. split; [by rewrite El|]. split.
  { destruct (bool_decide (dFilter f = "")); [done|]. by apply list_elem_of_In, List.filter_In in Hin as [Hin%list_elem_of_In _]. }
  unfold persistSelection in Ep. destruct (negb (bool_decide (dProfile f = ""))).
  { destruct (runImportDirect _ _ _ _ _) as [[[? ?]|] ?]; cbn in Ep; discriminate Ep. }
  injection Ep as Hr <-. split; [done|]. destruct (dAuto f || promptEnvUpdate w input) eqn:Ea; [|done].
  unfold updateEnvFile in Hr. apply bind_Ok in Hr as (text' & Hu & Hr). apply map_err_Ok in Hu. injection Hr as -> _.
  split; [done|]. apply orb_true_iff in Ea as [Ea|Ea]; [by left|right]. unfold promptEnvUpdate in Ea. by apply andb_true_iff in Ea as [Ea _].
Qed.
End Runs.

Lemma parseDiscoverFlags_Ok v f : parseDiscoverFlags v = Ok f -> (1 <= dPort f <= 65535)%Z /\ dAuto f = bool_flag v "auto".
Proof.
  unfold parseDiscoverFlags. cbv zeta. intros Hf. apply check_Ok in Hf as [_ Hf]. apply check_Ok in Hf as [_ Hf].
  apply check_Ok in Hf as [Hp Hf]. injection Hf as <-. apply fail_if_Ok, orb_false_iff in Hp as [Hp1%Z.ltb_ge Hp2%Z.ltb_ge]. cbn in *.
  split; [lia|done].
Qed.

(** ** The target in the file *)

Lemma unquote_digit s : (exists a d, s = a +:+ String d "" /\ is_digit d = true) -> unquote s = s.
Proof.
  intros (a & d & -> & Hd). unfold unquote, quoted_by.
  assert (forall q, is_digit q = false -> HasSuffix (a +:+ String d "") (String q "") = false) as Hq.
  { intros q Hq. apply not_true_iff_false. intros (b & Hb)%HasSuffix_spec. apply (f_equal str_rev) in Hb.
    rewrite !str_rev_app in Hb. cbn in Hb. injection Hb as Hb _. congruence. }
  by rewrite !Hq, !andb_false_r.
Qed.

Lemma as_read_target t p : str_any is_space t = false -> (0 <= p)%Z -> as_read (t +:+ ":" +:+ Itoa p) = t +:+ ":" +:+ Itoa p.
Proof.
  intros Ht Hp. unfold as_read, TrimSpace. rewrite trim_none.
  - apply unquote_digit. destruct (Itoa_last p Hp) as (a & d & -> & Hd). exists (t +:+ ":" +:+ a), d. split; [|done].
    by rewrite (str_app_assoc t), (str_app_assoc ":").
  - rewrite !str_any_app, Ht. by apply digits_no_space, Itoa_all_digits.
Qed.

(** * Properties *)


(** The list offered is the devices in order, the authorized ones first; the choice
    is one of them: the one in the row that was named, the one with the hostname, or
    the only one whose hostname contains what was typed. *)
Theorem chosen_device_was_named devices input rest d (HS : selectHost devices input = (rest, Ok d)) :
  sortDevices devices ≡ₚ devices /\ Sorted in_order (sortDevices devices) /\ d ∈ devices
  /\ exists typed, named (sortDevices devices) typed d.
Proof.
  split; [apply sortDevices_perm|]. split; [apply sortDevices_sorted|]. by eapply selectHost_named.
Qed.

(** A run that updates the .env file was told to with --auto or asked at a terminal.
    It writes the target of a device the API listed, at a port in range, and leaves
    the profiles alone; with a plain host name, the loader then reads a target that
    connect can dial. *)
Theorem discovered_target_is_read_back `{UrlPackage} `{UrlRest} v w sys st calls text desc st' old
    (HR : runDiscover v w sys st = (calls, Ok (EnvUpdated text desc), st')) (HV : Values (envText (dotEnvPlace w)) = Ok old) :
  st' = st /\ (bool_flag v "auto" = true \/ terminalInput w = true) /\
  exists f devices d, parseDiscoverFlags v = Ok f /\ (discoverList w f).2 = Ok devices /\ d ∈ devices /\ (1 <= dPort f <= 65535)%Z /\
    (plain_host (targetOf d) = true -> str_any is_space (targetOf d) = false ->
     line_ok (env_text ("TS_TARGET", targetOf d +:+ ":" +:+ Itoa (dPort f))) ->
     exists new, Values (EnvData text) = Ok new /\
       SplitHostPort (default "" (new !! "TS_TARGET")) = Ok (targetOf d, Itoa (dPort f)) /\ parse_port (Itoa (dPort f)) = Some (dPort f)).
Proof.
  apply runDiscover_env in HR as (f & devices & d & Hf & Hd & Hin & -> & Hu & Ha).
  destruct (parseDiscoverFlags_Ok v f Hf) as [Hp Hauto]. split; [done|]. split; [by rewrite <- Hauto|]. exists f, devices, d.
  split; [done|]. split; [done|]. split; [done|]. split; [done|]. intros Hplain Hsp Hline.
  destruct (updated_file _ _ _ _ _ _ Hu HV Hline) as (new & Hn & Ht & _). exists new. split; [done|].
  rewrite Ht. cbn [default]. rewrite as_read_target by (done || lia). split; [|apply parse_port_Itoa; lia].
  apply SplitHostPort_plain; [done|]. apply digits_plain, Itoa_all_digits. lia.
Qed.

(** What is typed is read as a row number as soon as it begins with one: a host named
    after a number in the list cannot be chosen by its name. *)
Theorem leading_number_names_a_row devices n rest d :
  (1 <= n <= Z.of_nat (length devices))%Z -> (n <= max_int64)%Z -> digits_of rest = "" ->
  devices !! Z.to_nat (n - 1) = Some d -> findDevice devices (Itoa n +:+ rest) = Ok d.
Proof.
  intros Hn Hmax Hr Hd. assert (Hdig : digits_of (Itoa n +:+ rest) = Itoa n).
  { assert (str_all is_digit (Itoa n) = true) as Ha by (apply Itoa_all_digits; lia). revert Ha. generalize (Itoa n) as s.
    induction s as [|c s IH]; cbn; [done|]. intros [Hc Hs]%andb_true_iff. rewrite Hc. by rewrite IH. }
  assert (exists c r, Itoa n = String c r /\ is_digit c = true) as (c & r & Hi & Hc).
  { rewrite Itoa_nonneg by lia. apply Itoa_digits_head. }
  unfold findDevice, findByNumber, Sscanf_d.
  assert (is_space c = false) as Hsp.
  { apply not_true_iff_false. intros Hs. pose proof (digits_no_space (String c "")) as Hx. cbn in Hx. rewrite Hc, Hs in Hx. by specialize (Hx eq_refl). }
  assert (trim_left is_space (Itoa n +:+ rest) = Itoa n +:+ rest) as -> by (rewrite Hi; cbn [String.append trim_left]; by rewrite Hsp).
  assert (eqc c "+" || eqc c "-" = false) as Hsign by (by rewrite !(digit_not c) by done).
  rewrite Hi. cbn [String.append]. rewrite Hsign. change (String c (r +:+ rest)) with (String c r +:+ rest). rewrite <- Hi, Hdig.
  rewrite Atoi_Itoa by (unfold min_int64; lia). assert ((0 <? n)%Z && (n <=? Z.of_nat (length devices))%Z = true) as ->.
  { apply andb_true_iff. split; [apply Z.ltb_lt|apply Z.leb_le]; lia. }
  by rewrite Hd.
Qed.

(** ** Concrete runs *)

Definition demo_device (name : string) (ok : bool) : Device :=
  mkDevice ["100.64.0.1/32"] "" "" "" name name "" [] "" "" "" ok false.
Definition demo_devices : list Device := [demo_device "zeta" true; demo_device "2nd-desk" false; demo_device "alpha" true].
Definition demo_discover_flags (auto : bool) : flag_values :=
  mkFlagValues (fun n => if bool_decide (n = "api-key") then "hs-api" else "") (fun _ => []) (fun _ => 0%Z)
    (fun _ => 3389%Z) (fun _ => 0%Z) (fun n => bool_decide (n = "auto") && auto) (fun _ => false).
Definition demo_headscale : list headscale_json := [mkHeadscaleJSON "1" "rdp" "" (JString "100.64.0.9") "" "" true false].
Definition demo_discover_world (controlURL typed : string) : discover_world :=
  mkDiscoverWorld (fun _ => true) (fun _ => Response 200 "[]" false) (fun _ => Some demo_headscale) (fun _ => None)
    (fun _ _ => Ok []) (fun _ => "") {[ "TS_CONTROL_URL" := controlURL ]} (fun _ => KeyReadFails) false false typed demo_place.
Definition demo_discover (controlURL typed : string) : list api_call * result discover_error discover_end * world :=
  @runDiscover queryUrl rest_of_url (demo_discover_flags true) (demo_discover_world controlURL typed) healthy (ProfileStore.mkWorld None Credential.emptyStore 0).
Definition demo_text : string :=
  match demo_discover "https://hs.test" ("1" +:+ newline) with (_, Ok (EnvUpdated text _), _) => text | _ => "" end.


Lemma chosen_device_was_named_witness :
  selectHost demo_devices ("2" +:+ newline) = ("", Ok (demo_device "zeta" true)) /\ demo_device "zeta" true ∈ demo_devices.
Proof.
  assert (H0 : selectHost demo_devices ("2" +:+ newline) = ("", Ok (demo_device "zeta" true))) by (vm_compute; reflexivity).
  split; [exact H0|]. exact (proj1 (proj2 (proj2 (chosen_device_was_named _ _ _ _ H0)))).
Defined.

Lemma leading_number_names_a_row_witness :
  Hostname (demo_device "2nd-desk" false) = "2nd-desk" /\ findDevice (sortDevices demo_devices) "2nd-desk" = Ok (demo_device "zeta" true).
Proof.
  split; [reflexivity|]. apply (leading_number_names_a_row (sortDevices demo_devices) 2 "nd-desk"); [|unfold max_int64; lia|reflexivity|reflexivity].
  split; [lia|]. change (length (sortDevices demo_devices)) with 3%nat. lia.
Defined.

Lemma discovered_target_is_read_back_witness :
  demo_text <> "" /\ exists old, Values (envText demo_place) = Ok old /\ exists f d, dPort f = 3389%Z /\
    (plain_host (targetOf d) = true -> str_any is_space (targetOf d) = false ->
     line_ok (env_text ("TS_TARGET", targetOf d +:+ ":" +:+ Itoa (dPort f))) ->
     exists new, Values (EnvData demo_text) = Ok new /\ SplitHostPort (default "" (new !! "TS_TARGET")) = Ok (targetOf d, Itoa (dPort f))).
Proof.
  split; [vm_compute; discriminate|]. destruct (Values (envText demo_place)) as [old|e] eqn:EV; [|vm_compute in EV; discriminate EV].
  exists old. split; [reflexivity|].
  destruct (demo_discover "https://hs.test" ("1" +:+ newline)) as [[calls r] st'] eqn:ED.
  assert (Hr : (demo_discover "https://hs.test" ("1" +:+ newline)).1.2 = Ok (EnvUpdated demo_text "tsb://rdp:3389?cp=https%3A%2F%2Fhs.test")).
  { vm_compute. reflexivity. }
  rewrite ED in Hr. cbn in Hr. subst r.
  destruct (@discovered_target_is_read_back queryUrl rest_of_url _ _ _ _ _ _ _ _ old ED EV) as (_ & _ & f & devices & d & Hf & _ & _ & _ & Hread).
  exists f, d. split.
  - assert (HP : match parseDiscoverFlags (demo_discover_flags true) with Ok f => dPort f = 3389%Z | Err _ => False end) by (vm_compute; reflexivity).
    rewrite Hf in HP. exact HP.
  - intros H1 H2 H3. destruct (Hread H1 H2 H3) as (new & Hn & Hs & _). exists new. split; [exact Hn|exact Hs].
Defined.

(** A Headscale server whose name ends in tailscale.com is taken for Tailscale. *)
Lemma lookalike_is_saas : saas "https://vpn.not-tailscale.com".
Proof. right. vm_compute. reflexivity. Qed.

(** With --auto the command still asks. *)
Lemma auto_still_asks : (demo_discover "https://hs.test" "").1.2 = Err NoSelection.
Proof. vm_compute. reflexivity. Qed.

(** Only part of a line of several words is read: what is left of it answers the next
    question. *)
Lemma rest_of_line_answers : readSelection ("my host" +:+ newline) = ("ost" +:+ newline, Ok "my") /\ confirmEnvUpdate ("ost" +:+ newline) = true.
Proof. split; vm_compute; reflexivity. Qed.

(** A device without a hostname whose first address is an IPv6 one gives a target no
    address parser takes. *)
Lemma ipv6_target_unusable :
  is_ok (SplitHostPort (targetOf (mkDevice ["fd7a:115c::1/128"] "" "" "" "" "" "" [] "" "" "" true false) +:+ ":3389")) = false.
Proof. vm_compute. reflexivity. Qed.
