(* ===== verification/Logging.v ===== *)
(** Log files (src/internal/logging/logging.go): the rotator's state machine over a
    directory, compression, the clean-up of old files, and the two loggers.

    A directory is its files by name; the clock, the day and what fails are
    arguments of each call. A compressed file is kept as what it decompresses to. *)
From S2P Require Import Prelude GoStrings GoPath.
From Stdlib Require Import Ascii Sorting.Sorted.

Open Scope bool_scope.

(** * The directory *)

Inductive log_data : Type := Plain (text : string) | Gzipped (text : string) | Truncated.
Record log_file : Type := mkLogFile { data : log_data; modTime : Z }.
Abbreviation log_dir := (gmap string log_file).

Definition logName (day : string) : string := "ts-bridge-" +:+ day +:+ ".log".
Definition gzName (day : string) : string := logName day +:+ ".gz".

(** The instant of a call, and what the file system refuses in it. A write that fails
    may have taken some of its bytes. *)
Inductive compress_fault : Type := SourceOpenFails | CreateFails | CopyFails | GzipCloseFails | FileCloseFails | RemoveFails.
Record call : Type := mkCall {
  day : string;
  clock : Z;
  openFails : bool;
  writeFault : option nat;
  compressFault : option compress_fault;
  readDirFails : bool;
  infoFails : string -> bool;
  removeFails : string -> bool;
}.

(** The text of a plain file; [O_APPEND] on anything else is not this program's. *)
Definition textOf (f : option log_file) : string := match f with Some (mkLogFile (Plain t) _) => t | _ => "" end.
(** [os.OpenFile] with [O_CREATE] and [O_APPEND]. *)
Definition openAppend (name : string) (now : Z) (d : log_dir) : log_dir :=
  match d !! name with Some _ => d | None => <[name := mkLogFile (Plain "") now]> d end.
Definition appendTo (name text : string) (now : Z) (d : log_dir) : log_dir :=
  <[name := mkLogFile (Plain (textOf (d !! name) +:+ text)) now]> d.

(** * The rotator *)

(** The file held, and whether it is open: a file that could not be replaced is held
    closed. *)
Record FileRotator : Type := mkRotator { current : option (string * bool); currentDay : string }.
Definition NewFileRotator : FileRotator := mkRotator None "".

(** [WriteLogFailed] has the count [os.File.Write] returns with its error. *)
Inductive log_error : Type := OpenLogFailed | WriteLogFailed (n : nat) | WriteInvalid.

Definition CurrentPath (dir : string) (r : FileRotator) : string :=
  match current r with None => "" | Some (name, _) => JoinPath [dir; name] end.

(** Writing to what the rotator holds; no file, or a closed one, is an error. A write
    that fails on the way leaves the bytes taken so far in the file. *)
Definition writeCurrent (c : call) (text : string) (r : FileRotator) (d : log_dir) : log_dir * result log_error nat :=
  match current r with
  | Some (name, true) =>
      match writeFault c with
      | None => (appendTo name text (clock c) d, Ok (len text))
      | Some n =>
          let taken := str_take n text in
          (if bool_decide (taken = "") then d else appendTo name taken (clock c) d, Err (WriteLogFailed (len taken)))
      end
  | _ => (d, Err WriteInvalid)
  end.

(** [FileRotator.Write]. *)
Definition Write (c : call) (text : string) (r : FileRotator) (d : log_dir) : FileRotator * log_dir * result log_error nat :=
  let today := day c in
  if bool_decide (current r = None) || negb (bool_decide (currentDay r = today)) then
    let r := match current r with Some (name, _) => mkRotator (Some (name, false)) "" | None => r end in
    if negb (bool_decide (currentDay r = today)) then
      if openFails c then (r, d, Err OpenLogFailed)
      else
        let r := mkRotator (Some (logName today, true)) today in
        let '(d, n) := writeCurrent c text r (openAppend (logName today) (clock c) d) in (r, d, n)
    else let '(d, n) := writeCurrent c text r d in (r, d, n)
  else let '(d, n) := writeCurrent c text r d in (r, d, n).

(** [compress]: the file of a day becomes its .gz, replacing one that is there. *)
Definition compress (c : call) (dayOf : string) (d : log_dir) : log_dir :=
  match d !! logName dayOf with
  | None => d
  | Some src =>
      match compressFault c with
      | Some SourceOpenFails | Some CreateFails => d
      | Some CopyFails | Some GzipCloseFails | Some FileCloseFails => <[gzName dayOf := mkLogFile Truncated (clock c)]> d
      | Some RemoveFails => <[gzName dayOf := mkLogFile (Gzipped (textOf (Some src))) (clock c)]> d
      | None => delete (logName dayOf) (<[gzName dayOf := mkLogFile (Gzipped (textOf (Some src))) (clock c)]> d)
      end
  end.

(** ** Clean-up *)

Definition maxAge : Z := 7 * 24 * 3600 * 1000000000.
Definition maxFiles : nat := 10.

(** An entry of the directory: its name and its time. *)
Abbreviation entry := (string * Z)%type.
Definition after (a b : entry) : bool := (b.2 <? a.2)%Z.

(** The inner loop of the sort: the newest moves to the front. *)
Fixpoint pass (x : entry) (l : list entry) : entry * list entry :=
  match l with
  | [] => (x, [])
  | y :: r => if after y x then let '(m, r') := pass y r in (m, x :: r') else let '(m, r') := pass x r in (m, y :: r')
  end.
Fixpoint exchange_sort (fuel : nat) (l : list entry) : list entry :=
  match fuel, l with
  | S fuel, x :: r => let '(m, r') := pass x r in m :: exchange_sort fuel r'
  | _, _ => []
  end.

Definition is_gz (name : string) : bool := HasSuffix name ".gz".
Definition logEntries (c : call) (d : log_dir) : list entry :=
  omap (fun name => if negb (HasPrefix name "ts-bridge-") || infoFails c name then None
                    else (fun f => (name, modTime f)) <$> d !! name) (sortedKeys d).

(** The second loop: each entry, and whether it stays. [gzCount] counts the .gz files so far. *)
Fixpoint verdicts (now : Z) (gzCount : nat) (logs : list entry) : list (entry * bool) :=
  match logs with
  | [] => []
  | lf :: r =>
      let gzCount := if is_gz lf.1 then S gzCount else gzCount in
      let stays := negb (maxAge <? now - lf.2)%Z && negb (is_gz lf.1 && (maxFiles <? gzCount)%nat) in
      (lf, stays) :: verdicts now gzCount r
  end.
Definition removed (v : list (entry * bool)) : list string := map (fun x => x.1.1) (List.filter (fun x => negb x.2) v).
Definition cleanup (c : call) (d : log_dir) : log_dir :=
  if readDirFails c then d
  else
    let logs := logEntries c d in
    foldr (fun name d => if removeFails c name then d else delete name d) d
      (removed (verdicts (clock c) 0 (exchange_sort (length logs) logs))).

(** [FileRotator.Open]. *)
Definition Open (c : call) (r : FileRotator) (d : log_dir) : FileRotator * log_dir * result log_error unit :=
  let today := day c in
  if negb (bool_decide (current r = None)) && bool_decide (currentDay r = today) then (r, d, Ok tt)
  else
    let '(r, d) := match current r with
                   | Some (name, _) => (mkRotator (Some (name, false)) (currentDay r), compress c (currentDay r) d)
                   | None => (r, d)
                   end in
    if openFails c then (r, d, Err OpenLogFailed)
    else (mkRotator (Some (logName today, true)) today, cleanup c (openAppend (logName today) (clock c) d), Ok tt).

(** [FileRotator.Close]. *)
Definition CloseRotator (c : call) (r : FileRotator) (d : log_dir) : FileRotator * log_dir :=
  match current r with
  | Some _ => (mkRotator None (currentDay r), compress c (currentDay r) d)
  | None => (r, d)
  end.

(** * Loggers *)

Inductive level : Type := LevelDebug | LevelWarn.
Record LogConfig : Type := mkLogConfig { Verbose : bool; LogFormat : string; LogDir : string }.
(** A logger: the console's level, and the rotator behind the file logger, if there is one. *)
Record Logger : Type := mkLogger { console : level; fileRot : option FileRotator }.
Inductive log_warning : Type := DirFailed | FileFailed.

Definition New (cfg : LogConfig) (mkdirFails : bool) (c : call) (d : log_dir) : Logger * log_dir * list log_warning :=
  let console := if Verbose cfg then LevelDebug else LevelWarn in
  if bool_decide (LogDir cfg = "") then (mkLogger console None, d, [])
  else if mkdirFails then (mkLogger console None, d, [DirFailed])
  else
    match Open c NewFileRotator d with
    | (_, d, Err _) => (mkLogger console None, d, [FileFailed])
    | (r, d, Ok _) => (mkLogger console (Some r), d, [])
    end.
(** The handlers of the combined logger, with the lowest level each writes. *)
Definition Combined (l : Logger) : list level := console l :: match fileRot l with Some _ => [LevelDebug] | None => [] end.
Definition CloseLogger (c : call) (l : Logger) (d : log_dir) : Logger * log_dir :=
  match fileRot l with
  | Some r => let '(r, d) := CloseRotator c r d in (mkLogger (console l) (Some r), d)
  | None => (l, d)
  end.

Definition logDirFor (goos home appData : string) : string :=
  if bool_decide (goos = "windows") then JoinPath [appData; "ts-bridge"; "logs"]
  else if bool_decide (goos = "darwin") then JoinPath [home; "Library"; "Logs"; "ts-bridge"]
  else JoinPath [home; ".local"; "share"; "ts-bridge"; "logs"].

(** * Writing *)

(** A rotator as its own operations leave it: it holds nothing, today's file open, or
    a closed file and no day. *)
Definition rotator_ok (r : FileRotator) : Prop :=
  match current r with
  | None => currentDay r = ""
  | Some (name, true) => name = logName (currentDay r) /\ currentDay r <> ""
  | Some (_, false) => currentDay r = ""
  end.

Lemma logName_inj a b : logName a = logName b -> a = b.
Proof.
  unfold logName. intros H. cbn in H. injection H as H. 
  assert (len a = len b) as Hl by (apply (f_equal len) in H; rewrite !len_app in H; lia).
  by rewrite <- (str_take_app a ".log"), H, Hl, str_take_app.
Qed.

Lemma textOf_append name text now d k :
  textOf (appendTo name text now d !! k) = textOf (d !! k) +:+ (if bool_decide (k = name) then text else "").
Proof.
  unfold appendTo. case_bool_decide as Hk; [subst; by rewrite lookup_insert_eq|]. by rewrite lookup_insert_ne, str_app_nil_r.
Qed.
Lemma textOf_open name now d k : textOf (openAppend name now d !! k) = textOf (d !! k).
Proof.
  unfold openAppend. destruct (d !! name) as [f|] eqn:E; [done|]. destruct (decide (k = name)) as [->|Hk].
  - by rewrite lookup_insert_eq, E.
  - by rewrite lookup_insert_ne.
Qed.

(** What a write put into its file, by its answer: all of the text, or the part the
    error counts. *)
Definition taken_by (res : result log_error nat) (text : string) : string :=
  match res with Ok _ => text | Err (WriteLogFailed n) => str_take n text | Err _ => "" end.

Lemma str_take_len_taken n s : str_take (len (str_take n s)) s = str_take n s.
Proof. rewrite <- (str_take_drop n s) at 2. apply str_take_app. Qed.

(** One write: to the file of its day and to no other, or nowhere. *)
Lemma Write_spec c text r d r' d' res :
  rotator_ok r -> day c <> "" -> Write c text r d = (r', d', res) ->
  rotator_ok r' /\ (forall name, textOf (d' !! name) = textOf (d !! name) +:+ (if bool_decide (name = logName (day c)) then taken_by res text else ""))
  /\ (openFails c = false -> writeFault c = None -> res = Ok (len text))
  /\ (forall name f, d !! name = Some f -> is_Some (d' !! name)).
Proof.
  intros Hok Hday. unfold Write. cbv zeta.
  assert (Hfinish : forall d0, (forall name, textOf (d0 !! name) = textOf (d !! name)) -> (forall name f, d !! name = Some f -> is_Some (d0 !! name)) ->
    forall d' res, writeCurrent c text (mkRotator (Some (logName (day c), true)) (day c)) d0 = (d', res) ->
    (forall name, textOf (d' !! name) = textOf (d !! name) +:+ (if bool_decide (name = logName (day c)) then taken_by res text else ""))
    /\ (openFails c = false -> writeFault c = None -> res = Ok (len text)) /\ (forall name f, d !! name = Some f -> is_Some (d' !! name))).
  { intros d0 Ht Hs d1 res1. unfold writeCurrent. cbn [current]. 
    assert (forall t name f, d !! name = Some f -> is_Some (appendTo (logName (day c)) t (clock c) d0 !! name)) as Happ.
    { intros t name f Hf. unfold appendTo.
      destruct (decide (name = logName (day c))) as [->|Hne]; [rewrite lookup_insert_eq; by eexists|]. rewrite lookup_insert_ne by done. by eapply Hs. }
    destruct (writeFault c) as [n|]; intros [= <- <-]; cbn [taken_by].
    - rewrite str_take_len_taken. destruct (bool_decide_reflect (str_take n text = "")) as [->|Hne].
      + split; [intros name; rewrite Ht; by case_match; rewrite str_app_nil_r|]. split; [done|exact Hs].
      + split; [intros name; by rewrite textOf_append, Ht|]. split; [done|apply Happ].
    - split; [intros name; by rewrite textOf_append, Ht|]. split; [done|apply Happ]. }
  assert (Hopen : forall name, textOf (openAppend (logName (day c)) (clock c) d !! name) = textOf (d !! name)) by (intros; apply textOf_open).
  assert (Hsome : forall name f, d !! name = Some f -> is_Some (openAppend (logName (day c)) (clock c) d !! name)).
  { intros name f Hf. unfold openAppend. destruct (d !! logName (day c)) eqn:E; [by eexists|].
    rewrite lookup_insert_ne by (intros <-; congruence). by eexists. }
  assert (Hnew : forall r0, rotator_ok r0 -> (if openFails c then (r0, d, Err OpenLogFailed)
      else let '(d1, n) := writeCurrent c text (mkRotator (Some (logName (day c), true)) (day c)) (openAppend (logName (day c)) (clock c) d) in
           (mkRotator (Some (logName (day c), true)) (day c), d1, n)) = (r', d', res) ->
    rotator_ok r' /\ (forall name, textOf (d' !! name) = textOf (d !! name) +:+ (if bool_decide (name = logName (day c)) then taken_by res text else ""))
    /\ (openFails c = false -> writeFault c = None -> res = Ok (len text)) /\ (forall name f, d !! name = Some f -> is_Some (d' !! name))).
  { intros r0 H0. destruct (openFails c).
    - intros [= <- <- <-]. split; [done|]. cbn. split; [intros; by case_match; rewrite str_app_nil_r|]. split; [done|by eexists].
    - destruct (writeCurrent _ _ _ _) as [d1 n] eqn:Ew. intros [= <- <- <-]. split; [done|]. by apply (Hfinish _ Hopen Hsome). }
  unfold rotator_ok in Hok. destruct r as [[[name [|]]|] cd]; cbn [current currentDay] in *.
  - destruct Hok as [-> Hcd]. rewrite (bool_decide_eq_false_2 (Some _ = None)) by done. cbn [orb].
    destruct (bool_decide_reflect (cd = day c)) as [->|Hne]; cbn [negb].
    + destruct (writeCurrent c text _ d) as [d1 n] eqn:Ew. intros [[<- <-]%pair_equal_spec <-]%pair_equal_spec. split; [done|].
      apply (Hfinish d); [done|by eexists|done].
    + rewrite (bool_decide_eq_false_2 ("" = day c)) by congruence. by apply Hnew.
  - subst cd. rewrite (bool_decide_eq_false_2 ("" = day c)) by congruence. rewrite orb_true_r. cbn [negb]. by apply Hnew.
  - subst cd. rewrite (bool_decide_eq_true_2 (None = None)) by done. cbn [orb].
    rewrite (bool_decide_eq_false_2 ("" = day c)) by congruence. by apply Hnew.
Qed.

(** A sequence of writes, and their answers. *)
Fixpoint write_all (l : list (call * string)) (r : FileRotator) (d : log_dir) : FileRotator * log_dir * list (result log_error nat) :=
  match l with
  | [] => (r, d, [])
  | (c, text) :: l =>
      let '(r, d, res) := Write c text r d in
      let '(r, d, ress) := write_all l r d in (r, d, res :: ress)
  end.
(** What they put into a file. *)
Fixpoint written (name : string) (l : list (call * string)) (ress : list (result log_error nat)) : string :=
  match l, ress with
  | (c, text) :: l, res :: ress => (if bool_decide (name = logName (day c)) then taken_by res text else "") +:+ written name l ress
  | _, _ => ""
  end.

Lemma write_all_spec l r d r' d' ress :
  rotator_ok r -> Forall (fun ct => day ct.1 <> "") l -> write_all l r d = (r', d', ress) ->
  rotator_ok r' /\ (forall name, textOf (d' !! name) = textOf (d !! name) +:+ written name l ress)
  /\ (Forall (fun ct => openFails ct.1 = false /\ writeFault ct.1 = None) l -> ress = map (fun ct => Ok (len ct.2)) l)
  /\ (forall name f, d !! name = Some f -> is_Some (d' !! name)).
Proof.
  revert r d r' d' ress. induction l as [|[c text] l IH]; intros r d r' d' ress Hok Hdays; cbn [write_all].
  - intros [[<- <-]%pair_equal_spec <-]%pair_equal_spec. split; [done|]. split; [intros; by rewrite str_app_nil_r|]. split; [done|by eexists].
  - apply Forall_cons in Hdays as [Hd Hdays]. destruct (Write c text r d) as [[r1 d1] res] eqn:Ew.
    destruct (Write_spec _ _ _ _ _ _ _ Hok Hd Ew) as (Hok1 & Ht1 & Hs1 & Hk1).
    destruct (write_all l r1 d1) as [[r2 d2] ress2] eqn:El. destruct (IH _ _ _ _ _ Hok1 Hdays El) as (Hok2 & Ht2 & Hs2 & Hk2).
    intros [[<- <-]%pair_equal_spec <-]%pair_equal_spec. split; [done|]. split; [|split].
    + intros name. rewrite Ht2, Ht1. by rewrite str_app_assoc.
    + intros [[Ho Hw] Hl]%Forall_cons. cbn [map snd]. by rewrite Hs1, Hs2.
    + intros name f Hf. destruct (Hk1 _ _ Hf) as [f1 Hf1]. by eapply Hk2.
Qed.

(** * Closing *)

Lemma gzName_ne dy dy' : gzName dy <> logName dy'.
Proof.
  intros H. apply (f_equal str_rev) in H. unfold gzName, logName in H. rewrite !str_rev_app in H. cbn in H. discriminate H.
Qed.

Lemma compress_ok c dy d f :
  compressFault c = None -> d !! logName dy = Some f ->
  compress c dy d !! gzName dy = Some (mkLogFile (Gzipped (textOf (Some f))) (clock c))
  /\ compress c dy d !! logName dy = None
  /\ forall name, name <> gzName dy -> name <> logName dy -> compress c dy d !! name = d !! name.
Proof.
  intros Hc Hf. unfold compress. rewrite Hf, Hc. split; [|split].
  - by rewrite lookup_delete_ne, lookup_insert_eq by (intros E; by apply (gzName_ne dy dy)).
  - apply lookup_delete_eq.
  - intros name H1 H2. by rewrite lookup_delete_ne, lookup_insert_ne.
Qed.

(** * The order of the clean-up *)

Lemma pass_spec x l m r : pass x l = (m, r) ->
  m :: r ≡ₚ x :: l /\ Forall (fun y => after y m = false) (x :: r) /\ length r = length l /\ after x m = false.
Proof.
  revert x m r. induction l as [|y l IH]; intros x m r; cbn [pass].
  - intros [<- <-]%pair_equal_spec. assert (after x x = false) by (unfold after; apply Z.ltb_irrefl). repeat split; auto.
  - destruct (after y x) eqn:E.
    + destruct (pass y l) as [m' r'] eqn:Ep. intros [<- <-]%pair_equal_spec. destruct (IH _ _ _ Ep) as (Hp & Hf & Hl & Ha).
      apply Forall_cons in Hf as [Hy Hf].
      assert (after x m' = false) as Hx by (unfold after in *; rewrite !Z.ltb_ge, ?Z.ltb_lt in *; lia).
      split; [rewrite Permutation_swap, Hp; by rewrite Permutation_swap|]. split; [by repeat constructor|]. cbn. split; [lia|done].
    + destruct (pass x l) as [m' r'] eqn:Ep. intros [<- <-]%pair_equal_spec. destruct (IH _ _ _ Ep) as (Hp & Hf & Hl & Ha).
      apply Forall_cons in Hf as [Hx Hf].
      assert (after y m' = false) as Hy by (unfold after in *; rewrite !Z.ltb_ge in *; lia).
      split; [rewrite Permutation_swap, Hp; by rewrite Permutation_swap|]. split; [by repeat constructor|]. cbn. split; [lia|done].
Qed.

Lemma exchange_sort_spec fuel l : (length l <= fuel)%nat ->
  exchange_sort fuel l ≡ₚ l /\ StronglySorted (fun a b => after b a = false) (exchange_sort fuel l).
Proof.
  revert l. induction fuel as [|fuel IH]; intros [|x l] Hf; cbn [length] in Hf; cbn [exchange_sort]; try lia; try by split; constructor.
  destruct (pass x l) as [m r] eqn:Ep. destruct (pass_spec _ _ _ _ Ep) as (Hp & Ha & Hl & _). apply Forall_cons in Ha as [_ Ha].
  destruct (IH r) as [Hr Hs]; [lia|]. split; [by rewrite Hr|]. constructor; [done|]. by rewrite Hr.
Qed.

(** ** What stays *)

Definition kept_gz (v : list (entry * bool)) : list (entry * bool) := List.filter (fun x => x.2 && is_gz x.1.1) v.

Lemma verdicts_fst now n l : map fst (verdicts now n l) = l.
Proof. revert n. induction l as [|e l IH]; intros n; [done|]. cbn. by rewrite IH. Qed.

Lemma verdicts_age now n l e : (e, true) ∈ verdicts now n l -> (now - e.2 <= maxAge)%Z.
Proof.
  revert n. induction l as [|x l IH]; intros n; cbn [verdicts]; [by intros ?%elem_of_nil|]. rewrite elem_of_cons. intros [[= -> Hs]|Hin]; [|by eapply IH].
  symmetry in Hs. apply andb_true_iff in Hs as [Hs _]. apply negb_true_iff, Z.ltb_ge in Hs. lia.
Qed.

Lemma verdicts_count now n l : (length (kept_gz (verdicts now n l)) + n <= Nat.max maxFiles n)%nat.
Proof.
  revert n. induction l as [|x l IH]; intros n; cbn [verdicts kept_gz List.filter length]; [lia|]. cbn [fst snd].
  destruct (is_gz x.1) eqn:Eg; cbn [andb].
  - specialize (IH (S n)). destruct (maxFiles <? S n)%nat eqn:Em.
    + apply Nat.ltb_lt in Em. rewrite andb_false_r. cbn [andb]. unfold kept_gz in IH. lia.
    + apply Nat.ltb_ge in Em. unfold kept_gz in IH. destruct (maxAge <? _)%Z; cbn [negb andb length]; lia.
  - specialize (IH n). rewrite andb_false_r. exact IH.
Qed.

(** No .gz that stays is older than one that goes. *)
Lemma verdicts_full now n l e : (maxFiles < n)%nat -> (e, true) ∈ verdicts now n l -> is_gz e.1 = false.
Proof.
  revert n. induction l as [|x l IH]; intros n Hn; cbn [verdicts]; [by intros ?%elem_of_nil|]. rewrite elem_of_cons. intros [[= -> Hs]|Hin].
  - symmetry in Hs. apply andb_true_iff in Hs as [_ Hs]. destruct (is_gz x.1); [|done].
    apply negb_true_iff, andb_false_iff in Hs as [Hs|Hs%Nat.ltb_ge]; [done|lia].
  - eapply IH; [|exact Hin]. destruct (is_gz x.1); lia.
Qed.

Lemma verdicts_newest now n l a b :
  StronglySorted (fun a b => after b a = false) l -> (a, true) ∈ verdicts now n l -> (b, false) ∈ verdicts now n l ->
  is_gz a.1 = true -> (b.2 <= a.2)%Z.
Proof.
  intros Hs. revert n. induction Hs as [|x l Hs IH Hx]; intros n; cbn [verdicts]; [by intros ?%elem_of_nil|].
  set (n' := if is_gz x.1 then S n else n). rewrite !elem_of_cons.
  assert (Hin : forall e s, (e, s) ∈ verdicts now n' l -> e ∈ l).
  { intros e s He. rewrite <- (verdicts_fst now n' l). change e with (e, s).1. by apply list_elem_of_fmap_2. }
  intros [[= -> Ha]|Ha] [[= -> Hb]|Hb] Hg; [congruence| | |by eapply IH].
  - apply Hin in Hb. rewrite Forall_forall in Hx. specialize (Hx b Hb). unfold after in Hx. apply Z.ltb_ge in Hx. lia.
  - symmetry in Hb. apply andb_false_iff in Hb as [Hb|Hb]; apply negb_false_iff in Hb.
    + apply Z.ltb_lt in Hb. apply verdicts_age in Ha. lia.
    + apply andb_true_iff in Hb as [Hxg Hb%Nat.ltb_lt]. fold n' in Hb. exfalso.
      rewrite (verdicts_full now n' l a Hb Ha) in Hg. done.
Qed.

(** ** The directory after a clean-up *)

Lemma lookup_remove_all (fails : string -> bool) names (d : log_dir) k :
  foldr (fun name d => if fails name then d else delete name d) d names !! k
  = if bool_decide (k ∈ names) && negb (fails k) then None else d !! k.
Proof.
  induction names as [|n names IH]; cbn [foldr]; [by rewrite bool_decide_eq_false_2 by apply not_elem_of_nil|].
  destruct (decide (k = n)) as [->|Hne].
  - rewrite (bool_decide_eq_true_2 (n ∈ n :: names)) by left. cbn [andb]. destruct (fails n) eqn:Ef; cbn [negb].
    + rewrite IH, andb_false_r. done.
    + apply lookup_delete_eq.
  - assert (bool_decide (k ∈ n :: names) = bool_decide (k ∈ names)) as -> by (apply bool_decide_ext; rewrite elem_of_cons; naive_solver).
    rewrite <- IH. destruct (fails n); [done|by rewrite lookup_delete_ne].
Qed.

Lemma elem_of_logEntries c d name t :
  (name, t) ∈ logEntries c d <-> HasPrefix name "ts-bridge-" = true /\ infoFails c name = false /\ exists f, d !! name = Some f /\ modTime f = t.
Proof.
  unfold logEntries. rewrite list_elem_of_omap. split.
  - intros (n & Hn & He). destruct (negb (HasPrefix n "ts-bridge-") || infoFails c n) eqn:E; [done|].
    apply orb_false_iff in E as [E1%negb_false_iff E2]. destruct (d !! n) as [f|] eqn:Ef; [|done]. injection He as -> <-. naive_solver.
  - intros (Hp & Hi & f & Hf & <-). exists name. rewrite elem_of_sortedKeys, Hp, Hi, Hf. split; [by eexists|done].
Qed.

Lemma NoDup_logEntries c d : NoDup (logEntries c d).*1.
Proof.
  unfold logEntries. assert (NoDup (sortedKeys d)) as Hn.
  { unfold sortedKeys. rewrite sortNames_perm. apply NoDup_fst_map_to_list. }
  induction Hn as [|n l Hni _ IH]; [constructor|]. cbn [omap list_omap]. destruct (negb _ || _); [done|].
  destruct (d !! n) as [f|]; [|done]. cbn. constructor; [|done]. intros ([n' t] & Hn' & Hin)%list_elem_of_fmap. cbn in Hn'. subst n'.
  apply list_elem_of_omap in Hin as (m & Hm & He). destruct (negb (HasPrefix m "ts-bridge-") || infoFails c m); [done|].
  destruct (d !! m) as [f'|]; [|done]. injection He as -> _. done.
Qed.

(** The verdicts of a clean-up. *)
Definition cleanup_verdicts (c : call) (d : log_dir) : list (entry * bool) :=
  verdicts (clock c) 0 (exchange_sort (length (logEntries c d)) (logEntries c d)).

Lemma cleanup_verdicts_spec c d :
  map fst (cleanup_verdicts c d) ≡ₚ logEntries c d
  /\ StronglySorted (fun a b => after b a = false) (exchange_sort (length (logEntries c d)) (logEntries c d)).
Proof.
  unfold cleanup_verdicts. rewrite verdicts_fst. by apply exchange_sort_spec.
Qed.

Lemma verdict_unique c d name t t' b b' :
  ((name, t), b) ∈ cleanup_verdicts c d -> ((name, t'), b') ∈ cleanup_verdicts c d -> b = b'.
Proof.
  intros H1 H2. assert (NoDup (map (fun x => x.1.1) (cleanup_verdicts c d))) as Hn.
  { assert (map (fun x : entry * bool => x.1.1) (cleanup_verdicts c d) = map fst (map fst (cleanup_verdicts c d))) as -> by (by rewrite map_map).
    pose proof (NoDup_logEntries c d) as Hn. destruct (cleanup_verdicts_spec c d) as [Hp _]. by rewrite Hp. }
  apply list_elem_of_lookup in H1 as [i Hi]. apply list_elem_of_lookup in H2 as [j Hj].
  assert (i = j) as ->; [|congruence].
  eapply (NoDup_lookup _ i j name Hn); rewrite list_lookup_fmap; [by rewrite Hi|by rewrite Hj].
Qed.

Lemma elem_of_removed v name : name ∈ removed v <-> exists t, ((name, t), false) ∈ v.
Proof.
  unfold removed. rewrite list_elem_of_fmap. split.
  - intros ([[n t] b] & -> & Hin). apply list_elem_of_In, List.filter_In in Hin as [Hin Hb]. cbn in Hb. destruct b; [done|].
    exists t. by apply list_elem_of_In.
  - intros [t Hin]. exists ((name, t), false). split; [done|]. by apply list_elem_of_In, List.filter_In; split; [apply list_elem_of_In|].
Qed.

Lemma cleanup_lookup c d name : readDirFails c = false ->
  cleanup c d !! name = if bool_decide (name ∈ removed (cleanup_verdicts c d)) && negb (removeFails c name) then None else d !! name.
Proof. intros Hr. unfold cleanup, cleanup_verdicts. rewrite Hr. apply lookup_remove_all. Qed.

(** A log file and the verdict on it. *)
Lemma verdict_of c d name f :
  infoFails c name = false -> HasPrefix name "ts-bridge-" = true -> d !! name = Some f ->
  exists b, ((name, modTime f), b) ∈ cleanup_verdicts c d.
Proof.
  intros Hi Hp Hf. destruct (cleanup_verdicts_spec c d) as [Hperm _].
  assert ((name, modTime f) ∈ map fst (cleanup_verdicts c d)) as Hin by (rewrite Hperm; apply elem_of_logEntries; naive_solver).
  apply list_elem_of_fmap in Hin as ([e b] & -> & Hin). by exists b.
Qed.

Section Cleaned.
Context (c : call) (d : log_dir) (Hread : readDirFails c = false) (Hinfo : forall n, infoFails c n = false) (Hrem : forall n, removeFails c n = false).

Lemma stays_verdict name f :
  HasPrefix name "ts-bridge-" = true -> cleanup c d !! name = Some f -> d !! name = Some f /\ ((name, modTime f), true) ∈ cleanup_verdicts c d.
Proof.
  intros Hp. rewrite cleanup_lookup by done. destruct (bool_decide _ && _) eqn:E; [done|]. intros Hf. split; [done|].
  destruct (verdict_of c d name f) as [[|] Hin]; [done..|]. exfalso. rewrite Hrem, andb_true_r in E. apply bool_decide_eq_false in E.
  apply E, elem_of_removed. by eexists.
Qed.

Lemma goes_verdict name f :
  HasPrefix name "ts-bridge-" = true -> d !! name = Some f -> cleanup c d !! name = None -> ((name, modTime f), false) ∈ cleanup_verdicts c d.
Proof.
  intros Hp Hf. rewrite cleanup_lookup by done. destruct (bool_decide _ && _) eqn:E; [|congruence]. intros _.
  apply andb_true_iff in E as [E%bool_decide_eq_true _]. apply elem_of_removed in E as [t Ht].
  destruct (verdict_of c d name f) as [b Hin]; [done..|]. assert (b = false) as -> by (by eapply verdict_unique). done.
Qed.

Lemma kept_names l :
  NoDup l -> (forall name, name ∈ l -> HasPrefix name "ts-bridge-" = true /\ is_gz name = true /\ is_Some (cleanup c d !! name)) ->
  (length l <= maxFiles)%nat.
Proof.
  intros Hnd Hl. pose proof (verdicts_count (clock c) 0 (exchange_sort (length (logEntries c d)) (logEntries c d))) as Hc.
  fold (cleanup_verdicts c d) in Hc. assert (length l <= length (kept_gz (cleanup_verdicts c d)))%nat; [|lia].
  transitivity (length (map (fun x : entry * bool => x.1.1) (kept_gz (cleanup_verdicts c d)))); [|by rewrite length_map].
  apply submseteq_length, NoDup_submseteq; [done|]. intros name Hin. destruct (Hl _ Hin) as (Hp & Hg & [f Hf]).
  apply stays_verdict in Hf as [_ Hv]; [|done]. apply list_elem_of_fmap. exists ((name, modTime f), true). split; [done|].
  apply list_elem_of_In, List.filter_In. split; [by apply list_elem_of_In|]. cbn. by rewrite Hg.
Qed.
End Cleaned.

(** * Properties *)

(** C24: every write that succeeds is appended to the file of its day and to no other, in
    order, whatever days the writes are on and wherever one fails; of a write that
    fails, its file has just the bytes its error counts, none when the file could not
    be opened. Without faults they all succeed, each with its whole length. Rotation
    by writing keeps every file: nothing is compressed or cleaned up until the next
    start. *)
Theorem writes_land_in_their_day l r d r' d' ress
    (Hr : rotator_ok r) (Hd : Forall (fun ct => day ct.1 <> "") l) (HW : write_all l r d = (r', d', ress)) :
  (forall name, textOf (d' !! name) = textOf (d !! name) +:+ written name l ress)
  /\ (Forall (fun ct => openFails ct.1 = false /\ writeFault ct.1 = None) l -> ress = map (fun ct => Ok (len ct.2)) l)
  /\ (forall name f, d !! name = Some f -> is_Some (d' !! name)).
Proof. by destruct (write_all_spec _ _ _ _ _ _ Hr Hd HW) as (_ & H). Qed.

(** C38: a clean-up only removes log files. Afterwards none is older than seven days, at
    most ten archives are left, and no archive that was left is older than one that
    was removed. *)
Theorem cleanup_keeps_newest c d (Hread : readDirFails c = false) (Hinfo : forall n, infoFails c n = false)
    (Hrem : forall n, removeFails c n = false) :
  (forall name, HasPrefix name "ts-bridge-" = false -> cleanup c d !! name = d !! name)
  /\ (forall name f, cleanup c d !! name = Some f -> d !! name = Some f
        /\ (HasPrefix name "ts-bridge-" = true -> (clock c - modTime f <= maxAge)%Z))
  /\ (forall l, NoDup l ->
        (forall name, name ∈ l -> HasPrefix name "ts-bridge-" = true /\ is_gz name = true /\ is_Some (cleanup c d !! name)) ->
        (length l <= 10)%nat)
  /\ (forall a b fa fb, HasPrefix a "ts-bridge-" = true -> HasPrefix b "ts-bridge-" = true -> is_gz a = true ->
        cleanup c d !! a = Some fa -> d !! b = Some fb -> cleanup c d !! b = None -> (modTime fb <= modTime fa)%Z).
Proof.
  split; [|split; [|split]].
  - intros name Hp. rewrite cleanup_lookup by done. destruct (bool_decide _ && _) eqn:E; [|done]. exfalso.
    apply andb_true_iff in E as [E%bool_decide_eq_true _]. apply elem_of_removed in E as [t Ht].
    assert ((name, t) ∈ logEntries c d) as Hin.
    { rewrite <- (proj1 (cleanup_verdicts_spec c d)). apply list_elem_of_fmap. by exists ((name, t), false). }
    apply elem_of_logEntries in Hin as (Hx & _). congruence.
  - intros name f Hf. split.
    + rewrite cleanup_lookup in Hf by done. by destruct (bool_decide _ && _).
    + intros Hp. apply (stays_verdict c d) in Hf as [_ Hv]; [|done..]. by apply verdicts_age in Hv.
  - intros l Hnd Hl. by apply (kept_names c d Hread Hinfo Hrem).
  - intros a b fa fb Ha Hb Hg Hfa Hfb Hn. apply (stays_verdict c d) in Hfa as [_ Hva]; [|done..].
    apply (goes_verdict c d Hread Hinfo) with (f := fb) in Hn; [|done..].
    destruct (cleanup_verdicts_spec c d) as [_ Hs]. exact (verdicts_newest _ _ _ _ _ Hs Hva Hn Hg).
Qed.

(** The last file of a run is compressed over the archive of the same day: after a second
    run on a day, what the first one logged is gone. *)
Theorem second_run_replaces_archive (c : call) (dy first second : string) (d : log_dir) :
  compressFault c = None ->
  d !! gzName dy = Some (mkLogFile (Gzipped first) (clock c)) -> d !! logName dy = Some (mkLogFile (Plain second) (clock c)) ->
  forall r' d', CloseRotator c (mkRotator (Some (logName dy, true)) dy) d = (r', d') ->
  d' !! gzName dy = Some (mkLogFile (Gzipped second) (clock c)) /\ d' !! logName dy = None.
Proof.
  intros Hc Hg Hp r' d' [= _ <-]. destruct (compress_ok c dy d _ Hc Hp) as (H1 & H2 & _). split; [exact H1|exact H2].
Qed.

(** A logger that was closed does not log again on the same day: the rotator keeps the
    day and finds no file to write to. *)
Theorem closed_rotator_stays_closed c text r d r1 d1 name :
  current r = Some (name, true) -> currentDay r = day c -> CloseRotator c r d = (r1, d1) ->
  Write c text r1 d1 = (r1, d1, Err WriteInvalid).
Proof.
  intros Hc Hd. unfold CloseRotator. rewrite Hc. intros [= <- <-]. unfold Write. cbn [current currentDay].
  rewrite (bool_decide_eq_true_2 (None = None)) by done. rewrite Hd, (bool_decide_eq_true_2 (day c = day c)) by done. reflexivity.
Qed.

(** ** Concrete runs *)

Definition demo_call (dy : string) (now : Z) : call := mkCall dy now false None None false (fun _ => false) (fun _ => false).
(** One byte is written, then the disk is full. *)
Definition full_disk (dy : string) (now : Z) : call := mkCall dy now false (Some 1%nat) None false (fun _ => false) (fun _ => false).
Definition demo_writes : list (call * string) :=
  [(demo_call "2024-01-01" 1, "a"); (full_disk "2024-01-02" 2, "bc"); (demo_call "2024-01-02" 3, "d")].
Definition demo_after := write_all demo_writes NewFileRotator ∅.

Lemma writes_land_in_their_day_witness :
  demo_after.2 = [Ok 1%nat; Err (WriteLogFailed 1); Ok 1%nat] /\ textOf (demo_after.1.2 !! "ts-bridge-2024-01-02.log") = "bd".
Proof.
  split; [vm_compute; reflexivity|]. destruct demo_after as [[r' d'] ress] eqn:E.
  assert (Hd : Forall (fun ct : call * string => day ct.1 <> "") demo_writes) by (repeat constructor; discriminate).
  assert (H0 : rotator_ok NewFileRotator) by reflexivity.
  pose proof (proj1 (writes_land_in_their_day _ _ _ _ _ _ H0 Hd E) "ts-bridge-2024-01-02.log") as Ht. cbn [fst snd]. rewrite Ht.
  assert (ress = demo_after.2) as -> by (by rewrite E). vm_compute. reflexivity.
Defined.

Definition demo_archive (i : Z) : string := gzName (Itoa i).
Definition demo_logs : log_dir :=
  list_to_map (("notes.txt", mkLogFile (Plain "x") 0) :: map (fun i => (demo_archive i, mkLogFile (Gzipped "") i)) [1; 2; 3; 4; 5; 6; 7; 8; 9; 10; 11; 12])%Z.

Lemma cleanup_keeps_newest_witness :
  size (cleanup (demo_call "d" 100) demo_logs) = 11%nat
  /\ cleanup (demo_call "d" 100) demo_logs !! "notes.txt" = demo_logs !! "notes.txt".
Proof.
  split; [vm_compute; reflexivity|].
  apply (proj1 (cleanup_keeps_newest (demo_call "d" 100) demo_logs eq_refl (fun _ => eq_refl) (fun _ => eq_refl))). reflexivity.
Defined.

(** Two runs on one day. *)
Definition demo_two_runs : log_dir :=
  let c := demo_call "d" 1 in
  let '(r, d, _) := Open c NewFileRotator ∅ in
  let '(r, d, _) := Write c "first" r d in
  let '(_, d) := CloseRotator c r d in
  let '(r, d, _) := Open c NewFileRotator d in
  let '(r, d, _) := Write c "second" r d in d.

Lemma second_run_replaces_archive_witness :
  demo_two_runs !! gzName "d" = Some (mkLogFile (Gzipped "first") 1) /\
  (CloseRotator (demo_call "d" 1) (mkRotator (Some (logName "d", true)) "d") demo_two_runs).2 !! gzName "d" = Some (mkLogFile (Gzipped "second") 1).
Proof.
  assert (H1 : demo_two_runs !! gzName "d" = Some (mkLogFile (Gzipped "first") 1)) by (vm_compute; reflexivity).
  assert (H2 : demo_two_runs !! logName "d" = Some (mkLogFile (Plain "second") 1)) by (vm_compute; reflexivity).
  split; [exact H1|]. exact (proj1 (second_run_replaces_archive (demo_call "d" 1) "d" "first" "second" demo_two_runs eq_refl H1 H2 _ _ eq_refl)).
Defined.

Lemma closed_rotator_stays_closed_witness :
  (Write (demo_call "d" 2) "late" (CloseRotator (demo_call "d" 1) (mkRotator (Some (logName "d", true)) "d") ∅).1 ∅).2 = Err WriteInvalid.
Proof.
  pose proof (closed_rotator_stays_closed (demo_call "d" 2) "late" (mkRotator (Some (logName "d", true)) "d") ∅ _ _ (logName "d")
    eq_refl eq_refl eq_refl) as H. exact (f_equal snd H).
Defined.
