(* ===== verification/PacScript.v ===== *)
(** What the proxy script of the browser mode says, as a browser reads it: the
    JavaScript of the script that BuildPAC writes (src/internal/browser/browser.go),
    statement by statement. No definition of the program is here: the script is
    data to it, and this file is the reader of that data. *)
From S2P Require Import Prelude GoStrings.
From Stdlib Require Import Ascii.

Open Scope bool_scope.

Definition printable (c : ascii) : bool := between " " c "~".

(** * String literals *)

(** A literal after its opening quote: its value and what follows the closing one.
    Of the escapes, those the script has. *)
Definition js_escape (e : ascii) : option ascii :=
  if eqc e dquote || eqc e bslash then Some e
  else if eqc e "n" then Some nl else if eqc e "t" then Some "009"%char else if eqc e "r" then Some "013"%char else None.
Fixpoint read_literal (s : string) : option (string * string) :=
  match s with
  | "" => None
  | String c r =>
      if eqc c dquote then Some ("", r)
      else if eqc c bslash then
        match r with
        | "" => None
        | String e r =>
            match js_escape e, read_literal r with
            | Some b, Some (v, rest) => Some (String b v, rest)
            | _, _ => None
            end
        end
      else match read_literal r with Some (v, rest) => Some (String c v, rest) | None => None end
  end.
Definition read_string (s : string) : option (string * string) :=
  match s with String c r => if eqc c dquote then read_literal r else None | "" => None end.

Lemma printable_quoted c rest :
  printable c = true -> read_literal (quote_byte c +:+ rest) = match read_literal rest with Some (v, r) => Some (String c v, r) | None => None end.
Proof.
  destruct c as [[][][][][][][][]]; intros Hp; try discriminate Hp; reflexivity.
Qed.

Lemma read_quoted s rest : str_all printable s = true -> read_string (Quote s +:+ rest) = Some (s, rest).
Proof.
  unfold Quote. change (String dquote ?x +:+ rest) with (String dquote (x +:+ rest)). cbn [read_string]. rewrite eqc_refl.
  rewrite str_app_assoc. change (String dquote "" +:+ rest) with (String dquote rest).
  induction s as [|c s IH]; cbn [quote_go str_all].
  - intros _. change ("" +:+ ?x) with x. cbn [read_literal]. by rewrite eqc_refl.
  - intros [Hc Hs]%andb_true_iff. rewrite str_app_assoc, printable_quoted by done. by rewrite (IH Hs).
Qed.

(** * Conditions *)

(** A comparison of [origin] with a literal, [===] or [!==], and what follows it. *)
Definition read_comparison (s : string) : option ((bool * string) * string) :=
  let compare eq r := match read_string r with Some (v, rest) => Some ((eq, v), rest) | None => None end in
  if HasPrefix s "origin === " then compare true (str_drop 11 s)
  else if HasPrefix s "origin !== " then compare false (str_drop 11 s) else None.
(** Comparisons joined by [||]. *)
Fixpoint read_disjunction (fuel : nat) (s : string) : option (list (bool * string)) :=
  match fuel with
  | O => None
  | S k =>
      match read_comparison s with
      | None => None
      | Some (c, "") => Some [c]
      | Some (c, rest) => if HasPrefix rest " || " then cons c <$> read_disjunction k (str_drop 4 rest) else None
      end
  end.
Definition holds (origin : string) (c : bool * string) : bool := Bool.eqb c.1 (bool_decide (origin = c.2)).

(** [if (...) {] *)
Definition read_if (l : string) : option (list (bool * string)) :=
  if HasPrefix l "  if (" && HasSuffix l ") {"
  then let c := str_drop 6 (str_take (len l - 3) l) in read_disjunction (S (len c)) c else None.
(** [return "...";] *)
Definition read_return (l : string) : option string :=
  let l := trim_left is_space l in
  if HasPrefix l "return " then match read_string (str_drop 7 l) with Some (v, ";") => Some v | _ => None end else None.

(** * The port of a URL *)

(** The digits before the first [/] or the end; [None] when there are none or
    something else comes. *)
Fixpoint read_port (s : string) : option string :=
  match s with
  | "" => Some ""
  | String c r => if eqc c "/" then Some "" else if is_digit c then String c <$> read_port r else None
  end.
Definition port_after (s : string) : option string :=
  match s with
  | String c r => if eqc c ":" then match read_port r with Some "" | None => None | Some p => Some p end else None
  | "" => None
  end.
(** The longest part without the bytes of [stop], and the rest. *)
Fixpoint span (stop : ascii -> bool) (s : string) : string * string :=
  match s with
  | "" => ("", "")
  | String c r => if stop c then ("", s) else let '(a, b) := span stop r in (String c a, b)
  end.
(** [/^https?:\/\/(?:\[[^\]]+\]|[^\/:]+):([0-9]+)(?:\/|$)/i]: the group it captures. *)
Definition match_port (url : string) : option string :=
  let authority := if HasPrefix (ToLower url) "https://" then Some (str_drop 8 url)
                   else if HasPrefix (ToLower url) "http://" then Some (str_drop 7 url) else None in
  match authority with
  | None => None
  | Some s =>
      let bracketed :=
        match s with
        | String c r => if eqc c "[" then match span (eqc "]") r with ("", _) | (_, "") => None | (_, String _ after) => port_after after end else None
        | "" => None
        end in
      match bracketed with
      | Some p => Some p
      | None => match span (fun c => eqc c "/" || eqc c ":") s with ("", _) => None | (_, after) => port_after after end
      end
  end.
Definition effectivePort (url : string) : string :=
  match match_port url with
  | Some p => p
  | None => if HasPrefix (ToLower url) "https://" then "443" else "80"
  end.
(** The text of that function. *)
Definition effective_port_lines : list string :=
  ["function effectivePort(url) {";
   "  var match = url.match(/^https?:\/\/(?:\[[^\]]+\]|[^\/:]+):([0-9]+)(?:\/|$)/i);";
   "  if (match) { return match[1]; }";
   "  return url.toLowerCase().indexOf(" +:+ Quote "https://" +:+ ") === 0 ? " +:+ Quote "443" +:+ " : " +:+ Quote "80" +:+ ";";
   "}"].

(** * The script *)

(** The statements of FindProxyForURL: [skip] in the body of an [if] whose
    condition does not hold. [None] for what is not JavaScript of this kind, and for a
    function that ends without a value. *)
Fixpoint run_lines (url host : string) (origin : option string) (skip : bool) (lines : list string) : option string :=
  match lines with
  | [] => None
  | l :: r =>
      if bool_decide (l = "  }") then run_lines url host origin false r
      else if skip then run_lines url host origin true r
      else if bool_decide (l = "  host = host.toLowerCase();") then run_lines url (ToLower host) origin false r
      else if bool_decide (l = "  var origin = host + " +:+ Quote ":" +:+ " + effectivePort(url);")
        then run_lines url host (Some (host +:+ ":" +:+ effectivePort url)) false r
      else
        match read_if l with
        | Some cs => match origin with Some o => run_lines url host origin (negb (existsb (holds o) cs)) r | None => None end
        | None => read_return l
        end
  end.
Definition FindProxyForURL (script url host : string) : option string :=
  let lines := Split nl script in
  if bool_decide (firstn 6 lines = effective_port_lines ++ ["function FindProxyForURL(url, host) {"])
  then run_lines url host None false (skipn 6 lines) else None.

(** * Facts *)

Lemma span_app stop a rest :
  str_any stop a = false -> (rest = "" \/ exists c r, rest = String c r /\ stop c = true) -> span stop (a +:+ rest) = (a, rest).
Proof.
  intros Ha Hr. induction a as [|c a IH]; cbn in *.
  - destruct Hr as [->|(c & r & -> & Hc)]; [done|]. cbn. by rewrite Hc.
  - apply orb_false_iff in Ha as [-> Ha]. by rewrite (IH Ha).
Qed.

(** What may follow the authority of a URL. *)
Definition url_path (path : string) : Prop := path = "" \/ exists r, path = String "/" r.

Lemma read_port_app p path : str_all is_digit p = true -> url_path path -> read_port (p +:+ path) = Some p.
Proof.
  intros Hp Hpath. induction p as [|c p IH]; cbn.
  - by destruct Hpath as [->|[r ->]].
  - cbn in Hp. apply andb_true_iff in Hp as [Hc Hp]. rewrite (digit_not c "/" Hc eq_refl), Hc. cbn. by rewrite (IH Hp).
Qed.

(** An absolute URL of the web. *)
Definition web_url (scheme host port path : string) : string :=
  scheme +:+ "://" +:+ host +:+ (if bool_decide (port = "") then "" else ":" +:+ port) +:+ path.
Definition default_port (scheme : string) : string := if bool_decide (scheme = "https") then "443" else "80".
(** A host name, as a URL has it: no brackets, no port. *)
Definition plain_name (host : string) : Prop := host <> "" /\ no_byte "/" host = true /\ no_byte ":" host = true /\ no_byte "[" host = true.

Lemma effectivePort_web scheme host port path :
  (scheme = "https" \/ scheme = "http") -> plain_name host -> str_all is_digit port = true -> url_path path ->
  effectivePort (web_url scheme host port path) = if bool_decide (port = "") then default_port scheme else port.
Proof.
  intros Hs (Hne & Hslash & Hcolon & Hopen) Hp Hpath.
  set (rest := (if bool_decide (port = "") then "" else ":" +:+ port) +:+ path).
  assert (match span (fun c => eqc c "/" || eqc c ":") (host +:+ rest) with ("", _) => None | (_, after) => port_after after end
          = if bool_decide (port = "") then None else Some port) as Hspan.
  { rewrite span_app.
    - destruct host; [done|]. unfold rest. case_bool_decide as E; cbn.
      + by destruct Hpath as [->|[r ->]].
      + rewrite read_port_app by done. by destruct port.
    - clear - Hslash Hcolon. unfold no_byte in *. induction host as [|c host IH]; [done|]. cbn in *.
      apply andb_true_iff in Hslash as [H1 ?], Hcolon as [H2 ?]. apply negb_true_iff in H1, H2. by rewrite H1, H2, IH.
    - unfold rest. case_bool_decide; [|right; by eexists _, _]. destruct Hpath as [->|[r ->]]; [by left|right; by eexists _, _]. }
  assert (match host +:+ rest with String c r => eqc c "[" | "" => false end = false) as Hb.
  { destruct host as [|c host]; [done|]. cbn in *. unfold no_byte in Hopen. cbn in Hopen. apply andb_true_iff in Hopen as [Ho _]. by apply negb_true_iff in Ho. }
  assert (host +:+ rest <> "") as Hnn by (by destruct host).
  unfold effectivePort, match_port, web_url, default_port. fold rest.
  destruct Hs as [-> | ->].
  - change ("https" +:+ "://" +:+ host +:+ rest) with ("https://" +:+ (host +:+ rest)).
    change (ToLower ("https://" +:+ (host +:+ rest))) with ("https://" +:+ ToLower (host +:+ rest)). rewrite HasPrefix_app.
    change 8%nat with (len "https://"). rewrite str_drop_app. destruct (host +:+ rest) as [|c r]; [done|]. rewrite Hb, Hspan.
    by case_bool_decide.
  - change ("http" +:+ "://" +:+ host +:+ rest) with ("http://" +:+ (host +:+ rest)).
    change (ToLower ("http://" +:+ (host +:+ rest))) with ("http://" +:+ ToLower (host +:+ rest)).
    change (HasPrefix ("http://" +:+ ToLower (host +:+ rest)) "https://") with false. rewrite HasPrefix_app.
    change 7%nat with (len "http://"). rewrite str_drop_app. destruct (host +:+ rest) as [|c r]; [done|]. rewrite Hb, Hspan.
    by case_bool_decide.
Qed.

Lemma Split_lines ls :
  Forall (fun l => no_byte nl l = true) ls -> Split nl (String.concat "" (map (fun l => l +:+ newline) ls)) = ls ++ [""].
Proof.
  induction 1 as [|l ls Hl _ IH]; [done|]. cbn [map app]. rewrite <- IH. unfold newline.
  assert (forall a b, String.concat "" (a :: b) = a +:+ String.concat "" b) as Hc.
  { intros a [|b bs]; [by rewrite str_app_nil_r|done]. }
  rewrite Hc, str_app_assoc. change (String nl "" +:+ ?x) with (String nl x). by apply Split_app_sep.
Qed.

Lemma printable_no_nl s : str_all printable s = true -> no_byte nl s = true.
Proof. apply str_all_impl. intros c Hc. apply negb_true_iff, eqc_false. by intros ->. Qed.
Lemma printable_Quote s : str_all printable s = true -> str_all printable (Quote s) = true.
Proof.
  unfold Quote. intros Hs. cbn [str_all]. change (printable dquote) with true. cbn. rewrite str_all_app. cbn. rewrite andb_true_r.
  induction s as [|c s IH]; [done|]. cbn in Hs |- *. apply andb_true_iff in Hs as [Hc Hs]. rewrite str_all_app, (IH Hs), andb_true_r.
  by destruct c as [[][][][][][][][]]; try discriminate Hc.
Qed.

(** ** The conditions of the script *)

Definition comparison (o : string) : string := "origin === " +:+ Quote o.

Lemma read_comparison_eq o rest :
  str_all printable o = true -> read_comparison (comparison o +:+ rest) = Some ((true, o), rest).
Proof.
  intros Ho. unfold read_comparison, comparison. rewrite str_app_assoc, HasPrefix_app. cbv zeta.
  change 11%nat with (len "origin === "). by rewrite str_drop_app, read_quoted.
Qed.

Lemma read_disjunction_Join origins fuel :
  origins <> [] -> Forall (fun o => str_all printable o = true) origins -> (length origins <= fuel)%nat ->
  read_disjunction fuel (Join (map comparison origins) " || ") = Some (map (pair true) origins).
Proof.
  intros Hne Ho. revert Hne fuel. induction Ho as [|o os Ho _ IH]; [done|]. intros _ [|fuel] Hf; cbn in Hf; [lia|].
  destruct os as [|o' os].
  - cbn [map Join read_disjunction]. rewrite <- (str_app_nil_r (comparison o)). by rewrite read_comparison_eq.
  - cbn [map]. rewrite Join_cons by done. cbn [read_disjunction]. rewrite read_comparison_eq by done.
    specialize (IH ltac:(done) fuel ltac:(lia)). cbn [map] in IH.
    rewrite HasPrefix_app. change 4%nat with (len " || "). rewrite str_drop_app, IH. done.
Qed.

Lemma len_conditions origins : (length origins <= len (Join (map comparison origins) " || "))%nat.
Proof.
  induction origins as [|o [|o' os] IH]; [done|cbn; lia|]. cbn [map] in *. rewrite Join_cons by done. rewrite !len_app.
  unfold comparison at 1. rewrite len_app. cbn [length len] in *. change (len "origin === ") with 11%nat. lia.
Qed.

Lemma read_if_conditions origins :
  origins <> [] -> Forall (fun o => str_all printable o = true) origins ->
  read_if ("  if (" +:+ Join (map comparison origins) " || " +:+ ") {") = Some (map (pair true) origins).
Proof.
  intros Hne Ho. unfold read_if. rewrite HasPrefix_app, <- str_app_assoc, HasSuffix_app. cbn [andb].
  rewrite len_app. change (len ") {") with 3%nat. rewrite Nat.add_sub, str_take_app.
  change 6%nat with (len "  if ("). rewrite str_drop_app. apply read_disjunction_Join; [done|done|].
  pose proof (len_conditions origins). lia.
Qed.

Lemma read_return_literal blanks v :
  str_all is_space blanks = true -> str_all printable v = true -> read_return (blanks +:+ "return " +:+ Quote v +:+ ";") = Some v.
Proof.
  intros Hb Hv. unfold read_return.
  assert (forall s, trim_left is_space (blanks +:+ String "r" s) = String "r" s) as Ht.
  { intros s. induction blanks as [|c b IH]; [done|]. cbn in Hb |- *. apply andb_true_iff in Hb as [-> Hb]. by apply IH. }
  change ("return " +:+ ?x) with (String "r" ("eturn " +:+ x)). rewrite Ht. change (String "r" ("eturn " +:+ ?x)) with ("return " +:+ x).
  rewrite HasPrefix_app. change 7%nat with (len "return "). by rewrite str_drop_app, read_quoted.
Qed.

Lemma holds_any o origins : existsb (holds o) (map (pair true) origins) = bool_decide (o ∈ origins).
Proof.
  apply eq_true_iff_eq. rewrite existsb_exists, bool_decide_eq_true. split.
  - intros ([b v] & (x & [= <- <-] & Hx)%in_map_iff & Hh). apply list_elem_of_In. unfold holds in Hh. cbn in Hh.
    by destruct (bool_decide_reflect (o = x)) as [->|].
  - intros Ho. exists (true, o). split; [by apply in_map, list_elem_of_In|]. unfold holds. cbn. by rewrite bool_decide_eq_true_2.
Qed.

Lemma run_skip url host o l r : run_lines url host o true (l :: r) = run_lines url host o (negb (bool_decide (l = "  }"))) r.
Proof. cbn [run_lines]. by destruct (bool_decide _). Qed.
