(* ===== verification/Browser.v ===== *)
(** Package browser (src/internal/browser/browser.go): the proxy configuration a
    browser is given, its arguments, and where its executable is. Parsing a URL is
    the interface [UrlPackage]; the file system, PATH and the listener are arguments. *)
From S2P Require Import Prelude GoStrings GoNet GoPath ControlUrl Socks5 PacScript.
From Stdlib Require Import Ascii Sorting.Sorted.

Open Scope bool_scope.

Record LaunchConfig : Type := mkLaunch {
  UserDataDir : string;
  PACURL : string;
  StartURL : string;
  LaunchOrigins : list string;
}.

Inductive browser_error : Type :=
  | NoRoutes | BadProxyAddress | ProxyNotLoopback | BadProxyPort (port : string)
  | BadRouteSource
  | NoUserDataDir | NoPACURL | BadStartURL | EmptyAllowList | StartNotAllowed
  | EdgeNotFoundAt (path : string) | EdgeNotFound
  | BadPACAddress | PACNotLoopback | PACBindFailed
  | StartEdgeFailed.

(** * Origins *)

(** The origin of an address: its host in lower case, and its port. *)
Definition originOf (source : string) : option string :=
  match SplitHostPort source with
  | Ok (host, port) => if bool_decide (host = "") then None else Some (JoinHostPort (ToLower host) port)
  | Err _ => None
  end.
(** Which bad source is named depends on the order of the map; the error here does not name it. *)
Fixpoint originsOf (sources : list string) : result browser_error (list string) :=
  match sources with
  | [] => Ok []
  | s :: r => match originOf s with Some o => rest ← originsOf r; Ok (o :: rest) | None => Err BadRouteSource end
  end.
Definition AllowedOrigins (routes : gmap string string) : result browser_error (list string) :=
  origins ← originsOf (map fst (map_to_list routes)); Ok (sortNames origins).

(** The elements of a list once each, sorted: the keys of a Go set. *)
Definition uniqueSorted (l : list string) : list string := sortNames (remove_dups l).
Definition normalizedHosts (hosts : list string) : list string :=
  uniqueSorted (List.filter (fun h => negb (bool_decide (h = ""))) (map (fun h => ToLower (TrimSpace h)) hosts)).
Definition containsOrigin (origins : list string) (wanted : string) : bool := contains_word origins wanted.
Definition normalizedOrigins (origins : list string) : result browser_error (list string) :=
  unique ← originsOf origins; Ok (uniqueSorted unique).
(** The host of an address that has one. *)
Definition originHost (origin : string) : string := match SplitHostPort origin with Ok (host, _) => host | Err _ => "" end.
Definition originsToHosts (origins : list string) : list string := normalizedHosts (map originHost origins).

(** * Loopback *)

Definition onLoopback (host : string) : bool :=
  bool_decide (host = "localhost") || match ParseIP host with Some ip => IsLoopback ip | None => false end.
(** [strconv.ParseUint] in base 10 with 16 bits. *)
Definition ParseUint16 (s : string) : option Z :=
  if bool_decide (s = "") then None else n ← parse_digits 0 s; if (n <? 65536)%Z then Some n else None.
Definition validateLoopbackAddress (address : string) : result browser_error unit :=
  match SplitHostPort address with
  | Err _ => Err BadProxyAddress
  | Ok (host, port) =>
      if negb (onLoopback host) then Err ProxyNotLoopback
      else match ParseUint16 port with Some _ => Ok tt | None => Err (BadProxyPort port) end
  end.
Definition validatePACListener (address : string) : result browser_error unit :=
  match SplitHostPort address with
  | Err _ => Err BadPACAddress
  | Ok (host, _) => fail_if (negb (onLoopback host)) PACNotLoopback
  end.

(** * The proxy configuration *)

Definition pacLine (s : string) : string := s +:+ newline.
(** A regular expression and three string constants of the script. *)
Definition pacPortPattern : string := "/^https?:\/\/(?:\[[^\]]+\]|[^\/:]+):([0-9]+)(?:\/|$)/i".
Definition pacText (proxyAddr : string) (origins : list string) : string :=
  let conditions := map (fun o => "origin === " +:+ Quote o) origins in
  String.concat ""
    [pacLine "function effectivePort(url) {";
     pacLine ("  var match = url.match(" +:+ pacPortPattern +:+ ");");
     pacLine "  if (match) { return match[1]; }";
     pacLine ("  return url.toLowerCase().indexOf(" +:+ Quote "https://" +:+ ") === 0 ? " +:+ Quote "443" +:+ " : " +:+ Quote "80" +:+ ";");
     pacLine "}";
     pacLine "function FindProxyForURL(url, host) {";
     pacLine "  host = host.toLowerCase();";
     pacLine ("  var origin = host + " +:+ Quote ":" +:+ " + effectivePort(url);");
     pacLine ("  if (" +:+ Join conditions " || " +:+ ") {");
     pacLine ("    return " +:+ Quote ("SOCKS5 " +:+ proxyAddr) +:+ ";");
     pacLine "  }";
     pacLine ("  return " +:+ Quote "DIRECT" +:+ ";");
     pacLine "}"].
Definition BuildPAC (proxyAddr : string) (routes : gmap string string) : result browser_error string :=
  _ ← fail_if (bool_decide (routes = ∅)) NoRoutes;
  _ ← validateLoopbackAddress proxyAddr;
  origins ← AllowedOrigins routes;
  Ok (pacText proxyAddr origins).

(** [StartPACServer]: the address it listens on, if the machine binds one, and the URL
    of the script; its handler knows one path. *)
Definition StartPACServer (address : string) (bound : option string) : result browser_error string :=
  _ ← validatePACListener address;
  match bound with Some addr => Ok ("http://" +:+ addr +:+ "/proxy.pac") | None => Err PACBindFailed end.
Definition pacHandler (pac path : string) : option (list (string * string) * string) :=
  if bool_decide (path = "/proxy.pac")
  then Some ([("Content-Type", "application/x-ns-proxy-autoconfig"); ("Cache-Control", "no-store")], pac) else None.

(** * The browser *)

Definition canonicalHTTPSOrigin (parsed : URL) : string :=
  JoinHostPort (ToLower (Hostname parsed)) (if bool_decide (Port parsed = "") then "443" else Port parsed).

Definition hostRules (hosts : list string) : list string := map (fun h => "MAP " +:+ h +:+ " ~NOTFOUND") hosts ++ ["EXCLUDE localhost"].

Definition EdgeArgs `{UrlPackage} (cfg : LaunchConfig) : result browser_error (list string) :=
  _ ← fail_if (bool_decide (UserDataDir cfg = "")) NoUserDataDir;
  _ ← fail_if (bool_decide (PACURL cfg = "")) NoPACURL;
  match urlParse (StartURL cfg) with
  | None => Err BadStartURL
  | Some startURL =>
      _ ← fail_if (negb (bool_decide (Scheme startURL = "https")) || bool_decide (Hostname startURL = "")) BadStartURL;
      match normalizedOrigins (LaunchOrigins cfg) with
      | Err _ | Ok [] => Err EmptyAllowList
      | Ok origins =>
          _ ← fail_if (negb (containsOrigin origins (canonicalHTTPSOrigin startURL))) StartNotAllowed;
          Ok ["--user-data-dir=" +:+ UserDataDir cfg; "--proxy-pac-url=" +:+ PACURL cfg;
              "--host-resolver-rules=" +:+ Join (hostRules (originsToHosts origins)) ", "; "--no-first-run"; StartURL cfg]
      end
  end.

(** ** Finding it *)

Record edgeSearch : Type := mkSearch { names : list string; paths : list string }.
Definition edgeSearchFor (goos home : string) (getenv : string -> string) : edgeSearch :=
  if bool_decide (goos = "windows") then
    mkSearch ["msedge"]
      (map (fun root => JoinPath [root; "Microsoft"; "Edge"; "Application"; "msedge.exe"])
         (List.filter (fun root => negb (bool_decide (root = ""))) [getenv "PROGRAMFILES(X86)"; getenv "PROGRAMFILES"]))
  else if bool_decide (goos = "darwin") then
    let bundle := JoinPath ["Microsoft Edge.app"; "Contents"; "MacOS"; "Microsoft Edge"] in
    mkSearch [] (JoinPath ["/Applications"; bundle] :: (if bool_decide (home = "") then [] else [JoinPath [home; "Applications"; bundle]]))
  else mkSearch ["microsoft-edge"; "microsoft-edge-stable"] [].

Fixpoint firstFound (lookPath : string -> option string) (names : list string) : option string :=
  match names with
  | [] => None
  | n :: r => match lookPath n with Some p => Some p | None => firstFound lookPath r end
  end.
Definition findEdgeIn (explicitPath : string) (search : edgeSearch) (lookPath : string -> option string) (isFile : string -> bool)
    : result browser_error string :=
  if negb (bool_decide (explicitPath = "")) then
    if isFile explicitPath then Ok explicitPath else Err (EdgeNotFoundAt explicitPath)
  else
    match firstFound lookPath (names search) with
    | Some path => Ok path
    | None => match List.find isFile (paths search) with Some path => Ok path | None => Err EdgeNotFound end
    end.
Definition FindEdge (goos home : string) (getenv : string -> string) (lookPath : string -> option string) (isFile : string -> bool)
    (explicitPath : string) : result browser_error string :=
  findEdgeIn explicitPath (edgeSearchFor goos home getenv) lookPath isFile.


(** * Facts *)

Lemma originOf_Some s o :
  originOf s = Some o <-> exists h p, SplitHostPort s = Ok (h, p) /\ h <> "" /\ o = JoinHostPort (ToLower h) p.
Proof.
  unfold originOf. destruct (SplitHostPort s) as [[h p]|e]; [|split; [done|by intros (? & ? & ? & _)]].
  case_bool_decide as Hh; [split; [done|intros (? & ? & [= <- <-] & ? & _); done]|].
  split; [intros [= <-]; by exists h, p|by intros (? & ? & [= <- <-] & _ & ->)].
Qed.

Lemma elem_of_originsOf l os o : originsOf l = Ok os -> o ∈ os <-> exists s, s ∈ l /\ originOf s = Some o.
Proof.
  revert os. induction l as [|s l IH]; intros os; cbn.
  - intros [= <-]. split; [by intros ?%elem_of_nil|by intros (? & ?%elem_of_nil & _)].
  - destruct (originOf s) as [o'|] eqn:Eo; [|done]. intros (rest & Hr & [= <-])%bind_Ok.
    rewrite elem_of_cons, (IH _ Hr). setoid_rewrite elem_of_cons. naive_solver.
Qed.

Lemma originsOf_total l : Forall (fun s => is_Some (originOf s)) l -> exists os, originsOf l = Ok os.
Proof.
  induction 1 as [|s l [o Ho] _ [os IH]]; [by eexists|]. exists (o :: os). cbn. by rewrite Ho, IH.
Qed.

Lemma elem_of_uniqueSorted l x : x ∈ uniqueSorted l <-> x ∈ l.
Proof. unfold uniqueSorted. by rewrite sortNames_perm, elem_of_remove_dups. Qed.
Lemma NoDup_uniqueSorted l : NoDup (uniqueSorted l).
Proof. unfold uniqueSorted. rewrite sortNames_perm. apply NoDup_remove_dups. Qed.

(** An origin splits into the host and the port it was joined from. *)
Lemma originHost_join a h p : SplitHostPort a = Ok (h, p) -> originHost (JoinHostPort (ToLower h) p) = ToLower h.
Proof.
  intros Ha. pose proof (SplitHostPort_parts _ _ _ Ha) as (Ho & Hc & Hp). unfold originHost.
  rewrite SplitHostPort_join; [done|by rewrite no_byte_ToLower by set_solver..|done].
Qed.

Lemma elem_of_normalizedHosts l x : x ∈ normalizedHosts l <-> x <> "" /\ exists h, h ∈ l /\ x = ToLower (TrimSpace h).
Proof.
  unfold normalizedHosts. rewrite elem_of_uniqueSorted, list_elem_of_In, filter_In, <- list_elem_of_In, list_elem_of_fmap.
  rewrite negb_true_iff, bool_decide_eq_false. split; intros (? & ?); naive_solver.
Qed.

(** The port of a URL has no colon. *)
Lemma Port_no_colon u : no_byte ":" (Port u) = true.
Proof.
  unfold Port, splitHostPort. destruct (last_index_byte ":" (Host u)) as [i|] eqn:Ei.
  - apply last_index_byte_split in Ei as [_ Hc]. by repeat case_match; cbn in *; simplify_eq.
  - by case_match.
Qed.

(** * Properties *)

(** The host of an allow-listed address, the way the browser's rules write it. *)
Definition blocked_host (origins : list string) (rule : string) : Prop :=
  exists o h p, o ∈ origins /\ SplitHostPort o = Ok (h, p) /\ h <> "" /\ rule = ToLower (TrimSpace (ToLower h)).

(** C18: the browser is started on an HTTPS page whose host and port are those of an
    allow-listed address, with the proxy configuration and the user data it was
    given; it resolves none of the allow-listed hosts itself, and the rules name
    those hosts once each, and no other. *)
Theorem browser_confined `{UrlPackage} cfg args :
  EdgeArgs cfg = Ok args ->
  exists u hosts,
    urlParse (StartURL cfg) = Some u /\ Scheme u = "https" /\ Hostname u <> ""
    /\ (exists o h p, o ∈ LaunchOrigins cfg /\ SplitHostPort o = Ok (h, p)
          /\ ToLower h = ToLower (Hostname u) /\ p = if bool_decide (Port u = "") then "443" else Port u)
    /\ args = ["--user-data-dir=" +:+ UserDataDir cfg; "--proxy-pac-url=" +:+ PACURL cfg;
               "--host-resolver-rules=" +:+ Join (map (fun h => "MAP " +:+ h +:+ " ~NOTFOUND") hosts ++ ["EXCLUDE localhost"]) ", ";
               "--no-first-run"; StartURL cfg]
    /\ UserDataDir cfg <> "" /\ PACURL cfg <> ""
    /\ NoDup hosts /\ forall h, h ∈ hosts <-> h <> "" /\ blocked_host (LaunchOrigins cfg) h.
Proof.
  unfold EdgeArgs. intros ([] & Hd%fail_if_Ok & He)%bind_Ok. apply bind_Ok in He as ([] & Hp%fail_if_Ok & He).
  destruct (urlParse (StartURL cfg)) as [u|] eqn:Eu; [|done]. apply bind_Ok in He as ([] & Hu%fail_if_Ok & He).
  destruct (normalizedOrigins (LaunchOrigins cfg)) as [os|] eqn:Eo; [|done].
  assert (containsOrigin os (canonicalHTTPSOrigin u) = true /\ args = ["--user-data-dir=" +:+ UserDataDir cfg; "--proxy-pac-url=" +:+ PACURL cfg;
    "--host-resolver-rules=" +:+ Join (hostRules (originsToHosts os)) ", "; "--no-first-run"; StartURL cfg]) as [Hin ->].
  { destruct os as [|o os]; [done|]. apply bind_Ok in He as ([] & Hc%fail_if_Ok & He). apply negb_false_iff in Hc. split; [done|].
    injection He as <-. done. }
  clear He. apply orb_false_iff in Hu as [Hs Hh]. apply negb_false_iff, bool_decide_eq_true in Hs. apply bool_decide_eq_false in Hh, Hd, Hp.
  unfold normalizedOrigins in Eo. apply bind_Ok in Eo as (us & Hus & [= <-]).
  assert (forall o, o ∈ uniqueSorted us <-> exists s h p, s ∈ LaunchOrigins cfg /\ SplitHostPort s = Ok (h, p) /\ h <> "" /\ o = JoinHostPort (ToLower h) p) as Hos.
  { intros o. rewrite elem_of_uniqueSorted, (elem_of_originsOf _ _ _ Hus). setoid_rewrite originOf_Some. naive_solver. }
  exists u, (originsToHosts (uniqueSorted us)). split_and!; try done.
  - unfold containsOrigin, contains_word in Hin. apply bool_decide_eq_true, Hos in Hin as (s & h & p & Hs' & Hsp & _ & E).
    exists s, h, p. split; [done|]. split; [done|]. pose proof (SplitHostPort_parts _ _ _ Hsp) as (_ & _ & Hpp).
    unfold plain_host in Hpp. apply andb_true_iff in Hpp as [[Hpp _]%andb_true_iff _].
    unfold canonicalHTTPSOrigin in E. apply JoinHostPort_parts in E as [E1 E2]; [by split| |done].
    case_bool_decide; [done|apply Port_no_colon].
  - apply NoDup_uniqueSorted.
  - intros x. unfold originsToHosts. rewrite elem_of_normalizedHosts. apply and_iff_compat_l. unfold blocked_host. split.
    + intros (h' & (o & -> & (s & h & p & Hs' & Hsp & Hne & ->)%Hos)%list_elem_of_fmap & ->). exists s, h, p. by rewrite (originHost_join _ _ _ Hsp).
    + intros (s & h & p & Hs' & Hsp & Hne & ->). exists (ToLower h). split; [|done]. apply list_elem_of_fmap.
      exists (JoinHostPort (ToLower h) p). split; [by rewrite (originHost_join _ _ _ Hsp)|]. apply Hos. by exists s, h, p.
Qed.

(** ** The proxy configuration and the SOCKS5 front end *)

(** The addresses of the routes as they are written. *)
Definition plain_routes (routes : gmap string string) : Prop := forall s d, routes !! s = Some d -> str_all printable s = true.

(** What the script says of a page, as a browser reads it: its host, in lower case,
    and its port are compared with each origin. *)
Lemma pacText_read addr origins url host :
  origins <> [] -> Forall (fun o => str_all printable o = true) origins -> str_all printable addr = true ->
  FindProxyForURL (pacText addr origins) url host
  = Some (if bool_decide (ToLower host +:+ ":" +:+ effectivePort url ∈ origins) then "SOCKS5 " +:+ addr else "DIRECT").
Proof.
  intros Hne Ho Ha. unfold FindProxyForURL, pacText.
  match goal with |- context [String.concat "" ?l] =>
    change (String.concat "" l) with (String.concat "" (map (fun x => x +:+ newline)
      (effective_port_lines ++ ["function FindProxyForURL(url, host) {"; "  host = host.toLowerCase();";
         "  var origin = host + " +:+ Quote ":" +:+ " + effectivePort(url);";
         "  if (" +:+ Join (map comparison origins) " || " +:+ ") {";
         "    return " +:+ Quote ("SOCKS5 " +:+ addr) +:+ ";"; "  }"; "  return " +:+ Quote "DIRECT" +:+ ";"; "}"]))) end.
  rewrite Split_lines.
  2:{ apply Forall_app_2; [by repeat constructor|]. repeat apply Forall_cons_2; try done.
      - rewrite !no_byte_app, no_byte_Join; [done|done|]. apply Forall_map, (Forall_impl _ _ _ Ho). intros o Hp.
        unfold comparison. rewrite no_byte_app. by rewrite (printable_no_nl (Quote o)) by by apply printable_Quote.
      - rewrite !no_byte_app, (printable_no_nl (Quote _)); [done|]. apply printable_Quote. by rewrite str_all_app, Ha. }
  cbn [firstn skipn effective_port_lines app]. rewrite bool_decide_eq_true_2 by done.
  (* the statements, one by one *)
  assert (forall l r o, read_if l = None -> bool_decide (l = "  }") = false -> bool_decide (l = "  host = host.toLowerCase();") = false ->
    bool_decide (l = "  var origin = host + " +:+ Quote ":" +:+ " + effectivePort(url);") = false ->
    run_lines url (ToLower host) o false (l :: r) = read_return l) as Hret.
  { intros l r o Hi E1 E2 E3. cbn [run_lines]. by rewrite E1, E2, E3, Hi. }
  set (o := ToLower host +:+ ":" +:+ effectivePort url).
  set (body := ["    return " +:+ Quote ("SOCKS5 " +:+ addr) +:+ ";"; "  }"; "  return " +:+ Quote "DIRECT" +:+ ";"; "}"; ""]).
  set (cond := "  if (" +:+ Join (map comparison origins) " || " +:+ ") {").
  change (run_lines url host None false _) with (run_lines url (ToLower host) (Some o) false (cond :: body)).
  assert (forall x y, read_if ("    return " +:+ x) = None /\ read_if ("  return " +:+ y) = None) as Hri by done.
  cbn [run_lines]. rewrite !(bool_decide_eq_false_2 (cond = _)) by discriminate. unfold cond at 1.
  rewrite read_if_conditions, holds_any by done. destruct (bool_decide (o ∈ origins)); cbn [negb]; unfold body.
  - rewrite Hret by (done || by apply Hri). apply (read_return_literal "    "); [done|]. by rewrite str_all_app, Ha.
  - rewrite run_skip, bool_decide_eq_false_2 by discriminate. cbn [negb]. rewrite run_skip, bool_decide_eq_true_2 by done. cbn [negb].
    rewrite Hret by done. by apply (read_return_literal "  ").
Qed.

Lemma str_all_drop p n s : str_all p s = true -> str_all p (str_drop n s) = true.
Proof. intros Hs. rewrite <- (str_take_drop n s), str_all_app in Hs. by apply andb_true_iff in Hs as [_ Hs]. Qed.

Lemma SplitHostPort_all f a h p : SplitHostPort a = Ok (h, p) -> str_all f a = true -> str_all f h = true /\ str_all f p = true.
Proof.
  intros Hs Ha. assert (forall n, str_all f (str_drop n a) = true) as Hd by (intros; by apply str_all_drop). revert Hs.
  unfold SplitHostPort. destruct (last_index_byte ":" a) as [i|]; [|done]. rewrite match_bracket. specialize (Hd (S i)).
  assert (forall e, str_all f (str_drop 1 (str_take e a)) = true) as Hin by (intros; by apply str_all_drop, str_all_take).
  assert (str_all f (str_take i a) = true) as Ht by by apply str_all_take.
  revert Hd Hin Ht. generalize (str_drop (S i) a) (str_take i a). intros pt t Hd Hin Ht.
  destruct (match a with String c _ => _ | _ => _ end).
  - destruct (index_byte "]" a) as [e|]; [|done]. specialize (Hin e). revert Hin. generalize (str_drop 1 (str_take e a)). intros u Hin.
    repeat case_match; try done. by intros [= <- <-].
  - repeat case_match; try done. by intros [= <- <-].
Qed.

Lemma printable_ToLower s : str_all printable s = true -> str_all printable (ToLower s) = true.
Proof.
  unfold ToLower. induction s as [|c s IH]; [done|]. cbn. intros [Hc Hs]%andb_true_iff. rewrite (IH Hs), andb_true_r.
  by destruct c as [[][][][][][][][]]; try discriminate Hc.
Qed.

(** The origins of plain routes are plain. *)
Lemma AllowedOrigins_plain routes origins :
  AllowedOrigins routes = Ok origins -> plain_routes routes -> Forall (fun o => str_all printable o = true) origins.
Proof.
  unfold AllowedOrigins. intros (os & Hos & [= <-])%bind_Ok Hr. apply Forall_forall. intros o Ho. rewrite sortNames_perm in Ho.
  apply (elem_of_originsOf _ _ _ Hos) in Ho as (s & ([s' d] & -> & Hin%elem_of_map_to_list)%list_elem_of_fmap & (h & p & Hs & _ & ->)%originOf_Some).
  destruct (SplitHostPort_all printable _ _ _ Hs (Hr _ _ Hin)) as [Hh Hp]. apply printable_ToLower in Hh.
  unfold JoinHostPort. destruct (has_byte _ _); by rewrite !str_all_app, Hh, Hp.
Qed.

(** A script that is built says, of every page, what its origins say. *)
Lemma BuildPAC_read addr routes pac :
  BuildPAC addr routes = Ok pac -> plain_routes routes -> str_all printable addr = true ->
  exists origins, AllowedOrigins routes = Ok origins /\ forall url host,
    FindProxyForURL pac url host
    = Some (if bool_decide (ToLower host +:+ ":" +:+ effectivePort url ∈ origins) then "SOCKS5 " +:+ addr else "DIRECT").
Proof.
  unfold BuildPAC. intros ([] & Hne%fail_if_Ok%bool_decide_eq_false & Hb)%bind_Ok Hr Ha. apply bind_Ok in Hb as ([] & _ & Hb).
  apply bind_Ok in Hb as (origins & Ho & [= <-]). exists origins. split; [done|]. intros url host.
  apply pacText_read; [|by eapply AllowedOrigins_plain|done]. intros ->. unfold AllowedOrigins in Ho.
  apply bind_Ok in Ho as (os & Hos & [= Hsort]). apply Hne, map_to_list_empty_iff. pose proof (sortNames_perm os) as Hp. rewrite Hsort in Hp.
  apply Permutation_nil in Hp as ->. destruct (map_to_list routes) as [|[s d] l]; [done|]. cbn in Hos.
  destruct (originOf s); [|done]. by apply bind_Ok in Hos as (? & _ & [= ]).
Qed.

Lemma normalizeRoutes_keeps routes acc m key :
  normalizeRoutes routes acc = Ok m -> is_Some (acc !! key) -> is_Some (m !! key).
Proof.
  revert acc. induction routes as [|[s d] routes IH]; intros acc; cbn; [by intros [= ->]|]. intros H Ha. inv_ok.
  apply (IH _ H). destruct (decide (x = key)) as [->|]; [by rewrite lookup_insert_eq|by rewrite lookup_insert_ne].
Qed.

Lemma normalizeRoutes_covers routes acc m source target key :
  normalizeRoutes routes acc = Ok m -> (source, target) ∈ routes -> normalizeSOCKSAddress source = Ok key -> is_Some (m !! key).
Proof.
  revert acc. induction routes as [|[s d] routes IH]; intros acc; cbn; [by intros _ ?%elem_of_nil|].
  intros H Hin Hk. inv_ok. apply elem_of_cons in Hin as [[= -> ->]|Hin]; [|eauto].
  rewrite Hk in *. simplify_eq. eapply normalizeRoutes_keeps; [done|]. by rewrite lookup_insert_eq.
Qed.

(** The origins and the front end, for a host and a port. *)
Lemma origins_agree routes order origins resolve host port :
  AllowedOrigins routes = Ok origins -> order ≡ₚ map_to_list routes -> NewAllowlistSOCKSTarget order = Ok resolve ->
  no_byte ":" host = true -> (1 <= port <= 65535)%Z ->
  (ToLower host +:+ ":" +:+ Itoa port ∈ origins -> exists target, resolve host port = Ok target)
  /\ (forall target, resolve host port = Ok target ->
       exists source h p, routes !! source = Some target /\ SplitHostPort source = Ok (h, p)
         /\ ToLower h = ToLower host /\ parse_port p = Some port
         /\ (p = Itoa port -> ToLower host +:+ ":" +:+ Itoa port ∈ origins)).
Proof.
  unfold AllowedOrigins. intros (os & Hos & [= <-])%bind_Ok Hp Hr Hc Hport.
  pose proof (sortNames_perm os) as Hperm. setoid_rewrite Hperm. setoid_rewrite (fun o => elem_of_originsOf _ _ o Hos).
  setoid_rewrite originOf_Some.
  assert (JoinHostPort (ToLower host) (Itoa port) = ToLower host +:+ ":" +:+ Itoa port) as Hj.
  { unfold JoinHostPort. by rewrite (proj2 (has_byte_false _ _)) by (rewrite no_byte_ToLower; [done|set_solver]). }
  split.
  - intros (s & Hs & h & p & Hsp & Hne & E). rewrite <- Hj in E.
    pose proof (SplitHostPort_parts _ _ _ Hsp) as (_ & _ & [[Hpp _]%andb_true_iff _]%andb_true_iff).
    apply JoinHostPort_parts in E as [Eh <-]; [|apply digits_no_byte; [done|apply Itoa_all_digits; lia]|done].
    apply list_elem_of_fmap in Hs as ([s' d] & -> & Hsd). rewrite <- Hp in Hsd. cbn in Hsp.
    unfold NewAllowlistSOCKSTarget in Hr. apply bind_Ok in Hr as (m & Hm & [= <-]). unfold allowlistResolver.
    destruct (normalizeRoutes_covers _ _ _ _ _ (JoinHostPort (ToLower host) (Itoa port)) Hm Hsd) as [t ->]; [|by eexists].
    unfold normalizeSOCKSAddress. rewrite Hsp. cbn. rewrite bool_decide_eq_false_2 by done. cbn.
    by rewrite parse_port_Itoa, Eh.
  - intros target Ht. apply (allowlist_admits order resolve host port target ltac:(lia) Hr) in Ht as (s & Hin & (h & p & Hsp & Hne & Hpp & Hh) & _).
    exists s, h, p. rewrite Hp in Hin. split_and!; try done; [by apply elem_of_map_to_list|].
    intros ->. exists s. split; [apply list_elem_of_fmap; by exists (s, target)|]. exists h, (Itoa port). by rewrite Hh, Hj.
Qed.


(** A port the validation reads as 443 but writes otherwise: the front end serves
    the page, the script sends it past the proxy. *)
Definition padded_routes : gmap string string := {[ "app.corp:0443" := "100.64.0.9:443" ]}.
Example padded_port_goes_direct :
  (resolve ← map_err (fun _ => BadRouteSource) (NewAllowlistSOCKSTarget (map_to_list padded_routes));
   map_err (fun _ => BadRouteSource) (resolve "app.corp" 443%Z)) = Ok "100.64.0.9:443"
  /\ (pac ← BuildPAC "127.0.0.1:1080" padded_routes;
      Ok (FindProxyForURL pac (web_url "https" "app.corp" "" "/") "app.corp")) = Ok (Some "DIRECT").
Proof. split; vm_compute; reflexivity. Qed.

Definition demo_launch : LaunchConfig :=
  mkLaunch "/tmp/browser" "http://127.0.0.1:40001/proxy.pac" "https://Wiki.corp/start" ["wiki.corp:443"; "git.corp:8443"; "WIKI.corp:443"].
Lemma browser_confined_witness :
  @EdgeArgs simpleUrl demo_launch =
    Ok ["--user-data-dir=/tmp/browser"; "--proxy-pac-url=http://127.0.0.1:40001/proxy.pac";
        "--host-resolver-rules=MAP git.corp ~NOTFOUND, MAP wiki.corp ~NOTFOUND, EXCLUDE localhost"; "--no-first-run"; "https://Wiki.corp/start"]
  /\ exists u, @urlParse simpleUrl (StartURL demo_launch) = Some u /\ Scheme u = "https".
Proof.
  match goal with |- ?E /\ _ => assert E as Ha by (vm_compute; reflexivity) end. split; [exact Ha|].
  destruct (@browser_confined simpleUrl _ _ Ha) as (u & hosts & Hu & Hs & _). by exists u.
Defined.

Definition demo_routes : gmap string string := {[ "Wiki.corp:443" := "100.64.0.9:8443" ]}.
Definition demo_resolver : resolver := match NewAllowlistSOCKSTarget (map_to_list demo_routes) with Ok r => r | Err _ => directSOCKSTarget end.
Definition demo_pac : string := match BuildPAC "127.0.0.1:1080" demo_routes with Ok pac => pac | Err _ => "" end.
Lemma demo_pac_built : BuildPAC "127.0.0.1:1080" demo_routes = Ok demo_pac.
Proof.
  unfold demo_pac. assert (is_ok (BuildPAC "127.0.0.1:1080" demo_routes) = true) as Hk by (vm_compute; reflexivity).
  by destruct (BuildPAC "127.0.0.1:1080" demo_routes).
Qed.
