(* ===== verification/BrowserCli.v ===== *)
(** The browser command (src/cmd/cli/browser.go, browser_run.go): its flags, the
    profile that supplies its key, the configuration it resolves and the run of
    the isolated browser around the bridge. *)
From S2P Require Import Prelude GoStrings GoNet GoPath GoErr EnvFile Credential ProfileStore ControlUrl Config ConfigMerge Socks5 Signals RunBridge Bootstrap Connect Browser.
From Stdlib Require Import Ascii.

Open Scope bool_scope.

Record BrowserOptions : Type := mkOptions {
  optStartURL : string;
  optUserDataDir : string;
  EdgePath : string;
  PACAddr : string;
}.

Inductive browser_cli_error : Type :=
  | NoCredentialSource | LayerError (e : connect_error) | NoManagedCredential (profileName : string)
  | BrowserMergeError (e : merge_error) | NoSocksOrRoute | NoBrowserURL.

(** * The configuration *)

Definition set_f_SOCKS5Addr (addr : string) (f : FlagSet) : FlagSet :=
  mkFlags (f_Target f) addr (f_SOCKS5Routes f) (f_AuthKey f) (f_AuthKeyFile f) (f_ProfileAuthKey f) (f_Instance f)
    (f_LocalAddr f) (f_Hostname f) (f_StateDir f) (f_ControlURL f) (f_BootstrapSSH f) (f_BootstrapSOCKSAddr f)
    (f_Timeout f) (f_DialTimeout f) (f_DrainTimeout f) (f_IdleTimeout f) (f_MaxConns f) (f_DialRetries f)
    (f_DialBackoffBase f) (f_DialBackoffMax f) (f_HealthAddr f) (f_LogFormat f) (f_ManualMode f) (f_PortRange f)
    (f_Config f) (f_Reset f) (f_HealthAllowRemote f) (f_Verbose f).
(** The control URL of the YAML layer, filled when it has none. *)
Definition or_y_ControlURL (url : string) (y : PartialConfig) : PartialConfig :=
  set_y_target_url (y_Target y) (orProfile (y_ControlURL y) url) y.

Definition collectBrowserFlags (w : connect_world) (v : flag_values) : result connect_error FlagSet :=
  let key_file := str_flag v "auth-key-file" in
  let flags key :=
    mkFlags "" (if Changed v "socks5" then str_flag v "socks5" else "") (list_flag v "route") key key_file "" "" ""
      (str_flag v "hostname") (str_flag v "state-dir") (str_flag v "control-url") "" ""
      (dur_flag v "timeout") (dur_flag v "dial-timeout") 0%Z None 0%Z None 0%Z 0%Z "" "" false ""
      (str_flag v "config") false None (collectVerboseFlag v) in
  if bool_decide (key_file = "") then Ok (flags "")
  else
    key ← map_err KeyFileError (readAuthKeyFile (bool_decide (goos (host w) = "windows")) (keyFileAt w key_file)).2;
    Ok (flags key).

Section BrowserConfig.
Context `{UrlPackage}.

Definition applyBrowserProfile (w : connect_world) (en : environment) (y : PartialConfig) (f : FlagSet) (name : string)
    : result browser_cli_error (PartialConfig * FlagSet) :=
  if bool_decide (name = "") then Ok (y, f)
  else
    selected ← map_err LayerError (loadCommandProfile w name);
    f ← (if bool_decide (f_AuthKey f = "") then
           key ← map_err LayerError (loadBoundProfileCredential w en selected f y);
           if bool_decide (key = "") then Err (NoManagedCredential name) else Ok (set_keys key (f_ProfileAuthKey f) f)
         else Ok f);
    Ok (applyProfileRuntime (or_y_ControlURL (ProfileStore.ControlURL selected) y) selected, f).

Definition warnIgnoredBrowserEnvCredential (en : environment) (authKeyFile name : string) : bool :=
  negb (bool_decide (name = "")) && bool_decide (authKeyFile = "") && negb (bool_decide (Getenv en "TS_AUTHKEY" = "")).

(** The layers, up to the warning. *)
Definition browserLayers (w : connect_world) (v : flag_values) : result browser_cli_error (environment * PartialConfig * FlagSet) :=
  let name := str_flag v "profile" in
  _ ← fail_if (bool_decide (str_flag v "auth-key-file" = "") && bool_decide (name = "")) NoCredentialSource;
  flags ← map_err LayerError (collectBrowserFlags w v);
  en ← map_err (fun e => LayerError (DotEnvError e)) (Load (dotEnv w) (env (host w)));
  y ← (match yamlConfig w (f_Config flags) with Some y => Ok y | None => Err (LayerError YAMLLoadFailed) end);
  '(y, flags) ← applyBrowserProfile w en y flags name;
  Ok (en, y, flags).

(** Whether the warning is printed, and the configuration. *)
Definition resolveBrowserConfig (w : connect_world) (v : flag_values) : bool * result browser_cli_error Config :=
  match browserLayers w v with
  | Err e => (false, Err e)
  | Ok (en, y, flags) =>
      (warnIgnoredBrowserEnvCredential en (str_flag v "auth-key-file") (str_flag v "profile"),
       let flags := if bool_decide (f_SOCKS5Addr flags = "") && bool_decide (y_SOCKS5Addr y = "")
                       && bool_decide (Getenv en "TS_SOCKS5_ADDR" = "")
                    then set_f_SOCKS5Addr "127.0.0.1:1080" flags else flags in
       cfg ← map_err BrowserMergeError (Merge (set_env en (host w)) y flags);
       _ ← fail_if (bool_decide (SOCKS5Addr cfg = "") || bool_decide (SOCKS5Routes cfg = ∅)) NoSocksOrRoute;
       Ok cfg)
  end.

(** [runBrowser], up to the runner: its configuration and its options. *)
Definition runBrowser (w : connect_world) (v : flag_values) : bool * result browser_cli_error (Config * BrowserOptions) :=
  let '(warned, resolved) := resolveBrowserConfig w v in
  (warned,
   cfg ← resolved;
   let options := mkOptions (str_flag v "url") (str_flag v "user-data-dir") (str_flag v "edge-path") (str_flag v "pac-addr") in
   _ ← fail_if (bool_decide (optStartURL options = "")) NoBrowserURL;
   _ ← fail_if (negb (bool_decide (str_flag v "profile" = "")) && negb (lockProfile w (str_flag v "profile"))) (LayerError ProfileLockError);
   Ok (cfg, options)).

Definition defaultBrowserUserDataDir (getenv : string -> string) (tempDir : string) : string :=
  if bool_decide (getenv "LOCALAPPDATA" = "") then JoinPath [tempDir; "ts-bridge-browser"]
  else JoinPath [getenv "LOCALAPPDATA"; "ts-bridge"; "browser"].
End BrowserConfig.

(** * The run *)

(** What the machine answers: where Edge is, the address the script is served
    on, and what starting the browser returns. *)
Record browser_world : Type := mkBrowserWorld {
  b_goos : string;
  b_home : string;
  b_getenv : string -> string;
  b_lookPath : string -> option string;
  b_isFile : string -> bool;
  pacBound : option string;
  startEdge : string -> list string -> option goerr;
}.

Inductive browser_op : Type :=
  | ServePAC (url pac : string) | Bridge (op : run_op) | StartEdge (path : string) (args : list string) | ShutdownPAC.

Inductive browser_end : Type := BrowserRefused (e : browser_error) | BridgeEnd (e : run_end).

(** The callback of the run: the browser is started, and the error has the text the
    callback adds. *)
Definition launchEdge (bw : browser_world) (path : string) (args : list string) : list browser_op * option goerr :=
  ([StartEdge path args], (fun e => wrapErr ("launch isolated browser: start Edge: " +:+ Error e) e) <$> startEdge bw path args).
(** What the bridge does, with what the callback does where it is called. *)
Definition with_callback (callback : list browser_op) (ops : list run_op) : list browser_op :=
  flat_map (fun op => Bridge op :: match op with OnReady => callback | _ => [] end) ops.
Definition set_onReady (r : option (option goerr)) (w : run_world) : run_world :=
  mkRunWorld (onWindows w) (stateStat w) (ssh w) (proxyEnv w) (cause w) (up w) (bound w) r (events w) (removals w) (version w) (logDir w).

Section RunBrowser.
Context `{UrlPackage}.
Variable startText : start_error -> string.
Variable controlText : control_error -> string.

(** [RunBrowser]: the script is served until the function returns. *)
Definition RunBrowser (bw : browser_world) (w : run_world) (cfg : Config) (options : BrowserOptions) (routes : list (string * string))
    : list browser_op * browser_end :=
  match (pac ← BuildPAC (SOCKS5Addr cfg) (SOCKS5Routes cfg); origins ← AllowedOrigins (SOCKS5Routes cfg);
         pacURL ← StartPACServer (PACAddr options) (pacBound bw); Ok (pac, origins, pacURL)) with
  | Err e => ([], BrowserRefused e)
  | Ok (pac, origins, pacURL) =>
      match (edgePath ← FindEdge (b_goos bw) (b_home bw) (b_getenv bw) (b_lookPath bw) (b_isFile bw) (EdgePath options);
             edgeArgs ← EdgeArgs (mkLaunch (optUserDataDir options) pacURL (optStartURL options) origins);
             Ok (edgePath, edgeArgs)) with
      | Err e => ([ServePAC pacURL pac; ShutdownPAC], BrowserRefused e)
      | Ok (edgePath, edgeArgs) =>
          let '(launched, err) := launchEdge bw edgePath edgeArgs in
          let '(ops, e) := run startText controlText (set_onReady (Some err) w) cfg routes in
          (ServePAC pacURL pac :: with_callback launched ops ++ match e with Running => [] | _ => [ShutdownPAC] end, BridgeEnd e)
      end
  end.
End RunBrowser.

(** * Where the configuration comes from *)

Section Source.
Context `{UrlPackage}.

(** The steps of a resolution that succeeds: the flags with their key, the
    environment and the YAML layer, with the profile under them. *)
Lemma browserLayers_Ok w v en y f :
  browserLayers w v = Ok (en, y, f) ->
  exists f0 y0, collectBrowserFlags w v = Ok f0 /\ Load (dotEnv w) (env (host w)) = Ok en
    /\ yamlConfig w (f_Config f0) = Some y0 /\ applyBrowserProfile w en y0 f0 (str_flag v "profile") = Ok (y, f)
    /\ (str_flag v "auth-key-file" = "" -> str_flag v "profile" <> "").
Proof.
  unfold browserLayers. intros ([] & Hn%fail_if_Ok & Hr)%bind_Ok. apply bind_Ok in Hr as (f0 & Hf%map_err_Ok & Hr).
  apply bind_Ok in Hr as (en' & He%map_err_Ok & Hr). apply bind_Ok in Hr as (y0 & Hy & Hr).
  apply bind_Ok in Hr as ([y1 f1] & Ha & [= <- <- <-]). exists f0, y0. split_and!; try done.
  - by destruct (yamlConfig w (f_Config f0)); simplify_eq.
  - intros Hk. rewrite Hk, bool_decide_eq_true_2 in Hn by done. cbn in Hn. by apply bool_decide_eq_false in Hn.
Qed.

Lemma readAuthKeyFile_ne b f key : (readAuthKeyFile b f).2 = Ok key -> key <> "".
Proof. intros Hk. destruct (readAuthKeyFile b f) as [u r] eqn:E. cbn in Hk. subst r. by destruct (key_file_line _ _ _ _ E) as (? & ? & ? & _ & _ & _ & ? & _). Qed.

Lemma collectBrowserFlags_key w v f :
  collectBrowserFlags w v = Ok f ->
  f_ControlURL f = str_flag v "control-url"
  /\ if bool_decide (str_flag v "auth-key-file" = "") then f_AuthKey f = ""
     else (readAuthKeyFile (bool_decide (goos (host w) = "windows")) (keyFileAt w (str_flag v "auth-key-file"))).2 = Ok (f_AuthKey f)
          /\ f_AuthKey f <> "".
Proof.
  unfold collectBrowserFlags. case_bool_decide; [by intros [= <-]|]. intros (key & Hk%map_err_Ok & [= <-])%bind_Ok.
  split; [done|]. split; [exact Hk|]. by apply readAuthKeyFile_ne in Hk.
Qed.

Lemma applyBrowserProfile_Ok w en y f name y' f' :
  applyBrowserProfile w en y f name = Ok (y', f') ->
  f_ControlURL f' = f_ControlURL f
  /\ ((f_AuthKey f <> "" /\ f_AuthKey f' = f_AuthKey f) \/ (f_AuthKey f = "" /\ name = "")
      \/ (f_AuthKey f = "" /\ f_AuthKey f' <> "" /\ exists p, getProfile w name = Ok p
          /\ y_ControlURL y' = orProfile (y_ControlURL y) (ProfileStore.ControlURL p)
          /\ getCredential w (CredentialName p) = Ok (f_AuthKey f')
          /\ SameControlURL (first_nonempty [f_ControlURL f; Getenv en "TS_CONTROL_URL"; y_ControlURL y'] "") (ProfileStore.ControlURL p) = true)).
Proof.
  unfold applyBrowserProfile. destruct (bool_decide_reflect (name = "")) as [->|Hn].
  { intros [= <- <-]. split; [done|]. destruct (decide (f_AuthKey f = "")); [right; by left|by left]. }
  intros (p & Hp%map_err_Ok & Hr)%bind_Ok. apply bind_Ok in Hr as (f1 & Hf & [= <- <-]).
  unfold loadCommandProfile in Hp. rewrite bool_decide_eq_false_2 in Hp by done. apply map_err_Ok in Hp.
  destruct (bool_decide_reflect (f_AuthKey f = "")) as [Hk|Hk].
  2:{ injection Hf as <-. split; [done|]. by left. }
  apply bind_Ok in Hf as (key & Hb%map_err_Ok & Hf). destruct (bool_decide_reflect (key = "")) as [|Hne]; [done|].
  injection Hf as <-. split; [done|]. right; right. split; [done|]. split; [done|]. exists p. split; [done|]. split; [done|].
  apply loadBound_Ok in Hb as [[_ ->]|(_ & Hg & Hs)]; [done|]. done.
Qed.

(** A resolved configuration listens on loopback for routes that can be dialed. *)
Lemma browser_config_listens w v warned cfg :
  resolveBrowserConfig w v = (warned, Ok cfg) ->
  Target cfg = "" /\ loopback_endpoint (SOCKS5Addr cfg) /\ SOCKS5Routes cfg <> ∅
  /\ (forall s d, SOCKS5Routes cfg !! s = Some d -> dialable s /\ dialable d) /\ AuthKey cfg <> "".
Proof.
  unfold resolveBrowserConfig. destruct (browserLayers w v) as [[[en y] f]|]; [|done]. intros [= _ Hr].
  apply bind_Ok in Hr as (c & Hm%map_err_Ok & Hr). apply bind_Ok in Hr as ([] & Hs%fail_if_Ok & [= <-]).
  apply orb_false_iff in Hs as [Hs Hne]. apply bool_decide_eq_false in Hs, Hne.
  destruct (merge_valid _ _ _ _ Hm) as ([(_ & ? & _)|(Ht & Hlo & Hro)] & Hv & _); [done|].
  split_and!; try done. intros E. rewrite E in Hv. discriminate Hv.
Qed.

Lemma browser_config_merged w v warned cfg :
  resolveBrowserConfig w v = (warned, Ok cfg) -> exists m y f, Merge m y f = Ok cfg.
Proof.
  unfold resolveBrowserConfig. destruct (browserLayers w v) as [[[en y] f]|]; [|done]. intros [= _ Hr].
  apply bind_Ok in Hr as (c & Hm%map_err_Ok & Hr). apply bind_Ok in Hr as ([] & _ & [= <-]). eauto.
Qed.

(** A browser's configuration is a SOCKS5 listener on this machine with at least
    one route, and its key is the key file's or, without one, the managed
    credential of the named profile for that profile's own control plane; it is
    never one of the environment. *)
Theorem browser_config_source w v warned cfg :
  resolveBrowserConfig w v = (warned, Ok cfg) ->
  Target cfg = "" /\ loopback_endpoint (SOCKS5Addr cfg) /\ SOCKS5Routes cfg <> ∅
  /\ (forall s d, SOCKS5Routes cfg !! s = Some d -> dialable s /\ dialable d)
  /\ AuthKey cfg <> ""
  /\ if bool_decide (str_flag v "auth-key-file" = "") then
       exists p, str_flag v "profile" <> "" /\ getProfile w (str_flag v "profile") = Ok p
         /\ getCredential w (CredentialName p) = Ok (AuthKey cfg)
         /\ SameControlURL (ControlURL cfg) (ProfileStore.ControlURL p) = true
     else (readAuthKeyFile (bool_decide (goos (host w) = "windows")) (keyFileAt w (str_flag v "auth-key-file"))).2 = Ok (AuthKey cfg).
Proof.
  intros Hr. destruct (browser_config_listens _ _ _ _ Hr) as (? & ? & ? & ? & Hkey). revert Hr.
  unfold resolveBrowserConfig. destruct (browserLayers w v) as [[[en y] f]|] eqn:El; [|done]. intros [= _ Hr].
  apply bind_Ok in Hr as (c & Hm%map_err_Ok & Hr). apply bind_Ok in Hr as ([] & _ & [= <-]).
  split_and!; try done. pose proof (layered_of_layers _ _ _ _ (Merge_Ok _ _ _ _ Hm)) as L.
  pose proof (l_key _ _ _ _ L) as Hk. pose proof (l_url _ _ _ _ L) as Hu. cbn [env set_env] in Hk, Hu.
  match type of Hm with Merge _ _ ?g = _ => set (f' := g) in * end.
  assert (f_AuthKey f' = f_AuthKey f /\ f_ControlURL f' = f_ControlURL f) as [Ek Eu] by (subst f'; by destruct (_ && _)).
  rewrite Ek in Hk. rewrite Eu in Hu. clearbody f'.
  apply browserLayers_Ok in El as (f0 & y0 & Hf & He & Hy & Ha & Hname).
  apply collectBrowserFlags_key in Hf as [Hfu Hf]. apply applyBrowserProfile_Ok in Ha as [Hau Ha].
  assert (f_AuthKey f <> "" -> AuthKey c = f_AuthKey f) as Hck.
  { intros Hn. rewrite Hk. unfold first_nonempty. cbn. by rewrite bool_decide_eq_false_2. }
  destruct (bool_decide_reflect (str_flag v "auth-key-file" = "")) as [Hkf|Hkf].
  - specialize (Hname Hkf). destruct Ha as [[? _]|[[_ ?]|(_ & Hn & p & Hp & _ & Hg & Hsame)]]; [done..|].
    exists p. rewrite (Hck Hn). split_and!; try done. by rewrite Hu, SameControlURL_trim, Hau.
  - destruct Hf as [Hf Hfn]. destruct Ha as [[_ E]|[[? _]|(? & _)]]; [|done..]. by rewrite Hck, E by (by rewrite E).
Qed.
End Source.

(** * What a resolved configuration gives the run *)

(** A port of digits is read by both parsers. *)
Lemma parse_port_unsigned p n : parse_port p = Some n -> is_Some (ParseUint16 p) \/ exists r, p = String "+" r.
Proof.
  intros Hp. pose proof (parse_port_range _ _ Hp) as Hr. unfold parse_port in Hp.
  destruct (Atoi p) as [m|] eqn:Ha; [|done]. cbn in Hp. destruct (port_in_range m); [|done]. injection Hp as ->.
  destruct p as [|c r]; [done|]. destruct (decide (c = "+"%char)) as [->|Hplus]; [right; by exists r|left].
  destruct (decide (c = "-"%char)) as [->|Hminus].
  - exfalso. revert Ha. unfold Atoi. case_bool_decide; [done|].
    destruct (parse_digits 0 r) as [v|] eqn:Ed; [|done]. cbn [mbind option_bind]. case_match; [|done]. intros [= <-].
    pose proof (parse_digits_nonneg _ _ _ Ed ltac:(lia)). lia.
  - revert Ha. unfold Atoi, ParseUint16.
    assert (forall A (x y : string -> A) (z : A), match String c r with String "-" t => x t | String "+" t => y t | _ => z end = z) as ->.
    { intros. clear - Hplus Hminus. destruct c as [[][][][][][][][]]; try reflexivity; congruence. }
    rewrite bool_decide_eq_false_2 by done. destruct (parse_digits 0 (String c r)) as [v|]; [|done]. cbn [mbind option_bind].
    case_match; [|done]. intros [= ->]. rewrite (proj2 (Z.ltb_lt _ _)) by lia. by eexists.
Qed.

Lemma BuildPAC_of_routes addr routes :
  loopback_endpoint addr -> routes <> ∅ -> (forall s d, routes !! s = Some d -> dialable s /\ dialable d) ->
  (exists origins, AllowedOrigins routes = Ok origins
     /\ Forall (fun o => exists h p, o = JoinHostPort (ToLower h) p /\ h <> "" /\ SplitHostPort o = Ok (ToLower h, p)) origins /\ origins <> [])
  /\ (is_Some (match BuildPAC addr routes with Ok pac => Some pac | Err _ => None end)
      \/ exists p, BuildPAC addr routes = Err (BadProxyPort (String "+" p))).
Proof.
  intros (h & p & n & Hs & Hl & Hp) Hne Hr.
  assert (exists os, originsOf (map fst (map_to_list routes)) = Ok os) as [os Hos].
  { apply originsOf_total, Forall_forall. intros s ([s' d] & -> & Hin%elem_of_map_to_list)%list_elem_of_fmap.
    destruct (Hr _ _ Hin) as [(h' & p' & n' & Hs' & Hh & _) _]. exists (JoinHostPort (ToLower h') p'). apply originOf_Some. by exists h', p'. }
  assert (AllowedOrigins routes = Ok (sortNames os)) as Ha by (unfold AllowedOrigins; by rewrite Hos).
  split.
  - exists (sortNames os). split; [done|]. split; [rewrite sortNames_perm|].
    + apply Forall_forall. intros o Ho. apply (elem_of_originsOf _ _ _ Hos) in Ho as (s & _ & (h' & p' & Hs' & Hn & ->)%originOf_Some).
      exists h', p'. split; [done|]. split; [done|]. destruct (SplitHostPort_parts _ _ _ Hs') as (Ho & Hc & Hpp).
      by rewrite SplitHostPort_join by (rewrite ?no_byte_ToLower by set_solver; done).
    + intros E. apply Hne. apply (f_equal length) in E. rewrite sortNames_perm in E. apply map_to_list_empty_iff.
      destruct (map_to_list routes) as [|[s d] l]; [done|]. cbn in Hos. destruct (originOf s); [|done]. by apply bind_Ok in Hos as (? & _ & [= <-]).
  - unfold BuildPAC. rewrite bool_decide_eq_false_2 by done. cbn [fail_if mbind result_bind]. rewrite Ha.
    unfold validateLoopbackAddress. rewrite Hs.
    assert (onLoopback h = true) as ->.
    { unfold onLoopback. destruct Hl as [->|(ip & -> & ->)]; [done|by rewrite orb_true_r]. }
    cbn [negb]. destruct (parse_port_unsigned _ _ Hp) as [[k ->]|[r ->]].
    + left. by eexists.
    + destruct (ParseUint16 (String "+" r)) eqn:E; [left; by eexists|right; by exists r].
Qed.

(** The errors a run can still be refused with: the port of the listener, the
    options, and what the machine lacks. *)
Definition run_refusal (e : browser_error) : bool :=
  match e with
  | BadProxyPort (String "+" _) | BadPACAddress | PACNotLoopback | PACBindFailed | EdgeNotFoundAt _ | EdgeNotFound
  | NoUserDataDir | BadStartURL | StartNotAllowed => true
  | _ => false
  end.

Section Run.
Context `{UrlPackage}.
Variable startText : start_error -> string.
Variable controlText : control_error -> string.

Lemma EdgeArgs_refusal cfg e :
  EdgeArgs cfg = Err e -> PACURL cfg <> "" -> Forall (fun o => is_Some (originOf o)) (LaunchOrigins cfg) -> LaunchOrigins cfg <> [] ->
  run_refusal e = true.
Proof.
  unfold EdgeArgs. intros He Hp Ho Hn. destruct (bool_decide (UserDataDir cfg = "")); cbn in He; [by injection He as <-|].
  rewrite bool_decide_eq_false_2 in He by done. cbn in He. destruct (urlParse (StartURL cfg)); [|by injection He as <-].
  destruct (_ || _); cbn in He; [by injection He as <-|].
  destruct (originsOf_total _ Ho) as [os Hos]. unfold normalizedOrigins in He. rewrite Hos in He. cbn in He.
  destruct (uniqueSorted os) as [|x r] eqn:Eu.
  - exfalso. destruct (LaunchOrigins cfg) as [|o l]; [done|]. apply Forall_cons in Ho as [[o' Ho] _].
    assert (o' ∈ uniqueSorted os) as Hin; [|rewrite Eu in Hin; by apply elem_of_nil in Hin].
    apply elem_of_uniqueSorted, (elem_of_originsOf _ _ _ Hos). exists o. split; [by left|done].
  - destruct (negb _); cbn in He; [by injection He as <-|done].
Qed.

Lemma StartPACServer_url a b url : StartPACServer a b = Ok url -> url <> "".
Proof. unfold StartPACServer. intros (? & _ & Hb)%bind_Ok. by destruct b; simplify_eq. Qed.

Lemma StartPACServer_refusal a b e : StartPACServer a b = Err e -> run_refusal e = true.
Proof.
  unfold StartPACServer, validatePACListener. destruct (SplitHostPort a) as [[h p]|]; [|by intros [= <-]].
  destruct (negb (onLoopback h)); [by intros [= <-]|]. cbn. destruct b; by intros [= <-].
Qed.

Lemma FindEdge_refusal goos home getenv lookPath isFile path e : FindEdge goos home getenv lookPath isFile path = Err e -> run_refusal e = true.
Proof. unfold FindEdge, findEdgeIn. repeat case_match; by intros [= <-]. Qed.

(** Neither the browser nor READY, nor the callback. *)
Definition no_start (op : browser_op) : Prop := match op with StartEdge _ _ => False | Bridge op => calm op = true | _ => True end.

Lemma with_callback_calm cb ops : forallb calm ops = true -> with_callback cb ops = map Bridge ops /\ Forall no_start (map Bridge ops).
Proof.
  induction ops as [|op ops IH]; cbn; [done|]. intros [Ho Hops]%andb_prop. destruct (IH Hops) as [IH1 IH2]. unfold with_callback in IH1. rewrite IH1.
  split; [by destruct op|]. by constructor.
Qed.
Lemma with_callback_app cb a b : with_callback cb (a ++ b) = with_callback cb a ++ with_callback cb b.
Proof. apply flat_map_app. Qed.
Lemma plain_not_accepting ops : forallb plain ops = true -> Bridge Accepting ∉ map Bridge ops.
Proof.
  intros Hp (op & Heq & Hin)%list_elem_of_fmap. injection Heq as <-. rewrite List.forallb_forall in Hp.
  by specialize (Hp _ (proj1 (list_elem_of_In _ _) Hin)).
Qed.

(** The browser in what a run did: it was never started, and then READY was never
    printed and nothing accepted; or it was started once, with these arguments, right
    after READY, and connections are accepted after that, unless it failed to start,
    which ends the run. *)
Definition browser_started (bw : browser_world) (cfg : Config) (path : string) (args : list string) (did : list browser_op) (r : run_end) : Prop :=
  (Forall no_start did /\ (Bridge Accepting ∉ did) /\ r <> Returned None)
  \/ exists before a after,
       did = before ++ [Bridge (Stdout (emitReady a (readyTarget cfg))); Bridge OnReady; StartEdge path args] ++ after
       /\ Forall no_start before /\ Forall no_start after /\ (Bridge Accepting ∉ before)
       /\ match startEdge bw path args with
          | Some err => (Bridge Accepting ∉ after)
              /\ r = Returned (Some (ReadyCallback (wrapErr ("launch isolated browser: start Edge: " +:+ Error err) err)))
          | None => Bridge Accepting ∈ after
          end.

Lemma browser_started_run bw w cfg path args routes :
  (forall x, (run startText controlText (set_onReady (Some (launchEdge bw path args).2) w) cfg routes).2 <> Returned (Some (RoutesFailed x))) ->
  let r := run startText controlText (set_onReady (Some (launchEdge bw path args).2) w) cfg routes in
  browser_started bw cfg path args (with_callback (launchEdge bw path args).1 r.1) r.2.
Proof.
  pose proof (fun cb => run_announces startText controlText (set_onReady (Some cb) w) cfg routes cb eq_refl) as Hr.
  specialize (Hr (launchEdge bw path args).2). cbv zeta in Hr |- *. destruct (run _ _ _ _ _) as [did r]. cbn [fst snd] in *.
  intros Hroutes. destruct Hr as [[Hp Hr]|(before & a & after & -> & Hb & Ha & Hcb)]; [left|right].
  - destruct (with_callback_calm (launchEdge bw path args).1 _ (plain_calm _ Hp)) as [-> Hn]. split; [done|]. split; [by apply plain_not_accepting|done].
  - rewrite !with_callback_app. destruct (with_callback_calm (launchEdge bw path args).1 _ (plain_calm _ Hb)) as [-> Hnb].
    destruct (with_callback_calm (launchEdge bw path args).1 _ Ha) as [-> Hna].
    exists (map Bridge before), a, (map Bridge after). split; [done|]. split; [done|]. split; [done|]. split; [by apply plain_not_accepting|].
    cbn [launchEdge snd] in Hcb. destruct (startEdge bw path args) as [err|]; cbn in Hcb.
    + destruct Hcb as [Hpl ->]. split; [by apply plain_not_accepting|done].
    + destruct Hcb as [Hin|[x Hx]]; [|by apply Hroutes in Hx]. apply list_elem_of_fmap. by exists Accepting.
Qed.

(** C31: the run of a resolved configuration: the routes and the listener are never
    what stops it, short of a port written with a sign; a script that is served
    is served for the run and shut down when it ends; the bridge runs only with the
    script up and the browser found; and the browser is started exactly once if the
    bridge announces itself, right after READY and before anything is accepted, as
    the executable that was found and with arguments that confine it; when it does
    not start, that error ends the run. *)
Theorem browser_run_steps cw v warned cfg bw w options routes ops e :
  resolveBrowserConfig cw v = (warned, Ok cfg) -> routes ≡ₚ map_to_list (SOCKS5Routes cfg) ->
  RunBrowser startText controlText bw w cfg options routes = (ops, e) ->
  (exists x, e = BrowserRefused x /\ run_refusal x = true /\ (ops = [] \/ exists url pac, ops = [ServePAC url pac; ShutdownPAC]))
  \/ exists r url pac origins path args bridged,
       e = BridgeEnd r /\ BuildPAC (SOCKS5Addr cfg) (SOCKS5Routes cfg) = Ok pac /\ AllowedOrigins (SOCKS5Routes cfg) = Ok origins
       /\ StartPACServer (PACAddr options) (pacBound bw) = Ok url
       /\ FindEdge (b_goos bw) (b_home bw) (b_getenv bw) (b_lookPath bw) (b_isFile bw) (EdgePath options) = Ok path
       /\ EdgeArgs (mkLaunch (optUserDataDir options) url (optStartURL options) origins) = Ok args
       /\ ops = ServePAC url pac :: bridged ++ match r with Running => [] | _ => [ShutdownPAC] end
       /\ browser_started bw cfg path args bridged r.
Proof.
  intros Hres Hperm. pose proof (browser_config_merged _ _ _ _ Hres) as (m & y & f & Hm).
  destruct (browser_config_listens _ _ _ _ Hres) as (_ & Hl & Hne & Hr & _). destruct (BuildPAC_of_routes _ _ Hl Hne Hr) as ((os & Ho & Hos & Hn) & Hp).
  unfold RunBrowser. rewrite Ho. destruct (BuildPAC _ _) as [pac|x] eqn:Eb.
  2:{ destruct Hp as [[? ?]|[p [= ->]]]; [done|]. intros [= <- <-]. left. eexists. split; [done|]. split; [done|by left]. }
  cbn [mbind result_bind]. destruct (StartPACServer _ _) as [url|x] eqn:Es; cbn [mbind result_bind].
  2:{ intros [= <- <-]. left. exists x. split; [done|]. split; [by eapply StartPACServer_refusal|by left]. }
  apply StartPACServer_url in Es as Hurl.
  destruct (FindEdge _ _ _ _ _ _) as [path|x] eqn:Ef; cbn [mbind result_bind].
  2:{ intros [= <- <-]. left. exists x. split; [done|]. split; [by eapply FindEdge_refusal|right; by eexists _, _]. }
  destruct (EdgeArgs _) as [args|x] eqn:Ea; cbn [mbind result_bind].
  2:{ intros [= <- <-]. left. exists x. split; [done|]. split; [|right; by eexists _, _].
      apply (EdgeArgs_refusal _ _ Ea); [done| |done]. cbn. eapply Forall_impl; [exact Hos|]. intros o (h & p & -> & Hh & Hs).
      exists (JoinHostPort (ToLower h) p). apply originOf_Some. exists (ToLower h), p. rewrite ToLower_idem.
      split; [done|]. split; [by destruct h|done]. }
  pose proof (browser_started_run bw w cfg path args routes (proj2 (merged_routes_accepted startText controlText _ _ _ _ _ _ Hm Hperm))) as Hst.
  destruct (launchEdge bw path args) as [launched err]. cbn [fst snd] in Hst.
  destruct (run _ _ _ _ _) as [did r] eqn:Er. intros [= <- <-]. right. by exists r, url, pac, os, path, args, (with_callback launched did).
Qed.
End Run.

(** * Runs *)

Definition demo_browser_flags : flag_values :=
  mkFlagValues
    (fun n => if bool_decide (n = "profile") then "office" else if bool_decide (n = "url") then "https://wiki.corp/start"
              else if bool_decide (n = "user-data-dir") then "/tmp/browser" else if bool_decide (n = "pac-addr") then "127.0.0.1:0" else "")
    (fun n => if bool_decide (n = "route") then ["wiki.corp:443=100.64.0.9:8443"] else [])
    (fun _ => 0%Z) (fun _ => 0%Z) (fun _ => 0%Z) (fun _ => false) (fun _ => false).
Definition demo_browser_vars : environment := {[ "TS_AUTHKEY" := "hskey-other"; "TS_HEALTH_ADDR" := "0.0.0.0:9090" ]}.
Definition demo_browser_world : connect_world := demo_world demo_browser_vars no_yaml.
Definition demo_resolved : Config :=
  match (@resolveBrowserConfig simpleUrl demo_browser_world demo_browser_flags).2 with Ok c => c | Err _ => defaults end.

Lemma demo_resolved_ok : @resolveBrowserConfig simpleUrl demo_browser_world demo_browser_flags = (true, Ok demo_resolved).
Proof.
  unfold demo_resolved.
  assert (is_ok (@resolveBrowserConfig simpleUrl demo_browser_world demo_browser_flags).2 = true) as Hok by (vm_compute; reflexivity).
  assert ((@resolveBrowserConfig simpleUrl demo_browser_world demo_browser_flags).1 = true) as Hw by (vm_compute; reflexivity).
  destruct (@resolveBrowserConfig simpleUrl demo_browser_world demo_browser_flags) as [b [c|]]; [cbn in *; by subst b|done].
Qed.

Lemma browser_config_source_witness :
  AuthKey demo_resolved = "hskey-auth-1" /\ loopback_endpoint (SOCKS5Addr demo_resolved).
Proof.
  split; [vm_compute; reflexivity|].
  exact (proj1 (proj2 (@browser_config_source simpleUrl _ _ _ _ demo_resolved_ok))).
Defined.

Definition demo_edge : browser_world :=
  mkBrowserWorld "linux" "/home/u" (fun _ => "") (fun n => if bool_decide (n = "microsoft-edge") then Some "/usr/bin/microsoft-edge" else None)
    (fun _ => false) (Some "127.0.0.1:40001") (fun _ _ => None).
Definition demo_options : BrowserOptions := mkOptions "https://wiki.corp/start" "/tmp/browser" "" "127.0.0.1:0".
Definition demo_browser_run : list browser_op * browser_end :=
  @RunBrowser simpleUrl (fun _ => "") (fun _ => "") demo_edge (demo_run_world (fun _ => None) None) demo_resolved demo_options
    (map_to_list (SOCKS5Routes demo_resolved)).

Definition starts_edge (op : browser_op) : bool := match op with StartEdge _ _ => true | _ => false end.
Lemma browser_run_steps_witness :
  exists r path args, demo_browser_run.2 = BridgeEnd r /\ StartEdge path args ∈ demo_browser_run.1
    /\ FindEdge "linux" "/home/u" (b_getenv demo_edge) (b_lookPath demo_edge) (b_isFile demo_edge) "" = Ok path.
Proof.
  assert (existsb starts_edge demo_browser_run.1 = true) as Hstart by (vm_compute; reflexivity).
  destruct demo_browser_run as [ops e] eqn:E. cbn [fst snd] in *. apply existsb_exists in Hstart as (op & Hin & Hop).
  destruct (@browser_run_steps simpleUrl _ _ _ _ _ _ _ _ _ _ _ _ demo_resolved_ok (reflexivity _) E)
    as [(x & _ & _ & [->|(url & pac & ->)])|(r & url & pac & os & path & args & did & -> & _ & _ & _ & Hf & _ & -> & Hst)].
  - destruct Hin.
  - exfalso. destruct Hin as [<-|[<-|[]]]; discriminate Hop.
  - exists r, path, args. split; [reflexivity|]. split; [|exact Hf]. destruct Hst as [[Hno _]|(before & a & after & -> & _)].
    + exfalso. rewrite Forall_forall in Hno. destruct Hin as [<-|Hin]; [discriminate Hop|]. apply in_app_or in Hin as [Hin|Hin].
      * apply list_elem_of_In, Hno in Hin. by destruct op.
      * destruct r; [destruct Hin|]. destruct Hin as [<-|[]]; discriminate Hop.
    + rewrite !elem_of_cons, !elem_of_app, !elem_of_cons. tauto.
Defined.

(** The health endpoint of a browser run may be reachable from the network
    without having been allowed to: only connect checks it. *)
Example browser_health_unchecked :
  HealthExposed demo_resolved = true /\ HealthAllowRemote demo_resolved = false
  /\ ValidateHealthListener demo_resolved = Err NotLoopback
  /\ Bridge (HealthStart "0.0.0.0:9090") ∈ demo_browser_run.1.
Proof.
  split_and!; [vm_compute; reflexivity..|]. apply list_elem_of_In.
  vm_compute. repeat first [left; reflexivity|right].
Qed.
