(* ===== verification/HostInit.v ===== *)
(** The command [host init] (src/cmd/cli/host_init.go): its flags, its prompts,
    the host file it declares, and the file it writes through a temporary one
    that is loaded back first; and what it was asked for, as a relation on the
    flags and the lines typed.

    The file system is the map of SecretFile, with the faults a step may meet;
    writing and reading YAML is a library, given as two functions. *)
From S2P Require Import Prelude GoStrings GoPath SecretFile GoNet InitCli ControlUrl HostRunner HostFile.
From Stdlib Require Import Ascii.

Open Scope bool_scope.

Definition hostFileMode : Z := 420. (* 0644 *)

Record hostInitFlags : Type := mkHostInit {
  iPort : Z;
  iRule : string;
  iNoSleep : bool;
  iPath : string;
  iOverwrite : bool;
}.
Definition set_iPort (p : Z) (f : hostInitFlags) : hostInitFlags := mkHostInit p (iRule f) (iNoSleep f) (iPath f) (iOverwrite f).
Definition set_iRule (r : string) (f : hostInitFlags) : hostInitFlags := mkHostInit (iPort f) r (iNoSleep f) (iPath f) (iOverwrite f).
Definition set_iNoSleep (b : bool) (f : hostInitFlags) : hostInitFlags := mkHostInit (iPort f) (iRule f) b (iPath f) (iOverwrite f).

(** The flags Cobra parsed, and which of them were given. *)
Record host_init_args : Type := mkArgs { given_flags : hostInitFlags; portGiven : bool; ruleGiven : bool; sleepGiven : bool }.

Inductive host_init_error : Type :=
  | ConfigRequired | PortRange (port : Z) | BadRuleName (e : rule_error) | WindowsOnly (goos : string)
  | StatFailed | IsDirectory | Unreadable | HostExists | HostAborted
  | PromptFailed | PromptPort (port : string)
  | EncodeFailed | CreateHostDir | WriteHostFailed | SetModeFailed | NotReadBack (e : host_file_error).

(** * Flags and prompts *)

Definition parseHostInitFlags (goos : string) (a : host_init_args) : result host_init_error hostInitFlags :=
  let f := given_flags a in
  _ ← fail_if (bool_decide (iPath f = "")) ConfigRequired;
  _ ← fail_if (negb (iPort f =? 0)%Z && ((iPort f <? 1)%Z || (65535 <? iPort f)%Z)) (PortRange (iPort f));
  _ ← (if bool_decide (iRule f = "") then Ok tt else _ ← map_err BadRuleName (sanitizeFirewallRule (iRule f)); Ok tt);
  _ ← fail_if (negb (bool_decide (goos = goosWindows)) && (ruleGiven a || sleepGiven a)) (WindowsOnly goos);
  Ok f.

(** What is at the path: [os.Stat], then opening it. *)
Inductive host_stat : Type := HostAbsent | HostStatFails | HostDirectory | HostUnreadable | HostReadable.
#[export] Instance host_stat_eq_dec : EqDecision host_stat.
Proof. solve_decision. Defined.

Definition confirmHostOverwrite (input : string) : string * bool :=
  let '(line, ended, rest) := ReadString input in
  if negb ended && bool_decide (line = "") then (rest, false)
  else let answer := ToLower (TrimSpace line) in
       (rest, bool_decide (answer = "y") || bool_decide (answer = answerYes)).

Definition ensureHostFileWritable (s : host_stat) (force interactive : bool) (input : string) : string * result host_init_error unit :=
  match s with
  | HostAbsent => (input, Ok tt)
  | HostStatFails => (input, Err StatFailed)
  | HostDirectory => (input, Err IsDirectory)
  | HostUnreadable => (input, Err Unreadable)
  | HostReadable =>
      if force then (input, Ok tt)
      else if negb interactive then (input, Err HostExists)
      else let '(rest, yes) := confirmHostOverwrite input in (rest, if yes then Ok tt else Err HostAborted)
  end.

(** [None] is fuel that ran out. *)
Definition promptHostInit (goos : string) (f : hostInitFlags) (input : string) : option (result host_init_error hostInitFlags) :=
  match readOptionalInput input with
  | (_, Err _) => Some (Err PromptFailed)
  | (input, Ok portStr) =>
      match (if bool_decide (portStr = "") then Ok f
             else match parse_port portStr with Some port => Ok (set_iPort port f) | None => Err (PromptPort portStr) end) with
      | Err e => Some (Err e)
      | Ok f =>
          if negb (bool_decide (goos = goosWindows)) then Some (Ok f) else
          match readOptionalInput input with
          | (_, Err _) => Some (Err PromptFailed)
          | (input, Ok rule) =>
              match (if bool_decide (rule = "") then Ok f
                     else _ ← map_err BadRuleName (sanitizeFirewallRule rule); Ok (set_iRule rule f)) with
              | Err e => Some (Err e)
              | Ok f =>
                  '(_, choice) ← readChoiceInput [answerYes; "no"] input;
                  Some match choice with
                       | Err _ => Err PromptFailed
                       | Ok choice => Ok (set_iNoSleep (bool_decide (choice = "no")) f)
                       end
              end
          end
      end
  end.

Definition applyHostInitDefaults (goos : string) (f : hostInitFlags) : hostInitFlags :=
  let f := if (iPort f =? 0)%Z then set_iPort defaultRDPPort f else f in
  if bool_decide (iRule f = "") && bool_decide (goos = goosWindows) then set_iRule (FirewallRule defaults) f else f.

(** * The file *)

Definition hostFileFor (goos : string) (f : hostInitFlags) : File :=
  let windows := bool_decide (goos = goosWindows) in
  mkFile 1 (mkFileHost (Some [mkFileService ServiceRDP (Some (iPort f))])
    (if windows then Some (mkFileFirewall (Some (iRule f))) else None)
    (if windows then Some (mkFilePower (Some (negb (iNoSleep f)))) else None)
    None None).

Definition hostFileHeader : string :=
  "# ts-bridge host configuration (ADR-017), written by ts-bridge host init." +:+ newline
  +:+ "# Read by: ts-bridge host setup | check | serve --config <this file>" +:+ newline.

(** Where writing it can fail. *)
Inductive host_write_fault : Type :=
  | HostMkdir | HostCreateTemp | HostWrite (taken : nat) | HostClose | HostChmod | HostReadBack | HostRename.
#[export] Instance host_write_fault_eq_dec : EqDecision host_write_fault.
Proof. solve_decision. Defined.

Section Write.
Context `{UrlPackage}.
(** The YAML library: the text of a file, and what a text reads as. *)
Context (marshal : File -> option string) (parse : string -> yaml_stream).

(** [writeHostFile] through the fresh name [temp]: the states of the directory
    from the first to what it leaves, what was warned, and the error. *)
Definition writeHostFile (goos temp : string) (f : hostInitFlags) (d : directory) (fault : option host_write_fault)
    : list directory * list string * result host_init_error unit :=
  match marshal (hostFileFor goos f) with
  | None => ([d], [], Err EncodeFailed)
  | Some body =>
      let content := hostFileHeader +:+ body in
      let put c m : directory := <[temp := SecretFile.mkFile c m]> d in
      let gone : directory := delete temp d in
      if bool_decide (fault = Some HostMkdir) then ([d], [], Err CreateHostDir)
      else if bool_decide (fault = Some HostCreateTemp) then ([d], [], Err WriteHostFailed)
      else match fault with
           | Some (HostWrite n) => ([d; put "" 384%Z; put (str_take n content) 384%Z; gone], [], Err WriteHostFailed)
           | Some HostClose => ([d; put "" 384%Z; put content 384%Z%Z; gone], [], Err WriteHostFailed)
           | Some HostChmod => ([d; put "" 384%Z; put content 384%Z%Z; gone], [], Err SetModeFailed)
           | _ =>
               let d3 := put content hostFileMode in
               let states := [d; put "" 384%Z; put content 384%Z%Z; d3] in
               let '(warned, loaded) := LoadFile (if bool_decide (fault = Some HostReadBack) then None else Some (parse content)) goos in
               match loaded with
               | Err e => (states ++ [gone], warned, Err (NotReadBack e))
               | Ok _ =>
                   if bool_decide (fault = Some HostRename) then (states ++ [gone], warned, Err WriteHostFailed)
                   else (states ++ [<[iPath f := SecretFile.mkFile content hostFileMode]> gone], warned, Ok tt)
               end
           end
  end.

(** * The command *)

Inductive host_init_end : Type :=
  | NotApplicable
  | Stopped (e : host_init_error)
  | Wrote (f : hostInitFlags) (states : list directory) (warned : list string) (r : result host_init_error unit).

Record host_init_world : Type := mkHostInitWorld {
  hi_goos : string;
  hi_stat : host_stat;
  hi_typed : string;
  hi_temp : string;
  hi_dir : directory;
  hi_fault : option host_write_fault;
}.

Definition interactiveInit (a : host_init_args) : bool := negb (portGiven a) && negb (ruleGiven a) && negb (sleepGiven a).

Definition runHostInit (w : host_init_world) (a : host_init_args) : option host_init_end :=
  let goos := hi_goos w in
  if bool_decide (goos = goosDarwin) then Some NotApplicable else
  match parseHostInitFlags goos a with
  | Err e => Some (Stopped e)
  | Ok f =>
      let interactive := interactiveInit a in
      match ensureHostFileWritable (hi_stat w) (iOverwrite f) interactive (hi_typed w) with
      | (_, Err e) => Some (Stopped e)
      | (input, Ok _) =>
          asked ← (if interactive then promptHostInit goos f input else Some (Ok f));
          match asked with
          | Err e => Some (Stopped e)
          | Ok f =>
              let f := applyHostInitDefaults goos f in
              let '(states, warned, r) := writeHostFile goos (hi_temp w) f (hi_dir w) (hi_fault w) in
              Some (Wrote f states warned r)
          end
      end
  end.
End Write.

(** * What a run gives *)

(** The flags a run writes from: the port and the rule are usable. *)
Definition init_ok (goos : string) (f : hostInitFlags) : Prop :=
  in_port_range (iPort f) /\ (iRule f <> "" -> valid_rule (iRule f)) /\ (goos = goosWindows -> iRule f <> "").
Definition flags_kept (goos : string) (f : hostInitFlags) : Prop :=
  (iPort f = 0%Z \/ in_port_range (iPort f)) /\ (iRule f <> "" -> valid_rule (iRule f)).

Lemma parseHostInitFlags_Ok goos a f : parseHostInitFlags goos a = Ok f -> f = given_flags a /\ flags_kept goos f.
Proof.
  unfold parseHostInitFlags, flags_kept, in_port_range. intros ([] & _ & H)%bind_Ok. apply bind_Ok in H as ([] & Hp%fail_if_Ok & H).
  apply bind_Ok in H as ([] & Hr & H). apply bind_Ok in H as ([] & _ & [= <-]). split; [done|]. split.
  - destruct (Z.eqb_spec (iPort (given_flags a)) 0) as [?|_]; [by left|right]. cbn in Hp. apply orb_false_iff in Hp as [?%Z.ltb_ge ?%Z.ltb_ge]. lia.
  - intros Hn. rewrite bool_decide_eq_false_2 in Hr by done. apply bind_Ok in Hr as (r & Hr%map_err_Ok & _).
    by apply sanitizeFirewallRule_Ok in Hr as [_ ?].
Qed.

Lemma promptHostInit_Ok goos f input f' :
  flags_kept goos f -> promptHostInit goos f input = Some (Ok f') -> flags_kept goos f' /\ iPath f' = iPath f /\ iOverwrite f' = iOverwrite f.
Proof.
  unfold promptHostInit. intros [Hp Hr]. destruct (readOptionalInput input) as [s1 [portStr|]]; [|done].
  set (asked := if bool_decide (portStr = "") then Ok f else _).
  assert (forall g, asked = Ok g -> flags_kept goos g /\ iPath g = iPath f /\ iOverwrite g = iOverwrite f) as Ha.
  { intros g. unfold asked. case_bool_decide; [by intros [= <-]|]. destruct (parse_port portStr) as [n|] eqn:En; [|done].
    intros [= <-]. apply parse_port_range in En. split; [|done]. split; [by right|done]. }
  destruct asked as [g|]; [|done]. destruct (Ha g eq_refl) as (Hg & Hpath & Hforce). clear Ha Hp Hr.
  case_bool_decide; cbn [negb]; [|by intros [= <-]]. destruct (readOptionalInput s1) as [s2 [rule|]]; [|done].
  set (ruled := if bool_decide (rule = "") then Ok g else _).
  assert (forall h, ruled = Ok h -> flags_kept goos h /\ iPath h = iPath f /\ iOverwrite h = iOverwrite f) as Ha.
  { intros h. unfold ruled. case_bool_decide; [by intros [= <-]|]. intros (r & [_ Hv]%map_err_Ok%sanitizeFirewallRule_Ok & [= <-])%bind_Ok.
    destruct Hg. done. }
  destruct ruled as [h|]; [|done]. destruct (Ha h eq_refl) as (Hh & Hpath' & Hforce').
  destruct (readChoiceInput _ _) as [[s3 [c|]]|]; cbn; [|done..]. by intros [= <-].
Qed.

Lemma applyHostInitDefaults_ok goos f : flags_kept goos f -> init_ok goos (applyHostInitDefaults goos f) /\ iPath (applyHostInitDefaults goos f) = iPath f.
Proof.
  unfold applyHostInitDefaults, flags_kept, init_ok. intros [Hp Hr].
  assert (valid_rule (FirewallRule defaults)) as Hd by (by apply (sanitizeFirewallRule_Ok _ (FirewallRule defaults))).
  assert (in_port_range defaultRDPPort) by (unfold in_port_range, defaultRDPPort; lia).
  set (f1 := if (iPort f =? 0)%Z then set_iPort defaultRDPPort f else f).
  assert (in_port_range (iPort f1) /\ iRule f1 = iRule f /\ iPath f1 = iPath f) as (Hp1 & Hr1 & Hp2).
  { unfold f1. destruct (Z.eqb_spec (iPort f) 0); [done|]. naive_solver. }
  rewrite <- Hr1 in Hr. rewrite <- Hp2. clearbody f1. clear Hp Hr1 Hp2 f.
  destruct (bool_decide_reflect (iRule f1 = "")), (bool_decide_reflect (goos = goosWindows)); cbn [andb]; naive_solver.
Qed.

(** ** What was asked for *)

(** The port typed, or [kept] for a blank answer. *)
Definition port_typed (kept : Z) (typed : string) (port : Z) : Prop :=
  typed = "" /\ port = kept \/ typed <> "" /\ Atoi typed = Some port /\ (1 <= port <= 65535)%Z.

(** The lines the wizard starts at: after the yes that replaces a file, if one was
    needed. *)
Definition wizard_input (w : host_init_world) (a : host_init_args) (s : string) : Prop :=
  if bool_decide (hi_stat w = HostReadable) && negb (iOverwrite (given_flags a))
  then exists line, typed_line (hi_typed w) line s /\ ToLower (TrimSpace line) ∈ ["y"; "yes"]
  else s = hi_typed w.

(** The port and, on Windows, the rule and the sleep setting: those of the flags when
    one of them is given, else those typed, in order; what neither says is the
    default. *)
Definition host_asked (w : host_init_world) (a : host_init_args) (port : Z) (rule : string) (noSleep : bool) : Prop :=
  let flags := given_flags a in
  let flagPort := if (iPort flags =? 0)%Z then 3389%Z else iPort flags in
  let flagRule := if bool_decide (iRule flags = "") then "Tailscale-RDP-Ingress" else iRule flags in
  let windows := hi_goos w = "windows" in
  if portGiven a || ruleGiven a || sleepGiven a
  then port = flagPort /\ (windows -> rule = flagRule /\ noSleep = iNoSleep flags)
  else exists s typedPort s1, wizard_input w a s /\ answer s typedPort s1 /\ port_typed flagPort typedPort port
       /\ (windows -> exists typedRule s2 choice rest, answer s1 typedRule s2
            /\ rule = (if bool_decide (typedRule = "") then flagRule else typedRule)
            /\ chooses ["yes"; "no"] s2 choice rest /\ noSleep = bool_decide (choice = "no")).

Lemma applyHostInitDefaults_values goos f :
  iPort (applyHostInitDefaults goos f) = (if (iPort f =? 0)%Z then 3389%Z else iPort f)
  /\ (goos = goosWindows -> iRule (applyHostInitDefaults goos f) = if bool_decide (iRule f = "") then "Tailscale-RDP-Ingress" else iRule f)
  /\ iNoSleep (applyHostInitDefaults goos f) = iNoSleep f.
Proof.
  unfold applyHostInitDefaults. destruct (iPort f =? 0)%Z; cbn; destruct (bool_decide (iRule f = "")); cbn;
    destruct (bool_decide_reflect (goos = goosWindows)); done.
Qed.

Lemma parse_port_Atoi s n : parse_port s = Some n -> Atoi s = Some n.
Proof. unfold parse_port. destruct (Atoi s) as [m|]; cbn; [|done]. by destruct (port_in_range m); [intros [= ->]|]. Qed.

(** What the prompts give: the port, and on Windows the rule and the sleep setting. *)
Lemma promptHostInit_answers goos f input g :
  promptHostInit goos f input = Some (Ok g) ->
  exists typedPort s1, answer input typedPort s1 /\ port_typed (iPort f) typedPort (iPort g)
    /\ (goos = goosWindows -> exists typedRule s2 choice rest, answer s1 typedRule s2
         /\ iRule g = (if bool_decide (typedRule = "") then iRule f else typedRule)
         /\ chooses ["yes"; "no"] s2 choice rest /\ iNoSleep g = bool_decide (choice = "no")).
Proof.
  unfold promptHostInit. destruct (readOptionalInput input) as [s1 [typedPort|]] eqn:A1; [|done].
  apply readOptionalInput_answer in A1. set (ported := if bool_decide (typedPort = "") then Ok f else _).
  assert (forall h, ported = Ok h -> port_typed (iPort f) typedPort (iPort h) /\ iRule h = iRule f) as Hp.
  { intros h. unfold ported, port_typed. case_bool_decide; [intros [= <-]; auto|]. destruct (parse_port typedPort) as [n|] eqn:En; [|done].
    intros [= <-]. split; [|done]. right. split; [done|]. split; [by apply parse_port_Atoi|by apply parse_port_range in En]. }
  destruct ported as [h|]; [|done]. destruct (Hp h eq_refl) as [Hport Hrule]. clear Hp.
  destruct (bool_decide_reflect (goos = goosWindows)) as [Hw|Hw]; cbn [negb]; [|by intros [= <-]; exists typedPort, s1].
  destruct (readOptionalInput s1) as [s2 [typedRule|]] eqn:A2; [|done]. apply readOptionalInput_answer in A2.
  set (ruled := if bool_decide (typedRule = "") then Ok h else _).
  assert (forall k, ruled = Ok k -> iPort k = iPort h /\ iRule k = if bool_decide (typedRule = "") then iRule f else typedRule) as Hr.
  { intros k. unfold ruled. case_bool_decide; [by intros [= <-]|]. by intros (r & _ & [= <-])%bind_Ok. }
  destruct ruled as [k|]; [|done]. destruct (Hr k eq_refl) as [Hk1 Hk2].
  destruct (readChoiceInput _ s2) as [[rest [choice|]]|] eqn:A3; cbn; [|done..]. apply readChoiceInput_chooses in A3.
  intros [= <-]. exists typedPort, s1. cbn. split; [done|]. split; [by rewrite Hk1|]. intros _. by exists typedRule, s2, choice, rest.
Qed.

Lemma confirmHostOverwrite_line s rest : (confirmHostOverwrite s) = (rest, true) ->
  rest = "" \/ exists line, typed_line s line rest /\ ToLower (TrimSpace line) ∈ ["y"; "yes"].
Proof.
  unfold confirmHostOverwrite. destruct (ReadString s) as [[l ended] r] eqn:E. destruct ended; cbn [negb andb].
  - apply ReadString_line in E as (line & -> & Hl). rewrite TrimSpace_newline. intros [= <- [Hy|Hy]%orb_true_iff]; right; exists line;
      (split; [done|]); apply bool_decide_eq_true in Hy; rewrite Hy; set_solver.
  - unfold ReadString in E. destruct (index_byte nl s); [done|]. injection E as _ <-. case_bool_decide; [done|]. intros [= <- _]. by left.
Qed.

Lemma answer_nonempty s value rest : answer s value rest -> s <> "".
Proof. intros (line & [-> _] & _). by destruct line. Qed.

Section Facts.
Context `{UrlPackage}.
Context (marshal : File -> option string) (parse : string -> yaml_stream).

(** What a run writes from, once writing is allowed, is what was asked for. *)
Lemma ensured_asked w a input f :
  ensureHostFileWritable (hi_stat w) (iOverwrite (given_flags a)) (interactiveInit a) (hi_typed w) = (input, Ok tt) ->
  (if interactiveInit a then promptHostInit (hi_goos w) (given_flags a) input else Some (Ok (given_flags a))) = Some (Ok f) ->
  let g := applyHostInitDefaults (hi_goos w) f in host_asked w a (iPort g) (iRule g) (iNoSleep g).
Proof.
  intros He Ha. destruct (applyHostInitDefaults_values (hi_goos w) f) as (Hp & Hr & Hs). cbn. rewrite Hp, Hs. clear Hp Hs.
  unfold host_asked. revert He Ha. unfold interactiveInit.
  destruct (portGiven a), (ruleGiven a), (sleepGiven a); cbn [negb andb orb]; intros He Ha;
    try (injection Ha as <-; split; [done|]; intros Hw; by rewrite (Hr Hw)).
  apply promptHostInit_answers in Ha as (typedPort & s1 & A1 & Hport & Hwin). exists input, typedPort, s1.
  split; [|split; [done|split]].
  - unfold wizard_input. revert He. unfold ensureHostFileWritable. destruct (hi_stat w); try done; try by intros [= <-].
    destruct (iOverwrite (given_flags a)); cbn; [by intros [= <-]|].
    destruct (confirmHostOverwrite (hi_typed w)) as [rest []] eqn:Ec; [|done]. intros [= <-].
    apply confirmHostOverwrite_line in Ec as [->|H']; [by apply answer_nonempty in A1|done].
  - revert Hport. unfold port_typed. intros [[-> ->]|(Hn & Hx & Hl)]; [by left|right].
    rewrite (proj2 (Z.eqb_neq _ _)) by lia. done.
  - intros Hw. destruct (Hwin Hw) as (typedRule & s2 & choice & rest & A2 & Hrule & A3 & Hsleep).
    exists typedRule, s2, choice, rest. rewrite (Hr Hw), Hrule. split; [done|]. split; [|done]. destruct (bool_decide_reflect (typedRule = "")); [done|by rewrite bool_decide_eq_false_2].
Qed.

(** A run that writes has asked where it must, and what it writes is usable. *)
Lemma runHostInit_wrote w a f states warned r :
  runHostInit marshal parse w a = Some (Wrote f states warned r) ->
  hi_goos w <> goosDarwin /\ host_asked w a (iPort f) (iRule f) (iNoSleep f) /\ init_ok (hi_goos w) f /\ iPath f = iPath (given_flags a)
  /\ (hi_stat w = HostAbsent \/ hi_stat w = HostReadable
        /\ (iOverwrite (given_flags a) = true \/ interactiveInit a = true /\ (confirmHostOverwrite (hi_typed w)).2 = true))
  /\ writeHostFile marshal parse (hi_goos w) (hi_temp w) f (hi_dir w) (hi_fault w) = (states, warned, r).
Proof.
  unfold runHostInit. case_bool_decide as Hd; [done|]. destruct (parseHostInitFlags _ a) as [f0|] eqn:Ef; [|done].
  apply parseHostInitFlags_Ok in Ef as [-> Hk]. destruct (ensureHostFileWritable _ _ _ _) as [input [[]|]] eqn:Ee; [|done].
  destruct (if interactiveInit a then _ else _) as [[f1|]|] eqn:Ea; cbn [mbind option_bind]; [|done..].
  assert (flags_kept (hi_goos w) f1 /\ iPath f1 = iPath (given_flags a)) as [Hk1 Hp1].
  { destruct (interactiveInit a); [by apply promptHostInit_Ok in Ea as (? & ? & _)|by injection Ea as <-]. }
  destruct (applyHostInitDefaults_ok _ _ Hk1) as [Hok Hp2].
  destruct (writeHostFile _ _ _ _ _ _ _) as [[st wa] re] eqn:Ew. intros [= <- <- <- <-].
  pose proof (ensured_asked _ _ _ _ Ee Ea) as Hasked. split_and!; try done; [congruence|]. clear -Ee. unfold ensureHostFileWritable in Ee. destruct (hi_stat w); try done; [by left|]. right. split; [done|].
  destruct (iOverwrite (given_flags a)); [by left|]. destruct (interactiveInit a); [|done]. right. split; [done|]. cbn in Ee.
  destruct (confirmHostOverwrite (hi_typed w)) as [rest []]; [done|by injection Ee].
Qed.

Lemma writeHostFile_states goos temp f d fault states warned r :
  writeHostFile marshal parse goos temp f d fault = (states, warned, r) -> temp <> iPath f -> d !! temp = None ->
  (forall s, s ∈ states -> s !! iPath f = d !! iPath f
     \/ exists body file, marshal (hostFileFor goos f) = Some body /\ r = Ok tt
         /\ s !! iPath f = Some (SecretFile.mkFile (hostFileHeader +:+ body) hostFileMode)
         /\ LoadFile (Some (parse (hostFileHeader +:+ body))) goos = (warned, Ok file))
  /\ last states = Some (match r with
       | Ok _ => match marshal (hostFileFor goos f) with
                 | Some body => <[iPath f := SecretFile.mkFile (hostFileHeader +:+ body) hostFileMode]> d
                 | None => d
                 end
       | Err _ => d
       end).
Proof.
  unfold writeHostFile. intros Hw Hne Hfresh. destruct (marshal (hostFileFor goos f)) as [body|] eqn:Em.
  2:{ injection Hw as <- <- <-. split; [|done]. intros s [->|[]%elem_of_nil]%elem_of_cons. by left. }
  assert (delete temp d = d) as Hdel by (by apply delete_id). rewrite Hdel in Hw.
  destruct fault as [[| |n| | | |]|]; cbn -[LoadFile] in Hw.
  all: try (injection Hw as <- <- <-; split; [|done]; intros s Hs; left; rewrite ?elem_of_cons, ?elem_of_nil in Hs;
    destruct_or! Hs; subst; simplify_map_eq; done).
  all: destruct (LoadFile _ goos) as [wa [file|e]] eqn:El; injection Hw as <- <- <-; (split; [|done]); intros s Hs;
    rewrite ?elem_of_cons, ?elem_of_nil in Hs; destruct_or! Hs; subst; simplify_map_eq; eauto 10.
Qed.
End Facts.

(** * Properties *)

(** A temporary name that is fresh. *)
Definition fresh_temp (w : host_init_world) (a : host_init_args) : Prop :=
  hi_temp w <> iPath (given_flags a) /\ hi_dir w !! hi_temp w = None.

Section Properties.
Context `{UrlPackage}.
Context (marshal : File -> option string) (parse : string -> yaml_stream).

(** host init replaces a file only when there was none, or --force was given, or
    the answer was yes; at every moment the file at the path is the one that was
    there or the whole new one, readable by everyone and already loaded back as a
    valid host file; and a run that fails leaves the directory as it found it. *)
Theorem host_file_replaced_whole w a f states warned r :
  runHostInit marshal parse w a = Some (Wrote f states warned r) -> fresh_temp w a ->
  let path := iPath (given_flags a) in
  (hi_stat w = HostAbsent \/ hi_stat w = HostReadable
     /\ (iOverwrite (given_flags a) = true \/ interactiveInit a = true /\ (confirmHostOverwrite (hi_typed w)).2 = true))
  /\ (forall s, s ∈ states -> s !! path = hi_dir w !! path
        \/ exists body file, s !! path = Some (SecretFile.mkFile (hostFileHeader +:+ body) hostFileMode)
             /\ (LoadFile (Some (parse (hostFileHeader +:+ body))) (hi_goos w)).2 = Ok file)
  /\ (is_ok r = false -> last states = Some (hi_dir w)).
Proof.
  intros (_ & _ & _ & Hp & Hs & Hw)%runHostInit_wrote [Hne Hf]. rewrite <- Hp in Hne |- *.
  destruct (writeHostFile_states _ _ _ _ _ _ _ _ _ _ Hw Hne Hf) as [Ha Hl]. split; [exact Hs|]. split.
  - intros s [E|(body & file & _ & _ & E & L)]%Ha; [by left|right]. exists body, file. by rewrite L.
  - intros Hr. rewrite Hl. by destruct r.
Qed.

(** The keys [yaml.Marshal] gives a file: a field marked omitempty is left out when
    it has no value. *)
Definition given_key {A} (k : string) (o : option A) (v : A -> yaml) : list (string * yaml) :=
  match o with Some x => [(k, v x)] | None => [] end.
Definition scalar {A} (_ : A) : yaml := YScalar.
Definition marshalled (f : File) : list (string * yaml) :=
  let h := fHost f in
  [("version", YScalar);
   ("host", YMap
     (given_key "services" (hServices h) (fun l => YSeq (map (fun s => YMap (("kind", YScalar) :: given_key "port" (sPort s) scalar)) l))
      ++ given_key "firewall" (hFirewall h) (fun x => YMap (given_key "rule" (Rule x) scalar))
      ++ given_key "power" (hPower h) (fun x => YMap (given_key "prevent_sleep" (PreventSleep x) scalar))
      ++ given_key "control_url" (hControlURL h) scalar
      ++ given_key "mesh" (hMesh h) (fun m => YMap (concat (map (fun f => given_key f.1 f.2 scalar) (meshField m))))))].

(** The library reads back a file it wrote, after comment lines. *)
Definition reads_back (f : File) : Prop :=
  exists body, marshal f = Some body /\ parse (hostFileHeader +:+ body) = Document (Some (marshalled f)) (Some f) true.

Lemma hostFileFor_valid goos f : goos <> goosDarwin -> init_ok goos f -> valid_file goos (capabilityFor goos) (hostFileFor goos f).
Proof.
  unfold init_ok, valid_file, hostFileFor. intros Hd (Hp & Hr & Hw). cbn.
  assert (kinds (capabilityFor goos) = [ServiceRDP] /\ (goos = goosWindows -> firewallRule (capabilityFor goos) = true /\ power (capabilityFor goos) = true)) as [Hk Hc].
  { unfold capabilityFor, osCapabilities. case_bool_decide; [done|]. case_bool_decide; [done|]. by rewrite bool_decide_eq_false_2. }
  split; [done|]. split.
  { split; [done|]. split; [|apply NoDup_singleton]. apply Forall_singleton. unfold valid_service. cbn. rewrite Hk. split; [by eexists|].
    split; [by left|done]. }
  destruct (bool_decide_reflect (goos = goosWindows)) as [->|]; [|by split_and!].
  destruct (Hc eq_refl). split; [intros fw [= <-]; split; [done|]; intros r [= <-]; cbn; auto|]. by split_and!.
Qed.

Lemma hostFileFor_keys goos f : checkKeys (Some (marshalled (hostFileFor goos f))) = ([], Ok tt).
Proof. unfold hostFileFor. destruct (bool_decide (goos = goosWindows)); vm_compute; reflexivity. Qed.

(** C22: what host init was asked for, host setup and host check read. Asked for is what
    the flags say when one of --port, --firewall-rule and --no-sleep is given, and
    else what was typed, in order; what neither says is port 3389, the rule
    Tailscale-RDP-Ingress and no sleep. Without a fault of the file system the file
    always loads back, warns of nothing, and, with no flag or variable over it,
    declares exactly the service at that port and, on Windows, that rule and that
    sleep setting. *)
Theorem host_init_read_by_setup w a f states warned r :
  runHostInit marshal parse w a = Some (Wrote f states warned r) -> fresh_temp w a ->
  hi_fault w = None -> reads_back (hostFileFor (hi_goos w) f) ->
  exists port rule noSleep, host_asked w a port rule noSleep
  /\ r = Ok tt /\ warned = [] /\ in_port_range port
  /\ exists d file stored, last states = Some d /\ d !! iPath (given_flags a) = Some file /\ mode file = hostFileMode
       /\ LoadFile (Some (parse (content file))) (hi_goos w) = ([], Ok stored)
       /\ let cfg := Resolve (hi_goos w) stored (fun _ => "") (mkFlags "" false false 0 false false "") in
          cPort cfg = port /\ PortDeclared cfg = true /\ Services cfg = [mkDeclared ServiceRDP port]
          /\ (hi_goos w = goosWindows -> FirewallRule cfg = rule /\ NoSleep cfg = noSleep).
Proof.
  intros (Hd & Hasked & Hok & Hp & _ & Hw)%runHostInit_wrote [Hne Hf] Hfault (body & Hm & Hparse). rewrite <- Hp in Hne |- *.
  exists (iPort f), (iRule f), (iNoSleep f). split; [exact Hasked|].
  pose proof (hostFileFor_valid _ _ Hd Hok) as Hv%validate_spec.
  assert (LoadFile (Some (parse (hostFileHeader +:+ body))) (hi_goos w) = ([], Ok (hostFileFor (hi_goos w) f))) as Hl.
  { unfold LoadFile, loadFile. rewrite Hparse. unfold decodeFile. cbn [negb]. rewrite hostFileFor_keys. cbn [mbind result_bind]. by rewrite Hv. }
  destruct (writeHostFile_states _ _ _ _ _ _ _ _ _ _ Hw Hne Hf) as [_ Hlast]. unfold writeHostFile in Hw. rewrite Hm, Hfault in Hw.
  rewrite !bool_decide_eq_false_2 in Hw by done. cbv beta zeta iota in Hw. rewrite Hl in Hw. injection Hw as _ <- <-. rewrite Hm in Hlast.
  split; [done|]. split; [done|]. split; [apply Hok|].
  eexists _, _, _. split; [exact Hlast|]. rewrite lookup_insert_eq. split; [done|]. split; [done|]. split; [exact Hl|].
  rewrite Resolve_eq. unfold Resolve_reference, hostFileFor. cbn. split; [done|]. split; [done|]. split; [done|].
  intros E. rewrite E. cbn. split; [done|by destruct (iNoSleep f)].
Qed.
End Properties.

(** * A run *)

Definition demo_args : host_init_args := mkArgs (mkHostInit 0 "" false "host.yaml" false) false false false.
Definition demo_typed : string :=
  "yes" +:+ newline +:+ "3390" +:+ newline +:+ newline +:+ "maybe" +:+ newline +:+ "NO" +:+ newline.
Definition demo_host_world : host_init_world :=
  mkHostInitWorld goosWindows HostReadable demo_typed ".host-init-7.yaml" {[ "host.yaml" := SecretFile.mkFile "old" 420%Z ]} None.
Definition demo_flags : hostInitFlags := mkHostInit 3390 "Tailscale-RDP-Ingress" true "host.yaml" false.
Definition demo_declared : File := hostFileFor goosWindows demo_flags.
Definition demo_marshal (f : File) : option string := Some "version: 1".
Definition demo_parse (s : string) : yaml_stream := Document (Some (marshalled demo_declared)) (Some demo_declared) true.
Definition demo_end : option host_init_end := @runHostInit simpleUrl demo_marshal demo_parse demo_host_world demo_args.
Definition demo_wrote : list directory * list string * result host_init_error unit :=
  match demo_end with Some (Wrote f s w r) => (s, w, r) | _ => ([], [], Err EncodeFailed) end.

Lemma demo_end_wrote : demo_end = Some (Wrote demo_flags demo_wrote.1.1 demo_wrote.1.2 demo_wrote.2).
Proof.
  unfold demo_wrote.
  assert (match demo_end with Some (Wrote f _ _ _) => Some f | _ => None end = Some demo_flags) as Hf by (vm_compute; reflexivity).
  destruct demo_end as [[| |f s w r]|]; [done..| |done]. by injection Hf as ->.
Qed.

Lemma demo_fresh : fresh_temp demo_host_world demo_args.
Proof. split; [discriminate|vm_compute; reflexivity]. Qed.

Lemma host_file_replaced_whole_witness :
  (confirmHostOverwrite demo_typed).2 = true /\
  (hi_stat demo_host_world = HostAbsent \/ hi_stat demo_host_world = HostReadable
     /\ (iOverwrite (given_flags demo_args) = true \/ interactiveInit demo_args = true /\ (confirmHostOverwrite (hi_typed demo_host_world)).2 = true)).
Proof.
  split; [vm_compute; reflexivity|].
  exact (proj1 (@host_file_replaced_whole simpleUrl demo_marshal demo_parse _ _ _ _ _ _ demo_end_wrote demo_fresh)).
Defined.

(** The lines typed ask for port 3390, the default rule and no sleep setting. *)
Ltac typed_is l := exists l; split; [split; vm_compute; reflexivity|vm_compute; reflexivity].
Lemma demo_asks port rule noSleep : host_asked demo_host_world demo_args port rule noSleep ->
  port = 3390%Z /\ rule = "Tailscale-RDP-Ingress" /\ noSleep = true.
Proof.
  set (s3 := "maybe" +:+ newline +:+ "NO" +:+ newline). set (s2 := newline +:+ s3). set (s1 := "3390" +:+ newline +:+ s2).
  intros (s & typedPort & t1 & (line & Hl & _) & A1 & Hp & Hwin).
  assert (typed_line demo_typed "yes" s1) as Hl' by (split; vm_compute; reflexivity).
  destruct (typed_line_unique _ _ _ _ _ Hl Hl') as [_ ->].
  assert (answer s1 "3390" s2) as B1 by typed_is "3390". destruct (answer_unique _ _ _ _ _ A1 B1) as [-> ->].
  split; [by destruct Hp as [[? _]|(_ & [= <-] & _)]|].
  destruct (Hwin eq_refl) as (typedRule & t2 & choice & rest & A2 & -> & A3 & ->).
  assert (answer s2 "" s3) as B2 by typed_is "". destruct (answer_unique _ _ _ _ _ A2 B2) as [-> ->]. split; [done|].
  assert (chooses ["yes"; "no"] s3 "no" "") as B3.
  { apply (chooses_again _ _ "maybe" ("NO" +:+ newline)); [split; vm_compute; reflexivity|discriminate| |].
    - apply (bool_decide_unpack _). vm_compute. exact I.
    - apply (chooses_named _ _ "NO" ""); [split; vm_compute; reflexivity|discriminate|]. apply (bool_decide_unpack _). vm_compute. exact I. }
  by destruct (chooses_unique _ _ _ _ A3 _ _ B3) as [-> _].
Qed.

Lemma host_init_read_by_setup_witness :
  reads_back demo_marshal demo_parse demo_declared /\ demo_wrote.2 = Ok tt /\
  exists d file stored, last demo_wrote.1.1 = Some d /\ d !! "host.yaml" = Some file
    /\ @LoadFile simpleUrl (Some (demo_parse (content file))) goosWindows = ([], Ok stored)
    /\ let cfg := Resolve goosWindows stored (fun _ => "") (mkFlags "" false false 0 false false "") in
       cPort cfg = 3390%Z /\ FirewallRule cfg = "Tailscale-RDP-Ingress" /\ NoSleep cfg = true.
Proof.
  assert (reads_back demo_marshal demo_parse demo_declared) as Hr by (exists "version: 1"; split; reflexivity).
  split; [exact Hr|].
  destruct (@host_init_read_by_setup simpleUrl demo_marshal demo_parse _ _ _ _ _ _ demo_end_wrote demo_fresh eq_refl Hr)
    as (port & rule & noSleep & Ha & H1 & _ & _ & d & file & stored & Hl & Hf & _ & Hload & Hcfg).
  destruct (demo_asks _ _ _ Ha) as (-> & -> & ->). destruct Hcfg as (Hp & _ & _ & Hw). destruct (Hw eq_refl) as [Hrule Hs].
  split; [exact H1|]. exists d, file, stored. split; [exact Hl|]. split; [exact Hf|]. split; [exact Hload|].
  split; [exact Hp|]. split; [exact Hrule|exact Hs].
Defined.
