(* ===== verification/AuthCli.v ===== *)
(** The command [auth] (src/cmd/cli/auth.go): set, status, list and remove over
    the profile store and the credential store, and what one says after another.

    A command runs in the world of the two stores and gives the lines it prints. *)
From S2P Require Import Prelude GoStrings SecretFile Credential ControlUrl ProfileStore Transition InitCli.
From Stdlib Require Import Ascii.

Open Scope bool_scope.

(** * The commands *)

Inductive auth_error : Type :=
  | ProfileRequired | ProfileNotLoaded (name : string) (e : profile_error)
  | SecretNotTerminal | SecretReadFailed | StdinReadFailed
  | AuthStore (e : profile_error) | AuthList (e : cred_error)
  | NameAndProfile | NameOrProfile | ProfileWithout (name : string)
  | NotAvailable (name : string) (e : cred_error).

(** The flags, the one argument, and where the key is typed. *)
Inductive masked_read : Type := MaskedNoTerminal | MaskedFails | MaskedKey (key : string).
Record auth_args : Type := mkAuthArgs {
  aProfile : string;
  aStdin : bool;
  aForce : bool;
  aName : option string;
  aMasked : masked_read;
  aTyped : string;
  aTypedFails : bool;
}.

Definition auth (T : Type) : Type := system -> world -> result auth_error T * world.
#[export] Instance auth_ret : MRet auth := fun T a sys w => (Ok a, w).
#[export] Instance auth_bind : MBind auth := fun T U f m sys w =>
  match m sys w with (Ok a, w') => f a sys w' | (Err e, w') => (Err e, w') end.
Definition refuse {T} (e : auth_error) : auth T := fun sys w => (Err e, w).
Definition given_or {T} (r : result auth_error T) : auth T := fun sys w => (r, w).
(** An operation of the stores, its error wrapped. *)
Definition stores {T} (wrap : profile_error -> auth_error) (m : M T) : auth T := fun sys w =>
  let '(r, w') := m sys w in (map_err wrap r, w').

(** A line read from stdin keeps its end; the store drops it. *)
Definition readAuthInput (a : auth_args) : result auth_error string :=
  if negb (aStdin a) then
    match aMasked a with
    | MaskedNoTerminal => Err SecretNotTerminal
    | MaskedFails => Err SecretReadFailed
    | MaskedKey key => Ok key
    end
  else
    let '(line, ended, _) := ReadString (aTyped a) in
    if negb ended && aTypedFails a then Err StdinReadFailed else Ok line.

Definition quoted (parts : list string) : string := String.concat "" parts.

Section Auth.
Context `{UrlPackage}.

Definition runAuthSet (a : auth_args) : auth (list string) :=
  let profileName := aProfile a in
  if bool_decide (profileName = "") then refuse ProfileRequired else
  selectedProfile ← stores (ProfileNotLoaded profileName) (GetProfile profileName);
  let credentialName := default profileName (aName a) in
  key ← given_or (readAuthInput a);
  _ ← stores AuthStore (BindCredential (mkBinding profileName credentialName key (aForce a) (ControlURL selectedProfile)));
  mret ["Credential " +:+ Quote credentialName +:+ " stored for profile " +:+ Quote profileName].

(** The credential, and the profile it was found through. *)
Definition resolveAuthSelection (a : auth_args) : auth (string * string) :=
  match aName a with
  | Some name => if negb (bool_decide (aProfile a = "")) then refuse NameAndProfile else mret (name, "")
  | None =>
      if bool_decide (aProfile a = "") then refuse NameOrProfile else
      selected ← stores (ProfileNotLoaded (aProfile a)) (GetProfile (aProfile a));
      if bool_decide (CredentialName selected = "") then refuse (ProfileWithout (aProfile a))
      else mret (CredentialName selected, aProfile a)
  end.

Definition runAuthStatus (a : auth_args) : auth (list string) :=
  '(name, profileName) ← resolveAuthSelection a;
  stored ← stores AuthStore (credGet name);
  match stored with
  | Err e => refuse (NotAvailable name e)
  | Ok _ =>
      mret [if negb (bool_decide (profileName = ""))
            then "Credential " +:+ Quote name +:+ " is stored for profile " +:+ Quote profileName
            else "Credential " +:+ Quote name +:+ " is stored"]
  end.

(** The profiles of each credential: appended in the order the map is ranged over,
    then each list sorted. *)
Definition add_reference (m : gmap string (list string)) (p : string * Profile) : gmap string (list string) :=
  if bool_decide (CredentialName p.2 = "") then m
  else <[CredentialName p.2 := default [] (m !! CredentialName p.2) ++ [p.1]]> m.
Definition referencesOf (ranged : list (string * Profile)) : gmap string (list string) :=
  sortNames <$> foldl add_reference ∅ ranged.
Definition credentialReferences : auth (gmap string (list string)) :=
  profiles ← stores AuthStore ListProfiles; mret (referencesOf (map_to_list profiles)).

Definition entryLine (references : gmap string (list string)) (e : Entry) : string :=
  Name e +:+ String "009" (Join (default [] (references !! Name e)) ",").
(** [modTime] is the times of the files. The hint of an empty store goes to stderr. *)
Definition credList (modTime : string -> Z) : auth (list Entry) := fun sys w =>
  (map_err AuthList (List_ modTime (credFaults sys (tick w)) (creds w)), next w).
Definition runAuthList (modTime : string -> Z) : auth (list string) :=
  entries ← credList modTime;
  references ← credentialReferences;
  mret (map (entryLine references) entries).

Definition runAuthRemove (a : auth_args) : auth (list string) :=
  let profileName := aProfile a in
  if bool_decide (is_Some (aName a)) && negb (bool_decide (profileName = "")) then refuse NameAndProfile
  else if bool_decide (aName a = None) && bool_decide (profileName = "") then refuse NameOrProfile
  else
    result ← stores AuthStore (UnbindCredential (mkRemoval (default "" (aName a)) profileName (aForce a)));
    let credential := Quote (removedCredential result) in
    mret [match Outcome result with
          | Unlinked => "Credential " +:+ credential +:+ " unlinked from profile " +:+ Quote profileName
          | RemovedWithProfile => "Credential " +:+ credential +:+ " removed with profile " +:+ Quote profileName +:+ " association"
          | Removed => "Credential " +:+ credential +:+ " removed"
          end].
End Auth.

(** * Facts *)

Lemma auth_bind_Ok {T U} (m : auth T) (f : T -> auth U) sys w r w' :
  (m ≫= f) sys w = (Ok r, w') -> exists a w1, m sys w = (Ok a, w1) /\ f a sys w1 = (Ok r, w').
Proof. unfold mbind, auth_bind. destruct (m sys w) as [[a|e] w1]; [eauto|done]. Qed.

Lemma stores_Ok {T} wrap (m : M T) sys w a w' : stores wrap m sys w = (Ok a, w') -> m sys w = (Ok a, w').
Proof. unfold stores. destruct (m sys w) as [[b|e] w1]; cbn; [by intros [= <- <-]|done]. Qed.

Lemma Update_Ok {T} (m : M T) sys w a w' :
  Update m sys w = (Ok a, w') -> exists w1, m sys (next w) = (Ok a, w1) /\ w' = next w1.
Proof.
  unfold Update. destruct (lockAnswer sys (tick w)); [|done..]. destruct (m sys (next w)) as [[b|e] w1];
    destruct (unlockFails sys (tick w1)); [done| |done|done]. intros [= <- <-]. by exists w1.
Qed.

(** ** The references *)

Lemma insert_name_comm a b l : insert_name a (insert_name b l) = insert_name b (insert_name a l).
Proof.
  destruct (decide (a = b)) as [->|Hab]; [done|].
  assert (forall x y, x <> y -> String.ltb x y = negb (String.ltb y x)) as Htot.
  { intros x y Hne. destruct (String.ltb x y) eqn:E.
    - destruct (String.ltb y x) eqn:F; [|done]. pose proof (ltb_trans _ _ _ E F) as G. by rewrite ltb_irrefl in G.
    - apply ltb_total in E as [?| ->]; done. }
  induction l as [|x l IH]; cbn.
  - rewrite (Htot a b) by done. by destruct (String.ltb b a).
  - destruct (String.ltb b x) eqn:Eb, (String.ltb a x) eqn:Ea; cbn; rewrite ?Ea, ?Eb.
    + rewrite (Htot a b) by done. by destruct (String.ltb b a).
    + destruct (String.ltb a b) eqn:E; [by rewrite (ltb_trans _ _ _ E Eb) in Ea|done].
    + destruct (String.ltb b a) eqn:E; [by rewrite (ltb_trans _ _ _ E Ea) in Eb|done].
    + by rewrite IH.
Qed.

(** Sorting forgets the order. *)
#[export] Instance sortNames_proper : Proper ((≡ₚ) ==> (=)) sortNames.
Proof.
  intros l l'. unfold sortNames. induction 1 as [|x l l' _ IH|x y l|l l' l'' _ IH1 _ IH2]; cbn; [done|by rewrite IH|apply insert_name_comm|congruence].
Qed.

(** The profiles of [ranged] that reference [c], in its order. *)
Definition names_of (c : string) (ranged : list (string * Profile)) : list string :=
  map fst (List.filter (fun p => bool_decide (CredentialName p.2 = c)) ranged).

Lemma add_reference_lookup c ranged m :
  c <> "" -> default [] (foldl add_reference m ranged !! c) = default [] (m !! c) ++ names_of c ranged.
Proof.
  intros Hc. revert m. induction ranged as [|[q e] ranged IH]; intros m; cbn; [by rewrite app_nil_r|]. rewrite IH. unfold add_reference, names_of. cbn [fst snd List.filter].
  case_bool_decide as E1.
  - rewrite E1, (bool_decide_eq_false_2 ("" = c)) by (intros <-; done). done.
  - case_bool_decide as E2.
    + rewrite E2, lookup_insert_eq. cbn. by rewrite <- app_assoc.
    + by rewrite lookup_insert_ne.
Qed.

Lemma referencesOf_lookup c ranged : c <> "" -> default [] (referencesOf ranged !! c) = sortNames (names_of c ranged).
Proof.
  intros Hc. pose proof (add_reference_lookup c ranged ∅ Hc) as H. unfold referencesOf. rewrite lookup_fmap.
  rewrite lookup_empty in H. cbn in H. rewrite <- H. by destruct (foldl _ _ _ !! c).
Qed.

#[export] Instance names_of_proper c : Proper ((≡ₚ) ==> (≡ₚ)) (names_of c).
Proof.
  intros l l'. unfold names_of. induction 1 as [|p l l' _ IH|p q l|l l' l'' _ IH1 _ IH2]; cbn;
    repeat case_bool_decide; cbn; [done|by constructor|done|constructor|done..|by etransitivity].
Qed.

Lemma elem_of_names_of c (ps : gmap string Profile) p :
  p ∈ sortNames (names_of c (map_to_list ps)) <-> exists e, ps !! p = Some e /\ CredentialName e = c.
Proof.
  rewrite sortNames_perm. unfold names_of. rewrite list_elem_of_fmap. split.
  - intros ([q e] & -> & Hin). apply list_elem_of_In, List.filter_In in Hin as [Hin Hc]. exists e. split.
    + by apply elem_of_map_to_list, list_elem_of_In.
    + by apply bool_decide_eq_true in Hc.
  - intros (e & Hp & Hc). exists (p, e). split; [done|]. apply list_elem_of_In, List.filter_In. split.
    + by apply list_elem_of_In, elem_of_map_to_list.
    + by apply bool_decide_eq_true.
Qed.

Lemma names_NoDup c (l : list (string * Profile)) : NoDup l.*1 -> NoDup (names_of c l).
Proof.
  unfold names_of. induction l as [|[p e] l IH]; cbn; [done|]. intros [Hp Hl]%NoDup_cons.
  case_bool_decide; cbn; [|auto]. apply NoDup_cons. split; [|auto]. intros Hin. apply Hp.
  apply list_elem_of_fmap in Hin as ([p' e'] & -> & Hin). apply list_elem_of_In, List.filter_In in Hin as [Hin _].
  apply list_elem_of_fmap. exists (p', e'). split; [done|]. by apply list_elem_of_In.
Qed.

(** ** The stores under a command *)

Section Commands.
Context `{UrlPackage}.

Lemma bindTransition_name b sys w u w' : bindTransition b sys w = (Ok u, w') -> ValidateName (bCredential b) = true.
Proof.
  destruct (ValidateName (bCredential b)) eqn:Hn; [done|]. unfold bindTransition. intros Hr. exfalso.
  apply bind_inv in Hr as [(e0 & w1 & _ & Hr)|(? & _ & ?)]; [|done].
  apply bind_inv in Hr as [([] & w2 & _ & Hr)|(? & _ & ?)]; [|done].
  apply bind_inv in Hr as [([] & w3 & _ & Hr)|(? & _ & ?)]; [|done].
  apply bind_inv in Hr as [(previous & w4 & _ & Hr)|(? & _ & ?)]; [|done].
  assert (forall f : result cred_error unit -> M unit, (forall e s v, f (Err e) s v = (throw (StoreCredentialFailed e) s v)) ->
    (credSet (bCredential b) (bKey b) (bReplace b) ≫= f) sys w4 <> (Ok u, w')) as Hno.
  { intros f Hf. unfold mbind, M_bind, credSet, Set_. rewrite Hn. cbn. by rewrite Hf. }
  destruct previous as [k|[]]; try done; by apply Hno in Hr.
Qed.

Lemma stores_healthy wrap p w (e : profileEntry) :
  Profiles (onDisk (disk w)) !! p = Some e -> stores wrap (GetProfile p) healthy w = (Ok e, next w).
Proof.
  intros He. unfold stores, GetProfile. change ((load ≫= ?f) healthy w) with (f (onDisk (disk w)) healthy (next w)).
  cbv beta. rewrite He. by destruct e.
Qed.
Lemma stores_credGet wrap c sys w : stores wrap (credGet c) sys w = (Ok (Get c (credFaults sys (tick w)) (creds w)), next w).
Proof. done. Qed.

(** What auth set left: the profile as it was but for its credential, and the key
    typed in the credential's file. *)
Lemma runAuthSet_Ok a sys w out w' :
  store_ok (creds w) -> runAuthSet a sys w = (Ok out, w') ->
  let c := default (aProfile a) (aName a) in
  aProfile a <> "" /\ ValidateName c = true
  /\ out = ["Credential " +:+ Quote c +:+ " stored for profile " +:+ Quote (aProfile a)]
  /\ exists typed key e, readAuthInput a = Ok typed /\ normalizeKey typed = Ok key
     /\ files (creds w') !! keyFile c = Some (mkFile key 384)
     /\ Profiles (onDisk (disk w)) !! aProfile a = Some e
     /\ Profiles (onDisk (disk w')) !! aProfile a = Some (mkProfile (Target e) (ControlURL e) c (Settings e)).
Proof.
  intros Hok. unfold runAuthSet. destruct (bool_decide_reflect (aProfile a = "")) as [|Hp]; [done|].
  intros (e0 & w1 & Hg%stores_Ok & Hr)%auth_bind_Ok. apply auth_bind_Ok in Hr as (typed & w2 & Ht & Hr).
  apply auth_bind_Ok in Hr as ([] & w3 & Hb%stores_Ok & Hr). injection Hr as <- <-. injection Ht as Ht <-.
  apply GetProfile_inv in Hg as [-> _]. set (b := mkBinding _ _ _ _ _) in Hb. apply Update_Ok in Hb as (w4 & Hb & ->).
  pose proof (bindTransition_name _ _ _ _ _ Hb) as Hn. apply bindTransition_inv in Hb as [_ (e & key & He & He' & _ & Hk & Hf)]; [|done].
  cbv zeta. split_and!; [done|exact Hn|done|]. by exists typed, key, e.
Qed.

(** auth set, once it says the credential is stored, has stored the key that was
    typed, owner-only, and the profile references it and is otherwise as it was;
    and auth status for the profile says so too. *)
Theorem auth_set_then_status a sys w out w' :
  store_ok (creds w) -> runAuthSet a sys w = (Ok out, w') ->
  let p := aProfile a in
  let c := default p (aName a) in
  (exists typed key e, readAuthInput a = Ok typed /\ normalizeKey typed = Ok key
     /\ files (creds w') !! keyFile c = Some (mkFile key 384)
     /\ Profiles (onDisk (disk w)) !! p = Some e
     /\ Profiles (onDisk (disk w')) !! p = Some (mkProfile (Target e) (ControlURL e) c (Settings e)))
  /\ out = ["Credential " +:+ Quote c +:+ " stored for profile " +:+ Quote p]
  /\ (runAuthStatus (mkAuthArgs p false false None MaskedFails "" false) healthy w').1
     = Ok ["Credential " +:+ Quote c +:+ " is stored for profile " +:+ Quote p].
Proof.
  intros Hok Hr. apply runAuthSet_Ok in Hr as (Hp & Hn & Hout & typed & key & e & Ht & Hk & Hf & He & He'); [|done]. cbv zeta.
  set (c := default (aProfile a) (aName a)) in *. split; [by exists typed, key, e|]. split; [done|].
  assert (c <> "") as Hcn by (intros E; rewrite E in Hn; discriminate Hn).
  unfold runAuthStatus, resolveAuthSelection. cbn [aName aProfile]. rewrite (bool_decide_eq_false_2 (aProfile a = "")) by done.
  unfold mbind, auth_bind. rewrite (stores_healthy _ _ w' _ He'). cbn [CredentialName]. rewrite (bool_decide_eq_false_2 (c = "")) by done.
  unfold mret, auth_ret. rewrite stores_credGet. unfold Get. rewrite Hn. cbn [negb credFaults healthy noFaults readFails].
  change (creds (next w')) with (creds w'). rewrite Hf. cbn [content]. rewrite (normalizeKey_idem _ _ Hk). cbn [map_err fst].
  by rewrite bool_decide_eq_false_2.
Qed.

(** Each line of auth list is a credential that is stored, with exactly the
    profiles that reference it, each once, whatever order the map is ranged over. *)
Theorem auth_list_names_references modTime sys w lines w' :
  runAuthList modTime sys w = (Ok lines, w') ->
  exists entries refs, List_ modTime (credFaults sys (tick w)) (creds w) = Ok entries
    /\ lines = map (fun e => Name e +:+ String "009" (Join (refs (Name e)) ",")) entries
    /\ (forall c order, c <> "" -> order ≡ₚ map_to_list (Profiles (onDisk (disk w))) ->
          refs c = default [] (referencesOf order !! c) /\ NoDup (refs c)
          /\ forall p, p ∈ refs c <-> exists e, Profiles (onDisk (disk w)) !! p = Some e /\ CredentialName e = c).
Proof.
  intros (entries & w1 & He & Hr)%auth_bind_Ok. apply auth_bind_Ok in Hr as (refs & w2 & Hrefs & Hr). injection Hr as <- <-.
  injection He as He <-. apply map_err_Ok in He. unfold credentialReferences in Hrefs.
  apply auth_bind_Ok in Hrefs as (ps & w3 & Hl%stores_Ok & Hrefs). injection Hrefs as <- <-.
  apply bind_inv in Hl as [(d & w4 & Hl & Hk)|(? & _ & ?)]; [|done]. apply load_inv in Hl as [-> [?|[= ->]]]; [done|].
  injection Hk as <- <-. change (disk (next w)) with (disk w).
  assert (profileFromEntry <$> Profiles (onDisk (disk w)) = Profiles (onDisk (disk w))) as Hmap.
  { rewrite <- (map_fmap_id (Profiles (onDisk (disk w)))) at 2. apply map_fmap_ext. by intros i []. }
  rewrite Hmap. exists entries, (fun c => default [] (referencesOf (map_to_list (Profiles (onDisk (disk w)))) !! c)).
  split; [done|]. split; [done|]. intros c order Hc Ho. rewrite !referencesOf_lookup, Ho by done. split; [done|]. split.
  - rewrite sortNames_perm. apply names_NoDup, NoDup_fst_map_to_list.
  - intros p. apply elem_of_names_of.
Qed.

(** C21: auth remove says what became of the credential: removed, and then no profile
    references it, its key is gone, and auth status refuses it whatever the
    system answers; or unlinked, and then its key is as it was and another
    profile still references it. *)
Theorem auth_remove_reports a sys w out w' :
  runAuthRemove a sys w = (Ok out, w') ->
  exists c, (out = ["Credential " +:+ Quote c +:+ " unlinked from profile " +:+ Quote (aProfile a)]
             /\ files (creds w') = files (creds w)
             /\ exists q e, q <> aProfile a /\ Profiles (onDisk (disk w')) !! q = Some e /\ CredentialName e = c)
  \/ ((out = ["Credential " +:+ Quote c +:+ " removed with profile " +:+ Quote (aProfile a) +:+ " association"]
       \/ out = ["Credential " +:+ Quote c +:+ " removed"])
      /\ (forall p e, Profiles (onDisk (disk w')) !! p = Some e -> CredentialName e <> c)
      /\ files (creds w') !! keyFile c = None
      /\ forall sys', is_ok (runAuthStatus (mkAuthArgs "" false false (Some c) MaskedFails "" false) sys' w').1 = false).
Proof.
  unfold runAuthRemove. destruct (bool_decide (is_Some (aName a)) && negb (bool_decide (aProfile a = ""))) eqn:E1; [done|].
  destruct (bool_decide (aName a = None) && _); [done|]. intros (res & w1 & Hu%stores_Ok & Hr)%auth_bind_Ok. injection Hr as <- <-.
  apply Update_Ok in Hu as (w2 & Hu & ->). set (r := mkRemoval _ _ _) in Hu.
  assert (rCredential r = "" \/ rProfile r = "") as Hone.
  { cbn. destruct (aName a) as [n|]; [right|by left]. rewrite bool_decide_eq_true_2 in E1 by (by eexists). cbn in E1.
    by apply negb_false_iff, bool_decide_eq_true in E1. }
  apply unbindTransition_inv in Hu; [|done]. destruct res as [c o]. exists c. cbn [removedCredential Outcome].
  assert (gone c w2 -> forall sys', is_ok (runAuthStatus (mkAuthArgs "" false false (Some c) MaskedFails "" false) sys' (next w2)).1 = false) as Hgone.
  { intros [_ Hf] sys'. unfold runAuthStatus, resolveAuthSelection. cbn [aName aProfile]. rewrite bool_decide_eq_true_2 by done. cbn [negb].
    unfold mbind, auth_bind, mret, auth_ret. rewrite stores_credGet. unfold Get. change (creds (next w2)) with (creds w2). rewrite Hf.
    destruct (negb (ValidateName c)); [done|]. by destruct (readFails _). }
  destruct o; cbn in Hu; [left|right..].
  - destruct Hu as (? & _ & ?). done.
  - split; [by left|]. split; [apply Hu|]. split; [apply Hu|by apply Hgone].
  - split; [by right|]. split; [apply Hu|]. split; [apply Hu|by apply Hgone].
Qed.
End Commands.

(** * Runs *)

Definition typed_args (p : string) (name : option string) (force : bool) (typed : string) : auth_args :=
  mkAuthArgs p true force name MaskedNoTerminal typed false.
Definition no_keys : world := mkWorld (disk both_bound) emptyStore 0.
Definition set_args : auth_args := typed_args "home" None false ("hskey-abc" +:+ newline).
Definition after_set : world := (@runAuthSet simpleUrl set_args healthy no_keys).2.

Lemma auth_set_then_status_witness :
  exists out, @runAuthSet simpleUrl set_args healthy no_keys = (Ok out, after_set) /\ is_Some (files (creds after_set) !! keyFile "home").
Proof.
  assert (is_ok (@runAuthSet simpleUrl set_args healthy no_keys).1 = true) as Hk by (vm_compute; reflexivity).
  unfold after_set. destruct (@runAuthSet simpleUrl set_args healthy no_keys) as [[out|e] w'] eqn:E; [|discriminate Hk].
  exists out. split; [reflexivity|]. assert (store_ok (creds no_keys)) as Hok by (by intros n c).
  destruct (@auth_set_then_status simpleUrl _ _ _ _ _ Hok E) as ((typed & key & e & _ & _ & Hf & _) & _).
  exists (mkFile key 384). exact Hf.
Defined.

Lemma auth_list_names_references_witness :
  exists lines w', runAuthList (fun _ => 0%Z) healthy both_bound = (Ok lines, w')
    /\ exists entries, List_ (fun _ => 0%Z) noFaults (creds both_bound) = Ok entries /\ length lines = length entries.
Proof.
  assert (is_ok (runAuthList (fun _ => 0%Z) healthy both_bound).1 = true) as Hk by (vm_compute; reflexivity).
  destruct (runAuthList (fun _ => 0%Z) healthy both_bound) as [[lines|e] w'] eqn:E; [|discriminate Hk].
  exists lines, w'. split; [reflexivity|].
  destruct (auth_list_names_references _ _ _ _ _ E) as (entries & refs & He & Hl & _). exists entries. split; [exact He|].
  rewrite Hl. apply length_map.
Defined.
Example auth_list_both : (runAuthList (fun _ => 0%Z) healthy both_bound).1 = Ok ["hs" +:+ String "009" "home,work"].
Proof. vm_compute. reflexivity. Qed.

Lemma auth_remove_reports_witness :
  exists out w', runAuthRemove (typed_args "" (Some "hs") true "") healthy both_bound = (Ok out, w')
    /\ out = ["Credential " +:+ Quote "hs" +:+ " removed"]
    /\ exists c, files (creds w') = files (creds both_bound) \/ files (creds w') !! keyFile c = None.
Proof.
  destruct (runAuthRemove (typed_args "" (Some "hs") true "") healthy both_bound) as [[out|e] w'] eqn:E.
  2:{ exfalso. assert (is_ok (runAuthRemove (typed_args "" (Some "hs") true "") healthy both_bound).1 = true) as Hk by (vm_compute; reflexivity).
      rewrite E in Hk. discriminate Hk. }
  exists out, w'. split; [reflexivity|]. split.
  - apply (f_equal fst) in E. cbn [fst] in E. assert (Ok out = Ok ["Credential " +:+ Quote "hs" +:+ " removed"]) as Ho
      by (rewrite <- E; vm_compute; reflexivity). congruence.
  - destruct (auth_remove_reports _ _ _ _ _ E) as (c & [(_ & Hf & _)|(_ & _ & Hf & _)]); exists c; [left|right]; exact Hf.
Defined.
