(* ===== verification/StatusCli.v ===== *)
(** The command [status] (src/cmd/cli/status.go): the three requests to the health
    server, the summary, the sizes it prints, and the watch loop.

    A request gives a status code and a body or fails; decoding JSON is a
    parameter. What is printed on standard output is a list of texts. *)
From S2P Require Import Prelude GoStrings Telemetry Health RunBridge.
From Stdlib Require Import Ascii.

Open Scope bool_scope.

(** * Sizes *)

(** The nearest multiple: a over b, halves to the even one. *)
Definition round_half_even (a b : Z) : Z :=
  let q := (a / b)%Z in
  let r := (a mod b)%Z in
  if (2 * r <? b)%Z then q else if (b <? 2 * r)%Z then (q + 1)%Z else if Z.even q then q else (q + 1)%Z.

(** [float64(n)] of an integer that is not negative: 53 significant bits. *)
Definition float64 (n : Z) : Z :=
  if (n <? 2 ^ 53)%Z then n else let s := (2 ^ (Z.log2 n - 52))%Z in (round_half_even n s * s)%Z.

(** [%.1f] of a float over a power of two: the division is exact. *)
Definition tenths (n unit : Z) : Z := round_half_even (10 * float64 n) unit.
Definition one_decimal (t : Z) : string := Itoa (t / 10) +:+ "." +:+ Itoa (t mod 10).

Definition formatBytes (n : Z) : string :=
  if (n <? 1024)%Z then Itoa n +:+ " B"
  else if (n <? 1024 * 1024)%Z then one_decimal (tenths n 1024) +:+ " KiB"
  else if (n <? 1024 * 1024 * 1024)%Z then one_decimal (tenths n (1024 * 1024)) +:+ " MiB"
  else one_decimal (tenths n (1024 * 1024 * 1024)) +:+ " GiB".

(** * The requests *)

(** What a request meets: nothing answers, or a status code and the body, if it
    can be read. *)
Inductive answer : Type := NoAnswer | Answer (code : Z) (body : option string).

Definition fetchHealth (decode : string -> option Metrics) (get : string -> answer) (addr : string) : option (bool * bool * Metrics) :=
  let url path := "http://" +:+ addr +:+ path in
  match get (url "/health/live") with
  | NoAnswer => None
  | Answer live _ =>
      match get (url "/health/ready") with
      | NoAnswer => None
      | Answer ready _ =>
          match get (url "/metrics") with
          | Answer _ (Some body) => m ← decode body; Some ((live =? 200)%Z, (ready =? 200)%Z, m)
          | _ => None
          end
      end
  end.

(** * What is printed *)

Definition statusLine (live ready : bool) : string :=
  if live && ready then "  |  Status:  RUNNING                    |"
  else if live then "  |  Status:  RUNNING (not ready)        |"
  else "  |  Status:  NOT RUNNING                |".
Definition summaryBorder : string := "  +---------------------------------------+".
Definition printSummary (live ready : bool) (m : Metrics) : list string :=
  let row label value := "  |  " +:+ label +:+ padRight 18 value +:+ "  |" in
  [summaryBorder; "  |         TS-BRIDGE STATUS " +:+ padRight 12 "" +:+ "  |"; summaryBorder; statusLine live ready; summaryBorder;
   row "Active connections:  " (Itoa (ActiveConnections m)); row "Total connections:   " (Itoa (TotalConnections m));
   row "Bytes sent (tx):     " (formatBytes (TotalBytesTx m)); row "Bytes received (rx): " (formatBytes (TotalBytesRx m));
   row "Errors:              " (Itoa (TotalErrors m)); row "Rejected:            " (Itoa (RejectedConns m)); summaryBorder].

Section Status.
(** The texts of the JSON documents. *)
Context (decode : string -> option Metrics) (indented : Metrics -> string) (downDocument : string -> string).

(** The line on stderr is left out. *)
Definition reportNoAnswer (addr : string) (jsonOut : bool) : list string := if jsonOut then [downDocument addr] else [].

Definition clearScreen : string := String "027" "[2J" +:+ String "027" "[H".
Definition supportsClearScreen (goos : string) : bool := negb (bool_decide (goos = "windows")).

(** One round: what it prints, and whether anything answered. *)
Definition shown (jsonOut : bool) (fetched : bool * bool * Metrics) : list string :=
  let '(live, ready, m) := fetched in if jsonOut then [indented m] else printSummary live ready m.
Definition runStatusWithWriter (addr : string) (jsonOut : bool) (get : string -> answer) : list string :=
  match fetchHealth decode get addr with
  | None => reportNoAnswer addr jsonOut
  | Some fetched => shown jsonOut fetched
  end.
Definition displayOnce (goos addr : string) (jsonOut : bool) (get : string -> answer) : list string * bool :=
  let clear := if negb jsonOut && supportsClearScreen goos then [clearScreen] else [] in
  match fetchHealth decode get addr with
  | None => (clear, false)
  | Some fetched => (clear ++ shown jsonOut fetched, true)
  end.
Definition watchRound (goos addr : string) (jsonOut : bool) (get : string -> answer) : list string :=
  let '(out, ok) := displayOnce goos addr jsonOut get in
  out ++ if ok then [] else reportNoAnswer addr jsonOut.

(** What the watch loop waits for: a tick, with what the requests of that round
    meet, or a signal. *)
Inductive watch_event : Type := Tick (get : string -> answer) | Interrupted.
(** What it printed, and whether it returned. *)
Fixpoint watchLoop (goos addr : string) (jsonOut : bool) (events : list watch_event) : list string * bool :=
  match events with
  | [] => ([], false)
  | Interrupted :: _ => ([""], true)
  | Tick get :: events =>
      let '(out, returned) := watchLoop goos addr jsonOut events in (watchRound goos addr jsonOut get ++ out, returned)
  end.
(** [time.NewTicker] panics on an interval that is not positive: [None]. *)
Definition runWatchLoop (goos addr : string) (interval : Z) (jsonOut : bool) (first : string -> answer) (events : list watch_event)
    : option (list string * bool) :=
  if (interval <=? 0)%Z then None
  else let '(out, returned) := watchLoop goos addr jsonOut events in Some (watchRound goos addr jsonOut first ++ out, returned).

(** Every return is without an error. *)
Definition runStatus (goos addr : string) (interval : Z) (jsonOut watch : bool) (first : string -> answer) (events : list watch_event)
    : option (list string * bool) :=
  if watch then runWatchLoop goos addr interval jsonOut first events else Some (runStatusWithWriter addr jsonOut first, true).
End Status.

(** * The sizes are right to the decimal *)

Lemma round_half_even_close a b : (0 < b)%Z -> (2 * Z.abs (a - round_half_even a b * b) <= b)%Z.
Proof.
  intros Hb. unfold round_half_even. pose proof (Z.div_mod a b ltac:(lia)) as Hd. pose proof (Z.mod_pos_bound a b Hb) as Hm.
  set (q := (a / b)%Z) in *. set (r := (a mod b)%Z) in *.
  destruct (Z.ltb_spec (2 * r) b); [replace (a - q * b)%Z with r by lia; lia|].
  destruct (Z.ltb_spec b (2 * r)); [replace (a - (q + 1) * b)%Z with (r - b)%Z by lia; lia|].
  destruct (Z.even q); [replace (a - q * b)%Z with r by lia|replace (a - (q + 1) * b)%Z with (r - b)%Z by lia]; lia.
Qed.

Lemma float64_close n : (0 <= n < 2 ^ 63)%Z -> (Z.abs (n - float64 n) <= if (n <? 2 ^ 53)%Z then 0 else 512)%Z.
Proof.
  intros Hn. unfold float64. destruct (Z.ltb_spec n (2 ^ 53)); [lia|]. set (s := (2 ^ (Z.log2 n - 52))%Z).
  assert (0 < s <= 1024)%Z as Hs.
  { assert (53 <= Z.log2 n < 63)%Z as [? ?] by (split; [apply Z.log2_le_pow2|apply Z.log2_lt_pow2]; lia). split; [apply Z.pow_pos_nonneg; lia|].
    change 1024%Z with (2 ^ 10)%Z. apply Z.pow_le_mono_r; lia. }
  pose proof (round_half_even_close n s ltac:(lia)). lia.
Qed.

(** A size as it is printed: a number of tenths and a unit. *)
Definition printed_as (n t unit : Z) (suffix : string) : Prop := formatBytes n = one_decimal t +:+ suffix /\ tenths n unit = t.

Lemma formatBytes_cases n :
  (1024 <= n)%Z -> exists unit suffix, printed_as n (tenths n unit) unit suffix /\ (1024 <= unit <= n)%Z
    /\ ((unit, suffix) = (1024%Z, " KiB") /\ (n < 1024 * unit)%Z \/ (unit, suffix) = (1048576%Z, " MiB") /\ (n < 1024 * unit)%Z \/ (unit, suffix) = (1073741824%Z, " GiB")).
Proof.
  intros Hn. unfold printed_as, formatBytes. rewrite (proj2 (Z.ltb_ge _ _)) by lia.
  destruct (Z.ltb_spec n (1024 * 1024)); [exists 1024%Z, " KiB"; split_and!; try done; try lia; left; split; [done|lia]|].
  destruct (Z.ltb_spec n (1024 * 1024 * 1024)).
  - exists 1048576%Z, " MiB". split_and!; try done; try lia. right; left. split; [done|lia].
  - exists 1073741824%Z, " GiB". split_and!; try done; try lia. by right; right.
Qed.

(** A size under a kibibyte is printed exactly; above, in the largest of the units
    it reaches (gibibytes at most), to the nearest tenth of it: no further off than
    half a tenth, and, for counters past 2^53 that a float rounds, the few hundred
    bytes of that. *)
Theorem formatted_size_close n :
  (0 <= n < 2 ^ 63)%Z ->
  if (n <? 1024)%Z then formatBytes n = Itoa n +:+ " B"
  else exists t unit suffix, formatBytes n = one_decimal t +:+ suffix
    /\ (unit, suffix) ∈ [(1024%Z, " KiB"); (1048576%Z, " MiB"); (1073741824%Z, " GiB")]
    /\ (unit <= n)%Z /\ (n < 1024 * unit \/ unit = 1073741824)%Z
    /\ (2 * Z.abs (10 * n - t * unit) <= unit + if (n <? 2 ^ 53)%Z then 0 else 10240)%Z.
Proof.
  intros Hn. destruct (Z.ltb_spec n 1024); [unfold formatBytes; by rewrite (proj2 (Z.ltb_lt _ _)) by lia|].
  destruct (formatBytes_cases n) as (unit & suffix & [Hf _] & Hu & Hs); [lia|]. exists (tenths n unit), unit, suffix.
  split; [exact Hf|]. split; [rewrite !elem_of_cons; naive_solver|]. split; [lia|]. split.
  { destruct Hs as [[_ ?]|[[_ ?]|[= ? _]]]; [by left..|by right]. }
  pose proof (round_half_even_close (10 * float64 n) unit ltac:(lia)) as Hr. fold (tenths n unit) in Hr.
  pose proof (float64_close n Hn). destruct (n <? 2 ^ 53)%Z; lia.
Qed.

(** * What it says of a bridge *)

(** The requests of a bridge that serves its health endpoint at [addr]. *)
Definition bridge_answers (encode : Metrics -> string) (readyText : ready_body -> string) (addr : string) (s : TunnelStatus) (m : Metrics)
    (url : string) : answer :=
  if bool_decide (url = "http://" +:+ addr +:+ "/health/live") then Answer liveHandler.1 (Some liveHandler.2)
  else if bool_decide (url = "http://" +:+ addr +:+ "/health/ready") then
    let '(code, body) := readyHandler (Load s) None in Answer code (Some (readyText body))
  else if bool_decide (url = "http://" +:+ addr +:+ "/metrics") then Answer (metricsHandler m).1 (Some (encode (metricsHandler m).2))
  else NoAnswer.

Section Reads.
Context (decode : string -> option Metrics) (encode : Metrics -> string) (indented : Metrics -> string) (downDocument : string -> string).
Context (readyText : ready_body -> string).

Lemma url_inj addr a b : "http://" +:+ addr +:+ a = "http://" +:+ addr +:+ b -> a = b.
Proof.
  assert (forall p x y, p +:+ x = p +:+ y -> x = y) as Hinj by (intros p; induction p; cbn; [done|intros ? ? [= ?]; eauto]).
  by intros ?%Hinj%Hinj.
Qed.

Lemma fetch_bridge addr s m : decode (encode m) = Some m -> fetchHealth decode (bridge_answers encode readyText addr s m) addr = Some (true, ready s, m).
Proof.
  intros Hd. unfold fetchHealth, bridge_answers.
  assert (forall a b, a <> b -> bool_decide ("http://" +:+ addr +:+ a = "http://" +:+ addr +:+ b) = false) as Hne
    by (intros a b Hab; apply bool_decide_eq_false_2; by intros ?%url_inj).
  rewrite (bool_decide_eq_true_2 ("http://" +:+ addr +:+ "/health/live" = _)) by done.
  rewrite (Hne "/health/ready" "/health/live"), (Hne "/metrics" "/health/live"), (Hne "/metrics" "/health/ready") by done.
  rewrite !bool_decide_eq_true_2 by done. unfold readyHandler, Load, metricsHandler. cbn [fst snd liveHandler].
  by destruct (ready s); cbn [fst snd]; rewrite Hd.
Qed.

(** status against a bridge with a health endpoint shows its counters, and says it
    runs exactly when it is ready; with --json it prints the counters alone. With
    nothing at the address it still returns, printing nothing or the document that
    says so. *)
Theorem status_shows_bridge addr jsonOut s m :
  decode (encode m) = Some m ->
  runStatusWithWriter decode indented downDocument addr jsonOut (bridge_answers encode readyText addr s m)
    = (if jsonOut then [indented m] else printSummary true (ready s) m)
  /\ (In (statusLine true true) (printSummary true (ready s) m) <-> ready s = true)
  /\ forall get, (get ("http://" +:+ addr +:+ "/health/live") = NoAnswer) ->
       runStatusWithWriter decode indented downDocument addr jsonOut get = if jsonOut then [downDocument addr] else [].
Proof.
  intros Hd. split; [|split].
  - unfold runStatusWithWriter. by rewrite fetch_bridge.
  - unfold printSummary. destruct (ready s); [split; [done|intros _; do 3 right; by left]|]. split; [|done].
    intros H. exfalso. cbn [In] in H. repeat (destruct H as [H|H]; [discriminate H|]). done.
  - intros get Hg. unfold runStatusWithWriter, fetchHealth. by rewrite Hg.
Qed.

(** The watch loop: one round at once, one per tick, and no other; it returns at the
    first signal, and only then. *)
Theorem watch_rounds goos addr interval jsonOut first ticks rest :
  (0 < interval)%Z ->
  runWatchLoop decode indented downDocument goos addr interval jsonOut first (map Tick ticks ++ Interrupted :: rest)
    = Some (concat (map (watchRound decode indented downDocument goos addr jsonOut) (first :: ticks)) ++ [""], true)
  /\ runWatchLoop decode indented downDocument goos addr interval jsonOut first (map Tick ticks)
    = Some (concat (map (watchRound decode indented downDocument goos addr jsonOut) (first :: ticks)), false).
Proof.
  intros Hi. unfold runWatchLoop. rewrite (proj2 (Z.leb_gt _ _)) by lia.
  assert (forall ev, watchLoop decode indented downDocument goos addr jsonOut (map Tick ticks ++ ev)
    = (concat (map (watchRound decode indented downDocument goos addr jsonOut) ticks) ++ (watchLoop decode indented downDocument goos addr jsonOut ev).1,
       (watchLoop decode indented downDocument goos addr jsonOut ev).2)) as Hl.
  { intros ev. induction ticks as [|get ticks IH]; cbn; [by destruct (watchLoop _ _ _ _ _ _ ev)|]. rewrite IH. by rewrite <- app_assoc. }
  rewrite Hl. rewrite <- (app_nil_r (map Tick ticks)), Hl. cbn. rewrite <- !app_assoc, app_nil_r. done.
Qed.
End Reads.

(** * Runs *)

Lemma formatted_size_close_witness :
  formatBytes 1536 = "1.5 KiB" /\ if (1536 <? 1024)%Z then True else exists t unit suffix, formatBytes 1536 = one_decimal t +:+ suffix /\ (unit <= 1536)%Z.
Proof.
  split; [vm_compute; reflexivity|].
  destruct (formatted_size_close 1536 ltac:(lia)) as (t & unit & suffix & Hf & _ & Hu & _). exists t, unit, suffix. split; [exact Hf|exact Hu].
Defined.

Definition demo_counters : Metrics := mkMetrics 2 17 1048575 0 0 1.
Definition demo_decode (body : string) : option Metrics := if bool_decide (body = "{}") then Some demo_counters else None.
Lemma status_shows_bridge_witness :
  runStatusWithWriter demo_decode (fun _ => "") (fun _ => "") "127.0.0.1:9090" false
    (bridge_answers (fun _ => "{}") (fun _ => "") "127.0.0.1:9090" (MarkReady zeroStatus) demo_counters)
  = printSummary true true demo_counters.
Proof.
  exact (proj1 (status_shows_bridge demo_decode (fun _ => "{}") (fun _ => "") (fun _ => "") (fun _ => "") "127.0.0.1:9090" false
    (MarkReady zeroStatus) demo_counters eq_refl)).
Defined.

Lemma watch_rounds_witness :
  runWatchLoop demo_decode (fun _ => "") (fun a => a) "linux" "a" 1 true (fun _ => NoAnswer) [Tick (fun _ => NoAnswer); Interrupted]
  = Some (["a"; "a"; ""], true).
Proof.
  exact (proj1 (watch_rounds demo_decode (fun _ => "") (fun a => a) "linux" "a" 1 true (fun _ => NoAnswer) [fun _ => NoAnswer] [] eq_refl)).
Defined.

(** A size just under a unit is rounded up to it; a title and rows are wider than
    the border; an interval of zero panics. *)
Example size_rounds_to_next_unit : formatBytes 1048575 = "1024.0 KiB" /\ formatBytes 1048576 = "1.0 MiB".
Proof. vm_compute. done. Qed.
Example summary_rows_ragged :
  map len (printSummary true true demo_counters) = [43; 44; 43; 42; 43; 47; 47; 47; 47; 47; 47; 43]%nat.
Proof. vm_compute. reflexivity. Qed.
Example zero_interval_panics decode indented down goos addr jsonOut first events :
  runWatchLoop decode indented down goos addr 0 jsonOut first events = None.
Proof. done. Qed.
