(* ===== verification/Commands.v ===== *)
(** The command line (src/cmd/cli/root.go, version.go, import.go and the
    constructors of the commands; src/cmd/ts-bridge/main.go): the tree of
    commands with the flags each declares, what each reads of them, and main.

    Parsing and dispatch are Cobra's: a run takes what it answers. Help texts
    are left out. *)
From S2P Require Import Prelude GoStrings Config ConfigMerge Connect Browser BrowserCli ProfileStore ControlUrl Descriptor.
From S2P Require Import InitCli Discover HostFile HostInit AuthCli StatusCli Signals.
From Stdlib Require Import Ascii.

Open Scope bool_scope.
#[local] Set Warnings "-register-all".

(** * The tree *)

(** A declared flag: its type is that of its default. *)
Inductive flag_default : Type :=
  | DString (s : string) | DBool (b : bool) | DInt (n : Z) | DInt64 (n : Z) | DDuration (d : Z) | DStringArray (l : list string).
Record flag : Type := mkFlag {
  flagName : string;
  flagShorthand : string;
  flagDefault : flag_default;
  flagDeprecated : bool;
}.
Definition declare (name : string) (d : flag_default) : flag := mkFlag name "" d false.
Definition declareP (name shorthand : string) (d : flag_default) : flag := mkFlag name shorthand d false.

(** The check of the positional arguments; without one Cobra takes any. *)
Inductive arg_check : Type := AnyArgs | NoArgs | MaximumNArgs (n : nat) | ExactArgsWithUsage (n : nat).

Inductive command : Type :=
  | mkCommand (use : string) (args : arg_check) (flags : list flag) (subcommands : list command).
Definition cUse (c : command) : string := let '(mkCommand use _ _ _) := c in use.
Definition cArgs (c : command) : arg_check := let '(mkCommand _ args _ _) := c in args.
Definition cFlags (c : command) : list flag := let '(mkCommand _ _ flags _) := c in flags.
Definition cSub (c : command) : list command := let '(mkCommand _ _ _ sub) := c in sub.

Definition newAuthSetCmd : command :=
  mkCommand "set [credential]" (MaximumNArgs 1)
    [declare "profile" (DString ""); declare "stdin" (DBool false); declare "force" (DBool false)] [].
Definition newAuthStatusCmd : command :=
  mkCommand "status [credential]" (MaximumNArgs 1) [declare "profile" (DString "")] [].
Definition newAuthListCmd : command := mkCommand "list" NoArgs [] [].
Definition newAuthRemoveCmd : command :=
  mkCommand "remove [credential]" (MaximumNArgs 1) [declare "profile" (DString ""); declare "force" (DBool false)] [].
Definition newAuthCmd : command :=
  mkCommand "auth" AnyArgs [] [newAuthSetCmd; newAuthStatusCmd; newAuthListCmd; newAuthRemoveCmd].

(** [dir] is the default of [defaultBrowserUserDataDir] on this machine. *)
Definition newBrowserCmd (dir : string) : command :=
  mkCommand "browser" AnyArgs
    [declare "url" (DString ""); declare "user-data-dir" (DString dir); declare "edge-path" (DString "");
     declare "pac-addr" (DString "127.0.0.1:0"); declare "socks5" (DString "127.0.0.1:1080"); declare "route" (DStringArray []);
     declare "auth-key-file" (DString ""); declare "profile" (DString ""); declare "control-url" (DString "");
     declare "hostname" (DString ""); declare "state-dir" (DString ""); declare "timeout" (DDuration 0);
     declare "dial-timeout" (DDuration 0); declare "config" (DString "")] [].

Definition newConnectCmd : command :=
  mkCommand "connect [flags]" AnyArgs
    [declare "target" (DString ""); declare "socks5" (DString ""); declare "route" (DStringArray []);
     declare "auth-key" (DString ""); declare "auth-key-file" (DString "");
     declare "instance" (DString ""); declare "local-addr" (DString ""); declare "hostname" (DString "");
     declare "state-dir" (DString ""); declare "control-url" (DString ""); declare "bootstrap-ssh" (DString "");
     declare "bootstrap-socks-addr" (DString "");
     declare "timeout" (DDuration 0); declare "dial-timeout" (DDuration 0); declare "idle-timeout" (DDuration 0);
     declare "drain-timeout" (DDuration 0);
     declare "max-conns" (DInt64 0);
     declare "dial-retries" (DInt 0); declare "dial-backoff-base" (DDuration 0); declare "dial-backoff-max" (DDuration 0);
     declare "health-addr" (DString ""); declare "health-allow-remote" (DBool false);
     declare "log-format" (DString "");
     declare "manual-mode" (DBool false); declare "port-range" (DString "");
     declare "reset" (DBool false); declare "config" (DString ""); declare "profile" (DString "");
     declare "quiet" (DBool false)] [].

Definition newInitCmd : command :=
  mkCommand "init [flags]" AnyArgs
    [declare "auth-key" (DString ""); declare "auth-key-file" (DString ""); declare "target" (DString "");
     declare "instance" (DString ""); declare "port-range" (DString ""); declare "format" (DString "env");
     declare "config" (DString ""); declare "force" (DBool false); declare "profile" (DString "");
     declare "control-url" (DString "")] [].

Definition newStatusCmd : command :=
  mkCommand "status [flags]" AnyArgs
    [declare "addr" (DString "127.0.0.1:9090"); declare "json" (DBool false); declareP "watch" "w" (DBool false);
     declareP "interval" "i" (DDuration 5000000000)] [].

Definition newDiscoverCmd : command :=
  mkCommand "discover [flags]" AnyArgs
    [declare "json" (DBool false); declare "filter" (DString ""); declare "auto" (DBool false); declare "port" (DInt 3389);
     declare "api-key" (DString ""); declare "api-key-file" (DString ""); mkFlag "auth-key" "" (DString "") true;
     declare "tailnet" (DString ""); declare "profile" (DString "")] [].

Definition newImportCmd : command :=
  mkCommand "import <name> <descriptor>" (ExactArgsWithUsage 2) [declare "force" (DBool false)] [].

Definition newHostSetupCmd : command :=
  mkCommand "setup [flags]" AnyArgs
    [declare "config" (DString ""); declare "no-sleep" (DBool false); declare "firewall-rule" (DString "");
     declare "port" (DInt 0); declare "json" (DBool false); declare "verbose" (DBool false); declare "log-format" (DString "")] [].
Definition newHostCheckCmd : command :=
  mkCommand "check [flags]" AnyArgs
    [declare "config" (DString ""); declare "json" (DBool false); declare "verbose" (DBool false);
     declare "log-format" (DString "")] [].
Definition newHostInitCmd : command :=
  mkCommand "init --config <path> [flags]" AnyArgs
    [declare "config" (DString ""); declare "port" (DInt 0); declare "firewall-rule" (DString "");
     declare "no-sleep" (DBool false); declare "force" (DBool false)] [].
Definition newHostServeCmd : command :=
  mkCommand "serve" AnyArgs [declare "config" (DString ""); declare "verbose" (DBool false)] [].
Definition newHostCmd : command :=
  mkCommand "host" AnyArgs [] [newHostSetupCmd; newHostCheckCmd; newHostInitCmd; newHostServeCmd].

Definition newVersionCmd : command := mkCommand "version" AnyArgs [declare "short" (DBool false)] [].

(** What the process writes itself, and the usage text Cobra prints. *)
Inductive console : Type := ToStdout (s : string) | ToStderr (s : string) | UsageOf (c : command).

(** The root with what it sets for the whole tree. *)
Record root_command : Type := mkRoot {
  rootTree : command;
  PersistentFlags : list flag;
  SilenceUsage : bool;
  SilenceErrors : bool;
  FlagErrorFunc : command -> cmd_error -> list console * cmd_error;
}.
(** Usage is shown for an error of the flags, which is returned as it is. *)
Definition configureUsageOnErrors (tree : command) (persistent : list flag) : root_command :=
  mkRoot tree persistent true true (fun c err => ([UsageOf c], err)).
Definition NewRootCmd (dir : string) : root_command :=
  configureUsageOnErrors
    (mkCommand "ts-bridge" AnyArgs []
       [newAuthCmd; newBrowserCmd dir; newConnectCmd; newInitCmd; newStatusCmd; newDiscoverCmd; newImportCmd; newHostCmd; newVersionCmd])
    [declareP "verbose" "v" (DBool false)].

(** [cobra.ExactArgs] is the library's; its error gets the usage line. *)
Definition exactArgsWithUsage (exact : list string -> option string) (useLine : string) (args : list string) : result cmd_error unit :=
  match exact args with
  | Some err => Err (CmdError (err +:+ newline +:+ "Usage: " +:+ useLine))
  | None => Ok tt
  end.

(** * What a command reads of its flags and arguments *)

Definition connectReads (v : flag_values) : ConfigMerge.FlagSet * bool * string * bool :=
  (collectFlags v, Changed v "auth-key", str_flag v "profile", bool_flag v "quiet").
Definition one_arg (args : list string) : option string := match args with [a] => Some a | _ => None end.
Definition authSetReads (args : list string) (masked : masked_read) (typed : string) (fails : bool) (v : flag_values) : auth_args :=
  mkAuthArgs (str_flag v "profile") (bool_flag v "stdin") (bool_flag v "force") (one_arg args) masked typed fails.
Definition authStatusReads (args : list string) (v : flag_values) : auth_args :=
  mkAuthArgs (str_flag v "profile") false false (one_arg args) MaskedFails "" false.
Definition authRemoveReads (args : list string) (v : flag_values) : auth_args :=
  mkAuthArgs (str_flag v "profile") false (bool_flag v "force") (one_arg args) MaskedFails "" false.
Definition statusReads (v : flag_values) : string * bool * bool * Z :=
  (str_flag v "addr", bool_flag v "json", bool_flag v "watch", dur_flag v "interval").
Definition importReads (v : flag_values) : bool := bool_flag v "force".

Definition mustBool (v : flag_values) (name : string) : bool := bool_flag v name.
Definition mustString (v : flag_values) (name : string) : string := str_flag v name.
Definition mustInt (v : flag_values) (name : string) : Z := int_flag v name.
Definition hostSetupFlags (v : flag_values) : HostFile.Flags :=
  HostFile.mkFlags (mustString v "firewall-rule") (mustBool v "no-sleep") (Changed v "no-sleep") (mustInt v "port")
    (mustBool v "verbose") (Changed v "verbose") (mustString v "log-format").
Definition hostSetupReads (v : flag_values) : string * bool * HostFile.Flags :=
  (mustString v "config", bool_flag v "json", hostSetupFlags v).
Definition hostCheckReads (v : flag_values) : string * bool * HostFile.Flags :=
  (mustString v "config", bool_flag v "json",
   HostFile.mkFlags "" false false 0 (mustBool v "verbose") (Changed v "verbose") (mustString v "log-format")).
Definition hostServeReads (v : flag_values) : string * option bool :=
  (mustString v "config", if Changed v "verbose" then Some (mustBool v "verbose") else None).
Definition hostInitReads (v : flag_values) : host_init_args :=
  mkArgs (mkHostInit (int_flag v "port") (str_flag v "firewall-rule") (bool_flag v "no-sleep") (str_flag v "config") (bool_flag v "force"))
    (Changed v "port") (Changed v "firewall-rule") (Changed v "no-sleep").

(** * main *)

Fixpoint cmd_error_text (e : cmd_error) : string :=
  match e with
  | CmdError text => text
  | CmdWrapped text e => text +:+ ": " +:+ cmd_error_text e
  | ExitError _ e => cmd_error_text e
  end.

Definition versionText (version commit : string) : string := "ts-bridge " +:+ version +:+ " (commit " +:+ commit +:+ ")" +:+ newline.
Definition runVersion (version commit : string) (v : flag_values) : list console :=
  [ToStdout (if bool_flag v "short" then version +:+ newline else versionText version commit)].

(** [execute] is Cobra's run of a tree on the process arguments. *)
Definition Execute (execute : root_command -> list string -> list console * option cmd_error) (dir : string) (argv : list string)
    : list console * option cmd_error := execute (NewRootCmd dir) argv.

(** What is written, and the exit status. *)
Definition main (execute : root_command -> list string -> list console * option cmd_error) (version commit dir : string) (argv : list string)
    : list console * Z :=
  if LegacyVersionRequested argv then ([ToStdout (versionText version commit)], 0%Z)
  else
    let argv := NormalizeArgs argv in
    let '(out, err) := Execute execute dir argv in
    match err with
    | Some e => (out ++ [ToStderr (cmd_error_text e +:+ newline)], ExitCode (Some e))
    | None => (out, 0%Z)
    end.

(** * What flags mean to a command *)

Definition flags_of (c : command) : list flag := cFlags c ++ PersistentFlags (NewRootCmd "").

(** Two answers of Cobra agree on a flag, read with the type it is declared with. *)
Definition same_flag (v v' : flag_values) (f : flag) : Prop :=
  Changed v (flagName f) = Changed v' (flagName f)
  /\ match flagDefault f with
     | DString _ => str_flag v (flagName f) = str_flag v' (flagName f)
     | DBool _ => bool_flag v (flagName f) = bool_flag v' (flagName f)
     | DInt _ => int_flag v (flagName f) = int_flag v' (flagName f)
     | DInt64 _ => int64_flag v (flagName f) = int64_flag v' (flagName f)
     | DDuration _ => dur_flag v (flagName f) = dur_flag v' (flagName f)
     | DStringArray _ => list_flag v (flagName f) = list_flag v' (flagName f)
     end.
(** [read] looks at nothing but flags [c] declares, with their types: the errors
    of the getters, which the code drops, do not happen. *)
Definition reads_only {A} (c : command) (read : flag_values -> A) : Prop :=
  forall v v', Forall (same_flag v v') (flags_of c) -> read v = read v'.

(** The flag was not given: it has its default. *)
Definition left_out_flag (v : flag_values) (f : flag) : Prop :=
  Changed v (flagName f) = false
  /\ match flagDefault f with
     | DString s => str_flag v (flagName f) = s
     | DBool b => bool_flag v (flagName f) = b
     | DInt n => int_flag v (flagName f) = n
     | DInt64 n => int64_flag v (flagName f) = n
     | DDuration d => dur_flag v (flagName f) = d
     | DStringArray l => list_flag v (flagName f) = l
     end.
Definition left_out (c : command) (v : flag_values) : Prop := Forall (left_out_flag v) (flags_of c).

(** The equations of a list of flags, used from left to right. *)
Ltac by_flags H :=
  cbn in H; repeat match type of H with Forall _ (_ :: _) => let E := fresh in apply Forall_cons in H as [E H]; destruct E as [? ?]; cbn in * end;
  repeat match goal with E : ?f ?v ?n = _ |- context [?f ?v ?n] => rewrite E end.

Lemma connect_reads_declared : reads_only newConnectCmd connectReads.
Proof.
  intros v v' H. unfold connectReads, collectFlags, collectOptionalNumericFlags, collectVerboseFlag, collectChangedBool. by by_flags H.
Qed.
Lemma browser_reads_declared `{UrlPackage} dir w : reads_only (newBrowserCmd dir) (runBrowser w).
Proof.
  intros v v' Hv. unfold runBrowser, resolveBrowserConfig, browserLayers, collectBrowserFlags, collectVerboseFlag, collectChangedBool. by by_flags Hv.
Qed.
Lemma init_reads_declared `{UrlPackage} w doc sys st : reads_only newInitCmd (fun v => runInit v w doc sys st).
Proof.
  intros v v' Hv. unfold runInit, parseInitFlags, validateProfileModeFlags, initKey. cbn [List.find]. by by_flags Hv.
Qed.
Lemma discover_reads_declared `{UrlPackage} `{UrlRest} w sys st : reads_only newDiscoverCmd (fun v => runDiscover v w sys st).
Proof. intros v v' Hv. unfold runDiscover, parseDiscoverFlags. by by_flags Hv. Qed.

(** * Names *)

(** The commands of the tree that run something. *)
Fixpoint leaves (c : command) : list command :=
  let '(mkCommand _ _ _ sub) := c in match sub with [] => [c] | _ => flat_map leaves sub end.
Definition commands (dir : string) : list command := leaves (rootTree (NewRootCmd dir)).

(** A flag declared twice on a command, or two with one letter, and a letter that is
    not one byte, make the library panic while the tree is built. *)
Definition well_named (flags : list flag) : bool :=
  let letters := List.filter (fun s => negb (bool_decide (s = ""))) (map flagShorthand flags) in
  bool_decide (NoDup (map flagName flags)) && bool_decide (NoDup letters) && forallb (fun s => (len s =? 1)%nat) letters.

Theorem flags_well_named dir : Forall (fun c => well_named (cFlags c) = true) (commands dir).
Proof. cbn [commands NewRootCmd configureUsageOnErrors rootTree leaves flat_map app newAuthCmd newHostCmd]. by repeat (apply Forall_cons; split; [vm_compute; reflexivity|]). Qed.

(** * Properties *)

(** C32: every command reads only flags it declares or inherits from the root, with the
    type they are declared with: what Cobra answers for any other name or any
    other type has no say, so the errors of the getters, which the code drops,
    never happen. *)
Theorem flags_read_are_declared `{UrlPackage} `{UrlRest} dir :
  reads_only newConnectCmd connectReads
  /\ (forall w, reads_only (newBrowserCmd dir) (runBrowser w))
  /\ (forall w doc sys st, reads_only newInitCmd (fun v => runInit v w doc sys st))
  /\ (forall w sys st, reads_only newDiscoverCmd (fun v => runDiscover v w sys st))
  /\ reads_only newStatusCmd statusReads
  /\ reads_only newImportCmd importReads
  /\ (forall args masked typed fails, reads_only newAuthSetCmd (authSetReads args masked typed fails))
  /\ (forall args, reads_only newAuthStatusCmd (authStatusReads args) /\ reads_only newAuthRemoveCmd (authRemoveReads args))
  /\ reads_only newHostSetupCmd hostSetupReads /\ reads_only newHostCheckCmd hostCheckReads
  /\ reads_only newHostInitCmd hostInitReads /\ reads_only newHostServeCmd hostServeReads
  /\ (forall version commit, reads_only newVersionCmd (runVersion version commit)).
Proof.
  split; [exact connect_reads_declared|]. split; [exact (browser_reads_declared dir)|]. split; [exact init_reads_declared|].
  split; [exact discover_reads_declared|].
  unfold statusReads, importReads, authSetReads, authStatusReads, authRemoveReads, hostSetupReads, hostSetupFlags, hostCheckReads,
    hostInitReads, hostServeReads, mustString, mustBool, mustInt, runVersion.
  split_and!; try (intros; split); intros; intros v v' Hv; by by_flags Hv.
Qed.

(** A flag that is left out has no say. Connect and browser without flags merge
    what the environment, the file and the profile give; host setup and check
    resolve the host file and the environment; init writes a .env file, discover
    takes the port 3389; a watch of status never panics, and a command that
    needs a flag refuses to run without it. *)
Theorem left_out_flags_have_no_say `{UrlPackage} v :
  (left_out newConnectCmd v -> forall m y, ConfigMerge.Merge m y (connectReads v).1.1.1 = ConfigMerge.Merge m y ConfigMerge.no_flags)
  /\ (forall dir w, left_out (newBrowserCmd dir) v -> collectBrowserFlags w v = Ok ConfigMerge.no_flags)
  /\ (left_out newInitCmd v -> parseInitFlags v = Ok (mkInitFlags "" "" "" "" "" formatENV "" false "" ""))
  /\ (left_out newDiscoverCmd v -> parseDiscoverFlags v = Ok (mkDiscoverFlags false "" false 3389 "" "" "" ""))
  /\ (left_out newStatusCmd v -> forall decode indented down goos jsonOut watch first events,
        let '(addr, _, _, interval) := statusReads v in
        is_Some (runStatus decode indented down goos addr interval jsonOut watch first events))
  /\ (left_out newHostSetupCmd v -> hostSetupReads v = ("", false, HostFile.no_flags))
  /\ (left_out newHostCheckCmd v -> hostCheckReads v = ("", false, HostFile.no_flags))
  /\ (left_out newHostServeCmd v -> hostServeReads v = ("", None))
  /\ (left_out newHostInitCmd v -> forall goos, parseHostInitFlags goos (hostInitReads v) = Err ConfigRequired)
  /\ (left_out newAuthSetCmd v -> forall args masked typed fails sys w,
        runAuthSet (authSetReads args masked typed fails v) sys w = (Err ProfileRequired, w)).
Proof.
  unfold left_out. split_and!.
  - intros Hv m y. f_equal. unfold connectReads, collectFlags, collectOptionalNumericFlags, collectVerboseFlag, collectChangedBool.
    by by_flags Hv.
  - intros dir w Hv. unfold collectBrowserFlags, collectVerboseFlag, collectChangedBool. by by_flags Hv.
  - intros Hv. unfold parseInitFlags. by by_flags Hv.
  - intros Hv. unfold parseDiscoverFlags. by by_flags Hv.
  - intros Hv decode indented down goos jsonOut watch first events. unfold statusReads, runStatus, runWatchLoop. by_flags Hv.
    destruct watch; [|done]. by destruct (watchLoop _ _ _ _ _ _ _).
  - intros Hv. unfold hostSetupReads, hostSetupFlags, mustString, mustBool, mustInt. by by_flags Hv.
  - intros Hv. unfold hostCheckReads, mustString, mustBool. by by_flags Hv.
  - intros Hv. unfold hostServeReads, mustString, mustBool. by by_flags Hv.
  - intros Hv goos. unfold hostInitReads, parseHostInitFlags. by by_flags Hv.
  - intros Hv args masked typed fails sys w. unfold authSetReads, runAuthSet. by by_flags Hv.
Qed.

(** What main does with its arguments and with the end of the command: a legacy
    version flag anywhere prints the version and nothing is run; otherwise the
    command sees the arguments with -v written out, its error is printed once,
    after what it wrote, and the status is 0 exactly when it ended without one,
    or with one that asks for it. *)
Theorem main_reports execute version commit dir argv :
  let '(out, code) := main execute version commit dir argv in
  if LegacyVersionRequested argv then out = [ToStdout (versionText version commit)] /\ code = 0%Z
  else
    let '(written, err) := execute (NewRootCmd dir) (NormalizeArgs argv) in
    code = ExitCode err /\ (code = 0%Z <-> err = None \/ exists e, err = Some e /\ asExitError e = Some 0%Z)
    /\ out = written ++ match err with Some e => [ToStderr (cmd_error_text e +:+ newline)] | None => [] end.
Proof.
  unfold main, Execute. destruct (LegacyVersionRequested argv); [done|].
  destruct (execute (NewRootCmd dir) (NormalizeArgs argv)) as [written err].
  pose proof (ExitCode_zero err) as Hz. destruct err as [e|]; [done|]. by rewrite app_nil_r.
Qed.

(** * Runs *)

(** Cobra's answers without flags, and the same with an answer for a flag that no
    command has and one of another type for a flag that connect has. *)
Definition no_flag_values : flag_values :=
  mkFlagValues (fun _ => "") (fun _ => []) (fun _ => 0%Z) (fun _ => 0%Z) (fun _ => 0%Z) (fun _ => false) (fun _ => false).
Definition stray_values : flag_values :=
  mkFlagValues (fun n => if bool_decide (n = "colour") then "red" else "") (fun _ => []) (fun _ => 0%Z)
    (fun n => if bool_decide (n = "max-conns") then 7%Z else 0%Z) (fun _ => 0%Z) (fun _ => false) (fun n => bool_decide (n = "colour")).

Lemma flags_read_are_declared_witness :
  str_flag stray_values "colour" <> str_flag no_flag_values "colour"
  /\ int_flag stray_values "max-conns" <> int_flag no_flag_values "max-conns" /\ connectReads stray_values = connectReads no_flag_values.
Proof.
  split; [vm_compute; discriminate|]. split; [vm_compute; discriminate|].
  apply (proj1 (@flags_read_are_declared simpleUrl (Build_UrlRest (fun _ => "") (fun _ => false)) "")).
  repeat (apply Forall_cons; split; [split; reflexivity|]). constructor.
Defined.

Lemma left_out_flags_have_no_say_witness : (connectReads no_flag_values).1.1.2 = false /\ hostServeReads no_flag_values = ("", None).
Proof.
  split; [reflexivity|]. apply (@left_out_flags_have_no_say simpleUrl no_flag_values).
  repeat (apply Forall_cons; split; [split; reflexivity|]). constructor.
Defined.

(** A run that fails, one of the version, and one that asks for the status 2. *)
Definition echo (err : option cmd_error) : root_command -> list string -> list console * option cmd_error :=
  fun _ argv => (map ToStdout argv, err).
Example main_runs :
  main (echo (Some (CmdWrapped "load .env" (CmdError "denied")))) "1.0" "abc" "" ["ts-bridge"; "connect"; "-v"]
  = ([ToStdout "ts-bridge"; ToStdout "connect"; ToStdout "--verbose"; ToStderr ("load .env: denied" +:+ newline)], 1%Z)
  /\ main (echo None) "1.0" "abc" "" ["ts-bridge"; "connect"; "--hostname"; "--version"]
     = ([ToStdout ("ts-bridge 1.0 (commit abc)" +:+ newline)], 0%Z)
  /\ (main (echo (Some (ExitError 2 (CmdError "not converged")))) "1.0" "abc" "" ["ts-bridge"; "host"; "check"]).2 = 2%Z.
Proof. split_and!; vm_compute; reflexivity. Qed.
