(* ===== verification/Pairing.v ===== *)
(** From a host to a connected client: the descriptor host setup prints
    (src/cmd/cli/host.go), the import of it (import.go), the credential auth set
    stores for it (auth.go), and the connection made with the profile
    (connect.go), each in the stores the one before left.

    No definition of a command is new here: the theorems are about their
    composition, and about the composition of the stores, a connection and its
    run (run.go): where a managed key goes. *)
From S2P Require Import Prelude GoStrings GoUrl Descriptor RunBridge LinuxSteps HostRunner HostFile HostCli AuthCli Transition EnvFile SecretFile.
From S2P Require Import Credential ProfileStore ControlUrl Config ConfigMerge Connect YamlFile.
From Stdlib Require Import Ascii.

Open Scope bool_scope.

(** * A connection over the stores *)

(** The world of a connection on a client whose stores are those of [w]. *)
Definition client_world (m : machine) (dot : env_file) (keys : string -> key_file) (files : string -> yaml_file) (w : world) : connect_world :=
  Connect.mkWorld m keys dot (yamlLayer (goos m) files)
    (fun name => (GetProfile name healthy w).1) (fun name => Get name noFaults (creds w)) (fun _ => true).

(** The layers above the profile say nothing of the target, the mode, the key or
    the control plane. *)
Definition flags_silent (f : FlagSet) : Prop :=
  f_Target f = "" /\ f_SOCKS5Addr f = "" /\ f_AuthKey f = "" /\ f_AuthKeyFile f = ""
  /\ f_ControlURL f = "" /\ f_Config f = "".
Definition env_silent (en : environment) : Prop :=
  Forall (fun v => Getenv en v = "") ["TS_TARGET"; "TS_SOCKS5_ADDR"; "TS_AUTHKEY"; "TS_CONTROL_URL"].

Section Client.
Context `{UrlPackage}.

(** A connection whose layers are silent: the target and the control plane are the
    profile's, and the key is that of its credential. *)
Lemma connect_of_profile w f name quiet cfg en :
  runConnect w f name quiet = Ok cfg -> name <> "" -> flags_silent f ->
  Load (Connect.dotEnv w) (env (host w)) = Ok en -> env_silent en -> yamlConfig w "" = Some no_yaml ->
  exists p, getProfile w name = Ok p
    /\ Target cfg = ProfileStore.Target p /\ SOCKS5Addr cfg = "" /\ ControlURL cfg = TrimSpace (ProfileStore.ControlURL p)
    /\ getCredential w (CredentialName p) = Ok (AuthKey cfg).
Proof.
  intros Hr Hname (F1 & F2 & F3 & F4 & F5 & F6) Hen He Hyaml. repeat (apply Forall_cons in He as [? He]).
  pose proof (connect_profile_lowest _ _ _ _ _ Hr) as (p & en1 & y1 & Hp & He1 & Hy1 & Hu & _ & _ & _ & Hm).
  apply (runConnect_managed _ _ _ _ _ en) in Hr as (p2 & Hp2 & Hg & _); [|done..].
  rewrite F6, Hyaml in Hy1. injection Hy1 as <-. assert (en1 = en) as -> by congruence.
  destruct Hp as [[? _]|(_ & Hp & _)]; [done|]. exists p. split; [done|]. destruct Hm as [Ht Hs]; [done..|]. split; [done|]. split; [done|].
  split; [rewrite Hu; apply f_equal, (first_nonempty_silent [_; _; _]); by repeat constructor|].
  assert (p2 = p) as -> by congruence. exact Hg.
Qed.

(** The profile auth set left, as a connection reads it. *)
Lemma client_profile m dot keys files w name (e : ProfileStore.profileEntry) :
  Profiles (onDisk (disk w)) !! name = Some e -> getProfile (client_world m dot keys files w) name = Ok e.
Proof.
  intros He. pose proof (stores_healthy (fun x => ProfileNotLoaded "" x) name w e He) as Hs. unfold stores in Hs.
  cbn [client_world getProfile]. destruct (GetProfile name healthy w) as [r w']. cbn [fst].
  destruct r; [by injection Hs as ->|discriminate Hs].
Qed.
Lemma client_key m dot keys files w c key typed :
  ValidateName c = true -> normalizeKey typed = Ok key -> Credential.files (creds w) !! keyFile c = Some (SecretFile.mkFile key 384) ->
  getCredential (client_world m dot keys files w) c = Ok key.
Proof.
  intros Hn Hk Hf. cbn [client_world getCredential]. unfold Get. rewrite Hn, Hf. cbn [negb noFaults readFails content].
  by rewrite (normalizeKey_idem _ _ Hk).
Qed.

(** C15: a client that imports the descriptor a host printed, stores a key for the
    profile with auth set and connects with it, connects to the address the host
    printed as TS_TARGET, over the control plane of the host and with the key that
    was typed, whatever flags and variables it has besides those of the target, the
    key and the control plane. *)
Theorem paired_client_connects `{!UrlRest} {W} (h : handler W) fd prefs goos cfg v ip force a sys sys' w0 w1 w2 cleared shown out
    m dot keys files f en quiet cc :
  url_law -> (cControlURL cfg = "" \/ Validate (cControlURL cfg) = Ok tt) ->
  let '(r, control) := (HostRunner.run h (setupOn fd prefs goos cfg) v).1 in
  let desc := hostDescriptorLine ip (SetupRDPPort r) control in
  desc <> "" -> str_all host_char ip = true -> (0 <= SetupRDPPort r <= 65535)%Z ->
  (EqualFold control cpSaas = true -> control = ControlPlaneSaaS) ->
  store_ok (creds w0) ->
  runImportDirect (aProfile a) desc force sys w0 = (Ok (cleared, shown), w1) ->
  runAuthSet a sys' w1 = (Ok out, w2) ->
  flags_silent f -> Load dot (env m) = Ok en -> env_silent en ->
  runConnect (client_world m dot keys files w2) f (aProfile a) quiet = Ok cc ->
  Target cc = ip +:+ ":" +:+ Itoa (SetupRDPPort r) /\ Out ("  TS_TARGET=" +:+ Target cc) ∈ printClientTarget ip r control
  /\ SOCKS5Addr cc = "" /\ ControlURL cc = TrimSpace (client_plane control)
  /\ exists typed, readAuthInput a = Ok typed /\ normalizeKey typed = Ok (AuthKey cc).
Proof.
  intros Hlaw Hcfg. unfold setupOn. rewrite run_bind. destruct (HostRunner.run h (setupFor fd goos cfg) v) as [r v1].
  rewrite run_bind. pose proof (returns_run h _ _ v1 (resolved_plane prefs _ Hcfg)) as Hk.
  destruct (HostRunner.run h (resolveControlPlane prefs (cControlURL cfg)) v1) as [control v2]. cbn [fst] in Hk.
  cbn [HostRunner.run mret prog_ret fst]. intros Hne Hh Hp Hs Hok Hi Ha Hf Hen He Hc.
  unfold runImportDirect in Hi. rewrite descriptor_read in Hi by done.
  destruct (Import (aProfile a) _ force sys w0) as [[cl|ie] w1'] eqn:Him; [|done]. injection Hi as -> <- ->.
  apply Import_Ok in Him as (Hcr & d & e & Hd & He1 & Ht & Hu). cbn [dHost ProfileStore.dPort dControlURL] in *.
  rewrite <- Hcr in Hok. apply runAuthSet_Ok in Ha as (Hname & Hn & _ & typed & key & e' & Hty & Hkey & Hfile & He2 & He3); [|done].
  rewrite Hd in He2. assert (e' = e) as -> by (change (onDisk (Some d)) with d in He2; congruence).
  apply connect_of_profile with (en := en) in Hc as (p & Hgp & Htc & Hsc & Huc & Hkc); [|done..].
  rewrite (client_profile _ _ _ _ _ _ _ He3) in Hgp. injection Hgp as <-. cbn [CredentialName ProfileStore.Target ProfileStore.ControlURL] in *.
  rewrite (client_key _ _ _ _ _ _ _ _ Hn Hkey Hfile) in Hkc. injection Hkc as <-.
  split; [by rewrite Htc|]. split; [|split; [done|split; [by rewrite Huc, Hu|by exists typed]]].
  rewrite Htc, Ht. unfold printClientTarget. unfold hostDescriptorLine, buildDescriptorLine in Hne.
  case_bool_decide; [done|]. case_bool_decide as Hi; [by subst|]. apply list_elem_of_In. right; left. done.
Qed.

(** The profile a connection reads is that of the store. *)
Lemma client_profile_stored m dot keys files w name e :
  getProfile (client_world m dot keys files w) name = Ok e -> Profiles (onDisk (disk w)) !! name = Some e.
Proof.
  cbn [client_world getProfile]. destruct (GetProfile name healthy w) as [r w'] eqn:Hg. cbn [fst]. intros ->.
  apply GetProfile_inv in Hg as [_ [?|[?|(e1 & [= ->] & Hg)]]]; done.
Qed.

(** C2: after whatever sequence of imports, configurations, bindings and removals,
    each of which may have failed anywhere, a connection for which no key was given
    otherwise uses the managed credential of the profile; and in whatever way its
    run goes, a node is brought up with that key only against the control plane
    of every profile that references the credential. *)
Theorem managed_key_stays_home m dot keys files w f en name quiet cc startText controlText rw routes :
  reachable store_op emptyWorld w ->
  Load dot (env m) = Ok en -> f_AuthKeyFile f = "" -> f_AuthKey f = "" -> Getenv en "TS_AUTHKEY" = "" ->
  runConnect (client_world m dot keys files w) f name quiet = Ok cc ->
  exists p : ProfileStore.profileEntry, Profiles (onDisk (disk w)) !! name = Some p
    /\ Get (CredentialName p) noFaults (creds w) = Ok (AuthKey cc)
    /\ forall s, NodeUp s ∈ (RunBridge.run startText controlText rw cc routes).1 ->
         nodeAuthKey s = AuthKey cc
         /\ forall q e, Profiles (onDisk (disk w)) !! q = Some e -> CredentialName e = CredentialName p ->
              SameControlURL (nodeControlURL s) (ProfileStore.ControlURL e) = true.
Proof.
  intros Hr Hen F1 F2 E Hc. apply (runConnect_managed _ _ _ _ _ en) in Hc as (p & Hp & Hg & Hu); [|done..].
  apply client_profile_stored in Hp. exists p. split; [done|]. split; [exact Hg|]. intros s Hs.
  pose proof (run_node_is startText controlText rw cc routes) as Hn. rewrite Forall_forall in Hn. apply Hn in Hs. cbn in Hs. subst s.
  split; [done|]. intros q e He Hce. cbn [node_of nodeControlURL].
  assert (store_separated w) as Hsep.
  { revert Hr. apply invariant_reachable; [|intros; by eapply store_op_separated]. intros ????. cbn. by rewrite lookup_empty. }
  apply SameControlURL_spec in Hu. apply SameControlURL_spec. rewrite Hu. apply SameControlURL_spec.
  apply (Hsep name q p e); [done..|].
  intros Hempty. cbn [client_world getCredential] in Hg. by rewrite Hempty in Hg.
Qed.
End Client.

(** * A run *)

Definition paired_args : auth_args := typed_args "office" None false ("hskey-abc" +:+ newline).
Definition paired_import := @runImportDirect queryUrl rest_of_url "office" (@hostDescriptorLine queryUrl "100.64.0.1" 3390 "https://hs.example.com")
  false healthy (ProfileStore.mkWorld None emptyStore 0).
Definition paired_auth := @runAuthSet queryUrl paired_args healthy paired_import.2.
Definition paired_files (path : string) : yaml_file := mkYamlFile None None.
Definition paired_connect : result connect_error Config :=
  @runConnect queryUrl (client_world (demo_merge_machine ∅) EnvMissing (fun _ => KeyReadFails) paired_files paired_auth.2)
    ConfigMerge.no_flags "office" false.

Lemma paired_client_connects_witness :
  exists cc, paired_connect = Ok cc /\ Target cc = "100.64.0.1:3390" /\ AuthKey cc = "hskey-abc".
Proof.
  pose (cfg := Resolve "linux" HostCli.demo_file (fun _ => "") no_cmd_flags).
  pose proof (fun cl sh w1 out w2 cc => @paired_client_connects queryUrl rest_of_url _ linux_host (fun _ => false) (fun _ => None) "linux" cfg demo_ready
    "100.64.0.1" false paired_args healthy healthy (ProfileStore.mkWorld None emptyStore 0) w1 w2 cl sh out
    (demo_merge_machine ∅) EnvMissing (fun _ => KeyReadFails) paired_files ConfigMerge.no_flags ∅ false cc queryUrl_law
    (or_intror (eq_refl (Ok tt)))) as Hall.
  revert Hall. destruct (HostRunner.run _ _ _).1 as [r control] eqn:E. intros Hall.
  assert (SetupRDPPort r = 3390%Z /\ control = "https://hs.example.com") as [Hr Hc].
  { split; [apply (f_equal (fun x => SetupRDPPort x.1)) in E|apply (f_equal snd) in E]; cbn [fst snd] in E; rewrite <- E; vm_compute; reflexivity. }
  subst control. rewrite Hr in Hall.
  assert (is_ok paired_connect = true /\ is_ok paired_auth.1 = true /\ is_ok paired_import.1 = true) as (K1 & K2 & K3) by (vm_compute; done).
  assert (match paired_connect with Ok cc => AuthKey cc | Err _ => "" end = "hskey-abc") as Hkey by (vm_compute; reflexivity).
  destruct paired_connect as [cc|] eqn:Ec; [|discriminate K1]. unfold paired_connect in Ec.
  destruct paired_auth as [[out|] w2] eqn:Ea; [|discriminate K2]. unfold paired_auth in Ea.
  destruct paired_import as [[[cl sh]|] w1] eqn:Ei; [|discriminate K3]. unfold paired_import in Ei.
  exists cc. split; [reflexivity|]. split; [|exact Hkey].
  eapply (Hall cl sh w1 out w2 cc); [vm_compute; discriminate|reflexivity|lia|discriminate|by intros n c|exact Ei|exact Ea
    |by repeat split|reflexivity|by repeat constructor|exact Ec].
Defined.

Definition kept_connect : result connect_error Config :=
  @runConnect simpleUrl (client_world (demo_merge_machine ∅) EnvMissing (fun _ => KeyReadFails) paired_files both_bound)
    ConfigMerge.no_flags "work" false.
Definition kept_run (cc : Config) : list run_op :=
  (@RunBridge.run simpleUrl (fun _ => "") (fun _ => "") (demo_run_world (fun _ => None) None) cc []).1.
Definition brings_up (op : run_op) : bool := match op with NodeUp _ => true | _ => false end.

Lemma managed_key_stays_home_witness :
  exists cc s e, kept_connect = Ok cc /\ NodeUp s ∈ kept_run cc /\ nodeAuthKey s = AuthKey cc
    /\ Profiles (onDisk (disk both_bound)) !! "home" = Some e
    /\ @SameControlURL simpleUrl (nodeControlURL s) (ProfileStore.ControlURL e) = true.
Proof.
  assert (is_ok kept_connect = true) as K by (vm_compute; reflexivity).
  assert (existsb brings_up (match kept_connect with Ok cc => kept_run cc | Err _ => [] end) = true) as U by (vm_compute; reflexivity).
  assert (CredentialName <$> Profiles (onDisk (disk both_bound)) !! "work" = Some "hs") as Hw by (vm_compute; reflexivity).
  assert (Getenv ∅ "TS_AUTHKEY" = "") as Hen by (vm_compute; reflexivity).
  destruct kept_connect as [cc|] eqn:Ec; [|discriminate K]. unfold kept_connect in Ec.
  destruct (@managed_key_stays_home simpleUrl (demo_merge_machine ∅) EnvMissing (fun _ => KeyReadFails) paired_files both_bound
    ConfigMerge.no_flags ∅ "work" false cc (fun _ => "") (fun _ => "") (demo_run_world (fun _ => None) None) []
    both_bound_reachable eq_refl eq_refl eq_refl Hen Ec) as (p & Hp & _ & Hs).
  rewrite Hp in Hw. injection Hw as Hn. apply existsb_exists in U as (op & Hin%list_elem_of_In & Hop).
  destruct op; try discriminate Hop. destruct (Hs _ Hin) as [Hk Hq].
  eexists cc, _, _. split; [reflexivity|]. split; [exact Hin|]. split; [exact Hk|]. split; [vm_compute; reflexivity|].
  apply (Hq "home"); [vm_compute; reflexivity|]. by rewrite Hn.
Defined.
